(* ===== verification/_CoqProject ===== *)
-Q . S2P
Prelude.v
Csum.v
Ofpbuf.v
Packets.v
Stats.v
Dpdk.v
Flow.v
Vport.v
VportInit.v
VportProps.v
Action.v
Datapath.v
DatapathProps.v
Main.v
VirtioNet.v
Cdev.v
Vhost.v
VhostSync.v
Args.v
Init.v
Client.v
Netlink.v
OdpUtil.v
OdpProps.v
OdpSafe.v
DpdkLink.v
Dpif.v
DpifKey.v
DpifProps.v
DpifUpcall.v
DpifPorts.v
DpifExec.v
DpifDump.v
Netdev.v
Heap.v
Reconnect.v
TokenBucket.v
