(* ===== verification/Prelude.v ===== *)
(** Verification of the DPDK datapath of Open vSwitch.

    * The program

    The repository carries an Open vSwitch whose kernel datapath is replaced by
    a process that polls network ports with DPDK.  This development models that
    process, [src/openvswitch/datapath/dpdk], the library code it shares with
    the daemon, [src/openvswitch/lib/{ofpbuf,packets,csum}.c], and the daemon's
    side of the protocol between the two,
    [src/openvswitch/lib/{dpif-dpdk,dpdk-link,odp-util,netlink,netdev-dpdk}.c];
    the library with which client processes find their rings and the client of
    the repository, [src/openvswitch/datapath/dpdk/libvport] and
    [src/guest/ovs_client]; and three data structures of the daemon that stand by
    themselves, [src/openvswitch/lib/{heap,reconnect,token-bucket}.c].

    Each forwarding core runs the loop of [lcore_main] ([main.c]): one core
    serves the daemon ([datapath.c]), one polls clients, KNI, vEth and vhost ports,
    others poll physical ports.  A packet received ([vport.c]) gets a key
    ([flow_key_extract]), the key is looked up in the flow table ([flow.c]), and
    the flow's actions are executed ([action.c]) or the packet is sent to the
    daemon.  Actions rewrite headers ([packets.c] on an overlay of the buffer,
    [ofpbuf_helper.c]) and output to vports, through per-core caches that are
    flushed to rings and drivers.  Guests are attached by a character device
    ([vhost-net-cdev.c]) whose ioctls configure devices ([virtio-net.c],
    [vhost.c]); packets are exchanged with them over descriptor rings in their
    memory ([vport.c]).  Start-up ([args.c], [init.c]) sets all this up.

    The daemon talks to the datapath over five rings of shared memory
    ([dpdk-link.c]): it takes buffers from one, sends requests on a second,
    waits for replies on a third, receives packets on a fourth and gives buffers
    back on the fifth.  [dpif-dpdk.c] turns calls of the daemon into requests
    and replies and packets into results; keys and actions of flows are Netlink
    attributes for the daemon ([netlink.c], [odp-util.c]) and structures for the
    datapath.  The ports are devices of the daemon ([netdev-dpdk.c]).

    A client is a process, on the host or in a guest, that maps the memory of the
    datapath, looks up the vport with its name and the three rings of that vport
    ([ovs-vport.c]), and takes packets from one and puts them on another
    ([ovs_client.c]) while the datapath runs.

    * Files

    - [Prelude]: results with faults, machine integers, byte arrays, lists.
    - [Csum] ([lib/csum.c]): the Internet checksum.
    - [Ofpbuf] ([lib/ofpbuf.c]): the buffer of the library, a record of the
      fields of [struct ofpbuf] over a byte array.
    - [Packets] ([lib/packets.c]): header rewriting.
    - [Stats] ([stats.c]): counters per vport and core.
    - [Dpdk]: interfaces of DPDK as classes with their laws, and instances that
      satisfy the laws: packet buffers ([RteMbuf], [Pool]), rings ([RteRing],
      [Fifo]), the hash table ([RteHash], [Slots]).
    - [Flow] ([flow.c]): key extraction and the flow table.
    - [Vport] ([vport.c]): sending, receiving and flushing; drivers and vhost
      devices are the interfaces [Drivers] and [VhostDev].  [VportInit] is
      [vport_init]; [VportProps] has the properties.
    - [Action] ([action.c], [ofpbuf_helper.c]): the actions.
    - [Datapath] ([datapath.c], [switch_packet] of [flow.c]): upcalls and the
      daemon's commands; [DatapathProps] has the properties.
    - [Main] ([main.c]): an iteration of the loop of a core, the runs of a core.
    - [VirtioNet] ([virtio-net.c], [vhost.c]): the list of devices, their memory
      tables and queues, and the pointers of vports to them.
    - [Cdev] ([vhost-net-cdev.c]): open, release and ioctl.
    - [Vhost] ([vport.c]): address translation and the descriptor rings, an
      instance of [VhostDev].
    - [VhostSync]: interleavings: several cores in [vhost_enqueue_burst], and
      removal of a device while cores run.
    - [Args] ([args.c]), [Init] ([init.c]): command line and start-up.
    - [Client] ([libvport/ovs-vport.c], [guest/ovs_client/ovs_client.c]): look-up
      of vports and rings by name, the client's start and its loop, one step for
      each access to a ring.
    - [Netlink] ([lib/netlink.c]): attributes in a buffer, as they are appended
      and read.
    - [OdpUtil] ([lib/odp-util.c]): flows as attributes; [OdpProps] has the round
      trip, [OdpSafe] termination on arbitrary input.
    - [DpdkLink] ([lib/dpdk-link.c]): the daemon's end of the rings.
    - [Dpif] ([lib/dpif-dpdk.c]): the daemon's operations on ports, flows and
      packets.  [DpifKey] has keys and actions as attributes, [DpifProps]
      transactions and the commands for flows, [DpifPorts] those for ports,
      [DpifUpcall] the way from a packet without a flow to its flow, [DpifExec]
      packets that the daemon sends, [DpifDump] dumps of the flows.
    - [Netdev] ([lib/netdev-dpdk.c]): configuration and statistics of devices.
    - [Heap] ([lib/heap.c]): the priority queue, an array of pointers to nodes
      that store their places.
    - [Reconnect] ([lib/reconnect.c]): the state machine of a connection.
    - [TokenBucket] ([lib/token-bucket.c], [lib/sat-math.h]): rate limits.

    * Model

    C functions are functions of the state they change to [res], the error
    monad of [Prelude]: [Ok] with the result, or [Err] with a fault: an access
    out of bounds, through a null pointer or to freed memory, a failed
    assertion, a division by zero, [rte_exit], or lack of fuel.  "Without fault"
    in a property means that the result is [Ok].  Integers are [Z] with wrap-around written out
    ([u8] to [u64]).  Memory is byte arrays with bounds ([load_bytes],
    [store_bytes]); packet buffers are finite maps from pointers to headers and
    to data, which clones share.  DPDK is a parameter: functions use its classes,
    theorems assume their laws, witnesses instantiate them.

    A call of one core is one step, except in [VhostSync], where steps are
    accesses to shared memory, and in [Client], where a step of the client is one
    access to a ring and the sends and receives of the datapath come in between.
    [Main.lcore_reach] puts arbitrary changes by others that respect the invariant
    between the iterations of a core.

    Buffers are tracked by ownership: [owns m X] says that the live buffers are
    exactly those of the multiset [X], [pinv] that they are those of the caches,
    rings and drivers, and [X]; [dpinv] adds the rings shared with the daemon,
    [core_inv] the flow table.  So an operation that keeps [pinv] with one
    packet less in [X] has neither lost nor duplicated a buffer.

    The two processes share the state [dp] of [Datapath].  A loop of the daemon
    that waits takes a parameter, [others], for what the other process does
    between two looks at a ring; in the theorems it is the datapath serving
    requests, [serve_requests].

    * What is shown

    - The forwarding path is safe and accounts for every buffer, from start-up
      ([Init.init_establishes]) through every iteration of a core
      ([Main.lcore_reach_safe]); each stage has its own theorem
      ([VportProps.send_to_vport_safe], [VportProps.receive_from_vport_safe],
      [Action.action_execute_accounts], [DatapathProps.handle_request_accounts]).
      An iteration relies on well-formed requests and frames, and on a pool that
      can refill the daemon's ring ([Main.iteration_ok]); where the refill finds
      no buffers it never ends ([DatapathProps.alloc_loop_never_ends]).
    - It does what it should: matching packets get the flow's actions, others go
      to the daemon ([DatapathProps.switch_packet_hit],
      [DatapathProps.switch_packet_miss]); the prefetching loop is the plain loop
      ([Main.do_switch_packets_burst]); polling is fair
      ([Main.client_round_robin]); flushes leave nothing behind, and packets from a
      core reach a client in order ([VportProps.send_to_client_fifo]).
    - The flow table implements a finite map ([Flow.flow_table_refines_map]),
      dumps are complete, and key extraction inverts the layout of frames.
    - Header rewriting keeps checksums valid; pushing and popping tags are inverse.
    - Guest packets: delivery and reception on the rings, address translation,
      compaction of memory tables, and configuration that is safe for callers who
      keep to what the code does not check ([VirtioNet.vop_ok]).
    - Interleavings: cores never write the same slot while the guest refills the
      ring up to the used index, and report only filled entries; a device is not
      used after it is unmapped, if memory and owner of a running device stay as
      they are and its vport keeps its name ([VhostSync.orderly];
      [VhostSync.unmapped_while_held] shows that each condition is needed);
      neither protocol blocks.
    - The command line is parsed without fault, its numbers and masks are what was
      given, and a configuration that is written out is read back.
    - Daemon and datapath work together: a put, get or delete of a flow and the
      addition of a port, from the call through both rings and back, do to the
      tables of the datapath what the interface promises, and every buffer used
      for it is accounted for ([DpifProps.flow_put_correct], unless the hash table
      is full, [DpifProps.flow_get_correct], for a buffer that the caller passes,
      [DpifProps.flow_del_correct], [DpifPorts.port_add_query]); a packet without a flow comes to the daemon
      with a key that, put back, matches that packet ([DpifUpcall.miss_to_flow]);
      a packet the daemon sends gets its actions ([DpifExec.execute_correct]); a
      dump returns every flow once ([DpifDump.dpif_dump_complete]); a physical port
      is configured with its number ([Netdev.phy_config_add]).
    - A client finds its rings ([Client.client_start_finds]), loses no packet
      however the datapath runs beside it ([Client.client_never_loses]), and gives
      back what it gets in order ([Client.client_returns]).
    - The heap implements a priority queue ([Heap.heap_refines],
      [Heap.heap_rebuild_correct]).  The state machine of a connection keeps its
      invariant over all calls, its time-outs are exact, it backs off
      exponentially and probes idle connections ([Reconnect]).  A token bucket
      limits the rate, and waiting for it is long enough ([TokenBucket]).
    - Flows survive the way through attributes ([OdpProps.odp_key_roundtrip],
      [DpifKey.upcall_key_roundtrip], [DpifKey.flow_actions_roundtrip]), and
      reading attributes ends on any bytes ([OdpSafe]).
    - Where the code does not do what it means to, a theorem or example states
      what it does instead.

    * Fuel and bounds

    Loops are structural recursions over lists or over a count taken from the
    code.  Fuel is used where a loop has no such measure: refilling the daemon's
    ring ([refill_fuel] = 17 rounds of 32 buffers reach the threshold of 512;
    [DatapathProps.alloc_loop_never_ends] shows that without buffers no fuel is
    enough), the port mask (64 rounds for 64 bits), and [parse_config] (one round
    per character, [Args.config_loop_total]).  Waiting for a turn in
    [Vhost.virtio_enqueue_burst] is lack of fuel when the turn would never come;
    that it comes is the subject of [VhostSync].  The waiting loops of [DpdkLink]
    have fuel for the rounds that they wait: three are enough when the other
    process answers in its next turn.  Loops over attributes get one round per
    byte ([Netlink.nl_fuel]), which [OdpSafe.odp_key_parse_terminates] shows to
    be enough on any input.  Moving a node in [Heap] has fuel for the number of
    nodes, which is enough since each round halves or doubles the index; the
    theorems show that it never runs out.  A round of the client is at most five
    accesses ([Client.client_round]).

    * Not modelled

    Terminal output and logging (of the statistics display the numbers and
    addresses shown are modelled); the clock beyond its value; parsing of [/proc] and copying of file
    descriptors when guest memory is mapped (results of the kernel here); the
    KNI and vEth devices (a driver interface); locks of flow table entries
    (an operation is one step); weak memory ordering (sequential consistency).
    On the daemon's side: opening and closing the interface, the socket used for
    waiting, look-up of its rings by name; masks in [odp-util.c], which the port
    does not use, and its text formats; the members of the classes in
    [lib/netdev-dpdk.c] that are the same for all or return a constant; names and
    log messages in [lib/reconnect.c].  Outside: the kernel module [fd_link], the
    KNI driver for guests, QEMU, and the parts of Open vSwitch that the port
    leaves as they are (OpenFlow, OVSDB, the daemon's own logic and the rest of
    its library), which are upstream code above the datapath interface. *)
From stdpp Require Export base list numbers option.
From Stdlib Require Export ZArith Lia.

#[global] Open Scope Z_scope.

(** ** Limits of machine integers *)

Definition LLONG_MAX : Z := 2 ^ 63 - 1.
Definition LLONG_MIN : Z := - 2 ^ 63.
Definition INT_MAX : Z := 2 ^ 31 - 1.
Definition UINT_MAX : Z := 2 ^ 32 - 1.

(** ** Faults

    C code that aborts ([NOT_REACHED], [ovs_assert], [rte_exit]) or that would
    access memory outside an object has no result; the model says which. *)
Inductive fault :=
| NotReached     (* NOT_REACHED() / ovs_assert() failure: the process aborts *)
| OutOfBounds    (* access outside the object the pointer points into *)
| NullDeref      (* access through a null pointer *)
| UseAfterFree   (* access through, or free of, a packet buffer that is not live *)
| RteExit        (* rte_exit(EXIT_FAILURE, ...) *)
| DivByZero      (* integer division by zero *)
| OutOfFuel.     (* a bounded model of an unbounded loop ran out of steps *)

Inductive res (A : Type) :=
| Ok (a : A)
| Err (f : fault).
Arguments Ok {A} _.
Arguments Err {A} _.

#[global] Instance fault_eq_dec : EqDecision fault.
Proof. solve_decision. Defined.

#[global] Instance res_eq_dec {A} `{EqDecision A} : EqDecision (res A).
Proof. solve_decision. Defined.

#[global] Instance res_ret : MRet res := fun A a => Ok a.
#[global] Instance res_bind : MBind res := fun A B f m =>
  match m with Ok a => f a | Err e => Err e end.
#[global] Instance res_fmap : FMap res := fun A B f m =>
  match m with Ok a => Ok (f a) | Err e => Err e end.

Definition res_ok {A} (r : res A) : bool := match r with Ok _ => true | Err _ => false end.

(** [ovs_assert (c)]. *)
Definition c_assert (b : bool) : res unit := if b then Ok tt else Err NotReached.

(** A pointer that is read through must not be null. *)
Definition deref {A} (p : option A) : res A :=
  match p with Some a => Ok a | None => Err NullDeref end.

Lemma Ok_inj {A} (x y : A) : Ok x = Ok y -> x = y.
Proof. congruence. Qed.

Lemma bind_ok {A B} (a : A) (f : A -> res B) : (Ok a ≫= f) = f a.
Proof. reflexivity. Qed.

Lemma bind_assoc {A B C} (m : res A) (f : A -> res B) (g : B -> res C) :
  ((m ≫= f) ≫= g) = (m ≫= fun a => f a ≫= g).
Proof. by destruct m. Qed.

(** Runs one step of a computation whose first action is known to succeed. *)
Ltac bind := rewrite bind_ok; cbv beta iota.

Lemma res_bind_Ok {A B} (m : res A) (f : A -> res B) b :
  (m ≫= f) = Ok b <-> exists a, m = Ok a /\ f a = Ok b.
Proof.
  destruct m as [a|e]; simpl; split.
  - eauto.
  - intros (a' & [= ->] & H); exact H.
  - discriminate.
  - intros (a' & H & _); discriminate.
Qed.

Lemma res_bind_Err {A B} (m : res A) (f : A -> res B) e :
  (m ≫= f) = Err e <-> m = Err e \/ exists a, m = Ok a /\ f a = Err e.
Proof.
  destruct m as [a|e']; simpl; split.
  - eauto.
  - intros [H|(a' & [= ->] & H)]; [discriminate|exact H].
  - intros [= ->]; auto.
  - intros [[= ->]|(a' & H & _)]; [reflexivity|discriminate].
Qed.

(** Splits every [bind] hypothesis whose result is [Ok]. *)
Ltac inv_res :=
  repeat match goal with
  | H : (_ ≫= _) = Ok _ |- _ =>
      let a := fresh "a" in let H1 := fresh "Hb" in
      apply res_bind_Ok in H as (a & H1 & H)
  | H : Ok _ = Ok _ |- _ => injection H as H; try subst
  | H : Err _ = Ok _ |- _ => discriminate H
  | H : Ok _ = Err _ |- _ => discriminate H
  end.

(** [lia] with division and remainder. *)
Ltac zdiv := Z.to_euclidean_division_equations; lia.

(** ** Machine integers

    A [w]-bit unsigned integer is a [Z] in [0, 2^w); C's wrap-around is [mod]. *)
Declare Scope cint_scope.
Delimit Scope cint_scope with cint.

Definition wrap (w : Z) (x : Z) : Z := x mod 2 ^ w.
Definition u8 (x : Z) : Z := wrap 8 x.
Definition u16 (x : Z) : Z := wrap 16 x.
Definition u32 (x : Z) : Z := wrap 32 x.
Definition u64 (x : Z) : Z := wrap 64 x.

(** Conversion of an unsigned value to a signed [w]-bit integer. *)
Definition swrap (w : Z) (x : Z) : Z := (x + 2 ^ (w - 1)) mod 2 ^ w - 2 ^ (w - 1).
Definition s16 (x : Z) : Z := swrap 16 x.
Definition s32 (x : Z) : Z := swrap 32 x.

Definition is_u (w : Z) (x : Z) : Prop := 0 <= x < 2 ^ w.
Definition is_u8 := is_u 8.
Definition is_u16 := is_u 16.
Definition is_u32 := is_u 32.
Definition is_u64 := is_u 64.

#[global] Instance is_u_dec w x : Decision (is_u w x).
Proof. unfold is_u. apply _. Defined.
#[global] Instance is_u8_dec x : Decision (is_u8 x).
Proof. unfold is_u8. apply _. Defined.

Definition UINT32_MAX : Z := 4294967295.

(** ** Byte memory

    The bytes of one C object, addressed by offset.  Loads and stores of
    multi-byte fields are little-endian, as on the x86-64 targets DPDK runs on;
    network-order fields are therefore byte-swapped by [htons] and [htonl]. *)
Fixpoint le_combine (bs : list Z) : Z :=
  match bs with
  | [] => 0
  | b :: bs => b + 256 * le_combine bs
  end.

Fixpoint le_split (n : nat) (v : Z) : list Z :=
  match n with
  | O => []
  | S n => v mod 256 :: le_split n (v / 256)
  end.

Definition bswap (n : nat) (v : Z) : Z := le_combine (rev (le_split n v)).
Definition htons (v : Z) : Z := bswap 2 v.
Definition ntohs (v : Z) : Z := bswap 2 v.
Definition htonl (v : Z) : Z := bswap 4 v.
Definition ntohl (v : Z) : Z := bswap 4 v.

Definition zlen {A} (l : list A) : Z := Z.of_nat (length l).

Definition in_range (m : list Z) (off n : Z) : bool :=
  (0 <=? off) && (0 <=? n) && (off + n <=? zlen m).

Definition load_bytes (m : list Z) (off n : Z) : res (list Z) :=
  if in_range m off n
  then Ok (take (Z.to_nat n) (drop (Z.to_nat off) m)) else Err OutOfBounds.

Definition store_bytes (m : list Z) (off : Z) (bs : list Z) : res (list Z) :=
  if in_range m off (zlen bs)
  then Ok (list_inserts (Z.to_nat off) bs m) else Err OutOfBounds.

Definition load_le (n : nat) (m : list Z) (off : Z) : res Z :=
  le_combine <$> load_bytes m off (Z.of_nat n).
Definition store_le (n : nat) (m : list Z) (off v : Z) : res (list Z) :=
  store_bytes m off (le_split n v).

Definition load8 := load_le 1.
Definition load16 := load_le 2.
Definition load32 := load_le 4.
Definition store8 := store_le 1.
Definition store16 := store_le 2.
Definition store32 := store_le 4.

(** [memmove]: the source is read before the destination is written. *)
Definition memmove (m : list Z) (dst src n : Z) : res (list Z) :=
  bs ← load_bytes m src n; store_bytes m dst bs.

(** Access of an array by an index that must be inside. *)
Definition index {A} (l : list A) (i : Z) : res A :=
  if (0 <=? i) && (i <? zlen l)
  then match l !! Z.to_nat i with Some x => Ok x | None => Err OutOfBounds end
  else Err OutOfBounds.

Definition update {A} (l : list A) (i : Z) (x : A) : list A := <[Z.to_nat i := x]> l.

(** ** Generic lemmas *)

Create HintDb cmodel.
Create Rewrite HintDb cmodel.

Lemma wrap_range w x : 0 <= w -> is_u w (wrap w x).
Proof. intros Hw. unfold is_u, wrap. apply Z.mod_pos_bound. lia. Qed.

Lemma wrap_small w x : is_u w x -> wrap w x = x.
Proof. unfold is_u, wrap. intros H. by apply Z.mod_small. Qed.

Lemma wrap_wrap w x : 0 <= w -> wrap w (wrap w x) = wrap w x.
Proof. intros Hw. apply wrap_small. by apply wrap_range. Qed.

Lemma wrap_add_l w x y : wrap w (wrap w x + y) = wrap w (x + y).
Proof. unfold wrap. apply Zplus_mod_idemp_l. Qed.

Lemma wrap_add_r w x y : wrap w (x + wrap w y) = wrap w (x + y).
Proof. unfold wrap. apply Zplus_mod_idemp_r. Qed.

#[export] Hint Rewrite wrap_add_l wrap_add_r : cmodel.

Lemma land_pow2 x n : 0 <= n -> Z.land x (2 ^ n) = if Z.testbit x n then 2 ^ n else 0.
Proof.
  intros Hn. apply Z.bits_inj'. intros m Hm. rewrite Z.land_spec, Z.pow2_bits_eqb by lia.
  destruct (Z.eqb_spec n m) as [->|Hne].
  - destruct (Z.testbit x m); simpl; [by rewrite Z.pow2_bits_true|by rewrite Z.bits_0].
  - rewrite andb_false_r. destruct (Z.testbit x n); [by rewrite Z.pow2_bits_false|by rewrite Z.bits_0].
Qed.

Lemma zlen_app {A} (l k : list A) : zlen (l ++ k) = zlen l + zlen k.
Proof. unfold zlen. rewrite length_app. lia. Qed.

Lemma zlen_nonneg {A} (l : list A) : 0 <= zlen l.
Proof. unfold zlen. lia. Qed.

Lemma zlen_nil {A} : zlen (@nil A) = 0.
Proof. reflexivity. Qed.

Lemma zlen_cons {A} (x : A) l : zlen (x :: l) = 1 + zlen l.
Proof. unfold zlen. simpl. lia. Qed.

Lemma take_zlen_app {A} (l k : list A) : take (Z.to_nat (zlen l)) (l ++ k) = l.
Proof. unfold zlen. by rewrite Nat2Z.id, take_app_length. Qed.

Lemma drop_zlen_app {A} (l k : list A) : drop (Z.to_nat (zlen l)) (l ++ k) = k.
Proof. unfold zlen. by rewrite Nat2Z.id, drop_app_length. Qed.

Lemma in_range_spec m off n :
  in_range m off n = true <-> 0 <= off /\ 0 <= n /\ off + n <= zlen m.
Proof. unfold in_range. rewrite !andb_true_iff, !Z.leb_le. tauto. Qed.

Lemma load_bytes_Ok m off n bs :
  load_bytes m off n = Ok bs <->
  0 <= off /\ 0 <= n /\ off + n <= zlen m /\
  bs = take (Z.to_nat n) (drop (Z.to_nat off) m).
Proof.
  unfold load_bytes. destruct (in_range m off n) eqn:E.
  - apply in_range_spec in E. split; [intros [= <-]; tauto | intros (?&?&?&->); done].
  - split; [discriminate|]. intros (?&?&?&_).
    assert (in_range m off n = true) by (by apply in_range_spec). congruence.
Qed.

Lemma load_bytes_len m off n bs : load_bytes m off n = Ok bs -> zlen bs = n.
Proof.
  intros (?&?&?&->)%load_bytes_Ok. unfold zlen in *.
  rewrite length_take, length_drop. lia.
Qed.

Lemma load_bytes_ok m off n :
  0 <= off -> 0 <= n -> off + n <= zlen m -> exists bs, load_bytes m off n = Ok bs.
Proof. intros. eexists. apply load_bytes_Ok. eauto. Qed.

Lemma store_bytes_Ok m off bs m' :
  store_bytes m off bs = Ok m' <->
  0 <= off /\ off + zlen bs <= zlen m /\ m' = list_inserts (Z.to_nat off) bs m.
Proof.
  unfold store_bytes. pose proof (zlen_nonneg bs).
  destruct (in_range m off (zlen bs)) eqn:E.
  - apply in_range_spec in E. split; [intros [= <-]; tauto | intros (?&?&->); done].
  - split; [discriminate|]. intros (?&?&_).
    assert (in_range m off (zlen bs) = true) by (apply in_range_spec; lia). congruence.
Qed.

Lemma store_bytes_ok m off bs :
  0 <= off -> off + zlen bs <= zlen m -> exists m', store_bytes m off bs = Ok m'.
Proof. intros. eexists. apply store_bytes_Ok. eauto. Qed.

Lemma store_bytes_zlen m off bs m' : store_bytes m off bs = Ok m' -> zlen m' = zlen m.
Proof. intros (?&?&->)%store_bytes_Ok. unfold zlen. by rewrite length_inserts. Qed.

(** Lookup view of a store. *)
Lemma store_bytes_lookup m off bs m' i :
  store_bytes m off bs = Ok m' ->
  m' !! i = if decide (off <= Z.of_nat i < off + zlen bs)
            then bs !! (i - Z.to_nat off)%nat else m !! i.
Proof.
  intros (?&?&->)%store_bytes_Ok. unfold zlen in *. case_decide.
  - rewrite list_lookup_inserts; [done|lia|lia].
  - destruct (decide (Z.of_nat i < off)).
    + by rewrite list_lookup_inserts_lt by lia.
    + by rewrite list_lookup_inserts_ge by lia.
Qed.

Lemma load_bytes_lookup m off n bs i :
  load_bytes m off n = Ok bs -> (i < Z.to_nat n)%nat ->
  bs !! i = m !! (Z.to_nat off + i)%nat.
Proof.
  intros (?&?&?&->)%load_bytes_Ok Hi.
  rewrite lookup_take_lt by done. by rewrite lookup_drop.
Qed.

Lemma load_bytes_ext m m' off off' n :
  0 <= off -> 0 <= off' -> 0 <= n ->
  off + n <= zlen m -> off' + n <= zlen m' ->
  (forall i, (i < Z.to_nat n)%nat ->
     m !! (Z.to_nat off + i)%nat = m' !! (Z.to_nat off' + i)%nat) ->
  load_bytes m off n = load_bytes m' off' n.
Proof.
  intros H1 H2 H3 H4 H5 Hext.
  destruct (load_bytes_ok m off n) as [b1 E1]; [lia..|].
  destruct (load_bytes_ok m' off' n) as [b2 E2]; [lia..|].
  rewrite E1, E2. f_equal. apply list_eq. intros i.
  pose proof (load_bytes_len _ _ _ _ E1) as L1. pose proof (load_bytes_len _ _ _ _ E2) as L2.
  unfold zlen in *.
  destruct (decide (i < Z.to_nat n)%nat).
  - rewrite (load_bytes_lookup _ _ _ _ _ E1), (load_bytes_lookup _ _ _ _ _ E2) by done. auto.
  - rewrite !lookup_ge_None_2 by lia. done.
Qed.

Lemma load_store_same m off bs m' :
  store_bytes m off bs = Ok m' -> load_bytes m' off (zlen bs) = Ok bs.
Proof.
  intros H. pose proof (store_bytes_zlen _ _ _ _ H) as Hl.
  pose proof H as (?&?&_)%store_bytes_Ok. pose proof (zlen_nonneg bs).
  destruct (load_bytes_ok m' off (zlen bs)) as [b E]; [lia..|].
  rewrite E. f_equal. apply list_eq. intros i.
  pose proof (load_bytes_len _ _ _ _ E) as L. unfold zlen in *.
  destruct (decide (i < length bs)%nat).
  - rewrite (load_bytes_lookup _ _ _ _ _ E) by lia.
    rewrite (store_bytes_lookup _ _ _ _ _ H). unfold zlen.
    rewrite decide_True by lia. f_equal. lia.
  - rewrite !lookup_ge_None_2 by lia. done.
Qed.

Lemma load_store_other m off bs m' off' n :
  store_bytes m off bs = Ok m' ->
  off' + n <= off \/ off + zlen bs <= off' ->
  load_bytes m' off' n = load_bytes m off' n.
Proof.
  intros H Hd. pose proof (store_bytes_zlen _ _ _ _ H) as Hl.
  destruct (decide (0 <= off' /\ 0 <= n /\ off' + n <= zlen m)) as [(?&?&?)|Hn].
  - apply load_bytes_ext; [lia..|]. intros i Hi.
    rewrite (store_bytes_lookup _ _ _ _ _ H). rewrite decide_False by lia. done.
  - unfold load_bytes.
    assert (forall k, zlen k = zlen m -> in_range k off' n = false) as E.
    { intros k Hk. apply not_true_iff_false. rewrite in_range_spec. lia. }
    by rewrite !E.
Qed.

(** A load inside a longer load. *)
Lemma load_bytes_sub m off n bs k j :
  load_bytes m off n = Ok bs -> 0 <= k -> 0 <= j -> k + j <= n ->
  load_bytes m (off + k) j = load_bytes bs k j.
Proof.
  intros H ???. pose proof (load_bytes_len _ _ _ _ H) as L.
  pose proof H as (?&?&?&_)%load_bytes_Ok.
  apply load_bytes_ext; [lia..|]. intros i Hi.
  rewrite (load_bytes_lookup _ _ _ _ _ H) by lia. f_equal. lia.
Qed.

Lemma load_bytes_app m off n1 n2 b1 b2 :
  load_bytes m off n1 = Ok b1 -> load_bytes m (off + n1) n2 = Ok b2 ->
  load_bytes m off (n1 + n2) = Ok (b1 ++ b2).
Proof.
  intros (?&?&?&->)%load_bytes_Ok (?&?&?&->)%load_bytes_Ok.
  apply load_bytes_Ok. split_and!; try lia.
  rewrite !Z2Nat.inj_add, <-drop_drop by lia.
  by rewrite take_take_drop.
Qed.

Lemma load_bytes_split m off n1 n2 bs :
  0 <= n1 -> 0 <= n2 -> load_bytes m off (n1 + n2) = Ok bs ->
  load_bytes m off n1 = Ok (take (Z.to_nat n1) bs) /\
  load_bytes m (off + n1) n2 = Ok (drop (Z.to_nat n1) bs).
Proof.
  intros ?? (?&?&?&->)%load_bytes_Ok. split; apply load_bytes_Ok; split_and!; try lia.
  - rewrite take_take. f_equal. lia.
  - rewrite !Z2Nat.inj_add by lia. by rewrite skipn_firstn_comm, drop_drop, Nat.add_sub_swap, Nat.sub_diag.
Qed.

(** Loads behind a prefix. *)
Lemma load_bytes_shift pre l i n :
  0 <= i -> load_bytes (pre ++ l) (zlen pre + i) n = load_bytes l i n.
Proof.
  intros Hi. unfold load_bytes, in_range. assert (zlen (pre ++ l) = zlen pre + zlen l) as ->.
  { unfold zlen. rewrite length_app. lia. }
  assert (0 <= zlen pre) by (unfold zlen; lia).
  replace (0 <=? zlen pre + i) with (0 <=? i) by lia.
  replace (zlen pre + i + n <=? zlen pre + zlen l) with (i + n <=? zlen l) by lia.
  destruct (_ && _); [|done]. do 2 f_equal. replace (Z.to_nat (zlen pre + i)) with (length pre + Z.to_nat i)%nat by (unfold zlen; lia).
  by rewrite drop_app_add.
Qed.

(** Bytes and fixed-width fields. *)
Definition bytes (m : list Z) : Prop := Forall is_u8 m.

(** Decides [bytes] on concrete memory. *)
Lemma bytes_bool l : forallb (fun x => (0 <=? x) && (x <? 256)) l = true -> bytes l.
Proof.
  intros H. apply Forall_forall. intros x Hx.
  rewrite forallb_forall in H. specialize (H x Hx). unfold is_u8, is_u.
  change (2 ^ 8) with 256. lia.
Qed.

Lemma is_u8_mod x : is_u8 (x mod 256).
Proof. unfold is_u8, is_u. change (2 ^ 8) with 256. apply Z.mod_pos_bound. lia. Qed.

Lemma le_split_length n v : length (le_split n v) = n.
Proof. revert v. induction n; simpl; auto. Qed.

Lemma zlen_le_split n v : zlen (le_split n v) = Z.of_nat n.
Proof. unfold zlen. by rewrite le_split_length. Qed.

Lemma le_split_bytes n v : bytes (le_split n v).
Proof.
  unfold bytes. revert v. induction n as [|n IH]; intros v; constructor; [apply is_u8_mod|apply IH].
Qed.

Lemma pow256_S n : 256 ^ Z.of_nat (S n) = 256 * 256 ^ Z.of_nat n.
Proof. rewrite Nat2Z.inj_succ, Z.pow_succ_r; lia. Qed.

Lemma le_combine_split n v : le_combine (le_split n v) = v mod 256 ^ Z.of_nat n.
Proof.
  revert v. induction n as [|n IH]; intros v; simpl le_combine.
  - by rewrite Z.mod_1_r.
  - rewrite IH, pow256_S, Z.rem_mul_r by lia. lia.
Qed.

Lemma le_combine_bound bs : bytes bs -> 0 <= le_combine bs < 256 ^ zlen bs.
Proof.
  unfold bytes, zlen. induction 1 as [|b bs Hb _ IH]; [simpl; lia|].
  simpl length. rewrite pow256_S. simpl le_combine.
  unfold is_u8, is_u in Hb. change (2 ^ 8) with 256 in Hb. lia.
Qed.

Lemma le_split_combine bs : bytes bs -> le_split (length bs) (le_combine bs) = bs.
Proof.
  unfold bytes. induction 1 as [|b bs Hb _ IH]; [done|].
  unfold is_u8, is_u in Hb. change (2 ^ 8) with 256 in Hb. simpl. f_equal.
  - rewrite Z.mul_comm, Z.mod_add by lia. by apply Z.mod_small.
  - rewrite Z.mul_comm, Z.div_add, Z.div_small by lia. done.
Qed.

Lemma le_split_combine_n n bs : bytes bs -> length bs = n -> le_split n (le_combine bs) = bs.
Proof. intros H <-. by apply le_split_combine. Qed.

Lemma bytes_rev bs : bytes bs -> bytes (rev bs).
Proof. unfold bytes. rewrite rev_alt. apply Forall_reverse. Qed.

Lemma bswap_bound n v : 0 <= bswap n v < 256 ^ Z.of_nat n.
Proof.
  unfold bswap. pose proof (le_combine_bound (rev (le_split n v))) as H.
  unfold zlen in H. rewrite length_rev, le_split_length in H.
  apply H, bytes_rev, le_split_bytes.
Qed.

Lemma bswap_bswap n v : 0 <= v < 256 ^ Z.of_nat n -> bswap n (bswap n v) = v.
Proof.
  intros Hv. unfold bswap at 1 2.
  rewrite (le_split_combine_n n); [|apply bytes_rev, le_split_bytes|by rewrite length_rev, le_split_length].
  rewrite rev_involutive, le_combine_split. by apply Z.mod_small.
Qed.

Lemma bytes_take n m : bytes m -> bytes (take n m).
Proof. apply Forall_take. Qed.
Lemma bytes_drop n m : bytes m -> bytes (drop n m).
Proof. apply Forall_drop. Qed.
Lemma bytes_app l k : bytes (l ++ k) <-> bytes l /\ bytes k.
Proof. apply Forall_app. Qed.

Lemma load_bytes_bytes m off n bs : bytes m -> load_bytes m off n = Ok bs -> bytes bs.
Proof. intros H (_&_&_&->)%load_bytes_Ok. by apply bytes_take, bytes_drop. Qed.

Lemma store_bytes_bytes m off bs m' :
  bytes m -> bytes bs -> store_bytes m off bs = Ok m' -> bytes m'.
Proof.
  unfold bytes. rewrite !Forall_lookup. intros Hm Hbs H i x Hx.
  rewrite (store_bytes_lookup _ _ _ _ _ H) in Hx. case_decide; eauto.
Qed.

Lemma load_le_Ok n m off v :
  load_le n m off = Ok v <-> exists bs, load_bytes m off (Z.of_nat n) = Ok bs /\ v = le_combine bs.
Proof.
  unfold load_le. destruct (load_bytes m off (Z.of_nat n)) as [bs|e]; simpl.
  - split; [intros [= <-]; eauto | intros (bs' & [= ->] & ->); done].
  - split; [discriminate | intros (? & ? & _); discriminate].
Qed.

Lemma load_le_bound n m off v :
  bytes m -> load_le n m off = Ok v -> 0 <= v < 256 ^ Z.of_nat n.
Proof.
  intros Hm (bs & H & ->)%load_le_Ok.
  rewrite <-(load_bytes_len _ _ _ _ H). apply le_combine_bound. eauto using load_bytes_bytes.
Qed.

Lemma load_le_ok n m off :
  0 <= off -> off + Z.of_nat n <= zlen m -> exists v, load_le n m off = Ok v.
Proof.
  intros ??. destruct (load_bytes_ok m off (Z.of_nat n)) as [bs H2]; [lia..|].
  exists (le_combine bs). apply load_le_Ok. eauto.
Qed.

Lemma store_le_ok n m off v :
  0 <= off -> off + Z.of_nat n <= zlen m -> exists m', store_le n m off v = Ok m'.
Proof. intros. apply store_bytes_ok; rewrite ?zlen_le_split; lia. Qed.

Lemma store_le_zlen n m off v m' : store_le n m off v = Ok m' -> zlen m' = zlen m.
Proof. apply store_bytes_zlen. Qed.

Lemma store_le_bytes n m off v m' : bytes m -> store_le n m off v = Ok m' -> bytes m'.
Proof. intros ? H. eapply store_bytes_bytes; [done| |exact H]. apply le_split_bytes. Qed.

Lemma load_store_le_same n m off v m' :
  store_le n m off v = Ok m' -> load_le n m' off = Ok (v mod 256 ^ Z.of_nat n).
Proof.
  intros H%load_store_same. rewrite zlen_le_split in H.
  apply load_le_Ok. eexists. split; [exact H|]. by rewrite le_combine_split.
Qed.

Lemma load_store_le_other n k m off v m' off' :
  store_le n m off v = Ok m' ->
  off' + Z.of_nat k <= off \/ off + Z.of_nat n <= off' ->
  load_le k m' off' = load_le k m off'.
Proof.
  intros H Hd. unfold load_le. erewrite load_store_other; [done|exact H|].
  rewrite zlen_le_split. lia.
Qed.

Lemma load_bytes_store_le_other n m off v m' off' k :
  store_le n m off v = Ok m' ->
  off' + k <= off \/ off + Z.of_nat n <= off' ->
  load_bytes m' off' k = load_bytes m off' k.
Proof. intros H Hd. eapply load_store_other; [exact H|]. rewrite zlen_le_split. lia. Qed.

#[export] Hint Resolve store_bytes_zlen store_le_zlen le_split_bytes : cmodel.

(** ** Arrays *)

Lemma index_Ok {A} (l : list A) i x :
  index l i = Ok x <-> 0 <= i /\ l !! Z.to_nat i = Some x.
Proof.
  unfold index. destruct (Z.leb_spec 0 i); [|split; [done|lia]].
  destruct (Z.ltb_spec i (zlen l)); cbn [andb].
  - destruct (l !! Z.to_nat i); split; [intros [= ->]; done|intros [_ [= ->]]; done|done|intros [_ ?]; done].
  - split; [done|]. intros [_ Hl%lookup_lt_Some]. unfold zlen in *. lia.
Qed.

Lemma index_ok {A} (l : list A) i : 0 <= i < zlen l -> exists x, index l i = Ok x.
Proof.
  intros H. destruct (lookup_lt_is_Some_2 l (Z.to_nat i)) as [x Hx]; [unfold zlen in H; lia|].
  exists x. apply index_Ok. split; [lia|done].
Qed.

Lemma index_bound {A} (l : list A) i x : index l i = Ok x -> 0 <= i < zlen l.
Proof. intros [? H%lookup_lt_Some]%index_Ok. unfold zlen. lia. Qed.

Lemma zlen_update {A} (l : list A) i x : zlen (update l i x) = zlen l.
Proof. unfold zlen, update. by rewrite length_insert. Qed.

Lemma index_update_eq {A} (l : list A) i x : 0 <= i < zlen l -> index (update l i x) i = Ok x.
Proof.
  intros. apply index_Ok. split; [lia|]. apply list_lookup_insert_eq. unfold zlen in *. lia.
Qed.

Lemma index_update_ne {A} (l : list A) i j x :
  0 <= i -> i <> j -> index (update l i x) j = index l j.
Proof.
  intros Hi Hne. unfold index. rewrite zlen_update. unfold update.
  destruct (Z.leb_spec 0 j); [|done]. by rewrite list_lookup_insert_ne by lia.
Qed.

Lemma update_same {A} (l : list A) i x : index l i = Ok x -> update l i x = l.
Proof. intros [_ H]%index_Ok. by apply list_insert_id. Qed.

#[global] Arguments wrap : simpl never.
#[global] Arguments u8 : simpl never.
#[global] Arguments u16 : simpl never.
#[global] Arguments u32 : simpl never.
#[global] Arguments u64 : simpl never.
#[global] Arguments swrap : simpl never.
#[global] Arguments bswap : simpl never.
#[global] Arguments htons : simpl never.
#[global] Arguments ntohs : simpl never.
#[global] Arguments htonl : simpl never.
#[global] Arguments ntohl : simpl never.
#[global] Arguments load_bytes : simpl never.
#[global] Arguments store_bytes : simpl never.
#[global] Arguments load_le : simpl never.
#[global] Arguments store_le : simpl never.
#[global] Arguments index : simpl never.
#[global] Arguments update : simpl never.
