(* ===== verification/Csum.v ===== *)
(** Internet checksum: [lib/csum.c].

    [csum_*] are the functions of the file, on 32-bit partial sums and 16-bit
    checksums.  The specification is ones-complement arithmetic, that is,
    arithmetic modulo 65535 on the unbounded sum [sum16] of the 16-bit words. *)
From S2P Require Import Prelude.

(** ** The code *)

(** [csum_add16]. *)
Definition csum_add16 (partial new : Z) : Z := u32 (partial + new).

(** [csum_add32]. *)
Definition csum_add32 (partial new : Z) : Z :=
  u32 (partial + Z.shiftr new 16 + Z.land new 65535).

(** [csum_continue]: 16-bit words while at least two bytes are left, then the
    odd byte. *)
Fixpoint csum_continue (partial : Z) (data : list Z) : Z :=
  match data with
  | b0 :: b1 :: data => csum_continue (csum_add16 partial (le_combine [b0; b1])) data
  | [b] => u32 (partial + b)
  | [] => partial
  end.

(** The loop of [csum_finish]: folds the carries until the sum has 16 bits. *)
Fixpoint csum_fold (fuel : nat) (partial : Z) : Z :=
  match fuel with
  | O => partial
  | S fuel =>
      if Z.shiftr partial 16 =? 0 then partial
      else csum_fold fuel (Z.land partial 65535 + Z.shiftr partial 16)
  end.

(** [csum_finish]: [return ~partial], converted to 16 bits. *)
Definition csum_finish (partial : Z) : Z := u16 (Z.lnot (csum_fold 2 partial)).

(** [csum]. *)
Definition csum (data : list Z) : Z := csum_finish (csum_continue 0 data).

(** [recalc_csum16]. *)
Definition recalc_csum16 (old_csum old_u16 new_u16 : Z) : Z :=
  let hc_complement := u16 (Z.lnot old_csum) in
  let m_complement := u16 (Z.lnot old_u16) in
  let m_prime := new_u16 in
  let sum := u32 (hc_complement + m_complement + m_prime) in
  csum_finish sum.

(** [recalc_csum32]: the arguments of the inner call are converted to 16 bits. *)
Definition recalc_csum32 (old_csum old_u32 new_u32 : Z) : Z :=
  recalc_csum16 (recalc_csum16 old_csum (u16 old_u32) (u16 new_u32))
                (u16 (Z.shiftr old_u32 16)) (u16 (Z.shiftr new_u32 16)).

(** [recalc_csum128]: word by word. *)
Definition recalc_csum128 (old_csum : Z) (old_u32 new_u32 : list Z) : Z :=
  foldl (fun new_csum p => recalc_csum32 new_csum p.1 p.2) old_csum (zip old_u32 new_u32).

#[global] Arguments csum_fold : simpl never.
#[global] Arguments csum_finish : simpl never.
#[global] Arguments recalc_csum16 : simpl never.
#[global] Arguments recalc_csum32 : simpl never.
#[global] Arguments csum_add16 : simpl never.

(** ** Specification *)

(** Sum of the 16-bit words of [data], an odd byte padded with zero. *)
Fixpoint sum16 (data : list Z) : Z :=
  match data with
  | b0 :: b1 :: data => le_combine [b0; b1] + sum16 data
  | [b] => b
  | [] => 0
  end.

(** The region with the two bytes of each word exchanged. *)
Fixpoint swap_words (data : list Z) : list Z :=
  match data with
  | b0 :: b1 :: data => b1 :: b0 :: swap_words data
  | _ => data
  end.

(** A receiver accepts a region when the checksum over all of it is zero. *)
Definition csum_accepts (data : list Z) : bool := csum data =? 0.

(** ** Lemmas *)

(** Induction two bytes at a time. *)
Lemma list_pair_ind {A} (P : list A -> Prop) :
  P [] -> (forall x, P [x]) -> (forall x y l, P l -> P (x :: y :: l)) -> forall l, P l.
Proof.
  intros H0 H1 H2 l. enough (P l /\ forall x, P (x :: l)) by tauto.
  induction l as [|y l [IH1 IH2]]; split; auto.
Qed.

Lemma u16_lnot x : is_u16 x -> u16 (Z.lnot x) = 65535 - x.
Proof.
  unfold is_u16, is_u, u16, wrap. change (2 ^ 16) with 65536. intros H.
  unfold Z.lnot. symmetry. apply Z.mod_unique with (-1); lia.
Qed.

Lemma csum_fold_step p :
  0 <= p -> Z.land p 65535 + Z.shiftr p 16 = p - 65535 * (p / 65536).
Proof.
  intros Hp. change 65535 with (Z.ones 16) at 1.
  rewrite Z.land_ones, Z.shiftr_div_pow2 by lia. change (2 ^ 16) with 65536. zdiv.
Qed.

Lemma shiftr16_0 p : 0 <= p -> (Z.shiftr p 16 =? 0) = (p <? 65536).
Proof.
  intros Hp. rewrite Z.shiftr_div_pow2 by lia. change (2 ^ 16) with 65536.
  destruct (Z.ltb_spec p 65536).
  - by rewrite Z.div_small by lia.
  - apply Z.eqb_neq. zdiv.
Qed.

Lemma csum_fold_S fuel p :
  csum_fold (S fuel) p =
  if Z.shiftr p 16 =? 0 then p else csum_fold fuel (Z.land p 65535 + Z.shiftr p 16).
Proof. reflexivity. Qed.

(** Two iterations always leave a 16-bit value. *)
Lemma csum_fold_spec fuel p :
  is_u32 p -> (2 <= fuel)%nat ->
  is_u16 (csum_fold fuel p) /\
  (csum_fold fuel p) mod 65535 = p mod 65535 /\
  (csum_fold fuel p = 0 <-> p = 0).
Proof.
  unfold is_u32, is_u16, is_u. change (2 ^ 32) with 4294967296. change (2 ^ 16) with 65536.
  intros Hp Hf. destruct fuel as [|[|fuel]]; [lia..|]. clear Hf.
  rewrite csum_fold_S, shiftr16_0 by lia. destruct (Z.ltb_spec p 65536); [lia|].
  rewrite csum_fold_step by lia. set (q := p - 65535 * (p / 65536)).
  assert (0 < q <= 131070) by (subst q; zdiv).
  assert (q mod 65535 = p mod 65535) as Hq.
  { subst q. replace (p - 65535 * (p / 65536)) with (p + - (p / 65536) * 65535) by lia.
    by rewrite Z.mod_add by lia. }
  rewrite csum_fold_S, shiftr16_0 by lia. destruct (Z.ltb_spec q 65536); [lia|].
  rewrite csum_fold_step by lia. set (r := q - 65535 * (q / 65536)).
  assert (r = q - 65535) as Hr by (subst r; zdiv).
  assert (r mod 65535 = q mod 65535) as Hrq.
  { rewrite Hr. replace (q - 65535) with (q + -1 * 65535) by lia. by rewrite Z.mod_add by lia. }
  assert (csum_fold fuel r = r) as ->.
  { destruct fuel; [done|]. rewrite csum_fold_S, shiftr16_0 by lia.
    destruct (Z.ltb_spec r 65536); [done|lia]. }
  lia.
Qed.

Lemma csum_finish_spec p :
  is_u32 p ->
  is_u16 (csum_finish p) /\
  (csum_finish p + p) mod 65535 = 0 /\
  (csum_finish p = 65535 <-> p = 0).
Proof.
  intros Hp. destruct (csum_fold_spec 2 p Hp) as (H16 & Hmod & H0); [lia|].
  unfold csum_finish. rewrite u16_lnot by done.
  unfold is_u16, is_u in *. change (2 ^ 16) with 65536 in *.
  set (s := csum_fold 2 p) in *. split_and!; try lia.
  rewrite Z.add_mod, <-Hmod, <-Z.add_mod by lia. by replace (65535 - s + s) with 65535 by lia.
Qed.

(** The result determines the sum modulo 65535, given that the sum is not 0. *)
Lemma csum_finish_zero p :
  is_u32 p -> csum_finish p = 0 <-> p <> 0 /\ p mod 65535 = 0.
Proof.
  intros Hp. destruct (csum_finish_spec p Hp) as (H16 & Hmod & H0).
  unfold is_u16, is_u in H16. change (2 ^ 16) with 65536 in H16.
  set (c := csum_finish p) in *. split.
  - intros Hc. rewrite Hc, Z.add_0_l in Hmod. split; [|done]. intros ->. lia.
  - intros [Hp0 Hpm]. rewrite Z.add_mod, Hpm, Z.add_0_r, Z.mod_mod in Hmod by lia.
    destruct (decide (c = 65535)); [tauto|]. rewrite Z.mod_small in Hmod by lia. done.
Qed.

Lemma sum16_bound data : bytes data -> 0 <= sum16 data <= 65535 * zlen data.
Proof.
  unfold bytes. induction data as [|b|b0 b1 data IH] using list_pair_ind; intros H.
  - unfold zlen. simpl. lia.
  - inversion H as [|?? Hb]; subst. unfold zlen, is_u8, is_u in *. simpl in *. lia.
  - inversion H as [|?? Hb0 H1]; subst. inversion H1 as [|?? Hb1 H2]; subst.
    specialize (IH H2). unfold is_u8, is_u in *.
    change (2 ^ 8) with 256 in *. unfold zlen in *. simpl length. simpl sum16. lia.
Qed.

Lemma sum16_app l k : Nat.Even (length l) -> sum16 (l ++ k) = sum16 l + sum16 k.
Proof.
  induction l as [|b|b0 b1 l IH] using list_pair_ind; intros [n Hn].
  - done.
  - simpl in Hn. lia.
  - simpl in *. rewrite IH; [lia|]. exists (n - 1)%nat. lia.
Qed.

Lemma csum_continue_spec partial data :
  bytes data -> 0 <= partial -> partial + sum16 data < 2 ^ 32 ->
  csum_continue partial data = partial + sum16 data.
Proof.
  revert partial. unfold bytes.
  induction data as [|b|b0 b1 data IH] using list_pair_ind; intros partial H Hp Hs.
  - simpl. lia.
  - inversion H as [|?? Hb]; subst. simpl in *. apply wrap_small.
    unfold is_u8, is_u in *. lia.
  - inversion H as [|?? Hb0 H1]; subst. inversion H1 as [|?? Hb1 H2]; subst.
    pose proof (sum16_bound data H2). unfold is_u8, is_u in *. change (2 ^ 8) with 256 in *.
    simpl csum_continue. simpl sum16 in *.
    unfold csum_add16, u32. rewrite wrap_small by (unfold is_u; simpl; lia).
    rewrite IH; [simpl; lia|done|simpl; lia|simpl in *; lia].
Qed.

Lemma csum_sum16 data :
  bytes data -> zlen data <= 65536 -> csum data = csum_finish (sum16 data) /\ is_u32 (sum16 data).
Proof.
  intros Hb Hl. pose proof (sum16_bound data Hb).
  assert (sum16 data < 2 ^ 32) by (change (2 ^ 32) with 4294967296; lia).
  split; [|unfold is_u32, is_u; lia]. unfold csum. by rewrite csum_continue_spec by (done || lia).
Qed.

(** A receiver accepts exactly the nonzero regions whose sum is 0 modulo 65535. *)
Lemma csum_accepts_spec data :
  bytes data -> zlen data <= 65536 ->
  csum_accepts data = true <-> sum16 data <> 0 /\ sum16 data mod 65535 = 0.
Proof.
  intros Hb Hl. destruct (csum_sum16 data Hb Hl) as [E Hu].
  unfold csum_accepts. rewrite E, Z.eqb_eq. by apply csum_finish_zero.
Qed.

Lemma recalc_csum16_spec c o n :
  is_u16 c -> is_u16 o -> is_u16 n ->
  is_u16 (recalc_csum16 c o n) /\
  (recalc_csum16 c o n + n) mod 65535 = (c + o) mod 65535.
Proof.
  intros Hc Ho Hn. unfold recalc_csum16. rewrite !u16_lnot by done.
  unfold is_u16, is_u in Hc, Ho, Hn. change (2 ^ 16) with 65536 in *.
  unfold u32. rewrite wrap_small by (unfold is_u; change (2 ^ 32) with 4294967296; lia).
  set (s := 65535 - c + (65535 - o) + n).
  destruct (csum_finish_spec s) as (H16 & Hm & _).
  { unfold is_u32, is_u, s. change (2 ^ 32) with 4294967296. lia. }
  split; [done|]. set (r := csum_finish s) in *.
  replace (r + n) with ((r + s) + (c + o) + (-2) * 65535) by (subst s; lia).
  rewrite Z.mod_add, Z.add_mod, Hm, Z.add_0_l, Z.mod_mod by lia. done.
Qed.

Lemma u16_lo_hi x : is_u32 x -> u16 x + 65536 * u16 (Z.shiftr x 16) = x.
Proof.
  unfold is_u32, is_u, u16, wrap. intros H. rewrite Z.shiftr_div_pow2 by lia.
  change (2 ^ 16) with 65536 in *. change (2 ^ 32) with 4294967296 in *.
  rewrite (Z.mod_small (x / 65536)) by zdiv. zdiv.
Qed.

(** The 16-bit words of a 32-bit field. *)
Definition words32 (x : Z) : Z := u16 x + u16 (Z.shiftr x 16).

Lemma is_u16_u16 x : is_u16 (u16 x).
Proof. by apply wrap_range. Qed.

#[export] Hint Resolve is_u16_u16 : cmodel.

Lemma recalc_csum32_spec c o n :
  is_u16 c -> is_u16 (recalc_csum32 c o n) /\
  (recalc_csum32 c o n + words32 n) mod 65535 = (c + words32 o) mod 65535.
Proof.
  intros Hc. unfold recalc_csum32, words32.
  destruct (recalc_csum16_spec c (u16 o) (u16 n)) as [H1 E1]; auto with cmodel.
  set (c1 := recalc_csum16 c (u16 o) (u16 n)) in *.
  destruct (recalc_csum16_spec c1 (u16 (Z.shiftr o 16)) (u16 (Z.shiftr n 16)))
    as [H2 E2]; auto with cmodel.
  split; [done|]. set (c2 := recalc_csum16 c1 _ _) in *.
  replace (c2 + (u16 n + u16 (Z.shiftr n 16))) with ((c2 + u16 (Z.shiftr n 16)) + u16 n) by lia.
  rewrite Z.add_mod, E2, <-Z.add_mod by lia.
  replace (c1 + u16 (Z.shiftr o 16) + u16 n) with (c1 + u16 n + u16 (Z.shiftr o 16)) by lia.
  rewrite Z.add_mod, E1, <-Z.add_mod by lia. f_equal. lia.
Qed.

Definition words128 (l : list Z) : Z := foldr (fun x s => words32 x + s) 0 l.

Lemma recalc_csum128_spec os ns c :
  length os = length ns -> is_u16 c ->
  is_u16 (recalc_csum128 c os ns) /\
  (recalc_csum128 c os ns + words128 ns) mod 65535 = (c + words128 os) mod 65535.
Proof.
  unfold recalc_csum128.
  revert ns c. induction os as [|o os IH]; intros [|n ns] c Hl Hc; try discriminate; [done|].
  cbn [zip zip_with foldl fst snd words128 foldr]. injection Hl as Hl.
  change (foldr _ 0 ns) with (words128 ns). change (foldr _ 0 os) with (words128 os).
  destruct (recalc_csum32_spec c o n Hc) as [H1 E1].
  destruct (IH ns (recalc_csum32 c o n)) as [H2 E2]; [done|done|].
  split; [done|]. set (c1 := recalc_csum32 c o n) in *. set (c2 := foldl _ c1 _) in *.
  replace (c2 + (words32 n + words128 ns)) with ((c2 + words128 ns) + words32 n) by lia.
  rewrite Z.add_mod, E2, <-Z.add_mod by lia.
  replace (c1 + words128 os + words32 n) with (c1 + words32 n + words128 os) by lia.
  rewrite Z.add_mod, E1, <-Z.add_mod by lia. f_equal. lia.
Qed.

(** Replacing the word [o] of a region by [n] and its checksum word [c] by
    [recalc_csum16 c o n] keeps the region acceptable, provided that some other
    word is nonzero. *)
Lemma recalc_accepts s c o n :
  is_u16 c -> is_u16 o -> is_u16 n -> 0 < s ->
  (s + c + o) mod 65535 = 0 ->
  (s + recalc_csum16 c o n + n) mod 65535 = 0.
Proof.
  intros Hc Ho Hn Hs H. destruct (recalc_csum16_spec c o n Hc Ho Hn) as [_ E].
  rewrite <-Z.add_assoc, Z.add_mod, E, <-Z.add_mod, Z.add_assoc by lia. done.
Qed.

(** *** Byte order *)

Lemma le_combine2 b0 b1 : le_combine [b0; b1] = b0 + 256 * b1.
Proof. simpl. lia. Qed.

Lemma bswap2_eq c : is_u16 c -> bswap 2 c = c / 256 + 256 * (c mod 256).
Proof.
  unfold is_u16, is_u. change (2 ^ 16) with 65536. intros H.
  unfold bswap. simpl. rewrite (Z.mod_small (c / 256)) by zdiv. lia.
Qed.

Lemma sum16_swap data :
  bytes data -> Nat.Even (length data) ->
  sum16 (swap_words data) mod 65535 = (256 * sum16 data) mod 65535 /\
  (sum16 (swap_words data) = 0 <-> sum16 data = 0) /\ bytes (swap_words data).
Proof.
  unfold bytes. induction data as [|b|b0 b1 data IH] using list_pair_ind; intros Hb [n Hn].
  - done.
  - simpl in Hn. lia.
  - inversion Hb as [|?? Hb0 H1]; subst. inversion H1 as [|?? Hb1 H2]; subst.
    destruct IH as (IH1 & IH2 & IH3); [done|exists (n - 1)%nat; simpl in Hn; lia|].
    pose proof (sum16_bound data H2). pose proof (sum16_bound _ IH3).
    cbn [swap_words sum16]. rewrite !le_combine2. split_and!.
    + rewrite Z.add_mod, IH1, <-Z.add_mod by lia.
      replace (256 * (b0 + 256 * b1 + sum16 data))
        with (b1 + 256 * b0 + 256 * sum16 data + b1 * 65535) by lia.
      by rewrite Z.mod_add by lia.
    + unfold is_u8, is_u in *. lia.
    + by constructor; [|constructor].
Qed.

Lemma mod65535_unique x y :
  0 <= x <= 65535 -> 0 <= y <= 65535 -> x mod 65535 = y mod 65535 ->
  (x = 65535 <-> y = 65535) -> x = y.
Proof.
  intros Hx Hy E H. destruct (decide (x = 65535)); [lia|].
  rewrite !Z.mod_small in E by lia. done.
Qed.

Lemma zlen_swap data : zlen (swap_words data) = zlen data.
Proof.
  induction data as [|b|b0 b1 data IH] using list_pair_ind; [done..|].
  cbn [swap_words]. rewrite !zlen_cons. lia.
Qed.

Lemma csum_swap data :
  bytes data -> Nat.Even (length data) -> zlen data <= 65536 ->
  csum (swap_words data) = bswap 2 (csum data).
Proof.
  intros Hb He Hl. destruct (sum16_swap data Hb He) as (Hm & H0 & Hsb).
  destruct (csum_sum16 data Hb Hl) as [-> Hu].
  destruct (csum_sum16 (swap_words data) Hsb) as [-> Hu']; [by rewrite zlen_swap|].
  destruct (csum_finish_spec _ Hu) as (Hc16 & Hcm & Hc0).
  destruct (csum_finish_spec _ Hu') as (Hd16 & Hdm & Hd0).
  set (c := csum_finish (sum16 data)) in *.
  set (d := csum_finish (sum16 (swap_words data))) in *.
  rewrite bswap2_eq by done.
  unfold is_u16, is_u in Hc16, Hd16. change (2 ^ 16) with 65536 in *.
  apply mod65535_unique; [lia|zdiv| |rewrite Hd0, H0, <-Hc0; zdiv].
  replace (c / 256 + 256 * (c mod 256)) with (256 * c + - (c / 256) * 65535) by zdiv.
  rewrite Z.mod_add by lia.
  assert ((d + 256 * sum16 data) mod 65535 = 0) as E1.
  { rewrite Z.add_mod, <-Hm, <-Z.add_mod by lia. done. }
  assert ((256 * c + 256 * sum16 data) mod 65535 = 0) as E2.
  { rewrite <-Z.mul_add_distr_l, Z.mul_mod, Hcm, Z.mul_0_r by lia. done. }
  apply Z.mod_divide in E1 as [k1 E1]; [|lia]. apply Z.mod_divide in E2 as [k2 E2]; [|lia].
  replace d with (256 * c + (k1 - k2) * 65535) by lia. by rewrite Z.mod_add by lia.
Qed.

(** *** Sums over memory

    [sum16] weighs a byte by 1 or 256 according to the parity of its position,
    so that the effect of a store on a sum depends only on the bytes it
    replaces. *)
Fixpoint bsum (odd : bool) (l : list Z) : Z :=
  match l with
  | [] => 0
  | b :: l => (if odd then 256 * b else b) + bsum (negb odd) l
  end.

Lemma sum16_bsum l : sum16 l = bsum false l.
Proof.
  induction l as [|b|b0 b1 l IH] using list_pair_ind; [done|simpl; lia|].
  cbn [sum16 bsum negb]. rewrite le_combine2. lia.
Qed.

Lemma bsum_app odd l k :
  bsum odd (l ++ k) = bsum odd l + bsum (xorb odd (Nat.odd (length l))) k.
Proof.
  revert odd. induction l as [|b l IH]; intros odd; simpl app.
  - cbn [length bsum]. change (Nat.odd 0) with false. by rewrite xorb_false_r.
  - cbn [bsum length]. rewrite IH, Nat.odd_succ, <-Nat.negb_odd.
    replace (xorb (negb odd) (Nat.odd (length l)))
      with (xorb odd (negb (Nat.odd (length l)))) by (by destruct odd, (Nat.odd (length l))).
    lia.
Qed.

(** The sum of the [n] bytes of memory at [off]. *)
Definition msum (m : list Z) (off n : Z) : Z :=
  match load_bytes m off n with Ok h => sum16 h | Err _ => 0 end.

Lemma msum_store_other m off n m' o bs :
  store_bytes m o bs = Ok m' -> off + n <= o \/ o + zlen bs <= off ->
  msum m' off n = msum m off n.
Proof. intros H Hd. unfold msum. by rewrite (load_store_other _ _ _ _ _ _ H Hd). Qed.

Lemma msum_split3 m off k j r :
  0 <= off -> 0 <= k -> 0 <= j -> 0 <= r -> off + k + j + r <= zlen m ->
  exists a b c, load_bytes m off k = Ok a /\ load_bytes m (off + k) j = Ok b /\
    load_bytes m (off + k + j) r = Ok c /\
    msum m off (k + j + r) = bsum false a + bsum (Z.odd k) b + bsum (Z.odd (k + j)) c.
Proof.
  intros. destruct (load_bytes_ok m off k) as [a Ha]; [lia..|].
  destruct (load_bytes_ok m (off + k) j) as [b Hb]; [lia..|].
  destruct (load_bytes_ok m (off + k + j) r) as [c Hc]; [lia..|].
  exists a, b, c. split_and!; try done. unfold msum.
  rewrite (load_bytes_app m off (k + j) r (a ++ b) c).
  - rewrite sum16_bsum, !bsum_app. pose proof (load_bytes_len _ _ _ _ Ha) as La.
    pose proof (load_bytes_len _ _ _ _ Hb) as Lb. unfold zlen in La, Lb.
    rewrite length_app, !xorb_false_l.
    assert (forall p x, Z.of_nat p = x -> Nat.odd p = Z.odd x) as Ho.
    { intros p x <-. symmetry. destruct (Nat.Even_or_Odd p) as [[q ->]|[q ->]].
      - rewrite Nat2Z.inj_mul, Z.odd_mul. by rewrite Nat.odd_mul.
      - rewrite Nat2Z.inj_add, Nat2Z.inj_mul, Z.odd_add, Z.odd_mul, Nat.odd_add, Nat.odd_mul. done. }
    by rewrite (Ho (length a) k), (Ho (length a + length b)%nat (k + j)) by lia.
  - by apply load_bytes_app.
  - by rewrite Z.add_assoc.
Qed.

(** A store inside a region changes its sum by the bytes it replaces. *)
Lemma msum_store m off n m' k bs old :
  store_bytes m (off + k) bs = Ok m' -> 0 <= off -> 0 <= k -> k + zlen bs <= n ->
  off + n <= zlen m -> load_bytes m (off + k) (zlen bs) = Ok old ->
  msum m' off n = msum m off n + bsum (Z.odd k) bs - bsum (Z.odd k) old.
Proof.
  intros H Hoff Hk Hn Hm Hold. pose proof (zlen_nonneg bs).
  pose proof (store_bytes_zlen _ _ _ _ H) as Hl.
  destruct (msum_split3 m off k (zlen bs) (n - k - zlen bs)) as (a & b & c & Ha & Hb & Hc & E);
    [lia..|].
  destruct (msum_split3 m' off k (zlen bs) (n - k - zlen bs)) as (a' & b' & c' & Ha' & Hb' & Hc' & E');
    [lia..|].
  replace (k + zlen bs + (n - k - zlen bs)) with n in * by lia.
  rewrite (load_store_other _ _ _ _ _ _ H) in Ha' by lia.
  rewrite (load_store_other _ _ _ _ _ _ H) in Hc' by lia.
  rewrite (load_store_same _ _ _ _ H) in Hb'.
  rewrite E, E'. assert (a' = a) by congruence. assert (c' = c) by congruence.
  assert (b' = bs) by congruence. assert (b = old) by congruence. subst. lia.
Qed.

(** The same for a little-endian field. *)
Lemma msum_store_le w m off n m' k v old :
  store_le w m (off + k) v = Ok m' -> bytes m -> 0 <= off -> 0 <= k ->
  k + Z.of_nat w <= n -> off + n <= zlen m -> load_le w m (off + k) = Ok old ->
  msum m' off n = msum m off n + bsum (Z.odd k) (le_split w v) - bsum (Z.odd k) (le_split w old).
Proof.
  intros H Hb Hoff Hk Hn Hm (bs & Hold & ->)%load_le_Ok.
  rewrite (le_split_combine_n w bs).
  - eapply msum_store; [exact H|done|done|rewrite zlen_le_split; lia|done|].
    by rewrite zlen_le_split.
  - by eapply load_bytes_bytes.
  - pose proof (load_bytes_len _ _ _ _ Hold). unfold zlen in *. lia.
Qed.

Lemma bsum_u8 odd v : is_u8 v -> bsum odd (le_split 1 v) = if odd then 256 * v else v.
Proof.
  intros H. cbn [le_split bsum]. unfold is_u8, is_u in H. change (2 ^ 8) with 256 in H.
  rewrite Z.mod_small by lia. lia.
Qed.

Lemma bsum_u16 v : is_u16 v -> bsum false (le_split 2 v) = v.
Proof.
  intros H. unfold is_u16, is_u in H. change (2 ^ 16) with 65536 in H.
  cbn [le_split bsum negb]. zdiv.
Qed.

Lemma bsum_u32 v : is_u32 v -> bsum false (le_split 4 v) = words32 v.
Proof.
  intros H. unfold is_u32, is_u in H. change (2 ^ 32) with 4294967296 in H.
  cbn [le_split bsum negb]. unfold words32, u16, wrap. rewrite Z.shiftr_div_pow2 by lia.
  change (2 ^ 16) with 65536. zdiv.
Qed.
