(* ===== verification/Ofpbuf.v ===== *)
(** Packet buffers: [lib/ofpbuf.c].

    An [ofpbuf] is a window [data, data + size) into a block of memory; [data]
    and the layer pointers are offsets from the start of the block.  Growing a
    buffer moves it to a new block unless its memory came from
    [ofpbuf_use_stack] or [ofpbuf_use_const], in which case the process
    aborts. *)
From S2P Require Import Prelude.

Inductive ofpbuf_source := OFPBUF_MALLOC | OFPBUF_STACK | OFPBUF_STUB.

#[global] Instance ofpbuf_source_eq_dec : EqDecision ofpbuf_source.
Proof. solve_decision. Defined.

(** [struct ofpbuf].  [base] is the block of memory itself. *)
Record ofpbuf := Ofpbuf {
  base : list Z;
  allocated : Z;
  source : ofpbuf_source;
  data : Z;
  size : Z;
  l2 : option Z;
  l2_5 : option Z;
  l3 : option Z;
  l4 : option Z;
  l7 : option Z
}.

(** Field updates. *)
Definition set_base (m : list Z) (b : ofpbuf) : ofpbuf :=
  Ofpbuf m (allocated b) (source b) (data b) (size b) (l2 b) (l2_5 b) (l3 b) (l4 b) (l7 b).
Definition set_window (d s : Z) (b : ofpbuf) : ofpbuf :=
  Ofpbuf (base b) (allocated b) (source b) d s (l2 b) (l2_5 b) (l3 b) (l4 b) (l7 b).
Definition set_l2 (p : option Z) (b : ofpbuf) : ofpbuf :=
  Ofpbuf (base b) (allocated b) (source b) (data b) (size b) p (l2_5 b) (l3 b) (l4 b) (l7 b).
Definition set_l2_5 (p : option Z) (b : ofpbuf) : ofpbuf :=
  Ofpbuf (base b) (allocated b) (source b) (data b) (size b) (l2 b) p (l3 b) (l4 b) (l7 b).

(** ** Operations *)

(** [ofpbuf_use__]. *)
Definition ofpbuf_use__ (m : list Z) (alloc : Z) (src : ofpbuf_source) : ofpbuf :=
  {| base := m; allocated := alloc; source := src; data := 0; size := 0;
     l2 := None; l2_5 := None; l3 := None; l4 := None; l7 := None |}.

Definition ofpbuf_use (m : list Z) (alloc : Z) : ofpbuf := ofpbuf_use__ m alloc OFPBUF_MALLOC.
Definition ofpbuf_use_stack (m : list Z) (alloc : Z) : ofpbuf := ofpbuf_use__ m alloc OFPBUF_STACK.
Definition ofpbuf_use_stub (m : list Z) (alloc : Z) : ofpbuf := ofpbuf_use__ m alloc OFPBUF_STUB.

(** [ofpbuf_use_const]. *)
Definition ofpbuf_use_const (m : list Z) (sz : Z) : ofpbuf :=
  set_window 0 sz (ofpbuf_use__ m sz OFPBUF_STACK).

Definition ofpbuf_headroom (b : ofpbuf) : Z := data b.
Definition ofpbuf_tail (b : ofpbuf) : Z := data b + size b.
Definition ofpbuf_end (b : ofpbuf) : Z := allocated b.
Definition ofpbuf_tailroom (b : ofpbuf) : Z := ofpbuf_end b - ofpbuf_tail b.

Section Alloc.
(** Contents of fresh memory. *)
Context (junk : nat -> Z).

Definition xmalloc (n : Z) : list Z := map junk (seq 0 (Z.to_nat n)).
Definition xrealloc (m : list Z) (n : Z) : list Z :=
  take (Z.to_nat n) m ++ drop (length m) (xmalloc n).

Definition ofpbuf_init (sz : Z) : ofpbuf := ofpbuf_use (xmalloc sz) sz.
Definition ofpbuf_new (sz : Z) : ofpbuf := ofpbuf_init sz.

(** [ofpbuf_copy__]. *)
Definition ofpbuf_copy__ (b : ofpbuf) (new_base : list Z) (new_headroom new_tailroom : Z)
  : res (list Z) :=
  let old_headroom := ofpbuf_headroom b in
  let old_tailroom := ofpbuf_tailroom b in
  let copy_headroom := Z.min old_headroom new_headroom in
  let copy_tailroom := Z.min old_tailroom new_tailroom in
  bs ← load_bytes (base b) (old_headroom - copy_headroom)
         (copy_headroom + size b + copy_tailroom);
  store_bytes new_base (new_headroom - copy_headroom) bs.

(** [ofpbuf_resize__].  A layer pointer keeps its distance from [data]. *)
Definition ofpbuf_resize__ (b : ofpbuf) (new_headroom new_tailroom : Z) : res ofpbuf :=
  let new_allocated := u64 (new_headroom + size b + new_tailroom) in
  '(src, new_base) ←
    match source b with
    | OFPBUF_MALLOC =>
        if new_headroom =? ofpbuf_headroom b
        then Ok (OFPBUF_MALLOC, xrealloc (base b) new_allocated)
        else m ← ofpbuf_copy__ b (xmalloc new_allocated) new_headroom new_tailroom;
             Ok (OFPBUF_MALLOC, m)
    | OFPBUF_STACK => Err NotReached
    | OFPBUF_STUB =>
        m ← ofpbuf_copy__ b (xmalloc new_allocated) new_headroom new_tailroom;
        Ok (OFPBUF_MALLOC, m)
    end;
  let move (p : option Z) := (fun off => off + (new_headroom - data b)) <$> p in
  Ok {| base := new_base; allocated := new_allocated; source := src;
        data := new_headroom; size := size b;
        l2 := move (l2 b); l2_5 := move (l2_5 b); l3 := move (l3 b);
        l4 := move (l4 b); l7 := move (l7 b) |}.

Definition ofpbuf_prealloc_tailroom (b : ofpbuf) (sz : Z) : res ofpbuf :=
  if ofpbuf_tailroom b <? sz
  then ofpbuf_resize__ b (ofpbuf_headroom b) (Z.max sz 64) else Ok b.

Definition ofpbuf_prealloc_headroom (b : ofpbuf) (sz : Z) : res ofpbuf :=
  if ofpbuf_headroom b <? sz
  then ofpbuf_resize__ b (Z.max sz 64) (ofpbuf_tailroom b) else Ok b.

Definition ofpbuf_trim (b : ofpbuf) : res ofpbuf :=
  match source b with
  | OFPBUF_MALLOC =>
      if negb (ofpbuf_headroom b =? 0) || negb (ofpbuf_tailroom b =? 0)
      then ofpbuf_resize__ b 0 0 else Ok b
  | _ => Ok b
  end.

(** [ofpbuf_put_uninit]: the buffer and the offset of the new bytes. *)
Definition ofpbuf_put_uninit (b : ofpbuf) (sz : Z) : res (ofpbuf * Z) :=
  b ← ofpbuf_prealloc_tailroom b sz;
  Ok (set_window (data b) (u64 (size b + sz)) b, ofpbuf_tail b).

Definition ofpbuf_put (b : ofpbuf) (p : list Z) : res (ofpbuf * Z) :=
  '(b, dst) ← ofpbuf_put_uninit b (zlen p);
  m ← store_bytes (base b) dst p;
  Ok (set_base m b, dst).

Definition ofpbuf_put_zeros (b : ofpbuf) (sz : Z) : res (ofpbuf * Z) :=
  '(b, dst) ← ofpbuf_put_uninit b sz;
  m ← store_bytes (base b) dst (replicate (Z.to_nat sz) 0);
  Ok (set_base m b, dst).

Definition ofpbuf_padto (b : ofpbuf) (length : Z) : res ofpbuf :=
  if size b <? length then fst <$> ofpbuf_put_zeros b (length - size b) else Ok b.

Definition ofpbuf_reserve (b : ofpbuf) (sz : Z) : res ofpbuf :=
  _ ← c_assert (size b =? 0);
  b ← ofpbuf_prealloc_tailroom b sz;
  Ok (set_window (data b + sz) (size b) b).

Definition ofpbuf_push_uninit (b : ofpbuf) (sz : Z) : res (ofpbuf * Z) :=
  b ← ofpbuf_prealloc_headroom b sz;
  let b := set_window (data b - sz) (u64 (size b + sz)) b in
  Ok (b, data b).

Definition ofpbuf_push (b : ofpbuf) (p : list Z) : res (ofpbuf * Z) :=
  '(b, dst) ← ofpbuf_push_uninit b (zlen p);
  m ← store_bytes (base b) dst p;
  Ok (set_base m b, dst).

Definition ofpbuf_push_zeros (b : ofpbuf) (sz : Z) : res (ofpbuf * Z) :=
  '(b, dst) ← ofpbuf_push_uninit b sz;
  m ← store_bytes (base b) dst (replicate (Z.to_nat sz) 0);
  Ok (set_base m b, dst).

Definition ofpbuf_new_with_headroom (sz headroom : Z) : res ofpbuf :=
  ofpbuf_reserve (ofpbuf_new (u64 (sz + headroom))) headroom.

Definition ofpbuf_clone_data_with_headroom (p : list Z) (headroom : Z) : res ofpbuf :=
  b ← ofpbuf_new_with_headroom (zlen p) headroom;
  fst <$> ofpbuf_put b p.

Definition ofpbuf_clone_data (p : list Z) : res ofpbuf := ofpbuf_clone_data_with_headroom p 0.

(** [ofpbuf_clone_with_headroom]: layer pointers keep their distance from [data]. *)
Definition ofpbuf_clone_with_headroom (buffer : ofpbuf) (headroom : Z) : res ofpbuf :=
  p ← load_bytes (base buffer) (data buffer) (size buffer);
  nb ← ofpbuf_clone_data_with_headroom p headroom;
  let move (q : option Z) := (fun off => off + (data nb - data buffer)) <$> q in
  Ok {| base := base nb; allocated := allocated nb; source := source nb;
        data := data nb; size := size nb;
        l2 := move (l2 buffer); l2_5 := move (l2_5 buffer); l3 := move (l3 buffer);
        l4 := move (l4 buffer); l7 := move (l7 buffer) |}.

Definition ofpbuf_clone (buffer : ofpbuf) : res ofpbuf := ofpbuf_clone_with_headroom buffer 0.
End Alloc.

(** [ofpbuf_at]: [offset + size] is computed in [size_t]. *)
Definition ofpbuf_at (b : ofpbuf) (offset sz : Z) : option Z :=
  if u64 (offset + sz) <=? size b then Some (data b + offset) else None.

Definition ofpbuf_at_assert (b : ofpbuf) (offset sz : Z) : res Z :=
  _ ← c_assert (u64 (offset + sz) <=? size b);
  Ok (data b + offset).

Definition ofpbuf_clear (b : ofpbuf) : ofpbuf := set_window 0 0 b.

(** [ofpbuf_pull]. *)
Definition ofpbuf_pull (b : ofpbuf) (sz : Z) : res (ofpbuf * Z) :=
  _ ← c_assert (sz <=? size b);
  Ok (set_window (data b + sz) (size b - sz) b, data b).

Definition ofpbuf_try_pull (b : ofpbuf) (sz : Z) : res (ofpbuf * option Z) :=
  if sz <=? size b
  then '(b', p) ← ofpbuf_pull b sz; Ok (b', Some p) else Ok (b, None).

(** [ofpbuf_equal]. *)
Definition ofpbuf_equal (a b : ofpbuf) : res bool :=
  if size a =? size b then
    x ← load_bytes (base a) (data a) (size a);
    y ← load_bytes (base b) (data b) (size a);
    Ok (bool_decide (x = y))
  else Ok false.

(** ** Invariant and contents *)

Definition ofpbuf_wf (b : ofpbuf) : Prop :=
  bytes (base b) /\ allocated b = zlen (base b) /\
  0 <= data b /\ 0 <= size b /\ data b + size b <= allocated b.

(** The bytes in use. *)
Definition contents (b : ofpbuf) : list Z :=
  take (Z.to_nat (size b)) (drop (Z.to_nat (data b)) (base b)).

(** Layer pointers as distances from [data]. *)
Definition layers (b : ofpbuf) : list (option Z) :=
  map (fmap (fun p => p - data b)) [l2 b; l2_5 b; l3 b; l4 b; l7 b].

#[global] Arguments contents : simpl never.
#[global] Arguments layers : simpl never.
#[global] Arguments ofpbuf_wf : simpl never.

Lemma contents_load b :
  ofpbuf_wf b -> load_bytes (base b) (data b) (size b) = Ok (contents b).
Proof. intros (_&?&?&?&?). apply load_bytes_Ok. split_and!; try lia. done. Qed.

Lemma zlen_contents b : ofpbuf_wf b -> zlen (contents b) = size b.
Proof. intros H. eapply load_bytes_len. by apply contents_load. Qed.

Lemma contents_bytes b : ofpbuf_wf b -> bytes (contents b).
Proof. intros H. eapply load_bytes_bytes; [apply H|by apply contents_load]. Qed.

(** To determine the contents it is enough to load them. *)
Lemma contents_eq b bs :
  load_bytes (base b) (data b) (size b) = Ok bs -> contents b = bs.
Proof. intros (_&_&_&->)%load_bytes_Ok. done. Qed.

Lemma u64_small x : 0 <= x < 2 ^ 64 -> u64 x = x.
Proof. intros H. by apply wrap_small. Qed.

Lemma move_layer nh d (p : option Z) :
  (fun q => q - nh) <$> ((fun off => off + (nh - d)) <$> p) = (fun q => q - d) <$> p.
Proof. destruct p; simpl; f_equal; lia. Qed.

Lemma push_layer d n (p : option Z) :
  (fun q => q - (d - n)) <$> p = (fun q => q + n) <$> ((fun q => q - d) <$> p).
Proof. destruct p; simpl; f_equal; lia. Qed.

Section AllocLemmas.
Context (junk : nat -> Z) (junk_byte : forall i, is_u8 (junk i)).

Lemma xmalloc_zlen n : 0 <= n -> zlen (xmalloc junk n) = n.
Proof. intros. unfold zlen, xmalloc. rewrite length_map, length_seq. lia. Qed.

Lemma xmalloc_bytes n : bytes (xmalloc junk n).
Proof. unfold bytes, xmalloc. apply Forall_map, Forall_true. intros. apply junk_byte. Qed.

Lemma xrealloc_zlen m n : 0 <= n -> zlen (xrealloc junk m n) = n.
Proof.
  intros. unfold xrealloc. rewrite zlen_app. pose proof (xmalloc_zlen n ltac:(lia)).
  unfold zlen in *. rewrite length_take, length_drop. lia.
Qed.

Lemma xrealloc_bytes m n : bytes m -> bytes (xrealloc junk m n).
Proof. intros. apply bytes_app. split; [by apply bytes_take|apply bytes_drop, xmalloc_bytes]. Qed.

Lemma xrealloc_load m n off k :
  0 <= off -> 0 <= k -> off + k <= zlen m -> off + k <= n ->
  load_bytes (xrealloc junk m n) off k = load_bytes m off k.
Proof.
  intros. apply load_bytes_ext; try lia.
  - rewrite xrealloc_zlen by lia. lia.
  - intros i Hi. unfold xrealloc, zlen in *.
    rewrite lookup_app_l by (rewrite length_take; lia). by rewrite lookup_take_lt by lia.
Qed.

Lemma ofpbuf_copy_spec b nb nh nt :
  ofpbuf_wf b -> 0 <= nh -> 0 <= nt -> zlen nb = nh + size b + nt -> bytes nb ->
  exists m, ofpbuf_copy__ b nb nh nt = Ok m /\ zlen m = zlen nb /\ bytes m /\
    load_bytes m nh (size b) = Ok (contents b).
Proof.
  intros Hwf Hh Ht Hl Hb. pose proof Hwf as (Hbb&?&?&?&?). unfold ofpbuf_copy__.
  unfold ofpbuf_headroom, ofpbuf_tailroom, ofpbuf_end, ofpbuf_tail.
  set (ch := Z.min (data b) nh). set (ct := Z.min (allocated b - (data b + size b)) nt).
  destruct (load_bytes_ok (base b) (data b - ch) (ch + size b + ct)) as [bs Hbs]; [lia..|].
  rewrite Hbs. simpl. pose proof (load_bytes_len _ _ _ _ Hbs) as Hlen.
  destruct (store_bytes_ok nb (nh - ch) bs) as [m Hm]; [lia..|].
  exists m. split; [done|]. split; [by eapply store_bytes_zlen|].
  split; [eapply store_bytes_bytes; [exact Hb| |exact Hm]; by eapply load_bytes_bytes|].
  pose proof (load_store_same _ _ _ _ Hm) as Hld. rewrite Hlen in Hld.
  pose proof (contents_load _ Hwf) as Hc.
  replace nh with (nh - ch + ch) by lia.
  rewrite (load_bytes_sub _ _ _ _ ch (size b) Hld) by lia.
  rewrite <-(load_bytes_sub _ _ _ _ ch (size b) Hbs) by lia.
  by replace (data b - ch + ch) with (data b) by lia.
Qed.

(** Resizing keeps the contents and the layer pointers' distances, and leaves
    exactly the requested headroom and tailroom. *)
Lemma ofpbuf_resize_spec b nh nt :
  ofpbuf_wf b -> source b <> OFPBUF_STACK ->
  0 <= nh -> 0 <= nt -> nh + size b + nt < 2 ^ 64 ->
  exists b', ofpbuf_resize__ junk b nh nt = Ok b' /\ ofpbuf_wf b' /\
    contents b' = contents b /\ layers b' = layers b /\ source b' = OFPBUF_MALLOC /\
    size b' = size b /\ ofpbuf_headroom b' = nh /\ ofpbuf_tailroom b' = nt.
Proof.
  intros Hwf Hsrc Hh Ht Hov. pose proof Hwf as (Hbb&?&?&?&?).
  assert (exists m, load_bytes m nh (size b) = Ok (contents b) /\ zlen m = nh + size b + nt /\
    bytes m /\ ofpbuf_resize__ junk b nh nt = Ok
      {| base := m; allocated := nh + size b + nt; source := OFPBUF_MALLOC;
         data := nh; size := size b;
         l2 := (fun off => off + (nh - data b)) <$> l2 b;
         l2_5 := (fun off => off + (nh - data b)) <$> l2_5 b;
         l3 := (fun off => off + (nh - data b)) <$> l3 b;
         l4 := (fun off => off + (nh - data b)) <$> l4 b;
         l7 := (fun off => off + (nh - data b)) <$> l7 b |}) as (m & Hld & Hlm & Hbm & E).
  { unfold ofpbuf_resize__. rewrite u64_small by lia.
    destruct (ofpbuf_copy_spec b (xmalloc junk (nh + size b + nt)) nh nt)
      as (m & E & Hlm & Hbm & Hld); auto using xmalloc_bytes.
    { apply xmalloc_zlen. lia. }
    rewrite xmalloc_zlen in Hlm by lia.
    destruct (source b); [|done|].
    - destruct (Z.eqb_spec nh (ofpbuf_headroom b)) as [->|].
      + exists (xrealloc junk (base b) (ofpbuf_headroom b + size b + nt)).
        unfold ofpbuf_headroom in *. split_and!; [|apply xrealloc_zlen; lia|by apply xrealloc_bytes|done].
        rewrite xrealloc_load by lia. by apply contents_load.
      + exists m. rewrite E. done.
    - exists m. rewrite E. done. }
  eexists. split; [exact E|]. unfold ofpbuf_headroom, ofpbuf_tailroom, ofpbuf_end, ofpbuf_tail. simpl.
  split_and!; try done; try lia.
  - split_and!; simpl; try done; lia.
  - by apply contents_eq.
  - unfold layers. simpl. by rewrite !move_layer.
Qed.

(** Room for [n] more bytes can be had: it is there, or the block may move. *)
Definition can_grow (b : ofpbuf) (room n : Z) : Prop :=
  n <= room \/ (source b <> OFPBUF_STACK /\ ofpbuf_headroom b + ofpbuf_tailroom b + size b + n + 64 < 2 ^ 64).

Lemma ofpbuf_prealloc_tailroom_spec b n :
  ofpbuf_wf b -> 0 <= n -> can_grow b (ofpbuf_tailroom b) n ->
  exists b', ofpbuf_prealloc_tailroom junk b n = Ok b' /\ ofpbuf_wf b' /\
    contents b' = contents b /\ layers b' = layers b /\
    size b' = size b /\ ofpbuf_headroom b' = ofpbuf_headroom b /\ n <= ofpbuf_tailroom b'.
Proof.
  intros Hwf Hn Hg. unfold ofpbuf_prealloc_tailroom. destruct (Z.ltb_spec (ofpbuf_tailroom b) n).
  - destruct Hg as [|[Hs Ho]]; [lia|]. pose proof Hwf as (_&?&?&?&?).
    unfold ofpbuf_headroom, ofpbuf_tailroom, ofpbuf_end, ofpbuf_tail in *.
    destruct (ofpbuf_resize_spec b (data b) (Z.max n 64)) as (b' & -> & ? & ? & ? & ? & ? & ? & ?);
      [done|done|lia..|].
    unfold ofpbuf_headroom, ofpbuf_tailroom, ofpbuf_end, ofpbuf_tail in *.
    exists b'. split_and!; try done. lia.
  - exists b. split_and!; done.
Qed.

Lemma ofpbuf_prealloc_headroom_spec b n :
  ofpbuf_wf b -> 0 <= n -> can_grow b (ofpbuf_headroom b) n ->
  exists b', ofpbuf_prealloc_headroom junk b n = Ok b' /\ ofpbuf_wf b' /\
    contents b' = contents b /\ layers b' = layers b /\
    size b' = size b /\ ofpbuf_tailroom b' = ofpbuf_tailroom b /\ n <= ofpbuf_headroom b'.
Proof.
  intros Hwf Hn Hg. unfold ofpbuf_prealloc_headroom. destruct (Z.ltb_spec (ofpbuf_headroom b) n).
  - destruct Hg as [|[Hs Ho]]; [lia|]. pose proof Hwf as (_&?&?&?&?).
    destruct (ofpbuf_resize_spec b (Z.max n 64) (ofpbuf_tailroom b)) as (b' & -> & ? & ? & ? & ? & ? & ? & ?);
      unfold ofpbuf_headroom, ofpbuf_tailroom, ofpbuf_end, ofpbuf_tail in *; [done|done|lia..|].
    exists b'. split_and!; try done. lia.
  - exists b. split_and!; done.
Qed.

(** A buffer from [ofpbuf_use_stack]/[ofpbuf_use_const] cannot move. *)
Lemma ofpbuf_prealloc_headroom_stack b n :
  source b = OFPBUF_STACK -> ofpbuf_headroom b < n ->
  ofpbuf_prealloc_headroom junk b n = Err NotReached.
Proof.
  intros Hs Hn. unfold ofpbuf_prealloc_headroom.
  rewrite (proj2 (Z.ltb_lt _ _) Hn). unfold ofpbuf_resize__. by rewrite Hs.
Qed.

Lemma can_grow_size b room n :
  ofpbuf_wf b -> can_grow b room n -> 0 <= n -> zlen (base b) < 2 ^ 64 ->
  room <= allocated b - size b -> size b + n < 2 ^ 64.
Proof.
  intros (_&?&?&?&?) [?|[_ ?]] ???; [lia|].
  unfold ofpbuf_headroom, ofpbuf_tailroom, ofpbuf_end, ofpbuf_tail in *. lia.
Qed.

(** Writing [p] at the tail of a buffer with room for it appends it. *)
Lemma put_window b p :
  ofpbuf_wf b -> bytes p -> zlen p <= ofpbuf_tailroom b ->
  exists m, store_bytes (base b) (ofpbuf_tail b) p = Ok m /\
    let b' := set_base m (set_window (data b) (size b + zlen p) b) in
    ofpbuf_wf b' /\ contents b' = contents b ++ p.
Proof.
  intros Hwf Hp Hr. pose proof Hwf as (Hbb&?&?&?&?). pose proof (zlen_nonneg p).
  unfold ofpbuf_tailroom, ofpbuf_end, ofpbuf_tail in *.
  destruct (store_bytes_ok (base b) (data b + size b) p) as [m Hm]; [lia..|].
  exists m. split; [done|]. pose proof (store_bytes_zlen _ _ _ _ Hm). split.
  - split_and!; simpl; try lia. by apply (store_bytes_bytes _ _ _ _ Hbb Hp Hm).
  - apply contents_eq. simpl. apply load_bytes_app.
    + rewrite (load_store_other _ _ _ _ _ _ Hm) by lia. by apply contents_load.
    + by apply load_store_same with (1 := Hm).
Qed.

Lemma ofpbuf_put_spec b p :
  ofpbuf_wf b -> bytes p -> zlen (base b) < 2 ^ 64 ->
  can_grow b (ofpbuf_tailroom b) (zlen p) ->
  exists b' dst, ofpbuf_put junk b p = Ok (b', dst) /\ ofpbuf_wf b' /\
    contents b' = contents b ++ p /\ layers b' = layers b /\
    ofpbuf_headroom b' = ofpbuf_headroom b /\ dst = data b' + size b.
Proof.
  intros Hwf Hp Hl Hg. pose proof (zlen_nonneg p). pose proof Hwf as (_&?&?&?&?).
  assert (size b + zlen p < 2 ^ 64) as Hs.
  { eapply (can_grow_size b); [done|exact Hg|done|done|].
    unfold ofpbuf_tailroom, ofpbuf_end, ofpbuf_tail. lia. }
  destruct (ofpbuf_prealloc_tailroom_spec b (zlen p)) as (b1 & E & Hwf1 & Hc & Hly & Hsz & Hh & Hr);
    [done..|].
  destruct (put_window b1 p) as (m & Hm & Hwf2 & Hc2); [done..|].
  unfold ofpbuf_put, ofpbuf_put_uninit. rewrite E. simpl. rewrite Hm. simpl.
  rewrite u64_small by lia. eexists _, _. split; [reflexivity|].
  split; [exact Hwf2|]. split; [by rewrite Hc2, Hc|]. split; [done|]. split; [done|].
  unfold ofpbuf_tail. simpl. lia.
Qed.

(** Writing [p] just before the window prepends it. *)
Lemma push_window b p :
  ofpbuf_wf b -> bytes p -> zlen p <= ofpbuf_headroom b ->
  exists m, store_bytes (base b) (data b - zlen p) p = Ok m /\
    let b' := set_base m (set_window (data b - zlen p) (size b + zlen p) b) in
    ofpbuf_wf b' /\ contents b' = p ++ contents b.
Proof.
  intros Hwf Hp Hr. pose proof Hwf as (Hbb&?&?&?&?). pose proof (zlen_nonneg p).
  unfold ofpbuf_headroom in *.
  destruct (store_bytes_ok (base b) (data b - zlen p) p) as [m Hm]; [lia..|].
  exists m. split; [done|]. pose proof (store_bytes_zlen _ _ _ _ Hm). split.
  - split_and!; simpl; try lia. by apply (store_bytes_bytes _ _ _ _ Hbb Hp Hm).
  - apply contents_eq. simpl. rewrite Z.add_comm. apply load_bytes_app.
    + by apply load_store_same with (1 := Hm).
    + replace (data b - zlen p + zlen p) with (data b) by lia.
      rewrite (load_store_other _ _ _ _ _ _ Hm) by lia. by apply contents_load.
Qed.

Lemma ofpbuf_push_spec b p :
  ofpbuf_wf b -> bytes p -> zlen (base b) < 2 ^ 64 ->
  can_grow b (ofpbuf_headroom b) (zlen p) ->
  exists b', ofpbuf_push junk b p = Ok (b', data b') /\ ofpbuf_wf b' /\
    contents b' = p ++ contents b /\ ofpbuf_tailroom b' = ofpbuf_tailroom b /\
    layers b' = map (fmap (fun d => d + zlen p)) (layers b).
Proof.
  intros Hwf Hp Hl Hg. pose proof (zlen_nonneg p). pose proof Hwf as (_&?&?&?&?).
  assert (size b + zlen p < 2 ^ 64) as Hs.
  { eapply (can_grow_size b); [done|exact Hg|done|done|].
    unfold ofpbuf_headroom. lia. }
  destruct (ofpbuf_prealloc_headroom_spec b (zlen p)) as (b1 & E & Hwf1 & Hc & Hly & Hsz & Ht & Hr);
    [done..|].
  destruct (push_window b1 p) as (m & Hm & Hwf2 & Hc2); [done..|].
  rewrite <-Hly. unfold ofpbuf_push, ofpbuf_push_uninit. rewrite E. simpl. rewrite Hm. simpl.
  rewrite u64_small by lia.
  exists (set_base m (set_window (data b1 - zlen p) (size b1 + zlen p) b1)).
  split; [reflexivity|]. split; [exact Hwf2|]. split; [by rewrite Hc2, Hc|].
  split; [unfold ofpbuf_tailroom, ofpbuf_end, ofpbuf_tail in *; simpl; lia|].
  unfold layers. simpl. by rewrite !push_layer.
Qed.
End AllocLemmas.

Lemma ofpbuf_pull_spec b n :
  ofpbuf_wf b -> 0 <= n <= size b ->
  exists b', ofpbuf_pull b n = Ok (b', data b) /\ ofpbuf_wf b' /\
    contents b' = drop (Z.to_nat n) (contents b) /\
    ofpbuf_headroom b' = ofpbuf_headroom b + n /\ ofpbuf_tailroom b' = ofpbuf_tailroom b.
Proof.
  intros Hwf Hn. pose proof Hwf as (Hbb&?&?&?&?). unfold ofpbuf_pull.
  rewrite (proj2 (Z.leb_le _ _)) by lia. simpl. eexists. split; [reflexivity|]. split_and!.
  - split_and!; simpl; try lia. done.
  - apply contents_eq. simpl. pose proof (contents_load b Hwf) as Hc.
    replace (size b) with (n + (size b - n)) in Hc by lia.
    by apply load_bytes_split in Hc as [_ ?]; [|lia..].
  - done.
  - unfold ofpbuf_tailroom, ofpbuf_end, ofpbuf_tail. simpl. lia.
Qed.

Lemma ofpbuf_reserve_spec junk (junk_byte : forall i, is_u8 (junk i)) b n :
  ofpbuf_wf b -> size b = 0 -> 0 <= n -> can_grow b (ofpbuf_tailroom b) n ->
  exists b', ofpbuf_reserve junk b n = Ok b' /\ ofpbuf_wf b' /\
    contents b' = [] /\ size b' = 0 /\ ofpbuf_headroom b' = ofpbuf_headroom b + n.
Proof.
  intros Hwf Hsz Hn Hg. unfold ofpbuf_reserve. rewrite Hsz. simpl.
  destruct (ofpbuf_prealloc_tailroom_spec junk junk_byte b n)
    as (b1 & E & Hwf1 & Hc & Hly & Hs1 & Hh & Hr); [done..|].
  rewrite E. simpl. eexists. split; [reflexivity|].
  pose proof Hwf1 as (?&?&?&?&?).
  unfold ofpbuf_tailroom, ofpbuf_headroom, ofpbuf_end, ofpbuf_tail in *.
  split_and!; simpl; try lia.
  - split_and!; simpl; try lia. done.
  - unfold contents. simpl. by replace (Z.to_nat (size b1)) with 0%nat by lia.
Qed.

Lemma ofpbuf_new_with_headroom_spec junk (junk_byte : forall i, is_u8 (junk i)) n h :
  0 <= n -> 0 <= h -> n + h < 2 ^ 63 ->
  exists b, ofpbuf_new_with_headroom junk n h = Ok b /\ ofpbuf_wf b /\ size b = 0 /\
    contents b = [] /\ ofpbuf_headroom b = h /\ n <= ofpbuf_tailroom b /\
    zlen (base b) < 2 ^ 64 /\ source b = OFPBUF_MALLOC.
Proof.
  intros Hn Hh Hov. unfold ofpbuf_new_with_headroom. rewrite u64_small by lia.
  set (b0 := ofpbuf_new junk (n + h)).
  assert (ofpbuf_wf b0) as Hwf.
  { split_and!; simpl; try lia; [by apply xmalloc_bytes|].
    symmetry. apply xmalloc_zlen. lia. }
  unfold ofpbuf_reserve, ofpbuf_prealloc_tailroom. simpl.
  unfold ofpbuf_tailroom, ofpbuf_end, ofpbuf_tail. simpl.
  rewrite (proj2 (Z.ltb_ge _ _)) by lia. simpl. eexists. split; [reflexivity|].
  pose proof (xmalloc_zlen junk (n + h) ltac:(lia)) as Hz.
  split_and!; simpl; try done; unfold ofpbuf_headroom; simpl; try lia.
  split_and!; simpl; try lia. apply Hwf.
Qed.

(** [ofpbuf_clone_with_headroom] copies the contents and the layer pointers. *)
Lemma ofpbuf_clone_with_headroom_spec junk (junk_byte : forall i, is_u8 (junk i)) b h :
  ofpbuf_wf b -> 0 <= h -> size b + h < 2 ^ 63 ->
  exists b', ofpbuf_clone_with_headroom junk b h = Ok b' /\ ofpbuf_wf b' /\
    contents b' = contents b /\ layers b' = layers b /\ ofpbuf_headroom b' = h.
Proof.
  intros Hwf Hh Hov. unfold ofpbuf_clone_with_headroom, ofpbuf_clone_data_with_headroom.
  rewrite (contents_load b Hwf). simpl. pose proof (zlen_contents b Hwf) as Hz.
  pose proof Hwf as (_&?&?&?&?).
  destruct (ofpbuf_new_with_headroom_spec junk junk_byte (zlen (contents b)) h)
    as (b1 & E1 & Hwf1 & Hs1 & Hc1 & Hh1 & Ht1 & Hl1 & _); [lia..|].
  rewrite E1. simpl.
  destruct (ofpbuf_put_spec junk junk_byte b1 (contents b))
    as (b2 & dst & E2 & Hwf2 & Hc2 & Hly2 & Hh2 & _);
    [done|by apply contents_bytes|done|by left|].
  rewrite E2. simpl. eexists. split; [reflexivity|]. split_and!; simpl.
  - destruct Hwf2 as (?&?&?&?&?). split_and!; done.
  - rewrite Hc1 in Hc2. apply Hc2.
  - unfold layers. simpl. unfold ofpbuf_headroom in *.
    by rewrite !move_layer.
  - unfold ofpbuf_headroom in *. simpl. lia.
Qed.

(** ** Properties *)

(** growing a buffer at its head and pulling the same number of bytes gives
    back the contents: for a buffer that is well formed and has room for [p] in
    front or may move, [ofpbuf_push] puts exactly [p] in front of the contents
    and [ofpbuf_pull] of [size p] bytes then returns the original contents,
    with the original tailroom, whether or not the block of memory moved. *)
Theorem ofpbuf_push_pull junk b p :
  (forall i, is_u8 (junk i)) ->
  ofpbuf_wf b -> bytes p -> zlen (base b) < 2 ^ 64 ->
  can_grow b (ofpbuf_headroom b) (zlen p) ->
  exists b1 b2 d, ofpbuf_push junk b p = Ok (b1, data b1) /\
    contents b1 = p ++ contents b /\
    ofpbuf_pull b1 (zlen p) = Ok (b2, d) /\ ofpbuf_wf b2 /\
    contents b2 = contents b /\ ofpbuf_tailroom b2 = ofpbuf_tailroom b.
Proof.
  intros Hj Hwf Hp Hl Hg.
  destruct (ofpbuf_push_spec junk Hj b p Hwf Hp Hl Hg) as (b1 & E1 & Hwf1 & Hc1 & Ht1 & _).
  pose proof (zlen_contents b1 Hwf1) as Hs. rewrite Hc1, zlen_app in Hs.
  pose proof (zlen_nonneg p). pose proof (zlen_nonneg (contents b)).
  destruct (ofpbuf_pull_spec b1 (zlen p) Hwf1) as (b2 & E2 & Hwf2 & Hc2 & _ & Ht2); [lia|].
  exists b1, b2, (data b1). split_and!; try done; [|lia].
  rewrite Hc2, Hc1. unfold zlen. rewrite Nat2Z.id. apply drop_app_length.
Qed.

(** resizing (the common path of every operation that grows a buffer) keeps
    the contents and the distance of every layer pointer from [data], and leaves
    exactly the requested headroom and tailroom. *)
Theorem ofpbuf_resize_preserves junk b nh nt :
  (forall i, is_u8 (junk i)) ->
  ofpbuf_wf b -> source b <> OFPBUF_STACK ->
  0 <= nh -> 0 <= nt -> nh + size b + nt < 2 ^ 64 ->
  exists b', ofpbuf_resize__ junk b nh nt = Ok b' /\ ofpbuf_wf b' /\
    contents b' = contents b /\ layers b' = layers b /\
    ofpbuf_headroom b' = nh /\ ofpbuf_tailroom b' = nt.
Proof.
  intros Hj Hwf Hs Hh Ht Ho.
  destruct (ofpbuf_resize_spec junk Hj b nh nt Hwf Hs Hh Ht Ho)
    as (b' & E & ? & ? & ? & _ & _ & ? & ?). eauto 10.
Qed.

(** [ofpbuf_trim] on a malloc()ed buffer keeps the contents but drops the
    headroom, although its comment says that the headroom is preserved. *)
Theorem ofpbuf_trim_drops_headroom junk b :
  (forall i, is_u8 (junk i)) ->
  ofpbuf_wf b -> source b = OFPBUF_MALLOC -> 0 < ofpbuf_headroom b -> size b < 2 ^ 64 ->
  exists b', ofpbuf_trim junk b = Ok b' /\ contents b' = contents b /\
    ofpbuf_tailroom b' = 0 /\ ofpbuf_headroom b' = 0 /\ ofpbuf_headroom b' <> ofpbuf_headroom b.
Proof.
  intros Hj Hwf Hs Hh Hov. unfold ofpbuf_trim. rewrite Hs.
  rewrite (proj2 (Z.eqb_neq (ofpbuf_headroom b) 0)) by lia. simpl.
  destruct (ofpbuf_resize_spec junk Hj b 0 0) as (b' & E & ? & ? & ? & _ & _ & ? & ?);
    [done|congruence|lia..|].
  exists b'. split_and!; try done; lia.
Qed.

(** ** Witnesses *)

Definition zeros : nat -> Z := fun _ => 0.

(** A malloc()ed buffer of 16 bytes holding [1; 2; 3] with 2 bytes of headroom. *)
Definition sample_ofpbuf : ofpbuf :=
  set_window 2 3 (ofpbuf_use ([0; 0; 1; 2; 3] ++ replicate 11 0) 16).

Lemma zeros_byte : forall i, is_u8 (zeros i).
Proof. intros i. unfold is_u8, is_u, zeros. lia. Qed.

Lemma sample_ofpbuf_wf : ofpbuf_wf sample_ofpbuf.
Proof. split_and!; [apply bytes_bool; reflexivity|reflexivity|simpl; lia..]. Qed.

(** Four bytes do not fit into two bytes of headroom: the block moves. *)
Lemma ofpbuf_push_pull_witness :
  exists b1 b2 d, ofpbuf_push zeros sample_ofpbuf [9; 8; 7; 6] = Ok (b1, data b1) /\
    contents b1 = [9; 8; 7; 6; 1; 2; 3] /\
    ofpbuf_pull b1 4 = Ok (b2, d) /\ ofpbuf_wf b2 /\
    contents b2 = [1; 2; 3] /\ ofpbuf_tailroom b2 = 11.
Proof.
  apply (ofpbuf_push_pull zeros sample_ofpbuf [9; 8; 7; 6] zeros_byte sample_ofpbuf_wf);
    [apply bytes_bool; reflexivity|reflexivity|].
  right. split; [discriminate|reflexivity].
Defined.

Lemma ofpbuf_resize_preserves_witness :
  exists b', ofpbuf_resize__ zeros sample_ofpbuf 64 0 = Ok b' /\ ofpbuf_wf b' /\
    contents b' = [1; 2; 3] /\ layers b' = layers sample_ofpbuf /\
    ofpbuf_headroom b' = 64 /\ ofpbuf_tailroom b' = 0.
Proof.
  apply (ofpbuf_resize_preserves zeros sample_ofpbuf 64 0 zeros_byte sample_ofpbuf_wf);
    [discriminate|lia|lia|reflexivity].
Defined.

Lemma ofpbuf_trim_drops_headroom_witness :
  exists b', ofpbuf_trim zeros sample_ofpbuf = Ok b' /\ contents b' = [1; 2; 3] /\
    ofpbuf_tailroom b' = 0 /\ ofpbuf_headroom b' = 0 /\ ofpbuf_headroom b' <> 2.
Proof.
  apply (ofpbuf_trim_drops_headroom zeros sample_ofpbuf zeros_byte sample_ofpbuf_wf);
    [reflexivity|reflexivity|reflexivity].
Defined.
