(* ===== verification/Packets.v ===== *)
(** Packet header operations: [lib/packets.c], [lib/packets.h] and
    [datapath/dpdk/ofpbuf_helper.c].

    Headers are fields of the buffer's memory at the layer pointers' offsets.
    Fields in network byte order are loaded and stored as the machine sees them;
    values of type [ovs_be16] and [ovs_be32] are therefore byte-swapped, as in
    the code. *)
From S2P Require Import Prelude Csum Ofpbuf.

(** ** Constants ([packets.h]) *)
Definition ETH_ADDR_LEN : Z := 6.
Definition ETH_HEADER_LEN : Z := 14.
Definition VLAN_HEADER_LEN : Z := 4.
Definition VLAN_ETH_HEADER_LEN : Z := 18.
Definition ETH_TYPE_VLAN : Z := 0x8100.
Definition ETH_TYPE_RARP : Z := 0x8035.
Definition ETH_TYPE_MPLS : Z := 0x8847.
Definition ETH_TYPE_MPLS_MCAST : Z := 0x8848.
Definition VLAN_CFI : Z := 0x1000.
Definition MPLS_TTL_MASK : Z := 0x000000ff.
Definition MPLS_BOS_MASK : Z := 0x00000100.
Definition MPLS_TC_MASK : Z := 0x00000e00.
Definition MPLS_LABEL_MASK : Z := 0xfffff000.
Definition MPLS_HLEN : Z := 4.
Definition IPPROTO_TCP : Z := 6.
Definition IPPROTO_UDP : Z := 17.
Definition IPV6_LABEL_MASK : Z := 0x000fffff.

(** Offsets of header fields. *)
Definition ip_tos_off : Z := 1.
Definition ip_ttl_off : Z := 8.
Definition ip_proto_off : Z := 9.
Definition ip_csum_off : Z := 10.
Definition ip_src_off : Z := 12.
Definition ip_dst_off : Z := 16.
Definition tcp_csum_off : Z := 16.
Definition udp_csum_off : Z := 6.

(** Accesses through the buffer's memory. *)
Definition ld (n : nat) (b : ofpbuf) (off : Z) : res Z := load_le n (base b) off.
Definition st (n : nat) (b : ofpbuf) (off v : Z) : res ofpbuf :=
  m ← store_le n (base b) off v; Ok (set_base m b).

(** ** VLAN headers *)

(** [eth_push_vlan]. *)
Definition eth_push_vlan (junk : nat -> Z) (packet : ofpbuf) (tci : Z) : res ofpbuf :=
  eh ← load_bytes (base packet) (data packet) ETH_HEADER_LEN;
  let tmp := take 12 eh
             ++ le_split 2 (htons ETH_TYPE_VLAN)
             ++ le_split 2 (Z.land tci (htons (u16 (Z.lnot VLAN_CFI))))
             ++ drop 12 eh in
  '(packet, veh) ← ofpbuf_push_uninit junk packet VLAN_HEADER_LEN;
  m ← store_bytes (base packet) veh tmp;
  let packet := set_base m packet in
  Ok (set_l2 (Some (data packet)) packet).

(** [eth_pop_vlan]. *)
Definition eth_pop_vlan (packet : ofpbuf) : res ofpbuf :=
  if VLAN_ETH_HEADER_LEN <=? size packet then
    veh ← deref (l2 packet);
    veth_type ← ld 2 packet (veh + 12);
    if veth_type =? htons ETH_TYPE_VLAN then
      addrs ← load_bytes (base packet) veh 12;
      next_type ← load_bytes (base packet) (veh + 16) 2;
      let tmp := addrs ++ next_type in
      '(packet, _) ← ofpbuf_pull packet VLAN_HEADER_LEN;
      let packet := set_l2 (Some (veh + VLAN_HEADER_LEN)) packet in
      m ← store_bytes (base packet) (data packet) tmp;
      Ok (set_base m packet)
    else Ok packet
  else Ok packet.

(** ** MPLS *)

Definition eth_type_mpls (eth_type : Z) : bool :=
  (eth_type =? htons ETH_TYPE_MPLS) || (eth_type =? htons ETH_TYPE_MPLS_MCAST).

Definition is_mpls (packet : ofpbuf) : bool :=
  match l2_5 packet with Some _ => true | None => false end.

(** The loop of [eth_mpls_depth], from the entry at [mh]. *)
Fixpoint mpls_depth_loop (fuel : nat) (packet : ofpbuf) (mh depth : Z) : res Z :=
  match fuel with
  | O => Err OutOfFuel
  | S fuel =>
      if u64 (mh - data packet + MPLS_HLEN) <=? size packet then
        let depth := u16 (depth + 1) in
        lse ← ld 4 packet mh;
        if negb (Z.land lse (htonl MPLS_BOS_MASK) =? 0) then Ok depth
        else mpls_depth_loop fuel packet (mh + MPLS_HLEN) depth
      else Ok depth
  end.

(** [eth_mpls_depth]: each iteration moves on by 4 bytes inside the packet. *)
Definition eth_mpls_depth (packet : ofpbuf) : res Z :=
  match l2_5 packet with
  | None => Ok 0
  | Some mh => mpls_depth_loop (S (Z.to_nat (size packet / MPLS_HLEN))) packet mh 0
  end.

(** [set_ethertype]. *)
Definition set_ethertype (packet : ofpbuf) (eth_type : Z) : res ofpbuf :=
  t ← ld 2 packet (data packet + 12);
  if t =? htons ETH_TYPE_VLAN then
    p ← deref (match l2_5 packet with Some p => Some p | None => l3 packet end);
    st 2 packet (p - 2) eth_type
  else st 2 packet (data packet + 12) eth_type.

(** Fields of a label stack entry. *)
Definition set_mpls_lse_ttl (lse ttl : Z) : Z :=
  Z.lor (Z.land lse (u32 (Z.lnot (htonl MPLS_TTL_MASK)))) (htonl (Z.land ttl MPLS_TTL_MASK)).
Definition set_mpls_lse_tc (lse tc : Z) : Z :=
  Z.lor (Z.land lse (u32 (Z.lnot (htonl MPLS_TC_MASK))))
        (htonl (Z.land (Z.shiftl tc 9) MPLS_TC_MASK)).
Definition set_mpls_lse_label (lse label : Z) : Z :=
  Z.lor (Z.land lse (u32 (Z.lnot (htonl MPLS_LABEL_MASK))))
        (htonl (Z.land (u32 (Z.shiftl (ntohl label) 12)) MPLS_LABEL_MASK)).
Definition set_mpls_lse_bos (lse bos : Z) : Z :=
  Z.lor (Z.land lse (u32 (Z.lnot (htonl MPLS_BOS_MASK))))
        (htonl (Z.land (Z.shiftl bos 8) MPLS_BOS_MASK)).

(** [set_mpls_lse_values]. *)
Definition set_mpls_lse_values (ttl tc bos label : Z) : Z :=
  let lse := htonl 0 in
  let lse := set_mpls_lse_ttl lse ttl in
  let lse := set_mpls_lse_tc lse tc in
  let lse := set_mpls_lse_bos lse bos in
  set_mpls_lse_label lse label.

Definition mpls_lse_to_label (lse : Z) : Z := Z.shiftr (Z.land (ntohl lse) MPLS_LABEL_MASK) 12.
Definition mpls_lse_to_tc (lse : Z) : Z := Z.shiftr (Z.land (ntohl lse) MPLS_TC_MASK) 9.
Definition mpls_lse_to_ttl (lse : Z) : Z := Z.land (ntohl lse) MPLS_TTL_MASK.
Definition mpls_lse_to_bos (lse : Z) : Z :=
  if Z.land lse (htonl MPLS_BOS_MASK) =? 0 then 0 else 1.

(** [push_mpls_lse]: opens 4 bytes between the L2 header and [l2_5]. *)
Definition push_mpls_lse (junk : nat -> Z) (packet : ofpbuf) (lse : Z) : res ofpbuf :=
  '(packet, header) ← ofpbuf_push_uninit junk packet MPLS_HLEN;
  p25 ← deref (l2_5 packet);
  p2 ← deref (l2 packet);
  let len := p25 - p2 in
  m ← memmove (base packet) header p2 len;
  m ← store_le 4 m (header + len) lse;
  Ok (set_l2_5 (Some (p25 - MPLS_HLEN)) (set_l2 (Some (p2 - MPLS_HLEN)) (set_base m packet))).

(** [set_mpls_lse]. *)
Definition set_mpls_lse (packet : ofpbuf) (mpls_lse : Z) : res ofpbuf :=
  match l2_5 packet with
  | Some mh => st 4 packet mh mpls_lse
  | None => Ok packet
  end.

(** [push_mpls]. *)
Definition push_mpls (junk : nat -> Z) (packet : ofpbuf) (ethtype lse : Z) : res ofpbuf :=
  if negb (eth_type_mpls ethtype) then Ok packet else
  packet ← (if negb (is_mpls packet) then
              packet ← set_ethertype packet ethtype;
              Ok (set_l2_5 (l3 packet) packet)
            else Ok packet);
  push_mpls_lse junk packet lse.

(** [pop_mpls]. *)
Definition pop_mpls (packet : ofpbuf) (ethtype : Z) : res ofpbuf :=
  match l2_5 packet with
  | None => Ok packet
  | Some mh =>
      p2 ← deref (l2 packet);
      let len := mh - p2 in
      packet ← set_ethertype packet ethtype;
      lse ← ld 4 packet mh;
      let packet := set_l2_5 (if negb (Z.land lse (htonl MPLS_BOS_MASK) =? 0) then None
                              else Some (mh + MPLS_HLEN)) packet in
      m ← memmove (base packet) (data packet + MPLS_HLEN) (data packet) len;
      let packet := set_base m packet in
      Ok (set_l2 (Some (p2 + MPLS_HLEN))
            (set_window (data packet + MPLS_HLEN) (size packet - MPLS_HLEN) packet))
  end.

(** ** IPv4 and transport headers *)

(** The UDP part of a checksum update: a zero result is sent as 0xffff. *)
Definition udp_csum_fix (c : Z) : Z := if c =? 0 then htons 0xffff else c.

(** The transport checksum update of [packet_set_ipv4_addr]. *)
Definition l4_csum_update32 (packet : ofpbuf) (ip_proto old_addr new_addr : Z) : res ofpbuf :=
  match l7 packet with
  | Some _ =>
      if ip_proto =? IPPROTO_TCP then
        th ← deref (l4 packet);
        c ← ld 2 packet (th + tcp_csum_off);
        st 2 packet (th + tcp_csum_off) (recalc_csum32 c old_addr new_addr)
      else if ip_proto =? IPPROTO_UDP then
        uh ← deref (l4 packet);
        c ← ld 2 packet (uh + udp_csum_off);
        if c =? 0 then Ok packet
        else st 2 packet (uh + udp_csum_off) (udp_csum_fix (recalc_csum32 c old_addr new_addr))
      else Ok packet
  | None => Ok packet
  end.

(** [packet_set_ipv4_addr], for the address field at offset [addr]. *)
Definition packet_set_ipv4_addr (packet : ofpbuf) (addr new_addr : Z) : res ofpbuf :=
  nh ← deref (l3 packet);
  old_addr ← ld 4 packet addr;
  ip_proto ← ld 1 packet (nh + ip_proto_off);
  packet ← l4_csum_update32 packet ip_proto old_addr new_addr;
  c ← ld 2 packet (nh + ip_csum_off);
  packet ← st 2 packet (nh + ip_csum_off) (recalc_csum32 c old_addr new_addr);
  st 4 packet addr new_addr.

(** [packet_set_ipv4]. *)
Definition packet_set_ipv4 (packet : ofpbuf) (src dst tos ttl : Z) : res ofpbuf :=
  nh ← deref (l3 packet);
  old_src ← ld 4 packet (nh + ip_src_off);
  packet ← (if negb (old_src =? src)
            then packet_set_ipv4_addr packet (nh + ip_src_off) src else Ok packet);
  old_dst ← ld 4 packet (nh + ip_dst_off);
  packet ← (if negb (old_dst =? dst)
            then packet_set_ipv4_addr packet (nh + ip_dst_off) dst else Ok packet);
  old_tos ← ld 1 packet (nh + ip_tos_off);
  packet ← (if negb (old_tos =? tos) then
              c ← ld 2 packet (nh + ip_csum_off);
              packet ← st 2 packet (nh + ip_csum_off) (recalc_csum16 c (htons old_tos) (htons tos));
              st 1 packet (nh + ip_tos_off) tos
            else Ok packet);
  old_ttl ← ld 1 packet (nh + ip_ttl_off);
  if negb (old_ttl =? ttl) then
    c ← ld 2 packet (nh + ip_csum_off);
    packet ← st 2 packet (nh + ip_csum_off)
               (recalc_csum16 c (htons (Z.shiftl old_ttl 8)) (htons (Z.shiftl ttl 8)));
    st 1 packet (nh + ip_ttl_off) ttl
  else Ok packet.

(** [packet_set_port], for the port field at [port] and the checksum at [csum]. *)
Definition packet_set_port (packet : ofpbuf) (port new_port csum : Z) : res ofpbuf :=
  p ← ld 2 packet port;
  if negb (p =? new_port) then
    c ← ld 2 packet csum;
    packet ← st 2 packet csum (recalc_csum16 c p new_port);
    st 2 packet port new_port
  else Ok packet.

(** [packet_set_tcp_port]. *)
Definition packet_set_tcp_port (packet : ofpbuf) (src dst : Z) : res ofpbuf :=
  th ← deref (l4 packet);
  packet ← packet_set_port packet th src (th + tcp_csum_off);
  packet_set_port packet (th + 2) dst (th + tcp_csum_off).

(** [packet_set_udp_port]. *)
Definition packet_set_udp_port (packet : ofpbuf) (src dst : Z) : res ofpbuf :=
  uh ← deref (l4 packet);
  c ← ld 2 packet (uh + udp_csum_off);
  if negb (c =? 0) then
    packet ← packet_set_port packet uh src (uh + udp_csum_off);
    packet ← packet_set_port packet (uh + 2) dst (uh + udp_csum_off);
    c ← ld 2 packet (uh + udp_csum_off);
    if c =? 0 then st 2 packet (uh + udp_csum_off) (htons 0xffff) else Ok packet
  else
    packet ← st 2 packet uh src;
    st 2 packet (uh + 2) dst.

(** ** IPv6 *)
Definition IPPROTO_HOPOPTS : Z := 0.
Definition IPPROTO_ROUTING : Z := 43.
Definition IPPROTO_FRAGMENT : Z := 44.
Definition IPPROTO_AH : Z := 51.
Definition IPPROTO_DSTOPTS : Z := 60.
Definition ip6_hdr_len : Z := 40.

(** One extension header of type [nexthdr] at [dat]: [None] when it is a routing
    header with segments left, else the next header's type and this one's length. *)
Definition rh_ext_header (packet : ofpbuf) (nexthdr dat : Z) : res (option (Z * Z)) :=
  if nexthdr =? IPPROTO_AH then
    nxt ← ld 1 packet dat; elen ← ld 1 packet (dat + 1); Ok (Some (nxt, (elen + 2) * 4))
  else if nexthdr =? IPPROTO_FRAGMENT then
    nxt ← ld 1 packet dat; Ok (Some (nxt, 8))
  else if nexthdr =? IPPROTO_ROUTING then
    segleft ← ld 1 packet (dat + 3);
    if 0 <? segleft then Ok None
    else nxt ← ld 1 packet dat; elen ← ld 1 packet (dat + 1); Ok (Some (nxt, (elen + 1) * 8))
  else
    nxt ← ld 1 packet dat; elen ← ld 1 packet (dat + 1); Ok (Some (nxt, (elen + 1) * 8)).

Definition is_ext_header (nexthdr : Z) : bool :=
  (nexthdr =? IPPROTO_HOPOPTS) || (nexthdr =? IPPROTO_ROUTING) || (nexthdr =? IPPROTO_DSTOPTS)
  || (nexthdr =? IPPROTO_AH) || (nexthdr =? IPPROTO_FRAGMENT).

(** The loop of [packet_rh_present] over the extension headers, at [dat] with
    [remaining] bytes up to the transport header. *)
Fixpoint rh_present_loop (fuel : nat) (packet : ofpbuf) (nexthdr dat remaining : Z) : res bool :=
  match fuel with
  | O => Err OutOfFuel
  | S fuel =>
      if negb (is_ext_header nexthdr) then Ok false
      else if remaining <? 8 then Ok false
      else
        r ← rh_ext_header packet nexthdr dat;
        match r with
        | None => Ok true
        | Some (nexthdr, len) =>
            if remaining <? len then Ok false
            else rh_present_loop fuel packet nexthdr (dat + len) (remaining - len)
        end
  end.

(** [packet_rh_present]: every extension header is at least 8 bytes long. *)
Definition packet_rh_present (packet : ofpbuf) : res bool :=
  d ← deref (l3 packet);
  p4 ← deref (l4 packet);
  let remaining := u64 (p4 - d) in
  if remaining <? ip6_hdr_len then Ok false
  else
    nexthdr ← ld 1 packet (d + 6);
    rh_present_loop (S (Z.to_nat (remaining / 8))) packet nexthdr (d + ip6_hdr_len)
      (remaining - ip6_hdr_len).

(** Four consecutive 32-bit words. *)
Definition ld128 (b : ofpbuf) (off : Z) : res (list Z) :=
  w0 ← ld 4 b off; w1 ← ld 4 b (off + 4); w2 ← ld 4 b (off + 8); w3 ← ld 4 b (off + 12);
  Ok [w0; w1; w2; w3].

(** [packet_update_csum128]. *)
Definition packet_update_csum128 (packet : ofpbuf) (proto addr : Z) (new_addr : list Z)
  : res ofpbuf :=
  match l7 packet with
  | Some _ =>
      if proto =? IPPROTO_TCP then
        th ← deref (l4 packet);
        old ← ld128 packet addr;
        c ← ld 2 packet (th + tcp_csum_off);
        st 2 packet (th + tcp_csum_off) (recalc_csum128 c old new_addr)
      else if proto =? IPPROTO_UDP then
        uh ← deref (l4 packet);
        c ← ld 2 packet (uh + udp_csum_off);
        if c =? 0 then Ok packet
        else
          old ← ld128 packet addr;
          st 2 packet (uh + udp_csum_off) (udp_csum_fix (recalc_csum128 c old new_addr))
      else Ok packet
  | None => Ok packet
  end.

(** [packet_set_ipv6_addr].  The copy is [sizeof *addr] bytes, that is, one
    32-bit word of the four. *)
Definition packet_set_ipv6_addr (packet : ofpbuf) (proto addr : Z) (new_addr : list Z)
    (recalculate_csum : bool) : res ofpbuf :=
  packet ← (if recalculate_csum then packet_update_csum128 packet proto addr new_addr
            else Ok packet);
  w ← deref (head new_addr);
  st 4 packet addr w.

(** [packet_set_ipv6_flow_label]. *)
Definition packet_set_ipv6_flow_label (packet : ofpbuf) (flow_label flow_key : Z) : res ofpbuf :=
  old_label ← ld 4 packet flow_label;
  let new_label := Z.lor (Z.land old_label (htonl (u32 (Z.lnot IPV6_LABEL_MASK)))) flow_key in
  st 4 packet flow_label new_label.

(** [packet_set_ipv6_tc]. *)
Definition packet_set_ipv6_tc (packet : ofpbuf) (flow_label tc : Z) : res ofpbuf :=
  old_label ← ld 4 packet flow_label;
  let new_label := Z.lor (Z.land old_label (htonl 0xF00FFFFF)) (htonl (u32 (Z.shiftl tc 20))) in
  st 4 packet flow_label new_label.

(** [packet_set_ipv6]; the address arguments are four 32-bit words. *)
Definition packet_set_ipv6 (packet : ofpbuf) (proto : Z) (src dst : list Z)
    (key_tc key_fl key_hl : Z) : res ofpbuf :=
  nh ← deref (l3 packet);
  old_src ← ld128 packet (nh + 8);
  packet ← (if negb (bool_decide (old_src = src))
            then packet_set_ipv6_addr packet proto (nh + 8) src true else Ok packet);
  old_dst ← ld128 packet (nh + 24);
  packet ← (if negb (bool_decide (old_dst = dst))
            then rh ← packet_rh_present packet;
                 packet_set_ipv6_addr packet proto (nh + 24) dst (negb rh)
            else Ok packet);
  packet ← packet_set_ipv6_tc packet nh key_tc;
  packet ← packet_set_ipv6_flow_label packet nh key_fl;
  st 1 packet (nh + 7) key_hl.

(** ** Netmasks *)

(** The inner loop of [ipv6_count_cidr_bits]: the number of shifts until an
    8-bit value is zero. *)
Fixpoint shl_count (fuel : nat) (nm : Z) : Z :=
  match fuel with
  | O => 0
  | S fuel => if nm =? 0 then 0 else 1 + shl_count fuel (u8 (Z.shiftl nm 1))
  end.

(** [ipv6_count_cidr_bits], on the 16 bytes of the mask. *)
Fixpoint ipv6_count_cidr_bits (netmask : list Z) : Z :=
  match netmask with
  | [] => 0
  | b :: netmask => if b =? 255 then 8 + ipv6_count_cidr_bits netmask else shl_count 8 b
  end.

(** [ipv6_is_cidr]. *)
Fixpoint ipv6_is_cidr (netmask : list Z) : bool :=
  match netmask with
  | [] => true
  | b :: netmask =>
      if b =? 255 then ipv6_is_cidr netmask
      else
        let x := u8 (Z.lnot b) in
        (Z.land x (x + 1) =? 0) && forallb (fun c => c =? 0) netmask
  end.

(** [ipv6_create_mask]: [n] bytes of the (zeroed) mask remain. *)
Fixpoint ipv6_create_mask_from (n : nat) (mask : Z) : res (list Z) :=
  match n with
  | O => if mask =? 0 then Ok [] else Err OutOfBounds
  | S n =>
      if 8 <? mask then cons 255 <$> ipv6_create_mask_from n (mask - 8)
      else if mask =? 0 then Ok (replicate (S n) 0)
      else Ok (u8 (Z.shiftl 255 (8 - mask)) :: replicate n 0)
  end.
Definition ipv6_create_mask (mask : Z) : res (list Z) := ipv6_create_mask_from 16 mask.

(** [ip_is_cidr]. *)
Definition ip_is_cidr (netmask : Z) : bool :=
  let x := u32 (Z.lnot (ntohl netmask)) in Z.land x (u32 (x + 1)) =? 0.

(** [eth_addr_bitand]. *)
Definition eth_addr_bitand (src mask : list Z) : list Z := zip_with Z.land src mask.

(** ** Lemmas: VLAN headers *)

(** Moving the window back by [n] bytes and overwriting the first [n + k] bytes
    with [tmp] replaces the first [k] bytes of the contents by [tmp]. *)
Lemma overlay_window b n k tmp m :
  ofpbuf_wf b -> 0 <= n <= ofpbuf_headroom b -> 0 <= k <= size b -> bytes tmp ->
  zlen tmp = n + k -> store_bytes (base b) (data b - n) tmp = Ok m ->
  let b' := set_base m (set_window (data b - n) (size b + n) b) in
  ofpbuf_wf b' /\ contents b' = tmp ++ drop (Z.to_nat k) (contents b).
Proof.
  intros Hwf Hn Hk Ht Hz Hm. pose proof Hwf as (Hb&?&?&?&?).
  pose proof (store_bytes_zlen _ _ _ _ Hm). unfold ofpbuf_headroom in *. split.
  - split_and!; simpl; try lia. by apply (store_bytes_bytes _ _ _ _ Hb Ht Hm).
  - apply contents_eq. simpl. replace (size b + n) with (zlen tmp + (size b - k)) by lia.
    apply load_bytes_app; [by apply (load_store_same _ _ _ _ Hm)|].
    rewrite (load_store_other _ _ _ _ _ _ Hm) by lia.
    pose proof (contents_load b Hwf) as Hc.
    replace (size b) with (k + (size b - k)) in Hc by lia.
    apply load_bytes_split in Hc as [_ Hc]; [|lia..].
    by replace (data b - n + zlen tmp) with (data b + k) by lia.
Qed.

Lemma load_prefix b n :
  ofpbuf_wf b -> 0 <= n <= size b ->
  load_bytes (base b) (data b) n = Ok (take (Z.to_nat n) (contents b)).
Proof.
  intros Hwf Hn. pose proof (contents_load b Hwf) as Hc.
  replace (size b) with (n + (size b - n)) in Hc by lia.
  by apply load_bytes_split in Hc as [Hc _]; [|lia..].
Qed.

(** A load at a distance [k] from [data] reads the contents. *)
Lemma load_contents b k n :
  ofpbuf_wf b -> 0 <= k -> 0 <= n -> k + n <= size b ->
  load_bytes (base b) (data b + k) n = load_bytes (contents b) k n.
Proof. intros Hwf ???. by apply (load_bytes_sub _ _ (size b)); [apply contents_load|..]. Qed.

Lemma ofpbuf_push_uninit_spec junk (Hj : forall i, is_u8 (junk i)) b n :
  ofpbuf_wf b -> 0 <= n -> zlen (base b) < 2 ^ 64 -> can_grow b (ofpbuf_headroom b) n ->
  exists b1, ofpbuf_push_uninit junk b n
             = Ok (set_window (data b1 - n) (size b1 + n) b1, data b1 - n) /\
    ofpbuf_wf b1 /\ contents b1 = contents b /\ layers b1 = layers b /\
    size b1 = size b /\ n <= ofpbuf_headroom b1 /\ ofpbuf_tailroom b1 = ofpbuf_tailroom b /\
    (n <= ofpbuf_headroom b -> b1 = b).
Proof.
  intros Hwf Hn Hl Hg. pose proof Hwf as (_&?&?&?&?).
  assert (size b + n < 2 ^ 64) as Hs.
  { eapply (can_grow_size b); [done|exact Hg|done|done|]. unfold ofpbuf_headroom. lia. }
  destruct (ofpbuf_prealloc_headroom_spec junk Hj b n) as (b1 & E & ? & ? & ? & Hsz & ? & ?);
    [done..|].
  exists b1. unfold ofpbuf_push_uninit. rewrite E. simpl. rewrite u64_small by lia.
  split_and!; try done. intros Hroom. revert E. unfold ofpbuf_prealloc_headroom.
  rewrite (proj2 (Z.ltb_ge _ _)) by lia. by intros [= <-].
Qed.

(** The 802.1Q tag that [eth_push_vlan] inserts. *)
Definition vlan_tag (tci : Z) : list Z :=
  le_split 2 (htons ETH_TYPE_VLAN)
  ++ le_split 2 (Z.land tci (htons (u16 (Z.lnot VLAN_CFI)))).

Lemma take_drop_split {A} n k (l : list A) :
  (n <= k)%nat -> drop n (take k l) ++ drop k l = drop n l.
Proof.
  intros. rewrite <-(take_drop k l) at 3.
  destruct (decide (k <= length l)%nat).
  - by rewrite drop_app_le by (rewrite length_take; lia).
  - rewrite (drop_ge l k), !app_nil_r by lia. done.
Qed.

Lemma eth_push_vlan_spec junk (Hj : forall i, is_u8 (junk i)) b tci :
  ofpbuf_wf b -> ETH_HEADER_LEN <= size b -> zlen (base b) < 2 ^ 64 ->
  can_grow b (ofpbuf_headroom b) VLAN_HEADER_LEN ->
  exists b', eth_push_vlan junk b tci = Ok b' /\ ofpbuf_wf b' /\
    contents b' = take 12 (contents b) ++ vlan_tag tci ++ drop 12 (contents b) /\
    l2 b' = Some (data b') /\ size b' = size b + 4 /\
    (VLAN_HEADER_LEN <= ofpbuf_headroom b -> data b' = data b - 4 /\ zlen (base b') = zlen (base b)).
Proof.
  intros Hwf Hs Hl Hg. unfold ETH_HEADER_LEN, VLAN_HEADER_LEN in *. unfold eth_push_vlan.
  unfold ETH_HEADER_LEN, VLAN_HEADER_LEN. rewrite load_prefix by (done || lia).
  change (Z.to_nat 14) with 14%nat. bind. set (c := contents b) in *.
  destruct (ofpbuf_push_uninit_spec junk Hj b 4) as (b1 & E & Hwf1 & Hc & _ & Hsz & Hh & _ & Hin);
    [done|lia|done|done|].
  rewrite E. bind.
  set (tmp := take 12 (take 14 c) ++ _).
  pose proof (zlen_contents b Hwf) as Hzc. fold c in Hzc.
  assert (bytes c) as Hbc by by apply contents_bytes.
  assert (zlen tmp = 4 + 14) as Hz.
  { subst tmp. rewrite !zlen_app, !zlen_le_split. unfold zlen in *.
    rewrite length_take, length_drop, length_take. lia. }
  assert (bytes tmp) as Hbt.
  { subst tmp. rewrite !bytes_app. split_and!; try apply le_split_bytes.
    - by apply bytes_take, bytes_take.
    - by apply bytes_drop, bytes_take. }
  pose proof Hwf1 as (_&?&?&?&?). unfold ofpbuf_headroom in *.
  destruct (store_bytes_ok (base b1) (data b1 - 4) tmp) as [m Hm]; [lia..|].
  cbn [base set_window]. rewrite Hm. bind. eexists. split; [reflexivity|].
  destruct (overlay_window b1 4 14 tmp m Hwf1) as [Hwf2 Hc2]; try done; [lia|].
  split_and!.
  - exact Hwf2.
  - change (contents _) with (contents (set_base m (set_window (data b1 - 4) (size b1 + 4) b1))).
    rewrite Hc2, Hc. subst tmp. unfold vlan_tag. change (Z.to_nat 14) with 14%nat.
    rewrite <-!app_assoc. rewrite take_take. change (12 `min` 14)%nat with 12%nat.
    rewrite take_drop_split by lia. done.
  - done.
  - simpl. lia.
  - intros Hroom. rewrite (Hin Hroom) in *. simpl. split; [done|]. by apply (store_bytes_zlen _ _ _ _ Hm).
Qed.

(** The tagged frame has the 802.1Q type, and without the tag is the frame. *)
Lemma vlan_tagged_frame tci c :
  12 <= zlen c -> let t := take 12 c ++ vlan_tag tci ++ drop 12 c in
  load_le 2 t 12 = Ok (htons ETH_TYPE_VLAN) /\ take 12 t ++ drop 16 t = c.
Proof.
  intros Hz. unfold zlen in Hz. cbv zeta.
  assert (length (take 12 c) = 12%nat) as H12 by (rewrite length_take; lia). split.
  - apply load_le_Ok. exists (le_split 2 (htons ETH_TYPE_VLAN)).
    split; [|by rewrite le_combine_split]. apply load_bytes_Ok.
    rewrite !zlen_app. unfold zlen. rewrite H12. simpl length.
    split_and!; [lia|lia|lia|]. change (Z.to_nat 12) with 12%nat.
    rewrite drop_app_length' by done. done.
  - rewrite take_app_length', drop_app_ge by lia. rewrite H12.
    change (drop (16 - 12) (vlan_tag tci ++ drop 12 c)) with (drop 12 c). apply take_drop.
Qed.

(** [contents] only looks at the memory and the window. *)
Lemma contents_ext a b :
  base a = base b -> data a = data b -> size a = size b -> contents a = contents b.
Proof. intros Hb Hd Hs. unfold contents. by rewrite Hb, Hd, Hs. Qed.

Lemma ofpbuf_wf_ext a b :
  base a = base b -> allocated a = allocated b -> data a = data b -> size a = size b ->
  ofpbuf_wf b -> ofpbuf_wf a.
Proof. unfold ofpbuf_wf. intros -> -> -> ->. done. Qed.

(** [eth_pop_vlan] on a packet whose Ethernet type is 802.1Q removes the four
    bytes of the tag. *)
Lemma eth_pop_vlan_spec b :
  ofpbuf_wf b -> l2 b = Some (data b) -> VLAN_ETH_HEADER_LEN <= size b ->
  load_le 2 (contents b) 12 = Ok (htons ETH_TYPE_VLAN) ->
  exists b', eth_pop_vlan b = Ok b' /\ ofpbuf_wf b' /\
    contents b' = take 12 (contents b) ++ drop 16 (contents b) /\ l2 b' = Some (data b') /\
    data b' = data b + 4 /\ size b' = size b - 4 /\ zlen (base b') = zlen (base b).
Proof.
  intros Hwf Hl2 Hs Ht. unfold VLAN_ETH_HEADER_LEN in *. unfold eth_pop_vlan, ld.
  rewrite (proj2 (Z.leb_le _ _)) by (unfold VLAN_ETH_HEADER_LEN; lia).
  rewrite Hl2. cbn [deref]. bind.
  assert (load_le 2 (base b) (data b + 12) = load_le 2 (contents b) 12) as ->.
  { unfold load_le. by rewrite load_contents by (done || lia). }
  rewrite Ht. bind. rewrite Z.eqb_refl. rewrite load_prefix by (done || lia). bind.
  pose proof (zlen_contents b Hwf) as Hz. set (c := contents b) in *.
  assert (load_bytes (base b) (data b + 16) 2 = Ok (take 2 (drop 16 c))) as ->.
  { rewrite load_contents by (done || lia). fold c. apply load_bytes_Ok. split_and!; try lia. done. }
  bind. change (Z.to_nat 12) with 12%nat. set (tmp := take 12 c ++ take 2 (drop 16 c)).
  destruct (ofpbuf_pull_spec b 4 Hwf) as (b1 & E & Hwf1 & Hc1 & Hh1 & Ht1); [lia|].
  unfold VLAN_HEADER_LEN. rewrite E. bind.
  assert (bytes c) as Hbc by by apply contents_bytes.
  assert (zlen tmp = 0 + 14) as Hzt.
  { subst tmp. rewrite zlen_app. unfold zlen in *. rewrite !length_take, length_drop. lia. }
  assert (bytes tmp) as Hbt.
  { subst tmp. apply bytes_app. split; apply bytes_take; [done|by apply bytes_drop]. }
  assert (size b1 = size b - 4) as Hs1.
  { pose proof (zlen_contents _ Hwf1) as Hz1. rewrite Hc1 in Hz1.
    fold c in Hz1. unfold zlen in *. rewrite length_drop in Hz1. lia. }
  pose proof Hwf1 as (_&?&?&?&?).
  destruct (store_bytes_ok (base b1) (data b1) tmp) as [m Hm]; [lia..|].
  cbn [base set_l2]. change (data (set_l2 _ b1)) with (data b1). rewrite Hm. bind.
  eexists. split; [reflexivity|].
  destruct (overlay_window b1 0 14 tmp m Hwf1) as [Hwf2 Hc2]; rewrite ?Z.sub_0_r; try done;
    try lia.
  split_and!.
  - eapply ofpbuf_wf_ext; [..|exact Hwf2]; simpl; lia || done.
  - rewrite (contents_ext _ (set_base m (set_window (data b1 - 0) (size b1 + 0) b1)));
      [|simpl; lia || done..].
    rewrite Hc2, Hc1. subst tmp. fold c. rewrite drop_drop.
    change (Z.to_nat 4 + Z.to_nat 14)%nat with 18%nat. rewrite <-app_assoc. f_equal.
    rewrite <-(take_drop 2 (drop 16 c)) at 2. by rewrite drop_drop.
  - unfold ofpbuf_headroom in Hh1. simpl. f_equal. lia.
  - done.
  - done.
  - simpl. rewrite (store_bytes_zlen _ _ _ _ Hm). pose proof Hwf as (_ & ? & _).
    unfold ofpbuf_tailroom, ofpbuf_end, ofpbuf_tail, ofpbuf_headroom in *. lia.
Qed.

(** ** Lemmas: checksum updates *)

Lemma mod_shift x a b k : 0 < k -> a mod k = b mod k -> (x + a - b) mod k = x mod k.
Proof.
  intros Hk E. replace (x + a - b) with (x + (a - b)) by lia.
  rewrite Z.add_mod, Zminus_mod, E, Z.sub_diag by lia.
  by rewrite Z.mod_0_l, Z.add_0_r, Z.mod_mod by lia.
Qed.

Lemma st_spec w b off v :
  bytes (base b) -> 0 <= off -> off + Z.of_nat w <= zlen (base b) ->
  exists m, store_le w (base b) off v = Ok m /\ st w b off v = Ok (set_base m b) /\
    bytes m /\ zlen m = zlen (base b).
Proof.
  intros Hb Ho Hl. destruct (store_le_ok w (base b) off v Ho Hl) as [m Hm].
  exists m. unfold st. rewrite Hm. split_and!; try done;
    [by eapply store_le_bytes|by eapply store_le_zlen].
Qed.

Lemma ld_spec w b off :
  bytes (base b) -> 0 <= off -> off + Z.of_nat w <= zlen (base b) ->
  exists v, ld w b off = Ok v /\ load_le w (base b) off = Ok v /\ 0 <= v < 256 ^ Z.of_nat w.
Proof.
  intros Hb Ho Hl. destruct (load_le_ok w (base b) off Ho Hl) as [v Hv].
  exists v. split_and!; try done; by eapply load_le_bound.
Qed.

(** Nothing but the given ranges of memory differs. *)
Definition same_outside (m m' : list Z) (ranges : list (Z * Z)) : Prop :=
  zlen m' = zlen m /\
  forall off n, Forall (fun r => off + n <= r.1 \/ r.1 + r.2 <= off) ranges ->
    load_bytes m' off n = load_bytes m off n.

Lemma same_outside_refl m rs : same_outside m m rs.
Proof. done. Qed.

Lemma same_outside_trans m1 m2 m3 r1 r2 :
  same_outside m1 m2 r1 -> same_outside m2 m3 r2 -> same_outside m1 m3 (r1 ++ r2).
Proof.
  intros [L1 H1] [L2 H2]. split; [congruence|]. intros off n [F1 F2]%Forall_app.
  by rewrite H2, H1.
Qed.

Lemma same_outside_weaken m m' r1 r2 :
  same_outside m m' r1 -> (forall x, x ∈ r1 -> x ∈ r2) -> same_outside m m' r2.
Proof.
  intros [L H] Hs. split; [done|]. intros off n F. apply H.
  rewrite Forall_forall in F |- *. intros x Hx. apply F.
  apply list_elem_of_In, Hs, list_elem_of_In, Hx.
Qed.

Lemma store_same_outside w m off v m' :
  store_le w m off v = Ok m' -> same_outside m m' [(off, Z.of_nat w)].
Proof.
  intros H. split; [by eapply store_le_zlen|]. intros o n F. inversion F as [|?? Hd]; subst.
  simpl in Hd. eapply load_bytes_store_le_other; [exact H|lia].
Qed.

Lemma same_outside_msum m m' rs off n :
  same_outside m m' rs -> Forall (fun r => off + n <= r.1 \/ r.1 + r.2 <= off) rs ->
  msum m' off n = msum m off n.
Proof. intros [_ H] F. unfold msum. by rewrite H. Qed.

Lemma same_outside_ld m m' rs w off :
  same_outside m m' rs -> Forall (fun r => off + Z.of_nat w <= r.1 \/ r.1 + r.2 <= off) rs ->
  load_le w m' off = load_le w m off.
Proof. intros [_ H] F. unfold load_le. by rewrite H. Qed.

(** Decides disjointness side conditions on concrete lists of ranges. *)
Ltac ranges :=
  lazymatch goal with
  | |- Forall _ (_ :: _) => constructor; [cbn [fst snd]; lia|ranges]
  | |- Forall _ [] => constructor
  end.

Lemma is_u16_256 v : 0 <= v < 256 ^ Z.of_nat 2 -> is_u16 v.
Proof. done. Qed.
Lemma is_u32_256 v : 0 <= v < 256 ^ Z.of_nat 4 -> is_u32 v.
Proof. done. Qed.

(** Replaces a 16-bit checksum field at an even distance from [off]: the sum of
    any region around it changes by the difference. *)
Lemma st16_msum b off n k v old :
  bytes (base b) -> 0 <= off -> 0 <= k -> Z.odd k = false -> k + 2 <= n ->
  off + n <= zlen (base b) -> load_le 2 (base b) (off + k) = Ok old -> is_u16 v ->
  exists m, st 2 b (off + k) v = Ok (set_base m b) /\
    store_le 2 (base b) (off + k) v = Ok m /\ bytes m /\ zlen m = zlen (base b) /\
    msum m off n = msum (base b) off n + v - old.
Proof.
  intros Hb Ho Hk Hev Hn Hl Hold Hv.
  destruct (st_spec 2 b (off + k) v) as (m & Hm & E & Hbm & Hlm); [done|lia|lia|].
  exists m. split_and!; try done.
  rewrite (msum_store_le 2 (base b) off n m k v old Hm) by (done || lia).
  rewrite Hev, (bsum_u16 v), (bsum_u16 old); [done|by apply is_u16_256, (load_le_bound _ _ _ _ Hb Hold)|exact Hv].
Qed.

(** An IPv4 packet: a 20-byte header at [nh], followed by a transport segment of
    [tlen] bytes at [th]; all layer markers set. *)
Definition ipv4_layout (b : ofpbuf) (nh th tlen : Z) : Prop :=
  bytes (base b) /\ l3 b = Some nh /\ l4 b = Some th /\ l7 b <> None /\
  0 <= nh /\ nh + 20 <= th /\ th + tlen <= zlen (base b).

(** Distance of the transport checksum from the transport header, and the
    length of that header. *)
Definition l4_csum_field (proto : Z) : Z := if proto =? IPPROTO_TCP then 16 else 6.
Definition l4_header_len (proto : Z) : Z :=
  if proto =? IPPROTO_TCP then 20 else if proto =? IPPROTO_UDP then 8 else 0.

(** The segment carries a checksum that must be maintained. *)
Definition l4_checked (m : list Z) (th proto : Z) : Prop :=
  proto = IPPROTO_TCP \/ (proto = IPPROTO_UDP /\ load_le 2 m (th + 6) <> Ok 0).

Lemma set_base_layout b m nh th tlen :
  ipv4_layout b nh th tlen -> bytes m -> zlen m = zlen (base b) ->
  ipv4_layout (set_base m b) nh th tlen.
Proof. intros (?&?&?&?&?&?&?) ? E. split_and!; simpl; try done. lia. Qed.

Lemma udp_csum_fix_spec c : is_u16 c -> is_u16 (udp_csum_fix c) /\ (udp_csum_fix c) mod 65535 = c mod 65535.
Proof. intros H. unfold udp_csum_fix. destruct (Z.eqb_spec c 0) as [->|]; done. Qed.

Lemma set_base_id b : set_base (base b) b = b.
Proof. by destruct b. Qed.

(** The transport checksum absorbs the change of one 32-bit word of the
    pseudo-header. *)
Lemma l4_csum_update32_spec b nh th tlen proto old new :
  ipv4_layout b nh th tlen -> l4_header_len proto <= tlen -> is_u32 old -> is_u32 new ->
  exists m, l4_csum_update32 b proto old new = Ok (set_base m b) /\ bytes m /\
    same_outside (base b) m [(th + l4_csum_field proto, 2)] /\
    (l4_checked (base b) th proto -> l4_checked m th proto /\
     (msum m th tlen + words32 new) mod 65535 = (msum (base b) th tlen + words32 old) mod 65535).
Proof.
  intros (Hb & Hl3 & Hl4 & Hl7 & Hnh & Hth & Hend) Hlen Ho Hn.
  unfold l4_csum_update32, l4_checked, l4_csum_field, l4_header_len in *.
  destruct (l7 b) as [p7|]; [|done]. rewrite Hl4. cbn [deref].
  assert (forall f r, Z.odd f = false -> 0 <= f -> f + 2 <= tlen -> is_u16 r ->
    forall c, load_le 2 (base b) (th + f) = Ok c ->
    (r + words32 new) mod 65535 = (c + words32 old) mod 65535 ->
    exists m, st 2 b (th + f) r = Ok (set_base m b) /\ bytes m /\
      same_outside (base b) m [(th + f, 2)] /\ load_le 2 m (th + f) = Ok r /\
      (msum m th tlen + words32 new) mod 65535 = (msum (base b) th tlen + words32 old) mod 65535)
    as Hst.
  { intros f r Hev Hf Hfl Hr c Hc E.
    destruct (st16_msum b th tlen f r c) as (m & -> & Hm & Hbm & _ & Hsum); try done; try lia.
    exists m. split_and!; try done; [by apply store_same_outside in Hm|..].
    { apply load_store_le_same in Hm. rewrite Hm. f_equal. by apply Z.mod_small. }
    rewrite Hsum. replace (msum (base b) th tlen + r - c + words32 new)
      with ((msum (base b) th tlen + words32 old) + (r + words32 new) - (c + words32 old)) by lia.
    by apply mod_shift. }
  destruct (Z.eqb_spec proto IPPROTO_TCP) as [->|Hnt].
  - rewrite bind_ok. destruct (ld_spec 2 b (th + 16)) as (c & E & Hc & Hcb); [done|lia|lia|].
    unfold tcp_csum_off. rewrite E. bind.
    destruct (recalc_csum32_spec c old new Hcb) as [Hr Hrm].
    destruct (Hst 16 (recalc_csum32 c old new)) with (c := c) as (m & -> & ? & ? & ? & ?);
      try done; try lia. exists m. split_and!; try done. intros _. split; [by left|done].
  - destruct (Z.eqb_spec proto IPPROTO_UDP) as [->|Hnu].
    + bind. destruct (ld_spec 2 b (th + 6)) as (c & E & Hc & Hcb); [done|lia|lia|].
      unfold udp_csum_off. rewrite E. bind.
      destruct (Z.eqb_spec c 0) as [->|Hc0].
      * exists (base b). rewrite set_base_id. split_and!; try done.
        intros [?|[_ Hne]]; [done|congruence].
      * destruct (recalc_csum32_spec c old new Hcb) as [Hr Hrm].
        destruct (udp_csum_fix_spec _ Hr) as [Hf Hfm].
        destruct (Hst 6 (udp_csum_fix (recalc_csum32 c old new))) with (c := c)
          as (m & -> & ? & ? & Hld & ?); try done; try lia.
        { by rewrite Z.add_mod, Hfm, <-Z.add_mod by lia. }
        exists m. split_and!; try done. intros _. split; [|done]. right. split; [done|].
        rewrite Hld. intros [= Hz]. revert Hz. unfold udp_csum_fix.
        by destruct (Z.eqb_spec (recalc_csum32 c old new) 0).
    + exists (base b). rewrite set_base_id. split_and!; try done. intros [?|[? _]]; done.
Qed.

(** The sum of the pseudo-header addresses and the segment. *)
Definition l4_sum (m : list Z) (nh th tlen : Z) : Z := msum m (nh + 12) 8 + msum m th tlen.

Lemma packet_set_ipv4_addr_spec b nh th tlen proto a new :
  ipv4_layout b nh th tlen -> load_le 1 (base b) (nh + 9) = Ok proto ->
  l4_header_len proto <= tlen -> a = 12 \/ a = 16 -> is_u32 new ->
  exists m, packet_set_ipv4_addr b (nh + a) new = Ok (set_base m b) /\ bytes m /\
    same_outside (base b) m [(th + l4_csum_field proto, 2); (nh + 10, 2); (nh + a, 4)] /\
    load_le 4 m (nh + a) = Ok new /\
    (msum m nh 20) mod 65535 = (msum (base b) nh 20) mod 65535 /\
    (l4_checked (base b) th proto -> l4_checked m th proto /\
     (l4_sum m nh th tlen) mod 65535 = (l4_sum (base b) nh th tlen) mod 65535).
Proof.
  intros Hlay Hp Hlen Ha Hn. pose proof Hlay as (Hb & Hl3 & Hl4 & Hl7 & Hnh & Hth & Hend).
  assert (0 <= l4_csum_field proto <= 16) as Hf.
  { unfold l4_csum_field. destruct (_ =? _); lia. }
  assert (0 <= tlen) as Htl.
  { revert Hlen. unfold l4_header_len. destruct (_ =? _); [|destruct (_ =? _)]; lia. }
  unfold packet_set_ipv4_addr. rewrite Hl3. cbn [deref]. bind.
  destruct (ld_spec 4 b (nh + a)) as (old & E & Hold & Holdb); [done|lia|lia|].
  rewrite E. bind. assert (ld 1 b (nh + ip_proto_off) = Ok proto) as -> by done. bind.
  destruct (l4_csum_update32_spec b nh th tlen proto old new Hlay Hlen Holdb Hn)
    as (m1 & -> & Hb1 & Hs1 & H4). bind.
  pose proof (proj1 Hs1) as Hz1. set (b1 := set_base m1 b).
  assert (load_le 4 m1 (nh + a) = Ok old) as Hold1.
  { rewrite (same_outside_ld _ _ _ _ _ Hs1) by ranges. done. }
  destruct (ld_spec 2 b1 (nh + 10)) as (c & E2 & Hc & Hcb); [done|lia|simpl; lia|].
  unfold ip_csum_off. rewrite E2. bind.
  destruct (recalc_csum32_spec c old new Hcb) as [Hr Hrm].
  destruct (st16_msum b1 nh 20 10 (recalc_csum32 c old new) c)
    as (m2 & -> & Hm2 & Hb2 & Hz2 & Hsum2); try done; try (simpl; lia). bind.
  change (set_base m2 b1) with (set_base m2 b). set (b2 := set_base m2 b).
  change (base b1) with m1 in *.
  pose proof (store_same_outside _ _ _ _ _ Hm2) as Hs2.
  destruct (st_spec 4 b2 (nh + a) new) as (m3 & Hm3 & -> & Hb3 & Hz3); [done|lia|simpl; lia|].
  change (base b2) with m2 in *. change (set_base m3 b2) with (set_base m3 b).
  pose proof (store_same_outside _ _ _ _ _ Hm3) as Hs3.
  assert (load_le 4 m2 (nh + a) = Ok old) as Hold2.
  { rewrite (same_outside_ld _ _ _ _ _ Hs2) by ranges. done. }
  exists m3. split; [done|]. split; [done|]. split.
  { exact (same_outside_trans _ _ _ _ _ Hs1 (same_outside_trans _ _ _ _ _ Hs2 Hs3)). }
  split.
  { apply load_store_le_same in Hm3. rewrite Hm3. f_equal. by apply Z.mod_small. }
  assert (forall o k N, o + k = nh + a -> 0 <= o -> 0 <= k -> Z.odd k = false ->
    k + 4 <= N -> o + N <= zlen m2 -> msum m3 o N = msum m2 o N + words32 new - words32 old) as H32.
  { intros o k N Eo ? ? Hev ? ?. rewrite <-Eo in Hm3, Hold2.
    rewrite (msum_store_le 4 m2 o N m3 k new old Hm3) by (done || lia).
    by rewrite Hev, !bsum_u32. }
  split.
  - rewrite (H32 nh a 20) by (destruct Ha as [->| ->]; done || lia).
    rewrite Hsum2, (same_outside_msum _ _ _ _ _ Hs1) by ranges.
    replace (msum (base b) nh 20 + recalc_csum32 c old new - c + words32 new - words32 old)
      with (msum (base b) nh 20 + (recalc_csum32 c old new + words32 new) - (c + words32 old)) by lia.
    by apply mod_shift.
  - intros Hck. destruct (H4 Hck) as [Hck1 H4m]. split.
    + destruct Hck1 as [?|[? Hne]]; [by left|right]. split; [done|].
      rewrite (same_outside_ld _ _ _ _ _ Hs3) by ranges.
      rewrite (same_outside_ld _ _ _ _ _ Hs2) by ranges. done.
    + unfold l4_sum. rewrite (H32 (nh + 12) (a - 12) 8) by (destruct Ha as [->| ->]; done || lia).
      rewrite (same_outside_msum _ _ _ th _ Hs3), (same_outside_msum _ _ _ th _ Hs2) by ranges.
      rewrite (same_outside_msum _ _ _ (nh + 12) _ Hs2), (same_outside_msum _ _ _ (nh + 12) _ Hs1)
        by ranges.
      replace (msum (base b) (nh + 12) 8 + words32 new - words32 old + msum m1 th tlen)
        with ((msum (base b) (nh + 12) 8 - words32 old) + (msum m1 th tlen + words32 new)) by lia.
      rewrite Z.add_mod, H4m, <-Z.add_mod by lia. f_equal. lia.
Qed.

Lemma htons_u8 x : is_u8 x -> htons x = 256 * x /\ is_u16 (htons x).
Proof.
  unfold is_u8, is_u16, is_u. change (2 ^ 8) with 256. change (2 ^ 16) with 65536. intros H.
  unfold htons. rewrite bswap2_eq by (unfold is_u16, is_u; lia).
  rewrite Z.div_small, Z.mod_small by lia. lia.
Qed.

Lemma htons_shl8 x : is_u8 x -> htons (Z.shiftl x 8) = x /\ is_u16 (htons (Z.shiftl x 8)).
Proof.
  unfold is_u8, is_u16, is_u. change (2 ^ 8) with 256. change (2 ^ 16) with 65536. intros H.
  unfold htons. rewrite Z.shiftl_mul_pow2 by lia. change (2 ^ 8) with 256.
  rewrite bswap2_eq by (unfold is_u16, is_u; lia).
  rewrite Z.div_mul, Z.mod_mul by lia. lia.
Qed.

(** What a header update keeps: the header checksum's validity and, where there
    is one, the transport checksum's. *)
Definition csums_kept (nh th tlen proto : Z) (m m' : list Z) : Prop :=
  bytes m' /\ (msum m' nh 20) mod 65535 = (msum m nh 20) mod 65535 /\
  (l4_checked m th proto -> l4_checked m' th proto /\
   (l4_sum m' nh th tlen) mod 65535 = (l4_sum m nh th tlen) mod 65535).

Lemma csums_kept_trans nh th tlen proto m1 m2 m3 :
  csums_kept nh th tlen proto m1 m2 -> csums_kept nh th tlen proto m2 m3 ->
  csums_kept nh th tlen proto m1 m3.
Proof.
  intros (_ & E1 & H1) (Hb & E2 & H2). split; [done|]. split; [congruence|].
  intros Hck. destruct (H1 Hck) as [Hck1 E3]. destruct (H2 Hck1) as [Hck2 E4].
  split; [done|congruence].
Qed.

(** An address field is set, if it differs. *)
Lemma set_ipv4_addr_field b nh th tlen proto a new :
  ipv4_layout b nh th tlen -> load_le 1 (base b) (nh + 9) = Ok proto ->
  l4_header_len proto <= tlen -> a = 12 \/ a = 16 -> is_u32 new ->
  exists m old, ld 4 b (nh + a) = Ok old /\
    (if negb (old =? new) then packet_set_ipv4_addr b (nh + a) new else Ok b) = Ok (set_base m b) /\
    same_outside (base b) m [(th + l4_csum_field proto, 2); (nh + 10, 2); (nh + a, 4)] /\
    load_le 4 m (nh + a) = Ok new /\ csums_kept nh th tlen proto (base b) m.
Proof.
  intros Hlay Hp Hlen Ha Hn. pose proof Hlay as (Hb & _ & _ & _ & ? & ? & ?).
  assert (0 <= tlen).
  { revert Hlen. unfold l4_header_len. destruct (_ =? _); [|destruct (_ =? _)]; lia. }
  destruct (ld_spec 4 b (nh + a)) as (old & E & Hold & _); [done|lia|lia|].
  destruct (Z.eqb_spec old new) as [->|Hne].
  - exists (base b), new. rewrite Z.eqb_refl, set_base_id. split_and!; try done.
  - destruct (packet_set_ipv4_addr_spec b nh th tlen proto a new Hlay Hp Hlen Ha Hn)
      as (m & E2 & Hbm & Hs & Hld & Hh & H4).
    exists m, old. rewrite (proj2 (Z.eqb_neq _ _) Hne). split_and!; try done.
Qed.

(** A one-byte field at distance [k] is set, if it differs; [w] is its weight in
    the sum of the header. *)
Lemma set_ipv4_byte_field b nh th tlen proto k new conv :
  ipv4_layout b nh th tlen -> l4_header_len proto <= tlen -> k = 1 \/ k = 8 -> is_u8 new ->
  (forall x, is_u8 x -> conv x = (if Z.odd k then 256 * x else x) /\ is_u16 (conv x)) ->
  exists m old, ld 1 b (nh + k) = Ok old /\
    (if negb (old =? new) then
       c ← ld 2 b (nh + ip_csum_off);
       packet ← st 2 b (nh + ip_csum_off) (recalc_csum16 c (conv old) (conv new));
       st 1 packet (nh + k) new
     else Ok b) = Ok (set_base m b) /\
    same_outside (base b) m [(nh + 10, 2); (nh + k, 1)] /\
    load_le 1 m (nh + k) = Ok new /\ csums_kept nh th tlen proto (base b) m.
Proof.
  intros Hlay Hlen Hk Hn Hconv. pose proof Hlay as (Hb & _ & _ & _ & ? & ? & ?).
  assert (0 <= tlen).
  { revert Hlen. unfold l4_header_len. destruct (_ =? _); [|destruct (_ =? _)]; lia. }
  destruct (ld_spec 1 b (nh + k)) as (old & E & Hold & Holdb); [done|lia|lia|].
  destruct (Z.eqb_spec old new) as [->|Hne].
  { exists (base b), new. rewrite Z.eqb_refl, set_base_id. split_and!; try done. }
  destruct (ld_spec 2 b (nh + 10)) as (c & E2 & Hc & Hcb); [done|lia|lia|].
  destruct (Hconv old) as [Ho1 Ho2]; [done|]. destruct (Hconv new Hn) as [Hn1 Hn2].
  destruct (recalc_csum16_spec c (conv old) (conv new)) as [Hr Hrm]; [done..|].
  destruct (st16_msum b nh 20 10 (recalc_csum16 c (conv old) (conv new)) c)
    as (m1 & E3 & Hm1 & Hb1 & Hz1 & Hsum1); try done; try lia.
  destruct (st_spec 1 (set_base m1 b) (nh + k) new) as (m2 & Hm2 & E4 & Hb2 & Hz2);
    [done|lia|simpl; lia|].
  change (base (set_base m1 b)) with m1 in *. change (set_base m2 (set_base m1 b)) with (set_base m2 b) in E4.
  exists m2, old. rewrite (proj2 (Z.eqb_neq _ _) Hne).
  unfold ip_csum_off. rewrite E2, !bind_ok, E3, bind_ok, E4.
  pose proof (store_same_outside _ _ _ _ _ Hm1) as Hs1.
  pose proof (store_same_outside _ _ _ _ _ Hm2) as Hs2.
  pose proof (same_outside_trans _ _ _ _ _ Hs1 Hs2) as Hs. simpl app in Hs.
  assert (load_le 1 m1 (nh + k) = Ok old) as Hold1.
  { rewrite (same_outside_ld _ _ _ _ _ Hs1) by ranges. done. }
  split_and!; try done.
  { pose proof (load_store_le_same _ _ _ _ _ Hm2) as ->. f_equal. by apply Z.mod_small. }
  split; [done|]. split.
  - rewrite (msum_store_le 1 m1 nh 20 m2 k new old Hm2) by (done || lia).
    rewrite !bsum_u8 by done. rewrite <-Ho1, <-Hn1, Hsum1.
    replace (msum (base b) nh 20 + recalc_csum16 c (conv old) (conv new) - c + conv new - conv old)
      with (msum (base b) nh 20 + (recalc_csum16 c (conv old) (conv new) + conv new) - (c + conv old)) by lia.
    by apply mod_shift.
  - unfold l4_checked, l4_sum. rewrite !(same_outside_msum _ _ _ _ _ Hs) by ranges.
    rewrite (same_outside_ld _ _ _ _ _ Hs) by ranges. done.
Qed.

Lemma set_base_set_base m m' b : set_base m (set_base m' b) = set_base m b.
Proof. done. Qed.

(** [packet_set_ipv4] sets the four fields and nothing else but checksums, and
    keeps the checksums valid. *)
Lemma packet_set_ipv4_spec b nh th tlen proto src dst tos ttl :
  ipv4_layout b nh th tlen -> load_le 1 (base b) (nh + 9) = Ok proto ->
  l4_header_len proto <= tlen -> is_u32 src -> is_u32 dst -> is_u8 tos -> is_u8 ttl ->
  exists m, packet_set_ipv4 b src dst tos ttl = Ok (set_base m b) /\
    load_le 4 m (nh + 12) = Ok src /\ load_le 4 m (nh + 16) = Ok dst /\
    load_le 1 m (nh + 1) = Ok tos /\ load_le 1 m (nh + 8) = Ok ttl /\
    same_outside (base b) m [(th + l4_csum_field proto, 2); (nh + 10, 2); (nh + 12, 4);
                             (nh + 16, 4); (nh + 1, 1); (nh + 8, 1)] /\
    csums_kept nh th tlen proto (base b) m.
Proof.
  intros Hlay Hp Hlen Hsrc Hdst Htos Httl. pose proof Hlay as (Hb & Hl3 & _ & _ & ? & ? & ?).
  assert (0 <= l4_csum_field proto <= 16) as Hf.
  { unfold l4_csum_field. destruct (_ =? _); lia. }
  unfold packet_set_ipv4, ip_src_off, ip_dst_off, ip_tos_off, ip_ttl_off.
  rewrite Hl3. cbn [deref]. bind.
  destruct (set_ipv4_addr_field b nh th tlen proto 12 src)
    as (m1 & o1 & -> & E1 & Hs1 & Hl1 & Hk1); auto. bind. rewrite E1. bind.
  pose proof (set_base_layout b m1 _ _ _ Hlay (proj1 Hk1) (proj1 Hs1)) as Hlay1.
  destruct (set_ipv4_addr_field (set_base m1 b) nh th tlen proto 16 dst)
    as (m2 & o2 & -> & E2 & Hs2 & Hl2 & Hk2); auto.
  { simpl. rewrite (same_outside_ld _ _ _ _ _ Hs1) by ranges. done. }
  bind. rewrite E2. rewrite set_base_set_base. bind. simpl base in *.
  pose proof (set_base_layout _ m2 _ _ _ Hlay1 (proj1 Hk2) (proj1 Hs2)) as Hlay2.
  rewrite set_base_set_base in Hlay2.
  destruct (set_ipv4_byte_field (set_base m2 b) nh th tlen proto 1 tos htons)
    as (m3 & o3 & -> & E3 & Hs3 & Hl3' & Hk3); auto using htons_u8.
  bind. rewrite E3, set_base_set_base. bind. simpl base in *.
  pose proof (set_base_layout _ m3 _ _ _ Hlay2 (proj1 Hk3) (proj1 Hs3)) as Hlay3.
  rewrite set_base_set_base in Hlay3.
  destruct (set_ipv4_byte_field (set_base m3 b) nh th tlen proto 8 ttl (fun x => htons (Z.shiftl x 8)))
    as (m4 & o4 & -> & E4 & Hs4 & Hl4 & Hk4); auto using htons_shl8.
  bind. rewrite E4, set_base_set_base. simpl base in *. exists m4. split; [done|].
  pose proof (same_outside_trans _ _ _ _ _ Hs3 Hs4) as Hs34.
  pose proof (same_outside_trans _ _ _ _ _ Hs2 Hs34) as Hs24.
  pose proof (same_outside_trans _ _ _ _ _ Hs1 Hs24) as Hs14.
  cbn [app] in Hs14, Hs24, Hs34. split_and!.
  - rewrite (same_outside_ld _ _ _ _ _ Hs24) by ranges. done.
  - rewrite (same_outside_ld _ _ _ _ _ Hs34) by ranges. done.
  - rewrite (same_outside_ld _ _ _ _ _ Hs4) by ranges. done.
  - done.
  - eapply same_outside_weaken; [exact Hs14|]. intros x. rewrite !elem_of_cons, !elem_of_nil. tauto.
  - eauto using csums_kept_trans.
Qed.

(** ** Lemmas: transport ports *)

Definition l4_layout (b : ofpbuf) (th tlen : Z) : Prop :=
  bytes (base b) /\ l4 b = Some th /\ 0 <= th /\ th + tlen <= zlen (base b).

Lemma l4_layout_set_base b m th tlen :
  l4_layout b th tlen -> bytes m -> zlen m = zlen (base b) -> l4_layout (set_base m b) th tlen.
Proof. intros (?&?&?&?) ? E. split_and!; simpl; try done. lia. Qed.

(** A port is set and the checksum at distance [c] absorbs the change. *)
Lemma packet_set_port_spec b th tlen p c new :
  l4_layout b th tlen -> p = 0 \/ p = 2 -> c = 6 \/ c = 16 -> c + 2 <= tlen -> is_u16 new ->
  exists m, packet_set_port b (th + p) new (th + c) = Ok (set_base m b) /\ bytes m /\
    load_le 2 m (th + p) = Ok new /\
    same_outside (base b) m [(th + c, 2); (th + p, 2)] /\
    (msum m th tlen) mod 65535 = (msum (base b) th tlen) mod 65535.
Proof.
  intros (Hb & Hl4 & Hth & Hend) Hp Hc Hlen Hn. unfold packet_set_port.
  destruct (ld_spec 2 b (th + p)) as (old & -> & Hold & Holdb); [done|lia|lia|]. bind.
  destruct (Z.eqb_spec old new) as [->|Hne]; cbn [negb].
  { exists (base b). rewrite set_base_id. split_and!; done. }
  destruct (ld_spec 2 b (th + c)) as (cs & -> & Hcs & Hcsb); [done|lia|lia|]. bind.
  destruct (recalc_csum16_spec cs old new) as [Hr Hrm]; [done..|].
  destruct (st16_msum b th tlen c (recalc_csum16 cs old new) cs)
    as (m1 & -> & Hm1 & Hb1 & Hz1 & Hsum1); try done; try lia; [by destruct Hc as [->| ->]|]. bind.
  destruct (st16_msum (set_base m1 b) th tlen p new old)
    as (m2 & -> & Hm2 & Hb2 & Hz2 & Hsum2); try done; try (simpl; lia); [by destruct Hp as [->| ->]|..].
  { simpl. rewrite (same_outside_ld _ _ _ _ _ (store_same_outside _ _ _ _ _ Hm1)) by ranges. done. }
  simpl base in *. exists m2. split_and!; try done.
  - pose proof (load_store_le_same _ _ _ _ _ Hm2) as ->. f_equal. by apply Z.mod_small.
  - exact (same_outside_trans _ _ _ _ _ (store_same_outside _ _ _ _ _ Hm1)
             (store_same_outside _ _ _ _ _ Hm2)).
  - rewrite Hsum2, Hsum1.
    replace (msum (base b) th tlen + recalc_csum16 cs old new - cs + new - old)
      with (msum (base b) th tlen + (recalc_csum16 cs old new + new) - (cs + old)) by lia.
    by apply mod_shift.
Qed.

Lemma packet_set_ports_spec b th tlen c src dst :
  l4_layout b th tlen -> c = 6 \/ c = 16 -> c + 2 <= tlen -> is_u16 src -> is_u16 dst ->
  exists m, (packet ← packet_set_port b th src (th + c);
             packet_set_port packet (th + 2) dst (th + c)) = Ok (set_base m b) /\ bytes m /\
    load_le 2 m th = Ok src /\ load_le 2 m (th + 2) = Ok dst /\
    same_outside (base b) m [(th + c, 2); (th, 2); (th + 2, 2)] /\
    (msum m th tlen) mod 65535 = (msum (base b) th tlen) mod 65535.
Proof.
  intros Hlay Hc Hlen Hs Hd.
  destruct (packet_set_port_spec b th tlen 0 c src) as (m1 & E1 & Hb1 & Hl1 & Hs1 & H1); auto.
  rewrite Z.add_0_r in *. rewrite E1. bind.
  destruct (packet_set_port_spec (set_base m1 b) th tlen 2 c dst)
    as (m2 & E2 & Hb2 & Hl2 & Hs2 & H2); auto.
  { apply l4_layout_set_base; [done..|apply Hs1]. }
  simpl base in *. exists m2. rewrite E2, set_base_set_base. split_and!; try done.
  - rewrite (same_outside_ld _ _ _ _ _ Hs2) by ranges. done.
  - eapply same_outside_weaken; [exact (same_outside_trans _ _ _ _ _ Hs1 Hs2)|].
    intros x. cbn [app]. rewrite !elem_of_cons, !elem_of_nil. tauto.
  - congruence.
Qed.

(** ** Lemmas: MPLS and masks *)

Lemma msum_load m off n h : load_bytes m off n = Ok h -> msum m off n = sum16 h.
Proof. intros H. unfold msum. by rewrite H. Qed.

Lemma sum16_head_pos h x : bytes h -> h !! 0%nat = Some x -> 0 < x -> 0 < sum16 h.
Proof.
  intros Hb H0 Hx. rewrite sum16_bsum. destruct h as [|y h]; [done|]. simpl in H0. simplify_eq.
  assert (forall o l, bytes l -> 0 <= bsum o l) as Hn.
  { intros o l. revert o. induction l as [|z l IH]; intros o Hl; [done|].
    inversion Hl as [|?? Hz Hl']; subst. specialize (IH (negb o) Hl'). unfold is_u8, is_u in Hz.
    simpl. destruct o; lia. }
  inversion Hb as [|?? ? Hl]; subst. specialize (Hn true h Hl). simpl. lia.
Qed.

(** Every byte below 256 that is a run of ones followed by zeros. *)
Definition cidr_byte (k : Z) : Z := u8 (Z.shiftl 255 (8 - k)).

Lemma cidr_byte_table :
  forallb (fun n => let b := Z.of_nat n in
    if (b =? 255) then true else
    if Z.land (u8 (Z.lnot b)) (u8 (Z.lnot b) + 1) =? 0
    then (shl_count 8 b <? 8) && (0 <=? shl_count 8 b) && (cidr_byte (shl_count 8 b) =? b)
    else true) (seq 0 256) = true.
Proof. vm_compute. reflexivity. Qed.

Lemma cidr_byte_count b :
  is_u8 b -> b <> 255 -> Z.land (u8 (Z.lnot b)) (u8 (Z.lnot b) + 1) = 0 ->
  0 <= shl_count 8 b < 8 /\ cidr_byte (shl_count 8 b) = b.
Proof.
  intros Hb Hne Hl. pose proof cidr_byte_table as T. rewrite forallb_forall in T.
  unfold is_u8, is_u in Hb. change (2 ^ 8) with 256 in Hb.
  specialize (T (Z.to_nat b)). rewrite in_seq, Z2Nat.id in T by lia. specialize (T ltac:(lia)).
  cbv zeta in T. rewrite (proj2 (Z.eqb_neq b 255) Hne), Hl, Z.eqb_refl in T.
  rewrite !andb_true_iff, Z.ltb_lt, Z.leb_le, Z.eqb_eq in T. lia.
Qed.

Lemma cidr_byte_table2 :
  forallb (fun n => let k := Z.of_nat n in
    let b := cidr_byte k in
    (0 <=? b) && (b <? 255) && (shl_count 8 b =? k)
    && (Z.land (u8 (Z.lnot b)) (u8 (Z.lnot b) + 1) =? 0)) (seq 1 7) = true.
Proof. vm_compute. reflexivity. Qed.

Lemma forallb_zeros n : forallb (fun c => c =? 0) (replicate n 0) = true.
Proof. induction n; [done|]. simpl. done. Qed.

Lemma zeros_forallb l : forallb (fun c => c =? 0) l = true -> l = replicate (length l) 0.
Proof.
  induction l as [|x l IH]; [done|]. simpl. rewrite andb_true_iff, Z.eqb_eq.
  intros [-> H]. f_equal. auto.
Qed.

Lemma count_zeros n : ipv6_count_cidr_bits (replicate n 0) = 0.
Proof. by destruct n. Qed.

Lemma create_mask_spec n k :
  0 <= k <= 8 * Z.of_nat n ->
  exists m, ipv6_create_mask_from n k = Ok m /\ length m = n /\
    ipv6_is_cidr m = true /\ ipv6_count_cidr_bits m = k.
Proof.
  revert k. induction n as [|n IH]; intros k Hk.
  - replace k with 0 by lia. by exists [].
  - cbn [ipv6_create_mask_from]. destruct (Z.ltb_spec 8 k).
    + destruct (IH (k - 8)) as (m & -> & Hl & Hc & Hb); [lia|].
      exists (255 :: m). simpl. split_and!; try done; lia.
    + destruct (Z.eqb_spec k 0) as [->|].
      * exists (replicate (S n) 0). split_and!; try done; [by rewrite length_replicate|].
        simpl. apply forallb_zeros.
      * exists (cidr_byte k :: replicate n 0). split; [done|].
        split; [simpl; by rewrite length_replicate|].
        destruct (decide (k = 8)) as [->|].
        { change (cidr_byte 8) with 255. cbn [ipv6_is_cidr ipv6_count_cidr_bits Z.eqb Pos.eqb].
          rewrite count_zeros. split; [|done]. destruct n; [done|]. simpl. apply forallb_zeros. }
        pose proof cidr_byte_table2 as T. rewrite forallb_forall in T.
        specialize (T (Z.to_nat k)). rewrite in_seq, Z2Nat.id in T by lia.
        specialize (T ltac:(lia)). cbv zeta in T.
        rewrite !andb_true_iff, Z.leb_le, Z.ltb_lt, !Z.eqb_eq in T. destruct T as [[[??]Hcnt] Hl].
        cbn [ipv6_is_cidr ipv6_count_cidr_bits]. rewrite (proj2 (Z.eqb_neq (cidr_byte k) 255)) by lia.
        cbv zeta. rewrite Hl, forallb_zeros. split; [done|exact Hcnt].
Qed.

Lemma is_cidr_create m :
  bytes m -> ipv6_is_cidr m = true ->
  ipv6_create_mask_from (length m) (ipv6_count_cidr_bits m) = Ok m /\
  0 <= ipv6_count_cidr_bits m <= 8 * zlen m.
Proof.
  unfold bytes. induction m as [|b m IH]; intros Hb H; [done|].
  inversion Hb as [|?? Hb8 Hm]; subst. cbn [ipv6_is_cidr ipv6_count_cidr_bits length] in *.
  rewrite zlen_cons. pose proof (zlen_nonneg m).
  destruct (Z.eqb_spec b 255) as [->|Hne].
  - destruct (IH Hm H) as [E ?]. split; [|lia]. cbn [ipv6_create_mask_from].
    destruct (decide (ipv6_count_cidr_bits m = 0)) as [Hz|].
    + rewrite Hz in *. destruct m as [|c m].
      { done. }
      injection E as E1 E2. change (8 + 0) with 8. change (8 <? 8) with false.
      change (8 =? 0) with false. cbv iota. change (u8 (Z.shiftl 255 (8 - 8))) with 255.
      cbn [length replicate]. congruence.
    + rewrite (proj2 (Z.ltb_lt _ _)) by lia. replace (8 + _ - 8) with (ipv6_count_cidr_bits m) by lia.
      by rewrite E.
  - cbv zeta in H. apply andb_true_iff in H as [Hl Hz%zeros_forallb]. apply Z.eqb_eq in Hl.
    destruct (cidr_byte_count b Hb8 Hne Hl) as [Hc Hcb]. split; [|lia].
    cbn [ipv6_create_mask_from]. rewrite (proj2 (Z.ltb_ge _ _)) by lia.
    destruct (Z.eqb_spec (shl_count 8 b) 0) as [Hs|].
    + rewrite Hs in Hcb. change (cidr_byte 0) with 0 in Hcb. subst b. simpl. by rewrite <-Hz.
    + unfold cidr_byte in Hcb. rewrite Hcb, <-Hz. done.
Qed.

(** ** Properties *)

(** pushing an 802.1Q tag inserts exactly the tag (type 0x8100, the TCI with
    its CFI bit cleared) after the MAC addresses, and popping it gives back the
    original frame, whether or not the push had to move the buffer. *)
Theorem eth_push_pop_vlan junk b tci :
  (forall i, is_u8 (junk i)) ->
  ofpbuf_wf b -> ETH_HEADER_LEN <= size b -> zlen (base b) < 2 ^ 64 ->
  can_grow b (ofpbuf_headroom b) VLAN_HEADER_LEN ->
  exists b1 b2, eth_push_vlan junk b tci = Ok b1 /\
    contents b1 = take 12 (contents b) ++ vlan_tag tci ++ drop 12 (contents b) /\
    eth_pop_vlan b1 = Ok b2 /\ ofpbuf_wf b2 /\ contents b2 = contents b.
Proof.
  intros Hj Hwf Hs Hl Hg.
  destruct (eth_push_vlan_spec junk Hj b tci Hwf Hs Hl Hg) as (b1 & E1 & Hwf1 & Hc1 & Hl2 & Hs1 & _).
  pose proof (zlen_contents b Hwf) as Hz. unfold ETH_HEADER_LEN in *.
  destruct (vlan_tagged_frame tci (contents b)) as [Hty Hun]; [lia|].
  destruct (eth_pop_vlan_spec b1 Hwf1 Hl2) as (b2 & E2 & Hwf2 & Hc2 & _).
  { unfold VLAN_ETH_HEADER_LEN. lia. }
  { by rewrite Hc1. }
  exists b1, b2. split_and!; try done. by rewrite Hc2, Hc1.
Qed.

(** C18: [packet_set_ipv4] on an IPv4 packet with a valid header checksum writes
    the four fields, leaves every other byte except the checksums as it was,
    and the result has a valid header checksum; a TCP checksum, or a UDP
    checksum that is in use, keeps its validity against the pseudo-header. *)
Theorem packet_set_ipv4_correct b nh th tlen proto src dst tos ttl h v :
  ipv4_layout b nh th tlen -> load_le 1 (base b) (nh + 9) = Ok proto ->
  l4_header_len proto <= tlen -> is_u32 src -> is_u32 dst -> is_u8 tos -> is_u8 ttl ->
  load_bytes (base b) nh 20 = Ok h -> h !! 0%nat = Some v -> v <> 0 -> csum_accepts h = true ->
  exists m h', packet_set_ipv4 b src dst tos ttl = Ok (set_base m b) /\
    load_le 4 m (nh + 12) = Ok src /\ load_le 4 m (nh + 16) = Ok dst /\
    load_le 1 m (nh + 1) = Ok tos /\ load_le 1 m (nh + 8) = Ok ttl /\
    same_outside (base b) m [(th + l4_csum_field proto, 2); (nh + 10, 2); (nh + 12, 4);
                             (nh + 16, 4); (nh + 1, 1); (nh + 8, 1)] /\
    load_bytes m nh 20 = Ok h' /\ csum_accepts h' = true /\
    (l4_checked (base b) th proto -> l4_checked m th proto /\
     (l4_sum m nh th tlen) mod 65535 = (l4_sum (base b) nh th tlen) mod 65535).
Proof.
  intros Hlay Hp Hlen Hsrc Hdst Htos Httl Hh Hv0 Hv Hacc.
  pose proof Hlay as (Hb & _ & _ & _ & ? & ? & ?).
  destruct (packet_set_ipv4_spec b nh th tlen proto src dst tos ttl)
    as (m & E & ? & ? & ? & ? & Hs & Hbm & Hm & H4); try done.
  assert (0 <= l4_csum_field proto) by (unfold l4_csum_field; destruct (_ =? _); lia).
  destruct (load_bytes_ok m nh 20) as [h' Hh'].
  { done. } { lia. }
  { rewrite (proj1 Hs). apply load_bytes_Ok in Hh. lia. }
  exists m, h'. split_and!; try done.
  assert (bytes h) as Hbh by exact (load_bytes_bytes _ _ _ _ Hb Hh).
  assert (bytes h') as Hbh' by exact (load_bytes_bytes _ _ _ _ Hbm Hh').
  pose proof (load_bytes_len _ _ _ _ Hh) as Hl. pose proof (load_bytes_len _ _ _ _ Hh') as Hl'.
  apply csum_accepts_spec in Hacc as [_ Hacc]; [|done|lia].
  apply csum_accepts_spec; [done|lia|].
  rewrite <-(msum_load _ _ _ _ Hh), <-Hm, (msum_load _ _ _ _ Hh') in Hacc. split; [|done].
  assert (h' !! 0%nat = Some v) as Hv'.
  { rewrite (load_bytes_lookup _ _ _ _ _ Hh') by lia.
    rewrite (load_bytes_lookup _ _ _ _ _ Hh) in Hv0 by lia. rewrite <-Hv0.
    destruct (load_bytes_ok m nh 1) as [x1 Hx1]; [lia..|rewrite (proj1 Hs); apply load_bytes_Ok in Hh; lia|].
    pose proof Hx1 as Hx2. rewrite (proj2 Hs) in Hx2 by ranges.
    pose proof (load_bytes_lookup _ _ _ _ 0%nat Hx1) as L1.
    pose proof (load_bytes_lookup _ _ _ _ 0%nat Hx2) as L2.
    rewrite <-L1, <-L2 by lia. done. }
  assert (is_u8 v) as Hv8 by exact (Forall_lookup_1 _ _ _ _ Hbh Hv0).
  unfold is_u8, is_u in Hv8.
  pose proof (sum16_head_pos h' v Hbh' Hv'). lia.
Qed.

(** [packet_set_tcp_port] sets both ports and keeps the sum of the segment
    modulo 65535, so that a valid TCP checksum stays valid; nothing else
    changes. *)
Theorem packet_set_tcp_port_correct b th tlen src dst :
  l4_layout b th tlen -> 20 <= tlen -> is_u16 src -> is_u16 dst ->
  exists m, packet_set_tcp_port b src dst = Ok (set_base m b) /\
    load_le 2 m th = Ok src /\ load_le 2 m (th + 2) = Ok dst /\
    same_outside (base b) m [(th + 16, 2); (th, 2); (th + 2, 2)] /\
    (msum m th tlen) mod 65535 = (msum (base b) th tlen) mod 65535.
Proof.
  intros Hlay Hlen Hs Hd. unfold packet_set_tcp_port. rewrite (proj1 (proj2 Hlay)). cbn [deref]. bind.
  destruct (packet_set_ports_spec b th tlen 16 src dst) as (m & E & _ & ? & ? & ? & ?);
    auto; [lia|]. exists m. by split_and!.
Qed.

(** [packet_set_udp_port] sets both ports.  A checksum in use stays in use
    (it never becomes 0, which would mean no checksum) and stays valid; an
    unused one stays 0. *)
Theorem packet_set_udp_port_correct b th tlen src dst c :
  l4_layout b th tlen -> 8 <= tlen -> is_u16 src -> is_u16 dst ->
  load_le 2 (base b) (th + 6) = Ok c ->
  exists m c', packet_set_udp_port b src dst = Ok (set_base m b) /\
    load_le 2 m th = Ok src /\ load_le 2 m (th + 2) = Ok dst /\
    same_outside (base b) m [(th + 6, 2); (th, 2); (th + 2, 2)] /\
    load_le 2 m (th + 6) = Ok c' /\ (c' = 0 <-> c = 0) /\
    (c <> 0 -> (msum m th tlen) mod 65535 = (msum (base b) th tlen) mod 65535).
Proof.
  intros Hlay Hlen Hs Hd Hc. pose proof Hlay as (Hb & Hl4 & Hth & Hend).
  unfold packet_set_udp_port, udp_csum_off. rewrite Hl4. cbn [deref]. bind.
  assert (ld 2 b (th + 6) = Ok c) as -> by done. bind.
  destruct (Z.eqb_spec c 0) as [->|Hc0]; cbn [negb].
  - destruct (st_spec 2 b th src) as (m1 & Hm1 & -> & Hb1 & Hz1); [done|lia|lia|]. bind.
    destruct (st_spec 2 (set_base m1 b) (th + 2) dst) as (m2 & Hm2 & -> & Hb2 & Hz2);
      [done|lia|simpl; lia|]. simpl base in *.
    pose proof (store_same_outside _ _ _ _ _ Hm1) as S1.
    pose proof (store_same_outside _ _ _ _ _ Hm2) as S2.
    exists m2, 0. split_and!; try done.
    + rewrite (same_outside_ld _ _ _ _ _ S2) by ranges.
      rewrite (load_store_le_same _ _ _ _ _ Hm1). f_equal. by apply Z.mod_small.
    + rewrite (load_store_le_same _ _ _ _ _ Hm2). f_equal. by apply Z.mod_small.
    + eapply same_outside_weaken; [exact (same_outside_trans _ _ _ _ _ S1 S2)|].
      intros x. cbn [app]. rewrite !elem_of_cons, !elem_of_nil. tauto.
    + rewrite (same_outside_ld _ _ _ _ _ S2), (same_outside_ld _ _ _ _ _ S1) by ranges. done.
  - destruct (packet_set_ports_spec b th tlen 6 src dst) as (m & E & Hbm & ? & ? & Hs6 & Hsum);
      auto. rewrite <-bind_assoc, E. bind.
    destruct (ld_spec 2 (set_base m b) (th + 6)) as (c1 & -> & Hc1 & Hc1b);
      [done|lia|simpl; rewrite (proj1 Hs6); lia|]. bind. simpl base in Hc1.
    destruct (Z.eqb_spec c1 0) as [->|Hc10].
    + destruct (st16_msum (set_base m b) th tlen 6 (htons 0xffff) 0)
        as (m2 & -> & Hm2 & Hb2 & Hz2 & Hsum2); try done; try (simpl; rewrite ?(proj1 Hs6); lia).
      simpl base in *. pose proof (store_same_outside _ _ _ _ _ Hm2) as S2.
      exists m2, (htons 0xffff). rewrite set_base_set_base. split_and!; try done.
      * rewrite (same_outside_ld _ _ _ _ _ S2) by ranges. done.
      * rewrite (same_outside_ld _ _ _ _ _ S2) by ranges. done.
      * eapply same_outside_weaken; [exact (same_outside_trans _ _ _ _ _ Hs6 S2)|].
        intros x. cbn [app]. rewrite !elem_of_cons, !elem_of_nil. tauto.
      * by rewrite (load_store_le_same _ _ _ _ _ Hm2).
      * intros _. rewrite Hsum2, <-Hsum. change (htons 65535) with (1 * 65535).
        by rewrite Z.sub_0_r, Z.mod_add.
    + exists m, c1. split_and!; try done.
Qed.

(** [packet_set_ipv6_addr] writes one 32-bit word only: on a TCP packet the
    checksum is updated for the whole new address, but the last twelve bytes of
    the address keep their old value. *)
Theorem packet_set_ipv6_addr_partial b th addr old w ws c :
  bytes (base b) -> l7 b <> None -> l4 b = Some th -> 0 <= addr -> addr + 16 <= th ->
  th + 20 <= zlen (base b) -> ld128 b addr = Ok old -> load_le 2 (base b) (th + 16) = Ok c ->
  is_u32 w -> length ws = 3%nat ->
  exists b', packet_set_ipv6_addr b IPPROTO_TCP addr (w :: ws) true = Ok b' /\
    load_le 2 (base b') (th + 16) = Ok (recalc_csum128 c old (w :: ws)) /\
    load_le 4 (base b') addr = Ok w /\
    load_bytes (base b') (addr + 4) 12 = load_bytes (base b) (addr + 4) 12.
Proof.
  intros Hb Hl7 Hl4 Ha Hath Hend Hold Hc Hw Hws.
  unfold packet_set_ipv6_addr, packet_update_csum128, tcp_csum_off.
  destruct (l7 b); [|done]. rewrite Z.eqb_refl, Hl4. cbn [deref]. rewrite bind_ok, Hold, bind_ok.
  assert (ld 2 b (th + 16) = Ok c) as -> by done. rewrite bind_ok.
  assert (length old = 4%nat) as Hlo.
  { revert Hold. unfold ld128. intros. inv_res. done. }
  assert (is_u16 (recalc_csum128 c old (w :: ws))) as Hr.
  { apply recalc_csum128_spec; [simpl; lia|]. apply is_u16_256. by apply (load_le_bound _ _ _ _ Hb Hc). }
  destruct (st_spec 2 b (th + 16) (recalc_csum128 c old (w :: ws))) as (m1 & Hm1 & -> & Hb1 & Hz1);
    [done|lia|lia|]. bind. cbn [head deref]. bind.
  destruct (st_spec 4 (set_base m1 b) addr w) as (m2 & Hm2 & -> & Hb2 & Hz2); [done|lia|simpl; lia|].
  simpl base in *. pose proof (store_same_outside _ _ _ _ _ Hm1) as S1.
  pose proof (store_same_outside _ _ _ _ _ Hm2) as S2.
  eexists. split; [reflexivity|]. simpl base. split_and!.
  - rewrite (same_outside_ld _ _ _ _ _ S2) by ranges.
    rewrite (load_store_le_same _ _ _ _ _ Hm1). f_equal. by apply Z.mod_small.
  - rewrite (load_store_le_same _ _ _ _ _ Hm2). f_equal. by apply Z.mod_small.
  - rewrite (proj2 S2), (proj2 S1) by ranges. done.
Qed.

(** CIDR masks: [ipv6_create_mask n] for 0 to 128 bits is a CIDR mask of
    [n] bits, and every CIDR mask is the mask created for its number of bits. *)
Theorem ipv6_mask_roundtrip n m :
  (0 <= n <= 128 -> exists k, ipv6_create_mask n = Ok k /\ length k = 16%nat /\
     ipv6_is_cidr k = true /\ ipv6_count_cidr_bits k = n) /\
  (bytes m -> length m = 16%nat -> ipv6_is_cidr m = true ->
     ipv6_create_mask (ipv6_count_cidr_bits m) = Ok m /\ 0 <= ipv6_count_cidr_bits m <= 128).
Proof.
  split.
  - intros Hn. apply (create_mask_spec 16). lia.
  - intros Hb Hl Hc. destruct (is_cidr_create m Hb Hc) as [E ?].
    unfold zlen in *. rewrite Hl in *. done.
Qed.

(** ** Witnesses *)

Definition sample_eth : list Z := [2; 0; 0; 0; 0; 1; 2; 0; 0; 0; 0; 2; 8; 0].
Definition sample_ip : list Z :=
  [69; 0; 0; 40; 0; 1; 0; 0; 64; 6; 102; 205; 10; 0; 0; 1; 10; 0; 0; 2].
Definition sample_tcp : list Z :=
  [0; 80; 4; 210; 0; 0; 0; 1; 0; 0; 0; 0; 80; 2; 16; 0; 134; 189; 0; 0].

(** A TCP/IPv4 frame with 8 bytes of headroom. *)
Definition sample_frame : ofpbuf :=
  Ofpbuf (replicate 8 0 ++ sample_eth ++ sample_ip ++ sample_tcp) 62 OFPBUF_STACK 8 54
    (Some 8) None (Some 22) (Some 42) (Some 62).

Lemma sample_frame_bytes : bytes (base sample_frame).
Proof. apply bytes_bool. reflexivity. Qed.

Lemma sample_frame_wf : ofpbuf_wf sample_frame.
Proof. split_and!; [apply sample_frame_bytes|reflexivity|simpl; lia..]. Qed.

Lemma sample_frame_ipv4 : ipv4_layout sample_frame 22 42 20.
Proof. split_and!; [apply sample_frame_bytes|reflexivity|reflexivity|discriminate|lia|lia|reflexivity || discriminate]. Qed.

Lemma sample_frame_l4 : l4_layout sample_frame 42 20.
Proof. split_and!; [apply sample_frame_bytes|reflexivity|lia|reflexivity || discriminate]. Qed.

Lemma eth_push_pop_vlan_witness :
  exists b1 b2, eth_push_vlan zeros sample_frame (htons 0x1005) = Ok b1 /\
    contents b1 = take 12 (contents sample_frame) ++ [0x81; 0; 0; 5] ++ drop 12 (contents sample_frame) /\
    eth_pop_vlan b1 = Ok b2 /\ ofpbuf_wf b2 /\ contents b2 = contents sample_frame.
Proof.
  apply (eth_push_pop_vlan zeros sample_frame (htons 0x1005) zeros_byte sample_frame_wf);
    [discriminate|reflexivity|]. left. vm_compute. discriminate.
Defined.

Lemma packet_set_ipv4_correct_witness :
  exists m h', packet_set_ipv4 sample_frame (htonl 0x0a000003) (htonl 0x0a000004) 4 63
               = Ok (set_base m sample_frame) /\
    load_le 4 m 34 = Ok (htonl 0x0a000003) /\ load_le 4 m 38 = Ok (htonl 0x0a000004) /\
    load_le 1 m 23 = Ok 4 /\ load_le 1 m 30 = Ok 63 /\
    same_outside (base sample_frame) m [(58, 2); (32, 2); (34, 4); (38, 4); (23, 1); (30, 1)] /\
    load_bytes m 22 20 = Ok h' /\ csum_accepts h' = true /\
    (l4_checked (base sample_frame) 42 6 -> l4_checked m 42 6 /\
     (l4_sum m 22 42 20) mod 65535 = (l4_sum (base sample_frame) 22 42 20) mod 65535).
Proof.
  apply (packet_set_ipv4_correct sample_frame 22 42 20 6 (htonl 0x0a000003) (htonl 0x0a000004) 4 63
           sample_ip 69 sample_frame_ipv4);
    [reflexivity|discriminate|split; vm_compute; congruence..|reflexivity|reflexivity|discriminate|reflexivity].
Defined.

Lemma packet_set_tcp_port_correct_witness :
  exists m, packet_set_tcp_port sample_frame (htons 1000) (htons 2000) = Ok (set_base m sample_frame) /\
    load_le 2 m 42 = Ok (htons 1000) /\ load_le 2 m 44 = Ok (htons 2000) /\
    same_outside (base sample_frame) m [(58, 2); (42, 2); (44, 2)] /\
    (msum m 42 20) mod 65535 = (msum (base sample_frame) 42 20) mod 65535.
Proof.
  apply (packet_set_tcp_port_correct sample_frame 42 20 (htons 1000) (htons 2000) sample_frame_l4);
    [lia|split; vm_compute; congruence..].
Defined.

(** The bytes of the sample segment read as a UDP header: checksum 1. *)
Lemma packet_set_udp_port_correct_witness :
  exists m c', packet_set_udp_port sample_frame (htons 1000) (htons 2000) = Ok (set_base m sample_frame) /\
    load_le 2 m 42 = Ok (htons 1000) /\ load_le 2 m 44 = Ok (htons 2000) /\
    same_outside (base sample_frame) m [(48, 2); (42, 2); (44, 2)] /\
    load_le 2 m 48 = Ok c' /\ (c' = 0 <-> 256 = 0) /\
    (256 <> 0 -> (msum m 42 20) mod 65535 = (msum (base sample_frame) 42 20) mod 65535).
Proof.
  apply (packet_set_udp_port_correct sample_frame 42 20 (htons 1000) (htons 2000) 256 sample_frame_l4);
    [lia|split; vm_compute; congruence..|reflexivity].
Defined.

(** A TCP/IPv6 packet: addresses at 8 and 24, TCP header at 40. *)
Definition sample_ipv6 : ofpbuf :=
  Ofpbuf (replicate 40 1 ++ sample_tcp) 60 OFPBUF_STACK 0 60
    (Some 0) None (Some 0) (Some 40) (Some 60).

Lemma packet_set_ipv6_addr_partial_witness :
  exists b', packet_set_ipv6_addr sample_ipv6 IPPROTO_TCP 8 [2; 3; 4; 5] true = Ok b' /\
    load_le 2 (base b') 56 =
      Ok (recalc_csum128 48518 [16843009; 16843009; 16843009; 16843009] [2; 3; 4; 5]) /\
    load_le 4 (base b') 8 = Ok 2 /\
    load_bytes (base b') 12 12 = Ok (replicate 12 1).
Proof.
  apply (packet_set_ipv6_addr_partial sample_ipv6 40 8
           [16843009; 16843009; 16843009; 16843009] 2 [3; 4; 5] 48518);
    [apply bytes_bool; reflexivity|discriminate|reflexivity|lia|lia|discriminate|reflexivity
    |reflexivity|split; vm_compute; congruence|reflexivity].
Defined.
