(* ===== verification/Stats.v ===== *)
(** Statistics: [datapath/dpdk/stats.c].

    Every counter is kept per core and summed over the cores when it is read.
    Counters are 64 bits wide and wrap around. *)
From S2P Require Import Prelude.

(** ** Data *)

Definition INC_BY_1 : Z := 1.
Definition VSWITCHD : Z := 0.
Definition MAX_VPORTS : Z := 256.

(** [struct vport_lcore_statistics]. *)
Record vport_lcore_statistics := VportLcore {
  rx : Z; tx : Z; rx_drop : Z; tx_drop : Z; overrun : Z
}.

(** [struct vswitch_lcore_statistics]. *)
Record vswitch_lcore_statistics := VswitchLcore { vs_tx_drop : Z; vs_rx_drop : Z }.

(** [vport_stats] and [vswitch_stats]: one block per core. *)
Record stats := Stats {
  vport_stats : list (list vport_lcore_statistics);
  vswitch_stats : list vswitch_lcore_statistics
}.

(** [struct port_stats] of [vport.h]. *)
Record port_stats := PortStats {
  ps_rx : Z; ps_tx : Z; ps_rx_bytes : Z; ps_tx_bytes : Z;
  ps_rx_drop : Z; ps_tx_drop : Z; ps_rx_error : Z; ps_tx_error : Z
}.

(** The counters of a vport. *)
Inductive counter := C_rx | C_tx | C_rx_drop | C_tx_drop | C_overrun.

#[global] Instance counter_eq_dec : EqDecision counter.
Proof. solve_decision. Defined.

Definition get_counter (c : counter) (s : vport_lcore_statistics) : Z :=
  match c with
  | C_rx => rx s | C_tx => tx s | C_rx_drop => rx_drop s | C_tx_drop => tx_drop s
  | C_overrun => overrun s
  end.

(** [s.counter += inc]: [inc] is an [int], the counter a [uint64_t]. *)
Definition add_counter (c : counter) (inc : Z) (s : vport_lcore_statistics) : vport_lcore_statistics :=
  match c with
  | C_rx => VportLcore (u64 (rx s + inc)) (tx s) (rx_drop s) (tx_drop s) (overrun s)
  | C_tx => VportLcore (rx s) (u64 (tx s + inc)) (rx_drop s) (tx_drop s) (overrun s)
  | C_rx_drop => VportLcore (rx s) (tx s) (u64 (rx_drop s + inc)) (tx_drop s) (overrun s)
  | C_tx_drop => VportLcore (rx s) (tx s) (rx_drop s) (u64 (tx_drop s + inc)) (overrun s)
  | C_overrun => VportLcore (rx s) (tx s) (rx_drop s) (tx_drop s) (u64 (overrun s + inc))
  end.

(** ** Operations *)

Definition zero_vport_lcore : vport_lcore_statistics := VportLcore 0 0 0 0 0.
Definition zero_vswitch_lcore : vswitch_lcore_statistics := VswitchLcore 0 0.

(** [stats_init]: the memory zone is cleared. *)
Definition stats_init (max_lcore : nat) : stats :=
  Stats (replicate (Z.to_nat MAX_VPORTS) (replicate max_lcore zero_vport_lcore))
        (replicate max_lcore zero_vswitch_lcore).

Definition vport_increment (c : counter) (lcore vportid inc : Z) (s : stats) : res stats :=
  v ← index (vport_stats s) vportid;
  l ← index v lcore;
  Ok (Stats (update (vport_stats s) vportid (update v lcore (add_counter c inc l)))
            (vswitch_stats s)).

(** [stats_vport_rx_increment] and its siblings, on core [lcore]. *)
Definition stats_vport_rx_increment := vport_increment C_rx.
Definition stats_vport_rx_drop_increment := vport_increment C_rx_drop.
Definition stats_vport_tx_increment := vport_increment C_tx.
Definition stats_vport_tx_drop_increment := vport_increment C_tx_drop.
Definition stats_vport_overrun_increment := vport_increment C_overrun.

Definition stats_vswitch_rx_drop_increment (lcore inc : Z) (s : stats) : res stats :=
  l ← index (vswitch_stats s) lcore;
  Ok (Stats (vport_stats s)
        (update (vswitch_stats s) lcore (VswitchLcore (vs_tx_drop l) (u64 (vs_rx_drop l + inc))))).

Definition stats_vswitch_tx_drop_increment (lcore inc : Z) (s : stats) : res stats :=
  l ← index (vswitch_stats s) lcore;
  Ok (Stats (vport_stats s)
        (update (vswitch_stats s) lcore (VswitchLcore (u64 (vs_tx_drop l + inc)) (vs_rx_drop l)))).

(** The summing loop of the getters. *)
Definition sum64 {A} (f : A -> Z) (l : list A) : Z := foldl (fun acc x => u64 (acc + f x)) 0 l.

Definition vport_counter_get (c : counter) (vportid : Z) (s : stats) : res Z :=
  v ← index (vport_stats s) vportid; Ok (sum64 (get_counter c) v).

Definition stats_vport_rx_get := vport_counter_get C_rx.
Definition stats_vport_rx_drop_get := vport_counter_get C_rx_drop.
Definition stats_vport_tx_get := vport_counter_get C_tx.
Definition stats_vport_tx_drop_get := vport_counter_get C_tx_drop.
Definition stats_vport_overrun_get := vport_counter_get C_overrun.
Definition stats_vswitch_rx_drop_get (s : stats) : Z := sum64 vs_rx_drop (vswitch_stats s).
Definition stats_vswitch_tx_drop_get (s : stats) : Z := sum64 vs_tx_drop (vswitch_stats s).

(** [stats_vport_get]: byte and error counts stay 0. *)
Definition stats_vport_get (vportid : Z) (s : stats) : res port_stats :=
  r ← stats_vport_rx_get vportid s;
  t ← stats_vport_tx_get vportid s;
  rd ← stats_vport_rx_drop_get vportid s;
  td ← stats_vport_tx_drop_get vportid s;
  Ok (PortStats r t 0 0 rd td 0 0).

(** [stats_vport_clear], [stats_vport_clear_all], [stats_vswitch_clear], [stats_clear]. *)
Definition stats_vport_clear (vportid : Z) (s : stats) : res stats :=
  v ← index (vport_stats s) vportid;
  Ok (Stats (update (vport_stats s) vportid ((fun _ => zero_vport_lcore) <$> v)) (vswitch_stats s)).

Fixpoint vport_clear_loop (n : nat) (vportid : Z) (s : stats) : res stats :=
  match n with
  | O => Ok s
  | S n => s ← stats_vport_clear vportid s; vport_clear_loop n (vportid + 1) s
  end.
Definition stats_vport_clear_all (s : stats) : res stats :=
  vport_clear_loop (Z.to_nat MAX_VPORTS) 0 s.

Definition stats_vswitch_clear (s : stats) : stats :=
  Stats (vport_stats s) ((fun _ => zero_vswitch_lcore) <$> vswitch_stats s).

Definition stats_clear (s : stats) : res stats := stats_vport_clear_all (stats_vswitch_clear s).

(** ** Lemmas *)

Lemma sum64_acc {A} (f : A -> Z) l acc :
  foldl (fun acc x => u64 (acc + f x)) acc l = u64 (acc + foldr (fun x s => f x + s) 0 l) \/ l = [].
Proof.
  revert acc. induction l as [|x l IH]; intros acc; [by right|left]. simpl.
  destruct (IH (u64 (acc + f x))) as [->| ->].
  - unfold u64. rewrite wrap_add_l. f_equal. lia.
  - simpl. f_equal. lia.
Qed.

Definition sumZ {A} (f : A -> Z) (l : list A) : Z := foldr (fun x s => f x + s) 0 l.

Lemma sum64_sumZ {A} (f : A -> Z) l : sum64 f l = u64 (sumZ f l).
Proof. unfold sum64, sumZ. by destruct (sum64_acc f l 0) as [->| ->]. Qed.

Lemma sumZ_update {A} (f : A -> Z) l i x y :
  index l i = Ok x -> sumZ f (update l i y) = sumZ f l - f x + f y.
Proof.
  intros [_ H]%index_Ok. unfold update. revert H. generalize (Z.to_nat i) as n. clear i.
  induction l as [|z l IH]; intros [|n] H; simplify_eq/=; [lia|].
  specialize (IH n H). unfold sumZ in *. lia.
Qed.

Lemma sumZ_const {A B} (f : A -> Z) z (l : list B) : f z = 0 -> sumZ f ((fun _ => z) <$> l) = 0.
Proof. intros Hz. unfold sumZ. induction l as [|x l IH]; [done|]. cbn. by rewrite Hz, IH. Qed.

Lemma get_add_counter c d inc l :
  get_counter c (add_counter d inc l) = if decide (c = d) then u64 (get_counter d l + inc) else get_counter c l.
Proof. by destruct c, d. Qed.

(** The abstract value of a counter: what the getters return. *)
Lemma vport_increment_ok c lcore v inc s :
  0 <= v < zlen (vport_stats s) ->
  (forall l, index (vport_stats s) v = Ok l -> 0 <= lcore < zlen l) ->
  exists s', vport_increment c lcore v inc s = Ok s'.
Proof.
  intros Hv Hl. destruct (index_ok _ _ Hv) as [l El]. destruct (index_ok l lcore (Hl l El)) as [x Ex].
  unfold vport_increment. rewrite El. bind. rewrite Ex. bind. eauto.
Qed.

Lemma vport_increment_get c d lcore v v' inc s s' x :
  vport_increment c lcore v inc s = Ok s' -> vport_counter_get d v' s = Ok x ->
  vport_counter_get d v' s' = Ok (if decide (d = c /\ v' = v) then u64 (x + inc) else x).
Proof.
  unfold vport_increment, vport_counter_get. intros H Hg.
  apply res_bind_Ok in Hg as (w & Ew & [= <-]).
  apply res_bind_Ok in H as (w0 & Ew0 & (l & El & [= <-])%res_bind_Ok). simpl.
  pose proof (index_bound _ _ _ Ew0) as Hbd. destruct (decide (v' = v)) as [->|Hne].
  - rewrite Ew0 in Ew. injection Ew as <-.
    rewrite index_update_eq by done. bind. rewrite !sum64_sumZ.
    rewrite (sumZ_update _ _ _ _ _ El), get_add_counter.
    destruct (decide (d = c)) as [->|].
    + rewrite decide_True by done. f_equal. unfold u64.
      rewrite wrap_add_r, wrap_add_l. f_equal. lia.
    + rewrite decide_False by tauto. f_equal. f_equal. lia.
  - rewrite index_update_ne by lia. rewrite Ew. bind. by rewrite decide_False by tauto.
Qed.

Lemma vport_increment_shape c lcore v inc s s' :
  vport_increment c lcore v inc s = Ok s' ->
  vswitch_stats s' = vswitch_stats s /\ zlen <$> vport_stats s' = zlen <$> vport_stats s.
Proof.
  unfold vport_increment. intros H.
  apply res_bind_Ok in H as (w0 & Ew0 & (l & El & [= <-])%res_bind_Ok). simpl. split; [done|].
  unfold update. rewrite list_fmap_insert. apply index_Ok in Ew0 as [? Hl].
  apply list_insert_id. rewrite list_lookup_fmap, Hl.
  apply (f_equal Some). symmetry. apply zlen_update.
Qed.

(** ** Well-formed statistics: one block per core for every vport *)

Definition stats_wf (max_lcore : Z) (s : stats) : Prop :=
  zlen (vport_stats s) = MAX_VPORTS /\ Forall (fun v => zlen v = max_lcore) (vport_stats s) /\
  zlen (vswitch_stats s) = max_lcore.

Lemma stats_wf_index n s v l : stats_wf n s -> index (vport_stats s) v = Ok l -> zlen l = n.
Proof. intros (_ & H & _) [_ Hl]%index_Ok. by apply (Forall_lookup_1 _ _ _ _ H Hl). Qed.

Lemma stats_wf_update n s v l :
  stats_wf n s -> zlen l = n ->
  stats_wf n (Stats (update (vport_stats s) v l) (vswitch_stats s)).
Proof.
  intros (H1 & H2 & H3) Hl. split; [by rewrite <- H1; apply zlen_update|]. split; [|done].
  by apply Forall_insert.
Qed.

Lemma stats_init_wf n : stats_wf (Z.of_nat n) (stats_init n).
Proof.
  split; [vm_compute; done|]. split.
  - apply Forall_replicate. unfold zlen. by rewrite length_replicate.
  - simpl. unfold zlen. by rewrite length_replicate.
Qed.

Lemma vport_increment_wf n c lcore v inc s s' :
  stats_wf n s -> vport_increment c lcore v inc s = Ok s' -> stats_wf n s'.
Proof.
  intros Hwf (w & Ew & (l & El & [= <-])%res_bind_Ok)%res_bind_Ok.
  apply stats_wf_update; [done|]. rewrite zlen_update. by eapply stats_wf_index.
Qed.

Lemma vport_increment_total n c lcore v inc s :
  stats_wf n s -> 0 <= lcore < n -> 0 <= v < MAX_VPORTS ->
  exists s', vport_increment c lcore v inc s = Ok s' /\ stats_wf n s'.
Proof.
  intros Hwf Hl Hv. destruct (vport_increment_ok c lcore v inc s) as [s' E].
  - destruct Hwf as [-> _]. done.
  - intros l El. by rewrite (stats_wf_index _ _ _ _ Hwf El).
  - exists s'. split; [done|]. by eapply vport_increment_wf.
Qed.

Lemma vport_counter_get_ok n s d v :
  stats_wf n s -> 0 <= v < MAX_VPORTS -> exists x, vport_counter_get d v s = Ok x /\ is_u 64 x.
Proof.
  intros [Hn _] Hv. destruct (index_ok (vport_stats s) v) as [l El]; [by rewrite Hn|].
  unfold vport_counter_get. rewrite El. bind. eexists. split; [done|].
  rewrite sum64_sumZ. unfold u64. by apply wrap_range.
Qed.

(** A run of increments, each by some core on some counter of some vport. *)
Definition inc_op : Type := counter * Z * Z * Z.

Fixpoint run_increments (ops : list inc_op) (s : stats) : res stats :=
  match ops with
  | [] => Ok s
  | (c, lcore, v, inc) :: ops => s ← vport_increment c lcore v inc s; run_increments ops s
  end.

Definition inc_ok (n : Z) (op : inc_op) : Prop :=
  let '(_, lcore, v, _) := op in 0 <= lcore < n /\ 0 <= v < MAX_VPORTS.

(** What the run adds to counter [d] of vport [v]. *)
Definition inc_on (d : counter) (v : Z) (op : inc_op) : Z :=
  let '(c, _, v', inc) := op in if decide (d = c /\ v = v') then inc else 0.

Lemma run_increments_get ops s s' d v x :
  is_u 64 x -> run_increments ops s = Ok s' -> vport_counter_get d v s = Ok x ->
  vport_counter_get d v s' = Ok (u64 (x + sumZ (inc_on d v) ops)).
Proof.
  revert s x. induction ops as [|[[[c l] w] inc] ops IH]; intros s x Hx H Hg; simpl in H |- *.
  - injection H as <-. unfold u64. rewrite Z.add_0_r, wrap_small by done. done.
  - apply res_bind_Ok in H as (s1 & E1 & H).
    pose proof (vport_increment_get _ d _ _ v _ _ _ _ E1 Hg) as Hg1.
    destruct (decide (d = c /\ v = w)).
    + apply (IH s1 (u64 (x + inc))) in H; [|by apply wrap_range|done].
      rewrite H. unfold u64. rewrite wrap_add_l. do 2 f_equal. unfold sumZ. lia.
    + apply (IH s1 x) in H; [|done|done]. rewrite H. do 2 f_equal. 
Qed.

Lemma run_increments_total n ops s :
  stats_wf n s -> Forall (inc_ok n) ops -> exists s', run_increments ops s = Ok s' /\ stats_wf n s'.
Proof.
  intros Hwf Hops. revert s Hwf. induction Hops as [|[[[c l] w] inc] ops [Hl Hw] Hops IH]; intros s Hwf.
  - by exists s.
  - destruct (vport_increment_total n c l w inc s Hwf Hl Hw) as (s1 & E1 & Hwf1).
    simpl. rewrite E1. bind. by apply IH.
Qed.

Lemma stats_vport_clear_spec n v s :
  stats_wf n s -> 0 <= v < MAX_VPORTS ->
  exists s', stats_vport_clear v s = Ok s' /\ stats_wf n s' /\ vswitch_stats s' = vswitch_stats s /\
    forall d w, vport_counter_get d w s' = if decide (w = v) then Ok 0 else vport_counter_get d w s.
Proof.
  intros Hwf Hv. destruct (index_ok (vport_stats s) v) as [l El]; [by destruct Hwf as [-> _]|].
  unfold stats_vport_clear. rewrite El. bind. eexists. split; [done|]. split.
  - apply stats_wf_update; [done|]. rewrite <- (stats_wf_index _ _ _ _ Hwf El).
    unfold zlen. by rewrite length_fmap.
  - split; [done|]. intros d w. unfold vport_counter_get. simpl. destruct (decide (w = v)) as [->|].
    + rewrite index_update_eq by (destruct Hwf as [-> _]; done). bind. f_equal.
      rewrite sum64_sumZ, sumZ_const by (by destruct d). done.
    + by rewrite index_update_ne by lia.
Qed.

Lemma vport_clear_loop_spec n k v s :
  stats_wf n s -> 0 <= v -> v + Z.of_nat k <= MAX_VPORTS ->
  exists s', vport_clear_loop k v s = Ok s' /\ stats_wf n s' /\ vswitch_stats s' = vswitch_stats s /\
    forall d w, vport_counter_get d w s' =
      if decide (v <= w < v + Z.of_nat k) then Ok 0 else vport_counter_get d w s.
Proof.
  revert v s. induction k as [|k IH]; intros v s Hwf Hv Hk.
  - exists s. do 3 (split; [done|]). intros. by rewrite decide_False by lia.
  - destruct (stats_vport_clear_spec n v s Hwf ltac:(lia)) as (s1 & E1 & Hwf1 & Hv1 & Hg1).
    destruct (IH (v + 1) s1 Hwf1 ltac:(lia) ltac:(lia)) as (s2 & E2 & Hwf2 & Hv2 & Hg2).
    exists s2. simpl. rewrite E1. bind. do 2 (split; [done|]).
    split; [congruence|]. intros d w.
    rewrite Hg2, Hg1. destruct (decide (v <= w < v + Z.of_nat (S k))).
    + destruct (decide (v + 1 <= w < _)); [done|]. by rewrite decide_True by lia.
    + rewrite !decide_False by lia. done.
Qed.

(** ** Properties *)

(** any run of increments, made by any cores in any order on statistics
    with one block per core, succeeds, and the value read back for a counter of
    a vport is the value before plus the sum of exactly the increments made on
    that counter of that vport, modulo 2^64. *)
Theorem stats_increments_sum n ops s d v x :
  stats_wf n s -> Forall (inc_ok n) ops -> vport_counter_get d v s = Ok x -> is_u 64 x ->
  exists s', run_increments ops s = Ok s' /\ stats_wf n s' /\
    vport_counter_get d v s' = Ok (u64 (x + sumZ (inc_on d v) ops)).
Proof.
  intros Hwf Hops Hg Hx. destruct (run_increments_total n ops s Hwf Hops) as (s' & E & Hwf').
  exists s'. split; [done|]. split; [done|]. by eapply run_increments_get.
Qed.

Lemma stats_increments_sum_witness :
  exists s', run_increments [(C_rx, 0, 7, 5); (C_tx, 1, 7, 1); (C_rx, 1, 7, 2^64 - 2)] (stats_init 2) = Ok s' /\
    stats_wf 2 s' /\ vport_counter_get C_rx 7 s' = Ok 3.
Proof.
  set (ops := [_; _; _]). replace 3 with (u64 (0 + sumZ (inc_on C_rx 7) ops)) by reflexivity.
  apply (stats_increments_sum 2 ops (stats_init 2) C_rx 7 0).
  - apply (stats_init_wf 2).
  - unfold MAX_VPORTS. repeat constructor; lia.
  - vm_compute. reflexivity.
  - unfold is_u. lia.
Defined.

(** [stats_clear] on well-formed statistics succeeds and makes every
    counter of every vport, and both counters of the switch, read 0. *)
Theorem stats_clear_zero n s :
  stats_wf n s ->
  exists s', stats_clear s = Ok s' /\ stats_wf n s' /\
    (forall d v, 0 <= v < MAX_VPORTS -> vport_counter_get d v s' = Ok 0) /\
    (forall v, 0 <= v < MAX_VPORTS -> stats_vport_get v s' = Ok (PortStats 0 0 0 0 0 0 0 0)) /\
    stats_vswitch_rx_drop_get s' = 0 /\
    stats_vswitch_tx_drop_get s' = 0.
Proof.
  intros Hwf. assert (stats_wf n (stats_vswitch_clear s)) as Hwf0.
  { destruct Hwf as (? & ? & ?). split; [done|]. split; [done|].
    unfold zlen in *. simpl. by rewrite length_fmap. }
  destruct (vport_clear_loop_spec n (Z.to_nat MAX_VPORTS) 0 _ Hwf0) as (s' & E & Hwf' & Hvs & Hg); [done|done|].
  assert (forall d v, 0 <= v < MAX_VPORTS -> vport_counter_get d v s' = Ok 0) as H0.
  { intros. rewrite Hg. apply decide_True. unfold MAX_VPORTS in *. lia. }
  exists s'. do 3 (split; [done|]). split; [|split].
  - intros v Hv. unfold stats_vport_get, stats_vport_rx_get, stats_vport_tx_get,
      stats_vport_rx_drop_get, stats_vport_tx_drop_get. by rewrite !H0.
  - unfold stats_vswitch_rx_drop_get. rewrite sum64_sumZ, Hvs. cbn [stats_vswitch_clear vswitch_stats]. by rewrite sumZ_const.
  - unfold stats_vswitch_tx_drop_get. rewrite sum64_sumZ, Hvs. cbn [stats_vswitch_clear vswitch_stats]. by rewrite sumZ_const.
Qed.

Lemma stats_clear_zero_witness :
  exists s', stats_clear (stats_init 2) = Ok s' /\ stats_wf 2 s' /\
    (forall d v, 0 <= v < MAX_VPORTS -> vport_counter_get d v s' = Ok 0) /\
    (forall v, 0 <= v < MAX_VPORTS -> stats_vport_get v s' = Ok (PortStats 0 0 0 0 0 0 0 0)) /\
    stats_vswitch_rx_drop_get s' = 0 /\
    stats_vswitch_tx_drop_get s' = 0.
Proof. apply (stats_clear_zero 2). apply (stats_init_wf 2). Defined.
