(* ===== verification/Dpdk.v ===== *)
(** The DPDK services the datapath is built on.

    DPDK is not part of the sources, so its services are parameters: a type
    class of operations and a type class of the documented laws for packet
    buffers ([rte_mbuf]), rings ([rte_ring]) and the hash table of fixed
    positions ([rte_hash]).  Each laws class has an instance with concrete
    functions ([Pool], [Fifo], [Slots]), which the examples are evaluated on. *)
From stdpp Require Import gmap.
From S2P Require Import Prelude.

Definition ENOENT : Z := 2.
Definition EBUSY : Z := 16.
Definition EEXIST : Z := 17.
Definition ENODEV : Z := 19.
Definition EINVAL : Z := 22.
Definition ENOSPC : Z := 28.
Definition ENOBUFS : Z := 105.
Definition EDQUOT : Z := 122.

(** ** Packet buffers *)

(** A buffer header: the data buffer it points to, the offset of the packet in
    it, and the packet's length.  The data buffer is a separate object because
    clones share it.  Packets are held in one segment. *)
Record rte_mbuf := Mbuf { buf_addr : Z; pkt_data : Z; data_len : Z; pkt_len : Z }.

Record mem := Mem { mbufs : gmap Z rte_mbuf; bufs : gmap Z (list Z) }.

Definition live (m : mem) (p : Z) : Prop := is_Some (mbufs m !! p).

Class RteMbuf := {
  rte_pktmbuf_alloc : mem -> option Z * mem;
  rte_pktmbuf_free : Z -> mem -> mem;
  rte_pktmbuf_clone : Z -> mem -> option Z * mem;
  rte_pktmbuf_prepend : Z -> Z -> mem -> option Z * mem;
  rte_pktmbuf_adj : Z -> Z -> mem -> option Z * mem
}.

(** The header as read through pointer [p]. *)
Definition mbuf_at (m : mem) (p : Z) : res rte_mbuf :=
  match mbufs m !! p with Some b => Ok b | None => Err UseAfterFree end.

Definition buf_at (m : mem) (a : Z) : res (list Z) :=
  match bufs m !! a with Some b => Ok b | None => Err UseAfterFree end.

Definition set_mbuf (p : Z) (b : rte_mbuf) (m : mem) : mem := Mem (<[p := b]> (mbufs m)) (bufs m).
Definition set_buf (a : Z) (c : list Z) (m : mem) : mem := Mem (mbufs m) (<[a := c]> (bufs m)).

(** The packet's bytes: from [rte_pktmbuf_mtod] for [rte_pktmbuf_data_len]. *)
Definition packet (m : mem) (p : Z) : res (list Z) :=
  b ← mbuf_at m p; c ← buf_at m (buf_addr b); load_bytes c (pkt_data b) (data_len b).

(** A call of [rte_pktmbuf_free]: freeing what is not live is a fault. *)
Definition pktmbuf_free `{RteMbuf} (p : Z) (m : mem) : res mem :=
  _ ← mbuf_at m p; Ok (rte_pktmbuf_free p m).

(** The loops that free an array of buffers. *)
Fixpoint pktmbuf_free_all `{RteMbuf} (ps : list Z) (m : mem) : res mem :=
  match ps with
  | [] => Ok m
  | p :: ps => m ← pktmbuf_free p m; pktmbuf_free_all ps m
  end.

Class RteMbufLaws `{RteMbuf} := {
  alloc_none m m' : rte_pktmbuf_alloc m = (None, m') -> m' = m;
  alloc_some m m' p : rte_pktmbuf_alloc m = (Some p, m') ->
    mbufs m !! p = None /\
    exists b c, mbufs m' = <[p := b]> (mbufs m) /\ bufs m' = <[buf_addr b := c]> (bufs m) /\
      (forall q b', mbufs m !! q = Some b' -> buf_addr b' <> buf_addr b) /\
      data_len b = 0 /\ pkt_len b = 0 /\ 0 <= pkt_data b <= zlen c;
  free_mbufs m p : mbufs (rte_pktmbuf_free p m) = delete p (mbufs m);
  free_bufs m p q b : q <> p -> mbufs m !! q = Some b ->
    bufs (rte_pktmbuf_free p m) !! buf_addr b = bufs m !! buf_addr b;
  clone_none m m' p : rte_pktmbuf_clone p m = (None, m') -> m' = m;
  clone_some m m' p q b : mbufs m !! p = Some b -> rte_pktmbuf_clone p m = (Some q, m') ->
    mbufs m !! q = None /\ mbufs m' = <[q := b]> (mbufs m) /\ bufs m' = bufs m;
  prepend_spec m p b len : mbufs m !! p = Some b -> 0 <= len ->
    rte_pktmbuf_prepend p len m =
      if len <=? pkt_data b
      then (Some (pkt_data b - len),
            set_mbuf p (Mbuf (buf_addr b) (pkt_data b - len) (u16 (data_len b + len)) (u32 (pkt_len b + len))) m)
      else (None, m);
  adj_spec m p b len : mbufs m !! p = Some b -> 0 <= len ->
    rte_pktmbuf_adj p len m =
      if len <=? data_len b
      then (Some (pkt_data b + len),
            set_mbuf p (Mbuf (buf_addr b) (pkt_data b + len) (u16 (data_len b - len)) (u32 (pkt_len b - len))) m)
      else (None, m)
}.

(** ** Rings *)

Class RteRing (ring : Type) := {
  ring_objs : ring -> list Z;
  ring_cap : ring -> Z;
  rte_ring_create : Z -> option ring;
  rte_ring_count : ring -> Z;
  rte_ring_free_count : ring -> Z;
  rte_ring_enqueue : Z -> ring -> Z * ring;
  rte_ring_enqueue_burst : list Z -> ring -> Z * ring;
  rte_ring_enqueue_bulk : list Z -> ring -> Z * ring;
  rte_ring_dequeue_burst : Z -> ring -> list Z * ring;
  rte_ring_dequeue_bulk : Z -> ring -> Z * list Z * ring
}.

Class RteRingLaws (ring : Type) `{RteRing ring} := {
  ring_create_spec n r : rte_ring_create n = Some r -> ring_objs r = [] /\ ring_cap r = n - 1;
  ring_count_spec r : rte_ring_count r = zlen (ring_objs r);
  ring_free_count_spec r : rte_ring_free_count r = ring_cap r - zlen (ring_objs r);
  ring_count_cap r : zlen (ring_objs r) <= ring_cap r;
  ring_enqueue_spec p r rc r' : rte_ring_enqueue p r = (rc, r') ->
    ring_cap r' = ring_cap r /\
    if zlen (ring_objs r) <? ring_cap r
    then (rc = 0 \/ rc = - EDQUOT) /\ ring_objs r' = ring_objs r ++ [p]
    else rc = - ENOBUFS /\ r' = r;
  ring_enqueue_burst_spec ps r n r' : rte_ring_enqueue_burst ps r = (n, r') ->
    ring_cap r' = ring_cap r /\ n = Z.min (zlen ps) (ring_cap r - zlen (ring_objs r)) /\
    ring_objs r' = ring_objs r ++ take (Z.to_nat n) ps;
  ring_enqueue_bulk_spec ps r rc r' : rte_ring_enqueue_bulk ps r = (rc, r') ->
    ring_cap r' = ring_cap r /\
    if zlen (ring_objs r) + zlen ps <=? ring_cap r
    then (rc = 0 \/ rc = - EDQUOT) /\ ring_objs r' = ring_objs r ++ ps
    else rc = - ENOBUFS /\ r' = r;
  ring_dequeue_burst_spec n r ps r' : 0 <= n -> rte_ring_dequeue_burst n r = (ps, r') ->
    ring_cap r' = ring_cap r /\ ps = take (Z.to_nat n) (ring_objs r) /\
    ring_objs r' = drop (Z.to_nat n) (ring_objs r);
  ring_dequeue_bulk_spec n r rc ps r' : 0 <= n -> rte_ring_dequeue_bulk n r = (rc, ps, r') ->
    ring_cap r' = ring_cap r /\
    if n <=? zlen (ring_objs r)
    then rc = 0 /\ ps = take (Z.to_nat n) (ring_objs r) /\ ring_objs r' = drop (Z.to_nat n) (ring_objs r)
    else rc = - ENOENT /\ r' = r
}.

(** ** Hash table of positions *)

Class RteHash (K hash : Type) := {
  hash_pos : hash -> K -> option Z;
  rte_hash_create : Z -> option hash;
  rte_hash_lookup : hash -> K -> Z;
  rte_hash_add_key : hash -> K -> Z * hash;
  rte_hash_del_key : hash -> K -> Z * hash
}.

(** [entries]: the number of positions of the table. *)
Class RteHashLaws (K hash : Type) (entries : Z) `{RteHash K hash} := {
  hash_create_spec h : rte_hash_create entries = Some h -> forall k, hash_pos h k = None;
  hash_pos_range h k p : hash_pos h k = Some p -> 0 <= p < entries;
  hash_pos_inj h k k' p : hash_pos h k = Some p -> hash_pos h k' = Some p -> k = k';
  hash_lookup_spec h k :
    rte_hash_lookup h k = match hash_pos h k with Some p => p | None => - ENOENT end;
  hash_add_spec h k rc h' : rte_hash_add_key h k = (rc, h') ->
    match hash_pos h k with
    | Some p => rc = p /\ forall k', hash_pos h' k' = hash_pos h k'
    | None => (rc = - ENOSPC /\ forall k', hash_pos h' k' = hash_pos h k') \/
              (hash_pos h' k = Some rc /\ (forall k', k' <> k -> hash_pos h' k' = hash_pos h k'))
    end;
  hash_del_spec h k rc h' : rte_hash_del_key h k = (rc, h') ->
    match hash_pos h k with
    | Some p => rc = p /\ hash_pos h' k = None /\ (forall k', k' <> k -> hash_pos h' k' = hash_pos h k')
    | None => rc = - ENOENT /\ forall k', hash_pos h' k' = hash_pos h k'
    end
}.

(** ** Concrete services *)

(** A pool of [cap] buffers of [size] bytes with [headroom] bytes before the
    packet.  A new buffer gets the first identifier above those in use. *)
Definition pool_top (m : mem) : Z :=
  map_fold (fun p b acc => Z.max acc (Z.max p (buf_addr b))) 0 (mbufs m) + 1.

Definition pool_alloc (cap : Z) (buf : list Z) (headroom : Z) (m : mem) : option Z * mem :=
  if Z.of_nat (size (mbufs m)) <? cap then
    let p := pool_top m in
    (Some p, Mem (<[p := Mbuf p headroom 0 0]> (mbufs m)) (<[p := buf]> (bufs m)))
  else (None, m).

Definition pool_clone (cap : Z) (p : Z) (m : mem) : option Z * mem :=
  match mbufs m !! p with
  | Some b => if Z.of_nat (size (mbufs m)) <? cap
              then (Some (pool_top m), set_mbuf (pool_top m) b m) else (None, m)
  | None => (None, m)
  end.

Definition Pool (cap : Z) (buf : list Z) (headroom : Z) : RteMbuf := {|
  rte_pktmbuf_alloc := pool_alloc cap buf headroom;
  rte_pktmbuf_free p m := Mem (delete p (mbufs m)) (bufs m);
  rte_pktmbuf_clone := pool_clone cap;
  rte_pktmbuf_prepend p len m :=
    match mbufs m !! p with
    | Some b => if len <=? pkt_data b
        then (Some (pkt_data b - len),
              set_mbuf p (Mbuf (buf_addr b) (pkt_data b - len) (u16 (data_len b + len)) (u32 (pkt_len b + len))) m)
        else (None, m)
    | None => (None, m)
    end;
  rte_pktmbuf_adj p len m :=
    match mbufs m !! p with
    | Some b => if len <=? data_len b
        then (Some (pkt_data b + len),
              set_mbuf p (Mbuf (buf_addr b) (pkt_data b + len) (u16 (data_len b - len)) (u32 (pkt_len b - len))) m)
        else (None, m)
    | None => (None, m)
    end
|}.

(** A bounded queue. *)
Record fifo := FifoRing { f_objs : list Z; f_cap : nat }.

Definition fifo_objs (r : fifo) : list Z := take (f_cap r) (f_objs r).
Definition fifo_cap (r : fifo) : Z := Z.of_nat (f_cap r).

#[export] Instance Fifo : RteRing fifo := {|
  ring_objs := fifo_objs;
  ring_cap := fifo_cap;
  rte_ring_create n := if 1 <=? n then Some (FifoRing [] (Z.to_nat (n - 1))) else None;
  rte_ring_count r := zlen (fifo_objs r);
  rte_ring_free_count r := fifo_cap r - zlen (fifo_objs r);
  rte_ring_enqueue p r :=
    if zlen (fifo_objs r) <? fifo_cap r then (0, FifoRing (fifo_objs r ++ [p]) (f_cap r)) else (- ENOBUFS, r);
  rte_ring_enqueue_burst ps r :=
    let n := Z.min (zlen ps) (fifo_cap r - zlen (fifo_objs r)) in
    (n, FifoRing (fifo_objs r ++ take (Z.to_nat n) ps) (f_cap r));
  rte_ring_enqueue_bulk ps r :=
    if zlen (fifo_objs r) + zlen ps <=? fifo_cap r
    then (0, FifoRing (fifo_objs r ++ ps) (f_cap r)) else (- ENOBUFS, r);
  rte_ring_dequeue_burst n r :=
    (take (Z.to_nat n) (fifo_objs r), FifoRing (drop (Z.to_nat n) (fifo_objs r)) (f_cap r));
  rte_ring_dequeue_bulk n r :=
    if n <=? zlen (fifo_objs r)
    then (0, take (Z.to_nat n) (fifo_objs r), FifoRing (drop (Z.to_nat n) (fifo_objs r)) (f_cap r))
    else (- ENOENT, [], r)
|}.

(** Keys in slots; the position of a key is the slot it is in. *)
Definition slots_pos `{EqDecision K} (entries : Z) (l : list (option K)) (k : K) : option Z :=
  match list_find (fun o => o = Some k) l with
  | Some (i, _) => if Z.of_nat i <? entries then Some (Z.of_nat i) else None
  | None => None
  end.

Definition slots_add `{EqDecision K} (entries : Z) (l : list (option K)) (k : K) : Z * list (option K) :=
  match slots_pos entries l k with
  | Some p => (p, l)
  | None =>
      match list_find (fun o => o = None) l with
      | Some (i, _) => if Z.of_nat i <? entries then (Z.of_nat i, <[i := Some k]> l) else (- ENOSPC, l)
      | None => if zlen l <? entries then (zlen l, l ++ [Some k]) else (- ENOSPC, l)
      end
  end.

Definition slots_remove `{EqDecision K} (k : K) (l : list (option K)) : list (option K) :=
  (fun o => if decide (o = Some k) then None else o) <$> l.

Definition Slots `{EqDecision K} (entries : Z) : RteHash K (list (option K)) := {|
  hash_pos := slots_pos entries;
  rte_hash_create _ := Some [];
  rte_hash_lookup h k := match slots_pos entries h k with Some p => p | None => - ENOENT end;
  rte_hash_add_key := slots_add entries;
  rte_hash_del_key h k :=
    match slots_pos entries h k with
    | Some p => (p, slots_remove k h)
    | None => (- ENOENT, h)
    end
|}.

(** ** The concrete services satisfy the laws *)

Lemma pool_top_above m p b : mbufs m !! p = Some b -> p < pool_top m /\ buf_addr b < pool_top m.
Proof.
  unfold pool_top. intros H.
  enough (forall q b', mbufs m !! q = Some b' ->
    q <= map_fold (fun p b acc => Z.max acc (Z.max p (buf_addr b))) 0 (mbufs m) /\
    buf_addr b' <= map_fold (fun p b acc => Z.max acc (Z.max p (buf_addr b))) 0 (mbufs m))
    as Hall by (destruct (Hall _ _ H); lia).
  clear p b H. generalize (mbufs m). clear m. intros mm.
  induction mm as [|p b mm Hp Hf IH] using map_first_key_ind; [intros q b' Hq; by rewrite lookup_empty in Hq|].
  intros q b' Hq. rewrite map_fold_insert_first_key by done. cbv beta.
  destruct (decide (q = p)) as [->|Hne].
  - rewrite lookup_insert_eq in Hq. injection Hq as <-. split; lia.
  - rewrite lookup_insert_ne in Hq by done. destruct (IH q b' Hq). split; lia.
Qed.

Lemma pool_top_fresh m : mbufs m !! pool_top m = None.
Proof.
  destruct (mbufs m !! pool_top m) as [b|] eqn:E; [|done].
  apply pool_top_above in E. lia.
Qed.

Lemma PoolLaws cap buf headroom : 0 <= headroom <= zlen buf -> @RteMbufLaws (Pool cap buf headroom).
Proof.
  intros Hh. split; simpl; unfold pool_alloc, pool_clone.
  - intros m m'. by case_match; intros [= <-].
  - intros m m' p. case_match; intros [= <- <-]. split; [apply pool_top_fresh|].
    eexists _, buf. simpl. do 2 (split; [done|]). split; [|done].
    intros q b' Hq. apply pool_top_above in Hq. simpl. lia.
  - done.
  - done.
  - intros m m' p. repeat case_match; by intros [= <-].
  - intros m m' p q b Hp. rewrite Hp. case_match; intros [= <- <-].
    split; [apply pool_top_fresh|]. done.
  - intros m p b len Hp Hlen. by rewrite Hp.
  - intros m p b len Hp Hlen. by rewrite Hp.
Qed.

Lemma fifo_objs_le r : zlen (fifo_objs r) <= fifo_cap r.
Proof. unfold zlen, fifo_objs, fifo_cap. rewrite length_take. lia. Qed.

Lemma fifo_objs_fit l n : zlen l <= Z.of_nat n -> fifo_objs (FifoRing l n) = l.
Proof. unfold zlen, fifo_objs. simpl. intros. apply take_ge. lia. Qed.

Lemma fifo_objs_drop k r :
  fifo_objs (FifoRing (drop k (fifo_objs r)) (f_cap r)) = drop k (fifo_objs r).
Proof.
  apply fifo_objs_fit. pose proof (fifo_objs_le r). unfold zlen, fifo_cap in *. rewrite length_drop. lia.
Qed.

#[export] Instance FifoLaws : RteRingLaws fifo.
Proof.
  split; simpl.
  - intros n r. destruct (Z.leb_spec 1 n); intros [= <-]. split; [apply take_nil|]. unfold fifo_cap. simpl. lia.
  - done.
  - done.
  - apply fifo_objs_le.
  - intros p r rc r'. pose proof (fifo_objs_le r). destruct (Z.ltb_spec (zlen (fifo_objs r)) (fifo_cap r)); intros [= <- <-].
    + split; [done|]. split; [by left|]. apply fifo_objs_fit. unfold zlen, fifo_cap in *. rewrite length_app. simpl. lia.
    + done.
  - intros ps r n r' [= <- <-]. split; [done|]. split; [done|]. apply fifo_objs_fit.
    pose proof (fifo_objs_le r). unfold zlen, fifo_cap in *. rewrite length_app, length_take. lia.
  - intros ps r rc r'. destruct (Z.leb_spec (zlen (fifo_objs r) + zlen ps) (fifo_cap r)); intros [= <- <-].
    + split; [done|]. split; [by left|]. apply fifo_objs_fit. unfold zlen, fifo_cap in *. rewrite length_app. lia.
    + done.
  - intros n r ps r' _ [= <- <-]. do 2 (split; [done|]). apply fifo_objs_drop.
  - intros n r rc ps r' _. destruct (Z.leb_spec n (zlen (fifo_objs r))); intros [= <- <- <-].
    + split; [done|]. do 2 (split; [done|]). apply fifo_objs_drop.
    + done.
Qed.

Section slots_laws.
Context `{EqDecision K} (entries : Z).

Lemma slots_pos_Some l (k : K) p :
    slots_pos entries l k = Some p <->
    0 <= p < entries /\ l !! Z.to_nat p = Some (Some k) /\
    forall j o, l !! j = Some o -> (j < Z.to_nat p)%nat -> o <> Some k.
Proof.
    unfold slots_pos. destruct (list_find _ l) as [[i o]|] eqn:E.
    - apply list_find_Some in E as (Hi & -> & Hj). destruct (Z.ltb_spec (Z.of_nat i) entries).
      + split.
        * intros [= <-]. rewrite Nat2Z.id. split; [lia|]. split; [done|]. intros j o Hjo Hlt ->. by eapply Hj.
        * intros (Hr & Hl & Hf). f_equal. destruct (Z.lt_trichotomy (Z.of_nat i) p) as [?|[?|?]]; [|done|].
          -- exfalso. by eapply (Hf i (Some k)); [done|lia|].
          -- exfalso. eapply (Hj (Z.to_nat p)); [done|lia|done].
      + split; [done|]. intros (Hr & Hl & Hf). exfalso. eapply (Hj (Z.to_nat p)); [done|lia|done].
    - apply list_find_None in E. split; [done|]. intros (_ & Hl & _).
      by destruct (Forall_lookup_1 _ _ _ _ E Hl).
Qed.

Lemma slots_pos_None l (k : K) :
    slots_pos entries l k = None <-> forall j, Z.of_nat j < entries -> l !! j <> Some (Some k).
Proof.
    unfold slots_pos. destruct (list_find _ l) as [[i o]|] eqn:E.
    - apply list_find_Some in E as (Hi & -> & Hj). destruct (Z.ltb_spec (Z.of_nat i) entries).
      + split; [done|]. intros Hn. by destruct (Hn i).
      + split; [|done]. intros _ j Hlt Hl. eapply (Hj j); [done|lia|done].
    - apply list_find_None in E. split; [|done]. intros _ j _ Hl. by destruct (Forall_lookup_1 _ _ _ _ E Hl).
Qed.

  (** Two slot lists that agree on where [k] is give it the same position. *)
Lemma slots_pos_ext l l' (k : K) :
    (forall j, Z.of_nat j < entries -> l !! j = Some (Some k) <-> l' !! j = Some (Some k)) ->
    slots_pos entries l k = slots_pos entries l' k.
Proof.
    intros Hext. destruct (slots_pos entries l' k) as [p|] eqn:E.
    - apply slots_pos_Some in E as (Hr & Hl & Hf). apply slots_pos_Some. split; [done|].
      split; [by apply Hext; [lia|]|]. intros j o Hj Hlt ->. apply Hext in Hj; [|lia]. by eapply Hf.
    - rewrite slots_pos_None in E |- *. intros j Hlt Hl. apply Hext in Hl; [|lia]. by eapply E.
Qed.

Lemma slots_new l l' (k : K) i :
    Z.of_nat i < entries -> slots_pos entries l k = None -> l' !! i = Some (Some k) ->
    (forall j, j <> i -> l' !! j = l !! j) -> (forall k', k' <> k -> l !! i <> Some (Some k')) ->
    slots_pos entries l' k = Some (Z.of_nat i) /\
    forall k', k' <> k -> slots_pos entries l' k' = slots_pos entries l k'.
Proof.
    intros Hi Hn Hl' Hne Hfree. rewrite slots_pos_None in Hn. split.
    - apply slots_pos_Some. rewrite Nat2Z.id. split; [lia|]. split; [done|].
      intros j o Hj Hlt ->. rewrite Hne in Hj by lia. eapply (Hn j); [lia|done].
    - intros k' Hk. apply slots_pos_ext. intros j Hj. destruct (decide (j = i)) as [->|Hji].
      + rewrite Hl'. split; [intros [= ->]; done|]. intros Hx. by destruct (Hfree k' Hk).
      + by rewrite Hne.
Qed.

Lemma SlotsLaws : @RteHashLaws K (list (option K)) entries (Slots entries).
Proof.
    split; simpl.
    - intros h [= <-] k. done.
    - intros h k p Hp. by apply slots_pos_Some in Hp as (? & _).
    - intros h k k' p (_ & H1 & _)%slots_pos_Some (_ & H2 & _)%slots_pos_Some.
      rewrite H1 in H2. by injection H2.
    - done.
    - intros h k rc h'. unfold slots_add. destruct (slots_pos entries h k) as [p|] eqn:E; [by intros [= <- <-]|].
      destruct (list_find _ h) as [[i o]|] eqn:Ef.
      + apply list_find_Some in Ef as (Hi & -> & _).
        destruct (Z.ltb_spec (Z.of_nat i) entries); intros [= <- <-]; [right|by left].
        apply (slots_new h _ k i); [done|done| | |by rewrite Hi].
        * apply list_lookup_insert_eq. by eapply lookup_lt_Some.
        * intros j Hj. by rewrite list_lookup_insert_ne.
      + destruct (Z.ltb_spec (zlen h) entries); intros [= <- <-]; [right|by left].
        apply (slots_new h _ k (length h)); [done|done| | |].
        * by rewrite list_lookup_middle.
        * intros j Hj. destruct (decide (j < length h)%nat); [by rewrite lookup_app_l|].
          rewrite lookup_app_r, (lookup_ge_None_2 h) by lia. destruct (j - length h)%nat eqn:?; [lia|done].
        * intros k' _. by rewrite lookup_ge_None_2.
    - intros h k rc h'. destruct (slots_pos entries h k) as [p|] eqn:E; intros [= <- <-]; [|done].
      split; [done|]. unfold slots_remove. split.
      + apply slots_pos_None. intros j _. rewrite list_lookup_fmap.
        destruct (h !! j) as [o|]; simpl; [|done]. case_decide; congruence.
      + intros k' Hk. apply slots_pos_ext. intros j _. rewrite list_lookup_fmap.
        destruct (h !! j) as [o|]; simpl; [|done]. case_decide; [subst|done]. split; congruence.
Qed.
End slots_laws.
