(* ===== verification/Flow.v ===== *)
(** Flow keys and the flow table: [datapath/dpdk/flow.c], [flow.h], and the
    action data of [action.h].

    [flow_key_extract] reads a packet at an offset of its data buffer.  The
    flow table is an array of entries indexed by the positions of an
    [rte_hash]; [flow_map] is the finite map it implements. *)
From S2P Require Import Prelude Dpdk.

(** ** Actions ([action.h]) *)

Definition MAX_ACTIONS : Z := 48.

(** [struct action]: the type and the member of the union it selects. *)
Inductive action :=
| ACTION_NULL
| ACTION_OUTPUT (port : Z)
| ACTION_POP_VLAN
| ACTION_PUSH_VLAN (tpid tci : Z)
| ACTION_SET_ETHERNET (eth_src eth_dst : list Z)
| ACTION_SET_IPV4 (ipv4_src ipv4_dst ipv4_proto ipv4_tos ipv4_ttl ipv4_frag : Z)
| ACTION_SET_TCP (tcp_src tcp_dst : Z)
| ACTION_SET_UDP (udp_src udp_dst : Z)
| ACTION_OTHER (type : Z).

#[global] Instance action_eq_dec : EqDecision action.
Proof. solve_decision. Defined.

Definition is_null (a : action) : bool := match a with ACTION_NULL => true | _ => false end.

(** ** Flow keys *)

Record flow_key := FlowKey {
  in_port : Z; ether_dst : list Z; ether_src : list Z; ether_type : Z;
  vlan_id : Z; vlan_prio : Z; ip_src : Z; ip_dst : Z; ip_proto : Z; ip_tos : Z; ip_ttl : Z;
  ip_frag : Z; tran_src_port : Z; tran_dst_port : Z
}.

#[global] Instance flow_key_eq_dec : EqDecision flow_key.
Proof. solve_decision. Defined.

Definition zero_mac : list Z := replicate 6 0.

(** [struct flow_key key = {0}]. *)
Definition empty_key : flow_key := FlowKey 0 zero_mac zero_mac 0 0 0 0 0 0 0 0 0 0 0.

Definition ETHER_TYPE_IPv4 : Z := 0x0800.
Definition ETHER_TYPE_VLAN : Z := 0x8100.
Definition IPPROTO_ICMP : Z := 1.
Definition IPPROTO_TCP : Z := 6.
Definition IPPROTO_UDP : Z := 17.
Definition VLAN_ID_MASK : Z := 0xFFF.
Definition VLAN_PRIO_SHIFT : Z := 13.
Definition IPV4_HDR_OFFSET_MASK : Z := 0x1FFF.
Definition IPV4_HDR_MF_FLAG : Z := 0x2000.
Definition OVS_FRAG_TYPE_NONE : Z := 0.
Definition OVS_FRAG_TYPE_FIRST : Z := 1.
Definition OVS_FRAG_TYPE_LATER : Z := 2.
Definition TCP_FLAG_MASK : Z := 0x3F.

Definition sizeof_ether_hdr : Z := 14.
Definition sizeof_vlan_hdr : Z := 4.
Definition sizeof_ipv4_hdr : Z := 20.

(** The Ethernet part of [flow_key_extract] up to the VLAN tag: the key so far
    and the offset of what follows. *)
Definition extract_ether (b : list Z) (off port : Z) (key : flow_key) : res (flow_key * Z) :=
  d ← load_bytes b off 6;
  s ← load_bytes b (off + 6) 6;
  t ← load16 b (off + 12);
  let key := FlowKey port d s (ntohs t) (vlan_id key) (vlan_prio key) (ip_src key) (ip_dst key)
               (ip_proto key) (ip_tos key) (ip_ttl key) (ip_frag key) (tran_src_port key) (tran_dst_port key) in
  let off := off + sizeof_ether_hdr in
  if ether_type key =? ETHER_TYPE_VLAN then
    tci ← load16 b off;
    proto ← load16 b (off + 2);
    let vlan_tci := ntohs tci in
    Ok (FlowKey port d s (ntohs proto) (Z.land vlan_tci VLAN_ID_MASK) (u8 (Z.shiftr vlan_tci VLAN_PRIO_SHIFT))
          (ip_src key) (ip_dst key) (ip_proto key) (ip_tos key) (ip_ttl key) (ip_frag key)
          (tran_src_port key) (tran_dst_port key),
        off + sizeof_vlan_hdr)
  else Ok (key, off).

(** The IPv4 part: [true] when the packet is a later fragment, at which
    [flow_key_extract] returns. *)
Definition extract_ipv4 (b : list Z) (off : Z) (key : flow_key) : res (flow_key * Z * bool) :=
  if ether_type key =? ETHER_TYPE_IPv4 then
    d ← load32 b (off + 16);
    s ← load32 b (off + 12);
    proto ← load8 b (off + 9);
    tos ← load8 b (off + 1);
    ttl ← load8 b (off + 8);
    be_offset ← load16 b (off + 6);
    let later := negb (Z.land be_offset (ntohs IPV4_HDR_OFFSET_MASK) =? 0) in
    let frag :=
      if later then OVS_FRAG_TYPE_LATER
      else if negb (Z.land be_offset (ntohs IPV4_HDR_MF_FLAG) =? 0) then OVS_FRAG_TYPE_FIRST
      else OVS_FRAG_TYPE_NONE in
    Ok (FlowKey (in_port key) (ether_dst key) (ether_src key) (ether_type key) (vlan_id key) (vlan_prio key)
          (ntohl s) (ntohl d) proto tos ttl frag (tran_src_port key) (tran_dst_port key),
        off + sizeof_ipv4_hdr, later)
  else Ok (key, off, false).

Definition set_tran (src dst : Z) (key : flow_key) : flow_key :=
  FlowKey (in_port key) (ether_dst key) (ether_src key) (ether_type key) (vlan_id key) (vlan_prio key)
    (ip_src key) (ip_dst key) (ip_proto key) (ip_tos key) (ip_ttl key) (ip_frag key) src dst.

(** The [switch] on the transport protocol. *)
Definition extract_tran (b : list Z) (off : Z) (key : flow_key) : res flow_key :=
  if (ip_proto key =? IPPROTO_TCP) || (ip_proto key =? IPPROTO_UDP) then
    d ← load16 b (off + 2);
    s ← load16 b off;
    Ok (set_tran (ntohs s) (ntohs d) key)
  else if ip_proto key =? IPPROTO_ICMP then
    code ← load8 b (off + 1);
    type ← load8 b off;
    Ok (set_tran type code key)
  else Ok (set_tran 0 0 key).

(** [flow_key_extract] on the packet at offset [off] of buffer [b]; [key] is
    the key's content at entry.  The number of the port is passed as 8 bits. *)
Definition flow_key_extract (b : list Z) (off port : Z) (key : flow_key) : res flow_key :=
  '(key, off) ← extract_ether b off (u8 port) key;
  '(key, off, later) ← extract_ipv4 b off key;
  if (later : bool) then Ok key else extract_tran b off key.

(** ** Flow table *)

Definition MAX_FLOWS : Z := 65536.

Record flow_stats := FlowStats { packet_count : Z; byte_count : Z; used : Z; tcp_flags : Z }.

Definition zero_stats : flow_stats := FlowStats 0 0 0 0.

(** [struct flow_table_entry] without its lock. *)
Record flow_table_entry := Entry {
  e_key : flow_key; e_stats : flow_stats; e_enabled : bool; e_actions : list action
}.

Definition null_actions : list action := replicate (Z.to_nat MAX_ACTIONS) ACTION_NULL.

Definition zero_entry : flow_table_entry := Entry empty_key zero_stats false null_actions.

(** The time sources of [ovs_flow_used_time]: [curr_tsc], [cpu_freq] and the
    monotonic clock in milliseconds. *)
Record clock := Clock { curr_tsc : Z; cpu_freq : Z; curr_ms : Z }.

(** Time a flow was last used, on the monotonic clock. *)
Definition ovs_flow_used_time (c : clock) (flow_tsc : Z) : Z :=
  let idle_ms := u64 (u64 (curr_tsc c - flow_tsc) * 1000) / cpu_freq c in
  u64 (curr_ms c - idle_ms).

(** The statistics as they are copied out of the table. *)
Definition stats_out (c : clock) (s : flow_stats) : flow_stats :=
  FlowStats (packet_count s) (byte_count s)
    (if used s =? 0 then 0 else ovs_flow_used_time c (used s)) (tcp_flags s).

(** What [copy_entry_from_table] writes through its pointers. *)
Definition flow_out : Type := flow_key * list action * flow_stats.

Record flow_table (hash : Type) := FlowTable { table : list flow_table_entry; handle : hash }.
Arguments FlowTable {hash} _ _.
Arguments table {hash} _.
Arguments handle {hash} _.

Section FlowOps.
Context {hash : Type} `{Hash : RteHash flow_key hash}.

Implicit Type t : flow_table hash.

(** [CHECK_POS] fails. *)
Definition bad_pos (pos : Z) : bool := (MAX_FLOWS <=? pos) || (pos <? 0).

Definition flow_table_init : res (flow_table hash) :=
  match rte_hash_create MAX_FLOWS with
  | Some h => Ok (FlowTable (replicate (Z.to_nat MAX_FLOWS) zero_entry) h)
  | None => Err RteExit
  end.

Definition flow_table_lookup t (key : flow_key) : Z := rte_hash_lookup (handle t) key.

Definition set_entry t (pos : Z) (e : flow_table_entry) : flow_table hash :=
  FlowTable (update (table t) pos e) (handle t).

Definition flow_table_clear_stats (pos : Z) t : res (flow_table hash) :=
  e ← index (table t) pos;
  Ok (set_entry t pos (Entry (e_key e) zero_stats (e_enabled e) (e_actions e))).

Definition flow_table_add_flow (key : flow_key) (actions : list action) t : res (Z * flow_table hash) :=
  if 0 <=? flow_table_lookup t key then Ok (-1, t) else
  let '(pos, h) := rte_hash_add_key (handle t) key in
  let t := FlowTable (table t) h in
  if bad_pos pos then Ok (-1, t) else
  e ← index (table t) pos;
  let t := set_entry t pos (Entry key (e_stats e) true actions) in
  t ← flow_table_clear_stats pos t;
  Ok (pos, t).

Definition flow_table_mod_flow (key : flow_key) (actions : list action) (clear_stats : bool) t
  : res (Z * flow_table hash) :=
  let pos := flow_table_lookup t key in
  if bad_pos pos then Ok (-1, t) else
  t ← (if clear_stats then flow_table_clear_stats pos t else Ok t);
  e ← index (table t) pos;
  Ok (pos, set_entry t pos (Entry (e_key e) (e_stats e) true actions)).

Definition copy_entry_from_table (c : clock) (pos : Z) t : res (Z * option flow_out) :=
  e ← index (table t) pos;
  if e_enabled e then Ok (pos, Some (e_key e, e_actions e, stats_out c (e_stats e)))
  else Ok (-1, None).

Definition flow_table_get_flow (c : clock) (key : flow_key) t : res (Z * option flow_out) :=
  let pos := flow_table_lookup t key in
  if bad_pos pos then Ok (-1, None) else copy_entry_from_table c pos t.

(** The loops of [flow_table_get_next_flow] and [flow_table_get_first_flow]:
    the first enabled entry from [pos] on. *)
Fixpoint scan_flows (fuel : nat) (c : clock) (pos : Z) t : res (Z * option flow_out) :=
  match fuel with
  | O => Err OutOfFuel
  | S fuel =>
      if pos <? MAX_FLOWS then
        '(ret, out) ← copy_entry_from_table c pos t;
        if ret =? pos then Ok (ret, out) else scan_flows fuel c (pos + 1) t
      else Ok (-1, None)
  end.

Definition scan_fuel : nat := S (Z.to_nat MAX_FLOWS).

Definition flow_table_get_next_flow (c : clock) (key : flow_key) t : res (Z * option flow_out) :=
  let pos := flow_table_lookup t key in
  if bad_pos pos then Ok (-1, None) else scan_flows scan_fuel c (pos + 1) t.

Definition flow_table_get_first_flow (c : clock) t : res (Z * option flow_out) :=
  scan_flows scan_fuel c 0 t.

Definition flow_table_del_flow (key : flow_key) t : res (Z * flow_table hash) :=
  let '(pos, h) := rte_hash_del_key (handle t) key in
  let t := FlowTable (table t) h in
  if bad_pos pos then Ok (-1, t) else
  e ← index (table t) pos;
  let t := set_entry t pos (Entry empty_key (e_stats e) false null_actions) in
  t ← flow_table_clear_stats pos t;
  Ok (pos, t).

Fixpoint del_all_loop (n : nat) (pos : Z) t : res (flow_table hash) :=
  match n with
  | O => Ok t
  | S n =>
      t ← flow_table_clear_stats pos t;
      e ← index (table t) pos;
      let t := FlowTable (table t) (snd (rte_hash_del_key (handle t) (e_key e))) in
      let t := set_entry t pos (Entry empty_key (e_stats e) false null_actions) in
      del_all_loop n (pos + 1) t
  end.

Definition flow_table_del_all t : res (flow_table hash) := del_all_loop (Z.to_nat MAX_FLOWS) 0 t.

(** [flow_table_update_stats] for a packet of [len] bytes at offset [off] of
    buffer [b]. *)
Definition flow_table_update_stats (c : clock) (pos : Z) (b : list Z) (off len : Z) t
  : res (flow_table hash) :=
  e ← index (table t) pos;
  let s := e_stats e in
  flags ← (if (ether_type (e_key e) =? ETHER_TYPE_IPv4) && (ip_proto (e_key e) =? IPPROTO_TCP)
           then f ← load8 b (off + sizeof_ether_hdr + sizeof_ipv4_hdr + 13);
                Ok (Z.lor (tcp_flags s) (Z.land f TCP_FLAG_MASK))
           else Ok (tcp_flags s));
  Ok (set_entry t pos
        (Entry (e_key e) (FlowStats (u64 (packet_count s + 1)) (u64 (byte_count s + len)) (curr_tsc c) flags)
               (e_enabled e) (e_actions e))).
End FlowOps.

(** ** The map a flow table implements *)

(** Flows by key: the actions and the statistics. *)
Definition fmap : Type := flow_key -> option (list action * flow_stats).

Definition fmap_eq (m m' : fmap) : Prop := forall k, m k = m' k.

Definition fmap_set (k : flow_key) (v : option (list action * flow_stats)) (m : fmap) : fmap :=
  fun k' => if decide (k' = k) then v else m k'.

(** The commands that change the table, and what they may do to the map: the
    result is a position or -1. *)
Inductive flow_op :=
| OpAdd (k : flow_key) (a : list action)
| OpMod (k : flow_key) (a : list action) (clear : bool)
| OpDel (k : flow_key)
| OpDelAll.

Definition is_pos (rc : Z) : Prop := 0 <= rc < MAX_FLOWS.

Inductive fmap_step (m : fmap) : flow_op -> Z -> fmap -> Prop :=
| step_add_exists k a v m' : m k = Some v -> fmap_eq m' m -> fmap_step m (OpAdd k a) (-1) m'
| step_add_full k a m' : m k = None -> fmap_eq m' m -> fmap_step m (OpAdd k a) (-1) m'
| step_add k a rc m' : m k = None -> is_pos rc ->
    fmap_eq m' (fmap_set k (Some (a, zero_stats)) m) -> fmap_step m (OpAdd k a) rc m'
| step_mod k a (clear : bool) a0 s rc m' : m k = Some (a0, s) -> is_pos rc ->
    fmap_eq m' (fmap_set k (Some (a, if clear then zero_stats else s)) m) ->
    fmap_step m (OpMod k a clear) rc m'
| step_mod_none k a clear m' : m k = None -> fmap_eq m' m -> fmap_step m (OpMod k a clear) (-1) m'
| step_del k v rc m' : m k = Some v -> is_pos rc -> fmap_eq m' (fmap_set k None m) ->
    fmap_step m (OpDel k) rc m'
| step_del_none k m' : m k = None -> fmap_eq m' m -> fmap_step m (OpDel k) (-1) m'
| step_del_all m' : fmap_eq m' (fun _ => None) -> fmap_step m OpDelAll 0 m'.

Section FlowProofs.
Context {hash : Type} `{Hash : RteHash flow_key hash} `{!RteHashLaws flow_key hash MAX_FLOWS}.

Implicit Type t : flow_table hash.

(** A command on the table. *)
Definition run_op (op : flow_op) t : res (Z * flow_table hash) :=
  match op with
  | OpAdd k a => flow_table_add_flow k a t
  | OpMod k a clear => flow_table_mod_flow k a clear t
  | OpDel k => flow_table_del_flow k t
  | OpDelAll => t ← flow_table_del_all t; Ok (0, t)
  end.

(** The invariant of the table: an enabled entry is at the position of its key,
    the position of a key holds an enabled entry for it, and an entry that is
    not enabled has an empty key. *)
Record ft_wf t : Prop := {
  wf_len : zlen (table t) = MAX_FLOWS;
  wf_enabled p e : index (table t) p = Ok e -> e_enabled e = true -> hash_pos (handle t) (e_key e) = Some p;
  wf_disabled p e : index (table t) p = Ok e -> e_enabled e = false -> e_key e = empty_key;
  wf_pos k p : hash_pos (handle t) k = Some p ->
    exists e, index (table t) p = Ok e /\ e_enabled e = true /\ e_key e = k
}.

Definition flow_map t : fmap := fun k =>
  match hash_pos (handle t) k with
  | Some p => match index (table t) p with Ok e => Some (e_actions e, e_stats e) | Err _ => None end
  | None => None
  end.

Lemma bad_pos_false p : is_pos p -> bad_pos p = false.
Proof. unfold is_pos, bad_pos. lia. Qed.

Lemma bad_pos_neg p : p < 0 -> bad_pos p = true.
Proof. unfold bad_pos. lia. Qed.

Lemma pos_range h k p : hash_pos h k = Some p -> is_pos p.
Proof. apply hash_pos_range. Qed.

Lemma lookup_some t k p : hash_pos (handle t) k = Some p -> flow_table_lookup t k = p.
Proof. intros E. unfold flow_table_lookup. by rewrite hash_lookup_spec, E. Qed.

Lemma lookup_none t k : hash_pos (handle t) k = None -> flow_table_lookup t k = -2.
Proof. intros E. unfold flow_table_lookup. by rewrite hash_lookup_spec, E. Qed.

Lemma flow_map_some t k p e :
  hash_pos (handle t) k = Some p -> index (table t) p = Ok e -> flow_map t k = Some (e_actions e, e_stats e).
Proof. intros E1 E2. unfold flow_map. by rewrite E1, E2. Qed.

Lemma flow_map_none t k : hash_pos (handle t) k = None -> flow_map t k = None.
Proof. intros E1. unfold flow_map. by rewrite E1. Qed.

(** The table after entry [p] becomes the enabled entry of key [k]. *)
Lemma wf_set_enabled t h k p e :
  ft_wf t -> hash_pos h k = Some p -> (hash_pos (handle t) k = None \/ hash_pos (handle t) k = Some p) ->
  (forall k', k' <> k -> hash_pos h k' = hash_pos (handle t) k') ->
  e_enabled e = true -> e_key e = k ->
  let t' := FlowTable (update (table t) p e) h in
  ft_wf t' /\ fmap_eq (flow_map t') (fmap_set k (Some (e_actions e, e_stats e)) (flow_map t)).
Proof.
  intros Hwf Hp Hold Hne Hen Hk t'. pose proof (pos_range _ _ _ Hp) as Hr. unfold is_pos in Hr.
  destruct Hwf as [Hl He Hd Hpos].
  assert (forall k' q, k' <> k -> hash_pos h k' = Some q -> q <> p) as Hinj.
  { intros k' q Hk' Hq ->. by destruct (hash_pos_inj _ _ _ _ Hq Hp). }
  split.
  - split.
    + simpl. by rewrite zlen_update.
    + simpl. intros q e' Hq Hen'. destruct (decide (q = p)) as [->|Hqp].
      * rewrite index_update_eq in Hq by lia. injection Hq as <-. by subst k.
      * rewrite index_update_ne in Hq by lia. pose proof (He _ _ Hq Hen') as Hq'.
        destruct (decide (e_key e' = k)) as [Hkk|Hkk]; [|by rewrite Hne].
        rewrite Hkk in *. destruct Hold; congruence.
    + simpl. intros q e' Hq Hen'. destruct (decide (q = p)) as [->|Hqp].
      * rewrite index_update_eq in Hq by lia. injection Hq as <-. congruence.
      * rewrite index_update_ne in Hq by lia. eauto.
    + simpl. intros k' q Hq. destruct (decide (k' = k)) as [->|Hkk].
      * rewrite Hp in Hq. injection Hq as <-. exists e. by rewrite index_update_eq by lia.
      * rewrite index_update_ne by (first [lia|intros ->; by eapply Hinj]). rewrite Hne in Hq by done. by apply Hpos.
  - intros k'. unfold flow_map, fmap_set. simpl. case_decide as Hkk.
    + subst k'. rewrite Hp, index_update_eq by lia. done.
    + rewrite Hne by done. destruct (hash_pos (handle t) k') as [q|] eqn:Eq; [|done].
      rewrite index_update_ne; [done|lia|]. intros ->. eapply Hinj; [done|by rewrite Hne|done].
Qed.

(** The table after the entry of key [k] is cleared. *)
Lemma wf_set_disabled t h k p e :
  ft_wf t -> hash_pos (handle t) k = Some p -> hash_pos h k = None ->
  (forall k', k' <> k -> hash_pos h k' = hash_pos (handle t) k') ->
  e_enabled e = false -> e_key e = empty_key ->
  let t' := FlowTable (update (table t) p e) h in
  ft_wf t' /\ fmap_eq (flow_map t') (fmap_set k None (flow_map t)).
Proof.
  intros Hwf Hp Hnone Hne Hen Hk t'. pose proof (pos_range _ _ _ Hp) as Hr. unfold is_pos in Hr.
  destruct Hwf as [Hl He Hd Hpos].
  assert (forall k' q, k' <> k -> hash_pos h k' = Some q -> q <> p) as Hinj.
  { intros k' q Hk' Hq ->. rewrite Hne in Hq by done. by destruct (hash_pos_inj _ _ _ _ Hq Hp). }
  split; [split|].
  - simpl. by rewrite zlen_update.
  - simpl. intros q e' Hq Hen'. destruct (decide (q = p)) as [->|Hqp].
    + rewrite index_update_eq in Hq by lia. injection Hq as <-. congruence.
    + rewrite index_update_ne in Hq by lia. pose proof (He _ _ Hq Hen') as Hq'.
      rewrite Hne; [done|]. intros Hkk. rewrite Hkk in Hq'. congruence.
  - simpl. intros q e' Hq Hen'. destruct (decide (q = p)) as [->|Hqp].
    + rewrite index_update_eq in Hq by lia. injection Hq as <-. done.
    + rewrite index_update_ne in Hq by lia. eauto.
  - simpl. intros k' q Hq. destruct (decide (k' = k)) as [->|Hkk]; [congruence|].
    rewrite index_update_ne by (first [lia|intros ->; by eapply Hinj]). rewrite Hne in Hq by done. by apply Hpos.
  - intros k'. unfold flow_map, fmap_set. simpl. case_decide as Hkk; [subst k'; by rewrite Hnone|].
    rewrite Hne by done. destruct (hash_pos (handle t) k') as [q|] eqn:Eq; [|done].
    rewrite index_update_ne; [done|lia|]. intros ->. eapply Hinj; [done|by rewrite Hne|done].
Qed.

Lemma update_update {A} (l : list A) i x y : update (update l i x) i y = update l i y.
Proof. unfold update. apply list_insert_insert_eq. Qed.

Lemma clear_stats_set t p e :
  0 <= p < zlen (table t) ->
  flow_table_clear_stats p (set_entry t p e) =
  Ok (set_entry t p (Entry (e_key e) zero_stats (e_enabled e) (e_actions e))).
Proof.
  intros Hp. unfold flow_table_clear_stats, set_entry. simpl. rewrite index_update_eq by done. bind.
  by rewrite update_update.
Qed.

Lemma wf_same_hash t h :
  ft_wf t -> (forall k, hash_pos h k = hash_pos (handle t) k) ->
  ft_wf (FlowTable (table t) h) /\ fmap_eq (flow_map (FlowTable (table t) h)) (flow_map t).
Proof.
  intros [Hl He Hd Hpos] Heq. split; [split; simpl; try done|].
  - intros p e. rewrite Heq. apply He.
  - intros k p. rewrite Heq. apply Hpos.
  - intros k. unfold flow_map. simpl. by rewrite Heq.
Qed.

(** Each command refines its step of the map. *)
Lemma add_refines k a t :
  ft_wf t -> exists rc t', flow_table_add_flow k a t = Ok (rc, t') /\ ft_wf t' /\
    fmap_step (flow_map t) (OpAdd k a) rc (flow_map t').
Proof.
  intros Hwf. unfold flow_table_add_flow.
  destruct (hash_pos (handle t) k) as [p|] eqn:Ep.
  - rewrite (lookup_some _ _ _ Ep). pose proof (pos_range _ _ _ Ep) as Hr. unfold is_pos in Hr.
    rewrite (proj2 (Z.leb_le 0 p)) by lia. exists (-1), t. do 2 (split; [done|]).
    destruct (wf_pos _ Hwf _ _ Ep) as (e & Ee & _).
    eapply step_add_exists; [|done]. by eapply flow_map_some.
  - rewrite (lookup_none _ _ Ep). replace (0 <=? -2) with false by done.
    destruct (rte_hash_add_key (handle t) k) as [pos h] eqn:Ea.
    pose proof (hash_add_spec _ _ _ _ Ea) as Hs. rewrite Ep in Hs. destruct Hs as [[-> Heq]|[Hp Hne]].
    + rewrite bad_pos_neg by done. destruct (wf_same_hash t h Hwf Heq) as [Hwf' Hm].
      exists (-1), (FlowTable (table t) h). do 2 (split; [done|]). apply step_add_full; [by apply flow_map_none|done].
    + pose proof (pos_range _ _ _ Hp) as Hr. rewrite (bad_pos_false _ Hr). unfold is_pos in Hr.
      cbn [table handle]. destruct (index_ok (table t) pos) as [e Ee]; [by rewrite (wf_len _ Hwf)|].
      rewrite Ee. bind. rewrite clear_stats_set by (simpl; by rewrite (wf_len _ Hwf)). bind.
      unfold set_entry. cbn [table handle e_key e_enabled e_actions].
      destruct (wf_set_enabled t h k pos (Entry k zero_stats true a) Hwf Hp (or_introl Ep) Hne) as [Hwf' Hm];
        [done|done|]. eexists pos, _. do 2 (split; [done|]).
      apply step_add; [by apply flow_map_none|done|done].
Qed.

Lemma mod_refines k a clear t :
  ft_wf t -> exists rc t', flow_table_mod_flow k a clear t = Ok (rc, t') /\ ft_wf t' /\
    fmap_step (flow_map t) (OpMod k a clear) rc (flow_map t').
Proof.
  intros Hwf. unfold flow_table_mod_flow. destruct (hash_pos (handle t) k) as [p|] eqn:Ep.
  - rewrite (lookup_some _ _ _ Ep). pose proof (pos_range _ _ _ Ep) as Hr. rewrite (bad_pos_false _ Hr).
    destruct (wf_pos _ Hwf _ _ Ep) as (e & Ee & Hen & Hk).
    set (s := if clear then zero_stats else e_stats e).
    assert (exists t1, (if clear then flow_table_clear_stats p t else Ok t) = Ok t1 /\
      index (table t1) p = Ok (Entry (e_key e) s (e_enabled e) (e_actions e)) /\ handle t1 = handle t /\
      forall e', update (table t1) p e' = update (table t) p e') as (t1 & -> & Ee1 & Hh & Hu).
    { subst s. destruct clear.
      - unfold flow_table_clear_stats. rewrite Ee. bind. eexists. split; [done|]. simpl.
        rewrite index_update_eq by by eapply index_bound. do 2 (split; [done|]). intros. by rewrite update_update.
      - exists t. split; [done|]. split; [by destruct e|]. done. }
    bind. rewrite Ee1. bind. eexists p, _. split; [done|]. unfold set_entry. rewrite Hu, Hh.
    destruct (wf_set_enabled t (handle t) k p (Entry k s true a) Hwf Ep (or_intror Ep)) as [Hwf' Hm];
      [done|done|done|]. cbn [e_key e_stats]. rewrite Hk. split; [done|].
    eapply step_mod; [by eapply flow_map_some|done|done].
  - rewrite (lookup_none _ _ Ep), bad_pos_neg by done. exists (-1), t. do 2 (split; [done|]).
    apply step_mod_none; [by apply flow_map_none|done].
Qed.

Lemma del_refines k t :
  ft_wf t -> exists rc t', flow_table_del_flow k t = Ok (rc, t') /\ ft_wf t' /\
    fmap_step (flow_map t) (OpDel k) rc (flow_map t').
Proof.
  intros Hwf. unfold flow_table_del_flow. destruct (rte_hash_del_key (handle t) k) as [pos h] eqn:Ea.
  pose proof (hash_del_spec _ _ _ _ Ea) as Hs. destruct (hash_pos (handle t) k) as [p|] eqn:Ep.
  - destruct Hs as (-> & Hn & Hne). pose proof (pos_range _ _ _ Ep) as Hr. rewrite (bad_pos_false _ Hr).
    destruct (wf_pos _ Hwf _ _ Ep) as (e & Ee & Hen & Hk). cbn [table handle]. rewrite Ee. bind.
    unfold is_pos in Hr. rewrite clear_stats_set by (simpl; by rewrite (wf_len _ Hwf)). bind.
    unfold set_entry. cbn [table handle e_key e_enabled e_actions].
    destruct (wf_set_disabled t h k p (Entry empty_key zero_stats false null_actions) Hwf Ep Hn Hne) as [Hwf' Hm];
      [done|done|]. eexists p, _. do 2 (split; [done|]). eapply step_del; [by eapply flow_map_some|done|done].
  - destruct Hs as (-> & Heq). rewrite bad_pos_neg by done. destruct (wf_same_hash t h Hwf Heq) as [Hwf' Hm].
    exists (-1), (FlowTable (table t) h). do 2 (split; [done|]). apply step_del_none; [by apply flow_map_none|done].
Qed.

(** The state of [flow_table_del_all] before position [n] is cleared. *)
Record del_all_inv (n : Z) t : Prop := {
  da_len : zlen (table t) = MAX_FLOWS;
  da_done q e : index (table t) q = Ok e -> q < n -> e_enabled e = false /\ e_key e = empty_key;
  da_pos k q : hash_pos (handle t) k = Some q -> n <= q /\ exists e, index (table t) q = Ok e /\ e_key e = k
}.

Lemma del_key_shrinks (h : hash) k :
  let h' := snd (rte_hash_del_key h k) in
  hash_pos h' k = None /\ forall k', k' <> k -> hash_pos h' k' = hash_pos h k'.
Proof.
  destruct (rte_hash_del_key h k) as [rc h'] eqn:E. simpl.
  pose proof (hash_del_spec _ _ _ _ E) as Hs. destruct (hash_pos h k) eqn:Ek.
  - by destruct Hs as (_ & ? & ?).
  - destruct Hs as [_ Heq]. split; [by rewrite Heq|]. intros. by rewrite Heq.
Qed.

Lemma del_all_loop_spec n pos t :
  0 <= pos -> pos + Z.of_nat n = MAX_FLOWS -> del_all_inv pos t ->
  exists t', del_all_loop n pos t = Ok t' /\ del_all_inv MAX_FLOWS t'.
Proof.
  revert pos t. induction n as [|n IH]; intros pos t Hpos Hn Hinv.
  - exists t. split; [done|]. by replace MAX_FLOWS with pos by lia.
  - simpl. destruct Hinv as [Hl Hd Hp]. destruct (index_ok (table t) pos) as [e Ee]; [lia|].
    unfold flow_table_clear_stats. rewrite Ee. bind. bind. unfold set_entry. cbn [table handle].
    rewrite index_update_eq by lia. bind. cbn [table handle e_key e_stats].
    rewrite update_update. apply IH; [lia|lia|].
    destruct (del_key_shrinks (handle t) (e_key e)) as [Hk Hne]. split; simpl.
    + by rewrite zlen_update.
    + intros q e' Hq Hlt. destruct (decide (q = pos)) as [->|Hqp].
      * rewrite index_update_eq in Hq by lia. by injection Hq as <-.
      * rewrite index_update_ne in Hq by lia. apply (Hd q e' Hq). lia.
    + intros k q Hq. destruct (decide (k = e_key e)) as [->|Hkk]; [simpl in Hk; congruence|].
      rewrite Hne in Hq by done. destruct (Hp _ _ Hq) as (Hle & e' & Ee' & Hk').
      assert (q <> pos) by (intros ->; congruence).
      split; [lia|]. exists e'. by rewrite index_update_ne by lia.
Qed.

Lemma del_all_refines t :
  ft_wf t -> exists t', flow_table_del_all t = Ok t' /\ ft_wf t' /\ fmap_eq (flow_map t') (fun _ => None).
Proof.
  intros [Hl He Hd Hp]. destruct (del_all_loop_spec (Z.to_nat MAX_FLOWS) 0 t) as (t' & E & [Hl' Hd' Hp']).
  - done.
  - done.
  - split; [done| |].
    + intros q e Hq Hlt. apply index_bound in Hq. lia.
    + intros k q Hq. pose proof (pos_range _ _ _ Hq) as Hr. unfold is_pos in Hr. split; [lia|].
      destruct (Hp _ _ Hq) as (e & ? & _ & ?). eauto.
  - exists t'. split; [done|].
    assert (forall k, hash_pos (handle t') k = None) as Hnone.
    { intros k. destruct (hash_pos (handle t') k) as [q|] eqn:Eq; [|done].
      destruct (Hp' _ _ Eq) as [Hle _]. pose proof (pos_range _ _ _ Eq) as Hr. unfold is_pos in Hr. lia. }
    split; [split|].
    + done.
    + intros p e Hq Hen. destruct (Hd' _ _ Hq) as [? _]; [apply index_bound in Hq; lia|congruence].
    + intros p e Hq _. destruct (Hd' _ _ Hq); [apply index_bound in Hq; lia|done].
    + intros k p. rewrite Hnone. done.
    + intros k. by apply flow_map_none.
Qed.

Lemma run_op_refines op t :
  ft_wf t -> exists rc t', run_op op t = Ok (rc, t') /\ ft_wf t' /\ fmap_step (flow_map t) op rc (flow_map t').
Proof.
  intros Hwf. destruct op as [k a|k a clear|k|]; simpl.
  - by apply add_refines.
  - by apply mod_refines.
  - by apply del_refines.
  - destruct (del_all_refines t Hwf) as (t' & -> & Hwf' & Hm). bind. eexists 0, t'. do 2 (split; [done|]).
    by apply step_del_all.
Qed.

(** Sequences of commands. *)
Fixpoint run_ops (ops : list flow_op) t : res (list Z * flow_table hash) :=
  match ops with
  | [] => Ok ([], t)
  | op :: ops => '(rc, t) ← run_op op t; '(rcs, t) ← run_ops ops t; Ok (rc :: rcs, t)
  end.

Lemma flow_table_init_wf t : flow_table_init = Ok t -> ft_wf t /\ fmap_eq (flow_map t) (fun _ => None).
Proof.
  unfold flow_table_init. destruct (rte_hash_create MAX_FLOWS) as [h|] eqn:Eh; [|done]. intros Heq. apply Ok_inj in Heq as <-.
  pose proof (hash_create_spec _ Eh) as Hnone.
  assert (forall p e, index (replicate (Z.to_nat MAX_FLOWS) zero_entry) p = Ok e -> e = zero_entry) as Hz.
  { intros p e [_ Hl]%index_Ok. by apply lookup_replicate in Hl as [-> _]. }
  split; [split|].
  - cbn [table]. unfold zlen. by rewrite length_replicate.
  - intros p e Hp Hen. apply Hz in Hp as ->. done.
  - intros p e Hp _. by apply Hz in Hp as ->.
  - intros k p. cbn [handle]. by rewrite Hnone.
  - intros k. by apply flow_map_none.
Qed.

(** ** Dumping the table *)

(** The choice of [flow_cmd_dump]: the first flow for an empty key, otherwise
    the flow after [key]. *)
Definition flow_dump_step (c : clock) (key : flow_key) t : res (Z * option flow_out) :=
  if decide (key = empty_key) then flow_table_get_first_flow c t else flow_table_get_next_flow c key t.

(** A dump: each request carries the key of the last reply, until the end. *)
Fixpoint flow_dump (fuel : nat) (c : clock) (key : flow_key) t : res (list flow_out) :=
  match fuel with
  | O => Err OutOfFuel
  | S fuel =>
      '(ret, out) ← flow_dump_step c key t;
      match out with
      | Some (k, a, s) => if 0 <=? ret then l ← flow_dump fuel c k t; Ok ((k, a, s) :: l) else Ok []
      | None => Ok []
      end
  end.

Definition entry_out (c : clock) (e : flow_table_entry) : option flow_out :=
  if e_enabled e then Some (e_key e, e_actions e, stats_out c (e_stats e)) else None.

(** The flows of the table in order of position. *)
Definition flows_from (c : clock) (pos : Z) t : list flow_out :=
  omap (entry_out c) (drop (Z.to_nat pos) (table t)).

Lemma drop_index {A} (l : list A) p x :
  index l p = Ok x -> drop (Z.to_nat p) l = x :: drop (Z.to_nat (p + 1)) l.
Proof.
  intros [Hp Hl]%index_Ok. rewrite Z2Nat.inj_add by lia. rewrite Nat.add_1_r. by apply drop_S.
Qed.

Lemma scan_flows_spec fuel c pos t :
  zlen (table t) = MAX_FLOWS -> 0 <= pos <= MAX_FLOWS -> MAX_FLOWS - pos < Z.of_nat fuel ->
  match flows_from c pos t with
  | [] => scan_flows fuel c pos t = Ok (-1, None)
  | o :: rest => exists q e, scan_flows fuel c pos t = Ok (q, Some o) /\ pos <= q < MAX_FLOWS /\
      index (table t) q = Ok e /\ entry_out c e = Some o /\ flows_from c (q + 1) t = rest
  end.
Proof.
  intros Hl. revert pos. induction fuel as [|fuel IH]; intros pos Hpos Hf; [lia|].
  simpl. destruct (Z.ltb_spec pos MAX_FLOWS) as [Hlt|Hge].
  - destruct (index_ok (table t) pos) as [e Ee]; [lia|].
    unfold copy_entry_from_table. rewrite Ee. bind.
    unfold flows_from at 1. rewrite (drop_index _ _ _ Ee). simpl.
    unfold entry_out at 1. destruct (e_enabled e) eqn:Een.
    + bind. rewrite Z.eqb_refl. exists pos, e. split; [done|]. split; [lia|]. split; [done|].
      split; [|done]. unfold entry_out. by rewrite Een.
    + bind. replace (-1 =? pos) with false by lia. specialize (IH (pos + 1) ltac:(lia) ltac:(lia)).
      change (list_omap _ _ (entry_out c) (drop (Z.to_nat (pos + 1)) (table t))) with (flows_from c (pos + 1) t).
      destruct (flows_from c (pos + 1) t) as [|o rest]; [done|].
      destruct IH as (q & e' & ? & ? & ?). exists q, e'. split; [done|]. split; [lia|done].
  - unfold flows_from at 1. rewrite drop_ge; [done|]. unfold zlen in Hl. lia.
Qed.

Lemma flows_from_sublist c p q t o : 0 <= p <= q -> o ∈ flows_from c q t -> o ∈ flows_from c p t.
Proof.
  intros Hpq (e & He & Ho)%list_elem_of_omap. apply list_elem_of_omap. exists e. split; [|done].
  replace (Z.to_nat q) with (Z.to_nat p + Z.to_nat (q - p))%nat in He by lia.
  rewrite <- drop_drop in He. rewrite <- (take_drop (Z.to_nat (q - p)) (drop (Z.to_nat p) _)).
  apply elem_of_app. by right.
Qed.

Definition out_key (o : flow_out) : flow_key := o.1.1.

Lemma elem_of_flows_from c p t o :
  0 <= p -> o ∈ flows_from c p t <-> exists q e, p <= q /\ index (table t) q = Ok e /\ entry_out c e = Some o.
Proof.
  intros Hp. unfold flows_from. rewrite list_elem_of_omap. split.
  - intros (e & [i Hi]%list_elem_of_lookup & Ho). rewrite lookup_drop in Hi.
    exists (Z.of_nat (Z.to_nat p + i)), e. split; [lia|]. split; [|done]. apply index_Ok.
    rewrite Nat2Z.id. split; [lia|done].
  - intros (q & e & Hq & [? He]%index_Ok & Ho). exists e. split; [|done]. apply list_elem_of_lookup.
    exists (Z.to_nat q - Z.to_nat p)%nat. rewrite lookup_drop. rewrite <- He. f_equal. lia.
Qed.

Lemma entry_out_Some c e o :
  entry_out c e = Some o -> e_enabled e = true /\ o = (e_key e, e_actions e, stats_out c (e_stats e)).
Proof. unfold entry_out. destruct (e_enabled e); [|done]. by intros [= <-]. Qed.

(** A dump holds exactly the flows of the map. *)
Lemma flows_from_map c t k a s :
  ft_wf t -> (k, a, s) ∈ flows_from c 0 t <-> exists st, flow_map t k = Some (a, st) /\ s = stats_out c st.
Proof.
  intros Hwf. rewrite elem_of_flows_from by done. split.
  - intros (q & e & _ & He & [Hen [= -> -> ->]]%entry_out_Some). exists (e_stats e). split; [|done].
    eapply flow_map_some; [by eapply wf_enabled|done].
  - intros (st & Hm & ->). unfold flow_map in Hm. destruct (hash_pos (handle t) k) as [p|] eqn:Ep; [|done].
    destruct (wf_pos _ Hwf _ _ Ep) as (e & Ee & Hen & Hk). rewrite Ee in Hm. injection Hm as <- <-.
    exists p, e. split; [by pose proof (index_bound _ _ _ Ee); lia|]. split; [done|].
    unfold entry_out. by rewrite Hen, Hk.
Qed.

Lemma flows_from_NoDup c t pos :
  ft_wf t -> 0 <= pos -> NoDup (out_key <$> flows_from c pos t).
Proof.
  intros Hwf. remember (Z.to_nat (MAX_FLOWS - pos)) as n eqn:Hn. revert pos Hn.
  induction n as [|n IH]; intros pos Hn Hpos.
  - unfold flows_from. rewrite drop_ge; [constructor|]. pose proof (wf_len _ Hwf). unfold zlen in *. lia.
  - destruct (index_ok (table t) pos) as [e Ee]; [rewrite (wf_len _ Hwf); lia|].
    specialize (IH (pos + 1) ltac:(lia) ltac:(lia)).
    unfold flows_from. rewrite (drop_index _ _ _ Ee). simpl.
    change (list_omap _ _ (entry_out c) (drop (Z.to_nat (pos + 1)) (table t))) with (flows_from c (pos + 1) t).
    destruct (entry_out c e) as [o|] eqn:Eo; [|done]. simpl. constructor; [|done].
    intros (o' & Hk & (q & e' & Hq & He' & [Hen' ->]%entry_out_Some)%elem_of_flows_from)%list_elem_of_fmap; [|lia].
    apply entry_out_Some in Eo as [Hen ->]. unfold out_key in Hk. simpl in Hk.
    pose proof (wf_enabled _ Hwf _ _ Ee Hen) as H1. pose proof (wf_enabled _ Hwf _ _ He' Hen') as H2.
    rewrite Hk in H1. rewrite H1 in H2. injection H2. lia.
Qed.

Lemma flow_dump_tail fuel c t q e :
  ft_wf t -> flow_map t empty_key = None -> index (table t) q = Ok e -> e_enabled e = true ->
  (length (flows_from c (q + 1) t) < fuel)%nat ->
  flow_dump fuel c (e_key e) t = Ok (flows_from c (q + 1) t).
Proof.
  intros Hwf Hemp. revert q e. induction fuel as [|fuel IH]; intros q e He Hen Hf; [lia|].
  pose proof (wf_enabled _ Hwf _ _ He Hen) as Hp. pose proof (pos_range _ _ _ Hp) as Hr.
  simpl. unfold flow_dump_step. rewrite decide_False.
  2:{ intros Hk. rewrite Hk in Hp. unfold flow_map in Hemp. rewrite Hp, He in Hemp. done. }
  unfold flow_table_get_next_flow. rewrite (lookup_some _ _ _ Hp), (bad_pos_false _ Hr). unfold is_pos in Hr.
  pose proof (scan_flows_spec scan_fuel c (q + 1) t (wf_len _ Hwf) ltac:(lia) ltac:(unfold scan_fuel; lia)) as Hs.
  destruct (flows_from c (q + 1) t) as [|o rest] eqn:Ef.
  - rewrite Hs. done.
  - destruct Hs as (q' & e' & -> & Hq' & He' & Ho & Hrest). bind.
    apply entry_out_Some in Ho as [Hen' ->]. rewrite (proj2 (Z.leb_le 0 q')) by lia.
    simpl in Hf. rewrite (IH q' e') by (try done; rewrite Hrest; lia). bind. by rewrite Hrest.
Qed.

Lemma flow_dump_ok fuel c t :
  ft_wf t -> flow_map t empty_key = None -> (length (flows_from c 0 t) < fuel)%nat ->
  flow_dump fuel c empty_key t = Ok (flows_from c 0 t).
Proof.
  intros Hwf Hemp Hf. destruct fuel as [|fuel]; [lia|]. simpl. unfold flow_dump_step.
  rewrite decide_True by done. unfold flow_table_get_first_flow.
  pose proof (scan_flows_spec scan_fuel c 0 t (wf_len _ Hwf) ltac:(done) ltac:(unfold scan_fuel; lia)) as Hs.
  destruct (flows_from c 0 t) as [|o rest] eqn:Ef; [by rewrite Hs|].
  destruct Hs as (q' & e' & -> & Hq' & He' & Ho & Hrest). bind.
  apply entry_out_Some in Ho as [Hen' ->]. rewrite (proj2 (Z.leb_le 0 q')) by lia.
  simpl in Hf. rewrite (flow_dump_tail fuel c t q' e') by (try done; rewrite Hrest; lia). bind. by rewrite Hrest.
Qed.

Lemma flows_from_length c t : ft_wf t -> Z.of_nat (length (flows_from c 0 t)) <= MAX_FLOWS.
Proof.
  intros Hwf. rewrite <- (wf_len _ Hwf). unfold zlen, flows_from. rewrite drop_0.
  apply inj_le. induction (table t) as [|e l IH]; [done|]. cbn [omap list_omap length] in *.
  destruct (entry_out c e); cbn [length]; lia.
Qed.

(** The statistics of a flow with key [k] after a packet matched it, of which
    [view] gives the buffer, the offset and the length: one more packet, its
    bytes, the time, and for TCP over IPv4 the flags at byte 47 of the frame. *)
Definition counted (c : clock) (k : flow_key) (view : list Z * Z * Z) (x : flow_stats) : flow_stats :=
  let '(b, off, len) := view in
  FlowStats (u64 (packet_count x + 1)) (u64 (byte_count x + len)) (curr_tsc c)
    (if (ether_type k =? ETHER_TYPE_IPv4) && (ip_proto k =? IPPROTO_TCP)
     then Z.lor (tcp_flags x) (Z.land (default 0 (b !! Z.to_nat (off + 47))) TCP_FLAG_MASK) else tcp_flags x).

Lemma load8_lookup b o : 0 <= o < zlen b -> load8 b o = Ok (default 0 (b !! Z.to_nat o)).
Proof.
  intros Ho. destruct (lookup_lt_is_Some_2 b (Z.to_nat o)) as [v Hv]; [unfold zlen in Ho; lia|]. rewrite Hv. unfold load8.
  apply load_le_Ok. exists [v]. change (Z.of_nat 1) with 1. unfold load_bytes, in_range.
  rewrite (proj2 (Z.leb_le 0 o)), (proj2 (Z.leb_le (o + 1) _)) by lia. cbn [andb Z.leb Z.compare]. rewrite (drop_S _ _ _ Hv). split; [done|]. cbn. lia.
Qed.

Lemma update_stats_spec c t p e b off len :
  index (table t) p = Ok e -> 0 <= off -> off + 48 <= zlen b ->
  flow_table_update_stats c p b off len t =
    Ok (set_entry t p (Entry (e_key e) (counted c (e_key e) (b, off, len) (e_stats e)) (e_enabled e) (e_actions e))).
Proof.
  intros He Ho Hr. unfold flow_table_update_stats, counted. rewrite He. bind. destruct (_ && _); [|by bind].
  replace (off + sizeof_ether_hdr + sizeof_ipv4_hdr + 13) with (off + 47) by (unfold sizeof_ether_hdr, sizeof_ipv4_hdr; lia).
  rewrite load8_lookup by lia. by bind.
Qed.
End FlowProofs.

(** ** Frames with a given key *)

Definition be16 (v : Z) : list Z := [v / 256; v mod 256].
Definition be32 (v : Z) : list Z := be16 (v / 65536) ++ be16 (v mod 65536).

(** The headers of a packet that key [k] describes: [tagged] gives an 802.1Q
    tag, [cfi] its CFI bit, [other] the IPv4 header bytes the key does not
    hold (version, length, identification, fragment field, checksum). *)
Record ip_other := IpOther { o_ver : Z; o_len : list Z; o_id : list Z; o_frag : Z; o_csum : list Z }.

Definition vlan_part (tagged : bool) (cfi : bool) (k : flow_key) : list Z :=
  if tagged then be16 ETHER_TYPE_VLAN ++ be16 (vlan_id k + (if cfi then 4096 else 0) + vlan_prio k * 8192) else [].

Definition ip_part (o : ip_other) (k : flow_key) : list Z :=
  if ether_type k =? ETHER_TYPE_IPv4 then
    [o_ver o; ip_tos k] ++ o_len o ++ o_id o ++ be16 (o_frag o) ++ [ip_ttl k; ip_proto k] ++ o_csum o
    ++ be32 (ip_src k) ++ be32 (ip_dst k)
  else [].

Definition tran_part (k : flow_key) : list Z :=
  if (ip_proto k =? IPPROTO_TCP) || (ip_proto k =? IPPROTO_UDP) then be16 (tran_src_port k) ++ be16 (tran_dst_port k)
  else if ip_proto k =? IPPROTO_ICMP then [tran_src_port k; tran_dst_port k]
  else [].

Definition key_frame (tagged cfi : bool) (o : ip_other) (k : flow_key) : list Z :=
  ether_dst k ++ ether_src k ++ vlan_part tagged cfi k ++ be16 (ether_type k) ++ ip_part o k ++ tran_part k.

(** The fragment type of an IPv4 fragment field. *)
Definition frag_type (frag : Z) : Z :=
  if negb (frag mod 8192 =? 0) then OVS_FRAG_TYPE_LATER
  else if Z.testbit frag 13 then OVS_FRAG_TYPE_FIRST else OVS_FRAG_TYPE_NONE.

(** The keys that describe a packet: fields the packet does not have are 0. *)
Record key_wf (tagged : bool) (o : ip_other) (k : flow_key) : Prop := {
  kw_dst : length (ether_dst k) = 6%nat;
  kw_src : length (ether_src k) = 6%nat;
  kw_type : is_u 16 (ether_type k);
  kw_vlan : if tagged then is_u 12 (vlan_id k) /\ is_u 3 (vlan_prio k)
            else vlan_id k = 0 /\ vlan_prio k = 0 /\ ether_type k <> ETHER_TYPE_VLAN;
  kw_ip : if ether_type k =? ETHER_TYPE_IPv4
          then is_u 8 (ip_tos k) /\ is_u 8 (ip_ttl k) /\ is_u 8 (ip_proto k) /\ is_u 32 (ip_src k) /\ is_u 32 (ip_dst k) /\
               is_u 16 (o_frag o) /\ ip_frag k = frag_type (o_frag o) /\
               is_u 8 (o_ver o) /\ length (o_len o) = 2%nat /\ length (o_id o) = 2%nat /\ length (o_csum o) = 2%nat
          else ip_src k = 0 /\ ip_dst k = 0 /\ ip_proto k = 0 /\ ip_tos k = 0 /\ ip_ttl k = 0 /\ ip_frag k = 0;
  kw_tran : if (ip_frag k =? OVS_FRAG_TYPE_LATER) then tran_src_port k = 0 /\ tran_dst_port k = 0
            else if (ip_proto k =? IPPROTO_TCP) || (ip_proto k =? IPPROTO_UDP)
            then is_u 16 (tran_src_port k) /\ is_u 16 (tran_dst_port k)
            else if ip_proto k =? IPPROTO_ICMP then is_u 8 (tran_src_port k) /\ is_u 8 (tran_dst_port k)
            else tran_src_port k = 0 /\ tran_dst_port k = 0;
  kw_port : is_u8 (in_port k)
}.

Lemma load_bytes_known pre l x o i n :
  o = zlen pre + i -> 0 <= i -> 0 <= n -> i + n <= zlen l -> take (Z.to_nat n) (drop (Z.to_nat i) l) = x ->
  load_bytes (pre ++ l) o n = Ok x.
Proof.
  intros -> Hi Hn Hl <-. rewrite load_bytes_shift by done. unfold load_bytes, in_range.
  by rewrite !(proj2 (Z.leb_le _ _)) by lia.
Qed.

Lemma load_le_known pre l x o i n :
  o = zlen pre + i -> 0 <= i -> i + Z.of_nat n <= zlen l -> take n (drop (Z.to_nat i) l) = x ->
  load_le n (pre ++ l) o = Ok (le_combine x).
Proof.
  intros -> Hi Hl <-. unfold load_le. erewrite load_bytes_known; [done|done|done|lia|done|].
  by rewrite Nat2Z.id.
Qed.

(** Evaluates the next load, at offset [i] of the bytes after [pre]. *)
Ltac load_known i :=
  unfold load8, load16, load32;
  let j := eval compute in (Z.to_nat i) in
  lazymatch goal with
  | |- (load_bytes (?p ++ ?l) ?o ?n ≫= _) = _ =>
      let k := eval compute in (Z.to_nat n) in
      let x := eval cbn [take drop] in (take k (drop j l)) in
      rewrite (load_bytes_known p l x o i n ltac:(lia) ltac:(lia) ltac:(lia)
                 ltac:(unfold zlen; cbn [length]; lia) eq_refl)
  | |- (load_le ?n (?p ++ ?l) ?o ≫= _) = _ =>
      let x := eval cbn [take drop] in (take n (drop j l)) in
      rewrite (load_le_known p l x o i n ltac:(lia) ltac:(lia) ltac:(unfold zlen; cbn [length]; lia) eq_refl)
  end;
  bind.

Lemma ntohs_be16 v : is_u 16 v -> ntohs (le_combine [v / 256; v mod 256]) = v.
Proof. unfold is_u, ntohs, bswap. intros. cbn. zdiv. Qed.

Lemma ntohl_be32 v : is_u 32 v -> ntohl (le_combine [v / 65536 / 256; (v / 65536) mod 256; v mod 65536 / 256; (v mod 65536) mod 256]) = v.
Proof. unfold is_u, ntohl, bswap. intros. cbn. zdiv. Qed.

Lemma frag_offset_be v :
  is_u 16 v -> (Z.land (le_combine [v / 256; v mod 256]) (ntohs IPV4_HDR_OFFSET_MASK) =? 0) = (v mod 8192 =? 0).
Proof.
  unfold is_u. intros Hv. cbn [le_combine]. set (x := _ + _).
  assert (0 <= v / 256 < 256) as Hh by zdiv. assert (0 <= v mod 256 < 256) as Hl by zdiv.
  change (ntohs IPV4_HDR_OFFSET_MASK) with (Z.lor (Z.shiftl (Z.ones 8) 8) (Z.ones 5)).
  rewrite Z.land_lor_distr_r, Z.land_ones by done.
  assert (Z.land x (Z.shiftl (Z.ones 8) 8) = 256 * (v mod 256)) as ->.
  { transitivity (Z.shiftl (Z.land (Z.shiftr x 8) (Z.ones 8)) 8).
    - apply Z.bits_inj'. intros m Hm. rewrite Z.land_spec, !Z.shiftl_spec by done.
      destruct (Z.lt_ge_cases m 8).
      + rewrite !(Z.testbit_neg_r _ (m - 8)) by lia. apply andb_false_r.
      + rewrite Z.land_spec, Z.shiftr_spec by lia. by replace (m - 8 + 8) with m by lia.
    - rewrite Z.shiftr_div_pow2, Z.land_ones, Z.shiftl_mul_pow2 by done. subst x. zdiv. }
  apply eq_true_iff_eq. rewrite !Z.eqb_eq, Z.lor_eq_0_iff. subst x. clear -Hv Hh Hl. split; intros; zdiv.
Qed.

Lemma frag_mf_be v :
  is_u 16 v -> (Z.land (le_combine [v / 256; v mod 256]) (ntohs IPV4_HDR_MF_FLAG) =? 0) = negb (Z.testbit v 13).
Proof.
  unfold is_u. intros Hv. cbn [le_combine]. set (x := _ + _).
  change (ntohs IPV4_HDR_MF_FLAG) with (2 ^ 5). rewrite land_pow2 by done.
  assert (Z.testbit x 5 = Z.testbit v 13) as ->.
  { change 13 with (5 + 8). rewrite <- Z.div_pow2_bits, <- (Z.mod_pow2_bits_low x 8) by done.
    f_equal. subst x. zdiv. }
  by destruct (Z.testbit v 13).
Qed.

Ltac destruct_list l n :=
  lazymatch n with
  | O => destruct l; [|done]
  | S ?n' => let x := fresh "x" in destruct l as [|x l]; [done|]; destruct_list l n'
  end.

(** The key after the Ethernet part. *)
Definition ether_key (port : Z) (k : flow_key) : flow_key :=
  FlowKey port (ether_dst k) (ether_src k) (ether_type k) (vlan_id k) (vlan_prio k) 0 0 0 0 0 0 0 0.

Lemma vlan_tci_fields (cfi : bool) id prio :
  is_u 12 id -> is_u 3 prio ->
  let tci := id + (if cfi then 4096 else 0) + prio * 8192 in
  is_u 16 tci /\ Z.land tci VLAN_ID_MASK = id /\ u8 (Z.shiftr tci VLAN_PRIO_SHIFT) = prio.
Proof.
  intros Hid Hp tci. unfold is_u in *. assert (0 <= tci < 65536) by (subst tci; destruct cfi; lia).
  split; [done|]. split.
  - change VLAN_ID_MASK with (Z.ones 12). rewrite Z.land_ones by done. subst tci. destruct cfi; zdiv.
  - rewrite Z.shiftr_div_pow2 by done. unfold u8, wrap, VLAN_PRIO_SHIFT. subst tci. destruct cfi; zdiv.
Qed.

Lemma extract_ether_frame tagged cfi o k pre rest port :
  key_wf tagged o k ->
  extract_ether (pre ++ ether_dst k ++ ether_src k ++ vlan_part tagged cfi k ++ be16 (ether_type k) ++ rest)
    (zlen pre) port empty_key
  = Ok (ether_key port k, zlen pre + if tagged then 18 else 14).
Proof.
  intros [Hd Hs Ht Hv _ _]. unfold extract_ether, ether_key. destruct k as [ip d s t vid vp]. simpl in *.
  destruct_list d 6%nat. destruct_list s 6%nat. destruct tagged; unfold vlan_part; simpl.
  - destruct Hv as [Hv1 Hv2]. load_known 0. load_known 6. load_known 12.
    rewrite ntohs_be16 by (unfold is_u, ETHER_TYPE_VLAN; lia).
    simpl. unfold sizeof_ether_hdr, sizeof_vlan_hdr. load_known 14. load_known 16.
    destruct (vlan_tci_fields cfi vid vp Hv1 Hv2) as (Hu & H1 & H2).
    rewrite (ntohs_be16 (_ + _)) by done. rewrite H1, H2. rewrite ntohs_be16 by done.
    do 2 f_equal. lia.
  - destruct Hv as (-> & -> & Hne). load_known 0. load_known 6. load_known 12.
    rewrite ntohs_be16 by done. simpl. rewrite (proj2 (Z.eqb_neq _ _)) by done. done.
Qed.

(** The key after the IPv4 part. *)
Definition ip_key (port : Z) (k : flow_key) : flow_key :=
  FlowKey port (ether_dst k) (ether_src k) (ether_type k) (vlan_id k) (vlan_prio k)
    (ip_src k) (ip_dst k) (ip_proto k) (ip_tos k) (ip_ttl k) (ip_frag k) 0 0.

Lemma le_combine_one x : le_combine [x] = x.
Proof. simpl. lia. Qed.

Lemma extract_ipv4_frame tagged o k pre rest port :
  key_wf tagged o k ->
  extract_ipv4 (pre ++ ip_part o k ++ rest) (zlen pre) (ether_key port k)
  = Ok (ip_key port k, zlen pre + zlen (ip_part o k), ip_frag k =? OVS_FRAG_TYPE_LATER).
Proof.
  intros [_ _ _ _ Hip _]. unfold extract_ipv4, ip_part, ip_key. cbn [ether_type ether_key].
  destruct (ether_type k =? ETHER_TYPE_IPv4).
  - destruct Hip as (Htos & Httl & Hproto & Hsrc & Hdst & Hfr & Hft & Hver & Hlen & Hid & Hcs).
    destruct o as [ver len id frag cs]. simpl in *.
    destruct_list len 2%nat. destruct_list id 2%nat. destruct_list cs 2%nat. simpl.
    load_known 16. load_known 12. load_known 9. load_known 1. load_known 8. load_known 6.
    rewrite !le_combine_one, !ntohl_be32 by done. rewrite frag_offset_be, frag_mf_be by done.
    rewrite Hft. unfold frag_type. rewrite negb_involutive.
    destruct (frag mod 8192 =? 0); cbn [negb]; [destruct (Z.testbit frag 13)|]; reflexivity.
  - destruct Hip as (-> & -> & -> & -> & -> & ->). rewrite Z.add_0_r. done.
Qed.

Lemma extract_tran_frame tagged o k pre rest port :
  key_wf tagged o k -> ip_frag k <> OVS_FRAG_TYPE_LATER ->
  extract_tran (pre ++ tran_part k ++ rest) (zlen pre) (ip_key port k)
  = Ok (set_tran (tran_src_port k) (tran_dst_port k) (ip_key port k)).
Proof.
  intros [_ _ _ _ _ Htr] Hnl. rewrite (proj2 (Z.eqb_neq _ _) Hnl) in Htr.
  unfold extract_tran, tran_part. cbn [ip_proto ip_key].
  destruct (_ || _); [|destruct (ip_proto k =? IPPROTO_ICMP)].
  - destruct Htr as [H1 H2]. simpl. load_known 2. load_known 0. by rewrite !ntohs_be16.
  - simpl. load_known 1. load_known 0. by rewrite !le_combine_one.
  - destruct Htr as [-> ->]. done.
Qed.

(** Abstract traces of commands. *)
Inductive fmap_trace : fmap -> list flow_op -> list Z -> fmap -> Prop :=
| trace_nil m m' : fmap_eq m m' -> fmap_trace m [] [] m'
| trace_cons m op rc m1 ops rcs m' :
    fmap_step m op rc m1 -> fmap_trace m1 ops rcs m' -> fmap_trace m (op :: ops) (rc :: rcs) m'.

(** ** Properties *)

Section FlowProperties.
Context {hash : Type} `{Hash : RteHash flow_key hash} `{!RteHashLaws flow_key hash MAX_FLOWS}.

Lemma get_flow_spec c k (t : flow_table hash) :
  ft_wf t ->
  match flow_map t k with
  | Some (a, s) => exists pos, is_pos pos /\ flow_table_get_flow c k t = Ok (pos, Some (k, a, stats_out c s))
  | None => flow_table_get_flow c k t = Ok (-1, None)
  end.
Proof.
  intros Hwf. unfold flow_map, flow_table_get_flow. destruct (hash_pos (handle t) k) as [p|] eqn:Ep.
  - destruct (wf_pos _ Hwf _ _ Ep) as (e & Ee & Hen & <-). rewrite Ee, (lookup_some _ _ _ Ep).
    pose proof (pos_range _ _ _ Ep) as Hr. rewrite (bad_pos_false _ Hr). exists p. split; [done|].
    unfold copy_entry_from_table. rewrite Ee. bind. by rewrite Hen.
  - rewrite (lookup_none _ _ Ep). by rewrite bad_pos_neg.
Qed.

(** C5: the flow table refines the finite map from keys to actions and
    statistics. On a well-formed table every sequence of add, modify, delete and
    delete-all commands runs without a fault, keeps the table well-formed, and is
    a trace of the map: an add of a new key inserts its actions with zero
    statistics or, when the hash has no room, fails with -1 and changes nothing;
    an add of a present key and a modify or delete of an absent key return -1
    and change nothing; a modify replaces the actions and resets the statistics
    only when asked; a delete removes exactly its key; delete-all empties the map. *)
Theorem flow_table_refines_map ops (t : flow_table hash) :
  ft_wf t ->
  exists rcs t', run_ops ops t = Ok (rcs, t') /\ ft_wf t' /\ fmap_trace (flow_map t) ops rcs (flow_map t').
Proof.
  revert t. induction ops as [|op ops IH]; intros t Hwf.
  - exists [], t. do 2 (split; [done|]). by constructor.
  - destruct (run_op_refines op t Hwf) as (rc & t1 & E1 & Hwf1 & Hs).
    destruct (IH t1 Hwf1) as (rcs & t2 & E2 & Hwf2 & Ht).
    exists (rc :: rcs), t2. simpl. rewrite E1. bind. rewrite E2. bind. do 2 (split; [done|]).
    by econstructor.
Qed.

(** [flow_table_get_flow] reads the map: for a present key it returns the
    key's position with its actions and statistics, the time of last use
    translated to the monotonic clock; for an absent key it returns -1. *)
Theorem flow_table_get_flow_correct c k (t : flow_table hash) :
  ft_wf t ->
  match flow_map t k with
  | Some (a, s) => exists pos, is_pos pos /\ flow_table_get_flow c k t = Ok (pos, Some (k, a, stats_out c s))
  | None => flow_table_get_flow c k t = Ok (-1, None)
  end.
Proof. apply get_flow_spec. Qed.

(** a dump that starts from the empty key and asks, with the key of each
    reply, for the next flow until the end is reported, terminates within
    [MAX_FLOWS + 1] requests and returns every flow of the table exactly once,
    when no flow has the all-zero key. *)
Theorem flow_dump_complete c (t : flow_table hash) :
  ft_wf t -> flow_map t empty_key = None ->
  exists l, flow_dump (S (Z.to_nat MAX_FLOWS)) c empty_key t = Ok l /\ NoDup (out_key <$> l) /\
    forall k a s, (k, a, s) ∈ l <-> exists st, flow_map t k = Some (a, st) /\ s = stats_out c st.
Proof.
  intros Hwf Hemp. exists (flows_from c 0 t). split; [|split].
  - apply flow_dump_ok; [done|done|]. pose proof (flows_from_length c t Hwf). lia.
  - by apply flows_from_NoDup.
  - intros. by apply flows_from_map.
Qed.

(** a flow with the all-zero key makes a dump restart at the first flow
    each time it is returned, so the dump never ends, whatever number of
    requests is allowed. *)
Theorem flow_dump_empty_key_diverges c (t : flow_table hash) v fuel :
  ft_wf t -> flow_map t empty_key = Some v -> flow_dump fuel c empty_key t = Err OutOfFuel.
Proof.
  intros Hwf Hv. unfold flow_map in Hv. destruct (hash_pos (handle t) empty_key) as [p|] eqn:Ep; [|done].
  destruct (wf_pos _ Hwf _ _ Ep) as (e0 & Ee0 & Hen0 & Hk0). clear Hv v.
  enough (forall k pos, 0 <= pos <= p ->
            flow_dump_step c k t = scan_flows scan_fuel c pos t -> flow_dump fuel c k t = Err OutOfFuel) as Hall.
  { apply (Hall empty_key 0); [apply index_bound in Ee0; lia|]. done. }
  induction fuel as [|fuel IH]; intros k pos Hpos Hstep; [done|]. simpl. rewrite Hstep.
  pose proof (pos_range _ _ _ Ep) as Hr. unfold is_pos in Hr.
  pose proof (scan_flows_spec scan_fuel c pos t (wf_len _ Hwf) ltac:(lia) ltac:(unfold scan_fuel; lia)) as Hs.
  assert ((e_key e0, e_actions e0, stats_out c (e_stats e0)) ∈ flows_from c pos t) as Hin.
  { apply elem_of_flows_from; [lia|]. exists p, e0. split; [lia|]. split; [done|]. unfold entry_out. by rewrite Hen0. }
  destruct (flows_from c pos t) as [|o rest] eqn:Ef; [by apply not_elem_of_nil in Hin|].
  destruct Hs as (q & e & -> & Hq & He & [Hen ->]%entry_out_Some & Hrest). bind.
  rewrite (proj2 (Z.leb_le 0 q)) by lia. pose proof (wf_enabled _ Hwf _ _ He Hen) as Hpq.
  assert (flow_dump fuel c (e_key e) t = Err OutOfFuel) as ->; [|done].
  destruct (decide (e_key e = empty_key)) as [Hk|Hk].
  - rewrite Hk. apply (IH _ 0); [lia|]. done.
  - apply (IH _ (q + 1)).
    + assert (q <> p) by (intros ->; congruence). assert (q <= p); [|lia].
      apply elem_of_cons in Hin as [Heq|Hin]; [congruence|]. rewrite <- Hrest in Hin.
      apply elem_of_flows_from in Hin as (q' & e' & Hle & He' & [Hen' Ho]%entry_out_Some); [|lia].
      injection Ho as Hk' _ _. pose proof (wf_enabled _ Hwf _ _ He' Hen') as Hpq'.
      rewrite <- Hk', Hk0 in Hpq'. rewrite Ep in Hpq'. injection Hpq'. lia.
    + unfold flow_dump_step. rewrite decide_False by done. unfold flow_table_get_next_flow.
      rewrite (lookup_some _ _ _ Hpq). by rewrite (bad_pos_false q (pos_range _ _ _ Hpq)).
Qed.
End FlowProperties.

(** C15: [flow_key_extract] inverts the header layout. For every key that
    describes a packet (tagged or not, IPv4 or not, any fragment type, any
    transport protocol), extracting from a frame with the headers of the key,
    at any position in the buffer and followed by anything, into a cleared key
    gives back exactly the key. *)
Theorem flow_key_extract_frame tagged cfi o k pre rest :
  key_wf tagged o k ->
  flow_key_extract (pre ++ key_frame tagged cfi o k ++ rest) (zlen pre) (in_port k) empty_key = Ok k.
Proof.
  intros Hwf. unfold flow_key_extract, key_frame. rewrite <- !app_assoc.
  unfold u8. rewrite (wrap_small 8 (in_port k)) by apply Hwf.
  rewrite (extract_ether_frame tagged cfi o k pre _ (in_port k) Hwf). bind.
  set (pre1 := pre ++ ether_dst k ++ ether_src k ++ vlan_part tagged cfi k ++ be16 (ether_type k)).
  assert (zlen pre1 = zlen pre + if tagged then 18 else 14) as Hl1.
  { subst pre1. unfold zlen. rewrite !length_app, (kw_dst _ _ _ Hwf), (kw_src _ _ _ Hwf).
    unfold vlan_part. destruct tagged; simpl; lia. }
  rewrite <- Hl1.
  replace (pre ++ ether_dst k ++ _) with (pre1 ++ ip_part o k ++ tran_part k ++ rest)
    by (subst pre1; by rewrite <- !app_assoc).
  rewrite (extract_ipv4_frame tagged o k pre1 _ (in_port k) Hwf). bind.
  destruct (Z.eqb_spec (ip_frag k) OVS_FRAG_TYPE_LATER) as [Hl|Hnl].
  - destruct Hwf as [_ _ _ _ _ Htr _]. rewrite Hl, Z.eqb_refl in Htr. destruct Htr as [H1 H2].
    unfold ip_key. destruct k. simpl in *. by subst.
  - replace (zlen pre1 + zlen (ip_part o k)) with (zlen (pre1 ++ ip_part o k)) by (unfold zlen; rewrite length_app; lia).
    rewrite app_assoc. rewrite (extract_tran_frame tagged o k _ _ _ Hwf Hnl). by destruct k.
Qed.

(** ** Examples *)

Definition sample_hash : RteHash flow_key (list (option flow_key)) := Slots MAX_FLOWS.
#[export] Existing Instance sample_hash.
#[export] Instance sample_hash_laws : RteHashLaws flow_key (list (option flow_key)) MAX_FLOWS := SlotsLaws MAX_FLOWS.

Definition sample_table : flow_table (list (option flow_key)) :=
  FlowTable (replicate (Z.to_nat MAX_FLOWS) zero_entry) [].

Definition sample_actions (port : Z) : list action := ACTION_OUTPUT port :: replicate 47 ACTION_NULL.

(** A tagged TCP packet of port 1. *)
Definition sample_key : flow_key :=
  FlowKey 1 [0;1;2;3;4;5] [6;7;8;9;10;11] 0x800 100 3 0x0a000001 0x0a000002 6 16 64 0 1000 80.

Definition sample_other : ip_other := IpOther 0x45 [0;40] [0;0] 0x4000 [0;0].

Lemma sample_table_wf : ft_wf sample_table /\ fmap_eq (flow_map sample_table) (fun _ => None).
Proof. by apply flow_table_init_wf. Qed.

Definition sample_ops : list flow_op :=
  [OpAdd sample_key (sample_actions 2); OpAdd sample_key (sample_actions 3);
   OpMod sample_key (sample_actions 3) true; OpDel empty_key; OpDel sample_key].

Lemma flow_table_refines_map_witness :
  exists rcs t', run_ops sample_ops sample_table = Ok (rcs, t') /\ ft_wf t' /\
    fmap_trace (flow_map sample_table) sample_ops rcs (flow_map t').
Proof. apply (flow_table_refines_map sample_ops sample_table). apply sample_table_wf. Defined.

(** The table after one add. *)
Definition with_flow (k : flow_key) : flow_table (list (option flow_key)) :=
  match flow_table_add_flow k (sample_actions 2) sample_table with Ok (_, t) => t | Err _ => sample_table end.

Lemma with_flow_wf k : ft_wf (with_flow k).
Proof.
  unfold with_flow. destruct (add_refines k (sample_actions 2) sample_table) as (rc & t' & -> & Hwf & _);
    [apply sample_table_wf|done].
Qed.

Definition sample_clock : clock := Clock 5000 1000000 77.

Lemma flow_table_get_flow_correct_witness :
  match flow_map (with_flow sample_key) sample_key with
  | Some (a, s) => exists pos, is_pos pos /\
      flow_table_get_flow sample_clock sample_key (with_flow sample_key) = Ok (pos, Some (sample_key, a, stats_out sample_clock s))
  | None => flow_table_get_flow sample_clock sample_key (with_flow sample_key) = Ok (-1, None)
  end.
Proof. apply (flow_table_get_flow_correct sample_clock sample_key). apply with_flow_wf. Defined.

Lemma flow_dump_complete_witness :
  exists l, flow_dump (S (Z.to_nat MAX_FLOWS)) sample_clock empty_key (with_flow sample_key) = Ok l /\
    NoDup (out_key <$> l) /\
    forall k a s, (k, a, s) ∈ l <->
      exists st, flow_map (with_flow sample_key) k = Some (a, st) /\ s = stats_out sample_clock st.
Proof.
  apply (flow_dump_complete sample_clock (with_flow sample_key)); [apply with_flow_wf|vm_compute; reflexivity].
Defined.

Lemma flow_dump_empty_key_diverges_witness :
  flow_dump 1000 sample_clock empty_key (with_flow empty_key) = Err OutOfFuel.
Proof.
  apply (flow_dump_empty_key_diverges sample_clock _ (sample_actions 2, zero_stats));
    [apply with_flow_wf|vm_compute; reflexivity].
Defined.

Lemma flow_key_extract_frame_witness :
  flow_key_extract ([1; 2; 3] ++ key_frame true false sample_other sample_key ++ [9]) 3 1 empty_key = Ok sample_key.
Proof.
  apply (flow_key_extract_frame true false sample_other sample_key [1; 2; 3] [9]).
  split; try reflexivity; vm_compute; repeat split; congruence.
Defined.
