(* ===== verification/Vport.v ===== *)
(** Virtual ports: [datapath/dpdk/vport.c], [vport.h], [vport-types.h].

    A vport is one of the endpoints packets are switched between: a physical
    NIC port, a client process with three rings, a KNI or vEth device, or a
    vhost device of a guest.  Packets for clients, NIC ports and vhost devices
    are first collected in a cache per core and port.  The state [vst] holds
    the vports, the caches, the statistics and the packet buffer memory;
    [lcore] is the core that runs an operation.  NIC and KNI drivers and the
    vhost device are interfaces. *)
From stdpp Require Import gmap gmultiset.
From Stdlib Require Import String Ascii.
From S2P Require Import Prelude Stats Dpdk.

(** ** Constants *)

Definition MAX_PHYPORTS : Z := 16.
Definition MAX_CLIENTS : Z := 16.
Definition MAX_VHOST_PORTS : Z := 64.
Definition PKT_BURST_SIZE : Z := 32.
Definition CLIENT0 : Z := 0.
Definition CLIENT1 : Z := 1.
Definition PHYPORT0 : Z := 0x10.
Definition KNI0 : Z := 0x20.
Definition VETH0 : Z := 0x40.
Definition VHOST0 : Z := 0x50.
Definition MAX_VPORT_NAME_SIZE : Z := 32.
Definition VPORT_INFO_NAMESZ : Z := 32.
Definition LOCAL_MBUF_CACHE_SIZE : Z := 32.
Definition CLIENT_QUEUE_RINGSIZE : Z := 4096.
Definition PORT_FLUSH_PERIOD_US : Z := 100.
Definition US_PER_S : Z := 1000000.

(** ** Strings *)

(** The bytes of a C string, without its terminator. *)
Definition str (s : string) : list Z := (fun c => Z.of_nat (nat_of_ascii c)) <$> list_ascii_of_string s.

(** [strncmp(a, b, n) == 0]. *)
Definition strneq (n : Z) (a b : list Z) : bool := bool_decide (take (Z.to_nat n) a = take (Z.to_nat n) b).

(** [strnlen]. *)
Definition strnlen (a : list Z) (n : Z) : Z := Z.min (zlen a) n.

(** Output of [vsnprintf] to an array of [n] bytes. *)
Definition snprintf (n : Z) (s : list Z) : list Z := take (Z.to_nat (n - 1)) s.

(** Decimal digits, for [%u] and [%2u]. *)
Fixpoint digits (fuel : nat) (n : Z) : list Z :=
  match fuel with
  | O => []
  | S fuel => (if n <? 10 then [] else digits fuel (n / 10)) ++ [48 + n mod 10]
  end.
Definition fmt_u (n : Z) : list Z := digits 10 n.
Definition fmt_2u (n : Z) : list Z := if n <? 10 then 32 :: fmt_u n else fmt_u n.

(** [vsnprintf] of a format without arguments: [%%] prints a percent sign, any
    other conversion reads an argument that is not there. *)
Fixpoint format0 (fmt : list Z) : res (list Z) :=
  match fmt with
  | [] => Ok []
  | 37 :: fmt' =>
      match fmt' with
      | 37 :: fmt'' => s ← format0 fmt''; Ok (37 :: s)
      | _ => Err OutOfBounds
      end
  | c :: fmt => s ← format0 fmt; Ok (c :: s)
  end.

(** ** Data *)

Inductive vport_type :=
| VPORT_TYPE_DISABLED | VPORT_TYPE_VSWITCHD | VPORT_TYPE_BRIDGE | VPORT_TYPE_PHY
| VPORT_TYPE_CLIENT | VPORT_TYPE_KNI | VPORT_TYPE_VETH | VPORT_TYPE_VHOST.

#[global] Instance vport_type_eq_dec : EqDecision vport_type.
Proof. solve_decision. Defined.

(** The KNI devices of the two lists [rte_kni_list] and [rte_veth_list]. *)
Inductive kni_handle := KniDev (i : Z) | VethDev (i : Z).

(** NIC and KNI drivers.  [drv] is their state, [drv_objs] the packet buffers
    they hold. *)
Class Drivers (drv : Type) := {
  drv_objs : drv -> list Z;
  rte_eth_tx_burst : Z -> list Z -> drv -> mem -> Z * drv * mem;
  rte_eth_rx_burst : Z -> Z -> drv -> mem -> list Z * drv * mem;
  rte_kni_tx_burst : kni_handle -> list Z -> drv -> mem -> Z * drv * mem;
  rte_kni_rx_burst : kni_handle -> Z -> drv -> mem -> list Z * drv * mem;
  rte_kni_handle_request : kni_handle -> drv -> drv
}.

(** What the vport code calls of a guest's device. *)
Class VhostDev (dev : Type) := {
  vhost_enqueue_burst : dev -> list Z -> mem -> res (Z * dev);
  vhost_dequeue_burst : dev -> Z -> mem -> res (list Z * dev * mem);
  dev_port_name : dev -> list Z
}.

(** The member of the union in [struct vport_info]; a client's rings are its
    receive, transmit and free rings.  [U_phy0] is a physical port whose index
    is set and whose ring is not created yet. *)
Inductive vport_union (ring dev : Type) :=
| U_none
| U_phy0 (idx : Z)
| U_phy (tx_q : ring) (idx : Z)
| U_client (rx_q tx_q free_q : ring)
| U_kni (fifo_names : list (list Z)) (idx : Z)
| U_veth (idx : Z)
| U_vhost (d : option dev) (idx : Z).
Arguments U_none {ring dev}.
Arguments U_phy0 {ring dev} _.
Arguments U_phy {ring dev} _ _.
Arguments U_client {ring dev} _ _ _.
Arguments U_kni {ring dev} _ _.
Arguments U_veth {ring dev} _.
Arguments U_vhost {ring dev} _ _.

Record vport_info (ring dev : Type) := VportInfo {
  v_type : vport_type; v_name : list Z; v_enabled : bool; v_u : vport_union ring dev
}.
Arguments VportInfo {ring dev} _ _ _ _.
Arguments v_type {ring dev} _.
Arguments v_name {ring dev} _.
Arguments v_enabled {ring dev} _.
Arguments v_u {ring dev} _.

(** The configuration: [num_clients] and its siblings, [port_flush_period]. *)
Record vcfg := VCfg {
  num_phy_ports : Z; num_clients : Z; num_kni : Z; num_veth : Z; num_vhost : Z;
  port_flush_period : Z
}.

(** The caches of a kind of port: per core, per port, the buffers collected. *)
Definition caches : Type := list (list (list Z)).

Record vst (ring dev drv : Type) := VSt {
  vports : list (vport_info ring dev);
  client_mbuf_cache : caches;
  port_mbuf_cache : caches;
  vhost_mbuf_cache : caches;
  lcore_map : list Z;
  cfg : vcfg;
  prev_tsc : list Z;
  vstats : stats;
  vmem : mem;
  drivers : drv
}.
Arguments VSt {ring dev drv} _ _ _ _ _ _ _ _ _ _.
Arguments vports {ring dev drv} _.
Arguments client_mbuf_cache {ring dev drv} _.
Arguments port_mbuf_cache {ring dev drv} _.
Arguments vhost_mbuf_cache {ring dev drv} _.
Arguments lcore_map {ring dev drv} _.
Arguments cfg {ring dev drv} _.
Arguments prev_tsc {ring dev drv} _.
Arguments vstats {ring dev drv} _.
Arguments vmem {ring dev drv} _.
Arguments drivers {ring dev drv} _.

(** Which array of caches. *)
Inductive ckind := CClient | CPort | CVhost.

#[global] Instance ckind_eq_dec : EqDecision ckind.
Proof. solve_decision. Defined.

Section VportOps.
Context {ring dev drv : Type} `{Ring : RteRing ring} `{Mb : RteMbuf} `{Drv : Drivers drv} `{Vh : VhostDev dev}.

Notation st := (vst ring dev drv).
Implicit Type s : st.

(** *** Field updates *)

Definition set_vports (x : list (vport_info ring dev)) s : st :=
  VSt x (client_mbuf_cache s) (port_mbuf_cache s) (vhost_mbuf_cache s) (lcore_map s) (cfg s) (prev_tsc s)
    (vstats s) (vmem s) (drivers s).
Definition get_caches (k : ckind) s : caches :=
  match k with CClient => client_mbuf_cache s | CPort => port_mbuf_cache s | CVhost => vhost_mbuf_cache s end.
Definition set_caches (k : ckind) (x : caches) s : st :=
  VSt (vports s)
    (match k with CClient => x | _ => client_mbuf_cache s end)
    (match k with CPort => x | _ => port_mbuf_cache s end)
    (match k with CVhost => x | _ => vhost_mbuf_cache s end)
    (lcore_map s) (cfg s) (prev_tsc s) (vstats s) (vmem s) (drivers s).
Definition set_prev_tsc (x : list Z) s : st :=
  VSt (vports s) (client_mbuf_cache s) (port_mbuf_cache s) (vhost_mbuf_cache s) (lcore_map s) (cfg s) x
    (vstats s) (vmem s) (drivers s).
Definition set_vstats (x : stats) s : st :=
  VSt (vports s) (client_mbuf_cache s) (port_mbuf_cache s) (vhost_mbuf_cache s) (lcore_map s) (cfg s) (prev_tsc s)
    x (vmem s) (drivers s).
Definition set_vmem (x : mem) s : st :=
  VSt (vports s) (client_mbuf_cache s) (port_mbuf_cache s) (vhost_mbuf_cache s) (lcore_map s) (cfg s) (prev_tsc s)
    (vstats s) x (drivers s).
Definition set_drivers (x : drv) s : st :=
  VSt (vports s) (client_mbuf_cache s) (port_mbuf_cache s) (vhost_mbuf_cache s) (lcore_map s) (cfg s) (prev_tsc s)
    (vstats s) (vmem s) x.

Definition set_u (vportid : Z) (u : vport_union ring dev) s : res st :=
  v ← index (vports s) vportid;
  Ok (set_vports (update (vports s) vportid (VportInfo (v_type v) (v_name v) (v_enabled v) u)) s).

(** The union's members; another member than the one last set is not read. *)
Definition get_phy (vportid : Z) s : res (ring * Z) :=
  v ← index (vports s) vportid;
  match v_u v with U_phy q i => Ok (q, i) | _ => Err NullDeref end.
Definition get_client (vportid : Z) s : res (ring * ring * ring) :=
  v ← index (vports s) vportid;
  match v_u v with U_client r t f => Ok (r, t, f) | _ => Err NullDeref end.
Definition get_kni (vportid : Z) s : res Z :=
  v ← index (vports s) vportid;
  match v_u v with U_kni _ i => Ok i | _ => Err NullDeref end.
Definition get_veth (vportid : Z) s : res Z :=
  v ← index (vports s) vportid;
  match v_u v with U_veth i => Ok i | _ => Err NullDeref end.
Definition get_vhost (vportid : Z) s : res (option dev * Z) :=
  v ← index (vports s) vportid;
  match v_u v with U_vhost d i => Ok (d, i) | _ => Err NullDeref end.

(** Statistics and buffers in the state. *)
Definition st_vport_inc (c : counter) (lcore vportid inc : Z) s : res st :=
  x ← vport_increment c lcore vportid inc (vstats s); Ok (set_vstats x s).
Definition st_vswitch_tx_drop (lcore inc : Z) s : res st :=
  x ← stats_vswitch_tx_drop_increment lcore inc (vstats s); Ok (set_vstats x s).
Definition st_free_all (ps : list Z) s : res st := m ← pktmbuf_free_all ps (vmem s); Ok (set_vmem m s).

(** *** The caches *)

Definition cache_get (k : ckind) (row col : Z) s : res (list Z) :=
  r ← index (get_caches k s) row; index r col.
Definition cache_set (k : ckind) (row col : Z) (c : list Z) s : res st :=
  r ← index (get_caches k s) row;
  Ok (set_caches k (update (get_caches k s) row (update r col c)) s).

(** [cache[count++] = buf]: the array has [LOCAL_MBUF_CACHE_SIZE] elements. *)
Definition cache_push (k : ckind) (row col p : Z) s : res (Z * st) :=
  c ← cache_get k row col s;
  if zlen c <? LOCAL_MBUF_CACHE_SIZE
  then s ← cache_set k row col (c ++ [p]) s; Ok (zlen c + 1, s)
  else Err OutOfBounds.

(** *** Flushing *)

(** [flush_client_port_cache]. *)
Definition flush_client_port_cache (lcore clientid : Z) s : res st :=
  lc ← index (lcore_map s) lcore;
  c ← cache_get CClient lc (u32 (clientid - CLIENT1)) s;
  '(rx_q, tx_q, free_q) ← get_client clientid s;
  let '(tx_count, rx_q) := rte_ring_enqueue_burst c rx_q in
  s ← set_u clientid (U_client rx_q tx_q free_q) s;
  s ← (if tx_count <? zlen c then
         let dropped := u8 (zlen c - tx_count) in
         s ← st_free_all (drop (Z.to_nat tx_count) c) s;
         s ← st_vswitch_tx_drop lcore dropped s;
         st_vport_inc C_rx_drop lcore clientid dropped s
       else Ok s);
  s ← st_vport_inc C_rx lcore clientid tx_count s;
  cache_set CClient lc (u32 (clientid - CLIENT1)) [] s.

(** [flush_phy_port_cache]. *)
Definition flush_phy_port_cache (lcore vportid : Z) s : res st :=
  let portid := u8 (vportid - PHYPORT0) in
  lc ← index (lcore_map s) lcore;
  c ← cache_get CPort lc portid s;
  '(tx_q, idx) ← get_phy vportid s;
  let '(tx_count, tx_q) := rte_ring_enqueue_burst c tx_q in
  s ← set_u vportid (U_phy tx_q idx) s;
  s ← (if tx_count <? zlen c then
         let dropped := u8 (zlen c - tx_count) in
         s ← st_free_all (drop (Z.to_nat tx_count) c) s;
         s ← st_vswitch_tx_drop lcore dropped s;
         st_vport_inc C_tx_drop lcore vportid dropped s
       else Ok s);
  cache_set CPort lc portid [] s.

(** [flush_vhost_dev_port_cache]: the caches of vhost devices are indexed by
    the core's own number, not by [lcore_map]. *)
Definition flush_vhost_dev_port_cache (lcore vportid : Z) s : res st :=
  c ← cache_get CVhost lcore (u32 (vportid - VHOST0)) s;
  '(d, idx) ← get_vhost vportid s;
  s ← match d with
      | None =>
          s ← st_vswitch_tx_drop lcore (zlen c) s;
          st_vport_inc C_rx_drop lcore vportid (zlen c) s
      | Some d =>
          '(tx_count, d) ← vhost_enqueue_burst d c (vmem s);
          s ← set_u vportid (U_vhost (Some d) idx) s;
          s ← (if tx_count <? zlen c then
                 let dropped := u8 (zlen c - tx_count) in
                 s ← st_vswitch_tx_drop lcore dropped s;
                 st_vport_inc C_rx_drop lcore vportid dropped s
               else Ok s);
          st_vport_inc C_rx lcore vportid tx_count s
      end;
  s ← st_free_all c s;
  cache_set CVhost lcore (u32 (vportid - VHOST0)) [] s.

(** The periodic flushes: every cache of the core that is not empty. *)
Fixpoint flush_loop (k : ckind) (row : Z) (flush : Z -> st -> res st) (base : Z) (n : nat) (i : Z) s : res st :=
  match n with
  | O => Ok s
  | S n =>
      c ← cache_get k row i s;
      s ← (if zlen c =? 0 then Ok s else flush (i + base) s);
      flush_loop k row flush base n (i + 1) s
  end.

Definition flush_clients (lcore : Z) s : res st :=
  lc ← index (lcore_map s) lcore;
  flush_loop CClient lc (flush_client_port_cache lcore) CLIENT1 (Z.to_nat (num_clients (cfg s))) 0 s.
Definition flush_ports (lcore : Z) s : res st :=
  lc ← index (lcore_map s) lcore;
  flush_loop CPort lc (flush_phy_port_cache lcore) PHYPORT0 (Z.to_nat (num_phy_ports (cfg s))) 0 s.
Definition flush_vhost_devs (lcore : Z) s : res st :=
  flush_loop CVhost (u8 lcore) (flush_vhost_dev_port_cache lcore) VHOST0 (Z.to_nat (num_vhost (cfg s))) 0 s.

(** *** Sending *)

Definition send_to_client (lcore client p : Z) s : res (Z * st) :=
  lc ← index (lcore_map s) lcore;
  '(count, s) ← cache_push CClient lc (u32 (client - CLIENT1)) p s;
  s ← (if count =? LOCAL_MBUF_CACHE_SIZE then flush_client_port_cache lcore client s else Ok s);
  '(rx_q, tx_q, free_q) ← get_client client s;
  let '(freebufs, free_q) := rte_ring_dequeue_burst PKT_BURST_SIZE free_q in
  s ← set_u client (U_client rx_q tx_q free_q) s;
  s ← st_free_all freebufs s;
  Ok (0, s).

Definition send_to_port (lcore vportid p : Z) s : res (Z * st) :=
  lc ← index (lcore_map s) lcore;
  '(count, s) ← cache_push CPort lc (u32 (vportid - PHYPORT0)) p s;
  s ← (if count =? LOCAL_MBUF_CACHE_SIZE then flush_phy_port_cache lcore vportid s else Ok s);
  Ok (0, s).

(** The common part of [send_to_kni] and [send_to_veth]. *)
Definition kni_send (h : kni_handle) (lcore vportid p : Z) s : res (Z * st) :=
  let '(tx_count, d, m) := rte_kni_tx_burst h [p] (drivers s) (vmem s) in
  let s := set_vmem m (set_drivers d s) in
  if tx_count =? 0 then
    s ← st_free_all [p] s;
    s ← st_vport_inc C_rx_drop lcore vportid INC_BY_1 s;
    s ← st_vswitch_tx_drop lcore INC_BY_1 s;
    Ok (0, s)
  else
    s ← st_vport_inc C_rx lcore vportid INC_BY_1 s;
    Ok (0, s).

Definition send_to_kni (lcore vportid p : Z) s : res (Z * st) :=
  i ← get_kni vportid s; kni_send (KniDev i) lcore vportid p s.
Definition send_to_veth (lcore vportid p : Z) s : res (Z * st) :=
  i ← get_veth vportid s; kni_send (VethDev i) lcore vportid p s.

Definition send_to_vhost (lcore vportid p : Z) s : res (Z * st) :=
  '(count, s) ← cache_push CVhost lcore (u32 (vportid - VHOST0)) p s;
  s ← (if count =? LOCAL_MBUF_CACHE_SIZE then flush_vhost_dev_port_cache lcore vportid s else Ok s);
  Ok (0, s).

Definition send_to_vport (lcore vportid p : Z) s : res (Z * st) :=
  if MAX_VPORTS <=? vportid then s ← st_free_all [p] s; Ok (-1, s) else
  v ← index (vports s) vportid;
  match v_type v with
  | VPORT_TYPE_PHY => send_to_port lcore vportid p s
  | VPORT_TYPE_CLIENT => send_to_client lcore vportid p s
  | VPORT_TYPE_KNI => send_to_kni lcore vportid p s
  | VPORT_TYPE_VETH => send_to_veth lcore vportid p s
  | VPORT_TYPE_VHOST => send_to_vhost lcore vportid p s
  | VPORT_TYPE_VSWITCHD | VPORT_TYPE_DISABLED | VPORT_TYPE_BRIDGE => s ← st_free_all [p] s; Ok (-1, s)
  end.

(** *** Receiving: the buffers received, then the state *)

Definition receive_from_veth (lcore vportid : Z) s : res (list Z * st) :=
  i ← get_veth vportid s;
  let '(ps, d, m) := rte_kni_rx_burst (VethDev i) PKT_BURST_SIZE (drivers s) (vmem s) in
  let s := set_vmem m (set_drivers d s) in
  s ← (if zlen ps =? 0 then Ok s else st_vport_inc C_tx lcore vportid (zlen ps) s);
  Ok (ps, set_drivers (rte_kni_handle_request (VethDev i) (drivers s)) s).

Definition receive_from_kni (lcore vportid : Z) s : res (list Z * st) :=
  i ← get_kni vportid s;
  let '(ps, d, m) := rte_kni_rx_burst (KniDev i) PKT_BURST_SIZE (drivers s) (vmem s) in
  let s := set_vmem m (set_drivers d s) in
  s ← (if 0 <? zlen ps then st_vport_inc C_tx lcore vportid (zlen ps) s else Ok s);
  Ok (ps, s).

Definition receive_from_client (lcore client : Z) s : res (list Z * st) :=
  '(rx_q, tx_q, free_q) ← get_client client s;
  let '(ps, tx_q) := rte_ring_dequeue_burst PKT_BURST_SIZE tx_q in
  s ← set_u client (U_client rx_q tx_q free_q) s;
  s ← st_vport_inc C_tx lcore client (zlen ps) s;
  Ok (ps, s).

Definition receive_from_port (lcore vportid : Z) s : res (list Z * st) :=
  '(_, idx) ← get_phy vportid s;
  let '(ps, d, m) := rte_eth_rx_burst idx PKT_BURST_SIZE (drivers s) (vmem s) in
  let s := set_vmem m (set_drivers d s) in
  s ← (if 0 <? zlen ps then st_vport_inc C_rx lcore vportid (zlen ps) s else Ok s);
  Ok (ps, s).

Definition receive_from_vhost (lcore vportid : Z) s : res (list Z * st) :=
  '(d, idx) ← get_vhost vportid s;
  match d with
  | None => Ok ([], s)
  | Some d =>
      '(ps, d, m) ← vhost_dequeue_burst d PKT_BURST_SIZE (vmem s);
      s ← set_u vportid (U_vhost (Some d) idx) (set_vmem m s);
      s ← st_vport_inc C_tx lcore vportid (zlen ps) s;
      Ok (ps, s)
  end.

Definition receive_from_vport (lcore vportid : Z) s : res (list Z * st) :=
  if MAX_VPORTS <=? vportid then Ok ([], s) else
  v ← index (vports s) vportid;
  match v_type v with
  | VPORT_TYPE_PHY => receive_from_port lcore vportid s
  | VPORT_TYPE_CLIENT => receive_from_client lcore vportid s
  | VPORT_TYPE_KNI => receive_from_kni lcore vportid s
  | VPORT_TYPE_VETH => receive_from_veth lcore vportid s
  | VPORT_TYPE_VHOST => receive_from_vhost lcore vportid s
  | _ => Ok ([], s)
  end.

(** [flush_nic_tx_ring], at time [cur_tsc]. *)
Definition flush_nic_tx_ring (lcore cur_tsc vportid : Z) s : res st :=
  '(tx_q, portid) ← get_phy vportid s;
  let tx_count := rte_ring_count tx_q in
  idle ← (if tx_count <? PKT_BURST_SIZE then
            prev ← index (prev_tsc s) portid;
            Ok (u64 (cur_tsc - prev) <? port_flush_period (cfg s))
          else Ok false);
  if (idle : bool) then Ok s else
  let tx_count := if PKT_BURST_SIZE <? tx_count then PKT_BURST_SIZE else tx_count in
  let '(rc, pkts, tx_q) := rte_ring_dequeue_bulk tx_count tx_q in
  if negb (rc =? 0) then Ok s else
  s ← set_u vportid (U_phy tx_q portid) s;
  let '(pkts_sent, d, m) := rte_eth_tx_burst portid pkts (drivers s) (vmem s) in
  let s := set_vmem m (set_drivers d s) in
  _ ← index (prev_tsc s) portid;
  let s := set_prev_tsc (update (prev_tsc s) portid cur_tsc) s in
  s ← (if pkts_sent <? tx_count then
         s ← st_free_all (drop (Z.to_nat pkts_sent) pkts) s;
         st_vport_inc C_tx_drop lcore vportid (tx_count - pkts_sent) s
       else Ok s);
  st_vport_inc C_tx lcore vportid pkts_sent s.

(** *** Vport management *)

Definition vport_exists (vportid : Z) s : bool :=
  match index (vports s) vportid with
  | Ok v => (vportid <? MAX_VPORTS) && bool_decide (v_type v <> VPORT_TYPE_DISABLED)
  | Err _ => false
  end.

(** The array is read before [vportid] is compared with its size. *)
Definition vport_id_is_valid (vportid : Z) (type : vport_type) s : res bool :=
  v ← index (vports s) vportid;
  if bool_decide (v_type v = VPORT_TYPE_VSWITCHD) && bool_decide (type = VPORT_TYPE_BRIDGE) then Ok true
  else if vportid <? MAX_VPORTS then Ok (bool_decide (v_type v = type))
  else Ok false.

Definition vport_is_enabled (vportid : Z) s : bool :=
  if vport_exists vportid s then
    match index (vports s) vportid with Ok v => v_enabled v | Err _ => false end
  else false.

Definition vport_get_type (vportid : Z) s : vport_type :=
  if vport_exists vportid s then
    match index (vports s) vportid with Ok v => v_type v | Err _ => VPORT_TYPE_DISABLED end
  else VPORT_TYPE_DISABLED.

Definition vport_get_name (vportid : Z) s : option (list Z) :=
  if vport_exists vportid s then
    match index (vports s) vportid with Ok v => Some (v_name v) | Err _ => None end
  else None.

Definition update_vport (vportid : Z) (f : vport_info ring dev -> vport_info ring dev) s : st :=
  match index (vports s) vportid with
  | Ok v => set_vports (update (vports s) vportid (f v)) s
  | Err _ => s
  end.

Definition set_enabled (b : bool) (vportid : Z) s : st :=
  if vport_exists vportid s
  then update_vport vportid (fun v => VportInfo (v_type v) (v_name v) b (v_u v)) s else s.
Definition vport_enable := set_enabled true.
Definition vport_disable := set_enabled false.

(** [vport_set_name] with the text its format and arguments print. *)
Definition vport_set_name (vportid : Z) (text : list Z) s : st :=
  if vport_exists vportid s
  then update_vport vportid
         (fun v => VportInfo (v_type v) (snprintf VPORT_INFO_NAMESZ text) (v_enabled v) (v_u v)) s
  else s.

Fixpoint name_to_portid_loop (n : nat) (i : Z) (name : list Z) s : Z :=
  match n with
  | O => UINT32_MAX
  | S n =>
      if match vport_get_name i s with Some nm => strneq MAX_VPORT_NAME_SIZE nm name | None => false end
      then i else name_to_portid_loop n (i + 1) name s
  end.
Definition vport_name_to_portid (name : list Z) s : Z :=
  name_to_portid_loop (Z.to_nat MAX_VPORTS) 0 name s.

Fixpoint next_index_loop (n : nat) (i : Z) s : Z :=
  match n with
  | O => MAX_VPORTS
  | S n => if vport_exists i s && negb (vport_is_enabled i s) then i else next_index_loop n (i + 1) s
  end.

Definition vport_next_available_index (type : vport_type) s : Z :=
  let range lo hi := next_index_loop (Z.to_nat (hi - lo)) lo s in
  match type with
  | VPORT_TYPE_VSWITCHD | VPORT_TYPE_BRIDGE => CLIENT0
  | VPORT_TYPE_CLIENT => range CLIENT1 (CLIENT1 + (num_clients (cfg s) - 1))
  | VPORT_TYPE_PHY => range PHYPORT0 KNI0
  | VPORT_TYPE_KNI => range KNI0 (KNI0 + num_kni (cfg s))
  | VPORT_TYPE_VETH => range VETH0 (VETH0 + num_veth (cfg s))
  | VPORT_TYPE_VHOST => range VHOST0 (VHOST0 + num_vhost (cfg s))
  | VPORT_TYPE_DISABLED => MAX_VPORTS
  end.

(** The name comparison of [vport_vhost_up] and [vport_vhost_down]. *)
Definition vhost_name_match (port_name name : list Z) : bool :=
  strneq (strnlen port_name MAX_VPORT_NAME_SIZE) port_name name &&
  (strnlen port_name MAX_VPORT_NAME_SIZE =? strnlen name VPORT_INFO_NAMESZ).

(** Their search loop, which sets the device of the first match to [d]. *)
Fixpoint vhost_find (n : nat) (vhostid : Z) (port_name : list Z) (d : option dev) s : res (Z * st) :=
  match n with
  | O => Ok (-1, s)
  | S n =>
      v ← index (vports s) (VHOST0 + vhostid);
      if vhost_name_match port_name (v_name v) then
        '(_, idx) ← get_vhost (VHOST0 + vhostid) s;
        s ← set_u (VHOST0 + vhostid) (U_vhost d idx) s;
        Ok (0, s)
      else vhost_find n (vhostid + 1) port_name d s
  end.

Definition vport_vhost_up (d : dev) s : res (Z * st) :=
  vhost_find (Z.to_nat (num_vhost (cfg s))) 0 (dev_port_name d) (Some d) s.
Definition vport_vhost_down (d : dev) s : res (Z * st) :=
  vhost_find (Z.to_nat (num_vhost (cfg s))) 0 (dev_port_name d) None s.

(** [RTE_MEMZONE_NAMESIZE] is 32. *)
Definition vport_set_kni_fifo_names (vportid : Z) (names : list (list Z)) s : st :=
  if vport_exists vportid s then
    update_vport vportid (fun v =>
      match v_u v with
      | U_kni _ i => VportInfo (v_type v) (v_name v) (v_enabled v) (U_kni (snprintf 32 <$> names) i)
      | _ => v
      end) s
  else s.
End VportOps.

(** [vport_is_valid_name]: the name is short enough and alphanumeric. *)
Definition isalnum (c : Z) : bool :=
  ((48 <=? c) && (c <=? 57)) || ((65 <=? c) && (c <=? 90)) || ((97 <=? c) && (c <=? 122)).
Definition vport_is_valid_name (port_name : list Z) : Z :=
  let length := strnlen port_name (VPORT_INFO_NAMESZ + 1) in
  if length =? VPORT_INFO_NAMESZ + 1 then -1
  else if forallb isalnum (take (Z.to_nat length) port_name) then 0 else -1.

(** ** Ownership of packet buffers *)

Definition M (l : list Z) : gmultiset Z := list_to_set_disj l.

(** Every live header points into an existing data buffer. *)
Definition mem_wf (m : mem) : Prop :=
  forall p b, mbufs m !! p = Some b -> exists c, bufs m !! buf_addr b = Some c /\
    0 <= pkt_data b /\ 0 <= data_len b /\ pkt_data b + data_len b <= zlen c.

(** The live buffers are exactly the elements of [X], each held once. *)
Definition owns (m : mem) (X : gmultiset Z) : Prop :=
  mem_wf m /\ forall p, multiplicity p X = if decide (is_Some (mbufs m !! p)) then 1%nat else 0%nat.

(** The packets of [X] are untouched: same header, same data. *)
Definition keeps (X : gmultiset Z) (m m' : mem) : Prop :=
  forall q, q ∈ X -> mbufs m' !! q = mbufs m !! q /\
    forall b, mbufs m !! q = Some b -> bufs m' !! buf_addr b = bufs m !! buf_addr b.

(** What drivers guarantee: they neither lose nor duplicate buffers, free only
    what they hold, and leave other packets alone. *)
Class DriversLaws (drv : Type) `{Drivers drv} := {
  eth_tx_spec port ps d m X n d' m' :
    owns m (M (drv_objs d) ⊎ M ps ⊎ X) -> rte_eth_tx_burst port ps d m = (n, d', m') ->
    0 <= n <= zlen ps /\ owns m' (M (drv_objs d') ⊎ M (drop (Z.to_nat n) ps) ⊎ X) /\ keeps X m m';
  eth_rx_spec port k d m X ps d' m' :
    0 <= k -> owns m (M (drv_objs d) ⊎ X) -> rte_eth_rx_burst port k d m = (ps, d', m') ->
    zlen ps <= k /\ owns m' (M (drv_objs d') ⊎ M ps ⊎ X) /\ keeps X m m';
  kni_tx_spec h ps d m X n d' m' :
    owns m (M (drv_objs d) ⊎ M ps ⊎ X) -> rte_kni_tx_burst h ps d m = (n, d', m') ->
    0 <= n <= zlen ps /\ owns m' (M (drv_objs d') ⊎ M (drop (Z.to_nat n) ps) ⊎ X) /\ keeps X m m';
  kni_rx_spec h k d m X ps d' m' :
    0 <= k -> owns m (M (drv_objs d) ⊎ X) -> rte_kni_rx_burst h k d m = (ps, d', m') ->
    zlen ps <= k /\ owns m' (M (drv_objs d') ⊎ M ps ⊎ X) /\ keeps X m m';
  kni_request_spec h d : drv_objs (rte_kni_handle_request h d) = drv_objs d
}.

(** What a vhost device in a proper state guarantees: it accepts a prefix of a
    burst, copying it; a burst taken from the guest is in new buffers. *)
Class VhostLaws (dev : Type) `{VhostDev dev} := {
  dev_ok : dev -> Prop;
  vhost_enqueue_spec d ps m : dev_ok d -> mem_wf m -> Forall (live m) ps -> zlen ps <= PKT_BURST_SIZE ->
    exists n d', vhost_enqueue_burst d ps m = Ok (n, d') /\ 0 <= n <= zlen ps /\ dev_ok d';
  vhost_dequeue_spec d k m X : dev_ok d -> owns m X -> 0 <= k <= PKT_BURST_SIZE ->
    exists ps d' m', vhost_dequeue_burst d k m = Ok (ps, d', m') /\ zlen ps <= k /\
      owns m' (M ps ⊎ X) /\ keeps X m m' /\ dev_ok d'
}.

Lemma M_app l l' : M (l ++ l') = M l ⊎ M l'.
Proof. apply list_to_set_disj_app. Qed.

Lemma M_cons x l : M (x :: l) = {[+ x +]} ⊎ M l.
Proof. done. Qed.

Lemma M_nil : M [] = ∅.
Proof. done. Qed.

Lemma owns_live m X p : owns m X -> p ∈ X -> is_Some (mbufs m !! p).
Proof.
  intros [_ Hm] Hp. specialize (Hm p). rewrite elem_of_multiplicity in Hp. case_decide; [done|lia].
Qed.

Lemma owns_eq m X Y : owns m X -> X = Y -> owns m Y.
Proof. by intros ? <-. Qed.

Lemma keeps_refl X m : keeps X m m.
Proof. done. Qed.

Lemma keeps_trans X m1 m2 m3 : keeps X m1 m2 -> keeps X m2 m3 -> keeps X m1 m3.
Proof.
  intros H1 H2 q Hq. destruct (H1 q Hq) as [A1 B1], (H2 q Hq) as [A2 B2]. split; [congruence|].
  intros b Hb. rewrite B2, (B1 b Hb); [done|]. by rewrite A1.
Qed.

Lemma keeps_mono X Y m m' : keeps (Y ⊎ X) m m' -> keeps X m m'.
Proof. intros Hk q Hq. apply Hk. apply gmultiset_elem_of_disj_union. by right. Qed.

Section Owns.
Context `{Mb : RteMbuf} `{!RteMbufLaws}.

Lemma mem_wf_free m p : mem_wf m -> mem_wf (rte_pktmbuf_free p m).
Proof.
  intros Hwf q b. rewrite free_mbufs. intros [Hne Hq]%lookup_delete_Some.
  rewrite (free_bufs m p q b) by done. by apply (Hwf q).
Qed.

Lemma owns_free m p X : owns m ({[+ p +]} ⊎ X) -> exists m', pktmbuf_free p m = Ok m' /\ owns m' X /\ keeps X m m'.
Proof.
  intros Ho. pose proof (owns_live _ _ p Ho ltac:(multiset_solver)) as [b Hb].
  unfold pktmbuf_free, mbuf_at. rewrite Hb. bind. eexists. split; [done|].
  assert (keeps X m (rte_pktmbuf_free p m)) as Hk.
  { intros q Hq. assert (q <> p).
    { intros ->. destruct Ho as [_ Hm]. specialize (Hm p). rewrite multiplicity_disj_union, multiplicity_singleton_eq in Hm.
      rewrite elem_of_multiplicity in Hq. destruct (decide (is_Some (mbufs m !! p))); lia. }
    rewrite free_mbufs, lookup_delete_ne by done. split; [done|]. intros b' Hb'. by apply (free_bufs m p q). }
  split; [|done]. destruct Ho as [Hwf Hm]. split; [by apply mem_wf_free|]. intros q. specialize (Hm q).
  rewrite multiplicity_disj_union in Hm. rewrite free_mbufs. destruct (decide (q = p)) as [->|Hne].
  - rewrite multiplicity_singleton, (decide_True _ _ (eq_refl p)) in Hm. rewrite lookup_delete_eq.
    destruct (decide (is_Some (mbufs m !! p))) as [_|Hd]; [|by destruct Hd; eauto].
    rewrite decide_False by (by intros [? ?]). lia.
  - rewrite multiplicity_singleton_ne in Hm by done. by rewrite lookup_delete_ne.
Qed.

Lemma owns_free_all ps m X :
  owns m (M ps ⊎ X) -> exists m', pktmbuf_free_all ps m = Ok m' /\ owns m' X /\ keeps X m m'.
Proof.
  revert m. induction ps as [|p ps IH]; intros m Ho.
  - exists m. split; [done|]. split; [|done]. eapply owns_eq; [done|]. rewrite M_nil. multiset_solver.
  - destruct (owns_free m p (M ps ⊎ X)) as (m1 & E1 & Ho1 & K1).
    { eapply owns_eq; [done|]. rewrite M_cons. multiset_solver. }
    destruct (IH m1 Ho1) as (m2 & E2 & Ho2 & K2). exists m2. simpl. rewrite E1. bind. do 2 (split; [done|]).
    eapply keeps_trans; [|done]. by eapply keeps_mono.
Qed.

Lemma owns_add m p b m' X :
  owns m X -> mbufs m !! p = None -> mbufs m' = <[p := b]> (mbufs m) -> mem_wf m' -> owns m' ({[+ p +]} ⊎ X).
Proof.
  intros [Hwf Hm] Hp Hm' Hwf'. split; [done|]. intros q. specialize (Hm q). rewrite multiplicity_disj_union, Hm'.
  destruct (decide (q = p)) as [->|Hne].
  - rewrite multiplicity_singleton, (decide_True _ _ (eq_refl p)), lookup_insert_eq. rewrite Hp in Hm.
    rewrite Hm. destruct (decide (is_Some None)) as [[? ?]|_]; [done|]. by rewrite decide_True by eauto.
  - by rewrite multiplicity_singleton_ne, lookup_insert_ne.
Qed.

Lemma mem_wf_alloc m p m' : mem_wf m -> rte_pktmbuf_alloc m = (Some p, m') -> mem_wf m'.
Proof.
  intros Hwf (Hp & b & c & Hm & Hb & Hne & Hd & Hl & Hdata)%alloc_some.
  intros q b'. rewrite Hm, Hb. destruct (decide (q = p)) as [->|Hqp].
  - rewrite lookup_insert_eq. intros [= <-]. exists c. rewrite lookup_insert_eq. split; [done|]. lia.
  - rewrite lookup_insert_ne by done. intros Hq. rewrite lookup_insert_ne by (by apply not_eq_sym, (Hne q)).
    by apply (Hwf q).
Qed.

Lemma owns_alloc m X o m' :
  owns m X -> rte_pktmbuf_alloc m = (o, m') ->
  match o with Some p => owns m' ({[+ p +]} ⊎ X) /\ keeps X m m' | None => m' = m end.
Proof.
  intros Ho E. destruct o as [p|]; [|by apply alloc_none].
  pose proof (mem_wf_alloc _ _ _ (proj1 Ho) E) as Hwf'. apply alloc_some in E as (Hp & b & c & Hm & Hb & Hne & _).
  split; [by eapply owns_add|]. intros q Hq. destruct (owns_live _ _ _ Ho Hq) as [b' Hb'].
  rewrite Hm, lookup_insert_ne by congruence. split; [done|]. intros b'' Hb''.
  rewrite Hb, lookup_insert_ne by (by apply not_eq_sym, (Hne q)). done.
Qed.

Lemma owns_clone m X p o m' :
  owns m X -> p ∈ X -> rte_pktmbuf_clone p m = (o, m') ->
  match o with
  | Some q => owns m' ({[+ q +]} ⊎ X) /\ keeps X m m' /\ mbufs m' !! q = mbufs m !! p /\ bufs m' = bufs m
  | None => m' = m
  end.
Proof.
  intros Ho Hp E. destruct o as [q|]; [|by eapply clone_none].
  destruct (owns_live _ _ _ Ho Hp) as [b Hb].
  destruct (clone_some _ _ _ _ _ Hb E) as (Hq & Hm & Hbufs).
  assert (keeps X m m').
  { intros r Hr. destruct (owns_live _ _ _ Ho Hr) as [b' Hb']. rewrite Hm, Hbufs, lookup_insert_ne by congruence. done. }
  split; [|split; [done|]; by rewrite Hm, Hbufs, lookup_insert_eq, Hb].
  eapply owns_add; [done|done|done|]. intros r b'. rewrite Hm, Hbufs.
  destruct (decide (r = q)) as [->|Hne].
  - rewrite lookup_insert_eq. intros [= <-]. by apply (proj1 Ho p).
  - rewrite lookup_insert_ne by done. by apply (proj1 Ho r).
Qed.
End Owns.

(** ** The invariant of the vport state *)

(** Columns of the arrays of caches. *)
Definition cache_cols (k : ckind) (c : vcfg) : Z :=
  match k with CClient => num_clients c | CPort => num_phy_ports c | CVhost => num_vhost c end.

Section VportInv.
Context {ring dev drv : Type} `{Ring : RteRing ring} `{!RteRingLaws ring} `{Mb : RteMbuf} `{!RteMbufLaws}
  `{Drv : Drivers drv} `{!DriversLaws drv} `{Vh : VhostDev dev} `{!VhostLaws dev}.

Notation st := (vst ring dev drv).
Implicit Type s : st.

Definition is_client (u : vport_union ring dev) : Prop := exists r t f, u = U_client r t f.
Definition is_phy (u : vport_union ring dev) : Prop := exists q i, u = U_phy q i /\ 0 <= i < MAX_PHYPORTS.
Definition is_vhost (u : vport_union ring dev) : Prop :=
  exists d i, u = U_vhost d i /\ match d with Some d => dev_ok d | None => True end.

(** What the position of a vport says about it, and what its type says about
    its position and its union. *)
Record vport_ok (c : vcfg) (i : Z) (v : vport_info ring dev) : Prop := {
  vo_client : CLIENT1 <= i < CLIENT1 + num_clients c -> is_client (v_u v);
  vo_phy : PHYPORT0 <= i < PHYPORT0 + num_phy_ports c -> is_phy (v_u v);
  vo_vhost : VHOST0 <= i < VHOST0 + num_vhost c -> is_vhost (v_u v);
  vo_type : match v_type v with
            | VPORT_TYPE_CLIENT => CLIENT1 <= i < CLIENT1 + num_clients c
            | VPORT_TYPE_PHY => PHYPORT0 <= i < PHYPORT0 + num_phy_ports c
            | VPORT_TYPE_VHOST => VHOST0 <= i < VHOST0 + num_vhost c
            | VPORT_TYPE_KNI => exists names j, v_u v = U_kni names j
            | VPORT_TYPE_VETH => exists j, v_u v = U_veth j
            | _ => True
            end
}.

Definition cfg_ok (c : vcfg) : Prop :=
  1 <= num_clients c < MAX_CLIENTS /\ 0 <= num_phy_ports c <= MAX_PHYPORTS /\
  0 <= num_kni c /\ 0 <= num_veth c /\ 0 <= num_vhost c <= MAX_VHOST_PORTS.

(** The row of the caches that core [lcore] uses. *)
Definition cache_row (k : ckind) (lcore : Z) s : res Z :=
  match k with CVhost => Ok lcore | _ => index (lcore_map s) lcore end.

(** The invariant for a core [lcore] of a machine with [n] cores. *)
Record vst_wf (n lcore : Z) s : Prop := {
  w_cfg : cfg_ok (cfg s);
  w_vports : zlen (vports s) = MAX_VPORTS;
  w_ok i v : index (vports s) i = Ok v -> vport_ok (cfg s) i v;
  w_stats : stats_wf n (vstats s);
  w_lcore : 0 <= lcore < n /\ n <= 256;
  w_row k : 0 < cache_cols k (cfg s) ->
    exists r, cache_row k lcore s = Ok r /\ 0 <= r < zlen (get_caches k s);
  w_map : exists r, index (lcore_map s) lcore = Ok r;
  w_cols k : Forall (fun row => zlen row = cache_cols k (cfg s)) (get_caches k s);
  w_small k : Forall (Forall (fun c => zlen c <= LOCAL_MBUF_CACHE_SIZE)) (get_caches k s);
  w_tsc : zlen (prev_tsc s) = MAX_PHYPORTS
}.

(** Between operations no cache is full. *)
Definition small s : Prop := forall k, Forall (Forall (fun c => zlen c < LOCAL_MBUF_CACHE_SIZE)) (get_caches k s).

(** The buffers of a vport's rings, of the caches, and of all the state. *)
Definition u_objs (u : vport_union ring dev) : list Z :=
  match u with
  | U_phy q _ => ring_objs q
  | U_client r t f => ring_objs r ++ ring_objs t ++ ring_objs f
  | _ => []
  end.
Definition vports_objs (l : list (vport_info ring dev)) : gmultiset Z := M (concat ((fun v => u_objs (v_u v)) <$> l)).
Definition caches_objs (c : caches) : gmultiset Z := M (concat (@concat Z <$> c)).
Definition owned s : gmultiset Z :=
  vports_objs (vports s) ⊎ caches_objs (client_mbuf_cache s) ⊎ caches_objs (port_mbuf_cache s)
  ⊎ caches_objs (vhost_mbuf_cache s) ⊎ M (drv_objs (drivers s)).

(** The state is well-formed and every live buffer is held exactly once, by a
    ring, a cache, a driver, or outside ([X]). *)
Definition sinv (n lcore : Z) s (X : gmultiset Z) : Prop :=
  vst_wf n lcore s /\ owns (vmem s) (owned s ⊎ X).

(** *** Ownership under updates *)

Lemma M_concat_update {A} (f : A -> list Z) (l : list A) i x y :
  index l i = Ok x -> M (concat (f <$> update l i y)) ⊎ M (f x) = M (concat (f <$> l)) ⊎ M (f y).
Proof.
  intros [_ Hx]%index_Ok. unfold update. revert Hx. generalize (Z.to_nat i) as k. clear i.
  induction l as [|z l IH]; intros [|k] Hx; simplify_eq/=.
  - rewrite !M_app. multiset_solver.
  - rewrite !M_app. specialize (IH k Hx). multiset_solver.
Qed.

Lemma owned_set_u i u v s s' :
  index (vports s) i = Ok v -> set_u i u s = Ok s' -> owned s' ⊎ M (u_objs (v_u v)) = owned s ⊎ M (u_objs u).
Proof.
  intros Hv. unfold set_u. rewrite Hv. bind. intros [= <-]. unfold owned. simpl.
  set (v' := VportInfo _ _ _ u).
  pose proof (M_concat_update (fun v => u_objs (v_u v)) (vports s) i v v' Hv) as Hm. simpl in Hm.
  unfold vports_objs. multiset_solver.
Qed.

Lemma owned_cache_set k r c old new s s' :
  cache_get k r c s = Ok old -> cache_set k r c new s = Ok s' -> owned s' ⊎ M old = owned s ⊎ M new.
Proof.
  unfold cache_get, cache_set. intros (row & Hr & Hc)%res_bind_Ok. rewrite Hr. bind. intros [= <-].
  pose proof (M_concat_update (@concat Z) (get_caches k s) r row (update row c new) Hr) as H1.
  pose proof (M_concat_update id row c old new Hc) as H2. rewrite !list_fmap_id in H2. simpl in H2.
  unfold owned, caches_objs. destruct k; simpl in *; multiset_solver.
Qed.

(** *** Well-formedness under updates *)

Lemma wf_set_vstats n lcore x s : vst_wf n lcore s -> stats_wf n x -> vst_wf n lcore (set_vstats x s).
Proof. intros [] Hx. by split. Qed.

Lemma wf_set_vmem n lcore x s : vst_wf n lcore s -> vst_wf n lcore (set_vmem x s).
Proof. intros []. by split. Qed.

Lemma wf_set_drivers n lcore x s : vst_wf n lcore s -> vst_wf n lcore (set_drivers x s).
Proof. intros []. by split. Qed.

Lemma wf_set_prev_tsc n lcore x s : vst_wf n lcore s -> zlen x = MAX_PHYPORTS -> vst_wf n lcore (set_prev_tsc x s).
Proof. intros [] Hx. by split. Qed.

(** Replacing a union keeps the invariant when it keeps what the position and
    the type require. *)
Lemma wf_set_u n lcore i u v s :
  vst_wf n lcore s -> index (vports s) i = Ok v ->
  vport_ok (cfg s) i (VportInfo (v_type v) (v_name v) (v_enabled v) u) ->
  exists s', set_u i u s = Ok s' /\ vst_wf n lcore s'.
Proof.
  intros [H1 H2 H3 H4 H5 H6 H7 H8 H9 H10] Hv Hok. unfold set_u. rewrite Hv. bind. eexists. split; [done|].
  split; try done; simpl.
  - by rewrite zlen_update.
  - intros j w Hw. pose proof (index_bound _ _ _ Hv). destruct (decide (j = i)) as [->|Hne].
    + rewrite index_update_eq in Hw by done. by injection Hw as <-.
    + rewrite index_update_ne in Hw by lia. by apply H3.
Qed.

Lemma cache_get_ok n lcore k s r col :
  vst_wf n lcore s -> cache_row k lcore s = Ok r -> 0 <= col < cache_cols k (cfg s) ->
  exists c, cache_get k r col s = Ok c /\ zlen c <= LOCAL_MBUF_CACHE_SIZE.
Proof.
  intros Hwf Hr Hcol. destruct (w_row _ _ _ Hwf k) as (r' & Hr' & Hb); [lia|].
  rewrite Hr in Hr'. injection Hr' as <-. destruct (index_ok _ _ Hb) as [row Erow].
  pose proof (w_cols _ _ _ Hwf k) as Hc. pose proof (w_small _ _ _ Hwf k) as Hs.
  apply index_Ok in Erow as [Hr0 Erow].
  pose proof (Forall_lookup_1 _ _ _ _ Hc Erow) as Hz. pose proof (Forall_lookup_1 _ _ _ _ Hs Erow) as Hsm.
  cbv beta in Hz. destruct (index_ok row col) as [c Ec]; [by rewrite Hz|].
  exists c. unfold cache_get. rewrite (proj2 (index_Ok _ _ _) (conj Hr0 Erow)). bind. split; [done|].
  apply index_Ok in Ec as [_ Ec]. by apply (Forall_lookup_1 _ _ _ _ Hsm Ec).
Qed.

Lemma wf_cache_set n lcore k r col old new s :
  vst_wf n lcore s -> cache_get k r col s = Ok old -> zlen new <= LOCAL_MBUF_CACHE_SIZE ->
  exists s', cache_set k r col new s = Ok s' /\ vst_wf n lcore s'.
Proof.
  intros [H1 H2 H3 H4 H5 H6 H7 H8 H9 H10] (row & Hrow & Hcol)%res_bind_Ok Hnew. unfold cache_set. rewrite Hrow. bind.
  eexists. split; [done|]. pose proof (index_Ok (get_caches k s) r row) as [Hi _]. destruct (Hi Hrow) as [_ Hl].
  assert (Forall (fun row => zlen row = cache_cols k (cfg s)) (update (get_caches k s) r (update row col new))) as Hc.
  { apply Forall_insert; [apply H8|]. rewrite zlen_update. by apply (Forall_lookup_1 _ _ _ _ (H8 k) Hl). }
  assert (Forall (Forall (fun c => zlen c <= LOCAL_MBUF_CACHE_SIZE)) (update (get_caches k s) r (update row col new))) as Hs.
  { apply Forall_insert; [apply H9|]. apply Forall_insert; [|done]. by apply (Forall_lookup_1 _ _ _ _ (H9 k) Hl). }
  split; try done; simpl.
  - intros k' Hk'. destruct (H6 k' Hk') as (r' & Hr' & Hb). exists r'. split; [by destruct k'|].
    destruct k, k'; simpl in *; by rewrite ?zlen_update.
  - intros k'. destruct k, k'; simpl; try done; [apply (H8 CPort)|apply (H8 CVhost)|apply (H8 CClient)|apply (H8 CVhost)|apply (H8 CClient)|apply (H8 CPort)].
  - intros k'. destruct k, k'; simpl; try done; [apply (H9 CPort)|apply (H9 CVhost)|apply (H9 CClient)|apply (H9 CVhost)|apply (H9 CClient)|apply (H9 CPort)].
Qed.

(** One cache replaced. *)
Definition cupd (cs : caches) (r col : Z) (c : list Z) : caches :=
  match index cs r with Ok row => update cs r (update row col c) | Err _ => cs end.

Lemma cache_set_cupd k r col c s old :
  cache_get k r col s = Ok old -> cache_set k r col c s = Ok (set_caches k (cupd (get_caches k s) r col c) s).
Proof. unfold cache_get, cache_set, cupd. by intros (row & -> & _)%res_bind_Ok. Qed.

Lemma cupd_cupd cs r col a b : cupd (cupd cs r col a) r col b = cupd cs r col b.
Proof.
  unfold cupd. destruct (index cs r) as [row|] eqn:E; [|by rewrite E].
  pose proof (index_bound _ _ _ E). rewrite index_update_eq by done. unfold update. by rewrite !list_insert_insert_eq.
Qed.

Lemma cache_get_set k r col c s old :
  cache_get k r col s = Ok old -> cache_get k r col (set_caches k (cupd (get_caches k s) r col c) s) = Ok c.
Proof.
  unfold cache_get, cupd. intros (row & E & Hc)%res_bind_Ok. rewrite E.
  pose proof (index_bound _ _ _ E). pose proof (index_bound _ _ _ Hc).
  destruct k; simpl in *; rewrite index_update_eq by done; bind; by rewrite index_update_eq.
Qed.

Lemma small_cupd cs r col c :
  Forall (Forall (fun c => zlen c < LOCAL_MBUF_CACHE_SIZE)) cs -> zlen c < LOCAL_MBUF_CACHE_SIZE ->
  Forall (Forall (fun c => zlen c < LOCAL_MBUF_CACHE_SIZE)) (cupd cs r col c).
Proof.
  intros Hs Hc. unfold cupd. destruct (index cs r) as [row|] eqn:E; [|done].
  apply index_Ok in E as [_ E]. apply Forall_insert; [done|]. apply Forall_insert; [|done].
  by apply (Forall_lookup_1 _ _ _ _ Hs E).
Qed.

Lemma small_get k r col s c : small s -> cache_get k r col s = Ok c -> zlen c < LOCAL_MBUF_CACHE_SIZE.
Proof.
  intros Hs (row & [_ E]%index_Ok & [_ Hc]%index_Ok)%res_bind_Ok.
  pose proof (Forall_lookup_1 _ _ _ _ (Hs k) E) as Hrow. by apply (Forall_lookup_1 _ _ _ _ Hrow Hc).
Qed.

(** *** Statistics and freeing in the state *)

Lemma st_vport_inc_ok n lcore c v inc s :
  vst_wf n lcore s -> 0 <= v < MAX_VPORTS ->
  exists x, st_vport_inc c lcore v inc s = Ok (set_vstats x s) /\ vst_wf n lcore (set_vstats x s).
Proof.
  intros Hwf Hv.
  destruct (vport_increment_total n c lcore v inc (vstats s) (w_stats _ _ _ Hwf) (proj1 (w_lcore _ _ _ Hwf)) Hv)
    as (x & E & Hx).
  exists x. unfold st_vport_inc. rewrite E. bind. split; [done|]. by apply wf_set_vstats.
Qed.

Lemma st_vswitch_tx_drop_ok n lcore inc s :
  vst_wf n lcore s ->
  exists x, st_vswitch_tx_drop lcore inc s = Ok (set_vstats x s) /\ vst_wf n lcore (set_vstats x s).
Proof.
  intros Hwf. destruct (w_stats _ _ _ Hwf) as (H1 & H2 & H3).
  destruct (index_ok (vswitch_stats (vstats s)) lcore) as [x Ex]; [rewrite H3; apply (w_lcore _ _ _ Hwf)|].
  unfold st_vswitch_tx_drop, stats_vswitch_tx_drop_increment. rewrite Ex. bind. bind. eexists. split; [done|].
  apply wf_set_vstats; [done|]. split; [done|]. split; [done|]. simpl. by rewrite zlen_update.
Qed.

Lemma st_free_all_ok n lcore ps s Y :
  vst_wf n lcore s -> owns (vmem s) (M ps ⊎ Y) ->
  exists m, st_free_all ps s = Ok (set_vmem m s) /\ vst_wf n lcore (set_vmem m s) /\ owns m Y /\ keeps Y (vmem s) m.
Proof.
  intros Hwf Ho. destruct (owns_free_all ps (vmem s) Y Ho) as (m & E & Hm & Hk).
  exists m. unfold st_free_all. rewrite E. bind. split; [done|]. split; [by apply wf_set_vmem|done].
Qed.

Lemma vport_ok_client c i v r t f r' t' f' :
  vport_ok c i v -> v_u v = U_client r t f ->
  vport_ok c i (VportInfo (v_type v) (v_name v) (v_enabled v) (U_client r' t' f')).
Proof.
  intros [H1 H2 H3 H4] Hu. split; simpl.
  - intros _. by exists r', t', f'.
  - intros Hr. destruct (H2 Hr) as (? & ? & ? & _). congruence.
  - intros Hr. destruct (H3 Hr) as (? & ? & ? & _). congruence.
  - destruct (v_type v); try done; [destruct H4 as (? & ? & ?)|destruct H4 as (? & ?)]; congruence.
Qed.

Lemma vport_ok_phy c i v q j q' :
  vport_ok c i v -> v_u v = U_phy q j ->
  vport_ok c i (VportInfo (v_type v) (v_name v) (v_enabled v) (U_phy q' j)).
Proof.
  intros [H1 H2 H3 H4] Hu. split; simpl.
  - intros Hr. destruct (H1 Hr) as (? & ? & ? & ?). congruence.
  - intros Hr. destruct (H2 Hr) as (? & ? & ? & ?). exists q', j. split; [done|]. congruence.
  - intros Hr. destruct (H3 Hr) as (? & ? & ? & _). congruence.
  - destruct (v_type v); try done; [destruct H4 as (? & ? & ?)|destruct H4 as (? & ?)]; congruence.
Qed.

Lemma vport_ok_vhost c i v d j d' :
  vport_ok c i v -> v_u v = U_vhost d j -> match d' with Some d' => dev_ok d' | None => True end ->
  vport_ok c i (VportInfo (v_type v) (v_name v) (v_enabled v) (U_vhost d' j)).
Proof.
  intros [H1 H2 H3 H4] Hu Hd. split; simpl.
  - intros Hr. destruct (H1 Hr) as (? & ? & ? & ?). congruence.
  - intros Hr. destruct (H2 Hr) as (? & ? & ? & _). congruence.
  - intros _. by exists d', j.
  - destruct (v_type v); try done; [destruct H4 as (? & ? & ?)|destruct H4 as (? & ?)]; congruence.
Qed.

(** The caches after one of them was emptied. *)
Definition flushed (k : ckind) (r col : Z) s s' : Prop :=
  (forall k', get_caches k' s' = if decide (k' = k) then cupd (get_caches k s) r col [] else get_caches k' s) /\
  lcore_map s' = lcore_map s /\ cfg s' = cfg s.

Lemma flushed_small k r col c s s' s0 :
  small s0 -> flushed k r col s s' ->
  (forall k', get_caches k' s = if decide (k' = k) then cupd (get_caches k s0) r col c else get_caches k' s0) ->
  small s'.
Proof.
  intros Hs (Hf & _) H0 k'. rewrite Hf. destruct (decide (k' = k)) as [->|Hne].
  - rewrite H0, decide_True by done. rewrite cupd_cupd. apply small_cupd; [apply Hs|done].
  - rewrite H0, decide_False by done. apply Hs.
Qed.

Lemma get_set_u {A} (f : vport_union ring dev -> res A) i u s s' v :
  index (vports s) i = Ok v -> set_u i u s = Ok s' ->
  (w ← index (vports s') i; f (v_u w)) = f u.
Proof.
  intros Hv. pose proof (index_bound _ _ _ Hv). unfold set_u. rewrite Hv. bind. intros [= <-]. simpl.
  rewrite index_update_eq by done. by bind.
Qed.

(** Only statistics and memory differ. *)
Definition quiet s s' : Prop := s' = set_vstats (vstats s') (set_vmem (vmem s') s).

Lemma quiet_refl s : quiet s s.
Proof. by destruct s. Qed.

Lemma quiet_stats x s : quiet s (set_vstats x s).
Proof. by destruct s. Qed.

Lemma quiet_mem m s : quiet s (set_vmem m s).
Proof. by destruct s. Qed.

Lemma quiet_trans s1 s2 s3 : quiet s1 s2 -> quiet s2 s3 -> quiet s1 s3.
Proof. unfold quiet. intros -> ->. by destruct s1. Qed.

Lemma quiet_owned s s' : quiet s s' -> owned s' = owned s.
Proof. by intros ->. Qed.

Lemma quiet_caches s s' k : quiet s s' -> get_caches k s' = get_caches k s.
Proof. intros ->. by destruct k. Qed.

Lemma quiet_get s s' k r col : quiet s s' -> cache_get k r col s' = cache_get k r col s.
Proof. intros Hq. unfold cache_get. by rewrite (quiet_caches _ _ _ Hq). Qed.

Lemma quiet_rest s s' :
  quiet s s' -> vports s' = vports s /\ lcore_map s' = lcore_map s /\ cfg s' = cfg s /\ drivers s' = drivers s /\
    prev_tsc s' = prev_tsc s.
Proof. by intros ->. Qed.

(** Freeing what a ring did not take, and counting it. *)
Lemma drop_part_ok n lcore ct v tx_count c s Y :
  vst_wf n lcore s -> 0 <= v < MAX_VPORTS -> 0 <= tx_count ->
  owns (vmem s) (M (drop (Z.to_nat tx_count) c) ⊎ Y) ->
  exists s', (if tx_count <? zlen c then
                s ← st_free_all (drop (Z.to_nat tx_count) c) s;
                s ← st_vswitch_tx_drop lcore (u8 (zlen c - tx_count)) s;
                st_vport_inc ct lcore v (u8 (zlen c - tx_count)) s
              else Ok s) = Ok s' /\ vst_wf n lcore s' /\ owns (vmem s') Y /\ quiet s s' /\ keeps Y (vmem s) (vmem s').
Proof.
  intros Hwf Hv Hn Ho. destruct (Z.ltb_spec tx_count (zlen c)).
  - destruct (st_free_all_ok n lcore _ s Y Hwf Ho) as (m & -> & Hwf1 & Ho1 & K1). bind.
    destruct (st_vswitch_tx_drop_ok n lcore (u8 (zlen c - tx_count)) _ Hwf1) as (x & -> & Hwf2). bind.
    destruct (st_vport_inc_ok n lcore ct v (u8 (zlen c - tx_count)) _ Hwf2 Hv) as (x' & -> & Hwf3).
    eexists. split; [done|]. split; [done|]. split; [done|]. split; [|done].
    eapply quiet_trans; [apply quiet_mem|]. eapply quiet_trans; apply quiet_stats.
  - exists s. split; [done|]. split; [done|]. split; [|split; [apply quiet_refl|done]].
    rewrite drop_ge in Ho by (unfold zlen in *; lia). rewrite M_nil in Ho. eapply owns_eq; [done|]. multiset_solver.
Qed.

(** Emptying the cache at the end of a flush. *)
Lemma flush_end k n lcore r col c s s1 X Y :
  vst_wf n lcore s1 -> cache_get k r col s = Ok c ->
  (forall k', get_caches k' s1 = get_caches k' s) -> lcore_map s1 = lcore_map s -> cfg s1 = cfg s ->
  owns (vmem s1) Y -> owned s1 ⊎ X = M c ⊎ Y ->
  exists s', cache_set k r col [] s1 = Ok s' /\ sinv n lcore s' X /\ flushed k r col s s' /\
    s' = set_caches k (cupd (get_caches k s1) r col []) s1.
Proof.
  intros Hwf Hc Hcs Hmap Hcfg Ho Heq.
  assert (cache_get k r col s1 = Ok c) as Hc1 by (unfold cache_get in *; by rewrite Hcs).
  destruct (wf_cache_set n lcore k r col c [] s1 Hwf Hc1) as (s' & E & Hwf'); [done|].
  pose proof (cache_set_cupd k r col [] s1 c Hc1) as E'. rewrite E in E'. injection E' as Hs'.
  exists s'. split; [done|]. split; [|split; [|done]].
  - split; [done|]. pose proof (owned_cache_set _ _ _ _ _ _ _ Hc1 E) as Hown. rewrite M_nil in Hown.
    rewrite Hs'. destruct Ho as [Hm1 Hm2]. split; [done|]. eapply owns_eq; [split; [exact Hm1|exact Hm2]|].
    rewrite Hs' in Hown. multiset_solver.
  - rewrite Hs'. split; [|done]. intros k'. rewrite <- (Hcs k), <- (Hcs k'). by destruct k, k'.
Qed.

(** The accounts of a flush: [O] before, [O1] with the ring extended by [T],
    [O0] with the cache [C] emptied, of which [D] is freed. *)
Lemma flush_accounts (O O1 O0 R R1 C T D X : gmultiset Z) :
  O1 ⊎ R = O ⊎ R1 -> R1 = R ⊎ T -> O0 ⊎ C = O -> C = T ⊎ D ->
  O ⊎ X = D ⊎ (O0 ⊎ T ⊎ X) /\ O1 ⊎ X = C ⊎ (O0 ⊎ T ⊎ X).
Proof. intros H1 H2 H3 H4. split; multiset_solver. Qed.

Lemma cache_empty_owned k r col c s :
  cache_get k r col s = Ok c ->
  owned (set_caches k (cupd (get_caches k s) r col []) s) ⊎ M c = owned s.
Proof.
  intros Hc. rewrite (owned_cache_set k r col c [] s _ Hc (cache_set_cupd _ _ _ _ _ _ Hc)).
  rewrite M_nil. apply (right_id_L _ _).
Qed.

Lemma set_u_frame i u s s' :
  set_u i u s = Ok s' -> vmem s' = vmem s /\ (forall k', get_caches k' s' = get_caches k' s) /\
    lcore_map s' = lcore_map s /\ cfg s' = cfg s /\ drivers s' = drivers s /\ prev_tsc s' = prev_tsc s.
Proof. intros (v & _ & [= <-])%res_bind_Ok. split; [done|]. split; [by intros []|done]. Qed.

Lemma flush_client_ok n lcore lc id s X :
  sinv n lcore s X -> CLIENT1 <= id < CLIENT1 + num_clients (cfg s) -> index (lcore_map s) lcore = Ok lc ->
  exists s' c r t f, flush_client_port_cache lcore id s = Ok s' /\ sinv n lcore s' X /\
    flushed CClient lc (id - CLIENT1) s s' /\
    cache_get CClient lc (id - CLIENT1) s = Ok c /\ get_client id s = Ok (r, t, f) /\
    get_client id s' = Ok (snd (rte_ring_enqueue_burst c r), t, f) /\ keeps X (vmem s) (vmem s').
Proof.
  intros [Hwf Ho] Hid Hlc. pose proof (w_cfg _ _ _ Hwf) as Hcfg. unfold cfg_ok, CLIENT1, MAX_CLIENTS in *.
  assert (u32 (id - 1) = id - 1) as Hu by (apply wrap_small; unfold is_u; lia).
  destruct (cache_get_ok n lcore CClient s lc (id - 1) Hwf Hlc) as (c & Hc & Hlen); [simpl; lia|].
  destruct (index_ok (vports s) id) as [v Hv]; [rewrite (w_vports _ _ _ Hwf); unfold MAX_VPORTS; lia|].
  pose proof (w_ok _ _ _ Hwf _ _ Hv) as Hok. destruct (vo_client _ _ _ Hok) as (r & t & f & Hvu); [unfold CLIENT1; lia|].
  unfold flush_client_port_cache, CLIENT1. rewrite Hlc. bind. rewrite Hu, Hc. bind.
  assert (get_client id s = Ok (r, t, f)) as Hg by (unfold get_client; rewrite Hv; bind; by rewrite Hvu).
  rewrite Hg. bind. destruct (rte_ring_enqueue_burst c r) as [cnt r'] eqn:Er.
  destruct (ring_enqueue_burst_spec _ _ _ _ Er) as (Hcap & Hcnt & Hobjs). pose proof (ring_count_cap r).
  destruct (wf_set_u n lcore id (U_client r' t f) v s Hwf Hv) as (s1 & E1 & Hwf1); [by eapply vport_ok_client|].
  rewrite E1. bind. pose proof (owned_set_u _ _ _ _ _ Hv E1) as Hown. rewrite Hvu in Hown. simpl in Hown.
  rewrite Hobjs, !M_app in Hown.
  set (O0 := owned (set_caches CClient (cupd (get_caches CClient s) lc (id - 1) []) s)).
  destruct (flush_accounts (owned s) (owned s1) O0 _ _ (M c) (M (take (Z.to_nat cnt) c)) (M (drop (Z.to_nat cnt) c)) X Hown)
    as [Hacc1 Hacc2]; [clear; multiset_solver|by apply cache_empty_owned|by rewrite <- M_app, take_drop|].
  destruct (set_u_frame _ _ _ _ E1) as (Hm1 & Hcs1 & Hmap1 & Hcfg1 & _).
  set (Y := O0 ⊎ M (take (Z.to_nat cnt) c) ⊎ X) in *.
  destruct (drop_part_ok n lcore C_rx_drop id cnt c s1 Y Hwf1) as (s2 & -> & Hwf2 & Ho2 & Hq2 & K2);
    [unfold MAX_VPORTS; lia|unfold zlen in *; lia|rewrite Hm1; by eapply owns_eq|].
  bind. destruct (st_vport_inc_ok n lcore C_rx id cnt s2 Hwf2) as (x & -> & Hwf3); [unfold MAX_VPORTS; lia|]. bind.
  destruct (quiet_rest _ _ (quiet_trans _ _ _ Hq2 (quiet_stats x s2))) as (Q1 & Q2 & Q3 & Q4 & _).
  destruct (flush_end CClient n lcore lc (id - 1) c s (set_vstats x s2) X Y Hwf3 Hc) as (s' & E & Hinv & Hfl & Hs').
  - intros k'. rewrite <- Hcs1. apply (quiet_caches _ _ k' (quiet_trans _ _ _ Hq2 (quiet_stats x s2))).
  - by rewrite Q2.
  - by rewrite Q3.
  - done.
  - rewrite (quiet_owned _ _ (quiet_trans _ _ _ Hq2 (quiet_stats x s2))). done.
  - exists s', c, r, t, f. do 5 (split; [done|]). split; [|rewrite Hs', <- Hm1; by eapply keeps_mono].
    rewrite Hs'. unfold get_client. simpl in *. rewrite Q1.
    rewrite (get_set_u (fun u => match u with U_client r t f => Ok (r, t, f) | _ => Err NullDeref end) _ _ _ _ _ Hv E1).
    by rewrite Er.
Qed.

Lemma flush_phy_ok n lcore lc id s X :
  sinv n lcore s X -> PHYPORT0 <= id < PHYPORT0 + num_phy_ports (cfg s) -> index (lcore_map s) lcore = Ok lc ->
  exists s' c q i, flush_phy_port_cache lcore id s = Ok s' /\ sinv n lcore s' X /\
    flushed CPort lc (id - PHYPORT0) s s' /\
    cache_get CPort lc (id - PHYPORT0) s = Ok c /\ get_phy id s = Ok (q, i) /\
    get_phy id s' = Ok (snd (rte_ring_enqueue_burst c q), i) /\ keeps X (vmem s) (vmem s').
Proof.
  intros [Hwf Ho] Hid Hlc. pose proof (w_cfg _ _ _ Hwf) as Hcfg. unfold cfg_ok, PHYPORT0, MAX_PHYPORTS in *.
  assert (u8 (id - 16) = id - 16) as Hu by (apply wrap_small; unfold is_u; lia).
  destruct (cache_get_ok n lcore CPort s lc (id - 16) Hwf Hlc) as (c & Hc & Hlen); [simpl; lia|].
  destruct (index_ok (vports s) id) as [v Hv]; [rewrite (w_vports _ _ _ Hwf); unfold MAX_VPORTS; lia|].
  pose proof (w_ok _ _ _ Hwf _ _ Hv) as Hok. destruct (vo_phy _ _ _ Hok) as (q & i & Hvu & Hi); [unfold PHYPORT0; lia|].
  unfold flush_phy_port_cache, PHYPORT0. rewrite Hlc. bind. rewrite Hu, Hc. bind.
  assert (get_phy id s = Ok (q, i)) as Hg by (unfold get_phy; rewrite Hv; bind; by rewrite Hvu).
  rewrite Hg. bind. destruct (rte_ring_enqueue_burst c q) as [cnt q'] eqn:Er.
  destruct (ring_enqueue_burst_spec _ _ _ _ Er) as (Hcap & Hcnt & Hobjs). pose proof (ring_count_cap q).
  destruct (wf_set_u n lcore id (U_phy q' i) v s Hwf Hv) as (s1 & E1 & Hwf1); [by eapply vport_ok_phy|].
  rewrite E1. bind. pose proof (owned_set_u _ _ _ _ _ Hv E1) as Hown. rewrite Hvu in Hown. simpl in Hown.
  rewrite Hobjs, !M_app in Hown.
  set (O0 := owned (set_caches CPort (cupd (get_caches CPort s) lc (id - 16) []) s)).
  destruct (flush_accounts (owned s) (owned s1) O0 _ _ (M c) (M (take (Z.to_nat cnt) c)) (M (drop (Z.to_nat cnt) c)) X Hown)
    as [Hacc1 Hacc2]; [done|by apply cache_empty_owned|by rewrite <- M_app, take_drop|].
  destruct (set_u_frame _ _ _ _ E1) as (Hm1 & Hcs1 & Hmap1 & Hcfg1 & _).
  set (Y := O0 ⊎ M (take (Z.to_nat cnt) c) ⊎ X) in *.
  destruct (drop_part_ok n lcore C_tx_drop id cnt c s1 Y Hwf1) as (s2 & -> & Hwf2 & Ho2 & Hq2 & K2);
    [unfold MAX_VPORTS; lia|unfold zlen in *; lia|rewrite Hm1; by eapply owns_eq|].
  bind. destruct (quiet_rest _ _ Hq2) as (Q1 & Q2 & Q3 & Q4 & _).
  destruct (flush_end CPort n lcore lc (id - 16) c s s2 X Y Hwf2 Hc) as (s' & E & Hinv & Hfl & Hs').
  - intros k'. rewrite <- Hcs1. apply (quiet_caches _ _ k' Hq2).
  - by rewrite Q2.
  - by rewrite Q3.
  - done.
  - by rewrite (quiet_owned _ _ Hq2).
  - exists s', c, q, i. do 5 (split; [done|]). split; [|rewrite Hs', <- Hm1; by eapply keeps_mono].
    rewrite Hs'. unfold get_phy. simpl in *. rewrite Q1.
    rewrite (get_set_u (fun u => match u with U_phy q i => Ok (q, i) | _ => Err NullDeref end) _ _ _ _ _ Hv E1).
    by rewrite Er.
Qed.

Lemma cache_live k r col c s X :
  owns (vmem s) (owned s ⊎ X) -> cache_get k r col s = Ok c -> Forall (live (vmem s)) c.
Proof.
  intros Ho Hc. rewrite <- (cache_empty_owned _ _ _ _ _ Hc) in Ho. apply Forall_forall. intros p Hp.
  apply (owns_live _ _ _ Ho). apply gmultiset_elem_of_disj_union. left.
  apply gmultiset_elem_of_disj_union. right. apply elem_of_list_to_set_disj. by apply list_elem_of_In.
Qed.

Lemma flush_vhost_ok n lcore id s X :
  sinv n lcore s X -> VHOST0 <= id < VHOST0 + num_vhost (cfg s) ->
  exists s', flush_vhost_dev_port_cache lcore id s = Ok s' /\ sinv n lcore s' X /\
    flushed CVhost lcore (id - VHOST0) s s' /\ keeps X (vmem s) (vmem s').
Proof.
  intros [Hwf Ho] Hid. pose proof (w_cfg _ _ _ Hwf) as Hcfg. unfold cfg_ok, VHOST0, MAX_VHOST_PORTS in *.
  assert (u32 (id - 80) = id - 80) as Hu by (apply wrap_small; unfold is_u; lia).
  assert (0 <= id < MAX_VPORTS) as Hid' by (unfold MAX_VPORTS; lia).
  destruct (cache_get_ok n lcore CVhost s lcore (id - 80) Hwf eq_refl) as (c & Hc & Hlen); [simpl; lia|].
  destruct (index_ok (vports s) id) as [v Hv]; [by rewrite (w_vports _ _ _ Hwf)|].
  pose proof (w_ok _ _ _ Hwf _ _ Hv) as Hok. destruct (vo_vhost _ _ _ Hok) as (d & i & Hvu & Hd); [unfold VHOST0; lia|].
  unfold flush_vhost_dev_port_cache, VHOST0. rewrite Hu, Hc. bind.
  assert (get_vhost id s = Ok (d, i)) as Hg by (unfold get_vhost; rewrite Hv; bind; by rewrite Hvu).
  rewrite Hg. bind.
  set (O0 := owned (set_caches CVhost (cupd (get_caches CVhost s) lcore (id - 80) []) s)).
  pose proof (cache_empty_owned _ _ _ _ _ Hc) as Hown. fold O0 in Hown.
  match goal with |- context [?m ≫= _] =>
    assert (exists s1, m = Ok s1 /\ vst_wf n lcore s1 /\ vmem s1 = vmem s /\ owned s1 = owned s /\
      (forall k', get_caches k' s1 = get_caches k' s) /\ lcore_map s1 = lcore_map s /\ cfg s1 = cfg s)
      as (s1 & -> & Hwf1 & Hm1 & Ho1 & Hcs1 & Hmap1 & Hcfg1) end.
  { destruct d as [d|].
    - destruct (vhost_enqueue_spec d c (vmem s) Hd (proj1 Ho) (cache_live _ _ _ _ _ _ Ho Hc)) as (cnt & d' & -> & Hcnt & Hd').
      { unfold PKT_BURST_SIZE, LOCAL_MBUF_CACHE_SIZE in *. lia. }
      bind. destruct (wf_set_u n lcore id (U_vhost (Some d') i) v s Hwf Hv) as (s1 & E1 & Hwf1); [by eapply vport_ok_vhost|].
      rewrite E1. bind. destruct (set_u_frame _ _ _ _ E1) as (F1 & F2 & F3 & F4 & _).
      pose proof (owned_set_u _ _ _ _ _ Hv E1) as Hos. rewrite Hvu in Hos. simpl in Hos.
      assert (exists s2, (if cnt <? zlen c then
                 s ← st_vswitch_tx_drop lcore (u8 (zlen c - cnt)) s1;
                 st_vport_inc C_rx_drop lcore id (u8 (zlen c - cnt)) s
               else Ok s1) = Ok s2 /\ vst_wf n lcore s2 /\ vmem s2 = vmem s1 /\ quiet s1 s2) as (s2 & -> & Hwf2 & Hm2 & Hq2).
      { destruct (cnt <? zlen c); [|exists s1; split; [done|]; split; [done|]; split; [done|apply quiet_refl]].
        destruct (st_vswitch_tx_drop_ok n lcore (u8 (zlen c - cnt)) s1 Hwf1) as (x & -> & Hwfx). bind.
        destruct (st_vport_inc_ok n lcore C_rx_drop id (u8 (zlen c - cnt)) _ Hwfx Hid') as (x' & -> & Hwfx').
        eexists. split; [done|]. split; [done|]. split; [done|]. eapply quiet_trans; apply quiet_stats. }
      bind. destruct (st_vport_inc_ok n lcore C_rx id cnt s2 Hwf2 Hid') as (x & -> & Hwf3).
      eexists. split; [done|]. split; [done|]. destruct (quiet_rest _ _ Hq2) as (Q1 & Q2 & Q3 & Q4 & _).
      split; [simpl; congruence|]. split.
      + transitivity (owned s2); [done|]. rewrite (quiet_owned _ _ Hq2). clear -Hos. multiset_solver.
      + simpl. split; [|split; congruence]. intros k'. rewrite <- F2.
        apply (quiet_caches _ _ k' (quiet_trans _ _ _ Hq2 (quiet_stats x s2))).
    - destruct (st_vswitch_tx_drop_ok n lcore (zlen c) s Hwf) as (x & -> & Hwf1). bind.
      destruct (st_vport_inc_ok n lcore C_rx_drop id (zlen c) _ Hwf1 Hid') as (x' & -> & Hwf2).
      eexists. split; [done|]. split; [done|]. do 2 (split; [done|]). split; [by intros []|done]. }
  bind. destruct (st_free_all_ok n lcore c s1 (O0 ⊎ X) Hwf1) as (m & -> & Hwf2 & Ho2 & K2).
  { rewrite Hm1. eapply owns_eq; [done|]. rewrite <- Hown. clear. multiset_solver. }
  bind. destruct (flush_end CVhost n lcore lcore (id - 80) c s (set_vmem m s1) X (O0 ⊎ X) Hwf2 Hc) as (s' & E & Hinv & Hfl & Hs').
  - intros k'. rewrite <- Hcs1. by destruct k'.
  - done.
  - done.
  - done.
  - transitivity (owned s1 ⊎ X); [done|]. rewrite Ho1, <- Hown. clear. multiset_solver.
  - exists s'. do 3 (split; [done|]). rewrite Hs', <- Hm1. by eapply keeps_mono.
Qed.

(** *** Sending *)

Lemma cache_push_ok n lcore k r col p s X :
  sinv n lcore s ({[+ p +]} ⊎ X) -> small s -> cache_row k lcore s = Ok r -> 0 <= col < cache_cols k (cfg s) ->
  exists c s', cache_get k r col s = Ok c /\ cache_push k r col p s = Ok (zlen c + 1, s') /\
    zlen c < LOCAL_MBUF_CACHE_SIZE /\ sinv n lcore s' X /\
    s' = set_caches k (cupd (get_caches k s) r col (c ++ [p])) s.
Proof.
  intros [Hwf Ho] Hs Hr Hcol. destruct (cache_get_ok n lcore k s r col Hwf Hr Hcol) as (c & Hc & _).
  pose proof (small_get _ _ _ _ _ Hs Hc) as Hlt. exists c. unfold cache_push. rewrite Hc. bind.
  rewrite (proj2 (Z.ltb_lt _ _) Hlt).
  destruct (wf_cache_set n lcore k r col c (c ++ [p]) s Hwf Hc) as (s' & E & Hwf').
  { unfold zlen in *. rewrite length_app. simpl. lia. }
  pose proof (cache_set_cupd k r col (c ++ [p]) s c Hc) as E'. pose proof E as E0. rewrite E in E'. injection E' as Hs'.
  exists s'. rewrite E. bind. do 3 (split; [done|]). split; [|done]. split; [done|].
  pose proof (owned_cache_set _ _ _ _ _ _ _ Hc E0) as Hown. rewrite M_app, M_cons, M_nil in Hown.
  rewrite Hs' at 1. eapply owns_eq; [exact Ho|]. clear -Hown. multiset_solver.
Qed.

(** A cache that was pushed and, when full, flushed. *)
Lemma push_flush_small k r col c s s1 s2 :
  small s -> s1 = set_caches k (cupd (get_caches k s) r col c) s ->
  (flushed k r col s1 s2 \/ (s2 = s1 /\ zlen c < LOCAL_MBUF_CACHE_SIZE)) -> small s2.
Proof.
  intros Hs -> [Hf|[-> Hlt]].
  - eapply flushed_small; [done|done|]. intros k'. by destruct k, k'.
  - intros k'. pose proof (Hs k'). pose proof (Hs k). destruct k, k'; simpl in *; try done; by apply small_cupd.
Qed.

Lemma zlen_snoc {A} (c : list A) p : zlen (c ++ [p]) = zlen c + 1.
Proof. unfold zlen. rewrite length_app. simpl. lia. Qed.

Lemma send_to_port_ok n lcore id p s X :
  sinv n lcore s ({[+ p +]} ⊎ X) -> small s -> PHYPORT0 <= id < PHYPORT0 + num_phy_ports (cfg s) ->
  exists s', send_to_port lcore id p s = Ok (0, s') /\ sinv n lcore s' X /\ small s' /\
    lcore_map s' = lcore_map s /\ cfg s' = cfg s /\ keeps X (vmem s) (vmem s').
Proof.
  intros Hinv Hs Hid. destruct (w_map _ _ _ (proj1 Hinv)) as [lc Hlc].
  pose proof (w_cfg _ _ _ (proj1 Hinv)) as Hcfg. unfold cfg_ok, PHYPORT0, MAX_PHYPORTS in *.
  destruct (cache_push_ok n lcore CPort lc (id - 16) p s X Hinv Hs Hlc) as (c & s1 & Hc & E1 & Hlt & Hinv1 & Hs1); [simpl; lia|].
  unfold send_to_port, PHYPORT0. rewrite Hlc. bind. unfold u32. rewrite wrap_small by (unfold is_u; lia). rewrite E1. bind.
  destruct (Z.eqb_spec (zlen c + 1) LOCAL_MBUF_CACHE_SIZE) as [Heq|Hne].
  - destruct (flush_phy_ok n lcore lc id s1 X Hinv1) as (s2 & _ & _ & _ & -> & Hinv2 & Hfl & _ & _ & _ & K);
      [by subst s1|by subst s1|]. bind.
    exists s2. do 2 (split; [done|]). split; [eapply push_flush_small; [done|done|by left]|].
    destruct Hfl as (_ & -> & ->). by subst s1.
  - bind. exists s1. do 2 (split; [done|]). split; [|by subst s1].
    eapply push_flush_small; [done|done|]. right. rewrite zlen_snoc. split; [done|lia].
Qed.

Lemma send_to_vhost_ok n lcore id p s X :
  sinv n lcore s ({[+ p +]} ⊎ X) -> small s -> VHOST0 <= id < VHOST0 + num_vhost (cfg s) ->
  exists s', send_to_vhost lcore id p s = Ok (0, s') /\ sinv n lcore s' X /\ small s' /\
    lcore_map s' = lcore_map s /\ cfg s' = cfg s /\ keeps X (vmem s) (vmem s').
Proof.
  intros Hinv Hs Hid. pose proof (w_cfg _ _ _ (proj1 Hinv)) as Hcfg. unfold cfg_ok, VHOST0, MAX_VHOST_PORTS in *.
  destruct (cache_push_ok n lcore CVhost lcore (id - 80) p s X Hinv Hs eq_refl) as (c & s1 & Hc & E1 & Hlt & Hinv1 & Hs1); [simpl; lia|].
  unfold send_to_vhost, VHOST0. unfold u32. rewrite wrap_small by (unfold is_u; lia). rewrite E1. bind.
  destruct (Z.eqb_spec (zlen c + 1) LOCAL_MBUF_CACHE_SIZE) as [Heq|Hne].
  - destruct (flush_vhost_ok n lcore id s1 X Hinv1) as (s2 & -> & Hinv2 & Hfl & K); [by subst s1|]. bind.
    exists s2. do 2 (split; [done|]). split; [eapply push_flush_small; [done|done|by left]|].
    destruct Hfl as (_ & -> & ->). by subst s1.
  - bind. exists s1. do 2 (split; [done|]). split; [|by subst s1].
    eapply push_flush_small; [done|done|]. right. rewrite zlen_snoc. split; [done|lia].
Qed.

(** Taking buffers back from a client's free ring. *)
Lemma client_free_ok n lcore id s X :
  sinv n lcore s X -> CLIENT1 <= id < CLIENT1 + num_clients (cfg s) ->
  exists r t f s1 m, get_client id s = Ok (r, t, f) /\
    set_u id (U_client r t (snd (rte_ring_dequeue_burst PKT_BURST_SIZE f))) s = Ok s1 /\
    st_free_all (fst (rte_ring_dequeue_burst PKT_BURST_SIZE f)) s1 = Ok (set_vmem m s1) /\
    sinv n lcore (set_vmem m s1) X /\ keeps X (vmem s) m.
Proof.
  intros [Hwf Ho] Hid. pose proof (w_cfg _ _ _ Hwf) as Hcfg. unfold cfg_ok, MAX_CLIENTS in *.
  destruct (index_ok (vports s) id) as [v Hv]; [rewrite (w_vports _ _ _ Hwf); unfold MAX_VPORTS, CLIENT1 in *; lia|].
  pose proof (w_ok _ _ _ Hwf _ _ Hv) as Hok. destruct (vo_client _ _ _ Hok Hid) as (r & t & f & Hvu).
  destruct (rte_ring_dequeue_burst PKT_BURST_SIZE f) as [ps f'] eqn:Ef.
  destruct (ring_dequeue_burst_spec PKT_BURST_SIZE f ps f' ltac:(done) Ef) as (_ & Hps & Hf').
  destruct (wf_set_u n lcore id (U_client r t f') v s Hwf Hv) as (s1 & E1 & Hwf1); [by eapply vport_ok_client|].
  pose proof (owned_set_u _ _ _ _ _ Hv E1) as Hown. rewrite Hvu in Hown. simpl in Hown.
  rewrite !M_app, Hf' in Hown.
  assert (M (ring_objs f) = M ps ⊎ M (drop (Z.to_nat PKT_BURST_SIZE) (ring_objs f))) as Hsplit.
  { by rewrite Hps, <- M_app, take_drop. }
  destruct (st_free_all_ok n lcore ps s1 (owned s1 ⊎ X) Hwf1) as (m & E2 & Hwf2 & Ho2 & K).
  { destruct (set_u_frame _ _ _ _ E1) as (-> & _). eapply owns_eq; [done|]. clear -Hown Hsplit. multiset_solver. }
  exists r, t, f, s1, m. rewrite Ef. split; [unfold get_client; rewrite Hv; bind; by rewrite Hvu|].
  do 3 (split; [done|]). destruct (set_u_frame _ _ _ _ E1) as (<- & _). by eapply keeps_mono.
Qed.

Lemma send_to_client_ok n lcore id p s X :
  sinv n lcore s ({[+ p +]} ⊎ X) -> small s -> CLIENT1 <= id < CLIENT1 + num_clients (cfg s) ->
  exists s', send_to_client lcore id p s = Ok (0, s') /\ sinv n lcore s' X /\ small s' /\
    lcore_map s' = lcore_map s /\ cfg s' = cfg s /\ keeps X (vmem s) (vmem s').
Proof.
  intros Hinv Hs Hid. destruct (w_map _ _ _ (proj1 Hinv)) as [lc Hlc].
  pose proof (w_cfg _ _ _ (proj1 Hinv)) as Hcfg. unfold cfg_ok, CLIENT1, MAX_CLIENTS in *.
  destruct (cache_push_ok n lcore CClient lc (id - 1) p s X Hinv Hs Hlc) as (c & s1 & Hc & E1 & Hlt & Hinv1 & Hs1); [simpl; lia|].
  unfold send_to_client, CLIENT1. rewrite Hlc. bind. unfold u32. rewrite wrap_small by (unfold is_u; lia). rewrite E1. bind.
  assert (exists s2, (if zlen c + 1 =? LOCAL_MBUF_CACHE_SIZE then flush_client_port_cache lcore id s1 else Ok s1) = Ok s2 /\
    sinv n lcore s2 X /\ small s2 /\ lcore_map s2 = lcore_map s /\ cfg s2 = cfg s /\ keeps X (vmem s) (vmem s2))
    as (s2 & -> & Hinv2 & Hs2 & Hm2 & Hc2 & K2).
  { destruct (Z.eqb_spec (zlen c + 1) LOCAL_MBUF_CACHE_SIZE) as [Heq|Hne].
    - destruct (flush_client_ok n lcore lc id s1 X Hinv1) as (s2 & _ & _ & _ & _ & -> & Hinv2 & Hfl & _ & _ & _ & K);
        [by subst s1|by subst s1|].
      exists s2. do 2 (split; [done|]). split; [eapply push_flush_small; [done|done|by left]|].
      destruct Hfl as (_ & -> & ->). by subst s1.
    - exists s1. do 2 (split; [done|]). split; [|by subst s1].
      eapply push_flush_small; [done|done|]. right. rewrite zlen_snoc. split; [done|lia]. }
  bind. destruct (client_free_ok n lcore id s2 X Hinv2) as (r & t & f & s3 & m & Hg & E3 & E4 & Hinv3 & K3).
  { rewrite Hc2. unfold CLIENT1. lia. }
  rewrite Hg. bind. destruct (rte_ring_dequeue_burst PKT_BURST_SIZE f) as [ps f']. simpl in *.
  rewrite E3. bind. rewrite E4. bind. eexists. split; [done|]. split; [done|].
  destruct (set_u_frame _ _ _ _ E3) as (_ & F2 & F3 & F4 & _).
  split; [|simpl; split; [congruence|split; [congruence|by eapply keeps_trans]]].
  intros k. specialize (Hs2 k). rewrite <- F2 in Hs2. by destruct k.
Qed.

(** The invariant between operations. *)
Definition pinv (n lcore : Z) s (X : gmultiset Z) : Prop := sinv n lcore s X /\ small s.

Definition same_cfg s s' : Prop := lcore_map s' = lcore_map s /\ cfg s' = cfg s.

Lemma same_cfg_trans s1 s2 s3 : same_cfg s1 s2 -> same_cfg s2 s3 -> same_cfg s1 s3.
Proof. intros [] []. split; congruence. Qed.

Lemma quiet_pinv n lcore s s' X :
  small s -> quiet s s' -> vst_wf n lcore s' -> owns (vmem s') (owned s ⊎ X) -> pinv n lcore s' X /\ same_cfg s s'.
Proof.
  intros Hs Hq Hwf Ho. destruct (quiet_rest _ _ Hq) as (_ & ? & ? & _). split; [|done]. split; [split; [done|]|].
  - by rewrite (quiet_owned _ _ Hq).
  - intros k. by rewrite (quiet_caches _ _ _ Hq).
Qed.

(** The driver and memory replaced. *)
Lemma owned_set_drivers d m s :
  owned (set_vmem m (set_drivers d s)) ⊎ M (drv_objs (drivers s)) = owned s ⊎ M (drv_objs d).
Proof. unfold owned. simpl. multiset_solver. Qed.

Lemma small_set_drivers d m s : small s -> small (set_vmem m (set_drivers d s)).
Proof. intros Hs k. specialize (Hs k). by destruct k. Qed.

Lemma st_drop_ok n lcore p s X :
  pinv n lcore s ({[+ p +]} ⊎ X) ->
  exists s', st_free_all [p] s = Ok s' /\ pinv n lcore s' X /\ same_cfg s s' /\ keeps X (vmem s) (vmem s').
Proof.
  intros [[Hwf Ho] Hs]. destruct (st_free_all_ok n lcore [p] s (owned s ⊎ X) Hwf) as (m & -> & Hwf' & Ho' & K).
  { eapply owns_eq; [done|]. rewrite M_cons, M_nil. clear. multiset_solver. }
  eexists. split; [done|]. rewrite (assoc and). split; [|by eapply keeps_mono].
  by apply quiet_pinv; [done|apply quiet_mem|done|].
Qed.

Lemma kni_send_ok n lcore h id p s X :
  pinv n lcore s ({[+ p +]} ⊎ X) -> 0 <= id < MAX_VPORTS ->
  exists s', kni_send h lcore id p s = Ok (0, s') /\ pinv n lcore s' X /\ same_cfg s s' /\ keeps X (vmem s) (vmem s').
Proof.
  intros [[Hwf Ho] Hs] Hid. unfold kni_send.
  destruct (rte_kni_tx_burst h [p] (drivers s) (vmem s)) as [[cnt d] m] eqn:E.
  set (O0 := vports_objs (vports s) ⊎ caches_objs (client_mbuf_cache s) ⊎ caches_objs (port_mbuf_cache s)
    ⊎ caches_objs (vhost_mbuf_cache s)).
  destruct (kni_tx_spec h [p] (drivers s) (vmem s) (O0 ⊎ X) cnt d m) as (Hcnt & Ho' & K); [|done|].
  { eapply owns_eq; [done|]. unfold owned. rewrite M_cons, M_nil. subst O0. clear. multiset_solver. }
  apply keeps_mono in K. set (s1 := set_vmem m (set_drivers d s)).
  assert (vst_wf n lcore s1) as Hwf1 by (by apply wf_set_vmem, wf_set_drivers).
  assert (small s1) as Hs1 by (by apply small_set_drivers).
  assert (owned s1 = O0 ⊎ M (drv_objs d)) as Hown by done.
  destruct (Z.eqb_spec cnt 0) as [->|Hne].
  - destruct (st_drop_ok n lcore p s1 X) as (s2 & -> & [[Hwf2 Ho2] Hs2] & Hc2 & K2).
    { split; [|done]. split; [done|]. rewrite Hown. eapply owns_eq; [exact Ho'|]. simpl. rewrite M_cons, M_nil. clear. multiset_solver. }
    bind. destruct (st_vport_inc_ok n lcore C_rx_drop id INC_BY_1 s2 Hwf2 Hid) as (x & -> & Hwf3). bind.
    destruct (st_vswitch_tx_drop_ok n lcore INC_BY_1 _ Hwf3) as (x' & -> & Hwf4). bind.
    eexists. split; [done|]. destruct Hc2. split; [|split; [done|by eapply keeps_trans]]. split; [done|].
    intros k. specialize (Hs2 k). by destruct k.
  - assert (cnt = 1) as -> by (unfold zlen in Hcnt; simpl in Hcnt; lia).
    destruct (st_vport_inc_ok n lcore C_rx id INC_BY_1 s1 Hwf1 Hid) as (x & -> & Hwf2). bind.
    eexists. split; [done|]. split; [|done]. split; [|intros k; specialize (Hs1 k); by destruct k].
    split; [done|]. eapply owns_eq; [exact Ho'|]. change (owned (set_vstats x s1)) with (owned s1).
    rewrite Hown. simpl. rewrite M_nil. clear. multiset_solver.
Qed.

Lemma send_to_vport_ok n lcore id p s X :
  pinv n lcore s ({[+ p +]} ⊎ X) -> 0 <= id ->
  exists rc s', send_to_vport lcore id p s = Ok (rc, s') /\ pinv n lcore s' X /\ same_cfg s s' /\
    keeps X (vmem s) (vmem s').
Proof.
  intros Hp Hid. unfold send_to_vport.
  destruct (st_drop_ok n lcore p s X Hp) as (sd & Ed & Hdrop & Hcfgd & Kd).
  destruct (Z.leb_spec MAX_VPORTS id) as [Hge|Hlt].
  { rewrite Ed. bind. exists (-1), sd. done. }
  pose proof (proj1 (proj1 Hp)) as Hwf.
  destruct (index_ok (vports s) id) as [v Hv]; [rewrite (w_vports _ _ _ Hwf); lia|]. rewrite Hv. bind.
  pose proof (w_ok _ _ _ Hwf _ _ Hv) as Hok. pose proof (vo_type _ _ _ Hok) as Ht. destruct Hp as [Hinv Hs].
  destruct (v_type v) eqn:Et; try (rewrite Ed; bind; exists (-1), sd; done).
  - destruct (send_to_port_ok n lcore id p s X Hinv Hs Ht) as (s' & E & ? & ? & ? & ? & ?). by exists 0, s'.
  - destruct (send_to_client_ok n lcore id p s X Hinv Hs Ht) as (s' & E & ? & ? & ? & ? & ?). by exists 0, s'.
  - destruct Ht as (names & j & Hu). unfold send_to_kni, get_kni. rewrite Hv. bind. rewrite Hu. bind.
    destruct (kni_send_ok n lcore (KniDev j) id p s X) as (s' & E & ? & ? & ?); [done|lia|]. by exists 0, s'.
  - destruct Ht as (j & Hu). unfold send_to_veth, get_veth. rewrite Hv. bind. rewrite Hu. bind.
    destruct (kni_send_ok n lcore (VethDev j) id p s X) as (s' & E & ? & ? & ?); [done|lia|]. by exists 0, s'.
  - destruct (send_to_vhost_ok n lcore id p s X Hinv Hs Ht) as (s' & E & ? & ? & ? & ? & ?). by exists 0, s'.
Qed.

(** *** Flushing all caches of a core *)

Lemma flushed_pinv n lcore k r col s s' X :
  small s -> sinv n lcore s' X -> flushed k r col s s' -> pinv n lcore s' X /\ same_cfg s s'.
Proof.
  intros Hs Hinv (Hf & ? & ?). split; [|done]. split; [done|]. intros k'. rewrite Hf.
  destruct (decide (k' = k)) as [->|]; [|apply Hs]. apply small_cupd; [apply Hs|done].
Qed.

Lemma flushed_get k r col s s' c j d :
  flushed k r col s s' -> cache_get k r col s = Ok c -> cache_get k r j s = Ok d ->
  cache_get k r j s' = Ok (if decide (j = col) then [] else d).
Proof.
  intros (Hf & _) Hc Hd. unfold cache_get in *. rewrite Hf, decide_True by done. unfold cupd.
  apply res_bind_Ok in Hc as (row & Er & Hc). apply res_bind_Ok in Hd as (row' & Er' & Hd).
  rewrite Er in Er'. injection Er' as <-. rewrite Er.
  pose proof (index_bound _ _ _ Er). pose proof (index_bound _ _ _ Hc).
  rewrite index_update_eq by done. bind. case_decide as Hj.
  - subst j. by apply index_update_eq.
  - rewrite index_update_ne by lia. done.
Qed.

Lemma flush_loop_ok n lcore k row flush base m i s X :
  (forall j s, pinv n lcore s X -> cache_row k lcore s = Ok row -> 0 <= j < cache_cols k (cfg s) ->
     exists s', flush (j + base) s = Ok s' /\ sinv n lcore s' X /\ flushed k row j s s') ->
  pinv n lcore s X -> cache_row k lcore s = Ok row -> 0 <= i -> i + Z.of_nat m = cache_cols k (cfg s) ->
  (forall j, 0 <= j < i -> cache_get k row j s = Ok []) ->
  exists s', flush_loop k row flush base m i s = Ok s' /\ pinv n lcore s' X /\ same_cfg s s' /\
    (forall k', k' <> k -> get_caches k' s' = get_caches k' s) /\
    forall j, 0 <= j < cache_cols k (cfg s) -> cache_get k row j s' = Ok [].
Proof.
  intros Hflush. revert i s. induction m as [|m IH]; intros i s Hp Hrow Hi Hm Hdone; simpl.
  - exists s. do 4 (split; [done|]). intros j Hj. apply Hdone. lia.
  - destruct (cache_get_ok n lcore k s row i (proj1 (proj1 Hp)) Hrow) as (c & Hc & _); [lia|]. rewrite Hc. bind.
    destruct (Z.eqb_spec (zlen c) 0) as [Hz|Hz].
    + bind. apply IH; [done|done|lia|lia|]. intros j Hj. destruct (decide (j = i)) as [->|]; [|apply Hdone; lia].
      rewrite Hc. f_equal. destruct c; [done|]. unfold zlen in Hz. simpl in Hz. lia.
    + destruct (Hflush i s Hp Hrow) as (s1 & -> & Hinv1 & Hfl); [lia|]. bind.
      destruct (flushed_pinv _ _ _ _ _ _ _ _ (proj2 Hp) Hinv1 Hfl) as [Hp1 [Hmap1 Hcfg1]].
      destruct (IH (i + 1) s1) as (s2 & E2 & Hp2 & [Hmap2 Hcfg2] & Hk2 & Hd2).
      * done.
      * destruct k; simpl in *; congruence.
      * lia.
      * rewrite Hcfg1. lia.
      * intros j Hj. destruct (decide (j = i)) as [->|Hji].
        -- rewrite (flushed_get _ _ _ _ _ _ _ _ Hfl Hc Hc). by rewrite decide_True.
        -- rewrite (flushed_get _ _ _ _ _ _ j [] Hfl Hc); [by case_decide|]. apply Hdone. lia.
      * exists s2. split; [done|]. split; [done|]. split; [split; congruence|]. split; [|by rewrite <- Hcfg1].
        intros k' Hk'. rewrite (Hk2 k' Hk'). destruct Hfl as [Hf _]. by rewrite Hf, decide_False.
Qed.

(** All caches of [k] that core [lcore] fills are empty. *)
Definition drained (k : ckind) (lcore : Z) s : Prop :=
  forall r j, cache_row k lcore s = Ok r -> 0 <= j < cache_cols k (cfg s) -> cache_get k r j s = Ok [].

Lemma drained_frame k lcore s s' :
  drained k lcore s -> same_cfg s s' -> get_caches k s' = get_caches k s -> drained k lcore s'.
Proof.
  intros Hd [Hm Hc] Hg r j Hr Hj. unfold cache_get. rewrite Hg. apply (Hd r j).
  - destruct k; simpl in *; congruence.
  - by rewrite <- Hc.
Qed.

Lemma flush_clients_ok n lcore s X :
  pinv n lcore s X ->
  exists s', flush_clients lcore s = Ok s' /\ pinv n lcore s' X /\ same_cfg s s' /\ drained CClient lcore s' /\
    forall k, k <> CClient -> get_caches k s' = get_caches k s.
Proof.
  intros Hp. pose proof (w_cfg _ _ _ (proj1 (proj1 Hp))) as Hc. unfold cfg_ok in Hc.
  destruct (w_map _ _ _ (proj1 (proj1 Hp))) as [lc Hlc]. unfold flush_clients. rewrite Hlc. bind.
  destruct (flush_loop_ok n lcore CClient lc (flush_client_port_cache lcore) CLIENT1
              (Z.to_nat (num_clients (cfg s))) 0 s X) as (s' & E & Hp' & [Hm' Hc'] & Hk & Hd); try done.
  - intros j s1 Hp1 Hr Hj. simpl in *.
    destruct (flush_client_ok n lcore lc (j + CLIENT1) s1 X (proj1 Hp1)) as (s2 & _ & _ & _ & _ & E & ? & Hfl & _);
      [unfold CLIENT1 in *; lia|done|]. exists s2. by replace (j + CLIENT1 - CLIENT1) with j in Hfl by lia.
  - simpl. lia.
  - intros j Hj. lia.
  - exists s'. do 3 (split; [done|]). split; [|done]. intros r j Hr Hj. simpl in *. rewrite Hm', Hlc in Hr. injection Hr as <-.
    apply Hd. by rewrite <- Hc'.
Qed.

Lemma flush_ports_ok n lcore s X :
  pinv n lcore s X ->
  exists s', flush_ports lcore s = Ok s' /\ pinv n lcore s' X /\ same_cfg s s' /\ drained CPort lcore s' /\
    forall k, k <> CPort -> get_caches k s' = get_caches k s.
Proof.
  intros Hp. pose proof (w_cfg _ _ _ (proj1 (proj1 Hp))) as Hc. unfold cfg_ok in Hc.
  destruct (w_map _ _ _ (proj1 (proj1 Hp))) as [lc Hlc]. unfold flush_ports. rewrite Hlc. bind.
  destruct (flush_loop_ok n lcore CPort lc (flush_phy_port_cache lcore) PHYPORT0
              (Z.to_nat (num_phy_ports (cfg s))) 0 s X) as (s' & E & Hp' & [Hm' Hc'] & Hk & Hd); try done.
  - intros j s1 Hp1 Hr Hj. simpl in *.
    destruct (flush_phy_ok n lcore lc (j + PHYPORT0) s1 X (proj1 Hp1)) as (s2 & _ & _ & _ & E & ? & Hfl & _);
      [lia|done|]. exists s2. by replace (j + PHYPORT0 - PHYPORT0) with j in Hfl by lia.
  - simpl. lia.
  - intros j Hj. lia.
  - exists s'. do 3 (split; [done|]). split; [|done]. intros r j Hr Hj. simpl in *. rewrite Hm', Hlc in Hr. injection Hr as <-.
    apply Hd. by rewrite <- Hc'.
Qed.

Lemma flush_vhost_devs_ok n lcore s X :
  pinv n lcore s X ->
  exists s', flush_vhost_devs lcore s = Ok s' /\ pinv n lcore s' X /\ same_cfg s s' /\ drained CVhost lcore s' /\
    forall k, k <> CVhost -> get_caches k s' = get_caches k s.
Proof.
  intros Hp. pose proof (w_cfg _ _ _ (proj1 (proj1 Hp))) as Hc. unfold cfg_ok in Hc.
  unfold flush_vhost_devs. pose proof (w_lcore _ _ _ (proj1 (proj1 Hp))).
  unfold u8. rewrite wrap_small by (unfold is_u; lia).
  destruct (flush_loop_ok n lcore CVhost lcore (flush_vhost_dev_port_cache lcore) VHOST0
              (Z.to_nat (num_vhost (cfg s))) 0 s X) as (s' & E & Hp' & [Hm' Hc'] & Hk & Hd); try done.
  - intros j s1 Hp1 Hr Hj. simpl in *.
    destruct (flush_vhost_ok n lcore (j + VHOST0) s1 X (proj1 Hp1)) as (s2 & E & ? & Hfl & _);
      [lia|]. exists s2. by replace (j + VHOST0 - VHOST0) with j in Hfl by lia.
  - simpl. lia.
  - intros j Hj. lia.
  - exists s'. do 3 (split; [done|]). split; [|done]. intros r j Hr Hj. simpl in *. injection Hr as <-.
    apply Hd. by rewrite <- Hc'.
Qed.

(** *** Receiving *)

Lemma stat_pinv n lcore ct id k s X :
  pinv n lcore s X -> 0 <= id < MAX_VPORTS ->
  exists x, st_vport_inc ct lcore id k s = Ok (set_vstats x s) /\ pinv n lcore (set_vstats x s) X.
Proof.
  intros [[Hwf Ho] Hs] Hid. destruct (st_vport_inc_ok n lcore ct id k s Hwf Hid) as (x & E & Hwf').
  exists x. split; [done|]. split; [done|]. intros c. specialize (Hs c). by destruct c.
Qed.

(** A receive of a driver, counted when [ps] is not empty. *)
Lemma driver_rx_pinv n lcore ct id (s : st) d m ps X k :
  pinv n lcore s X -> 0 <= id < MAX_VPORTS ->
  (forall O, owns (vmem s) (M (drv_objs (drivers s)) ⊎ O) ->
     zlen ps <= k /\ owns m (M (drv_objs d) ⊎ M ps ⊎ O)) ->
  zlen ps <= k /\ exists x, let s1 := set_vmem m (set_drivers d s) in
    pinv n lcore s1 (M ps ⊎ X) /\
    st_vport_inc ct lcore id (zlen ps) s1 = Ok (set_vstats x s1) /\ pinv n lcore (set_vstats x s1) (M ps ⊎ X).
Proof.
  intros [[Hwf Ho] Hs] Hid Hrx.
  set (O0 := vports_objs (vports s) ⊎ caches_objs (client_mbuf_cache s) ⊎ caches_objs (port_mbuf_cache s)
    ⊎ caches_objs (vhost_mbuf_cache s)).
  destruct (Hrx (O0 ⊎ X)) as [Hk Ho'].
  { eapply owns_eq; [exact Ho|]. unfold owned. fold O0. clear. multiset_solver. }
  split; [done|].
  assert (pinv n lcore (set_vmem m (set_drivers d s)) (M ps ⊎ X)) as Hp.
  { split; [|by apply small_set_drivers]. split; [by apply wf_set_vmem, wf_set_drivers|].
    assert (owned (set_vmem m (set_drivers d s)) = O0 ⊎ M (drv_objs d)) as -> by done.
    eapply owns_eq; [exact Ho'|clear; multiset_solver]. }
  destruct (stat_pinv n lcore ct id (zlen ps) _ _ Hp Hid) as (x & E & Hp'). exists x. done.
Qed.

Lemma receive_from_client_ok n lcore id s X :
  pinv n lcore s X -> CLIENT1 <= id < CLIENT1 + num_clients (cfg s) ->
  exists ps s', receive_from_client lcore id s = Ok (ps, s') /\ zlen ps <= PKT_BURST_SIZE /\
    pinv n lcore s' (M ps ⊎ X) /\ same_cfg s s'.
Proof.
  intros [[Hwf Ho] Hs] Hid. pose proof (w_cfg _ _ _ Hwf) as Hcfg. unfold cfg_ok, MAX_CLIENTS in *.
  assert (0 <= id < MAX_VPORTS) as Hid' by (unfold MAX_VPORTS, CLIENT1 in *; lia).
  destruct (index_ok (vports s) id) as [v Hv]; [by rewrite (w_vports _ _ _ Hwf)|].
  pose proof (w_ok _ _ _ Hwf _ _ Hv) as Hok. destruct (vo_client _ _ _ Hok Hid) as (r & t & f & Hvu).
  unfold receive_from_client, get_client. rewrite Hv. bind. rewrite Hvu. bind.
  destruct (rte_ring_dequeue_burst PKT_BURST_SIZE t) as [ps t'] eqn:Et.
  destruct (ring_dequeue_burst_spec PKT_BURST_SIZE t ps t' ltac:(done) Et) as (_ & Hps & Ht').
  destruct (wf_set_u n lcore id (U_client r t' f) v s Hwf Hv) as (s1 & E1 & Hwf1); [by eapply vport_ok_client|].
  rewrite E1. bind. pose proof (owned_set_u _ _ _ _ _ Hv E1) as Hown. rewrite Hvu in Hown. simpl in Hown.
  rewrite !M_app, Ht' in Hown. destruct (set_u_frame _ _ _ _ E1) as (F1 & F2 & F3 & F4 & _).
  assert (M (ring_objs t) = M ps ⊎ M (drop (Z.to_nat PKT_BURST_SIZE) (ring_objs t))) as Hsplit.
  { by rewrite Hps, <- M_app, take_drop. }
  destruct (stat_pinv n lcore C_tx id (zlen ps) s1 (M ps ⊎ X)) as (x & -> & Hp').
  - split; [split; [done|]|intros k; specialize (Hs k); by rewrite F2].
    rewrite F1. eapply owns_eq; [exact Ho|]. clear -Hown Hsplit. multiset_solver.
  - done.
  - bind. exists ps. eexists. split; [done|]. split; [|done].
    rewrite Hps. unfold zlen. rewrite length_take. unfold PKT_BURST_SIZE. lia.
Qed.

Lemma receive_from_vhost_ok n lcore id s X :
  pinv n lcore s X -> VHOST0 <= id < VHOST0 + num_vhost (cfg s) ->
  exists ps s', receive_from_vhost lcore id s = Ok (ps, s') /\ zlen ps <= PKT_BURST_SIZE /\
    pinv n lcore s' (M ps ⊎ X) /\ same_cfg s s'.
Proof.
  intros [[Hwf Ho] Hs] Hid. pose proof (w_cfg _ _ _ Hwf) as Hcfg. unfold cfg_ok, MAX_VHOST_PORTS in *.
  assert (0 <= id < MAX_VPORTS) as Hid' by (unfold MAX_VPORTS, VHOST0 in *; lia).
  destruct (index_ok (vports s) id) as [v Hv]; [by rewrite (w_vports _ _ _ Hwf)|].
  pose proof (w_ok _ _ _ Hwf _ _ Hv) as Hok. destruct (vo_vhost _ _ _ Hok Hid) as (d & i & Hvu & Hd).
  unfold receive_from_vhost, get_vhost. rewrite Hv. bind. rewrite Hvu. bind. destruct d as [d|].
  - destruct (vhost_dequeue_spec d PKT_BURST_SIZE (vmem s) (owned s ⊎ X) Hd Ho) as (ps & d' & m & -> & Hk & Ho' & _ & Hd'); [done|].
    bind. pose proof (wf_set_vmem n lcore m s Hwf) as Hwfm.
    destruct (wf_set_u n lcore id (U_vhost (Some d') i) v (set_vmem m s) Hwfm Hv) as (s1 & E1 & Hwf1); [by eapply vport_ok_vhost|].
    rewrite E1. bind. pose proof (owned_set_u _ _ (v : vport_info ring dev) (set_vmem m s) _ Hv E1) as Hown.
    rewrite Hvu in Hown. simpl in Hown. change (owned (set_vmem m s)) with (owned s) in Hown.
    destruct (set_u_frame _ _ _ _ E1) as (F1 & F2 & F3 & F4 & _).
    destruct (stat_pinv n lcore C_tx id (zlen ps) s1 (M ps ⊎ X)) as (x & -> & Hp').
    + split; [split; [done|]|intros k; specialize (Hs k); rewrite F2; by destruct k].
      rewrite F1. eapply owns_eq; [exact Ho'|]. clear -Hown. multiset_solver.
    + done.
    + bind. exists ps. eexists. done.
  - exists [], s. do 2 (split; [done|]). split; [|done]. rewrite M_nil, (left_id_L ∅ (⊎)). done.
Qed.

Lemma receive_from_vport_ok n lcore id s X :
  pinv n lcore s X -> 0 <= id ->
  exists ps s', receive_from_vport lcore id s = Ok (ps, s') /\ zlen ps <= PKT_BURST_SIZE /\
    pinv n lcore s' (M ps ⊎ X) /\ same_cfg s s'.
Proof.
  intros Hp Hid. unfold receive_from_vport.
  assert (exists ps s', Ok ([], s) = Ok (ps, s') /\ zlen ps <= PKT_BURST_SIZE /\ pinv n lcore s' (M ps ⊎ X) /\ same_cfg s s') as Hnone.
  { exists [], s. do 2 (split; [done|]). split; [|done]. rewrite M_nil. by rewrite (left_id_L ∅ (⊎)). }
  destruct (Z.leb_spec MAX_VPORTS id) as [Hge|Hlt]; [done|]. pose proof (proj1 (proj1 Hp)) as Hwf.
  destruct (index_ok (vports s) id) as [v Hv]; [rewrite (w_vports _ _ _ Hwf); lia|]. rewrite Hv. bind.
  pose proof (w_ok _ _ _ Hwf _ _ Hv) as Hok. pose proof (vo_type _ _ _ Hok) as Ht.
  destruct (v_type v) eqn:Et; try done.
  - destruct (vo_phy _ _ _ Hok Ht) as (q & i & Hu & _). unfold receive_from_port, get_phy. rewrite Hv. bind. rewrite Hu. bind.
    destruct (rte_eth_rx_burst i PKT_BURST_SIZE (drivers s) (vmem s)) as [[ps d] m] eqn:E.
    destruct (driver_rx_pinv n lcore C_rx id s d m ps X PKT_BURST_SIZE Hp) as (Hk & x & Hp1 & E1 & Hp2); [lia| |].
    { intros O HO. edestruct eth_rx_spec as (? & ? & _); [|exact HO|exact E|]; done. }
    destruct (0 <? zlen ps); [rewrite E1|]; bind; by eexists ps, _.
  - by apply receive_from_client_ok.
  - destruct Ht as (names & i & Hu). unfold receive_from_kni, get_kni. rewrite Hv. bind. rewrite Hu. bind.
    destruct (rte_kni_rx_burst (KniDev i) PKT_BURST_SIZE (drivers s) (vmem s)) as [[ps d] m] eqn:E.
    destruct (driver_rx_pinv n lcore C_tx id s d m ps X PKT_BURST_SIZE Hp) as (Hk & x & Hp1 & E1 & Hp2); [lia| |].
    { intros O HO. edestruct kni_rx_spec as (? & ? & _); [|exact HO|exact E|]; done. }
    destruct (0 <? zlen ps); [rewrite E1|]; bind; by eexists ps, _.
  - destruct Ht as (i & Hu). unfold receive_from_veth, get_veth. rewrite Hv. bind. rewrite Hu. bind.
    destruct (rte_kni_rx_burst (VethDev i) PKT_BURST_SIZE (drivers s) (vmem s)) as [[ps d] m] eqn:E.
    destruct (driver_rx_pinv n lcore C_tx id s d m ps X PKT_BURST_SIZE Hp) as (Hk & x & Hp1 & E1 & Hp2); [lia| |].
    { intros O HO. edestruct kni_rx_spec as (? & ? & _); [|exact HO|exact E|]; done. }
    assert (forall s1, pinv n lcore s1 (M ps ⊎ X) ->
      pinv n lcore (set_drivers (rte_kni_handle_request (VethDev i) (drivers s1)) s1) (M ps ⊎ X)) as Hreq.
    { intros s1 [[Hwf1 Ho1] Hs1]. split; [|intros k; specialize (Hs1 k); by destruct k].
      split; [by apply wf_set_drivers|]. eapply owns_eq; [exact Ho1|]. unfold owned. simpl. by rewrite kni_request_spec. }
    destruct (zlen ps =? 0); [|rewrite E1]; bind; eexists ps, _; (do 2 (split; [done|])); (split; [by apply Hreq|done]).
  - by apply receive_from_vhost_ok.
Qed.

(** Handing a burst to the NIC: what it does not take is freed and counted. *)
Lemma nic_send_ok n lcore now id port pkts s X :
  pinv n lcore s (M pkts ⊎ X) -> 0 <= id < MAX_VPORTS -> 0 <= port < MAX_PHYPORTS ->
  exists s', (let '(sent, d, m) := rte_eth_tx_burst port pkts (drivers s) (vmem s) in
              let s := set_vmem m (set_drivers d s) in
              _ ← index (prev_tsc s) port;
              let s := set_prev_tsc (update (prev_tsc s) port now) s in
              s ← (if sent <? zlen pkts then
                     s ← st_free_all (drop (Z.to_nat sent) pkts) s;
                     st_vport_inc C_tx_drop lcore id (zlen pkts - sent) s
                   else Ok s);
              st_vport_inc C_tx lcore id sent s) = Ok s' /\ pinv n lcore s' X /\ same_cfg s s'.
Proof.
  intros [[Hwf Ho] Hs] Hid Hport. destruct (rte_eth_tx_burst port pkts (drivers s) (vmem s)) as [[sent d] m] eqn:E.
  destruct (index_ok (prev_tsc s) port) as [prev Hprev]; [by rewrite (w_tsc _ _ _ Hwf)|].
  set (O0 := vports_objs (vports s) ⊎ caches_objs (client_mbuf_cache s) ⊎ caches_objs (port_mbuf_cache s)
    ⊎ caches_objs (vhost_mbuf_cache s)).
  destruct (eth_tx_spec port pkts (drivers s) (vmem s) (O0 ⊎ X) sent d m) as (Hsent & Ho' & _); [|done|].
  { eapply owns_eq; [exact Ho|]. unfold owned. fold O0. clear. multiset_solver. }
  cbn [prev_tsc set_vmem set_drivers]. rewrite Hprev. bind.
  set (s1 := set_prev_tsc (update (prev_tsc s) port now) (set_vmem m (set_drivers d s))).
  assert (vst_wf n lcore s1) as Hwf1.
  { apply wf_set_prev_tsc; [by apply wf_set_vmem, wf_set_drivers|]. rewrite zlen_update. apply Hwf. }
  assert (owned s1 = O0 ⊎ M (drv_objs d)) as Hown by done.
  assert (small s1) as Hs1 by (intros k; specialize (Hs k); by destruct k).
  assert (exists s2, (if sent <? zlen pkts then
                     s ← st_free_all (drop (Z.to_nat sent) pkts) s1;
                     st_vport_inc C_tx_drop lcore id (zlen pkts - sent) s
                   else Ok s1) = Ok s2 /\ vst_wf n lcore s2 /\ owns (vmem s2) (owned s1 ⊎ X) /\ quiet s1 s2)
    as (s2 & -> & Hwf2 & Ho2 & Hq).
  { destruct (Z.ltb_spec sent (zlen pkts)).
    - destruct (st_free_all_ok n lcore (drop (Z.to_nat sent) pkts) s1 (owned s1 ⊎ X) Hwf1) as (m2 & -> & Hwf2 & Ho2 & _).
      { eapply owns_eq; [exact Ho'|]. rewrite Hown. clear. multiset_solver. }
      bind. destruct (st_vport_inc_ok n lcore C_tx_drop id (zlen pkts - sent) _ Hwf2 Hid) as (x & -> & Hwf3).
      eexists. do 3 (split; [done|]). eapply quiet_trans; [apply quiet_mem|apply quiet_stats].
    - exists s1. do 2 (split; [done|]). split; [|apply quiet_refl]. eapply owns_eq; [exact Ho'|].
      rewrite drop_ge by (unfold zlen in *; lia). rewrite M_nil, Hown. clear. multiset_solver. }
  bind. destruct (st_vport_inc_ok n lcore C_tx id sent s2 Hwf2 Hid) as (x & -> & Hwf3).
  eexists. split; [done|]. destruct (quiet_pinv n lcore s1 (set_vstats x s2) X Hs1) as [? [? ?]]; try done.
  eapply quiet_trans; [done|apply quiet_stats].
Qed.

Lemma flush_nic_tx_ring_ok n lcore now id s X :
  pinv n lcore s X -> PHYPORT0 <= id < PHYPORT0 + num_phy_ports (cfg s) ->
  exists s', flush_nic_tx_ring lcore now id s = Ok s' /\ pinv n lcore s' X /\ same_cfg s s'.
Proof.
  intros [[Hwf Ho] Hs] Hid. pose proof (w_cfg _ _ _ Hwf) as Hcfg. unfold cfg_ok in *.
  assert (0 <= id < MAX_VPORTS) as Hid' by (unfold MAX_VPORTS, PHYPORT0, MAX_PHYPORTS in *; lia).
  destruct (index_ok (vports s) id) as [v Hv]; [by rewrite (w_vports _ _ _ Hwf)|].
  pose proof (w_ok _ _ _ Hwf _ _ Hv) as Hok. destruct (vo_phy _ _ _ Hok Hid) as (q & i & Hvu & Hi).
  destruct (index_ok (prev_tsc s) i) as [prev Hprev]; [by rewrite (w_tsc _ _ _ Hwf)|].
  unfold flush_nic_tx_ring, get_phy. rewrite Hv. bind. rewrite Hvu. bind. rewrite Hprev.
  assert (exists s', Ok s = Ok s' /\ pinv n lcore s' X /\ same_cfg s s') as Hsame by (by exists s).
  assert (exists b, (if rte_ring_count q <? PKT_BURST_SIZE then
            prev ← Ok prev; Ok (u64 (now - prev) <? port_flush_period (cfg s)) else Ok false) = Ok b) as [b ->]
    by (case_match; eauto). bind. destruct b; [done|].
  set (k := if PKT_BURST_SIZE <? rte_ring_count q then PKT_BURST_SIZE else rte_ring_count q).
  destruct (rte_ring_dequeue_bulk k q) as [[rc pkts] q'] eqn:Eq.
  assert (0 <= k <= zlen (ring_objs q)) as Hk.
  { subst k. rewrite ring_count_spec. pose proof (Nat2Z.is_nonneg (length (ring_objs q))). unfold PKT_BURST_SIZE, zlen in *.
    destruct (Z.ltb_spec 32 (Z.of_nat (length (ring_objs q)))); lia. }
  destruct (ring_dequeue_bulk_spec _ _ _ _ _ (proj1 Hk) Eq) as [_ Hd]. rewrite (proj2 (Z.leb_le _ _)) in Hd by lia.
  destruct Hd as (-> & Hpk & Hq'). cbn [negb Z.eqb].
  destruct (wf_set_u n lcore id (U_phy q' i) v s Hwf Hv) as (s1 & E1 & Hwf1); [by eapply vport_ok_phy|].
  rewrite E1. bind. pose proof (owned_set_u _ _ _ _ _ Hv E1) as Hown. rewrite Hvu in Hown. simpl in Hown.
  assert (M (ring_objs q) = M pkts ⊎ M (ring_objs q')) as Hsplit by (by rewrite Hpk, Hq', <- M_app, take_drop).
  destruct (set_u_frame _ _ _ _ E1) as (F1 & F2 & F3 & F4 & _).
  assert (k = zlen pkts) as -> by (rewrite Hpk; unfold zlen in *; rewrite length_take; lia).
  destruct (nic_send_ok n lcore now id i pkts s1 X) as (s' & E & Hp' & [? ?]); [|done|done|].
  - split; [split; [done|]|intros j; specialize (Hs j); by rewrite F2].
    rewrite F1. eapply owns_eq; [exact Ho|]. clear -Hown Hsplit. multiset_solver.
  - exists s'. split; [exact E|]. split; [done|]. split; congruence.
Qed.
End VportInv.
