(* ===== verification/VportInit.v ===== *)
(** Start-up of the vports: [vport_init], [init_shm_rings] and [init_port] of
    [datapath/dpdk/vport.c], with [init_kni] of [kni.c].

    The result of start-up satisfies the invariant of [Vport] for every core
    that can index its caches. *)
From stdpp Require Import gmap gmultiset.
From Stdlib Require Import String.
From S2P Require Import Prelude Stats Dpdk Vport.

(** The calls that set up a NIC port, by return value. *)
Class EthSetup := {
  rte_eth_dev_configure : Z -> Z -> Z -> Z;
  rte_eth_rx_queue_setup : Z -> Z -> Z;
  rte_eth_tx_queue_setup : Z -> Z -> Z;
  rte_eth_dev_start : Z -> Z
}.

(** What start-up reads: the configuration from the command line, the enabled
    cores, and the frequency of the time stamp counter. *)
Record startup := Startup {
  su_clients : Z; su_kni : Z; su_veth : Z; su_vhost : Z;
  su_port_ids : list Z;        (* port_cfg.id[0 .. num_phy_ports - 1] *)
  su_cfg_ports : list Z;       (* cfg_params[i].port_id *)
  su_lcores : list bool;       (* rte_lcore_is_enabled, RTE_MAX_LCORE entries *)
  su_tsc_hz : Z
}.

Definition su_num_phy (su : startup) : Z := zlen (su_port_ids su).

Section Init.
Context {ring dev drv : Type} `{Ring : RteRing ring} `{Mb : RteMbuf} `{Drv : Drivers drv} `{Vh : VhostDev dev}
  `{Eth : EthSetup}.

Notation st := (vst ring dev drv).
Implicit Type s : st.

(** [init_port]: the loops over the receive and the transmit queues stop at
    the first error. *)
Fixpoint queue_setup_loop (setup : Z -> Z) (n : nat) (q : Z) : Z :=
  match n with
  | O => 0
  | S n => let retval := setup q in if retval <? 0 then retval else queue_setup_loop setup n (q + 1)
  end.

Definition init_port (num_clients port_num : Z) : Z :=
  let rx_rings := 1 in
  let tx_rings := num_clients in
  let retval := rte_eth_dev_configure port_num rx_rings tx_rings in
  if negb (retval =? 0) then retval else
  let retval := queue_setup_loop (rte_eth_rx_queue_setup port_num) (Z.to_nat rx_rings) 0 in
  if retval <? 0 then retval else
  let retval := queue_setup_loop (rte_eth_tx_queue_setup port_num) (Z.to_nat tx_rings) 0 in
  if retval <? 0 then retval else
  let retval := rte_eth_dev_start port_num in
  if retval <? 0 then retval else 0.

Definition queue_create : res ring :=
  match rte_ring_create CLIENT_QUEUE_RINGSIZE with Some r => Ok r | None => Err RteExit end.

(** [vports[i].type = ty], with the union member set next to it. *)
Definition set_type (i : Z) (ty : vport_type) (u : vport_union ring dev) s : st :=
  update_vport i (fun v => VportInfo ty (v_name v) (v_enabled v) u) s.

(** One port of the set-up loops of [vport_init]. *)
Definition setup_vport (i : Z) (ty : vport_type) (u : vport_union ring dev) (name : list Z) s : st :=
  vport_set_name i name (vport_disable i (set_type i ty u s)).

Fixpoint setup_loop (n : nat) (j base : Z) (ty : vport_type) (u : Z -> vport_union ring dev)
  (name : Z -> list Z) s : st :=
  match n with
  | O => s
  | S n => setup_loop n (j + 1) base ty u name (setup_vport (base + j) ty (u j) (name j) s)
  end.

(** The loop over the physical ports. *)
Fixpoint setup_phy_loop (num_clients : Z) (ids ports : list Z) s : res st :=
  match ids with
  | [] => Ok s
  | id :: ids =>
      match ports with
      | [] => Err OutOfBounds
      | vportid :: ports =>
          _ ← index (vports s) vportid;
          let s := setup_vport vportid VPORT_TYPE_PHY (U_phy0 id) (str "Port       " ++ fmt_2u id) s in
          if negb (init_port num_clients id =? 0) then Err RteExit
          else setup_phy_loop num_clients ids ports s
      end
  end.

(** [lcore_map]: enabled cores are numbered from 0. *)
Fixpoint lcore_map_loop (enabled : list bool) (core_count : Z) : list Z :=
  match enabled with
  | [] => []
  | true :: l => core_count :: lcore_map_loop l (core_count + 1)
  | false :: l => 0 :: lcore_map_loop l core_count
  end.

(** The loop that fills it, with a counter of 8 bits: it does not end if there
    are 256 cores or more. *)
Definition lcore_mapping (enabled : list bool) : res (list Z) :=
  if zlen enabled <? 256 then Ok (lcore_map_loop enabled 0) else Err OutOfFuel.

Definition rte_lcore_count (enabled : list bool) : Z := zlen (filter (fun b => b = true) enabled).

(** The rings of the clients: the assignment replaces whatever the union of
    the vport held. *)
Fixpoint client_rings_loop (n : nat) (clientid : Z) s : res st :=
  match n with
  | O => Ok s
  | S n =>
      rx ← queue_create; tx ← queue_create; fr ← queue_create;
      s ← set_u clientid (U_client rx tx fr) s;
      client_rings_loop n (clientid + 1) s
  end.

(** The index of a physical port whose union was overwritten by a client's
    rings is byte 8 of the name of the client's receive ring, an n. *)
Definition clobbered_index : Z := 110.

Definition phy_index (u : vport_union ring dev) : Z :=
  match u with
  | U_phy0 i | U_phy _ i => i
  | U_client _ _ _ => clobbered_index
  | _ => 0
  end.

Fixpoint phy_rings_loop (n : nat) (vportid : Z) s : res st :=
  match n with
  | O => Ok s
  | S n =>
      q ← queue_create;
      v ← index (vports s) vportid;
      s ← set_u vportid (U_phy q (phy_index (v_u v))) s;
      phy_rings_loop n (vportid + 1) s
  end.

(** [init_shm_rings]: the caches of [rte_lcore_count] cores, then the rings. *)
Definition init_shm_rings (su : startup) s : res st :=
  let rows n := replicate (Z.to_nat (rte_lcore_count (su_lcores su))) (replicate (Z.to_nat n) []) in
  let s := set_caches CClient (rows (su_clients su)) s in
  let s := set_caches CPort (rows (su_num_phy su)) s in
  let s := if su_vhost su =? 0 then s else set_caches CVhost (rows (su_vhost su)) s in
  s ← client_rings_loop (Z.to_nat (su_clients su)) CLIENT1 s;
  phy_rings_loop (Z.to_nat (su_num_phy su)) PHYPORT0 s.

(** The names of a KNI port's fifos, as [create_kni_fifos] stores them. *)
Definition kni_fifo_names (port_id : Z) : list (list Z) :=
  (fun suffix => snprintf 32 (str "kni_port_" ++ fmt_u port_id ++ str suffix)) <$>
    ["_tx"; "_rx"; "_alloc"; "_free"; "_req"; "_resp"; "_sync"]%string.

Fixpoint init_kni_loop (n : nat) (port_id : Z) s : st :=
  match n with
  | O => s
  | S n => init_kni_loop n (port_id + 1) (vport_set_kni_fifo_names (KNI0 + port_id) (kni_fifo_names port_id) s)
  end.

Definition zero_vport : vport_info ring dev := VportInfo VPORT_TYPE_DISABLED [] false U_none.

Definition su_cfg (su : startup) : vcfg :=
  VCfg (su_num_phy su) (su_clients su) (su_kni su) (su_veth su) (su_vhost su)
    (u64 ((su_tsc_hz su + US_PER_S - 1) / US_PER_S * PORT_FLUSH_PERIOD_US)).

(** [vport_init], with the statistics, memory and drivers at start-up. *)
Definition vport_init (su : startup) (x : stats) (m : mem) (d : drv) : res st :=
  let s := VSt (replicate (Z.to_nat MAX_VPORTS) zero_vport) [] [] [] (replicate (length (su_lcores su)) 0)
             (su_cfg su) (replicate (Z.to_nat MAX_PHYPORTS) 0) x m d in
  let s := setup_vport 0 VPORT_TYPE_VSWITCHD U_none (str "vswitchd") s in
  let s := setup_loop (Z.to_nat (su_clients su - CLIENT1)) CLIENT1 0 VPORT_TYPE_CLIENT
             (fun _ => U_none) (fun i => str "Client" ++ fmt_u i) s in
  let s := setup_loop (Z.to_nat (su_kni su)) 0 KNI0 VPORT_TYPE_KNI
             (fun i => U_kni [] i) (fun i => str "KNI" ++ fmt_u i) s in
  let s := setup_loop (Z.to_nat (su_veth su)) 0 VETH0 VPORT_TYPE_VETH
             (fun i => U_veth i) (fun i => str "vEth Port  " ++ fmt_2u i) s in
  let s := setup_loop (Z.to_nat (su_vhost su)) 0 VHOST0 VPORT_TYPE_VHOST
             (fun i => U_vhost None i) (fun i => str "vHost Port " ++ fmt_2u i) s in
  s ← setup_phy_loop (su_clients su) (su_port_ids su) (su_cfg_ports su) s;
  lcores ← lcore_mapping (su_lcores su);
  let s := VSt (vports s) (client_mbuf_cache s) (port_mbuf_cache s) (vhost_mbuf_cache s)
             lcores (cfg s) (prev_tsc s) (vstats s) (vmem s) (drivers s) in
  s ← init_shm_rings su s;
  Ok (init_kni_loop (Z.to_nat (su_kni su)) 0 s).
End Init.

(** ** Start-up establishes the invariant *)

Section InitProofs.
Context {ring dev drv : Type} `{Ring : RteRing ring} `{!RteRingLaws ring} `{Mb : RteMbuf} `{!RteMbufLaws}
  `{Drv : Drivers drv} `{!DriversLaws drv} `{Vh : VhostDev dev} `{!VhostLaws dev} `{Eth : EthSetup}.

Notation st := (vst ring dev drv).
Implicit Type s : st.

Lemma set_vports_set_vports l l' s : set_vports l (set_vports l' s) = set_vports l s.
Proof. done. Qed.

Lemma setup_vport_eq i ty u nm s :
  zlen (vports s) = MAX_VPORTS -> 0 <= i < MAX_VPORTS -> ty <> VPORT_TYPE_DISABLED ->
  setup_vport i ty u nm s =
    set_vports (update (vports s) i (VportInfo ty (snprintf VPORT_INFO_NAMESZ nm) false u)) s.
Proof.
  intros Hl Hi Hty. destruct (index_ok (vports s) i) as [v Hv]; [by rewrite Hl|].
  unfold setup_vport, set_type, vport_set_name, vport_disable, set_enabled, vport_exists, update_vport.
  rewrite Hv. cbn [vports set_vports]. rewrite index_update_eq by (by rewrite Hl). cbn [v_type].
  rewrite (proj2 (Z.ltb_lt _ _)) by lia. rewrite bool_decide_eq_true_2 by done. cbn [andb vports set_vports].
  rewrite index_update_eq by (by rewrite zlen_update, Hl). cbn [v_type].
  rewrite bool_decide_eq_true_2 by done. cbn [v_enabled v_u v_name].
  rewrite !set_vports_set_vports. f_equal. unfold update. by rewrite !list_insert_insert_eq.
Qed.

Lemma setup_loop_eq n j base ty u nm s :
  zlen (vports s) = MAX_VPORTS -> 0 <= base + j -> base + j + Z.of_nat n <= MAX_VPORTS -> ty <> VPORT_TYPE_DISABLED ->
  exists l, setup_loop n j base ty u nm s = set_vports l s /\ zlen l = MAX_VPORTS /\
    forall i, index l i = if decide (base + j <= i < base + j + Z.of_nat n)
                         then Ok (VportInfo ty (snprintf VPORT_INFO_NAMESZ (nm (i - base))) false (u (i - base)))
                         else index (vports s) i.
Proof.
  intros Hl Hj Hn Hty. revert j s Hl Hj Hn. induction n as [|n IH]; intros j s Hl Hj Hn.
  - exists (vports s). split; [by destruct s|]. split; [done|]. intros i. by rewrite decide_False by lia.
  - simpl. rewrite setup_vport_eq by (done || lia).
    set (v' := VportInfo ty _ false (u j)).
    destruct (IH (j + 1) (set_vports (update (vports s) (base + j) v') s)) as (l & -> & Hl' & Hi);
      [by simpl; rewrite zlen_update|lia|lia|].
    exists l. split; [done|]. split; [done|]. intros i. rewrite Hi. cbn [vports set_vports].
    destruct (decide (base + (j + 1) <= i < base + (j + 1) + Z.of_nat n)).
    + by rewrite decide_True by lia.
    + destruct (decide (i = base + j)) as [->|Hne].
      * rewrite index_update_eq by lia. rewrite decide_True by lia. subst v'. by replace (base + j - base) with j by lia.
      * rewrite index_update_ne by lia. by rewrite decide_False by lia.
Qed.

(** The unions of the physical ports before their rings are created. *)
Definition phy_pending (v : vport_info ring dev) : Prop :=
  (v_u v = U_none \/ exists id, v_u v = U_phy0 id /\ 0 <= id < MAX_PHYPORTS) /\
  (v_type v = VPORT_TYPE_PHY \/ v_type v = VPORT_TYPE_DISABLED).

Lemma setup_phy_ok nc np ids ports s :
  zlen (vports s) = MAX_VPORTS -> 0 <= np <= MAX_PHYPORTS ->
  (length ids <= length ports)%nat -> Forall (fun id => 0 <= id < MAX_PHYPORTS) ids ->
  Forall (fun p => PHYPORT0 <= p < PHYPORT0 + np) ports -> Forall (fun id => init_port nc id = 0) ids ->
  (forall i v, PHYPORT0 <= i < PHYPORT0 + np -> index (vports s) i = Ok v -> phy_pending v) ->
  exists l, setup_phy_loop nc ids ports s = Ok (set_vports l s) /\ zlen l = MAX_VPORTS /\
    (forall i, ~ (PHYPORT0 <= i < PHYPORT0 + np) -> index l i = index (vports s) i) /\
    (forall i v, PHYPORT0 <= i < PHYPORT0 + np -> index l i = Ok v -> phy_pending v).
Proof.
  intros Hl Hnp Hlen Hids Hports Hinit Hpend. revert ports s Hl Hlen Hports Hpend.
  induction ids as [|id ids IH]; intros ports s Hl Hlen Hports Hpend; simpl.
  - exists (vports s). split; [by destruct s|]. done.
  - destruct ports as [|p ports]; [simpl in Hlen; lia|].
    pose proof (Forall_cons_1 _ _ _ Hids) as [Hid Hids']. pose proof (Forall_cons_1 _ _ _ Hports) as [Hp Hports'].
    pose proof (Forall_cons_1 _ _ _ Hinit) as [Hi Hinit']. cbv beta in Hi, Hid, Hp. rewrite Hi.
    assert (0 <= p < MAX_VPORTS) as Hp' by (unfold MAX_VPORTS, PHYPORT0, MAX_PHYPORTS in *; lia).
    destruct (index_ok (vports s) p) as [v Hv]; [by rewrite Hl|]. rewrite Hv. bind. simpl.
    rewrite setup_vport_eq by done. set (v' := VportInfo VPORT_TYPE_PHY _ _ _).
    destruct (IH Hids' Hinit' ports (set_vports (update (vports s) p v') s)) as (l & E & Hl' & Hout & Hin).
    + simpl. by rewrite zlen_update.
    + simpl in Hlen. lia.
    + done.
    + intros i w Hi' Hw. simpl in Hw. destruct (decide (i = p)) as [->|Hne].
      * rewrite index_update_eq in Hw by lia. injection Hw as <-. subst v'. split; [right; by exists id|by left].
      * rewrite index_update_ne in Hw by lia. by apply (Hpend i).
    + exists l. rewrite E. split; [done|]. split; [done|]. split; [|done].
      intros i Hi'. rewrite Hout by done. simpl. apply index_update_ne; [lia|]. intros <-. done.
Qed.

Lemma client_rings_ok r n id s :
  rte_ring_create CLIENT_QUEUE_RINGSIZE = Some r ->
  zlen (vports s) = MAX_VPORTS -> 0 <= id -> id + Z.of_nat n <= MAX_VPORTS ->
  exists l, client_rings_loop n id s = Ok (set_vports l s) /\ zlen l = MAX_VPORTS /\
    forall i v, index (vports s) i = Ok v ->
      (~ (id <= i < id + Z.of_nat n) -> index l i = Ok v) /\
      (id <= i < id + Z.of_nat n -> exists r t f,
         index l i = Ok (VportInfo (v_type v) (v_name v) (v_enabled v) (U_client r t f)) /\
         u_objs (@U_client ring dev r t f) = []).
Proof.
  intros Er. revert id s. induction n as [|n IH]; intros id s Hl Hid Hn; simpl.
  - exists (vports s). split; [by destruct s|]. split; [done|]. intros i v Hv. split; [done|lia].
  - unfold queue_create. rewrite Er. bind. bind. bind.
    destruct (ring_create_spec _ _ Er) as [Hr _]. unfold set_u.
    destruct (index_ok (vports s) id) as [w Hw]; [lia|]. rewrite Hw. repeat bind.
    match goal with |- context [set_vports ?x s] =>
      destruct (IH (id + 1) (set_vports x s)) as (l & -> & Hl' & Hi); [simpl; by rewrite zlen_update|lia|lia|] end.
    exists l. split; [done|]. split; [done|]. intros i v Hv. simpl in Hi. destruct (decide (i = id)) as [->|Hne].
    + specialize (Hi id). rewrite index_update_eq in Hi by lia. destruct (Hi _ eq_refl) as [Hi1 _].
      rewrite Hw in Hv. injection Hv as <-. split; [lia|]. intros _. exists r, r, r.
      split; [apply Hi1; lia|]. simpl. by rewrite Hr.
    + specialize (Hi i). rewrite index_update_ne in Hi by lia. destruct (Hi _ Hv) as [Hi1 Hi2].
      split; [intros; apply Hi1; lia|intros; apply Hi2; lia].
Qed.

Lemma phy_rings_ok r n id s :
  rte_ring_create CLIENT_QUEUE_RINGSIZE = Some r ->
  zlen (vports s) = MAX_VPORTS -> 0 <= id -> id + Z.of_nat n <= MAX_VPORTS ->
  exists l, phy_rings_loop n id s = Ok (set_vports l s) /\ zlen l = MAX_VPORTS /\
    forall i v, index (vports s) i = Ok v ->
      (~ (id <= i < id + Z.of_nat n) -> index l i = Ok v) /\
      (id <= i < id + Z.of_nat n -> exists q,
         index l i = Ok (VportInfo (v_type v) (v_name v) (v_enabled v) (U_phy q (phy_index (v_u v)))) /\
         ring_objs q = []).
Proof.
  intros Er. revert id s. induction n as [|n IH]; intros id s Hl Hid Hn; simpl.
  - exists (vports s). split; [by destruct s|]. split; [done|]. intros i v Hv. split; [done|lia].
  - unfold queue_create. rewrite Er. bind.
    destruct (ring_create_spec _ _ Er) as [Hr _]. unfold set_u.
    destruct (index_ok (vports s) id) as [w Hw]; [lia|]. rewrite Hw. repeat bind.
    match goal with |- context [set_vports ?x s] =>
      destruct (IH (id + 1) (set_vports x s)) as (l & -> & Hl' & Hi); [simpl; by rewrite zlen_update|lia|lia|] end.
    exists l. split; [done|]. split; [done|]. intros i v Hv. simpl in Hi. destruct (decide (i = id)) as [->|Hne].
    + specialize (Hi id). rewrite index_update_eq in Hi by lia. destruct (Hi _ eq_refl) as [Hi1 _].
      rewrite Hw in Hv. injection Hv as <-. split; [lia|]. intros _. exists r. split; [apply Hi1; lia|done].
    + specialize (Hi i). rewrite index_update_ne in Hi by lia. destruct (Hi _ Hv) as [Hi1 Hi2].
      split; [intros; apply Hi1; lia|intros; apply Hi2; lia].
Qed.

Lemma init_kni_ok n p s :
  zlen (vports s) = MAX_VPORTS ->
  exists l, init_kni_loop n p s = set_vports l s /\ zlen l = MAX_VPORTS /\
    forall i v', index l i = Ok v' -> exists v, index (vports s) i = Ok v /\ v_type v' = v_type v /\
      (v_u v' = v_u v \/ exists nm nm' j, v_u v = U_kni nm j /\ v_u v' = U_kni nm' j).
Proof.
  revert p s. induction n as [|n IH]; intros p s Hl; simpl.
  - exists (vports s). split; [by destruct s|]. split; [done|]. intros i v' Hv. exists v'. eauto.
  - set (s1 := vport_set_kni_fifo_names (KNI0 + p) (kni_fifo_names p) s).
    assert (exists l1, s1 = set_vports l1 s /\ zlen l1 = MAX_VPORTS /\
      forall i v', index l1 i = Ok v' -> exists v, index (vports s) i = Ok v /\ v_type v' = v_type v /\
        (v_u v' = v_u v \/ exists nm nm' j, v_u v = U_kni nm j /\ v_u v' = U_kni nm' j)) as (l1 & Hs1 & Hl1 & Hi1).
    { assert (exists l1, s = set_vports l1 s /\ zlen l1 = MAX_VPORTS /\ forall i v', index l1 i = Ok v' ->
        exists v, index (vports s) i = Ok v /\ v_type v' = v_type v /\
          (v_u v' = v_u v \/ exists nm nm' j, v_u v = U_kni nm j /\ v_u v' = U_kni nm' j)) as Hsame.
      { exists (vports s). split; [by destruct s|]. split; [done|]. eauto. }
      unfold s1, vport_set_kni_fifo_names, update_vport. destruct (vport_exists _ _); [|done].
      destruct (index (vports s) (KNI0 + p)) as [w|] eqn:Hw; [|done]. eexists. split; [done|].
      split; [by rewrite zlen_update|]. intros i v' Hv'. pose proof (index_bound _ _ _ Hw).
      destruct (decide (i = KNI0 + p)) as [->|Hne].
      - rewrite index_update_eq in Hv' by done. injection Hv' as <-. exists w. split; [done|].
        destruct (v_u w) eqn:Hu; eauto. split; [done|]. right. eauto.
      - rewrite index_update_ne in Hv' by lia. eauto. }
    rewrite Hs1. destruct (IH (p + 1) (set_vports l1 s) Hl1) as (l & -> & Hl' & Hi).
    exists l. split; [done|]. split; [done|]. intros i v' Hv'.
    destruct (Hi i v' Hv') as (v & Hv & Ht & Hu). destruct (Hi1 i v Hv) as (v0 & Hv0 & Ht0 & Hu0).
    exists v0. split; [done|]. split; [congruence|].
    destruct Hu as [Hu|(nm & nm' & j & Hu & Hu')], Hu0 as [Hu0|(m & m' & k & Hu0 & Hu0')].
    + left. congruence.
    + right. exists m, m', k. split; congruence.
    + right. exists nm, nm', j. split; congruence.
    + right. exists m, nm', k. rewrite Hu0' in Hu. injection Hu as <- <-. done.
Qed.

(** The vports before the physical ports and the rings are set up. *)
Record staged (c : vcfg) (i : Z) (v : vport_info ring dev) : Prop := {
  sg_type : match v_type v with
            | VPORT_TYPE_CLIENT => CLIENT1 <= i < num_clients c
            | VPORT_TYPE_VHOST => VHOST0 <= i < VHOST0 + num_vhost c
            | VPORT_TYPE_KNI => KNI0 <= i < VETH0 /\ exists names j, v_u v = U_kni names j
            | VPORT_TYPE_VETH => VETH0 <= i < VHOST0 /\ exists j, v_u v = U_veth j
            | VPORT_TYPE_PHY => False
            | _ => True
            end;
  sg_vhost : VHOST0 <= i < VHOST0 + num_vhost c -> exists j, v_u v = U_vhost None j;
  sg_phy : PHYPORT0 <= i < KNI0 -> v = zero_vport;
  sg_objs : u_objs (v_u v) = []
}.

Record startup_ok (su : startup) : Prop := {
  so_clients : 1 <= su_clients su < MAX_CLIENTS;
  so_kni : 0 <= su_kni su <= 16;
  so_veth : 0 <= su_veth su <= 4;
  so_vhost : 0 <= su_vhost su <= MAX_VHOST_PORTS;
  so_phy : su_num_phy su <= MAX_PHYPORTS;
  so_len : (length (su_port_ids su) <= length (su_cfg_ports su))%nat;
  so_ids : Forall (fun id => 0 <= id < MAX_PHYPORTS) (su_port_ids su);
  so_ports : Forall (fun p => PHYPORT0 <= p < PHYPORT0 + su_num_phy su) (su_cfg_ports su);
  so_init : Forall (fun id => init_port (su_clients su) id = 0) (su_port_ids su);
  so_lcores : zlen (su_lcores su) < 256
}.

Lemma index_replicate {A} n (x y : A) i : index (replicate n x) i = Ok y -> y = x.
Proof. intros [_ H1]%index_Ok. by apply lookup_replicate in H1 as [-> _]. Qed.

(** The vports that are not physical, after their set-up loops. *)
Lemma setup_staged su s :
  startup_ok su -> vports s = replicate (Z.to_nat MAX_VPORTS) zero_vport ->
  exists l,
    (let s := setup_vport 0 VPORT_TYPE_VSWITCHD U_none (str "vswitchd") s in
     let s := setup_loop (Z.to_nat (su_clients su - CLIENT1)) CLIENT1 0 VPORT_TYPE_CLIENT
                (fun _ => U_none) (fun i => str "Client" ++ fmt_u i) s in
     let s := setup_loop (Z.to_nat (su_kni su)) 0 KNI0 VPORT_TYPE_KNI
                (fun i => U_kni [] i) (fun i => str "KNI" ++ fmt_u i) s in
     let s := setup_loop (Z.to_nat (su_veth su)) 0 VETH0 VPORT_TYPE_VETH
                (fun i => U_veth i) (fun i => str "vEth Port  " ++ fmt_2u i) s in
     setup_loop (Z.to_nat (su_vhost su)) 0 VHOST0 VPORT_TYPE_VHOST
                (fun i => U_vhost None i) (fun i => str "vHost Port " ++ fmt_2u i) s) = set_vports l s /\
    zlen l = MAX_VPORTS /\ forall i v, index l i = Ok v -> staged (su_cfg su) i v.
Proof.
  intros [H1 H2 H3 H4 _ _ _ _ _] Hz. unfold MAX_CLIENTS, MAX_VHOST_PORTS in *. cbv zeta.
  assert (zlen (vports s) = MAX_VPORTS) as Hl0 by (rewrite Hz; unfold zlen; by rewrite length_replicate).
  rewrite setup_vport_eq by done. set (v0 := VportInfo VPORT_TYPE_VSWITCHD _ _ _).
  edestruct (setup_loop_eq (Z.to_nat (su_clients su - CLIENT1)) CLIENT1 0 VPORT_TYPE_CLIENT) as (l1 & -> & Hl1 & Hi1);
    [simpl; by rewrite zlen_update|done|unfold CLIENT1, MAX_VPORTS; lia|done|].
  edestruct (setup_loop_eq (Z.to_nat (su_kni su)) 0 KNI0 VPORT_TYPE_KNI) as (l2 & -> & Hl2 & Hi2);
    [exact Hl1|done|unfold KNI0, MAX_VPORTS; lia|done|].
  edestruct (setup_loop_eq (Z.to_nat (su_veth su)) 0 VETH0 VPORT_TYPE_VETH) as (l3 & -> & Hl3 & Hi3);
    [exact Hl2|done|unfold VETH0, MAX_VPORTS; lia|done|].
  edestruct (setup_loop_eq (Z.to_nat (su_vhost su)) 0 VHOST0 VPORT_TYPE_VHOST) as (l4 & -> & Hl4 & Hi4);
    [exact Hl3|done|unfold VHOST0, MAX_VPORTS; lia|done|].
  exists l4. split; [done|]. split; [done|]. intros i v. cbn [vports set_vports] in *.
  rewrite Hi4, Hi3, Hi2, Hi1, Hz. unfold CLIENT1, KNI0, VETH0, VHOST0, PHYPORT0, MAX_VPORTS in *.
  destruct (decide (80 + 0 <= i < _)); [intros [= <-]; split; simpl; unfold PHYPORT0, KNI0, VHOST0; (lia || eauto)|].
  destruct (decide (64 + 0 <= i < _));
    [intros [= <-]; split; simpl; unfold PHYPORT0, KNI0, VHOST0, VETH0; [split; [lia|eauto]|lia|lia|done]|].
  destruct (decide (32 + 0 <= i < _));
    [intros [= <-]; split; simpl; unfold PHYPORT0, KNI0, VHOST0, VETH0; [split; [lia|eauto]|lia|lia|done]|].
  destruct (decide (0 + 1 <= i < _)).
  { intros [= <-]. split; simpl; unfold PHYPORT0, KNI0, VHOST0, CLIENT1; (lia || done). }
  intros Hv. pose proof (index_bound _ _ _ Hv) as Hb. rewrite zlen_update in Hb.
  destruct (decide (i = 0)) as [->|Hne].
  - rewrite index_update_eq in Hv by (unfold zlen; rewrite length_replicate; lia). injection Hv as <-.
    split; simpl; unfold PHYPORT0, KNI0, VHOST0; (lia || done).
  - rewrite index_update_ne in Hv by lia. apply index_replicate in Hv as ->.
    split; simpl; unfold PHYPORT0, KNI0, VHOST0; (lia || done).
Qed.

(** The vports after start-up. *)
Definition vport_started (c : vcfg) (i : Z) (v : vport_info ring dev) : Prop :=
  vport_ok c i v /\ u_objs (v_u v) = [].

Lemma started_of_staged c i v v1 :
  cfg_ok c -> staged c i v ->
  (PHYPORT0 <= i < PHYPORT0 + num_phy_ports c -> phy_pending v1) ->
  (~ (PHYPORT0 <= i < PHYPORT0 + num_phy_ports c) -> v1 = v) ->
  forall v2, ((~ (CLIENT1 <= i < CLIENT1 + num_clients c) -> v2 = v1) /\
     (CLIENT1 <= i < CLIENT1 + num_clients c -> exists r t f,
        v2 = VportInfo (v_type v1) (v_name v1) (v_enabled v1) (U_client r t f) /\ u_objs (@U_client ring dev r t f) = [])) ->
  forall v3, ((~ (PHYPORT0 <= i < PHYPORT0 + num_phy_ports c) -> v3 = v2) /\
     (PHYPORT0 <= i < PHYPORT0 + num_phy_ports c -> exists q,
        v3 = VportInfo (v_type v2) (v_name v2) (v_enabled v2) (U_phy q (phy_index (v_u v2))) /\ ring_objs q = [])) ->
  vport_started c i v3.
Proof.
  intros (Hnc & Hnp & _ & _ & Hnv) [Ht Hvh Hph Hob] Hpend Hsame v2 [H2n H2y] v3 [H3n H3y].
  unfold MAX_CLIENTS, MAX_PHYPORTS, MAX_VHOST_PORTS in *.
  destruct (decide (PHYPORT0 <= i < PHYPORT0 + num_phy_ports c)) as [Hp|Hp].
  - assert (~ (CLIENT1 <= i < CLIENT1 + num_clients c)) as Hc by (unfold CLIENT1, PHYPORT0 in *; lia).
    rewrite (H2n Hc) in H3y. destruct (H3y Hp) as (q & -> & Hq). destruct (Hpend Hp) as [Hu Hty].
    split; [|exact Hq]. split; simpl.
    + lia.
    + intros _. exists q, (phy_index (v_u v1)). split; [done|].
      destruct Hu as [->|(id & -> & Hid)]; simpl; [done|done].
    + unfold PHYPORT0, VHOST0 in *. lia.
    + by destruct Hty as [->| ->].
  - rewrite (H3n Hp). rewrite (Hsame Hp) in *. destruct (decide (CLIENT1 <= i < CLIENT1 + num_clients c)) as [Hc|Hc].
    + destruct (H2y Hc) as (r & t & f & -> & Ho). split; [|exact Ho]. split; simpl.
      * intros _. by exists r, t, f.
      * done.
      * unfold CLIENT1, VHOST0 in *. lia.
      * unfold CLIENT1, KNI0, VETH0, VHOST0 in *. destruct (v_type v); try done; lia.
    + rewrite (H2n Hc). split; [|done]. split; simpl.
      * done.
      * done.
      * intros Hr. destruct (Hvh Hr) as [j Hj]. by exists None, j.
      * destruct (v_type v); try done; [unfold CLIENT1 in *; lia|apply Ht|apply Ht].
Qed.

(** Enabled cores are numbered below the number of enabled cores. *)
Lemma lcore_map_index l k i :
  l !! i = Some true ->
  exists r, lcore_map_loop l k !! i = Some r /\ k <= r < k + rte_lcore_count l.
Proof.
  revert k i. induction l as [|b l IH]; intros k i Hi; [done|].
  destruct i as [|i]; simpl in Hi.
  - injection Hi as ->. exists k. split; [done|]. unfold rte_lcore_count, zlen. rewrite filter_cons_True by done. simpl. lia.
  - destruct b; simpl.
    + destruct (IH (k + 1) i Hi) as (r & Hr & Hb). exists r. split; [done|].
      unfold rte_lcore_count, zlen in *. rewrite filter_cons_True by done. simpl. lia.
    + destruct (IH k i Hi) as (r & Hr & Hb). exists r. split; [done|].
      unfold rte_lcore_count, zlen in *. by rewrite filter_cons_False by done.
Qed.

Lemma vports_objs_nil (l : list (vport_info ring dev)) :
  (forall i v, index l i = Ok v -> u_objs (v_u v) = []) -> vports_objs l = ∅.
Proof.
  intros Hl. unfold vports_objs. replace (concat _) with (@nil Z); [done|]. symmetry.
  apply concat_nil_Forall, Forall_fmap, Forall_lookup. intros i v Hv. simpl. apply (Hl (Z.of_nat i)).
  apply index_Ok. rewrite Nat2Z.id. split; [lia|done].
Qed.

Lemma caches_objs_nil n m : caches_objs (replicate n (replicate m [])) = ∅.
Proof.
  unfold caches_objs. replace (concat _) with (@nil Z); [done|]. symmetry.
  apply concat_nil_Forall, Forall_fmap, Forall_replicate. simpl.
  apply concat_nil_Forall. by apply Forall_replicate.
Qed.

(** A state whose vports are as start-up leaves them and whose caches are empty. *)
Lemma started_pinv su n lcore l vhost (s : st) X :
  startup_ok su -> cfg s = su_cfg su -> stats_wf n (vstats s) -> 0 <= lcore < n -> n <= 256 ->
  su_lcores su !! Z.to_nat lcore = Some true -> lcore_map s = lcore_map_loop (su_lcores su) 0 ->
  (0 < su_vhost su -> lcore < rte_lcore_count (su_lcores su)) ->
  client_mbuf_cache s = replicate (Z.to_nat (rte_lcore_count (su_lcores su))) (replicate (Z.to_nat (su_clients su)) []) ->
  port_mbuf_cache s = replicate (Z.to_nat (rte_lcore_count (su_lcores su))) (replicate (Z.to_nat (su_num_phy su)) []) ->
  vhost_mbuf_cache s = replicate vhost (replicate (Z.to_nat (su_vhost su)) []) ->
  (0 < su_vhost su -> vhost = Z.to_nat (rte_lcore_count (su_lcores su))) ->
  zlen (prev_tsc s) = MAX_PHYPORTS -> vports s = l -> zlen l = MAX_VPORTS ->
  (forall i v, index l i = Ok v -> vport_started (cfg s) i v) ->
  owns (vmem s) (M (drv_objs (drivers s)) ⊎ X) ->
  pinv n lcore s X.
Proof.
  intros Hok Hcfg Hst Hlc Hn Hen Hmap Hvrow Hcc Hpc Hvc Hvn Htsc Hvp Hlen Hvs Ho.
  destruct (lcore_map_index _ 0 _ Hen) as (r & Hr & Hrb).
  assert (index (lcore_map s) lcore = Ok r) as Hri by (rewrite Hmap; apply index_Ok; split; [lia|done]).
  assert (forall k, 0 < cache_cols k (cfg s) -> zlen (get_caches k s) = rte_lcore_count (su_lcores su)) as Hrows.
  { intros k Hk. rewrite Hcfg in Hk. destruct k; simpl in *; rewrite ?Hcc, ?Hpc, ?Hvc; unfold zlen; rewrite length_replicate;
      rewrite ?Hvn by done; unfold rte_lcore_count, zlen; lia. }
  destruct Hok as [H1 H2 H3 H4 H5 H6 H7 H8 H9]. unfold su_num_phy, zlen in H5.
  split; [split; [split|]|].
  - rewrite Hcfg. unfold cfg_ok, su_num_phy, zlen. simpl. unfold su_num_phy, zlen. lia.
  - by rewrite Hvp.
  - intros i v Hv. rewrite Hvp in Hv. by apply Hvs.
  - done.
  - done.
  - intros k Hk. pose proof (Hrows k Hk) as Hz. rewrite Hz. destruct k; simpl in *; [eauto|eauto|].
    exists lcore. split; [done|]. split; [lia|]. apply Hvrow. rewrite Hcfg in Hk. done.
  - eauto.
  - intros k. rewrite Hcfg. destruct k; simpl; rewrite ?Hcc, ?Hpc, ?Hvc; apply Forall_replicate; unfold zlen; rewrite length_replicate;
      unfold su_num_phy, zlen; lia.
  - intros k. destruct k; simpl; rewrite ?Hcc, ?Hpc, ?Hvc; apply Forall_replicate, Forall_replicate; done.
  - done.
  - unfold owned. rewrite Hcc, Hpc, Hvc, !caches_objs_nil, Hvp, vports_objs_nil.
    + eapply owns_eq; [exact Ho|]. clear. multiset_solver.
    + intros i v Hv. apply (proj2 (Hvs i v Hv)).
  - intros k. destruct k; simpl; rewrite ?Hcc, ?Hpc, ?Hvc; apply Forall_replicate, Forall_replicate; done.
Qed.

Lemma vport_init_ok su x m d n lcore r X :
  startup_ok su -> rte_ring_create CLIENT_QUEUE_RINGSIZE = Some r ->
  stats_wf n x -> 0 <= lcore < n -> n <= 256 -> su_lcores su !! Z.to_nat lcore = Some true ->
  (0 < su_vhost su -> lcore < rte_lcore_count (su_lcores su)) -> owns m (M (drv_objs d) ⊎ X) ->
  exists s, vport_init su x m d = Ok s /\ pinv n lcore s X /\ cfg s = su_cfg su.
Proof.
  intros Hok Hr Hst Hlc Hn Hen Hvrow Ho. unfold vport_init.
  set (s0 := VSt _ _ _ _ _ _ _ _ _ _).
  destruct (setup_staged su s0 Hok eq_refl) as (l1 & E1 & Hl1 & Hs1). cbv zeta in E1. cbv zeta. rewrite E1.
  assert (0 <= su_num_phy su <= MAX_PHYPORTS) as Hnp.
  { pose proof (so_phy _ Hok). unfold su_num_phy, zlen in *. lia. }
  destruct (setup_phy_ok (su_clients su) (su_num_phy su) (su_port_ids su) (su_cfg_ports su) (set_vports l1 s0))
    as (l2 & -> & Hl2 & Hout & Hin); [done|done|apply Hok..| |].
  { intros i v Hi Hv. rewrite (sg_phy _ _ _ (Hs1 _ _ Hv)) by (unfold KNI0, PHYPORT0, MAX_PHYPORTS in *; lia).
    split; [by left|by right]. }
  bind. unfold lcore_mapping. rewrite (proj2 (Z.ltb_lt _ _) (so_lcores _ Hok)). bind. unfold init_shm_rings.
  set (rows := fun k => replicate (Z.to_nat (rte_lcore_count (su_lcores su))) (replicate (Z.to_nat k) (@nil Z))).
  match goal with |- context [client_rings_loop _ _ ?s'] => set (s2 := s') end.
  assert (vports s2 = l2) as Hv2 by (subst s2; by destruct (su_vhost su =? 0)).
  destruct (client_rings_ok r (Z.to_nat (su_clients su)) CLIENT1 s2 Hr) as (l3 & -> & Hl3 & Hi3);
    [by rewrite Hv2|done|pose proof (so_clients _ Hok); unfold CLIENT1, MAX_CLIENTS, MAX_VPORTS in *; lia|]. bind.
  destruct (phy_rings_ok r (Z.to_nat (su_num_phy su)) PHYPORT0 (set_vports l3 s2) Hr) as (l4 & -> & Hl4 & Hi4);
    [done|done|unfold PHYPORT0, MAX_PHYPORTS, MAX_VPORTS in *; lia|]. bind.
  destruct (init_kni_ok (Z.to_nat (su_kni su)) 0 (set_vports l4 (set_vports l3 s2)) Hl4) as (l5 & -> & Hl5 & Hi5).
  eexists. split; [done|].
  assert (cfg s2 = su_cfg su /\ vstats s2 = x /\ vmem s2 = m /\ drivers s2 = d /\
    lcore_map s2 = lcore_map_loop (su_lcores su) 0 /\ client_mbuf_cache s2 = rows (su_clients su) /\
    port_mbuf_cache s2 = rows (su_num_phy su) /\ prev_tsc s2 = replicate (Z.to_nat MAX_PHYPORTS) 0 /\
    vhost_mbuf_cache s2 = if su_vhost su =? 0 then [] else rows (su_vhost su)) as (Q1 & Q2 & Q3 & Q4 & Q5 & Q6 & Q7 & Q8 & Q9).
  { subst s2. by destruct (su_vhost su =? 0). }
  split; [|by simpl].
  eapply (started_pinv su n lcore l5 (if su_vhost su =? 0 then 0%nat else Z.to_nat (rte_lcore_count (su_lcores su))));
    simpl; rewrite ?Q1, ?Q2, ?Q3, ?Q4, ?Q5, ?Q6, ?Q7, ?Q8, ?Q9; try done.
  - by destruct (su_vhost su =? 0).
  - intros Hpos. by rewrite (proj2 (Z.eqb_neq _ _)) by lia.
  - intros i v5 Hv5. destruct (Hi5 i v5 Hv5) as (v4 & Hv4 & Ht5 & Hu5). simpl in Hv4.
    pose proof (index_bound _ _ _ Hv4) as Hb. rewrite Hl4 in Hb.
    destruct (index_ok l1 i) as [v Hv]; [by rewrite Hl1|]. destruct (index_ok l2 i) as [v1 Hv1]; [by rewrite Hl2|].
    destruct (index_ok l3 i) as [v3 Hv3]; [by rewrite Hl3|].
    rewrite Hv2 in Hi3. destruct (Hi3 i v1 Hv1) as [C1 C2]. destruct (Hi4 i v3 Hv3) as [P1 P2].
    rewrite Z2Nat.id in C1, C2 by (pose proof (so_clients _ Hok); lia). rewrite Z2Nat.id in P1, P2 by lia.
    assert (vport_started (su_cfg su) i v4) as [Hvok Hobj].
    { apply (started_of_staged (su_cfg su) i v v1) with (v2 := v3); [|by apply Hs1| | | |].
      - unfold cfg_ok. simpl. pose proof (so_clients _ Hok). pose proof (so_kni _ Hok). pose proof (so_veth _ Hok). pose proof (so_vhost _ Hok). lia.
      - intros Hp. by apply (Hin i).
      - intros Hp. pose proof (Hout i Hp) as He. simpl in He. rewrite Hv, Hv1 in He. by injection He.
      - split; [intros Hc; pose proof (C1 Hc); congruence|].
        intros Hc. destruct (C2 Hc) as (a & b & c & E & Eo). exists a, b, c. split; [congruence|done].
      - split; [intros Hp; pose proof (P1 Hp); congruence|].
        intros Hp. destruct (P2 Hp) as (q & E & Eo). exists q. split; [congruence|done]. }
    destruct Hu5 as [Hu5|(nm & nm' & j & Hu & Hu')].
    + split; [|by rewrite Hu5]. destruct Hvok as [A1 A2 A3 A4]. split; rewrite ?Hu5, ?Ht5; done.
    + split; [|by rewrite Hu']. destruct Hvok as [A1 A2 A3 A4].
      split; rewrite ?Ht5, ?Hu'.
      * intros Hx. destruct (A1 Hx) as (? & ? & ? & ?). congruence.
      * intros Hx. destruct (A2 Hx) as (? & ? & ? & ?). congruence.
      * intros Hx. destruct (A3 Hx) as (? & ? & ? & ?). congruence.
      * destruct (v_type v4); try done; [eauto|destruct A4; congruence].
Qed.
End InitProofs.
