(* ===== verification/VportProps.v ===== *)
(** Properties of the virtual ports and their start-up, with concrete
    services for the examples. *)
From stdpp Require Import gmap gmultiset.
From Stdlib Require Import String.
From S2P Require Import Prelude Stats Dpdk Vport VportInit.

Section Props.
Context {ring dev drv : Type} `{Ring : RteRing ring} `{!RteRingLaws ring} `{Mb : RteMbuf} `{!RteMbufLaws}
  `{Drv : Drivers drv} `{!DriversLaws drv} `{Vh : VhostDev dev} `{!VhostLaws dev} `{Eth : EthSetup}.

Notation st := (vst ring dev drv).
Implicit Type s : st.

(** The packets on their way to a client: its ring, then the core's cache. *)
Definition client_queue (r : ring) (c : list Z) : list Z := ring_objs r ++ c.

(** The free ring is read after the packet is queued, and changes neither. *)
Lemma client_free_queue n lcore id s X lc :
  sinv n lcore s X -> CLIENT1 <= id < CLIENT1 + num_clients (cfg s) ->
  exists r t f f' s', get_client id s = Ok (r, t, f) /\
    ('(rx_q, tx_q, free_q) ← get_client id s;
     let '(freebufs, free_q) := rte_ring_dequeue_burst PKT_BURST_SIZE free_q in
     s ← set_u id (U_client rx_q tx_q free_q) s;
     s ← st_free_all freebufs s;
     Ok (0, s)) = Ok (0, s') /\ sinv n lcore s' X /\ get_client id s' = Ok (r, t, f') /\
    (forall col, cache_get CClient lc col s' = cache_get CClient lc col s).
Proof.
  intros Hinv Hid. destruct (client_free_ok n lcore id s X Hinv Hid) as (r & t & f & s1 & m & Hg & E1 & E2 & Hinv' & _).
  exists r, t, f, (snd (rte_ring_dequeue_burst PKT_BURST_SIZE f)), (set_vmem m s1).
  destruct (rte_ring_dequeue_burst PKT_BURST_SIZE f) as [ps f'] eqn:Ef. simpl in *.
  rewrite Hg. bind. rewrite Ef, E1. bind. rewrite E2. bind. do 3 (split; [done|]).
  pose proof Hg as (v & Hv & _)%res_bind_Ok. split.
  - unfold get_client. simpl.
    by rewrite (get_set_u (fun u => match u with U_client r t f => Ok (r, t, f) | _ => Err NullDeref end) _ _ _ _ _ Hv E1).
  - intros col. destruct (set_u_frame _ _ _ _ E1) as (_ & F2 & _). specialize (F2 CClient). unfold cache_get. simpl in *.
    by rewrite F2.
Qed.

(** A ring takes what fits. *)
Lemma enqueue_take (c : list Z) k : take (Z.to_nat (Z.min (zlen c) k)) c = take (Z.to_nat k) c.
Proof. destruct (Z.min_spec (zlen c) k) as [[? ->]|[? ->]]; [|done]. unfold zlen in *. by rewrite !take_ge by lia. Qed.

Lemma send_to_client_queue n lcore lc id p s X c r t f :
  pinv n lcore s ({[+ p +]} ⊎ X) -> CLIENT1 <= id < CLIENT1 + num_clients (cfg s) ->
  index (lcore_map s) lcore = Ok lc -> cache_get CClient lc (id - CLIENT1) s = Ok c -> get_client id s = Ok (r, t, f) ->
  exists s' c' r' f', send_to_client lcore id p s = Ok (0, s') /\
    cache_get CClient lc (id - CLIENT1) s' = Ok c' /\ get_client id s' = Ok (r', t, f') /\ ring_cap r' = ring_cap r /\
    client_queue r' c' =
      if zlen c + 1 =? LOCAL_MBUF_CACHE_SIZE
      then ring_objs r ++ take (Z.to_nat (ring_cap r - zlen (ring_objs r))) (c ++ [p])
      else client_queue r c ++ [p].
Proof.
  intros [Hinv Hs] Hid Hlc Hc Hg. pose proof (w_cfg _ _ _ (proj1 Hinv)) as Hcfg. unfold cfg_ok, MAX_CLIENTS in Hcfg.
  destruct (cache_push_ok n lcore CClient lc (id - CLIENT1) p s X Hinv Hs Hlc) as (c0 & s1 & Hc0 & E1 & Hlt & Hinv1 & Hs1);
    [simpl; unfold CLIENT1 in *; lia|]. rewrite Hc in Hc0. injection Hc0 as <-.
  assert (get_client id s1 = Ok (r, t, f)) as Hg1 by (by subst s1).
  assert (cache_get CClient lc (id - CLIENT1) s1 = Ok (c ++ [p])) as Hc1 by (subst s1; by eapply cache_get_set).
  assert (cfg s1 = cfg s /\ lcore_map s1 = lcore_map s) as [Hcf1 Hm1] by (by subst s1).
  unfold send_to_client. rewrite Hlc. bind. unfold u32. rewrite wrap_small by (unfold is_u, CLIENT1 in *; lia).
  rewrite E1. bind. destruct (Z.eqb_spec (zlen c + 1) LOCAL_MBUF_CACHE_SIZE) as [Hfull|Hne].
  - destruct (flush_client_ok n lcore lc id s1 X Hinv1) as (s2 & c2 & r2 & t2 & f2 & E2 & Hinv2 & Hfl & Hc2 & Hg2 & Hg2' & _);
      [by rewrite Hcf1|by rewrite Hm1|]. rewrite E2. bind.
    rewrite Hc1 in Hc2. injection Hc2 as <-. rewrite Hg1 in Hg2. injection Hg2 as <- <- <-.
    destruct (client_free_queue n lcore id s2 X lc Hinv2) as (r3 & t3 & f3 & f' & s3 & Hg3 & E3 & _ & Hg3' & Hcc);
      [destruct Hfl as (_ & _ & ->); by rewrite Hcf1|]. rewrite Hg2' in Hg3. injection Hg3 as <- <- <-.
    eexists s3, [], _, f'. split; [exact E3|]. split; [|split; [exact Hg3'|]].
    + rewrite Hcc. rewrite (flushed_get _ _ _ _ _ _ _ _ Hfl Hc1 Hc1). by rewrite decide_True.
    + destruct (rte_ring_enqueue_burst (c ++ [p]) r) as [k r'] eqn:Er.
      destruct (ring_enqueue_burst_spec _ _ _ _ Er) as (Hcap & Hk & Ho). split; [done|]. unfold client_queue. simpl.
      by rewrite app_nil_r, Ho, Hk, enqueue_take.
  - bind. destruct (client_free_queue n lcore id s1 X lc Hinv1) as (r3 & t3 & f3 & f' & s3 & Hg3 & E3 & _ & Hg3' & Hcc);
      [by rewrite Hcf1|]. rewrite Hg1 in Hg3. injection Hg3 as <- <- <-.
    exists s3, (c ++ [p]), r, f'. split; [exact E3|]. split; [by rewrite Hcc|]. do 2 (split; [done|]).
    unfold client_queue. by rewrite app_assoc.
Qed.

(** What happens to a client's queue: the core sends it a packet or flushes its
    cache, and the client takes packets from its ring. A step returns the
    packets that the client has taken. *)
Inductive queue_event := Sent (p : Z) | Flushed | Taken (k : Z).

Definition sent (e : queue_event) : list Z := match e with Sent p => [p] | _ => [] end.
Definition event_ok (e : queue_event) : Prop := match e with Taken k => 0 <= k | _ => True end.

Definition queue_step (lcore id : Z) (e : queue_event) s : res (list Z * st) :=
  match e with
  | Sent p => '(_, s) ← send_to_client lcore id p s; Ok ([], s)
  | Flushed => s ← flush_client_port_cache lcore id s; Ok ([], s)
  | Taken k =>
      '(rx_q, tx_q, free_q) ← get_client id s;
      let '(ps, rx_q) := rte_ring_dequeue_burst k rx_q in
      s ← set_u id (U_client rx_q tx_q free_q) s; Ok (ps, s)
  end.
Fixpoint queue_run (lcore id : Z) (es : list queue_event) s : res (list Z * st) :=
  match es with
  | [] => Ok ([], s)
  | e :: es => '(ps, s) ← queue_step lcore id e s; '(qs, s) ← queue_run lcore id es s; Ok (ps ++ qs, s)
  end.

(** The queue of a client seen from a core: the client's ring, of this capacity,
    followed by the core's cache. *)
Definition queued (lcore id : Z) s (q : list Z) (cap : Z) : Prop :=
  exists lc c r t f, index (lcore_map s) lcore = Ok lc /\ cache_get CClient lc (id - CLIENT1) s = Ok c /\ get_client id s = Ok (r, t, f) /\
    q = client_queue r c /\ cap = ring_cap r.

(** In order, and complete when everything fits into the ring. *)
Definition in_order (cap : Z) (l l' : list Z) : Prop := l' `sublist_of` l /\ (zlen l <= cap -> l' = l).

Lemma in_order_enqueue cap l c :
  in_order cap (l ++ c) (l ++ take (Z.to_nat (cap - zlen l)) c).
Proof.
  split; [apply sublist_app; [done|apply sublist_take]|]. rewrite zlen_app. intros Hz. by rewrite take_ge by (unfold zlen in *; lia).
Qed.

Lemma in_order_step cap q rest ps q' xs l :
  in_order cap (q ++ xs) (ps ++ q') -> in_order cap (q' ++ rest) l -> in_order cap (q ++ xs ++ rest) (ps ++ l).
Proof.
  intros [H1 E1] [H2 E2]. split.
  - transitivity (ps ++ q' ++ rest); [by apply sublist_app|]. rewrite !app_assoc. by apply sublist_app.
  - rewrite app_assoc, zlen_app. intros Hz. assert (0 <= zlen rest) by (unfold zlen; lia). rewrite <- E1 in * by lia.
    rewrite zlen_app in Hz. rewrite E2; [by rewrite app_assoc|]. rewrite zlen_app. unfold zlen in *. lia.
Qed.

Lemma flush_queue n lcore id s X q cap :
  pinv n lcore s X -> CLIENT1 <= id < CLIENT1 + num_clients (cfg s) -> queued lcore id s q cap ->
  exists s' q', flush_client_port_cache lcore id s = Ok s' /\ pinv n lcore s' X /\ same_cfg s s' /\
    queued lcore id s' q' cap /\ in_order cap q q'.
Proof.
  intros Hp Hid (lc & c & r & t & f & Hlc & Hc & Hg & -> & ->).
  destruct (flush_client_ok n lcore lc id s X (proj1 Hp) Hid Hlc) as (s' & c2 & r2 & t2 & f2 & E & Hinv & Hfl & Hc2 & Hg2 & Hg' & _).
  rewrite Hc in Hc2. injection Hc2 as <-. rewrite Hg in Hg2. injection Hg2 as <- <- <-.
  destruct (flushed_pinv _ _ _ _ _ _ _ _ (proj2 Hp) Hinv Hfl) as [Hp' [Hm' Hc']].
  destruct (rte_ring_enqueue_burst c r) as [k r'] eqn:Er. destruct (ring_enqueue_burst_spec _ _ _ _ Er) as (Hcap & Hk & Ho).
  exists s', (ring_objs r'). split; [done|]. split; [done|]. split; [done|]. split.
  - exists lc, [], r', t, f. rewrite Hm'. split; [done|]. split; [|split; [done|]].
    + rewrite (flushed_get _ _ _ _ _ _ _ _ Hfl Hc Hc). by rewrite decide_True.
    + unfold client_queue. by rewrite app_nil_r.
  - rewrite Ho. unfold client_queue. rewrite Hk, enqueue_take. apply in_order_enqueue.
Qed.

Lemma send_queue n lcore id p s X q cap :
  pinv n lcore s ({[+ p +]} ⊎ X) -> CLIENT1 <= id < CLIENT1 + num_clients (cfg s) -> queued lcore id s q cap ->
  exists s' q', send_to_client lcore id p s = Ok (0, s') /\ pinv n lcore s' X /\ same_cfg s s' /\
    queued lcore id s' q' cap /\ in_order cap (q ++ [p]) q'.
Proof.
  intros Hp Hid (lc & c & r & t & f & Hlc & Hc & Hg & -> & ->).
  destruct (send_to_client_ok n lcore id p s X (proj1 Hp) (proj2 Hp) Hid) as (s' & E & Hinv & Hs & Hm & Hcf & _).
  destruct (send_to_client_queue n lcore lc id p s X c r t f Hp Hid Hlc Hc Hg) as (s2 & c' & r' & f' & E2 & Hc' & Hg' & Hcap & Hq).
  rewrite E in E2. injection E2 as <-. exists s', (client_queue r' c'). split; [done|]. split; [done|]. split; [done|]. split.
  - exists lc, c', r', t, f'. by rewrite Hm.
  - rewrite Hq. destruct (_ =? _); [|by split]. unfold client_queue. rewrite <- app_assoc. apply in_order_enqueue.
Qed.

Lemma take_queue n lcore id k s X q cap :
  pinv n lcore s X -> CLIENT1 <= id < CLIENT1 + num_clients (cfg s) -> 0 <= k -> queued lcore id s q cap ->
  exists ps s' q', queue_step lcore id (Taken k) s = Ok (ps, s') /\ pinv n lcore s' (M ps ⊎ X) /\ same_cfg s s' /\
    queued lcore id s' q' cap /\ in_order cap q (ps ++ q').
Proof.
  intros [[Hwf Ho] Hs] Hid Hk (lc & c & r & t & f & Hlc & Hc & Hg & -> & ->). cbn [queue_step]. rewrite Hg. bind.
  destruct (rte_ring_dequeue_burst k r) as [ps r'] eqn:Er. destruct (ring_dequeue_burst_spec k r ps r' Hk Er) as (Hcap & Hps & Hr').
  unfold get_client in Hg. apply res_bind_Ok in Hg as (v & Hv & Hu). assert (v_u v = U_client r t f) as Hvu by (by destruct (v_u v); simplify_eq).
  pose proof (w_ok _ _ _ Hwf _ _ Hv) as Hok.
  destruct (wf_set_u n lcore id (U_client r' t f) v s Hwf Hv) as (s1 & E1 & Hwf1); [by eapply vport_ok_client|].
  pose proof (owned_set_u _ _ _ _ _ Hv E1) as Hown. rewrite Hvu in Hown. cbn [u_objs] in Hown. rewrite !M_app in Hown.
  destruct (set_u_frame _ _ _ _ E1) as (Hm1 & Hcs1 & Hmap1 & Hcfg1 & _).
  assert (ring_objs r = ps ++ ring_objs r') as Hsplit by (by rewrite Hps, Hr', take_drop).
  rewrite E1. bind. exists ps, s1, (client_queue r' c). split; [done|]. split; [split; [split; [done|]|]|split; [done|split]].
  - rewrite Hm1. eapply owns_eq; [done|]. rewrite Hsplit, M_app in Hown. clear -Hown. multiset_solver.
  - intros k'. rewrite Hcs1. apply Hs.
  - exists lc, c, r', t, f. rewrite Hmap1. split; [done|]. split; [unfold cache_get; by rewrite Hcs1|]. split; [|by rewrite Hcap].
    unfold get_client. exact (get_set_u (fun u => match u with U_client r t f => Ok (r, t, f) | _ => Err NullDeref end) _ _ _ _ _ Hv E1).
  - unfold client_queue. rewrite Hsplit, <- app_assoc. by split.
Qed.

Lemma queue_step_ok n lcore id e s X q cap :
  pinv n lcore s (M (sent e) ⊎ X) -> CLIENT1 <= id < CLIENT1 + num_clients (cfg s) -> event_ok e -> queued lcore id s q cap ->
  exists ps s' q', queue_step lcore id e s = Ok (ps, s') /\ pinv n lcore s' (M ps ⊎ X) /\ same_cfg s s' /\
    queued lcore id s' q' cap /\ in_order cap (q ++ sent e) (ps ++ q').
Proof.
  intros Hp Hid He Hq. destruct e as [p| |k]; cbn [sent event_ok] in *; rewrite ?M_cons, ?M_nil, ?(left_id_L ∅ (⊎)), ?(right_id_L ∅ (⊎)) in Hp.
  - destruct (send_queue n lcore id p s X q cap Hp Hid Hq) as (s' & q' & E & Hp' & Hc & Hq' & Ho).
    exists [], s', q'. cbn [queue_step]. rewrite E. bind. by rewrite M_nil, (left_id_L ∅ (⊎)).
  - destruct (flush_queue n lcore id s X q cap Hp Hid Hq) as (s' & q' & E & Hp' & Hc & Hq' & Ho).
    exists [], s', q'. cbn [queue_step]. rewrite E. bind. by rewrite M_nil, (left_id_L ∅ (⊎)), app_nil_r.
  - rewrite app_nil_r. by apply take_queue.
Qed.

(** The positions of the vports of a type, as [vport_next_available_index]
    searches them. *)
Definition vport_range (ty : vport_type) (c : vcfg) : option (Z * Z) :=
  match ty with
  | VPORT_TYPE_CLIENT => Some (CLIENT1, CLIENT1 + (num_clients c - 1))
  | VPORT_TYPE_PHY => Some (PHYPORT0, KNI0)
  | VPORT_TYPE_KNI => Some (KNI0, KNI0 + num_kni c)
  | VPORT_TYPE_VETH => Some (VETH0, VETH0 + num_veth c)
  | VPORT_TYPE_VHOST => Some (VHOST0, VHOST0 + num_vhost c)
  | _ => None
  end.

Definition available (i : Z) s : bool := vport_exists i s && negb (vport_is_enabled i s).

Lemma next_index_loop_spec n i s :
  let j := next_index_loop n i s in
  (i <= j < i + Z.of_nat n /\ available j s = true /\ forall k, i <= k < j -> available k s = false) \/
  (j = MAX_VPORTS /\ forall k, i <= k < i + Z.of_nat n -> available k s = false).
Proof.
  revert i. induction n as [|n IH]; intros i; simpl.
  - right. split; [done|]. lia.
  - destruct (vport_exists i s && negb (vport_is_enabled i s)) eqn:E.
    + left. split; [lia|]. split; [done|]. lia.
    + destruct (IH (i + 1)) as [(Hj & Ha & Hlt)|[Hj Hall]].
      * left. split; [lia|]. split; [done|]. intros k Hk. destruct (decide (k = i)) as [->|]; [done|]. apply Hlt. lia.
      * right. split; [done|]. intros k Hk. destruct (decide (k = i)) as [->|]; [done|]. apply Hall. lia.
Qed.

Lemma name_to_portid_loop_spec n i name s :
  let j := name_to_portid_loop n i name s in
  let hit k := exists nm, vport_get_name k s = Some nm /\ strneq MAX_VPORT_NAME_SIZE nm name = true in
  (i <= j < i + Z.of_nat n /\ hit j /\ forall k, i <= k < j -> ~ hit k) \/
  (j = UINT32_MAX /\ forall k, i <= k < i + Z.of_nat n -> ~ hit k).
Proof.
  revert i. induction n as [|n IH]; intros i; simpl.
  - right. split; [done|]. lia.
  - destruct (vport_get_name i s) as [nm|] eqn:En; [destruct (strneq MAX_VPORT_NAME_SIZE nm name) eqn:Es|].
    + left. split; [lia|]. split; [eauto|]. lia.
    + destruct (IH (i + 1)) as [(Hj & Ha & Hlt)|[Hj Hall]]; [left|right]; (split; [lia|]).
      * split; [done|]. intros k Hk. destruct (decide (k = i)) as [->|]; [|apply Hlt; lia]. intros (x & Hx & Hy). congruence.
      * intros k Hk. destruct (decide (k = i)) as [->|]; [|apply Hall; lia]. intros (x & Hx & Hy). congruence.
    + destruct (IH (i + 1)) as [(Hj & Ha & Hlt)|[Hj Hall]]; [left|right]; (split; [lia|]).
      * split; [done|]. intros k Hk. destruct (decide (k = i)) as [->|]; [|apply Hlt; lia]. intros (x & Hx & Hy). congruence.
      * intros k Hk. destruct (decide (k = i)) as [->|]; [|apply Hall; lia]. intros (x & Hx & Hy). congruence.
Qed.

(** ** Properties *)

(** sending a packet to any vport number, valid or not, on a well-formed
    state runs without an out-of-bounds access, a use after free or a double
    free, and accounts for every buffer: the packet and every other buffer is
    afterwards held by exactly one ring, cache, driver or outside holder, or has
    been freed, so nothing leaks; no cache is left full. *)
Theorem send_to_vport_safe n lcore vportid p s X :
  pinv n lcore s ({[+ p +]} ⊎ X) -> 0 <= vportid ->
  exists rc s', send_to_vport lcore vportid p s = Ok (rc, s') /\ pinv n lcore s' X.
Proof.
  intros Hp Hid. destruct (send_to_vport_ok n lcore vportid p s X Hp Hid) as (rc & s' & E & Hp' & _). eauto.
Qed.

(** receiving from any vport number runs without a fault, returns at most
    a burst of 32 buffers, and passes exactly these to the caller: every buffer
    is still held exactly once. *)
Theorem receive_from_vport_safe n lcore vportid s X :
  pinv n lcore s X -> 0 <= vportid ->
  exists ps s', receive_from_vport lcore vportid s = Ok (ps, s') /\ zlen ps <= PKT_BURST_SIZE /\
    pinv n lcore s' (M ps ⊎ X).
Proof.
  intros Hp Hid. destruct (receive_from_vport_ok n lcore vportid s X Hp Hid) as (ps & s' & E & Hk & Hp' & _). eauto.
Qed.

(** C38: the three periodic flushes empty every cache the core fills, so that
    no packet stays in a cache, while every buffer remains accounted for. *)
Theorem flush_all_drains n lcore s X :
  pinv n lcore s X ->
  exists s', (s ← flush_clients lcore s; s ← flush_ports lcore s; flush_vhost_devs lcore s) = Ok s' /\
    pinv n lcore s' X /\ forall k, drained k lcore s'.
Proof.
  intros Hp. destruct (flush_clients_ok n lcore s X Hp) as (s1 & E1 & Hp1 & C1 & D1 & F1).
  destruct (flush_ports_ok n lcore s1 X Hp1) as (s2 & E2 & Hp2 & C2 & D2 & F2).
  destruct (flush_vhost_devs_ok n lcore s2 X Hp2) as (s3 & E3 & Hp3 & C3 & D3 & F3).
  exists s3. rewrite E1. bind. rewrite E2. bind. split; [done|]. split; [done|]. intros [].
  - eapply (drained_frame _ _ s2); [eapply (drained_frame _ _ s1)| |]; try done; [by apply F2|by apply F3].
  - eapply (drained_frame _ _ s2); [done|done|by apply F3].
  - done.
Qed.

(** C39: Packets from one core reach a client in the order they are sent: over
    any sequence of sends to the client and flushes of its cache by the core,
    with the client taking packets from its ring in between and no other core
    sending to it, what the client has taken, followed by its ring and the
    core's cache, is what was queued before followed by the packets sent, with
    some packets left out only if all of them together do not fit into the
    ring; every buffer is accounted for. *)
Theorem send_to_client_fifo n lcore id es : forall s X q cap,
  pinv n lcore s (M (es ≫= sent) ⊎ X) -> CLIENT1 <= id < CLIENT1 + num_clients (cfg s) -> Forall event_ok es -> queued lcore id s q cap ->
  exists ps s' q', queue_run lcore id es s = Ok (ps, s') /\ pinv n lcore s' (M ps ⊎ X) /\
    queued lcore id s' q' cap /\ ps ++ q' `sublist_of` q ++ (es ≫= sent) /\
    (zlen (q ++ (es ≫= sent)) <= cap -> ps ++ q' = q ++ (es ≫= sent)).
Proof.
  induction es as [|e es IH]; intros s X q cap Hp Hid He Hq.
  - exists [], s, q. cbn. by rewrite app_nil_r.
  - inversion_clear He as [|? ? He0 Hes]. cbn [queue_run]. rewrite bind_cons in *. rewrite M_app, <- (assoc_L (⊎)) in Hp.
    destruct (queue_step_ok n lcore id e s _ q cap Hp Hid He0 Hq) as (ps & s1 & q1 & -> & Hp1 & [Hm1 Hc1] & Hq1 & Ho1). bind.
    destruct (IH s1 (M ps ⊎ X) q1 cap) as (qs & s2 & q2 & -> & Hp2 & Hq2 & Ho2).
    { by rewrite (assoc_L (⊎)), (comm_L (⊎) _ (M ps)), <- (assoc_L (⊎)). }
    { by rewrite Hc1. } { done. } { done. }
    bind. exists (ps ++ qs), s2, q2. split; [done|]. split; [|split; [done|]].
    + by rewrite M_app, (comm_L (⊎) (M ps)), <- (assoc_L (⊎)).
    + rewrite <- app_assoc. exact (in_order_step cap q _ ps q1 (sent e) _ Ho1 Ho2).
Qed.

(** start-up with a valid configuration succeeds and establishes the
    invariant for every enabled core whose number can index the vhost caches:
    with it all operations on vports are safe from the first packet on. *)
Theorem vport_init_establishes su x m d n lcore r X :
  startup_ok su -> rte_ring_create CLIENT_QUEUE_RINGSIZE = Some r ->
  stats_wf n x -> 0 <= lcore < n -> n <= 256 -> su_lcores su !! Z.to_nat lcore = Some true ->
  (0 < su_vhost su -> lcore < rte_lcore_count (su_lcores su)) -> owns m (M (drv_objs d) ⊎ X) ->
  exists s : st, vport_init su x m d = Ok s /\ pinv n lcore s X.
Proof.
  intros H1 H2 H3 H4 H5 H6 H7 H8.
  destruct (vport_init_ok su x m d n lcore r X H1 H2 H3 H4 H5 H6 H7 H8) as (s & E & Hp & _). eauto.
Qed.

(** [vport_next_available_index] returns the lowest position in the range
    of the requested type whose vport exists and is not enabled, and
    [MAX_VPORTS] exactly when there is none. *)
Theorem vport_next_available_index_lowest ty s :
  match vport_range ty (cfg s) with
  | Some (lo, hi) =>
      let j := vport_next_available_index ty s in
      (lo <= j < hi /\ available j s = true /\ forall k, lo <= k < j -> available k s = false) \/
      (j = MAX_VPORTS /\ forall k, lo <= k < hi -> available k s = false)
  | None => vport_next_available_index ty s = 0 \/ vport_next_available_index ty s = MAX_VPORTS
  end.
Proof.
  assert (forall lo hi, let j := next_index_loop (Z.to_nat (hi - lo)) lo s in
    (lo <= j < hi /\ available j s = true /\ forall k, lo <= k < j -> available k s = false) \/
    (j = MAX_VPORTS /\ forall k, lo <= k < hi -> available k s = false)) as Hloop.
  { intros lo hi j. destruct (next_index_loop_spec (Z.to_nat (hi - lo)) lo s) as [(Hj & Ha & Hlt)|[Hj Hall]].
    - left. fold j in Hj, Ha, Hlt. split; [lia|]. done.
    - right. split; [done|]. intros k Hk. apply Hall. lia. }
  destruct ty; unfold vport_range, vport_next_available_index; try (by left); try (by right); apply Hloop.
Qed.

(** [vport_name_to_portid] returns the lowest vport that exists and whose
    name agrees with the given one on the first 32 bytes, and [UINT32_MAX]
    exactly when no vport of the table has that name. *)
Theorem vport_name_to_portid_lowest name s :
  let j := vport_name_to_portid name s in
  let hit k := exists nm, vport_get_name k s = Some nm /\ strneq MAX_VPORT_NAME_SIZE nm name = true in
  (0 <= j < MAX_VPORTS /\ hit j /\ forall k, 0 <= k < j -> ~ hit k) \/
  (j = UINT32_MAX /\ forall k, 0 <= k < MAX_VPORTS -> ~ hit k).
Proof. apply (name_to_portid_loop_spec (Z.to_nat MAX_VPORTS) 0 name s). Qed.
End Props.

(** ** Concrete services and examples *)

(** Drivers with unbounded queues: what was sent, and what is to be received. *)
Definition queues : Type := list Z * list Z.

Definition queue_tx (ps : list Z) (d : queues) (m : mem) : Z * queues * mem := (zlen ps, (d.1 ++ ps, d.2), m).
Definition queue_rx (k : Z) (d : queues) (m : mem) : list Z * queues * mem :=
  (take (Z.to_nat k) d.2, (d.1, drop (Z.to_nat k) d.2), m).

#[export] Instance QueueDrivers : Drivers queues := {|
  drv_objs d := d.1 ++ d.2;
  rte_eth_tx_burst _ := queue_tx;
  rte_eth_rx_burst _ := queue_rx;
  rte_kni_tx_burst _ := queue_tx;
  rte_kni_rx_burst _ := queue_rx;
  rte_kni_handle_request _ d := d
|}.

Lemma queue_tx_spec ps d m X n d' m' :
  owns m (M (drv_objs d) ⊎ M ps ⊎ X) -> queue_tx ps d m = (n, d', m') ->
  0 <= n <= zlen ps /\ owns m' (M (drv_objs d') ⊎ M (drop (Z.to_nat n) ps) ⊎ X) /\ keeps X m m'.
Proof.
  intros Ho [= <- <- <-]. split; [unfold zlen; lia|]. split; [|done]. eapply owns_eq; [exact Ho|]. simpl.
  unfold zlen. rewrite Nat2Z.id, drop_all, !M_app, M_nil. multiset_solver.
Qed.

Lemma queue_rx_spec k d m X ps d' m' :
  0 <= k -> owns m (M (drv_objs d) ⊎ X) -> queue_rx k d m = (ps, d', m') ->
  zlen ps <= k /\ owns m' (M (drv_objs d') ⊎ M ps ⊎ X) /\ keeps X m m'.
Proof.
  intros Hk Ho [= <- <- <-]. split; [unfold zlen; rewrite length_take; lia|]. split; [|done]. eapply owns_eq; [exact Ho|]. simpl.
  rewrite <- (take_drop (Z.to_nat k) d.2) at 1. rewrite !M_app. multiset_solver.
Qed.

#[export] Instance QueueDriversLaws : DriversLaws queues.
Proof.
  split; simpl; [intros port|intros port|intros h|intros h|done].
  - apply queue_tx_spec.
  - apply queue_rx_spec.
  - apply queue_tx_spec.
  - apply queue_rx_spec.
Qed.

(** A device of a guest that accepts everything and sends nothing. *)
#[export] Instance SinkDev : VhostDev unit := {|
  vhost_enqueue_burst d ps m := Ok (zlen ps, d);
  vhost_dequeue_burst d k m := Ok ([], d, m);
  dev_port_name _ := str "vhost0"
|}.

#[export] Instance SinkDevLaws : VhostLaws unit.
Proof.
  refine {| dev_ok := fun _ => True |}.
  - intros d ps m _ _ _ _. exists (zlen ps), d. split; [done|]. split; [unfold zlen; lia|done].
  - intros d k m X _ Ho Hk. exists [], d, m. split; [done|]. split; [unfold zlen; simpl; lia|].
    split; [|done]. eapply owns_eq; [exact Ho|]. rewrite M_nil. multiset_solver.
Defined.

#[export] Instance EthOk : EthSetup := {|
  rte_eth_dev_configure _ _ _ := 0; rte_eth_rx_queue_setup _ _ := 0; rte_eth_tx_queue_setup _ _ := 0;
  rte_eth_dev_start _ := 0
|}.

#[export] Instance sample_pool : RteMbuf := Pool 1024 (replicate 1024 0) 64.
#[export] Instance sample_pool_laws : RteMbufLaws.
Proof. apply PoolLaws. by vm_compute. Qed.

(** Three clients, a KNI, a vEth, a vhost and one physical port; [lcores] are
    the enabled cores. *)
Definition sample_startup (clients : Z) (cfg_ports : list Z) (lcores : list bool) : startup :=
  Startup clients 1 1 1 [0] cfg_ports lcores 1000000000.

(** Memory with one buffer, 1. *)
Definition sample_mem : mem := Mem {[1 := Mbuf 1 64 60 60]} {[1 := replicate 128 0]}.

Definition sample_init (su : startup) : res (vst fifo unit queues) :=
  vport_init su (stats_init 4) sample_mem ([], []).

Definition sample_su : startup := sample_startup 3 [PHYPORT0] [true; true; false; false].

Lemma sample_su_ok : startup_ok sample_su.
Proof.
  unfold sample_su, sample_startup. split; cbn; unfold MAX_CLIENTS, MAX_PHYPORTS, MAX_VHOST_PORTS, su_num_phy, zlen, PHYPORT0;
    cbn; try lia; repeat (apply Forall_cons_2; [lia || reflexivity|]); apply Forall_nil_2.
Qed.

Lemma sample_mem_owns : owns sample_mem (M (drv_objs (([], []) : queues)) ⊎ ({[+ 1 +]} ⊎ ∅)).
Proof.
  split.
  - intros p b. unfold sample_mem. simpl. intros [<- <-]%lookup_singleton_Some.
    exists (replicate 128 0). split; [by rewrite lookup_singleton_eq|]. by vm_compute.
  - intros p. simpl. rewrite M_nil, !multiplicity_disj_union, multiplicity_empty.
    unfold sample_mem. simpl. rewrite multiplicity_singleton. destruct (decide (p = 1)) as [->|Hne].
    + done.
    + rewrite lookup_singleton_ne by done. done.
Qed.

Lemma sample_pinv lcore :
  0 <= lcore < 2 -> exists s, sample_init sample_su = Ok s /\ pinv 4 lcore s ({[+ 1 +]} ⊎ ∅).
Proof.
  intros Hl. destruct (vport_init_ok sample_su (stats_init 4) sample_mem (([], []) : queues) 4 lcore
    (FifoRing [] 4095) ({[+ 1 +]} ⊎ ∅)) as (s & E & Hp & _).
  - apply sample_su_ok.
  - done.
  - apply (stats_init_wf 4).
  - lia.
  - done.
  - assert (lcore = 0 \/ lcore = 1) as [->| ->] by lia; done.
  - intros _. by assert (lcore = 0 \/ lcore = 1) as [->| ->] by lia.
  - apply sample_mem_owns.
  - exists s. split; [exact E|exact Hp].
Qed.

(** The state after the example's start-up. *)
Definition sample_st : vst fifo unit queues :=
  match sample_init sample_su with
  | Ok s => s
  | Err _ => VSt [] [] [] [] [] (VCfg 0 0 0 0 0 0) [] (Stats [] []) sample_mem ([], [])
  end.

Lemma sample_st_pinv : pinv 4 0 sample_st ({[+ 1 +]} ⊎ ∅).
Proof. unfold sample_st. destruct (sample_pinv 0) as (s & -> & Hp); [lia|exact Hp]. Qed.

Lemma send_to_vport_safe_witness :
  exists rc s', send_to_vport 0 (PHYPORT0 + 3) 1 sample_st = Ok (rc, s') /\ pinv 4 0 s' ∅.
Proof. apply (send_to_vport_safe 4 0 (PHYPORT0 + 3) 1 sample_st ∅); [apply sample_st_pinv|vm_compute; congruence]. Defined.

Lemma receive_from_vport_safe_witness :
  exists ps s', receive_from_vport 0 1 sample_st = Ok (ps, s') /\ zlen ps <= PKT_BURST_SIZE /\
    pinv 4 0 s' (M ps ⊎ ({[+ 1 +]} ⊎ ∅)).
Proof. apply (receive_from_vport_safe 4 0 1 sample_st); [apply sample_st_pinv|lia]. Defined.

Lemma flush_all_drains_witness :
  exists s', (s ← flush_clients 0 sample_st; s ← flush_ports 0 s; flush_vhost_devs 0 s) = Ok s' /\
    pinv 4 0 s' ({[+ 1 +]} ⊎ ∅) /\ forall k, drained k 0 s'.
Proof. apply (flush_all_drains 4 0 sample_st). apply sample_st_pinv. Defined.

Lemma send_to_client_fifo_witness :
  exists s' q', queue_run 0 2 [Sent 1; Flushed; Taken 1] sample_st = Ok ([1], s') /\ pinv 4 0 s' (M [1] ⊎ ∅) /\ queued 0 2 s' q' 4095.
Proof.
  destruct (send_to_client_fifo 4 0 2 [Sent 1; Flushed; Taken 1] sample_st ∅ [] 4095) as (ps & s' & q' & E & Hp & Hq & _).
  - apply sample_st_pinv.
  - vm_compute. split; congruence.
  - repeat constructor; cbn; lia.
  - exists 0, [], (FifoRing [] 4095), (FifoRing [] 4095), (FifoRing [] 4095). split; [vm_compute; reflexivity|]. split; [vm_compute; reflexivity|].
    split; [vm_compute; reflexivity|]. split; [reflexivity|vm_compute; reflexivity].
  - assert (Hps : ps = [1]).
    { assert (match queue_run 0 2 [Sent 1; Flushed; Taken 1] sample_st with Ok (l, _) => l | Err _ => [] end = [1]) as H by (vm_compute; reflexivity).
      rewrite E in H. exact H. }
    subst ps. exists s', q'. split; [exact E|]. split; [exact Hp|exact Hq].
Defined.

Lemma vport_init_establishes_witness :
  exists s : vst fifo unit queues, vport_init sample_su (stats_init 4) sample_mem ([], []) = Ok s /\
    pinv 4 1 s ({[+ 1 +]} ⊎ ∅).
Proof.
  apply (vport_init_establishes sample_su (stats_init 4) sample_mem ([], []) 4 1 (FifoRing [] 4095)).
  - apply sample_su_ok.
  - reflexivity.
  - apply (stats_init_wf 4).
  - lia.
  - lia.
  - reflexivity.
  - intros _. vm_compute. reflexivity.
  - apply sample_mem_owns.
Defined.

(** the vhost caches have one row per enabled core but are indexed by the
    number of the core itself. When the enabled cores are 1 and 2, start-up
    succeeds and core 2 sending to a vhost port accesses a row that does not
    exist, while core 1 does not. *)
Theorem vhost_cache_row_out_of_bounds :
  exists s, sample_init (sample_startup 3 [PHYPORT0] [false; true; true; false]) = Ok s /\
    send_to_vport 2 VHOST0 1 s = Err OutOfBounds /\ res_ok (send_to_vport 1 VHOST0 1 s) = true.
Proof. eexists. split; [vm_compute; reflexivity|]. split; vm_compute; reflexivity. Qed.

(** with the largest number of clients the command line accepts, the
    rings of the last client are set up in the vport of the first physical port:
    the port keeps its type but its index becomes a byte of a ring's name. *)
Theorem vport_init_last_client_overwrites_port :
  exists s q, sample_init (sample_startup MAX_CLIENTS [PHYPORT0] [true; true; false; false]) = Ok s /\
    vport_get_type PHYPORT0 s = VPORT_TYPE_PHY /\ get_phy PHYPORT0 s = Ok (q, clobbered_index).
Proof. do 2 eexists. split; [vm_compute; reflexivity|]. split; vm_compute; reflexivity. Qed.

(** the built-in port configuration, used when none is given on the
    command line, has port numbers without the offset of physical ports: vport
    0, which belongs to the switch daemon, becomes a physical port, and sending
    to it accesses a cache that does not exist. *)
Theorem default_config_overwrites_vswitchd :
  exists s, sample_init (sample_startup 3 [0; 0; 0; 1; 1; 1; 2; 3; 3] [true; true; false; false]) = Ok s /\
    vport_get_type 0 s = VPORT_TYPE_PHY /\ send_to_vport 0 0 1 s = Err OutOfBounds.
Proof. eexists. split; [vm_compute; reflexivity|]. split; vm_compute; reflexivity. Qed.
