(* ===== verification/Action.v ===== *)
(** Actions on packets: [datapath/dpdk/action.c] and [ofpbuf_helper.c].

    A header rewriting action lays an [ofpbuf] over the packet's data buffer,
    calls the function of [lib/packets.c] and copies the window back into the
    buffer header.  [action_execute] runs a flow's list of actions, cloning the
    packet when there are several outputs. *)
From stdpp Require Import gmap gmultiset.
From S2P Require Import Prelude Ofpbuf Packets Stats Dpdk Flow Vport VportInit VportProps.

Definition ETHER_TYPE_VLAN : Z := 0x8100.
Definition sizeof_tcp_hdr : Z := 20.
Definition sizeof_udp_hdr : Z := 8.

(** [vlan_tagged], of a packet at offset [off] of its buffer. *)
Definition vlan_tagged (c : list Z) (off : Z) : res bool :=
  ty ← load_le 2 c (off + 12); Ok (ntohs ty =? ETHER_TYPE_VLAN).

(** [tcp_pkt], of an IPv4 header at [off]. *)
Definition tcp_pkt (c : list Z) (off : Z) : res bool :=
  proto ← load_le 1 c (off + 9); Ok (proto =? Packets.IPPROTO_TCP).

(** [overlay_ofpbuf]. *)
Definition overlay_ofpbuf (b : rte_mbuf) (c : list Z) : res ofpbuf :=
  let o := ofpbuf_use_const c (zlen c) in
  tagged ← vlan_tagged c (pkt_data b);
  let nh := pkt_data b + sizeof_ether_hdr + (if tagged : bool then sizeof_vlan_hdr else 0) in
  let th := nh + sizeof_ipv4_hdr in
  tcp ← tcp_pkt c th;
  Ok (Ofpbuf (base o) (allocated o) (source o) (pkt_data b) (pkt_len b) (Some (pkt_data b)) (l2_5 o)
        (Some nh) (Some th) (Some (th + if tcp : bool then sizeof_tcp_hdr else sizeof_udp_hdr))).

(** [update_mbuf]. *)
Definition update_mbuf (o : ofpbuf) (b : rte_mbuf) : rte_mbuf :=
  Mbuf (buf_addr b) (data o) (u16 (size o)) (u32 (size o)).

(** A function of [packets.c] between [overlay_ofpbuf] and [update_mbuf]. *)
Definition with_overlay (f : ofpbuf -> res ofpbuf) (p : Z) (m : mem) : res mem :=
  b ← mbuf_at m p;
  c ← buf_at m (buf_addr b);
  o ← overlay_ofpbuf b c;
  o ← f o;
  Ok (set_mbuf p (update_mbuf o b) (set_buf (buf_addr b) (base o) m)).

Definition action_pop_vlan : Z -> mem -> res mem := with_overlay eth_pop_vlan.

(** No memory is allocated: the overlay cannot grow. *)
Definition action_push_vlan (tci : Z) : Z -> mem -> res mem :=
  with_overlay (fun o => eth_push_vlan (fun _ => 0) o tci).

Definition action_set_ipv4 (src dst tos ttl : Z) : Z -> mem -> res mem :=
  with_overlay (fun o => packet_set_ipv4 o src dst tos ttl).

Definition action_set_tcp (src dst : Z) : Z -> mem -> res mem :=
  with_overlay (fun o => packet_set_tcp_port o src dst).

Definition action_set_udp (src dst : Z) : Z -> mem -> res mem :=
  with_overlay (fun o => packet_set_udp_port o src dst).

Definition action_set_ethernet (eth_src eth_dst : list Z) (p : Z) (m : mem) : res mem :=
  b ← mbuf_at m p;
  c ← buf_at m (buf_addr b);
  c ← store_bytes c (pkt_data b) eth_dst;
  c ← store_bytes c (pkt_data b + 6) eth_src;
  Ok (set_buf (buf_addr b) c m).

(** The rewriting actions, as [action_execute] dispatches them. *)
Definition rewrite_action (a : action) (p : Z) (m : mem) : res mem :=
  match a with
  | ACTION_POP_VLAN => action_pop_vlan p m
  | ACTION_PUSH_VLAN _ tci => action_push_vlan tci p m
  | ACTION_SET_ETHERNET src dst => action_set_ethernet src dst p m
  | ACTION_SET_IPV4 src dst _ tos ttl _ => action_set_ipv4 src dst tos ttl p m
  | ACTION_SET_TCP src dst => action_set_tcp src dst p m
  | ACTION_SET_UDP src dst => action_set_udp src dst p m
  | _ => Ok m
  end.

Definition is_output (a : action) : bool := match a with ACTION_OUTPUT _ => true | _ => false end.

(** The actions the loops visit: [i < MAX_ACTIONS && type != ACTION_NULL]. *)
Fixpoint until_null (n : nat) (actions : list action) : list action :=
  match n, actions with
  | S n, a :: actions => if is_null a then [] else a :: until_null n actions
  | _, _ => []
  end.

Definition visited (actions : list action) : list action := until_null (Z.to_nat MAX_ACTIONS) actions.

(** The loop of [check_for_multiple_output]. *)
Fixpoint multiple_output_loop (num_output_actions : Z) (actions : list action) : bool :=
  match actions with
  | [] => false
  | a :: actions =>
      if is_output a then
        if 1 <? num_output_actions + 1 then true else multiple_output_loop (num_output_actions + 1) actions
      else multiple_output_loop num_output_actions actions
  end.

Definition check_for_multiple_output (actions : list action) : bool :=
  multiple_output_loop 0 (visited actions).

Section ActionOps.
Context {ring dev drv : Type} `{Ring : RteRing ring} `{Mb : RteMbuf} `{Drv : Drivers drv} `{Vh : VhostDev dev}.

Notation sw := (vst ring dev drv).
Implicit Types s : sw.

Definition action_output (lcore port p : Z) s : res sw :=
  '(_, s) ← send_to_vport lcore port p s; Ok s.

Definition action_drop (lcore p : Z) s : res sw :=
  s ← st_free_all [p] s;
  x ← stats_vswitch_rx_drop_increment lcore INC_BY_1 (vstats s);
  Ok (set_vstats x s).

(** One iteration of the loop of [action_execute]. *)
Definition action_step (lcore : Z) (multiple_outputs : bool) (a : action) (p : Z) s : res sw :=
  match a with
  | ACTION_OUTPUT port =>
      if multiple_outputs then
        _ ← mbuf_at (vmem s) p;
        let '(mb, m) := rte_pktmbuf_clone p (vmem s) in
        let s := set_vmem m s in
        match mb with
        | Some mb => action_output lcore port mb s
        | None => Ok s
        end
      else action_output lcore port p s
  | _ => m ← rewrite_action a p (vmem s); Ok (set_vmem m s)
  end.

Fixpoint action_loop (lcore : Z) (multiple_outputs : bool) (actions : list action) (p : Z) s : res sw :=
  match actions with
  | [] => Ok s
  | a :: actions =>
      s ← action_step lcore multiple_outputs a p s;
      action_loop lcore multiple_outputs actions p s
  end.

(** [action_execute]; [None] is a null pointer. *)
Definition action_execute (lcore : Z) (actions : option (list action)) (mbuf : option Z) s : res (Z * sw) :=
  match actions, mbuf with
  | Some actions, Some p =>
      a0 ← index actions 0;
      if is_null a0 then s ← action_drop lcore p s; Ok (0, s)
      else
        let multiple_outputs := check_for_multiple_output actions in
        s ← action_loop lcore multiple_outputs (visited actions) p s;
        s ← (if multiple_outputs then st_free_all [p] s else Ok s);
        Ok (0, s)
  | _, _ => Ok (-1, s)
  end.
End ActionOps.

(** ** Lemmas: rewriting a frame *)

(** The packet has an Ethernet header, its buffer has [4 * up] bytes before it
    and room for the headers the actions look at after it, also when the packet
    starts [4 * down] bytes later.  58 = Ethernet, VLAN, IPv4 and TCP headers. *)
Definition frame_ok (up down : Z) (b : rte_mbuf) (c : list Z) : Prop :=
  bytes c /\ zlen c < 65536 /\ data_len b = pkt_len b /\ 0 <= 4 * up <= pkt_data b /\ 0 <= down /\
  14 <= pkt_len b /\ pkt_data b + pkt_len b <= zlen c /\ pkt_data b + 58 + 4 * down <= zlen c.

Definition frame_at (up down : Z) (m : mem) (p : Z) : Prop :=
  exists b c, mbufs m !! p = Some b /\ bufs m !! buf_addr b = Some c /\ frame_ok up down b c.

(** Header bytes the actions add or remove. *)
Definition pushes (a : action) : Z := match a with ACTION_PUSH_VLAN _ _ => 1 | _ => 0 end.
Definition pops (a : action) : Z := match a with ACTION_POP_VLAN => 1 | _ => 0 end.

(** The fields of an action are in the range of their C types. *)
Definition action_wf (a : action) : Prop :=
  match a with
  | ACTION_OUTPUT port => 0 <= port
  | ACTION_SET_ETHERNET src dst => bytes src /\ bytes dst /\ zlen src = 6 /\ zlen dst = 6
  | ACTION_SET_IPV4 src dst _ tos ttl _ => is_u32 src /\ is_u32 dst /\ is_u8 tos /\ is_u8 ttl
  | ACTION_SET_TCP src dst | ACTION_SET_UDP src dst => is_u16 src /\ is_u16 dst
  | _ => True
  end.

Lemma frame_ok_weaken up down up' down' b c :
  frame_ok up down b c -> 0 <= up' <= up -> 0 <= down' <= down -> frame_ok up' down' b c.
Proof. unfold frame_ok. intros (?&?&?&?&?&?&?&?) ? ?. split_and!; try done; lia. Qed.

(** The overlay's layers, for either kind of frame. *)
Definition layered (o : ofpbuf) (nh : Z) : Prop :=
  l2 o = Some (data o) /\ l3 o = Some nh /\ l4 o = Some (nh + 20) /\ l7 o <> None /\
  data o + 14 <= nh <= data o + 18.

Lemma overlay_ok up down b c :
  frame_ok up down b c ->
  exists o nh, overlay_ofpbuf b c = Ok o /\ base o = c /\ allocated o = zlen c /\
    data o = pkt_data b /\ size o = pkt_len b /\ layered o nh.
Proof.
  intros (Hb & Hz & Hl & Hup & Hd & Hs & He & Hr). unfold overlay_ofpbuf, vlan_tagged, tcp_pkt.
  destruct (load_le_ok 2 c (pkt_data b + 12)) as [ty ->]; [lia|simpl; lia|]. bind. bind.
  set (t := ntohs ty =? ETHER_TYPE_VLAN).
  destruct (load_le_ok 1 c (pkt_data b + sizeof_ether_hdr + (if t then sizeof_vlan_hdr else 0) + sizeof_ipv4_hdr + 9))
    as [pr ->]; [unfold sizeof_ether_hdr, sizeof_vlan_hdr, sizeof_ipv4_hdr; destruct t; simpl; lia..|]. bind. bind.
  eexists _, _. split; [done|]. do 4 (split; [done|]). do 2 (split; [done|]). split; [done|]. split; [done|].
  unfold sizeof_ether_hdr, sizeof_vlan_hdr. simpl. destruct t; lia.
Qed.

(** The overlay after a rewrite, and the frame it leaves. *)
Definition overlay_left (up down n : Z) (o : ofpbuf) : Prop :=
  bytes (base o) /\ zlen (base o) = n /\ 0 <= 4 * up <= data o /\ 0 <= down /\ 14 <= size o /\
  data o + size o <= n /\ data o + 58 + 4 * down <= n.

Lemma update_mbuf_frame up down b (c : list Z) o :
  zlen c < 65536 -> overlay_left up down (zlen c) o -> frame_ok up down (update_mbuf o b) (base o).
Proof.
  intros Hz (Hb & Hl & Hup & Hd & Hs & He & Hr). unfold frame_ok, update_mbuf. simpl.
  unfold u16, u32. rewrite !wrap_small by (unfold is_u; lia). split_and!; try done; lia.
Qed.

(** A rewrite in place. *)
Lemma set_base_left up down b c o m :
  frame_ok up down b c -> data o = pkt_data b -> size o = pkt_len b -> base o = c ->
  bytes m -> zlen m = zlen c -> overlay_left up down (zlen c) (set_base m o).
Proof. intros (?&?&?&?&?&?&?&?) Hd Hs ? ? ?. unfold overlay_left. simpl. rewrite Hd, Hs. split_and!; try done; lia. Qed.

Lemma overlay_wf b c o up down :
  frame_ok up down b c -> base o = c -> allocated o = zlen c -> data o = pkt_data b -> size o = pkt_len b -> ofpbuf_wf o.
Proof. intros (?&?&?&?&?&?&?&?) Hb Ha Hd Hs. unfold ofpbuf_wf. rewrite Hb, Ha, Hd, Hs. split_and!; try done; lia. Qed.

Lemma pop_vlan_left up down b c o nh :
  frame_ok up (1 + down) b c -> base o = c -> allocated o = zlen c -> data o = pkt_data b -> size o = pkt_len b ->
  layered o nh -> 0 <= down -> exists o', eth_pop_vlan o = Ok o' /\ overlay_left up down (zlen c) o'.
Proof.
  intros Hf Hb Ha Hd Hs Hl Hdn. pose proof (overlay_wf b c o _ _ Hf Hb Ha Hd Hs) as Hwf.
  assert (overlay_left up down (zlen c) o) as Hsame.
  { destruct Hf as (?&?&?&?&?&?&?&?). unfold overlay_left. rewrite Hb, Hd, Hs. split_and!; try done; lia. }
  destruct Hl as (Hl2 & _). destruct Hf as (Hbc&Hz&?&Hup&?&?&?&?).
  destruct (Z.leb_spec VLAN_ETH_HEADER_LEN (size o)) as [Hle|Hgt].
  - destruct (ld_spec 2 o (data o + 12)) as (ty & Ety & Hty & _); [by rewrite Hb|lia|rewrite Hb; simpl; lia|].
    destruct (Z.eqb_spec ty (htons ETH_TYPE_VLAN)) as [->|Hne].
    + destruct (eth_pop_vlan_spec o Hwf Hl2 Hle) as (o' & E & (Hbo & _) & _ & _ & Hd' & Hs' & Hz').
      { rewrite <- Hty. unfold load_le. by rewrite load_contents by (done || (unfold VLAN_ETH_HEADER_LEN in *; lia)). }
      exists o'. split; [done|]. unfold overlay_left. rewrite Hd', Hs', Hz', Hb. unfold VLAN_ETH_HEADER_LEN in *.
      split_and!; try done; lia.
    + exists o. split; [|done]. unfold eth_pop_vlan. rewrite (proj2 (Z.leb_le _ _) Hle), Hl2. cbn [deref]. bind.
      rewrite Ety. bind. by rewrite (proj2 (Z.eqb_neq _ _) Hne).
  - exists o. split; [|done]. unfold eth_pop_vlan. by rewrite (proj2 (Z.leb_gt _ _) Hgt).
Qed.

Lemma push_vlan_left up down b c o tci :
  frame_ok (1 + up) down b c -> base o = c -> allocated o = zlen c -> data o = pkt_data b -> size o = pkt_len b ->
  0 <= up -> pkt_data b + pkt_len b <= zlen c ->
  exists o', eth_push_vlan (fun _ => 0) o tci = Ok o' /\ overlay_left up down (zlen c) o'.
Proof.
  intros Hf Hb Ha Hd Hs Hup He. pose proof (overlay_wf b c o _ _ Hf Hb Ha Hd Hs) as Hwf.
  destruct Hf as (Hbc&Hz&?&?&?&?&?&?).
  destruct (eth_push_vlan_spec (fun _ => 0) ltac:(done) o tci Hwf) as (o' & E & (Hbo & _) & _ & _ & Hs' & Hin).
  - unfold ETH_HEADER_LEN. lia.
  - rewrite Hb. lia.
  - left. unfold VLAN_HEADER_LEN, ofpbuf_headroom. lia.
  - destruct Hin as [Hd' Hz']; [unfold VLAN_HEADER_LEN, ofpbuf_headroom; lia|].
    exists o'. split; [done|]. unfold overlay_left. rewrite Hd', Hs', Hz', Hb. split_and!; try done; lia.
Qed.

Lemma udp_port_left b th tlen src dst :
  l4_layout b th tlen -> 8 <= tlen -> is_u16 src -> is_u16 dst ->
  exists m, packet_set_udp_port b src dst = Ok (set_base m b) /\ bytes m /\ zlen m = zlen (base b).
Proof.
  intros Hlay Hlen Hs Hd. pose proof Hlay as (Hb & Hl4 & Hth & Hend). unfold packet_set_udp_port, udp_csum_off.
  rewrite Hl4. cbn [deref]. bind. destruct (ld_spec 2 b (th + 6)) as (c & -> & _); [done|lia|simpl; lia|]. bind.
  destruct (c =? 0); cbn [negb].
  - destruct (st_spec 2 b th src) as (m1 & _ & -> & Hb1 & Hz1); [done|lia|simpl; lia|]. bind.
    destruct (st_spec 2 (set_base m1 b) (th + 2) dst) as (m2 & _ & -> & Hb2 & Hz2); [done|lia|simpl; lia|].
    exists m2. simpl in *. rewrite set_base_set_base. split_and!; [done|done|congruence].
  - destruct (packet_set_ports_spec b th tlen 6 src dst Hlay) as (m & E & Hm & _ & _ & [Hz _] & _); [auto|lia|done|done|].
    apply res_bind_Ok in E as (b1 & -> & E). bind. rewrite E. bind.
    destruct (ld_spec 2 (set_base m b) (th + 6)) as (c' & -> & _); [done|lia|simpl; lia|]. bind.
    destruct (c' =? 0); [|by exists m].
    destruct (st_spec 2 (set_base m b) (th + 6) (htons 0xffff)) as (m' & _ & -> & Hb' & Hz'); [done|lia|simpl; lia|].
    exists m'. simpl in *. rewrite set_base_set_base. split_and!; [done|done|congruence].
Qed.

(** [m'] is [m] with the packet [p], of header [b] and buffer [c], rewritten. *)
Definition rewritten (up down : Z) (p : Z) (b : rte_mbuf) (c : list Z) (m m' : mem) : Prop :=
  exists b' c', mbufs m' = <[p := b']> (mbufs m) /\ bufs m' = <[buf_addr b := c']> (bufs m) /\
    buf_addr b' = buf_addr b /\ frame_ok up down b' c' /\ zlen c' = zlen c.

(** What a rewrite by overlay does to memory. *)
Lemma with_overlay_ok up down up' down' f m p b c :
  mbufs m !! p = Some b -> bufs m !! buf_addr b = Some c -> frame_ok up down b c ->
  (forall o nh, base o = c -> allocated o = zlen c -> data o = pkt_data b -> size o = pkt_len b -> layered o nh ->
     exists o', f o = Ok o' /\ overlay_left up' down' (zlen c) o') ->
  exists m', with_overlay f p m = Ok m' /\ rewritten up' down' p b c m m'.
Proof.
  intros Hp Hc Hf Hop. unfold with_overlay, mbuf_at, buf_at. rewrite Hp. bind. rewrite Hc. bind.
  destruct (overlay_ok _ _ _ _ Hf) as (o & nh & -> & Hb & Ha & Hd & Hs & Hl). bind.
  destruct (Hop o nh Hb Ha Hd Hs Hl) as (o' & -> & Hleft). bind.
  eexists. split; [done|]. exists (update_mbuf o' b), (base o'). do 3 (split; [done|]). destruct Hf as (_ & Hz & _).
  split; [by eapply update_mbuf_frame|]. by destruct Hleft as (? & ? & _).
Qed.

Lemma set_ethernet_ok up down src dst m p b c :
  mbufs m !! p = Some b -> bufs m !! buf_addr b = Some c -> frame_ok up down b c ->
  bytes src -> bytes dst -> zlen src = 6 -> zlen dst = 6 ->
  exists m', action_set_ethernet src dst p m = Ok m' /\ rewritten up down p b c m m'.
Proof.
  intros Hp Hc Hf Hbs Hbd Hzs Hzd. pose proof Hf as (Hb&?&?&?&?&?&?&?).
  unfold action_set_ethernet, mbuf_at, buf_at. rewrite Hp. bind. rewrite Hc. bind.
  destruct (store_bytes_ok c (pkt_data b) dst) as [c1 E1]; [lia..|]. rewrite E1. bind.
  pose proof (store_bytes_zlen _ _ _ _ E1) as Hz1.
  destruct (store_bytes_ok c1 (pkt_data b + 6) src) as [c2 E2]; [lia..|]. rewrite E2. bind.
  pose proof (store_bytes_zlen _ _ _ _ E2) as Hz2. eexists. split; [done|]. exists b, c2.
  split; [symmetry; by apply insert_id|]. do 2 (split; [done|]). split; [|lia]. unfold frame_ok. split_and!; try done; try lia.
  exact (store_bytes_bytes _ _ _ _ (store_bytes_bytes _ _ _ _ Hb Hbd E1) Hbs E2).
Qed.

(** Every rewriting action succeeds on a frame with room, and leaves a frame
    with the room that is left. *)
Lemma rewrite_action_ok a up down m p b c :
  mbufs m !! p = Some b -> bufs m !! buf_addr b = Some c -> action_wf a -> 0 <= up -> 0 <= down ->
  frame_ok (pushes a + up) (pops a + down) b c ->
  exists m', rewrite_action a p m = Ok m' /\ rewritten up down p b c m m'.
Proof.
  intros Hp Hc Hw Hup Hdn Hf.
  assert (frame_ok up down b c -> rewritten up down p b c m m) as Hid.
  { intros Hf'. exists b, c. by rewrite !insert_id. }
  destruct a as [|port| |tpid tci|src dst|src dst ipp tos ttl ipf|src dst|src dst|ty];
    cbn [rewrite_action pushes pops action_wf] in *; rewrite ?Z.add_0_l in Hf; try (exists m; by auto).
  - eapply with_overlay_ok; [done..|]. intros o nh Hb Ha Hd Hs Hl. by eapply pop_vlan_left.
  - eapply with_overlay_ok; [done..|]. intros o nh Hb Ha Hd Hs Hl. eapply push_vlan_left; try done. apply Hf.
  - destruct Hw as (? & ? & ? & ?). by apply set_ethernet_ok.
  - destruct Hw as (? & ? & ? & ?). eapply with_overlay_ok; [done..|]. intros o nh Hb Ha Hd Hs (_ & H3 & H4 & H7 & Hnh).
    pose proof Hf as (Hbc&?&?&?&?&?&?&?).
    destruct (ld_spec 1 o (nh + 9)) as (proto & _ & Hpr & _); [by rewrite Hb|lia|rewrite Hb; simpl; lia|].
    destruct (packet_set_ipv4_spec o nh (nh + 20) 20 proto src dst tos ttl) as (m' & E & _ & _ & _ & _ & [Hz _] & Hk); try done.
    + split_and!; try done; rewrite ?Hb; try done; lia.
    + unfold l4_header_len. destruct (_ =? _); [lia|]. destruct (_ =? _); lia.
    + exists (set_base m' o). split; [done|]. rewrite Hb in Hz. eapply set_base_left; try done. apply Hk.
  - eapply with_overlay_ok; [done..|]. intros o nh Hb Ha Hd Hs (_ & H3 & H4 & H7 & Hnh). pose proof Hf as (Hbc&?&?&?&?&?&?&?).
    destruct (packet_set_ports_spec o (nh + 20) 20 16 src dst) as (m' & E & Hm & _ & _ & [Hz _] & _); try tauto; try lia.
    { split_and!; try done; rewrite ?Hb; try done; lia. }
    exists (set_base m' o). unfold packet_set_tcp_port. rewrite H4. cbn [deref]. bind. split; [done|].
    eapply set_base_left; try done. congruence.
  - eapply with_overlay_ok; [done..|]. intros o nh Hb Ha Hd Hs (_ & H3 & H4 & H7 & Hnh). pose proof Hf as (Hbc&?&?&?&?&?&?&?).
    destruct (udp_port_left o (nh + 20) 20 src dst) as (m' & E & Hm & Hz); try tauto; try lia.
    { split_and!; try done; rewrite ?Hb; try done; lia. }
    exists (set_base m' o). split; [done|]. eapply set_base_left; try done. congruence.
Qed.

(** ** Lemmas: ownership *)

(** The packets of [X] keep their headers and the size of their buffers; the
    data may change where it is shared with a clone. *)
Definition frames_kept (X : gmultiset Z) (m m' : mem) : Prop :=
  forall q b c, q ∈ X -> mbufs m !! q = Some b -> bufs m !! buf_addr b = Some c -> bytes c ->
    exists c', mbufs m' !! q = Some b /\ bufs m' !! buf_addr b = Some c' /\ bytes c' /\ zlen c' = zlen c.

Lemma frames_kept_refl X m : frames_kept X m m.
Proof. intros q b c Hq Hb Hc Hbc. by exists c. Qed.

Lemma frames_kept_trans X m1 m2 m3 : frames_kept X m1 m2 -> frames_kept X m2 m3 -> frames_kept X m1 m3.
Proof.
  intros H1 H2 q b c Hq Hb Hc Hbc. destruct (H1 q b c Hq Hb Hc Hbc) as (c1 & Hb1 & Hc1 & Hbc1 & <-).
  by apply (H2 q b c1).
Qed.

Lemma frames_kept_mono X Y m m' : frames_kept (Y ⊎ X) m m' -> frames_kept X m m'.
Proof. intros Hk q b c Hq. apply Hk, gmultiset_elem_of_disj_union. by right. Qed.

Lemma keeps_frames X m m' : keeps X m m' -> frames_kept X m m'.
Proof.
  intros Hk q b c Hq Hb Hc Hbc. destruct (Hk q Hq) as [E1 E2]. exists c. by rewrite E1, (E2 b Hb).
Qed.

Lemma frame_ok_resize up down b c c' : frame_ok up down b c -> bytes c' -> zlen c' = zlen c -> frame_ok up down b c'.
Proof. intros (?&?&?&?&?&?&?&?) ? Hz. unfold frame_ok. rewrite Hz. split_and!; done || lia. Qed.

Lemma frames_kept_at X m m' q up down :
  frames_kept X m m' -> q ∈ X -> frame_at up down m q -> frame_at up down m' q.
Proof.
  intros Hk Hq (b & c & Hb & Hc & Hf). destruct (Hk q b c Hq Hb Hc (proj1 Hf)) as (c' & Hb' & Hc' & Hbc' & Hz).
  exists b, c'. do 2 (split; [done|]). by eapply frame_ok_resize.
Qed.

Lemma frame_at_weaken up down up' down' m p :
  frame_at up down m p -> 0 <= up' <= up -> 0 <= down' <= down -> frame_at up' down' m p.
Proof. intros (b & c & ? & ? & ?) ? ?. exists b, c. do 2 (split; [done|]). by eapply frame_ok_weaken. Qed.

Definition total (f : action -> Z) (acts : list action) : Z := foldr (fun a z => f a + z) 0 acts.

Lemma total_nonneg f acts : (forall a, 0 <= f a) -> 0 <= total f acts.
Proof. intros Hf. induction acts as [|a acts IH]; simpl; [lia|]. pose proof (Hf a). lia. Qed.

Lemma pushes_nonneg a : 0 <= pushes a.
Proof. destruct a; simpl; lia. Qed.
Lemma pops_nonneg a : 0 <= pops a.
Proof. destruct a; simpl; lia. Qed.

Section ActionInv.
Context {ring dev drv : Type} `{Ring : RteRing ring} `{!RteRingLaws ring} `{Mb : RteMbuf} `{!RteMbufLaws}
  `{Drv : Drivers drv} `{!DriversLaws drv} `{Vh : VhostDev dev} `{!VhostLaws dev}.

Notation sw := (vst ring dev drv).
Implicit Type s : sw.

Lemma owns_not_elem m p X Y : owns m (Y ⊎ ({[+ p +]} ⊎ X)) -> p ∉ X.
Proof.
  intros [_ Hm] Hp. specialize (Hm p). rewrite !multiplicity_disj_union, multiplicity_singleton_eq in Hm.
  rewrite elem_of_multiplicity in Hp. destruct (decide _); lia.
Qed.

Lemma rewritten_frames up down p b c m m' X :
  bufs m !! buf_addr b = Some c -> rewritten up down p b c m m' -> p ∉ X -> frames_kept X m m'.
Proof.
  intros Hc (b' & c' & Hm & Hb & Ha & (Hbytes & _) & Hz) Hp q bq cq Hq Eq Ecq Hf.
  assert (q <> p) by (intros ->; done). rewrite Hm, Hb, lookup_insert_ne by done.
  destruct (decide (buf_addr bq = buf_addr b)) as [E|E].
  - exists c'. rewrite E, lookup_insert_eq. assert (cq = c) as -> by congruence. done.
  - exists cq. by rewrite lookup_insert_ne.
Qed.

Lemma owns_rewritten up down p b c m m' Y :
  mbufs m !! p = Some b -> bufs m !! buf_addr b = Some c -> rewritten up down p b c m m' -> owns m Y -> owns m' Y.
Proof.
  intros Hp Hc (b' & c' & Hm & Hb & Ha & Hf & Hz) [Hwf Ho]. split.
  - intros q bq. rewrite Hm, Hb. destruct (decide (q = p)) as [->|Hne].
    + rewrite lookup_insert_eq. intros [= <-]. exists c'. rewrite Ha, lookup_insert_eq. split; [done|].
      destruct Hf as (?&?&?&?&?&?&?&?). lia.
    + rewrite lookup_insert_ne by done. intros Hq. destruct (Hwf q bq Hq) as (cq & Hcq & ?).
      destruct (decide (buf_addr bq = buf_addr b)) as [E|E].
      * exists c'. rewrite E, lookup_insert_eq. split; [done|]. assert (cq = c) as -> by congruence. lia.
      * exists cq. by rewrite lookup_insert_ne.
  - intros q. rewrite Ho, Hm. destruct (decide (q = p)) as [->|Hne].
    + rewrite lookup_insert_eq, Hp. by rewrite !decide_True by eauto.
    + by rewrite lookup_insert_ne.
Qed.

Lemma rewrite_step_ok n lcore a up down p s X :
  pinv n lcore s ({[+ p +]} ⊎ X) -> action_wf a -> 0 <= up -> 0 <= down ->
  frame_at (pushes a + up) (pops a + down) (vmem s) p ->
  exists s', (m ← rewrite_action a p (vmem s); Ok (set_vmem m s)) = Ok s' /\ pinv n lcore s' ({[+ p +]} ⊎ X) /\
    same_cfg s s' /\ frames_kept X (vmem s) (vmem s') /\ frame_at up down (vmem s') p.
Proof.
  intros [[Hwf Ho] Hs] Ha Hup Hdn (b & c & Hb & Hc & Hf).
  destruct (rewrite_action_ok a up down (vmem s) p b c Hb Hc Ha Hup Hdn Hf) as (m & -> & Hr). bind.
  eexists. split; [done|]. split; [|split; [done|split]].
  - split; [split; [by apply wf_set_vmem|]|intros k; specialize (Hs k); by destruct k].
    exact (owns_rewritten _ _ _ _ _ _ _ _ Hb Hc Hr Ho).
  - eapply rewritten_frames; [done|done|]. by eapply owns_not_elem.
  - destruct Hr as (b' & c' & Hm & Hbm & Hab & Hf' & _). exists b', c'. simpl. rewrite Hm, Hbm, Hab, !lookup_insert_eq. done.
Qed.

Lemma action_output_ok n lcore port p s X :
  pinv n lcore s ({[+ p +]} ⊎ X) -> 0 <= port ->
  exists s', action_output lcore port p s = Ok s' /\ pinv n lcore s' X /\ same_cfg s s' /\ keeps X (vmem s) (vmem s').
Proof.
  intros Hp Hport. destruct (send_to_vport_ok n lcore port p s X Hp Hport) as (rc & s' & E & ?).
  exists s'. unfold action_output. rewrite E. bind. done.
Qed.

(** An output of a clone: the packet itself stays with the caller. *)
Lemma clone_step_ok n lcore port p s X up down :
  pinv n lcore s ({[+ p +]} ⊎ X) -> 0 <= port -> frame_at up down (vmem s) p ->
  exists s', action_step lcore true (ACTION_OUTPUT port) p s = Ok s' /\ pinv n lcore s' ({[+ p +]} ⊎ X) /\
    same_cfg s s' /\ frames_kept X (vmem s) (vmem s') /\ frame_at up down (vmem s') p.
Proof.
  intros [[Hwf Ho] Hs] Hport Hf. simpl. unfold mbuf_at. destruct Hf as (b & c & Hb & Hc & Hf). rewrite Hb. bind.
  assert (frame_at up down (vmem s) p) as Hfr by (by exists b, c).
  destruct (rte_pktmbuf_clone p (vmem s)) as [[q|] m] eqn:E.
  - destruct (owns_clone _ _ p _ _ Ho ltac:(multiset_solver) E) as (Ho' & Hk & _).
    destruct (action_output_ok n lcore port q (set_vmem m s) ({[+ p +]} ⊎ X)) as (s' & -> & Hp' & Hc' & Hk'); [|done|].
    { split; [split; [by apply wf_set_vmem|]|intros k; specialize (Hs k); by destruct k].
      eapply owns_eq; [exact Ho'|]. change (owned (set_vmem m s)) with (owned s). clear. multiset_solver. }
    pose proof (keeps_trans _ _ _ _ (keeps_mono _ _ _ _ Hk) Hk') as K%keeps_frames.
    exists s'. do 3 (split; [done|]). split; [by eapply frames_kept_mono|]. eapply frames_kept_at; [exact K|clear; multiset_solver|done].
  - pose proof (clone_none _ _ _ E) as ->. eexists. split; [done|].
    split; [|split; [done|split; [apply frames_kept_refl|done]]].
    split; [split; [by apply wf_set_vmem|done]|]. intros k. specialize (Hs k). by destruct k.
Qed.

(** Actions that do not hand the packet itself over. *)
Lemma action_loop_keeps n lcore multi acts up down p s X :
  pinv n lcore s ({[+ p +]} ⊎ X) -> Forall action_wf acts -> 0 <= up -> 0 <= down ->
  multi = true \/ Forall (fun a => is_output a = false) acts ->
  frame_at (total pushes acts + up) (total pops acts + down) (vmem s) p ->
  exists s', action_loop lcore multi acts p s = Ok s' /\ pinv n lcore s' ({[+ p +]} ⊎ X) /\
    same_cfg s s' /\ frames_kept X (vmem s) (vmem s') /\ frame_at up down (vmem s') p.
Proof.
  intros Hp Hw Hup Hdn Hm. revert s Hp. induction acts as [|a acts IH]; intros s Hp Hf; simpl.
  { exists s. split; [done|]. split; [done|]. split; [done|]. split; [apply frames_kept_refl|done]. }
  inversion_clear Hw as [|? ? Ha Hacts]. simpl in Hf. rewrite <- !Z.add_assoc in Hf.
  pose proof (total_nonneg pushes acts pushes_nonneg). pose proof (total_nonneg pops acts pops_nonneg).
  assert (exists s', action_step lcore multi a p s = Ok s' /\ pinv n lcore s' ({[+ p +]} ⊎ X) /\
    same_cfg s s' /\ frames_kept X (vmem s) (vmem s') /\
    frame_at (total pushes acts + up) (total pops acts + down) (vmem s') p) as (s1 & -> & Hp1 & Hc1 & Hk1 & Hf1).
  { destruct a as [|port| | | | | | |]; try (by apply rewrite_step_ok; [..|lia|lia|]).
    destruct Hm as [->|Hno]; [|by inversion_clear Hno]. simpl in Hf. by apply clone_step_ok. }
  bind. destruct (IH Hacts) with (s := s1) as (s2 & E2 & Hp2 & Hc2 & Hk2 & Hf2); [|done|done|].
  { destruct Hm as [->|Hno]; [by left|right]. by inversion_clear Hno. }
  exists s2. split; [done|]. split; [done|]. split; [by eapply same_cfg_trans|]. split; [by eapply frames_kept_trans|done].
Qed.

Lemma action_loop_app lcore multi acts acts' p s :
  action_loop lcore multi (acts ++ acts') p s = s ← action_loop lcore multi acts p s; action_loop lcore multi acts' p s.
Proof.
  revert s. induction acts as [|a acts IH]; intros s; simpl; [done|].
  destruct (action_step lcore multi a p s) as [s1|]; [|done]. bind. by rewrite IH.
Qed.

Lemma action_drop_ok n lcore p s X :
  pinv n lcore s ({[+ p +]} ⊎ X) ->
  exists s', action_drop lcore p s = Ok s' /\ pinv n lcore s' X /\ same_cfg s s' /\ keeps X (vmem s) (vmem s').
Proof.
  intros Hp. unfold action_drop. destruct (st_drop_ok n lcore p s X Hp) as (s1 & -> & [[Hwf Ho] Hs] & Hc & Hk). bind.
  destruct (w_stats _ _ _ Hwf) as (H1 & H2 & H3).
  destruct (index_ok (vswitch_stats (vstats s1)) lcore) as [x Ex]; [rewrite H3; apply (w_lcore _ _ _ Hwf)|].
  unfold stats_vswitch_rx_drop_increment. rewrite Ex. bind. bind. eexists. split; [done|]. split; [|done].
  split; [split; [|done]|intros k; specialize (Hs k); by destruct k].
  apply wf_set_vstats; [done|]. split; [done|]. split; [done|]. simpl. by rewrite zlen_update.
Qed.

(** *** Counting outputs *)

Definition outputs (acts : list action) : Z := total (fun a => if is_output a then 1 else 0) acts.

Lemma outputs_nonneg acts : 0 <= outputs acts.
Proof. apply total_nonneg. intros a. destruct (is_output a); lia. Qed.

Lemma multiple_output_loop_spec k acts :
  0 <= k <= 1 -> multiple_output_loop k acts = (2 <=? k + outputs acts).
Proof.
  revert k. induction acts as [|a acts IH]; intros k Hk; simpl.
  { symmetry. apply Z.leb_gt. unfold outputs. simpl. lia. }
  pose proof (outputs_nonneg acts). change (outputs (a :: acts)) with ((if is_output a then 1 else 0) + outputs acts).
  destruct (is_output a); [|by rewrite IH, Z.add_0_l].
  destruct (Z.ltb_spec 1 (k + 1)); [symmetry; apply Z.leb_le; lia|]. rewrite IH by lia. f_equal. lia.
Qed.

Lemma no_output_Forall acts : outputs acts = 0 -> Forall (fun a => is_output a = false) acts.
Proof.
  induction acts as [|a acts IH]; intros H0; [constructor|]. pose proof (outputs_nonneg acts).
  change (outputs (a :: acts)) with ((if is_output a then 1 else 0) + outputs acts) in H0.
  destruct (is_output a) eqn:E; [lia|]. constructor; [done|]. by apply IH.
Qed.

Lemma outputs_app acts acts' : outputs (acts ++ acts') = outputs acts + outputs acts'.
Proof. unfold outputs. induction acts as [|a acts IH]; simpl; [done|]. lia. Qed.

Lemma visited_wf actions : Forall action_wf actions -> Forall action_wf (visited actions).
Proof.
  unfold visited. generalize (Z.to_nat MAX_ACTIONS) as k. intros k Hw. revert k.
  induction Hw as [|a actions Ha Hw IH]; intros [|k]; simpl; try constructor.
  destruct (is_null a); constructor; auto.
Qed.

Lemma visited_head actions :
  zlen actions = MAX_ACTIONS -> exists a0, index actions 0 = Ok a0 /\ (is_null a0 = true <-> visited actions = []).
Proof.
  intros Hz. destruct actions as [|a0 actions]; [done|]. exists a0. split; [done|].
  unfold visited, MAX_ACTIONS. change (Z.to_nat 48) with (S 47). cbn [until_null]. by destruct (is_null a0).
Qed.

(** A list of actions that lets go of the packet: it is dropped, it is output
    several times, or its only output comes last. *)
Definition hands_over (acts : list action) : Prop :=
  acts = [] \/ 2 <= outputs acts \/ exists pre port, acts = pre ++ [ACTION_OUTPUT port] /\ outputs pre = 0.

Lemma action_execute_ok n lcore actions p s X :
  pinv n lcore s ({[+ p +]} ⊎ X) -> zlen actions = MAX_ACTIONS -> Forall action_wf actions ->
  frame_at (total pushes (visited actions)) (total pops (visited actions)) (vmem s) p ->
  hands_over (visited actions) ->
  exists s', action_execute lcore (Some actions) (Some p) s = Ok (0, s') /\ pinv n lcore s' X /\ same_cfg s s' /\
    frames_kept X (vmem s) (vmem s').
Proof.
  intros Hp Hz Hw Hf Hh. unfold action_execute. destruct (visited_head actions Hz) as (a0 & -> & Hnull). bind.
  pose proof (visited_wf _ Hw) as Hvw. destruct (is_null a0) eqn:E0.
  { destruct (action_drop_ok n lcore p s X Hp) as (s1 & -> & Hp1 & Hc1 & Hk1). bind.
    exists s1. auto using keeps_frames. }
  assert (visited actions <> []) as Hne by (intros Hnil%Hnull; done).
  unfold check_for_multiple_output. rewrite multiple_output_loop_spec, Z.add_0_l by lia.
  destruct (Z.leb_spec 2 (outputs (visited actions))) as [H2|H1].
  - destruct (action_loop_keeps n lcore true (visited actions) 0 0 p s X) as (s1 & -> & Hp1 & Hc1 & Hk1 & _);
      rewrite ?Z.add_0_r; auto; try lia. bind.
    destruct (st_drop_ok n lcore p s1 X Hp1) as (s2 & -> & Hp2 & Hc2 & Hk2). bind.
    exists s2. do 2 (split; [done|]). split; [by eapply same_cfg_trans|]. eapply frames_kept_trans; [done|by apply keeps_frames].
  - destruct Hh as [?|[?|(pre & port & Hv & H0)]]; [done|lia|]. rewrite Hv in *.
    apply Forall_app in Hvw as [Hpre Hport]. rewrite Forall_singleton in Hport.
    destruct (action_loop_keeps n lcore false pre 0 0 p s X) as (s1 & E1 & Hp1 & Hc1 & Hk1 & _); auto; try lia.
    { right. by apply no_output_Forall. }
    { rewrite !Z.add_0_r. eapply frame_at_weaken; [done|..].
      all: split; [apply total_nonneg; auto using pushes_nonneg, pops_nonneg|].
      all: unfold total; rewrite foldr_app; simpl; rewrite ?Z.add_0_r; done. }
    rewrite action_loop_app, E1. bind. simpl.
    destruct (action_output_ok n lcore port p s1 X Hp1 Hport) as (s2 & -> & Hp2 & Hc2 & Hk2). bind. bind.
    exists s2. do 2 (split; [done|]). split; [by eapply same_cfg_trans|]. eapply frames_kept_trans; [done|by apply keeps_frames].
Qed.

(** ** Properties *)

(** C6: executing the actions of a flow on a packet with room for them never
    faults and accounts for every packet buffer: when the list drops the
    packet, outputs it several times, or ends in its only output, the caller's
    reference is gone afterwards and nothing else changed hands: not one buffer
    is lost, freed twice or freed while in use, and the other packets of the
    burst are still frames. *)
Theorem action_execute_accounts n lcore actions p s X :
  pinv n lcore s ({[+ p +]} ⊎ X) -> zlen actions = MAX_ACTIONS -> Forall action_wf actions ->
  frame_at (total pushes (visited actions)) (total pops (visited actions)) (vmem s) p ->
  hands_over (visited actions) ->
  exists s', action_execute lcore (Some actions) (Some p) s = Ok (0, s') /\ pinv n lcore s' X /\ same_cfg s s' /\
    frames_kept X (vmem s) (vmem s').
Proof. apply action_execute_ok. Qed.

(** a list with actions but no output never gives the packet back: after
    the call the buffer is still allocated although no component of the switch
    refers to it. *)
Theorem action_execute_without_output_leaks n lcore actions p s X :
  pinv n lcore s ({[+ p +]} ⊎ X) -> zlen actions = MAX_ACTIONS -> Forall action_wf actions ->
  frame_at (total pushes (visited actions)) (total pops (visited actions)) (vmem s) p ->
  visited actions <> [] -> outputs (visited actions) = 0 ->
  exists s', action_execute lcore (Some actions) (Some p) s = Ok (0, s') /\
    owns (vmem s') (owned s' ⊎ ({[+ p +]} ⊎ X)).
Proof.
  intros Hp Hz Hw Hf Hne Ho. unfold action_execute. destruct (visited_head actions Hz) as (a0 & -> & Hnull). bind.
  destruct (is_null a0); [by destruct Hne; apply Hnull|]. unfold check_for_multiple_output.
  rewrite multiple_output_loop_spec, Ho by lia. change (2 <=? 0 + 0) with false. cbv iota zeta.
  destruct (action_loop_keeps n lcore false (visited actions) 0 0 p s X) as (s1 & -> & Hp1 & _); try done.
  - by apply visited_wf.
  - right. by apply no_output_Forall.
  - by rewrite !Z.add_0_r.
  - bind. bind. exists s1. split; [done|]. apply Hp1.
Qed.
End ActionInv.

(** The bytes of a packet are the contents of its overlay. *)
Lemma packet_contents m p b c o :
  mbufs m !! p = Some b -> bufs m !! buf_addr b = Some c -> data_len b = pkt_len b ->
  base o = c -> data o = pkt_data b -> size o = pkt_len b -> ofpbuf_wf o -> packet m p = Ok (contents o).
Proof.
  intros Hp Hc Hl Hb Hd Hs Hwf. unfold packet, mbuf_at, buf_at. rewrite Hp. bind. rewrite Hc. bind.
  rewrite Hl, <- Hb, <- Hd, <- Hs. by apply contents_load.
Qed.

(** A rewrite by overlay, seen on the packet's bytes. *)
Lemma with_overlay_packet up down up' down' f m p bs (g : list Z) :
  frame_at up down m p -> packet m p = Ok bs ->
  (forall o nh, ofpbuf_wf o -> contents o = bs -> l2 o = Some (data o) -> layered o nh -> zlen (base o) < 65536 ->
     4 * up <= data o -> 14 <= size o -> data o + 58 + 4 * down <= zlen (base o) ->
     exists o', f o = Ok o' /\ ofpbuf_wf o' /\ contents o' = g /\ overlay_left up' down' (zlen (base o)) o') ->
  exists m', with_overlay f p m = Ok m' /\ frame_at up' down' m' p /\ packet m' p = Ok g.
Proof.
  intros (b & c & Hp & Hc & Hf) Hpk Hop. destruct (overlay_ok _ _ _ _ Hf) as (o & nh & Eo & Hb & Ha & Hd & Hs & Hl).
  pose proof (overlay_wf b c o _ _ Hf Hb Ha Hd Hs) as Hwf. pose proof Hf as (?&Hz&?&?&?&?&?&?).
  assert (contents o = bs) as Hcon.
  { rewrite (packet_contents m p b c o) in Hpk by done. by injection Hpk. }
  destruct (Hop o nh) as (o' & E & Hwf' & Hg & Hleft); try done; try (rewrite ?Hb, ?Hd, ?Hs; lia). { by destruct Hl. }
  unfold with_overlay, mbuf_at, buf_at. rewrite Hp. bind. rewrite Hc. bind. rewrite Eo. bind. rewrite E. bind.
  pose proof (update_mbuf_frame up' down' b c o' Hz) as Hfr. rewrite Hb in Hleft. specialize (Hfr Hleft).
  eexists. split; [done|]. split.
  - exists (update_mbuf o' b), (base o'). simpl. by rewrite !lookup_insert_eq.
  - rewrite <- Hg. destruct Hleft as (_ & Hz' & ? & _ & ? & ? & ?).
    apply (packet_contents _ _ (update_mbuf o' b) (base o')); simpl; rewrite ?lookup_insert_eq; try done.
    + unfold u16, u32. by rewrite !wrap_small by (unfold is_u; lia).
    + unfold u32. by rewrite wrap_small by (unfold is_u; lia).
Qed.

(** the VLAN actions on a packet buffer are inverse: on any frame with four
    bytes of headroom, PUSH_VLAN makes the packet four bytes longer with the
    tag after the addresses, and a POP_VLAN after it gives back exactly the
    packet before. *)
Theorem action_push_pop_vlan tci m p bs :
  frame_at 1 0 m p -> packet m p = Ok bs ->
  exists m1 m2, action_push_vlan tci p m = Ok m1 /\
    packet m1 p = Ok (take 12 bs ++ vlan_tag tci ++ drop 12 bs) /\
    action_pop_vlan p m1 = Ok m2 /\ packet m2 p = Ok bs.
Proof.
  intros Hf Hpk.
  destruct (with_overlay_packet 1 0 0 1 (fun o => eth_push_vlan (fun _ => 0) o tci) m p bs
              (take 12 bs ++ vlan_tag tci ++ drop 12 bs) Hf Hpk) as (m1 & E1 & Hf1 & Hpk1).
  { intros o nh Hwf <- _ _ Hz Hup Hs Hr. pose proof Hwf as (Hbo & Ha & ? & ? & ?).
    destruct (eth_push_vlan_spec (fun _ => 0) ltac:(done) o tci Hwf) as (o' & E & Hwf' & Hc' & _ & Hs' & Hin);
      [done|lia|left; unfold VLAN_HEADER_LEN, ofpbuf_headroom; lia|].
    destruct Hin as [Hd' Hz']; [unfold VLAN_HEADER_LEN, ofpbuf_headroom; lia|].
    exists o'. do 3 (split; [done|]). unfold overlay_left. rewrite Hd', Hs', Hz'. split_and!; try lia. apply Hwf'. }
  assert (14 <= zlen bs) as Hlen.
  { destruct Hf as (b & c & Hp & Hc & Hl). unfold packet, mbuf_at, buf_at in Hpk.
    rewrite Hp, bind_ok in Hpk. rewrite Hc, bind_ok in Hpk. apply load_bytes_len in Hpk. destruct Hl as (_&_&?&_&_&?&_). lia. }
  destruct (vlan_tagged_frame tci bs) as [Hty Hun]; [lia|].
  destruct (with_overlay_packet 0 1 0 0 eth_pop_vlan m1 p _ bs Hf1 Hpk1) as (m2 & E2 & _ & Hpk2).
  { intros o nh Hwf Hco Hl2 _ Hz Hup Hs Hr. pose proof Hwf as (Hbo & Ha & ? & ? & ?).
    assert (18 <= size o).
    { rewrite <- (zlen_contents o Hwf), Hco, !zlen_app. unfold zlen in *. rewrite length_take, length_drop.
      change (length (vlan_tag tci)) with 4%nat. lia. }
    destruct (eth_pop_vlan_spec o Hwf Hl2) as (o' & E & Hwf' & Hc' & _ & Hd' & Hs' & Hz'); [done|by rewrite Hco|].
    exists o'. do 2 (split; [done|]). split; [by rewrite Hc', Hco|].
    unfold overlay_left. rewrite Hd', Hs', Hz'. split_and!; try lia. apply Hwf'. }
  by exists m1, m2.
Qed.

(** ** Examples *)

(** An array of actions, filled up with ACTION_NULL. *)
Definition action_array (acts : list action) : list action :=
  acts ++ replicate (Z.to_nat MAX_ACTIONS - length acts) ACTION_NULL.

Definition sample_mac (x : Z) : list Z := [2; 0; 0; 0; 0; x].

Definition sample_rewrite : list action :=
  [ACTION_SET_ETHERNET (sample_mac 1) (sample_mac 2); ACTION_PUSH_VLAN 0x8100 0x64;
   ACTION_SET_IPV4 0x0100000a 0x0200000a 17 0 64 0; ACTION_SET_UDP 80 81].

Lemma bytes_forallb l : forallb (fun x => (0 <=? x) && (x <? 256)) l = true -> bytes l.
Proof.
  rewrite forallb_forall. intros Hl. apply Forall_forall. intros x Hx. specialize (Hl x Hx).
  unfold is_u8, is_u. lia.
Qed.

Lemma sample_rewrite_wf acts : Forall action_wf acts -> Forall action_wf (action_array (sample_rewrite ++ acts)).
Proof.
  intros Ha. unfold action_array. rewrite !Forall_app. split; [split; [|done]|by apply Forall_replicate].
  repeat apply Forall_cons_2; try apply Forall_nil_2; simpl; split_and?; try done; by apply bytes_forallb.
Qed.

Lemma sample_frame_at up down : 0 <= up <= 16 -> 0 <= down <= 1 -> frame_at up down (vmem sample_st) 1.
Proof.
  intros Hup Hdn. exists (Mbuf 1 64 60 60), (replicate 128 0).
  split; [vm_compute; reflexivity|]. split; [vm_compute; reflexivity|].
  assert (zlen (replicate 128 0) = 128) as Hz by done.
  split; [by apply bytes_forallb|]. rewrite Hz. cbn [data_len pkt_len pkt_data]. lia.
Qed.

Lemma action_execute_accounts_witness :
  exists s', action_execute 0 (Some (action_array (sample_rewrite ++ [ACTION_OUTPUT 1]))) (Some 1) sample_st = Ok (0, s') /\
    pinv 4 0 s' ∅ /\ same_cfg sample_st s' /\ frames_kept ∅ (vmem sample_st) (vmem s').
Proof.
  apply (action_execute_accounts 4 0 _ 1 sample_st ∅).
  - apply sample_st_pinv.
  - reflexivity.
  - apply sample_rewrite_wf. by constructor.
  - by apply sample_frame_at.
  - right. right. by exists sample_rewrite, 1.
Defined.

Lemma action_execute_without_output_leaks_witness :
  exists s', action_execute 0 (Some (action_array (sample_rewrite ++ []))) (Some 1) sample_st = Ok (0, s') /\
    owns (vmem s') (owned s' ⊎ ({[+ 1 +]} ⊎ ∅)).
Proof.
  apply (action_execute_without_output_leaks 4 0 _ 1 sample_st ∅).
  - apply sample_st_pinv.
  - reflexivity.
  - by apply sample_rewrite_wf.
  - by apply sample_frame_at.
  - discriminate.
  - reflexivity.
Defined.

Lemma action_push_pop_vlan_witness :
  exists m1 m2, action_push_vlan 0x64 1 sample_mem = Ok m1 /\
    packet m1 1 = Ok (take 12 (replicate 60 0) ++ vlan_tag 0x64 ++ drop 12 (replicate 60 0)) /\
    action_pop_vlan 1 m1 = Ok m2 /\ packet m2 1 = Ok (replicate 60 0).
Proof.
  apply (action_push_pop_vlan 0x64 sample_mem 1 (replicate 60 0)).
  - by apply (sample_frame_at 1 0).
  - reflexivity.
Defined.

(** an action after the only output works on a packet the switch no longer
    owns: here the output fails, which frees the packet, and the POP_VLAN that
    follows reads freed memory. *)
Theorem action_after_output_use_after_free :
  action_execute 0 (Some (action_array [ACTION_OUTPUT MAX_VPORTS; ACTION_POP_VLAN])) (Some 1) sample_st
  = Err UseAfterFree.
Proof. vm_compute. reflexivity. Qed.

(** The packets of client 1's cache on core 0, as the client will see them. *)
Definition cached_packets (lcore id : Z) (s : vst fifo unit queues) : res (list (list Z)) :=
  lc ← index (lcore_map s) lcore;
  c ← cache_get CClient lc (id - CLIENT1) s;
  foldr (fun p acc => b ← packet (vmem s) p; l ← acc; Ok (b :: l)) (Ok []) c.

(** the clones made for several outputs share the packet's data, so a
    rewrite between two outputs also changes the packet already output: with
    the list OUTPUT 1, SET_ETHERNET, OUTPUT 2, client 1 gets the same rewritten
    addresses as client 2. *)
Theorem rewrite_after_output_changes_sent_packet :
  exists s1 s2 b0 b1, action_execute 0 (Some (action_array [ACTION_OUTPUT 1; ACTION_OUTPUT 2])) (Some 1) sample_st = Ok (0, s1) /\
    action_execute 0 (Some (action_array [ACTION_OUTPUT 1; ACTION_SET_ETHERNET (sample_mac 1) (sample_mac 2);
                                          ACTION_OUTPUT 2])) (Some 1) sample_st = Ok (0, s2) /\
    cached_packets 0 1 s1 = Ok [b0] /\ take 12 b0 = replicate 12 0 /\
    cached_packets 0 1 s2 = Ok [b1] /\ take 12 b1 = sample_mac 2 ++ sample_mac 1 /\
    cached_packets 0 2 s2 = Ok [b1].
Proof.
  eexists _, _, _, _. split; [vm_compute; reflexivity|]. split; [vm_compute; reflexivity|].
  split; [vm_compute; reflexivity|]. split; [vm_compute; reflexivity|].
  split; [vm_compute; reflexivity|]. split; vm_compute; reflexivity.
Qed.
