(* ===== verification/Datapath.v ===== *)
(** The datapath's interface to the daemon: [datapath/dpdk/datapath.c], and
    [switch_packet] of [flow.c].

    The state adds to the vports the flow table and the five rings shared with
    the daemon.  A message is a structure stored at the start of a buffer's
    packet; it is kept beside the buffer, under the buffer's address. *)
From stdpp Require Import gmap gmultiset.
From S2P Require Import Prelude Stats Dpdk Flow Vport Action.

Definition VSWITCHD_RINGSIZE : Z := 2048.
Definition VSWITCHD_ALLOC_THRESHOLD : Z := VSWITCHD_RINGSIZE / 4.
Definition FLAG_ROOT : Z := 0x100.
Definition FLAG_MATCH : Z := 0x200.
Definition FLAG_DUMP : Z := Z.lor FLAG_ROOT FLAG_MATCH.
Definition FLAG_REPLACE : Z := 0x100.
Definition FLAG_CREATE : Z := 0x400.
Definition VPORT_CMD_FAMILY : Z := 0xE.
Definition FLOW_CMD_FAMILY : Z := 0xF.
Definition PACKET_CMD_FAMILY : Z := 0x1F.
Definition EOF : Z := -1.

(** Sizes of the structures: [flow_key] is packed (37 bytes), and the largest
    member of the message's union is [dpdk_flow_message]. *)
Definition sizeof_dpdk_upcall : Z := 38.
Definition sizeof_dpdk_message : Z := 872.

Inductive packet_cmd := PACKET_CMD_UNSPEC | PACKET_CMD_MISS | PACKET_CMD_ACTION | PACKET_CMD_EXECUTE.

(** [enum vport_cmd] and [enum flow_cmd] as they are stored. *)
Definition CMD_NEW : Z := 1.
Definition CMD_DEL : Z := 2.
Definition CMD_GET : Z := 3.

Record dpdk_vport_message := VportMsg {
  vm_id : Z; vm_cmd : Z; vm_flags : Z; vm_port_no : Z; vm_port_name : list Z; vm_type : vport_type;
  vm_stats : port_stats
}.

Record dpdk_flow_message := FlowMsg {
  fm_id : Z; fm_cmd : Z; fm_flags : Z; fm_key : flow_key; fm_stats : flow_stats; fm_actions : list action;
  fm_clear : bool
}.

(** A request: the type, and what each member of the union reads. *)
Record dpdk_message := Msg {
  m_type : Z; vport_msg : dpdk_vport_message; flow_msg : dpdk_flow_message; packet_msg : list action
}.

(** A reply: the type, and the member written last ([NoMsg] for a zeroed one). *)
Inductive reply_body := NoMsg | VportReply (r : dpdk_vport_message) | FlowReply (r : dpdk_flow_message).
Record dpdk_reply := Reply { r_type : Z; r_body : reply_body }.

Record dpdk_upcall := Upcall { u_cmd : packet_cmd; u_key : flow_key }.

Definition with_port_no (n : Z) (r : dpdk_vport_message) : dpdk_vport_message :=
  VportMsg (vm_id r) (vm_cmd r) (vm_flags r) n (vm_port_name r) (vm_type r) (vm_stats r).
Definition with_info (nm : list Z) (ty : vport_type) (x : port_stats) (r : dpdk_vport_message) : dpdk_vport_message :=
  VportMsg (vm_id r) (vm_cmd r) (vm_flags r) (vm_port_no r) nm ty x.

Definition with_flow_out (k : flow_key) (a : list action) (x : flow_stats) (r : dpdk_flow_message) : dpdk_flow_message :=
  FlowMsg (fm_id r) (fm_cmd r) (fm_flags r) k x a (fm_clear r).

Definition has_flag (flags f : Z) : bool := negb (Z.land flags f =? 0).

Record dp (ring dev drv hash : Type) := Dp {
  d_sw : vst ring dev drv;
  d_flows : flow_table hash;
  vswitchd_packet_ring : ring;
  vswitchd_message_ring : ring;
  vswitchd_reply_ring : ring;
  vswitchd_free_ring : ring;
  vswitchd_alloc_ring : ring;
  d_requests : gmap Z dpdk_message;
  d_replies : gmap Z dpdk_reply;
  d_upcalls : gmap Z dpdk_upcall;
  d_signals : Z
}.
Arguments Dp {ring dev drv hash}.
Arguments d_sw {ring dev drv hash}.
Arguments d_flows {ring dev drv hash}.
Arguments vswitchd_packet_ring {ring dev drv hash}.
Arguments vswitchd_message_ring {ring dev drv hash}.
Arguments vswitchd_reply_ring {ring dev drv hash}.
Arguments vswitchd_free_ring {ring dev drv hash}.
Arguments vswitchd_alloc_ring {ring dev drv hash}.
Arguments d_requests {ring dev drv hash}.
Arguments d_replies {ring dev drv hash}.
Arguments d_upcalls {ring dev drv hash}.
Arguments d_signals {ring dev drv hash}.

Section DatapathOps.
Context {ring dev drv hash : Type} `{Ring : RteRing ring} `{Mb : RteMbuf} `{Drv : Drivers drv} `{Vh : VhostDev dev}
  `{Hash : RteHash flow_key hash}.

Notation sw := (vst ring dev drv).
Notation dpt := (dp ring dev drv hash).
Implicit Type d : dpt.

Definition set_sw (s : sw) d : dpt :=
  Dp s (d_flows d) (vswitchd_packet_ring d) (vswitchd_message_ring d) (vswitchd_reply_ring d) (vswitchd_free_ring d)
    (vswitchd_alloc_ring d) (d_requests d) (d_replies d) (d_upcalls d) (d_signals d).
Definition set_flows (t : flow_table hash) d : dpt :=
  Dp (d_sw d) t (vswitchd_packet_ring d) (vswitchd_message_ring d) (vswitchd_reply_ring d) (vswitchd_free_ring d)
    (vswitchd_alloc_ring d) (d_requests d) (d_replies d) (d_upcalls d) (d_signals d).
Definition set_packet_ring (r : ring) (u : gmap Z dpdk_upcall) (n : Z) d : dpt :=
  Dp (d_sw d) (d_flows d) r (vswitchd_message_ring d) (vswitchd_reply_ring d) (vswitchd_free_ring d)
    (vswitchd_alloc_ring d) (d_requests d) (d_replies d) u n.
Definition set_message_ring (r : ring) d : dpt :=
  Dp (d_sw d) (d_flows d) (vswitchd_packet_ring d) r (vswitchd_reply_ring d) (vswitchd_free_ring d)
    (vswitchd_alloc_ring d) (d_requests d) (d_replies d) (d_upcalls d) (d_signals d).
Definition set_reply_ring (r : ring) (x : gmap Z dpdk_reply) d : dpt :=
  Dp (d_sw d) (d_flows d) (vswitchd_packet_ring d) (vswitchd_message_ring d) r (vswitchd_free_ring d)
    (vswitchd_alloc_ring d) (d_requests d) x (d_upcalls d) (d_signals d).
Definition set_free_ring (r : ring) d : dpt :=
  Dp (d_sw d) (d_flows d) (vswitchd_packet_ring d) (vswitchd_message_ring d) (vswitchd_reply_ring d) r
    (vswitchd_alloc_ring d) (d_requests d) (d_replies d) (d_upcalls d) (d_signals d).
Definition set_alloc_ring (r : ring) d : dpt :=
  Dp (d_sw d) (d_flows d) (vswitchd_packet_ring d) (vswitchd_message_ring d) (vswitchd_reply_ring d) (vswitchd_free_ring d)
    r (d_requests d) (d_replies d) (d_upcalls d) (d_signals d).

(** Counters of the daemon's vport, on core [lcore]. *)
Definition inc_vswitchd (c : counter) (lcore inc : Z) d : res dpt :=
  s ← st_vport_inc c lcore VSWITCHD inc (d_sw d); Ok (set_sw s d).
Definition inc_tx_drop (lcore inc : Z) d : res dpt :=
  s ← st_vswitch_tx_drop lcore inc (d_sw d); Ok (set_sw s d).
Definition free_buf (p : Z) d : res dpt := s ← st_free_all [p] (d_sw d); Ok (set_sw s d).

(** *** Packets to the daemon *)

(** The end of [send_packet_to_vswitchd]: the packet with its upcall goes to the
    daemon's ring.  A signal is counted. *)
Definition enqueue_upcall (lcore p : Z) (info : dpdk_upcall) d : res dpt :=
  let cnt := rte_ring_count (vswitchd_packet_ring d) in
  let '(rslt, r) := rte_ring_enqueue p (vswitchd_packet_ring d) in
  let d := set_packet_ring r (<[p := info]> (d_upcalls d)) (d_signals d) d in
  if (rslt <? 0) && (rslt =? - ENOBUFS) then
    d ← free_buf p d;
    d ← inc_tx_drop lcore INC_BY_1 d;
    inc_vswitchd C_tx_drop lcore INC_BY_1 d
  else
    d ← (if rslt <? 0 then inc_vswitchd C_overrun lcore INC_BY_1 d else Ok d);
    d ← inc_vswitchd C_tx lcore INC_BY_1 d;
    if (cnt =? 0) && (0 <? rte_ring_count r)
    then Ok (set_packet_ring r (d_upcalls d) (d_signals d + 1) d) else Ok d.

(** [send_packet_to_vswitchd]. *)
Definition send_packet_to_vswitchd (lcore p : Z) (info : dpdk_upcall) d : res dpt :=
  let m := vmem (d_sw d) in
  b ← mbuf_at m p;
  let m := set_mbuf p (Mbuf (buf_addr b) (pkt_data b) (data_len b) (data_len b)) m in
  let '(mbuf_ptr, m) := rte_pktmbuf_prepend p sizeof_dpdk_upcall m in
  let d := set_sw (set_vmem m (d_sw d)) d in
  match mbuf_ptr with
  | None =>
      d ← free_buf p d;
      d ← inc_tx_drop lcore INC_BY_1 d;
      inc_vswitchd C_tx_drop lcore INC_BY_1 d
  | Some _ => enqueue_upcall lcore p info d
  end.

(** [switch_packet].  [seen] is what [flow_table_update_stats] reads through the
    packet's pointer after [action_execute]: the buffer, the packet's offset and
    its length.  The packet may be another core's, or free, by then. *)
Definition switch_packet (c : clock) (seen : sw -> Z -> list Z * Z * Z) (lcore p : Z) (key : flow_key) d : res dpt :=
  let miss := send_packet_to_vswitchd lcore p (Upcall PACKET_CMD_MISS key) d in
  let pos := flow_table_lookup (d_flows d) key in
  if 0 <=? pos then
    e ← index (table (d_flows d)) pos;
    if e_enabled e then
      '(_, s) ← action_execute lcore (Some (e_actions e)) (Some p) (d_sw d);
      let '(buf, off, len) := seen s p in
      t ← flow_table_update_stats c pos buf off len (d_flows d);
      Ok (set_flows t (set_sw s d))
    else miss
  else miss.

(** *** Replies *)

(** The end of [send_reply_to_vswitchd]. *)
Definition enqueue_reply (lcore : Z) (reply : dpdk_reply) (p : Z) d : res dpt :=
  let '(rslt, r) := rte_ring_enqueue p (vswitchd_reply_ring d) in
  let d := set_reply_ring r (<[p := reply]> (d_replies d)) d in
  if rslt <? 0 then
    if rslt =? - ENOBUFS then
      d ← free_buf p d;
      d ← inc_tx_drop lcore INC_BY_1 d;
      inc_vswitchd C_rx_drop lcore INC_BY_1 d
    else
      d ← inc_vswitchd C_overrun lcore INC_BY_1 d;
      inc_vswitchd C_rx lcore INC_BY_1 d
  else inc_vswitchd C_rx lcore INC_BY_1 d.

(** [send_reply_to_vswitchd]. *)
Definition send_reply_to_vswitchd (lcore : Z) (reply : dpdk_reply) d : res dpt :=
  let '(mbuf, m) := rte_pktmbuf_alloc (vmem (d_sw d)) in
  let d := set_sw (set_vmem m (d_sw d)) d in
  match mbuf with
  | None =>
      d ← inc_tx_drop lcore INC_BY_1 d;
      inc_vswitchd C_rx_drop lcore INC_BY_1 d
  | Some p =>
      b ← mbuf_at m p;
      c ← buf_at m (buf_addr b);
      if zlen c <? pkt_data b + sizeof_dpdk_message then Err OutOfBounds else
      let m := set_mbuf p (Mbuf (buf_addr b) (pkt_data b) sizeof_dpdk_message (pkt_len b)) m in
      let d := set_sw (set_vmem m (d_sw d)) d in
      enqueue_reply lcore reply p d
  end.

Definition handle_unknown_cmd (lcore : Z) d : res dpt := send_reply_to_vswitchd lcore (Reply EINVAL NoMsg) d.

(** *** Vport commands: the reply and the new vports *)

(** [vport_cmd_new].  The array [port_name] is never a null pointer, so the
    name is always set, with the requested name as the format. *)
Definition vport_new (request : dpdk_vport_message) (s : sw) : res (dpdk_reply * sw) :=
  let port_type := vm_type request in
  let port_no := if bool_decide (port_type = VPORT_TYPE_PHY) then u32 (vm_port_no request + PHYPORT0)
                 else vm_port_no request in
  valid ← (if vport_exists port_no s then vport_id_is_valid port_no port_type s else Ok false);
  let port_no := if valid : bool then port_no else vport_next_available_index port_type s in
  if vport_exists port_no s && bool_decide (port_type <> VPORT_TYPE_BRIDGE) then
    if negb (vport_is_enabled port_no s) then
      let s := vport_enable port_no s in
      text ← format0 (vm_port_name request);
      let s := vport_set_name port_no text s in
      Ok (Reply 0 (VportReply (with_port_no port_no request)), s)
    else Ok (Reply EBUSY (VportReply request), s)
  else Ok (Reply ENODEV (VportReply request), s).

(** [vport_cmd_del]: the number is cut to 16 bits. *)
Definition vport_del (request : dpdk_vport_message) (s : sw) : dpdk_reply * sw :=
  let port_no := u16 (vm_port_no request) in
  if vport_exists port_no s && vport_is_enabled port_no s
  then (Reply 0 (VportReply request), vport_disable port_no s)
  else (Reply ENODEV (VportReply request), s).

(** [vport_cmd_get]. *)
Definition vport_get (request : dpdk_vport_message) (s : sw) : res dpdk_reply :=
  let request := if vm_port_no request =? UINT32_MAX
                 then with_port_no (vport_name_to_portid (vm_port_name request) s) request else request in
  let port_no := vm_port_no request in
  if vport_exists port_no s && vport_is_enabled port_no s then
    x ← stats_vport_get port_no (vstats s);
    name ← match vport_get_name port_no s with Some nm => Ok nm | None => Err NullDeref end;
    Ok (Reply 0 (VportReply (with_info (take (Z.to_nat MAX_VPORT_NAME_SIZE) name) (vport_get_type port_no s) x request)))
  else Ok (Reply ENODEV (VportReply request)).

(** The loop of [vport_cmd_dump] from [port_no] on, over at most [n] numbers. *)
Fixpoint dump_loop (n : nat) (port_no : Z) (s : sw) : Z :=
  match n with
  | O => port_no
  | S n => if (port_no <? MAX_VPORTS) && negb (vport_is_enabled port_no s)
           then dump_loop n (port_no + 1) s else port_no
  end.

(** [vport_cmd_dump]. *)
Definition vport_dump (request : dpdk_vport_message) (s : sw) : res dpdk_reply :=
  let port_no := if vm_port_no request =? UINT32_MAX then 1 else u32 (vm_port_no request + 1) in
  let port_no := dump_loop (Z.to_nat MAX_VPORTS) port_no s in
  let request := with_port_no port_no request in
  if port_no <? MAX_VPORTS then
    x ← stats_vport_get port_no (vstats s);
    Ok (Reply 0 (VportReply (with_info (vm_port_name request) (vport_get_type port_no s) x request)))
  else Ok (Reply EOF (VportReply request)).

Definition vport_cmd_new (lcore : Z) (request : dpdk_vport_message) d : res dpt :=
  '(reply, s) ← vport_new request (d_sw d); send_reply_to_vswitchd lcore reply (set_sw s d).
Definition vport_cmd_del (lcore : Z) (request : dpdk_vport_message) d : res dpt :=
  let '(reply, s) := vport_del request (d_sw d) in send_reply_to_vswitchd lcore reply (set_sw s d).
Definition vport_cmd_get (lcore : Z) (request : dpdk_vport_message) d : res dpt :=
  reply ← vport_get request (d_sw d); send_reply_to_vswitchd lcore reply d.
Definition vport_cmd_dump (lcore : Z) (request : dpdk_vport_message) d : res dpt :=
  reply ← vport_dump request (d_sw d); send_reply_to_vswitchd lcore reply d.

Definition handle_vport_cmd (lcore : Z) (request : dpdk_vport_message) d : res dpt :=
  if vm_cmd request =? CMD_NEW then vport_cmd_new lcore request d
  else if vm_cmd request =? CMD_DEL then vport_cmd_del lcore request d
  else if vm_cmd request =? CMD_GET then
    if has_flag (vm_flags request) FLAG_DUMP then vport_cmd_dump lcore request d else vport_cmd_get lcore request d
  else handle_unknown_cmd lcore d.

(** *** Flow commands: the reply and the new table *)

(** The statistics that [flow_table_get_flow] copies into the request, if any. *)
Definition copy_stats (out : option flow_out) (r : dpdk_flow_message) : dpdk_flow_message :=
  match out with Some (_, _, x) => with_flow_out (fm_key r) (fm_actions r) x r | None => r end.

(** [flow_cmd_new]. *)
Definition flow_new (c : clock) (request : dpdk_flow_message) (t : flow_table hash) : res (dpdk_reply * flow_table hash) :=
  if flow_table_lookup t (fm_key request) <? 0 then
    if has_flag (fm_flags request) FLAG_CREATE then
      '(_, t) ← flow_table_add_flow (fm_key request) (fm_actions request) t;
      Ok (Reply 0 (FlowReply request), t)
    else Ok (Reply ENOENT (FlowReply request), t)
  else if has_flag (fm_flags request) FLAG_REPLACE then
    '(_, out) ← flow_table_get_flow c (fm_key request) t;
    let request := copy_stats out request in
    '(_, t) ← flow_table_mod_flow (fm_key request) (fm_actions request) (fm_clear request) t;
    Ok (Reply 0 (FlowReply request), t)
  else Ok (Reply EEXIST (FlowReply request), t).

(** [flow_cmd_del]. *)
Definition flow_del (c : clock) (request : dpdk_flow_message) (t : flow_table hash) : res (dpdk_reply * flow_table hash) :=
  if decide (fm_key request = empty_key) then
    t ← flow_table_del_all t; Ok (Reply 0 (FlowReply request), t)
  else if flow_table_lookup t (fm_key request) <? 0 then Ok (Reply ENOENT (FlowReply request), t)
  else
    '(_, out) ← flow_table_get_flow c (fm_key request) t;
    let request := copy_stats out request in
    '(_, t) ← flow_table_del_flow (fm_key request) t;
    Ok (Reply 0 (FlowReply request), t).

(** [flow_cmd_get]. *)
Definition flow_get (c : clock) (request : dpdk_flow_message) (t : flow_table hash) : res dpdk_reply :=
  '(ret, out) ← flow_table_get_flow c (fm_key request) t;
  let request := match out with Some (_, a, x) => with_flow_out (fm_key request) a x request | None => request end in
  Ok (Reply (if ret <? 0 then ENOENT else 0) (FlowReply request)).

(** [flow_cmd_dump]. *)
Definition flow_dump_reply (c : clock) (request : dpdk_flow_message) (t : flow_table hash) : res dpdk_reply :=
  '(ret, out) ← flow_dump_step c (fm_key request) t;
  if 0 <=? ret then
    let '(k, a, x) := match out with Some o => o | None => (empty_key, fm_actions request, zero_stats) end in
    Ok (Reply 0 (FlowReply (with_flow_out k a x request)))
  else Ok (Reply EOF (FlowReply request)).

Definition flow_cmd_new (c : clock) (lcore : Z) (request : dpdk_flow_message) d : res dpt :=
  '(reply, t) ← flow_new c request (d_flows d); send_reply_to_vswitchd lcore reply (set_flows t d).
Definition flow_cmd_del (c : clock) (lcore : Z) (request : dpdk_flow_message) d : res dpt :=
  '(reply, t) ← flow_del c request (d_flows d); send_reply_to_vswitchd lcore reply (set_flows t d).
Definition flow_cmd_get (c : clock) (lcore : Z) (request : dpdk_flow_message) d : res dpt :=
  reply ← flow_get c request (d_flows d); send_reply_to_vswitchd lcore reply d.
Definition flow_cmd_dump (c : clock) (lcore : Z) (request : dpdk_flow_message) d : res dpt :=
  reply ← flow_dump_reply c request (d_flows d); send_reply_to_vswitchd lcore reply d.

Definition handle_flow_cmd (c : clock) (lcore : Z) (request : dpdk_flow_message) d : res dpt :=
  if fm_cmd request =? CMD_NEW then flow_cmd_new c lcore request d
  else if fm_cmd request =? CMD_DEL then flow_cmd_del c lcore request d
  else if fm_cmd request =? CMD_GET then
    if has_flag (fm_flags request) FLAG_DUMP then flow_cmd_dump c lcore request d else flow_cmd_get c lcore request d
  else handle_unknown_cmd lcore d.

(** *** Requests *)

Definition handle_packet_cmd (lcore : Z) (actions : list action) (p : Z) d : res dpt :=
  '(_, s) ← action_execute lcore (Some actions) (Some p) (d_sw d); Ok (set_sw s d).

(** [handle_vswitchd_cmd]. *)
Definition handle_vswitchd_cmd (c : clock) (lcore p : Z) d : res dpt :=
  _ ← mbuf_at (vmem (d_sw d)) p;
  request ← match d_requests d !! p with Some r => Ok r | None => Err NullDeref end;
  if m_type request =? VPORT_CMD_FAMILY then
    d ← handle_vport_cmd lcore (vport_msg request) d; free_buf p d
  else if m_type request =? FLOW_CMD_FAMILY then
    d ← handle_flow_cmd c lcore (flow_msg request) d; free_buf p d
  else if m_type request =? PACKET_CMD_FAMILY then
    let '(_, m) := rte_pktmbuf_adj p sizeof_dpdk_message (vmem (d_sw d)) in
    handle_packet_cmd lcore (packet_msg request) p (set_sw (set_vmem m (d_sw d)) d)
  else
    d ← handle_unknown_cmd lcore d; free_buf p d.

Fixpoint handle_cmds (c : clock) (lcore : Z) (ps : list Z) d : res dpt :=
  match ps with
  | [] => Ok d
  | p :: ps => d ← handle_vswitchd_cmd c lcore p d; handle_cmds c lcore ps d
  end.

(** The inner loop of the refill: up to [n] buffers. *)
Fixpoint alloc_burst (n : nat) (m : mem) : list Z * mem :=
  match n with
  | O => ([], m)
  | S n =>
      let '(mbuf, m) := rte_pktmbuf_alloc m in
      match mbuf with
      | Some p => let '(ps, m) := alloc_burst n m in (p :: ps, m)
      | None => ([], m)
      end
  end.

(** The refill of the daemon's buffers.  It has no bound in the code. *)
Fixpoint alloc_loop (fuel : nat) d : res dpt :=
  match fuel with
  | O => Err OutOfFuel
  | S fuel =>
      if rte_ring_count (vswitchd_alloc_ring d) <? VSWITCHD_ALLOC_THRESHOLD then
        let '(ps, m) := alloc_burst (Z.to_nat PKT_BURST_SIZE) (vmem (d_sw d)) in
        let d := set_sw (set_vmem m (d_sw d)) d in
        let d := if 0 <? zlen ps
                 then set_alloc_ring (snd (rte_ring_enqueue_bulk ps (vswitchd_alloc_ring d))) d else d in
        alloc_loop fuel d
      else Ok d
  end.

(** The first part of [handle_request_from_vswitchd]: the requests, and the
    buffers the daemon gives back. *)
Definition serve_requests (c : clock) (lcore : Z) d : res dpt :=
  let '(ps, r) := rte_ring_dequeue_burst PKT_BURST_SIZE (vswitchd_message_ring d) in
  let d := set_message_ring r d in
  d ← inc_vswitchd C_rx lcore (zlen ps) d;
  d ← handle_cmds c lcore ps d;
  let '(fs, r) := rte_ring_dequeue_burst PKT_BURST_SIZE (vswitchd_free_ring d) in
  let d := set_free_ring r d in
  s ← st_free_all fs (d_sw d);
  Ok (set_sw s d).

(** [handle_request_from_vswitchd]. *)
Definition handle_request_from_vswitchd (fuel : nat) (c : clock) (lcore : Z) d : res dpt :=
  d ← serve_requests c lcore d; alloc_loop fuel d.

(** [datapath_init]: the rings. *)
Definition datapath_init (s : sw) (t : flow_table hash) : res dpt :=
  let create := match rte_ring_create VSWITCHD_RINGSIZE with Some r => Ok r | None => Err RteExit end in
  pr ← create; rr ← create; mr ← create; fr ← create; ar ← create;
  Ok (Dp s t pr mr rr fr ar ∅ ∅ ∅ 0).
End DatapathOps.

(** ** Invariant *)

Section DatapathInv.
Context {ring dev drv hash : Type} `{Ring : RteRing ring} `{!RteRingLaws ring} `{Mb : RteMbuf} `{!RteMbufLaws}
  `{Drv : Drivers drv} `{!DriversLaws drv} `{Vh : VhostDev dev} `{!VhostLaws dev}
  `{Hash : RteHash flow_key hash} `{!RteHashLaws flow_key hash MAX_FLOWS}.

Notation sw := (vst ring dev drv).
Notation dpt := (dp ring dev drv hash).
Implicit Type d : dpt.

(** The buffers in the rings shared with the daemon. *)
Definition rings_objs d : gmultiset Z :=
  M (ring_objs (vswitchd_packet_ring d)) ⊎ M (ring_objs (vswitchd_message_ring d)) ⊎
  M (ring_objs (vswitchd_reply_ring d)) ⊎ M (ring_objs (vswitchd_free_ring d)) ⊎ M (ring_objs (vswitchd_alloc_ring d)).

(** The live buffers are those of the vports, of the rings, and [X]. *)
Definition dpinv (n lcore : Z) d (X : gmultiset Z) : Prop := pinv n lcore (d_sw d) (rings_objs d ⊎ X).

(** Actions that can be executed on a frame with room for [U] pushes and [D]
    pops, and that let go of the packet. *)
Definition actions_ok (U D : Z) (actions : list action) : Prop :=
  zlen actions = MAX_ACTIONS /\ Forall action_wf actions /\ hands_over (visited actions) /\
  total pushes (visited actions) <= U /\ total pops (visited actions) <= D.

Definition table_ok (U D : Z) (t : flow_table hash) : Prop :=
  ft_wf t /\ forall k a x, flow_map t k = Some (a, x) -> actions_ok U D a.

(** What an operation that works for the daemon leaves alone. *)
Definition dframe (X : gmultiset Z) d d' : Prop :=
  same_cfg (d_sw d) (d_sw d') /\ frames_kept X (vmem (d_sw d)) (vmem (d_sw d')).

Lemma dframe_trans X d1 d2 d3 : dframe X d1 d2 -> dframe X d2 d3 -> dframe X d1 d3.
Proof. intros [] []. split; [by eapply same_cfg_trans|by eapply frames_kept_trans]. Qed.

Lemma dframe_same X d d' :
  vmem (d_sw d') = vmem (d_sw d) -> same_cfg (d_sw d) (d_sw d') -> dframe X d d'.
Proof. intros Hm Hc. split; [done|]. rewrite Hm. apply frames_kept_refl. Qed.

Lemma dframe_mono Y X d d' : dframe (Y ⊎ X) d d' -> dframe X d d'.
Proof. intros []. split; [done|]. by eapply frames_kept_mono. Qed.

Lemma pinv_eq n lcore (s : sw) X Y : pinv n lcore s X -> X = Y -> pinv n lcore s Y.
Proof. by intros ? <-. Qed.

Lemma pinv_set_vstats n lcore x (s : sw) X : pinv n lcore s X -> stats_wf n x -> pinv n lcore (set_vstats x s) X.
Proof.
  intros [[Hwf Ho] Hs] Hx. split; [split; [by apply wf_set_vstats|done]|]. intros k. specialize (Hs k). by destruct k.
Qed.

Lemma pinv_set_vmem n lcore m (s : sw) X Y :
  pinv n lcore s X -> (owns (vmem s) (owned s ⊎ X) -> owns m (owned s ⊎ Y)) -> pinv n lcore (set_vmem m s) Y.
Proof.
  intros [[Hwf Ho] Hs] Hm. split; [split; [by apply wf_set_vmem|by apply Hm]|]. intros k. specialize (Hs k). by destruct k.
Qed.

(** Counting changes nothing but the statistics. *)
Lemma inc_vswitchd_ok n lcore ct inc d X :
  dpinv n lcore d X ->
  exists x, inc_vswitchd ct lcore inc d = Ok (set_sw (set_vstats x (d_sw d)) d) /\
    dpinv n lcore (set_sw (set_vstats x (d_sw d)) d) X.
Proof.
  intros Hp. destruct (stat_pinv n lcore ct VSWITCHD inc (d_sw d) _ Hp) as (x & E & Hp'); [done|].
  exists x. unfold inc_vswitchd. rewrite E. bind. done.
Qed.

Lemma inc_tx_drop_ok n lcore inc d X :
  dpinv n lcore d X ->
  exists x, inc_tx_drop lcore inc d = Ok (set_sw (set_vstats x (d_sw d)) d) /\
    dpinv n lcore (set_sw (set_vstats x (d_sw d)) d) X.
Proof.
  intros [[Hwf Ho] Hs]. destruct (st_vswitch_tx_drop_ok n lcore inc (d_sw d) Hwf) as (x & E & Hwf').
  exists x. unfold inc_tx_drop. rewrite E. bind. split; [done|]. split; [done|]. intros k. specialize (Hs k). by destruct k.
Qed.

Lemma free_buf_ok n lcore p d X :
  dpinv n lcore d ({[+ p +]} ⊎ X) ->
  exists s, free_buf p d = Ok (set_sw s d) /\ dpinv n lcore (set_sw s d) X /\ dframe X d (set_sw s d) /\
    vports s = vports (d_sw d).
Proof.
  intros Hp. destruct (st_drop_ok n lcore p (d_sw d) (rings_objs d ⊎ X)) as (s & E & Hp' & Hc & Hk).
  { eapply pinv_eq; [exact Hp|]. clear. multiset_solver. }
  exists s. unfold free_buf. rewrite E. bind. split; [done|]. split; [done|].
  split; [split; [done|]; eapply frames_kept_mono, keeps_frames, Hk|].
  unfold st_free_all in E. apply res_bind_Ok in E as (m & _ & E). by injection E as <-.
Qed.

(** The three steps of a packet that cannot be sent: it is freed and counted. *)
Lemma drop_buf_ok n lcore ct p d X :
  dpinv n lcore d ({[+ p +]} ⊎ X) ->
  exists s, (d ← free_buf p d; d ← inc_tx_drop lcore INC_BY_1 d; inc_vswitchd ct lcore INC_BY_1 d) = Ok (set_sw s d) /\
    dpinv n lcore (set_sw s d) X /\ dframe X d (set_sw s d) /\ vports s = vports (d_sw d).
Proof.
  intros Hp. destruct (free_buf_ok n lcore p d X Hp) as (s & -> & Hp1 & Hf1 & Hv1). bind.
  destruct (inc_tx_drop_ok n lcore INC_BY_1 _ _ Hp1) as (x & -> & Hp2). bind.
  destruct (inc_vswitchd_ok n lcore ct INC_BY_1 _ _ Hp2) as (y & -> & Hp3). eexists. done.
Qed.

(** Rewriting a header in place. *)
Lemma set_mbuf_owns m p b c b' Y :
  owns m Y -> mbufs m !! p = Some b -> bufs m !! buf_addr b = Some c -> buf_addr b' = buf_addr b ->
  0 <= pkt_data b' -> 0 <= data_len b' -> pkt_data b' + data_len b' <= zlen c -> owns (set_mbuf p b' m) Y.
Proof.
  intros [Hwf Ho] Hp Hc Ha H1 H2 H3. split.
  - intros q bq. simpl. destruct (decide (q = p)) as [->|Hne].
    + rewrite lookup_insert_eq. intros [= <-]. exists c. rewrite Ha. done.
    + rewrite lookup_insert_ne by done. apply Hwf.
  - intros q. rewrite Ho. simpl. destruct (decide (q = p)) as [->|Hne].
    + rewrite lookup_insert_eq, Hp. by rewrite !decide_True by eauto.
    + by rewrite lookup_insert_ne.
Qed.

Lemma set_mbuf_frames m p b' X : p ∉ X -> frames_kept X m (set_mbuf p b' m).
Proof.
  intros Hp q b c Hq Hb Hc Hbc. exists c. simpl. rewrite lookup_insert_ne; [done|]. intros ->. done.
Qed.

Lemma dpinv_set_mbuf n lcore p b c b' d X :
  dpinv n lcore d ({[+ p +]} ⊎ X) -> mbufs (vmem (d_sw d)) !! p = Some b -> bufs (vmem (d_sw d)) !! buf_addr b = Some c ->
  buf_addr b' = buf_addr b -> 0 <= pkt_data b' -> 0 <= data_len b' -> pkt_data b' + data_len b' <= zlen c ->
  let d' := set_sw (set_vmem (set_mbuf p b' (vmem (d_sw d))) (d_sw d)) d in
  dpinv n lcore d' ({[+ p +]} ⊎ X) /\ dframe X d d'.
Proof.
  intros Hp Hb Hc Ha H1 H2 H3 d'. split; [|split; [done|]].
  - eapply pinv_set_vmem; [exact Hp|]. intros Ho. by eapply set_mbuf_owns.
  - apply set_mbuf_frames. eapply (owns_not_elem (vmem (d_sw d)) p X (owned (d_sw d) ⊎ rings_objs d)).
    eapply owns_eq; [apply Hp|]. clear. multiset_solver.
Qed.

(** A buffer moves from the caller to the end of a ring. *)
Lemma dpinv_packet_ring n lcore p r u k d X :
  dpinv n lcore d ({[+ p +]} ⊎ X) -> ring_objs r = ring_objs (vswitchd_packet_ring d) ++ [p] ->
  dpinv n lcore (set_packet_ring r u k d) X.
Proof.
  intros Hp Hr. eapply pinv_eq; [exact Hp|]. unfold rings_objs. simpl. rewrite Hr, M_app, M_cons, M_nil. clear. multiset_solver.
Qed.

Lemma dpinv_reply_ring n lcore p r x d X :
  dpinv n lcore d ({[+ p +]} ⊎ X) -> ring_objs r = ring_objs (vswitchd_reply_ring d) ++ [p] ->
  dpinv n lcore (set_reply_ring r x d) X.
Proof.
  intros Hp Hr. eapply pinv_eq; [exact Hp|]. unfold rings_objs. simpl. rewrite Hr, M_app, M_cons, M_nil. clear. multiset_solver.
Qed.

(** The upcall's header: the length of the one segment, and the information
    prepended. *)
Definition upcall_header (b : rte_mbuf) : rte_mbuf :=
  Mbuf (buf_addr b) (pkt_data b - sizeof_dpdk_upcall) (data_len b + sizeof_dpdk_upcall) (data_len b + sizeof_dpdk_upcall).

(** The rings other than the one for packets. *)
Definition rings_kept d d' : Prop :=
  vswitchd_reply_ring d' = vswitchd_reply_ring d /\ vswitchd_message_ring d' = vswitchd_message_ring d /\
  vswitchd_free_ring d' = vswitchd_free_ring d /\ vswitchd_alloc_ring d' = vswitchd_alloc_ring d.

Lemma enqueue_upcall_ok n lcore p info d X :
  dpinv n lcore d ({[+ p +]} ⊎ X) ->
  let r := vswitchd_packet_ring d in
  exists d', enqueue_upcall lcore p info d = Ok d' /\ dpinv n lcore d' X /\ dframe X d d' /\
    d_flows d' = d_flows d /\ d_requests d' = d_requests d /\
    if zlen (ring_objs r) <? ring_cap r then
      ring_objs (vswitchd_packet_ring d') = ring_objs r ++ [p] /\ d_upcalls d' !! p = Some info /\
      vmem (d_sw d') = vmem (d_sw d) /\ d_signals d' = d_signals d + (if zlen (ring_objs r) =? 0 then 1 else 0) /\
      rings_kept d d'
    else vswitchd_packet_ring d' = r /\ d_signals d' = d_signals d.
Proof.
  intros Hp. cbv zeta. unfold enqueue_upcall.
  destruct (rte_ring_enqueue p (vswitchd_packet_ring d)) as [rslt r] eqn:Er.
  destruct (ring_enqueue_spec _ _ _ _ Er) as [_ Hr].
  destruct (Z.ltb_spec (zlen (ring_objs (vswitchd_packet_ring d))) (ring_cap (vswitchd_packet_ring d))).
  - destruct Hr as [Hrc Ho]. assert ((rslt <? 0) && (rslt =? - ENOBUFS) = false) as -> by (by destruct Hrc as [->| ->]).
    pose proof (dpinv_packet_ring n lcore p r (<[p := info]> (d_upcalls d)) (d_signals d) d X Hp Ho) as Hp1.
    set (d1 := set_packet_ring r _ _ d) in *.
    assert (exists x, (if rslt <? 0 then inc_vswitchd C_overrun lcore INC_BY_1 d1 else Ok d1) = Ok (set_sw (set_vstats x (d_sw d)) d1) /\
      dpinv n lcore (set_sw (set_vstats x (d_sw d)) d1) X) as (x & -> & Hp2).
    { destruct (rslt <? 0); [by apply (inc_vswitchd_ok n lcore C_overrun INC_BY_1 d1 X)|].
      exists (vstats (d_sw d)). assert (set_sw (set_vstats (vstats (d_sw d)) (d_sw d)) d1 = d1) as ->; [|done].
      unfold d1, set_sw, set_packet_ring. simpl. by destruct (d_sw d). }
    bind. destruct (inc_vswitchd_ok n lcore C_tx INC_BY_1 _ _ Hp2) as (y & -> & Hp3). bind.
    rewrite !ring_count_spec, Ho. rewrite (proj2 (Z.ltb_lt 0 _)) by (rewrite zlen_app; unfold zlen; simpl; lia).
    rewrite andb_true_r. destruct (_ =? 0); (eexists; split; [done|]; split; [exact Hp3|]; split; [by apply dframe_same|]).
    all: simpl; rewrite lookup_insert_eq, ?Z.add_0_r; done.
  - destruct Hr as [-> ->]. change ((- ENOBUFS <? 0) && (- ENOBUFS =? - ENOBUFS)) with true. cbv iota.
    set (d1 := set_packet_ring _ _ _ d). assert (dpinv n lcore d1 ({[+ p +]} ⊎ X)) as Hp1 by done.
    destruct (drop_buf_ok n lcore C_tx_drop p d1 X Hp1) as (s & E & Hp2 & Hf2 & _).
    eexists. split; [exact E|]. done.
Qed.

(** Either the packet is at the end of the daemon's ring, with the upcall
    before it, or it was dropped for want of headroom or of room in the ring. *)
Lemma send_packet_ok n lcore p info d X b c :
  dpinv n lcore d ({[+ p +]} ⊎ X) -> mbufs (vmem (d_sw d)) !! p = Some b -> bufs (vmem (d_sw d)) !! buf_addr b = Some c ->
  frame_ok 0 0 b c ->
  let r := vswitchd_packet_ring d in
  exists d', send_packet_to_vswitchd lcore p info d = Ok d' /\ dpinv n lcore d' X /\ dframe X d d' /\
    d_flows d' = d_flows d /\ d_requests d' = d_requests d /\
    if (sizeof_dpdk_upcall <=? pkt_data b) && (zlen (ring_objs r) <? ring_cap r) then
      ring_objs (vswitchd_packet_ring d') = ring_objs r ++ [p] /\ d_upcalls d' !! p = Some info /\
      mbufs (vmem (d_sw d')) !! p = Some (upcall_header b) /\ bufs (vmem (d_sw d')) = bufs (vmem (d_sw d)) /\
      d_signals d' = d_signals d + (if zlen (ring_objs r) =? 0 then 1 else 0) /\
      rings_kept d d' /\ dom (mbufs (vmem (d_sw d'))) = dom (mbufs (vmem (d_sw d))) /\
      (forall q, q <> p -> mbufs (vmem (d_sw d')) !! q = mbufs (vmem (d_sw d)) !! q)
    else vswitchd_packet_ring d' = r /\ d_signals d' = d_signals d.
Proof.
  intros Hp Hb Hc (Hbytes & Hz & Hlen & Hup & _ & Hs & He & _). cbv zeta.
  unfold send_packet_to_vswitchd, mbuf_at. rewrite Hb. bind.
  set (b1 := Mbuf (buf_addr b) (pkt_data b) (data_len b) (data_len b)).
  destruct (dpinv_set_mbuf n lcore p b c b1 d X Hp Hb Hc) as [Hp1 Hf1]; try done; try (simpl; lia).
  set (d1 := set_sw _ d) in Hp1, Hf1.
  rewrite (prepend_spec _ p b1) by (simpl; rewrite ?lookup_insert_eq; done || lia).
  change (pkt_data b1) with (pkt_data b).
  destruct (Z.leb_spec sizeof_dpdk_upcall (pkt_data b)) as [Hroom|Hno]; cbn [andb]; cbv iota beta.
  2:{ destruct (drop_buf_ok n lcore C_tx_drop p d1 X Hp1) as (s & E & Hp2 & Hf2 & _).
      eexists. split; [exact E|]. split; [done|]. split; [by eapply dframe_trans|]. done. }
  assert (Mbuf (buf_addr b1) (pkt_data b - sizeof_dpdk_upcall) (u16 (data_len b1 + sizeof_dpdk_upcall))
            (u32 (pkt_len b1 + sizeof_dpdk_upcall)) = upcall_header b) as ->.
  { unfold upcall_header, sizeof_dpdk_upcall in *. simpl. unfold u16, u32. rewrite !wrap_small by (unfold is_u; lia). done. }
  destruct (dpinv_set_mbuf n lcore p b1 c (upcall_header b) d1 X Hp1) as [Hp2 Hf2]; try done;
    [by simpl; rewrite lookup_insert_eq|unfold sizeof_dpdk_upcall in *; simpl; unfold sizeof_dpdk_upcall; lia..|].
  set (d2 := set_sw _ d1) in Hp2, Hf2.
  destruct (enqueue_upcall_ok n lcore p info d2 X Hp2) as (d' & E & Hp3 & Hf3 & ? & ? & Hq).
  exists d'. split; [exact E|]. split; [done|]. split; [by do 2 (eapply dframe_trans; [done|])|]. do 2 (split; [done|]).
  cbn [vswitchd_packet_ring d2 d1 set_sw d_signals] in Hq. destruct (_ <? _); [|done].
  destruct Hq as (? & ? & Hm & ? & ?). rewrite Hm. cbn. rewrite lookup_insert_eq, !dom_insert_L. do 6 (split; [done|]).
  apply elem_of_dom_2 in Hb. split; [clear -Hb; set_solver|]. intros q Hq. by rewrite !lookup_insert_ne.
Qed.

(** What is counted for a packet that is dropped on its way to the daemon, and
    for one that is sent: an overrun is also counted when the ring is above its
    watermark. *)
Definition drop_counted (lcore : Z) (x y : stats) : Prop :=
  exists z, stats_vswitch_tx_drop_increment lcore 1 x = Ok z /\ stats_vport_tx_drop_increment lcore VSWITCHD 1 z = Ok y.
Definition send_counted (lcore : Z) (x y : stats) : Prop :=
  exists z, (z = x \/ stats_vport_overrun_increment lcore VSWITCHD 1 x = Ok z) /\ stats_vport_tx_increment lcore VSWITCHD 1 z = Ok y.

Lemma inc_vswitchd_inv ct lcore inc d d' :
  inc_vswitchd ct lcore inc d = Ok d' -> exists x, vport_increment ct lcore VSWITCHD inc (vstats (d_sw d)) = Ok x /\ d' = set_sw (set_vstats x (d_sw d)) d.
Proof. unfold inc_vswitchd, st_vport_inc. intros (s & (x & E & [= <-])%res_bind_Ok & [= <-])%res_bind_Ok. by exists x. Qed.

Lemma drop_buf_counted lcore p d d' :
  (d ← free_buf p d; d ← inc_tx_drop lcore INC_BY_1 d; inc_vswitchd C_tx_drop lcore INC_BY_1 d) = Ok d' ->
  drop_counted lcore (vstats (d_sw d)) (vstats (d_sw d')) /\ mbufs (vmem (d_sw d')) !! p = None /\ d' = set_sw (d_sw d') d.
Proof.
  unfold free_buf, st_free_all, inc_tx_drop, st_vswitch_tx_drop.
  intros (? & (? & (m & (? & (_ & _ & [= <-])%res_bind_Ok & [= <-])%res_bind_Ok & [= <-])%res_bind_Ok & [= <-])%res_bind_Ok & (? & (? & (z & Ez & [= <-])%res_bind_Ok & [= <-])%res_bind_Ok & E)%res_bind_Ok)%res_bind_Ok.
  apply inc_vswitchd_inv in E as (y & Ey & ->). split; [by exists z|]. split; [|done]. cbn. rewrite free_mbufs. apply lookup_delete_eq.
Qed.

(** What [send_packet_to_vswitchd] counts, and that it changes nothing but the
    switch's buffers and counters and the ring of packets. *)
Lemma send_packet_counted lcore p info d d' b :
  mbufs (vmem (d_sw d)) !! p = Some b -> send_packet_to_vswitchd lcore p info d = Ok d' ->
  let r := vswitchd_packet_ring d in
  (exists u, d' = set_packet_ring (vswitchd_packet_ring d') u (d_signals d') (set_sw (d_sw d') d)) /\
  if (sizeof_dpdk_upcall <=? pkt_data b) && (zlen (ring_objs r) <? ring_cap r)
  then send_counted lcore (vstats (d_sw d)) (vstats (d_sw d'))
  else drop_counted lcore (vstats (d_sw d)) (vstats (d_sw d')) /\ mbufs (vmem (d_sw d')) !! p = None.
Proof.
  intros Hb E. cbv zeta. unfold send_packet_to_vswitchd, mbuf_at in E. rewrite Hb in E. revert E. bind.
  rewrite (prepend_spec _ p (Mbuf (buf_addr b) (pkt_data b) (data_len b) (data_len b))) by (simpl; rewrite ?lookup_insert_eq; done || lia).
  cbn [pkt_data]. destruct (sizeof_dpdk_upcall <=? pkt_data b); cbn [andb].
  2:{ intros (Hc & Hm & Hd)%drop_buf_counted. split; [|done]. exists (d_upcalls d). rewrite Hd. done. }
  set (d1 := set_sw _ d). unfold enqueue_upcall. change (vswitchd_packet_ring d1) with (vswitchd_packet_ring d).
  destruct (rte_ring_enqueue p (vswitchd_packet_ring d)) as [rslt r] eqn:Er. destruct (ring_enqueue_spec _ _ _ _ Er) as [_ Hr].
  set (d2 := set_packet_ring r _ _ d1). destruct (_ <? ring_cap _).
  - destruct Hr as [Hrc _]. assert ((rslt <? 0) && (rslt =? - ENOBUFS) = false) as -> by (by destruct Hrc as [->| ->]).
    intros (d3 & E3 & (d4 & E4 & E)%res_bind_Ok)%res_bind_Ok. apply inc_vswitchd_inv in E4 as (y & Ey & ->).
    assert (exists z, d3 = set_sw (set_vstats z (d_sw d2)) d2 /\ (z = vstats (d_sw d2) \/ stats_vport_overrun_increment lcore VSWITCHD 1 (vstats (d_sw d2)) = Ok z)) as (z & -> & Hz).
    { destruct (rslt <? 0); [apply inc_vswitchd_inv in E3 as (z & Ez & ->); exists z; split; [done|by right]|].
      injection E3 as <-. exists (vstats (d_sw d2)). split; [|by left]. unfold d2, d1. by destruct d as [[]]. }
    assert (send_counted lcore (vstats (d_sw d)) y) as Hs by (by exists z).
    destruct (_ && _); injection E as <-; (split; [by eexists|exact Hs]).
  - destruct Hr as [-> ->]. change ((- ENOBUFS <? 0) && (- ENOBUFS =? - ENOBUFS)) with true. cbv iota.
    intros (Hc & Hm & Hd)%drop_buf_counted. split; [|done]. eexists. rewrite Hd. done.
Qed.

(** *** Commands on vports keep the invariant *)

(** Changes of a vport's name or flag. *)
Lemma pinv_update_vport n lcore i f (s : sw) X :
  (forall v, v_type (f v) = v_type v /\ v_u (f v) = v_u v) -> pinv n lcore s X -> pinv n lcore (update_vport i f s) X.
Proof.
  intros Hf [[Hwf Ho] Hs]. unfold update_vport. destruct (index (vports s) i) as [v|] eqn:Hv; [|done].
  pose proof (M_concat_update (fun v => u_objs (v_u v)) (vports s) i v (f v) Hv) as Hm. cbv beta in Hm.
  rewrite (proj2 (Hf v)) in Hm. split; [split|intros k; specialize (Hs k); by destruct k].
  - destruct Hwf as [H1 H2 H3 H4 H5 H6 H7 H8 H9 H10]. split; try done; simpl.
    + by rewrite zlen_update.
    + intros j w Hw. pose proof (index_bound _ _ _ Hv). destruct (decide (j = i)) as [->|Hne].
      * rewrite index_update_eq in Hw by done. injection Hw as <-. destruct (H3 i v Hv), (Hf v) as [E1 E2].
        split; rewrite ?E1, ?E2; done.
      * rewrite index_update_ne in Hw by lia. by apply H3.
  - eapply owns_eq; [exact Ho|]. unfold owned. simpl. unfold vports_objs. clear -Hm. multiset_solver.
Qed.

Lemma pinv_set_enabled n lcore b i (s : sw) X : pinv n lcore s X -> pinv n lcore (set_enabled b i s) X.
Proof. intros Hp. unfold set_enabled. destruct (vport_exists i s); [|done]. by apply pinv_update_vport. Qed.

Lemma pinv_set_name n lcore i text (s : sw) X : pinv n lcore s X -> pinv n lcore (vport_set_name i text s) X.
Proof. intros Hp. unfold vport_set_name. destruct (vport_exists i s); [|done]. by apply pinv_update_vport. Qed.

(** A new buffer has room for a message: the pool's buffers are made for the
    largest packet and a message ([MBUF_SIZE] of [init.c]). *)
Definition pool_room : Prop :=
  forall m p m' b c, rte_pktmbuf_alloc m = (Some p, m') -> mbufs m' !! p = Some b -> bufs m' !! buf_addr b = Some c ->
    pkt_data b + sizeof_dpdk_message <= zlen c.

Lemma enqueue_reply_ok n lcore reply p d X :
  dpinv n lcore d ({[+ p +]} ⊎ X) ->
  exists d', enqueue_reply lcore reply p d = Ok d' /\ dpinv n lcore d' X /\ dframe X d d' /\
    d_flows d' = d_flows d /\ d_requests d' = d_requests d /\ vports (d_sw d') = vports (d_sw d) /\
    (zlen (ring_objs (vswitchd_reply_ring d)) < ring_cap (vswitchd_reply_ring d) ->
     exists r x, d' = set_sw (set_vstats x (d_sw d)) (set_reply_ring r (<[p := reply]> (d_replies d)) d) /\
       ring_objs r = ring_objs (vswitchd_reply_ring d) ++ [p] /\ ring_cap r = ring_cap (vswitchd_reply_ring d)).
Proof.
  intros Hp. unfold enqueue_reply. destruct (rte_ring_enqueue p (vswitchd_reply_ring d)) as [rslt r] eqn:Er.
  destruct (ring_enqueue_spec _ _ _ _ Er) as [Hcap Hr].
  destruct (Z.ltb_spec (zlen (ring_objs (vswitchd_reply_ring d))) (ring_cap (vswitchd_reply_ring d))).
  - destruct Hr as [Hrc Ho].
    pose proof (dpinv_reply_ring n lcore p r (<[p := reply]> (d_replies d)) d X Hp Ho) as Hp1.
    set (d1 := set_reply_ring r _ d) in *.
    assert (exists x, (if rslt <? 0 then if rslt =? - ENOBUFS then
          d ← free_buf p d1; d ← inc_tx_drop lcore INC_BY_1 d; inc_vswitchd C_rx_drop lcore INC_BY_1 d
        else d ← inc_vswitchd C_overrun lcore INC_BY_1 d1; inc_vswitchd C_rx lcore INC_BY_1 d
      else inc_vswitchd C_rx lcore INC_BY_1 d1) = Ok (set_sw (set_vstats x (d_sw d1)) d1) /\
      dpinv n lcore (set_sw (set_vstats x (d_sw d1)) d1) X) as (x & -> & Hp2).
    { destruct Hrc as [->| ->].
      - by apply (inc_vswitchd_ok n lcore C_rx INC_BY_1 d1 X).
      - change (- EDQUOT <? 0) with true. change (- EDQUOT =? - ENOBUFS) with false. cbv iota. destruct (inc_vswitchd_ok n lcore C_overrun INC_BY_1 _ _ Hp1) as (x & -> & Hp2). bind.
        destruct (inc_vswitchd_ok n lcore C_rx INC_BY_1 _ _ Hp2) as (y & -> & Hp3). by exists y. }
    eexists. split; [done|]. split; [done|]. split; [by apply dframe_same|]. do 3 (split; [done|]).
    intros _. by exists r, x.
  - destruct Hr as [-> ->]. change (- ENOBUFS <? 0) with true. change (- ENOBUFS =? - ENOBUFS) with true. cbv iota zeta.
    set (d1 := set_reply_ring _ _ d). assert (dpinv n lcore d1 ({[+ p +]} ⊎ X)) as Hp1 by done.
    destruct (drop_buf_ok n lcore C_rx_drop p d1 X Hp1) as (s & E & Hp2 & Hf2 & Hv).
    eexists. split; [exact E|]. do 5 (split; [done|]). intros ?. lia.
Qed.

(** A reply is queued, or dropped and counted for want of a buffer or of room
    in the ring.  The switch proper is not changed but for counters and memory. *)
Lemma send_reply_ok n lcore reply d X :
  pool_room -> dpinv n lcore d X ->
  exists d', send_reply_to_vswitchd lcore reply d = Ok d' /\ dpinv n lcore d' X /\ dframe X d d' /\
    d_flows d' = d_flows d /\ d_requests d' = d_requests d /\ vports (d_sw d') = vports (d_sw d) /\
    (fst (rte_pktmbuf_alloc (vmem (d_sw d))) <> None ->
     zlen (ring_objs (vswitchd_reply_ring d)) < ring_cap (vswitchd_reply_ring d) ->
     exists p, ring_objs (vswitchd_reply_ring d') = ring_objs (vswitchd_reply_ring d) ++ [p] /\ d_replies d' !! p = Some reply /\
       exists m r x b, rte_pktmbuf_alloc (vmem (d_sw d)) = (Some p, m) /\ data_len b = sizeof_dpdk_message /\
         d' = set_sw (set_vstats x (set_vmem (set_mbuf p b m) (d_sw d))) (set_reply_ring r (<[p := reply]> (d_replies d)) d) /\
         ring_cap r = ring_cap (vswitchd_reply_ring d)).
Proof.
  intros Hroom Hp. unfold send_reply_to_vswitchd.
  destruct (rte_pktmbuf_alloc (vmem (d_sw d))) as [[p|] m] eqn:E.
  - pose proof (owns_alloc _ _ _ _ (proj2 (proj1 Hp)) E) as [Ho Hk].
    set (d1 := set_sw (set_vmem m (d_sw d)) d).
    assert (dpinv n lcore d1 ({[+ p +]} ⊎ X)) as Hp1.
    { eapply pinv_set_vmem; [exact Hp|]. intros _. eapply owns_eq; [exact Ho|]. clear. multiset_solver. }
    assert (dframe X d d1) as Hf1.
    { split; [done|]. eapply frames_kept_mono, frames_kept_mono, keeps_frames, Hk. }
    assert (exists b c, mbufs m !! p = Some b /\ bufs m !! buf_addr b = Some c /\ 0 <= pkt_data b) as (b & c & Hb & Hc & Hpos).
    { destruct (owns_live m _ p Ho) as [b Hb]; [clear; multiset_solver|].
      destruct (proj1 Ho p b Hb) as (c & ? & ? & ? & ?). by exists b, c. }
    unfold mbuf_at, buf_at. rewrite Hb. bind. rewrite Hc. bind. specialize (Hroom _ _ _ _ _ E Hb Hc).
    rewrite (proj2 (Z.ltb_ge _ _)) by lia. set (b' := Mbuf _ _ _ _).
    destruct (dpinv_set_mbuf n lcore p b c b' d1 X Hp1 Hb Hc) as [Hp2 Hf2]; try done.
    change (set_sw (set_vmem m (d_sw d)) d) with d1.
    change (set_sw (set_vmem (set_mbuf p b' m) (d_sw d1)) d1) with (set_sw (set_vmem (set_mbuf p b' (vmem (d_sw d1))) (d_sw d1)) d1).
    set (d2 := set_sw (set_vmem (set_mbuf p b' (vmem (d_sw d1))) (d_sw d1)) d1) in *.
    pose proof (dframe_trans _ _ _ _ Hf1 Hf2) as Hf12. destruct (enqueue_reply_ok n lcore reply p d2 X Hp2) as (d' & E' & Hp3 & Hf3 & ? & ? & ? & Hq).
    exists d'. split; [exact E'|]. split; [done|]. split; [by eapply dframe_trans|]. do 3 (split; [done|]).
    intros _ Hcap. destruct (Hq Hcap) as (r & x & -> & Hr & Hrc). exists p. split; [exact Hr|]. split; [apply lookup_insert_eq|].
    by exists m, r, x, b'.
  - pose proof (alloc_none _ _ E) as ->. assert (dpinv n lcore (set_sw (set_vmem (vmem (d_sw d)) (d_sw d)) d) X) as Hp1.
    { by eapply pinv_set_vmem; [exact Hp|]. }
    destruct (inc_tx_drop_ok n lcore INC_BY_1 _ _ Hp1) as (x & -> & Hp2). bind.
    destruct (inc_vswitchd_ok n lcore C_rx_drop INC_BY_1 _ _ Hp2) as (y & -> & Hp3).
    eexists. split; [done|]. split; [done|]. split; [by apply dframe_same|]. do 3 (split; [done|]). done.
Qed.
End DatapathInv.
