(* ===== verification/DatapathProps.v ===== *)
(** Correctness of the datapath's packet path and of its commands. *)
From stdpp Require Import gmap gmultiset.
From S2P Require Import Prelude Stats Dpdk Flow Vport VportInit VportProps Action Datapath.

Section DatapathProps.
Context {ring dev drv hash : Type} `{Ring : RteRing ring} `{!RteRingLaws ring} `{Mb : RteMbuf} `{!RteMbufLaws}
  `{Drv : Drivers drv} `{!DriversLaws drv} `{Vh : VhostDev dev} `{!VhostLaws dev}
  `{Hash : RteHash flow_key hash} `{!RteHashLaws flow_key hash MAX_FLOWS}.

Notation sw := (vst ring dev drv).
Notation dpt := (dp ring dev drv hash).
Implicit Type d : dpt.
Implicit Type t : flow_table hash.

(** ** The packet path *)

(** What a read through a packet's pointer sees once the packet is another
    owner's: some mapped buffer with room for the headers. *)
Definition seen_ok (seen : sw -> Z -> list Z * Z * Z) : Prop :=
  forall s p, let '(buf, off, _) := seen s p in 0 <= off /\ off + 48 <= zlen buf.

Lemma dpinv_actions n lcore d X s' Y :
  pinv n lcore s' (rings_objs d ⊎ X) -> Y = X -> dpinv n lcore (set_sw s' d) Y.
Proof. by intros Hp ->. Qed.

Lemma flow_map_hit t k : ft_wf t ->
  match hash_pos (handle t) k with
  | Some p => exists e, index (table t) p = Ok e /\ e_enabled e = true /\ e_key e = k /\
      flow_table_lookup t k = p /\ 0 <= p /\ flow_map t k = Some (e_actions e, e_stats e)
  | None => flow_map t k = None /\ flow_table_lookup t k < 0
  end.
Proof.
  intros Hwf. destruct (hash_pos (handle t) k) as [p|] eqn:Ep.
  - destruct (wf_pos _ Hwf _ _ Ep) as (e & He & Hen & Hk). exists e. do 3 (split; [done|]).
    split; [by apply lookup_some|]. split; [apply (pos_range _ _ _ Ep)|by eapply flow_map_some].
  - split; [by apply flow_map_none|]. rewrite (lookup_none _ _ Ep). lia.
Qed.

Lemma update_stats_map c t k a x buf off len :
  ft_wf t -> flow_map t k = Some (a, x) -> 0 <= off -> off + 48 <= zlen buf ->
  exists t', flow_table_update_stats c (flow_table_lookup t k) buf off len t = Ok t' /\ ft_wf t' /\
    fmap_eq (flow_map t') (fmap_set k (Some (a, counted c k (buf, off, len) x)) (flow_map t)).
Proof.
  intros Hwf Hm Ho Hr. pose proof (flow_map_hit t k Hwf) as Hh. destruct (hash_pos (handle t) k) as [p|] eqn:Ep.
  - destruct Hh as (e & He & Hen & Hk & -> & _ & Hm'). rewrite Hm in Hm'. injection Hm' as -> ->.
    rewrite (update_stats_spec c t p e buf off len He Ho Hr). eexists. split; [done|]. rewrite Hk.
    destruct (wf_set_enabled t (handle t) k p (Entry k (counted c k (buf, off, len) (e_stats e)) (e_enabled e) (e_actions e)))
      as [Hwf' Heq]; [by auto..|]. split; [exact Hwf'|exact Heq].
  - destruct Hh as [Hn _]. congruence.
Qed.

(** A packet of a known flow: its actions are executed and its statistics
    count the packet. *)
Lemma switch_hit_ok n lcore c seen p k d X U D a x :
  seen_ok seen -> dpinv n lcore d ({[+ p +]} ⊎ X) -> table_ok U D (d_flows d) -> frame_at U D (vmem (d_sw d)) p ->
  flow_map (d_flows d) k = Some (a, x) ->
  exists s t, action_execute lcore (Some a) (Some p) (d_sw d) = Ok (0, s) /\
    let d' := set_flows t (set_sw s d) in
    switch_packet c seen lcore p k d = Ok d' /\ dpinv n lcore d' X /\ dframe X d d' /\ table_ok U D t /\
    fmap_eq (flow_map t) (fmap_set k (Some (a, counted c k (seen s p) x)) (flow_map (d_flows d))).
Proof.
  intros Hseen Hp [Hwf Hacts] Hf Hm. destruct (Hacts k a x Hm) as (Hz & Hw & Hh & Hu & Hdn).
  pose proof (total_nonneg pushes (visited a) pushes_nonneg). pose proof (total_nonneg pops (visited a) pops_nonneg).
  destruct (action_execute_ok n lcore a p (d_sw d) (rings_objs d ⊎ X)) as (s & E & Hp' & Hc & Hk); try done.
  { eapply pinv_eq; [exact Hp|]. clear. multiset_solver. }
  { eapply frame_at_weaken; [done|lia|lia]. }
  destruct (seen s p) as [[buf off] len] eqn:Es. pose proof (Hseen s p) as Hso. rewrite Es in Hso.
  destruct (update_stats_map c (d_flows d) k a x buf off len Hwf Hm) as (t' & Et & Hwf' & Heq); [tauto..|].
  exists s, t'. split; [done|]. cbv zeta. unfold switch_packet.
  pose proof (flow_map_hit (d_flows d) k Hwf) as Hhit. destruct (hash_pos (handle (d_flows d)) k) as [q|] eqn:Eq.
  2:{ destruct Hhit. congruence. }
  destruct Hhit as (e & He & Hen & Hke & Hl & Hq & Hm'). rewrite Hm in Hm'. injection Hm' as Ha Hx. rewrite Hl in Et |- *.
  rewrite (proj2 (Z.leb_le _ _)) by lia. rewrite He. bind. rewrite Hen, <- Ha, E. bind. rewrite Es, Et. bind.
  split; [done|]. split; [exact Hp'|]. split; [split; [done|by eapply frames_kept_mono]|].
  split; [|exact Heq]. split; [done|]. intros k' a' x' Hk'. simpl in Hk'. rewrite Heq in Hk'.
  unfold fmap_set in Hk'. case_decide as Hkk; [|by eapply Hacts]. injection Hk' as <- _. by eapply Hacts.
Qed.

(** A packet of no flow goes to the daemon. *)
Lemma switch_miss c seen lcore p k d :
  ft_wf (d_flows d) -> flow_map (d_flows d) k = None ->
  switch_packet c seen lcore p k d = send_packet_to_vswitchd lcore p (Upcall PACKET_CMD_MISS k) d.
Proof.
  intros Hwf Hm. unfold switch_packet. pose proof (flow_map_hit (d_flows d) k Hwf) as Hh.
  destruct (hash_pos (handle (d_flows d)) k) as [q|] eqn:Eq.
  - destruct Hh as (e & _ & _ & _ & _ & _ & Hm'). congruence.
  - destruct Hh as [_ Hl]. by rewrite (proj2 (Z.leb_gt _ _)).
Qed.

Lemma switch_packet_ok n lcore c seen p k d X U D :
  seen_ok seen -> dpinv n lcore d ({[+ p +]} ⊎ X) -> table_ok U D (d_flows d) -> frame_at U D (vmem (d_sw d)) p ->
  0 <= U -> 0 <= D ->
  exists d', switch_packet c seen lcore p k d = Ok d' /\ dpinv n lcore d' X /\ dframe X d d' /\
    table_ok U D (d_flows d') /\ d_requests d' = d_requests d.
Proof.
  intros Hseen Hp Ht Hf HU HD. destruct (flow_map (d_flows d) k) as [[a x]|] eqn:Hm.
  - destruct (switch_hit_ok n lcore c seen p k d X U D a x Hseen Hp Ht Hf Hm) as (s & t & _ & E & ? & ? & ? & _).
    eexists. split; [exact E|]. done.
  - rewrite (switch_miss _ _ _ _ _ _ (proj1 Ht) Hm).
    destruct (frame_at_weaken U D 0 0 _ _ Hf) as (b & c' & Hb & Hc & Hfr); [lia|lia|].
    destruct (send_packet_ok n lcore p (Upcall PACKET_CMD_MISS k) d X b c' Hp Hb Hc Hfr) as (d' & E & ? & ? & Hfl & ? & _).
    exists d'. rewrite Hfl. done.
Qed.

(** ** Flow commands *)

(** A flow table command, seen on the abstract map: what [flow_cmd_new] does
    and what it replies. *)
Inductive flow_new_spec (c : clock) (r : dpdk_flow_message) (m : fmap) : dpdk_reply -> fmap -> Prop :=
| new_added m' : m (fm_key r) = None -> has_flag (fm_flags r) FLAG_CREATE = true ->
    fmap_eq m' (fmap_set (fm_key r) (Some (fm_actions r, zero_stats)) m) ->
    flow_new_spec c r m (Reply 0 (FlowReply r)) m'
| new_full m' : m (fm_key r) = None -> has_flag (fm_flags r) FLAG_CREATE = true -> fmap_eq m' m ->
    flow_new_spec c r m (Reply 0 (FlowReply r)) m'
| new_absent m' : m (fm_key r) = None -> has_flag (fm_flags r) FLAG_CREATE = false -> fmap_eq m' m ->
    flow_new_spec c r m (Reply ENOENT (FlowReply r)) m'
| new_replaced a x m' : m (fm_key r) = Some (a, x) -> has_flag (fm_flags r) FLAG_REPLACE = true ->
    fmap_eq m' (fmap_set (fm_key r) (Some (fm_actions r, if fm_clear r then zero_stats else x)) m) ->
    flow_new_spec c r m (Reply 0 (FlowReply (with_flow_out (fm_key r) (fm_actions r) (stats_out c x) r))) m'
| new_exists a x m' : m (fm_key r) = Some (a, x) -> has_flag (fm_flags r) FLAG_REPLACE = false -> fmap_eq m' m ->
    flow_new_spec c r m (Reply EEXIST (FlowReply r)) m'.

Lemma lookup_sign t k : ft_wf t -> (flow_table_lookup t k <? 0) = match flow_map t k with Some _ => false | None => true end.
Proof.
  intros Hwf. pose proof (flow_map_hit t k Hwf) as Hh. destruct (hash_pos (handle t) k).
  - destruct Hh as (e & _ & _ & _ & -> & Hp & ->). by apply Z.ltb_ge.
  - destruct Hh as [-> Hl]. by apply Z.ltb_lt.
Qed.

Lemma flow_new_refines c r t :
  ft_wf t -> exists reply t', flow_new c r t = Ok (reply, t') /\ ft_wf t' /\
    flow_new_spec c r (flow_map t) reply (flow_map t').
Proof.
  intros Hwf. unfold flow_new. rewrite (lookup_sign _ _ Hwf).
  pose proof (get_flow_spec c (fm_key r) t Hwf) as Hget.
  destruct (flow_map t (fm_key r)) as [[a x]|] eqn:Hm.
  - destruct (has_flag (fm_flags r) FLAG_REPLACE) eqn:Hfl.
    2:{ exists (Reply EEXIST (FlowReply r)), t. do 2 (split; [done|]). by eapply new_exists. }
    destruct Hget as (pos & _ & ->). bind. cbn [copy_stats with_flow_out fm_key fm_actions fm_clear].
    destruct (mod_refines (fm_key r) (fm_actions r) (fm_clear r) t Hwf) as (rc & t' & E & Hwf' & Hs).
    rewrite E. bind. eexists _, t'. split; [done|]. split; [done|]. inversion Hs; [|congruence].
    simplify_eq. by eapply new_replaced.
  - destruct (has_flag (fm_flags r) FLAG_CREATE) eqn:Hfl.
    2:{ exists (Reply ENOENT (FlowReply r)), t. do 2 (split; [done|]). by eapply new_absent. }
    destruct (add_refines (fm_key r) (fm_actions r) t Hwf) as (rc & t' & E & Hwf' & Hs).
    rewrite E. bind. eexists _, t'. split; [done|]. split; [done|].
    inversion Hs; [congruence|by apply new_full|by apply new_added].
Qed.

Inductive flow_del_spec (c : clock) (r : dpdk_flow_message) (m : fmap) : dpdk_reply -> fmap -> Prop :=
| del_everything m' : fm_key r = empty_key -> fmap_eq m' (fun _ => None) ->
    flow_del_spec c r m (Reply 0 (FlowReply r)) m'
| del_absent m' : fm_key r <> empty_key -> m (fm_key r) = None -> fmap_eq m' m ->
    flow_del_spec c r m (Reply ENOENT (FlowReply r)) m'
| del_found a x m' : fm_key r <> empty_key -> m (fm_key r) = Some (a, x) ->
    fmap_eq m' (fmap_set (fm_key r) None m) ->
    flow_del_spec c r m (Reply 0 (FlowReply (with_flow_out (fm_key r) (fm_actions r) (stats_out c x) r))) m'.

Lemma flow_del_refines c r t :
  ft_wf t -> exists reply t', flow_del c r t = Ok (reply, t') /\ ft_wf t' /\
    flow_del_spec c r (flow_map t) reply (flow_map t').
Proof.
  intros Hwf. unfold flow_del. destruct (decide (fm_key r = empty_key)) as [Hk|Hk].
  { destruct (del_all_refines t Hwf) as (t' & -> & Hwf' & Hm'). bind. eexists _, t'. do 2 (split; [done|]).
    by apply del_everything. }
  rewrite (lookup_sign _ _ Hwf). pose proof (get_flow_spec c (fm_key r) t Hwf) as Hget.
  destruct (flow_map t (fm_key r)) as [[a x]|] eqn:Hm.
  - destruct Hget as (pos & _ & ->). bind. cbn [copy_stats with_flow_out fm_key fm_actions].
    destruct (del_refines (fm_key r) t Hwf) as (rc & t' & -> & Hwf' & Hs). bind.
    eexists _, t'. do 2 (split; [done|]). inversion Hs; [|congruence]. by eapply del_found.
  - exists (Reply ENOENT (FlowReply r)), t. do 2 (split; [done|]). by apply del_absent.
Qed.

(** Commands keep the flows executable. *)
Lemma table_ok_sub U D t t' :
  ft_wf t' -> table_ok U D t ->
  (forall k a x, flow_map t' k = Some (a, x) -> actions_ok U D a \/ exists x', flow_map t k = Some (a, x')) ->
  table_ok U D t'.
Proof. intros Hwf' [_ Ht] Hs. split; [done|]. intros k a x Hm. destruct (Hs k a x Hm) as [?|[x' ?]]; [done|]. by eapply Ht. Qed.

Lemma flow_new_table U D c r t :
  table_ok U D t -> actions_ok U D (fm_actions r) ->
  exists reply t', flow_new c r t = Ok (reply, t') /\ table_ok U D t'.
Proof.
  intros Ht Ha. destruct (flow_new_refines c r t (proj1 Ht)) as (reply & t' & E & Hwf' & Hs).
  exists reply, t'. split; [done|]. eapply table_ok_sub; [done|done|]. intros k a x Hm.
  inversion Hs as [m' _ _ Heq|m' _ _ Heq|m' _ _ Heq|a' x' m' _ _ Heq|a' x' m' _ _ Heq]; subst; rewrite Heq in Hm;
    unfold fmap_set in Hm; repeat case_decide; simplify_eq; eauto.
Qed.

Lemma flow_del_table U D c r t :
  table_ok U D t -> exists reply t', flow_del c r t = Ok (reply, t') /\ table_ok U D t'.
Proof.
  intros Ht. destruct (flow_del_refines c r t (proj1 Ht)) as (reply & t' & E & Hwf' & Hs).
  exists reply, t'. split; [done|]. eapply table_ok_sub; [done|done|]. intros k a x Hm.
  inversion Hs as [m' _ Heq|m' _ _ Heq|a' x' m' _ _ Heq]; subst; rewrite Heq in Hm;
    unfold fmap_set in Hm; repeat case_decide; simplify_eq; eauto.
Qed.

Lemma flow_get_total c r t : ft_wf t -> exists reply, flow_get c r t = Ok reply.
Proof.
  intros Hwf. unfold flow_get. pose proof (get_flow_spec c (fm_key r) t Hwf) as Hget.
  destruct (flow_map t (fm_key r)) as [[a x]|]; [destruct Hget as (pos & _ & ->)|rewrite Hget]; bind; eauto.
Qed.

Lemma flow_dump_total c r t : ft_wf t -> exists reply, flow_dump_reply c r t = Ok reply.
Proof.
  intros Hwf. unfold flow_dump_reply.
  assert (exists ret out, flow_dump_step c (fm_key r) t = Ok (ret, out)) as (ret & out & ->).
  { unfold flow_dump_step, flow_table_get_first_flow, flow_table_get_next_flow.
    assert (forall pos, 0 <= pos <= MAX_FLOWS -> exists ret out, scan_flows scan_fuel c pos t = Ok (ret, out)) as Hscan.
    { intros pos Hpos. pose proof (scan_flows_spec scan_fuel c pos t (wf_len _ Hwf) Hpos) as Hs.
      destruct (flows_from c pos t); [rewrite Hs|destruct Hs as (q & e & -> & _)]; eauto.
      all: unfold scan_fuel; rewrite Nat2Z.inj_succ, Z2Nat.id by done; lia. }
    destruct (decide _); [by apply Hscan|]. destruct (bad_pos _) eqn:Eb; [by eauto|]. apply Hscan.
    unfold bad_pos in Eb. apply orb_false_iff in Eb as [? ?]. lia. }
  bind. destruct (0 <=? ret); [|eauto]. destruct out as [[[k a] x]|]; eauto.
Qed.

(** ** Vport commands *)

Lemma vport_exists_range i (s : sw) : vport_exists i s = true -> exists v, index (vports s) i = Ok v /\ 0 <= i < MAX_VPORTS.
Proof.
  unfold vport_exists. destruct (index (vports s) i) as [v|] eqn:E; [|done]. intros [? _]%andb_true_iff.
  exists v. split; [done|]. pose proof (index_bound _ _ _ E). lia.
Qed.

Lemma vport_enabled_exists i (s : sw) : vport_is_enabled i s = true -> vport_exists i s = true.
Proof. unfold vport_is_enabled. by destruct (vport_exists i s). Qed.

Lemma stats_get_total n i x : stats_wf n x -> 0 <= i < MAX_VPORTS -> exists y, stats_vport_get i x = Ok y.
Proof.
  intros Hwf Hi. unfold stats_vport_get, stats_vport_rx_get, stats_vport_tx_get, stats_vport_rx_drop_get, stats_vport_tx_drop_get.
  assert (forall ct, exists z, vport_counter_get ct i x = Ok z) as Hg.
  { intros ct. destruct (vport_counter_get_ok n x ct i Hwf Hi) as (z & Hz & _). eauto. }
  destruct (Hg C_rx) as [? ->], (Hg C_tx) as [? ->], (Hg C_rx_drop) as [? ->], (Hg C_tx_drop) as [? ->].
  repeat bind. eauto.
Qed.

(** The name is a format that takes no arguments. *)
Definition name_ok (name : list Z) : Prop := exists text, format0 name = Ok text.

Lemma vport_new_ok n lcore r (s : sw) X :
  pinv n lcore s X -> name_ok (vm_port_name r) ->
  exists reply s', vport_new r s = Ok (reply, s') /\ pinv n lcore s' X /\ same_cfg s s' /\ vmem s' = vmem s.
Proof.
  intros Hp [text Ht]. unfold vport_new. set (no := if bool_decide _ then _ else _).
  assert (exists v, (if vport_exists no s then vport_id_is_valid no (vm_type r) s else Ok false) = Ok v) as [v ->].
  { destruct (vport_exists no s) eqn:E; [|eauto]. destruct (vport_exists_range _ _ E) as (w & Hw & _).
    unfold vport_id_is_valid. rewrite Hw. bind. destruct (_ && _); [eauto|]. destruct (_ <? _); eauto. }
  bind. set (no' := if v then no else _). destruct (vport_exists no' s && _); [|by eexists _, s].
  destruct (negb (vport_is_enabled no' s)); [|by eexists _, s]. rewrite Ht. bind. eexists _, _. split; [done|].
  split; [by apply pinv_set_name, pinv_set_enabled|].
  assert (forall i f (s0 : sw), same_cfg s0 (update_vport i f s0) /\ vmem (update_vport i f s0) = vmem s0) as Hup.
  { intros i f s0. unfold update_vport. by destruct (index (vports s0) i). }
  unfold vport_set_name, vport_enable, set_enabled.
  destruct (vport_exists no' s); destruct (vport_exists no' _); try done; try apply Hup.
  split; [eapply same_cfg_trans; apply Hup|]. by rewrite (proj2 (Hup _ _ _)), (proj2 (Hup _ _ _)).
Qed.

Lemma vport_del_ok n lcore r (s : sw) X :
  pinv n lcore s X -> let '(reply, s') := vport_del r s in pinv n lcore s' X /\ same_cfg s s' /\ vmem s' = vmem s.
Proof.
  intros Hp. unfold vport_del. destruct (_ && _); [|done]. split; [by apply pinv_set_enabled|].
  unfold vport_disable, set_enabled, update_vport. destruct (vport_exists _ s); [|done]. by destruct (index _ _).
Qed.

Lemma vport_get_total n lcore r (s : sw) X : pinv n lcore s X -> exists reply, vport_get r s = Ok reply.
Proof.
  intros [[Hwf _] _]. unfold vport_get. set (r' := if _ =? _ then _ else _).
  destruct (vport_exists (vm_port_no r') s) eqn:E; [|eauto]. cbn [andb]. destruct (vport_is_enabled _ s); [|eauto].
  destruct (vport_exists_range _ _ E) as (v & Hv & Hi).
  destruct (stats_get_total n _ (vstats s) (w_stats _ _ _ Hwf) Hi) as [x ->]. bind.
  unfold vport_get_name. rewrite E, Hv. bind. eauto.
Qed.

(** *** The dump of the vports *)

Lemma dump_loop_spec n i (s : sw) :
  0 <= i -> MAX_VPORTS - i <= Z.of_nat n ->
  let j := dump_loop n i s in
  i <= j /\ (forall k, i <= k < j -> vport_is_enabled k s = false) /\
  (j < MAX_VPORTS -> vport_is_enabled j s = true) /\ (i <= MAX_VPORTS -> j <= MAX_VPORTS).
Proof.
  revert i. induction n as [|n IH]; intros i Hi Hn; cbn [dump_loop].
  { split; [lia|]. split; [lia|]. split; [lia|done]. }
  destruct (Z.ltb_spec i MAX_VPORTS) as [Hlt|Hge]; cbn [andb].
  2:{ split; [lia|]. split; [lia|]. split; [lia|done]. }
  destruct (vport_is_enabled i s) eqn:E; cbn [negb].
  { split; [lia|]. split; [lia|]. split; [done|done]. }
  destruct (IH (i + 1)) as (H1 & H2 & H3 & H4); [lia|lia|]. split; [lia|]. split; [|split; [done|lia]].
  intros k Hk. destruct (decide (k = i)) as [->|]; [done|]. apply H2. lia.
Qed.

Lemma vport_dump_total n lcore r (s : sw) X :
  pinv n lcore s X -> 0 <= vm_port_no r <= UINT32_MAX ->
  let from := if vm_port_no r =? UINT32_MAX then 1 else u32 (vm_port_no r + 1) in
  exists j, from <= j /\ (forall k, from <= k < j -> vport_is_enabled k s = false) /\
    ((j < MAX_VPORTS /\ vport_is_enabled j s = true /\
      exists x, stats_vport_get j (vstats s) = Ok x /\
        vport_dump r s = Ok (Reply 0 (VportReply (with_info (vm_port_name r) (vport_get_type j s) x (with_port_no j r))))) \/
     (MAX_VPORTS <= j /\ vport_dump r s = Ok (Reply EOF (VportReply (with_port_no j r))))).
Proof.
  intros [[Hwf _] _] Hr from. assert (0 <= from) as Hf.
  { subst from. destruct (_ =? _); [lia|]. unfold u32. apply wrap_range. lia. }
  destruct (dump_loop_spec (Z.to_nat MAX_VPORTS) from s Hf) as (H1 & H2 & H3 & _); [unfold MAX_VPORTS; lia|].
  set (j := dump_loop _ from s) in *. exists j. split; [done|]. split; [done|]. unfold vport_dump. fold from. fold j.
  destruct (Z.ltb_spec j MAX_VPORTS) as [Hlt|Hge]; [left|by right].
  split; [done|]. split; [by apply H3|]. destruct (stats_get_total n j (vstats s) (w_stats _ _ _ Hwf)) as [x Hx]; [lia|].
  exists x. split; [done|]. cbn [vm_port_name with_port_no]. rewrite Hx. bind. done.
Qed.

(** The dump as the daemon drives it: each request carries the number of the
    last reply. *)
Fixpoint vport_dump_all (fuel : nat) (port_no : Z) (s : sw) : res (list Z) :=
  match fuel with
  | O => Err OutOfFuel
  | S fuel =>
      r ← vport_dump (VportMsg 0 CMD_GET FLAG_DUMP port_no [] VPORT_TYPE_DISABLED (PortStats 0 0 0 0 0 0 0 0)) s;
      match r_body r with
      | VportReply m => if r_type r =? 0 then l ← vport_dump_all fuel (vm_port_no m) s; Ok (vm_port_no m :: l) else Ok []
      | _ => Ok []
      end
  end.

(** The numbers of the enabled vports from [i] on, of [n] numbers. *)
Definition enabled_from (i : Z) (n : nat) (s : sw) : list Z :=
  filter (fun k => vport_is_enabled k s = true) (seqZ i (Z.of_nat n)).

Lemma enabled_skip i j n (s : sw) :
  i <= j -> j <= i + Z.of_nat n -> (forall k, i <= k < j -> vport_is_enabled k s = false) ->
  enabled_from i n s = enabled_from j (n - Z.to_nat (j - i)) s.
Proof.
  intros Hij Hj Hk. unfold enabled_from.
  replace (Z.of_nat n) with ((j - i) + Z.of_nat (n - Z.to_nat (j - i))) by lia.
  rewrite seqZ_app by lia. rewrite list.filter_app. replace (filter _ (seqZ i (j - i))) with (@nil Z).
  - simpl. do 2 f_equal; lia.
  - symmetry. clear Hj. remember (Z.to_nat (j - i)) as m eqn:Hm. revert i Hij Hk Hm.
    induction m as [|m IH]; intros i Hij Hk Hm.
    + replace (j - i) with 0 by lia. done.
    + rewrite seqZ_cons by lia. rewrite filter_cons_False by (rewrite Hk by lia; done).
      replace (Z.pred (j - i)) with (j - Z.succ i) by lia. apply IH; [lia| |lia]. intros k ?. apply Hk. lia.
Qed.

Lemma vport_dump_all_ok n lcore fuel i (s : sw) X :
  pinv n lcore s X -> 0 <= i < MAX_VPORTS -> MAX_VPORTS - i < Z.of_nat fuel ->
  vport_dump_all fuel i s = Ok (enabled_from (i + 1) (Z.to_nat (MAX_VPORTS - (i + 1))) s).
Proof.
  intros Hp. revert i. induction fuel as [|fuel IH]; intros i Hi Hf; [lia|]. cbn [vport_dump_all].
  destruct (vport_dump_total n lcore (VportMsg 0 CMD_GET FLAG_DUMP i [] VPORT_TYPE_DISABLED (PortStats 0 0 0 0 0 0 0 0)) s X Hp)
    as (j & Hfrom & Hskip & Hj); [cbn; unfold UINT32_MAX, MAX_VPORTS in *; lia|]. cbn [vm_port_no] in *.
  rewrite (proj2 (Z.eqb_neq i UINT32_MAX)) in Hfrom, Hskip by (unfold UINT32_MAX, MAX_VPORTS in *; lia).
  unfold u32 in Hfrom, Hskip. rewrite wrap_small in Hfrom, Hskip by (unfold is_u, MAX_VPORTS in *; lia).
  destruct Hj as [(Hlt & Hen & x & _ & ->)|[Hge ->]]; bind; cbn [r_body r_type].
  - change (0 =? 0) with true. cbv iota. cbn [vm_port_no with_info with_port_no]. rewrite IH by lia. bind. f_equal.
    rewrite (enabled_skip (i + 1) j) by (done || lia). unfold enabled_from at 2.
    replace (Z.of_nat (Z.to_nat (MAX_VPORTS - (i + 1)) - Z.to_nat (j - (i + 1)))) with (MAX_VPORTS - j) by lia.
    rewrite seqZ_cons by lia. rewrite filter_cons_True by done. unfold enabled_from. f_equal. f_equal. f_equal; lia.
  - change (EOF =? 0) with false. cbv iota. f_equal. symmetry.
    rewrite (enabled_skip (i + 1) MAX_VPORTS); [|lia|lia|intros k Hk; apply Hskip; lia].
    replace (_ - _)%nat with 0%nat by lia. done.
Qed.

(** ** Requests *)

(** The header after the message is cut off. *)
Definition adjusted (b : rte_mbuf) : rte_mbuf :=
  Mbuf (buf_addr b) (pkt_data b + sizeof_dpdk_message) (data_len b - sizeof_dpdk_message) (pkt_len b - sizeof_dpdk_message).

(** A packet buffer with a message before a frame. *)
Definition message_frame (U D : Z) (m : mem) (p : Z) : Prop :=
  exists b c, mbufs m !! p = Some b /\ bufs m !! buf_addr b = Some c /\ 0 <= pkt_data b /\ frame_ok U D (adjusted b) c.

Definition request_ok (U D : Z) (m : mem) (p : Z) (r : dpdk_message) : Prop :=
  (m_type r = VPORT_CMD_FAMILY -> name_ok (vm_port_name (vport_msg r)) /\ 0 <= vm_port_no (vport_msg r) <= UINT32_MAX) /\
  (m_type r = FLOW_CMD_FAMILY -> actions_ok U D (fm_actions (flow_msg r))) /\
  (m_type r = PACKET_CMD_FAMILY -> actions_ok U D (packet_msg r) /\ message_frame U D m p).

Lemma request_ok_kept U D X m m' p r :
  frames_kept X m m' -> p ∈ X -> request_ok U D m p r -> request_ok U D m' p r.
Proof.
  intros Hk Hp (H1 & H2 & H3). do 2 (split; [done|]). intros Hty. destruct (H3 Hty) as [Ha (b & c & Hb & Hc & H0 & Hf)].
  split; [done|]. destruct (Hk p b c Hp Hb Hc (proj1 Hf)) as (c' & Hb' & Hc' & Hbc & Hz).
  exists b, c'. do 3 (split; [done|]). by eapply frame_ok_resize.
Qed.

Lemma cmd_reply n lcore d X U D reply :
  pool_room -> dpinv n lcore d X -> table_ok U D (d_flows d) ->
  exists d', send_reply_to_vswitchd lcore reply d = Ok d' /\ dpinv n lcore d' X /\ dframe X d d' /\
    table_ok U D (d_flows d') /\ d_requests d' = d_requests d.
Proof.
  intros Hr Hp Ht. destruct (send_reply_ok n lcore reply d X Hr Hp) as (d' & E & ? & ? & Hf & ? & _).
  exists d'. by rewrite Hf.
Qed.

Lemma handle_vport_cmd_ok n lcore r d X U D :
  pool_room -> dpinv n lcore d X -> table_ok U D (d_flows d) ->
  name_ok (vm_port_name r) -> 0 <= vm_port_no r <= UINT32_MAX ->
  exists d', handle_vport_cmd lcore r d = Ok d' /\ dpinv n lcore d' X /\ dframe X d d' /\
    table_ok U D (d_flows d') /\ d_requests d' = d_requests d.
Proof.
  intros Hr Hp Ht Hn Hno. unfold handle_vport_cmd.
  assert (forall reply s, dpinv n lcore (set_sw s d) X -> same_cfg (d_sw d) s -> vmem s = vmem (d_sw d) ->
    exists d', send_reply_to_vswitchd lcore reply (set_sw s d) = Ok d' /\ dpinv n lcore d' X /\ dframe X d d' /\
    table_ok U D (d_flows d') /\ d_requests d' = d_requests d) as Hsend.
  { intros reply s Hp' Hc Hm. destruct (cmd_reply n lcore (set_sw s d) X U D reply Hr Hp' Ht) as (d' & E & ? & Hf & ? & ?).
    exists d'. do 2 (split; [done|]). split; [|done]. eapply dframe_trans; [|exact Hf]. by apply dframe_same. }
  destruct (vm_cmd r =? CMD_NEW).
  { unfold vport_cmd_new. destruct (vport_new_ok n lcore r (d_sw d) _ Hp Hn) as (reply & s & -> & Hp' & Hc & Hm). bind.
    by apply Hsend. }
  destruct (vm_cmd r =? CMD_DEL).
  { unfold vport_cmd_del. pose proof (vport_del_ok n lcore r (d_sw d) _ Hp) as Hd.
    destruct (vport_del r (d_sw d)) as [reply s]. destruct Hd as (Hp' & Hc & Hm). by apply Hsend. }
  destruct (vm_cmd r =? CMD_GET); [|by apply cmd_reply].
  destruct (has_flag _ _).
  - unfold vport_cmd_dump. destruct (vport_dump_total n lcore r (d_sw d) _ Hp Hno) as (j & _ & _ & Hj).
    assert (exists reply, vport_dump r (d_sw d) = Ok reply) as [reply ->].
    { destruct Hj as [(_ & _ & x & _ & ->)|[_ ->]]; eauto. }
    bind. by apply cmd_reply.
  - unfold vport_cmd_get. destruct (vport_get_total n lcore r (d_sw d) _ Hp) as [reply ->]. bind. by apply cmd_reply.
Qed.

Lemma handle_flow_cmd_ok n lcore c r d X U D :
  pool_room -> dpinv n lcore d X -> table_ok U D (d_flows d) -> actions_ok U D (fm_actions r) ->
  exists d', handle_flow_cmd c lcore r d = Ok d' /\ dpinv n lcore d' X /\ dframe X d d' /\
    table_ok U D (d_flows d') /\ d_requests d' = d_requests d.
Proof.
  intros Hr Hp Ht Ha. unfold handle_flow_cmd.
  assert (forall reply t, table_ok U D t ->
    exists d', send_reply_to_vswitchd lcore reply (set_flows t d) = Ok d' /\ dpinv n lcore d' X /\ dframe X d d' /\
    table_ok U D (d_flows d') /\ d_requests d' = d_requests d) as Hsend.
  { intros reply t Ht'. by apply (cmd_reply n lcore (set_flows t d) X U D reply Hr). }
  destruct (fm_cmd r =? CMD_NEW).
  { unfold flow_cmd_new. destruct (flow_new_table U D c r (d_flows d) Ht Ha) as (reply & t & -> & Ht'). bind. by apply Hsend. }
  destruct (fm_cmd r =? CMD_DEL).
  { unfold flow_cmd_del. destruct (flow_del_table U D c r (d_flows d) Ht) as (reply & t & -> & Ht'). bind. by apply Hsend. }
  destruct (fm_cmd r =? CMD_GET); [|by apply cmd_reply].
  destruct (has_flag _ _).
  - unfold flow_cmd_dump. destruct (flow_dump_total c r (d_flows d) (proj1 Ht)) as [reply ->]. bind. by apply cmd_reply.
  - unfold flow_cmd_get. destruct (flow_get_total c r (d_flows d) (proj1 Ht)) as [reply ->]. bind. by apply cmd_reply.
Qed.

(** A packet the daemon sends back: the message is cut off and the actions run. *)
Lemma packet_out_ok n lcore a p d X U D :
  dpinv n lcore d ({[+ p +]} ⊎ X) -> actions_ok U D a -> message_frame U D (vmem (d_sw d)) p ->
  let '(_, m) := rte_pktmbuf_adj p sizeof_dpdk_message (vmem (d_sw d)) in
  exists d', handle_packet_cmd lcore a p (set_sw (set_vmem m (d_sw d)) d) = Ok d' /\ dpinv n lcore d' X /\ dframe X d d' /\
    d_flows d' = d_flows d /\ d_requests d' = d_requests d.
Proof.
  intros Hp (Hz & Hw & Hh & Hu & Hdn) (b & c & Hb & Hc & H0 & Hf). pose proof Hf as (_ & Hzc & Hdl & Hup & HD & Hlen & He & _).
  unfold adjusted in Hdl, Hup, Hlen, He. cbn [data_len pkt_len pkt_data] in *.
  rewrite (adj_spec _ p b) by (done || unfold sizeof_dpdk_message; lia).
  rewrite (proj2 (Z.leb_le _ _)) by (unfold sizeof_dpdk_message in *; lia).
  assert (Mbuf (buf_addr b) (pkt_data b + sizeof_dpdk_message) (u16 (data_len b - sizeof_dpdk_message))
            (u32 (pkt_len b - sizeof_dpdk_message)) = adjusted b) as ->.
  { unfold adjusted, u16, u32. rewrite !wrap_small by (unfold is_u, sizeof_dpdk_message in *; lia). done. }
  destruct (dpinv_set_mbuf n lcore p b c (adjusted b) d X Hp Hb Hc) as [Hp1 Hf1]; try done;
    [cbn; unfold sizeof_dpdk_message in *; lia..|].
  set (d1 := set_sw _ d) in *. unfold handle_packet_cmd.
  pose proof (total_nonneg pushes (visited a) pushes_nonneg). pose proof (total_nonneg pops (visited a) pops_nonneg).
  destruct (action_execute_ok n lcore a p (d_sw d1) (rings_objs d1 ⊎ X)) as (s & -> & Hp2 & Hc2 & Hk2); try done.
  - eapply pinv_eq; [exact Hp1|]. clear. multiset_solver.
  - exists (adjusted b), c. split; [by simpl; rewrite lookup_insert_eq|]. split; [done|].
    eapply frame_ok_weaken; [exact Hf|lia|lia].
  - bind. eexists. split; [done|]. split; [done|]. split; [|done].
    eapply dframe_trans; [exact Hf1|]. split; [done|by eapply frames_kept_mono].
Qed.

Lemma handle_vswitchd_cmd_ok n lcore c p r d X U D :
  pool_room -> dpinv n lcore d ({[+ p +]} ⊎ X) -> table_ok U D (d_flows d) -> d_requests d !! p = Some r ->
  request_ok U D (vmem (d_sw d)) p r ->
  exists d', handle_vswitchd_cmd c lcore p d = Ok d' /\ dpinv n lcore d' X /\ dframe X d d' /\
    table_ok U D (d_flows d') /\ d_requests d' = d_requests d.
Proof.
  intros Hr Hp Ht Hq (H1 & H2 & H3). unfold handle_vswitchd_cmd, mbuf_at.
  destruct (owns_live (vmem (d_sw d)) _ p (proj2 (proj1 Hp))) as [b ->]; [clear; multiset_solver|]. bind.
  rewrite Hq. bind.
  assert (forall d1, dpinv n lcore d1 ({[+ p +]} ⊎ X) -> dframe ({[+ p +]} ⊎ X) d d1 -> table_ok U D (d_flows d1) ->
    d_requests d1 = d_requests d ->
    exists d', free_buf p d1 = Ok d' /\ dpinv n lcore d' X /\ dframe X d d' /\ table_ok U D (d_flows d') /\
      d_requests d' = d_requests d) as Hfree.
  { intros d1 Hp1 Hf1 Ht1 Hq1. destruct (free_buf_ok n lcore p d1 X Hp1) as (s & E & Hp2 & Hf2 & _).
    eexists. split; [exact E|]. split; [done|]. split; [|done]. eapply dframe_trans; [by eapply dframe_mono|done]. }
  destruct (Z.eqb_spec (m_type r) VPORT_CMD_FAMILY) as [Hty|_].
  { destruct (H1 Hty) as [Hn Hno].
    destruct (handle_vport_cmd_ok n lcore (vport_msg r) d _ U D Hr Hp Ht Hn Hno) as (d1 & -> & ? & ? & ? & ?). bind. by apply Hfree. }
  destruct (Z.eqb_spec (m_type r) FLOW_CMD_FAMILY) as [Hty|_].
  { destruct (handle_flow_cmd_ok n lcore c (flow_msg r) d _ U D Hr Hp Ht (H2 Hty)) as (d1 & -> & ? & ? & ? & ?). bind. by apply Hfree. }
  destruct (Z.eqb_spec (m_type r) PACKET_CMD_FAMILY) as [Hty|_].
  { destruct (H3 Hty) as [Ha Hmf]. pose proof (packet_out_ok n lcore (packet_msg r) p d X U D Hp Ha Hmf) as Hpo.
    destruct (rte_pktmbuf_adj p sizeof_dpdk_message (vmem (d_sw d))) as [o m].
    destruct Hpo as (d' & E & ? & ? & Hfl & ?). exists d'. by rewrite Hfl. }
  destruct (cmd_reply n lcore d _ U D (Reply EINVAL NoMsg) Hr Hp Ht) as (d1 & E & ? & ? & ? & ?).
  unfold handle_unknown_cmd. rewrite E. bind. by apply Hfree.
Qed.

Lemma handle_cmds_ok n lcore c ps d X U D :
  pool_room -> dpinv n lcore d (M ps ⊎ X) -> table_ok U D (d_flows d) ->
  Forall (fun p => exists r, d_requests d !! p = Some r /\ request_ok U D (vmem (d_sw d)) p r) ps ->
  exists d', handle_cmds c lcore ps d = Ok d' /\ dpinv n lcore d' X /\ dframe X d d' /\ table_ok U D (d_flows d').
Proof.
  intros Hr. revert d. induction ps as [|p ps IH]; intros d Hp Ht Hqs; cbn [handle_cmds].
  { exists d. split; [done|]. split; [|split; [by apply dframe_same|done]].
    eapply pinv_eq; [exact Hp|]. rewrite M_nil. clear. multiset_solver. }
  inversion_clear Hqs as [|? ? (r & Hq & Hro) Hps].
  destruct (handle_vswitchd_cmd_ok n lcore c p r d (M ps ⊎ X) U D Hr) as (d1 & -> & Hp1 & Hf1 & Ht1 & Hq1); try done.
  { eapply pinv_eq; [exact Hp|]. rewrite M_cons. clear. multiset_solver. }
  bind. destruct (IH d1 Hp1 Ht1) as (d2 & -> & Hp2 & Hf2 & Ht2).
  { rewrite Hq1. apply Forall_forall. intros q Hq'. rewrite Forall_forall in Hps. destruct (Hps q Hq') as (r' & ? & Hr').
    exists r'. split; [done|]. eapply request_ok_kept; [apply Hf1| |done]. apply gmultiset_elem_of_disj_union. left.
    by apply elem_of_list_to_set_disj, list_elem_of_In. }
  exists d2. do 2 (split; [done|]). split; [|done]. eapply dframe_trans; [by eapply dframe_mono|done].
Qed.

(** *** The refill of the daemon's buffers *)

(** [n] allocations in a row succeed. *)
Fixpoint can_alloc (n : nat) (m : mem) : Prop :=
  match n with
  | O => True
  | S n => match rte_pktmbuf_alloc m with (Some _, m) => can_alloc n m | (None, _) => False end
  end.

Lemma alloc_burst_ok k j m X :
  owns m X -> can_alloc (k + j) m ->
  exists ps m', alloc_burst k m = (ps, m') /\ length ps = k /\ can_alloc j m' /\ owns m' (M ps ⊎ X) /\ keeps X m m'.
Proof.
  revert m X. induction k as [|k IH]; intros m X Ho Hc; cbn [alloc_burst].
  { exists [], m. do 3 (split; [done|]). split; [|done]. eapply owns_eq; [exact Ho|]. rewrite M_nil. clear. multiset_solver. }
  simpl in Hc. destruct (rte_pktmbuf_alloc m) as [[p|] m1] eqn:E; [|done].
  destruct (owns_alloc _ _ _ _ Ho E) as [Ho1 Hk1].
  destruct (IH m1 _ Ho1 Hc) as (ps & m2 & -> & Hl & Hc2 & Ho2 & Hk2). exists (p :: ps), m2. split; [done|].
  split; [simpl; by rewrite Hl|]. split; [done|]. split.
  - eapply owns_eq; [exact Ho2|]. rewrite M_cons. clear. multiset_solver.
  - eapply keeps_trans; [exact Hk1|]. by eapply keeps_mono.
Qed.

(** How many rounds of 32 buffers bring the ring to the threshold, and one more
    to see it. *)
Definition refill_fuel : nat := 17.

Lemma alloc_loop_ok n lcore fuel d X :
  dpinv n lcore d X -> VSWITCHD_ALLOC_THRESHOLD + PKT_BURST_SIZE <= ring_cap (vswitchd_alloc_ring d) ->
  VSWITCHD_ALLOC_THRESHOLD - zlen (ring_objs (vswitchd_alloc_ring d)) <= PKT_BURST_SIZE * Z.of_nat fuel ->
  can_alloc (32 * fuel) (vmem (d_sw d)) ->
  exists d', alloc_loop (S fuel) d = Ok d' /\ dpinv n lcore d' X /\ dframe X d d' /\ d_flows d' = d_flows d /\
    VSWITCHD_ALLOC_THRESHOLD <= zlen (ring_objs (vswitchd_alloc_ring d')) /\
    ring_objs (vswitchd_alloc_ring d) `prefix_of` ring_objs (vswitchd_alloc_ring d').
Proof.
  unfold VSWITCHD_ALLOC_THRESHOLD, VSWITCHD_RINGSIZE. change (2048 / 4) with 512. unfold PKT_BURST_SIZE.
  revert d. induction fuel as [|fuel IH]; intros d Hp Hcap Hf Hc.
  { cbn [alloc_loop]. unfold VSWITCHD_ALLOC_THRESHOLD, VSWITCHD_RINGSIZE. change (2048 / 4) with 512.
    rewrite ring_count_spec, (proj2 (Z.ltb_ge _ _)) by lia. exists d. split; [done|]. split; [done|].
    split; [by apply dframe_same|]. split; [done|]. split; [lia|done]. }
  remember (S fuel) as fuel1 eqn:Hfu. cbn [alloc_loop]. unfold VSWITCHD_ALLOC_THRESHOLD, VSWITCHD_RINGSIZE.
  change (2048 / 4) with 512. rewrite ring_count_spec.
  destruct (Z.ltb_spec (zlen (ring_objs (vswitchd_alloc_ring d))) 512) as [Hlt|Hge].
  2:{ exists d. split; [done|]. split; [done|]. split; [by apply dframe_same|]. split; [done|]. split; [lia|done]. }
  subst fuel1. change (Z.to_nat PKT_BURST_SIZE) with 32%nat.
  destruct (alloc_burst_ok 32 (32 * fuel) (vmem (d_sw d)) _ (proj2 (proj1 Hp))) as (ps & m & -> & Hl & Hc' & Ho & Hk).
  { by replace (32 + 32 * fuel)%nat with (32 * S fuel)%nat by lia. }
  assert (zlen ps = 32) as Hz by (unfold zlen; lia). rewrite Hz. change (0 <? 32) with true. cbv iota.
  cbn [vswitchd_alloc_ring set_sw].
  destruct (rte_ring_enqueue_bulk ps (vswitchd_alloc_ring d)) as [rc r] eqn:Er.
  destruct (ring_enqueue_bulk_spec _ _ _ _ Er) as [Hcr Hr]. rewrite (proj2 (Z.leb_le _ _)) in Hr by lia.
  destruct Hr as [_ Hr]. cbn [snd]. set (d1 := set_alloc_ring r _).
  destruct (IH d1) as (d2 & -> & Hp2 & Hf2 & Hfl & Hth & Hpre).
  - eapply pinv_set_vmem; [exact Hp|]. intros _. eapply owns_eq; [exact Ho|]. unfold rings_objs, d1. simpl.
    rewrite Hr, M_app. clear. multiset_solver.
  - cbn [d1 vswitchd_alloc_ring set_alloc_ring]. lia.
  - cbn [d1 vswitchd_alloc_ring set_alloc_ring]. rewrite Hr, zlen_app. lia.
  - done.
  - exists d2. split; [done|]. split; [done|]. split.
    + eapply dframe_trans; [|exact Hf2]. split; [done|]. eapply frames_kept_mono, frames_kept_mono, keeps_frames, Hk.
    + split; [done|]. split; [done|]. etrans; [|exact Hpre]. cbn [d1 vswitchd_alloc_ring set_alloc_ring]. rewrite Hr.
      by exists ps.
Qed.

Lemma serve_requests_ok n lcore c d X U D :
  pool_room -> dpinv n lcore d X -> table_ok U D (d_flows d) ->
  Forall (fun p => exists r, d_requests d !! p = Some r /\ request_ok U D (vmem (d_sw d)) p r)
    (take (Z.to_nat PKT_BURST_SIZE) (ring_objs (vswitchd_message_ring d))) ->
  exists d', serve_requests c lcore d = Ok d' /\ dpinv n lcore d' X /\ dframe X d d' /\ table_ok U D (d_flows d').
Proof.
  intros Hr Hp Ht Hqs. unfold serve_requests.
  destruct (rte_ring_dequeue_burst PKT_BURST_SIZE (vswitchd_message_ring d)) as [ps r] eqn:Er.
  destruct (ring_dequeue_burst_spec PKT_BURST_SIZE _ _ _ ltac:(done) Er) as (_ & Hps & Hro). set (d1 := set_message_ring r d).
  assert (M (ring_objs (vswitchd_message_ring d)) = M ps ⊎ M (ring_objs r)) as Hsplit.
  { by rewrite Hps, Hro, <- M_app, take_drop. }
  assert (dpinv n lcore d1 (M ps ⊎ X)) as Hp1.
  { eapply pinv_eq; [exact Hp|]. unfold rings_objs, d1. simpl. rewrite Hsplit. clear. multiset_solver. }
  destruct (inc_vswitchd_ok n lcore C_rx (zlen ps) d1 _ Hp1) as (x & -> & Hp2). bind.
  destruct (handle_cmds_ok n lcore c ps _ X U D Hr Hp2) as (d2 & -> & Hp3 & Hf3 & Ht3); [done|by rewrite Hps|]. bind.
  destruct (rte_ring_dequeue_burst PKT_BURST_SIZE (vswitchd_free_ring d2)) as [fs r2] eqn:Er2.
  destruct (ring_dequeue_burst_spec PKT_BURST_SIZE _ _ _ ltac:(done) Er2) as (_ & Hfs & Hro2).
  assert (M (ring_objs (vswitchd_free_ring d2)) = M fs ⊎ M (ring_objs r2)) as Hsplit2.
  { by rewrite Hfs, Hro2, <- M_app, take_drop. }
  cbn [d_sw set_free_ring]. destruct Hp3 as [[Hwf3 Ho3] Hs3].
  destruct (st_free_all_ok n lcore fs (d_sw d2) (owned (d_sw d2) ⊎ (rings_objs (set_free_ring r2 d2) ⊎ X)) Hwf3) as (m & -> & Hwf4 & Ho4 & Hk4).
  { eapply owns_eq; [exact Ho3|]. unfold rings_objs. simpl. rewrite Hsplit2. clear. multiset_solver. }
  bind. eexists. split; [done|]. split; [|split; [|done]].
  - split; [done|]. intros k. specialize (Hs3 k). by destruct k.
  - eapply dframe_trans; [|eapply dframe_trans; [exact Hf3|]]; [by apply dframe_same|]. split; [done|].
    eapply frames_kept_mono, frames_kept_mono, keeps_frames, Hk4.
Qed.

(** The two updates of [vport_cmd_new]. *)
Lemma update_vport_spec j f (s : sw) v :
  index (vports s) j = Ok v ->
  index (vports (update_vport j f s)) j = Ok (f v) /\
  forall i, i <> j -> index (vports (update_vport j f s)) i = index (vports s) i.
Proof.
  intros Hv. pose proof (index_bound _ _ _ Hv). unfold update_vport. rewrite Hv. simpl. split.
  - by apply index_update_eq.
  - intros i Hi. by rewrite index_update_ne by lia.
Qed.

Lemma vport_exists_update j f (s : sw) :
  (forall v, v_type (f v) = v_type v) -> vport_exists j (update_vport j f s) = vport_exists j s.
Proof.
  intros Hf. unfold vport_exists. destruct (index (vports s) j) as [v|] eqn:Hv.
  - destruct (update_vport_spec j f s v Hv) as [-> _]. by rewrite Hf.
  - unfold update_vport. by rewrite Hv, Hv.
Qed.

Lemma enable_name_spec j text (s : sw) :
  vport_exists j s = true ->
  let s' := vport_set_name j text (vport_enable j s) in
  (forall i, i <> j -> index (vports s') i = index (vports s) i) /\
  vport_is_enabled j s' = true /\ vport_get_name j s' = Some (snprintf VPORT_INFO_NAMESZ text) /\ vport_get_type j s' = vport_get_type j s.
Proof.
  intros Ej s'. destruct (vport_exists_range _ _ Ej) as (v & Hv & _).
  set (f1 := fun v : vport_info ring dev => VportInfo (v_type v) (v_name v) true (v_u v)).
  set (f2 := fun v : vport_info ring dev => VportInfo (v_type v) (snprintf VPORT_INFO_NAMESZ text) (v_enabled v) (v_u v)).
  destruct (update_vport_spec j f1 s v Hv) as [E1 O1].
  destruct (update_vport_spec j f2 (update_vport j f1 s) _ E1) as [E2 O2].
  assert (s' = update_vport j f2 (update_vport j f1 s)) as ->.
  { subst s'. unfold vport_set_name, vport_enable, set_enabled. rewrite Ej. fold f1. by rewrite vport_exists_update, Ej. }
  split; [intros i Hi; by rewrite O2, O1|].
  unfold vport_is_enabled, vport_get_name, vport_get_type. rewrite !vport_exists_update, Ej, E2, Hv by done. done.
Qed.

(** ** Properties *)

(** a packet switched through the flow table is accounted for: whatever its
    key, with a table of executable flows and a frame with room for their
    actions, [switch_packet] never faults, takes the packet over, and keeps the
    invariants of the switch, of the table and of the packets still to be
    switched. *)
Theorem switch_packet_accounts n lcore c seen p k d X U D :
  seen_ok seen -> dpinv n lcore d ({[+ p +]} ⊎ X) -> table_ok U D (d_flows d) -> frame_at U D (vmem (d_sw d)) p ->
  0 <= U -> 0 <= D ->
  exists d', switch_packet c seen lcore p k d = Ok d' /\ dpinv n lcore d' X /\ dframe X d d' /\ table_ok U D (d_flows d').
Proof.
  intros Hs Hp Ht Hf HU HD. destruct (switch_packet_ok n lcore c seen p k d X U D Hs Hp Ht Hf HU HD) as (d' & ? & ? & ? & ? & _).
  by exists d'.
Qed.

(** C9: A packet that matches a flow, with the room that the flow's actions
    need, gets exactly that flow's actions; the flow, and no other, counts one
    more packet, the bytes seen, the time and the TCP flags; and nothing else
    of the datapath changes but what the actions do to the switch. *)
Theorem switch_packet_hit n lcore c seen p k d X U D a x :
  seen_ok seen -> dpinv n lcore d ({[+ p +]} ⊎ X) -> table_ok U D (d_flows d) -> frame_at U D (vmem (d_sw d)) p ->
  flow_map (d_flows d) k = Some (a, x) ->
  exists s t, action_execute lcore (Some a) (Some p) (d_sw d) = Ok (0, s) /\
    switch_packet c seen lcore p k d = Ok (set_flows t (set_sw s d)) /\
    fmap_eq (flow_map t) (fmap_set k (Some (a, counted c k (seen s p) x)) (flow_map (d_flows d))).
Proof.
  intros Hs Hp Ht Hf Hm.
  destruct (switch_hit_ok n lcore c seen p k d X U D a x Hs Hp Ht Hf Hm) as (s & t & ? & ? & _ & _ & _ & ?). by exists s, t.
Qed.

(** C10: A packet that matches no flow is sent to the daemon: with headroom
    for the upcall and room in the ring it becomes the last packet of the
    daemon's ring, its data preceded by the reason and the key, it is counted
    as sent, and the daemon is signalled exactly when the ring was empty;
    otherwise, without headroom or without room, it is freed and counted as
    dropped, by the switch and by the daemon's vport, and the ring is as
    before. The flow table and the other rings do not change. *)
Theorem switch_packet_miss n lcore c seen p k d X b buf :
  dpinv n lcore d ({[+ p +]} ⊎ X) -> ft_wf (d_flows d) -> flow_map (d_flows d) k = None ->
  mbufs (vmem (d_sw d)) !! p = Some b -> bufs (vmem (d_sw d)) !! buf_addr b = Some buf -> frame_ok 0 0 b buf ->
  let r := vswitchd_packet_ring d in
  exists d', switch_packet c seen lcore p k d = Ok d' /\ dpinv n lcore d' X /\
    (exists u, d' = set_packet_ring (vswitchd_packet_ring d') u (d_signals d') (set_sw (d_sw d') d)) /\
    if (sizeof_dpdk_upcall <=? pkt_data b) && (zlen (ring_objs r) <? ring_cap r) then
      ring_objs (vswitchd_packet_ring d') = ring_objs r ++ [p] /\ d_upcalls d' !! p = Some (Upcall PACKET_CMD_MISS k) /\
      mbufs (vmem (d_sw d')) !! p = Some (upcall_header b) /\ bufs (vmem (d_sw d')) = bufs (vmem (d_sw d)) /\
      d_signals d' = d_signals d + (if zlen (ring_objs r) =? 0 then 1 else 0) /\
      send_counted lcore (vstats (d_sw d)) (vstats (d_sw d'))
    else vswitchd_packet_ring d' = r /\ d_signals d' = d_signals d /\ mbufs (vmem (d_sw d')) !! p = None /\
      drop_counted lcore (vstats (d_sw d)) (vstats (d_sw d')).
Proof.
  intros Hp Hwf Hm Hb Hc Hf. cbv zeta. rewrite switch_miss by done.
  destruct (send_packet_ok n lcore p (Upcall PACKET_CMD_MISS k) d X b buf Hp Hb Hc Hf) as (d' & E & Hp' & _ & ? & _ & Hq).
  destruct (send_packet_counted lcore p _ d d' b Hb E) as [Hd Hs]. exists d'. do 3 (split; [done|]). destruct (_ && _).
  - destruct Hq as (? & ? & ? & ? & ? & _). done.
  - by destruct Hq, Hs.
Qed.

(** serving the daemon: any burst of well-formed requests (vport, flow,
    packet or unknown commands) and the buffers the daemon returns are processed
    without fault, every request buffer is freed or sent, the invariants of
    switch and flow table hold afterwards; and when the pool has the buffers,
    the refill of the daemon's buffers ends with at least the threshold in the
    ring. *)
Theorem handle_request_accounts n lcore c d X U D :
  pool_room -> dpinv n lcore d X -> table_ok U D (d_flows d) ->
  Forall (fun p => exists r, d_requests d !! p = Some r /\ request_ok U D (vmem (d_sw d)) p r)
    (take (Z.to_nat PKT_BURST_SIZE) (ring_objs (vswitchd_message_ring d))) ->
  exists d1, serve_requests c lcore d = Ok d1 /\ dpinv n lcore d1 X /\ dframe X d d1 /\ table_ok U D (d_flows d1) /\
    (VSWITCHD_ALLOC_THRESHOLD + PKT_BURST_SIZE <= ring_cap (vswitchd_alloc_ring d1) -> can_alloc 512 (vmem (d_sw d1)) ->
     exists d2, handle_request_from_vswitchd refill_fuel c lcore d = Ok d2 /\ dpinv n lcore d2 X /\ dframe X d d2 /\
       table_ok U D (d_flows d2) /\ VSWITCHD_ALLOC_THRESHOLD <= zlen (ring_objs (vswitchd_alloc_ring d2))).
Proof.
  intros Hr Hp Ht Hq. destruct (serve_requests_ok n lcore c d X U D Hr Hp Ht Hq) as (d1 & E & Hp1 & Hf1 & Ht1).
  exists d1. do 4 (split; [done|]). intros Hcap Hc.
  destruct (alloc_loop_ok n lcore 16 d1 X Hp1 Hcap) as (d2 & E2 & ? & ? & Hfl & ? & _); [|done|].
  { unfold VSWITCHD_ALLOC_THRESHOLD, VSWITCHD_RINGSIZE, PKT_BURST_SIZE. change (2048 / 4) with 512. unfold zlen. lia. }
  exists d2. unfold handle_request_from_vswitchd. rewrite E. bind. rewrite Hfl. do 2 (split; [done|]).
  split; [by eapply dframe_trans|done].
Qed.

(** the flow commands implement the map: [flow_cmd_new] adds an absent flow
    if asked to create, replaces the actions (and clears the statistics on
    demand) of a present one if asked to replace, and otherwise replies ENOENT
    or EEXIST and changes nothing; and if a buffer and room in the ring are
    there, the last message of the reply ring is that reply. *)
Theorem flow_cmd_new_correct n lcore c r d X :
  pool_room -> dpinv n lcore d X -> ft_wf (d_flows d) ->
  exists reply d', flow_cmd_new c lcore r d = Ok d' /\ dpinv n lcore d' X /\ ft_wf (d_flows d') /\
    flow_new_spec c r (flow_map (d_flows d)) reply (flow_map (d_flows d')) /\
    (fst (rte_pktmbuf_alloc (vmem (d_sw d))) <> None ->
     zlen (ring_objs (vswitchd_reply_ring d)) < ring_cap (vswitchd_reply_ring d) ->
     exists p, ring_objs (vswitchd_reply_ring d') = ring_objs (vswitchd_reply_ring d) ++ [p] /\ d_replies d' !! p = Some reply).
Proof.
  intros Hr Hp Hwf. destruct (flow_new_refines c r (d_flows d) Hwf) as (reply & t & E & Hwf' & Hs).
  destruct (send_reply_ok n lcore reply (set_flows t d) X Hr Hp) as (d' & E' & Hp' & _ & Hfl & _ & _ & Hq).
  exists reply, d'. unfold flow_cmd_new. rewrite E. bind. rewrite Hfl. do 4 (split; [done|]).
  intros Ha Hc. destruct (Hq Ha Hc) as (p & ? & ? & _). eauto.
Qed.

(** [flow_cmd_del] with the empty key empties the table; with another key
    it removes that flow and replies with its last statistics, or replies
    ENOENT and changes nothing; the reply reaches the reply ring. *)
Theorem flow_cmd_del_correct n lcore c r d X :
  pool_room -> dpinv n lcore d X -> ft_wf (d_flows d) ->
  exists reply d', flow_cmd_del c lcore r d = Ok d' /\ dpinv n lcore d' X /\ ft_wf (d_flows d') /\
    flow_del_spec c r (flow_map (d_flows d)) reply (flow_map (d_flows d')) /\
    (fst (rte_pktmbuf_alloc (vmem (d_sw d))) <> None ->
     zlen (ring_objs (vswitchd_reply_ring d)) < ring_cap (vswitchd_reply_ring d) ->
     exists p, ring_objs (vswitchd_reply_ring d') = ring_objs (vswitchd_reply_ring d) ++ [p] /\ d_replies d' !! p = Some reply).
Proof.
  intros Hr Hp Hwf. destruct (flow_del_refines c r (d_flows d) Hwf) as (reply & t & E & Hwf' & Hs).
  destruct (send_reply_ok n lcore reply (set_flows t d) X Hr Hp) as (d' & E' & Hp' & _ & Hfl & _ & _ & Hq).
  exists reply, d'. unfold flow_cmd_del. rewrite E. bind. rewrite Hfl. do 4 (split; [done|]).
  intros Ha Hc. destruct (Hq Ha Hc) as (p & ? & ? & _). eauto.
Qed.

(** the dump of the vports: starting with the number UINT32_MAX, each
    request carrying the number of the last reply, the replies are exactly the
    enabled vports above 0 in ascending order, and the dump ends. *)
Theorem vport_dump_complete n lcore (s : sw) X :
  pinv n lcore s X ->
  vport_dump_all (S (S (Z.to_nat MAX_VPORTS))) UINT32_MAX s = Ok (enabled_from 1 (Z.to_nat (MAX_VPORTS - 1)) s).
Proof.
  intros Hp. pose proof (vport_dump_all_ok n lcore (S (S (Z.to_nat MAX_VPORTS))) 0 s X Hp) as Hall.
  change (0 + 1) with 1 in Hall. rewrite <- Hall by (unfold MAX_VPORTS; lia).
  cbn [vport_dump_all]. unfold vport_dump. cbn [vm_port_no]. rewrite Z.eqb_refl. change (0 =? UINT32_MAX) with false.
  change (u32 (0 + 1)) with 1. done.
Qed.

(** [vport_cmd_new] on a number that is a disabled vport of the type, or
    else on the first free vport of the type's range: exactly that vport is
    enabled and named, and the reply carries its number.  A vport in use gives
    EBUSY, none at all (or a bridge port) ENODEV, and nothing changes. *)
Theorem vport_new_correct r text (s : sw) :
  format0 (vm_port_name r) = Ok text ->
  let no := if bool_decide (vm_type r = VPORT_TYPE_PHY) then u32 (vm_port_no r + PHYPORT0) else vm_port_no r in
  exists j reply s', vport_new r s = Ok (reply, s') /\
    (vport_exists no s = true -> vport_get_type no s = vm_type r -> j = no) /\
    (vport_exists no s = false -> j = vport_next_available_index (vm_type r) s) /\
    (forall i, i <> j -> index (vports s') i = index (vports s) i) /\
    if vport_exists j s && bool_decide (vm_type r <> VPORT_TYPE_BRIDGE) then
      if vport_is_enabled j s then reply = Reply EBUSY (VportReply r) /\ s' = s
      else reply = Reply 0 (VportReply (with_port_no j r)) /\ vport_is_enabled j s' = true /\
           vport_get_name j s' = Some (snprintf VPORT_INFO_NAMESZ text) /\ vport_get_type j s' = vport_get_type j s
    else reply = Reply ENODEV (VportReply r) /\ s' = s.
Proof.
  intros Ht no. unfold vport_new. fold no.
  assert (exists v, (if vport_exists no s then vport_id_is_valid no (vm_type r) s else Ok false) = Ok v /\
    (vport_exists no s = true -> vport_get_type no s = vm_type r -> v = true) /\ (vport_exists no s = false -> v = false))
    as (v & -> & Hv1 & Hv2).
  { destruct (vport_exists no s) eqn:E; [|by exists false]. destruct (vport_exists_range _ _ E) as (w & Hw & Hr).
    unfold vport_id_is_valid, vport_get_type. rewrite Hw, E. bind.
    destruct (_ && _); [by exists true|]. rewrite (proj2 (Z.ltb_lt _ _)) by lia. eexists. split; [done|]. split; [|done].
    intros _ ->. by rewrite bool_decide_true. }
  bind. set (j := if v then no else _). exists j.
  destruct (vport_exists j s) eqn:Ej; cbn [andb].
  2:{ eexists _, s. split; [done|]. split; [by intros ? ?; subst j; rewrite Hv1|]. split; [by intros ?; subst j; rewrite Hv2|]. done. }
  destruct (bool_decide (vm_type r <> VPORT_TYPE_BRIDGE)).
  2:{ eexists _, s. split; [done|]. split; [by intros ? ?; subst j; rewrite Hv1|]. split; [by intros ?; subst j; rewrite Hv2|]. done. }
  destruct (vport_is_enabled j s) eqn:Een; cbn [negb].
  { eexists _, s. split; [done|]. split; [by intros ? ?; subst j; rewrite Hv1|]. split; [by intros ?; subst j; rewrite Hv2|]. done. }
  rewrite Ht. bind. eexists _, _. split; [done|]. split; [by intros ? ?; subst j; rewrite Hv1|].
  split; [by intros ?; subst j; rewrite Hv2|]. destruct (enable_name_spec j text s Ej) as (? & ? & ? & ?). done.
Qed.

(** C40: with an empty pool and fewer buffers than the threshold in the daemon's
    ring, the refill never ends: no number of rounds is enough. *)
Theorem alloc_loop_never_ends fuel d :
  fst (rte_pktmbuf_alloc (vmem (d_sw d))) = None ->
  zlen (ring_objs (vswitchd_alloc_ring d)) < VSWITCHD_ALLOC_THRESHOLD ->
  alloc_loop fuel d = Err OutOfFuel.
Proof.
  revert d. induction fuel as [|fuel IH]; intros d Ha Hc; [done|]. cbn [alloc_loop].
  rewrite ring_count_spec, (proj2 (Z.ltb_lt _ _)) by done. change (Z.to_nat PKT_BURST_SIZE) with (S 31). cbn [alloc_burst].
  destruct (rte_pktmbuf_alloc (vmem (d_sw d))) as [[p|] m] eqn:E; [done|].
  pose proof (alloc_none _ _ E) as ->. change (0 <? zlen []) with false. cbv iota.
  apply IH; [|done]. cbn [d_sw set_sw vmem set_vmem]. by rewrite E.
Qed.

(** a flow that does not fit in the table is reported as added: when the
    hash table has no room for the key, [flow_cmd_new] still replies 0, and the
    flow is not there. *)
Theorem flow_cmd_new_full_reports_success c r t h :
  flow_table_lookup t (fm_key r) < 0 -> has_flag (fm_flags r) FLAG_CREATE = true ->
  rte_hash_add_key (handle t) (fm_key r) = (- ENOSPC, h) ->
  exists t', flow_new c r t = Ok (Reply 0 (FlowReply r), t') /\ table t' = table t /\ flow_table_lookup t' (fm_key r) < 0.
Proof.
  intros Hl Hf Ha. pose proof (hash_add_spec _ _ _ _ Ha) as Hs. unfold flow_table_lookup in Hl. rewrite hash_lookup_spec in Hl.
  destruct (hash_pos (handle t) (fm_key r)) as [q|] eqn:Eq; [pose proof (hash_pos_range _ _ _ Eq); lia|].
  exists (FlowTable (table t) h). unfold flow_new, flow_table_add_flow, flow_table_lookup. rewrite hash_lookup_spec, Eq.
  change (- ENOENT <? 0) with true. change (0 <=? - ENOENT) with false. rewrite Hf, Ha. cbv iota.
  change (bad_pos (- ENOSPC)) with true. cbv iota. bind. split; [done|]. split; [done|]. cbn [handle].
  rewrite hash_lookup_spec. destruct Hs as [[_ Hs]|[Hs _]]; [by rewrite Hs, Eq|].
  apply hash_pos_range in Hs. unfold ENOSPC in Hs. lia.
Qed.

(** [vport_cmd_del] cuts the number to 16 bits: a request for the number
    65536 + j, which is no vport, disables vport j and is answered with 0. *)
Theorem vport_del_truncates r j (s : sw) :
  0 <= j < MAX_VPORTS -> vport_is_enabled j s = true -> vm_port_no r = 65536 + j ->
  exists s', vport_del r s = (Reply 0 (VportReply r), s') /\ vport_is_enabled j s' = false /\
    vport_exists (vm_port_no r) s = false.
Proof.
  intros Hj Hen Hr. pose proof (vport_enabled_exists _ _ Hen) as Hex. destruct (vport_exists_range _ _ Hex) as (v & Hv & _).
  assert (u16 (vm_port_no r) = j) as Hu.
  { rewrite Hr. unfold u16, wrap. replace (65536 + j) with (j + 1 * 2 ^ 16) by lia.
    rewrite Z.mod_add by lia. apply Z.mod_small. unfold MAX_VPORTS in *. lia. }
  unfold vport_del. rewrite Hu, Hex, Hen. cbn [andb]. eexists. split; [done|]. split.
  - unfold vport_disable, set_enabled. rewrite Hex. unfold vport_is_enabled. rewrite vport_exists_update, Hex by done.
    by destruct (update_vport_spec j (fun v => VportInfo (v_type v) (v_name v) false (v_u v)) s v Hv) as [-> _].
  - unfold vport_exists. rewrite Hr, (proj2 (Z.ltb_ge (65536 + j) MAX_VPORTS)) by (unfold MAX_VPORTS in *; lia).
    by destruct (index (vports s) (65536 + j)).
Qed.
End DatapathProps.

(** ** Examples *)

Lemma sample_pool_room : pool_room.
Proof.
  intros m p m' b c. cbn [rte_pktmbuf_alloc sample_pool Pool]. unfold pool_alloc. destruct (_ <? _); [|done].
  intros [= <- <-]. cbn [mbufs bufs]. rewrite lookup_insert_eq. intros [= <-]. cbn [buf_addr]. rewrite lookup_insert_eq.
  intros [= <-]. by vm_compute.
Qed.

(** A table with one flow, from client 1 to client 2. *)
Lemma sample_actions_ok : actions_ok 0 0 (sample_actions 2).
Proof.
  split; [reflexivity|]. split; [repeat constructor; done|]. split; [|by vm_compute].
  right. right. exists [], 2. split; [reflexivity|]. by constructor.
Qed.

Lemma sample_flows_ok : table_ok 0 0 (with_flow sample_key).
Proof.
  split; [apply with_flow_wf|]. intros k a x. unfold with_flow.
  destruct (add_refines sample_key (sample_actions 2) sample_table (proj1 sample_table_wf)) as (rc & t' & -> & _ & Hs).
  inversion Hs as [? ? v ? Hv Heq|? ? ? Hv Heq|? ? ? ? Hv Hrc Heq| | | | |]; subst; rewrite Heq; unfold fmap_set;
    try case_decide; rewrite ?(proj2 sample_table_wf); try done.
  intros [= <- _]. apply sample_actions_ok.
Qed.

(** The datapath of the example switch, packet 1 just received. *)
Definition sample_ring (l : list Z) : fifo := FifoRing l 2047.
Definition sample_dp (t : flow_table (list (option flow_key))) : dp fifo unit queues (list (option flow_key)) :=
  Dp sample_st t (sample_ring []) (sample_ring []) (sample_ring []) (sample_ring []) (sample_ring []) ∅ ∅ ∅ 0.

Example sample_dp_init t : datapath_init sample_st t = Ok (sample_dp t).
Proof. reflexivity. Qed.

Lemma sample_dpinv t : dpinv 4 0 (sample_dp t) ({[+ 1 +]} ⊎ ∅).
Proof. eapply pinv_eq; [apply sample_st_pinv|]. assert (rings_objs (sample_dp t) = ∅) as -> by done. multiset_solver. Qed.

Definition sample_seen (s : vst fifo unit queues) (p : Z) : list Z * Z * Z := (replicate 128 0, 64, 60).

Lemma sample_seen_ok : seen_ok sample_seen.
Proof. intros s p. simpl. split; [done|]. by vm_compute. Qed.

Lemma sample_frame : frame_at 0 0 (vmem (d_sw (sample_dp (with_flow sample_key)))) 1.
Proof. by apply (sample_frame_at 0 0). Qed.

Lemma switch_packet_accounts_witness :
  exists d', switch_packet sample_clock sample_seen 0 1 sample_key (sample_dp (with_flow sample_key)) = Ok d' /\
    dpinv 4 0 d' ∅ /\ dframe ∅ (sample_dp (with_flow sample_key)) d' /\ table_ok 0 0 (d_flows d').
Proof.
  apply (switch_packet_accounts 4 0 sample_clock sample_seen 1 sample_key (sample_dp (with_flow sample_key)) ∅ 0 0);
    [apply sample_seen_ok|apply sample_dpinv|apply sample_flows_ok|apply sample_frame|lia|lia].
Defined.

Lemma switch_packet_hit_witness :
  let d := sample_dp (with_flow sample_key) in
  exists s t, action_execute 0 (Some (sample_actions 2)) (Some 1) (d_sw d) = Ok (0, s) /\
    switch_packet sample_clock sample_seen 0 1 sample_key d = Ok (set_flows t (set_sw s d)) /\
    fmap_eq (flow_map t) (fmap_set sample_key (Some (sample_actions 2, counted sample_clock sample_key (sample_seen s 1) zero_stats)) (flow_map (d_flows d))).
Proof.
  intros d. apply (switch_packet_hit 4 0 sample_clock sample_seen 1 sample_key d ∅ 0 0 (sample_actions 2) zero_stats);
    [apply sample_seen_ok|apply sample_dpinv|apply sample_flows_ok|apply sample_frame|vm_compute; reflexivity].
Defined.

Lemma sample_frame_ok : frame_ok 0 0 (Mbuf 1 64 60 60) (replicate 128 0).
Proof.
  destruct (sample_frame_at 0 0) as (b & c & Hb & Hc & Hf); [lia|lia|].
  vm_compute in Hb. injection Hb as <-. vm_compute in Hc. injection Hc as <-. exact Hf.
Qed.

(** The upcall's header is prepended to packet 1, and the daemon is signalled. *)
Lemma switch_packet_miss_witness :
  exists d', switch_packet sample_clock sample_seen 0 1 sample_key (sample_dp sample_table) = Ok d' /\
    dpinv 4 0 d' ∅ /\ d_flows d' = sample_table /\
    ring_objs (vswitchd_packet_ring d') = [1] /\ d_upcalls d' !! 1 = Some (Upcall PACKET_CMD_MISS sample_key) /\
    mbufs (vmem (d_sw d')) !! 1 = Some (Mbuf 1 26 98 98).
Proof.
  destruct (switch_packet_miss 4 0 sample_clock sample_seen 1 sample_key (sample_dp sample_table) ∅ (Mbuf 1 64 60 60)
    (replicate 128 0)) as (d' & E & Hd & (u & Ht) & Hc);
    [apply sample_dpinv|apply sample_table_wf|apply sample_table_wf|vm_compute; reflexivity|vm_compute; reflexivity
    |apply sample_frame_ok|].
  exists d'. split; [exact E|]. split; [exact Hd|]. split; [by rewrite Ht|].
  destruct Hc as (H1 & H2 & H3 & _). split; [exact H1|]. split; [exact H2|exact H3].
Defined.

(** Packet 1 is a message of the daemon: add a flow. *)
Definition sample_flow_msg : dpdk_flow_message :=
  FlowMsg 7 CMD_NEW FLAG_CREATE sample_key zero_stats (sample_actions 2) false.
Definition sample_vport_msg (no : Z) : dpdk_vport_message :=
  VportMsg 8 CMD_NEW 0 no [112; 49] VPORT_TYPE_CLIENT (PortStats 0 0 0 0 0 0 0 0).
Definition sample_request : dpdk_message := Msg FLOW_CMD_FAMILY (sample_vport_msg 1) sample_flow_msg (sample_actions 2).

Definition sample_request_dp : dp fifo unit queues (list (option flow_key)) :=
  Dp sample_st sample_table (sample_ring []) (sample_ring [1]) (sample_ring []) (sample_ring []) (sample_ring [])
    {[1 := sample_request]} ∅ ∅ 0.

Lemma sample_request_dpinv : dpinv 4 0 sample_request_dp ∅.
Proof.
  eapply pinv_eq; [apply sample_st_pinv|]. assert (rings_objs sample_request_dp = {[+ 1 +]}) as -> by done. multiset_solver.
Qed.

Lemma sample_table_ok : table_ok 0 0 sample_table.
Proof. split; [apply sample_table_wf|]. intros k a x. by rewrite (proj2 sample_table_wf). Qed.

Lemma sample_name_ok : format0 [112; 49] = Ok [112; 49].
Proof. reflexivity. Qed.

Lemma handle_request_accounts_witness :
  exists d1, serve_requests sample_clock 0 sample_request_dp = Ok d1 /\ dpinv 4 0 d1 ∅ /\
    exists d2, handle_request_from_vswitchd refill_fuel sample_clock 0 sample_request_dp = Ok d2 /\ dpinv 4 0 d2 ∅ /\
      VSWITCHD_ALLOC_THRESHOLD <= zlen (ring_objs (vswitchd_alloc_ring d2)).
Proof.
  destruct (handle_request_accounts 4 0 sample_clock sample_request_dp ∅ 0 0) as (d1 & E & Hd & _ & _ & H2).
  - apply sample_pool_room.
  - apply sample_request_dpinv.
  - apply sample_table_ok.
  - repeat constructor. exists sample_request. split; [reflexivity|]. split; [discriminate|].
    split; [intros _; apply sample_actions_ok|discriminate].
  - exists d1. split; [exact E|]. split; [exact Hd|].
    assert (Hc : ring_cap (vswitchd_alloc_ring d1) = 2047 /\ can_alloc 512 (vmem (d_sw d1))).
    { assert (Hs : match serve_requests sample_clock 0 sample_request_dp with
        | Ok d => ring_cap (vswitchd_alloc_ring d) = 2047 /\ can_alloc 512 (vmem (d_sw d)) | Err _ => False end)
        by (vm_compute; split; [reflexivity|exact I]).
      rewrite E in Hs. exact Hs. }
    destruct H2 as (d2 & E2 & Hd2 & _ & _ & Hl); [rewrite (proj1 Hc); discriminate|apply Hc|].
    exists d2. split; [exact E2|]. split; [exact Hd2|exact Hl].
Defined.

Lemma flow_cmd_new_correct_witness :
  exists reply d', flow_cmd_new sample_clock 0 sample_flow_msg (sample_dp sample_table) = Ok d' /\
    flow_new_spec sample_clock sample_flow_msg (flow_map sample_table) reply (flow_map (d_flows d')) /\
    exists p, ring_objs (vswitchd_reply_ring d') = [p] /\ d_replies d' !! p = Some reply.
Proof.
  destruct (flow_cmd_new_correct 4 0 sample_clock sample_flow_msg (sample_dp sample_table) ({[+ 1 +]} ⊎ ∅))
    as (reply & d' & E & _ & _ & Hs & Hr); [apply sample_pool_room|apply sample_dpinv|apply sample_table_wf|].
  exists reply, d'. split; [exact E|]. split; [exact Hs|]. apply Hr; [by vm_compute|reflexivity].
Defined.

Lemma flow_cmd_del_correct_witness :
  exists reply d', flow_cmd_del sample_clock 0 sample_flow_msg (sample_dp (with_flow sample_key)) = Ok d' /\
    flow_del_spec sample_clock sample_flow_msg (flow_map (with_flow sample_key)) reply (flow_map (d_flows d')) /\
    exists p, ring_objs (vswitchd_reply_ring d') = [p] /\ d_replies d' !! p = Some reply.
Proof.
  destruct (flow_cmd_del_correct 4 0 sample_clock sample_flow_msg (sample_dp (with_flow sample_key)) ({[+ 1 +]} ⊎ ∅))
    as (reply & d' & E & _ & _ & Hs & Hr); [apply sample_pool_room|apply sample_dpinv|apply with_flow_wf|].
  exists reply, d'. split; [exact E|]. split; [exact Hs|]. apply Hr; [by vm_compute|reflexivity].
Defined.

(** Client 1 after [vport_cmd_new]. *)
Definition sample_enabled : vst fifo unit queues := set_enabled true 1 sample_st.

Lemma vport_dump_complete_witness :
  vport_dump_all (S (S (Z.to_nat MAX_VPORTS))) UINT32_MAX sample_enabled
  = Ok (enabled_from 1 (Z.to_nat (MAX_VPORTS - 1)) sample_enabled).
Proof. apply (vport_dump_complete 4 0 sample_enabled ({[+ 1 +]} ⊎ ∅)). apply pinv_set_enabled, sample_st_pinv. Defined.

Lemma vport_new_correct_witness :
  exists j reply s', vport_new (sample_vport_msg 1) sample_st = Ok (reply, s') /\ j = 1 /\
    reply = Reply 0 (VportReply (with_port_no 1 (sample_vport_msg 1))) /\ vport_is_enabled 1 s' = true.
Proof.
  destruct (vport_new_correct (sample_vport_msg 1) [112; 49] sample_st sample_name_ok) as (j & reply & s' & E & Hj & _ & _ & Hr).
  assert (j = 1) as -> by (apply Hj; vm_compute; reflexivity).
  exists 1, reply, s'. split; [exact E|]. split; [reflexivity|].
  assert (Hc : (vport_exists 1 sample_st && bool_decide (vm_type (sample_vport_msg 1) <> VPORT_TYPE_BRIDGE) = true) /\
    vport_is_enabled 1 sample_st = false) by (vm_compute; split; reflexivity).
  rewrite (proj1 Hc), (proj2 Hc) in Hr. split; [apply Hr|apply Hr].
Defined.

(** A pool without buffers. *)
Lemma empty_pool_laws : @RteMbufLaws (Pool 0 [] 0).
Proof. by apply PoolLaws. Qed.

Lemma alloc_loop_never_ends_witness :
  alloc_loop (Mb := Pool 0 [] 0) 1000 (sample_dp sample_table) = Err OutOfFuel.
Proof.
  pose proof empty_pool_laws as Hl.
  apply (alloc_loop_never_ends (Mb := Pool 0 [] 0) 1000 (sample_dp sample_table)); vm_compute; reflexivity.
Defined.

(** A hash table filled with other keys. *)
Definition full_table : flow_table (list (option flow_key)) :=
  FlowTable (replicate (Z.to_nat MAX_FLOWS) zero_entry) (replicate (Z.to_nat MAX_FLOWS) (Some empty_key)).

Lemma flow_cmd_new_full_reports_success_witness :
  exists t', flow_new sample_clock sample_flow_msg full_table = Ok (Reply 0 (FlowReply sample_flow_msg), t') /\
    table t' = table full_table /\ flow_table_lookup t' (fm_key sample_flow_msg) < 0.
Proof.
  apply (flow_cmd_new_full_reports_success sample_clock sample_flow_msg full_table
    (snd (rte_hash_add_key (handle full_table) sample_key))); [vm_compute; reflexivity|reflexivity|].
  assert (fst (rte_hash_add_key (handle full_table) sample_key) = - ENOSPC) as <- by (vm_compute; reflexivity).
  apply surjective_pairing.
Defined.

Lemma vport_del_truncates_witness :
  exists s', vport_del (sample_vport_msg 65537) sample_enabled = (Reply 0 (VportReply (sample_vport_msg 65537)), s') /\
    vport_is_enabled 1 s' = false /\ vport_exists 65537 sample_enabled = false.
Proof.
  apply (vport_del_truncates (sample_vport_msg 65537) 1 sample_enabled); [split; [discriminate|reflexivity]|vm_compute; reflexivity|reflexivity].
Defined.
