(* ===== verification/Main.v ===== *)
(** The forwarding cores: [datapath/dpdk/main.c].

    A core of the switch repeats one iteration for ever: it acknowledges the
    removal of vhost devices, and then serves the daemon, polls the client, KNI,
    vEth and vhost ports in turn, or polls physical ports, as configured.  What
    the hardware gives (the time stamp counter, MAC addresses) is an argument. *)
From stdpp Require Import gmap gmultiset.
From S2P Require Import Prelude Stats Dpdk Flow Vport VportInit VportProps Action Datapath DatapathProps.

Definition PREFETCH_OFFSET : Z := 3.
Definition REQUEST_DEV_REMOVAL : Z := 1.
Definition ACK_DEV_REMOVAL : Z := 0.
Definition NUM_BYTES_MAC_ADDR : Z := 6.
Definition MAC_ADDR_STR_INT_L : Z := 3.

(** ** Printable MAC addresses *)

(** A digit of [%02x]. *)
Definition hex_digit (x : Z) : Z := if x <? 10 then 48 + x else 87 + x.

(** The output of [rte_snprintf] with [%02x:], and the terminator. *)
Definition mac_chunk (b : Z) : list Z := [hex_digit (b / 16); hex_digit (b mod 16); 58; 0].

(** [err_address], without and with its terminator. *)
Definition err_address : list Z := [48;48;58;48;48;58;48;48;58;48;48;58;48;48;58;48;48].
Definition sizeof_err_address : Z := 18.

(** A string: the bytes before the first 0. *)
Fixpoint c_string (l : list Z) : list Z :=
  match l with [] => [] | x :: l => if x =? 0 then [] else x :: c_string l end.

Fixpoint mac_loop (base i : Z) (mac : list Z) (addresses : list Z) : res (list Z) :=
  match mac with
  | [] => Ok addresses
  | b :: mac =>
      addresses ← store_bytes addresses (base + i) (mac_chunk b);
      mac_loop base (i + MAC_ADDR_STR_INT_L) mac addresses
  end.

(** [get_printable_mac_addr].  [max] is RTE_MAX_ETHPORTS, [mac] the six bytes
    [rte_eth_macaddr_get] gives for the port; the static array of strings is
    one block of [max] rows of 18 bytes. *)
Definition get_printable_mac_addr (max port : Z) (mac : list Z) (addresses : list Z) : res (list Z * list Z) :=
  if max <=? port then Ok (err_address, addresses) else
  let base := port * sizeof_err_address in
  c ← load8 addresses base;
  addresses ← (if c =? 0 then
      addresses ← mac_loop base 0 mac addresses;
      store8 addresses (base + (sizeof_err_address - 1)) 0
    else Ok addresses);
  row ← load_bytes addresses base (zlen addresses - base);
  Ok (c_string row, addresses).

(** ** The polling loops *)

(** The static variables of [do_client_switching]: the vports polled next. *)
Record cursors := Cursors { client : Z; kni_vportid : Z; veth_vportid : Z; vhost_vportid : Z }.

Definition cursors_init : cursors := Cursors CLIENT1 KNI0 VETH0 VHOST0.

(** [++id == last] starts again from [first]. *)
Definition next_vport (first last id : Z) : Z := if u32 (id + 1) =? u32 last then first else u32 (id + 1).

(** The clocks and the strings of [get_printable_mac_addr]: the global [curr_tsc]
    is in the [clock] of the flow table. *)
Record timing := Timing { t_clock : clock; next_tsc : Z; last_stats_display_tsc : Z; addresses : list Z }.

(** What is set before the loops start, with [ports->id], and what DPDK reports:
    RTE_MAX_ETHPORTS, the address of a port and the number of free buffers. *)
Record settings := Settings {
  tsc_update_period : Z; stats_display_interval : Z; ports_id : list Z;
  max_ethports : Z; macaddr : Z -> list Z; mempool_count : mem -> Z
}.

(** A line of [stats_display]: name, packets and drops received and sent. *)
Record stats_line := StatsLine { l_name : list Z; l_rx : Z; l_rx_drop : Z; l_tx : Z; l_tx_drop : Z }.

Record display := Display {
  phy_ports : list (Z * list Z); lines : list stats_line; sw_rx_drop : Z; sw_tx_drop : Z; overruns : Z; free_buffers : Z
}.

(** What a core is configured to do. *)
Record roles := Roles { nr_vswitchd : bool; nr_client_switching : bool; portid_map : list Z }.

Record port_config := PortConfig { port_id : Z; queue_id : Z; lcore_id : Z }.

(** The loop of [lcore_main] over the port configuration. *)
Definition core_ports (id : Z) (params : list port_config) : list Z :=
  port_id <$> filter (fun p => lcore_id p = id) params.

(** The beginning of [lcore_main]; the array has MAX_PHYPORTS entries. *)
Definition lcore_roles (id vswitchd_core client_switching_core : Z) (params : list port_config) : res roles :=
  let ports := core_ports id params in
  if MAX_PHYPORTS <? zlen ports then Err OutOfBounds else
  Ok (Roles (id =? vswitchd_core) (id =? client_switching_core) ports).

Section MainOps.
Context {ring dev drv hash : Type} `{Ring : RteRing ring} `{Mb : RteMbuf} `{Drv : Drivers drv} `{Vh : VhostDev dev}
  `{Hash : RteHash flow_key hash}.

Notation sw := (vst ring dev drv).
Notation dpt := (dp ring dev drv hash).
Implicit Type d : dpt.

(** The loop of [stats_display] over the vports. *)
Fixpoint display_loop (n : nat) (i : Z) (s : sw) : res (list stats_line * Z) :=
  match n with
  | O => Ok ([], 0)
  | S n =>
      match vport_get_name i s with
      | None | Some [] => display_loop n (i + 1) s
      | Some name =>
          rx ← stats_vport_rx_get i (vstats s);
          rxd ← stats_vport_rx_drop_get i (vstats s);
          tx ← stats_vport_tx_get i (vstats s);
          txd ← stats_vport_tx_drop_get i (vstats s);
          o ← stats_vport_overrun_get i (vstats s);
          '(ls, os) ← display_loop n (i + 1) s;
          Ok (StatsLine (take 13 name) rx rxd tx txd :: ls, u64 (o + os))
      end
  end.

(** The loop of [stats_display] over the physical ports. *)
Fixpoint macs_loop (st : settings) (ids : list Z) (a : list Z) : res (list (Z * list Z) * list Z) :=
  match ids with
  | [] => Ok ([], a)
  | i :: ids =>
      '(text, a) ← get_printable_mac_addr (max_ethports st) i (macaddr st i) a;
      '(l, a) ← macs_loop st ids a;
      Ok ((i, text) :: l, a)
  end.

(** [stats_display]: what is printed, and the strings of the addresses. *)
Definition stats_display (st : settings) (a : list Z) (s : sw) : res (display * list Z) :=
  '(macs, a) ← macs_loop st (ports_id st) a;
  '(ls, os) ← display_loop (Z.to_nat MAX_VPORTS) 0 s;
  Ok (Display macs ls (stats_vswitch_rx_drop_get (vstats s)) (stats_vswitch_tx_drop_get (vstats s)) os (mempool_count st (vmem s)), a).

(** The three flushes at the end of each loop. *)
Definition flush_all (lcore : Z) d : res dpt :=
  s ← flush_clients lcore (d_sw d);
  s ← flush_ports lcore s;
  s ← flush_vhost_devs lcore s;
  Ok (set_sw s d).

(** [do_vswitchd] at time [now]; the second result is what is printed. *)
Definition do_vswitchd (fuel : nat) (st : settings) (lcore now : Z) (t : timing) d : res (dpt * timing * option display) :=
  d ← handle_request_from_vswitchd fuel (t_clock t) lcore d;
  let c := t_clock t in
  let '(c, next) := if next_tsc t <=? now then (Clock now (cpu_freq c) (curr_ms c), u64 (now + tsc_update_period st))
                    else (c, next_tsc t) in
  '(shown, last, a) ← (
    if (stats_display_interval st <=? u64 (curr_tsc c - last_stats_display_tsc t) / cpu_freq c) &&
       negb (stats_display_interval st =? 0)
    then '(x, a) ← stats_display st (addresses t) (d_sw d); Ok (Some x, curr_tsc c, a)
    else Ok (None, last_stats_display_tsc t, addresses t));
  d ← flush_all lcore d;
  Ok (d, Timing c next last a, shown).

(** One packet of [do_switch_packets]: the key is read from the packet. *)
Definition extract_key (vportid p : Z) d : res flow_key :=
  b ← mbuf_at (vmem (d_sw d)) p;
  buf ← buf_at (vmem (d_sw d)) (buf_addr b);
  flow_key_extract buf (pkt_data b) vportid empty_key.

(** The second loop of [do_switch_packets]. *)
Fixpoint switch_rest (c : clock) (seen : sw -> Z -> list Z * Z * Z) (lcore vportid : Z) (ps : list Z) d : res dpt :=
  match ps with
  | [] => Ok d
  | p :: ps =>
      key ← extract_key vportid p d;
      d ← switch_packet c seen lcore p key d;
      switch_rest c seen lcore vportid ps d
  end.

(** The first loop: [ahead] are the packets from [PREFETCH_OFFSET] on, whose
    headers are read to prefetch their data. *)
Fixpoint switch_prefetching (c : clock) (seen : sw -> Z -> list Z * Z * Z) (lcore vportid : Z) (ps ahead : list Z) d
  : res dpt :=
  match ps, ahead with
  | p :: ps, q :: ahead =>
      key ← extract_key vportid p d;
      _ ← mbuf_at (vmem (d_sw d)) q;
      d ← switch_packet c seen lcore p key d;
      switch_prefetching c seen lcore vportid ps ahead d
  | _, _ => switch_rest c seen lcore vportid ps d
  end.

(** Prefetching reads the packet's header. *)
Fixpoint prefetch (ps : list Z) d : res () :=
  match ps with
  | [] => Ok ()
  | p :: ps => _ ← mbuf_at (vmem (d_sw d)) p; prefetch ps d
  end.

(** [do_switch_packets]: there are PKT_BURST_SIZE keys. *)
Definition do_switch_packets (c : clock) (seen : sw -> Z -> list Z * Z * Z) (lcore vportid : Z) (bufs : list Z) d
  : res dpt :=
  if PKT_BURST_SIZE <? zlen bufs then Err OutOfBounds else
  _ ← prefetch (take (Z.to_nat PREFETCH_OFFSET) bufs) d;
  switch_prefetching c seen lcore vportid bufs (drop (Z.to_nat PREFETCH_OFFSET) bufs) d.

(** Receiving and switching a burst. *)
Definition poll_vport (c : clock) (seen : sw -> Z -> list Z * Z * Z) (lcore vportid : Z) d : res dpt :=
  '(bufs, s) ← receive_from_vport lcore vportid (d_sw d);
  do_switch_packets c seen lcore vportid bufs (set_sw s d).

(** [do_client_switching]. *)
Definition do_client_switching (c : clock) (seen : sw -> Z -> list Z * Z * Z) (lcore : Z) (r : cursors) d
  : res (dpt * cursors) :=
  let num := cfg (d_sw d) in
  d ← poll_vport c seen lcore (client r) d;
  let cl := next_vport 1 (num_clients num) (client r) in
  '(d, kni) ← (if negb (num_kni num =? 0) then
      d ← poll_vport c seen lcore (kni_vportid r) d;
      Ok (d, next_vport KNI0 (KNI0 + num_kni num) (kni_vportid r))
    else Ok (d, kni_vportid r));
  '(d, veth) ← (if negb (num_veth num =? 0) then
      d ← poll_vport c seen lcore (veth_vportid r) d;
      Ok (d, next_vport VETH0 (VETH0 + num_veth num) (veth_vportid r))
    else Ok (d, veth_vportid r));
  '(d, vhost) ← (if negb (num_vhost num =? 0) then
      d ← poll_vport c seen lcore (vhost_vportid r) d;
      Ok (d, next_vport VHOST0 (VHOST0 + num_vhost num) (vhost_vportid r))
    else Ok (d, vhost_vportid r));
  d ← flush_all lcore d;
  Ok (d, Cursors cl kni veth vhost).

(** [do_port_switching]; [now] is the time [flush_nic_tx_ring] reads. *)
Definition do_port_switching (c : clock) (seen : sw -> Z -> list Z * Z * Z) (lcore now vportid : Z) d : res dpt :=
  d ← poll_vport c seen lcore vportid d;
  d ← flush_all lcore d;
  s ← flush_nic_tx_ring lcore now vportid (d_sw d);
  Ok (set_sw s d).

Fixpoint ports_loop (c : clock) (seen : sw -> Z -> list Z * Z * Z) (lcore now : Z) (ports : list Z) d : res dpt :=
  match ports with
  | [] => Ok d
  | v :: ports => d ← do_port_switching c seen lcore now v d; ports_loop c seen lcore now ports d
  end.

(** A core's state: the switch, its statics, and the flags of all cores. *)
Record core := Core { c_dp : dpt; c_cursors : cursors; c_timing : timing; dev_removal_flag : list Z }.

(** The body of the endless loop of [lcore_main]. *)
Definition lcore_iteration (fuel : nat) (st : settings) (rl : roles) (seen : sw -> Z -> list Z * Z * Z) (id now : Z)
    (x : core) : res (core * option display) :=
  flag ← index (dev_removal_flag x) id;
  let flags := if flag =? REQUEST_DEV_REMOVAL then update (dev_removal_flag x) id ACK_DEV_REMOVAL
               else dev_removal_flag x in
  '(d, t, shown) ← (if nr_vswitchd rl then do_vswitchd fuel st id now (c_timing x) (c_dp x)
                    else Ok (c_dp x, c_timing x, None));
  '(d, r) ← (if nr_client_switching rl then do_client_switching (t_clock t) seen id (c_cursors x) d
             else Ok (d, c_cursors x));
  d ← ports_loop (t_clock t) seen id now (portid_map rl) d;
  Ok (Core d r t flags, shown).
End MainOps.

(** ** MAC addresses *)

(** The text of an address: pairs of digits, each followed by a colon. *)
Definition mac_text (mac : list Z) : list Z := b ← mac; [hex_digit (b / 16); hex_digit (b mod 16); 58].

Lemma store_bytes_at pre old post bs :
  zlen old = zlen bs -> store_bytes (pre ++ old ++ post) (zlen pre) bs = Ok (pre ++ bs ++ post).
Proof.
  intros Hz. assert (length old = length bs) as Hl by (unfold zlen in Hz; lia).
  apply store_bytes_Ok. unfold zlen. rewrite !length_app, Nat2Z.id. split_and!; [lia|lia|].
  rewrite <- (Nat.add_0_r (length pre)), list_inserts_app_r. by rewrite list_inserts_0_r.
Qed.

Lemma mac_loop_text base mac pre i old post :
  zlen pre = base + i -> length old = S (3 * length mac) ->
  mac_loop base i mac (pre ++ old ++ post) =
  Ok (pre ++ mac_text mac ++ (if mac is [] then old else [0]) ++ post).
Proof.
  revert pre i old. induction mac as [|b mac IH]; intros pre i old Hp Ho; [done|]. cbn [mac_loop].
  replace old with (take 4 old ++ drop 4 old) by apply take_drop. rewrite <- (app_assoc (take 4 old)), <- Hp.
  rewrite store_bytes_at by (unfold zlen; rewrite length_take; change (length (mac_chunk b)) with 4%nat; cbn [length] in Ho; lia). bind.
  change (mac_chunk b) with ([hex_digit (b / 16); hex_digit (b mod 16); 58] ++ [0]).
  set (t := [hex_digit (b / 16); hex_digit (b mod 16); 58]).
  replace (pre ++ (t ++ [0]) ++ drop 4 old ++ post) with ((pre ++ t) ++ (0 :: drop 4 old) ++ post) by (by rewrite <- !app_assoc).
  rewrite (IH (pre ++ t) _ (0 :: drop 4 old)); cycle 1.
  { rewrite zlen_app. unfold MAC_ADDR_STR_INT_L, zlen in *. simpl. lia. }
  { cbn [length] in *. rewrite length_drop. lia. }
  f_equal. change (mac_text (b :: mac)) with (t ++ mac_text mac). rewrite <- !app_assoc. do 2 f_equal.
  destruct mac; [|done]. cbn [length] in Ho. rewrite (drop_ge old 4) by lia. done.
Qed.

Lemma hex_digit_pos b : 0 <= b -> hex_digit b <> 0.
Proof. intros. unfold hex_digit. case_match; lia. Qed.

Lemma mac_text_pos mac : bytes mac -> Forall (fun x => x <> 0) (mac_text mac).
Proof.
  induction 1 as [|b mac Hb Hm IH]; [done|]. unfold mac_text. cbn [mbind list_bind app].
  unfold is_u8, is_u in Hb. repeat apply Forall_cons_2; try exact IH; try apply hex_digit_pos; try lia; zdiv.
Qed.

Lemma mac_text_length mac : length (mac_text mac) = (3 * length mac)%nat.
Proof. induction mac as [|b mac IH]; [done|]. change (length (mac_text (b :: mac))) with (3 + length (mac_text mac))%nat. rewrite IH. simpl. lia. Qed.

Lemma c_string_app l r : Forall (fun x => x <> 0) l -> c_string (l ++ 0 :: r) = l.
Proof. induction 1 as [|x l Hx _ IH]; [done|]. simpl. rewrite (proj2 (Z.eqb_neq _ _)) by done. by rewrite IH. Qed.

Lemma load_bytes_tail pre l : load_bytes (pre ++ l) (zlen pre) (zlen (pre ++ l) - zlen pre) = Ok l.
Proof.
  apply load_bytes_Ok. pose proof (zlen_nonneg pre). pose proof (zlen_nonneg l). rewrite zlen_app. split_and!; try lia.
  replace (Z.to_nat (zlen pre)) with (length pre) by (unfold zlen; lia). rewrite drop_app_length.
  rewrite take_ge by (unfold zlen in *; lia). done.
Qed.

(** The strings after port [length pre / 18] was printed the first time. *)
Lemma printable_first max port mac pre old post :
  port < max -> zlen mac = NUM_BYTES_MAC_ADDR -> bytes mac -> zlen pre = port * sizeof_err_address ->
  zlen old = sizeof_err_address + 1 -> head old = Some 0 ->
  get_printable_mac_addr max port mac (pre ++ old ++ post)
  = Ok (take 17 (mac_text mac), pre ++ take 17 (mac_text mac) ++ [0; 0] ++ post).
Proof.
  intros Hport Hm Hb Hp Ho Hh. unfold get_printable_mac_addr. rewrite (proj2 (Z.leb_gt _ _)) by lia. rewrite <- Hp.
  assert (load8 (pre ++ old ++ post) (zlen pre) = Ok 0) as ->.
  { unfold load8. destruct old as [|x old]; [done|]. injection Hh as ->.
    erewrite (load_le_known pre _ [0] _ 0 1); [done|lia|lia|unfold zlen; simpl; lia|done]. }
  bind. change (0 =? 0) with true. cbv iota.
  assert (length mac = 6%nat) as Hl6 by (unfold zlen, NUM_BYTES_MAC_ADDR in *; lia).
  rewrite (mac_loop_text (zlen pre) mac pre 0 old post); [|lia|unfold zlen, sizeof_err_address in *; lia]. bind.
  replace (if mac is [] then old else [0]) with [0] by (by destruct mac).
  pose proof (mac_text_length mac) as Htl. rewrite Hl6 in Htl.
  set (t := mac_text mac) in *. replace t with (take 17 t ++ drop 17 t) at 1 by apply take_drop.
  assert (length (take 17 t) = 17%nat) as H17 by (rewrite length_take; lia).
  assert (length (drop 17 t) = 1%nat) as H1 by (rewrite length_drop; lia).
  replace (pre ++ (take 17 t ++ drop 17 t) ++ [0] ++ post) with ((pre ++ take 17 t) ++ drop 17 t ++ (0 :: post))
    by (by rewrite <- !app_assoc).
  unfold store8, store_le. replace (zlen pre + (sizeof_err_address - 1)) with (zlen (pre ++ take 17 t))
    by (rewrite zlen_app; unfold zlen, sizeof_err_address in *; lia).
  rewrite store_bytes_at by (unfold zlen; rewrite H1; done). bind. change (le_split 1 0) with [0].
  replace ((pre ++ take 17 t) ++ [0] ++ 0 :: post) with (pre ++ (take 17 t ++ [0; 0] ++ post)) by (by rewrite <- !app_assoc).
  rewrite load_bytes_tail. bind. do 2 f_equal. apply c_string_app, Forall_take. by apply mac_text_pos.
Qed.

Lemma mac_loop_app base i m1 m2 a :
  mac_loop base i (m1 ++ m2) a = (a' ← mac_loop base i m1 a; mac_loop base (i + 3 * zlen m1) m2 a').
Proof.
  revert i a. induction m1 as [|b m1 IH]; intros i a; cbn [mac_loop app].
  - bind. f_equal. unfold zlen. simpl. lia.
  - destruct (store_bytes a (base + i) (mac_chunk b)) as [a1|]; [|done]. repeat bind. rewrite IH.
    unfold MAC_ADDR_STR_INT_L. rewrite zlen_cons. replace (i + 3 + 3 * zlen m1) with (i + 3 * (1 + zlen m1)) by lia. done.
Qed.

(** The last row has no room for the terminator of the last pair. *)
Lemma mac_loop_last mac pre old :
  zlen mac = NUM_BYTES_MAC_ADDR -> zlen old = sizeof_err_address -> mac_loop (zlen pre) 0 mac (pre ++ old) = Err OutOfBounds.
Proof.
  intros Hm Ho. replace mac with (take 5 mac ++ drop 5 mac) by apply take_drop.
  replace (pre ++ old) with (pre ++ take 16 old ++ drop 16 old) by (by rewrite take_drop).
  unfold zlen, NUM_BYTES_MAC_ADDR, sizeof_err_address in Hm, Ho.
  assert (zlen (take 5 mac) = 5) as H5 by (unfold zlen; rewrite length_take; lia).
  rewrite mac_loop_app, mac_loop_text; [|lia|rewrite !length_take; lia]. bind. rewrite H5.
  destruct (drop 5 mac) as [|b [|]] eqn:Ed; apply (f_equal length) in Ed; rewrite length_drop in Ed; simpl in Ed; try lia.
  cbn [mac_loop]. unfold store_bytes. replace (in_range _ _ _) with false; [done|]. symmetry. apply not_true_iff_false.
  rewrite in_range_spec. intros (_ & _ & Hr). revert Hr. rewrite !zlen_app. unfold zlen. rewrite mac_text_length, length_drop, length_take.
  change (length (mac_chunk b)) with 4%nat. replace (if take 5 mac is [] then take 16 old else [0]) with [0]; [cbn [length]; lia|].
  by destruct (take 5 mac).
Qed.

Lemma printable_again max port mac pre t post :
  port < max -> zlen pre = port * sizeof_err_address -> Forall (fun x => x <> 0) t -> bytes t -> t <> [] ->
  get_printable_mac_addr max port mac (pre ++ t ++ 0 :: post) = Ok (t, pre ++ t ++ 0 :: post).
Proof.
  intros Hport Hp Ht Hb Hne. unfold get_printable_mac_addr. rewrite (proj2 (Z.leb_gt _ _)) by lia. rewrite <- Hp.
  destruct t as [|x t]; [done|]. unfold load8.
  erewrite (load_le_known pre _ [x] _ 0 1); [|lia|lia|unfold zlen; simpl; lia|done]. bind.
  assert (le_combine [x] = x) as -> by (simpl; lia). inversion_clear Ht as [|? ? Hx Ht'].
  rewrite (proj2 (Z.eqb_neq _ _)) by done. bind. rewrite load_bytes_tail. bind. f_equal. f_equal.
  apply (c_string_app (x :: t)). by constructor.
Qed.

Lemma mac_text_bytes mac : bytes mac -> bytes (mac_text mac).
Proof.
  induction 1 as [|b mac Hb Hm IH]; [by apply Forall_nil_2|]. unfold mac_text. cbn [mbind list_bind app]. unfold is_u8, is_u in *.
  assert (forall x, 0 <= x < 16 -> is_u8 (hex_digit x)) as Hh by (intros x Hx; unfold hex_digit, is_u8, is_u; case_match; lia).
  repeat apply Forall_cons_2; try exact IH; [apply Hh; zdiv|apply Hh; zdiv|unfold is_u8, is_u; lia].
Qed.

(** ** Safety *)

Section MainInv.
Context {ring dev drv hash : Type} `{Ring : RteRing ring} `{!RteRingLaws ring} `{Mb : RteMbuf} `{!RteMbufLaws}
  `{Drv : Drivers drv} `{!DriversLaws drv} `{Vh : VhostDev dev} `{!VhostLaws dev}
  `{Hash : RteHash flow_key hash} `{!RteHashLaws flow_key hash MAX_FLOWS}.

Notation sw := (vst ring dev drv).
Notation dpt := (dp ring dev drv hash).
Implicit Type d : dpt.

(** *** A burst *)

(** The next load of a goal is in bounds. *)
Ltac next_load :=
  match goal with
  | |- context [load_bytes ?b ?o ?n] => destruct (load_bytes_ok b o n) as [? ->]; [lia..|bind]
  | |- context [load_le ?n ?b ?o] => destruct (load_le_ok n b o) as [? ->]; [lia..|bind]
  end.

Lemma flow_key_extract_total b off port key :
  0 <= off -> off + 58 <= zlen b -> exists k, flow_key_extract b off port key = Ok k.
Proof.
  intros H0 H1. unfold flow_key_extract.
  assert (exists k o, extract_ether b off (u8 port) key = Ok (k, o) /\ off <= o <= off + 18) as (k & o & -> & Ho).
  { unfold extract_ether, load16, sizeof_ether_hdr, sizeof_vlan_hdr. do 3 next_load. cbn [ether_type].
    case_match; [do 2 next_load|]; do 2 eexists; (split; [done|lia]). }
  bind. assert (exists k' o' l, extract_ipv4 b o k = Ok (k', o', l) /\ o <= o' <= o + 20) as (k' & o' & l & -> & Ho').
  { unfold extract_ipv4, sizeof_ipv4_hdr, load8, load16, load32.
    case_match; [do 6 next_load|]; do 3 eexists; (split; [done|lia]). }
  bind. destruct l; [by eexists|]. unfold extract_tran, load8, load16.
  repeat case_match; [do 2 next_load..|]; by eexists.
Qed.

Lemma extract_key_ok U D vportid p d :
  0 <= U -> 0 <= D -> frame_at U D (vmem (d_sw d)) p -> exists k, extract_key vportid p d = Ok k.
Proof.
  intros HU HD (b & c & Hb & Hc & _ & _ & _ & Hup & _ & _ & _ & Hroom). unfold extract_key, mbuf_at, buf_at.
  rewrite Hb. bind. rewrite Hc. bind. apply flow_key_extract_total; lia.
Qed.

Lemma burst_kept U D ps X d d' :
  dframe (M ps ⊎ X) d d' -> Forall (frame_at U D (vmem (d_sw d))) ps -> Forall (frame_at U D (vmem (d_sw d'))) ps.
Proof.
  intros [_ Hk] Hf. rewrite Forall_forall in Hf |- *. intros q Hq. eapply frames_kept_at; [exact Hk| |by apply Hf].
  apply gmultiset_elem_of_disj_union. left. by apply elem_of_list_to_set_disj, list_elem_of_In.
Qed.

(** One packet of a burst. *)
Lemma switch_one_ok n lcore c seen vportid p ps d X U D :
  seen_ok seen -> 0 <= U -> 0 <= D -> dpinv n lcore d (M (p :: ps) ⊎ X) -> table_ok U D (d_flows d) ->
  Forall (frame_at U D (vmem (d_sw d))) (p :: ps) ->
  exists k d', extract_key vportid p d = Ok k /\ switch_packet c seen lcore p k d = Ok d' /\
    dpinv n lcore d' (M ps ⊎ X) /\ dframe X d d' /\ table_ok U D (d_flows d') /\
    Forall (frame_at U D (vmem (d_sw d'))) ps.
Proof.
  intros Hseen HU HD Hp Ht Hf. inversion_clear Hf as [|? ? Hfp Hfs].
  destruct (extract_key_ok U D vportid p d HU HD Hfp) as [k Ek].
  destruct (switch_packet_ok n lcore c seen p k d (M ps ⊎ X) U D) as (d' & E & Hp' & Hd & Ht' & _); try done.
  { eapply pinv_eq; [exact Hp|]. rewrite M_cons. clear. multiset_solver. }
  exists k, d'. do 3 (split; [done|]). split; [by eapply dframe_mono|]. split; [done|by eapply burst_kept].
Qed.

Lemma switch_rest_ok n lcore c seen vportid ps d X U D :
  seen_ok seen -> 0 <= U -> 0 <= D -> dpinv n lcore d (M ps ⊎ X) -> table_ok U D (d_flows d) ->
  Forall (frame_at U D (vmem (d_sw d))) ps ->
  exists d', switch_rest c seen lcore vportid ps d = Ok d' /\ dpinv n lcore d' X /\ dframe X d d' /\ table_ok U D (d_flows d').
Proof.
  intros Hseen HU HD. revert d. induction ps as [|p ps IH]; intros d Hp Ht Hf; cbn [switch_rest].
  { exists d. split; [done|]. split; [|split; [by apply dframe_same|done]].
    eapply pinv_eq; [exact Hp|]. rewrite M_nil. clear. multiset_solver. }
  destruct (switch_one_ok n lcore c seen vportid p ps d X U D Hseen HU HD Hp Ht Hf) as (k & d1 & -> & E & Hp1 & Hd1 & Ht1 & Hf1).
  bind. rewrite E. bind. destruct (IH d1 Hp1 Ht1 Hf1) as (d2 & -> & Hp2 & Hd2 & Ht2).
  exists d2. do 2 (split; [done|]). split; [by eapply dframe_trans|done].
Qed.

Lemma live_at n lcore q Y d : dpinv n lcore d Y -> q ∈ Y -> exists b, mbuf_at (vmem (d_sw d)) q = Ok b.
Proof.
  intros [[_ Ho] _] Hq. destruct (owns_live _ _ q Ho) as [b Hb]; [multiset_solver|]. exists b. unfold mbuf_at. by rewrite Hb.
Qed.

(** Reading ahead does not change what is switched. *)
Lemma switch_prefetching_rest n lcore c seen vportid k ps d X U D :
  seen_ok seen -> 0 <= U -> 0 <= D -> dpinv n lcore d (M ps ⊎ X) -> table_ok U D (d_flows d) ->
  Forall (frame_at U D (vmem (d_sw d))) ps ->
  switch_prefetching c seen lcore vportid ps (drop k ps) d = switch_rest c seen lcore vportid ps d.
Proof.
  intros Hseen HU HD. revert d. induction ps as [|p ps IH]; intros d Hp Ht Hf; [done|].
  destruct (drop k (p :: ps)) as [|q ahead] eqn:Ea; [done|]. cbn [switch_prefetching switch_rest].
  destruct (switch_one_ok n lcore c seen vportid p ps d X U D Hseen HU HD Hp Ht Hf) as (key & d1 & -> & E & Hp1 & Hd1 & Ht1 & Hf1).
  assert ((p :: ps) !! k = Some q) as Hq by (by rewrite <- (Nat.add_0_r k), <- lookup_drop, Ea).
  rewrite (drop_S _ _ _ Hq) in Ea. injection Ea as <-. cbn [drop].
  bind. destruct (live_at n lcore q _ d Hp) as [b ->].
  { apply gmultiset_elem_of_disj_union. left. apply elem_of_list_to_set_disj. by eapply list_elem_of_lookup_2. }
  repeat bind. rewrite E. repeat bind. by apply IH.
Qed.

Lemma prefetch_ok n lcore ps Y d : dpinv n lcore d Y -> (forall p, p ∈ ps -> p ∈ Y) -> prefetch ps d = Ok ().
Proof.
  intros Hp. induction ps as [|p ps IH]; intros Hin; [done|]. cbn [prefetch].
  destruct (live_at n lcore p Y d Hp) as [b ->]; [apply Hin; by left|]. bind. apply IH. intros q Hq. apply Hin. by right.
Qed.

Lemma do_switch_packets_rest n lcore c seen vportid ps d X U D :
  seen_ok seen -> 0 <= U -> 0 <= D -> dpinv n lcore d (M ps ⊎ X) -> table_ok U D (d_flows d) ->
  Forall (frame_at U D (vmem (d_sw d))) ps -> zlen ps <= PKT_BURST_SIZE ->
  do_switch_packets c seen lcore vportid ps d = switch_rest c seen lcore vportid ps d.
Proof.
  intros Hseen HU HD Hp Ht Hf Hz. unfold do_switch_packets. rewrite (proj2 (Z.ltb_ge _ _)) by done.
  rewrite (prefetch_ok n lcore _ _ d Hp); [bind; by apply (switch_prefetching_rest n lcore c seen vportid _ ps d X U D)|].
  intros q Hq. apply gmultiset_elem_of_disj_union. left. apply elem_of_list_to_set_disj.
  eapply elem_of_take in Hq. destruct Hq as (i & Hi & _). by eapply list_elem_of_lookup_2.
Qed.

(** *** Polling *)

(** The packets the next receive from a vport gives are frames with room for
    the actions of the flows. *)
Definition poll_ok (U D lcore vportid : Z) d : Prop :=
  forall ps s, receive_from_vport lcore vportid (d_sw d) = Ok (ps, s) -> Forall (frame_at U D (vmem s)) ps.

(** The invariant of a core's loop: the buffers are accounted for, and the
    flows can be executed. *)
Definition core_inv (n lcore U D : Z) (X : gmultiset Z) d : Prop := dpinv n lcore d X /\ table_ok U D (d_flows d).

Lemma poll_vport_ok n lcore c seen vportid d X U D :
  seen_ok seen -> 0 <= U -> 0 <= D -> core_inv n lcore U D X d -> 0 <= vportid -> poll_ok U D lcore vportid d ->
  exists d', poll_vport c seen lcore vportid d = Ok d' /\ core_inv n lcore U D X d' /\ same_cfg (d_sw d) (d_sw d').
Proof.
  intros Hseen HU HD [Hp Ht] Hid Hok. unfold poll_vport.
  destruct (receive_from_vport_ok n lcore vportid (d_sw d) _ Hp Hid) as (ps & s & E & Hz & Hp1 & Hcfg).
  specialize (Hok ps s E). rewrite E. bind. set (d1 := set_sw s d).
  assert (dpinv n lcore d1 (M ps ⊎ X)) as Hp1' by (eapply pinv_eq; [exact Hp1|]; clear; unfold rings_objs; simpl; multiset_solver).
  rewrite (do_switch_packets_rest n lcore c seen vportid ps d1 X U D) by done.
  destruct (switch_rest_ok n lcore c seen vportid ps d1 X U D) as (d' & E' & Hp' & [Hc' _] & Ht'); try done.
  exists d'. split; [exact E'|]. split; [done|]. by eapply same_cfg_trans.
Qed.

Lemma flush_all_ok n lcore U D d X :
  core_inv n lcore U D X d ->
  exists d', flush_all lcore d = Ok d' /\ core_inv n lcore U D X d' /\ same_cfg (d_sw d) (d_sw d') /\
    (forall k, drained k lcore (d_sw d')) /\ d_flows d' = d_flows d /\ rings_objs d' = rings_objs d.
Proof.
  intros [Hp Ht]. unfold flush_all.
  destruct (flush_clients_ok n lcore (d_sw d) _ Hp) as (s1 & -> & Hp1 & Hc1 & Hd1 & _). bind.
  destruct (flush_ports_ok n lcore s1 _ Hp1) as (s2 & -> & Hp2 & Hc2 & Hd2 & Hg2). bind.
  destruct (flush_vhost_devs_ok n lcore s2 _ Hp2) as (s3 & -> & Hp3 & Hc3 & Hd3 & Hg3). bind.
  eexists. split; [done|]. split; [done|]. split; [by do 2 (eapply same_cfg_trans; [done|])|]. split; [|done].
  intros []; simpl; [|by eapply drained_frame; [| |apply Hg3]|done].
  eapply drained_frame; [|exact Hc3|by apply Hg3]. by eapply drained_frame; [|exact Hc2|apply Hg2].
Qed.

(** The vports polled by a round of [do_client_switching], and where the next
    round goes on. *)
Definition client_polls (num : vcfg) (r : cursors) : list Z :=
  client r :: (if num_kni num =? 0 then [] else [kni_vportid r]) ++
  (if num_veth num =? 0 then [] else [veth_vportid r]) ++ (if num_vhost num =? 0 then [] else [vhost_vportid r]).

Definition advance (num : vcfg) (r : cursors) : cursors :=
  let go (n first id : Z) := if n =? 0 then id else next_vport first (first + n) id in
  Cursors (next_vport 1 (num_clients num) (client r)) (go (num_kni num) KNI0 (kni_vportid r))
    (go (num_veth num) VETH0 (veth_vportid r)) (go (num_vhost num) VHOST0 (vhost_vportid r)).

Fixpoint poll_all (c : clock) (seen : sw -> Z -> list Z * Z * Z) (lcore : Z) (vs : list Z) d : res dpt :=
  match vs with
  | [] => Ok d
  | v :: vs => d ← poll_vport c seen lcore v d; poll_all c seen lcore vs d
  end.

Lemma do_client_switching_polls c seen lcore r d :
  do_client_switching c seen lcore r d =
  (d' ← poll_all c seen lcore (client_polls (cfg (d_sw d)) r) d;
   d' ← flush_all lcore d'; Ok (d', advance (cfg (d_sw d)) r)).
Proof.
  unfold do_client_switching, client_polls, advance. cbn [poll_all].
  destruct (poll_vport c seen lcore (client r) d) as [d1|]; [bind|done].
  destruct (num_kni _ =? 0), (num_veth _ =? 0), (num_vhost _ =? 0); cbn [negb app poll_all]; repeat bind; try done;
    (destruct (poll_vport _ _ _ _ d1) as [d2|]; repeat bind; try done);
    (destruct (poll_vport _ _ _ _ d2) as [d3|]; repeat bind; try done);
    (destruct (poll_vport _ _ _ _ d3) as [d4|]; repeat bind; try done).
Qed.

(** Every poll of a round receives frames. *)
Fixpoint polls_ok (U D : Z) (c : clock) (seen : sw -> Z -> list Z * Z * Z) (lcore : Z) (vs : list Z) d : Prop :=
  match vs with
  | [] => True
  | v :: vs => poll_ok U D lcore v d /\ forall d', poll_vport c seen lcore v d = Ok d' -> polls_ok U D c seen lcore vs d'
  end.

Lemma poll_all_ok n lcore c seen vs d X U D :
  seen_ok seen -> 0 <= U -> 0 <= D -> core_inv n lcore U D X d -> Forall (fun v => 0 <= v) vs ->
  polls_ok U D c seen lcore vs d ->
  exists d', poll_all c seen lcore vs d = Ok d' /\ core_inv n lcore U D X d' /\ same_cfg (d_sw d) (d_sw d').
Proof.
  intros Hseen HU HD. revert d. induction vs as [|v vs IH]; intros d Hi Hv Hok; [by exists d|].
  inversion_clear Hv as [|? ? Hv0 Hvs]. destruct Hok as [Hok Hnext]. cbn [poll_all].
  destruct (poll_vport_ok n lcore c seen v d X U D) as (d1 & E & Hi1 & Hc1); try done. rewrite E. bind.
  destruct (IH d1 Hi1 Hvs (Hnext d1 E)) as (d2 & -> & Hi2 & Hc2). exists d2. do 2 (split; [done|]). by eapply same_cfg_trans.
Qed.

(** *** The loop *)

Lemma do_port_switching_ok n lcore c seen now v d X U D :
  seen_ok seen -> 0 <= U -> 0 <= D -> core_inv n lcore U D X d ->
  PHYPORT0 <= v < PHYPORT0 + num_phy_ports (cfg (d_sw d)) -> poll_ok U D lcore v d ->
  exists d', do_port_switching c seen lcore now v d = Ok d' /\ core_inv n lcore U D X d' /\ same_cfg (d_sw d) (d_sw d').
Proof.
  intros Hseen HU HD Hi Hv Hok. unfold do_port_switching.
  destruct (poll_vport_ok n lcore c seen v d X U D) as (d1 & -> & Hi1 & Hc1); try done; [unfold PHYPORT0 in *; lia|]. bind.
  destruct (flush_all_ok n lcore U D d1 X Hi1) as (d2 & -> & [Hp2 Ht2] & Hc2 & _). bind.
  pose proof (same_cfg_trans _ _ _ Hc1 Hc2) as Hc. destruct (flush_nic_tx_ring_ok n lcore now v (d_sw d2) _ Hp2) as (s & -> & Hp3 & Hc3).
  { by rewrite (proj2 Hc). }
  bind. eexists. split; [done|]. split; [done|]. by eapply same_cfg_trans.
Qed.

(** Every poll of the core's physical ports receives frames. *)
Fixpoint ports_ok (U D : Z) (c : clock) (seen : sw -> Z -> list Z * Z * Z) (lcore now : Z) (vs : list Z) d : Prop :=
  match vs with
  | [] => True
  | v :: vs => poll_ok U D lcore v d /\
      forall d', do_port_switching c seen lcore now v d = Ok d' -> ports_ok U D c seen lcore now vs d'
  end.

Lemma ports_loop_ok n lcore c seen now vs d X U D :
  seen_ok seen -> 0 <= U -> 0 <= D -> core_inv n lcore U D X d ->
  Forall (fun v => PHYPORT0 <= v < PHYPORT0 + num_phy_ports (cfg (d_sw d))) vs -> ports_ok U D c seen lcore now vs d ->
  exists d', ports_loop c seen lcore now vs d = Ok d' /\ core_inv n lcore U D X d' /\ same_cfg (d_sw d) (d_sw d').
Proof.
  intros Hseen HU HD. revert d. induction vs as [|v vs IH]; intros d Hi Hv Hok; [by exists d|].
  inversion_clear Hv as [|? ? Hv0 Hvs]. destruct Hok as [Hok Hnext]. cbn [ports_loop].
  destruct (do_port_switching_ok n lcore c seen now v d X U D) as (d1 & E & Hi1 & Hc1); try done. rewrite E. bind.
  destruct (IH d1 Hi1) as (d2 & -> & Hi2 & Hc2); [by rewrite (proj2 Hc1)|by apply Hnext|].
  exists d2. do 2 (split; [done|]). by eapply same_cfg_trans.
Qed.

Lemma display_loop_ok n lcore k i (s : sw) X : pinv n lcore s X -> exists r, display_loop k i s = Ok r.
Proof.
  intros Hp. revert i. induction k as [|k IH]; intros i; [by eexists|]. cbn [display_loop].
  destruct (vport_get_name i s) as [[|ch name]|] eqn:En; try apply IH.
  assert (0 <= i < MAX_VPORTS) as Hi.
  { unfold vport_get_name in En. destruct (vport_exists i s) eqn:Ee; [|done].
    by destruct (vport_exists_range i s Ee) as (? & _ & ?). }
  assert (forall ct, exists z, vport_counter_get ct i (vstats s) = Ok z) as Hg.
  { intros ct. destruct (vport_counter_get_ok n (vstats s) ct i (w_stats _ _ _ (proj1 (proj1 Hp))) Hi) as (z & Hz & _). eauto. }
  unfold stats_vport_rx_get, stats_vport_rx_drop_get, stats_vport_tx_get, stats_vport_tx_drop_get, stats_vport_overrun_get.
  destruct (Hg C_rx) as [? ->], (Hg C_tx) as [? ->], (Hg C_rx_drop) as [? ->], (Hg C_tx_drop) as [? ->], (Hg C_overrun) as [? ->].
  destruct (IH (i + 1)) as [[ls os] ->]. repeat bind. by eexists.
Qed.

(** The addresses can be printed: statistics are not displayed, or no port is the
    last that DPDK can have. *)
Definition printable (st : settings) : Prop :=
  stats_display_interval st <> 0 ->
  Forall (fun i => 0 <= i /\ i <> max_ethports st - 1 /\ zlen (macaddr st i) = NUM_BYTES_MAC_ADDR) (ports_id st).
Definition table_size (st : settings) (t : timing) : Prop := zlen (addresses t) = max_ethports st * sizeof_err_address.

Lemma store_bytes_in a off bs :
  0 <= off -> off + zlen bs <= zlen a -> exists a', store_bytes a off bs = Ok a' /\ zlen a' = zlen a.
Proof. intros H1 H2. destruct (store_bytes_ok a off bs H1 H2) as [a' E]. exists a'. split; [done|]. by eapply store_bytes_zlen. Qed.

Lemma mac_loop_room base i mac a :
  0 <= base + i -> base + i + 3 * zlen mac + 1 <= zlen a -> exists a', mac_loop base i mac a = Ok a' /\ zlen a' = zlen a.
Proof.
  revert i a. induction mac as [|b mac IH]; intros i a Hi Hz; cbn [mac_loop]; [by eexists|]. rewrite zlen_cons in Hz.
  destruct (store_bytes_in a (base + i) (mac_chunk b)) as (a1 & -> & Hz1); [done|change (zlen (mac_chunk b)) with 4; pose proof (zlen_nonneg mac); lia|].
  bind. rewrite <- Hz1. apply IH; unfold MAC_ADDR_STR_INT_L; lia.
Qed.

Lemma get_printable_mac_addr_ok max port mac a :
  0 <= port -> port <> max - 1 -> zlen mac = NUM_BYTES_MAC_ADDR -> zlen a = max * sizeof_err_address ->
  exists text a', get_printable_mac_addr max port mac a = Ok (text, a') /\ zlen a' = zlen a.
Proof.
  intros Hp Hn Hm Hz. unfold get_printable_mac_addr. destruct (Z.leb_spec max port) as [Hle|Hlt]; [by do 2 eexists|].
  unfold sizeof_err_address, NUM_BYTES_MAC_ADDR in *. set (base := port * 18).
  rewrite load8_lookup by lia. bind. set (c := default 0 _).
  assert (exists a', (if c =? 0 then a ← mac_loop base 0 mac a; store8 a (base + (18 - 1)) 0 else Ok a) = Ok a' /\ zlen a' = zlen a)
    as (a' & -> & Hz').
  { destruct (c =? 0); [|by eexists]. destruct (mac_loop_room base 0 mac a) as (a1 & -> & Hz1); [lia|lia|]. bind.
    unfold store8, store_le. destruct (store_bytes_in a1 (base + (18 - 1)) (le_split 1 0)) as (a2 & -> & Hz2); [lia|change (zlen (le_split 1 0)) with 1; lia|].
    exists a2. by rewrite Hz2. }
  bind. destruct (load_bytes_ok a' base (zlen a' - base)) as [row ->]; [lia..|]. bind. by do 2 eexists.
Qed.

Lemma macs_loop_ok st ids a :
  Forall (fun i => 0 <= i /\ i <> max_ethports st - 1 /\ zlen (macaddr st i) = NUM_BYTES_MAC_ADDR) ids ->
  zlen a = max_ethports st * sizeof_err_address -> exists l a', macs_loop st ids a = Ok (l, a') /\ zlen a' = zlen a.
Proof.
  intros Hf. revert a. induction Hf as [|i ids (H1 & H2 & H3) _ IH]; intros a Hz; cbn [macs_loop]; [by do 2 eexists|].
  destruct (get_printable_mac_addr_ok (max_ethports st) i (macaddr st i) a) as (t & a1 & -> & Hz1); try done. bind.
  destruct (IH a1) as (l & a2 & -> & Hz2); [by rewrite Hz1|]. bind. do 2 eexists. split; [done|]. by rewrite Hz2.
Qed.

(** The daemon's requests are well formed and the pool can refill its ring. *)
Definition serves_ok (U D : Z) (c : clock) (lcore : Z) d : Prop :=
  Forall (fun p => exists r, d_requests d !! p = Some r /\ request_ok U D (vmem (d_sw d)) p r)
    (take (Z.to_nat PKT_BURST_SIZE) (ring_objs (vswitchd_message_ring d))) /\
  forall d1, serve_requests c lcore d = Ok d1 ->
    VSWITCHD_ALLOC_THRESHOLD + PKT_BURST_SIZE <= ring_cap (vswitchd_alloc_ring d1) /\ can_alloc 512 (vmem (d_sw d1)).

Lemma handle_request_ok n lcore c d X U D :
  pool_room -> core_inv n lcore U D X d -> serves_ok U D c lcore d ->
  exists d', handle_request_from_vswitchd refill_fuel c lcore d = Ok d' /\ core_inv n lcore U D X d' /\
    same_cfg (d_sw d) (d_sw d').
Proof.
  intros Hr [Hp Ht] [Hq Hc]. destruct (serve_requests_ok n lcore c d X U D Hr Hp Ht Hq) as (d1 & E & Hp1 & Hf1 & Ht1).
  destruct (Hc d1 E) as [Hcap Hcan].
  destruct (alloc_loop_ok n lcore 16 d1 X Hp1 Hcap) as (d2 & E2 & ? & Hf2 & Hfl & ? & _); [|done|].
  { unfold VSWITCHD_ALLOC_THRESHOLD, VSWITCHD_RINGSIZE, PKT_BURST_SIZE. change (2048 / 4) with 512. unfold zlen. lia. }
  exists d2. unfold handle_request_from_vswitchd. rewrite E. bind. split; [done|]. split; [split; [done|by rewrite Hfl]|].
  eapply same_cfg_trans; [apply Hf1|apply Hf2].
Qed.

Lemma do_vswitchd_ok n lcore st now t d X U D :
  pool_room -> printable st -> table_size st t -> core_inv n lcore U D X d -> serves_ok U D (t_clock t) lcore d ->
  exists d' t' o, do_vswitchd refill_fuel st lcore now t d = Ok (d', t', o) /\ table_size st t' /\ core_inv n lcore U D X d' /\
    same_cfg (d_sw d) (d_sw d') /\ t_clock t' = (if next_tsc t <=? now then Clock now (cpu_freq (t_clock t)) (curr_ms (t_clock t)) else t_clock t) /\
    forall k, drained k lcore (d_sw d').
Proof.
  intros Hr Hpr Hsz Hi Hs. unfold do_vswitchd. destruct (handle_request_ok n lcore (t_clock t) d X U D Hr Hi Hs) as (d1 & -> & Hi1 & Hc1).
  bind. destruct (flush_all_ok n lcore U D d1 X Hi1) as (d2 & E2 & Hi2 & Hc2 & Hd2 & _).
  destruct (display_loop_ok n lcore (Z.to_nat MAX_VPORTS) 0 (d_sw d1) _ (proj1 Hi1)) as [[ls os] El].
  set (cn := if next_tsc t <=? now then _ else _).
  assert (exists o last a, (if (stats_display_interval st <=? u64 (curr_tsc cn.1 - last_stats_display_tsc t) / cpu_freq cn.1) &&
       negb (stats_display_interval st =? 0)
    then '(x, a) ← stats_display st (addresses t) (d_sw d1); Ok (Some x, curr_tsc cn.1, a)
    else Ok (None, last_stats_display_tsc t, addresses t)) = Ok (o, last, a) /\ zlen a = zlen (addresses t)) as (o & last & a & E & Hz).
  { destruct (_ && _) eqn:Ec; [|by do 3 eexists]. apply andb_true_iff in Ec as [_ Ec%negb_true_iff%Z.eqb_neq].
    destruct (macs_loop_ok st (ports_id st) (addresses t) (Hpr Ec) Hsz) as (l & a & Em & Hz). unfold stats_display. rewrite Em. bind. rewrite El. repeat bind.
    by do 3 eexists. }
  destruct cn as [c next] eqn:Ecn. cbn [fst] in E. rewrite E. bind. rewrite E2. bind. do 3 eexists. split; [done|].
  split; [unfold table_size; cbn; by rewrite Hz|]. split; [done|]. split; [by eapply same_cfg_trans|]. split; [|done].
  cbn. subst cn. by destruct (next_tsc t <=? now); injection Ecn as <- _.
Qed.

(** What an iteration relies on, along its run. *)
Definition iteration_ok (U D : Z) (st : settings) (rl : roles) (seen : sw -> Z -> list Z * Z * Z) (id now : Z)
    (x : core) : Prop :=
  (nr_vswitchd rl = true -> serves_ok U D (t_clock (c_timing x)) id (c_dp x)) /\
  Forall (fun v => PHYPORT0 <= v < PHYPORT0 + num_phy_ports (cfg (d_sw (c_dp x)))) (portid_map rl) /\
  forall d t o, (if nr_vswitchd rl then do_vswitchd refill_fuel st id now (c_timing x) (c_dp x)
                 else Ok (c_dp x, c_timing x, None)) = Ok (d, t, o) ->
    (nr_client_switching rl = true -> polls_ok U D (t_clock t) seen id (client_polls (cfg (d_sw d)) (c_cursors x)) d) /\
    forall d' r, (if nr_client_switching rl then do_client_switching (t_clock t) seen id (c_cursors x) d
                  else Ok (d, c_cursors x)) = Ok (d', r) ->
      ports_ok U D (t_clock t) seen id now (portid_map rl) d'.

Definition cursors_ok (r : cursors) : Prop :=
  0 <= client r /\ 0 <= kni_vportid r /\ 0 <= veth_vportid r /\ 0 <= vhost_vportid r.

Lemma client_polls_pos num r : cursors_ok r -> Forall (fun v => 0 <= v) (client_polls num r).
Proof. intros (? & ? & ? & ?). unfold client_polls. repeat case_match; simpl; by repeat constructor. Qed.

Lemma next_vport_pos first last id : 0 <= first -> 0 <= next_vport first last id.
Proof. intros. unfold next_vport. case_match; [done|]. unfold u32, wrap. apply Z.mod_pos_bound. lia. Qed.

Lemma advance_ok num r : cursors_ok r -> cursors_ok (advance num r).
Proof.
  intros (? & ? & ? & ?). unfold advance. repeat split; simpl; try case_match; try done; by apply next_vport_pos.
Qed.

Lemma lcore_iteration_ok n id U D X st rl seen now x :
  pool_room -> printable st -> table_size st (c_timing x) -> seen_ok seen -> 0 <= U -> 0 <= D ->
  core_inv n id U D X (c_dp x) -> cursors_ok (c_cursors x) ->
  0 <= id < zlen (dev_removal_flag x) -> iteration_ok U D st rl seen id now x ->
  exists x' o, lcore_iteration refill_fuel st rl seen id now x = Ok (x', o) /\ table_size st (c_timing x') /\ core_inv n id U D X (c_dp x') /\
    same_cfg (d_sw (c_dp x)) (d_sw (c_dp x')) /\ cursors_ok (c_cursors x') /\
    zlen (dev_removal_flag x') = zlen (dev_removal_flag x) /\
    c_cursors x' = (if nr_client_switching rl then advance (cfg (d_sw (c_dp x))) (c_cursors x) else c_cursors x) /\
    exists f f', index (dev_removal_flag x) id = Ok f /\ index (dev_removal_flag x') id = Ok f' /\
      f' = if f =? REQUEST_DEV_REMOVAL then ACK_DEV_REMOVAL else f.
Proof.
  intros Hr Hpr Hsz Hseen HU HD Hi Hcur Hid (Hsv & Hports & Hnext). unfold lcore_iteration.
  destruct (index_ok (dev_removal_flag x) id Hid) as [f Hf]. rewrite Hf. bind.
  assert (exists d t o, (if nr_vswitchd rl then do_vswitchd refill_fuel st id now (c_timing x) (c_dp x)
     else Ok (c_dp x, c_timing x, None)) = Ok (d, t, o) /\ table_size st t /\ core_inv n id U D X d /\ same_cfg (d_sw (c_dp x)) (d_sw d))
    as (d & t & o & E & Hsz1 & Hi1 & Hc1).
  { destruct (nr_vswitchd rl); [|by do 3 eexists].
    destruct (do_vswitchd_ok n id st now (c_timing x) (c_dp x) X U D Hr Hpr Hsz Hi (Hsv eq_refl)) as (d & t & o & E & ? & ? & ? & _).
    by exists d, t, o. }
  destruct (Hnext d t o E) as [Hpolls Hnext2]. rewrite E. bind.
  assert (exists d' r, (if nr_client_switching rl then do_client_switching (t_clock t) seen id (c_cursors x) d
     else Ok (d, c_cursors x)) = Ok (d', r) /\ core_inv n id U D X d' /\ same_cfg (d_sw (c_dp x)) (d_sw d') /\ cursors_ok r /\
     r = (if nr_client_switching rl then advance (cfg (d_sw (c_dp x))) (c_cursors x) else c_cursors x))
    as (d' & r & E' & Hi2 & Hc2 & Hr2 & Hadv).
  { destruct (nr_client_switching rl); [|by do 2 eexists]. rewrite do_client_switching_polls.
    destruct (poll_all_ok n id (t_clock t) seen _ d X U D Hseen HU HD Hi1 (client_polls_pos _ _ Hcur) (Hpolls eq_refl))
      as (d2 & -> & Hi2 & Hc2). bind.
    destruct (flush_all_ok n id U D d2 X Hi2) as (d3 & -> & Hi3 & Hc3 & _). bind. do 2 eexists. split; [done|]. split; [done|].
    split; [by do 2 (eapply same_cfg_trans; [done|])|]. split; [by apply advance_ok|]. by rewrite (proj2 Hc1). }
  specialize (Hnext2 d' r E'). rewrite E'. bind.
  destruct (ports_loop_ok n id (t_clock t) seen now (portid_map rl) d' X U D) as (d4 & -> & Hi4 & Hc4); try done.
  { by rewrite (proj2 Hc2). }
  bind. do 2 eexists. split; [done|]. split; [done|]. split; [done|]. split; [by eapply same_cfg_trans|]. split; [done|].
  cbn [dev_removal_flag c_cursors]. split; [by destruct (_ =? _); rewrite ?zlen_update|]. split; [done|].
  exists f. destruct (f =? REQUEST_DEV_REMOVAL); eexists; rewrite ?index_update_eq by done; done.
Qed.

(** Runs of a core: its own iterations, on inputs it can rely on, and between
    them changes by the other cores, the daemon and the clients, which leave
    the core's invariant and the configuration alone. *)
Inductive lcore_reach (n id U D : Z) (X : gmultiset Z) (st : settings) (rl : roles) (x : core) : core -> Prop :=
| reach_start : lcore_reach n id U D X st rl x x
| reach_iteration y seen now z o : lcore_reach n id U D X st rl x y -> seen_ok seen ->
    iteration_ok U D st rl seen id now y -> lcore_iteration refill_fuel st rl seen id now y = Ok (z, o) ->
    lcore_reach n id U D X st rl x z
| reach_others y d flags : lcore_reach n id U D X st rl x y -> core_inv n id U D X d ->
    same_cfg (d_sw (c_dp y)) (d_sw d) -> zlen flags = zlen (dev_removal_flag y) ->
    lcore_reach n id U D X st rl x (Core d (c_cursors y) (c_timing y) flags).

(** *** Round robin *)

Lemma next_vport_cycle first n k :
  0 <= first -> 0 < n -> first + n < 2 ^ 32 -> 0 <= k ->
  next_vport first (first + n) (first + k mod n) = first + (k + 1) mod n.
Proof.
  intros Hf Hn Hb Hk. pose proof (Z.mod_pos_bound k n Hn). unfold next_vport, u32.
  rewrite !wrap_small by (unfold is_u; lia).
  assert ((k + 1) mod n = (k mod n + 1) mod n) as -> by (rewrite Z.add_mod_idemp_l; [done|lia]).
  destruct (Z.eqb_spec (first + k mod n + 1) (first + n)) as [He|Hne].
  - replace (k mod n + 1) with n by lia. rewrite Z_mod_same_full. lia.
  - rewrite (Z.mod_small (k mod n + 1)) by lia. lia.
Qed.

(** The cursors after [k] rounds. *)
Fixpoint rounds (num : vcfg) (k : nat) (r : cursors) : cursors :=
  match k with O => r | S k => advance num (rounds num k r) end.

(** ** Properties *)

(** C1: A forwarding core stays safe and its iterations end. It is given that
    the pool's buffers have room for a message, that no port whose address is
    displayed is the last one DPDK can have, and that each iteration finds
    well-formed requests, frames with the room the actions need and ports that
    exist; on the core that serves the daemon also that, once the requests are
    served, the pool can give 512 more buffers and the daemon's ring of empty
    buffers is large enough to be refilled. Then in every state the core
    reaches from its invariant, by such iterations and by changes of others
    that respect the invariant, every buffer is accounted for and every flow
    executable; and the next such iteration does not fault, ends, and leaves
    no request for a device removal unacknowledged. *)
Theorem lcore_reach_safe n id U D X st rl x y :
  pool_room -> printable st -> table_size st (c_timing x) -> 0 <= U -> 0 <= D -> core_inv n id U D X (c_dp x) -> cursors_ok (c_cursors x) ->
  0 <= id < zlen (dev_removal_flag x) -> lcore_reach n id U D X st rl x y ->
  core_inv n id U D X (c_dp y) /\
  forall seen now, seen_ok seen -> iteration_ok U D st rl seen id now y ->
    exists z o f', lcore_iteration refill_fuel st rl seen id now y = Ok (z, o) /\
      index (dev_removal_flag z) id = Ok f' /\ f' <> REQUEST_DEV_REMOVAL.
Proof.
  intros Hr Hpr Hsz HU HD Hi Hc Hid Hy.
  assert (table_size st (c_timing y) /\ core_inv n id U D X (c_dp y) /\ cursors_ok (c_cursors y) /\ 0 <= id < zlen (dev_removal_flag y)) as (Hsz' & Hi' & Hc' & Hid').
  { induction Hy as [|y seen now z o _ (Hsy & Hiy & Hcy & Hidy) Hs Hok E|y d flags _ (Hsy & Hiy & Hcy & Hidy) Hd Hcfg Hz]; [done| |].
    - destruct (lcore_iteration_ok n id U D X st rl seen now y) as (z' & o' & E' & ? & ? & ? & ? & Hz & _); try done.
      rewrite E in E'. injection E' as -> ->. by rewrite Hz.
    - cbn [c_dp c_cursors dev_removal_flag]. by rewrite Hz. }
  split; [done|]. intros seen now Hs Hok.
  destruct (lcore_iteration_ok n id U D X st rl seen now y) as (z & o & E & _ & _ & _ & _ & _ & _ & f & f' & _ & Hf' & ->); try done.
  eexists z, o, (if f =? REQUEST_DEV_REMOVAL then ACK_DEV_REMOVAL else f). split; [done|]. split; [exact Hf'|].
  by destruct (Z.eqb_spec f REQUEST_DEV_REMOVAL).
Qed.

(** C19: switching a burst is switching its packets one after the other: the
    loop that prefetches three packets ahead computes what the plain loop over
    the burst does, without fault, and hands over every packet. *)
Theorem do_switch_packets_burst n lcore c seen vportid ps d X U D :
  seen_ok seen -> 0 <= U -> 0 <= D -> dpinv n lcore d (M ps ⊎ X) -> table_ok U D (d_flows d) ->
  Forall (frame_at U D (vmem (d_sw d))) ps -> zlen ps <= PKT_BURST_SIZE ->
  exists d', switch_rest c seen lcore vportid ps d = Ok d' /\ do_switch_packets c seen lcore vportid ps d = Ok d' /\
    dpinv n lcore d' X /\ table_ok U D (d_flows d').
Proof.
  intros Hs HU HD Hp Ht Hf Hz. rewrite (do_switch_packets_rest n lcore c seen vportid ps d X U D) by done.
  destruct (switch_rest_ok n lcore c seen vportid ps d X U D) as (d' & -> & ? & _ & ?); try done. by exists d'.
Qed.
End MainInv.

(** polling is fair: with at least two clients (number 0 is the daemon's)
    round [k] polls client [1 + k mod (num_clients - 1)], and KNI, vEth and
    vhost port [k] modulo their number, so each is polled once per cycle. *)
Theorem client_round_robin num k :
  2 <= num_clients num < 2 ^ 32 -> 0 < num_kni num < 256 -> 0 < num_veth num < 256 -> 0 < num_vhost num < 256 ->
  rounds num k cursors_init =
  Cursors (1 + Z.of_nat k mod (num_clients num - 1)) (KNI0 + Z.of_nat k mod num_kni num)
    (VETH0 + Z.of_nat k mod num_veth num) (VHOST0 + Z.of_nat k mod num_vhost num).
Proof.
  intros H1 H2 H3 H4. induction k as [|k IH]; [done|]. cbn [rounds]. rewrite IH. unfold advance. cbn [client kni_vportid veth_vportid vhost_vportid].
  rewrite !(proj2 (Z.eqb_neq _ 0)) by lia. replace (num_clients num) with (1 + (num_clients num - 1)) at 1 by lia.
  replace (Z.of_nat (S k)) with (Z.of_nat k + 1) by lia.
  rewrite !next_vport_cycle; unfold KNI0, VETH0, VHOST0; try lia. done.
Qed.

(** with one client, the daemon alone, the client cursor is never reset:
    round [k] polls vport [1 + k] of any kind, and so the physical port
    PHYPORT0, which another core polls, in round 15. *)
Theorem single_client_polls_all_vports num k :
  num_clients num = 1 -> Z.of_nat k < 2 ^ 32 - 1 ->
  client (rounds num k cursors_init) = 1 + Z.of_nat k /\ client (rounds num 15 cursors_init) = PHYPORT0.
Proof.
  intros H1. assert (forall j, Z.of_nat j < 2 ^ 32 - 1 -> client (rounds num j cursors_init) = 1 + Z.of_nat j) as Hj.
  { induction j as [|j IH]; intros Hk; [done|]. cbn [rounds]. unfold advance, next_vport. cbn [client]. rewrite IH, H1 by lia.
    unfold u32. rewrite !wrap_small by (unfold is_u; lia). rewrite (proj2 (Z.eqb_neq _ _)) by lia. lia. }
  intros Hk. split; [by apply Hj|]. by rewrite Hj.
Qed.

(** [get_printable_mac_addr] returns the address in hexadecimal for every
    port but the last of the table, the first time and from then on, and writes
    the row of the port and the first byte of the next row; for the last port
    the terminator of the last pair is written behind the table. *)
Theorem get_printable_mac_addr_correct max port mac addresses :
  0 <= port < max -> zlen mac = NUM_BYTES_MAC_ADDR -> bytes mac -> zlen addresses = max * sizeof_err_address ->
  load8 addresses (port * sizeof_err_address) = Ok 0 ->
  if port =? max - 1 then get_printable_mac_addr max port mac addresses = Err OutOfBounds
  else exists pre old post, addresses = pre ++ old ++ post /\ zlen pre = port * sizeof_err_address /\
    zlen old = sizeof_err_address + 1 /\
    let addresses' := pre ++ take 17 (mac_text mac) ++ [0; 0] ++ post in
    get_printable_mac_addr max port mac addresses = Ok (take 17 (mac_text mac), addresses') /\
    forall mac', get_printable_mac_addr max port mac' addresses' = Ok (take 17 (mac_text mac), addresses').
Proof.
  intros Hport Hm Hb Hz H0. set (base := port * sizeof_err_address) in *.
  set (pre := take (Z.to_nat base) addresses). set (rest := drop (Z.to_nat base) addresses).
  assert (addresses = pre ++ rest) as Ha by (symmetry; apply take_drop). unfold sizeof_err_address in *.
  assert (zlen pre = base) as Hp by (unfold pre, zlen in *; rewrite length_take; lia).
  assert (zlen rest = (max - port) * 18) as Hr by (unfold rest, zlen in *; rewrite length_drop; lia).
  destruct (Z.eqb_spec port (max - 1)) as [He|Hne].
  - unfold get_printable_mac_addr. rewrite (proj2 (Z.leb_gt _ _)) by lia. unfold sizeof_err_address. fold base.
    rewrite H0. bind. change (0 =? 0) with true. cbv iota. rewrite Ha, <- Hp, mac_loop_last by (done || (unfold sizeof_err_address; lia)).
    done.
  - exists pre, (take 19 rest), (drop 19 rest). rewrite take_drop. split; [done|]. split; [done|].
    assert (zlen (take 19 rest) = 19) as H19 by (unfold zlen in *; rewrite length_take; lia). split; [exact H19|].
    assert (Ha' : addresses = pre ++ take 19 rest ++ drop 19 rest) by (by rewrite (take_drop 19 rest)).
    split.
    + rewrite Ha' at 1. apply printable_first; try done; [lia|]. apply load_le_Ok in H0. destruct H0 as (bs & Hbs & Hv).
      apply load_bytes_Ok in Hbs. destruct Hbs as (_ & _ & _ & ->). fold rest in Hv. destruct rest as [|x rest']; [done|].
      simpl in Hv |- *. f_equal. lia.
    + intros mac'. apply (printable_again max port mac' pre (take 17 (mac_text mac)) (0 :: drop 19 rest)); try done; [lia| | |].
      * by apply Forall_take, mac_text_pos.
      * by apply bytes_take, mac_text_bytes.
      * intros Hn. apply (f_equal length) in Hn. rewrite length_take, mac_text_length in Hn.
        unfold zlen, NUM_BYTES_MAC_ADDR in Hm. cbn [length] in Hn. lia.
Qed.

(** ** Examples *)

(** The example switch with packet 1 waiting at the physical port. *)
Definition waiting_st : vst fifo unit queues := set_drivers ([], [1]) sample_st.
Definition waiting_dp : dp fifo unit queues (list (option flow_key)) := set_sw waiting_st (sample_dp (with_flow sample_key)).
Definition waiting_core : core := Core waiting_dp cursors_init (Timing sample_clock 0 0 (replicate 36 0)) [REQUEST_DEV_REMOVAL; 0; 0; 0].
Definition port_roles : roles := Roles false false [PHYPORT0].

Lemma waiting_inv : core_inv 4 0 0 0 ∅ waiting_dp.
Proof.
  split; [|apply sample_flows_ok]. destruct sample_st_pinv as [[Hwf Ho] Hs].
  split; [split; [by apply wf_set_drivers|]|intros k; specialize (Hs k); by destruct k].
  eapply owns_eq; [exact Ho|]. assert (rings_objs waiting_dp = ∅) as -> by done.
  assert (owned (d_sw waiting_dp) = owned sample_st ⊎ {[+ 1 +]}) as ->; [|clear; multiset_solver].
  unfold owned. assert (drivers sample_st = ([], [])) as -> by (vm_compute; reflexivity).
  change (drv_objs (drivers (d_sw waiting_dp))) with [1]. change (drv_objs (([], []) : queues)) with (@nil Z).
  change (vports (d_sw waiting_dp)) with (vports sample_st). change (client_mbuf_cache (d_sw waiting_dp)) with (client_mbuf_cache sample_st).
  change (port_mbuf_cache (d_sw waiting_dp)) with (port_mbuf_cache sample_st).
  change (vhost_mbuf_cache (d_sw waiting_dp)) with (vhost_mbuf_cache sample_st).
  rewrite M_cons, M_nil. clear. multiset_solver.
Qed.

Lemma waiting_frames : poll_ok 0 0 0 PHYPORT0 waiting_dp.
Proof.
  intros ps s E.
  assert (H : match receive_from_vport 0 PHYPORT0 (d_sw waiting_dp) with
    | Ok (ps, s) => ps = [1] /\ mbufs (vmem s) !! 1 = Some (Mbuf 1 64 60 60) /\ bufs (vmem s) !! 1 = Some (replicate 128 0)
    | Err _ => False end) by (vm_compute; split; [reflexivity|split; reflexivity]).
  rewrite E in H. destruct H as (-> & Hb & Hc). repeat constructor. exists (Mbuf 1 64 60 60), (replicate 128 0).
  do 2 (split; [done|]). apply sample_frame_ok.
Qed.

Definition sample_settings : settings := Settings 1000 1 [0] 2 (fun _ => [2; 0; 0; 0; 0; 7]) (fun _ => 1).

Lemma waiting_iteration_ok : iteration_ok 0 0 sample_settings port_roles sample_seen 0 100 waiting_core.
Proof.
  split; [done|]. split.
  { constructor; [|done]. assert (num_phy_ports (cfg (d_sw (c_dp waiting_core))) = 1) as -> by (vm_compute; reflexivity). lia. }
  intros d t o [= <- <- <-]. split; [done|]. intros d' r [= <- <-]. split; [apply waiting_frames|done].
Qed.

Lemma lcore_reach_safe_witness :
  core_inv 4 0 0 0 ∅ (c_dp waiting_core) /\
  exists z o f', lcore_iteration refill_fuel sample_settings port_roles sample_seen 0 100 waiting_core = Ok (z, o) /\
    index (dev_removal_flag z) 0 = Ok f' /\ f' <> REQUEST_DEV_REMOVAL.
Proof.
  destruct (lcore_reach_safe 4 0 0 0 ∅ sample_settings port_roles waiting_core waiting_core) as [Hi Hn].
  - apply sample_pool_room.
  - intros _. constructor; [cbn; split; [lia|]; split; [lia|reflexivity]|constructor].
  - reflexivity.
  - lia.
  - lia.
  - apply waiting_inv.
  - unfold cursors_ok. cbn. unfold CLIENT1, KNI0, VETH0, VHOST0. lia.
  - unfold zlen. cbn. lia.
  - apply reach_start.
  - split; [exact Hi|]. apply Hn; [apply sample_seen_ok|apply waiting_iteration_ok].
Defined.

Lemma do_switch_packets_burst_witness :
  exists d', switch_rest sample_clock sample_seen 0 1 [1] (sample_dp (with_flow sample_key)) = Ok d' /\
    do_switch_packets sample_clock sample_seen 0 1 [1] (sample_dp (with_flow sample_key)) = Ok d' /\
    dpinv 4 0 d' ∅ /\ table_ok 0 0 (d_flows d').
Proof.
  apply (do_switch_packets_burst 4 0 sample_clock sample_seen 1 [1] (sample_dp (with_flow sample_key)) ∅ 0 0).
  - apply sample_seen_ok.
  - lia.
  - lia.
  - eapply pinv_eq; [apply sample_dpinv|]. by rewrite M_cons, M_nil, (right_id_L ∅ (⊎)).
  - apply sample_flows_ok.
  - constructor; [apply sample_frame|constructor].
  - discriminate.
Defined.

Lemma client_round_robin_witness :
  rounds (VCfg 1 3 2 1 1 0) 5 cursors_init = Cursors (1 + 5 mod 2) (KNI0 + 5 mod 2) (VETH0 + 5 mod 1) (VHOST0 + 5 mod 1).
Proof. apply (client_round_robin (VCfg 1 3 2 1 1 0) 5); cbn; lia. Defined.

Lemma single_client_polls_all_vports_witness :
  client (rounds (VCfg 1 1 0 0 0 0) 3 cursors_init) = 1 + 3 /\ client (rounds (VCfg 1 1 0 0 0 0) 15 cursors_init) = PHYPORT0.
Proof. apply (single_client_polls_all_vports (VCfg 1 1 0 0 0 0) 3); [reflexivity|lia]. Defined.

(** The first of two ports, and the last. *)
Lemma get_printable_mac_addr_correct_witness :
  (exists pre old post, replicate 36 0 = pre ++ old ++ post /\ zlen pre = 0 /\ zlen old = sizeof_err_address + 1 /\
    let addresses' := pre ++ take 17 (mac_text (sample_mac 7)) ++ [0; 0] ++ post in
    get_printable_mac_addr 2 0 (sample_mac 7) (replicate 36 0) = Ok (take 17 (mac_text (sample_mac 7)), addresses') /\
    forall mac', get_printable_mac_addr 2 0 mac' addresses' = Ok (take 17 (mac_text (sample_mac 7)), addresses')) /\
  get_printable_mac_addr 2 1 (sample_mac 7) (replicate 36 0) = Err OutOfBounds.
Proof.
  split.
  - apply (get_printable_mac_addr_correct 2 0 (sample_mac 7) (replicate 36 0));
      [lia|reflexivity|by apply bytes_forallb|reflexivity|reflexivity].
  - apply (get_printable_mac_addr_correct 2 1 (sample_mac 7) (replicate 36 0));
      [lia|reflexivity|by apply bytes_forallb|reflexivity|reflexivity].
Defined.
