(* ===== verification/VirtioNet.v ===== *)
(** The configuration of vhost devices: [datapath/dpdk/virtio-net.c], the
    callbacks of [vhost.c] and the ioctl dispatcher of [vhost-net-cdev.c].

    QEMU opens, configures and releases devices through a character device.
    The devices are a linked list; a device has two virtqueues and a structure
    that describes the mapping of the guest's memory.  Entries and memory
    structures are allocated, so they have addresses, and a forwarding core
    reaches a device through the address stored in a vport.  What the kernel and
    QEMU decide (memory, file descriptors, the maps file, names of tap devices)
    is an argument of the operation. *)
From stdpp Require Import gmap sorting.
From S2P Require Import Prelude Vport.

Definition VIRTIO_DEV_RUNNING : Z := 1.
Definition VIRTIO_DEV_STOPPED : Z := 4294967295. (* -1 as uint32_t *)
Definition VIRTIO_RXQ : Z := 0.
Definition VIRTIO_TXQ : Z := 1.
Definition VIRTIO_NET_F_MRG_RXBUF : Z := 15.
Definition VHOST_FEATURES : Z := 0.
Definition sizeof_virtio_net_hdr : Z := 10.
Definition sizeof_virtio_net_hdr_mrg_rxbuf : Z := 12.

(** ** Data *)

(** [struct virtio_memory_regions]. *)
Record region := Region {
  guest_phys_address : Z; guest_phys_address_end : Z; memory_size : Z; userspace_address : Z; address_offset : Z
}.

(** [struct virtio_memory]; [nregions] is the length of the list. *)
Record virtio_memory := VMem { base_address : Z; mapped_address : Z; mapped_size : Z; regions : list region }.

(** [struct vhost_virtqueue]: the rings are addresses in our space. *)
Record vhost_virtqueue := Vq {
  vq_desc : Z; vq_avail : Z; vq_used : Z; vq_size : Z; backend : Z; vhost_hlen : Z; last_used_idx : Z;
  last_used_idx_res : Z; callfd : Z; kickfd : Z
}.

(** [struct virtio_net]; [dv_mem] is an address or NULL. *)
Record virtio_net := Dev {
  rxq : vhost_virtqueue; txq : vhost_virtqueue; dv_mem : option Z; dv_features : Z; device_fh : Z; dv_flags : Z;
  port_name : list Z
}.

(** [struct virtio_net_config_ll], with its address. *)
Record ll_entry := Entry { e_ptr : Z; e_dev : virtio_net }.

(** A vhost vport of the switch: its name and device pointer. *)
Definition vhost_port : Type := list Z * option Z.

Record vhost_state := VState {
  ll : list ll_entry;             (* from [ll_root] *)
  num_cur_devices : Z;
  heap : gmap Z virtio_memory;    (* the memory structures that are allocated and mapped *)
  brk : Z;                        (* next address to allocate *)
  ports : list vhost_port
}.

Definition set_ll (l : list ll_entry) (s : vhost_state) : vhost_state := VState l (num_cur_devices s) (heap s) (brk s) (ports s).
Definition set_heap (h : gmap Z virtio_memory) (s : vhost_state) : vhost_state :=
  VState (ll s) (num_cur_devices s) h (brk s) (ports s).
Definition set_ports (p : list vhost_port) (s : vhost_state) : vhost_state :=
  VState (ll s) (num_cur_devices s) (heap s) (brk s) p.

Definition zero_vq : vhost_virtqueue := Vq 0 0 0 0 VIRTIO_DEV_STOPPED 0 0 0 0 0.

(** [init_device]: everything but the virtqueue pointers is cleared, the
    number of the device included. *)
Definition init_device : virtio_net := Dev zero_vq zero_vq None 0 0 0 [].

Definition with_fh (fh : Z) (d : virtio_net) : virtio_net :=
  Dev (rxq d) (txq d) (dv_mem d) (dv_features d) fh (dv_flags d) (port_name d).
Definition with_mem (q : option Z) (d : virtio_net) : virtio_net :=
  Dev (rxq d) (txq d) q (dv_features d) (device_fh d) (dv_flags d) (port_name d).
Definition with_flags (f : Z) (d : virtio_net) : virtio_net :=
  Dev (rxq d) (txq d) (dv_mem d) (dv_features d) (device_fh d) f (port_name d).
Definition with_port_name (n : list Z) (d : virtio_net) : virtio_net :=
  Dev (rxq d) (txq d) (dv_mem d) (dv_features d) (device_fh d) (dv_flags d) n.

(** [dev->virtqueue[index]]: there are two. *)
Definition get_vq (i : Z) (d : virtio_net) : res vhost_virtqueue :=
  if i =? VIRTIO_RXQ then Ok (rxq d) else if i =? VIRTIO_TXQ then Ok (txq d) else Err OutOfBounds.
Definition set_vq (i : Z) (q : vhost_virtqueue) (d : virtio_net) : virtio_net :=
  if i =? VIRTIO_RXQ then Dev q (txq d) (dv_mem d) (dv_features d) (device_fh d) (dv_flags d) (port_name d)
  else Dev (rxq d) q (dv_mem d) (dv_features d) (device_fh d) (dv_flags d) (port_name d).

(** ** The linked list *)

(** [get_config_ll_entry]: the first entry with the number. *)
Fixpoint find_entry (fh : Z) (l : list ll_entry) : option ll_entry :=
  match l with
  | [] => None
  | e :: l => if device_fh (e_dev e) =? fh then Some e else find_entry fh l
  end.
Definition get_config_ll_entry (fh : Z) (s : vhost_state) : option ll_entry := find_entry fh (ll s).

(** [get_device]. *)
Definition get_device (fh : Z) (s : vhost_state) : option virtio_net := e_dev <$> get_config_ll_entry fh s.

(** The entry at address [p] is changed. *)
Definition update_entry (p : Z) (f : virtio_net -> virtio_net) (l : list ll_entry) : list ll_entry :=
  (fun e => if e_ptr e =? p then Entry (e_ptr e) (f (e_dev e)) else e) <$> l.

(** The loop of [add_config_ll_entry]: behind the last of a run of successive
    numbers, the numbers being 64 bits wide. *)
Fixpoint insert_after (new : ll_entry) (l : list ll_entry) : list ll_entry * Z :=
  match l with
  | [] => ([], 0)
  | e :: rest =>
      let here := let fh := u64 (device_fh (e_dev e) + 1) in
                  (e :: Entry (e_ptr new) (with_fh fh (e_dev new)) :: rest, fh) in
      match rest with
      | [] => here
      | e' :: _ => if device_fh (e_dev e) =? u64 (device_fh (e_dev e') - 1)
                   then let '(rest, fh) := insert_after new rest in (e :: rest, fh)
                   else here
      end
  end.

(** [add_config_ll_entry]: the list, and the number the device gets. *)
Definition add_config_ll_entry (new : ll_entry) (l : list ll_entry) : list ll_entry * Z :=
  match l with
  | e :: _ => if negb (device_fh (e_dev e) =? 0)
              then (Entry (e_ptr new) (with_fh 0 (e_dev new)) :: l, 0)
              else insert_after new l
  | [] => ([Entry (e_ptr new) (with_fh 0 (e_dev new))], 0)
  end.

(** [munmap] and [free] of a memory structure. *)
Definition free_mem (q : option Z) (h : gmap Z virtio_memory) : res (gmap Z virtio_memory) :=
  match q with
  | None => Ok h
  | Some q => match h !! q with Some _ => Ok (delete q h) | None => Err UseAfterFree end
  end.

(** [cleanup_device]: the memory; closing the event notifiers is not visible. *)
Definition cleanup_device (d : virtio_net) (h : gmap Z virtio_memory) : res (gmap Z virtio_memory) := free_mem (dv_mem d) h.

(** [new_device]: [m1], [m2], [m3] say whether the allocations succeed. *)
Definition new_device (num_devices : Z) (m1 m2 m3 : bool) (s : vhost_state) : Z * vhost_state :=
  if num_cur_devices s =? num_devices then (-1, s)
  else if negb (m1 && m2 && m3) then (-1, s)
  else
    let '(l, fh) := add_config_ll_entry (Entry (brk s) init_device) (ll s) in
    (fh, VState l (u32 (num_cur_devices s + 1)) (heap s) (brk s + 1) (ports s)).

(** ** The data path's callbacks *)

(** [vport_vhost_up] and [vport_vhost_down] of [vport.c], on the names and
    device pointers of the vhost vports: the first match is set to [p]. *)
Fixpoint set_port_dev (name : list Z) (p : option Z) (l : list vhost_port) : option (list vhost_port) :=
  match l with
  | [] => None
  | (n, old) :: l => if vhost_name_match name n then Some ((n, p) :: l) else ((n, old) ::.) <$> set_port_dev name p l
  end.

(** [destroy_device] of [vhost.c]; returning from the wait for the cores is in
    the model of their synchronisation. *)
Definition vhost_destroy_device (p : Z) (d : virtio_net) (s : vhost_state) : vhost_state :=
  let s := match set_port_dev (port_name d) None (ports s) with Some l => set_ports l s | None => s end in
  set_ll (update_entry p (fun d => with_flags (Z.land (dv_flags d) (Z.lnot VIRTIO_DEV_RUNNING)) d) (ll s)) s.

(** [new_device] of [vhost.c]: [set_irq_status] writes to both used rings. *)
Definition vhost_new_device (p : Z) (d : virtio_net) (s : vhost_state) : res (Z * vhost_state) :=
  if (vq_used (rxq d) =? 0) || (vq_used (txq d) =? 0) then Err NullDeref else
  match set_port_dev (port_name d) (Some p) (ports s) with
  | None => Ok (-1, s)
  | Some l => Ok (0, set_ll (update_entry p (fun d => with_flags (Z.lor (dv_flags d) VIRTIO_DEV_RUNNING) d) (ll s)) (set_ports l s))
  end.

Definition running (d : virtio_net) : bool := negb (Z.land (dv_flags d) VIRTIO_DEV_RUNNING =? 0).

(** ** The operations QEMU calls *)

(** [rm_config_ll_entry] and the rest of [destroy_device]. *)
Definition destroy_device (fh : Z) (s : vhost_state) : res vhost_state :=
  let finish (s : vhost_state) := VState (ll s) (u32 (num_cur_devices s - 1)) (heap s) (brk s) (ports s) in
  match get_config_ll_entry fh s with
  | None => Ok (finish s)
  | Some e =>
      let s := if running (e_dev e) then vhost_destroy_device (e_ptr e) (e_dev e) s else s in
      h ← cleanup_device (e_dev e) (heap s);
      Ok (finish (set_heap h (set_ll (filter (fun e' => e_ptr e' <> e_ptr e) (ll s)) s)))
  end.

Definition set_owner (fh : Z) (s : vhost_state) : Z := match get_device fh s with None => -1 | Some _ => 0 end.

(** [reset_owner]: the entry is used without a check. *)
Definition reset_owner (fh : Z) (s : vhost_state) : res (Z * vhost_state) :=
  match get_config_ll_entry fh s with
  | None => Err NullDeref
  | Some e =>
      h ← cleanup_device (e_dev e) (heap s);
      Ok (0, set_heap h (set_ll (update_entry (e_ptr e) (fun _ => init_device) (ll s)) s))
  end.

Definition get_features (fh : Z) (s : vhost_state) : option Z :=
  match get_device fh s with None => None | Some _ => Some VHOST_FEATURES end.

(** Operations that find the device or return -1. *)
Definition on_device (fh : Z) (s : vhost_state) (f : ll_entry -> res (Z * vhost_state)) : res (Z * vhost_state) :=
  match get_config_ll_entry fh s with None => Ok (-1, s) | Some e => f e end.

Definition set_dev (e : ll_entry) (d : virtio_net) (s : vhost_state) : vhost_state :=
  set_ll (update_entry (e_ptr e) (fun _ => d) (ll s)) s.

Definition with_hlen (n : Z) (q : vhost_virtqueue) : vhost_virtqueue :=
  Vq (vq_desc q) (vq_avail q) (vq_used q) (vq_size q) (backend q) n (last_used_idx q) (last_used_idx_res q) (callfd q) (kickfd q).

Definition set_features (fh f : Z) (s : vhost_state) : res (Z * vhost_state) :=
  on_device fh s (fun e =>
    if negb (Z.land f (Z.lxor (2 ^ 64 - 1) VHOST_FEATURES) =? 0) then Ok (-1, s) else
    let d := e_dev e in
    let n := if Z.testbit f VIRTIO_NET_F_MRG_RXBUF then sizeof_virtio_net_hdr_mrg_rxbuf else sizeof_virtio_net_hdr in
    Ok (0, set_dev e (Dev (with_hlen n (rxq d)) (with_hlen n (txq d)) (dv_mem d) f (device_fh d) (dv_flags d) (port_name d)) s)).

(** A region as QEMU gives it: guest address, size, QEMU's address. *)
Record mem_region := MemRegion { guest_phys_addr : Z; mr_size : Z; userspace_addr : Z }.

(** The first loop of [set_mem_table]: [hmap] is what [host_memory_map] gives. *)
Fixpoint populate (hmap : Z -> option (Z * Z)) (rs : list mem_region) (base : Z) (map : Z * Z)
  : option (list region * Z * (Z * Z)) :=
  match rs with
  | [] => Some ([], base, map)
  | r :: rs =>
      let g := Region (guest_phys_addr r) (u64 (guest_phys_addr r + mr_size r)) (mr_size r) (userspace_addr r) 0 in
      let next := fun base map => match populate hmap rs base map with
                                  | Some (l, b, m) => Some (g :: l, b, m) | None => None end in
      if guest_phys_addr r =? 0 then
        match hmap (userspace_addr r) with None => None | Some m => next (userspace_addr r) m end
      else next base map
  end.

Definition region_valid (base size : Z) (r : region) : bool :=
  negb ((userspace_address r <? base) || (u64 (base + size) <? userspace_address r)).

(** The loop that closes the gaps: [n] regions are still to be looked at, from
    the last to the first, [valid] were found; an invalid one is overwritten by
    the valid ones behind it ([memmove]). *)
Fixpoint compact (base size : Z) (n : nat) (valid : nat) (l : list region) : list region * nat :=
  match n with
  | O => (l, valid)
  | S i =>
      match l !! i with
      | Some r => if region_valid base size r then compact base size i (S valid) l
                  else compact base size i valid (take i l ++ take valid (drop (S i) l) ++ drop (i + valid) l)
      | None => (l, valid)
      end
  end.

Definition count_valid (base size : Z) (l : list region) : nat := length (filter (fun r => region_valid base size r = true) l).

(** The regions that are kept. *)
Definition keep_valid (base size : Z) (l : list region) : list region :=
  if Nat.eqb (count_valid base size l) (length l) then l
  else let '(l, valid) := compact base size (length l) 0 l in take valid l.

Definition set_offset (base mapped : Z) (r : region) : region :=
  Region (guest_phys_address r) (guest_phys_address_end r) (memory_size r) (userspace_address r)
    (u64 (userspace_address r - base + mapped - guest_phys_address r)).

(** [set_mem_table]: [calloc] says whether the allocation succeeds. *)
Definition set_mem_table (fh : Z) (calloc : bool) (hmap : Z -> option (Z * Z)) (rs : list mem_region) (s : vhost_state)
  : res (Z * vhost_state) :=
  on_device fh s (fun e =>
    h ← free_mem (dv_mem (e_dev e)) (heap s);
    let s := set_heap h s in
    if negb calloc then Ok (-1, s) else
    match populate hmap rs 0 (0, 0) with
    | None => Ok (-1, s)
    | Some (l, base, (mapped, size)) =>
        if base =? 0 then Ok (-1, s) else
        let m := VMem base mapped size (set_offset base mapped <$> keep_valid base size l) in
        let s := VState (ll s) (num_cur_devices s) (<[brk s := m]> (heap s)) (brk s + 1) (ports s) in
        Ok (0, set_dev e (with_mem (Some (brk s - 1)) (e_dev e)) s)
    end).

(** [qva_to_vva]: the bounds of a region are both included. *)
Fixpoint qva_search (m : virtio_memory) (qva : Z) (l : list region) : Z :=
  match l with
  | [] => 0
  | r :: l =>
      if (userspace_address r <=? qva) && (qva <=? u64 (userspace_address r + memory_size r))
      then u64 (mapped_address m + qva - base_address m) else qva_search m qva l
  end.
Definition qva_to_vva (d : virtio_net) (qva : Z) (h : gmap Z virtio_memory) : res Z :=
  q ← deref (dv_mem d);
  match h !! q with Some m => Ok (qva_search m qva (regions m)) | None => Err UseAfterFree end.

Definition set_vring_num (fh i num : Z) (s : vhost_state) : res (Z * vhost_state) :=
  on_device fh s (fun e =>
    q ← get_vq i (e_dev e);
    let q := Vq (vq_desc q) (vq_avail q) (vq_used q) num (backend q) (vhost_hlen q) (last_used_idx q) (last_used_idx_res q)
               (callfd q) (kickfd q) in
    Ok (0, set_dev e (set_vq i q (e_dev e)) s)).

Definition with_rings (d a u : Z) (q : vhost_virtqueue) : vhost_virtqueue :=
  Vq d a u (vq_size q) (backend q) (vhost_hlen q) (last_used_idx q) (last_used_idx_res q) (callfd q) (kickfd q).

(** [set_vring_addr]: each address is stored before it is checked. *)
Definition set_vring_addr (fh i desc avail used : Z) (s : vhost_state) : res (Z * vhost_state) :=
  on_device fh s (fun e =>
    q ← get_vq i (e_dev e);
    let put (q : vhost_virtqueue) := set_dev e (set_vq i q (e_dev e)) s in
    d ← qva_to_vva (e_dev e) desc (heap s);
    let q := with_rings d (vq_avail q) (vq_used q) q in
    if d =? 0 then Ok (-1, put q) else
    a ← qva_to_vva (e_dev e) avail (heap s);
    let q := with_rings d a (vq_used q) q in
    if a =? 0 then Ok (-1, put q) else
    u ← qva_to_vva (e_dev e) used (heap s);
    let q := with_rings d a u q in
    if u =? 0 then Ok (-1, put q) else Ok (0, put q)).

Definition set_vring_base (fh i num : Z) (s : vhost_state) : res (Z * vhost_state) :=
  on_device fh s (fun e =>
    q ← get_vq i (e_dev e);
    let q := Vq (vq_desc q) (vq_avail q) (vq_used q) (vq_size q) (backend q) (vhost_hlen q) (u16 num) (u16 num)
               (callfd q) (kickfd q) in
    Ok (0, set_dev e (set_vq i q (e_dev e)) s)).

Definition get_vring_base (fh i : Z) (s : vhost_state) : res (option (Z * Z)) :=
  match get_device fh s with
  | None => Ok None
  | Some d => q ← get_vq i d; Ok (Some (i, last_used_idx q))
  end.

(** [set_vring_call] and [set_vring_kick]: [fd] is the new event notifier,
    [copied] whether [fd_copy] succeeds. *)
Definition set_vring_call (fh i fd : Z) (copied : bool) (s : vhost_state) : res (Z * vhost_state) :=
  on_device fh s (fun e =>
    q ← get_vq i (e_dev e);
    let q := Vq (vq_desc q) (vq_avail q) (vq_used q) (vq_size q) (backend q) (vhost_hlen q) (last_used_idx q)
               (last_used_idx_res q) (callfd q) fd in
    Ok (if copied then 0 else -1, set_dev e (set_vq i q (e_dev e)) s)).
Definition set_vring_kick (fh i fd : Z) (copied : bool) (s : vhost_state) : res (Z * vhost_state) :=
  on_device fh s (fun e =>
    q ← get_vq i (e_dev e);
    let q := Vq (vq_desc q) (vq_avail q) (vq_used q) (vq_size q) (backend q) (vhost_hlen q) (last_used_idx q)
               (last_used_idx_res q) fd (kickfd q) in
    Ok (if copied then 0 else -1, set_dev e (set_vq i q (e_dev e)) s)).

(** [get_port_name]: [strncpy] of the length of the new name, which leaves the
    end of a longer old one. *)
Definition get_port_name (tap : option (list Z)) (d : virtio_net) : option virtio_net :=
  name ← tap; Some (with_port_name (name ++ drop (length name) (port_name d)) d).

Definition with_backend (fd : Z) (q : vhost_virtqueue) : vhost_virtqueue :=
  Vq (vq_desc q) (vq_avail q) (vq_used q) (vq_size q) (u32 fd) (vhost_hlen q) (last_used_idx q) (last_used_idx_res q)
    (callfd q) (kickfd q).

(** [set_backend]: [fd] -1 stops; [tap] is the name of the tap device of the
    descriptor, if it can be copied. *)
Definition set_backend (fh i fd : Z) (tap : option (list Z)) (s : vhost_state) : res (Z * vhost_state) :=
  on_device fh s (fun e =>
    q ← get_vq i (e_dev e);
    let d := set_vq i (with_backend fd q) (e_dev e) in
    let s := set_dev e d s in
    if negb (running d) then
      if negb (backend (txq d) =? VIRTIO_DEV_STOPPED) && negb (backend (rxq d) =? VIRTIO_DEV_STOPPED) then
        match get_port_name tap d with
        | None => Ok (-1, s)
        | Some d =>
            '(rc, s) ← vhost_new_device (e_ptr e) d (set_dev e d s);
            Ok (if rc <? 0 then -1 else 0, s)
        end
      else Ok (0, s)
    else if fd =? -1 then Ok (0, vhost_destroy_device (e_ptr e) d s) else Ok (0, s)).

(** ** Compaction of the regions *)

Lemma compact_spec base size n P V J :
  length P = n ->
  exists J', compact base size n (length V) (P ++ V ++ J)
    = (filter (fun r => region_valid base size r = true) P ++ V ++ J',
       (length (filter (fun r => region_valid base size r = true) P) + length V)%nat).
Proof.
  revert P V J. induction n as [|n IH]; intros P V J HP.
  { destruct P; [|done]. by exists J. }
  destruct P as [|r P _] using rev_ind; [done|]. rewrite length_app, Nat.add_1_r in HP. injection HP as HP.
  cbn [compact]. rewrite <- (app_assoc P). rewrite lookup_app_r by lia. rewrite HP, Nat.sub_diag. cbn [app lookup list_lookup].
  rewrite list.filter_app, filter_cons. destruct (region_valid base size r) eqn:Hr.
  - rewrite decide_True by done. destruct (IH P (r :: V) J HP) as [J' E]. cbn [length app] in E.
    exists J'. rewrite E. rewrite length_app. cbn [length]. rewrite filter_nil. cbn [length].
    rewrite <- !app_assoc. f_equal. lia.
  - rewrite decide_False by done. rewrite filter_nil, app_nil_r.
    rewrite take_app_le, take_ge by lia. rewrite drop_app_ge by lia. replace (S n - length P)%nat with 1%nat by lia.
    change (drop 1 (r :: V ++ J)) with (V ++ J). rewrite take_app_length. apply (IH P V _ HP).
Qed.

Lemma keep_valid_filter base size l :
  keep_valid base size l = filter (fun r => region_valid base size r = true) l.
Proof.
  unfold keep_valid, count_valid. destruct (Nat.eqb_spec (length (filter (fun r => region_valid base size r = true) l)) (length l)) as [He|Hne].
  - symmetry. clear -He. induction l as [|r l IH]; [done|]. rewrite filter_cons in *. case_decide as Hr.
    + f_equal. apply IH. simpl in He. lia.
    + exfalso. simpl in He. pose proof (length_filter (fun r => region_valid base size r = true) l). lia.
  - destruct (compact_spec base size (length l) l [] [] eq_refl) as [J' E]. rewrite !app_nil_r in E. cbn [length] in E.
    rewrite E. cbn [app]. rewrite Nat.add_0_r. by rewrite take_app_length.
Qed.

(** ** The numbers of the devices *)

Definition fhs (l : list ll_entry) : list Z := (fun e => device_fh (e_dev e)) <$> l.

(** Ascending numbers below [n]. *)
Definition ascending (n : Z) (l : list Z) : Prop := StronglySorted Z.lt l /\ Forall (fun k => 0 <= k < n) l.

Lemma insert_after_cons new e e' l :
  insert_after new (e :: e' :: l) =
  if device_fh (e_dev e) =? u64 (device_fh (e_dev e') - 1)
  then let '(rest, fh) := insert_after new (e' :: l) in (e :: rest, fh)
  else let fh := u64 (device_fh (e_dev e) + 1) in (e :: Entry (e_ptr new) (with_fh fh (e_dev new)) :: e' :: l, fh).
Proof. done. Qed.

Lemma insert_after_spec new e l n :
  ascending n (fhs (e :: l)) -> n < 2 ^ 63 ->
  let '(l', fh) := insert_after new (e :: l) in
  (forall k, device_fh (e_dev e) <= k < fh -> k ∈ fhs (e :: l)) /\ device_fh (e_dev e) < fh <= n /\ ~ fh ∈ fhs (e :: l) /\
  exists a b, e :: l = a ++ b /\ a <> [] /\ l' = a ++ Entry (e_ptr new) (with_fh fh (e_dev new)) :: b /\
    Forall (fun k => k < fh) (fhs a) /\ Forall (fun k => fh < k) (fhs b).
Proof.
  revert e. induction l as [|e' l IH]; intros e [Hs Hb] Hn.
  - cbn [insert_after]. inversion_clear Hb as [|? ? Hk _]. unfold u64. rewrite wrap_small by (unfold is_u; lia).
    cbn [fhs fmap list_fmap] in *. split; [intros k ?; assert (k = device_fh (e_dev e)) as -> by lia; by left|].
    split; [lia|]. split; [rewrite list_elem_of_singleton; lia|]. exists [e], []. split_and!; try done; cbn; constructor; [lia|done].
  - inversion_clear Hb as [|? ? Hk Hb']. pose proof Hb' as Hb''. inversion_clear Hb'' as [|? ? Hk' _].
    inversion_clear Hs as [|? ? Hs' Hlt]. pose proof Hlt as Hlt'. inversion_clear Hlt' as [|? ? Hlt1 _].
    rewrite insert_after_cons. unfold u64 at 1. rewrite wrap_small by (unfold is_u; lia).
    destruct (Z.eqb_spec (device_fh (e_dev e)) (device_fh (e_dev e') - 1)) as [He|Hne].
    + specialize (IH e' (conj Hs' Hb') Hn). destruct (insert_after new (e' :: l)) as [l' fh].
      destruct IH as (Hall & Hfh & Hni & a & b & Hab & Hne & -> & Ha & Hbb). cbv beta iota zeta.
     split_and!.
      * intros k Hk2. destruct (decide (k = device_fh (e_dev e))) as [->|]; [by left|]. right. apply Hall. lia.
      * lia.
      * lia.
      * cbn [fhs fmap list_fmap]. rewrite elem_of_cons. intros [->|?]; [lia|done].
      * exists (e :: a), b. rewrite Hab. split_and!; try done. cbn. constructor; [lia|done].
    + unfold u64. rewrite wrap_small by (unfold is_u; lia). split; [intros k ?; assert (k = device_fh (e_dev e)) as -> by lia; by left|].
      split; [lia|].
      assert (Forall (fun k => device_fh (e_dev e) + 1 < k) (fhs (e' :: l))) as Hbig.
      { cbn. constructor; [lia|]. inversion_clear Hs' as [|? ? _ Hl']. eapply Forall_impl; [|exact Hl']. intros k ?. cbn in *. lia. }
      split.
      { cbn [fhs fmap list_fmap]. rewrite elem_of_cons. intros [?|Hin]; [lia|]. rewrite Forall_forall in Hbig.
        specialize (Hbig _ (proj1 (list_elem_of_In _ _) Hin)). lia. }
      exists [e], (e' :: l). split_and!; try done. cbn. constructor; [lia|done].
Qed.

Lemma sorted_app (a b : list Z) x :
  StronglySorted Z.lt (a ++ b) -> Forall (fun k => k < x) a -> Forall (fun k => x < k) b -> StronglySorted Z.lt (a ++ x :: b).
Proof.
  induction a as [|y a IH]; intros Hs Ha Hb; cbn [app] in *; [by constructor|].
  inversion_clear Hs as [|? ? Hs' Hy]. inversion_clear Ha as [|? ? Hyx Ha']. constructor; [by apply IH|].
  rewrite Forall_app in Hy |- *. destruct Hy as [Hy1 Hy2]. split; [done|]. by constructor.
Qed.

(** All numbers below [fh] are in the list, so it is long enough. *)
Lemma numbers_length (l : list Z) fh : (forall k, 0 <= k < fh -> k ∈ l) -> 0 <= fh -> fh <= zlen l.
Proof.
  intros Hall Hfh. assert (seqZ 0 fh ⊆+ l) as Hs%submseteq_length.
  { apply NoDup_submseteq; [apply NoDup_seqZ|]. intros k ?%elem_of_seqZ. apply Hall. lia. }
  rewrite length_seqZ in Hs. unfold zlen. lia.
Qed.

(** A new device gets the smallest number that is not used, and the list stays
    ascending. *)
Lemma add_spec new l n :
  ascending n (fhs l) -> 0 <= n < 2 ^ 63 ->
  let '(l', fh) := add_config_ll_entry new l in
  (forall k, 0 <= k < fh -> k ∈ fhs l) /\ ~ fh ∈ fhs l /\ 0 <= fh <= zlen l /\
  exists a b, l = a ++ b /\ l' = a ++ Entry (e_ptr new) (with_fh fh (e_dev new)) :: b /\ StronglySorted Z.lt (fhs l').
Proof.
  intros Hasc Hn. unfold add_config_ll_entry. destruct l as [|e l].
  { split; [lia|]. split; [by intros ?%not_elem_of_nil|]. split; [done|].
    exists [], []. do 2 (split; [done|]). cbn. by repeat constructor. }
  pose proof Hasc as [Hs Hb]. inversion_clear Hb as [|? ? Hk Hb']. inversion_clear Hs as [|? ? Hs' Hlt].
  destruct (Z.eqb_spec (device_fh (e_dev e)) 0) as [H0|Hne]; cbn [negb].
  - pose proof (insert_after_spec new e l n Hasc ltac:(lia)) as Hi. destruct (insert_after new (e :: l)) as [l' fh].
    destruct Hi as (Hall & Hfh & Hni & a & b & Hab & _ & -> & Ha & Hbb).
    assert (forall k, 0 <= k < fh -> k ∈ fhs (e :: l)) as Hall' by (intros k ?; apply Hall; lia).
    split; [done|]. split; [done|]. split.
    { split; [lia|]. replace (zlen (e :: l)) with (zlen (fhs (e :: l))) by (unfold zlen, fhs; by rewrite length_fmap).
      apply numbers_length; [done|lia]. }
    exists a, b. do 2 (split; [done|]). unfold fhs in *. rewrite fmap_app, fmap_cons. apply sorted_app; try done.
    rewrite <- fmap_app, <- Hab. apply Hasc.
  - assert (Forall (fun k => 0 < k) (fhs (e :: l))) as Hpos.
    { cbn. constructor; [lia|]. eapply Forall_impl; [|exact Hlt]. intros k ?. cbn in *. lia. }
    split; [lia|]. split.
    { rewrite Forall_forall in Hpos. intros Hin%list_elem_of_In%Hpos. lia. }
    split; [pose proof (zlen_nonneg (e :: l)); lia|]. exists [], (e :: l). do 2 (split; [done|]).
    cbn. constructor; [by constructor|done].
Qed.

(** ** The invariant *)

(** No two vports are matched by the same device name. *)
Definition names_apart (l : list vhost_port) : Prop :=
  forall i j n p n' p' name, l !! i = Some (n, p) -> l !! j = Some (n', p') ->
    vhost_name_match name n = true -> vhost_name_match name n' = true -> i = j.

(** The numbers are ascending and below the limit, the count is right; the
    memory structures of the devices are allocated and not shared; a ring
    address is only set with memory; and a vport points to a running device
    that exists, has memory, and has the vport's name. *)
Record vinv (nd : Z) (s : vhost_state) : Prop := {
  vi_asc : ascending nd (fhs (ll s));
  vi_ptrs : NoDup (e_ptr <$> ll s);
  vi_below : forall e, e ∈ ll s -> e_ptr e < brk s;
  vi_count : num_cur_devices s = zlen (ll s) /\ zlen (ll s) <= nd;
  vi_mem : forall e q, e ∈ ll s -> dv_mem (e_dev e) = Some q -> is_Some (heap s !! q);
  vi_own : forall e e' q, e ∈ ll s -> e' ∈ ll s -> dv_mem (e_dev e) = Some q -> dv_mem (e_dev e') = Some q -> e = e';
  vi_heap : forall q, is_Some (heap s !! q) -> q < brk s;
  vi_used : forall e, e ∈ ll s -> vq_used (rxq (e_dev e)) <> 0 \/ vq_used (txq (e_dev e)) <> 0 -> is_Some (dv_mem (e_dev e));
  vi_run : forall e, e ∈ ll s -> running (e_dev e) = true -> is_Some (dv_mem (e_dev e));
  vi_ports : forall n p, (n, Some p) ∈ ports s -> exists e, e ∈ ll s /\ e_ptr e = p /\ running (e_dev e) = true /\
    vhost_name_match (port_name (e_dev e)) n = true;
  vi_names : names_apart (ports s)
}.

Lemma find_entry_Some fh l e : find_entry fh l = Some e -> e ∈ l /\ device_fh (e_dev e) = fh.
Proof.
  induction l as [|x l IH]; [done|]. cbn [find_entry]. destruct (Z.eqb_spec (device_fh (e_dev x)) fh) as [<-|].
  - intros [= <-]. split; [by left|done].
  - intros H. destruct (IH H). split; [by right|done].
Qed.

Lemma elem_of_update_entry p f l e' :
  e' ∈ update_entry p f l <-> exists e, e ∈ l /\ e' = if e_ptr e =? p then Entry (e_ptr e) (f (e_dev e)) else e.
Proof. unfold update_entry. rewrite list_elem_of_fmap. split; intros (e & H1 & H2); by exists e. Qed.

Lemma update_entry_ptrs p f l : e_ptr <$> update_entry p f l = e_ptr <$> l.
Proof.
  unfold update_entry. rewrite <- list_fmap_compose. apply list_fmap_ext. intros i e _. unfold compose. by destruct (_ =? _).
Qed.

Lemma update_entry_fhs p f l :
  (forall e, e ∈ l -> e_ptr e = p -> device_fh (f (e_dev e)) = device_fh (e_dev e)) -> fhs (update_entry p f l) = fhs l.
Proof.
  intros Hf. unfold fhs, update_entry. rewrite <- list_fmap_compose. apply list_fmap_ext. intros i e He. unfold compose.
  destruct (Z.eqb_spec (e_ptr e) p); [|done]. cbn. apply Hf; [|done]. by eapply list_elem_of_lookup_2.
Qed.

Lemma zlen_update_entry p f l : zlen (update_entry p f l) = zlen l.
Proof. unfold zlen, update_entry. by rewrite length_fmap. Qed.

(** Entries with the same address are the same. *)
Lemma ptr_inj nd s e e' : vinv nd s -> e ∈ ll s -> e' ∈ ll s -> e_ptr e = e_ptr e' -> e = e'.
Proof.
  intros Hi [i He]%list_elem_of_lookup [j He']%list_elem_of_lookup Hp.
  assert (i = j) as <-; [|congruence]. eapply NoDup_lookup; [apply (vi_ptrs _ _ Hi)| |].
  - by rewrite list_lookup_fmap, He.
  - rewrite list_lookup_fmap, He'. simpl. by rewrite Hp.
Qed.

(** The device of an entry is replaced, with another memory structure perhaps. *)
Lemma vinv_replace nd s e d h' b' :
  vinv nd s -> e ∈ ll s -> device_fh d = device_fh (e_dev e) -> running d = running (e_dev e) ->
  (running d = true -> port_name d = port_name (e_dev e) /\ is_Some (dv_mem d)) ->
  (vq_used (rxq d) <> 0 \/ vq_used (txq d) <> 0 -> is_Some (dv_mem d)) -> brk s <= b' ->
  (forall q, is_Some (h' !! q) -> q < b') ->
  (forall q, dv_mem d = Some q -> is_Some (h' !! q)) ->
  (forall e' q, e' ∈ ll s -> e' <> e -> dv_mem (e_dev e') = Some q -> is_Some (h' !! q) /\ dv_mem d <> Some q) ->
  vinv nd (VState (update_entry (e_ptr e) (fun _ => d) (ll s)) (num_cur_devices s) h' b' (ports s)).
Proof.
  intros Hi He Hfh Hrun Hname Hused Hb Hh Hd Hothers.
  assert (forall e', e' ∈ update_entry (e_ptr e) (fun _ => d) (ll s) ->
    e' = Entry (e_ptr e) d \/ (e' ∈ ll s /\ e' <> e)) as Hin.
  { intros e' (e0 & He0 & ->)%elem_of_update_entry. destruct (Z.eqb_spec (e_ptr e0) (e_ptr e)) as [Hp|Hp].
    - left. by rewrite Hp.
    - right. split; [done|]. by intros ->. }
  pose proof Hi as [H1 H2 H3 H4 H5 H6 H7 H8 H8' H9 H10]. split; cbn [ll num_cur_devices heap brk ports]; try done.
  - rewrite update_entry_fhs; [done|]. intros e0 He0 Hp. by rewrite (ptr_inj nd s e0 e Hi He0 He Hp).
  - by rewrite update_entry_ptrs.
  - intros e' [->|[Hl _]]%Hin; cbn; [specialize (H3 e He)|specialize (H3 e' Hl)]; lia.
  - by rewrite zlen_update_entry.
  - intros e' q [->|[Hl Hne]]%Hin; cbn; [apply Hd|]. intros Hq. by apply (Hothers e' q).
  - intros e1 e2 q [->|[Hl1 Hn1]]%Hin [->|[Hl2 Hn2]]%Hin; cbn; try done.
    + intros Hq Hq2. by destruct (Hothers e2 q Hl2 Hn2 Hq2).
    + intros Hq Hq2. by destruct (Hothers e1 q Hl1 Hn1 Hq).
    + by apply H6.
  - intros e' [->|[Hl _]]%Hin; cbn; [done|by apply H8].
  - intros e' [->|[Hl _]]%Hin; cbn; [by intros []%Hname|by apply H8'].
  - intros n p Hnp. destruct (H9 n p Hnp) as (e0 & He0 & <- & Hr & Hnm).
    exists (if e_ptr e0 =? e_ptr e then Entry (e_ptr e0) d else e0).
    split; [apply elem_of_update_entry; by exists e0|]. destruct (Z.eqb_spec (e_ptr e0) (e_ptr e)) as [Hp|]; [|done]. cbn.
    rewrite (ptr_inj nd s e0 e Hi He0 He Hp) in Hr, Hnm. rewrite <- Hrun in Hr. by destruct (Hname Hr) as [-> _].
Qed.

(** A change of the device that leaves number, memory and state alone. *)
Lemma vinv_set_dev nd s e d :
  vinv nd s -> e ∈ ll s -> device_fh d = device_fh (e_dev e) -> dv_mem d = dv_mem (e_dev e) -> dv_flags d = dv_flags (e_dev e) ->
  (running d = true -> port_name d = port_name (e_dev e)) -> (vq_used (rxq d) <> 0 \/ vq_used (txq d) <> 0 -> is_Some (dv_mem d)) ->
  vinv nd (set_dev e d s).
Proof.
  intros Hi He Hfh Hm Hf Hn Hu. assert (running d = running (e_dev e)) as Hrun by (unfold running; by rewrite Hf).
  apply vinv_replace; try done.
  - intros Hr. split; [by apply Hn|]. rewrite Hm. apply (vi_run _ _ Hi); [done|]. by rewrite <- Hrun.
  - apply (vi_heap _ _ Hi).
  - intros q. rewrite Hm. by apply (vi_mem _ _ Hi).
  - intros e' q He' Hne Hq. split; [by eapply (vi_mem _ _ Hi)|]. rewrite Hm. intros Hq'. apply Hne. by eapply (vi_own _ _ Hi).
Qed.

(** *** Vports *)

Lemma set_port_dev_names name p l l' : set_port_dev name p l = Some l' -> fst <$> l' = fst <$> l.
Proof.
  revert l'. induction l as [|[n old] l IH]; intros l'; [done|]. cbn [set_port_dev]. destruct (vhost_name_match name n).
  - by intros [= <-].
  - destruct (set_port_dev name p l) as [l1|]; [|done]. intros [= <-]. cbn. by rewrite (IH l1).
Qed.

Lemma names_apart_same l l' : fst <$> l' = fst <$> l -> names_apart l -> names_apart l'.
Proof.
  intros Hf Hn i j n p n' p' name Hi Hj.
  assert (forall k n p, l' !! k = Some (n, p) -> exists p0, l !! k = Some (n, p0)) as Hk.
  { intros k m q Hk. pose proof (f_equal (fun x => x !! k) Hf) as Hx. cbv beta in Hx. rewrite !list_lookup_fmap, Hk in Hx.
    destruct (l !! k) as [[m' q']|]; [|done]. injection Hx as ->. by exists q'. }
  destruct (Hk _ _ _ Hi) as [p0 Hi0], (Hk _ _ _ Hj) as [p1 Hj0]. by eapply Hn.
Qed.

(** The ports after an update: the first match has the new pointer, every
    other port its own. *)
Lemma set_port_dev_spec name p l :
  names_apart l ->
  match set_port_dev name p l with
  | Some l' => forall n q, (n, q) ∈ l' -> (vhost_name_match name n = true /\ q = p) \/ (vhost_name_match name n = false /\ (n, q) ∈ l)
  | None => forall n q, (n, q) ∈ l -> vhost_name_match name n = false
  end.
Proof.
  intros Hn. assert (forall a b n q n' q', l = a ++ (n, q) :: b -> (n', q') ∈ b ->
    vhost_name_match name n = true -> vhost_name_match name n' = false) as Hone.
  { intros a b n q n' q' Hl [i Hi]%list_elem_of_lookup Hm. destruct (vhost_name_match name n') eqn:Hm'; [|done].
    assert (length a = (length a + S i)%nat); [|lia]. eapply (Hn _ _ n q n' q' name); [| |done|done]; rewrite Hl.
    - by rewrite lookup_app_r, Nat.sub_diag by lia.
    - rewrite lookup_app_r by lia. by replace (length a + S i - length a)%nat with (S i) by lia. }
  clear Hn. induction l as [|[n old] l IH]; cbn [set_port_dev].
  { by intros n q ?%not_elem_of_nil. }
  destruct (vhost_name_match name n) eqn:Hm.
  - intros n' q' [[= -> ->]|Hin]%elem_of_cons; [by left|]. right. split; [|by right]. by apply (Hone [] l n old n' q').
  - assert (Hone' : forall a b n q n' q', l = a ++ (n, q) :: b -> (n', q') ∈ b ->
      vhost_name_match name n = true -> vhost_name_match name n' = false).
    { intros a b m q m' q' -> Hin. by apply (Hone ((n, old) :: a) b m q m' q'). }
    specialize (IH Hone'). destruct (set_port_dev name p l) as [l'|]; cbn.
    + intros n' q' [[= -> ->]|Hin]%elem_of_cons; [right; split; [done|by left]|]. destruct (IH _ _ Hin) as [?|[? ?]]; [by left|].
      right. split; [done|by right].
    + intros n' q' [[= -> ->]|Hin]%elem_of_cons; [done|]. by eapply IH.
Qed.

(** A device is attached to or detached from the vports. *)
Lemma vinv_flags nd s e g ports' :
  vinv nd s -> e ∈ ll s -> names_apart ports' ->
  (running (with_flags (g (e_dev e)) (e_dev e)) = true -> is_Some (dv_mem (e_dev e))) ->
  (forall n p, (n, Some p) ∈ ports' ->
     (p = e_ptr e /\ running (with_flags (g (e_dev e)) (e_dev e)) = true /\ vhost_name_match (port_name (e_dev e)) n = true) \/
     (p <> e_ptr e /\ (n, Some p) ∈ ports s)) ->
  vinv nd (VState (update_entry (e_ptr e) (fun d => with_flags (g d) d) (ll s)) (num_cur_devices s) (heap s) (brk s) ports').
Proof.
  intros Hi He Hn Hm Hp. set (d := with_flags (g (e_dev e)) (e_dev e)) in *.
  assert (forall e', e' ∈ update_entry (e_ptr e) (fun d => with_flags (g d) d) (ll s) ->
    e' = Entry (e_ptr e) d \/ (e' ∈ ll s /\ e' <> e)) as Hin.
  { intros e' (e0 & He0 & ->)%elem_of_update_entry. destruct (Z.eqb_spec (e_ptr e0) (e_ptr e)) as [Hq|Hq].
    - left. by rewrite (ptr_inj nd s e0 e Hi He0 He Hq).
    - right. split; [done|]. by intros ->. }
  pose proof Hi as [H1 H2 H3 H4 H5 H6 H7 H8 H8' H9 H10]. split; cbn [ll num_cur_devices heap brk ports]; try done.
  - by rewrite update_entry_fhs.
  - by rewrite update_entry_ptrs.
  - intros e' [->|[Hl _]]%Hin; [by apply (H3 e)|by apply H3].
  - by rewrite zlen_update_entry.
  - intros e' q [->|[Hl Hne]]%Hin; [by apply (H5 e)|by apply H5].
  - intros e1 e2 q [->|[Hl1 Hn1]]%Hin [->|[Hl2 Hn2]]%Hin Hq1 Hq2; try done.
    + destruct Hn2. symmetry. by apply (H6 e e2 q).
    + destruct Hn1. by apply (H6 e1 e q).
    + by apply (H6 e1 e2 q).
  - intros e' [->|[Hl _]]%Hin; [by apply (H8 e)|by apply H8].
  - intros e' [->|[Hl _]]%Hin; [done|by apply H8'].
  - intros n p [(-> & Hr & Hnm)|[Hne Hold]]%Hp.
    + exists (Entry (e_ptr e) d). split; [|done]. apply elem_of_update_entry. exists e. by rewrite Z.eqb_refl.
    + destruct (H9 n p Hold) as (e0 & He0 & <- & Hr & Hnm). exists e0. split; [|done]. apply elem_of_update_entry. exists e0.
      by rewrite (proj2 (Z.eqb_neq _ _)).
Qed.

Lemma not_running_clear d : running (with_flags (Z.land (dv_flags d) (Z.lnot VIRTIO_DEV_RUNNING)) d) = false.
Proof.
  unfold running, with_flags. cbn [dv_flags]. rewrite <- Z.land_assoc, (Z.land_comm (Z.lnot _)), Z.land_lnot_diag, Z.land_0_r. done.
Qed.

Lemma running_set d : running (with_flags (Z.lor (dv_flags d) VIRTIO_DEV_RUNNING) d) = true.
Proof.
  unfold running, with_flags, VIRTIO_DEV_RUNNING. cbn [dv_flags]. apply negb_true_iff, Z.eqb_neq. intros H0.
  apply (f_equal (fun x => Z.testbit x 0)) in H0. rewrite Z.land_spec, Z.lor_spec, Z.bits_0 in H0.
  change (Z.testbit 1 0) with true in H0. by rewrite orb_true_r in H0.
Qed.

(** Stopping a device leaves no vport that points to it. *)
Lemma vhost_destroy_ok nd s e :
  vinv nd s -> e ∈ ll s ->
  vinv nd (vhost_destroy_device (e_ptr e) (e_dev e) s) /\
  forall n p, (n, Some p) ∈ ports (vhost_destroy_device (e_ptr e) (e_dev e) s) -> p <> e_ptr e.
Proof.
  intros Hi He. unfold vhost_destroy_device. pose proof (set_port_dev_spec (port_name (e_dev e)) None (ports s) (vi_names _ _ Hi)) as Hs.
  pose proof (set_port_dev_names (port_name (e_dev e)) None (ports s)) as Hnames.
  set (s1 := match set_port_dev _ _ _ with Some l => set_ports l s | None => s end).
  assert (forall n p, (n, Some p) ∈ ports s1 -> p <> e_ptr e /\ (n, Some p) ∈ ports s) as Hp.
  { intros n p Hin. assert ((n, Some p) ∈ ports s /\ vhost_name_match (port_name (e_dev e)) n = false) as [Hold Hnm].
    { subst s1. destruct (set_port_dev _ _ _) as [l|].
      - destruct (Hs n (Some p) Hin) as [[_ ?]|[? ?]]; [done|]. by split.
      - split; [done|]. by eapply Hs. }
    split; [|done]. intros ->. destruct (vi_ports _ _ Hi n (e_ptr e) Hold) as (e0 & He0 & Hq & _ & Hnm0).
    rewrite (ptr_inj nd s e0 e Hi He0 He Hq) in Hnm0. congruence. }
  assert (names_apart (ports s1)) as Hap.
  { subst s1. destruct (set_port_dev _ _ _) as [l|]; [|apply Hi]. eapply names_apart_same; [by apply Hnames|apply Hi]. }
  assert (set_ll (update_entry (e_ptr e) (fun d => with_flags (Z.land (dv_flags d) (Z.lnot VIRTIO_DEV_RUNNING)) d) (ll s1)) s1 =
    VState (update_entry (e_ptr e) (fun d => with_flags (Z.land (dv_flags d) (Z.lnot VIRTIO_DEV_RUNNING)) d) (ll s))
      (num_cur_devices s) (heap s) (brk s) (ports s1)) as -> by (subst s1; by destruct (set_port_dev _ _ _)).
  split; [|intros n p Hin; by apply (Hp n p)].
  apply (vinv_flags nd s e (fun d => Z.land (dv_flags d) (Z.lnot VIRTIO_DEV_RUNNING)) (ports s1)); try done.
  - by rewrite not_running_clear.
  - intros n p [? ?]%Hp. by right.
Qed.

(** Starting a device whose rings are set. *)
Lemma vhost_new_ok nd s e :
  vinv nd s -> e ∈ ll s -> vq_used (rxq (e_dev e)) <> 0 -> vq_used (txq (e_dev e)) <> 0 ->
  exists rc s', vhost_new_device (e_ptr e) (e_dev e) s = Ok (rc, s') /\ vinv nd s'.
Proof.
  intros Hi He Hr Ht. unfold vhost_new_device. rewrite !(proj2 (Z.eqb_neq _ 0)) by done. cbn [orb].
  pose proof (set_port_dev_spec (port_name (e_dev e)) (Some (e_ptr e)) (ports s) (vi_names _ _ Hi)) as Hs.
  pose proof (set_port_dev_names (port_name (e_dev e)) (Some (e_ptr e)) (ports s)) as Hnames.
  destruct (set_port_dev _ _ _) as [l|]; [|by do 2 eexists]. do 2 eexists. split; [done|].
  apply (vinv_flags nd s e (fun d => Z.lor (dv_flags d) VIRTIO_DEV_RUNNING) l Hi He).
  - eapply names_apart_same; [by apply Hnames|apply Hi].
  - intros _. apply (vi_used _ _ Hi); [done|by left].
  - intros n p [[Hnm [= ->]]|[Hnm Hold]]%Hs.
    + left. split; [done|]. split; [apply running_set|done].
    + right. split; [|done]. intros ->. destruct (vi_ports _ _ Hi n (e_ptr e) Hold) as (e0 & He0 & Hq & _ & Hnm0).
      rewrite (ptr_inj nd s e0 e Hi He0 He Hq) in Hnm0. congruence.
Qed.

(** *** Operations *)

(** What QEMU, or the switch for [OpRename], asks for. *)
Inductive vop :=
| OpNew (m1 m2 m3 : bool)
| OpDestroy (fh : Z)
| OpSetOwner (fh : Z)
| OpResetOwner (fh : Z)
| OpGetFeatures (fh : Z)
| OpSetFeatures (fh f : Z)
| OpSetMemTable (fh : Z) (calloc : bool) (hmap : Z -> option (Z * Z)) (rs : list mem_region)
| OpSetVringNum (fh i num : Z)
| OpSetVringAddr (fh i desc avail used : Z)
| OpSetVringBase (fh i num : Z)
| OpGetVringBase (fh i : Z)
| OpSetVringCall (fh i fd : Z) (copied : bool)
| OpSetVringKick (fh i fd : Z) (copied : bool)
| OpSetBackend (fh i fd : Z) (tap : option (list Z))
| OpRename (k : nat) (name : list Z).

Definition run_vop (nd : Z) (op : vop) (s : vhost_state) : res (Z * vhost_state) :=
  match op with
  | OpNew m1 m2 m3 => Ok (new_device nd m1 m2 m3 s)
  | OpDestroy fh => s ← destroy_device fh s; Ok (0, s)
  | OpSetOwner fh => Ok (set_owner fh s, s)
  | OpResetOwner fh => reset_owner fh s
  | OpGetFeatures fh => Ok (match get_features fh s with Some _ => 0 | None => -1 end, s)
  | OpSetFeatures fh f => set_features fh f s
  | OpSetMemTable fh calloc hmap rs => set_mem_table fh calloc hmap rs s
  | OpSetVringNum fh i num => set_vring_num fh i num s
  | OpSetVringAddr fh i d a u => set_vring_addr fh i d a u s
  | OpSetVringBase fh i num => set_vring_base fh i num s
  | OpGetVringBase fh i => r ← get_vring_base fh i s; Ok (match r : option (Z * Z) with Some _ => 0 | None => -1 end, s)
  | OpSetVringCall fh i fd copied => set_vring_call fh i fd copied s
  | OpSetVringKick fh i fd copied => set_vring_kick fh i fd copied s
  | OpSetBackend fh i fd tap => set_backend fh i fd tap s
  | OpRename k name => Ok (0, set_ports (alter (fun np => (name, snd np)) k (ports s)) s)
  end.

Definition queue_index (i : Z) : Prop := i = VIRTIO_RXQ \/ i = VIRTIO_TXQ.

Definition mem_table_works (calloc : bool) (hmap : Z -> option (Z * Z)) (rs : list mem_region) : Prop :=
  calloc = true /\ exists l base m, populate hmap rs 0 (0, 0) = Some (l, base, m) /\ base <> 0.

(** What the operations do not check themselves. *)
Definition vop_ok (op : vop) (s : vhost_state) : Prop :=
  match op with
  | OpNew _ _ _ | OpSetOwner _ | OpGetFeatures _ | OpSetFeatures _ _ => True
  | OpDestroy fh => is_Some (get_device fh s)
  | OpResetOwner fh => fh = 0 /\ exists d, get_device fh s = Some d /\ running d = false
  | OpSetMemTable fh calloc hmap rs => forall d, get_device fh s = Some d ->
      running d = false /\ (dv_mem d = None \/ mem_table_works calloc hmap rs)
  | OpSetVringNum _ i _ | OpSetVringBase _ i _ | OpGetVringBase _ i | OpSetVringCall _ i _ _ | OpSetVringKick _ i _ _ =>
      queue_index i
  | OpSetVringAddr fh i _ _ _ => queue_index i /\ forall d, get_device fh s = Some d -> is_Some (dv_mem d)
  | OpSetBackend fh i fd tap => queue_index i /\ forall d, get_device fh s = Some d ->
      vq_used (rxq d) <> 0 /\ vq_used (txq d) <> 0
  | OpRename k name => names_apart (alter (fun np => (name, snd np)) k (ports s)) /\ forall n p, ports s !! k = Some (n, p) -> p = None
  end.

Lemma get_vq_ok i d : queue_index i -> exists q, get_vq i d = Ok q.
Proof. intros [->| ->]; by eexists. Qed.

(** A virtqueue is changed, the used ring only with memory. *)
Lemma vinv_set_vq nd s e i q :
  vinv nd s -> e ∈ ll s -> (vq_used q <> 0 -> is_Some (dv_mem (e_dev e))) -> vinv nd (set_dev e (set_vq i q (e_dev e)) s).
Proof.
  intros Hi He Hu. pose proof (vi_used _ _ Hi e He) as Hu'.
  unfold set_vq. destruct (i =? VIRTIO_RXQ); apply vinv_set_dev; try done; cbn; intros [?|?]; auto.
Qed.

Lemma vq_used_mem nd s e i q :
  vinv nd s -> e ∈ ll s -> get_vq i (e_dev e) = Ok q -> vq_used q <> 0 -> is_Some (dv_mem (e_dev e)).
Proof.
  intros Hi He Hq Hu. apply (vi_used _ _ Hi e He). unfold get_vq in Hq.
  destruct (i =? VIRTIO_RXQ); [injection Hq as <-; by left|]. destruct (i =? VIRTIO_TXQ); [injection Hq as <-; by right|done].
Qed.

(** The device is absent and nothing changes, or its entry is in the list. *)
Lemma on_device_ok nd fh s f :
  vinv nd s -> (forall e, e ∈ ll s -> get_config_ll_entry fh s = Some e -> exists rc s', f e = Ok (rc, s') /\ vinv nd s') ->
  exists rc s', on_device fh s f = Ok (rc, s') /\ vinv nd s'.
Proof.
  intros Hi Hf. unfold on_device. destruct (get_config_ll_entry fh s) as [e|] eqn:E; [|by do 2 eexists].
  apply Hf; [|done]. by apply (find_entry_Some fh).
Qed.

(** An operation that only changes a virtqueue. *)
Lemma vq_op_ok nd fh i s (g : vhost_virtqueue -> vhost_virtqueue) (rc : Z) :
  vinv nd s -> queue_index i -> (forall q, vq_used (g q) = vq_used q) ->
  exists rc' s', on_device fh s (fun e => q ← get_vq i (e_dev e); Ok (rc, set_dev e (set_vq i (g q) (e_dev e)) s)) = Ok (rc', s') /\
    vinv nd s'.
Proof.
  intros Hi Hq Hg. apply on_device_ok; [done|]. intros e He _. destruct (get_vq_ok i (e_dev e) Hq) as [q Eq]. rewrite Eq. bind.
  do 2 eexists. split; [done|]. apply vinv_set_vq; [done|done|]. rewrite Hg. by eapply vq_used_mem.
Qed.

Lemma get_device_entry fh s e : get_config_ll_entry fh s = Some e -> get_device fh s = Some (e_dev e).
Proof. intros E. unfold get_device. by rewrite E. Qed.

Lemma set_features_ok nd fh f s : vinv nd s -> exists rc s', set_features fh f s = Ok (rc, s') /\ vinv nd s'.
Proof.
  intros Hi. apply on_device_ok; [done|]. intros e He _. destruct (negb _); [by do 2 eexists|]. do 2 eexists. split; [done|].
  apply vinv_set_dev; try done. cbn. apply (vi_used _ _ Hi e He).
Qed.

Lemma set_vring_addr_ok nd fh i desc avail used s :
  vinv nd s -> vop_ok (OpSetVringAddr fh i desc avail used) s ->
  exists rc s', set_vring_addr fh i desc avail used s = Ok (rc, s') /\ vinv nd s'.
Proof.
  intros Hi [Hq Hm]. apply on_device_ok; [done|]. intros e He E.
  destruct (Hm _ (get_device_entry _ _ _ E)) as [m Em]. destruct (get_vq_ok i (e_dev e) Hq) as [q ->]. bind.
  assert (forall x, exists y, qva_to_vva (e_dev e) x (heap s) = Ok y) as Hv.
  { intros x. unfold qva_to_vva. rewrite Em. cbn. destruct (vi_mem _ _ Hi e m He Em) as [y ->]. by eexists. }
  destruct (Hv desc) as [y1 ->], (Hv avail) as [y2 ->], (Hv used) as [y3 ->]. repeat bind.
  assert (forall q, vinv nd (set_dev e (set_vq i q (e_dev e)) s)) as Hs.
  { intros q'. apply vinv_set_vq; [done|done|]. by eexists. }
  destruct (y1 =? 0); [do 2 eexists; split; [done|apply Hs]|]. repeat bind.
  destruct (y2 =? 0); [do 2 eexists; split; [done|apply Hs]|]. repeat bind.
  destruct (y3 =? 0); (do 2 eexists; split; [done|apply Hs]).
Qed.

(** The heap after the memory of a device is freed. *)
Definition freed (d : virtio_net) (h : gmap Z virtio_memory) : gmap Z virtio_memory :=
  match dv_mem d with Some q => delete q h | None => h end.

Lemma free_mem_ok nd s e : vinv nd s -> e ∈ ll s -> free_mem (dv_mem (e_dev e)) (heap s) = Ok (freed (e_dev e) (heap s)).
Proof.
  intros Hi He. unfold free_mem, freed. destruct (dv_mem (e_dev e)) as [q|] eqn:Eq; [|done].
  by destruct (vi_mem _ _ Hi e q He Eq) as [m ->].
Qed.

Lemma freed_heap nd s e q : vinv nd s -> is_Some (freed (e_dev e) (heap s) !! q) -> q < brk s.
Proof.
  intros Hi. unfold freed. destruct (dv_mem (e_dev e)) as [q'|]; [|apply (vi_heap _ _ Hi)].
  intros [m [_ Hm]%lookup_delete_Some]. by apply (vi_heap _ _ Hi).
Qed.

Lemma freed_others nd s e e' q :
  vinv nd s -> e ∈ ll s -> e' ∈ ll s -> e' <> e -> dv_mem (e_dev e') = Some q -> is_Some (freed (e_dev e) (heap s) !! q).
Proof.
  intros Hi He He' Hne Hq. unfold freed. destruct (dv_mem (e_dev e)) as [q'|] eqn:Eq; [|by eapply (vi_mem _ _ Hi)].
  rewrite lookup_delete_ne; [by eapply (vi_mem _ _ Hi)|]. intros ->. apply Hne. by eapply (vi_own _ _ Hi).
Qed.

(** A stopped device gets a new memory structure. *)
Lemma vinv_new_mem nd s e m :
  vinv nd s -> e ∈ ll s -> running (e_dev e) = false ->
  vinv nd (set_dev e (with_mem (Some (brk s)) (e_dev e))
    (VState (ll s) (num_cur_devices s) (<[brk s := m]> (freed (e_dev e) (heap s))) (brk s + 1) (ports s))).
Proof.
  intros Hi He Hr. unfold set_dev, set_ll. cbn [ll num_cur_devices heap brk ports].
  apply vinv_replace; cbn [with_mem dv_mem device_fh]; try done.
  - lia.
  - intros q. destruct (decide (q = brk s)) as [->|]; [lia|]. rewrite lookup_insert_ne by done.
    intros Hq%(freed_heap nd s e q Hi). lia.
  - intros q [= <-]. by rewrite lookup_insert_eq.
  - intros e' q He' Hne Hq. pose proof (vi_heap _ _ Hi q (vi_mem _ _ Hi e' q He' Hq)). rewrite lookup_insert_ne by lia.
    split; [by eapply freed_others|]. intros [= ?]. lia.
Qed.

Lemma set_mem_table_ok nd fh calloc hmap rs s :
  vinv nd s -> vop_ok (OpSetMemTable fh calloc hmap rs) s ->
  exists rc s', set_mem_table fh calloc hmap rs s = Ok (rc, s') /\ vinv nd s'.
Proof.
  intros Hi Hok. apply on_device_ok; [done|]. intros e He E. destruct (Hok _ (get_device_entry _ _ _ E)) as [Hrun Hm].
  rewrite (free_mem_ok nd s e Hi He). bind. cbn [set_heap ll num_cur_devices heap brk ports].
  assert (dv_mem (e_dev e) = None -> vinv nd (set_heap (freed (e_dev e) (heap s)) s)) as Hsame.
  { intros Hn. unfold freed. rewrite Hn. by destruct s. }
  assert (forall m b, brk s + 1 - 1 = b -> vinv nd (set_dev e (with_mem (Some b) (e_dev e))
    (VState (ll s) (num_cur_devices s) (<[brk s := m]> (freed (e_dev e) (heap s))) (brk s + 1) (ports s)))) as Hnew.
  { intros m b <-. replace (brk s + 1 - 1) with (brk s) by lia. by apply vinv_new_mem. }
  destruct Hm as [Hn|(-> & l & base & [mapped msz] & Hp & Hb)].
  - specialize (Hsame Hn). destruct calloc; [|by do 2 eexists]. cbn [negb].
    destruct (populate hmap rs 0 (0, 0)) as [[[l base] [mapped msz]]|]; [|by do 2 eexists].
    destruct (base =? 0); [by do 2 eexists|]. do 2 eexists. split; [done|]. by apply Hnew.
  - cbn [negb]. rewrite Hp, (proj2 (Z.eqb_neq _ _)) by done. do 2 eexists. split; [done|]. by apply Hnew.
Qed.

Lemma reset_owner_ok nd s : vinv nd s -> vop_ok (OpResetOwner 0) s -> exists rc s', reset_owner 0 s = Ok (rc, s') /\ vinv nd s'.
Proof.
  intros Hi (_ & d & Hd & Hr). unfold reset_owner. unfold get_device in Hd.
  destruct (get_config_ll_entry 0 s) as [e|] eqn:E; [|done]. injection Hd as <-. destruct (find_entry_Some _ _ _ E) as [He Hfh].
  unfold cleanup_device. rewrite (free_mem_ok nd s e Hi He). bind. do 2 eexists. split; [done|].
  apply (vinv_replace nd s e init_device (freed (e_dev e) (heap s)) (brk s)); try done.
  - cbn. by intros [].
  - intros q. by apply (freed_heap nd).
  - intros e' q He' Hne Hq. split; [by eapply freed_others|done].
Qed.

Lemma filter_all {A} (P : A -> Prop) `{forall x, Decision (P x)} (l : list A) : (forall x, x ∈ l -> P x) -> filter P l = l.
Proof.
  induction l as [|x l IH]; intros Hl; [done|]. rewrite filter_cons_True by (apply Hl; by left). f_equal. apply IH.
  intros y Hy. apply Hl. by right.
Qed.

(** Removing an entry no vport points to. *)
Lemma vinv_remove nd s e :
  vinv nd s -> e ∈ ll s -> nd < 2 ^ 32 -> (forall n p, (n, Some p) ∈ ports s -> p <> e_ptr e) ->
  vinv nd (VState (filter (fun e' => e_ptr e' <> e_ptr e) (ll s)) (u32 (num_cur_devices s - 1)) (freed (e_dev e) (heap s)) (brk s) (ports s)).
Proof.
  intros Hi He Hnd Hp. destruct (list_elem_of_split _ _ He) as (a & b & Hab).
  assert (filter (fun e' => e_ptr e' <> e_ptr e) (ll s) = a ++ b) as Hf.
  { pose proof (vi_ptrs _ _ Hi) as Hnd'. rewrite Hab in Hnd' |- *. rewrite fmap_app, fmap_cons in Hnd'.
    apply list.NoDup_app in Hnd' as (_ & Hna & [Hnb _]%list.NoDup_cons).
    rewrite list.filter_app, filter_cons_False by (by intros []).
    f_equal; apply filter_all; intros e' Hin Heq.
    - apply (Hna (e_ptr e')); [by apply list_elem_of_fmap_2|]. rewrite Heq. by left.
    - apply Hnb. rewrite <- Heq. by apply list_elem_of_fmap_2. }
  assert (forall e', e' ∈ filter (fun e' => e_ptr e' <> e_ptr e) (ll s) -> e' ∈ ll s /\ e' <> e) as Hin.
  { intros e' [Hne Hl]%list_elem_of_filter. split; [done|]. by intros ->. }
  pose proof Hi as [H1 H2 H3 H4 H5 H6 H7 H8 H8' H9 H10]. split; cbn [ll num_cur_devices heap brk ports]; try done.
  - rewrite Hf. destruct H1 as [Hs Hb]. rewrite Hab in Hs, Hb. unfold fhs in *. rewrite fmap_app in *. rewrite fmap_cons in Hs, Hb.
    split; [|rewrite Forall_app in *; destruct Hb as [? Hb]; inversion_clear Hb; done].
    apply StronglySorted_app in Hs as (Hx & Ha & Hb'). apply StronglySorted_app. inversion_clear Hb'. split_and!; try done.
    intros x1 x2 ? ?. apply Hx; [done|by right].
  - rewrite Hf. rewrite Hab, fmap_app, fmap_cons in H2. rewrite fmap_app.
    apply list.NoDup_app in H2 as (? & Hx & [? ?]%list.NoDup_cons). apply list.NoDup_app. split_and!; try done.
    intros x Hx1 Hx2. apply (Hx x Hx1). by right.
  - intros e' [? _]%Hin. by apply H3.
  - destruct H4 as [-> Hle]. rewrite Hf. rewrite Hab in Hle |- *. rewrite zlen_app, zlen_cons in *. rewrite zlen_app.
    pose proof (zlen_nonneg a). pose proof (zlen_nonneg b). unfold u32. rewrite wrap_small by (unfold is_u; lia). lia.
  - intros e' q [? ?]%Hin. by eapply freed_others.
  - intros e1 e2 q [? _]%Hin [? _]%Hin. by apply H6.
  - intros q. by apply (freed_heap nd).
  - intros e' [? _]%Hin. by apply H8.
  - intros e' [? _]%Hin. by apply H8'.
  - intros n p Hnp. destruct (H9 n p Hnp) as (e0 & He0 & Hq & ?). exists e0. split; [|done]. apply list_elem_of_filter.
    split; [|done]. rewrite Hq. by eapply Hp.
Qed.

Lemma destroy_device_ok nd fh s :
  vinv nd s -> nd < 2 ^ 32 -> is_Some (get_device fh s) ->
  exists s', destroy_device fh s = Ok s' /\ vinv nd s'.
Proof.
  intros Hi Hnd [d Hd]. unfold destroy_device. unfold get_device in Hd.
  destruct (get_config_ll_entry fh s) as [e|] eqn:E; [|done]. destruct (find_entry_Some _ _ _ E) as [He _].
  set (s1 := if running (e_dev e) then vhost_destroy_device (e_ptr e) (e_dev e) s else s).
  assert (exists e1, e1 ∈ ll s1 /\ e_ptr e1 = e_ptr e /\ dv_mem (e_dev e1) = dv_mem (e_dev e)) as (e1 & He1 & Hp1 & Hm1).
  { subst s1. destruct (running (e_dev e)); [|by exists e].
    exists (Entry (e_ptr e) (with_flags (Z.land (dv_flags (e_dev e)) (Z.lnot VIRTIO_DEV_RUNNING)) (e_dev e))).
    split; [|done]. unfold vhost_destroy_device. destruct (set_port_dev _ _ _); apply elem_of_update_entry; exists e;
      (split; [done|by rewrite Z.eqb_refl]). }
  assert (vinv nd s1 /\ forall n p, (n, Some p) ∈ ports s1 -> p <> e_ptr e) as [Hi1 Hports].
  { subst s1. destruct (running (e_dev e)) eqn:Hr; [by apply vhost_destroy_ok|]. split; [done|]. intros n p Hin ->.
    destruct (vi_ports _ _ Hi n (e_ptr e) Hin) as (e0 & He0 & Hq & Hr0 & _). rewrite (ptr_inj nd s e0 e Hi He0 He Hq) in Hr0. congruence. }
  assert (free_mem (dv_mem (e_dev e)) (heap s1) = Ok (freed (e_dev e1) (heap s1))) as Ef.
  { rewrite <- Hm1. by apply (free_mem_ok nd). }
  unfold cleanup_device. rewrite Ef. bind. eexists. split; [done|].
  cbn [set_heap set_ll ll num_cur_devices heap brk ports]. rewrite <- Hp1. apply vinv_remove; try done. by rewrite Hp1.
Qed.

Lemma new_device_ok nd m1 m2 m3 s :
  vinv nd s -> 0 <= nd < 2 ^ 32 -> vinv nd (snd (new_device nd m1 m2 m3 s)).
Proof.
  intros Hi Hnd. unfold new_device. destruct (Z.eqb_spec (num_cur_devices s) nd) as [|Hlt]; [done|].
  destruct (negb _); [done|]. pose proof (add_spec (Entry (brk s) init_device) (ll s) nd (vi_asc _ _ Hi) ltac:(lia)) as Ha.
  destruct (add_config_ll_entry _ (ll s)) as [l fh]. destruct Ha as (_ & _ & Hfh & a & b & Hab & Hl & Hs). cbn [snd].
  assert (forall e, e ∈ l -> e = Entry (brk s) (with_fh fh init_device) \/ e ∈ ll s) as Hin.
  { intros e He. rewrite Hl in He. rewrite Hab. apply elem_of_app in He as [?|[->|?]%elem_of_cons]; [right|by left|right].
    - apply elem_of_app. by left.
    - apply elem_of_app. by right. }
  assert (forall e, e ∈ ll s -> e ∈ l) as Hin'.
  { intros e He. rewrite Hab in He. rewrite Hl. apply elem_of_app in He as [?|?]; apply elem_of_app; [by left|right; by right]. }
  pose proof Hi as [H1 H2 H3 H4 H5 H6 H7 H8 H8' H9 H10]. destruct H4 as [H4 H4'].
  assert (zlen l = zlen (ll s) + 1) as Hz by (rewrite Hl, Hab, !zlen_app, zlen_cons; lia).
  split; cbn [ll num_cur_devices heap brk ports]; try done.
  - split; [done|]. destruct H1 as [_ Hb]. rewrite Hab in Hb. rewrite Hl. unfold fhs in *. rewrite fmap_app in *.
    rewrite fmap_cons. rewrite Forall_app in *. destruct Hb as [? ?]. split; [done|]. constructor; [|done]. cbn. lia.
  - rewrite Hl, fmap_app, fmap_cons. rewrite Hab, fmap_app in H2. apply list.NoDup_app in H2 as (? & Hx & ?).
    assert (forall e, e ∈ a ++ b -> e_ptr e <> brk s) as Hfresh by (intros e He; rewrite <- Hab in He; specialize (H3 e He); lia).
    apply list.NoDup_app. split; [done|]. split.
    + intros x Hx1 [->|Hx2]%elem_of_cons; [|by apply (Hx x)]. apply list_elem_of_fmap in Hx1 as (e & Hq & He).
      apply (Hfresh e); [apply elem_of_app; by left|done].
    + apply list.NoDup_cons. split; [|done]. intros (e & Hq & He)%list_elem_of_fmap. apply (Hfresh e); [apply elem_of_app; by right|done].
  - intros e [->|He]%Hin; cbn; [lia|]. specialize (H3 e He). lia.
  - rewrite Hz. unfold u32. pose proof (zlen_nonneg (ll s)). rewrite wrap_small by (unfold is_u; lia). lia.
  - intros e q [->|He]%Hin; [done|by apply H5].
  - intros e1 e2 q [->|He1]%Hin [->|He2]%Hin; try done. by apply H6.
  - intros q Hq%H7. lia.
  - intros e [->|He]%Hin; [by intros []|by apply H8].
  - intros e [->|He]%Hin; [done|by apply H8'].
  - intros n p (e & He & ?)%H9. exists e. split; [by apply Hin'|done].
Qed.

Lemma update_entry_in p d l e : e ∈ l -> e_ptr e = p -> Entry p d ∈ update_entry p (fun _ => d) l.
Proof. intros He <-. apply elem_of_update_entry. exists e. by rewrite Z.eqb_refl. Qed.

Lemma set_backend_ok nd fh i fd tap s :
  vinv nd s -> vop_ok (OpSetBackend fh i fd tap) s -> exists rc s', set_backend fh i fd tap s = Ok (rc, s') /\ vinv nd s'.
Proof.
  intros Hi [Hq Hused]. apply on_device_ok; [done|]. intros e He E. destruct (Hused _ (get_device_entry _ _ _ E)) as [Hu1 Hu2].
  destruct (get_vq_ok i (e_dev e) Hq) as [q Eq]. rewrite Eq. bind. set (d := set_vq i (with_backend fd q) (e_dev e)).
  assert (vq_used (rxq d) <> 0 /\ vq_used (txq d) <> 0) as [Hd1 Hd2].
  { subst d. unfold set_vq. unfold get_vq in Eq. destruct (i =? VIRTIO_RXQ); [injection Eq as <-; done|].
    destruct (i =? VIRTIO_TXQ); [injection Eq as <-; done|done]. }
  assert (vinv nd (set_dev e d s)) as Hi1 by (apply vinv_set_vq; [done|done|exact (vq_used_mem nd s e i q Hi He Eq)]).
  assert (is_Some (dv_mem (e_dev e))) as Hm by (apply (vi_used _ _ Hi e He); by left).
  assert (device_fh d = device_fh (e_dev e) /\ dv_mem d = dv_mem (e_dev e) /\ dv_flags d = dv_flags (e_dev e)) as (Hf & Hmd & Hfl).
  { subst d. unfold set_vq. by destruct (i =? VIRTIO_RXQ). }
  cbv zeta. fold d. destruct (running d) eqn:Hr; cbn [negb].
  - destruct (fd =? -1); [|by do 2 eexists]. do 2 eexists. split; [done|].
    apply (vhost_destroy_ok nd (set_dev e d s) (Entry (e_ptr e) d) Hi1). by eapply update_entry_in.
  - destruct (_ && _); [|by do 2 eexists]. destruct tap as [nm|]; [|by do 2 eexists].
    set (d2 := with_port_name (nm ++ drop (length nm) (port_name d)) d). change (get_port_name (Some nm) d) with (Some d2). cbv iota beta.
    assert (vinv nd (set_dev e d2 (set_dev e d s))) as Hi2.
    { apply (vinv_set_dev nd (set_dev e d s) (Entry (e_ptr e) d) d2 Hi1); try done.
      - by eapply update_entry_in.
      - change (running d2) with (running d). by rewrite Hr.
      - cbn. by rewrite Hmd. }
    destruct (vhost_new_ok nd (set_dev e d2 (set_dev e d s)) (Entry (e_ptr e) d2) Hi2) as (rc & s' & E' & Hi3); try done.
    { eapply update_entry_in; [by eapply update_entry_in|done]. }
    cbn [e_ptr e_dev] in E'. rewrite E'. bind. by do 2 eexists.
Qed.

Lemma run_vop_ok nd op s :
  0 <= nd < 2 ^ 32 -> vinv nd s -> vop_ok op s -> exists rc s', run_vop nd op s = Ok (rc, s') /\ vinv nd s'.
Proof.
  intros Hnd Hi Hok. destruct op; cbn [run_vop].
  - destruct (new_device nd m1 m2 m3 s) as [rc s'] eqn:E. exists rc, s'. split; [done|].
    change s' with (snd (rc, s')). rewrite <- E. by apply new_device_ok.
  - destruct (destroy_device_ok nd fh s Hi ltac:(lia) Hok) as (s' & -> & ?). bind. by do 2 eexists.
  - by do 2 eexists.
  - destruct Hok as [-> Hok]. apply reset_owner_ok; [done|by split].
  - by do 2 eexists.
  - by apply set_features_ok.
  - by apply set_mem_table_ok.
  - by apply (vq_op_ok nd fh i s _ 0 Hi Hok).
  - by apply set_vring_addr_ok.
  - by apply (vq_op_ok nd fh i s _ 0 Hi Hok).
  - unfold get_vring_base. destruct (get_device fh s) as [d|]; [|bind; by do 2 eexists].
    destruct (get_vq_ok i d Hok) as [q ->]. repeat bind. by do 2 eexists.
  - by apply (vq_op_ok nd fh i s _ (if copied then 0 else -1) Hi Hok).
  - by apply (vq_op_ok nd fh i s _ (if copied then 0 else -1) Hi Hok).
  - by apply set_backend_ok.
  - do 2 eexists. split; [done|]. destruct Hok as [Hn Hk]. destruct Hi as [H1 H2 H3 H4 H5 H6 H7 H8 H8' H9 H10].
    split; try done. intros n p Hin. cbn [ports set_ports ll] in *. apply H9. apply list_elem_of_lookup in Hin as [j Hj].
    destruct (decide (j = k)) as [->|Hne].
    + rewrite list_lookup_alter_eq in Hj. apply fmap_Some in Hj as ([n0 p0] & Ek & Hj). specialize (Hk _ _ Ek). cbn in Hj. congruence.
    + rewrite list_lookup_alter_ne in Hj by done. by eapply list_elem_of_lookup_2.
Qed.

(** ** Properties *)

(** States reached by operations that respect what the code does not check. *)
Inductive vreach (nd : Z) (s : vhost_state) : vhost_state -> Prop :=
| vreach_start : vreach nd s s
| vreach_op op s1 rc s2 : vreach nd s s1 -> vop_ok op s1 -> run_vop nd op s1 = Ok (rc, s2) -> vreach nd s s2.

(** Start-up: no devices, nothing allocated, no vport has a device. *)
Definition vhost_start (names : list (list Z)) : vhost_state := VState [] 0 ∅ 1 ((fun n => (n, None)) <$> names).

Lemma vhost_start_inv nd names :
  0 <= nd -> names_apart (ports (vhost_start names)) -> vinv nd (vhost_start names).
Proof.
  intros Hnd Hn. split; cbn [vhost_start ll num_cur_devices heap brk ports]; try done.
  - split; [constructor|by apply Forall_nil_2].
  - by apply NoDup_nil_2.
  - by intros e ?%not_elem_of_nil.
  - by intros e q ?%not_elem_of_nil.
  - by intros e e' q ?%not_elem_of_nil.
  - intros q [? ?]. by rewrite lookup_empty in *.
  - by intros e ?%not_elem_of_nil.
  - by intros e ?%not_elem_of_nil.
  - intros n p (x & [= _ ?] & _)%list_elem_of_fmap.
Qed.


(** opening a device gives it the smallest number that is not in use, as
    long as there are fewer devices than allowed, and its entry can be found
    under that number. *)
Theorem new_device_smallest_number nd s :
  0 <= nd < 2 ^ 32 -> vinv nd s -> num_cur_devices s < nd ->
  let '(fh, s') := new_device nd true true true s in
  (forall k, 0 <= k < fh -> is_Some (get_device k s)) /\ get_device fh s = None /\
  get_device fh s' = Some (with_fh fh init_device) /\ num_cur_devices s' = num_cur_devices s + 1.
Proof.
  intros Hnd Hi Hlt. unfold new_device. rewrite (proj2 (Z.eqb_neq _ _)) by lia. cbn [andb negb].
  assert (forall k l, k ∈ fhs l -> is_Some (find_entry k l)) as Hfind.
  { intros k l. induction l as [|e l IH]; [by intros ?%not_elem_of_nil|]. cbn [fhs fmap list_fmap find_entry].
    destruct (Z.eqb_spec (device_fh (e_dev e)) k) as [|Hne]; [by eexists|]. intros [?|?]%elem_of_cons; [congruence|by apply IH]. }
  assert (forall k l, ~ k ∈ fhs l -> find_entry k l = None) as Hnone.
  { intros k l Hk. destruct (find_entry k l) as [e|] eqn:E; [|done]. apply find_entry_Some in E as [He <-]. destruct Hk.
    unfold fhs. by apply (list_elem_of_fmap_2 (fun e => device_fh (e_dev e))). }
  pose proof (add_spec (Entry (brk s) init_device) (ll s) nd (vi_asc _ _ Hi) ltac:(lia)) as Ha.
  destruct (add_config_ll_entry _ (ll s)) as [l fh]. destruct Ha as (Hall & Hni & Hfh & a & b & Hab & Hl & Hs).
  destruct (vi_count _ _ Hi) as [Hc _]. pose proof (zlen_nonneg (ll s)). split_and!.
  - intros k Hk. unfold get_device, get_config_ll_entry. apply fmap_is_Some. by apply Hfind, Hall.
  - unfold get_device, get_config_ll_entry. by rewrite (Hnone _ _ Hni).
  - unfold get_device, get_config_ll_entry. cbn [ll]. rewrite Hl. rewrite Hab in Hni. clear -Hni.
    induction a as [|e a IH]; cbn [app find_entry e_dev device_fh with_fh].
    + by rewrite Z.eqb_refl.
    + cbn in Hni. rewrite elem_of_cons in Hni. rewrite (proj2 (Z.eqb_neq _ _)) by (intros <-; apply Hni; by left).
      apply IH. intros ?. apply Hni. by right.
  - cbn. unfold u32. rewrite wrap_small; [done|]. unfold is_u. lia.
Qed.

(** removing the regions outside QEMU's memory file in place, from the
    last to the first with [memmove], keeps exactly the regions inside, in
    their order. *)
Theorem regions_compaction base size l :
  keep_valid base size l = filter (fun r => region_valid base size r = true) l.
Proof. apply keep_valid_filter. Qed.

(** ** Examples *)

(** Operations one after the other. *)
Fixpoint run_vops (nd : Z) (ops : list vop) (s : vhost_state) : res vhost_state :=
  match ops with
  | [] => Ok s
  | op :: ops => '(_, s) ← run_vop nd op s; run_vops nd ops s
  end.

(** A vport named [v0], and QEMU's start-up of a device: one region of 64 KiB
    at guest address 0, which is mapped at 0x10000. *)
Definition vhost_names : list (list Z) := [[118; 48]].
Definition qemu_hmap (a : Z) : option (Z * Z) := if a =? 0x7000 then Some (0x10000, 0x10000) else None.
Definition qemu_regions : list mem_region := [MemRegion 0 0x10000 0x7000].
Definition qemu_ops (fh : Z) : list vop :=
  [OpNew true true true; OpSetMemTable fh true qemu_hmap qemu_regions; OpSetVringAddr fh 0 0x7100 0x7200 0x7300;
   OpSetVringAddr fh 1 0x7400 0x7500 0x7600; OpSetBackend fh 0 5 (Some [118; 48]); OpSetBackend fh 1 5 (Some [118; 48])].
Definition qemu_after (k : nat) : vhost_state :=
  match run_vops 4 (take k (qemu_ops 0)) (vhost_start vhost_names) with Ok s => s | Err _ => vhost_start [] end.

Lemma vhost_names_are_apart : names_apart (ports (vhost_start vhost_names)).
Proof. intros [|i] [|j] n p n' p' name Hi Hj _ _; try done; by destruct i. Qed.

Lemma qemu_reach : vreach 4 (vhost_start vhost_names) (qemu_after 6).
Proof.
  apply (vreach_op 4 _ (OpSetBackend 0 1 5 (Some [118; 48])) (qemu_after 5) 0); [| |vm_compute; reflexivity].
  2:{ split; [by right|]. intros d Hd. vm_compute in Hd. injection Hd as <-. done. }
  apply (vreach_op 4 _ (OpSetBackend 0 0 5 (Some [118; 48])) (qemu_after 4) 0); [| |vm_compute; reflexivity].
  2:{ split; [by left|]. intros d Hd. vm_compute in Hd. injection Hd as <-. done. }
  apply (vreach_op 4 _ (OpSetVringAddr 0 1 0x7400 0x7500 0x7600) (qemu_after 3) 0); [| |vm_compute; reflexivity].
  2:{ split; [by right|]. intros d Hd. vm_compute in Hd. injection Hd as <-. by eexists. }
  apply (vreach_op 4 _ (OpSetVringAddr 0 0 0x7100 0x7200 0x7300) (qemu_after 2) 0); [| |vm_compute; reflexivity].
  2:{ split; [by left|]. intros d Hd. vm_compute in Hd. injection Hd as <-. by eexists. }
  apply (vreach_op 4 _ (OpSetMemTable 0 true qemu_hmap qemu_regions) (qemu_after 1) 0); [| |vm_compute; reflexivity].
  2:{ intros d Hd. vm_compute in Hd. injection Hd as <-. split; [done|by left]. }
  apply (vreach_op 4 _ (OpNew true true true) (vhost_start vhost_names) 0); [apply vreach_start|done|vm_compute; reflexivity].
Qed.


Lemma new_device_smallest_number_witness :
  let '(fh, s') := new_device 4 true true true (vhost_start vhost_names) in
  (forall k, 0 <= k < fh -> is_Some (get_device k (vhost_start vhost_names))) /\ get_device fh (vhost_start vhost_names) = None /\
  get_device fh s' = Some (with_fh fh init_device) /\ num_cur_devices s' = num_cur_devices (vhost_start vhost_names) + 1.
Proof.
  apply (new_device_smallest_number 4 (vhost_start vhost_names)); [lia| |reflexivity].
  apply vhost_start_inv; [lia|apply vhost_names_are_apart].
Defined.

(** VHOST_RESET_OWNER breaks the configuration: it clears the number of
    the device, so that device 1 is no longer found and two entries have the
    number 0; and on a running device it unmaps the guest's memory while the
    vport still points to the device. *)
Theorem reset_owner_breaks_configuration :
  (exists s, run_vops 4 [OpNew true true true; OpNew true true true; OpResetOwner 1] (vhost_start vhost_names) = Ok s /\
     get_device 1 s = None /\ fhs (ll s) = [0; 0]) /\
  (exists s e, run_vops 4 (qemu_ops 0 ++ [OpResetOwner 0]) (vhost_start vhost_names) = Ok s /\
     ll s = [e] /\ ports s = [([118; 48], Some (e_ptr e))] /\ dv_mem (e_dev e) = None /\ heap s = ∅).
Proof.
  split.
  - eexists. split; [vm_compute; reflexivity|]. split; vm_compute; reflexivity.
  - eexists _, _. split; [vm_compute; reflexivity|]. split; [reflexivity|]. split; [reflexivity|]. split; reflexivity.
Qed.

(** a failed VHOST_SET_MEM_TABLE leaves the device with a pointer to the
    memory structure it has freed: releasing the device frees it again. *)
Theorem set_mem_table_failure_double_free :
  exists s, run_vops 4 (take 2 (qemu_ops 0) ++ [OpSetMemTable 0 true (fun _ => None) qemu_regions]) (vhost_start vhost_names) = Ok s /\
    run_vop 4 (OpDestroy 0) s = Err UseAfterFree.
Proof. eexists. split; [vm_compute; reflexivity|vm_compute; reflexivity]. Qed.

(** a vport that is renamed while it has a device keeps pointing to the
    device after the device is released and freed. *)
Theorem renamed_vport_keeps_freed_device :
  exists s p, run_vops 4 (qemu_ops 0 ++ [OpRename 0 [118; 49]; OpDestroy 0]) (vhost_start vhost_names) = Ok s /\
    ports s = [([118; 49], Some p)] /\ ll s = [].
Proof. eexists _, _. split; [vm_compute; reflexivity|]. split; reflexivity. Qed.

(** Releasing a device that is not there makes the count wrap around. *)
Example destroy_unknown_device_wraps :
  num_cur_devices <$> destroy_device 3 (vhost_start vhost_names) = Ok (2 ^ 32 - 1).
Proof. reflexivity. Qed.

(** A backend that is set before the rings crashes the switch. *)
Example backend_before_rings :
  run_vops 4 [OpNew true true true; OpSetBackend 0 0 5 (Some [118; 48]); OpSetBackend 0 1 5 (Some [118; 48])]
    (vhost_start vhost_names) = Err NullDeref.
Proof. reflexivity. Qed.

(** A shorter name keeps the end of the old one. *)
Example stale_port_name :
  port_name <$> get_port_name (Some [118; 50]) (with_port_name [118; 49; 48] init_device) = Some [118; 50; 48].
Proof. reflexivity. Qed.
