(* ===== verification/Cdev.v ===== *)
(** The character device of vhost: [datapath/dpdk/vhost-net-cdev.c].

    An ioctl arrives twice: the first call has no data and is answered with the
    sizes to transfer, the second carries the data.  VHOST_SET_MEM_TABLE arrives
    three times, since the size depends on the number of regions, which is kept
    in a static variable between the calls. *)
From stdpp Require Import gmap.
From Stdlib Require Import String.
From S2P Require Import Prelude Vport VirtioNet.

Definition sizeof_vring_file : Z := 8.
Definition sizeof_vring_state : Z := 8.
Definition sizeof_vring_addr : Z := 40.
Definition sizeof_vhost_memory : Z := 8.
Definition sizeof_vhost_memory_region : Z := 32.
Definition EPERM : Z := 1.
Definition EINVAL : Z := 22.

(** [cmd]: the last one stands for every other number. *)
Inductive ioctl_cmd :=
| VHOST_NET_SET_BACKEND | VHOST_GET_FEATURES | VHOST_SET_FEATURES | VHOST_RESET_OWNER | VHOST_SET_OWNER | VHOST_SET_MEM_TABLE
| VHOST_SET_VRING_NUM | VHOST_SET_VRING_BASE | VHOST_GET_VRING_BASE | VHOST_SET_VRING_ADDR | VHOST_SET_VRING_KICK
| VHOST_SET_VRING_CALL | VHOST_OTHER.

(** The data of a call: its sizes, and [in_buf] read as the type of the
    command: index and number or descriptor, the addresses, the features, the
    number of regions and the regions. *)
Record ioctl_data := Data {
  in_bufsz : Z; out_bufsz : Z; b_index : Z; b_num : Z; b_desc : Z; b_avail : Z; b_used : Z; b_features : Z; b_nregions : Z;
  b_regions : list mem_region
}.

(** What the kernel decides during the call: memory, the maps file, a new
    event descriptor, whether descriptors can be copied, the tap's name. *)
Record kernel := Kernel {
  k_calloc : bool; k_hmap : Z -> option (Z * Z); k_fd : Z; k_copied : bool; k_tap : option (list Z)
}.

Inductive reply :=
| Retry (size_r size_w : Z)
| ReplyIoctl (result : Z)
| ReplyErr (err : Z)
| ReplyOpen (fh : Z).

(** The devices and the static [mem_temp.nregions]. *)
Record cdev := CdevState { cd : vhost_state; mem_temp_nregions : Z }.

Definition set_cd (s : vhost_state) (c : cdev) : cdev := CdevState s (mem_temp_nregions c).

(** [vhost_net_open] and [vhost_net_release]. *)
Definition vhost_net_open (num_devices : Z) (m1 m2 m3 : bool) (c : cdev) : reply * cdev :=
  let '(err, s) := new_device num_devices m1 m2 m3 (cd c) in
  (if err =? -1 then ReplyErr EPERM else ReplyOpen err, set_cd s c).

Definition vhost_net_release (fh : Z) (c : cdev) : res (reply * cdev) :=
  s ← destroy_device fh (cd c); Ok (ReplyErr 0, set_cd s c).

(** VHOST_IOCTL_R: read data of [size] bytes, then call. *)
Definition ioctl_r (size : Z) (b : ioctl_data) (f : res (Z * vhost_state)) (c : cdev) : res (reply * cdev) :=
  if in_bufsz b =? 0 then Ok (Retry size 0, c)
  else '(result, s) ← f; Ok (ReplyIoctl result, set_cd s c).

(** The three calls of VHOST_SET_MEM_TABLE; the buffer holds as many regions as
    its size says, and all of them are read unless the memory cannot be
    allocated or mapped. *)
Definition ioctl_set_mem_table (k : kernel) (fh : Z) (b : ioctl_data) (c : cdev) : res (reply * cdev) :=
  if in_bufsz b =? 0 then Ok (Retry sizeof_vhost_memory 0, c)
  else if in_bufsz b =? sizeof_vhost_memory then
    let c := CdevState (cd c) (b_nregions b) in
    Ok (if 0 <? b_nregions b then Retry (sizeof_vhost_memory + sizeof_vhost_memory_region * b_nregions b) 0 else ReplyIoctl (-1), c)
  else
    match get_device fh (cd c) with
    | Some _ =>
        let short := in_bufsz b <? sizeof_vhost_memory + sizeof_vhost_memory_region * mem_temp_nregions c in
        if short && k_calloc k && bool_decide (is_Some (populate (k_hmap k) (b_regions b) 0 (0, 0))) then Err OutOfBounds else
        '(result, s) ← set_mem_table fh (k_calloc k) (k_hmap k) (take (Z.to_nat (mem_temp_nregions c)) (b_regions b)) (cd c);
        Ok (if result =? 0 then ReplyIoctl result else ReplyErr EINVAL, set_cd s c)
    | None => Ok (ReplyErr EINVAL, c)
    end.

(** [vhost_net_ioctl]. *)
Definition vhost_net_ioctl (k : kernel) (fh : Z) (cmd : ioctl_cmd) (b : ioctl_data) (c : cdev) : res (reply * cdev) :=
  match cmd with
  | VHOST_NET_SET_BACKEND => ioctl_r sizeof_vring_file b (set_backend fh (b_index b) (b_num b) (k_tap k) (cd c)) c
  | VHOST_GET_FEATURES =>
      if out_bufsz b =? 0 then Ok (Retry 0 8, c)
      else Ok (ReplyIoctl (match get_features fh (cd c) with Some _ => 0 | None => -1 end), c)
  | VHOST_SET_FEATURES => ioctl_r 8 b (set_features fh (b_features b) (cd c)) c
  | VHOST_RESET_OWNER => '(result, s) ← reset_owner fh (cd c); Ok (ReplyIoctl result, set_cd s c)
  | VHOST_SET_OWNER => Ok (ReplyIoctl (set_owner fh (cd c)), c)
  | VHOST_SET_MEM_TABLE => ioctl_set_mem_table k fh b c
  | VHOST_SET_VRING_NUM => ioctl_r sizeof_vring_state b (set_vring_num fh (b_index b) (b_num b) (cd c)) c
  | VHOST_SET_VRING_BASE => ioctl_r sizeof_vring_state b (set_vring_base fh (b_index b) (b_num b) (cd c)) c
  | VHOST_GET_VRING_BASE =>
      if in_bufsz b =? 0 then Ok (Retry 4 sizeof_vring_state, c)
      else r ← get_vring_base fh (b_index b) (cd c);
           Ok (ReplyIoctl (match r : option (Z * Z) with Some _ => 0 | None => -1 end), c)
  | VHOST_SET_VRING_ADDR => ioctl_r sizeof_vring_addr b (set_vring_addr fh (b_index b) (b_desc b) (b_avail b) (b_used b) (cd c)) c
  | VHOST_SET_VRING_KICK => ioctl_r sizeof_vring_file b (set_vring_kick fh (b_index b) (k_fd k) (k_copied k) (cd c)) c
  | VHOST_SET_VRING_CALL => ioctl_r sizeof_vring_file b (set_vring_call fh (b_index b) (k_fd k) (k_copied k) (cd c)) c
  | VHOST_OTHER => Ok (ReplyIoctl (-1), c)
  end.

(** The device names of [register_cuse_device]. *)
Definition default_cdev : list Z := str "vhost-net".
Definition cuse_suffix (base_name : list Z) (index : Z) : list Z :=
  if decide (base_name = default_cdev) then base_name else base_name ++ str "-" ++ fmt_u index.
Definition cuse_device_name (base_name : list Z) (index : Z) : list Z := str "DEVNAME=" ++ cuse_suffix base_name index.
Definition cuse_char_device (base_name : list Z) (index : Z) : list Z := str "/dev/" ++ cuse_suffix base_name index.

(** ** Properties *)

(** The operation that a call with data stands for. *)
Definition ioctl_op (k : kernel) (fh : Z) (cmd : ioctl_cmd) (b : ioctl_data) (n : Z) : option vop :=
  match cmd with
  | VHOST_NET_SET_BACKEND => Some (OpSetBackend fh (b_index b) (b_num b) (k_tap k))
  | VHOST_GET_FEATURES => Some (OpGetFeatures fh)
  | VHOST_SET_FEATURES => Some (OpSetFeatures fh (b_features b))
  | VHOST_RESET_OWNER => Some (OpResetOwner fh)
  | VHOST_SET_OWNER => Some (OpSetOwner fh)
  | VHOST_SET_MEM_TABLE => Some (OpSetMemTable fh (k_calloc k) (k_hmap k) (take (Z.to_nat n) (b_regions b)))
  | VHOST_SET_VRING_NUM => Some (OpSetVringNum fh (b_index b) (b_num b))
  | VHOST_SET_VRING_BASE => Some (OpSetVringBase fh (b_index b) (b_num b))
  | VHOST_GET_VRING_BASE => Some (OpGetVringBase fh (b_index b))
  | VHOST_SET_VRING_ADDR => Some (OpSetVringAddr fh (b_index b) (b_desc b) (b_avail b) (b_used b))
  | VHOST_SET_VRING_KICK => Some (OpSetVringKick fh (b_index b) (k_fd k) (k_copied k))
  | VHOST_SET_VRING_CALL => Some (OpSetVringCall fh (b_index b) (k_fd k) (k_copied k))
  | VHOST_OTHER => None
  end.

(** The buffer of VHOST_SET_MEM_TABLE holds the regions announced before. *)
Definition buffer_fits (cmd : ioctl_cmd) (b : ioctl_data) (c : cdev) : Prop :=
  cmd = VHOST_SET_MEM_TABLE -> sizeof_vhost_memory + sizeof_vhost_memory_region * mem_temp_nregions c <= in_bufsz b.

(** A call that has all its data: the operation is carried out. *)
Definition complete (cmd : ioctl_cmd) (b : ioctl_data) : bool :=
  match cmd with
  | VHOST_GET_FEATURES => negb (out_bufsz b =? 0)
  | VHOST_RESET_OWNER | VHOST_SET_OWNER => true
  | VHOST_SET_MEM_TABLE => negb (in_bufsz b =? 0) && negb (in_bufsz b =? sizeof_vhost_memory)
  | VHOST_OTHER => false
  | _ => negb (in_bufsz b =? 0)
  end.

Definition reply_of (cmd : ioctl_cmd) (rc : Z) : reply :=
  match cmd with VHOST_SET_MEM_TABLE => if rc =? 0 then ReplyIoctl rc else ReplyErr EINVAL | _ => ReplyIoctl rc end.

(** What a call does, given the operation it stands for. *)
Definition dispatched (nd : Z) (k : kernel) (fh : Z) (cmd : ioctl_cmd) (b : ioctl_data) (c : cdev) (rep : reply) (c' : cdev) : Prop :=
  if complete cmd b then
    exists op rc, ioctl_op k fh cmd b (mem_temp_nregions c) = Some op /\ run_vop nd op (cd c) = Ok (rc, cd c') /\ rep = reply_of cmd rc
  else cd c' = cd c /\ (rep = ReplyIoctl (-1) \/ exists size_r size_w, rep = Retry size_r size_w /\ 0 < size_r + size_w).

Lemma ioctl_r_dispatched nd k fh cmd b c size op f :
  ioctl_op k fh cmd b (mem_temp_nregions c) = Some op -> f = run_vop nd op (cd c) -> 0 < size -> complete cmd b = negb (in_bufsz b =? 0) -> (forall rc, reply_of cmd rc = ReplyIoctl rc) ->
  0 <= nd < 2 ^ 32 -> vinv nd (cd c) -> vop_ok op (cd c) ->
  exists rep c', ioctl_r size b f c = Ok (rep, c') /\ vinv nd (cd c') /\ dispatched nd k fh cmd b c rep c'.
Proof.
  intros Hop -> Hs Hc Hrep Hnd Hi Hok. unfold ioctl_r, dispatched. rewrite Hc. destruct (in_bufsz b =? 0); cbn [negb].
  - do 2 eexists. split; [done|]. split; [done|]. split; [done|]. right. exists size, 0. split; [done|lia].
  - destruct (run_vop_ok nd op (cd c) Hnd Hi Hok) as (rc & s' & E & Hi'). rewrite E. bind. do 2 eexists. split; [done|].
    split; [done|]. exists op, rc. by rewrite E, Hrep.
Qed.

(** an ioctl with all its data performs exactly the operation the command
    stands for, on devices that satisfy the invariant and with it afterwards,
    and replies with its result; without data it asks for it, or fails, and
    changes no device. *)
Theorem vhost_net_ioctl_dispatch nd k fh cmd b c :
  0 <= nd < 2 ^ 32 -> vinv nd (cd c) ->
  (forall op, ioctl_op k fh cmd b (mem_temp_nregions c) = Some op -> vop_ok op (cd c)) -> buffer_fits cmd b c ->
  exists rep c', vhost_net_ioctl k fh cmd b c = Ok (rep, c') /\ vinv nd (cd c') /\ dispatched nd k fh cmd b c rep c'.
Proof.
  intros Hnd Hi Hok Hfit. destruct cmd; cbn [vhost_net_ioctl];
    try (by eapply ioctl_r_dispatched; [reflexivity|reflexivity|done..|by apply Hok]).
  - destruct (out_bufsz b =? 0) eqn:E; do 2 eexists; (split; [done|]; split; [done|]); unfold dispatched; cbn [complete]; rewrite E; cbn [negb].
    + split; [done|]. right. by exists 0, 8.
    + by exists (OpGetFeatures fh), (match get_features fh (cd c) with Some _ => 0 | None => -1 end).
  - destruct (run_vop_ok nd (OpResetOwner fh) (cd c) Hnd Hi (Hok _ eq_refl)) as (rc & s' & E & Hi'). cbn [run_vop] in E. rewrite E. bind.
    do 2 eexists. split; [done|]. split; [done|]. by exists (OpResetOwner fh), rc.
  - do 2 eexists. split; [done|]. split; [done|]. by exists (OpSetOwner fh), (set_owner fh (cd c)).
  - unfold ioctl_set_mem_table, dispatched. cbn [complete]. destruct (in_bufsz b =? 0).
    { do 2 eexists. split; [done|]. split; [done|]. split; [done|]. right. by exists sizeof_vhost_memory, 0. }
    destruct (in_bufsz b =? sizeof_vhost_memory); cbn [negb andb].
    { do 2 eexists. split; [done|]. split; [done|]. split; [done|]. destruct (Z.ltb_spec 0 (b_nregions b)); [right|by left].
      eexists _, 0. split; [done|]. unfold sizeof_vhost_memory, sizeof_vhost_memory_region. lia. }
    destruct (run_vop_ok nd _ (cd c) Hnd Hi (Hok _ eq_refl)) as (rc & s' & E & Hi'). cbn [run_vop ioctl_op] in E.
    destruct (get_device fh (cd c)) eqn:Eg.
    + rewrite (proj2 (Z.ltb_ge _ _)) by (by apply Hfit). cbn [andb]. rewrite E. bind.
      do 2 eexists. split; [done|]. split; [done|]. eexists _, rc. by repeat split.
    + do 2 eexists. split; [done|]. split; [done|]. eexists _, (-1). split; [done|]. split; [|done]. cbn [run_vop].
      unfold get_device in Eg. unfold set_mem_table, on_device. by destruct (get_config_ll_entry fh (cd c)).
  - destruct (in_bufsz b =? 0) eqn:E.
    { do 2 eexists. split; [done|]. split; [done|]. unfold dispatched. cbn [complete]. rewrite E. split; [done|]. right. by exists 4, sizeof_vring_state. }
    destruct (run_vop_ok nd (OpGetVringBase fh (b_index b)) (cd c) Hnd Hi (Hok _ eq_refl)) as (rc & s' & E' & Hi').
    cbn [run_vop] in E'. destruct (get_vring_base fh (b_index b) (cd c)) as [r|] eqn:Eb; [|done]. repeat bind. do 2 eexists. split; [done|]. split; [done|].
    unfold dispatched. cbn [complete]. rewrite E. eexists _, _. split; [done|]. cbn [run_vop]. rewrite Eb. by bind.
  - do 2 eexists. split; [done|]. split; [done|]. split; [done|by left].
Qed.

(** ** Examples *)

Definition no_data (size : Z) : ioctl_data := Data size size 0 0 0 0 0 0 0 [].
Definition qemu_kernel : kernel := Kernel true qemu_hmap 3 true (Some [118; 48]).

Lemma vhost_net_ioctl_dispatch_witness :
  exists rep c', vhost_net_ioctl qemu_kernel 0 VHOST_SET_FEATURES (no_data 8) (CdevState (vhost_start vhost_names) 0) = Ok (rep, c') /\
    vinv 4 (cd c') /\ dispatched 4 qemu_kernel 0 VHOST_SET_FEATURES (no_data 8) (CdevState (vhost_start vhost_names) 0) rep c'.
Proof.
  apply (vhost_net_ioctl_dispatch 4 qemu_kernel 0 VHOST_SET_FEATURES (no_data 8) (CdevState (vhost_start vhost_names) 0)).
  - lia.
  - apply vhost_start_inv; [lia|apply vhost_names_are_apart].
  - intros op [= <-]. exact I.
  - discriminate.
Defined.

(** Memory tables of two guests that are set at the same time: [n] regions are
    announced, and the data of [m] regions is sent. *)
Definition announce (n : Z) : ioctl_data := Data sizeof_vhost_memory 0 0 0 0 0 0 0 n [].
Definition send_regions (rs : list mem_region) : ioctl_data :=
  Data (sizeof_vhost_memory + sizeof_vhost_memory_region * zlen rs) 0 0 0 0 0 0 0 (zlen rs) rs.

(** the number of regions is kept in one variable for all guests: when
    guest 1 announces two regions between the two calls of guest 0, the data of
    guest 0, one region, is read beyond its end. *)
Theorem concurrent_mem_tables_out_of_bounds :
  exists s c1 c2, run_vops 4 [OpNew true true true; OpNew true true true] (vhost_start vhost_names) = Ok s /\
    vhost_net_ioctl qemu_kernel 0 VHOST_SET_MEM_TABLE (announce 1) (CdevState s 0) = Ok (Retry 40 0, c1) /\
    vhost_net_ioctl qemu_kernel 1 VHOST_SET_MEM_TABLE (announce 2) c1 = Ok (Retry 72 0, c2) /\
    vhost_net_ioctl qemu_kernel 0 VHOST_SET_MEM_TABLE (send_regions qemu_regions) c1 <> Err OutOfBounds /\
    vhost_net_ioctl qemu_kernel 0 VHOST_SET_MEM_TABLE (send_regions qemu_regions) c2 = Err OutOfBounds.
Proof.
  eexists _, _, _. split; [vm_compute; reflexivity|]. split; [reflexivity|]. split; [reflexivity|]. split; [vm_compute; done|reflexivity].
Qed.
