(* ===== verification/Vhost.v ===== *)
(** Exchanging packets with guests: [gpa_to_vva], [vhost_enqueue_burst] and
    [vhost_dequeue_burst] of [datapath/dpdk/vport.c].

    The guest's memory is mapped as one block of bytes.  A virtqueue's
    descriptor table and rings are kept apart from the buffers they describe.  A
    call is one step: what the guest writes during a call is seen by the next
    one; the reservation of ring entries by several cores at the same time is
    modelled in [VhostSync]. *)
From stdpp Require Import gmap gmultiset.
From S2P Require Import Prelude Dpdk Vport VportProps VirtioNet.

Definition VRING_DESC_F_NEXT : Z := 1.
Definition VRING_AVAIL_F_NO_INTERRUPT : Z := 1.
Definition DESC_PER_CACHELINE : Z := 4.
Definition MAX_MRG_PKT_BURST : Z := 16.

(** ** Data *)

Record vring_desc := Desc { ds_addr : Z; ds_len : Z; ds_flags : Z; ds_next : Z }.

(** A virtqueue: the descriptor table, what the guest writes (the available
    ring), what we write (the used ring), our indices, and how often the guest
    was notified. *)
Record vring := VRing {
  r_desc : list vring_desc; avail_flags : Z; avail_idx : Z; avail_ring : list Z; used_idx : Z; used_ring : list (Z * Z);
  r_size : Z; r_hlen : Z; r_last : Z; r_res : Z; r_kicks : Z
}.

(** A device as the forwarding cores see it; [guest] is the guest's memory,
    mapped at [guest_base]. *)
Record vdev := VDev {
  v_rx : vring; v_tx : vring; v_regions : list region; guest_base : Z; guest : list Z; v_features : Z; v_port_name : list Z
}.

Definition set_rx (q : vring) (d : vdev) : vdev :=
  VDev q (v_tx d) (v_regions d) (guest_base d) (guest d) (v_features d) (v_port_name d).
Definition set_tx (q : vring) (d : vdev) : vdev :=
  VDev (v_rx d) q (v_regions d) (guest_base d) (guest d) (v_features d) (v_port_name d).
Definition set_guest (g : list Z) (d : vdev) : vdev :=
  VDev (v_rx d) (v_tx d) (v_regions d) (guest_base d) g (v_features d) (v_port_name d).

Definition with_desc (l : list vring_desc) (q : vring) : vring :=
  VRing l (avail_flags q) (avail_idx q) (avail_ring q) (used_idx q) (used_ring q) (r_size q) (r_hlen q) (r_last q) (r_res q) (r_kicks q).
Definition with_res (res : Z) (q : vring) : vring :=
  VRing (r_desc q) (avail_flags q) (avail_idx q) (avail_ring q) (used_idx q) (used_ring q) (r_size q) (r_hlen q) (r_last q) res (r_kicks q).
Definition with_used_ring (u : list (Z * Z)) (q : vring) : vring :=
  VRing (r_desc q) (avail_flags q) (avail_idx q) (avail_ring q) (used_idx q) u (r_size q) (r_hlen q) (r_last q) (r_res q) (r_kicks q).
Definition with_last (last : Z) (q : vring) : vring :=
  VRing (r_desc q) (avail_flags q) (avail_idx q) (avail_ring q) (used_idx q) (used_ring q) (r_size q) (r_hlen q) last (r_res q) (r_kicks q).

(** Telling the guest that [n] more entries are used, with an interrupt unless
    it asked for none. *)
Definition publish (n : Z) (q : vring) : vring :=
  VRing (r_desc q) (avail_flags q) (avail_idx q) (avail_ring q) (u16 (used_idx q + n)) (used_ring q) (r_size q) (r_hlen q)
    (r_last q) (r_res q) (if Z.land (avail_flags q) VRING_AVAIL_F_NO_INTERRUPT =? 0 then r_kicks q + 1 else r_kicks q).

(** ** Addresses *)

(** [gpa_to_vva]: both bounds of a region are included. *)
Fixpoint gpa_to_vva (l : list region) (guest_pa : Z) : Z :=
  match l with
  | [] => 0
  | r :: l => if (guest_phys_address r <=? guest_pa) && (guest_pa <=? guest_phys_address_end r)
              then u64 (address_offset r + guest_pa) else gpa_to_vva l guest_pa
  end.

Definition guest_store (a : Z) (bs : list Z) (d : vdev) : res vdev :=
  g ← store_bytes (guest d) (a - guest_base d) bs; Ok (set_guest g d).
Definition guest_load (a n : Z) (d : vdev) : res (list Z) := load_bytes (guest d) (a - guest_base d) n.

(** ** To the guest *)

(** The entries of the available ring from [idx] on. *)
Fixpoint load_heads (n : nat) (idx : Z) (q : vring) : res (list Z) :=
  match n with
  | O => Ok []
  | S n => h ← index (avail_ring q) (Z.land idx (r_size q - 1)); hs ← load_heads n (idx + 1) q; Ok (h :: hs)
  end.

(** [desc->len = len]. *)
Definition set_desc_len (i len : Z) (q : vring) : res vring :=
  e ← index (r_desc q) i; Ok (with_desc (update (r_desc q) i (Desc (ds_addr e) len (ds_flags e) (ds_next e))) q).

Definition set_used (i id len : Z) (q : vring) : res vring :=
  let slot := Z.land i (r_size q - 1) in
  _ ← index (used_ring q) slot; Ok (with_used_ring (update (used_ring q) slot (id, len)) q).

(** The part of the loop that chooses the address of the data: the address of
    the header is kept for the first of merged buffers; the third result is the
    length reported to the guest. *)
Definition place_packet (mergeable : bool) (mrg_count head len : Z) (hdr : Z) (d : vdev) : res (vdev * Z * Z * Z) :=
  desc ← index (r_desc (v_rx d)) head;
  let buff_addr := gpa_to_vva (v_regions d) (ds_addr desc) in
  if mergeable && negb (mrg_count =? 0) then
    q ← set_desc_len head len (v_rx d); Ok (set_rx q d, buff_addr, hdr, len)
  else
    let packet_len := u32 (len + r_hlen (v_rx d)) in
    if negb (Z.land (ds_flags desc) VRING_DESC_F_NEXT =? 0) then
      q ← set_desc_len head (r_hlen (v_rx d)) (v_rx d);
      desc2 ← index (r_desc q) (ds_next desc);
      q ← set_desc_len (ds_next desc) len q;
      Ok (set_rx q d, gpa_to_vva (v_regions d) (ds_addr desc2), buff_addr, packet_len)
    else
      q ← set_desc_len head packet_len (v_rx d);
      Ok (set_rx q d, u64 (buff_addr + r_hlen (v_rx d)), buff_addr, packet_len).

(** [struct virtio_net_hdr_mrg_rxbuf], zero but for [num_buffers]. *)
Definition virtio_hdr (num_buffers : Z) : list Z := replicate 10 0 ++ le_split 2 num_buffers.

Definition put_header (hdr num_buffers : Z) (d : vdev) : res vdev :=
  bs ← load_bytes (virtio_hdr num_buffers) 0 (r_hlen (v_rx d)); guest_store hdr bs d.

(** The rest of the loop's body; [cur] is the ring index of the packet. *)
Definition put_packet (mergeable : bool) (mrg_count head p cur rend hdr : Z) (m : mem) (d : vdev) : res (vdev * Z * Z) :=
  b ← mbuf_at m p;
  let len := u16 (data_len b) in
  '(d, addr, hdr, packet_len) ← place_packet mergeable mrg_count head len hdr d;
  q ← set_used cur head packet_len (v_rx d);
  c ← buf_at m (buf_addr b);
  bs ← load_bytes c (pkt_data b) len;
  d ← guest_store addr bs (set_rx q d);
  if negb mergeable then d ← put_header hdr 0 d; Ok (d, mrg_count, hdr)
  else
    let mrg_count := mrg_count + 1 in
    if (mrg_count =? MAX_MRG_PKT_BURST) || (u16 (cur + 1) =? rend)
    then d ← put_header hdr mrg_count d; Ok (d, 0, hdr)
    else Ok (d, mrg_count, hdr).

Fixpoint enqueue_loop (mergeable : bool) (ps heads : list Z) (cur rend mrg_count hdr : Z) (m : mem) (d : vdev) : res vdev :=
  match ps, heads with
  | p :: ps, head :: heads =>
      '(d, mrg_count, hdr) ← put_packet mergeable mrg_count head p cur rend hdr m d;
      enqueue_loop mergeable ps heads (u16 (cur + 1)) rend mrg_count hdr m d
  | _, _ => Ok d
  end.

(** [vhost_enqueue_burst]: waiting for a turn that never comes does not end. *)
Definition virtio_enqueue_burst (d : vdev) (ps : list Z) (m : mem) : res (Z * vdev) :=
  let q := v_rx d in
  let count := if PKT_BURST_SIZE <? zlen ps then PKT_BURST_SIZE else zlen ps in
  let base := r_res q in
  let free_entries := u16 (avail_idx q - base) in
  let count := if free_entries <? count then free_entries else count in
  if count =? 0 then Ok (0, d) else
  let rend := u16 (base + count) in
  let d := set_rx (with_res rend q) d in
  heads ← load_heads (Z.to_nat count) base (v_rx d);
  d ← enqueue_loop (Z.testbit (v_features d) VIRTIO_NET_F_MRG_RXBUF) (take (Z.to_nat count) ps) heads base rend 0 0 m d;
  if negb (r_last (v_rx d) =? base) then Err OutOfFuel else
  Ok (count, set_rx (with_last rend (publish count (v_rx d))) d).

(** ** From the guest *)

(** A received packet in a new buffer; the guest's length is cut to 16 bits and
    not compared with the buffer's size. *)
Definition take_packet `{RteMbuf} (head : Z) (d : vdev) (m : mem) : res (option Z * vdev * mem) :=
  let q := v_tx d in
  desc ← index (r_desc q) head;
  desc ← index (r_desc q) (ds_next desc);
  let buff_addr := gpa_to_vva (v_regions d) (ds_addr desc) in
  q ← set_used (r_last q) head 0 q;
  let d := set_tx q d in
  match rte_pktmbuf_alloc m with
  | (None, m) => Ok (None, d, m)
  | (Some p, m) =>
      b ← mbuf_at m p;
      let len := u16 (ds_len desc) in
      bs ← guest_load buff_addr len d;
      c ← buf_at m (buf_addr b);
      c ← store_bytes c (pkt_data b) bs;
      let m := set_buf (buf_addr b) c (set_mbuf p (Mbuf (buf_addr b) (pkt_data b) len len) m) in
      Ok (Some p, set_tx (with_last (u16 (r_last q + 1)) q) d, m)
  end.

(** The loop: the last result says whether all entries were taken. *)
Fixpoint dequeue_loop `{RteMbuf} (heads : list Z) (d : vdev) (m : mem) : res (list Z * vdev * mem * bool) :=
  match heads with
  | [] => Ok ([], d, m, true)
  | head :: heads =>
      '(o, d, m) ← take_packet head d m;
      match o with
      | None => Ok ([], d, m, false)
      | Some p => '(ps, d, m, all) ← dequeue_loop heads d m; Ok (p :: ps, d, m, all)
      end
  end.

(** How many entries are taken: at most [count], and up to the end of a
    cache line. *)
Definition dequeue_count (last avail count : Z) : Z :=
  let free_entries := u16 (avail - last) in
  let free_entries := if count <? free_entries then count else free_entries in
  if DESC_PER_CACHELINE <? free_entries then u16 (free_entries - (last + free_entries) mod DESC_PER_CACHELINE) else free_entries.

(** [vhost_dequeue_burst]: it returns early, without telling the guest, when
    there is no buffer. *)
Definition virtio_dequeue_burst `{RteMbuf} (d : vdev) (count : Z) (m : mem) : res (list Z * vdev * mem) :=
  let q := v_tx d in
  if r_last q =? avail_idx q then Ok ([], d, m) else
  let n := dequeue_count (r_last q) (avail_idx q) count in
  heads ← load_heads (Z.to_nat n) (r_last q) q;
  '(ps, d, m, all) ← dequeue_loop heads d m;
  if (all : bool) then Ok (ps, set_tx (publish (zlen ps) (v_tx d)) d, m) else Ok (ps, d, m).

#[export] Instance VirtioDev `{RteMbuf} : VhostDev vdev := {|
  vhost_enqueue_burst := virtio_enqueue_burst;
  vhost_dequeue_burst := virtio_dequeue_burst;
  dev_port_name := v_port_name
|}.

(** ** Devices in a proper state *)

Definition ring_ok (q : vring) : Prop :=
  1 <= r_size q <= 32768 /\ zlen (r_desc q) = r_size q /\ zlen (avail_ring q) = r_size q /\ zlen (used_ring q) = r_size q /\
  Forall (fun h => 0 <= h < r_size q) (avail_ring q) /\ Forall (fun e => 0 <= ds_next e < r_size q) (r_desc q).

(** The mapped memory has [n] bytes at [a]. *)
Definition room (d : vdev) (a n : Z) : Prop := guest_base d <= a /\ a + n <= guest_base d + zlen (guest d).

(** Buffers for received packets: a header and the longest packet. *)
Definition rx_room (d : vdev) (e : vring_desc) : Prop := room d (gpa_to_vva (v_regions d) (ds_addr e)) (12 + 65535).
(** Buffers of sent packets: at most [L] bytes. *)
Definition tx_room (L : Z) (d : vdev) (e : vring_desc) : Prop :=
  0 <= ds_len e <= L /\ room d (gpa_to_vva (v_regions d) (ds_addr e)) (ds_len e).

Record vdev_wf (L : Z) (d : vdev) : Prop := {
  do_rx : ring_ok (v_rx d);
  do_tx : ring_ok (v_tx d);
  do_idx : is_u16 (r_res (v_rx d)) /\ is_u16 (r_last (v_tx d));
  do_hlen : 0 <= r_hlen (v_rx d) <= 12;
  do_base : 0 <= guest_base d /\ guest_base d + zlen (guest d) <= 2 ^ 64;
  do_rx_room : Forall (rx_room d) (r_desc (v_rx d));
  do_tx_room : Forall (tx_room L d) (r_desc (v_tx d))
}.

(** What receiving leaves alone: the guest's side of the rings, where buffers
    are, and the indices. *)
Definition desc_shape (e : vring_desc) : Z * Z * Z := (ds_addr e, ds_flags e, ds_next e).

Record rx_frame (d d' : vdev) : Prop := {
  f_tx : v_tx d' = v_tx d;
  f_regions : v_regions d' = v_regions d;
  f_base : guest_base d' = guest_base d;
  f_guest : zlen (guest d') = zlen (guest d);
  f_features : v_features d' = v_features d;
  f_name : v_port_name d' = v_port_name d;
  f_desc : desc_shape <$> r_desc (v_rx d') = desc_shape <$> r_desc (v_rx d);
  f_avail : avail_flags (v_rx d') = avail_flags (v_rx d) /\ avail_idx (v_rx d') = avail_idx (v_rx d) /\
            avail_ring (v_rx d') = avail_ring (v_rx d);
  f_size : r_size (v_rx d') = r_size (v_rx d) /\ r_hlen (v_rx d') = r_hlen (v_rx d);
  f_idx : r_last (v_rx d') = r_last (v_rx d) /\ r_res (v_rx d') = r_res (v_rx d) /\ used_idx (v_rx d') = used_idx (v_rx d) /\
          r_kicks (v_rx d') = r_kicks (v_rx d);
  f_used : zlen (used_ring (v_rx d')) = zlen (used_ring (v_rx d))
}.

Lemma rx_frame_refl d : rx_frame d d.
Proof. by split. Qed.

Lemma rx_frame_trans d1 d2 d3 : rx_frame d1 d2 -> rx_frame d2 d3 -> rx_frame d1 d3.
Proof.
  intros [A1 A2 A3 A4 A5 A6 A7 (A8 & A8' & A8'') [A9 A9'] (A10 & A10' & A10'' & A10''') A11]
    [B1 B2 B3 B4 B5 B6 B7 (B8 & B8' & B8'') [B9 B9'] (B10 & B10' & B10'' & B10''') B11].
  split; try congruence; split_and!; congruence.
Qed.

Lemma shape_len l l' : desc_shape <$> l' = desc_shape <$> l -> zlen l' = zlen l.
Proof. intros H%(f_equal length). rewrite !length_fmap in H. unfold zlen. by rewrite H. Qed.

Lemma shape_index l l' i e :
  desc_shape <$> l' = desc_shape <$> l -> index l i = Ok e -> exists e', index l' i = Ok e' /\ desc_shape e' = desc_shape e.
Proof.
  intros Hs (H0 & He)%index_Ok. pose proof (f_equal (fun x => x !! Z.to_nat i) Hs) as Hx. cbv beta in Hx.
  rewrite !list_lookup_fmap, He in Hx. destruct (l' !! Z.to_nat i) as [e'|] eqn:He'; [|done]. injection Hx as ???.
  exists e'. split; [apply index_Ok; done|]. unfold desc_shape. congruence.
Qed.

Lemma shape_forall (P : Z * Z * Z -> Prop) l l' :
  desc_shape <$> l' = desc_shape <$> l -> Forall (fun e => P (desc_shape e)) l -> Forall (fun e => P (desc_shape e)) l'.
Proof. intros Hs Hl. rewrite <- (Forall_fmap desc_shape P) in *. unfold compose in *. by rewrite Hs. Qed.

Lemma vdev_wf_frame L d d' : vdev_wf L d -> rx_frame d d' -> vdev_wf L d'.
Proof.
  intros [(S1 & S2 & S3 & S4 & S5 & S6) H2 H3 H4 H5 H6 H7] [F1 F2 F3 F4 F5 F6 F7 (F8 & F8' & F8'') [F9 F9'] (F10 & F10' & F10'' & _) F11].
  split; rewrite ?F1, ?F3, ?F4, ?F10, ?F10', ?F9'; try done.
  - unfold ring_ok. rewrite F9, F8'', (shape_len _ _ F7), F11. split_and!; try done; try lia.
    by apply (shape_forall (fun s => 0 <= s.2 < r_size (v_rx d)) _ _ F7).
  - unfold rx_room, room in *. rewrite F2, F3, F4.
    by apply (shape_forall (fun s => guest_base d <= gpa_to_vva (v_regions d) s.1.1 /\
      gpa_to_vva (v_regions d) s.1.1 + (12 + 65535) <= guest_base d + zlen (guest d)) _ _ F7).
  - unfold tx_room, room in *. by rewrite F2, F3, F4.
Qed.

(** *** Rings *)

Lemma land_size i n : 1 <= n -> 0 <= i -> 0 <= Z.land i (n - 1) < n.
Proof.
  intros Hn Hi. split; [by apply Z.land_nonneg; left|].
  pose proof (N.land_le_r (Z.to_N i) (Z.to_N (n - 1))) as H. apply N2Z.inj_le in H. rewrite N2Z.inj_land, !Z2N.id in H by lia. lia.
Qed.

Lemma load_heads_ok q k idx :
  ring_ok q -> 0 <= idx ->
  exists hs, load_heads k idx q = Ok hs /\ length hs = k /\ Forall (fun h => 0 <= h < r_size q) hs /\
    forall i, (i < k)%nat -> exists h, hs !! i = Some h /\ index (avail_ring q) (Z.land (idx + Z.of_nat i) (r_size q - 1)) = Ok h.
Proof.
  intros (H1 & _ & H3 & _ & H5 & _). revert idx. induction k as [|k IH]; intros idx Hi.
  { exists []. split_and!; try done. intros i ?. lia. }
  cbn [load_heads]. destruct (index_ok (avail_ring q) (Z.land idx (r_size q - 1))) as [h Hh].
  { rewrite H3. apply land_size; lia. }
  rewrite Hh. bind. destruct (IH (idx + 1) ltac:(lia)) as (hs & -> & Hl & Hf & Hn). bind. exists (h :: hs). split; [done|].
  split; [by rewrite <- Hl|]. split.
  - constructor; [|done]. apply index_Ok in Hh as [_ Hh]. rewrite Forall_forall in H5. apply H5, list_elem_of_In.
    by eapply list_elem_of_lookup_2.
  - intros [|i] Hlt.
    + exists h. by rewrite Z.add_0_r.
    + destruct (Hn i ltac:(lia)) as (h' & Hh' & Hx). exists h'. split; [done|].
      by replace (idx + Z.of_nat (S i)) with (idx + 1 + Z.of_nat i) by lia.
Qed.

Lemma set_desc_len_ok i len q :
  0 <= i < zlen (r_desc q) ->
  exists q', set_desc_len i len q = Ok q' /\ q' = with_desc (r_desc q') q /\ desc_shape <$> r_desc q' = desc_shape <$> r_desc q.
Proof.
  intros Hi. unfold set_desc_len. destruct (index_ok (r_desc q) i Hi) as [e He]. rewrite He. bind. eexists. split; [done|].
  split; [done|]. cbn [r_desc with_desc]. apply index_Ok in He as [_ He]. unfold update. rewrite list_fmap_insert.
  apply list_insert_id. rewrite list_lookup_fmap, He. done.
Qed.

Lemma set_used_ok i id len q :
  ring_ok q -> 0 <= i ->
  set_used i id len q = Ok (with_used_ring (update (used_ring q) (Z.land i (r_size q - 1)) (id, len)) q).
Proof.
  intros (H1 & _ & _ & H4 & _) Hi. unfold set_used. destruct (index_ok (used_ring q) (Z.land i (r_size q - 1))) as [x ->]; [|done].
  rewrite H4. apply land_size; lia.
Qed.

(** *** One packet to the guest *)

(** Where the header and the data of a packet go. *)
Definition hdr_addr (d : vdev) (head : Z) : Z :=
  match index (r_desc (v_rx d)) head with Ok e => gpa_to_vva (v_regions d) (ds_addr e) | Err _ => 0 end.
Definition data_addr (d : vdev) (head : Z) : Z :=
  match index (r_desc (v_rx d)) head with
  | Ok e => if negb (Z.land (ds_flags e) VRING_DESC_F_NEXT =? 0) then hdr_addr d (ds_next e)
            else u64 (gpa_to_vva (v_regions d) (ds_addr e) + r_hlen (v_rx d))
  | Err _ => 0
  end.

Lemma index_shape_frame d d' head :
  rx_frame d d' -> 0 <= head < zlen (r_desc (v_rx d)) ->
  exists e e', index (r_desc (v_rx d)) head = Ok e /\ index (r_desc (v_rx d')) head = Ok e' /\ desc_shape e' = desc_shape e.
Proof.
  intros Hf Hh. destruct (index_ok _ _ Hh) as [e He]. destruct (shape_index _ _ _ _ (f_desc _ _ Hf) He) as (e' & ? & ?).
  by exists e, e'.
Qed.

Lemma hdr_addr_frame d d' head : rx_frame d d' -> 0 <= head < zlen (r_desc (v_rx d)) -> hdr_addr d' head = hdr_addr d head.
Proof.
  intros Hf Hh. destruct (index_shape_frame d d' head Hf Hh) as (e & e' & He & He' & [= Hs _ _]).
  unfold hdr_addr. by rewrite He, He', (f_regions _ _ Hf), Hs.
Qed.

Lemma desc_at L d head :
  vdev_wf L d -> 0 <= head < r_size (v_rx d) ->
  exists e, index (r_desc (v_rx d)) head = Ok e /\ rx_room d e /\ 0 <= ds_next e < r_size (v_rx d).
Proof.
  intros Hd Hh. destruct (do_rx _ _ Hd) as (_ & Hl & _ & _ & _ & Hn). destruct (index_ok (r_desc (v_rx d)) head) as [e He]; [by rewrite Hl|].
  exists e. split; [done|]. apply index_Ok in He as [_ He%list_elem_of_lookup_2%list_elem_of_In].
  pose proof (do_rx_room _ _ Hd) as Hr. rewrite Forall_forall in Hr, Hn. by split; [apply Hr|apply Hn].
Qed.

Lemma data_addr_frame L d d' head :
  vdev_wf L d -> rx_frame d d' -> 0 <= head < r_size (v_rx d) -> data_addr d' head = data_addr d head.
Proof.
  intros Hd Hf Hh. destruct (do_rx _ _ Hd) as (_ & Hl & _). destruct (desc_at L d head Hd Hh) as (e & He & _ & Hn).
  destruct (shape_index _ _ _ _ (f_desc _ _ Hf) He) as (e' & He' & [= Ha Hfl Hnx]). unfold data_addr.
  rewrite He, He', Ha, Hfl, Hnx, (f_regions _ _ Hf), (proj2 (f_size _ _ Hf)). destruct (negb _); [|done].
  apply hdr_addr_frame; [done|lia].
Qed.

Lemma room_frame d d' a n : rx_frame d d' -> room d a n -> room d' a n.
Proof. intros Hf. unfold room. by rewrite (f_base _ _ Hf), (f_guest _ _ Hf). Qed.

Lemma addr_room L d head :
  vdev_wf L d -> 0 <= head < r_size (v_rx d) -> room d (hdr_addr d head) 12 /\ room d (data_addr d head) 65535.
Proof.
  intros Hd Hh. destruct (desc_at L d head Hd Hh) as (e & He & Hr & Hn). pose proof (do_base _ _ Hd). pose proof (do_hlen _ _ Hd).
  unfold hdr_addr, data_addr. rewrite He. unfold rx_room, room in *. split; [lia|]. destruct (negb _).
  - destruct (desc_at L d (ds_next e) Hd Hn) as (e2 & He2 & Hr2 & _). unfold hdr_addr. rewrite He2. unfold rx_room, room in Hr2. lia.
  - unfold u64. rewrite wrap_small by (unfold is_u; lia). lia.
Qed.

Lemma rx_frame_desc d q :
  q = with_desc (r_desc q) (v_rx d) -> desc_shape <$> r_desc q = desc_shape <$> r_desc (v_rx d) -> rx_frame d (set_rx q d).
Proof. intros -> Hs. by split. Qed.

Lemma place_packet_ok L mergeable mrg head len hdr d :
  vdev_wf L d -> 0 <= head < r_size (v_rx d) ->
  exists d' addr hdr' plen, place_packet mergeable mrg head len hdr d = Ok (d', addr, hdr', plen) /\ rx_frame d d' /\
    guest d' = guest d /\ used_ring (v_rx d') = used_ring (v_rx d) /\ room d addr 65535 /\
    (if mergeable && negb (mrg =? 0) then hdr' = hdr
     else hdr' = hdr_addr d head /\ addr = data_addr d head /\ plen = u32 (len + r_hlen (v_rx d))).
Proof.
  intros Hd Hh. destruct (do_rx _ _ Hd) as (_ & Hl & _). destruct (desc_at L d head Hd Hh) as (e & He & Hr & Hn).
  pose proof (addr_room L d head Hd Hh) as [Hr1 Hr2]. unfold place_packet. unfold hdr_addr, data_addr in *. rewrite He in *. bind.
  destruct (mergeable && negb (mrg =? 0)).
  - destruct (set_desc_len_ok head len (v_rx d)) as (q & -> & Hq & Hs); [by rewrite Hl|]. bind. do 4 eexists. split; [done|].
    split; [by apply rx_frame_desc|]. rewrite Hq. split_and!; try done. unfold rx_room, room in *. lia.
  - destruct (negb (Z.land (ds_flags e) VRING_DESC_F_NEXT =? 0)).
    + destruct (set_desc_len_ok head (r_hlen (v_rx d)) (v_rx d)) as (q & -> & Hq & Hs); [by rewrite Hl|]. bind.
      destruct (desc_at L d (ds_next e) Hd Hn) as (e2 & He2 & _). destruct (shape_index _ _ _ _ Hs He2) as (e2' & -> & [= Ha _ _]). bind.
      destruct (set_desc_len_ok (ds_next e) len q) as (q2 & -> & Hq2 & Hs2); [by rewrite (shape_len _ _ Hs), Hl|]. bind.
      unfold hdr_addr in *. rewrite He2 in *.
      do 4 eexists. split; [done|]. rewrite Ha. rewrite Hq in Hq2.
      split; [apply rx_frame_desc; [by rewrite Hq2|by rewrite Hs2]|]. rewrite Hq2. done.
    + destruct (set_desc_len_ok head (u32 (len + r_hlen (v_rx d))) (v_rx d)) as (q & -> & Hq & Hs); [by rewrite Hl|]. bind.
      do 4 eexists. split; [done|]. split; [by apply rx_frame_desc|]. rewrite Hq. done.
Qed.

Lemma guest_store_ok a bs n d :
  room d a n -> zlen bs <= n ->
  exists g, store_bytes (guest d) (a - guest_base d) bs = Ok g /\ guest_store a bs d = Ok (set_guest g d) /\ zlen g = zlen (guest d).
Proof.
  intros [H1 H2] Hn. destruct (store_bytes_ok (guest d) (a - guest_base d) bs) as [g Hg]; [lia|lia|]. exists g.
  unfold guest_store. rewrite Hg. bind. split; [done|]. split; [done|]. by apply store_bytes_zlen in Hg.
Qed.

Lemma rx_frame_store d g q :
  zlen g = zlen (guest d) -> q = with_used_ring (used_ring q) (v_rx d) -> zlen (used_ring q) = zlen (used_ring (v_rx d)) ->
  rx_frame d (set_guest g (set_rx q d)).
Proof. intros Hg -> Hu. by split. Qed.

(** The bytes of a packet that are copied, and the length reported. *)
Definition sent_bytes (m : mem) (p : Z) : list Z :=
  match mbufs m !! p with
  | Some b => match bufs m !! buf_addr b with
              | Some c => take (Z.to_nat (u16 (data_len b))) (drop (Z.to_nat (pkt_data b)) c) | None => [] end
  | None => []
  end.

Lemma sent_bytes_ok m p :
  mem_wf m -> live m p ->
  exists b c, mbufs m !! p = Some b /\ bufs m !! buf_addr b = Some c /\
    load_bytes c (pkt_data b) (u16 (data_len b)) = Ok (sent_bytes m p) /\ zlen (sent_bytes m p) = u16 (data_len b) /\
    0 <= u16 (data_len b) <= 65535.
Proof.
  intros Hwf [b Hb]. destruct (Hwf p b Hb) as (c & Hc & H0 & H1 & H2). exists b, c. do 2 (split; [done|]).
  assert (0 <= u16 (data_len b) <= 65535 /\ u16 (data_len b) <= data_len b) as [Hu Hle].
  { unfold u16, wrap. pose proof (Z.mod_pos_bound (data_len b) (2 ^ 16) ltac:(lia)). pose proof (Z.mod_le (data_len b) (2 ^ 16) H1 ltac:(lia)). lia. }
  assert (load_bytes c (pkt_data b) (u16 (data_len b)) = Ok (sent_bytes m p)) as Hl.
  { apply load_bytes_Ok. unfold sent_bytes. rewrite Hb, Hc. split_and!; try lia. done. }
  split; [done|]. split; [by eapply load_bytes_len|done].
Qed.

(** The header that is written in front of each packet. *)
Definition zero_header (d : vdev) : list Z := replicate (Z.to_nat (r_hlen (v_rx d))) 0.

Lemma load_header n h : 0 <= h <= 12 -> exists bs, load_bytes (virtio_hdr n) 0 h = Ok bs /\ zlen bs = h /\
  (n = 0 -> bs = replicate (Z.to_nat h) 0).
Proof.
  intros Hh. assert (zlen (virtio_hdr n) = 12) as Hz by (unfold virtio_hdr; rewrite zlen_app, zlen_le_split; done).
  destruct (load_bytes_ok (virtio_hdr n) 0 h) as [bs Hb]; [lia..|]. exists bs. split; [done|]. split; [by eapply load_bytes_len|].
  intros ->. apply load_bytes_Ok in Hb as (_ & _ & _ & ->). change (virtio_hdr 0) with (replicate 12 0). rewrite drop_replicate.
  rewrite take_replicate. f_equal. lia.
Qed.

(** A packet is stored without fault; without merging, its bytes and then the
    header are stored at the packet's addresses. *)
Lemma put_packet_ok L mergeable mrg head p cur rend hdr m d :
  vdev_wf L d -> 0 <= head < r_size (v_rx d) -> 0 <= cur -> mem_wf m -> live m p ->
  (mergeable && negb (mrg =? 0) = true -> room d hdr 12) ->
  exists d' mrg' hdr', put_packet mergeable mrg head p cur rend hdr m d = Ok (d', mrg', hdr') /\ rx_frame d d' /\
    (mergeable && negb (mrg' =? 0) = true -> room d hdr' 12) /\
    (mergeable = false -> exists g,
       store_bytes (guest d) (data_addr d head - guest_base d) (sent_bytes m p) = Ok g /\
       store_bytes g (hdr_addr d head - guest_base d) (zero_header d) = Ok (guest d') /\
       used_ring (v_rx d') = update (used_ring (v_rx d)) (Z.land cur (r_size (v_rx d) - 1))
                               (head, u32 (zlen (sent_bytes m p) + r_hlen (v_rx d)))).
Proof.
  intros Hd Hh Hcur Hwf Hp Hhdr. unfold put_packet, mbuf_at, buf_at.
  destruct (sent_bytes_ok m p Hwf Hp) as (b & c & Hb & Hc & Hbs & Hbl & Hlen). rewrite Hb. bind.
  destruct (place_packet_ok L mergeable mrg head (u16 (data_len b)) hdr d Hd Hh)
    as (d1 & addr & hdr1 & plen & -> & Hf1 & Hg1 & Hu1 & Hra & Hplace). bind.
  pose proof (vdev_wf_frame L d d1 Hd Hf1) as Hd1. rewrite (set_used_ok cur head plen (v_rx d1) (do_rx _ _ Hd1) Hcur). bind.
  rewrite Hc. bind. rewrite Hbs. bind. set (q := with_used_ring _ (v_rx d1)). set (d2 := set_rx q d1).
  destruct (guest_store_ok addr (sent_bytes m p) 65535 d2) as (g & Eg & -> & Hgl); [|lia|].
  { apply (room_frame d d1); [done|]. done. }
  bind. set (d3 := set_guest g d2). assert (rx_frame d1 d3) as Hf3 by (apply rx_frame_store; [done|done|by apply zlen_update]).
  pose proof (rx_frame_trans _ _ _ Hf1 Hf3) as Hf. pose proof (addr_room L d head Hd Hh) as [Hr12 _].
  assert (forall n, room d hdr1 12 -> exists g', put_header hdr1 n d3 = Ok (set_guest g' d3) /\ zlen g' = zlen (guest d3) /\
    (n = 0 -> store_bytes (guest d3) (hdr1 - guest_base d3) (zero_header d) = Ok g')) as Hput.
  { intros n Hr. unfold put_header. destruct (load_header n (r_hlen (v_rx d3))) as (bs & Eb & Hz & H0).
    { rewrite (proj2 (f_size _ _ Hf)). apply (do_hlen _ _ Hd). }
    rewrite Eb. bind. pose proof (do_hlen _ _ Hd). rewrite (proj2 (f_size _ _ Hf)) in Hz, H0.
    destruct (guest_store_ok hdr1 bs 12 d3) as (g' & Eg' & -> & Hz'); [by apply (room_frame d)|lia|].
    exists g'. split; [done|]. split; [done|]. intros ->. unfold zero_header. by rewrite <- H0. }
  assert (room d hdr1 12) as Hr1.
  { destruct (mergeable && negb (mrg =? 0)); [subst hdr1; by apply Hhdr|]. by destruct Hplace as [-> _]. }
  destruct mergeable; cbn [negb].
  - destruct (_ || _).
    + destruct (Hput (mrg + 1) Hr1) as (g' & -> & Hz' & _). bind. do 3 eexists. split; [done|]. split; [|done].
      eapply rx_frame_trans; [exact Hf|]. by split.
    + do 3 eexists. split; [done|]. split; [exact Hf|done].
  - destruct (Hput 0 Hr1) as (g' & -> & Hz' & H0). bind. do 3 eexists. split; [done|].
    split; [eapply rx_frame_trans; [exact Hf|]; by split|]. split; [done|]. intros _. destruct Hplace as (-> & -> & ->).
    exists g. rewrite <- Hg1. change (guest d1) with (guest d2). rewrite <- (f_base _ _ Hf1). split; [exact Eg|]. split; [by apply H0|].
    cbn [v_rx d3 d2 set_guest set_rx q used_ring with_used_ring]. by rewrite Hu1, (proj1 (f_size _ _ Hf1)), Hbl.
Qed.

Lemma enqueue_loop_ok L mergeable ps heads cur rend mrg hdr m d :
  vdev_wf L d -> Forall (fun h => 0 <= h < r_size (v_rx d)) heads -> 0 <= cur -> mem_wf m -> Forall (live m) ps ->
  (mergeable && negb (mrg =? 0) = true -> room d hdr 12) ->
  exists d', enqueue_loop mergeable ps heads cur rend mrg hdr m d = Ok d' /\ rx_frame d d'.
Proof.
  revert heads cur mrg hdr d. induction ps as [|p ps IH]; intros heads cur mrg hdr d Hd Hh Hcur Hwf Hl Hhdr.
  { exists d. split; [done|apply rx_frame_refl]. }
  destruct heads as [|head heads]; [exists d; split; [done|apply rx_frame_refl]|]. cbn [enqueue_loop].
  inversion_clear Hh as [|? ? Hh0 Hhs]. inversion_clear Hl as [|? ? Hl0 Hls].
  destruct (put_packet_ok L mergeable mrg head p cur rend hdr m d) as (d1 & mrg1 & hdr1 & -> & Hf1 & Hr1 & _); try done. bind.
  destruct (IH heads (u16 (cur + 1)) mrg1 hdr1 d1) as (d2 & -> & Hf2); try done.
  - by eapply vdev_wf_frame.
  - by rewrite (proj1 (f_size _ _ Hf1)).
  - apply wrap_range. lia.
  - intros Hm. apply (room_frame d); [done|by apply Hr1].
  - exists d2. split; [done|by eapply rx_frame_trans].
Qed.

(** The number of packets that are accepted. *)
Definition enqueue_count (d : vdev) (n : Z) : Z := Z.min (Z.min n PKT_BURST_SIZE) (u16 (avail_idx (v_rx d) - r_res (v_rx d))).

Definition reserved (count : Z) (d : vdev) : vdev := set_rx (with_res (u16 (r_res (v_rx d) + count)) (v_rx d)) d.

(** A call takes the packets there are entries for, and what is left is the
    loop on the entries reserved. *)
Lemma enqueue_unfold L d ps m :
  vdev_wf L d ->
  let count := enqueue_count d (zlen ps) in
  exists heads, load_heads (Z.to_nat count) (r_res (v_rx d)) (v_rx d) = Ok heads /\
    length heads = Z.to_nat count /\ Forall (fun h => 0 <= h < r_size (v_rx d)) heads /\ 0 <= count <= zlen ps /\
    virtio_enqueue_burst d ps m =
     (if count =? 0 then Ok (0, d) else
      let rend := u16 (r_res (v_rx d) + count) in
      d' ← enqueue_loop (Z.testbit (v_features d) VIRTIO_NET_F_MRG_RXBUF) (take (Z.to_nat count) ps) heads (r_res (v_rx d)) rend 0 0 m (reserved count d);
      if negb (r_last (v_rx d') =? r_res (v_rx d)) then Err OutOfFuel
      else Ok (count, set_rx (with_last rend (publish count (v_rx d'))) d')).
Proof.
  intros Hd count. destruct (load_heads_ok (v_rx d) (Z.to_nat count) (r_res (v_rx d)) (do_rx _ _ Hd)) as (hs & Eh & Hlen & Hf & _).
  { apply (do_idx _ _ Hd). }
  exists hs. do 3 (split; [done|]).
  assert (0 <= u16 (avail_idx (v_rx d) - r_res (v_rx d))) by (apply wrap_range; lia). pose proof (zlen_nonneg ps).
  split; [unfold count, enqueue_count, PKT_BURST_SIZE; lia|].
  unfold virtio_enqueue_burst. cbv zeta.
  set (k := if PKT_BURST_SIZE <? zlen ps then PKT_BURST_SIZE else zlen ps).
  set (f := u16 (avail_idx (v_rx d) - r_res (v_rx d))) in *.
  assert (k = Z.min (zlen ps) PKT_BURST_SIZE) as Hk by (subst k; destruct (Z.ltb_spec PKT_BURST_SIZE (zlen ps)); lia).
  replace (if f <? k then f else k) with count by (unfold count, enqueue_count; fold f; destruct (Z.ltb_spec f k); lia).
  destruct (count =? 0); [done|]. change (v_rx (set_rx (with_res (u16 (r_res (v_rx d) + count)) (v_rx d)) d))
    with (with_res (u16 (r_res (v_rx d) + count)) (v_rx d)).
  assert (load_heads (Z.to_nat count) (r_res (v_rx d)) (with_res (u16 (r_res (v_rx d) + count)) (v_rx d)) = Ok hs) as ->; [|by bind].
  rewrite <- Eh. generalize (r_res (v_rx d)) at 1 3. generalize (Z.to_nat count). clear. induction n as [|n IH]; intros i; [done|].
  cbn [load_heads]. by rewrite IH.
Qed.

Lemma reserved_wf L d count : vdev_wf L d -> vdev_wf L (reserved count d).
Proof. intros [H1 H2 [_ H3] H4 H5 H6 H7]. split; try done. split; [apply wrap_range; lia|done]. Qed.

(** Between calls no core waits: nothing is reserved that is not used. *)
Definition vdev_ok (L : Z) (d : vdev) : Prop := vdev_wf L d /\ r_last (v_rx d) = r_res (v_rx d).

Lemma finish_ok L d d' count rend :
  vdev_wf L d' -> rend = r_res (v_rx d') -> rx_frame (reserved count d) d' -> vdev_ok L (set_rx (with_last rend (publish count (v_rx d'))) d').
Proof. intros [H1 H2 [H3 H3'] H4 H5 H6 H7] -> Hf. split; [by split|done]. Qed.

Lemma virtio_enqueue_ok L d ps m :
  vdev_ok L d -> mem_wf m -> Forall (live m) ps ->
  exists d', virtio_enqueue_burst d ps m = Ok (enqueue_count d (zlen ps), d') /\ 0 <= enqueue_count d (zlen ps) <= zlen ps /\ vdev_ok L d'.
Proof.
  intros [Hd Hlast] Hwf Hl. destruct (enqueue_unfold L d ps m Hd) as (hs & _ & Hlen & Hhs & Hc & ->).
  destruct (Z.eqb_spec (enqueue_count d (zlen ps)) 0) as [->|Hne]; [exists d; split; [done|]; split; [pose proof (zlen_nonneg ps); lia|done]|]. cbv zeta.
  destruct (enqueue_loop_ok L (Z.testbit (v_features d) VIRTIO_NET_F_MRG_RXBUF) (take (Z.to_nat (enqueue_count d (zlen ps))) ps) hs
    (r_res (v_rx d)) (u16 (r_res (v_rx d) + enqueue_count d (zlen ps))) 0 0 m (reserved (enqueue_count d (zlen ps)) d))
    as (d' & -> & Hf); try done.
  - by apply reserved_wf.
  - apply (do_idx _ _ Hd).
  - by apply Forall_take.
  - by rewrite andb_false_r.
  - bind. destruct (f_idx _ _ Hf) as (Hfl & Hfr & _). rewrite Hfl. cbn [reserved set_rx v_rx r_last with_res]. rewrite Hlast, Z.eqb_refl. cbn [negb].
    eexists. split; [done|]. split; [done|]. eapply finish_ok; [|by rewrite Hfr|exact Hf].
    eapply vdev_wf_frame; [|exact Hf]. by apply reserved_wf.
Qed.

(** *** Packets from the guest *)

Section Dequeue.
Context `{Mb : RteMbuf} `{!RteMbufLaws}.

(** The buffers of the pool have room for [L] bytes. *)
Definition pool_tail (L : Z) : Prop :=
  forall m p m' b c, rte_pktmbuf_alloc m = (Some p, m') -> mbufs m' !! p = Some b -> bufs m' !! buf_addr b = Some c ->
    pkt_data b + L <= zlen c.

(** The packet the guest describes with [head]: the data is in the second
    descriptor of the chain. *)
Definition tx_bytes (d : vdev) (head : Z) : res (list Z) :=
  desc ← index (r_desc (v_tx d)) head;
  desc ← index (r_desc (v_tx d)) (ds_next desc);
  guest_load (gpa_to_vva (v_regions d) (ds_addr desc)) (u16 (ds_len desc)) d.

(** What sending leaves alone. *)
Definition tx_frame (d d' : vdev) : Prop :=
  v_rx d' = v_rx d /\ v_regions d' = v_regions d /\ guest_base d' = guest_base d /\ guest d' = guest d /\
  v_features d' = v_features d /\ v_port_name d' = v_port_name d /\ r_desc (v_tx d') = r_desc (v_tx d) /\
  avail_ring (v_tx d') = avail_ring (v_tx d) /\ avail_idx (v_tx d') = avail_idx (v_tx d) /\ r_size (v_tx d') = r_size (v_tx d) /\
  used_idx (v_tx d') = used_idx (v_tx d) /\ zlen (used_ring (v_tx d')) = zlen (used_ring (v_tx d)).

Lemma tx_frame_trans d1 d2 d3 : tx_frame d1 d2 -> tx_frame d2 d3 -> tx_frame d1 d3.
Proof. unfold tx_frame. intros. destruct_and!. split_and!; congruence. Qed.

Lemma tx_frame_wf L d d' : vdev_wf L d -> tx_frame d d' -> is_u16 (r_last (v_tx d')) -> vdev_wf L d'.
Proof.
  intros [H1 (S1 & S2 & S3 & S4 & S5 & S6) [H3 H3'] H4 H5 H6 H7] (F1 & F2 & F3 & F4 & F5 & F6 & F7 & F8 & F9 & F10 & F11 & F12) Hl.
  split; rewrite ?F1, ?F3, ?F4, ?F7; try done.
  - unfold ring_ok. rewrite F7, F8, F10, F12. done.
  - unfold rx_room, room in *. by rewrite F2, F3, F4.
  - unfold tx_room, room in *. by rewrite F2, F3, F4.
Qed.

Lemma tx_bytes_frame d d' h : tx_frame d d' -> tx_bytes d' h = tx_bytes d h.
Proof. intros (_ & F2 & F3 & F4 & _ & _ & F7 & _). unfold tx_bytes, guest_load. by rewrite F2, F3, F4, F7. Qed.

Lemma tx_desc L d head :
  vdev_wf L d -> 0 <= head < r_size (v_tx d) ->
  exists e e2 bs, index (r_desc (v_tx d)) head = Ok e /\ index (r_desc (v_tx d)) (ds_next e) = Ok e2 /\ tx_bytes d head = Ok bs /\
    guest_load (gpa_to_vva (v_regions d) (ds_addr e2)) (u16 (ds_len e2)) d = Ok bs /\ zlen bs = u16 (ds_len e2) /\
    u16 (ds_len e2) <= L.
Proof.
  intros Hd Hh. destruct (do_tx _ _ Hd) as (_ & Hl & _ & _ & _ & Hn). rewrite <- Hl in Hh.
  destruct (index_ok _ _ Hh) as [e He]. assert (0 <= ds_next e < zlen (r_desc (v_tx d))) as Hn2.
  { rewrite Hl. rewrite Forall_forall in Hn. apply Hn, list_elem_of_In. apply index_Ok in He as [_ He]. by eapply list_elem_of_lookup_2. }
  destruct (index_ok _ _ Hn2) as [e2 He2]. assert (tx_room L d e2) as [Hlen Hr].
  { pose proof (do_tx_room _ _ Hd) as Hr. rewrite Forall_forall in Hr. apply Hr, list_elem_of_In.
    apply index_Ok in He2 as [_ He2]. by eapply list_elem_of_lookup_2. }
  assert (0 <= u16 (ds_len e2) <= ds_len e2) as Hu.
  { unfold u16, wrap. pose proof (Z.mod_pos_bound (ds_len e2) (2 ^ 16) ltac:(lia)). pose proof (Z.mod_le (ds_len e2) (2 ^ 16)). lia. }
  unfold room in Hr. destruct (load_bytes_ok (guest d) (gpa_to_vva (v_regions d) (ds_addr e2) - guest_base d) (u16 (ds_len e2))) as [bs Hbs]; [lia..|].
  exists e, e2, bs. split; [done|]. split; [done|]. unfold tx_bytes. rewrite He. bind. rewrite He2. bind. split_and!; try done; [|lia].
  by eapply load_bytes_len.
Qed.

(** Storing into a new packet leaves the others alone. *)
Lemma new_packet_filled m X p m' bs L b c c' :
  owns m X -> rte_pktmbuf_alloc m = (Some p, m') -> mbufs m' !! p = Some b -> bufs m' !! buf_addr b = Some c ->
  store_bytes c (pkt_data b) bs = Ok c' -> pkt_data b + L <= zlen c ->
  let m2 := set_buf (buf_addr b) c' (set_mbuf p (Mbuf (buf_addr b) (pkt_data b) (zlen bs) (zlen bs)) m') in
  owns m2 ({[+ p +]} ⊎ X) /\ keeps X m m2 /\ packet m2 p = Ok bs.
Proof.
  intros Ho E Hb Hc Hs HL. destruct (alloc_some _ _ _ E) as (Hnew & b0 & c0 & Hm & Hbf & Hne & _ & _ & Hpos).
  rewrite Hm, lookup_insert_eq in Hb. injection Hb as ->. rewrite Hbf, lookup_insert_eq in Hc. injection Hc as ->.
  pose proof (store_bytes_zlen _ _ _ _ Hs) as Hz. apply store_bytes_Ok in Hs as Hs'. destruct Hs' as (_ & Hfit & _). cbv zeta.
  assert (forall q b', mbufs m !! q = Some b' -> q <> p /\ buf_addr b' <> buf_addr b) as Hother.
  { intros q b' Hq. split; [congruence|by eapply Hne]. }
  set (m2 := set_buf _ _ _). assert (mbufs m2 = <[p := Mbuf (buf_addr b) (pkt_data b) (zlen bs) (zlen bs)]> (mbufs m)) as Hm2.
  { unfold m2, set_buf, set_mbuf. cbn. rewrite Hm. apply insert_insert_eq. }
  assert (bufs m2 = <[buf_addr b := c']> (bufs m)) as Hb2.
  { unfold m2, set_buf, set_mbuf. cbn. rewrite Hbf. apply insert_insert_eq. }
  assert (keeps X m m2) as Hk.
  { intros q Hq. destruct (owns_live _ _ _ Ho Hq) as [b' Hb']. destruct (Hother q b' Hb') as [? ?].
    rewrite Hm2, lookup_insert_ne by congruence. split; [done|]. intros b'' Hb''. rewrite Hb2, lookup_insert_ne; [done|].
    apply not_eq_sym. by apply (Hother q). }
  split; [|split; [done|]].
  - eapply owns_add; [exact Ho|exact Hnew|exact Hm2|]. intros q b' Hq. rewrite Hm2 in Hq. rewrite Hb2.
    destruct (decide (q = p)) as [->|Hqp].
    + rewrite lookup_insert_eq in Hq. injection Hq as <-. exists c'. cbn. rewrite lookup_insert_eq. pose proof (zlen_nonneg bs).
      split; [done|]. lia.
    + rewrite lookup_insert_ne in Hq by done. destruct (proj1 Ho q b' Hq) as (c1 & Hc1 & ?). exists c1.
      rewrite lookup_insert_ne by (apply not_eq_sym; by apply (Hother q)). done.
  - unfold packet, mbuf_at, buf_at. rewrite Hm2, lookup_insert_eq. bind. cbn [buf_addr pkt_data data_len].
    rewrite Hb2, lookup_insert_eq. bind. by eapply load_store_same.
Qed.

Lemma take_packet_ok L head d m X :
  pool_tail L -> vdev_wf L d -> 0 <= head < r_size (v_tx d) -> owns m X ->
  exists o d' m', take_packet head d m = Ok (o, d', m') /\ tx_frame d d' /\
    match o with
    | None => m' = m /\ fst (rte_pktmbuf_alloc m) = None /\ r_last (v_tx d') = r_last (v_tx d)
    | Some p => owns m' ({[+ p +]} ⊎ X) /\ keeps X m m' /\ packet m' p = tx_bytes d head /\
                r_last (v_tx d') = u16 (r_last (v_tx d) + 1)
    end.
Proof.
  intros Hpool Hd Hh Ho. destruct (tx_desc L d head Hd Hh) as (e & e2 & bs & He & He2 & Hbs & Hload & Hz & HL).
  unfold take_packet. rewrite He. bind. rewrite He2. bind.
  rewrite (set_used_ok (r_last (v_tx d)) head 0 (v_tx d) (do_tx _ _ Hd)) by (apply (do_idx _ _ Hd)). bind.
  destruct (rte_pktmbuf_alloc m) as [[p|] m1] eqn:Ea.
  - destruct (owns_alloc _ _ _ _ Ho Ea) as [Ho1 _]. destruct (owns_live _ _ p Ho1) as [b Hb]; [clear; multiset_solver|].
    destruct (proj1 Ho1 p b Hb) as (c & Hc & Hp0 & _). unfold mbuf_at, buf_at. rewrite Hb. bind.
    unfold guest_load in *. cbn [guest guest_base set_tx]. rewrite Hload. bind. rewrite Hc. bind.
    pose proof (Hpool _ _ _ _ _ Ea Hb Hc) as Hroom. destruct (store_bytes_ok c (pkt_data b) bs) as [c' Hs]; [lia|lia|]. rewrite Hs. bind.
    rewrite <- Hz. destruct (new_packet_filled m X p m1 bs L b c c' Ho Ea Hb Hc Hs Hroom) as (? & ? & Hpk).
    do 3 eexists. split; [done|]. split; [split_and!; try done; by apply zlen_update|]. split_and!; try done. by rewrite Hpk, Hbs.
  - pose proof (alloc_none _ _ Ea) as ->. do 3 eexists. split; [done|]. split; [split_and!; try done; by apply zlen_update|done].
Qed.

Lemma keeps_packet X m m' p : keeps X m m' -> p ∈ X -> packet m' p = packet m p.
Proof.
  intros Hk Hp. destruct (Hk p Hp) as [Hm Hb]. unfold packet, mbuf_at. rewrite Hm.
  destruct (mbufs m !! p) as [b|] eqn:E; [|done]. bind. bind. unfold buf_at. by rewrite (Hb b eq_refl).
Qed.

Lemma u16_succ x n : 0 <= n -> u16 (u16 (x + 1) + n) = u16 (x + (n + 1)).
Proof. intros. unfold u16. rewrite wrap_add_l. f_equal. lia. Qed.

(** The packets taken are those of the first entries, in their order, in new
    buffers; not all of them when the pool is exhausted. *)
Lemma dequeue_loop_ok L heads d m X :
  pool_tail L -> vdev_wf L d -> Forall (fun h => 0 <= h < r_size (v_tx d)) heads -> owns m X ->
  exists ps d' m' all, dequeue_loop heads d m = Ok (ps, d', m', all) /\ tx_frame d d' /\ owns m' (M ps ⊎ X) /\ keeps X m m' /\
    r_last (v_tx d') = u16 (r_last (v_tx d) + zlen ps) /\
    Forall2 (fun p h => packet m' p = tx_bytes d h) ps (take (length ps) heads) /\
    (if all then length ps = length heads else (length ps < length heads)%nat /\ fst (rte_pktmbuf_alloc m') = None).
Proof.
  intros Hpool. revert d m X. induction heads as [|h heads IH]; intros d m X Hd Hh Ho; cbn [dequeue_loop].
  { exists [], d, m, true. split_and!; try done.
    - rewrite M_nil. by rewrite (left_id_L ∅ (⊎)).
    - unfold zlen, u16. cbn. rewrite Z.add_0_r, wrap_small; [done|]. apply (do_idx _ _ Hd). }
  inversion_clear Hh as [|? ? Hh0 Hhs].
  destruct (take_packet_ok L h d m X Hpool Hd Hh0 Ho) as (o & d1 & m1 & -> & Hf1 & Ho1). bind. destruct o as [p|].
  - destruct Ho1 as (Ho1 & Hk1 & Hp1 & Hl1). assert (vdev_wf L d1) as Hd1.
    { eapply tx_frame_wf; [exact Hd|exact Hf1|]. rewrite Hl1. apply wrap_range. lia. }
    assert (r_size (v_tx d1) = r_size (v_tx d)) as Hsz by apply Hf1.
    destruct (IH d1 m1 ({[+ p +]} ⊎ X) Hd1) as (ps & d2 & m2 & all & -> & Hf2 & Ho2 & Hk2 & Hl2 & Hps & Hall); [by rewrite Hsz|done|]. bind.
    exists (p :: ps), d2, m2, all. split; [done|]. split; [by eapply tx_frame_trans|].
    split; [eapply owns_eq; [exact Ho2|]; rewrite M_cons; clear; multiset_solver|].
    assert (keeps X m1 m2) as Hk2' by (intros q Hq; apply Hk2; clear -Hq; multiset_solver).
    split; [by eapply keeps_trans|].
    split; [rewrite Hl2, Hl1, zlen_cons, u16_succ by apply zlen_nonneg; f_equal; lia|]. split.
    + cbn [length take]. constructor.
      * rewrite (keeps_packet _ _ _ p Hk2); [done|]. clear. multiset_solver.
      * eapply list.Forall2_impl; [exact Hps|]. intros q h' Hq. by rewrite Hq, (tx_bytes_frame d d1 h' Hf1).
    + destruct all; cbn [length]; [by rewrite Hall|]. destruct Hall. split; [lia|done].
  - destruct Ho1 as (-> & Hn & Hl1). exists [], d1, m, false. split; [done|]. split; [done|]. rewrite M_nil, (left_id_L ∅ (⊎)).
    split; [done|]. split; [done|]. split; [|split; [constructor|split; [cbn; lia|done]]].
    rewrite Hl1. unfold zlen, u16. cbn. rewrite Z.add_0_r, wrap_small; [done|]. apply (do_idx _ _ Hd).
Qed.

Lemma dequeue_count_range last avail count :
  0 <= count <= PKT_BURST_SIZE -> 0 <= last -> 0 <= dequeue_count last avail count <= count.
Proof.
  intros Hc Hl. unfold dequeue_count, DESC_PER_CACHELINE. assert (0 <= u16 (avail - last)) by (apply wrap_range; lia).
  set (f := if count <? u16 (avail - last) then count else u16 (avail - last)).
  assert (0 <= f <= count) by (subst f; destruct (Z.ltb_spec count (u16 (avail - last))); lia).
  destruct (Z.ltb_spec 4 f); [|lia]. pose proof (Z.mod_pos_bound (last + f) 4 ltac:(lia)). unfold u16.
  unfold PKT_BURST_SIZE in Hc. rewrite wrap_small by (unfold is_u; lia). lia.
Qed.

(** A burst from the guest. *)
Lemma virtio_dequeue_ok L d count m X :
  pool_tail L -> vdev_wf L d -> owns m X -> 0 <= count <= PKT_BURST_SIZE ->
  exists ps d' m' heads, virtio_dequeue_burst d count m = Ok (ps, d', m') /\ zlen ps <= count /\
    owns m' (M ps ⊎ X) /\ keeps X m m' /\ vdev_wf L d' /\ v_rx d' = v_rx d /\ guest d' = guest d /\
    r_last (v_tx d') = u16 (r_last (v_tx d) + zlen ps) /\
    load_heads (length ps) (r_last (v_tx d)) (v_tx d) = Ok heads /\ Forall2 (fun p h => packet m' p = tx_bytes d h) ps heads /\
    ((r_last (v_tx d) = avail_idx (v_tx d) /\ ps = [] /\ used_idx (v_tx d') = used_idx (v_tx d)) \/
     (zlen ps = dequeue_count (r_last (v_tx d)) (avail_idx (v_tx d)) count /\ used_idx (v_tx d') = u16 (used_idx (v_tx d) + zlen ps)) \/
     (fst (rte_pktmbuf_alloc m') = None /\ used_idx (v_tx d') = used_idx (v_tx d))).
Proof.
  intros Hpool Hd Ho Hc. destruct (do_idx _ _ Hd) as [_ Hlast]. unfold virtio_dequeue_burst.
  assert (u16 (r_last (v_tx d)) = r_last (v_tx d)) as Hu by (unfold u16; by apply wrap_small).
  destruct (Z.eqb_spec (r_last (v_tx d)) (avail_idx (v_tx d))) as [He|Hne].
  { exists [], d, m, []. split; [done|]. split; [unfold zlen; simpl; lia|]. rewrite M_nil, (left_id_L ∅ (⊎)).
    do 5 (split; [done|]). split; [unfold zlen; cbn; by rewrite Z.add_0_r|]. split; [done|]. split; [by constructor|by left]. }
  set (n := dequeue_count (r_last (v_tx d)) (avail_idx (v_tx d)) count).
  pose proof (dequeue_count_range (r_last (v_tx d)) (avail_idx (v_tx d)) count Hc (proj1 Hlast)) as Hn. fold n in Hn.
  destruct (load_heads_ok (v_tx d) (Z.to_nat n) (r_last (v_tx d)) (do_tx _ _ Hd) (proj1 Hlast)) as (hs & Eh & Hlen & Hfh & _).
  rewrite Eh. bind. destruct (dequeue_loop_ok L hs d m X Hpool Hd Hfh Ho) as (ps & d1 & m1 & all & -> & Hf & Ho1 & Hk & Hl & Hps & Hall). bind.
  assert (length ps <= Z.to_nat n)%nat as Hle by (destruct all; lia).
  assert (load_heads (length ps) (r_last (v_tx d)) (v_tx d) = Ok (take (length ps) hs)) as Hheads.
  { clear -Eh Hle. revert Eh Hle. generalize (r_last (v_tx d)) as i. generalize (Z.to_nat n) as k. generalize (length ps) as j. revert hs.
    intros hs j k. revert hs j. induction k as [|k IH]; intros hs j i; cbn [load_heads].
    - intros [= <-] ?. by replace j with 0%nat by lia.
    - destruct (index (avail_ring (v_tx d)) _) as [h|] eqn:E; [|done]. bind. destruct (load_heads k (i + 1) (v_tx d)) as [hs'|] eqn:E'; [|done].
      bind. intros [= <-] Hj. destruct j as [|j]; [done|]. cbn [load_heads take]. rewrite E. bind. rewrite (IH hs' j (i + 1) E') by lia. done. }
  assert (vdev_wf L d1) as Hd1 by (eapply tx_frame_wf; [exact Hd|exact Hf|rewrite Hl; apply wrap_range; lia]).
  assert (used_idx (v_tx d1) = used_idx (v_tx d)) as Hui by apply Hf.
  destruct all.
  - exists ps, (set_tx (publish (zlen ps) (v_tx d1)) d1), m1, (take (length ps) hs). split; [done|]. split; [unfold zlen; lia|].
    split; [done|]. split; [done|]. split; [destruct Hd1 as [? ? ? ? ? ? ?]; by split|]. split; [apply Hf|]. split; [apply Hf|].
    split; [done|]. split; [done|]. split; [done|]. right. left. split; [unfold zlen; lia|]. cbn. by rewrite Hui.
  - exists ps, d1, m1, (take (length ps) hs). split; [done|]. split; [unfold zlen; lia|]. split; [done|]. split; [done|]. split; [done|].
    split; [apply Hf|]. split; [apply Hf|]. split; [done|]. split; [done|]. split; [done|]. right. right. by destruct Hall.
Qed.

(** A virtio device keeps what the vport code relies on, if the buffers of the
    pool have room for the packets the guest may send. *)
Definition VirtioLaws (L : Z) (Hpool : pool_tail L) : VhostLaws vdev.
Proof.
  refine {| dev_ok := vdev_ok L |}.
  - intros d ps m Hd Hwf Hl _. destruct (virtio_enqueue_ok L d ps m Hd Hwf Hl) as (d' & E & Hc & Hd'). by eexists _, d'.
  - intros d k m X [Hd Hlast] Ho Hk. destruct (virtio_dequeue_ok L d k m X Hpool Hd Ho Hk)
      as (ps & d' & m' & hs & E & ? & ? & ? & ? & Hrx & _). exists ps, d', m'. do 4 (split; [done|]). split; [done|]. by rewrite Hrx.
Defined.
End Dequeue.

(** *** Delivery *)

(** Stores one after the other, and stores that do not overlap. *)
Fixpoint store_all (g : list Z) (l : list (Z * list Z)) : res (list Z) :=
  match l with [] => Ok g | (a, bs) :: l => g ← store_bytes g a bs; store_all g l end.

Definition beside (a n : Z) (w : Z * list Z) : Prop := a + n <= w.1 \/ w.1 + zlen w.2 <= a.

Fixpoint apart (l : list (Z * list Z)) : Prop :=
  match l with [] => True | (a, bs) :: l => Forall (beside a (zlen bs)) l /\ apart l end.

Lemma store_all_beside g l g' a n :
  store_all g l = Ok g' -> Forall (beside a n) l -> load_bytes g' a n = load_bytes g a n.
Proof.
  revert g. induction l as [|[b bs] l IH]; intros g; cbn [store_all]; [by intros [= ->]|].
  destruct (store_bytes g b bs) as [g1|] eqn:E; [|done]. bind. intros Hs Hf. inversion_clear Hf as [|? ? Hb Hl].
  rewrite (IH g1 Hs Hl). by eapply load_store_other.
Qed.

Lemma store_all_load g l g' a bs :
  store_all g l = Ok g' -> apart l -> (a, bs) ∈ l -> load_bytes g' a (zlen bs) = Ok bs.
Proof.
  revert g. induction l as [|[b cs] l IH]; intros g; cbn [store_all apart]; [intros _ _ []%not_elem_of_nil|].
  destruct (store_bytes g b cs) as [g1|] eqn:E; [|done]. bind. intros Hs [Hf Ha] [[= -> ->]|Hin]%elem_of_cons.
  - rewrite (store_all_beside _ _ _ _ _ Hs Hf). by eapply load_store_same.
  - by eapply IH.
Qed.

Lemma store_all_app g l l' g1 g2 : store_all g l = Ok g1 -> store_all g1 l' = Ok g2 -> store_all g (l ++ l') = Ok g2.
Proof.
  revert g. induction l as [|[a bs] l IH]; intros g; cbn [store_all app]; [by intros [= ->]|].
  destruct (store_bytes g a bs); [|done]. bind. apply IH.
Qed.

(** What is written for packets in the buffers of [heads]: the bytes of each and
    its header. *)
Definition writes (d : vdev) (m : mem) (ps heads : list Z) : list (Z * list Z) :=
  concat (zip_with (fun p h => [(data_addr d h - guest_base d, sent_bytes m p); (hdr_addr d h - guest_base d, zero_header d)]) ps heads).

Lemma writes_frame L d d' m ps heads :
  vdev_wf L d -> rx_frame d d' -> Forall (fun h => 0 <= h < r_size (v_rx d)) heads -> writes d' m ps heads = writes d m ps heads.
Proof.
  intros Hd Hf Hh. unfold writes. f_equal. revert heads Hh. induction ps as [|p ps IH]; intros heads Hh; [done|].
  destruct heads as [|h heads]; [done|]. inversion_clear Hh as [|? ? Hh0 Hhs]. cbn [zip_with]. rewrite (IH heads Hhs).
  destruct (do_rx _ _ Hd) as (_ & Hl & _). rewrite (data_addr_frame L d d' h Hd Hf Hh0), (f_base _ _ Hf), (hdr_addr_frame d d' h Hf) by lia.
  unfold zero_header. by rewrite (proj2 (f_size _ _ Hf)).
Qed.

(** The slots of the used ring, written in order from [cur] on. *)
Fixpoint set_slots (size cur : Z) (es : list (Z * Z)) (u : list (Z * Z)) : list (Z * Z) :=
  match es with [] => u | e :: es => set_slots size (u16 (cur + 1)) es (update u (Z.land cur (size - 1)) e) end.

Definition used_entry (m : mem) (hlen : Z) (p head : Z) : Z * Z := (head, u32 (zlen (sent_bytes m p) + hlen)).

Lemma enqueue_loop_writes L ps heads cur rend hdr m d :
  vdev_wf L d -> Forall (fun h => 0 <= h < r_size (v_rx d)) heads -> 0 <= cur -> mem_wf m -> Forall (live m) ps ->
  exists d', enqueue_loop false ps heads cur rend 0 hdr m d = Ok d' /\ rx_frame d d' /\
    store_all (guest d) (writes d m ps heads) = Ok (guest d') /\
    used_ring (v_rx d') = set_slots (r_size (v_rx d)) cur (zip_with (used_entry m (r_hlen (v_rx d))) ps heads) (used_ring (v_rx d)).
Proof.
  revert heads cur hdr d. induction ps as [|p ps IH]; intros heads cur hdr d Hd Hh Hcur Hwf Hl.
  { exists d. split; [done|]. split; [apply rx_frame_refl|done]. }
  destruct heads as [|head heads]; [exists d; split; [done|]; split; [apply rx_frame_refl|done]|]. cbn [enqueue_loop].
  inversion_clear Hh as [|? ? Hh0 Hhs]. inversion_clear Hl as [|? ? Hl0 Hls].
  destruct (put_packet_ok L false 0 head p cur rend hdr m d) as (d1 & mrg1 & hdr1 & E1 & Hf1 & _ & Hw); try done.
  assert (mrg1 = 0) as ->.
  { revert E1. unfold put_packet. destruct (mbuf_at m p) as [b|]; [bind|done]. destruct (place_packet _ _ _ _ _ _) as [[[[? ?] ?] ?]|]; [bind|done].
    destruct (set_used _ _ _ _); [bind|done]. destruct (buf_at _ _); [bind|done]. destruct (load_bytes _ _ _); [bind|done].
    destruct (guest_store _ _ _); [bind|done]. cbn [negb]. destruct (put_header _ _ _); [bind|done]. by intros [= _ <- _]. }
  rewrite E1. bind. destruct (Hw eq_refl) as (g & Hs1 & Hs2 & Hu1).
  pose proof (vdev_wf_frame L d d1 Hd Hf1) as Hd1. assert (r_size (v_rx d1) = r_size (v_rx d)) as Hsz by apply Hf1.
  assert (r_hlen (v_rx d1) = r_hlen (v_rx d)) as Hhl by apply Hf1.
  destruct (IH heads (u16 (cur + 1)) hdr1 d1) as (d2 & E2 & Hf2 & Hw2 & Hu2); try done; [by rewrite Hsz|apply wrap_range; lia|].
  exists d2. split; [done|]. split; [by eapply rx_frame_trans|]. split.
  - rewrite (writes_frame L d d1) in Hw2 by done. unfold writes in *. cbn [zip_with concat].
    eapply store_all_app; [|exact Hw2]. cbn [store_all]. rewrite Hs1. bind. by rewrite Hs2.
  - rewrite Hu2, Hsz, Hhl, Hu1. done.
Qed.

(** Slots written within one round of the ring are distinct. *)
Lemma land_mask x k : 0 <= k -> Z.land x (2 ^ k - 1) = x mod 2 ^ k.
Proof. intros. rewrite Z.sub_1_r, <- Z.ones_equiv. by apply Z.land_ones. Qed.

Lemma slot_u16 x k : 0 <= k <= 16 -> Z.land (u16 x) (2 ^ k - 1) = Z.land x (2 ^ k - 1).
Proof.
  intros Hk. rewrite !land_mask by lia. unfold u16, wrap. replace 16 with (k + (16 - k)) by lia. rewrite Z.pow_add_r by lia.
  rewrite Z.mod_mod_divide; [done|]. apply Z.divide_factor_l.
Qed.

Lemma mod_lt_ne x i n : 0 < i < n -> (x + i) mod n <> x mod n.
Proof.
  intros Hi He. rewrite <- (Z.mod_small i n) in Hi by lia. assert (i mod n = 0) as H0; [|lia].
  replace i with ((x + i) - x) by lia. rewrite Zminus_mod, He, Z.sub_diag. apply Z.mod_0_l. lia.
Qed.

Lemma set_slots_before k cur es u i :
  0 <= k <= 16 -> 0 <= i -> zlen es + i < 2 ^ k ->
  set_slots (2 ^ k) (u16 (cur + i + 1)) es u !! Z.to_nat (Z.land cur (2 ^ k - 1)) = u !! Z.to_nat (Z.land cur (2 ^ k - 1)).
Proof.
  intros Hk. revert u i. induction es as [|e es IH]; intros u i Hi Hz; [done|]. cbn [set_slots]. rewrite zlen_cons in Hz.
  pose proof (zlen_nonneg es). assert (u16 (u16 (cur + i + 1) + 1) = u16 (cur + (i + 1) + 1)) as ->.
  { unfold u16. rewrite wrap_add_l. f_equal. lia. }
  rewrite (IH _ (i + 1)) by lia. unfold update. apply list_lookup_insert_ne. rewrite slot_u16 by done. rewrite !land_mask by lia.
  pose proof (Z.mod_pos_bound (cur + i + 1) (2 ^ k) ltac:(lia)). pose proof (Z.mod_pos_bound cur (2 ^ k) ltac:(lia)).
  pose proof (mod_lt_ne cur (i + 1) (2 ^ k) ltac:(lia)) as Hne. rewrite Z.add_assoc in Hne. intros Heq. apply Hne. lia.
Qed.

Lemma set_slots_index k cur es u i e :
  0 <= k <= 16 -> zlen es <= 2 ^ k -> zlen u = 2 ^ k -> es !! i = Some e ->
  index (set_slots (2 ^ k) cur es u) (Z.land (cur + Z.of_nat i) (2 ^ k - 1)) = Ok e.
Proof.
  intros Hk. revert cur u i. induction es as [|e0 es IH]; intros cur u i Hz Hu He; [done|]. cbn [set_slots]. rewrite zlen_cons in Hz.
  destruct i as [|i].
  - injection He as ->. rewrite Z.add_0_r. apply index_Ok. rewrite land_mask by lia.
    pose proof (Z.mod_pos_bound cur (2 ^ k) ltac:(lia)). split; [lia|]. rewrite <- land_mask by lia.
    replace (cur + 1) with (cur + 0 + 1) by lia. rewrite set_slots_before by lia. unfold update. apply list_lookup_insert_eq.
    rewrite land_mask by lia. unfold zlen in Hu. lia.
  - replace (cur + Z.of_nat (S i)) with (cur + 1 + Z.of_nat i) by lia. rewrite <- (slot_u16 (cur + 1 + Z.of_nat i)) by lia.
    assert (u16 (cur + 1 + Z.of_nat i) = u16 (u16 (cur + 1) + Z.of_nat i)) as ->.
    { unfold u16. by rewrite wrap_add_l. }
    rewrite slot_u16 by lia. apply IH; [lia|by rewrite zlen_update|done].
Qed.

Lemma writes_in d m ps heads i p h :
  ps !! i = Some p -> heads !! i = Some h ->
  (data_addr d h - guest_base d, sent_bytes m p) ∈ writes d m ps heads /\ (hdr_addr d h - guest_base d, zero_header d) ∈ writes d m ps heads.
Proof.
  revert heads i. induction ps as [|q ps IH]; intros heads i; [done|]. destruct heads as [|h' heads], i as [|i]; try done.
  - intros [= ->] [= ->]. unfold writes. cbn [zip_with concat app]. split; repeat constructor.
  - intros Hp Hh. destruct (IH heads i Hp Hh). unfold writes. cbn [zip_with concat app]. split; by do 2 constructor.
Qed.

(** ** Properties *)

(** C12: packets for a guest that does not merge buffers are delivered: a burst
    takes as many packets as entries are available, in order; the guest finds
    packet [i] in the buffer of its [i]-th available entry, behind a zeroed
    header, with its length in the entry of the used ring, and the used index
    advanced by the number of packets. *)
Theorem vhost_enqueue_delivers L k d ps m :
  let n := enqueue_count d (zlen ps) in
  vdev_ok L d -> mem_wf m -> Forall (live m) ps -> Z.testbit (v_features d) VIRTIO_NET_F_MRG_RXBUF = false ->
  0 <= k -> r_size (v_rx d) = 2 ^ k -> n <= 2 ^ k -> is_u16 (used_idx (v_rx d)) ->
  (forall heads, load_heads (Z.to_nat n) (r_res (v_rx d)) (v_rx d) = Ok heads -> apart (writes d m (take (Z.to_nat n) ps) heads)) ->
  exists d', virtio_enqueue_burst d ps m = Ok (n, d') /\ vdev_ok L d' /\ used_idx (v_rx d') = u16 (used_idx (v_rx d) + n) /\
    forall i p, ps !! i = Some p -> Z.of_nat i < n ->
      let slot := Z.land (r_res (v_rx d) + Z.of_nat i) (2 ^ k - 1) in
      exists head, index (avail_ring (v_rx d)) slot = Ok head /\
        index (used_ring (v_rx d')) slot = Ok (head, u32 (zlen (sent_bytes m p) + r_hlen (v_rx d))) /\
        guest_load (hdr_addr d head) (r_hlen (v_rx d)) d' = Ok (replicate (Z.to_nat (r_hlen (v_rx d))) 0) /\
        guest_load (data_addr d head) (zlen (sent_bytes m p)) d' = Ok (sent_bytes m p).
Proof.
  intros n [Hd Hlast] Hwf Hl Hmrg Hk Hsz Hn Hu Hap. destruct (enqueue_unfold L d ps m Hd) as (hs & Eh & Hlen & Hhs & Hc & ->).
  fold n in Eh, Hlen, Hc |- *. specialize (Hap hs Eh). pose proof (do_rx _ _ Hd) as (Hsize & _ & _ & Hul & _).
  assert (k <= 16) as Hk16.
  { destruct (Z.le_gt_cases k 16) as [|Hgt]; [done|]. pose proof (Z.pow_le_mono_r 2 17 k ltac:(lia) ltac:(lia)). lia. }
  destruct (Z.eqb_spec n 0) as [H0|Hne].
  { exists d. rewrite H0, Z.add_0_r. split; [done|]. split; [done|]. split; [unfold u16; by rewrite wrap_small|]. intros; lia. }
  cbv zeta. rewrite Hmrg. set (rend := u16 (r_res (v_rx d) + n)).
  destruct (enqueue_loop_writes L (take (Z.to_nat n) ps) hs (r_res (v_rx d)) rend 0 m (reserved n d)) as (d' & -> & Hf & Hw & Hur); try done.
  { by apply reserved_wf. }
  { apply (do_idx _ _ Hd). }
  { by apply Forall_take. }
  bind. destruct (f_idx _ _ Hf) as (Hfl & Hfr & Hfu & _). rewrite Hfl. cbn [reserved set_rx v_rx r_last with_res]. rewrite Hlast, Z.eqb_refl.
  cbn [negb]. eexists. split; [done|].
  split; [eapply finish_ok; [eapply vdev_wf_frame; [by apply reserved_wf|exact Hf]|by rewrite Hfr|exact Hf]|].
  split; [cbn; by rewrite Hfu|]. intros i p Hp Hi.
  assert (take (Z.to_nat n) ps !! i = Some p) as Hp' by (rewrite lookup_take_lt; [done|lia]).
  destruct (load_heads_ok (v_rx d) (Z.to_nat n) (r_res (v_rx d)) (do_rx _ _ Hd) (proj1 (proj1 (do_idx _ _ Hd)))) as (hs' & Eh' & _ & _ & Hat).
  rewrite Eh in Eh'. injection Eh' as <-. destruct (Hat i ltac:(lia)) as (h & Hh & Hav). rewrite Hsz in Hav. exists h. split; [done|].
  destruct (writes_in (reserved n d) m _ _ i p h Hp' Hh) as [Hw1 Hw2]. split; [|split].
  - cbn [v_rx set_rx used_ring with_last publish]. rewrite Hur. cbn [reserved set_rx v_rx with_res r_size r_hlen used_ring]. rewrite Hsz.
    apply set_slots_index; [lia| |by rewrite Hul|].
    + unfold zlen. rewrite length_zip_with, length_take. lia.
    + rewrite lookup_zip_with, Hp'. cbn. by rewrite Hh.
  - unfold guest_load. cbn [guest set_rx guest_base]. rewrite (f_base _ _ Hf). pose proof (do_hlen _ _ Hd).
    pose proof (store_all_load _ _ _ _ _ Hw Hap Hw2) as Hld. unfold zero_header in Hld. unfold zlen in Hld. rewrite length_replicate, Z2Nat.id in Hld by (cbn; lia).
    exact Hld.
  - unfold guest_load. cbn [guest set_rx guest_base]. rewrite (f_base _ _ Hf). exact (store_all_load _ _ _ _ _ Hw Hap Hw1).
Qed.

Section DequeueProps.
Context `{Mb : RteMbuf} `{!RteMbufLaws}.

(** C13: A burst from a guest returns at most count packets, each in a buffer
    of its own that nobody else owns, leaving all others alone; packet i holds
    the bytes that the guest's i-th available entry describes; unless the pool
    is exhausted all the entries up to the end of the burst, or of the last
    full cache line, are taken and reported. It is given that the rings and
    addresses of the guest are valid, and that no length the guest writes
    exceeds the room of the pool's buffers, which the code does not check. *)
Theorem vhost_dequeue_receives L d count m X :
  pool_tail L -> vdev_ok L d -> owns m X -> 0 <= count <= PKT_BURST_SIZE ->
  exists ps d' m' heads, virtio_dequeue_burst d count m = Ok (ps, d', m') /\ zlen ps <= count /\
    owns m' (M ps ⊎ X) /\ keeps X m m' /\ vdev_ok L d' /\
    load_heads (length ps) (r_last (v_tx d)) (v_tx d) = Ok heads /\ Forall2 (fun p h => packet m' p = tx_bytes d h) ps heads /\
    r_last (v_tx d') = u16 (r_last (v_tx d) + zlen ps) /\
    (r_last (v_tx d) <> avail_idx (v_tx d) -> is_Some (fst (rte_pktmbuf_alloc m')) ->
     zlen ps = dequeue_count (r_last (v_tx d)) (avail_idx (v_tx d)) count /\ used_idx (v_tx d') = u16 (used_idx (v_tx d) + zlen ps)).
Proof.
  intros Hp [Hd Hlast] Ho Hc. destruct (virtio_dequeue_ok L d count m X Hp Hd Ho Hc)
    as (ps & d' & m' & heads & E & Hn & Ho' & Hk & Hd' & Hrx & _ & Hl & Hh & Hps & Hcase).
  exists ps, d', m', heads. do 4 (split; [done|]). split; [split; [done|by rewrite Hrx]|]. do 3 (split; [done|]). intros Hne [p Hs].
  destruct Hcase as [(He & _)|[Hall|(Hnone & _)]]; [by destruct Hne|exact Hall|by rewrite Hs in Hnone].
Qed.

(** entries taken before the pool was exhausted are never reported: the
    number of entries taken and not reported to the guest does not change in a
    complete burst and grows by the packets of one that was cut short, so no
    sequence of bursts gives these buffers back. *)
Theorem vhost_dequeue_unreported L d count m X :
  pool_tail L -> vdev_ok L d -> owns m X -> 0 <= count <= PKT_BURST_SIZE ->
  exists ps d' m', virtio_dequeue_burst d count m = Ok (ps, d', m') /\
    (u16 (r_last (v_tx d') - used_idx (v_tx d')) = u16 (r_last (v_tx d) - used_idx (v_tx d)) \/
     fst (rte_pktmbuf_alloc m') = None /\
     u16 (r_last (v_tx d') - used_idx (v_tx d')) = u16 (r_last (v_tx d) - used_idx (v_tx d) + zlen ps)).
Proof.
  intros Hp [Hd Hlast] Ho Hc. destruct (virtio_dequeue_ok L d count m X Hp Hd Ho Hc)
    as (ps & d' & m' & heads & E & _ & _ & _ & _ & _ & _ & Hl & _ & _ & Hcase).
  exists ps, d', m'. split; [done|]. rewrite Hl. destruct Hcase as [(_ & -> & ->)|[(_ & ->)|(Hnone & ->)]].
  - left. unfold u16, wrap, zlen. cbn [length]. rewrite Z.add_0_r. by rewrite Zminus_mod_idemp_l.
  - left. unfold u16, wrap. rewrite Zminus_mod_idemp_l, Zminus_mod_idemp_r. f_equal. lia.
  - right. split; [done|]. unfold u16, wrap. rewrite Zminus_mod_idemp_l. f_equal. lia.
Qed.

(** a guest writes behind a buffer: the length it gives is not compared with
    the buffer's room, and a packet that does not fit is copied over its end. *)
Theorem vhost_dequeue_overflow head d m e e2 p m' b c bs :
  index (r_desc (v_tx d)) head = Ok e -> index (r_desc (v_tx d)) (ds_next e) = Ok e2 -> ring_ok (v_tx d) -> 0 <= r_last (v_tx d) ->
  rte_pktmbuf_alloc m = (Some p, m') -> mbufs m' !! p = Some b -> bufs m' !! buf_addr b = Some c ->
  tx_bytes d head = Ok bs -> zlen c < pkt_data b + u16 (ds_len e2) ->
  take_packet head d m = Err OutOfBounds.
Proof.
  intros He He2 Hr Hl Ea Hb Hc Hbs Hz. unfold tx_bytes in Hbs. rewrite He in Hbs. unfold take_packet. rewrite He. bind. cbn in Hbs.
  rewrite He2 in Hbs |- *. cbn in Hbs. bind. rewrite (set_used_ok _ _ _ _ Hr Hl). bind. rewrite Ea. unfold mbuf_at, buf_at. rewrite Hb. bind.
  unfold guest_load in *. cbn [guest guest_base set_tx]. rewrite Hbs. bind. rewrite Hc. bind.
  apply load_bytes_len in Hbs. destruct (store_bytes c (pkt_data b) bs) as [c'|f] eqn:E.
  - apply store_bytes_Ok in E. lia.
  - revert E. unfold store_bytes. destruct (in_range _ _ _); [done|]. by intros [= <-].
Qed.
End DequeueProps.

(** guest addresses are translated by the region they are in, if no other
    region contains them or ends just before them; an address that is the end
    of one region and the start of the next is translated by the first, to the
    byte behind that region's mapping. *)
Theorem gpa_to_vva_correct l r pa :
  r ∈ l -> Forall (fun r => guest_phys_address_end r = guest_phys_address r + memory_size r) l ->
  guest_phys_address r <= pa < guest_phys_address r + memory_size r ->
  (Forall (fun r' => r' = r \/ pa < guest_phys_address r' \/ guest_phys_address r' + memory_size r' < pa) l ->
     gpa_to_vva l pa = u64 (address_offset r + pa)) /\
  forall r', guest_phys_address r' <= pa -> guest_phys_address_end r' = pa -> gpa_to_vva (r' :: l) pa = u64 (address_offset r' + pa).
Proof.
  intros Hin Hend Hpa. split.
  - intros Hother. induction l as [|r1 l IH]; [by apply not_elem_of_nil in Hin|]. inversion_clear Hend as [|? ? He1 Hel]. inversion_clear Hother as [|? ? Ho1 Hol].
    cbn [gpa_to_vva]. rewrite He1. destruct (_ && _) eqn:E; destruct Ho1 as [->|Ho1]; try done; [lia|lia|].
    apply elem_of_cons in Hin as [->|Hin]; [lia|]. by apply IH.
  - intros r' H1 H2. cbn [gpa_to_vva]. rewrite H2. rewrite (proj2 (Z.leb_le _ _) H1), Z.leb_refl. done.
Qed.

(** ** Examples *)

(** A guest with two receive buffers and one packet of 60 bytes to send. *)
Definition sample_rx : vring := VRing [Desc 0 0 0 0; Desc 70000 0 0 0] 0 2 [0; 1] 0 [(0, 0); (0, 0)] 2 10 0 0 0.
Definition sample_tx : vring := VRing [Desc 140000 10 1 1; Desc 150000 60 0 0] 0 1 [0; 0] 0 [(0, 0); (0, 0)] 2 10 0 0 0.
Definition guest_with (g : list Z) : vdev := VDev sample_rx sample_tx [Region 0 200000 200000 0 4096] 4096 g 0 [118].
Definition guest_memory : list Z := replicate (Z.to_nat 200000) 7.
Definition one_packet : mem := Mem {[1 := Mbuf 1 64 60 60]} {[1 := replicate 128 5]}.

Lemma guest_memory_len : zlen guest_memory = 200000.
Proof. unfold zlen, guest_memory. rewrite length_replicate. lia. Qed.

Lemma guest_with_ok g : zlen g = 200000 -> vdev_ok 960 (guest_with g).
Proof.
  intros Hz. split; [|done]. split; unfold rx_room, tx_room, room; cbn [v_rx v_tx guest_with guest guest_base]; try rewrite Hz; try lia.
  - split_and!; try done; repeat constructor; cbn; lia.
  - split_and!; try done; repeat constructor; cbn; lia.
  - done.
  - cbn. lia.
  - repeat constructor; cbn; unfold u64; rewrite wrap_small by (unfold is_u; lia); lia.
  - repeat constructor; cbn; unfold u64; rewrite ?wrap_small by (unfold is_u; lia); lia.
Qed.

Lemma one_packet_ok : mem_wf one_packet /\ Forall (live one_packet) [1].
Proof.
  split; [|repeat constructor; by eexists]. intros p b Hb. unfold one_packet in *. cbn [mbufs bufs] in *.
  apply lookup_singleton_Some in Hb as [<- <-]. exists (replicate 128 5). split; [done|]. unfold zlen. cbn. lia.
Qed.
#[local] Opaque guest_memory.

Lemma vhost_enqueue_delivers_witness :
  exists d', virtio_enqueue_burst (guest_with guest_memory) [1] one_packet = Ok (1, d') /\ used_idx (v_rx d') = 1 /\
    index (used_ring (v_rx d')) 0 = Ok (0, 70) /\ guest_load 4096 10 d' = Ok (replicate 10 0) /\
    guest_load 4106 60 d' = Ok (replicate 60 5).
Proof.
  destruct (vhost_enqueue_delivers 960 1 (guest_with guest_memory) [1] one_packet) as (d' & E & _ & Hu & Hdel).
  - apply guest_with_ok, guest_memory_len.
  - apply one_packet_ok.
  - apply one_packet_ok.
  - reflexivity.
  - lia.
  - reflexivity.
  - vm_compute. discriminate.
  - split; vm_compute; [discriminate|reflexivity].
  - intros heads [= <-]. vm_compute. split; [constructor; [right; discriminate|constructor]|]. split; [constructor|done].
  - exists d'. split; [exact E|]. split; [exact Hu|].
    destruct (Hdel 0%nat 1 eq_refl ltac:(vm_compute; reflexivity)) as (h & [= <-] & Hused & Hh & Hd). split; [exact Hused|]. split; [exact Hh|exact Hd].
Defined.

Lemma sample_pool_tail : pool_tail 960.
Proof.
  intros m p m' b c. cbn [rte_pktmbuf_alloc sample_pool Pool]. unfold pool_alloc. destruct (_ <? _); [|done].
  intros [= <- <-]. cbn [mbufs bufs]. rewrite lookup_insert_eq. intros [= <-]. cbn [buf_addr pkt_data]. rewrite lookup_insert_eq.
  intros [= <-]. by vm_compute.
Qed.

Lemma no_packets : owns (Mem ∅ ∅) ∅.
Proof. split; [intros p b Hb; cbn in Hb; by rewrite lookup_empty in Hb|]. intros p. by rewrite multiplicity_empty. Qed.

Lemma vhost_dequeue_receives_witness :
  exists ps d' m' heads, virtio_dequeue_burst (guest_with guest_memory) 32 (Mem ∅ ∅) = Ok (ps, d', m') /\ owns m' (M ps ⊎ ∅) /\
    Forall2 (fun p h => packet m' p = tx_bytes (guest_with guest_memory) h) ps heads /\
    (is_Some (fst (rte_pktmbuf_alloc m')) -> zlen ps = 1 /\ used_idx (v_tx d') = u16 (0 + zlen ps)).
Proof.
  destruct (vhost_dequeue_receives 960 (guest_with guest_memory) 32 (Mem ∅ ∅) ∅) as (ps & d' & m' & heads & E & _ & Ho & _ & _ & _ & Hp & _ & Hall).
  - apply sample_pool_tail.
  - apply guest_with_ok, guest_memory_len.
  - apply no_packets.
  - unfold PKT_BURST_SIZE. lia.
  - exists ps, d', m', heads. do 3 (split; [done|]). apply Hall. discriminate.
Defined.

Lemma vhost_dequeue_unreported_witness :
  exists ps d' m', virtio_dequeue_burst (guest_with guest_memory) 32 (Mem ∅ ∅) = Ok (ps, d', m') /\
    (u16 (r_last (v_tx d') - used_idx (v_tx d')) = 0 \/
     fst (rte_pktmbuf_alloc m') = None /\ u16 (r_last (v_tx d') - used_idx (v_tx d')) = u16 (0 + zlen ps)).
Proof.
  apply (vhost_dequeue_unreported 960 (guest_with guest_memory) 32 (Mem ∅ ∅) ∅).
  - apply sample_pool_tail.
  - apply guest_with_ok, guest_memory_len.
  - apply no_packets.
  - unfold PKT_BURST_SIZE. lia.
Defined.

(** A pool of one buffer: of two packets the first is taken, and its entry is
    not reported, now or by the next burst, when the buffer is free again. *)
Example vhost_dequeue_lost_entry :
  let tx := VRing [Desc 0 10 1 1; Desc 0 60 0 0] 0 2 [0; 0] 0 [(0, 0); (0, 0)] 2 10 0 0 0 in
  let d := VDev sample_rx tx [Region 0 128 128 0 4096] 4096 (replicate 128 7) 0 [118] in
  let P := Pool 1 (replicate 128 0) 64 in
  exists d1 m1 d2 m2, @virtio_dequeue_burst P d 32 (Mem ∅ ∅) = Ok ([1], d1, m1) /\ r_last (v_tx d1) = 1 /\ used_idx (v_tx d1) = 0 /\
    @virtio_dequeue_burst P d1 32 (@rte_pktmbuf_free P 1 m1) = Ok ([1], d2, m2) /\ r_last (v_tx d2) = 2 /\ used_idx (v_tx d2) = 1.
Proof. do 4 eexists. split; [vm_compute; reflexivity|]. split; [reflexivity|]. split; [reflexivity|]. split; [vm_compute; reflexivity|done]. Qed.

(** A packet of 1000 bytes for a buffer with room for 960. *)
Lemma vhost_dequeue_overflow_witness :
  let tx := VRing [Desc 0 10 1 1; Desc 0 1000 0 0] 0 1 [0; 0] 0 [(0, 0); (0, 0)] 2 10 0 0 0 in
  take_packet 0 (VDev sample_rx tx [Region 0 1000 1000 0 4096] 4096 (replicate 1000 7) 0 [118]) (Mem ∅ ∅) = Err OutOfBounds.
Proof.
  intros tx. set (d := VDev _ _ _ _ _ _ _).
  apply (vhost_dequeue_overflow 0 d (Mem ∅ ∅) (Desc 0 10 1 1) (Desc 0 1000 0 0) 1 (snd (rte_pktmbuf_alloc (Mem ∅ ∅)))
    (Mbuf 1 64 0 0) (replicate 1024 0) (replicate 1000 7)); try (vm_compute; reflexivity).
  - split_and!; try done; repeat constructor; cbn; lia.
  - cbn. lia.
Defined.

Lemma gpa_to_vva_correct_witness :
  let l := [Region 0 100 100 0 5000; Region 200 300 100 0 7000] in
  gpa_to_vva l 250 = 7250 /\ gpa_to_vva (Region 0 200 200 0 9000 :: [Region 200 300 100 0 7000]) 200 = 9200.
Proof.
  split.
  - apply (gpa_to_vva_correct [Region 0 100 100 0 5000; Region 200 300 100 0 7000] (Region 200 300 100 0 7000) 250);
      [repeat constructor|repeat constructor|cbn; lia|repeat constructor; cbn; lia].
  - apply (gpa_to_vva_correct [Region 200 300 100 0 7000] (Region 200 300 100 0 7000) 200);
      [repeat constructor|repeat constructor|cbn; lia|cbn; lia|reflexivity].
Defined.
