(* ===== verification/VhostSync.v ===== *)
(** Synchronisation around vhost devices.

    The first part is how several cores share the receive ring of a guest
    ([vhost_enqueue_burst] of [datapath/dpdk/vport.c]): entries are reserved
    with a compare-and-set of [last_used_idx_res], filled in any order and
    reported in the order of reservation.  The second is how a device is taken
    from the cores ([destroy_device] of [datapath/dpdk/vhost.c] and the top of
    the loop of [lcore_main] in [datapath/dpdk/main.c]), next to everything else
    that maps and unmaps a guest's memory ([datapath/dpdk/virtio-net.c]) or
    changes the vports.

    In both a step is one access to shared memory by one actor, and steps of
    different actors interleave in any order; memory is sequentially
    consistent. *)
From S2P Require Import Prelude Dpdk Vport VirtioNet Main Vhost.

(** ** Reserving entries of a ring *)

(** Where a core is in [vhost_enqueue_burst]: about to read the reserved index;
    about to read the available index; about to compare and set; filling entry
    [done] of its [count] and then waiting for its turn; about to pass the turn
    on. *)
Inductive rx_pc :=
  | Away
  | Reading (count : Z)
  | Based (count base : Z)
  | Counted (base count : Z)
  | Filling (base count done : Z)
  | Published (base count : Z).

(** Indices are counted without bound; the variables of the code, and all that
    the steps look at, are their values modulo [2 ^ 16]. *)
Record rx_ring := RxRing {
  rr_size : Z; rr_avail : Z; rr_res : Z; rr_last : Z; rr_used : Z; rr_cores : list rx_pc
}.

Definition set_pc (c : nat) (x : rx_pc) (s : rx_ring) : rx_ring :=
  RxRing (rr_size s) (rr_avail s) (rr_res s) (rr_last s) (rr_used s) (<[c := x]> (rr_cores s)).
Definition set_res (r : Z) (s : rx_ring) : rx_ring :=
  RxRing (rr_size s) (rr_avail s) r (rr_last s) (rr_used s) (rr_cores s).
Definition set_used_total (u : Z) (s : rx_ring) : rx_ring :=
  RxRing (rr_size s) (rr_avail s) (rr_res s) (rr_last s) u (rr_cores s).
Definition set_last_total (l : Z) (s : rx_ring) : rx_ring :=
  RxRing (rr_size s) (rr_avail s) (rr_res s) l (rr_used s) (rr_cores s).

(** The next step of a core.  Of the reads of the available index that are
    repeated while there are too few entries the last one counts, and is the
    step.  When the compare-and-set fails, the count stays what it was reduced
    to. *)
Definition rx_run (c : nat) (x : rx_pc) (s : rx_ring) : rx_ring :=
  match x with
  | Away => s
  | Reading count => set_pc c (Based count (rr_res s)) s
  | Based count base =>
      let free_entries := u16 (u16 (rr_avail s) - u16 base) in
      let count := if free_entries <? count then free_entries else count in
      if count =? 0 then set_pc c Away s else set_pc c (Counted base count) s
  | Counted base count =>
      if u16 (rr_res s) =? u16 base then set_pc c (Filling (rr_res s) count 0) (set_res (rr_res s + count) s)
      else set_pc c (Reading count) s
  | Filling base count done =>
      if done <? count then set_pc c (Filling base count (done + 1)) s
      else if u16 (rr_last s) =? u16 base then set_pc c (Published base count) (set_used_total (rr_used s + count) s)
      else s
  | Published base count => set_pc c Away (set_last_total (rr_last s + count) s)
  end.

(** The guest offers entries, a core enters with a burst, a core goes on. *)
Inductive rx_event := Offer (n : Z) | Enter (c : nat) (count : Z) | Run (c : nat).

(** The guest never has more entries outstanding than the ring has, counting as
    done what the used index reports, which is all that it sees. *)
Definition rx_step (e : rx_event) (s : rx_ring) : option rx_ring :=
  match e with
  | Offer n =>
      if (0 <? n) && (rr_avail s + n - rr_used s <=? rr_size s)
      then Some (RxRing (rr_size s) (rr_avail s + n) (rr_res s) (rr_last s) (rr_used s) (rr_cores s)) else None
  | Enter c count =>
      match rr_cores s !! c with
      | Some Away => if 0 <? count then Some (set_pc c (Reading (if PKT_BURST_SIZE <? count then PKT_BURST_SIZE else count)) s) else None
      | _ => None
      end
  | Run c => match rr_cores s !! c with Some x => Some (rx_run c x s) | None => None end
  end.

(** A core is not overtaken by [2 ^ 16] reservations between reading the index
    and setting it. *)
Definition fresh (e : rx_event) (s : rx_ring) : bool :=
  match e with
  | Run c => match rr_cores s !! c with Some (Counted base _) => rr_res s <? base + 2 ^ 16 | _ => true end
  | _ => true
  end.

Definition rx_start (size : Z) (n : nat) : rx_ring := RxRing size 0 0 0 0 (replicate n Away).

Inductive rx_reach (s : rx_ring) : rx_ring -> Prop :=
| rx_refl : rx_reach s s
| rx_next e s1 s2 : rx_reach s s1 -> fresh e s1 = true -> rx_step e s1 = Some s2 -> rx_reach s s2.

Fixpoint rx_run_all (es : list rx_event) (s : rx_ring) : option rx_ring :=
  match es with [] => Some s | e :: es => match rx_step e s with Some s => rx_run_all es s | None => None end end.

(** ** Removing a device *)

(** A forwarding core: at the top of its loop, or in an iteration, holding the
    device or not. *)
Inductive core_pc := Top | InLoop (held : bool).

(** The configuration thread: idle; in [set_mem_table], about to map the memory
    again, which succeeds or not; in [destroy_device], about to request the
    removal from core [i]; waiting for core [i]; about to unmap the memory.  A
    removal is part of the [release] of the device or of a stop. *)
Inductive remover_pc :=
  | RIdle
  | Mapping (ok : bool)
  | Requesting (release : bool) (i : nat)
  | Waiting (release : bool) (i : nat)
  | Unmapping.

(** A device, at the address [DEV]: its name and running flag, and whether its
    guest's memory is mapped; the vhost vports; the removal flags of the cores;
    the cores and the configuration thread. *)
Record removal := Removal {
  rm_name : list Z; rm_running : bool; rm_mapped : bool; rm_ports : list vhost_port;
  rm_flags : list Z; rm_cores : list core_pc; rm_pc : remover_pc
}.
Definition DEV : Z := 1.

(** The guest's calls for the device: [set_mem_table], with its success;
    [new_device] by [set_backend], with the name of the tap device; a stop by
    [set_backend] or a release; [reset_owner].  The configuration thread goes on.
    Another device is attached to or taken from the vport with a name; the daemon
    renames a vport; steps of the cores. *)
Inductive rm_event :=
  | SetMemTable (ok : bool)
  | DeviceUp (tap : list Z)
  | DeviceDown (release : bool)
  | ResetOwner
  | ConfigRun
  | OtherDevice (name : list Z) (p : option Z)
  | Rename (v : nat) (name : list Z)
  | CoreTop (c : nat)
  | CoreTake (c v : nat)
  | CoreDrop (c : nat)
  | CoreEnd (c : nat).

Definition set_config (name : list Z) (running mapped : bool) (pc : remover_pc) (s : removal) : removal :=
  Removal name running mapped (rm_ports s) (rm_flags s) (rm_cores s) pc.
Definition set_rm_ports (l : list vhost_port) (s : removal) : removal :=
  Removal (rm_name s) (rm_running s) (rm_mapped s) l (rm_flags s) (rm_cores s) (rm_pc s).
Definition set_rm_flags (l : list Z) (s : removal) : removal :=
  Removal (rm_name s) (rm_running s) (rm_mapped s) (rm_ports s) l (rm_cores s) (rm_pc s).
Definition set_core (c : nat) (x : core_pc) (s : removal) : removal :=
  Removal (rm_name s) (rm_running s) (rm_mapped s) (rm_ports s) (rm_flags s) (<[c := x]> (rm_cores s)) (rm_pc s).
Definition set_rm_pc (pc : remover_pc) (s : removal) : removal := set_config (rm_name s) (rm_running s) (rm_mapped s) pc s.

(** After the device is taken from the cores. *)
Definition stopped (release : bool) (s : removal) : removal :=
  set_config (rm_name s) false (rm_mapped s) (if release then Unmapping else RIdle) s.

(** The configuration thread goes on where it is.  [destroy_device] waits while
    a core has not acknowledged; the device that is released is cleared. *)
Definition config_run (s : removal) : option removal :=
  match rm_pc s with
  | RIdle => None
  | Mapping ok => Some (set_config (rm_name s) (rm_running s) ok RIdle s)
  | Requesting release i =>
      if decide (i < length (rm_flags s))%nat
      then Some (set_rm_pc (Requesting release (S i)) (set_rm_flags (<[i := REQUEST_DEV_REMOVAL]> (rm_flags s)) s))
      else Some (set_rm_pc (Waiting release 0) s)
  | Waiting release i =>
      match rm_flags s !! i with
      | Some f => if f =? ACK_DEV_REMOVAL then Some (set_rm_pc (Waiting release (S i)) s) else Some s
      | None => Some (stopped release s)
      end
  | Unmapping => Some (set_config [] false false RIdle s)
  end.

(** A call for the device, while the configuration thread has nothing to do.
    [new_device] writes to the memory of the guest first.  [destroy_device]
    returns at once when no vport has the name of the device. *)
Definition config_call (e : rm_event) (s : removal) : option removal :=
  match e with
  | SetMemTable ok => Some (set_config (rm_name s) (rm_running s) false (Mapping ok) s)
  | DeviceUp tap =>
      if rm_running s || negb (rm_mapped s) then None else
      let name := tap ++ drop (length tap) (rm_name s) in
      match set_port_dev name (Some DEV) (rm_ports s) with
      | Some l => Some (set_rm_ports l (set_config name true (rm_mapped s) RIdle s))
      | None => Some (set_config name false (rm_mapped s) RIdle s)
      end
  | DeviceDown release =>
      if rm_running s then
        match set_port_dev (rm_name s) None (rm_ports s) with
        | Some l => Some (set_rm_ports l (set_rm_pc (Requesting release 0) s))
        | None => Some (stopped release s)
        end
      else if release then Some (set_rm_pc Unmapping s) else None
  | ResetOwner => Some (set_config [] false false RIdle s)
  | _ => None
  end.

Definition rm_step (e : rm_event) (s : removal) : option removal :=
  match e with
  | SetMemTable _ | DeviceUp _ | DeviceDown _ | ResetOwner => match rm_pc s with RIdle => config_call e s | _ => None end
  | ConfigRun => config_run s
  | OtherDevice name p =>
      if decide (p = Some DEV) then None else (fun l => set_rm_ports l s) <$> set_port_dev name p (rm_ports s)
  | Rename v name => Some (set_rm_ports (alter (fun q => (name, q.2)) v (rm_ports s)) s)
  | CoreTop c =>
      match rm_cores s !! c, rm_flags s !! c with
      | Some Top, Some f =>
          let flags := if f =? REQUEST_DEV_REMOVAL then <[c := ACK_DEV_REMOVAL]> (rm_flags s) else rm_flags s in
          Some (set_core c (InLoop false) (set_rm_flags flags s))
      | _, _ => None
      end
  | CoreTake c v =>
      match rm_cores s !! c, rm_ports s !! v with
      | Some (InLoop false), Some (_, p) => Some (set_core c (InLoop (bool_decide (p = Some DEV))) s)
      | _, _ => None
      end
  | CoreDrop c => match rm_cores s !! c with Some (InLoop true) => Some (set_core c (InLoop false) s) | _ => None end
  | CoreEnd c => match rm_cores s !! c with Some (InLoop false) => Some (set_core c Top s) | _ => None end
  end.

(** The vport that [vport_vhost_up] and [vport_vhost_down] find. *)
Definition port_index (name : list Z) (l : list vhost_port) : option nat :=
  fst <$> list_find (fun q : vhost_port => vhost_name_match name q.1 = true) l.
#[local] Arguments port_index : simpl never.

(** What the guests and the daemon must keep to: the memory and the owner of a
    device are changed only while it does not run, and no vport is renamed so that
    the name of a running device finds another one. *)
Definition orderly (e : rm_event) (s : removal) : bool :=
  match e with
  | SetMemTable _ | ResetOwner => negb (rm_running s)
  | Rename v name =>
      negb (rm_running s) ||
      bool_decide (port_index (rm_name s) (alter (fun q => (name, q.2)) v (rm_ports s)) = port_index (rm_name s) (rm_ports s))
  | _ => true
  end.
Definition anything (e : rm_event) (s : removal) : bool := true.

(** Before the first device; the vports have the names [names]. *)
Definition rm_start (names : list (list Z)) (n : nat) : removal :=
  Removal [] false false ((fun name => (name, None)) <$> names) (replicate n ACK_DEV_REMOVAL) (replicate n Top) RIdle.

Inductive rm_reach (guard : rm_event -> removal -> bool) (s : removal) : removal -> Prop :=
| rm_refl : rm_reach guard s s
| rm_next e s1 s2 : rm_reach guard s s1 -> guard e s1 = true -> rm_step e s1 = Some s2 -> rm_reach guard s s2.

Fixpoint rm_run_all (es : list rm_event) (s : removal) : option removal :=
  match es with [] => Some s | e :: es => match rm_step e s with Some s => rm_run_all es s | None => None end end.

(** ** Reservations in order *)

Definition active (x : rx_pc) : option (Z * Z) :=
  match x with Filling b n _ | Published b n => Some (b, n) | _ => None end.

(** The size of a burst. *)
Definition burst (n : Z) : Prop := 0 < n <= PKT_BURST_SIZE.
Ltac ring_lia := unfold burst, PKT_BURST_SIZE in *; lia.

(** The reservations of the cores [q] follow each other from [lo] to [hi]; all
    but the first still fill or wait. *)
Fixpoint chain (cores : list rx_pc) (lo hi : Z) (first : bool) (q : list nat) : Prop :=
  match q with
  | [] => lo = hi
  | c :: q => exists x n, cores !! c = Some x /\ active x = Some (lo, n) /\ burst n /\
      match x with Filling _ _ k => 0 <= k <= n | _ => first = true end /\ chain cores (lo + n) hi false q
  end.

Definition published (x : rx_pc) : Z := match x with Published _ n => n | _ => 0 end.
Definition turn (s : rx_ring) (q : list nat) : Z :=
  match q with c :: _ => match rr_cores s !! c with Some x => published x | None => 0 end | [] => 0 end.

(** What holds of a core that has no reservation yet. *)
Definition pc_ok (s : rx_ring) (x : rx_pc) : Prop :=
  match x with
  | Away | Filling _ _ _ | Published _ _ => True
  | Reading n => burst n
  | Based n b => burst n /\ b <= rr_res s
  | Counted b n => burst n /\ b <= rr_res s /\ n <= rr_avail s - b
  end.

Record rx_inv (s : rx_ring) (q : list nat) : Prop := {
  ri_size : 0 < rr_size s <= 2 ^ 15;
  ri_avail : rr_res s <= rr_avail s <= rr_used s + rr_size s;
  ri_chain : chain (rr_cores s) (rr_last s) (rr_res s) true q;
  ri_nodup : NoDup q;
  ri_all : forall c x, rr_cores s !! c = Some x -> is_Some (active x) -> c ∈ q;
  ri_pc : Forall (pc_ok s) (rr_cores s);
  ri_used : rr_used s = rr_last s + turn s q
}.

Lemma chain_le cores lo hi f q : chain cores lo hi f q -> lo <= hi.
Proof.
  revert lo f. induction q as [|c q IH]; cbn [chain]; [intros; ring_lia|]. intros lo f (x & n & _ & _ & ? & _ & Hc). apply IH in Hc. ring_lia.
Qed.

Lemma chain_insert cores lo hi f q c x : c ∉ q -> chain cores lo hi f q -> chain (<[c := x]> cores) lo hi f q.
Proof.
  revert lo f. induction q as [|c' q IH]; intros lo f Hc; cbn [chain]; [done|]. apply not_elem_of_cons in Hc as [Hne Hc].
  intros (y & n & Hy & ? & ? & ? & Hch). exists y, n. rewrite list_lookup_insert_ne by done. split_and!; try done. by apply IH.
Qed.

(** A reservation lies between what is reported and what is reserved. *)
Lemma chain_in cores lo hi f q c x b n :
  chain cores lo hi f q -> c ∈ q -> cores !! c = Some x -> active x = Some (b, n) -> lo <= b /\ b + n <= hi /\ 0 < n.
Proof.
  revert lo f. induction q as [|c' q IH]; intros lo f; cbn [chain]; [by intros _ ?%not_elem_of_nil|].
  intros (y & k & Hy & Ha & Hk & _ & Hch) Hc Hx Hb. apply elem_of_cons in Hc as [->|Hc].
  - rewrite Hx in Hy. injection Hy as <-. rewrite Hb in Ha. injection Ha as -> ->. apply chain_le in Hch. ring_lia.
  - destruct (IH _ _ Hch Hc Hx Hb). ring_lia.
Qed.

Lemma chain_apart cores lo hi f q c1 c2 x1 x2 b1 n1 b2 n2 :
  chain cores lo hi f q -> NoDup q -> c1 ∈ q -> c2 ∈ q -> c1 <> c2 ->
  cores !! c1 = Some x1 -> active x1 = Some (b1, n1) -> cores !! c2 = Some x2 -> active x2 = Some (b2, n2) ->
  b1 + n1 <= b2 \/ b2 + n2 <= b1.
Proof.
  revert lo f. induction q as [|c q IH]; intros lo f; cbn [chain]; [by intros _ _ ?%not_elem_of_nil|].
  intros (y & k & Hy & Ha & Hk & _ & Hch) [_ Hnd]%list.NoDup_cons Hc1 Hc2 Hne H1 Ha1 H2 Ha2.
  apply elem_of_cons in Hc1 as [->|Hc1]; apply elem_of_cons in Hc2 as [->|Hc2]; [done| | |by eapply IH].
  - rewrite H1 in Hy. injection Hy as <-. rewrite Ha1 in Ha. injection Ha as -> ->.
    destruct (chain_in _ _ _ _ _ _ _ _ _ Hch Hc2 H2 Ha2). ring_lia.
  - rewrite H2 in Hy. injection Hy as <-. rewrite Ha2 in Ha. injection Ha as -> ->.
    destruct (chain_in _ _ _ _ _ _ _ _ _ Hch Hc1 H1 Ha1). ring_lia.
Qed.

(** A core whose turn it is, is the first. *)
Lemma chain_first cores lo hi f q c x n :
  chain cores lo hi f q -> NoDup q -> c ∈ q -> cores !! c = Some x -> active x = Some (lo, n) -> exists q', q = c :: q'.
Proof.
  destruct q as [|c' q]; cbn [chain]; [by intros _ _ ?%not_elem_of_nil|].
  intros (y & k & Hy & Ha & Hk & _ & Hch) [_ Hnd]%list.NoDup_cons [->|Hc]%elem_of_cons Hx Hb; [by eexists|].
  destruct (chain_in _ _ _ _ _ _ _ _ _ Hch Hc Hx Hb). ring_lia.
Qed.

Lemma chain_snoc cores lo hi f q c b n :
  chain cores lo hi f q -> c ∉ q -> (c < length cores)%nat -> b = hi -> burst n ->
  chain (<[c := Filling b n 0]> cores) lo (hi + n) f (q ++ [c]).
Proof.
  intros Hch Hc Hlt -> Hn. revert lo f Hch. induction q as [|c' q IH]; intros lo f; cbn [chain app].
  - intros ->. exists (Filling hi n 0), n. rewrite list_lookup_insert_eq by done. split_and!; try done. ring_lia.
  - apply not_elem_of_cons in Hc as [Hne Hc]. intros (y & k & Hy & ? & ? & ? & Hch). exists y, k.
    rewrite list_lookup_insert_ne by done. split_and!; try done. by apply IH.
Qed.

(** A core goes on filling, wherever it is in the queue. *)
Lemma chain_fill cores lo hi f q c b n k k' :
  chain cores lo hi f q -> NoDup q -> cores !! c = Some (Filling b n k) -> 0 <= k' <= n ->
  chain (<[c := Filling b n k']> cores) lo hi f q.
Proof.
  intros Hch Hnd Hc Hk. revert lo f Hch Hnd. induction q as [|c' q IH]; intros lo f; cbn [chain]; [done|].
  intros (y & m & Hy & Ha & ? & ? & Hch) [Hn Hnd]%list.NoDup_cons. destruct (decide (c' = c)) as [->|Hne].
  - rewrite Hc in Hy. injection Hy as <-. cbn in Ha. injection Ha as -> ->. exists (Filling lo m k'), m.
    rewrite list_lookup_insert_eq by (by eapply lookup_lt_Some). split_and!; try done; try ring_lia. by apply chain_insert.
  - exists y, m. rewrite list_lookup_insert_ne by done. split_and!; try done. by apply IH.
Qed.

Lemma u16_eq_near a b : u16 a = u16 b -> a - 2 ^ 16 < b < a + 2 ^ 16 -> a = b.
Proof.
  unfold u16, wrap. intros He Hb. pose proof (Z.div_mod a (2 ^ 16) ltac:(ring_lia)). pose proof (Z.div_mod b (2 ^ 16) ltac:(ring_lia)). nia.
Qed.

Lemma chain_member cores lo hi f q c : chain cores lo hi f q -> c ∈ q -> exists x, cores !! c = Some x /\ is_Some (active x).
Proof.
  revert lo f. induction q as [|c' q IH]; intros lo f; cbn [chain]; [by intros _ ?%not_elem_of_nil|].
  intros (y & k & Hy & Ha & _ & _ & Hch) [->|Hc]%elem_of_cons; [exists y; split; [done|by eexists]|by eapply IH].
Qed.

Lemma inactive_out s q c x : rx_inv s q -> rr_cores s !! c = Some x -> active x = None -> c ∉ q.
Proof.
  intros Hi Hx Ha Hc. destruct (chain_member _ _ _ _ _ _ (ri_chain _ _ Hi) Hc) as (y & Hy & [? Hs]).
  rewrite Hx in Hy. injection Hy as <-. by rewrite Ha in Hs.
Qed.

Lemma turn_insert s q c x : c ∉ q -> turn (set_pc c x s) q = turn s q.
Proof. destruct q as [|c' q]; [done|]. intros [Hne _]%not_elem_of_cons. cbn. by rewrite list_lookup_insert_ne. Qed.

Lemma pc_ok_mono s s' x : rr_res s <= rr_res s' -> rr_avail s <= rr_avail s' -> pc_ok s x -> pc_ok s' x.
Proof. intros ??. destruct x; cbn; ring_lia. Qed.

Lemma rx_inv_pc s q c x y :
  rx_inv s q -> rr_cores s !! c = Some x -> active x = None -> active y = None -> pc_ok s y -> rx_inv (set_pc c y s) q.
Proof.
  intros Hi Hx Ha Hay Hok. pose proof (inactive_out _ _ _ _ Hi Hx Ha) as Hc. destruct Hi as [H1 H2 H3 H4 H5 H6 H7].
  split; try done.
  - by apply chain_insert.
  - intros c' x' Hx' Hs. cbn in Hx'. destruct (decide (c' = c)) as [->|Hne].
    + rewrite list_lookup_insert_eq in Hx' by (by eapply lookup_lt_Some). injection Hx' as <-. rewrite Hay in Hs. by destruct Hs.
    + rewrite list_lookup_insert_ne in Hx' by done. by eapply H5.
  - by apply Forall_insert.
  - by rewrite turn_insert.
Qed.

(** A successful compare-and-set adds a reservation at the end. *)
Lemma rx_inv_reserve s q c x b n :
  rx_inv s q -> rr_cores s !! c = Some x -> active x = None -> b = rr_res s -> burst n -> rr_res s + n <= rr_avail s ->
  rx_inv (set_pc c (Filling b n 0) (set_res (rr_res s + n) s)) (q ++ [c]).
Proof.
  intros Hi Hx Ha Hb Hn Hle. pose proof (inactive_out _ _ _ _ Hi Hx Ha) as Hc. destruct Hi as [H1 H2 H3 H4 H5 H6 H7].
  assert (c < length (rr_cores s))%nat as Hlt by (by eapply lookup_lt_Some). split; cbn; try done; try ring_lia.
  - by apply chain_snoc.
  - apply list.NoDup_app. split; [done|]. split; [by intros y Hy ->%list_elem_of_singleton|apply NoDup_singleton].
  - intros c' x' Hx' Hs. destruct (decide (c' = c)) as [->|Hne]; [apply elem_of_app; right; by apply list_elem_of_singleton|].
    rewrite list_lookup_insert_ne in Hx' by done. apply elem_of_app. left. by eapply H5.
  - apply Forall_insert; [|done]. eapply Forall_impl; [|exact H6]. intros y. apply pc_ok_mono; cbn; ring_lia.
  - rewrite H7. f_equal. destruct q as [|c' q]; cbn [app turn].
    + unfold turn. cbn. by rewrite list_lookup_insert_eq.
    + cbn. apply not_elem_of_cons in Hc as [Hne _]. by rewrite list_lookup_insert_ne.
Qed.

Lemma rx_inv_fill s q c b n k k' :
  rx_inv s q -> rr_cores s !! c = Some (Filling b n k) -> 0 <= k' <= n -> rx_inv (set_pc c (Filling b n k') s) q.
Proof.
  intros [H1 H2 H3 H4 H5 H6 H7] Hc Hk. split; cbn; try done.
  - by eapply chain_fill.
  - intros c' x' Hx' Hs. destruct (decide (c' = c)) as [->|Hne]; [by apply (H5 _ _ Hc)|].
    rewrite list_lookup_insert_ne in Hx' by done. by eapply H5.
  - by apply Forall_insert.
  - rewrite H7. f_equal. destruct q as [|c' q]; [done|]. cbn. destruct (decide (c' = c)) as [->|Hne].
    + rewrite list_lookup_insert_eq by (by eapply lookup_lt_Some). by rewrite Hc.
    + by rewrite list_lookup_insert_ne.
Qed.

(** Reporting entries, and passing the turn on: only the first core does. *)
Lemma rx_inv_publish s q c n k :
  rx_inv s (c :: q) -> rr_cores s !! c = Some (Filling (rr_last s) n k) ->
  rx_inv (set_pc c (Published (rr_last s) n) (set_used_total (rr_used s + n) s)) (c :: q).
Proof.
  intros [H1 H2 H3 H4 H5 H6 H7] Hc. pose proof H4 as [Hn _]%list.NoDup_cons.
  assert (c < length (rr_cores s))%nat as Hlt by (by eapply lookup_lt_Some).
  destruct H3 as (x & m & Hx & Ha & Hm & _ & Hch). rewrite Hc in Hx. injection Hx as <-. cbn in Ha. injection Ha as ->.
  split; cbn; try done; try ring_lia.
  - exists (Published (rr_last s) m), m. rewrite list_lookup_insert_eq by done. split_and!; try done. by apply chain_insert.
  - intros c' x' Hx' Hs. destruct (decide (c' = c)) as [->|Hne]; [by left|]. rewrite list_lookup_insert_ne in Hx' by done. by eapply H5.
  - by apply Forall_insert.
  - rewrite H7. cbn. rewrite Hc, list_lookup_insert_eq by done. cbn. ring_lia.
Qed.

Lemma rx_inv_leave s q c b n :
  rx_inv s (c :: q) -> rr_cores s !! c = Some (Published b n) ->
  rx_inv (set_pc c Away (set_last_total (rr_last s + n) s)) q.
Proof.
  intros [H1 H2 H3 H4 H5 H6 H7] Hc. pose proof H4 as [Hn Hnd]%list.NoDup_cons.
  destruct H3 as (x & m & Hx & Ha & Hm & _ & Hch). rewrite Hc in Hx. injection Hx as <-. cbn in Ha. injection Ha as -> ->.
  split; cbn; try done; try ring_lia.
  - apply chain_insert; [done|]. clear -Hch. destruct q as [|c' q]; [done|]. cbn [chain] in *. destruct Hch as (x & n & ? & ? & ? & Hx & ?).
    exists x, n. split_and!; try done. by destruct x.
  - intros c' x' Hx' Hs. destruct (decide (c' = c)) as [->|Hne].
    + rewrite list_lookup_insert_eq in Hx' by (by eapply lookup_lt_Some). injection Hx' as <-. by destruct Hs.
    + rewrite list_lookup_insert_ne in Hx' by done. apply (H5 c' x') in Hs; [|done]. by apply elem_of_cons in Hs as [->|Hs].
  - by apply Forall_insert.
  - rewrite H7. cbn. rewrite Hc. cbn. assert (turn (set_pc c Away (set_last_total (rr_last s + m) s)) q = 0) as ->; [|ring_lia].
    destruct q as [|c' q]; [done|]. cbn. apply not_elem_of_cons in Hn as [Hne _]. rewrite list_lookup_insert_ne by done.
    destruct Hch as (x & n & -> & ? & _ & Hx & _). by destruct x.
Qed.

Lemma u16_le x : 0 <= x -> u16 x <= x.
Proof. intros. unfold u16, wrap. apply Z.mod_le; ring_lia. Qed.

Lemma rx_inv_bounds s q : rx_inv s q -> rr_last s <= rr_res s.
Proof. intros Hi. by eapply chain_le, ri_chain. Qed.

Lemma turn_range s q : rx_inv s q -> 0 <= turn s q <= PKT_BURST_SIZE /\ rr_last s + turn s q <= rr_res s.
Proof.
  intros Hi. pose proof (ri_chain _ _ Hi) as Hch. destruct q as [|c q]; cbn in *; [ring_lia|].
  destruct Hch as (x & m & -> & Ha & Hm & _ & Hch). apply chain_le in Hch. destruct x; cbn in *; try ring_lia. injection Ha as -> ->. ring_lia.
Qed.

Lemma filling_turn s q c b n k :
  rx_inv s q -> rr_cores s !! c = Some (Filling b n k) -> u16 (rr_last s) = u16 b -> b = rr_last s /\ exists q', q = c :: q'.
Proof.
  intros Hi Hc He. assert (c ∈ q) as Hin by (apply (ri_all _ _ Hi _ _ Hc); by eexists).
  destruct (chain_in _ _ _ _ _ _ _ b n (ri_chain _ _ Hi) Hin Hc eq_refl) as (H1 & H2 & H3).
  pose proof (ri_avail _ _ Hi). pose proof (ri_size _ _ Hi). pose proof (ri_used _ _ Hi). pose proof (turn_range _ _ Hi).
  assert (b = rr_last s) as -> by (symmetry; apply u16_eq_near; [done|ring_lia]).
  split; [done|]. by eapply (chain_first _ _ _ _ _ _ _ n (ri_chain _ _ Hi) (ri_nodup _ _ Hi) Hin Hc).
Qed.

Lemma chain_filled cores lo hi f q c b n k :
  chain cores lo hi f q -> c ∈ q -> cores !! c = Some (Filling b n k) -> 0 <= k <= n.
Proof.
  revert lo f. induction q as [|c' q IH]; intros lo f; cbn [chain]; [by intros _ ?%not_elem_of_nil|].
  intros (y & m & Hy & Ha & _ & Hx & Hch) [->|Hc]%elem_of_cons Hfl; [|by eapply IH].
  rewrite Hfl in Hy. injection Hy as <-. cbn in Ha. by injection Ha as _ <-.
Qed.

Lemma chain_published cores lo hi f q c b n :
  chain cores lo hi f q -> c ∈ q -> cores !! c = Some (Published b n) -> f = true /\ b = lo /\ exists q', q = c :: q'.
Proof.
  revert lo f. induction q as [|c' q IH]; intros lo f; cbn [chain]; [by intros _ ?%not_elem_of_nil|].
  intros (y & m & Hy & Ha & _ & Hx & Hch) [->|Hc]%elem_of_cons Hp.
  - rewrite Hp in Hy. injection Hy as <-. cbn in Ha. injection Ha as -> ->. split; [done|]. split; [done|by eexists].
  - by destruct (IH _ _ Hch Hc Hp).
Qed.

Lemma rx_run_inv s q c x :
  rx_inv s q -> rr_cores s !! c = Some x -> fresh (Run c) s = true -> exists q', rx_inv (rx_run c x s) q'.
Proof.
  intros Hi Hc Hf. pose proof (ri_avail _ _ Hi) as Hav. pose proof (proj1 (Forall_lookup _ _) (ri_pc _ _ Hi) _ _ Hc) as Hok.
  pose proof (rx_inv_bounds _ _ Hi). destruct x as [|n|n b|b n|b n k|b n]; cbn [rx_run].
  - by exists q.
  - exists q. eapply rx_inv_pc; try done; cbn in *; ring_lia.
  - cbn in Hok. set (f := u16 (u16 (rr_avail s) - u16 b)).
    assert (0 <= f <= rr_avail s - b) as Hfr.
    { unfold f. split; [apply wrap_range; ring_lia|]. assert (u16 (u16 (rr_avail s) - u16 b) = u16 (rr_avail s - b)) as ->.
      { unfold u16, wrap. rewrite Zminus_mod_idemp_l, Zminus_mod_idemp_r. done. }
      apply u16_le. ring_lia. }
    destruct (Z.eqb_spec (if f <? n then f else n) 0); exists q; eapply rx_inv_pc; try done.
    cbn. destruct (Z.ltb_spec f n); ring_lia.
  - cbn in Hok. destruct (Z.eqb_spec (u16 (rr_res s)) (u16 b)) as [He|Hne]; [|exists q; eapply rx_inv_pc; try done; cbn; ring_lia].
    cbn in Hf. rewrite Hc in Hf. apply Z.ltb_lt in Hf. assert (rr_res s = b) by (apply u16_eq_near; [done|ring_lia]).
    exists (q ++ [c]). eapply rx_inv_reserve; try done; ring_lia.
  - destruct (Z.ltb_spec k n).
    + exists q. eapply rx_inv_fill; [done|exact Hc|]. assert (c ∈ q) as Hin by (apply (ri_all _ _ Hi _ _ Hc); by eexists).
      pose proof (chain_filled _ _ _ _ _ _ _ _ _ (ri_chain _ _ Hi) Hin Hc). ring_lia.
    + destruct (Z.eqb_spec (u16 (rr_last s)) (u16 b)) as [He|Hne]; [|by exists q].
      destruct (filling_turn _ _ _ _ _ _ Hi Hc He) as (-> & q' & ->). exists (c :: q'). by eapply rx_inv_publish.
  - assert (c ∈ q) as Hin by (apply (ri_all _ _ Hi _ _ Hc); by eexists).
    destruct (chain_published _ _ _ _ _ _ _ _ (ri_chain _ _ Hi) Hin Hc) as (_ & _ & q' & ->). exists q'. by eapply rx_inv_leave.
Qed.

Lemma rx_step_inv e s q s' : rx_inv s q -> fresh e s = true -> rx_step e s = Some s' -> exists q', rx_inv s' q'.
Proof.
  intros Hi Hf. destruct e as [n|c n|c]; cbn [rx_step].
  - destruct (Z.ltb_spec 0 n), (Z.leb_spec (rr_avail s + n - rr_used s) (rr_size s)); try done. intros [= <-]. exists q.
    destruct Hi as [H1 H2 H3 H4 H5 H6 H7]. split; cbn; try done; try ring_lia.
    eapply Forall_impl; [|exact H6]. intros y. apply pc_ok_mono; cbn; ring_lia.
  - destruct (rr_cores s !! c) as [x|] eqn:Hc; [|done]. destruct x; try done. destruct (Z.ltb_spec 0 n); [|done]. intros [= <-].
    exists q. eapply rx_inv_pc; try done. cbn. unfold PKT_BURST_SIZE. destruct (Z.ltb_spec 32 n); ring_lia.
  - destruct (rr_cores s !! c) as [x|] eqn:Hc; [|done]. intros [= <-]. by eapply rx_run_inv.
Qed.

Lemma rx_start_inv size n : 0 < size <= 2 ^ 15 -> rx_inv (rx_start size n) [].
Proof.
  intros Hs. split; cbn; try done; try ring_lia; [constructor| |by apply Forall_replicate].
  intros c x [-> _]%lookup_replicate Ha. by destruct Ha.
Qed.

Lemma rx_reach_inv s s' q : rx_inv s q -> rx_reach s s' -> exists q', rx_inv s' q'.
Proof. intros Hi. induction 1 as [|e s1 s2 _ [q' IH] Hf Hs]; [by exists q|]. by eapply rx_step_inv. Qed.

(** Runs of one core alone. *)
Lemma run_self s c x : rr_cores s !! c = Some x -> rx_step (Run c) s = Some (rx_run c x s).
Proof. intros Hc. cbn. by rewrite Hc. Qed.

Lemma rx_run_all_app es es' s s1 : rx_run_all es s = Some s1 -> rx_run_all (es ++ es') s = rx_run_all es' s1.
Proof.
  revert s. induction es as [|e es IH]; intros s; cbn [rx_run_all app]; [by intros [= ->]|]. destruct (rx_step e s); [|done]. apply IH.
Qed.

Lemma fill_up s c b n j :
  forall k, rr_cores s !! c = Some (Filling b n k) -> k + Z.of_nat j = n ->
  rx_run_all (replicate j (Run c)) s = Some (set_pc c (Filling b n n) s).
Proof.
  revert s. induction j as [|j IH]; intros s k Hc Hk; cbn [replicate rx_run_all].
  - replace n with k in * by ring_lia. f_equal. unfold set_pc. rewrite list_insert_id by done. by destruct s.
  - rewrite (run_self _ _ _ Hc). cbn [rx_run]. rewrite (proj2 (Z.ltb_lt _ _)) by ring_lia. rewrite (IH _ (k + 1)); [|cbn|ring_lia].
    + unfold set_pc. cbn. by rewrite list_insert_insert_eq.
    + rewrite list_lookup_insert_eq; [done|]. by eapply lookup_lt_Some.
Qed.

(** The first core can always report its entries. *)
Lemma first_finishes s q c :
  rx_inv s (c :: q) -> exists j s', rx_run_all (replicate j (Run c)) s = Some s' /\ rr_last s < rr_last s' /\
    rr_cores s' !! c = Some Away /\ rr_used s' = rr_last s'.
Proof.
  intros Hi. destruct (ri_chain _ _ Hi) as (x & n & Hx & Ha & Hn & Hk & _). pose proof (ri_used _ _ Hi) as Hu. cbn in Hu. rewrite Hx in Hu.
  assert (c < length (rr_cores s))%nat as Hlt by (by eapply lookup_lt_Some).
  destruct x as [| | | |b m k|b m]; try done; cbn in Ha; injection Ha as -> ->.
  - exists (Z.to_nat (n - k) + 2)%nat. rewrite replicate_add.
    rewrite (rx_run_all_app _ _ _ _ (fill_up s c _ n (Z.to_nat (n - k)) k Hx ltac:(ring_lia))). cbn [replicate rx_run_all].
    rewrite (run_self _ _ (Filling (rr_last s) n n)) by (cbn; by rewrite list_lookup_insert_eq). cbn [rx_run]. rewrite Z.ltb_irrefl, Z.eqb_refl.
    rewrite (run_self _ _ (Published (rr_last s) n)) by (cbn; rewrite list_lookup_insert_eq; [done|by rewrite length_insert]). cbn [rx_run].
    eexists. split; [done|]. cbn. split; [ring_lia|]. split; [|cbn in Hu; ring_lia]. by rewrite list_lookup_insert_eq by (by rewrite !length_insert).
  - exists 1%nat. cbn [replicate rx_run_all]. rewrite (run_self _ _ _ Hx). cbn [rx_run]. eexists. split; [done|]. cbn. split; [ring_lia|].
    split; [by rewrite list_lookup_insert_eq|cbn in Hu; ring_lia].
Qed.

Lemma filling_unreported s q c b n k : rx_inv s q -> rr_cores s !! c = Some (Filling b n k) -> rr_used s <= b.
Proof.
  intros Hi Hc. assert (c ∈ q) as Hin by (apply (ri_all _ _ Hi _ _ Hc); by eexists). rewrite (ri_used _ _ Hi).
  pose proof (ri_chain _ _ Hi) as Hch. destruct q as [|c' q]; [by apply not_elem_of_nil in Hin|].
  destruct Hch as (x & m & Hx & Ha & Hm & _ & Hch). cbn. rewrite Hx. apply elem_of_cons in Hin as [->|Hin].
  - rewrite Hc in Hx. injection Hx as <-. cbn in *. injection Ha as -> ->. ring_lia.
  - destruct (chain_in _ _ _ _ _ _ _ b n Hch Hin Hc eq_refl). destruct x; cbn in *; try ring_lia. injection Ha as -> ->. ring_lia.
Qed.

(** Entries that are being filled are reserved and not reported. *)
Lemma filling_between s q c b n k : rx_inv s q -> rr_cores s !! c = Some (Filling b n k) -> rr_used s <= b /\ b + n <= rr_res s.
Proof.
  intros Hi Hc. split; [by eapply filling_unreported|]. assert (c ∈ q) as Hin by (apply (ri_all _ _ Hi _ _ Hc); by eexists).
  by destruct (chain_in _ _ _ _ _ _ _ b n (ri_chain _ _ Hi) Hin Hc eq_refl) as (_ & ? & _).
Qed.

(** Entries less than a round apart are in different slots. *)
Lemma slots_differ k x y : 0 <= k <= 16 -> x <> y -> x - 2 ^ k < y < x + 2 ^ k -> Z.land (u16 x) (2 ^ k - 1) <> Z.land (u16 y) (2 ^ k - 1).
Proof.
  intros Hk Hne Hxy. rewrite !slot_u16, !land_mask by ring_lia. intros He.
  assert (0 < 2 ^ k) as Hp by ring_lia. pose proof (Z.div_mod x (2 ^ k) ltac:(ring_lia)) as Hx. pose proof (Z.div_mod y (2 ^ k) ltac:(ring_lia)) as Hy.
  rewrite He in Hx. revert Hp Hx Hy Hxy. generalize (2 ^ k), (x / 2 ^ k), (y / 2 ^ k), (y mod 2 ^ k). intros M a b r ????.
  apply Hne. destruct (Z.lt_trichotomy a b) as [Hab|[->|Hab]]; [|ring_lia|]; exfalso; [assert (M * (a + 1) <= M * b)|assert (M * (b + 1) <= M * a)]; (apply Z.mul_le_mono_nonneg_l || idtac); ring_lia.
Qed.

(** ** Reservations: properties *)

(** C3: However cores and guest interleave around vhost_enqueue_burst, where
    the guest offers entries up to the used index it sees plus the size of the
    ring, and if no core sleeps through 2^16 reservations: what is reserved
    was offered by the guest; two cores that are filling entries never write
    the same slot of the used ring; and the used index that the guest sees
    does not reach an entry that is still being filled. *)
Theorem rx_reservations_safe k n s :
  0 <= k <= 15 -> rx_reach (rx_start (2 ^ k) n) s ->
  rr_last s <= rr_used s <= rr_res s /\ rr_res s <= rr_avail s <= rr_used s + 2 ^ k /\
  (forall c b m j, rr_cores s !! c = Some (Filling b m j) -> rr_used s <= b /\ b + m <= rr_res s) /\
  forall c1 c2 b1 n1 k1 b2 n2 k2 i j, c1 <> c2 ->
    rr_cores s !! c1 = Some (Filling b1 n1 k1) -> rr_cores s !! c2 = Some (Filling b2 n2 k2) -> 0 <= i < n1 -> 0 <= j < n2 ->
    Z.land (u16 (b1 + i)) (rr_size s - 1) <> Z.land (u16 (b2 + j)) (rr_size s - 1).
Proof.
  intros Hk Hr. assert (0 < 2 ^ k <= 2 ^ 15) as Hs by (split; [ring_lia|apply Z.pow_le_mono_r; ring_lia]).
  assert (rr_size s = 2 ^ k) as Hsz.
  { clear Hs. induction Hr as [|e s1 s2 _ IH _ Hs]; [done|]. rewrite <- IH. clear IH. destruct e as [m|c m|c]; cbn [rx_step] in Hs.
    - destruct (_ && _); [by injection Hs as <-|done].
    - destruct (rr_cores s1 !! c) as [[]|]; try done. destruct (0 <? m); [by injection Hs as <-|done].
    - destruct (rr_cores s1 !! c) as [x|]; [|done]. injection Hs as <-. destruct x; cbn [rx_run]; try done; by repeat case_match. }
  destruct (rx_reach_inv _ _ _ (rx_start_inv _ n Hs) Hr) as [q Hi].
  pose proof (ri_used _ _ Hi) as Hu. pose proof (turn_range _ _ Hi). pose proof (ri_avail _ _ Hi) as Hav. rewrite Hsz in Hav.
  split; [ring_lia|]. split; [ring_lia|]. split.
  - intros c b m j Hc. by eapply filling_between.
  - intros c1 c2 b1 n1 k1 b2 n2 k2 i j Hne Hx1 Hx2 Hi1 Hj. rewrite Hsz.
    destruct (filling_between _ _ _ _ _ _ Hi Hx1), (filling_between _ _ _ _ _ _ Hi Hx2).
    assert (c1 ∈ q) as Hc1 by (apply (ri_all _ _ Hi _ _ Hx1); by eexists). assert (c2 ∈ q) as Hc2 by (apply (ri_all _ _ Hi _ _ Hx2); by eexists).
    pose proof (chain_apart _ _ _ _ _ _ _ _ _ _ _ _ _ (ri_chain _ _ Hi) (ri_nodup _ _ Hi) Hc1 Hc2 Hne Hx1 eq_refl Hx2 eq_refl).
    apply slots_differ; ring_lia.
Qed.

(** C37: waiting for a turn ends: whenever a core holds reserved entries, there
    is one that does not wait for another; running it reports entries and
    passes the turn on. *)
Theorem rx_turns_progress k n s c x :
  0 <= k <= 15 -> rx_reach (rx_start (2 ^ k) n) s -> rr_cores s !! c = Some x -> is_Some (active x) ->
  exists c' j s', rx_run_all (replicate j (Run c')) s = Some s' /\ rr_last s < rr_last s' /\ rr_cores s' !! c' = Some Away /\
    rr_used s' = rr_last s'.
Proof.
  intros Hk Hr Hc Ha. assert (0 < 2 ^ k <= 2 ^ 15) as Hs by (split; [ring_lia|apply Z.pow_le_mono_r; ring_lia]).
  destruct (rx_reach_inv _ _ _ (rx_start_inv _ n Hs) Hr) as [q Hi]. pose proof (ri_all _ _ Hi _ _ Hc Ha) as Hin.
  destruct q as [|c' q]; [by apply not_elem_of_nil in Hin|]. exists c'. by eapply first_finishes.
Qed.

(** One burst of 32 packets by core 1, from the offer to the report. *)
Definition burst_of_1 : list rx_event := Offer 32 :: Enter 1 32 :: replicate 37 (Run 1).

(** the compare-and-set is of 16 bits: a core that sleeps between reading
    the indices and setting them, while another goes once around the index,
    succeeds and reserves an entry that the guest did not offer. *)
Theorem rx_stale_reservation :
  exists es s, rx_run_all es (rx_start 256 2) = Some s /\ rr_avail s < rr_res s /\ rr_cores s !! 0%nat = Some (Filling (2 ^ 16) 31 0).
Proof.
  exists (Offer 31 :: Enter 0 31 :: Run 0 :: Run 0 :: Enter 1 31 :: replicate 36 (Run 1) ++ Offer 1 :: Enter 1 1 :: replicate 6 (Run 1) ++
    concat (replicate (Z.to_nat 2047) burst_of_1) ++ [Run 0]).
  eexists. split; [vm_compute; reflexivity|]. split; reflexivity.
Qed.

(** ** Removal: the invariant *)

Lemma port_index_cons name q l :
  port_index name (q :: l) = if vhost_name_match name q.1 then Some 0%nat else S <$> port_index name l.
Proof.
  unfold port_index. cbn [list_find]. destruct (vhost_name_match name q.1) eqn:Hm; [by rewrite decide_True|].
  rewrite decide_False by congruence. by destruct (list_find _ l) as [[]|].
Qed.

Lemma set_port_dev_index name p l : set_port_dev name p l = (fun i => alter (fun q => (q.1, p)) i l) <$> port_index name l.
Proof.
  induction l as [|[n old] l IH]; [done|]. rewrite port_index_cons. cbn [set_port_dev fst].
  destruct (vhost_name_match name n); [done|]. rewrite IH. by destruct (port_index name l).
Qed.

Lemma port_index_names name l l' : fst <$> l' = fst <$> l -> port_index name l' = port_index name l.
Proof.
  revert l'. induction l as [|q l IH]; intros [|q' l']; try done. rewrite !fmap_cons, !port_index_cons. intros [= -> Hl]. by rewrite (IH l').
Qed.

Lemma alter_names (p : option Z) i (l : list vhost_port) : fst <$> alter (fun q => (q.1, p)) i l = fst <$> l.
Proof. revert i. induction l as [|q l IH]; intros [|i]; try done. rewrite fmap_cons. cbn. f_equal. apply IH. Qed.

(** The ports after the one with a name was given the device [p]. *)
Lemma set_port_dev_lookup name p l l' :
  set_port_dev name p l = Some l' -> exists i, port_index name l = Some i /\ fst <$> l' = fst <$> l /\
    forall v nm q, l' !! v = Some (nm, q) -> (v = i /\ q = p) \/ (v <> i /\ l !! v = Some (nm, q)).
Proof.
  rewrite set_port_dev_index. destruct (port_index name l) as [i|]; [|done]. cbn. intros [= <-]. exists i. split; [done|].
  split; [apply alter_names|]. intros v nm q Hv. destruct (decide (v = i)) as [->|Hne].
  - left. rewrite list_lookup_alter_eq in Hv. apply fmap_Some in Hv as (y & _ & [= _ ->]). done.
  - right. by rewrite list_lookup_alter_ne in Hv.
Qed.

(** Every core has a flag. *)
Record rm_base (s : removal) : Prop := {
  mb_len : length (rm_flags s) = length (rm_cores s);
  mb_flags : Forall (fun f => f = ACK_DEV_REMOVAL \/ f = REQUEST_DEV_REMOVAL) (rm_flags s)
}.

(** A core that can still hold the device. *)
Definition may_hold (s : removal) (c : nat) : Prop :=
  match rm_pc s with
  | RIdle => True
  | Requesting _ i => (c < i)%nat -> rm_flags s !! c <> Some ACK_DEV_REMOVAL
  | Waiting _ i => (i <= c)%nat /\ rm_flags s !! c <> Some ACK_DEV_REMOVAL
  | Mapping _ | Unmapping => False
  end.

Record rm_inv (s : removal) : Prop := {
  mi_base : rm_base s;
  mi_run : rm_running s = true -> rm_mapped s = true /\ is_Some (port_index (rm_name s) (rm_ports s));
  mi_ptr : forall v nm, rm_ports s !! v = Some (nm, Some DEV) ->
    rm_running s = true /\ rm_pc s = RIdle /\ port_index (rm_name s) (rm_ports s) = Some v;
  mi_pc : match rm_pc s with
          | RIdle => True
          | Requesting _ i => (i <= length (rm_flags s))%nat /\ rm_running s = true
          | Waiting _ _ => rm_running s = true
          | Mapping _ | Unmapping => rm_running s = false
          end;
  mi_hold : forall c, rm_cores s !! c = Some (InLoop true) -> rm_running s = true /\ may_hold s c
}.

Lemma rm_base_core c x s : rm_base s -> rm_base (set_core c x s).
Proof. intros [H1 H2]. split; cbn; [by rewrite length_insert|done]. Qed.

Lemma rm_base_flag i f s : f = ACK_DEV_REMOVAL \/ f = REQUEST_DEV_REMOVAL -> rm_base s -> rm_base (set_rm_flags (<[i := f]> (rm_flags s)) s).
Proof. intros Hf [H1 H2]. split; cbn; [by rewrite length_insert|by apply Forall_insert]. Qed.

Lemma rm_base_same s s' : rm_base s -> rm_flags s' = rm_flags s -> rm_cores s' = rm_cores s -> rm_base s'.
Proof. intros [H1 H2] Hf Hc. split; by rewrite ?Hf, ?Hc. Qed.

Lemma config_run_base s s' : rm_base s -> config_run s = Some s' -> rm_base s'.
Proof.
  intros Hb. unfold config_run. destruct (rm_pc s) as [|ok|r i|r i|]; [done| | | |].
  - intros [= <-]. by apply (rm_base_same s).
  - case_decide; intros [= <-]; [|by apply (rm_base_same s)].
    eapply (rm_base_same (set_rm_flags (<[i := REQUEST_DEV_REMOVAL]> (rm_flags s)) s)); [|done|done]. apply rm_base_flag; [by right|done].
  - destruct (rm_flags s !! i) as [f|]; [destruct (f =? _)|]; intros [= <-]; by apply (rm_base_same s).
  - intros [= <-]. by apply (rm_base_same s).
Qed.

Lemma config_call_base e s s' : rm_base s -> config_call e s = Some s' -> rm_base s'.
Proof.
  intros Hb. destruct e; cbn [config_call]; try done; repeat case_match; try done; intros [= <-]; by apply (rm_base_same s).
Qed.

Lemma rm_step_base e s s' : rm_base s -> rm_step e s = Some s' -> rm_base s'.
Proof.
  intros Hb. destruct e as [ok|tap|r| | |nm p|v nm|c|c v|c|c]; cbn [rm_step].
  1-4: destruct (rm_pc s); [by apply config_call_base|done..].
  - by apply config_run_base.
  - case_decide; [done|]. destruct (set_port_dev _ _ _); [|done]. intros [= <-]. by apply (rm_base_same s).
  - intros [= <-]. by apply (rm_base_same s).
  - destruct (rm_cores s !! c) as [[]|]; [|done..]. destruct (rm_flags s !! c) as [f|]; [|done]. intros [= <-]. apply rm_base_core.
    destruct (f =? _); [|by apply (rm_base_same s)]. apply rm_base_flag; [by left|done].
  - destruct (rm_cores s !! c) as [[|[]]|]; try done. destruct (rm_ports s !! v) as [[]|]; [|done]. intros [= <-]. by apply rm_base_core.
  - destruct (rm_cores s !! c) as [[|[]]|]; try done. intros [= <-]. by apply rm_base_core.
  - destruct (rm_cores s !! c) as [[|[]]|]; try done. intros [= <-]. by apply rm_base_core.
Qed.

Lemma rm_reach_base g s s' : rm_base s -> rm_reach g s s' -> rm_base s'.
Proof. intros Hb. induction 1 as [|e s1 s2 _ IH _ Hs]; [done|]. by eapply rm_step_base. Qed.

Lemma rm_start_base names n : rm_base (rm_start names n).
Proof. split; cbn; [by rewrite !length_replicate|apply Forall_replicate; by left]. Qed.

Lemma rm_inv_core s c x :
  rm_inv s -> (x = InLoop true -> rm_running s = true /\ may_hold s c) -> rm_inv (set_core c x s).
Proof.
  intros [H1 H2 H3 H4 H5] Hx. split; cbn; try done; [by apply rm_base_core|]. intros c' Hc'. destruct (decide (c' = c)) as [->|Hne].
  - apply list_lookup_insert_Some in Hc' as [(_ & -> & _)|[? _]]; [by apply Hx|done].
  - rewrite list_lookup_insert_ne in Hc' by done. by apply H5.
Qed.

Lemma rm_inv_top s c f :
  rm_inv s -> rm_cores s !! c = Some Top -> rm_flags s !! c = Some f ->
  rm_inv (set_core c (InLoop false) (set_rm_flags (if f =? REQUEST_DEV_REMOVAL then <[c := ACK_DEV_REMOVAL]> (rm_flags s) else rm_flags s) s)).
Proof.
  intros [H1 H2 H3 H4 H5] Hc Hf. set (fl := if f =? REQUEST_DEV_REMOVAL then _ else _).
  assert (length fl = length (rm_flags s)) as Hl by (subst fl; destruct (f =? _); by rewrite ?length_insert).
  split; cbn; rewrite ?Hl; try done.
  - apply (rm_base_core c (InLoop false) (set_rm_flags fl s)). subst fl. destruct (f =? _); [|by apply (rm_base_same s)].
    apply rm_base_flag; [by left|done].
  - intros c' Hc'. destruct (decide (c' = c)) as [->|Hne].
    + by rewrite list_lookup_insert_eq in Hc' by (by eapply lookup_lt_Some).
    + rewrite list_lookup_insert_ne in Hc' by done. destruct (H5 c' Hc') as [? Hm]. split; [done|].
      assert (fl !! c' = rm_flags s !! c') as Hfl by (subst fl; destruct (f =? _); by rewrite ?list_lookup_insert_ne).
      unfold may_hold in *. cbn. by rewrite Hfl.
Qed.

(** The configuration thread goes on, keeping the device from nobody but the
    cores that have acknowledged. *)
Lemma rm_inv_config s s' : rm_inv s -> config_run s = Some s' -> rm_inv s'.
Proof.
  intros [H1 H2 H3 H4 H5] Hs. pose proof (config_run_base _ _ H1 Hs) as Hb. destruct H1 as [Hlen _]. revert Hs Hb. unfold config_run.
  assert (rm_pc s <> RIdle -> forall v nm, rm_ports s !! v <> Some (nm, Some DEV)) as Hno by (intros Hne v nm Hv; by destruct (H3 v nm Hv) as (_ & ? & _)).
  destruct (rm_pc s) as [|ok|r i|r i|] eqn:Hpc; [done| | | |].
  - intros [= <-] Hb. split; cbn; try done; [by rewrite H4|intros v nm Hv; by destruct (Hno ltac:(done) v nm)|].
    intros c Hc. destruct (H5 c Hc). congruence.
  - case_decide as Hi; intros [= <-] Hb.
    + split; cbn; rewrite ?length_insert; try done; [intros v nm Hv; by destruct (Hno ltac:(done) v nm)|split; [lia|apply H4]|].
      intros c Hc. destruct (H5 c Hc) as [? Hm]. split; [done|]. unfold may_hold in *. rewrite Hpc in Hm. cbn. intros Hlt.
      destruct (decide (c = i)) as [->|Hne]; [by rewrite list_lookup_insert_eq|]. rewrite list_lookup_insert_ne by done. apply Hm. lia.
    + split; cbn; try done; [intros v nm Hv; by destruct (Hno ltac:(done) v nm)|by apply H4|]. intros c Hc. destruct (H5 c Hc) as [? Hm].
      split; [done|]. unfold may_hold in *. rewrite Hpc in Hm. cbn. split; [lia|]. apply Hm. apply lookup_lt_Some in Hc. lia.
  - destruct (rm_flags s !! i) as [f|] eqn:Hf.
    + destruct (Z.eqb_spec f ACK_DEV_REMOVAL) as [->|Hne]; intros [= <-] Hb; [|split; try done; by rewrite ?Hpc].
      split; cbn; try done; [intros v nm Hv; by destruct (Hno ltac:(done) v nm)|]. intros c Hc. destruct (H5 c Hc) as [? Hm].
      split; [done|]. unfold may_hold in *. rewrite Hpc in Hm. cbn. destruct Hm as [Hle Hm]. split; [|done].
      destruct (decide (c = i)) as [->|Hne]; [by rewrite Hf in Hm|lia].
    + intros [= <-] Hb. assert (forall c, rm_cores s !! c <> Some (InLoop true)) as Hnc.
      { intros c Hc. destruct (H5 c Hc) as [_ Hm]. unfold may_hold in Hm. rewrite Hpc in Hm. apply lookup_ge_None in Hf. apply lookup_lt_Some in Hc. lia. }
      split; cbn; try done; [intros v nm Hv; by destruct (Hno ltac:(done) v nm)|by destruct r|intros c Hc; by destruct (Hnc c)].
  - intros [= <-] Hb. split; cbn; try done; [intros v nm Hv; by destruct (Hno ltac:(done) v nm)|].
    intros c Hc. destruct (H5 c Hc). congruence.
Qed.

(** Nobody has a device that does not run. *)
Lemma rm_inv_idle s name mapped pc :
  rm_inv s -> rm_running s = false -> match pc with Requesting _ _ | Waiting _ _ => False | _ => True end ->
  rm_inv (set_config name false mapped pc s).
Proof.
  intros [H1 H2 H3 H4 H5] Hr Hpc. split; cbn; try done.
  - by apply (rm_base_same s).
  - intros v nm Hv. destruct (H3 v nm Hv). congruence.
  - by destruct pc.
  - intros c Hc. destruct (H5 c Hc). congruence.
Qed.

Lemma rm_inv_up s tap s' : rm_inv s -> rm_pc s = RIdle -> config_call (DeviceUp tap) s = Some s' -> rm_inv s'.
Proof.
  intros Hi Hpc. cbn [config_call]. destruct (rm_running s) eqn:Hr; [done|]. destruct (rm_mapped s) eqn:Hm; [|done]. cbn [orb negb].
  set (name := tap ++ _). destruct (set_port_dev name (Some DEV) (rm_ports s)) as [l|] eqn:El; intros [= <-]; [|by apply rm_inv_idle].
  destruct (set_port_dev_lookup _ _ _ _ El) as (i & Hix & Hnames & Hl). pose proof Hi as [H1 H2 H3 H4 H5].
  assert (port_index name l = Some i) as Hix' by (by rewrite (port_index_names name (rm_ports s))).
  split; cbn; try done.
  - by apply (rm_base_same s).
  - intros v nm Hv. destruct (Hl _ _ _ Hv) as [[-> _]|[_ Hv']]; [done|]. destruct (H3 _ _ Hv'). congruence.
Qed.

Lemma rm_inv_down s r s' : rm_inv s -> rm_pc s = RIdle -> config_call (DeviceDown r) s = Some s' -> rm_inv s'.
Proof.
  intros Hi Hpc. pose proof Hi as [H1 H2 H3 H4 H5]. cbn [config_call]. destruct (rm_running s) eqn:Hr.
  - destruct (H2 eq_refl) as [Hm [i Hix]]. destruct (set_port_dev (rm_name s) None (rm_ports s)) as [l|] eqn:El.
    2:{ rewrite set_port_dev_index, Hix in El. done. }
    intros [= <-]. destruct (set_port_dev_lookup _ _ _ _ El) as (i' & Hix' & Hnames & Hl). split; cbn; try done.
    + by apply (rm_base_same s).
    + intros _. split; [done|]. by rewrite (port_index_names _ (rm_ports s)).
    + intros v nm Hv. destruct (Hl _ _ _ Hv) as [[_ ?]|[Hne Hv']]; [done|]. destruct (H3 _ _ Hv') as (_ & _ & ?). congruence.
    + split; [lia|done].
    + intros c Hc. split; [done|]. unfold may_hold. cbn. lia.
  - destruct r; [|done]. intros [= <-]. unfold set_rm_pc. rewrite Hr. by apply rm_inv_idle.
Qed.

(** The vports change, and the name of the device still finds the same one. *)
Lemma rm_inv_ports s l :
  rm_inv s -> (rm_running s = true -> port_index (rm_name s) l = port_index (rm_name s) (rm_ports s)) ->
  (forall v nm, l !! v = Some (nm, Some DEV) -> exists nm', rm_ports s !! v = Some (nm', Some DEV)) -> rm_inv (set_rm_ports l s).
Proof.
  intros [H1 H2 H3 H4 H5] Hix Hl. split; cbn; try done.
  - by apply (rm_base_same s).
  - intros Hr. rewrite Hix by done. by apply H2.
  - intros v nm Hv. destruct (Hl _ _ Hv) as [nm' Hv']. destruct (H3 _ _ Hv') as (Hr & ? & ?). by rewrite Hix.
Qed.

Lemma rm_step_inv e s s' : rm_inv s -> orderly e s = true -> rm_step e s = Some s' -> rm_inv s'.
Proof.
  intros Hi Ho. destruct e as [ok|tap|r| | |nm p|v nm|c|c v|c|c]; cbn [rm_step].
  - destruct (rm_pc s) eqn:Hpc; try done. cbn in Ho. apply negb_true_iff in Ho. intros [= <-]. rewrite Ho. by apply rm_inv_idle.
  - destruct (rm_pc s) eqn:Hpc; try done. by apply rm_inv_up.
  - destruct (rm_pc s) eqn:Hpc; try done. by apply rm_inv_down.
  - destruct (rm_pc s) eqn:Hpc; try done. cbn in Ho. apply negb_true_iff in Ho. intros [= <-]. by apply rm_inv_idle.
  - by apply rm_inv_config.
  - case_decide as Hp; [done|]. destruct (set_port_dev nm p (rm_ports s)) as [l|] eqn:El; [|done]. intros [= <-].
    destruct (set_port_dev_lookup _ _ _ _ El) as (i & _ & Hnames & Hl). apply rm_inv_ports; [done|by rewrite (port_index_names _ (rm_ports s))|].
    intros v nm' Hv. destruct (Hl _ _ _ Hv) as [[_ ?]|[_ ?]]; [done|by exists nm'].
  - intros [= <-]. apply rm_inv_ports; [done| |].
    + intros Hr. cbn in Ho. rewrite Hr in Ho. by apply bool_decide_eq_true in Ho.
    + intros w nm' Hw. destruct (decide (w = v)) as [->|Hne]; [|rewrite list_lookup_alter_ne in Hw by done; by exists nm'].
      rewrite list_lookup_alter_eq in Hw. apply fmap_Some in Hw as ([nm0 q] & Hv & [= _ ->]). by exists nm0.
  - destruct (rm_cores s !! c) as [[]|] eqn:Hc; try done. destruct (rm_flags s !! c) as [f|] eqn:Hf; [|done]. intros [= <-]. by apply rm_inv_top.
  - destruct (rm_cores s !! c) as [[|[]]|] eqn:Hc; try done. destruct (rm_ports s !! v) as [[nm p]|] eqn:Hv; [|done]. intros [= <-].
    apply rm_inv_core; [done|]. intros [= ->%bool_decide_eq_true]. destruct (mi_ptr _ Hi _ _ Hv) as (? & Hpc & _). unfold may_hold. by rewrite Hpc.
  - destruct (rm_cores s !! c) as [[|[]]|] eqn:Hc; try done. intros [= <-]. by apply rm_inv_core.
  - destruct (rm_cores s !! c) as [[|[]]|] eqn:Hc; try done. intros [= <-]. by apply rm_inv_core.
Qed.

Lemma rm_start_inv names n : rm_inv (rm_start names n).
Proof.
  split; cbn; try done; [apply rm_start_base| |by intros c [? _]%lookup_replicate].
  intros v nm Hv. rewrite list_lookup_fmap in Hv. apply fmap_Some in Hv as (? & _ & [=]).
Qed.

Lemma rm_reach_inv s s' : rm_inv s -> rm_reach orderly s s' -> rm_inv s'.
Proof. intros Hi. induction 1 as [|e s1 s2 _ IH Ho Hs]; [done|]. by eapply rm_step_inv. Qed.

(** ** Removal: completion *)

(** The configuration thread and the cores go on, and no core takes a device. *)
Definition goes_on (e : rm_event) : Prop := match e with ConfigRun | CoreTop _ | CoreDrop _ | CoreEnd _ => True | _ => False end.

(** The removal can be completed; with a [release], the memory is unmapped. *)
Definition can_finish (release : bool) (s : removal) : Prop :=
  exists es s', Forall goes_on es /\ rm_run_all es s = Some s' /\ rm_pc s' = RIdle /\ rm_running s' = false /\
    (release = true -> rm_mapped s' = false).

Lemma rm_run_all_app es es' s s1 : rm_run_all es s = Some s1 -> rm_run_all (es ++ es') s = rm_run_all es' s1.
Proof.
  revert s. induction es as [|e es IH]; intros s; cbn [rm_run_all app]; [by intros [= ->]|]. destruct (rm_step e s); [|done]. apply IH.
Qed.

Lemma rm_run_all_base es s s' : rm_base s -> rm_run_all es s = Some s' -> rm_base s'.
Proof.
  revert s. induction es as [|e es IH]; intros s Hi; cbn [rm_run_all]; [by intros [= <-]|].
  destruct (rm_step e s) as [s1|] eqn:E; [|done]. apply IH. by eapply rm_step_base.
Qed.

Lemma finish_run release es s s1 : Forall goes_on es -> rm_run_all es s = Some s1 -> can_finish release s1 -> can_finish release s.
Proof.
  intros Hes Hr (es' & s' & Hes' & Hr' & H). exists (es ++ es'), s'. split; [by apply Forall_app|]. by rewrite (rm_run_all_app _ _ _ _ Hr).
Qed.

Lemma finish_config release s s1 : config_run s = Some s1 -> can_finish release s1 -> can_finish release s.
Proof. intros Hs. apply (finish_run release [ConfigRun]); [by repeat constructor|]. cbn [rm_run_all rm_step]. by rewrite Hs. Qed.

(** A core that goes on acknowledges the request at the top of its loop. *)
Lemma core_acknowledges s c f x :
  rm_cores s !! c = Some x -> rm_flags s !! c = Some f -> (f = ACK_DEV_REMOVAL \/ f = REQUEST_DEV_REMOVAL) ->
  exists es s1, Forall goes_on es /\ rm_run_all es s = Some s1 /\ rm_pc s1 = rm_pc s /\ length (rm_flags s1) = length (rm_flags s) /\
    rm_flags s1 !! c = Some ACK_DEV_REMOVAL.
Proof.
  intros Hc Hf Hor. assert (c < length (rm_cores s))%nat as Hlt by (by eapply lookup_lt_Some).
  assert (forall s, rm_cores s !! c = Some Top -> rm_flags s !! c = Some f ->
    exists s1, rm_step (CoreTop c) s = Some s1 /\ rm_pc s1 = rm_pc s /\ length (rm_flags s1) = length (rm_flags s) /\
      rm_flags s1 !! c = Some ACK_DEV_REMOVAL) as Htop.
  { intros s0 Hc0 Hf0. cbn [rm_step]. rewrite Hc0, Hf0. assert (c < length (rm_flags s0))%nat by (by eapply lookup_lt_Some).
    eexists. split; [done|]. cbn. destruct Hor as [->| ->]; cbn; rewrite ?length_insert; split_and!; try done. by rewrite list_lookup_insert_eq. }
  assert (forall h s, rm_cores s !! c = Some (InLoop h) ->
    rm_step (if h then CoreDrop c else CoreEnd c) s = Some (set_core c (if h then InLoop false else Top) s)) as Hstep.
  { intros h s0 H0. destruct h; cbn [rm_step]; by rewrite H0. }
  destruct x as [|[]].
  - destruct (Htop s Hc Hf) as (s1 & Hs & ?). exists [CoreTop c], s1. split; [by repeat constructor|]. cbn [rm_run_all]. by rewrite Hs.
  - set (s0 := set_core c Top (set_core c (InLoop false) s)).
    destruct (Htop s0) as (s1 & Hs & ?); [cbn; apply list_lookup_insert_eq; by rewrite length_insert|done|].
    exists [CoreDrop c; CoreEnd c; CoreTop c], s1. split; [by repeat constructor|]. cbn [rm_run_all]. rewrite (Hstep true s Hc).
    rewrite (Hstep false) by (cbn; by apply list_lookup_insert_eq). change (set_core c Top _) with s0. by rewrite Hs.
  - destruct (Htop (set_core c Top s)) as (s1 & Hs & ?); [cbn; by apply list_lookup_insert_eq|done|].
    exists [CoreEnd c; CoreTop c], s1. split; [by repeat constructor|]. cbn [rm_run_all]. rewrite (Hstep false s Hc). by rewrite Hs.
Qed.

Lemma unmapping_finishes release s : rm_pc s = Unmapping -> can_finish release s.
Proof.
  intros Hpc. exists [ConfigRun], (set_config [] false false RIdle s). split; [by repeat constructor|]. cbn [rm_run_all rm_step].
  unfold config_run. by rewrite Hpc.
Qed.

Lemma waiting_finishes k release s i : rm_base s -> rm_pc s = Waiting release i -> (length (rm_flags s) - i = k)%nat -> can_finish release s.
Proof.
  revert s i. induction k as [|k IH]; intros s i Hb Hpc Hk.
  - eapply finish_config; [unfold config_run; rewrite Hpc, (proj2 (lookup_ge_None _ _)) by lia; done|].
    destruct release; [by apply unmapping_finishes|]. by exists [], (stopped false s).
  - destruct (lookup_lt_is_Some_2 (rm_flags s) i) as [f Hf]; [lia|]. destruct (lookup_lt_is_Some_2 (rm_cores s) i) as [x Hx].
    { rewrite <- (mb_len _ Hb). lia. }
    pose proof (proj1 (Forall_lookup _ _) (mb_flags _ Hb) _ _ Hf) as Hor. cbv beta in Hor.
    destruct (core_acknowledges s i f x Hx Hf Hor) as (es & s1 & Hes & Hr & Hpc1 & Hl1 & Hf1).
    eapply finish_run; [exact Hes|exact Hr|]. pose proof (rm_run_all_base _ _ _ Hb Hr) as Hb1. rewrite Hpc in Hpc1.
    assert (config_run s1 = Some (set_rm_pc (Waiting release (S i)) s1)) as Hs by (unfold config_run; by rewrite Hpc1, Hf1).
    eapply finish_config; [exact Hs|]. apply (IH _ (S i)); [by eapply config_run_base|done|cbn; lia].
Qed.

Lemma requesting_finishes k release s i :
  rm_base s -> rm_pc s = Requesting release i -> (length (rm_flags s) - i = k)%nat -> can_finish release s.
Proof.
  revert s i. induction k as [|k IH]; intros s i Hb Hpc Hk.
  - assert (config_run s = Some (set_rm_pc (Waiting release 0) s)) as Hs by (unfold config_run; rewrite Hpc, decide_False by lia; done).
    eapply finish_config; [exact Hs|]. eapply waiting_finishes; [by eapply config_run_base|done|done].
  - assert (config_run s = Some (set_rm_pc (Requesting release (S i)) (set_rm_flags (<[i := REQUEST_DEV_REMOVAL]> (rm_flags s)) s))) as Hs
      by (unfold config_run; rewrite Hpc, decide_True by lia; done).
    eapply finish_config; [exact Hs|]. apply (IH _ (S i)); [by eapply config_run_base|done|cbn; rewrite length_insert; lia].
Qed.

(** ** Removal: properties *)

(** C4: However the cores, the configuration thread, other devices and the
    daemon interleave, over any number of additions and removals, no core
    holds the device while its guest's memory is not mapped or is about to be
    unmapped; provided that the memory and the owner of a device are changed
    only while it does not run, and that no vport is renamed so that the name
    of a running device finds another vport or none. *)
Theorem device_removal_safe names n s c :
  rm_reach orderly (rm_start names n) s -> rm_cores s !! c = Some (InLoop true) ->
  rm_mapped s = true /\ rm_pc s <> Unmapping /\ forall ok, rm_pc s <> Mapping ok.
Proof.
  intros Hr Hc. pose proof (rm_reach_inv _ _ (rm_start_inv names n) Hr) as Hi. destruct (mi_hold _ Hi c Hc) as [Hrun Hm].
  split; [by apply (mi_run _ Hi)|]. unfold may_hold in Hm. by destruct (rm_pc s).
Qed.

(** C36: Removal does not block: whatever was called before, whenever the
    configuration thread is in a call, the call can be completed by letting
    each core reach the top of its loop; then a device that was being removed
    is stopped, and its memory unmapped if it is released. *)
Theorem device_removal_completes names n s :
  rm_reach anything (rm_start names n) s -> rm_pc s <> RIdle ->
  exists es s', Forall goes_on es /\ rm_run_all es s = Some s' /\ rm_pc s' = RIdle /\
    match rm_pc s with
    | Requesting release _ | Waiting release _ => rm_running s' = false /\ (release = true -> rm_mapped s' = false)
    | Unmapping => rm_mapped s' = false
    | Mapping ok => rm_mapped s' = ok
    | RIdle => False
    end.
Proof.
  intros Hr Hne. pose proof (rm_reach_base _ _ _ (rm_start_base names n) Hr) as Hb. destruct (rm_pc s) as [|ok|r i|r i|] eqn:Hpc; [done| | | |].
  - exists [ConfigRun], (set_config (rm_name s) (rm_running s) ok RIdle s). split; [by repeat constructor|]. cbn [rm_run_all rm_step].
    unfold config_run. by rewrite Hpc.
  - by eapply requesting_finishes.
  - by eapply waiting_finishes.
  - destruct (unmapping_finishes true s Hpc) as (es & s' & ? & ? & ? & _ & ?). exists es, s'. split_and!; auto.
Qed.

(** Each of the conditions is needed.  A core holds the device, and the memory is
    replaced or the owner reset, which do not ask the cores; or the vport is
    renamed, and [destroy_device] returns without asking them. *)
Definition held_after (es : list rm_event) : option (bool * option core_pc) :=
  (fun s => (rm_mapped s, rm_cores s !! 0%nat)) <$>
    rm_run_all ([SetMemTable true; ConfigRun; DeviceUp [118]; CoreTop 0; CoreTake 0 0] ++ es) (rm_start [[118]] 1).

Theorem unmapped_while_held :
  held_after [SetMemTable true] = Some (false, Some (InLoop true)) /\
  held_after [ResetOwner] = Some (false, Some (InLoop true)) /\
  held_after [Rename 0 [119]; DeviceDown true; ConfigRun] = Some (false, Some (InLoop true)).
Proof. split_and!; vm_compute; reflexivity. Qed.

(** ** Examples *)

Fixpoint rx_run_fresh (es : list rx_event) (s : rx_ring) : option rx_ring :=
  match es with
  | [] => Some s
  | e :: es => if fresh e s then match rx_step e s with Some s => rx_run_fresh es s | None => None end else None
  end.

Lemma rx_run_fresh_reach es s0 s s' : rx_reach s0 s -> rx_run_fresh es s = Some s' -> rx_reach s0 s'.
Proof.
  revert s. induction es as [|e es IH]; intros s Hr; cbn [rx_run_fresh]; [by intros [= <-]|].
  destruct (fresh e s) eqn:Hf; [|done]. destruct (rx_step e s) as [s1|] eqn:Hs; [|done]. apply IH. by eapply rx_next.
Qed.

Fixpoint rm_run_guarded (guard : rm_event -> removal -> bool) (es : list rm_event) (s : removal) : option removal :=
  match es with
  | [] => Some s
  | e :: es => if guard e s then match rm_step e s with Some s => rm_run_guarded guard es s | None => None end else None
  end.

Lemma rm_run_guarded_reach g es s0 s s' : rm_reach g s0 s -> rm_run_guarded g es s = Some s' -> rm_reach g s0 s'.
Proof.
  revert s. induction es as [|e es IH]; intros s Hr; cbn [rm_run_guarded]; [by intros [= <-]|].
  destruct (g e s) eqn:Hg; [|done]. destruct (rm_step e s) as [s1|] eqn:Hs; [|done]. apply IH. by eapply rm_next.
Qed.

(** Two cores in the ring: the second has filled its entries and waits. *)
Definition two_cores : rx_ring := RxRing 8 6 5 0 0 [Filling 0 3 1; Filling 3 2 2].

Lemma two_cores_reached : rx_reach (rx_start (2 ^ 3) 2) two_cores.
Proof.
  eapply (rx_run_fresh_reach ([Offer 6; Enter 0 3; Enter 1 2; Run 0; Run 1; Run 0; Run 1; Run 0; Run 1; Run 1; Run 1; Run 1; Run 1; Run 1; Run 0]));
    [apply rx_refl|vm_compute; reflexivity].
Qed.

Lemma rx_reservations_safe_witness :
  (rr_last two_cores <= rr_used two_cores <= rr_res two_cores) /\ Z.land (u16 (0 + 2)) (8 - 1) <> Z.land (u16 (3 + 0)) (8 - 1).
Proof.
  destruct (rx_reservations_safe 3 2 two_cores ltac:(lia) two_cores_reached) as (H & _ & _ & Hd). split; [exact H|].
  apply (Hd 0%nat 1%nat 0 3 1 3 2 2 2 0); [done|reflexivity..|lia|lia].
Defined.

Lemma rx_turns_progress_witness :
  exists c' j s', rx_run_all (replicate j (Run c')) two_cores = Some s' /\ 0 < rr_last s' /\ rr_cores s' !! c' = Some Away /\
    rr_used s' = rr_last s'.
Proof. apply (rx_turns_progress 3 2 two_cores 1 (Filling 3 2 2)); [lia|apply two_cores_reached|reflexivity|by eexists]. Defined.

(** A core holds the device while its removal is requested. *)
Definition removing : removal :=
  Removal [118] true true [([117], None); ([118], None)] [REQUEST_DEV_REMOVAL; REQUEST_DEV_REMOVAL] [InLoop true; Top] (Waiting true 0).

Lemma removing_reached g :
  g = orderly \/ g = anything -> rm_reach g (rm_start [[117]; [118]] 2) removing.
Proof.
  intros Hg. eapply (rm_run_guarded_reach g [SetMemTable true; ConfigRun; DeviceUp [118]; CoreTop 0; CoreTake 0 1; DeviceDown true;
    ConfigRun; ConfigRun; ConfigRun]); [apply rm_refl|]. destruct Hg as [->| ->]; vm_compute; reflexivity.
Qed.

Lemma device_removal_safe_witness : rm_mapped removing = true /\ rm_pc removing <> Unmapping /\ forall ok, rm_pc removing <> Mapping ok.
Proof. apply (device_removal_safe [[117]; [118]] 2 removing 0); [apply removing_reached; by left|reflexivity]. Defined.

Lemma device_removal_completes_witness :
  exists es s', Forall goes_on es /\ rm_run_all es removing = Some s' /\ rm_pc s' = RIdle /\ rm_running s' = false /\ (true = true -> rm_mapped s' = false).
Proof. apply (device_removal_completes [[117]; [118]] 2 removing); [apply removing_reached; by right|discriminate]. Defined.
