(* ===== verification/Args.v ===== *)
(** The command line of the switch: [datapath/dpdk/args.c].

    Strings are lists of character codes without the terminator.
    [parse_app_args] reads the options in the order [getopt_long] returns them;
    the functions of the C library it calls ([strtoul], [atoi], [strchr]) are
    written out, and [rte_strsplit] is an interface with its documented law. *)
From Stdlib Require Import String.
From S2P Require Import Prelude Vport Main.

Definition PORT_OFFSET : Z := 16.
Definition MAX_CFG_PARAMS : Z := MAX_PHYPORTS.
Definition MAX_KNI_PORTS : Z := 16.
Definition MAX_VETH_PORTS : Z := 4.
Definition MAX_BASENAME_SZ : Z := 20.
Definition ULONG_MAX : Z := 2 ^ 64 - 1.

(** ** The C library *)

Definition is_space (c : Z) : bool := (c =? 32) || ((9 <=? c) && (c <=? 13)).

Definition digit_val (c : Z) : option Z :=
  if (48 <=? c) && (c <=? 57) then Some (c - 48)
  else if (97 <=? c) && (c <=? 122) then Some (c - 87)
  else if (65 <=? c) && (c <=? 90) then Some (c - 55) else None.

Definition is_digit (base c : Z) : bool := match digit_val c with Some v => v <? base | None => false end.

Fixpoint skip_space (s : list Z) : list Z :=
  match s with c :: s' => if is_space c then skip_space s' else s | [] => [] end.

(** A sign, if there is one. *)
Definition scan_sign (s : list Z) : bool * list Z :=
  match s with
  | c :: s' => if c =? 45 then (true, s') else if c =? 43 then (false, s') else (false, s)
  | [] => (false, [])
  end.

(** The prefix [0x] counts only before a hexadecimal digit. *)
Definition has_0x (s : list Z) : bool :=
  match s with
  | 48 :: x :: c :: _ => ((x =? 120) || (x =? 88)) && is_digit 16 c
  | _ => false
  end.

Definition scan_prefix (base : Z) (s : list Z) : Z * list Z :=
  if ((base =? 16) || (base =? 0)) && has_0x s then (16, drop 2 s)
  else if base =? 0 then match s with 48 :: _ => (8, s) | _ => (10, s) end
  else (base, s).

Fixpoint scan_digits (base acc : Z) (any : bool) (s : list Z) : Z * list Z * bool :=
  match s with
  | c :: s' => if is_digit base c then scan_digits base (acc * base + default 0 (digit_val c)) true s' else (acc, s, any)
  | [] => (acc, [], any)
  end.

(** Sign, magnitude, the rest after the digits, and whether there were any. *)
Definition scan_number (s : list Z) (base : Z) : bool * Z * list Z * bool :=
  let '(neg, s1) := scan_sign (skip_space s) in
  let '(base, s2) := scan_prefix base s1 in
  let '(v, rest, any) := scan_digits base 0 false s2 in
  (neg, v, if any then rest else s, any).

(** [strtoul]: the value, [*end], whether digits were found, and [errno != 0]. *)
Record strto := Strto { st_val : Z; st_end : list Z; st_any : bool; st_errno : bool }.

Definition strtoul (s : list Z) (base : Z) : strto :=
  let '(neg, v, rest, any) := scan_number s base in
  if ULONG_MAX <? v then Strto ULONG_MAX rest any true else Strto (if (neg : bool) then u64 (- v) else v) rest any false.

(** [int] values. *)
Definition i32 (x : Z) : Z := if u32 x <? 2 ^ 31 then u32 x else u32 x - 2 ^ 32.

(** [atoi]: [(int) strtol(s, NULL, 10)]. *)
Definition atoi (s : list Z) : Z :=
  let '(neg, v, _, _) := scan_number s 10 in
  i32 (if (neg : bool) then Z.max (- v) (- 2 ^ 63) else Z.min v (2 ^ 63 - 1)).

Fixpoint strchr (s : list Z) (c : Z) : option (list Z) :=
  match s with [] => None | x :: s' => if x =? c then Some s else strchr s' c end.

(** [rte_strsplit(string, stringlen, tokens, maxtokens, delim)]: the tokens, or
    nothing on an error. *)
Class RteString := { rte_strsplit : list Z -> Z -> Z -> Z -> option (list (list Z)) }.

(** ** Data *)

(** The variables that the options set: the ports chosen by the port mask, the
    numbers of vports, both tables of port parameters with the one in use, and
    the settings. *)
Record app_args := AppArgs {
  ar_ids : list Z; ar_clients : Z; ar_kni : Z; ar_veth : Z; ar_vhost : Z;
  cfg_params_array : list port_config; nb_cfg_params : Z; ar_use_default : bool;
  ar_stats_interval : Z; ar_vswitchd_core : Z; ar_client_core : Z;
  ar_basename : list Z; ar_dev_index : Z; ar_retry_num : Z; ar_delay_time : Z
}.

Definition cfg_params_array_default : list port_config :=
  [PortConfig 0 0 2; PortConfig 0 1 2; PortConfig 0 2 2; PortConfig 1 0 2; PortConfig 1 1 2; PortConfig 1 2 2;
   PortConfig 2 0 2; PortConfig 3 0 3; PortConfig 3 1 3].

(** [cfg_params]. *)
Definition cfg_params (a : app_args) : list port_config :=
  if ar_use_default a then cfg_params_array_default else cfg_params_array a.

Definition set_ids (ids : list Z) (a : app_args) : app_args :=
  AppArgs ids (ar_clients a) (ar_kni a) (ar_veth a) (ar_vhost a) (cfg_params_array a) (nb_cfg_params a) (ar_use_default a)
    (ar_stats_interval a) (ar_vswitchd_core a) (ar_client_core a) (ar_basename a) (ar_dev_index a) (ar_retry_num a) (ar_delay_time a).
Definition set_counts (clients kni veth vhost : Z) (a : app_args) : app_args :=
  AppArgs (ar_ids a) clients kni veth vhost (cfg_params_array a) (nb_cfg_params a) (ar_use_default a)
    (ar_stats_interval a) (ar_vswitchd_core a) (ar_client_core a) (ar_basename a) (ar_dev_index a) (ar_retry_num a) (ar_delay_time a).
Definition set_params (l : list port_config) (nb : Z) (def : bool) (a : app_args) : app_args :=
  AppArgs (ar_ids a) (ar_clients a) (ar_kni a) (ar_veth a) (ar_vhost a) l nb def
    (ar_stats_interval a) (ar_vswitchd_core a) (ar_client_core a) (ar_basename a) (ar_dev_index a) (ar_retry_num a) (ar_delay_time a).
Definition set_cores (interval vswitchd client : Z) (a : app_args) : app_args :=
  AppArgs (ar_ids a) (ar_clients a) (ar_kni a) (ar_veth a) (ar_vhost a) (cfg_params_array a) (nb_cfg_params a) (ar_use_default a)
    interval vswitchd client (ar_basename a) (ar_dev_index a) (ar_retry_num a) (ar_delay_time a).
Definition set_vhost_args (name : list Z) (index retries delay : Z) (a : app_args) : app_args :=
  AppArgs (ar_ids a) (ar_clients a) (ar_kni a) (ar_veth a) (ar_vhost a) (cfg_params_array a) (nb_cfg_params a) (ar_use_default a)
    (ar_stats_interval a) (ar_vswitchd_core a) (ar_client_core a) name index retries delay.

(** ** Parsing *)

(** The loop of [parse_portmask] over the bits of the mask; [max_id] is the size
    of [port_cfg.id], RTE_MAX_ETHPORTS. *)
Fixpoint portmask_loop (fuel : nat) (max_id max_ports pm count : Z) (ids : list Z) : res (list Z) :=
  match fuel with
  | O => if pm =? 0 then Ok ids else Err OutOfFuel
  | S fuel =>
      if pm =? 0 then Ok ids else
      ids ← (if Z.testbit pm 0 then
               if max_ports <=? count then Ok ids
               else if max_id <=? zlen ids then Err OutOfBounds else Ok (ids ++ [count])
             else Ok ids);
      portmask_loop fuel max_id max_ports (Z.shiftr pm 1) (u8 (count + 1)) ids
  end.

Definition parse_portmask (max_id max_ports : Z) (portmask : list Z) (ids : list Z) : res (Z * list Z) :=
  match portmask with
  | [] => Ok (-1, ids)
  | _ =>
      let r := strtoul portmask 16 in
      if negb (bool_decide (st_end r = [])) || (st_val r =? 0) then Ok (-1, ids)
      else ids ← portmask_loop 64 max_id max_ports (st_val r) 0 ids; Ok (0, ids)
  end.

(** [parse_num_clients]: the number is returned as an [int]. *)
Definition parse_num_clients (clients : list Z) : Z :=
  match clients with
  | [] => -1
  | _ => let r := strtoul clients 10 in
         if negb (bool_decide (st_end r = [])) || (st_val r =? 0) then -1 else i32 (st_val r)
  end.

Definition us_vhost_parse_basename (q_arg : list Z) (old : list Z) : Z * list Z :=
  if MAX_BASENAME_SZ <? zlen q_arg then (-1, old) else (0, snprintf MAX_BASENAME_SZ q_arg).

(** A number of a group in [parse_config]. *)
Definition config_field (s : list Z) : option Z :=
  let r := strtoul s 0 in
  if st_errno r || negb (st_any r) || (255 <? st_val r) then None else Some (st_val r).

Section Config.
Context `{Str : RteString}.

(** The loop of [parse_config]; the result is the return value, the table and
    the number of entries. *)
Fixpoint config_loop (fuel : nat) (p0 : list Z) (l : list port_config) (nb : Z) : res (Z * list port_config * Z) :=
  match fuel with
  | O => Err OutOfFuel
  | S fuel =>
      match strchr p0 40 with
      | None => Ok (0, l, nb)
      | Some p =>
          let p := drop 1 p in
          match strchr p 41 with
          | None => Ok (-1, l, nb)
          | Some p0 =>
              let size := zlen p - zlen p0 in
              if 256 <=? size then Ok (-1, l, nb) else
              let s := snprintf 256 (take (Z.to_nat size) p) in
              match rte_strsplit s 256 3 44 with
              | Some [f_port; f_queue; f_lcore] =>
                  match config_field f_port, config_field f_queue, config_field f_lcore with
                  | Some port, Some queue, Some lcore =>
                      if MAX_CFG_PARAMS <=? nb then Ok (-1, l, nb) else
                      _ ← index l nb;
                      config_loop fuel p0 (update l nb (PortConfig (u8 (port + PORT_OFFSET)) queue lcore)) (u16 (nb + 1))
                  | _, _, _ => Ok (-1, l, nb)
                  end
              | _ => Ok (-1, l, nb)
              end
          end
      end
  end.

(** [parse_config]: an error leaves the table in use as it was, and the number
    of its entries changed. *)
Definition parse_config (q_arg : list Z) (a : app_args) : res (Z * app_args) :=
  '(ret, l, nb) ← config_loop (S (length q_arg)) q_arg (cfg_params_array a) 0;
  Ok (ret, set_params l nb (if ret =? 0 then false else ar_use_default a) a).

(** What [getopt_long] returns: an option letter, a long option by its place in
    [lgopts], or an error. *)
Inductive option_result := Short (c : Z) (optarg : list Z) | Long (option_index : nat) (optarg : list Z) | BadOption.

Definition lgopts : list (list Z) :=
  str <$> ["stats"; "config"; "vswitchd"; "client_switching_core"; "vhost_dev_basename"; "vhost_dev_index";
           "vhost_retry_count"; "vhost_retry_wait"]%string.

(** A number of vports; [temp] is cut to 8 bits. *)
Definition count_option (optarg : list Z) (set : Z -> app_args) (a : app_args) : Z * app_args :=
  let temp := parse_num_clients optarg in if temp <=? 0 then (-1, a) else (0, set (u8 temp)).

(** A number that must not be negative. *)
Definition index_option (optarg : list Z) (set : Z -> app_args) (a : app_args) : Z * app_args :=
  let temp := atoi optarg in if temp <? 0 then (-1, a) else (0, set (u32 temp)).

(** [case 0] of the switch. *)
Definition long_option (name optarg : list Z) (a : app_args) : res (Z * app_args) :=
  a ← (if bool_decide (name = str "config") then '(_, a) ← parse_config optarg a; Ok a else Ok a);
  let retry n := set_vhost_args (ar_basename a) (ar_dev_index a) n (ar_delay_time a) a in
  let delay n := set_vhost_args (ar_basename a) (ar_dev_index a) (ar_retry_num a) n a in
  let device n := set_vhost_args (ar_basename a) n (ar_retry_num a) (ar_delay_time a) a in
  Ok (if strneq 5 name (str "stats") then (0, set_cores (u32 (atoi optarg)) (ar_vswitchd_core a) (ar_client_core a) a)
  else if strneq 8 name (str "vswitchd") then (0, set_cores (ar_stats_interval a) (u32 (atoi optarg)) (ar_client_core a) a)
  else if strneq 16 name (str "client_switching_core") then
    (0, set_cores (ar_stats_interval a) (ar_vswitchd_core a) (u32 (atoi optarg)) a)
  else if strneq 18 name (str "vhost_dev_basename") then
    let '(temp, name) := us_vhost_parse_basename optarg (ar_basename a) in
    if temp <? 0 then (-1, a) else (0, set_vhost_args name (ar_dev_index a) (ar_retry_num a) (ar_delay_time a) a)
  else if strneq 15 name (str "vhost_dev_index") then index_option optarg device a
  else if strneq 17 name (str "vhost_retry_count") then index_option optarg retry a
  else if strneq 16 name (str "vhost_retry_wait") then index_option optarg delay a
  else (0, a)).

Definition app_option (max_id max_ports : Z) (o : option_result) (a : app_args) : res (Z * app_args) :=
  match o with
  | Short c arg =>
      if c =? 112 then '(ret, ids) ← parse_portmask max_id max_ports arg (ar_ids a); Ok (if ret =? 0 then 0 else -1, set_ids ids a)
      else if c =? 110 then Ok (count_option arg (fun n => set_counts n (ar_kni a) (ar_veth a) (ar_vhost a) a) a)
      else if c =? 107 then Ok (count_option arg (fun n => set_counts (ar_clients a) n (ar_veth a) (ar_vhost a) a) a)
      else if c =? 118 then Ok (count_option arg (fun n => set_counts (ar_clients a) (ar_kni a) n (ar_vhost a) a) a)
      else if c =? 104 then Ok (count_option arg (fun n => set_counts (ar_clients a) (ar_kni a) (ar_veth a) n a) a)
      else Ok (-1, a)
  | Long i arg => match lgopts !! i with Some name => long_option name arg a | None => Err OutOfBounds end
  | BadOption => Ok (-1, a)
  end.

Fixpoint options_loop (max_id max_ports : Z) (os : list option_result) (a : app_args) : res (Z * app_args) :=
  match os with
  | [] => Ok (0, a)
  | o :: os => '(ret, a) ← app_option max_id max_ports o a; if ret =? 0 then options_loop max_id max_ports os a else Ok (-1, a)
  end.

Definition parse_app_args (max_id max_ports : Z) (os : list option_result) (a : app_args) : res (Z * app_args) :=
  '(ret, a) ← options_loop max_id max_ports os (set_counts 0 0 0 0 a);
  Ok (if negb (ret =? 0) then -1
      else if (ar_clients a =? 0) || (MAX_CLIENTS <? ar_clients a) then -1
      else if MAX_KNI_PORTS <? ar_kni a then -1
      else if MAX_VETH_PORTS <? ar_veth a then -1
      else if MAX_VHOST_PORTS <? ar_vhost a then -1 else 0, a).
End Config.

(** The variables before the command line is read. *)
Definition args_start : app_args :=
  AppArgs [] 0 0 0 0 (replicate (Z.to_nat MAX_CFG_PARAMS) (PortConfig 0 0 0)) 9 true 0 0 0 (str "vhost-net") 0 4 15.

(** ** Numbers *)

Lemma digit_48 v : 0 <= v < 10 -> is_digit 10 (48 + v) = true /\ digit_val (48 + v) = Some v.
Proof.
  intros Hv. assert (digit_val (48 + v) = Some v) as Hd.
  { unfold digit_val. rewrite (proj2 (Z.leb_le _ _)), (proj2 (Z.leb_le _ _)) by lia. cbn [andb]. f_equal. lia. }
  split; [|done]. unfold is_digit. rewrite Hd. apply Z.ltb_lt. lia.
Qed.

(** Reading the digits that are printed. *)
Lemma scan_digits_printed k : forall n acc any rest, 0 <= n < 10 ^ Z.of_nat (S k) ->
  scan_digits 10 acc any (digits (S k) n ++ rest) = scan_digits 10 (acc * 10 ^ zlen (digits (S k) n) + n) true rest.
Proof.
  induction k as [|k IH]; intros n acc any rest Hn; cbn [digits].
  - rewrite (proj2 (Z.ltb_lt _ _)) by lia. cbn [app scan_digits]. destruct (digit_48 (n mod 10) (Z.mod_pos_bound n 10 ltac:(lia))) as [-> ->].
    rewrite Z.mod_small by lia. unfold zlen. cbn [length default]. done.
  - destruct (Z.ltb_spec n 10).
    + cbn [app scan_digits]. destruct (digit_48 (n mod 10) (Z.mod_pos_bound n 10 ltac:(lia))) as [-> ->]. rewrite Z.mod_small by lia. done.
    + rewrite <- app_assoc.
      pose proof (IH (n / 10) acc any ([48 + n mod 10] ++ rest)) as IH'. cbn [digits] in IH'. rewrite IH'.
      2:{ split; [by apply Z.div_pos; lia|]. apply Z.div_lt_upper_bound; [lia|]. replace (Z.of_nat (S (S k))) with (1 + Z.of_nat (S k)) in Hn by lia.
          rewrite Z.pow_add_r in Hn by lia. lia. }
      cbn [app scan_digits]. destruct (digit_48 (n mod 10) (Z.mod_pos_bound n 10 ltac:(lia))) as [-> ->]. cbn [default].
      set (l := (if n / 10 <? 10 then [] else digits k (n / 10 / 10)) ++ [48 + (n / 10) mod 10]). f_equal.
      rewrite zlen_app, Z.pow_add_r by apply zlen_nonneg. change (10 ^ zlen [48 + n mod 10]) with 10. unfold id.
      pose proof (Z.div_mod n 10 ltac:(lia)). lia.
Qed.

(** The first digit is not a zero, except of zero. *)
Lemma digits_head k : forall n, 0 <= n < 10 ^ Z.of_nat (S k) ->
  exists v s, digits (S k) n = 48 + v :: s /\ 0 <= v < 10 /\ (v = 0 -> n = 0 /\ s = []).
Proof.
  induction k as [|k IH]; intros n Hn; cbn [digits].
  - rewrite (proj2 (Z.ltb_lt _ _)) by lia. exists (n mod 10), []. split; [done|]. split; [by apply Z.mod_pos_bound|]. intros H0. rewrite Z.mod_small in H0 by lia. done.
  - destruct (Z.ltb_spec n 10).
    + exists (n mod 10), []. split; [done|]. split; [by apply Z.mod_pos_bound|]. rewrite Z.mod_small by lia. done.
    + destruct (IH (n / 10)) as (v & s & E & Hv & H0).
      { split; [by apply Z.div_pos; lia|]. apply Z.div_lt_upper_bound; [lia|]. replace (Z.of_nat (S (S k))) with (1 + Z.of_nat (S k)) in Hn by lia.
        rewrite Z.pow_add_r in Hn by lia. lia. }
      cbn [digits] in E. rewrite E. exists v, (s ++ [48 + n mod 10]). split; [done|]. split; [done|]. intros ->. destruct (H0 eq_refl).
      pose proof (Z.div_mod n 10 ltac:(lia)). pose proof (Z.mod_pos_bound n 10 ltac:(lia)). lia.
Qed.

(** Both bases read a printed number. *)
Lemma strtoul_printed n base :
  base = 10 \/ base = 0 -> 0 <= n < 10 ^ 10 -> strtoul (fmt_u n) base = Strto n [] true false.
Proof.
  intros Hb Hn. destruct (digits_head 9 n Hn) as (v & s & E & Hv & H0).
  assert (scan_number (fmt_u n) base = (false, n, [], true)) as Hs.
  { assert (skip_space (fmt_u n) = fmt_u n) as Hsp.
    { unfold fmt_u. rewrite E. cbn [skip_space]. unfold is_space. destruct (Z.eqb_spec (48 + v) 32), (Z.leb_spec (48 + v) 13); try lia.
      by rewrite andb_false_r. }
    assert (scan_sign (fmt_u n) = (false, fmt_u n)) as Hsg.
    { unfold fmt_u. rewrite E. cbn [scan_sign]. destruct (Z.eqb_spec (48 + v) 45), (Z.eqb_spec (48 + v) 43); try lia; done. }
    unfold scan_number. rewrite Hsp, Hsg. pose proof (scan_digits_printed 9 n 0 false [] Hn) as Hd. rewrite app_nil_r in Hd. cbn [scan_digits] in Hd.
    destruct (decide (v = 0)) as [->|Hne].
    { destruct (H0 eq_refl) as [-> _]. destruct Hb as [->| ->]; done. }
    assert (scan_prefix base (fmt_u n) = (10, fmt_u n)) as ->.
    { assert (has_0x (fmt_u n) = false) as Hx.
      { unfold fmt_u. rewrite E. unfold has_0x. destruct v as [|p|p]; [done| |lia]. do 6 (destruct p as [p|p|]; try done). all: try lia. }
      unfold scan_prefix. rewrite Hx, andb_false_r. destruct Hb as [->| ->]; [done|]. cbn [Z.eqb]. unfold fmt_u. rewrite E.
      destruct v as [|p|p]; [done| |lia]. do 6 (destruct p as [p|p|]; try done). }
    unfold fmt_u. rewrite Hd. by rewrite Z.mul_0_l. }
  unfold strtoul. rewrite Hs. unfold ULONG_MAX. by rewrite (proj2 (Z.ltb_ge _ _)) by lia.
Qed.

Lemma i32_small n : 0 <= n < 2 ^ 31 -> i32 n = n.
Proof. intros. unfold i32, u32. rewrite wrap_small by (unfold is_u; lia). by rewrite (proj2 (Z.ltb_lt _ _)) by lia. Qed.

Lemma fmt_u_nonempty n : 0 <= n < 10 ^ 10 -> fmt_u n <> [].
Proof. intros Hn. destruct (digits_head 9 n Hn) as (v & s & E & _). unfold fmt_u. by rewrite E. Qed.

Lemma parse_num_printed n : 0 < n < 10 ^ 10 -> parse_num_clients (fmt_u n) = i32 n.
Proof.
  intros Hn. unfold parse_num_clients. destruct (fmt_u n) eqn:E; [by apply fmt_u_nonempty in E; [|lia]|]. rewrite <- E.
  rewrite strtoul_printed by (by left || lia). cbn. by rewrite (proj2 (Z.eqb_neq _ _)) by lia.
Qed.

Lemma digit_val_nonneg c v : digit_val c = Some v -> 0 <= v.
Proof.
  unfold digit_val. destruct (Z.leb_spec 48 c), (Z.leb_spec c 57); cbn [andb]; try (intros [= <-]; lia);
    destruct (Z.leb_spec 97 c), (Z.leb_spec c 122); cbn [andb]; try (intros [= <-]; lia);
    destruct (Z.leb_spec 65 c), (Z.leb_spec c 90); cbn [andb]; try done; intros [= <-]; lia.
Qed.

Lemma scan_digits_nonneg base s : forall acc any, 0 <= base -> 0 <= acc -> 0 <= (scan_digits base acc any s).1.1.
Proof.
  induction s as [|c s IH]; intros acc any Hb Ha; cbn [scan_digits]; [done|]. destruct (is_digit base c); [|done]. apply IH; [done|].
  destruct (digit_val c) as [v|] eqn:E; [apply digit_val_nonneg in E|]; cbn; unfold id; nia.
Qed.

Lemma strtoul_range s base : 0 <= base -> 0 <= st_val (strtoul s base) < 2 ^ 64.
Proof.
  intros Hb. unfold strtoul, scan_number. destruct (scan_sign (skip_space s)) as [neg s1]. destruct (scan_prefix base s1) as [b s2] eqn:E.
  assert (0 <= b) as Hb'.
  { revert E. unfold scan_prefix. destruct (_ && _); [intros [= <- _]; lia|]. destruct (base =? 0); [|intros [= <- _]; lia].
    repeat case_match; intros [= <- _]; lia. }
  pose proof (scan_digits_nonneg b s2 0 false Hb' ltac:(lia)) as Hv. destruct (scan_digits b 0 false s2) as [[v rest] any]. cbn in Hv.
  unfold ULONG_MAX. destruct (Z.ltb_spec (2 ^ 64 - 1) v); cbn [st_val]; [lia|]. destruct neg; [apply wrap_range; lia|lia].
Qed.

(** ** The port mask *)

Lemma filter_ext_in {A} (P Q : A -> Prop) `{!forall x, Decision (P x)} `{!forall x, Decision (Q x)} (l : list A) :
  (forall x, x ∈ l -> P x <-> Q x) -> filter P l = filter Q l.
Proof.
  induction l as [|x l IH]; intros Hx; [done|]. rewrite !filter_cons. rewrite IH by (intros y Hy; apply Hx; by constructor).
  destruct (Hx x ltac:(by constructor)). by repeat case_decide; auto; tauto.
Qed.

Lemma portmask_loop_ok max_id max_ports fuel : forall pm count ids,
  0 <= pm < 2 ^ Z.of_nat fuel -> 0 <= count -> count + Z.of_nat fuel <= 255 -> zlen ids + Z.max 0 (max_ports - count) <= max_id ->
  portmask_loop fuel max_id max_ports pm count ids =
  Ok (ids ++ filter (fun i => Z.testbit pm (i - count) = true) (seqZ count (max_ports - count))).
Proof.
  assert (forall count, filter (fun i => Z.testbit 0 (i - count) = true) (seqZ count (max_ports - count)) = []) as Hnil.
  { intros count. generalize (seqZ count (max_ports - count)). induction l as [|x l IH]; [done|].
    rewrite filter_cons, decide_False; [done|]. by rewrite Z.testbit_0_l. }
  induction fuel as [|fuel IH]; intros pm count ids Hpm Hc Hcf Hz; cbn [portmask_loop].
  { assert (pm = 0) as -> by (cbn in Hpm; lia). by rewrite Hnil, app_nil_r. }
  destruct (Z.eqb_spec pm 0) as [->|Hne]; [by rewrite Hnil, app_nil_r|].
  assert (0 <= Z.shiftr pm 1 < 2 ^ Z.of_nat fuel) as Hpm'.
  { rewrite Z.shiftr_div_pow2 by lia. change (2 ^ 1) with 2. split; [apply Z.div_pos; lia|]. apply Z.div_lt_upper_bound; [lia|].
    rewrite Nat2Z.inj_succ, Z.pow_succ_r in Hpm by lia. lia. }
  assert (u8 (count + 1) = count + 1) as Hu by (unfold u8; apply wrap_small; unfold is_u; lia). rewrite Hu.
  assert (forall lo n, count < lo -> filter (fun i => Z.testbit (Z.shiftr pm 1) (i - (count + 1)) = true) (seqZ lo n) =
    filter (fun i => Z.testbit pm (i - count) = true) (seqZ lo n)) as Hsh.
  { intros lo n Hlo. apply filter_ext_in. intros i Hi%elem_of_seqZ.
    rewrite Z.shiftr_spec by lia. by replace (i - (count + 1) + 1) with (i - count) by lia. }
  destruct (Z.leb_spec max_ports count) as [Hle|Hlt].
  - assert (forall m, seqZ m (max_ports - count) = [] /\ seqZ m (max_ports - (count + 1)) = []) as Hemp by (intros; split; apply seqZ_nil; lia).
    rewrite (proj1 (Hemp _)). destruct (Z.testbit pm 0); bind; rewrite IH by lia; by rewrite (proj2 (Hemp _)).
  - rewrite (seqZ_cons count) by lia. rewrite filter_cons, Z.sub_diag, <- Z.add_1_r.
    replace (Z.pred (max_ports - count)) with (max_ports - (count + 1)) by lia. rewrite <- Hsh by lia.
    destruct (Z.testbit pm 0) eqn:Hbit.
    + rewrite decide_True by done. rewrite (proj2 (Z.leb_gt _ _)) by lia. bind. rewrite IH; [by rewrite <- app_assoc|done|lia|lia|].
      rewrite zlen_app. unfold zlen at 2. cbn [length]. lia.
    + rewrite decide_False by done. bind. apply IH; lia.
Qed.

(** ** The port configuration *)

Lemma strchr_app s t c : c ∉ s -> strchr (s ++ c :: t) c = Some (c :: t).
Proof.
  induction s as [|x s IH]; cbn [app strchr]; [by rewrite Z.eqb_refl|]. intros [Hne Hc]%not_elem_of_cons.
  rewrite (proj2 (Z.eqb_neq _ _)) by done. by apply IH.
Qed.

Lemma strchr_None s c : c ∉ s -> strchr s c = None.
Proof.
  induction s as [|x s IH]; cbn [strchr]; [done|]. intros [Hne Hc]%not_elem_of_cons. rewrite (proj2 (Z.eqb_neq _ _)) by done. by apply IH.
Qed.

Lemma strchr_Some s c t : strchr s c = Some t -> exists u t', s = u ++ t /\ t = c :: t'.
Proof.
  induction s as [|x s IH]; cbn [strchr]; [done|]. destruct (Z.eqb_spec x c) as [->|Hne].
  - intros [= <-]. by exists [], s.
  - intros (u & t' & -> & Ht)%IH. by exists (x :: u), t'.
Qed.

Fixpoint join (delim : Z) (l : list (list Z)) : list Z :=
  match l with [] => [] | [t] => t | t :: l => t ++ delim :: join delim l end.

(** As many tokens as asked for, without the delimiter, are found. *)
Class RteStringLaws `{RteString} := {
  strsplit_join toks len max delim : zlen toks = max -> Forall (fun t => t <> [] /\ delim ∉ t) toks -> zlen (join delim toks) < len ->
    rte_strsplit (join delim toks) len max delim = Some toks
}.

Section ConfigProofs.
Context `{Str : RteString}.

(** Any string is parsed in as many rounds as it has characters. *)
Lemma config_loop_total fuel : forall p0 l nb,
  (length p0 < fuel)%nat -> zlen l = MAX_CFG_PARAMS -> 0 <= nb <= MAX_CFG_PARAMS ->
  exists ret l' nb', config_loop fuel p0 l nb = Ok (ret, l', nb') /\ (ret = 0 \/ ret = -1) /\ zlen l' = MAX_CFG_PARAMS /\
    nb <= nb' <= MAX_CFG_PARAMS.
Proof.
  induction fuel as [|fuel IH]; intros p0 l nb Hf Hl Hnb; [lia|]. cbn [config_loop].
  assert (forall r, r = 0 \/ r = -1 -> exists ret l' nb', Ok (r, l, nb) = Ok (ret, l', nb') /\ (ret = 0 \/ ret = -1) /\ zlen l' = MAX_CFG_PARAMS /\
    nb <= nb' <= MAX_CFG_PARAMS) as Hdone by (intros r Hr; exists r, l, nb; split; [done|]; split; [done|]; split; [done|lia]).
  destruct (strchr p0 40) as [p|] eqn:E1; [|by apply Hdone; left]. destruct (strchr_Some _ _ _ E1) as (u & p' & -> & ->). cbv zeta. cbn [drop]. rewrite drop_0.
  destruct (strchr p' 41) as [p1|] eqn:E2; [|by apply Hdone; right]. destruct (strchr_Some _ _ _ E2) as (u2 & p2 & -> & ->).
  destruct (256 <=? _); [by apply Hdone; right|]. destruct (rte_strsplit _ _ _ _) as [[|f1 [|f2 [|f3 [|]]]]|]; try (by apply Hdone; right).
  destruct (config_field f1) as [x1|], (config_field f2) as [x2|], (config_field f3) as [x3|]; try (by apply Hdone; right).
  destruct (Z.leb_spec MAX_CFG_PARAMS nb); [by apply Hdone; right|]. destruct (index_ok l nb) as [e ->]; [lia|]. bind.
  assert (u16 (nb + 1) = nb + 1) as -> by (unfold u16; apply wrap_small; unfold is_u, MAX_CFG_PARAMS, MAX_PHYPORTS in *; lia).
  destruct (IH (41 :: p2) (update l nb (PortConfig (u8 (x1 + PORT_OFFSET)) x2 x3)) (nb + 1)) as (ret & l' & nb' & E & Hr & Hl' & Hnb').
  - rewrite !length_app in Hf. cbn [length] in *. rewrite length_app in Hf. cbn [length] in Hf. lia.
  - by rewrite zlen_update.
  - lia.
  - exists ret, l', nb'. split; [done|]. split; [done|]. split; [done|]. lia.
Qed.
End ConfigProofs.

Lemma digits_chars k : forall n, 0 <= n -> Forall (fun c => 48 <= c <= 57) (digits k n).
Proof.
  induction k as [|k IH]; intros n Hn; cbn [digits]; [done|]. apply Forall_app. pose proof (Z.mod_pos_bound n 10 ltac:(lia)). split.
  - destruct (n <? 10); [done|]. apply IH. apply Z.div_pos; lia.
  - repeat constructor; lia.
Qed.

Lemma fmt_u_without c n : 0 <= n -> ~ 48 <= c <= 57 -> c ∉ fmt_u n.
Proof. intros Hn Hc Hin. pose proof (digits_chars 10 n Hn) as Hf. rewrite Forall_forall in Hf. apply Hc, Hf. by apply list_elem_of_In. Qed.

Lemma digits_len k : forall n, (length (digits k n) <= k)%nat.
Proof.
  induction k as [|k IH]; intros n; cbn [digits]; [done|]. rewrite length_app. cbn [length]. destruct (n <? 10); [cbn; lia|]. pose proof (IH (n / 10)). lia.
Qed.

(** The text of a configuration: [(port,queue,lcore)], separated by commas. *)
Definition group_fields (g : port_config) : list (list Z) := [fmt_u (port_id g); fmt_u (queue_id g); fmt_u (lcore_id g)].
Fixpoint config_text (l : list port_config) : list Z :=
  match l with
  | [] => []
  | g :: l => 40 :: join 44 (group_fields g) ++ 41 :: match l with [] => [] | _ => 44 :: config_text l end
  end.

Definition group_ok (g : port_config) : Prop := 0 <= port_id g < 240 /\ 0 <= queue_id g <= 255 /\ 0 <= lcore_id g <= 255.
Definition offset_port (g : port_config) : port_config := PortConfig (port_id g + PORT_OFFSET) (queue_id g) (lcore_id g).

Lemma config_field_printed n : 0 <= n <= 255 -> config_field (fmt_u n) = Some n.
Proof. intros Hn. unfold config_field. rewrite strtoul_printed by (by right || lia). cbn. by rewrite (proj2 (Z.ltb_ge _ _)) by lia. Qed.

Lemma group_text g : group_ok g -> Forall (fun t => t <> [] /\ 44 ∉ t) (group_fields g) /\ zlen (join 44 (group_fields g)) < 255 /\
  (40 ∉ join 44 (group_fields g)) /\ (41 ∉ join 44 (group_fields g)).
Proof.
  intros (H1 & H2 & H3). unfold group_fields. split; [|split].
  - repeat constructor; (apply fmt_u_nonempty || apply fmt_u_without); lia.
  - unfold zlen. cbn [join]. rewrite length_app. cbn [length]. rewrite length_app. cbn [length]. unfold fmt_u.
    pose proof (digits_len 10 (port_id g)). pose proof (digits_len 10 (queue_id g)). pose proof (digits_len 10 (lcore_id g)). lia.
  - cbn [join]. split; rewrite not_elem_of_app, not_elem_of_cons, not_elem_of_app, not_elem_of_cons; split_and!; try (apply fmt_u_without; lia); lia.
Qed.

Section RoundTrip.
Context `{Str : RteString} `{!RteStringLaws}.

Lemma config_loop_text fuel : forall groups junk done rest,
  (length groups < fuel)%nat -> 40 ∉ junk -> Forall group_ok groups -> (length groups <= length rest)%nat ->
  zlen done + zlen rest = MAX_CFG_PARAMS ->
  config_loop fuel (junk ++ config_text groups) (done ++ rest) (zlen done) =
  Ok (0, done ++ (offset_port <$> groups) ++ drop (length groups) rest, zlen done + zlen groups).
Proof.
  induction fuel as [|fuel IH]; intros groups junk done rest Hf Hj Hg Hlen Hz; [lia|]. cbn [config_loop].
  destruct groups as [|g groups].
  { cbn [config_text]. rewrite app_nil_r, strchr_None by done. cbn [fmap list_fmap drop length app]. unfold zlen at 3. cbn [length]. by rewrite Z.add_0_r. }
  inversion_clear Hg as [|? ? Hg0 Hgs]. destruct (group_text g Hg0) as (Hfl & Hsz & Hn40 & Hn41). cbn [config_text].
  rewrite strchr_app by done. cbv zeta. cbn [drop]. rewrite drop_0. set (tl := match groups with [] => [] | _ => _ end).
  rewrite strchr_app by done. rewrite zlen_app.
  replace (zlen (join 44 (group_fields g)) + zlen (41 :: tl) - zlen (41 :: tl)) with (zlen (join 44 (group_fields g))) by lia.
  rewrite (proj2 (Z.leb_gt _ _)) by lia. assert (take (Z.to_nat (zlen (join 44 (group_fields g)))) (join 44 (group_fields g) ++ 41 :: tl) = join 44 (group_fields g)) as ->.
  { unfold zlen. rewrite Nat2Z.id. apply take_app_length. }
  assert (snprintf 256 (join 44 (group_fields g)) = join 44 (group_fields g)) as ->.
  { unfold snprintf. apply take_ge. unfold zlen in Hsz. lia. }
  rewrite strsplit_join by (done || lia). cbn [group_fields]. destruct Hg0 as (Hp & Hq & Hl).
  rewrite !config_field_printed by lia. destruct rest as [|e rest]; [cbn in Hlen; lia|]. rewrite zlen_cons in Hz. pose proof (zlen_nonneg rest).
  rewrite (proj2 (Z.leb_gt _ _)) by lia. assert (index (done ++ e :: rest) (zlen done) = Ok e) as ->.
  { apply index_Ok. split; [apply zlen_nonneg|]. unfold zlen. rewrite Nat2Z.id. by rewrite lookup_app_r, Nat.sub_diag by lia. }
  bind. assert (update (done ++ e :: rest) (zlen done) (PortConfig (u8 (port_id g + PORT_OFFSET)) (queue_id g) (lcore_id g)) =
    (done ++ [offset_port g]) ++ rest) as ->.
  { unfold update, zlen. rewrite Nat2Z.id, insert_app_r_alt, Nat.sub_diag by lia. cbn. rewrite <- app_assoc. cbn. unfold offset_port, u8, PORT_OFFSET.
    by rewrite wrap_small by (unfold is_u; lia). }
  assert (u16 (zlen done + 1) = zlen (done ++ [offset_port g])) as ->.
  { rewrite zlen_app. change (zlen [offset_port g]) with 1. unfold u16. apply wrap_small. pose proof (zlen_nonneg done). unfold is_u, MAX_CFG_PARAMS, MAX_PHYPORTS in *. lia. }
  assert (41 :: tl = (match groups with [] => [41] | _ => [41; 44] end) ++ config_text groups) as -> by (subst tl; by destruct groups).
  rewrite IH.
  - rewrite <- app_assoc. cbn [fmap list_fmap drop length app]. rewrite zlen_app, !zlen_cons. change (zlen (@nil port_config)) with 0. f_equal. f_equal. lia.
  - cbn in Hf. lia.
  - destruct groups; rewrite ?not_elem_of_cons; (split_and!; [lia..|apply not_elem_of_nil]).
  - done.
  - cbn in Hlen. lia.
  - rewrite zlen_app. change (zlen [offset_port g]) with 1. lia.
Qed.
End RoundTrip.

(** ** Options *)

Record args_ok (max_ports : Z) (a : app_args) : Prop := {
  ao_counts : 0 <= ar_clients a /\ 0 <= ar_kni a /\ 0 <= ar_veth a /\ 0 <= ar_vhost a;
  ao_ids : Forall (fun i => 0 <= i < max_ports) (ar_ids a);
  ao_array : zlen (cfg_params_array a) = MAX_CFG_PARAMS;
  ao_nb : 0 <= nb_cfg_params a <= MAX_CFG_PARAMS
}.

(** Room for the ports that an option may add. *)
Definition ports_added (max_ports : Z) (o : option_result) : Z :=
  match o with Short c _ => if c =? 112 then max_ports else 0 | _ => 0 end.
Definition option_known (o : option_result) : Prop :=
  match o with Long i _ => (i < length lgopts)%nat | _ => True end.

Lemma parse_portmask_ok max_id max_ports portmask ids :
  0 <= max_ports -> zlen ids + max_ports <= max_id -> Forall (fun i => 0 <= i < max_ports) ids ->
  exists ret ids', parse_portmask max_id max_ports portmask ids = Ok (ret, ids') /\
    Forall (fun i => 0 <= i < max_ports) ids' /\ zlen ids' <= zlen ids + max_ports.
Proof.
  intros Hm Hz Hids. unfold parse_portmask. destruct portmask as [|c s]; [exists (-1), ids; split; [done|]; split; [done|lia]|].
  pose proof (strtoul_range (c :: s) 16 ltac:(lia)) as Hr. set (r := strtoul (c :: s) 16) in *.
  destruct (_ || _); [exists (-1), ids; split; [done|]; split; [done|lia]|].
  rewrite portmask_loop_ok by (cbn; lia). bind. eexists _, _. split; [done|]. rewrite Z.sub_0_r. split.
  - apply Forall_app. split; [done|]. apply Forall_forall. intros i [_ Hi%elem_of_seqZ]%list_elem_of_In%list_elem_of_filter. lia.
  - rewrite zlen_app. pose proof (length_filter (fun i => Z.testbit (st_val r) (i - 0) = true) (seqZ 0 max_ports)) as Hl. rewrite length_seqZ in Hl.
    unfold zlen at 2. lia.
Qed.

Section Options.
Context `{Str : RteString}.

Lemma parse_config_ok max_ports q a :
  args_ok max_ports a ->
  exists ret a', parse_config q a = Ok (ret, a') /\ args_ok max_ports a' /\ ar_ids a' = ar_ids a /\
    (ret = 0 /\ ar_use_default a' = false \/ ret = -1 /\ ar_use_default a' = ar_use_default a).
Proof.
  intros [H1 H2 H3 H4]. unfold parse_config.
  destruct (config_loop_total (S (length q)) q (cfg_params_array a) 0) as (ret & l & nb & -> & Hr & Hl & Hnb); [lia|done|unfold MAX_CFG_PARAMS, MAX_PHYPORTS; lia|].
  bind. eexists _, _. split; [done|]. split; [by split|]. split; [done|]. destruct Hr as [->| ->]; [by left|by right].
Qed.

Lemma long_option_ok max_ports name arg a :
  args_ok max_ports a -> exists ret a', long_option name arg a = Ok (ret, a') /\ args_ok max_ports a' /\ ar_ids a' = ar_ids a.
Proof.
  intros Ha. unfold long_option.
  assert (exists a1, (if bool_decide (name = str "config") then '(_, a) ← parse_config arg a; Ok a else Ok a) = Ok a1 /\ args_ok max_ports a1 /\ ar_ids a1 = ar_ids a)
    as (a1 & -> & Ha1 & Hi1).
  { case_bool_decide; [|by exists a]. destruct (parse_config_ok max_ports arg a Ha) as (ret & a1 & -> & ? & ? & _). bind. by exists a1. }
  bind. assert (forall x y z, args_ok max_ports (set_cores x y z a1)) as Hc by (intros; destruct Ha1; by split).
  assert (forall x y z t, args_ok max_ports (set_vhost_args x y z t a1)) as Hv by (intros; destruct Ha1; by split).
  unfold index_option, us_vhost_parse_basename. repeat case_match; simplify_eq; (do 2 eexists; split; [done|]; split; [by try apply Hc; try apply Hv|done]).
Qed.

Lemma app_option_ok max_id max_ports o a :
  0 <= max_ports -> option_known o -> args_ok max_ports a -> zlen (ar_ids a) + ports_added max_ports o <= max_id ->
  exists ret a', app_option max_id max_ports o a = Ok (ret, a') /\ args_ok max_ports a' /\
    zlen (ar_ids a') <= zlen (ar_ids a) + ports_added max_ports o.
Proof.
  intros Hm Hk Ha Hz. destruct o as [c arg|i arg|]; cbn [app_option ports_added] in *.
  - destruct (Z.eqb_spec c 112).
    { destruct (parse_portmask_ok max_id max_ports arg (ar_ids a) Hm Hz (ao_ids _ _ Ha)) as (ret & ids & -> & ? & ?). bind.
      do 2 eexists. split; [done|]. split; [|done]. destruct Ha. by split. }
    assert (forall x y z t, 0 <= x -> 0 <= y -> 0 <= z -> 0 <= t -> args_ok max_ports (set_counts x y z t a)) as Hc
      by (intros; destruct Ha; by split).
    assert (forall t, 0 <= u8 t) as Hu by (intros; apply wrap_range; lia). destruct (ao_counts _ _ Ha) as (? & ? & ? & ?).
    unfold count_option. repeat case_match; (do 2 eexists; split; [done|]; split; [by try (apply Hc; try done)|cbn; lia]).
  - destruct (lookup_lt_is_Some_2 lgopts i Hk) as [name ->]. destruct (long_option_ok max_ports name arg a Ha) as (ret & a' & -> & ? & Hi).
    do 2 eexists. split; [done|]. split; [done|]. rewrite Hi. lia.
  - do 2 eexists. split; [done|]. split; [done|lia].
Qed.

Lemma ports_added_nonneg max_ports os : 0 <= max_ports -> 0 <= foldr (fun o n => ports_added max_ports o + n) 0 os.
Proof. intros Hm. induction os as [|[c ?| |] l IHl]; cbn; try lia. destruct (c =? 112); lia. Qed.

Lemma options_loop_ok max_id max_ports os : forall a,
  0 <= max_ports -> Forall option_known os -> args_ok max_ports a ->
  zlen (ar_ids a) + foldr (fun o n => ports_added max_ports o + n) 0 os <= max_id ->
  exists ret a', options_loop max_id max_ports os a = Ok (ret, a') /\ args_ok max_ports a'.
Proof.
  induction os as [|o os IH]; intros a Hm Hk Ha Hz; cbn [options_loop foldr] in *; [by do 2 eexists|].
  inversion_clear Hk as [|? ? Hk0 Hks]. pose proof (ports_added_nonneg max_ports os Hm).
  destruct (app_option_ok max_id max_ports o a Hm Hk0 Ha) as (ret & a1 & -> & Ha1 & Hz1); [lia|]. bind.
  destruct (ret =? 0); [|by do 2 eexists]. apply IH; try done. lia.
Qed.

(** What the options say: the last number given with a letter, and the ports of
    all the masks. *)
Definition number_given (letter n : Z) (o : option_result) : Z :=
  match o with Short c arg => if c =? letter then u8 (parse_num_clients arg) else n | _ => n end.
Definition ports_given (max_ports : Z) (o : option_result) : list Z :=
  match o with
  | Short c arg => if c =? 112 then filter (fun i => Z.testbit (st_val (strtoul arg 16)) i = true) (seqZ 0 max_ports) else []
  | _ => []
  end.
Record means (max_ports : Z) (os : list option_result) (a a' : app_args) : Prop := {
  me_clients : ar_clients a' = foldl (number_given 110) (ar_clients a) os;
  me_kni : ar_kni a' = foldl (number_given 107) (ar_kni a) os;
  me_veth : ar_veth a' = foldl (number_given 118) (ar_veth a) os;
  me_vhost : ar_vhost a' = foldl (number_given 104) (ar_vhost a) os;
  me_ids : ar_ids a' = ar_ids a ++ mjoin (ports_given max_ports <$> os)
}.

Lemma long_option_value max_ports name arg a ret a' i : long_option name arg a = Ok (ret, a') -> means max_ports [Long i arg] a a'.
Proof.
  unfold long_option. intros (a1 & E1 & E)%res_bind_Ok.
  assert (ar_clients a1 = ar_clients a /\ ar_kni a1 = ar_kni a /\ ar_veth a1 = ar_veth a /\ ar_vhost a1 = ar_vhost a /\ ar_ids a1 = ar_ids a)
    as (H1 & H2 & H3 & H4 & H5).
  { revert E1. case_bool_decide; [|by intros [= ->]]. unfold parse_config. intros ([r x] & (([r2 l] & nb) & _ & [= <- <-])%res_bind_Ok & [= <-])%res_bind_Ok. done. }
  unfold index_option, us_vhost_parse_basename in E. split; cbn; rewrite ?app_nil_r; repeat case_match; simplify_eq; done.
Qed.

Lemma app_option_value max_id max_ports o a a' :
  0 <= max_ports -> zlen (ar_ids a) + ports_added max_ports o <= max_id -> app_option max_id max_ports o a = Ok (0, a') -> means max_ports [o] a a'.
Proof.
  intros Hm Hz. destruct o as [c arg|i arg|]; cbn [app_option ports_added] in *; [|by case_match; [apply long_option_value|]|done].
  destruct (Z.eqb_spec c 112) as [->|].
  - intros ([ret ids] & E & [= Hret <-])%res_bind_Ok. destruct (Z.eqb_spec ret 0) as [->|]; [|done].
    revert E. unfold parse_portmask. destruct arg as [|x s]; [done|]. pose proof (strtoul_range (x :: s) 16 ltac:(lia)) as Hr.
    destruct (_ || _); [done|]. rewrite portmask_loop_ok by (cbn; lia). bind. intros [= <-].
    split; try done. cbn [mjoin list_join fmap list_fmap ports_given]. rewrite app_nil_r. cbn [ar_ids set_ids]. f_equal.
    rewrite Z.sub_0_r. apply filter_ext_in. intros k _. by rewrite Z.sub_0_r.
  - unfold count_option. intros E. split; cbn; repeat case_match; simplify_eq; try done; try lia; by rewrite ?app_nil_r.
Qed.

Lemma means_cons max_ports o os a a1 a2 : means max_ports [o] a a1 -> means max_ports os a1 a2 -> means max_ports (o :: os) a a2.
Proof.
  intros [H1 H2 H3 H4 H5] [G1 G2 G3 G4 G5]. cbn in *. rewrite app_nil_r in H5. split; cbn; try congruence.
  by rewrite G5, H5, app_assoc.
Qed.

Lemma options_loop_value max_id max_ports os : forall a a',
  0 <= max_ports -> Forall option_known os -> args_ok max_ports a ->
  zlen (ar_ids a) + foldr (fun o n => ports_added max_ports o + n) 0 os <= max_id ->
  options_loop max_id max_ports os a = Ok (0, a') -> means max_ports os a a'.
Proof.
  induction os as [|o os IH]; intros a a' Hm Hk Ha Hz; cbn [options_loop foldr] in *; [intros [= <-]; split; by rewrite ?app_nil_r|].
  inversion_clear Hk as [|? ? Hk0 Hks]. pose proof (ports_added_nonneg max_ports os Hm).
  destruct (app_option_ok max_id max_ports o a Hm Hk0 Ha) as (ret & a1 & E & Ha1 & Hz1); [lia|]. rewrite E. bind.
  destruct (Z.eqb_spec ret 0) as [->|]; [|done]. intros El. eapply means_cons; [eapply app_option_value; [done| |exact E]; lia|].
  apply IH; try done. lia.
Qed.

(** What the parser does with any options. *)
Lemma parse_app_args_ok max_id max_ports os :
  0 <= max_ports -> Forall option_known os -> foldr (fun o n => ports_added max_ports o + n) 0 os <= max_id ->
  exists ret a, parse_app_args max_id max_ports os args_start = Ok (ret, a) /\ (ret = 0 \/ ret = -1) /\
    (ret = 0 -> means max_ports os args_start a /\ nb_cfg_params a <= MAX_CFG_PARAMS /\
       1 <= ar_clients a <= MAX_CLIENTS /\ 0 <= ar_kni a <= MAX_KNI_PORTS /\ 0 <= ar_veth a <= MAX_VETH_PORTS /\
       0 <= ar_vhost a <= MAX_VHOST_PORTS /\ Forall (fun i => 0 <= i < max_ports) (ar_ids a)).
Proof.
  intros Hm Hk Hz. assert (args_ok max_ports args_start) as Hs by (split; cbn; try done; unfold MAX_CFG_PARAMS, MAX_PHYPORTS; lia).
  assert (zlen (ar_ids args_start) + foldr (fun o n => ports_added max_ports o + n) 0 os <= max_id) as Hz'
    by (change (zlen (ar_ids args_start)) with 0; lia).
  destruct (options_loop_ok max_id max_ports os args_start Hm Hk Hs Hz') as (ret & a & E & [(Hc & Hkn & Hve & Hvh) Hi _ Hnb]).
  pose proof (options_loop_value max_id max_ports os args_start a Hm Hk Hs Hz') as Hv.
  unfold parse_app_args. change (set_counts 0 0 0 0 args_start) with args_start. rewrite E. bind. do 2 eexists. split; [done|].
  destruct (Z.eqb_spec ret 0) as [->|]; cbn [negb]; [|by split; [right|]]. specialize (Hv E).
  destruct (Z.eqb_spec (ar_clients a) 0), (Z.ltb_spec MAX_CLIENTS (ar_clients a)); cbn [orb]; try by split; [right|].
  destruct (Z.ltb_spec MAX_KNI_PORTS (ar_kni a)); [by split; [right|]|]. destruct (Z.ltb_spec MAX_VETH_PORTS (ar_veth a)); [by split; [right|]|].
  destruct (Z.ltb_spec MAX_VHOST_PORTS (ar_vhost a)); [by split; [right|]|].
  split; [by left|]. intros _. split; [done|]. split_and!; try done; lia.
Qed.

(** ** Properties *)


(** a number of vports is cut to eight bits before it is checked: 257
    clients are accepted, as one. *)
Theorem client_number_truncated max_id max_ports k :
  0 <= k < 2 ^ 23 -> exists a, parse_app_args max_id max_ports [Short 110 (fmt_u (256 * k + 1))] args_start = Ok (0, a) /\ ar_clients a = 1.
Proof.
  intros Hk. unfold parse_app_args. cbn [options_loop app_option]. change (110 =? 112) with false. change (110 =? 110) with true. cbv iota.
  unfold count_option. rewrite parse_num_printed, i32_small by lia. rewrite (proj2 (Z.leb_gt _ _)) by lia.
  assert (u8 (256 * k + 1) = 1) as ->.
  { unfold u8, wrap. replace (256 * k + 1) with (1 + k * 2 ^ 8) by lia. by rewrite Z_mod_plus_full. }
  eexists. split; reflexivity.
Qed.
End Options.

(** the number of vports and the port mask mean what is written: a printed
    number is read back, and the ports marked are those of the bits set in the
    mask, in ascending order, up to the number of ports there are. *)
Theorem parse_numbers_correct n max_id max_ports portmask ids :
  0 < n < 2 ^ 31 -> portmask <> [] -> st_end (strtoul portmask 16) = [] -> st_val (strtoul portmask 16) <> 0 ->
  zlen ids + Z.max 0 max_ports <= max_id ->
  parse_num_clients (fmt_u n) = n /\
  parse_portmask max_id max_ports portmask ids =
  Ok (0, ids ++ filter (fun i => Z.testbit (st_val (strtoul portmask 16)) i = true) (seqZ 0 max_ports)).
Proof.
  intros Hn Hp Hend Hv Hz. split; [rewrite parse_num_printed by lia; by apply i32_small; lia|].
  unfold parse_portmask. destruct portmask as [|c s]; [done|]. pose proof (strtoul_range (c :: s) 16 ltac:(lia)) as Hr.
  rewrite bool_decide_true by done. cbn [negb orb]. rewrite (proj2 (Z.eqb_neq _ _)) by done.
  rewrite portmask_loop_ok by (rewrite ?Z.sub_0_r; cbn; lia). bind. do 3 f_equal. rewrite Z.sub_0_r. apply filter_ext_in. intros i _.
  by rewrite Z.sub_0_r.
Qed.

Section RoundTripProps.
Context `{Str : RteString} `{!RteStringLaws}.

(** C34: a configuration that is written out is read back: the groups become
    the entries of the table, in order, with the ports as numbers of vports. *)
Theorem parse_config_roundtrip groups a :
  Forall group_ok groups -> zlen groups <= MAX_CFG_PARAMS -> zlen (cfg_params_array a) = MAX_CFG_PARAMS ->
  exists a', parse_config (config_text groups) a = Ok (0, a') /\
    take (Z.to_nat (nb_cfg_params a')) (cfg_params a') = offset_port <$> groups.
Proof.
  intros Hg Hz Ha. unfold parse_config.
  assert (length groups < S (length (config_text groups)))%nat as Hf.
  { clear. induction groups as [|g l IH]; [cbn; lia|]. cbn [config_text length]. rewrite length_app. cbn [length]. destruct l; cbn [length] in *; lia. }
  pose proof (config_loop_text (S (length (config_text groups))) groups [] [] (cfg_params_array a) Hf (not_elem_of_nil _) Hg) as E.
  cbn [app] in E. change (zlen (@nil port_config)) with 0 in E. rewrite !Z.add_0_l in E. rewrite E; [|unfold zlen in *; lia|done]. bind. eexists. split; [done|].
  unfold cfg_params. cbn. unfold zlen. rewrite Nat2Z.id. rewrite take_app_le, take_ge; [done|..]; by rewrite length_fmap.
Qed.
End RoundTripProps.

(** ** Examples *)

(** A splitter: the text before the first delimiter, and the rest. *)
Fixpoint split_first (delim : Z) (s : list Z) : list Z * option (list Z) :=
  match s with
  | [] => ([], None)
  | c :: s => if c =? delim then ([], Some s) else let '(t, r) := split_first delim s in (c :: t, r)
  end.
Fixpoint split_max (n : nat) (delim : Z) (s : list Z) : list (list Z) :=
  match n with
  | O => []
  | S O => [s]
  | S n => match split_first delim s with (t, Some s) => t :: split_max n delim s | (t, None) => [t] end
  end.
#[export] Instance Splitter : RteString := {| rte_strsplit s _ max delim := Some (split_max (Z.to_nat max) delim s) |}.

Lemma split_first_app delim t s : delim ∉ t -> split_first delim (t ++ delim :: s) = (t, Some s).
Proof.
  induction t as [|c t IH]; cbn [app split_first]; [by rewrite Z.eqb_refl|]. intros [Hne Ht]%not_elem_of_cons.
  rewrite (proj2 (Z.eqb_neq _ _)) by done. by rewrite IH.
Qed.

#[export] Instance SplitterLaws : RteStringLaws.
Proof.
  split. intros toks len max delim <- Hf _. cbn. f_equal. unfold zlen. rewrite Nat2Z.id.
  induction toks as [|t toks IH]; [done|]. inversion_clear Hf as [|? ? [_ Ht] Hts]. destruct toks as [|t2 toks]; [done|].
  cbn [length split_max join] in *. rewrite split_first_app by done. by rewrite IH.
Qed.


Lemma client_number_truncated_witness :
  exists a, parse_app_args 32 4 [Short 110 (str "257")] args_start = Ok (0, a) /\ ar_clients a = 1.
Proof. apply (client_number_truncated 32 4 1). lia. Defined.

Lemma parse_numbers_correct_witness :
  parse_num_clients (fmt_u 12) = 12 /\
  parse_portmask 32 4 (str "0x1d") [] = Ok (0, [] ++ filter (fun i => Z.testbit 29 i = true) (seqZ 0 4)).
Proof. apply (parse_numbers_correct 12 32 4 (str "0x1d") []); [lia|discriminate|reflexivity|discriminate|unfold zlen; cbn; lia]. Defined.

Lemma parse_config_roundtrip_witness :
  exists a', parse_config (config_text [PortConfig 0 0 2; PortConfig 1 0 3]) args_start = Ok (0, a') /\
    take (Z.to_nat (nb_cfg_params a')) (cfg_params a') = offset_port <$> [PortConfig 0 0 2; PortConfig 1 0 3].
Proof.
  apply (parse_config_roundtrip [PortConfig 0 0 2; PortConfig 1 0 3] args_start); [|by vm_compute|by vm_compute].
  repeat constructor; cbn; lia.
Defined.

(** an invalid configuration is reported and then ignored, but its number
    of entries is kept: ten groups and an unmatched bracket leave the built-in
    table in use, which has nine entries, with a count of ten. *)
Theorem invalid_config_overruns :
  exists a, parse_config (config_text (replicate 10 (PortConfig 0 0 2)) ++ str "(") args_start = Ok (-1, a) /\
    zlen (cfg_params a) < nb_cfg_params a /\ ar_use_default a = true.
Proof. eexists. split; [vm_compute; reflexivity|]. split; reflexivity. Qed.

(** The ports of the built-in table are not offset: they are the numbers of
    the vports of the daemon and of clients. *)
Example default_config_ports : Forall (fun g => port_id g < PHYPORT0) cfg_params_array_default.
Proof. repeat constructor; cbn; unfold PHYPORT0; lia. Qed.

(** Two port masks add up, beyond the array of ports. *)
Example two_portmasks_overflow :
  parse_app_args 4 4 [Short 112 (str "f"); Short 112 (str "1")] args_start = Err OutOfBounds.
Proof. reflexivity. Qed.

(** A name as long as the limit is accepted and cut. *)
Example basename_cut : us_vhost_parse_basename (str "usvhost-12345678-net") (str "vhost-net") = (0, str "usvhost-12345678-ne").
Proof. reflexivity. Qed.
