(* ===== verification/Init.v ===== *)
(** Start-up of the switch: [init] and [init_mbuf_pools] of
    [datapath/dpdk/init.c] with [vhost_init] of [datapath/dpdk/vhost.c].

    It puts together the command line ([Args]), the flow table, the rings to
    the daemon, the vports and the statistics; what the environment
    abstraction layer of DPDK returns is a record. *)
From stdpp Require Import gmap gmultiset.
From Stdlib Require Import String.
From S2P Require Import Prelude Stats Dpdk Flow Vport VportInit VportProps Action Datapath DatapathProps Main Args.

Definition MBUFS_PER_CLIENT : Z := 3072.
Definition MBUFS_PER_PORT : Z := 3072.
Definition MBUFS_PER_KNI : Z := 3072.
Definition MBUFS_PER_VETH : Z := 3072.
Definition MBUFS_PER_VHOST : Z := 3072.
Definition MBUFS_PER_DAEMON : Z := 2048.

(** Results of the calls to DPDK: [rte_eal_init], [rte_eal_pci_probe],
    [init_drivers], [rte_eth_dev_count], whether [rte_mempool_create] succeeds for a
    number of buffers, RTE_PKTMBUF_HEADROOM, RTE_MAX_ETHPORTS, the enabled cores,
    the frequency of the time stamp counter, and the result of registering the
    CUSE device. *)
Record eal := Eal {
  eal_init : Z; eal_pci_probe : Z; eal_drivers : Z; eal_dev_count : Z; eal_mempool : Z -> bool; eal_headroom : Z;
  eal_max_ports : Z; eal_lcores : list bool; eal_tsc_hz : Z; eal_cuse : Z
}.

Definition num_mbufs (a : app_args) : Z :=
  u32 (ar_clients a * MBUFS_PER_CLIENT + zlen (ar_ids a) * MBUFS_PER_PORT + ar_kni a * MBUFS_PER_KNI +
       ar_veth a * MBUFS_PER_VETH + ar_vhost a * MBUFS_PER_VHOST + MBUFS_PER_DAEMON).

(** [init_mbuf_pools]. *)
Definition init_mbuf_pools (e : eal) (a : app_args) : res Z :=
  if eal_headroom e <=? sizeof_dpdk_upcall then Err RteExit else Ok (if eal_mempool e (num_mbufs a) then 0 else 1).

(** [vhost_init]. *)
Definition vhost_init (e : eal) : res Z := if negb (eal_cuse e =? 0) then Err RteExit else Ok 0.

(** What [vport_init] finds in the variables the command line has set. *)
Definition startup_of (e : eal) (a : app_args) : startup :=
  Startup (ar_clients a) (ar_kni a) (ar_veth a) (ar_vhost a) (ar_ids a)
    (port_id <$> take (Z.to_nat (nb_cfg_params a)) (cfg_params a)) (eal_lcores e) (eal_tsc_hz e).

Section Init.
Context {ring dev drv hash : Type} `{Ring : RteRing ring} `{Mb : RteMbuf} `{Drv : Drivers drv} `{Vh : VhostDev dev} `{Eth : EthSetup}
  `{Hash : RteHash flow_key hash} `{Str : RteString}.

Notation dpt := (dp ring dev drv hash).

(** Variables of the vports before [vport_init]. *)
Definition blank (su : startup) (x : stats) (m : mem) (dr : drv) : vst ring dev drv := VSt [] [] [] [] [] (su_cfg su) [] x m dr.

(** [init]: the return value, and after success the datapath and the removal
    flags of the cores.  [x] is the memory of the statistics before it is
    cleared. *)
Definition init (e : eal) (os : list option_result) (x : stats) (m : mem) (dr : drv) : res (Z * option (dpt * list Z)) :=
  if eal_init e <? 0 then Ok (-1, None) else
  if negb (eal_pci_probe e =? 0) then Err RteExit else
  if negb (eal_drivers e =? 0) then Err RteExit else
  '(retval, a) ← parse_app_args (eal_max_ports e) (u8 (eal_dev_count e)) os args_start;
  if negb (retval =? 0) then Ok (-1, None) else
  retval ← init_mbuf_pools e a;
  if negb (retval =? 0) then Err RteExit else
  let su := startup_of e a in
  t ← flow_table_init;
  d ← datapath_init (blank su x m dr) t;
  s ← vport_init su x m dr;
  let s := set_vstats (stats_init (length (eal_lcores e))) s in
  _ ← (if ar_vhost a =? 0 then Ok 0 else vhost_init e);
  Ok (0, Some (set_sw s d, (fun enabled : bool => if enabled then ACK_DEV_REMOVAL else 0) <$> eal_lcores e)).
End Init.

(** ** Properties *)

(** A configuration that start-up can use: fewer clients than the vport table
    has places for, ports within it, and an entry of the port configuration
    for each, which names a port in use. *)
Record usable `{EthSetup} (a : app_args) : Prop := {
  us_clients : ar_clients a < MAX_CLIENTS;
  us_ports : zlen (ar_ids a) <= MAX_PHYPORTS;
  us_ids : Forall (fun i => i < MAX_PHYPORTS) (ar_ids a);
  us_config : let ports := port_id <$> take (Z.to_nat (nb_cfg_params a)) (cfg_params a) in
    (length (ar_ids a) <= length ports)%nat /\ Forall (fun p => PHYPORT0 <= p < PHYPORT0 + zlen (ar_ids a)) ports;
  us_nics : Forall (fun id => init_port (ar_clients a) id = 0) (ar_ids a)
}.

Lemma accepted_bounds `{Str : RteString} max_id max_ports os a :
  0 <= max_ports -> Forall option_known os -> foldr (fun o n => ports_added max_ports o + n) 0 os <= max_id ->
  parse_app_args max_id max_ports os args_start = Ok (0, a) ->
  1 <= ar_clients a <= MAX_CLIENTS /\ 0 <= ar_kni a <= MAX_KNI_PORTS /\ 0 <= ar_veth a <= MAX_VETH_PORTS /\
  0 <= ar_vhost a <= MAX_VHOST_PORTS /\ Forall (fun i => 0 <= i < max_ports) (ar_ids a).
Proof.
  intros Hm Hk Hz E. destruct (parse_app_args_ok max_id max_ports os Hm Hk Hz) as (ret & a' & E' & H). rewrite E in E'. injection E' as <- <-. by apply H.
Qed.

Section InitProps.
Context {ring dev drv hash : Type} `{Ring : RteRing ring} `{!RteRingLaws ring} `{Mb : RteMbuf} `{!RteMbufLaws}
  `{Drv : Drivers drv} `{!DriversLaws drv} `{Vh : VhostDev dev} `{!VhostLaws dev} `{Eth : EthSetup}
  `{Hash : RteHash flow_key hash} `{!RteHashLaws flow_key hash MAX_FLOWS} `{Str : RteString}.

Notation dpt := (dp ring dev drv hash).

Lemma startup_of_ok e max_id max_ports os a :
  0 <= max_ports -> Forall option_known os -> foldr (fun o n => ports_added max_ports o + n) 0 os <= max_id ->
  parse_app_args max_id max_ports os args_start = Ok (0, a) -> usable a -> zlen (eal_lcores e) < 256 ->
  startup_ok (startup_of e a).
Proof.
  intros Hm Hk Hz E [U1 U2 U3 [U4 U5] U6] Hcores. destruct (accepted_bounds _ _ _ _ Hm Hk Hz E) as (B1 & B2 & B3 & B4 & B5).
  unfold MAX_KNI_PORTS, MAX_VETH_PORTS in *. split; cbn; try done; try lia.
  apply Forall_forall. intros i Hi. rewrite Forall_forall in U3, B5. pose proof (U3 i Hi). pose proof (B5 i Hi). lia.
Qed.

Lemma datapath_init_objs (s : vst ring dev drv) (t : flow_table hash) d :
  datapath_init s t = Ok d -> rings_objs d = ∅ /\ d_flows d = t.
Proof.
  unfold datapath_init. destruct (rte_ring_create VSWITCHD_RINGSIZE) as [r|] eqn:Er; [|done]. bind. intros [= <-].
  destruct (ring_create_spec _ _ Er) as [Hr _]. split; [|done]. unfold rings_objs. cbn [vswitchd_packet_ring vswitchd_message_ring vswitchd_reply_ring vswitchd_free_ring vswitchd_alloc_ring].
  rewrite Hr, M_nil. clear. multiset_solver.
Qed.

(** C14: With an accepted and usable command line, fewer than 256 possible
    cores and resources that can be created, start-up returns 0, and every
    enabled core that can index its caches starts in the invariant of the
    forwarding loop, with no buffer in the rings, an empty flow table and no
    removal requested. *)
Theorem init_establishes (e : eal) os x m (dr : drv) a r1 r2 h lcore U D X :
  0 <= eal_init e -> eal_pci_probe e = 0 -> eal_drivers e = 0 -> sizeof_dpdk_upcall < eal_headroom e ->
  eal_mempool e (num_mbufs a) = true -> eal_cuse e = 0 -> 0 <= eal_dev_count e ->
  Forall option_known os -> foldr (fun o n => ports_added (u8 (eal_dev_count e)) o + n) 0 os <= eal_max_ports e ->
  parse_app_args (eal_max_ports e) (u8 (eal_dev_count e)) os args_start = Ok (0, a) -> usable a ->
  rte_ring_create CLIENT_QUEUE_RINGSIZE = Some r1 -> rte_ring_create VSWITCHD_RINGSIZE = Some r2 ->
  rte_hash_create MAX_FLOWS = Some h -> stats_wf (zlen (eal_lcores e)) x ->
  0 <= lcore < zlen (eal_lcores e) -> zlen (eal_lcores e) < 256 -> eal_lcores e !! Z.to_nat lcore = Some true ->
  (0 < ar_vhost a -> lcore < rte_lcore_count (eal_lcores e)) -> owns m (M (drv_objs dr) ⊎ X) ->
  exists (d : dpt) flags, init e os x m dr = Ok (0, Some (d, flags)) /\ core_inv (zlen (eal_lcores e)) lcore U D X d /\
    cfg (d_sw d) = su_cfg (startup_of e a) /\ rings_objs d = ∅ /\ (forall k, flow_map (d_flows d) k = None) /\
    index flags lcore = Ok ACK_DEV_REMOVAL.
Proof.
  intros H1 H2 H3 H4 H5 H6 H7 H8 H9 H10 H11 H12 H13 H14 H15 H16 H17 H18 H19 H20. unfold init.
  rewrite (proj2 (Z.ltb_ge _ _)) by lia. rewrite H2, H3. cbn [negb Z.eqb]. rewrite H10. bind. cbn [negb Z.eqb].
  unfold init_mbuf_pools. rewrite (proj2 (Z.leb_gt _ _)) by lia. rewrite H5. bind. cbn [negb Z.eqb].
  assert (0 <= u8 (eal_dev_count e)) as Hm by (apply wrap_range; lia).
  pose proof (startup_of_ok e _ _ _ _ Hm H8 H9 H10 H11 H17) as Hsu.
  assert (exists t : flow_table hash, flow_table_init = Ok t) as [t Et] by (unfold flow_table_init; rewrite H14; by eexists).
  destruct (flow_table_init_wf t Et) as [Hwf Hempty]. rewrite Et. bind.
  assert (exists d : dpt, datapath_init (blank (startup_of e a) x m dr) t = Ok d) as [d Ed]
    by (unfold datapath_init; rewrite H13; bind; by eexists).
  destruct (datapath_init_objs _ _ _ Ed) as [Hobj Hfl]. rewrite Ed. bind.
  destruct (vport_init_ok (startup_of e a) x m dr (zlen (eal_lcores e)) lcore r1 X) as (s & -> & Hp & Hcfg); try done; [lia|]. bind.
  assert ((if ar_vhost a =? 0 then Ok 0 else vhost_init e) = Ok 0) as -> by (unfold vhost_init; rewrite H6; by destruct (_ =? _)). bind.
  eexists _, _. split; [done|]. assert (rings_objs (set_sw (set_vstats (stats_init (length (eal_lcores e))) s) d) = ∅) as Hro by exact Hobj.
  split; [split; [|split]|].
  - unfold dpinv. rewrite Hro. apply pinv_set_vstats; [|apply stats_init_wf]. eapply pinv_eq; [exact Hp|]. clear. multiset_solver.
  - cbn. by rewrite Hfl.
  - intros k ac st. cbn. rewrite Hfl, (Hempty k). done.
  - split; [exact Hcfg|]. split; [exact Hro|]. split; [intros k; cbn; rewrite Hfl; apply Hempty|].
    apply index_Ok. split; [lia|]. by rewrite list_lookup_fmap, H18.
Qed.
End InitProps.

(** ** Example *)

(** Four cores of which two are enabled; one port, three clients, one port of
    each other kind. *)
Definition sample_eal : eal := Eal 0 0 0 1 (fun n => n <? 2 ^ 20) 128 32 [true; true; false; false] 1000000000 0.
Definition sample_options : list option_result :=
  [Short 112 (str "1"); Short 110 (str "3"); Short 107 (str "1"); Short 118 (str "1"); Short 104 (str "1"); Long 1 (str "(0,0,2)")].

Definition sample_args : app_args :=
  match parse_app_args 32 1 sample_options args_start with Ok (_, a) => a | Err _ => args_start end.

Lemma sample_args_usable : usable sample_args.
Proof.
  unfold sample_args. set (r := parse_app_args 32 1 sample_options args_start).
  assert (r = Ok (0, AppArgs [0] 3 1 1 1 (PortConfig 16 0 2 :: replicate 15 (PortConfig 0 0 0)) 1 false 0 0 0 (str "vhost-net") 0 4 15)) as ->
    by (vm_compute; reflexivity).
  split; cbn; unfold MAX_CLIENTS, MAX_PHYPORTS, PHYPORT0, zlen; cbn; try lia; try (split; [lia|]); repeat constructor; cbn; lia || reflexivity.
Qed.

Lemma init_establishes_witness :
  exists (d : dp fifo unit queues (list (option flow_key))) flags,
    init sample_eal sample_options (stats_init 4) sample_mem (([], []) : queues) = Ok (0, Some (d, flags)) /\
    core_inv 4 1 0 0 ({[+ 1 +]} ⊎ ∅) d /\ index flags 1 = Ok ACK_DEV_REMOVAL.
Proof.
  destruct (init_establishes sample_eal sample_options (stats_init 4) sample_mem (([], []) : queues) sample_args
    (FifoRing [] 4095) (FifoRing [] 2047) [] 1 0 0 ({[+ 1 +]} ⊎ ∅)) as (d & flags & E & Hi & _ & _ & _ & Hf).
  - discriminate.
  - reflexivity.
  - reflexivity.
  - reflexivity.
  - vm_compute. reflexivity.
  - reflexivity.
  - discriminate.
  - repeat constructor; cbn; lia.
  - vm_compute. discriminate.
  - vm_compute. reflexivity.
  - apply sample_args_usable.
  - reflexivity.
  - reflexivity.
  - reflexivity.
  - apply (stats_init_wf 4).
  - split; [lia|reflexivity].
  - vm_compute. reflexivity.
  - reflexivity.
  - intros _. reflexivity.
  - apply sample_mem_owns.
  - exists d, flags. split; [exact E|]. split; [exact Hi|exact Hf].
Defined.
