(* ===== verification/Client.v ===== *)
(** Client processes: the library with which they find their rings
    ([libvport/ovs-vport.c]) and the client that sends back what it receives
    ([guest/ovs_client/ovs_client.c]), next to a running datapath. *)
From stdpp Require Import gmap gmultiset.
From Stdlib Require Import String.
From S2P Require Import Prelude Stats Dpdk Vport VportInit VportProps Args.

(** ** Rings by name *)

Definition RTE_RING_NAMESIZE : Z := 32.
Definition MAX_QUEUE_NAME_SIZE : Z := 32.
Definition PKTMBUF_POOL_NAME : list Z := str "MProc_pktmbuf_pool".
Definition MZ_VPORT_INFO : list Z := str "OVS_vport_info".

(** A ring of the client at a position of the array of vports. *)
Inductive client_ring := RxQ (i : Z) | TxQ (i : Z) | FreeQ (i : Z).

#[global] Instance client_ring_eq_dec : EqDecision client_ring.
Proof. solve_decision. Defined.

(** [get_queue_name] with its templates OVS_Client_%u_RX and so on. *)
Definition get_queue_name (id : Z) (suffix : string) : list Z :=
  snprintf MAX_QUEUE_NAME_SIZE (str "OVS_Client_" ++ fmt_u id ++ str suffix).
Definition get_rx_queue_name (id : Z) : list Z := get_queue_name id "_RX".
Definition get_tx_queue_name (id : Z) : list Z := get_queue_name id "_TX".
Definition get_free_queue_name (id : Z) : list Z := get_queue_name id "_FREE_Q".

(** What [init_shm_rings] creates for the clients, with the names it gives. *)
Definition client_rings (n : nat) : list (list Z * client_ring) :=
  concat ((fun i => let id := CLIENT1 + Z.of_nat i in
    [(get_rx_queue_name id, RxQ id); (get_tx_queue_name id, TxQ id); (get_free_queue_name id, FreeQ id)]) <$> seq 0 n).

(** The names that it stores in the vport of a client. *)
Record vport_client_ring_names := RingNames { n_rx : list Z; n_tx : list Z; n_free : list Z }.
Definition ring_names (id : Z) : vport_client_ring_names :=
  RingNames (snprintf RTE_RING_NAMESIZE (get_rx_queue_name id)) (snprintf RTE_RING_NAMESIZE (get_tx_queue_name id))
    (snprintf RTE_RING_NAMESIZE (get_free_queue_name id)).

(** DPDK finds shared objects by the names under which they were created. *)
Class RteLookup (mz mp : Type) (rings : list (list Z * client_ring)) := {
  rte_ring_lookup : list Z -> option client_ring;
  rte_memzone_lookup : list Z -> option mz;
  rte_mempool_lookup : list Z -> option mp
}.
Class RteLookupLaws (mz mp : Type) (rings : list (list Z * client_ring)) `{RteLookup mz mp rings} := {
  ring_lookup_spec nm r : NoDup rings.*1 -> rte_ring_lookup nm = Some r <-> (nm, r) ∈ rings
}.

(** ** The library *)

Section Lib.
Context {ring dev mz mp : Type} {rings : list (list Z * client_ring)} `{Lk : RteLookup mz mp rings}.

(** The variables [vports] and [vports_mz] of the process, and the contents of
    the array, which it shares with the datapath. *)
Record lib := Lib { lib_vports : option mz; lib_vports_mz : option mz }.
Context (shared : list (vport_info ring dev)).

Definition ovs_vport_is_vport_name_valid (port_name : list Z) : Z := vport_is_valid_name port_name.

(** [client_vport_name_equal_to] and [kni_vport_name_equal_to]. *)
Definition vport_name_equal_to (ty : vport_type) (v : vport_info ring dev) (name : list Z) : bool :=
  bool_decide (v_type v = ty) && strneq VPORT_INFO_NAMESZ (v_name v) name.

(** The loop over the vports, which ends at the first match. *)
Fixpoint find_loop (ty : vport_type) (n : nat) (i : Z) (name : list Z) : res (option Z) :=
  match n with
  | O => Ok None
  | S n => v ← index shared i; if vport_name_equal_to ty v name then Ok (Some i) else find_loop ty n (i + 1) name
  end.

Definition get_client_vport_by_name (port_name : list Z) : res (option Z) :=
  if ovs_vport_is_vport_name_valid port_name <? 0 then Ok None
  else find_loop VPORT_TYPE_CLIENT (Z.to_nat MAX_VPORTS) 0 port_name.

Definition get_kni_vport_by_name (port_name : list Z) : res (option Z) :=
  if ovs_vport_is_vport_name_valid port_name <? 0 then Ok None
  else find_loop VPORT_TYPE_KNI (Z.to_nat MAX_VPORTS) 0 port_name.

Definition ovs_vport_lookup_vport_info (l : lib) : option mz * lib :=
  match lib_vports l with
  | Some _ => (lib_vports_mz l, l)
  | None =>
      match rte_memzone_lookup MZ_VPORT_INFO with
      | None => (None, Lib None None)
      | Some z => (Some z, Lib (Some z) (Some z))
      end
  end.

(** [ASSERT_VPORTS_NOT_NULL]. *)
Definition assert_vports (l : lib) : res unit := c_assert (match lib_vports l with Some _ => true | None => false end).

Definition ovs_vport_is_vport_client (l : lib) (port_name : list Z) : res Z :=
  _ ← assert_vports l;
  if ovs_vport_is_vport_name_valid port_name <? 0 then Ok (-1)
  else o ← find_loop VPORT_TYPE_CLIENT (Z.to_nat MAX_VPORTS) 0 port_name; Ok (match o with Some _ => 0 | None => -1 end).

Definition ovs_vport_is_vport_kni (l : lib) (port_name : list Z) : res Z :=
  _ ← assert_vports l;
  if ovs_vport_is_vport_name_valid port_name <? 0 then Ok (-1)
  else o ← find_loop VPORT_TYPE_KNI (Z.to_nat MAX_VPORTS) 0 port_name; Ok (match o with Some _ => 0 | None => -1 end).

(** The member [client.ring_names] of a vport. *)
Definition get_ring_names (i : Z) : res vport_client_ring_names :=
  v ← index shared i; match v_u v with U_client _ _ _ => Ok (ring_names i) | _ => Err NullDeref end.

(** [ovs_vport_client_lookup_rx_q] and its two siblings, which differ in the name
    they read. *)
Definition ovs_vport_client_lookup (field : vport_client_ring_names -> list Z) (l : lib) (port_name : list Z) : res (option client_ring) :=
  _ ← assert_vports l;
  client ← get_client_vport_by_name port_name;
  match client with
  | Some i => names ← get_ring_names i; Ok (rte_ring_lookup (field names))
  | None => Ok None
  end.

(** [ovs_vport_kni_lookup_tx_fifo] and its six siblings, by the place of the name
    in [struct vport_kni_fifo_names]; a name that is not set yet is empty. *)
Definition ovs_vport_kni_lookup (field : nat) (l : lib) (port_name : list Z) : res (option mz) :=
  _ ← assert_vports l;
  kni ← get_kni_vport_by_name port_name;
  match kni with
  | Some i =>
      v ← index shared i;
      match v_u v with
      | U_kni names _ => Ok (rte_memzone_lookup (default [] (names !! field)))
      | _ => Err NullDeref
      end
  | None => Ok None
  end.

Definition ovs_vport_host_lookup_packet_mempool : option mp := rte_mempool_lookup PKTMBUF_POOL_NAME.

(** [RTE_MEMZONE_NAMESIZE] is 32. *)
Definition ovs_vport_guest_lookup_packet_mempools_memzone : option mz :=
  rte_memzone_lookup (snprintf 32 (str "MP_" ++ PKTMBUF_POOL_NAME)).

(** ** The client: start *)

(** The loop of its [parse_app_args] over what [getopt_long] returns; [port_name]
    is null until the option is given. *)
Fixpoint client_options (os : list option_result) (port_name : option (list Z)) : Z * option (list Z) :=
  match os with
  | [] => (0, port_name)
  | Short 112 optarg :: os =>
      if ovs_vport_is_vport_name_valid optarg <? 0 then (-1, port_name) else client_options os (Some optarg)
  | _ :: _ => (-1, port_name)
  end.

(** [main] up to the loop: the rings, or nothing when it returns -1. *)
Definition client_start (rte_eal_init : Z) (os : list option_result) : res (option (client_ring * client_ring * client_ring)) :=
  if rte_eal_init <? 0 then Ok None else
  let '(ret, port_name) := client_options os None in
  if ret <? 0 then Err RteExit else
  let '(z, l) := ovs_vport_lookup_vport_info (Lib None None) in
  match z with
  | None => Ok None
  | Some _ =>
      name ← deref port_name;
      rx ← ovs_vport_client_lookup n_rx l name;
      match rx with None => Ok None | Some rx =>
      tx ← ovs_vport_client_lookup n_tx l name;
      match tx with None => Ok None | Some tx =>
      fr ← ovs_vport_client_lookup n_free l name;
      match fr with None => Ok None | Some fr => Ok (Some (rx, tx, fr)) end end end
  end.
End Lib.
Arguments lib : clear implicits.

(** ** The client: the loop *)

Definition PKT_READ_SIZE : Z := 32.

(** Where [main] is in its loop, with the variables that it still needs: before
    [rte_ring_count], [rte_ring_free_count], [rte_ring_dequeue_bulk], the first
    and the second [rte_ring_enqueue_bulk]. *)
Inductive client_pc :=
| AtCount
| AtFreeCount (rx_count : Z)
| AtDequeue (pkts_count : Z)
| AtSend (pkts : list Z)
| AtFree (pkts : list Z).

(** The packets that only the client has. *)
Definition held (pc : client_pc) : list Z := match pc with AtSend ps | AtFree ps => ps | _ => [] end.

Section Loop.
Context {ring dev drv : Type} `{Ring : RteRing ring} `{!RteRingLaws ring} `{Mb : RteMbuf} `{!RteMbufLaws}
  `{Drv : Drivers drv} `{!DriversLaws drv} `{Vh : VhostDev dev} `{!VhostLaws dev}.

Notation st := (vst ring dev drv).
Implicit Type s : st.

(** One access to a ring. *)
Definition client_access (pc : client_pc) (rx_ring tx_ring free_q : ring) : client_pc * ring * ring * ring :=
  match pc with
  | AtCount => (AtFreeCount (rte_ring_count rx_ring), rx_ring, tx_ring, free_q)
  | AtFreeCount rx_count =>
      let pkts_count := Z.min (Z.min rx_count (rte_ring_free_count free_q)) PKT_READ_SIZE in
      (if pkts_count =? 0 then AtCount else AtDequeue pkts_count, rx_ring, tx_ring, free_q)
  | AtDequeue pkts_count =>
      let '(ret, pkts, rx_ring) := rte_ring_dequeue_bulk pkts_count rx_ring in
      (if ret <? 0 then AtCount else AtSend pkts, rx_ring, tx_ring, free_q)
  | AtSend pkts =>
      let '(ret, tx_ring) := rte_ring_enqueue_bulk pkts tx_ring in
      (if ret =? - ENOBUFS then AtFree pkts else AtCount, rx_ring, tx_ring, free_q)
  | AtFree pkts =>
      let '(_, free_q) := rte_ring_enqueue_bulk pkts free_q in (AtCount, rx_ring, tx_ring, free_q)
  end.

(** The same on the rings of client [i]. *)
Definition client_step (i : Z) (pc : client_pc) s : res (client_pc * st) :=
  '(rx, tx, fr) ← get_client i s;
  let '(pc, rx, tx, fr) := client_access pc rx tx fr in
  s ← set_u i (U_client rx tx fr) s;
  Ok (pc, s).

(** A round of the loop, which makes at most five accesses. *)
Fixpoint client_round (n : nat) (i : Z) (pc : client_pc) s : res st :=
  match n with
  | O => Err OutOfFuel
  | S n =>
      '(pc, s) ← client_step i pc s;
      match pc with AtCount => Ok s | _ => client_round n i pc s end
  end.
Definition client_iteration (i : Z) s : res st := client_round 5 i AtCount s.

(** ** Packets are never lost *)

(** What the datapath does between two accesses of the client, while it holds
    the packets [X] before and [X'] afterwards: it keeps its invariant whatever
    others hold, adds at the end of the client's receive ring and takes from the
    front of the other two. *)
Definition datapath_moves (n lcore i : Z) s (X : gmultiset Z) s' (X' : gmultiset Z) : Prop :=
  (forall Y, pinv n lcore s (X ⊎ Y) -> pinv n lcore s' (X' ⊎ Y)) /\ cfg s' = cfg s /\
  forall r t f, get_client i s = Ok (r, t, f) ->
    exists r' t' f' added a b, get_client i s' = Ok (r', t', f') /\
      ring_cap f' = ring_cap f /\ ring_objs r' = ring_objs r ++ added /\
      ring_objs t' = drop a (ring_objs t) /\ ring_objs f' = drop b (ring_objs f).

(** The client and the datapath in any interleaving. *)
Inductive client_reach (n lcore i : Z) s0 (X0 : gmultiset Z) : client_pc -> st -> gmultiset Z -> Prop :=
| reach_start : client_reach n lcore i s0 X0 AtCount s0 X0
| reach_client pc s X pc' s' :
    client_reach n lcore i s0 X0 pc s X -> client_step i pc s = Ok (pc', s') -> client_reach n lcore i s0 X0 pc' s' X
| reach_datapath pc s X s' X' :
    client_reach n lcore i s0 X0 pc s X -> datapath_moves n lcore i s X s' X' -> client_reach n lcore i s0 X0 pc s' X'.

(** What the client knows at each place about its receive and free rings. *)
Definition pc_ok (pc : client_pc) (r f : ring) : Prop :=
  let room := ring_cap f - zlen (ring_objs f) in
  match pc with
  | AtCount => True
  | AtFreeCount k => 0 <= k <= zlen (ring_objs r)
  | AtDequeue k => 0 < k <= zlen (ring_objs r) /\ k <= room
  | AtSend ps | AtFree ps => zlen ps <= room
  end.

Definition client_inv (n lcore i : Z) (pc : client_pc) s (X : gmultiset Z) : Prop :=
  pinv n lcore s (X ⊎ M (held pc)) /\ CLIENT1 <= i < CLIENT1 + num_clients (cfg s) /\
  exists r t f, get_client i s = Ok (r, t, f) /\ pc_ok pc r f.

(** Replacing the rings of a client, when no packet appears or disappears. *)
Lemma set_rings_pinv n lcore i s X Y r t f r' t' f' :
  pinv n lcore s X -> get_client i s = Ok (r, t, f) ->
  M (ring_objs r' ++ ring_objs t' ++ ring_objs f') ⊎ Y = M (ring_objs r ++ ring_objs t ++ ring_objs f) ⊎ X ->
  exists s', set_u i (U_client r' t' f') s = Ok s' /\ pinv n lcore s' Y /\ cfg s' = cfg s /\ get_client i s' = Ok (r', t', f').
Proof.
  intros [[Hwf Ho] Hs] Hg Heq. pose proof Hg as (v & Hv & Hu)%res_bind_Ok. pose proof (w_ok _ _ _ Hwf _ _ Hv) as Hok.
  assert (v_u v = U_client r t f) as Hvu by (destruct (v_u v); by simplify_eq).
  destruct (wf_set_u n lcore i (U_client r' t' f') v s Hwf Hv) as (s' & E & Hwf'); [by eapply vport_ok_client|].
  pose proof (owned_set_u _ _ _ _ _ Hv E) as Hown. rewrite Hvu in Hown. cbn [u_objs] in Hown.
  destruct (set_u_frame _ _ _ _ E) as (F1 & F2 & _ & F4 & _). exists s'. split; [done|]. split; [|split; [done|]].
  - split; [split; [done|]|intros k; specialize (Hs k); by rewrite F2]. rewrite F1. eapply owns_eq; [exact Ho|].
    clear -Heq Hown. multiset_solver.
  - unfold get_client. by rewrite (get_set_u (fun u => match u with U_client r t f => Ok (r, t, f) | _ => Err NullDeref end) _ _ _ _ _ Hv E).
Qed.

(** The rings after an access hold what they held, less what the client takes. *)
Lemma client_access_ok pc r t f pc' r' t' f' :
  pc_ok pc r f -> client_access pc r t f = (pc', r', t', f') ->
  M (ring_objs r' ++ ring_objs t' ++ ring_objs f') ⊎ M (held pc') =
    M (ring_objs r ++ ring_objs t ++ ring_objs f) ⊎ M (held pc) /\ pc_ok pc' r' f'.
Proof.
  intros Hpc. pose proof (ring_count_cap f) as Hcap. destruct pc as [|k|k|ps|ps]; cbn [client_access held pc_ok] in *.
  - intros [= <- <- <- <-]. split; [done|]. cbn. rewrite ring_count_spec. split; [apply zlen_nonneg|lia].
  - rewrite ring_free_count_spec. destruct (Z.eqb_spec (Z.min (Z.min k (ring_cap f - zlen (ring_objs f))) PKT_READ_SIZE) 0) as [|Hne];
      intros [= <- <- <- <-]; (split; [done|]); [done|]. cbn. unfold PKT_READ_SIZE in *. lia.
  - destruct (rte_ring_dequeue_bulk k r) as [[ret ps] r1] eqn:E.
    destruct (ring_dequeue_bulk_spec k r ret ps r1 ltac:(lia) E) as (_ & Hd). rewrite (proj2 (Z.leb_le _ _)) in Hd by lia.
    destruct Hd as (-> & -> & Hr1). intros [= <- <- <- <-]. split.
    + cbn [Z.ltb held]. rewrite Hr1, M_nil. rewrite <- (take_drop (Z.to_nat k) (ring_objs r)) at 3. rewrite !M_app.
      generalize (M (take (Z.to_nat k) (ring_objs r))) (M (drop (Z.to_nat k) (ring_objs r))). intros. multiset_solver.
    + cbn. unfold zlen in *. rewrite length_take. lia.
  - destruct (rte_ring_enqueue_bulk ps t) as [ret t1] eqn:E. destruct (ring_enqueue_bulk_spec _ _ _ _ E) as (_ & He).
    destruct (Z.leb_spec (zlen (ring_objs t) + zlen ps) (ring_cap t)).
    + destruct He as [Hret Ht]. assert ((ret =? - ENOBUFS) = false) as -> by (destruct Hret; by subst).
      intros [= <- <- <- <-]. split; [|done]. cbn [held]. rewrite Ht, !M_app, M_nil. multiset_solver.
    + destruct He as [-> ->]. intros [= <- <- <- <-]. by split.
  - destruct (rte_ring_enqueue_bulk ps f) as [ret f1] eqn:E. destruct (ring_enqueue_bulk_spec _ _ _ _ E) as (_ & He).
    rewrite (proj2 (Z.leb_le _ _)) in He by lia. destruct He as [_ Hf]. intros [= <- <- <- <-]. split; [|done].
    cbn [held]. rewrite Hf, !M_app, M_nil. multiset_solver.
Qed.

Lemma client_step_ok n lcore i pc s X r t f :
  pinv n lcore s (X ⊎ M (held pc)) -> get_client i s = Ok (r, t, f) -> pc_ok pc r f ->
  exists s', client_step i pc s = Ok ((client_access pc r t f).1.1.1, s') /\ cfg s' = cfg s /\
    pinv n lcore s' (X ⊎ M (held (client_access pc r t f).1.1.1)) /\
    get_client i s' = Ok ((client_access pc r t f).1.1.2, (client_access pc r t f).1.2, (client_access pc r t f).2).
Proof.
  intros Hp Hg Hpc. unfold client_step. rewrite Hg. bind. destruct (client_access pc r t f) as [[[pc' r'] t'] f'] eqn:Ea.
  destruct (client_access_ok pc r t f pc' r' t' f' Hpc Ea) as [HM _].
  destruct (set_rings_pinv n lcore i s _ (X ⊎ M (held pc')) r t f r' t' f' Hp Hg) as (s' & -> & Hp' & Hc' & Hg');
    [clear -HM; multiset_solver|]. bind. by exists s'.
Qed.

Lemma client_reach_inv n lcore i s0 X0 pc s X :
  client_inv n lcore i AtCount s0 X0 -> client_reach n lcore i s0 X0 pc s X -> client_inv n lcore i pc s X.
Proof.
  intros H0. induction 1 as [|pc s X pc' s' _ IH E|pc s X s' X' _ IH (Hinv & Hcfg & Hmv)]; [done| |];
    destruct IH as (Hp & Hi & r & t & f & Hg & Hpc).
  - destruct (client_step_ok n lcore i pc s X r t f Hp Hg Hpc) as (s1 & E1 & Hc & Hp' & Hg'). rewrite E in E1. injection E1 as -> ->.
    split; [done|]. split; [by rewrite Hc|]. do 3 eexists. split; [exact Hg'|].
    destruct (client_access pc r t f) as [[[pc1 r1] t1] f1] eqn:Ea. by apply (client_access_ok _ _ _ _ _ _ _ _ Hpc Ea).
  - destruct (Hmv r t f Hg) as (r' & t' & f' & added & a & b & Hg' & Hcap & Hr & Ht & Hf).
    split; [by apply Hinv|]. split; [by rewrite Hcfg|]. exists r', t', f'. split; [done|].
    assert (zlen (ring_objs r) <= zlen (ring_objs r')) by (rewrite Hr, zlen_app; pose proof (zlen_nonneg added); lia).
    assert (zlen (ring_objs f') <= zlen (ring_objs f)) by (rewrite Hf; unfold zlen; rewrite length_drop; lia).
    destruct pc; cbn in *; lia.
Qed.

(** *** The datapath's operations on a client are such moves *)

Lemma free_ring_moves n lcore i s X r t f s' :
  sinv n lcore s X -> CLIENT1 <= i < CLIENT1 + num_clients (cfg s) -> get_client i s = Ok (r, t, f) ->
  ('(rx_q, tx_q, free_q) ← get_client i s;
   let '(freebufs, free_q) := rte_ring_dequeue_burst PKT_BURST_SIZE free_q in
   s ← set_u i (U_client rx_q tx_q free_q) s;
   s ← st_free_all freebufs s;
   Ok (0, s)) = Ok (0, s') ->
  exists f' b, get_client i s' = Ok (r, t, f') /\ ring_cap f' = ring_cap f /\ ring_objs f' = drop b (ring_objs f).
Proof.
  intros Hinv Hi Hg. destruct (client_free_ok n lcore i s X Hinv Hi) as (r1 & t1 & f1 & s1 & m & Hg1 & E1 & E2 & _).
  rewrite Hg in Hg1. injection Hg1 as <- <- <-. rewrite Hg. bind.
  destruct (rte_ring_dequeue_burst PKT_BURST_SIZE f) as [ps f'] eqn:Ef. cbn [fst snd] in *. rewrite E1. bind. rewrite E2. bind.
  intros [= <-]. destruct (ring_dequeue_burst_spec PKT_BURST_SIZE f ps f' ltac:(done) Ef) as (Hcap & _ & Hd).
  exists f', (Z.to_nat PKT_BURST_SIZE). split; [|done]. pose proof Hg as (v & Hv & _)%res_bind_Ok. unfold get_client. cbn [vports set_vmem].
  by rewrite (get_set_u (fun u => match u with U_client r t f => Ok (r, t, f) | _ => Err NullDeref end) _ _ _ _ _ Hv E1).
Qed.

Lemma send_to_client_moves n lcore i p s X s' :
  pinv n lcore s ({[+ p +]} ⊎ X) -> CLIENT1 <= i < CLIENT1 + num_clients (cfg s) -> send_to_client lcore i p s = Ok (0, s') ->
  datapath_moves n lcore i s ({[+ p +]} ⊎ X) s' X.
Proof.
  intros [Hinv Hs] Hi E. split; [|split].
  - intros Y [HY _]. assert ({[+ p +]} ⊎ X ⊎ Y = {[+ p +]} ⊎ (X ⊎ Y)) as Heq by multiset_solver. rewrite Heq in HY.
    destruct (send_to_client_ok n lcore i p s _ HY Hs Hi) as (s1 & E1 & Hp & Hs1 & _). rewrite E in E1. injection E1 as ->. by split.
  - destruct (send_to_client_ok n lcore i p s X Hinv Hs Hi) as (s1 & E1 & _ & _ & _ & Hc & _). rewrite E in E1. by injection E1 as ->.
  - intros r t f Hg. destruct (w_map _ _ _ (proj1 Hinv)) as [lc Hlc]. pose proof (w_cfg _ _ _ (proj1 Hinv)) as Hcfg. unfold cfg_ok, MAX_CLIENTS in Hcfg.
    destruct (cache_push_ok n lcore CClient lc (i - CLIENT1) p s X Hinv Hs Hlc) as (c & s1 & Hc & E1 & _ & Hinv1 & Hs1);
      [cbn; unfold CLIENT1 in *; lia|].
    assert (get_client i s1 = Ok (r, t, f)) as Hg1 by (by subst s1). assert (cfg s1 = cfg s /\ lcore_map s1 = lcore_map s) as [Hc1 Hm1] by (by subst s1).
    unfold send_to_client in E. rewrite Hlc in E. revert E. bind. unfold u32. rewrite wrap_small by (unfold is_u, CLIENT1 in *; lia).
    rewrite E1. bind. destruct (zlen c + 1 =? LOCAL_MBUF_CACHE_SIZE).
    + destruct (flush_client_ok n lcore lc i s1 X Hinv1) as (s2 & c2 & r2 & t2 & f2 & -> & Hinv2 & Hfl & _ & Hg2 & Hg2' & _);
        [by rewrite Hc1|by rewrite Hm1|]. bind. rewrite Hg1 in Hg2. injection Hg2 as <- <- <-. intros E.
      assert (cfg s2 = cfg s) as Hc2 by (destruct Hfl as (_ & _ & ->); done).
      destruct (free_ring_moves n lcore i s2 X _ _ _ _ Hinv2 ltac:(by rewrite Hc2) Hg2' E) as (f' & b & Hg' & Hcap & Hf).
      destruct (rte_ring_enqueue_burst c2 r) as [k r'] eqn:Er. destruct (ring_enqueue_burst_spec _ _ _ _ Er) as (_ & _ & Hr).
      exists r', t, f'. eexists _, O, b. by rewrite drop_0.
    + bind. intros E. destruct (free_ring_moves n lcore i s1 X _ _ _ _ Hinv1 ltac:(by rewrite Hc1) Hg1 E) as (f' & b & Hg' & Hcap & Hf).
      exists r, t, f', [], O, b. by rewrite app_nil_r, drop_0.
Qed.

Lemma receive_from_client_moves n lcore i s X ps s' :
  pinv n lcore s X -> CLIENT1 <= i < CLIENT1 + num_clients (cfg s) -> receive_from_client lcore i s = Ok (ps, s') ->
  datapath_moves n lcore i s X s' (M ps ⊎ X).
Proof.
  intros Hp Hi E. split; [|split].
  - intros Y HY. destruct (receive_from_client_ok n lcore i s _ HY Hi) as (ps1 & s1 & E1 & _ & Hp1 & _). rewrite E in E1.
    injection E1 as -> ->. by rewrite <- (assoc_L _).
  - destruct (receive_from_client_ok n lcore i s X Hp Hi) as (ps1 & s1 & E1 & _ & _ & _ & Hc). rewrite E in E1. by injection E1 as -> ->.
  - intros r t f Hg. unfold receive_from_client in E. rewrite Hg in E. revert E. bind.
    destruct (rte_ring_dequeue_burst PKT_BURST_SIZE t) as [qs t'] eqn:Et.
    destruct (ring_dequeue_burst_spec PKT_BURST_SIZE t qs t' ltac:(done) Et) as (_ & _ & Ht').
    intros (s1 & E1 & (s2 & E2 & [= <- <-])%res_bind_Ok)%res_bind_Ok. exists r, t', f, [], (Z.to_nat PKT_BURST_SIZE), O.
    rewrite app_nil_r, drop_0. split; [|done]. pose proof Hg as (v & Hv & _)%res_bind_Ok.
    apply res_bind_Ok in E2 as (x & _ & [= <-]). unfold get_client. cbn [vports set_vstats].
    by rewrite (get_set_u (fun u => match u with U_client r t f => Ok (r, t, f) | _ => Err NullDeref end) _ _ _ _ _ Hv E1).
Qed.

(** *** A round without interruption *)

(** The rings after a round: as many packets as there are, as fit into the free
    ring and at most 32 move to the transmit ring, or all of them to the free ring. *)
Definition after_round (r t f r' t' f' : ring) : Prop :=
  let k := Z.min (Z.min (zlen (ring_objs r)) (ring_cap f - zlen (ring_objs f))) PKT_READ_SIZE in
  let ps := take (Z.to_nat k) (ring_objs r) in
  ring_objs r' = drop (Z.to_nat k) (ring_objs r) /\
  if zlen (ring_objs t) + k <=? ring_cap t
  then ring_objs t' = ring_objs t ++ ps /\ ring_objs f' = ring_objs f
  else ring_objs t' = ring_objs t /\ ring_objs f' = ring_objs f ++ ps.

Lemma client_iteration_ok n lcore i s X r t f :
  pinv n lcore s X -> get_client i s = Ok (r, t, f) ->
  exists s' r' t' f', client_iteration i s = Ok s' /\ pinv n lcore s' X /\ cfg s' = cfg s /\
    get_client i s' = Ok (r', t', f') /\ after_round r t f r' t' f'.
Proof.
  intros Hp Hg. unfold client_iteration, client_round, after_round. set (k := Z.min (Z.min _ _) _).
  pose proof (ring_count_cap f) as Hcap. pose proof (zlen_nonneg (ring_objs r)) as Hr0.
  destruct (client_step_ok n lcore i AtCount s X r t f) as (s1 & E1 & C1 & P1 & G1); [cbn [held]; by rewrite M_nil, (right_id_L ∅ _)|done|done|].
  cbn [client_access fst snd] in *. rewrite E1. bind.
  destruct (client_step_ok n lcore i _ s1 X r t f P1 G1) as (s2 & E2 & C2 & P2 & G2); [cbn; rewrite ring_count_spec; lia|].
  cbn [client_access fst snd] in *. rewrite ring_count_spec, ring_free_count_spec in *. fold k in E2, P2. rewrite E2. bind.
  destruct (Z.eqb_spec k 0) as [Hk|Hk].
  { exists s2, r, t, f. cbn [held] in P2. rewrite M_nil, (right_id_L ∅ _) in P2. rewrite Hk. change (Z.to_nat 0) with O. rewrite take_0, drop_0, !app_nil_r.
    split; [done|]. split; [done|]. split; [congruence|]. split; [done|]. split; [done|]. by destruct (_ <=? _). }
  assert (0 < k <= zlen (ring_objs r) /\ k <= ring_cap f - zlen (ring_objs f)) as Hk' by (unfold k, PKT_READ_SIZE in *; lia).
  destruct (client_step_ok n lcore i _ s2 X r t f P2 G2 Hk') as (s3 & E3 & C3 & P3 & G3).
  cbn [client_access] in *. destruct (rte_ring_dequeue_bulk k r) as [[ret ps] r1] eqn:Ed.
  destruct (ring_dequeue_bulk_spec k r ret ps r1 ltac:(lia) Ed) as (_ & Hd). rewrite (proj2 (Z.leb_le _ _)) in Hd by lia.
  destruct Hd as (-> & -> & Hr1). change (0 <? 0) with false in *. cbn [fst snd] in *. cbv iota in *. rewrite E3. bind.
  set (ps := take (Z.to_nat k) (ring_objs r)) in *. assert (zlen ps = k) as Hps by (unfold ps, zlen in *; rewrite length_take; lia).
  destruct (client_step_ok n lcore i _ s3 X r1 t f P3 G3) as (s4 & E4 & C4 & P4 & G4); [cbn; lia|].
  cbn [client_access] in *. destruct (rte_ring_enqueue_bulk ps t) as [ret t1] eqn:Es.
  destruct (ring_enqueue_bulk_spec _ _ _ _ Es) as (_ & He). rewrite Hps in He. cbn [fst snd] in *. rewrite E4. bind.
  destruct (Z.leb_spec (zlen (ring_objs t) + k) (ring_cap t)).
  - destruct He as [Hret Ht]. assert ((ret =? - ENOBUFS) = false) as Hn by (destruct Hret; by subst). rewrite Hn in *. cbv iota in *. cbn [held] in P4.
    rewrite M_nil, (right_id_L ∅ _) in P4. exists s4, r1, t1, f. split_and!; congruence || done.
  - destruct He as [-> ->]. change (- ENOBUFS =? - ENOBUFS) with true in *. cbv iota in *.
    destruct (client_step_ok n lcore i _ s4 X r1 t f P4 G4) as (s5 & E5 & C5 & P5 & G5); [cbn; lia|].
    cbn [client_access] in *. destruct (rte_ring_enqueue_bulk ps f) as [ret f1] eqn:Ef.
    destruct (ring_enqueue_bulk_spec _ _ _ _ Ef) as (_ & He). rewrite (proj2 (Z.leb_le _ _)) in He by lia. destruct He as [_ Hf].
    cbn [fst snd held] in *. rewrite M_nil, (right_id_L ∅ _) in P5. rewrite E5. bind.
    exists s5, r1, t, f1. split_and!; congruence || done.
Qed.
End Loop.

(** ** The rings that the library finds *)

Lemma snprintf_idem n s : snprintf n (snprintf n s) = snprintf n s.
Proof. unfold snprintf. by rewrite take_take, Nat.min_id. Qed.

Lemma ring_names_eq i : ring_names i = RingNames (get_rx_queue_name i) (get_tx_queue_name i) (get_free_queue_name i).
Proof. unfold ring_names, get_rx_queue_name, get_tx_queue_name, get_free_queue_name, get_queue_name. by rewrite !snprintf_idem. Qed.

(** The names of the rings are different, for every number of clients. *)
Lemma client_rings_NoDup n : (n <= 16)%nat -> NoDup (client_rings n).*1.
Proof.
  intros Hn. assert (Forall (fun n => NoDup (client_rings n).*1) (seq 0 17)) as Hall by (apply (bool_decide_unpack _); by vm_compute).
  apply (proj1 (list.Forall_forall _ _) Hall). apply elem_of_seq. lia.
Qed.

Lemma client_rings_in n i :
  CLIENT1 <= i < CLIENT1 + Z.of_nat n ->
  (get_rx_queue_name i, RxQ i) ∈ client_rings n /\ (get_tx_queue_name i, TxQ i) ∈ client_rings n /\
  (get_free_queue_name i, FreeQ i) ∈ client_rings n.
Proof.
  intros Hi. assert (forall x, x ∈ [(get_rx_queue_name i, RxQ i); (get_tx_queue_name i, TxQ i); (get_free_queue_name i, FreeQ i)] ->
    x ∈ client_rings n) as Hin.
  { intros x Hx. unfold client_rings. apply list_elem_of_In, in_concat. eexists. split; [|apply list_elem_of_In, Hx]. apply list_elem_of_In, list_elem_of_fmap.
    exists (Z.to_nat (i - CLIENT1)). split; [|apply elem_of_seq; lia]. unfold CLIENT1 in *. rewrite Z2Nat.id by lia.
    by replace (1 + (i - 1)) with i by lia. }
  split_and!; apply Hin; repeat constructor.
Qed.

Section Find.
Context {ring dev mz mp : Type} {rings : list (list Z * client_ring)} `{Lk : RteLookup mz mp rings}.

(** The loop finds the first vport with the type and the name. *)
Lemma find_loop_first (shared : list (vport_info ring dev)) ty name i v n : forall j,
  index shared i = Ok v -> vport_name_equal_to ty v name = true -> 0 <= j <= i -> i < j + Z.of_nat n ->
  (forall k w, j <= k < i -> index shared k = Ok w -> vport_name_equal_to ty w name = false) ->
  find_loop shared ty n j name = Ok (Some i).
Proof.
  intros j Hv Hn. revert j. induction n as [|n IH]; intros j Hj Hjn Hno; [lia|]. cbn [find_loop].
  destruct (decide (j = i)) as [->|Hne]; [rewrite Hv; bind; by rewrite Hn|].
  pose proof (index_bound _ _ _ Hv). destruct (index_ok shared j) as [w Hw]; [lia|]. rewrite Hw. bind.
  rewrite (Hno j w) by (done || lia). apply IH; [lia|lia|]. intros k w' Hk. apply Hno. lia.
Qed.

Lemma get_client_found (shared : list (vport_info ring dev)) name i v :
  vport_is_valid_name name = 0 -> index shared i = Ok v -> vport_name_equal_to VPORT_TYPE_CLIENT v name = true -> i < MAX_VPORTS ->
  (forall j w, 0 <= j < i -> index shared j = Ok w -> vport_name_equal_to VPORT_TYPE_CLIENT w name = false) ->
  get_client_vport_by_name shared name = Ok (Some i).
Proof.
  intros Hn Hv He Hi Hno. unfold get_client_vport_by_name, ovs_vport_is_vport_name_valid. rewrite Hn. cbn [Z.ltb Z.compare].
  pose proof (index_bound _ _ _ Hv). apply (find_loop_first _ _ _ _ v); [done|done|lia|unfold MAX_VPORTS in *; lia|done].
Qed.
End Find.

(** ** Properties *)

Section Props.
Context {ring dev drv : Type} `{Ring : RteRing ring} `{!RteRingLaws ring} `{Mb : RteMbuf} `{!RteMbufLaws}
  `{Drv : Drivers drv} `{!DriversLaws drv} `{Vh : VhostDev dev} `{!VhostLaws dev}.

Notation st := (vst ring dev drv).
Implicit Type s : st.

Lemma client_has_rings n lcore s i :
  vst_wf n lcore s -> CLIENT1 <= i < CLIENT1 + num_clients (cfg s) ->
  exists v r t f, index (vports s) i = Ok v /\ v_u v = U_client r t f /\ get_client i s = Ok (r, t, f).
Proof.
  intros Hwf Hi. pose proof (w_cfg _ _ _ Hwf) as Hcfg. unfold cfg_ok, MAX_CLIENTS in Hcfg.
  destruct (index_ok (vports s) i) as [v Hv]; [rewrite (w_vports _ _ _ Hwf); unfold MAX_VPORTS, CLIENT1 in *; lia|].
  destruct (vo_client _ _ _ (w_ok _ _ _ Hwf _ _ Hv) Hi) as (r & t & f & Hu). exists v, r, t, f. split; [done|]. split; [done|].
  unfold get_client. rewrite Hv. bind. by rewrite Hu.
Qed.

(** C16: Whatever the datapath does between the accesses of a client to its rings,
    every packet is in the state of the datapath, with the datapath's cores or
    with the client; the client's accesses do not fail, and what it cannot send
    always fits into the ring of the packets to be freed. *)
Theorem client_never_loses n lcore i s0 X0 pc s X :
  pinv n lcore s0 X0 -> CLIENT1 <= i < CLIENT1 + num_clients (cfg s0) -> client_reach n lcore i s0 X0 pc s X ->
  pinv n lcore s (X ⊎ M (held pc)) /\
  exists r t f pc' s', get_client i s = Ok (r, t, f) /\ client_step i pc s = Ok (pc', s') /\
    forall ps, pc = AtFree ps -> exists f', get_client i s' = Ok (r, t, f') /\ ring_objs f' = ring_objs f ++ ps.
Proof.
  intros Hp Hi Hreach. destruct (client_has_rings n lcore s0 i (proj1 (proj1 Hp)) Hi) as (v & r0 & t0 & f0 & _ & _ & Hg0).
  destruct (client_reach_inv n lcore i s0 X0 pc s X) as (Hp' & _ & r & t & f & Hg & Hpc); [|done|].
  { split; [cbn [held]; by rewrite M_nil, (right_id_L ∅ _)|]. split; [done|]. by exists r0, t0, f0. }
  split; [done|]. destruct (client_step_ok n lcore i pc s X r t f Hp' Hg Hpc) as (s' & E & _ & _ & Hg').
  exists r, t, f. do 2 eexists. split; [done|]. split; [exact E|]. intros ps ->. cbn [client_access pc_ok] in *.
  destruct (rte_ring_enqueue_bulk ps f) as [ret f'] eqn:Ef. destruct (ring_enqueue_bulk_spec _ _ _ _ Ef) as (_ & He).
  rewrite (proj2 (Z.leb_le _ _)) in He by lia. exists f'. split; [exact Hg'|apply He].
Qed.

(** C31: What is in a client's receive ring, when its transmit ring is empty
    and the packets fit into a round, into the transmit ring and into the ring
    of freed packets, is what the datapath receives from the client after the
    round, in the same order, and every buffer is accounted for. *)
Theorem client_returns n lcore i s X r t f :
  pinv n lcore s X -> CLIENT1 <= i < CLIENT1 + num_clients (cfg s) -> get_client i s = Ok (r, t, f) ->
  ring_objs t = [] -> zlen (ring_objs r) <= Z.min PKT_READ_SIZE (Z.min (ring_cap t) (ring_cap f - zlen (ring_objs f))) ->
  exists s1 s2, client_iteration i s = Ok s1 /\ receive_from_client lcore i s1 = Ok (ring_objs r, s2) /\
    pinv n lcore s2 (M (ring_objs r) ⊎ X).
Proof.
  intros Hp Hi Hg Ht Hlen. destruct (client_iteration_ok n lcore i s X r t f Hp Hg) as (s1 & r' & t' & f' & E & Hp1 & Hc & Hg1 & Hr & Hround).
  revert Hround. set (k := Z.min (Z.min _ _) _) in *. assert (k = zlen (ring_objs r)) as Hk by lia. rewrite Hk, Ht. intros Hround.
  rewrite (proj2 (Z.leb_le _ _)) in Hround by (rewrite zlen_nil; lia). destruct Hround as [Ht' _].
  assert (ring_objs t' = ring_objs r) as Htr by (rewrite Ht'; cbn [app]; apply take_ge; unfold zlen; lia).
  destruct (receive_from_client_ok n lcore i s1 X Hp1) as (ps & s2 & E2 & _ & Hp2 & _); [by rewrite Hc|]. exists s1.
  assert (ps = ring_objs r) as ->; [|by exists s2]. revert E2. unfold receive_from_client. rewrite Hg1. bind.
  destruct (rte_ring_dequeue_burst PKT_BURST_SIZE t') as [qs t2] eqn:Ed. intros (? & _ & (? & _ & [= -> _])%res_bind_Ok)%res_bind_Ok.
  destruct (ring_dequeue_burst_spec PKT_BURST_SIZE t' ps t2 ltac:(done) Ed) as (_ & -> & _). rewrite Htr. apply take_ge.
  unfold PKT_READ_SIZE, PKT_BURST_SIZE, zlen in *. lia.
Qed.

(** C32: A client started with the name of a client vport, if the name is one
    that vport_is_valid_name accepts (short and alphanumeric), while the
    datapath runs, gets the three rings the datapath made for that vport; the
    first one, if several have the name. *)
Theorem client_start_finds {mz mp : Type} n lcore s
    `{Lk : RteLookup mz mp (client_rings (Z.to_nat (num_clients (cfg s))))} `{!RteLookupLaws mz mp _} eal name i v z :
  vst_wf n lcore s -> 0 <= eal -> rte_memzone_lookup MZ_VPORT_INFO = Some z -> vport_is_valid_name name = 0 ->
  index (vports s) i = Ok v -> vport_name_equal_to VPORT_TYPE_CLIENT v name = true ->
  (forall j w, 0 <= j < i -> index (vports s) j = Ok w -> vport_name_equal_to VPORT_TYPE_CLIENT w name = false) ->
  client_start (vports s) eal [Short 112 name] = Ok (Some (RxQ i, TxQ i, FreeQ i)).
Proof.
  intros Hwf Heal Hz Hname Hv He Hno. pose proof (w_cfg _ _ _ Hwf) as Hcfg. unfold cfg_ok, MAX_CLIENTS in Hcfg.
  assert (CLIENT1 <= i < CLIENT1 + num_clients (cfg s)) as Hi.
  { pose proof (vo_type _ _ _ (w_ok _ _ _ Hwf _ _ Hv)) as Hty. unfold vport_name_equal_to in He.
    apply andb_prop in He as [Hc%bool_decide_eq_true _]. by rewrite Hc in Hty. }
  pose proof (client_rings_NoDup (Z.to_nat (num_clients (cfg s))) ltac:(lia)) as Hnd.
  destruct (client_rings_in (Z.to_nat (num_clients (cfg s))) i) as (H1 & H2 & H3); [unfold CLIENT1 in *; lia|].
  apply (ring_lookup_spec _ _ Hnd) in H1, H2, H3. destruct (client_has_rings n lcore s i Hwf Hi) as (v' & r & t & f & Hv' & Hu & _).
  assert (forall field, ovs_vport_client_lookup (vports s) field (Lib (Some z) (Some z)) name = Ok (rte_ring_lookup (field (ring_names i)))) as Hl.
  { intros field. unfold ovs_vport_client_lookup. cbn [assert_vports lib_vports c_assert]. bind.
    rewrite (get_client_found _ name i v Hname Hv He) by (done || (unfold MAX_VPORTS, CLIENT1 in *; lia)). bind.
    unfold get_ring_names. rewrite Hv'. bind. rewrite Hu. by bind. }
  unfold client_start. rewrite (proj2 (Z.ltb_ge _ _)) by lia. cbn [client_options]. unfold ovs_vport_is_vport_name_valid. rewrite Hname.
  cbn [Z.ltb Z.compare]. cbv iota. unfold ovs_vport_lookup_vport_info. cbn [lib_vports]. rewrite Hz. cbn [deref]. bind.
  rewrite !Hl, !ring_names_eq. cbn [n_rx n_tx n_free]. rewrite H1. bind. rewrite H2. bind. rewrite H3. by bind.
Qed.
End Props.

(** ** Witnesses *)

(** Look-up by search; the memory zone of the vports exists. *)
#[local] Instance SearchLookup rings : RteLookup Z Z rings := {|
  rte_ring_lookup nm := (fun x => x.2.2) <$> list_find (fun x => x.1 = nm) rings;
  rte_memzone_lookup nm := if bool_decide (nm = MZ_VPORT_INFO) then Some 1 else None;
  rte_mempool_lookup nm := if bool_decide (nm = PKTMBUF_POOL_NAME) then Some 2 else None
|}.

#[local] Instance SearchLookupLaws rings : RteLookupLaws Z Z rings.
Proof.
  split. intros nm r Hnd. cbn. split.
  - destruct (list_find _ rings) as [[j [nm' r']]|] eqn:Ef; [|done]. cbn. intros [= <-].
    apply list_find_Some in Ef as (Hj & Hnm & _). cbn in Hnm. subst. by eapply list_elem_of_lookup_2.
  - intros Hin. destruct (list_find _ rings) as [[j [nm' r']]|] eqn:Ef.
    + apply list_find_Some in Ef as (Hj & Hnm & _). cbn in Hnm. subst. cbn. f_equal.
      apply list_elem_of_lookup in Hin as [k Hk]. assert (j = k) as ->; [|congruence].
      apply (NoDup_lookup rings.*1 j k nm Hnd); rewrite list_lookup_fmap; [by rewrite Hj|by rewrite Hk].
    + apply list_find_None in Ef. rewrite list.Forall_forall in Ef. by destruct (Ef _ Hin).
Qed.

Lemma client_start_finds_witness :
  client_start (Lk := SearchLookup (client_rings (Z.to_nat (num_clients (cfg sample_st))))) (vports sample_st) 0 [Short 112 (str "Client2")] = Ok (Some (RxQ 2, TxQ 2, FreeQ 2)).
Proof.
  eapply (client_start_finds 4 0 sample_st (Lk := SearchLookup (client_rings (Z.to_nat (num_clients (cfg sample_st))))) 0 (str "Client2") 2 _ 1).
  - apply sample_st_pinv.
  - lia.
  - reflexivity.
  - reflexivity.
  - vm_compute. reflexivity.
  - vm_compute. reflexivity.
  - intros j w Hj Hw. assert (j = 0 \/ j = 1) as [-> | ->] by lia; vm_compute in Hw; injection Hw as <-; reflexivity.
Defined.

(** The datapath sends packet 1 to client 2 and flushes; the client has counted. *)
Definition sent_st : vst fifo unit queues :=
  match send_to_client 0 2 1 sample_st with Ok (_, s) => s | Err _ => sample_st end.
Definition flushed_st : vst fifo unit queues :=
  match flush_clients 0 sent_st with Ok s => s | Err _ => sent_st end.

Lemma sample_client : CLIENT1 <= 2 < CLIENT1 + num_clients (cfg sample_st).
Proof. by vm_compute. Qed.

Lemma sent_reach : client_reach 4 0 2 sample_st ({[+ 1 +]} ⊎ ∅) AtCount sent_st ∅.
Proof.
  eapply reach_datapath; [apply reach_start|]. apply send_to_client_moves; [apply sample_st_pinv|apply sample_client|].
  vm_compute. reflexivity.
Qed.

Lemma client_never_loses_witness :
  exists pc s, client_step 2 AtCount sent_st = Ok (pc, s) /\ pinv 4 0 s (∅ ⊎ M (held pc)).
Proof.
  destruct (client_never_loses 4 0 2 sample_st ({[+ 1 +]} ⊎ ∅) AtCount sent_st ∅ sample_st_pinv sample_client sent_reach)
    as (_ & r & t & f & pc & s & _ & E & _). exists pc, s. split; [exact E|].
  apply (client_never_loses 4 0 2 sample_st ({[+ 1 +]} ⊎ ∅) pc s ∅ sample_st_pinv sample_client).
  eapply reach_client; [exact sent_reach|exact E].
Defined.

Lemma flushed_pinv_st : pinv 4 0 flushed_st ∅.
Proof.
  destruct sample_st_pinv as [Hinv Hs]. destruct (send_to_client_ok 4 0 2 1 sample_st ∅ Hinv Hs) as (s & E & Hp & Hs' & _); [by vm_compute|].
  assert (sent_st = s) as Es by (unfold sent_st; by rewrite E).
  destruct (flush_clients_ok 4 0 s ∅) as (s2 & E2 & Hp2 & _); [by split|]. unfold flushed_st. by rewrite Es, E2.
Qed.

Lemma client_returns_witness :
  exists s1 s2, client_iteration 2 flushed_st = Ok s1 /\ receive_from_client 0 2 s1 = Ok ([1], s2).
Proof.
  destruct (client_returns 4 0 2 flushed_st ∅ (FifoRing [1] 4095) (FifoRing [] 4095) (FifoRing [] 4095)) as (s1 & s2 & E1 & E2 & _);
    [apply flushed_pinv_st|by vm_compute|vm_compute; reflexivity|reflexivity|by vm_compute|].
  exists s1, s2. split; [exact E1|exact E2].
Defined.

(** ** Names *)

(** Without the option -p, the client reads a name through a null pointer. *)
Example client_without_name :
  client_start (Lk := SearchLookup []) (vports sample_st) 0 [] = Err NullDeref.
Proof. vm_compute. reflexivity. Qed.

(** A name of 32 characters is valid, but a vport that is given it has its first
    31 characters, and is not found. *)
Example longest_name_not_found :
  let name := replicate 32 97 in
  let s := vport_set_name 2 name sample_st in
  vport_is_valid_name name = 0 /\ get_client_vport_by_name (vports s) name = Ok None /\
  get_client_vport_by_name (vports s) (replicate 31 97) = Ok (Some 2).
Proof. vm_compute. by split_and!. Qed.
