(* ===== verification/Netlink.v ===== *)
(** Netlink attributes: [lib/netlink.c], [lib/netlink.h].

    Attributes are appended to an [ofpbuf] and read through pointers.  A pointer
    [const struct nlattr *nla] into a message is modelled by the bytes of the
    message from [nla] on: reading beyond them is a fault.

    [attr] is the layout of an attribute; the lemmas show that the functions
    that append attributes write it and that the loops and the functions that
    read attributes get back type and payload. *)
From S2P Require Import Prelude Ofpbuf.

Definition NLA_ALIGNTO : Z := 4.
Definition NLA_ALIGN (sz : Z) : Z := (sz + (NLA_ALIGNTO - 1)) / NLA_ALIGNTO * NLA_ALIGNTO.
Definition NLA_HDRLEN : Z := 4.
Definition UINT16_MAX : Z := 65535.
Definition NLA_TYPE_MASK : Z := 0x3FFF.

(** ** Appending *)

Section NlPut.
Context (junk : nat -> Z).

(** [nl_msg_put_uninit]: the message and the offset of the new bytes. *)
Definition nl_msg_put_uninit (msg : ofpbuf) (sz : Z) : res (ofpbuf * Z) :=
  let pad := NLA_ALIGN sz - sz in
  '(msg, p) ← ofpbuf_put_uninit junk msg (sz + pad);
  if pad =? 0 then Ok (msg, p) else
  m ← store_bytes (base msg) (p + sz) (replicate (Z.to_nat pad) 0);
  Ok (set_base m msg, p).

Definition nl_msg_put_unspec_uninit (msg : ofpbuf) (type sz : Z) : res (ofpbuf * Z) :=
  let total_size := NLA_HDRLEN + sz in
  '(msg, nla) ← nl_msg_put_uninit msg total_size;
  _ ← c_assert (NLA_ALIGN total_size <=? UINT16_MAX);
  m ← store16 (base msg) nla total_size;
  m ← store16 m (nla + 2) type;
  Ok (set_base m msg, nla + NLA_HDRLEN).

Definition nl_msg_put_unspec (msg : ofpbuf) (type : Z) (p : list Z) : res ofpbuf :=
  '(msg, dst) ← nl_msg_put_unspec_uninit msg type (zlen p);
  m ← store_bytes (base msg) dst p;
  Ok (set_base m msg).

Definition nl_msg_put_flag (msg : ofpbuf) (type : Z) : res ofpbuf := nl_msg_put_unspec msg type [].
Definition nl_msg_put_u8 (msg : ofpbuf) (type value : Z) : res ofpbuf := nl_msg_put_unspec msg type (le_split 1 value).
Definition nl_msg_put_u32 (msg : ofpbuf) (type value : Z) : res ofpbuf := nl_msg_put_unspec msg type (le_split 4 value).
Definition nl_msg_put_be16 (msg : ofpbuf) (type value : Z) : res ofpbuf := nl_msg_put_unspec msg type (le_split 2 value).
Definition nl_msg_put_be32 (msg : ofpbuf) (type value : Z) : res ofpbuf := nl_msg_put_unspec msg type (le_split 4 value).
Definition nl_msg_put_be64 (msg : ofpbuf) (type value : Z) : res ofpbuf := nl_msg_put_unspec msg type (le_split 8 value).
Definition nl_msg_put_odp_port (msg : ofpbuf) (type value : Z) : res ofpbuf := nl_msg_put_u32 msg type value.

(** [nl_msg_start_nested]: the message and the offset of the header. *)
Definition nl_msg_start_nested (msg : ofpbuf) (type : Z) : res (ofpbuf * Z) :=
  let offset := size msg in
  msg ← nl_msg_put_unspec msg type [];
  Ok (msg, offset).

Definition nl_msg_end_nested (msg : ofpbuf) (offset : Z) : res ofpbuf :=
  a ← ofpbuf_at_assert msg offset NLA_HDRLEN;
  m ← store16 (base msg) a (size msg - offset);
  Ok (set_base m msg).
End NlPut.

(** ** Reading *)

Definition nla_len (nla : list Z) : res Z := load16 nla 0.
Definition nl_attr_type (nla : list Z) : res Z := t ← load16 nla 2; Ok (Z.land t NLA_TYPE_MASK).

(** [nl_attr_get]: the payload and what follows it. *)
Definition nl_attr_get (nla : list Z) : res (list Z) :=
  n ← nla_len nla;
  _ ← c_assert (NLA_HDRLEN <=? n);
  Ok (drop (Z.to_nat NLA_HDRLEN) nla).

Definition nl_attr_get_size (nla : list Z) : res Z :=
  n ← nla_len nla;
  _ ← c_assert (NLA_HDRLEN <=? n);
  Ok (n - NLA_HDRLEN).

(** [nl_attr_get_unspec], and the read of [sz] bytes that follows it. *)
Definition nl_attr_get_unspec (nla : list Z) (sz : Z) : res (list Z) :=
  n ← nla_len nla;
  _ ← c_assert (NLA_HDRLEN + sz <=? n);
  load_bytes nla NLA_HDRLEN sz.

Definition nl_attr_get_u8 (nla : list Z) : res Z := le_combine <$> nl_attr_get_unspec nla 1.
Definition nl_attr_get_be16 (nla : list Z) : res Z := le_combine <$> nl_attr_get_unspec nla 2.
Definition nl_attr_get_u32 (nla : list Z) : res Z := le_combine <$> nl_attr_get_unspec nla 4.
Definition nl_attr_get_be32 (nla : list Z) : res Z := le_combine <$> nl_attr_get_unspec nla 4.
Definition nl_attr_get_be64 (nla : list Z) : res Z := le_combine <$> nl_attr_get_unspec nla 8.
Definition nl_attr_get_odp_port (nla : list Z) : res Z := nl_attr_get_u32 nla.

Definition nl_attr_next (nla : list Z) : res (list Z) :=
  n ← nla_len nla; Ok (drop (Z.to_nat (NLA_ALIGN n)) nla).

Definition nl_attr_is_valid (nla : list Z) (maxlen : Z) : res bool :=
  if maxlen <? NLA_HDRLEN then Ok false else
  n ← nla_len nla;
  Ok ((NLA_HDRLEN <=? n) && (NLA_ALIGN n <=? maxlen)).

(** [NL_ATTR_FOR_EACH] over [left] bytes from [nla] on: the variables the body
    changes, the bytes left, and whether the loop ended by itself.  The body
    says whether to go on. *)
Fixpoint nl_attr_for_each {A} (fuel : nat) (body : list Z -> A -> res (A * bool)) (nla : list Z) (left : Z) (x : A)
  : res (A * Z * bool) :=
  match fuel with
  | O => Err OutOfFuel
  | S fuel =>
      valid ← nl_attr_is_valid nla left;
      if valid : bool then
        '(x, go_on) ← body nla x;
        if go_on : bool then
          n ← nla_len nla;
          next ← nl_attr_next nla;
          nl_attr_for_each fuel body next (left - NLA_ALIGN n) x
        else Ok (x, left, false)
      else Ok (x, left, true)
  end.

(** [NL_ATTR_FOR_EACH_UNSAFE]: lengths are not checked, and the count of bytes
    left is unsigned. *)
Fixpoint nl_attr_for_each_unsafe {A} (fuel : nat) (body : list Z -> A -> res A) (nla : list Z) (left : Z) (x : A)
  : res A :=
  match fuel with
  | O => Err OutOfFuel
  | S fuel =>
      if 0 <? left then
        x ← body nla x;
        n ← nla_len nla;
        next ← nl_attr_next nla;
        nl_attr_for_each_unsafe fuel body next (u64 (left - NLA_ALIGN n)) x
      else Ok x
  end.

(** Fuel for a loop over the attributes in a message: each has a header. *)
Definition nl_fuel (nla : list Z) : nat := S (length nla).

(** ** Layout *)

Definition nl_pad (n : Z) : list Z := replicate (Z.to_nat (NLA_ALIGN n - n)) 0.

(** An attribute as it is stored. *)
Definition attr (type : Z) (p : list Z) : list Z :=
  le_split 2 (NLA_HDRLEN + zlen p) ++ le_split 2 type ++ p ++ nl_pad (NLA_HDRLEN + zlen p).

Definition attrs (l : list (Z * list Z)) : list Z := concat (map (fun a => attr a.1 a.2) l).

(** Types and payloads that the functions handle without loss. *)
Definition attr_ok (a : Z * list Z) : Prop := 0 <= a.1 < 2 ^ 14 /\ bytes a.2 /\ zlen a.2 <= 512.

(** A message that can take [k] more attributes. *)
Definition roomy (k : Z) (msg : ofpbuf) : Prop :=
  ofpbuf_wf msg /\ source msg <> OFPBUF_STACK /\ allocated msg + 1024 * k < 2 ^ 64.

Lemma NLA_ALIGN_bound n : n <= NLA_ALIGN n < n + 4.
Proof. unfold NLA_ALIGN, NLA_ALIGNTO. zdiv. Qed.

Lemma NLA_ALIGN_mod n : NLA_ALIGN n mod 4 = 0.
Proof. unfold NLA_ALIGN, NLA_ALIGNTO. zdiv. Qed.

Lemma NLA_ALIGN_id n : n mod 4 = 0 -> NLA_ALIGN n = n.
Proof. unfold NLA_ALIGN, NLA_ALIGNTO. intros. zdiv. Qed.

Lemma zlen_pad n : zlen (nl_pad n) = NLA_ALIGN n - n.
Proof. pose proof (NLA_ALIGN_bound n). unfold nl_pad, zlen. rewrite length_replicate. lia. Qed.

Lemma zlen_attr t p : zlen (attr t p) = NLA_ALIGN (NLA_HDRLEN + zlen p).
Proof. unfold attr. rewrite !zlen_app, !zlen_le_split, zlen_pad. unfold NLA_HDRLEN. lia. Qed.

Lemma attrs_app l k : attrs (l ++ k) = attrs l ++ attrs k.
Proof. unfold attrs. by rewrite map_app, concat_app. Qed.

Lemma attrs_cons a l : attrs (a :: l) = attr a.1 a.2 ++ attrs l.
Proof. done. Qed.

Lemma attrs_align l : zlen (attrs l) mod 4 = 0.
Proof.
  induction l as [|a l IH]; [done|]. rewrite attrs_cons, zlen_app, zlen_attr.
  rewrite Z.add_mod, IH, NLA_ALIGN_mod by lia. done.
Qed.

Lemma attrs_size l B : Forall (fun a => zlen a.2 <= B) l -> zlen (attrs l) <= (B + 8) * zlen l.
Proof.
  induction 1 as [|a l Ha _ IH]; [unfold zlen; simpl; lia|]. rewrite attrs_cons, zlen_app, zlen_attr, zlen_cons.
  pose proof (NLA_ALIGN_bound (NLA_HDRLEN + zlen a.2)). unfold NLA_HDRLEN in *. lia.
Qed.

Lemma attrs_length l : (length l <= length (attrs l))%nat.
Proof.
  induction l as [|a l IH]; [done|]. rewrite attrs_cons, length_app. pose proof (zlen_attr a.1 a.2).
  pose proof (NLA_ALIGN_bound (NLA_HDRLEN + zlen a.2)). pose proof (zlen_nonneg a.2). unfold NLA_HDRLEN, zlen in *. simpl. lia.
Qed.

Lemma attr_bytes t p : bytes p -> bytes (attr t p).
Proof.
  intros Hp. unfold attr. rewrite !bytes_app. split_and!; try apply le_split_bytes; [done|].
  unfold nl_pad, bytes. apply Forall_replicate. unfold is_u8, is_u. lia.
Qed.

Lemma attrs_bytes l : Forall attr_ok l -> bytes (attrs l).
Proof.
  induction 1 as [|a l [_ [? _]] ? IH]; [constructor|]. rewrite attrs_cons, bytes_app.
  split; [by apply attr_bytes|done].
Qed.

Lemma roomy_weaken j k msg : j <= k -> roomy k msg -> roomy j msg.
Proof. intros ? (?&?&?). split_and!; try done. lia. Qed.

(** ** Appending attributes *)

Section NlPutLemmas.
Context (junk : nat -> Z) (junk_byte : forall i, is_u8 (junk i)).

Lemma prealloc_roomy k n msg :
  0 <= n <= 640 -> 1 <= k -> roomy k msg ->
  exists b, ofpbuf_prealloc_tailroom junk msg n = Ok b /\ roomy (k - 1) b /\ contents b = contents msg /\
    size b = size msg /\ n <= ofpbuf_tailroom b.
Proof.
  intros Hn Hk (Hwf & Hs & Ha). unfold ofpbuf_prealloc_tailroom.
  pose proof Hwf as (_&?&?&?&?). destruct (Z.ltb_spec (ofpbuf_tailroom msg) n).
  - destruct (ofpbuf_resize_spec junk junk_byte msg (ofpbuf_headroom msg) (Z.max n 64))
      as (b & -> & Hb & Hc & _ & Hsrc & Hsz & Hh & Ht); [done|done|unfold ofpbuf_headroom; lia..|].
    exists b. split; [done|]. unfold ofpbuf_headroom, ofpbuf_tailroom, ofpbuf_end, ofpbuf_tail in *.
    split; [split_and!; [done|by rewrite Hsrc|lia]|]. split_and!; done || lia.
  - exists msg. split; [done|]. split; [split_and!; done || lia|]. split_and!; done || lia.
Qed.

(** The four stores of an attribute are one store of its layout. *)
Lemma attr_stores m off type p :
  0 <= off -> off + zlen (attr type p) <= zlen m ->
  exists m1 m2 m3 m', store_bytes m (off + (NLA_HDRLEN + zlen p)) (nl_pad (NLA_HDRLEN + zlen p)) = Ok m1 /\
    store16 m1 off (NLA_HDRLEN + zlen p) = Ok m2 /\ store16 m2 (off + 2) type = Ok m3 /\
    store_bytes m3 (off + NLA_HDRLEN) p = Ok m' /\ store_bytes m off (attr type p) = Ok m'.
Proof.
  intros Ho Hl. rewrite zlen_attr in Hl. pose proof (NLA_ALIGN_bound (NLA_HDRLEN + zlen p)) as Hal.
  set (n := NLA_HDRLEN + zlen p) in *. pose proof (zlen_nonneg p). assert (n = 4 + zlen p) as Hn by done.
  destruct (store_bytes_ok m (off + n) (nl_pad n)) as [m1 E1]; [lia|rewrite zlen_pad; lia|].
  pose proof (store_bytes_zlen _ _ _ _ E1) as Z1. unfold store16, store_le. unfold NLA_HDRLEN in *.
  destruct (store_bytes_ok m1 off (le_split 2 n)) as [m2 E2]; [lia|rewrite zlen_le_split; lia|].
  pose proof (store_bytes_zlen _ _ _ _ E2) as Z2.
  destruct (store_bytes_ok m2 (off + 2) (le_split 2 type)) as [m3 E3]; [lia|rewrite zlen_le_split; lia|].
  pose proof (store_bytes_zlen _ _ _ _ E3) as Z3.
  destruct (store_bytes_ok m3 (off + 4) p) as [m4 E4]; [lia..|]. exists m1, m2, m3, m4. do 4 (split; [done|]).
  pose proof (store_bytes_zlen _ _ _ _ E4) as Z4.
  destruct (store_bytes_ok m off (attr type p)) as [m5 E5]; [lia|rewrite zlen_attr; change (NLA_HDRLEN + zlen p) with n; lia|].
  rewrite E5. f_equal. apply list_eq. intros i.
  rewrite (store_bytes_lookup _ _ _ _ i E5), (store_bytes_lookup _ _ _ _ i E4), (store_bytes_lookup _ _ _ _ i E3),
    (store_bytes_lookup _ _ _ _ i E2), (store_bytes_lookup _ _ _ _ i E1).
  rewrite zlen_attr, !zlen_le_split, zlen_pad. unfold attr. change (NLA_HDRLEN + zlen p) with n.
  pose proof (le_split_length 2 n). pose proof (le_split_length 2 type). unfold zlen in *.
  repeat case_decide; try lia; try done.
  - rewrite !lookup_app_r, lookup_app_l by lia. f_equal. lia.
  - rewrite lookup_app_r, lookup_app_l by lia. f_equal. lia.
  - by rewrite lookup_app_l by lia.
  - rewrite !lookup_app_r by lia. f_equal. lia.
Qed.

(** Appending an attribute appends its layout. *)
Lemma put_attr k type p msg :
  bytes p -> zlen p <= 512 -> 1 <= k -> roomy k msg ->
  exists msg', nl_msg_put_unspec junk msg type p = Ok msg' /\ roomy (k - 1) msg' /\
    contents msg' = contents msg ++ attr type p.
Proof.
  intros Hp Hl Hk Hr. pose proof (zlen_nonneg p). pose proof (NLA_ALIGN_bound (NLA_HDRLEN + zlen p)) as Hal.
  unfold nl_msg_put_unspec, nl_msg_put_unspec_uninit, nl_msg_put_uninit, ofpbuf_put_uninit.
  set (n := NLA_HDRLEN + zlen p) in *. assert (n = 4 + zlen p) as Hn by done.
  replace (n + (NLA_ALIGN n - n)) with (NLA_ALIGN n) by lia.
  destruct (prealloc_roomy k (NLA_ALIGN n) msg) as (b & -> & (Hwf & Hs & Ha) & Hc & Hsz & Ht); [lia|lia|done|]. bind.
  pose proof Hwf as (Hb & Hab & ? & ? & ?).
  destruct (put_window b (attr type p)) as (m' & Em & Hwf' & Hc'); [done|by apply attr_bytes|by rewrite zlen_attr|].
  rewrite zlen_attr in Hwf', Hc'. change (NLA_HDRLEN + zlen p) with n in Hwf', Hc'.
  destruct (attr_stores (base b) (ofpbuf_tail b) type p) as (m1 & m2 & m3 & m4 & E1 & E2 & E3 & E4 & E5).
  { unfold ofpbuf_tail. lia. }
  { rewrite zlen_attr. fold n. unfold ofpbuf_tailroom, ofpbuf_end, ofpbuf_tail in *. lia. }
  rewrite Em in E5. injection E5 as <-. change (NLA_HDRLEN + zlen p) with n in E1, E2.
  assert (u64 (size b + NLA_ALIGN n) = size b + NLA_ALIGN n) as ->.
  { apply u64_small. unfold ofpbuf_tailroom, ofpbuf_end, ofpbuf_tail in *. lia. }
  set (w := set_window (data b) (size b + NLA_ALIGN n) b) in *.
  exists (set_base m' w). split; [|split; [by split_and!|by rewrite Hc', Hc]].
  rewrite (proj2 (Z.leb_le (NLA_ALIGN n) UINT16_MAX)) by (unfold UINT16_MAX; lia).
  assert ((if NLA_ALIGN n - n =? 0 then Ok (w, ofpbuf_tail b)
    else m ← store_bytes (base w) (ofpbuf_tail b + n) (replicate (Z.to_nat (NLA_ALIGN n - n)) 0);
         Ok (set_base m w, ofpbuf_tail b)) = Ok (set_base m1 w, ofpbuf_tail b)) as Epad.
  { change (base w) with (base b). fold (nl_pad n). rewrite E1. destruct (Z.eqb_spec (NLA_ALIGN n - n) 0) as [Hz|]; [|done].
    apply store_bytes_Ok in E1 as (_ & _ & ->). unfold nl_pad. rewrite Hz. reflexivity. }
  cbn [mbind res_bind c_assert] in Epad |- *. rewrite Epad. bind. cbn [base set_base]. rewrite E2. bind. rewrite E3. bind. bind. cbn [base set_base].
  rewrite E4. done.
Qed.
End NlPutLemmas.

Lemma start_nested junk (junk_byte : forall i, is_u8 (junk i)) k type msg :
  1 <= k -> roomy k msg ->
  exists msg', nl_msg_start_nested junk msg type = Ok (msg', zlen (contents msg)) /\ roomy (k - 1) msg' /\
    contents msg' = contents msg ++ attr type [].
Proof.
  intros Hk Hr. destruct (put_attr junk junk_byte k type [] msg) as (msg' & E & Hr' & Hc); [constructor|done|done|done|].
  exists msg'. unfold nl_msg_start_nested. rewrite E. bind. by rewrite zlen_contents by apply Hr.
Qed.

(** Bytes inside the window are overwritten. *)
Lemma contents_overwrite msg c x y r :
  ofpbuf_wf msg -> contents msg = c ++ x ++ r -> zlen y = zlen x -> bytes y ->
  exists m, store_bytes (base msg) (data msg + zlen c) y = Ok m /\ ofpbuf_wf (set_base m msg) /\
    contents (set_base m msg) = c ++ y ++ r.
Proof.
  intros Hwf Hc Hl Hy. pose proof Hwf as (Hb & ? & ? & ? & ?). pose proof (zlen_contents msg Hwf) as Hz.
  rewrite Hc, !zlen_app in Hz. pose proof (zlen_nonneg c). pose proof (zlen_nonneg x). pose proof (zlen_nonneg r).
  destruct (store_bytes_ok (base msg) (data msg + zlen c) y) as [m Em]; [lia..|].
  pose proof (store_bytes_zlen _ _ _ _ Em). exists m. split; [done|]. split.
  - split_and!; simpl; try lia. by apply (store_bytes_bytes _ _ _ _ Hb Hy Em).
  - apply contents_eq. simpl. pose proof (contents_load msg Hwf) as Hld. rewrite Hc in Hld. rewrite <- Hz in *.
    apply load_bytes_split in Hld as [L1 L2]; [|lia..]. rewrite take_zlen_app in L1. rewrite drop_zlen_app in L2.
    apply load_bytes_split in L2 as [_ L2]; [|lia..]. rewrite drop_zlen_app in L2.
    apply load_bytes_app.
    + by rewrite (load_store_other _ _ _ _ _ _ Em) by lia.
    + apply load_bytes_app.
      * rewrite <- Hl. by apply load_store_same with (1 := Em).
      * by rewrite (load_store_other _ _ _ _ _ _ Em) by lia.
Qed.

(** Ending a nested attribute makes what was appended since its payload. *)
Lemma end_nested k type msg c inner :
  roomy k msg -> contents msg = c ++ attr type [] ++ inner -> zlen inner mod 4 = 0 -> 0 <= k ->
  exists msg', nl_msg_end_nested msg (zlen c) = Ok msg' /\ roomy k msg' /\ contents msg' = c ++ attr type inner.
Proof.
  intros (Hwf & Hs & Ha) Hc Hm Hk. pose proof (zlen_contents msg Hwf) as Hz. rewrite Hc, !zlen_app, zlen_attr in Hz. pose proof Hwf as (_&?&?&?&?).
  change (NLA_ALIGN (NLA_HDRLEN + zlen [])) with 4 in Hz. pose proof (zlen_nonneg c). pose proof (zlen_nonneg inner).
  change (attr type []) with (le_split 2 4 ++ (le_split 2 type ++ []) ++ []) in Hc. rewrite !app_nil_r, <- !app_assoc in Hc.
  destruct (contents_overwrite msg c (le_split 2 4) (le_split 2 (4 + zlen inner)) (le_split 2 type ++ inner))
    as (m & Em & Hwf' & Hc'); [done|done|done|apply le_split_bytes|].
  exists (set_base m msg). split; [|split; [by split_and!|]].
  - unfold nl_msg_end_nested, ofpbuf_at_assert, NLA_HDRLEN. rewrite u64_small by lia.
    rewrite (proj2 (Z.leb_le (zlen c + 4) (size msg))) by lia. cbn [c_assert]. bind. bind.
    replace (size msg - zlen c) with (4 + zlen inner) by lia. unfold store16, store_le. rewrite Em. done.
  - rewrite Hc'. unfold attr, nl_pad. rewrite NLA_ALIGN_id by (unfold NLA_HDRLEN; zdiv). by rewrite Z.sub_diag, app_nil_r.
Qed.

(** ** Reading attributes *)

Lemma load_le_app k v r : load_le k (le_split k v ++ r) 0 = Ok (v mod 256 ^ Z.of_nat k).
Proof.
  unfold load_le. erewrite (proj2 (load_bytes_Ok _ 0 _ (le_split k v))).
  - simpl. by rewrite le_combine_split.
  - rewrite zlen_app, zlen_le_split. pose proof (zlen_nonneg r). split_and!; try lia.
    rewrite Nat2Z.id, drop_0. by rewrite take_app_length' by (symmetry; apply le_split_length).
Qed.

Section NlRead.
Context (t : Z) (p rest : list Z) (Ht : 0 <= t < 2 ^ 14) (Hp : zlen p <= 60000).

Lemma nla_len_attr : nla_len (attr t p ++ rest) = Ok (NLA_HDRLEN + zlen p).
Proof using Hp.
  pose proof (zlen_nonneg p). unfold nla_len, load16, attr. rewrite <- !app_assoc, load_le_app.
  by rewrite Z.mod_small by (unfold NLA_HDRLEN; change (256 ^ Z.of_nat 2) with 65536; lia).
Qed.

Lemma nl_attr_type_attr : nl_attr_type (attr t p ++ rest) = Ok t.
Proof using Ht.
  unfold nl_attr_type, load16, load_le, attr. rewrite <- !app_assoc. change 2 with (zlen (le_split 2 (NLA_HDRLEN + zlen p)) + 0).
  rewrite load_bytes_shift by done. pose proof (load_le_app 2 t (p ++ nl_pad (NLA_HDRLEN + zlen p) ++ rest)) as E.
  unfold load_le in E. rewrite E. bind. rewrite Z.mod_small by (change (256 ^ Z.of_nat 2) with 65536; lia).
  change NLA_TYPE_MASK with (Z.ones 14). rewrite Z.land_ones by done. by rewrite Z.mod_small.
Qed.

Lemma nl_attr_payload n : 0 <= n <= zlen p -> load_bytes (attr t p ++ rest) NLA_HDRLEN n = Ok (take (Z.to_nat n) p).
Proof using Type.
  intros Hn. unfold attr. rewrite <- !app_assoc, app_assoc.
  change NLA_HDRLEN with (zlen (le_split 2 (NLA_HDRLEN + zlen p) ++ le_split 2 t) + 0) at 3.
  rewrite load_bytes_shift by done. apply load_bytes_Ok. rewrite zlen_app. pose proof (zlen_nonneg (nl_pad (NLA_HDRLEN + zlen p) ++ rest)).
  split_and!; try lia. rewrite drop_0, take_app_le; [done|]. unfold zlen in *. lia.
Qed.

Lemma nl_attr_get_unspec_attr n : 0 <= n <= zlen p -> nl_attr_get_unspec (attr t p ++ rest) n = Ok (take (Z.to_nat n) p).
Proof using Hp.
  intros Hn. unfold nl_attr_get_unspec. rewrite nla_len_attr. bind. rewrite (proj2 (Z.leb_le _ _)) by lia. cbn [c_assert]. bind.
  by apply nl_attr_payload.
Qed.

Lemma nl_attr_get_attr : nl_attr_get (attr t p ++ rest) = Ok (p ++ nl_pad (NLA_HDRLEN + zlen p) ++ rest).
Proof using Hp.
  pose proof (zlen_nonneg p). unfold nl_attr_get. rewrite nla_len_attr. bind. rewrite (proj2 (Z.leb_le _ _)) by lia. cbn [c_assert]. bind.
  f_equal. unfold attr. rewrite <- !app_assoc, app_assoc. done.
Qed.

Lemma nl_attr_get_size_attr : nl_attr_get_size (attr t p ++ rest) = Ok (zlen p).
Proof using Hp.
  pose proof (zlen_nonneg p). unfold nl_attr_get_size. rewrite nla_len_attr. bind. rewrite (proj2 (Z.leb_le _ _)) by lia. cbn [c_assert]. bind.
  f_equal. lia.
Qed.

Lemma nl_attr_next_attr : nl_attr_next (attr t p ++ rest) = Ok rest.
Proof using Hp.
  unfold nl_attr_next. rewrite nla_len_attr. bind. rewrite <- (zlen_attr t). unfold zlen. rewrite Nat2Z.id. by rewrite drop_app_length.
Qed.

Lemma nl_attr_is_valid_attr left : zlen (attr t p) <= left -> nl_attr_is_valid (attr t p ++ rest) left = Ok true.
Proof using Hp.
  intros Hl. rewrite zlen_attr in Hl. pose proof (zlen_nonneg p). pose proof (NLA_ALIGN_bound (NLA_HDRLEN + zlen p)).
  unfold nl_attr_is_valid. rewrite (proj2 (Z.ltb_ge _ _)) by (unfold NLA_HDRLEN in *; lia). rewrite nla_len_attr. bind.
  by rewrite !(proj2 (Z.leb_le _ _)) by (unfold NLA_HDRLEN in *; lia).
Qed.
End NlRead.

(** A loop over attributes that ends by itself visits each of them. *)
Lemma for_each_attrs {A} (Inv : list (Z * list Z) -> A -> Prop) body l :
  Forall (fun a => zlen a.2 <= 60000) l ->
  (forall done a rest x, done ++ [a] `prefix_of` l -> Inv done x ->
     exists x', body (attr a.1 a.2 ++ rest) x = Ok (x', true) /\ Inv (done ++ [a]) x') ->
  forall fuel rest x, (length l < fuel)%nat -> Inv [] x ->
  exists x', nl_attr_for_each fuel body (attrs l ++ rest) (zlen (attrs l)) x = Ok (x', 0, true) /\ Inv l x'.
Proof.
  intros Hl Hbody. assert (forall todo done fuel rest x, done ++ todo = l -> (length todo < fuel)%nat -> Inv done x ->
    exists x', nl_attr_for_each fuel body (attrs todo ++ rest) (zlen (attrs todo)) x = Ok (x', 0, true) /\ Inv l x') as H.
  { induction todo as [|a todo IH]; intros done fuel rest x Hd Hf Hx; (destruct fuel as [|fuel]; [simpl in Hf; lia|]); cbn [nl_attr_for_each].
    - exists x. rewrite app_nil_r in Hd. by subst.
    - assert (zlen a.2 <= 60000) as Ha.
      { rewrite <- Hd in Hl. apply Forall_app in Hl as [_ Hl]. by inversion Hl. }
      rewrite attrs_cons, <- app_assoc, zlen_app. pose proof (zlen_nonneg (attrs todo)).
      rewrite nl_attr_is_valid_attr by (done || lia). bind.
      destruct (Hbody done a (attrs todo ++ rest) x) as (x' & -> & Hx'); [|done|].
      { exists todo. by rewrite <- app_assoc. }
      bind. rewrite nla_len_attr, nl_attr_next_attr by done. bind. bind.
      replace (zlen (attr a.1 a.2) + zlen (attrs todo) - NLA_ALIGN (NLA_HDRLEN + zlen a.2)) with (zlen (attrs todo)) by (rewrite zlen_attr; lia).
      apply (IH (done ++ [a])); [|simpl in Hf; lia|done]. by rewrite <- app_assoc. }
  intros fuel rest x Hf Hx. by apply (H l []).
Qed.

Lemma for_each_unsafe_attrs {A} (Inv : list (Z * list Z) -> A -> Prop) body l :
  Forall (fun a => zlen a.2 <= 60000) l -> zlen (attrs l) < 2 ^ 32 ->
  (forall done a rest x, done ++ [a] `prefix_of` l -> Inv done x ->
     exists x', body (attr a.1 a.2 ++ rest) x = Ok x' /\ Inv (done ++ [a]) x') ->
  forall fuel rest x, (length l < fuel)%nat -> Inv [] x ->
  exists x', nl_attr_for_each_unsafe fuel body (attrs l ++ rest) (zlen (attrs l)) x = Ok x' /\ Inv l x'.
Proof.
  intros Hl Hsz Hbody. assert (forall todo done fuel rest x, done ++ todo = l -> (length todo < fuel)%nat -> Inv done x ->
    exists x', nl_attr_for_each_unsafe fuel body (attrs todo ++ rest) (zlen (attrs todo)) x = Ok x' /\ Inv l x') as H.
  { induction todo as [|a todo IH]; intros done fuel rest x Hd Hf Hx; (destruct fuel as [|fuel]; [simpl in Hf; lia|]); cbn [nl_attr_for_each_unsafe].
    - exists x. rewrite app_nil_r in Hd. by subst.
    - assert (zlen a.2 <= 60000) as Ha.
      { rewrite <- Hd in Hl. apply Forall_app in Hl as [_ Hl]. by inversion Hl. }
      assert (zlen (attrs (a :: todo)) <= zlen (attrs l)) as Hle.
      { subst l. rewrite attrs_app, zlen_app. pose proof (zlen_nonneg (attrs done)). lia. }
      rewrite attrs_cons, zlen_app in Hle |- *. rewrite <- app_assoc. pose proof (zlen_nonneg (attrs todo)).
      pose proof (zlen_attr a.1 a.2) as Hz. pose proof (NLA_ALIGN_bound (NLA_HDRLEN + zlen a.2)). pose proof (zlen_nonneg a.2).
      rewrite (proj2 (Z.ltb_lt _ _)) by (unfold NLA_HDRLEN in *; lia).
      destruct (Hbody done a (attrs todo ++ rest) x) as (x' & -> & Hx'); [|done|].
      { exists todo. by rewrite <- app_assoc. }
      bind. rewrite nla_len_attr, nl_attr_next_attr by done. bind. bind.
      replace (u64 (zlen (attr a.1 a.2) + zlen (attrs todo) - NLA_ALIGN (NLA_HDRLEN + zlen a.2))) with (zlen (attrs todo))
        by (unfold NLA_HDRLEN in *; rewrite u64_small; lia).
      apply (IH (done ++ [a])); [|simpl in Hf; lia|done]. by rewrite <- app_assoc. }
  intros fuel rest x Hf Hx. by apply (H l []).
Qed.

(** ** Sequences of appends *)

(** [r] is the result of appending the attributes [l], in at most [n] steps, to
    a message with contents [c] that could take [k]. *)
Definition appended (k : Z) (c : list Z) (r : res ofpbuf) (n : Z) (l : list (Z * list Z)) : Prop :=
  exists msg, r = Ok msg /\ roomy (k - n) msg /\ contents msg = c ++ attrs l.

Lemma appended_ret k msg : roomy k msg -> appended k (contents msg) (Ok msg) 0 [].
Proof. intros. exists msg. rewrite Z.sub_0_r, app_nil_r. done. Qed.

Lemma appended_bind k c m f n n' l l' :
  appended k c m n l ->
  (forall msg, roomy (k - n) msg -> contents msg = c ++ attrs l -> appended (k - n) (contents msg) (f msg) n' l') ->
  appended k c (m ≫= f) (n + n') (l ++ l').
Proof.
  intros (msg & -> & Hr & Hc) Hf. destruct (Hf msg Hr Hc) as (msg' & E & Hr' & Hc').
  exists msg'. split; [done|]. split; [by rewrite Z.sub_add_distr|]. by rewrite Hc', Hc, attrs_app, app_assoc.
Qed.

Lemma appended_weaken k c r n n' l : n <= n' -> appended k c r n l -> appended k c r n' l.
Proof. intros Hn (msg & ? & Hr & ?). exists msg. split; [done|]. split; [|done]. eapply roomy_weaken; [|exact Hr]. lia. Qed.

Lemma appended_if (b : bool) k msg m n l :
  0 <= n -> roomy k msg -> (b = true -> appended k (contents msg) m n l) ->
  appended k (contents msg) (if b then m else Ok msg) n (if b then l else []).
Proof.
  intros Hn Hr Hm. destruct b; [by apply Hm|]. eapply appended_weaken; [exact Hn|]. by apply appended_ret.
Qed.

Lemma appended_put junk (junk_byte : forall i, is_u8 (junk i)) k type p msg :
  bytes p -> zlen p <= 512 -> 1 <= k -> roomy k msg ->
  appended k (contents msg) (nl_msg_put_unspec junk msg type p) 1 [(type, p)].
Proof.
  intros. destruct (put_attr junk junk_byte k type p msg) as (msg' & E & Hr & Hc); [done..|].
  exists msg'. split; [done|]. split; [done|]. by rewrite Hc, attrs_cons, app_nil_r.
Qed.

(** A nested attribute around a sequence. *)
Lemma appended_nested junk (junk_byte : forall i, is_u8 (junk i)) k type msg f n l :
  n + 1 <= k -> 0 <= n -> roomy k msg ->
  (forall msg', roomy (k - 1) msg' -> appended (k - 1) (contents msg') (f msg') n l) ->
  appended k (contents msg) ('(m, o) ← nl_msg_start_nested junk msg type; m ← f m; nl_msg_end_nested m o) (n + 1) [(type, attrs l)].
Proof.
  intros Hk Hn Hr Hf. destruct (start_nested junk junk_byte k type msg) as (msg1 & -> & Hr1 & Hc1); [lia|done|]. bind.
  destruct (Hf msg1 Hr1) as (msg2 & -> & Hr2 & Hc2). bind. rewrite Hc1, <- app_assoc in Hc2.
  destruct (end_nested _ type msg2 (contents msg) (attrs l) Hr2 Hc2) as (msg3 & E3 & Hr3 & Hc3); [apply attrs_align|lia|].
  exists msg3. split; [done|]. split; [by replace (k - (n + 1)) with (k - 1 - n) by lia|].
  by rewrite Hc3, attrs_cons, app_nil_r.
Qed.
