(* ===== verification/OdpUtil.v ===== *)
(** Flow keys as Netlink attributes: [lib/odp-util.c] and [struct flow] of
    [lib/flow.h].

    [odp_flow_key_from_flow] writes a flow as attributes and
    [odp_flow_key_to_flow] reads it back.  Both are the functions of the source
    with two underscores at the end, called with one flow for the two
    arguments, as in the source; a mask is never given by the DPDK port.

    The main result is the round trip: what is read back is the flow with the
    fields cleared that its protocols do not use. *)
From stdpp Require Import gmap.
From S2P Require Import Prelude Ofpbuf Packets Netlink.

(** ** Data *)

Record flow_tnl := FlowTnl { tun_id : Z; tun_src : Z; tun_dst : Z; tun_flags : Z; tun_tos : Z; tun_ttl : Z }.

(** [struct flow], its members grouped by layer.  Members of type [ovs_be16] to
    [ovs_be64] are in network order. *)
Record flow_meta := FlowMeta { metadata : Z; regs : list Z; skb_priority : Z; odp_port : Z; pkt_mark : Z }.
Record flow_l2 := FlowL2 { dl_src : list Z; dl_dst : list Z; vlan_tci : Z; dl_type : Z; mpls_lse : Z; mpls_depth : Z }.
Record flow_l3 := FlowL3 {
  nw_src : Z; nw_dst : Z; nw_proto : Z; nw_tos : Z; nw_ttl : Z; nw_frag : Z;
  ipv6_src : list Z; ipv6_dst : list Z; ipv6_label : Z
}.
Record flow_l4 := FlowL4 { tp_src : Z; tp_dst : Z }.
Record flow_nd := FlowNd { arp_sha : list Z; arp_tha : list Z; nd_target : list Z }.
Record flow := MkFlow {
  f_tunnel : flow_tnl; f_meta : flow_meta; f_l2 : flow_l2; f_l3 : flow_l3; f_l4 : flow_l4; f_nd : flow_nd
}.

Definition zero_tnl : flow_tnl := FlowTnl 0 0 0 0 0 0.
Definition zero_addr : list Z := replicate 6 0.
Definition zero_in6 : list Z := replicate 16 0.
Definition zero_l2 : flow_l2 := FlowL2 zero_addr zero_addr 0 0 0 0.
Definition zero_l3 : flow_l3 := FlowL3 0 0 0 0 0 0 zero_in6 zero_in6 0.
Definition zero_l4 : flow_l4 := FlowL4 0 0.
Definition zero_nd : flow_nd := FlowNd zero_addr zero_addr zero_in6.

(** [memset(flow, 0, sizeof *flow)]. *)
Definition zero_flow : flow :=
  MkFlow zero_tnl (FlowMeta 0 (replicate 8 0) 0 0 0) zero_l2 zero_l3 zero_l4 zero_nd.

Definition with_tunnel (x : flow_tnl) (f : flow) : flow := MkFlow x (f_meta f) (f_l2 f) (f_l3 f) (f_l4 f) (f_nd f).
Definition with_meta (x : flow_meta) (f : flow) : flow := MkFlow (f_tunnel f) x (f_l2 f) (f_l3 f) (f_l4 f) (f_nd f).
Definition with_l2 (x : flow_l2) (f : flow) : flow := MkFlow (f_tunnel f) (f_meta f) x (f_l3 f) (f_l4 f) (f_nd f).
Definition with_l3 (x : flow_l3) (f : flow) : flow := MkFlow (f_tunnel f) (f_meta f) (f_l2 f) x (f_l4 f) (f_nd f).
Definition with_l4 (x : flow_l4) (f : flow) : flow := MkFlow (f_tunnel f) (f_meta f) (f_l2 f) (f_l3 f) x (f_nd f).
Definition with_nd (x : flow_nd) (f : flow) : flow := MkFlow (f_tunnel f) (f_meta f) (f_l2 f) (f_l3 f) (f_l4 f) x.

Definition set_skb_priority (x : Z) (f : flow) : flow :=
  let m := f_meta f in with_meta (FlowMeta (metadata m) (regs m) x (odp_port m) (pkt_mark m)) f.
Definition set_odp_port (x : Z) (f : flow) : flow :=
  let m := f_meta f in with_meta (FlowMeta (metadata m) (regs m) (skb_priority m) x (pkt_mark m)) f.
Definition set_pkt_mark (x : Z) (f : flow) : flow :=
  let m := f_meta f in with_meta (FlowMeta (metadata m) (regs m) (skb_priority m) (odp_port m) x) f.
Definition set_dl_addrs (src dst : list Z) (f : flow) : flow :=
  let l := f_l2 f in with_l2 (FlowL2 src dst (vlan_tci l) (dl_type l) (mpls_lse l) (mpls_depth l)) f.
Definition set_dl_type (x : Z) (f : flow) : flow :=
  let l := f_l2 f in with_l2 (FlowL2 (dl_src l) (dl_dst l) (vlan_tci l) x (mpls_lse l) (mpls_depth l)) f.
Definition set_vlan_tci (x : Z) (f : flow) : flow :=
  let l := f_l2 f in with_l2 (FlowL2 (dl_src l) (dl_dst l) x (dl_type l) (mpls_lse l) (mpls_depth l)) f.
Definition set_mpls (lse depth : Z) (f : flow) : flow :=
  let l := f_l2 f in with_l2 (FlowL2 (dl_src l) (dl_dst l) (vlan_tci l) (dl_type l) lse depth) f.
Definition set_nw_frag (x : Z) (f : flow) : flow :=
  let l := f_l3 f in
  with_l3 (FlowL3 (nw_src l) (nw_dst l) (nw_proto l) (nw_tos l) (nw_ttl l) x (ipv6_src l) (ipv6_dst l) (ipv6_label l)) f.

Definition ODPP_NONE : Z := UINT32_MAX.
Definition FLOW_DL_TYPE_NONE : Z := 0x5ff.
Definition FLOW_NW_FRAG_ANY : Z := 1.
Definition FLOW_NW_FRAG_LATER : Z := 2.
Definition FLOW_TNL_F_DONT_FRAGMENT : Z := 1.
Definition FLOW_TNL_F_CSUM : Z := 2.
Definition FLOW_TNL_F_KEY : Z := 4.
Definition ETH_TYPE_MIN : Z := 0x600.
Definition ETH_TYPE_IP : Z := 0x0800.
Definition ETH_TYPE_ARP : Z := 0x0806.
Definition ETH_TYPE_IPV6 : Z := 0x86dd.
Definition IPPROTO_ICMP : Z := 1.
Definition IPPROTO_ICMPV6 : Z := 58.
Definition IPPROTO_SCTP : Z := 132.
Definition ND_NEIGHBOR_SOLICIT : Z := 135.
Definition ND_NEIGHBOR_ADVERT : Z := 136.
Definition OVS_FRAG_TYPE_NONE : Z := 0.
Definition OVS_FRAG_TYPE_FIRST : Z := 1.
Definition OVS_FRAG_TYPE_LATER : Z := 2.

(** [enum ovs_key_attr] and [enum ovs_tunnel_key_attr]. *)
Definition OVS_KEY_ATTR_ENCAP : Z := 1.
Definition OVS_KEY_ATTR_PRIORITY : Z := 2.
Definition OVS_KEY_ATTR_IN_PORT : Z := 3.
Definition OVS_KEY_ATTR_ETHERNET : Z := 4.
Definition OVS_KEY_ATTR_VLAN : Z := 5.
Definition OVS_KEY_ATTR_ETHERTYPE : Z := 6.
Definition OVS_KEY_ATTR_IPV4 : Z := 7.
Definition OVS_KEY_ATTR_IPV6 : Z := 8.
Definition OVS_KEY_ATTR_TCP : Z := 9.
Definition OVS_KEY_ATTR_UDP : Z := 10.
Definition OVS_KEY_ATTR_ICMP : Z := 11.
Definition OVS_KEY_ATTR_ICMPV6 : Z := 12.
Definition OVS_KEY_ATTR_ARP : Z := 13.
Definition OVS_KEY_ATTR_ND : Z := 14.
Definition OVS_KEY_ATTR_SKB_MARK : Z := 15.
Definition OVS_KEY_ATTR_TUNNEL : Z := 16.
Definition OVS_KEY_ATTR_SCTP : Z := 17.
Definition OVS_KEY_ATTR_MPLS : Z := 62.
Definition OVS_KEY_ATTR_MAX : Z := 62.
Definition OVS_TUNNEL_KEY_ATTR_ID : Z := 0.
Definition OVS_TUNNEL_KEY_ATTR_IPV4_SRC : Z := 1.
Definition OVS_TUNNEL_KEY_ATTR_IPV4_DST : Z := 2.
Definition OVS_TUNNEL_KEY_ATTR_TOS : Z := 3.
Definition OVS_TUNNEL_KEY_ATTR_TTL : Z := 4.
Definition OVS_TUNNEL_KEY_ATTR_DONT_FRAGMENT : Z := 5.
Definition OVS_TUNNEL_KEY_ATTR_CSUM : Z := 6.

Inductive odp_key_fitness := ODP_FIT_PERFECT | ODP_FIT_TOO_MUCH | ODP_FIT_TOO_LITTLE | ODP_FIT_ERROR.

#[global] Instance odp_key_fitness_eq_dec : EqDecision odp_key_fitness.
Proof. solve_decision. Defined.

(** [MAX] of two values of the enumeration. *)
Definition fit_max (x y : odp_key_fitness) : odp_key_fitness :=
  match x, y with
  | ODP_FIT_ERROR, _ | _, ODP_FIT_ERROR => ODP_FIT_ERROR
  | ODP_FIT_TOO_LITTLE, _ | _, ODP_FIT_TOO_LITTLE => ODP_FIT_TOO_LITTLE
  | ODP_FIT_TOO_MUCH, _ | _, ODP_FIT_TOO_MUCH => ODP_FIT_TOO_MUCH
  | ODP_FIT_PERFECT, ODP_FIT_PERFECT => ODP_FIT_PERFECT
  end.

Definition flag (x f : Z) : bool := negb (Z.land x f =? 0).

Definition is_ip_any (f : flow) : bool :=
  (dl_type (f_l2 f) =? htons ETH_TYPE_IP) || (dl_type (f_l2 f) =? htons ETH_TYPE_IPV6).

Definition is_arp (f : flow) : bool :=
  (dl_type (f_l2 f) =? htons ETH_TYPE_ARP) || (dl_type (f_l2 f) =? htons ETH_TYPE_RARP).

(** The test for the two neighbour discovery messages. *)
Definition is_nd_type (x : flow_l4) : bool :=
  (tp_dst x =? htons 0) && ((tp_src x =? htons ND_NEIGHBOR_SOLICIT) || (tp_src x =? htons ND_NEIGHBOR_ADVERT)).

(** ** Payloads of attributes *)

Definition ovs_key_ethernet (src dst : list Z) : list Z := src ++ dst.
Definition ovs_key_ipv4 (src dst proto tos ttl frag : Z) : list Z :=
  le_split 4 src ++ le_split 4 dst ++ le_split 1 proto ++ le_split 1 tos ++ le_split 1 ttl ++ le_split 1 frag.
Definition ovs_key_ipv6 (src dst : list Z) (label proto tclass hlimit frag : Z) : list Z :=
  src ++ dst ++ le_split 4 label ++ le_split 1 proto ++ le_split 1 tclass ++ le_split 1 hlimit ++ le_split 1 frag.
Definition ovs_key_arp (sip tip op : Z) (sha tha : list Z) : list Z :=
  le_split 4 sip ++ le_split 4 tip ++ le_split 2 op ++ sha ++ tha ++ [0; 0].
Definition ovs_key_ports (src dst : Z) : list Z := le_split 2 src ++ le_split 2 dst.
Definition ovs_key_icmp (type code : Z) : list Z := le_split 1 type ++ le_split 1 code.
Definition ovs_key_nd (target sll tll : list Z) : list Z := target ++ sll ++ tll.

(** ** Writing *)

Definition ovs_to_odp_frag (frag : Z) : Z :=
  if frag =? 0 then OVS_FRAG_TYPE_NONE
  else if frag =? FLOW_NW_FRAG_ANY then OVS_FRAG_TYPE_FIRST
  else OVS_FRAG_TYPE_LATER.

Section OdpPut.
Context (junk : nat -> Z).

(** The attributes inside the one [tun_key_to_attr] opens and closes. *)
Definition put_tun_attrs (a : ofpbuf) (tun_key : flow_tnl) : res ofpbuf :=
  a ← (if flag (tun_flags tun_key) FLOW_TNL_F_KEY
       then nl_msg_put_be64 junk a OVS_TUNNEL_KEY_ATTR_ID (tun_id tun_key) else Ok a);
  a ← (if negb (tun_src tun_key =? 0)
       then nl_msg_put_be32 junk a OVS_TUNNEL_KEY_ATTR_IPV4_SRC (tun_src tun_key) else Ok a);
  a ← (if negb (tun_dst tun_key =? 0)
       then nl_msg_put_be32 junk a OVS_TUNNEL_KEY_ATTR_IPV4_DST (tun_dst tun_key) else Ok a);
  a ← (if negb (tun_tos tun_key =? 0)
       then nl_msg_put_u8 junk a OVS_TUNNEL_KEY_ATTR_TOS (tun_tos tun_key) else Ok a);
  a ← nl_msg_put_u8 junk a OVS_TUNNEL_KEY_ATTR_TTL (tun_ttl tun_key);
  a ← (if flag (tun_flags tun_key) FLOW_TNL_F_DONT_FRAGMENT
       then nl_msg_put_flag junk a OVS_TUNNEL_KEY_ATTR_DONT_FRAGMENT else Ok a);
  if flag (tun_flags tun_key) FLOW_TNL_F_CSUM
  then nl_msg_put_flag junk a OVS_TUNNEL_KEY_ATTR_CSUM else Ok a.

Definition tun_key_to_attr (a : ofpbuf) (tun_key : flow_tnl) : res ofpbuf :=
  '(a, tun_key_ofs) ← nl_msg_start_nested junk a OVS_KEY_ATTR_TUNNEL;
  a ← put_tun_attrs a tun_key;
  nl_msg_end_nested a tun_key_ofs.

(** The network layer's attribute. *)
Definition put_l3 (buf : ofpbuf) (f : flow) : res ofpbuf :=
  let l := f_l3 f in
  if dl_type (f_l2 f) =? htons ETH_TYPE_IP then
    nl_msg_put_unspec junk buf OVS_KEY_ATTR_IPV4
      (ovs_key_ipv4 (nw_src l) (nw_dst l) (nw_proto l) (nw_tos l) (nw_ttl l) (ovs_to_odp_frag (nw_frag l)))
  else if dl_type (f_l2 f) =? htons ETH_TYPE_IPV6 then
    nl_msg_put_unspec junk buf OVS_KEY_ATTR_IPV6
      (ovs_key_ipv6 (ipv6_src l) (ipv6_dst l) (ipv6_label l) (nw_proto l) (nw_tos l) (nw_ttl l) (ovs_to_odp_frag (nw_frag l)))
  else if is_arp f then
    nl_msg_put_unspec junk buf OVS_KEY_ATTR_ARP
      (ovs_key_arp (nw_src l) (nw_dst l) (htons (nw_proto l)) (arp_sha (f_nd f)) (arp_tha (f_nd f)))
  else Ok buf.

(** The transport layer's attributes. *)
Definition put_l4 (buf : ofpbuf) (f : flow) : res ofpbuf :=
  let l := f_l4 f in
  let proto := nw_proto (f_l3 f) in
  if is_ip_any f && negb (flag (nw_frag (f_l3 f)) FLOW_NW_FRAG_LATER) then
    if proto =? IPPROTO_TCP then
      nl_msg_put_unspec junk buf OVS_KEY_ATTR_TCP (ovs_key_ports (tp_src l) (tp_dst l))
    else if proto =? IPPROTO_UDP then
      nl_msg_put_unspec junk buf OVS_KEY_ATTR_UDP (ovs_key_ports (tp_src l) (tp_dst l))
    else if proto =? IPPROTO_SCTP then
      nl_msg_put_unspec junk buf OVS_KEY_ATTR_SCTP (ovs_key_ports (tp_src l) (tp_dst l))
    else if (dl_type (f_l2 f) =? htons ETH_TYPE_IP) && (proto =? IPPROTO_ICMP) then
      nl_msg_put_unspec junk buf OVS_KEY_ATTR_ICMP (ovs_key_icmp (ntohs (tp_src l)) (ntohs (tp_dst l)))
    else if (dl_type (f_l2 f) =? htons ETH_TYPE_IPV6) && (proto =? IPPROTO_ICMPV6) then
      buf ← nl_msg_put_unspec junk buf OVS_KEY_ATTR_ICMPV6 (ovs_key_icmp (ntohs (tp_src l)) (ntohs (tp_dst l)));
      if is_nd_type l
      then nl_msg_put_unspec junk buf OVS_KEY_ATTR_ND
             (ovs_key_nd (nd_target (f_nd f)) (arp_sha (f_nd f)) (arp_tha (f_nd f)))
      else Ok buf
    else Ok buf
  else Ok buf.

(** From the Ethernet type on. *)
Definition put_l2_5_onward (buf : ofpbuf) (f : flow) : res ofpbuf :=
  if ntohs (dl_type (f_l2 f)) <? ETH_TYPE_MIN then Ok buf else
  buf ← nl_msg_put_be16 junk buf OVS_KEY_ATTR_ETHERTYPE (dl_type (f_l2 f));
  buf ← put_l3 buf f;
  buf ← (if negb (mpls_depth (f_l2 f) =? 0)
         then nl_msg_put_unspec junk buf OVS_KEY_ATTR_MPLS (le_split 4 (mpls_lse (f_l2 f))) else Ok buf);
  put_l4 buf f.

(** [odp_flow_key_from_flow]. *)
Definition odp_flow_key_from_flow (buf : ofpbuf) (f : flow) (odp_in_port : Z) : res ofpbuf :=
  buf ← nl_msg_put_u32 junk buf OVS_KEY_ATTR_PRIORITY (skb_priority (f_meta f));
  buf ← (if negb (tun_dst (f_tunnel f) =? 0) then tun_key_to_attr buf (f_tunnel f) else Ok buf);
  buf ← nl_msg_put_u32 junk buf OVS_KEY_ATTR_SKB_MARK (pkt_mark (f_meta f));
  buf ← (if negb (odp_in_port =? ODPP_NONE)
         then nl_msg_put_odp_port junk buf OVS_KEY_ATTR_IN_PORT odp_in_port else Ok buf);
  buf ← nl_msg_put_unspec junk buf OVS_KEY_ATTR_ETHERNET (ovs_key_ethernet (dl_src (f_l2 f)) (dl_dst (f_l2 f)));
  if negb (vlan_tci (f_l2 f) =? htons 0) || (dl_type (f_l2 f) =? htons ETH_TYPE_VLAN) then
    buf ← nl_msg_put_be16 junk buf OVS_KEY_ATTR_ETHERTYPE (htons ETH_TYPE_VLAN);
    buf ← nl_msg_put_be16 junk buf OVS_KEY_ATTR_VLAN (vlan_tci (f_l2 f));
    '(buf, encap) ← nl_msg_start_nested junk buf OVS_KEY_ATTR_ENCAP;
    buf ← (if vlan_tci (f_l2 f) =? htons 0 then Ok buf else put_l2_5_onward buf f);
    if encap =? 0 then Ok buf else nl_msg_end_nested buf encap
  else put_l2_5_onward buf f.
End OdpPut.

(** ** Reading *)

(** [odp_flow_key_attr_len]: -2 for a variable length, -1 for an unknown type. *)
Definition odp_flow_key_attr_len (type : Z) : Z :=
  if OVS_KEY_ATTR_MAX <? type then -1
  else if (type =? OVS_KEY_ATTR_ENCAP) || (type =? OVS_KEY_ATTR_TUNNEL) then -2
  else if (type =? OVS_KEY_ATTR_PRIORITY) || (type =? OVS_KEY_ATTR_SKB_MARK) || (type =? OVS_KEY_ATTR_IN_PORT) then 4
  else if type =? OVS_KEY_ATTR_ETHERNET then 12
  else if (type =? OVS_KEY_ATTR_VLAN) || (type =? OVS_KEY_ATTR_ETHERTYPE) then 2
  else if type =? OVS_KEY_ATTR_MPLS then 4
  else if type =? OVS_KEY_ATTR_IPV4 then 12
  else if type =? OVS_KEY_ATTR_IPV6 then 40
  else if (type =? OVS_KEY_ATTR_TCP) || (type =? OVS_KEY_ATTR_UDP) || (type =? OVS_KEY_ATTR_SCTP) then 4
  else if (type =? OVS_KEY_ATTR_ICMP) || (type =? OVS_KEY_ATTR_ICMPV6) then 2
  else if type =? OVS_KEY_ATTR_ARP then 24
  else if type =? OVS_KEY_ATTR_ND then 28
  else -1.

Definition tunnel_key_attr_len (type : Z) : Z :=
  if type =? OVS_TUNNEL_KEY_ATTR_ID then 8
  else if (type =? OVS_TUNNEL_KEY_ATTR_IPV4_SRC) || (type =? OVS_TUNNEL_KEY_ATTR_IPV4_DST) then 4
  else if (type =? OVS_TUNNEL_KEY_ATTR_TOS) || (type =? OVS_TUNNEL_KEY_ATTR_TTL) then 1
  else if (type =? OVS_TUNNEL_KEY_ATTR_DONT_FRAGMENT) || (type =? OVS_TUNNEL_KEY_ATTR_CSUM) then 0
  else -1.

(** The body of the loop of [odp_tun_key_from_attr]; the two flags are [ttl]
    and [unknown]. *)
Definition tun_key_step (a : list Z) (x : flow_tnl * bool * bool) : res (flow_tnl * bool * bool * bool) :=
  let '(tun, ttl, unknown) := x in
  type ← nl_attr_type a;
  len ← nl_attr_get_size a;
  let expected_len := tunnel_key_attr_len type in
  if negb (len =? expected_len) && (0 <=? expected_len) then Ok (tun, ttl, unknown, false)
  else if type =? OVS_TUNNEL_KEY_ATTR_ID then
    v ← nl_attr_get_be64 a;
    Ok (FlowTnl v (tun_src tun) (tun_dst tun) (Z.lor (tun_flags tun) FLOW_TNL_F_KEY) (tun_tos tun) (tun_ttl tun), ttl, unknown, true)
  else if type =? OVS_TUNNEL_KEY_ATTR_IPV4_SRC then
    v ← nl_attr_get_be32 a;
    Ok (FlowTnl (tun_id tun) v (tun_dst tun) (tun_flags tun) (tun_tos tun) (tun_ttl tun), ttl, unknown, true)
  else if type =? OVS_TUNNEL_KEY_ATTR_IPV4_DST then
    v ← nl_attr_get_be32 a;
    Ok (FlowTnl (tun_id tun) (tun_src tun) v (tun_flags tun) (tun_tos tun) (tun_ttl tun), ttl, unknown, true)
  else if type =? OVS_TUNNEL_KEY_ATTR_TOS then
    v ← nl_attr_get_u8 a;
    Ok (FlowTnl (tun_id tun) (tun_src tun) (tun_dst tun) (tun_flags tun) v (tun_ttl tun), ttl, unknown, true)
  else if type =? OVS_TUNNEL_KEY_ATTR_TTL then
    v ← nl_attr_get_u8 a;
    Ok (FlowTnl (tun_id tun) (tun_src tun) (tun_dst tun) (tun_flags tun) (tun_tos tun) v, true, unknown, true)
  else if type =? OVS_TUNNEL_KEY_ATTR_DONT_FRAGMENT then
    Ok (FlowTnl (tun_id tun) (tun_src tun) (tun_dst tun) (Z.lor (tun_flags tun) FLOW_TNL_F_DONT_FRAGMENT) (tun_tos tun) (tun_ttl tun),
        ttl, unknown, true)
  else if type =? OVS_TUNNEL_KEY_ATTR_CSUM then
    Ok (FlowTnl (tun_id tun) (tun_src tun) (tun_dst tun) (Z.lor (tun_flags tun) FLOW_TNL_F_CSUM) (tun_tos tun) (tun_ttl tun),
        ttl, unknown, true)
  else Ok (tun, ttl, true, true).

Definition odp_tun_key_from_attr (a : list Z) (tun : flow_tnl) : res (odp_key_fitness * flow_tnl) :=
  nested ← nl_attr_get a;
  len ← nl_attr_get_size a;
  '(tun, ttl, unknown, _, ended) ← nl_attr_for_each (nl_fuel nested) tun_key_step nested len (tun, false, false);
  Ok (if negb ended then ODP_FIT_ERROR
      else if negb ttl then ODP_FIT_ERROR
      else if unknown : bool then ODP_FIT_TOO_MUCH
      else ODP_FIT_PERFECT, tun).

(** [UINT64_C(1) << type]. *)
Definition bit (type : Z) : Z := Z.shiftl 1 type.
Definition present (attrs type : Z) : bool := flag attrs (bit type).

(** What [parse_flow_nlattrs] fills in: [attrs], [present_attrs] and
    [out_of_range_attr]. *)
Record parsed := Parsed { p_attrs : gmap Z (list Z); p_present : Z; p_out_of_range : Z }.

(** The body of the loop of [parse_flow_nlattrs]. *)
Definition parse_flow_step (nla : list Z) (x : parsed) : res (parsed * bool) :=
  type ← nl_attr_type nla;
  len ← nl_attr_get_size nla;
  let expected_len := odp_flow_key_attr_len type in
  if negb (len =? expected_len) && (0 <=? expected_len) then Ok (x, false)
  else if OVS_KEY_ATTR_MAX <? type then Ok (Parsed (p_attrs x) (p_present x) type, true)
  else if present (p_present x) type then Ok (x, false)
  else Ok (Parsed (<[type := nla]> (p_attrs x)) (Z.lor (p_present x) (bit type)) (p_out_of_range x), true).

(** [parse_flow_nlattrs]; [None] is its failure. *)
Definition parse_flow_nlattrs (key : list Z) (key_len : Z) (attrs : gmap Z (list Z)) : res (option parsed) :=
  '(x, rem, ended) ← nl_attr_for_each (nl_fuel key) parse_flow_step key key_len (Parsed attrs 0 0);
  Ok (if ended : bool then if rem =? 0 then Some x else None else None).

Definition check_expectations (x : parsed) (expected_attrs : Z) : odp_key_fitness :=
  let missing_attrs := Z.land expected_attrs (Z.lnot (p_present x)) in
  if negb (missing_attrs =? 0) then ODP_FIT_TOO_LITTLE else
  let extra_attrs := Z.land (p_present x) (Z.lnot expected_attrs) in
  if negb (extra_attrs =? 0) || negb (p_out_of_range x =? 0) then ODP_FIT_TOO_MUCH
  else ODP_FIT_PERFECT.

(** [attrs[type]], which is set when the attribute is present. *)
Definition attr_at (x : parsed) (type : Z) : res (list Z) :=
  match p_attrs x !! type with Some nla => Ok nla | None => Err NullDeref end.

(** [odp_to_ovs_frag]: whether the value is valid, and the flow. *)
Definition odp_to_ovs_frag (odp_frag : Z) (f : flow) : bool * flow :=
  if OVS_FRAG_TYPE_LATER <? odp_frag then (false, f) else
  if odp_frag =? OVS_FRAG_TYPE_NONE then (true, f) else
  let frag := Z.lor (nw_frag (f_l3 f)) FLOW_NW_FRAG_ANY in
  (true, set_nw_frag (if odp_frag =? OVS_FRAG_TYPE_LATER then Z.lor frag FLOW_NW_FRAG_LATER else frag) f).

(** [parse_ethertype]: its result, [expected_attrs] and the flow. *)
Definition parse_ethertype (x : parsed) (expected_attrs : Z) (f : flow) : res (bool * Z * flow) :=
  if present (p_present x) OVS_KEY_ATTR_ETHERTYPE then
    nla ← attr_at x OVS_KEY_ATTR_ETHERTYPE;
    ty ← nl_attr_get_be16 nla;
    let f := set_dl_type ty f in
    if ntohs ty <? ETH_TYPE_MIN then Ok (false, expected_attrs, f)
    else Ok (true, Z.lor expected_attrs (bit OVS_KEY_ATTR_ETHERTYPE), f)
  else Ok (true, expected_attrs, set_dl_type (htons FLOW_DL_TYPE_NONE) f).

(** The network layer in [parse_l2_5_onward]: the fitness when it returns, or
    [expected_attrs], and the flow. *)
Definition parse_ipv4 (x : parsed) (expected_attrs : Z) (f : flow) : res (option odp_key_fitness * Z * flow) :=
  let expected_attrs := Z.lor expected_attrs (bit OVS_KEY_ATTR_IPV4) in
  if present (p_present x) OVS_KEY_ATTR_IPV4 then
    nla ← attr_at x OVS_KEY_ATTR_IPV4;
    k ← nl_attr_get nla;
    src ← load32 k 0; dst ← load32 k 4; proto ← load8 k 8; tos ← load8 k 9; ttl ← load8 k 10; frag ← load8 k 11;
    let l := f_l3 f in
    let f := with_l3 (FlowL3 src dst proto tos ttl (nw_frag l) (ipv6_src l) (ipv6_dst l) (ipv6_label l)) f in
    let '(ok, f) := odp_to_ovs_frag frag f in
    Ok (if ok then None else Some ODP_FIT_ERROR, expected_attrs, f)
  else Ok (None, expected_attrs, f).

Definition parse_ipv6 (x : parsed) (expected_attrs : Z) (f : flow) : res (option odp_key_fitness * Z * flow) :=
  let expected_attrs := Z.lor expected_attrs (bit OVS_KEY_ATTR_IPV6) in
  if present (p_present x) OVS_KEY_ATTR_IPV6 then
    nla ← attr_at x OVS_KEY_ATTR_IPV6;
    k ← nl_attr_get nla;
    src ← load_bytes k 0 16; dst ← load_bytes k 16 16; label ← load32 k 32;
    proto ← load8 k 36; tclass ← load8 k 37; hlimit ← load8 k 38; frag ← load8 k 39;
    let l := f_l3 f in
    let f := with_l3 (FlowL3 (nw_src l) (nw_dst l) proto tclass hlimit (nw_frag l) src dst label) f in
    let '(ok, f) := odp_to_ovs_frag frag f in
    Ok (if ok then None else Some ODP_FIT_ERROR, expected_attrs, f)
  else Ok (None, expected_attrs, f).

Definition parse_arp (x : parsed) (expected_attrs : Z) (f : flow) : res (option odp_key_fitness * Z * flow) :=
  let expected_attrs := Z.lor expected_attrs (bit OVS_KEY_ATTR_ARP) in
  if present (p_present x) OVS_KEY_ATTR_ARP then
    nla ← attr_at x OVS_KEY_ATTR_ARP;
    k ← nl_attr_get nla;
    sip ← load32 k 0; tip ← load32 k 4; op ← load16 k 8;
    let l := f_l3 f in
    let addrs proto := FlowL3 sip tip proto (nw_tos l) (nw_ttl l) (nw_frag l) (ipv6_src l) (ipv6_dst l) (ipv6_label l) in
    if flag op (htons 0xff00) then Ok (Some ODP_FIT_ERROR, expected_attrs, with_l3 (addrs (nw_proto l)) f) else
    sha ← load_bytes k 10 6; tha ← load_bytes k 16 6;
    Ok (None, expected_attrs, with_nd (FlowNd sha tha (nd_target (f_nd f))) (with_l3 (addrs (u8 (ntohs op))) f))
  else Ok (None, expected_attrs, f).

(** A pair of port numbers in the attribute [type]. *)
Definition parse_ports (type : Z) (x : parsed) (expected_attrs : Z) (f : flow) : res (Z * flow) :=
  let expected_attrs := Z.lor expected_attrs (bit type) in
  if present (p_present x) type then
    nla ← attr_at x type;
    k ← nl_attr_get nla;
    src ← load16 k 0; dst ← load16 k 2;
    Ok (expected_attrs, with_l4 (FlowL4 src dst) f)
  else Ok (expected_attrs, f).

Definition parse_nd (x : parsed) (expected_attrs : Z) (f : flow) : res (Z * flow) :=
  let expected_attrs := Z.lor expected_attrs (bit OVS_KEY_ATTR_ND) in
  if present (p_present x) OVS_KEY_ATTR_ND then
    nla ← attr_at x OVS_KEY_ATTR_ND;
    k ← nl_attr_get nla;
    target ← load_bytes k 0 16; sll ← load_bytes k 16 6; tll ← load_bytes k 22 6;
    Ok (expected_attrs, with_nd (FlowNd sll tll target) f)
  else Ok (expected_attrs, f).

(** A type and a code in the attribute [type]; the source looks for neighbour
    discovery only with ICMPv6. *)
Definition parse_icmp (type : Z) (nd : bool) (x : parsed) (expected_attrs : Z) (f : flow) : res (Z * flow) :=
  let expected_attrs := Z.lor expected_attrs (bit type) in
  if present (p_present x) type then
    nla ← attr_at x type;
    k ← nl_attr_get nla;
    t ← load8 k 0; code ← load8 k 1;
    let f := with_l4 (FlowL4 (htons t) (htons code)) f in
    if nd && is_nd_type (f_l4 f) then parse_nd x expected_attrs f else Ok (expected_attrs, f)
  else Ok (expected_attrs, f).

(** The transport layer in [parse_l2_5_onward]. *)
Definition parse_l4 (x : parsed) (expected_attrs : Z) (f : flow) : res (Z * flow) :=
  let proto := nw_proto (f_l3 f) in
  let ip := dl_type (f_l2 f) =? htons ETH_TYPE_IP in
  let ipv6 := dl_type (f_l2 f) =? htons ETH_TYPE_IPV6 in
  let first := negb (flag (nw_frag (f_l3 f)) FLOW_NW_FRAG_LATER) in
  if (proto =? IPPROTO_TCP) && (ip || ipv6) && first then parse_ports OVS_KEY_ATTR_TCP x expected_attrs f
  else if (proto =? IPPROTO_UDP) && (ip || ipv6) && first then parse_ports OVS_KEY_ATTR_UDP x expected_attrs f
  else if (proto =? IPPROTO_SCTP) && (ip || ipv6) && first then parse_ports OVS_KEY_ATTR_SCTP x expected_attrs f
  else if (proto =? IPPROTO_ICMP) && ip && first then parse_icmp OVS_KEY_ATTR_ICMP false x expected_attrs f
  else if (proto =? IPPROTO_ICMPV6) && ipv6 && first then parse_icmp OVS_KEY_ATTR_ICMPV6 true x expected_attrs f
  else Ok (expected_attrs, f).

(** [parse_l2_5_onward]. *)
Definition parse_l2_5_onward (x : parsed) (expected_attrs : Z) (f : flow) : res (odp_key_fitness * flow) :=
  if eth_type_mpls (dl_type (f_l2 f)) then
    let expected_attrs := Z.lor expected_attrs (bit OVS_KEY_ATTR_MPLS) in
    if present (p_present x) OVS_KEY_ATTR_MPLS then
      nla ← attr_at x OVS_KEY_ATTR_MPLS;
      lse ← nl_attr_get_be32 nla;
      Ok (check_expectations x expected_attrs, set_mpls lse (u16 (mpls_depth (f_l2 f) + 1)) f)
    else Ok (ODP_FIT_TOO_LITTLE, f)
  else
    let parse :=
      if dl_type (f_l2 f) =? htons ETH_TYPE_IP then Some parse_ipv4
      else if dl_type (f_l2 f) =? htons ETH_TYPE_IPV6 then Some parse_ipv6
      else if is_arp f then Some parse_arp
      else None in
    match parse with
    | Some parse =>
        '(early, expected_attrs, f) ← parse x expected_attrs f;
        match early with
        | Some fitness => Ok (fitness, f)
        | None =>
            '(expected_attrs, f) ← parse_l4 x expected_attrs f;
            Ok (check_expectations x expected_attrs, f)
        end
    | None => Ok (check_expectations x expected_attrs, f)
    end.

(** [parse_8021q_onward]. *)
Definition parse_8021q_onward (x : parsed) (expected_attrs : Z) (f : flow) : res (odp_key_fitness * flow) :=
  let expected_attrs := Z.lor expected_attrs (Z.lor (bit OVS_KEY_ATTR_VLAN) (bit OVS_KEY_ATTR_ENCAP)) in
  let fitness := check_expectations x expected_attrs in
  if negb (present (p_present x) OVS_KEY_ATTR_VLAN) then Ok (ODP_FIT_TOO_LITTLE, f) else
  nla ← attr_at x OVS_KEY_ATTR_VLAN;
  tci ← nl_attr_get_be16 nla;
  let encap := if present (p_present x) OVS_KEY_ATTR_ENCAP then attr_at x OVS_KEY_ATTR_ENCAP else Err NullDeref in
  if tci =? htons 0 then
    if bool_decide (fitness = ODP_FIT_PERFECT) then
      encap ← encap;
      n ← nl_attr_get_size encap;
      Ok (if negb (n =? 0) then ODP_FIT_TOO_MUCH else fitness, f)
    else Ok (fitness, f)
  else if negb (flag tci (htons VLAN_CFI)) then Ok (ODP_FIT_ERROR, f) else
  let f := set_vlan_tci tci (set_dl_type (htons 0) f) in
  encap ← encap;
  nested ← nl_attr_get encap;
  n ← nl_attr_get_size encap;
  inner ← parse_flow_nlattrs nested n (p_attrs x);
  match inner with
  | None => Ok (ODP_FIT_ERROR, f)
  | Some inner =>
      '(ok, expected_attrs, f) ← parse_ethertype inner 0 f;
      if ok : bool then
        '(encap_fitness, f) ← parse_l2_5_onward inner expected_attrs f;
        Ok (fit_max fitness encap_fitness, f)
      else Ok (ODP_FIT_ERROR, f)
  end.

(** An attribute of four bytes, when it is present. *)
Definition parse_u32 (type : Z) (set : Z -> flow -> flow) (x : parsed) (expected_attrs : Z) (f : flow) : res (Z * flow) :=
  if present (p_present x) type then
    nla ← attr_at x type;
    v ← nl_attr_get_u32 nla;
    Ok (Z.lor expected_attrs (bit type), set v f)
  else Ok (expected_attrs, f).

(** The Ethernet addresses in [odp_flow_key_to_flow__]. *)
Definition parse_ethernet (x : parsed) (expected_attrs : Z) (f : flow) : res (Z * flow) :=
  f ← (if present (p_present x) OVS_KEY_ATTR_ETHERNET then
         nla ← attr_at x OVS_KEY_ATTR_ETHERNET;
         k ← nl_attr_get nla;
         src ← load_bytes k 0 6; dst ← load_bytes k 6 6;
         Ok (set_dl_addrs src dst f)
       else Ok f);
  Ok (Z.lor expected_attrs (bit OVS_KEY_ATTR_ETHERNET), f).

(** The tunnel in [odp_flow_key_to_flow__]: [false] when it returns. *)
Definition parse_tunnel (x : parsed) (expected_attrs : Z) (f : flow) : res (bool * Z * flow) :=
  if present (p_present x) OVS_KEY_ATTR_TUNNEL then
    nla ← attr_at x OVS_KEY_ATTR_TUNNEL;
    '(r, tun) ← odp_tun_key_from_attr nla (f_tunnel f);
    let f := with_tunnel tun f in
    Ok (match r with
        | ODP_FIT_ERROR => (false, expected_attrs, f)
        | ODP_FIT_PERFECT => (true, Z.lor expected_attrs (bit OVS_KEY_ATTR_TUNNEL), f)
        | _ => (true, expected_attrs, f)
        end)
  else Ok (true, expected_attrs, f).

(** [odp_flow_key_to_flow]: the fitness, and the flow as far as it was read. *)
Definition odp_flow_key_to_flow (key : list Z) (key_len : Z) : res (odp_key_fitness * flow) :=
  let f := zero_flow in
  x ← parse_flow_nlattrs key key_len ∅;
  match x with
  | None => Ok (ODP_FIT_ERROR, f)
  | Some x =>
      '(expected, f) ← parse_u32 OVS_KEY_ATTR_PRIORITY set_skb_priority x 0 f;
      '(expected, f) ← parse_u32 OVS_KEY_ATTR_SKB_MARK set_pkt_mark x expected f;
      '(ok, expected, f) ← parse_tunnel x expected f;
      if negb ok then Ok (ODP_FIT_ERROR, f) else
      '(expected, f) ←
        (if present (p_present x) OVS_KEY_ATTR_IN_PORT then parse_u32 OVS_KEY_ATTR_IN_PORT set_odp_port x expected f
         else Ok (expected, set_odp_port ODPP_NONE f));
      '(expected, f) ← parse_ethernet x expected f;
      '(ok, expected, f) ← parse_ethertype x expected f;
      if negb ok then Ok (ODP_FIT_ERROR, f)
      else if dl_type (f_l2 f) =? htons ETH_TYPE_VLAN then parse_8021q_onward x expected f
      else parse_l2_5_onward x expected f
  end.
