(* ===== verification/OdpProps.v ===== *)
(** Flow keys as Netlink attributes: what is written, and what is read back
    ([lib/odp-util.c], modelled in [OdpUtil]). *)
From stdpp Require Import gmap.
From Stdlib Require Import Btauto.
From S2P Require Import Prelude Ofpbuf Packets Netlink OdpUtil.

(** ** The attributes of a flow *)

Definition tun_attrs (t : flow_tnl) : list (Z * list Z) :=
  (if flag (tun_flags t) FLOW_TNL_F_KEY then [(OVS_TUNNEL_KEY_ATTR_ID, le_split 8 (tun_id t))] else []) ++
  (if negb (tun_src t =? 0) then [(OVS_TUNNEL_KEY_ATTR_IPV4_SRC, le_split 4 (tun_src t))] else []) ++
  (if negb (tun_dst t =? 0) then [(OVS_TUNNEL_KEY_ATTR_IPV4_DST, le_split 4 (tun_dst t))] else []) ++
  (if negb (tun_tos t =? 0) then [(OVS_TUNNEL_KEY_ATTR_TOS, le_split 1 (tun_tos t))] else []) ++
  [(OVS_TUNNEL_KEY_ATTR_TTL, le_split 1 (tun_ttl t))] ++
  (if flag (tun_flags t) FLOW_TNL_F_DONT_FRAGMENT then [(OVS_TUNNEL_KEY_ATTR_DONT_FRAGMENT, [])] else []) ++
  (if flag (tun_flags t) FLOW_TNL_F_CSUM then [(OVS_TUNNEL_KEY_ATTR_CSUM, [])] else []).

Definition l3_attrs (f : flow) : list (Z * list Z) :=
  let l := f_l3 f in
  if dl_type (f_l2 f) =? htons ETH_TYPE_IP then
    [(OVS_KEY_ATTR_IPV4, ovs_key_ipv4 (nw_src l) (nw_dst l) (nw_proto l) (nw_tos l) (nw_ttl l) (ovs_to_odp_frag (nw_frag l)))]
  else if dl_type (f_l2 f) =? htons ETH_TYPE_IPV6 then
    [(OVS_KEY_ATTR_IPV6, ovs_key_ipv6 (ipv6_src l) (ipv6_dst l) (ipv6_label l) (nw_proto l) (nw_tos l) (nw_ttl l) (ovs_to_odp_frag (nw_frag l)))]
  else if is_arp f then
    [(OVS_KEY_ATTR_ARP, ovs_key_arp (nw_src l) (nw_dst l) (htons (nw_proto l)) (arp_sha (f_nd f)) (arp_tha (f_nd f)))]
  else [].

Definition mpls_attrs (f : flow) : list (Z * list Z) :=
  if negb (mpls_depth (f_l2 f) =? 0) then [(OVS_KEY_ATTR_MPLS, le_split 4 (mpls_lse (f_l2 f)))] else [].

Definition l4_attrs (f : flow) : list (Z * list Z) :=
  let l := f_l4 f in
  let proto := nw_proto (f_l3 f) in
  if is_ip_any f && negb (flag (nw_frag (f_l3 f)) FLOW_NW_FRAG_LATER) then
    if proto =? IPPROTO_TCP then [(OVS_KEY_ATTR_TCP, ovs_key_ports (tp_src l) (tp_dst l))]
    else if proto =? IPPROTO_UDP then [(OVS_KEY_ATTR_UDP, ovs_key_ports (tp_src l) (tp_dst l))]
    else if proto =? IPPROTO_SCTP then [(OVS_KEY_ATTR_SCTP, ovs_key_ports (tp_src l) (tp_dst l))]
    else if (dl_type (f_l2 f) =? htons ETH_TYPE_IP) && (proto =? IPPROTO_ICMP) then
      [(OVS_KEY_ATTR_ICMP, ovs_key_icmp (ntohs (tp_src l)) (ntohs (tp_dst l)))]
    else if (dl_type (f_l2 f) =? htons ETH_TYPE_IPV6) && (proto =? IPPROTO_ICMPV6) then
      (OVS_KEY_ATTR_ICMPV6, ovs_key_icmp (ntohs (tp_src l)) (ntohs (tp_dst l))) ::
      (if is_nd_type l then [(OVS_KEY_ATTR_ND, ovs_key_nd (nd_target (f_nd f)) (arp_sha (f_nd f)) (arp_tha (f_nd f)))] else [])
    else []
  else [].

Definition l2_5_attrs (f : flow) : list (Z * list Z) :=
  if ntohs (dl_type (f_l2 f)) <? ETH_TYPE_MIN then []
  else (OVS_KEY_ATTR_ETHERTYPE, le_split 2 (dl_type (f_l2 f))) :: l3_attrs f ++ mpls_attrs f ++ l4_attrs f.

Definition is_tagged (f : flow) : bool :=
  negb (vlan_tci (f_l2 f) =? htons 0) || (dl_type (f_l2 f) =? htons ETH_TYPE_VLAN).

Definition vlan_attrs (f : flow) : list (Z * list Z) :=
  if is_tagged f then
    [(OVS_KEY_ATTR_ETHERTYPE, le_split 2 (htons ETH_TYPE_VLAN)); (OVS_KEY_ATTR_VLAN, le_split 2 (vlan_tci (f_l2 f)));
     (OVS_KEY_ATTR_ENCAP, attrs (if vlan_tci (f_l2 f) =? htons 0 then [] else l2_5_attrs f))]
  else l2_5_attrs f.

Definition meta_attrs (f : flow) (port : Z) : list (Z * list Z) :=
  [(OVS_KEY_ATTR_PRIORITY, le_split 4 (skb_priority (f_meta f)))] ++
  (if negb (tun_dst (f_tunnel f) =? 0) then [(OVS_KEY_ATTR_TUNNEL, attrs (tun_attrs (f_tunnel f)))] else []) ++
  [(OVS_KEY_ATTR_SKB_MARK, le_split 4 (pkt_mark (f_meta f)))] ++
  (if negb (port =? ODPP_NONE) then [(OVS_KEY_ATTR_IN_PORT, le_split 4 port)] else []) ++
  [(OVS_KEY_ATTR_ETHERNET, ovs_key_ethernet (dl_src (f_l2 f)) (dl_dst (f_l2 f)))].

Definition key_attrs (f : flow) (port : Z) : list (Z * list Z) := meta_attrs f port ++ vlan_attrs f.

(** ** Types *)

Definition addr_ok (n : nat) (a : list Z) : Prop := length a = n /\ bytes a.

Record tnl_ok (t : flow_tnl) : Prop := {
  to_id : is_u64 (tun_id t); to_src : is_u32 (tun_src t); to_dst : is_u32 (tun_dst t); to_flags : is_u16 (tun_flags t);
  to_tos : is_u8 (tun_tos t); to_ttl : is_u8 (tun_ttl t)
}.

(** The members of a flow are in the ranges of their types, [nw_frag] has no
    other bits than the two it is made of, a VLAN tag has the CFI bit, which
    marks its presence, and ICMP types and codes fit into the byte they have. *)
Record flow_ok (f : flow) : Prop := {
  fo_tnl : tnl_ok (f_tunnel f);
  fo_priority : is_u32 (skb_priority (f_meta f));
  fo_mark : is_u32 (pkt_mark (f_meta f));
  fo_src : addr_ok 6 (dl_src (f_l2 f));
  fo_dst : addr_ok 6 (dl_dst (f_l2 f));
  fo_tci : is_u16 (vlan_tci (f_l2 f));
  fo_cfi : vlan_tci (f_l2 f) = 0 \/ flag (vlan_tci (f_l2 f)) (htons VLAN_CFI) = true;
  fo_type : is_u16 (dl_type (f_l2 f));
  fo_lse : is_u32 (mpls_lse (f_l2 f));
  fo_nw_src : is_u32 (nw_src (f_l3 f));
  fo_nw_dst : is_u32 (nw_dst (f_l3 f));
  fo_proto : is_u8 (nw_proto (f_l3 f));
  fo_tos : is_u8 (nw_tos (f_l3 f));
  fo_ttl : is_u8 (nw_ttl (f_l3 f));
  fo_frag : 0 <= nw_frag (f_l3 f) <= 3;
  fo_src6 : addr_ok 16 (ipv6_src (f_l3 f));
  fo_dst6 : addr_ok 16 (ipv6_dst (f_l3 f));
  fo_label : is_u32 (ipv6_label (f_l3 f));
  fo_tp_src : is_u16 (tp_src (f_l4 f));
  fo_tp_dst : is_u16 (tp_dst (f_l4 f));
  fo_icmp : nw_proto (f_l3 f) = IPPROTO_ICMP \/ nw_proto (f_l3 f) = IPPROTO_ICMPV6 ->
    ntohs (tp_src (f_l4 f)) < 256 /\ ntohs (tp_dst (f_l4 f)) < 256;
  fo_sha : addr_ok 6 (arp_sha (f_nd f));
  fo_tha : addr_ok 6 (arp_tha (f_nd f));
  fo_target : addr_ok 16 (nd_target (f_nd f))
}.

(** ** What is read back *)

Definition norm_tnl (t : flow_tnl) : flow_tnl :=
  if tun_dst t =? 0 then zero_tnl
  else FlowTnl (if flag (tun_flags t) FLOW_TNL_F_KEY then tun_id t else 0) (tun_src t) (tun_dst t) (Z.land (tun_flags t) 7)
         (tun_tos t) (tun_ttl t).

Definition norm_frag (frag : Z) : Z := if frag =? 0 then 0 else if frag =? 1 then 1 else 3.

Definition norm_l2 (f : flow) : flow_l2 :=
  let l := f_l2 f in
  let labelled := eth_type_mpls (dl_type l) && negb (mpls_depth l =? 0) in
  FlowL2 (dl_src l) (dl_dst l) (vlan_tci l)
    (if ntohs (dl_type l) <? ETH_TYPE_MIN then htons FLOW_DL_TYPE_NONE else dl_type l)
    (if labelled then mpls_lse l else 0) (if labelled then 1 else 0).

Definition norm_l3 (f : flow) : flow_l3 :=
  let l := f_l3 f in
  if dl_type (f_l2 f) =? htons ETH_TYPE_IP then
    FlowL3 (nw_src l) (nw_dst l) (nw_proto l) (nw_tos l) (nw_ttl l) (norm_frag (nw_frag l)) zero_in6 zero_in6 0
  else if dl_type (f_l2 f) =? htons ETH_TYPE_IPV6 then
    FlowL3 0 0 (nw_proto l) (nw_tos l) (nw_ttl l) (norm_frag (nw_frag l)) (ipv6_src l) (ipv6_dst l) (ipv6_label l)
  else if is_arp f then FlowL3 (nw_src l) (nw_dst l) (nw_proto l) 0 0 0 zero_in6 zero_in6 0
  else zero_l3.

(** Whether the transport layer is described. *)
Definition has_ports (f : flow) : bool :=
  let proto := nw_proto (f_l3 f) in
  is_ip_any f && negb (flag (nw_frag (f_l3 f)) FLOW_NW_FRAG_LATER) &&
  ((proto =? IPPROTO_TCP) || (proto =? IPPROTO_UDP) || (proto =? IPPROTO_SCTP) ||
   ((dl_type (f_l2 f) =? htons ETH_TYPE_IP) && (proto =? IPPROTO_ICMP)) ||
   ((dl_type (f_l2 f) =? htons ETH_TYPE_IPV6) && (proto =? IPPROTO_ICMPV6))).

Definition norm_l4 (f : flow) : flow_l4 := if has_ports f then f_l4 f else zero_l4.

Definition norm_nd (f : flow) : flow_nd :=
  if is_arp f then FlowNd (arp_sha (f_nd f)) (arp_tha (f_nd f)) zero_in6
  else if (dl_type (f_l2 f) =? htons ETH_TYPE_IPV6) && (nw_proto (f_l3 f) =? IPPROTO_ICMPV6) &&
          negb (flag (nw_frag (f_l3 f)) FLOW_NW_FRAG_LATER) && is_nd_type (f_l4 f)
  then f_nd f else zero_nd.

(** The flow with the members cleared that its protocols do not use, and the
    input port [port]. *)
Definition norm_flow (f : flow) (port : Z) : flow :=
  MkFlow (norm_tnl (f_tunnel f)) (FlowMeta 0 (replicate 8 0) (skb_priority (f_meta f)) port (pkt_mark (f_meta f)))
    (norm_l2 f) (norm_l3 f) (norm_l4 f) (norm_nd f).

(** A flow with a label but not of an MPLS type has too many attributes, one of
    an MPLS type without label too few. *)
Definition mpls_fitness (f : flow) : odp_key_fitness :=
  if ntohs (dl_type (f_l2 f)) <? ETH_TYPE_MIN then ODP_FIT_PERFECT
  else if eth_type_mpls (dl_type (f_l2 f)) then
    if mpls_depth (f_l2 f) =? 0 then ODP_FIT_TOO_LITTLE else ODP_FIT_PERFECT
  else if mpls_depth (f_l2 f) =? 0 then ODP_FIT_PERFECT else ODP_FIT_TOO_MUCH.

Definition key_fitness (f : flow) : odp_key_fitness :=
  if is_tagged f && (vlan_tci (f_l2 f) =? htons 0) then ODP_FIT_PERFECT else mpls_fitness f.

(** ** Lemmas: writing *)

Lemma addr_bytes n a : addr_ok n a -> bytes a.
Proof. by intros []. Qed.

Lemma addr_zlen n a : addr_ok n a -> zlen a = Z.of_nat n.
Proof. intros [Hl _]. unfold zlen. by rewrite Hl. Qed.

(** The length and the bytes of a payload made of integers and addresses. *)
Ltac payload :=
  unfold ovs_key_ethernet, ovs_key_ipv4, ovs_key_ipv6, ovs_key_arp, ovs_key_ports, ovs_key_icmp, ovs_key_nd;
  rewrite ?bytes_app, ?zlen_app, ?zlen_le_split;
  repeat match goal with
  | H : addr_ok ?n ?a |- context [zlen ?a] => rewrite (addr_zlen n a H)
  | |- _ /\ _ => split
  | |- bytes (le_split _ _) => apply le_split_bytes
  | H : addr_ok _ ?a |- bytes ?a => exact (addr_bytes _ _ H)
  end; try (apply bytes_bool; reflexivity); try (unfold zlen; simpl; lia).

Section OdpPutLemmas.
Context (junk : nat -> Z) (junk_byte : forall i, is_u8 (junk i)).

Ltac put := apply (appended_put junk junk_byte); [payload|payload|lia|done].
Ltac put_if := apply appended_if; [lia|done|intros _; put].
Ltac next := eapply appended_bind; [|intros ?msg ?Hr _].

Lemma put_tun_attrs_ok k t msg :
  7 <= k -> roomy k msg -> appended k (contents msg) (put_tun_attrs junk msg t) 7 (tun_attrs t).
Proof.
  intros Hk Hr. unfold put_tun_attrs, tun_attrs, nl_msg_put_be64, nl_msg_put_be32, nl_msg_put_u8, nl_msg_put_flag.
  change 7 with (1 + (1 + (1 + (1 + (1 + (1 + 1)))))). do 4 (next; [put_if|]). next; [put|]. next; put_if.
Qed.

Lemma tun_key_to_attr_ok k t msg :
  8 <= k -> roomy k msg ->
  appended k (contents msg) (tun_key_to_attr junk msg t) 8 [(OVS_KEY_ATTR_TUNNEL, attrs (tun_attrs t))].
Proof.
  intros Hk Hr. unfold tun_key_to_attr. change 8 with (7 + 1). apply appended_nested; [done|lia..|done|].
  intros. apply put_tun_attrs_ok; [lia|done].
Qed.

Lemma put_l3_ok k f msg :
  flow_ok f -> 1 <= k -> roomy k msg -> appended k (contents msg) (put_l3 junk msg f) 1 (l3_attrs f).
Proof.
  intros [] Hk Hr. unfold put_l3, l3_attrs. repeat (case_match; [put|]).
  eapply appended_weaken, appended_ret; [lia|done].
Qed.

Lemma put_l4_ok k f msg :
  flow_ok f -> 2 <= k -> roomy k msg -> appended k (contents msg) (put_l4 junk msg f) 2 (l4_attrs f).
Proof.
  intros [] Hk Hr. unfold put_l4, l4_attrs. assert (appended k (contents msg) (Ok msg) 2 []).
  { eapply appended_weaken, appended_ret; [lia|done]. }
  destruct (is_ip_any f && _); [|done]. do 4 (case_match; [eapply (appended_weaken _ _ _ 1); [lia|put]|]).
  case_match; [|done]. change 2 with (1 + 1). eapply (appended_bind _ _ _ _ _ _ [_]); [put|intros; put_if].
Qed.

Lemma put_l2_5_ok k f msg :
  flow_ok f -> 5 <= k -> roomy k msg -> appended k (contents msg) (put_l2_5_onward junk msg f) 5 (l2_5_attrs f).
Proof.
  intros Hf Hk Hr. unfold put_l2_5_onward, l2_5_attrs, nl_msg_put_be16.
  destruct (_ <? _); [eapply appended_weaken, appended_ret; [lia|done]|].
  change 5 with (1 + (1 + (1 + 2))). eapply (appended_bind _ _ _ _ _ _ [_]); [put|intros msg1 Hr1 _].
  next; [apply put_l3_ok; [done|lia|done]|]. next; [put_if|]. apply put_l4_ok; [done|lia|done].
Qed.

(** The test of the offset is always true. *)
Lemma nested_if_offset msg type put :
  0 < zlen (contents msg) -> ofpbuf_wf msg ->
  ('(b, o) ← nl_msg_start_nested junk msg type; b ← put b; if o =? 0 then Ok b else nl_msg_end_nested b o) =
  ('(b, o) ← nl_msg_start_nested junk msg type; b ← put b; nl_msg_end_nested b o).
Proof.
  intros Hc Hwf. unfold nl_msg_start_nested. rewrite (zlen_contents msg Hwf) in Hc.
  destruct (nl_msg_put_unspec junk msg type []) as [b|]; [|done]. bind. bind. by rewrite (proj2 (Z.eqb_neq (size msg) 0)) by lia.
Qed.

(** What [odp_flow_key_from_flow] appends to a message. *)
Lemma odp_flow_key_from_flow_ok k f port msg :
  flow_ok f -> 20 <= k -> roomy k msg ->
  appended k (contents msg) (odp_flow_key_from_flow junk msg f port) 20 (key_attrs f port).
Proof.
  intros Hf Hk Hr. unfold odp_flow_key_from_flow, key_attrs, meta_attrs, vlan_attrs, is_tagged.
  unfold nl_msg_put_u32, nl_msg_put_odp_port, nl_msg_put_be16, nl_msg_put_u32.
  pose proof Hf as []. rewrite <- !app_assoc.
  change 20 with (1 + (8 + (1 + (1 + (1 + 8))))). next; [put|].
  next. { apply appended_if; [lia|done|]. intros _. apply tun_key_to_attr_ok; [lia|done]. }
  next; [put|]. next; [put_if|]. next; [put|]. destruct (_ || _).
  2:{ eapply (appended_weaken _ _ _ 5); [lia|]. apply put_l2_5_ok; [done|lia|done]. }
  change 8 with (1 + (1 + (5 + 1))). eapply (appended_bind _ _ _ _ _ _ [_]); [put|intros msg5 Hr5 _].
  eapply (appended_bind _ _ _ _ _ _ [_]); [put|intros msg6 Hr6 Hc6].
  set (put := fun b => if vlan_tci (f_l2 f) =? htons 0 then Ok b else put_l2_5_onward junk b f).
  rewrite (nested_if_offset msg6 _ put).
  - apply appended_nested; [done|lia|lia|done|]. intros msg7 Hr7. unfold put. destruct (_ =? _).
    + eapply appended_weaken, appended_ret; [lia|done].
    + apply put_l2_5_ok; [done|lia|done].
  - rewrite Hc6, zlen_app, attrs_cons, zlen_app, zlen_attr. cbn [snd]. rewrite zlen_le_split. pose proof (zlen_nonneg (contents msg5)).
    change (NLA_ALIGN (NLA_HDRLEN + Z.of_nat 2)) with 8. pose proof (zlen_nonneg (attrs [])). lia.
  - by apply (roomy_weaken 0) in Hr6 as [? _]; [|lia].
Qed.
End OdpPutLemmas.

(** ** Lemmas: reading *)

Fixpoint find_attr (t : Z) (l : list (Z * list Z)) : option (list Z) :=
  match l with
  | [] => None
  | a :: l => if a.1 =? t then Some a.2 else find_attr t l
  end.

Definition mask (l : list (Z * list Z)) : Z := foldr (fun a m => Z.lor (bit a.1) m) 0 l.

(** Attributes that [parse_flow_nlattrs] takes. *)
Definition key_attr_ok (a : Z * list Z) : Prop :=
  0 <= a.1 <= OVS_KEY_ATTR_MAX /\ zlen a.2 <= 60000 /\
  (odp_flow_key_attr_len a.1 < 0 \/ odp_flow_key_attr_len a.1 = zlen a.2).

(** What is parsed describes the attributes [l]. *)
Record holds (x : parsed) (l : list (Z * list Z)) : Prop := {
  h_range : p_out_of_range x = 0;
  h_present : p_present x = mask l;
  h_attrs t p : find_attr t l = Some p -> exists rest, p_attrs x !! t = Some (attr t p ++ rest)
}.

Lemma flag_bit x t : 0 <= t -> flag x (bit t) = Z.testbit x t.
Proof.
  intros Ht. unfold flag, bit. rewrite Z.shiftl_1_l, land_pow2 by done.
  destruct (Z.testbit x t); [|done]. pose proof (Z.pow_pos_nonneg 2 t ltac:(lia) Ht).
  by rewrite (proj2 (Z.eqb_neq _ _)) by lia.
Qed.

Lemma testbit_bit t n : 0 <= t -> 0 <= n -> Z.testbit (bit t) n = (t =? n).
Proof. intros. unfold bit. rewrite Z.shiftl_1_l. by apply Z.pow2_bits_eqb. Qed.

Lemma mask_app l k : mask (l ++ k) = Z.lor (mask l) (mask k).
Proof. induction l as [|a l IH]; simpl; [by rewrite Z.lor_0_l|]. by rewrite IH, Z.lor_assoc. Qed.

Lemma find_app t l k : find_attr t (l ++ k) = match find_attr t l with Some p => Some p | None => find_attr t k end.
Proof. induction l as [|a l IH]; simpl; [done|]. by destruct (_ =? _). Qed.

Lemma find_None t l : t ∉ l.*1 -> find_attr t l = None.
Proof.
  induction l as [|a l IH]; simpl; [done|]. intros [H1 H2]%not_elem_of_cons.
  rewrite (proj2 (Z.eqb_neq a.1 t)) by congruence. auto.
Qed.

Lemma present_mask l t :
  0 <= t -> Forall (fun a => 0 <= a.1) l ->
  present (mask l) t = match find_attr t l with Some _ => true | None => false end.
Proof.
  intros Ht Hl. unfold present. rewrite flag_bit by done.
  induction Hl as [|a l Ha Hl IH]; simpl; [apply Z.bits_0|].
  rewrite Z.lor_spec, testbit_bit, IH by done. by destruct (_ =? _).
Qed.

(** The attributes are all found, whatever the array held before. *)
Lemma parse_flow_nlattrs_ok l old rest :
  NoDup l.*1 -> Forall key_attr_ok l ->
  exists x, parse_flow_nlattrs (attrs l ++ rest) (zlen (attrs l)) old = Ok (Some x) /\ holds x l.
Proof.
  intros Hnd Hl. unfold parse_flow_nlattrs.
  destruct (for_each_attrs (fun done x => holds x done) parse_flow_step l) with (fuel := nl_fuel (attrs l ++ rest)) (rest := rest)
    (x := Parsed old 0 0) as (x & -> & Hx).
  - eapply list.Forall_impl; [exact Hl|]. by intros a (_ & ? & _).
  - intros done a r x [l' ->] [Hr Hp Ha]. rewrite fmap_app, fmap_app in Hnd. apply list.NoDup_app in Hnd as [Hnd _].
    apply list.NoDup_app in Hnd as (_ & Hnot & _). apply Forall_app in Hl as [Hl _]. apply Forall_app in Hl as [Hd Ha'].
    apply Forall_singleton in Ha' as (Ht & Hz & Hlen). unfold OVS_KEY_ATTR_MAX in Ht.
    assert (find_attr a.1 done = None) as Hfn.
    { apply find_None. intros Hin. apply (Hnot _ Hin). simpl. left. }
    unfold parse_flow_step. rewrite nl_attr_type_attr by lia. bind. rewrite nl_attr_get_size_attr by done. bind.
    assert (negb (zlen a.2 =? odp_flow_key_attr_len a.1) && (0 <=? odp_flow_key_attr_len a.1) = false) as ->.
    { destruct Hlen as [?| ->]; [rewrite (proj2 (Z.leb_gt 0 _)) by done; apply andb_false_r|by rewrite Z.eqb_refl]. }
    rewrite (proj2 (Z.ltb_ge OVS_KEY_ATTR_MAX a.1)) by (unfold OVS_KEY_ATTR_MAX; lia).
    rewrite Hp, present_mask, Hfn; [|lia|eapply list.Forall_impl; [exact Hd|]; by intros ? [[? _] _]].
    eexists. split; [done|]. split; simpl; [done|by rewrite mask_app; simpl; rewrite Z.lor_0_r|].
    intros t p. rewrite find_app. simpl. destruct (find_attr t done) as [q|] eqn:Eq.
    + intros [= <-]. rewrite lookup_insert_ne; [by apply Ha|]. intros <-. congruence.
    + destruct (Z.eqb_spec a.1 t) as [->|]; [|done]. intros [= <-]. rewrite lookup_insert_eq. eauto.
  - unfold nl_fuel. rewrite length_app. pose proof (attrs_length l). lia.
  - split; simpl; [done|done|]. by intros t p.
  - bind. eauto.
Qed.

Lemma find_size l t p : Forall key_attr_ok l -> find_attr t l = Some p -> zlen p <= 60000.
Proof.
  induction 1 as [|a k (_ & ? & _) _ IH]; simpl; [done|]. destruct (_ =? _); [by intros [= <-]|done].
Qed.

Section Reading.
Context (x : parsed) (l : list (Z * list Z)) (Hx : holds x l) (Hl : Forall key_attr_ok l).

Lemma present_find t : 0 <= t -> present (p_present x) t = match find_attr t l with Some _ => true | None => false end.
Proof using Hx Hl.
  intros Ht. rewrite (h_present _ _ Hx). apply present_mask; [done|]. eapply list.Forall_impl; [exact Hl|]. by intros ? [[? _] _].
Qed.

Lemma attr_found t p : find_attr t l = Some p -> exists rest, attr_at x t = Ok (attr t p ++ rest).
Proof using Hx. intros E. destruct (h_attrs _ _ Hx _ _ E) as [rest Hr]. exists rest. unfold attr_at. by rewrite Hr. Qed.

Lemma get_le_found t n v :
  find_attr t l = Some (le_split n v) -> 0 <= v < 256 ^ Z.of_nat n ->
  exists nla, attr_at x t = Ok nla /\ le_combine <$> nl_attr_get_unspec nla (Z.of_nat n) = Ok v.
Proof using Hx Hl.
  intros E Hv. destruct (attr_found _ _ E) as [rest Hr]. exists (attr t (le_split n v) ++ rest). split; [done|].
  rewrite nl_attr_get_unspec_attr by (first [by eapply find_size|rewrite zlen_le_split; lia]).
  rewrite Nat2Z.id, take_ge by (rewrite le_split_length; lia). simpl. by rewrite le_combine_split, Z.mod_small.
Qed.

(** The payload of an attribute, followed by other bytes. *)
Lemma get_found t p :
  find_attr t l = Some p -> exists nla rest, attr_at x t = Ok nla /\ nl_attr_get nla = Ok (p ++ rest) /\ nl_attr_get_size nla = Ok (zlen p).
Proof using Hx Hl.
  intros E. destruct (attr_found _ _ E) as [rest Hr]. pose proof (find_size _ _ _ Hl E).
  eexists _, _. split; [exact Hr|]. by rewrite nl_attr_get_attr, nl_attr_get_size_attr.
Qed.
End Reading.

(** *** Fields of payloads *)

Lemma load_bytes_skip a r off n c : zlen a = c -> c <= off -> load_bytes (a ++ r) off n = load_bytes r (off - c) n.
Proof. intros <- Hc. replace off with (zlen a + (off - zlen a)) at 1 by lia. apply load_bytes_shift. lia. Qed.

Lemma load_le_skip k a r off c : zlen a = c -> c <= off -> load_le k (a ++ r) off = load_le k r (off - c).
Proof. intros. unfold load_le. by erewrite load_bytes_skip. Qed.

Lemma load_bytes_here a r n : zlen a = n -> load_bytes (a ++ r) 0 n = Ok a.
Proof.
  intros <-. apply load_bytes_Ok. rewrite zlen_app. pose proof (zlen_nonneg a). pose proof (zlen_nonneg r).
  split_and!; try lia. by rewrite drop_0, take_zlen_app.
Qed.

Lemma load_le_here k v r : is_u (8 * Z.of_nat k) v -> load_le k (le_split k v ++ r) 0 = Ok v.
Proof.
  intros Hv. rewrite load_le_app. rewrite Z.mod_small; [done|]. unfold is_u in Hv.
  by rewrite Z.pow_mul_r in Hv by lia.
Qed.

(** Evaluates the loads from a payload made of integers and addresses. *)
Ltac load_fields :=
  unfold load8, load16, load32; rewrite <- ?app_assoc;
  repeat match goal with
  | |- context [load_le ?k (le_split ?k ?v ++ ?r) 0] => rewrite (load_le_here k v r) by done
  | H : addr_ok _ ?a |- context [load_bytes (?a ++ ?r) 0 ?n] => rewrite (load_bytes_here a r n) by exact (addr_zlen _ _ H)
  | |- context [load_le ?k (le_split ?j ?v ++ ?r) ?off] =>
      let c := eval compute in (Z.of_nat j) in let o := eval compute in (off - c) in
      rewrite (load_le_skip k (le_split j v) r off c) by first [apply zlen_le_split|lia]; change (off - c) with o
  | H : addr_ok ?j ?a |- context [load_le ?k (?a ++ ?r) ?off] =>
      let c := eval compute in (Z.of_nat j) in let o := eval compute in (off - c) in
      rewrite (load_le_skip k a r off c) by first [exact (addr_zlen _ _ H)|lia]; change (off - c) with o
  | |- context [load_bytes (le_split ?j ?v ++ ?r) ?off ?n] =>
      let c := eval compute in (Z.of_nat j) in let o := eval compute in (off - c) in
      rewrite (load_bytes_skip (le_split j v) r off n c) by first [apply zlen_le_split|lia]; change (off - c) with o
  | H : addr_ok ?j ?a |- context [load_bytes (?a ++ ?r) ?off ?n] =>
      let c := eval compute in (Z.of_nat j) in let o := eval compute in (off - c) in
      rewrite (load_bytes_skip a r off n c) by first [exact (addr_zlen _ _ H)|lia]; change (off - c) with o
  end; rewrite ?bind_ok; cbv beta iota zeta.

Definition frag_of (odp : Z) : Z := if odp =? 0 then 0 else if odp =? 1 then 1 else 3.

Lemma odp_frag_range n : 0 <= ovs_to_odp_frag n <= 2.
Proof. unfold ovs_to_odp_frag. repeat case_match; unfold OVS_FRAG_TYPE_NONE, OVS_FRAG_TYPE_FIRST, OVS_FRAG_TYPE_LATER; lia. Qed.

Lemma frag_of_norm n : 0 <= n <= 3 -> frag_of (ovs_to_odp_frag n) = norm_frag n.
Proof. intros. assert (n = 0 \/ n = 1 \/ n = 2 \/ n = 3) as [->|[->|[->| ->]]] by lia; reflexivity. Qed.

Lemma norm_frag_later n : 0 <= n <= 3 -> flag (norm_frag n) FLOW_NW_FRAG_LATER = flag n FLOW_NW_FRAG_LATER.
Proof. intros. assert (n = 0 \/ n = 1 \/ n = 2 \/ n = 3) as [->|[->|[->| ->]]] by lia; reflexivity. Qed.

Lemma odp_to_ovs_frag_ok odp f :
  0 <= odp <= 2 -> nw_frag (f_l3 f) = 0 -> odp_to_ovs_frag odp f = (true, set_nw_frag (frag_of odp) f).
Proof.
  intros Ho Hz. unfold odp_to_ovs_frag. rewrite Hz.
  assert (odp = 0 \/ odp = 1 \/ odp = 2) as [->|[->| ->]] by lia; simpl; try reflexivity.
  f_equal. destruct f as [? ? ? [] ? ?]. simpl in *. subst. reflexivity.
Qed.

Section ReadingFields.
Context (x : parsed) (l : list (Z * list Z)) (Hx : holds x l) (Hl : Forall key_attr_ok l).

(** The attribute is there: its payload [k]. *)
Ltac found E := rewrite (present_find x l Hx Hl), E by done;
  let nla := fresh "nla" in let rest := fresh "rest" in let Ea := fresh "Ea" in let Eg := fresh "Eg" in
  destruct (get_found x l Hx Hl _ _ E) as (nla & rest & Ea & Eg & _); rewrite Ea; bind; rewrite Eg; bind.
Ltac missing E := rewrite (present_find x l Hx Hl), E by done; bind.

Lemma parse_u32_ok t set e f v :
  0 <= t -> find_attr t l = Some (le_split 4 v) -> is_u32 v -> parse_u32 t set x e f = Ok (Z.lor e (bit t), set v f).
Proof using Hx Hl.
  intros Ht E Hv. unfold parse_u32. rewrite (present_find x l Hx Hl), E by done.
  destruct (get_le_found x l Hx Hl t 4 v E Hv) as (nla & -> & Eg). bind. unfold nl_attr_get_u32.
  change (Z.of_nat 4) with 4 in Eg. rewrite Eg. done.
Qed.

Lemma parse_ethernet_ok e f src dst :
  addr_ok 6 src -> addr_ok 6 dst -> find_attr OVS_KEY_ATTR_ETHERNET l = Some (ovs_key_ethernet src dst) ->
  parse_ethernet x e f = Ok (Z.lor e (bit OVS_KEY_ATTR_ETHERNET), set_dl_addrs src dst f).
Proof using Hx Hl.
  intros Hs Hd E. unfold parse_ethernet. found E. unfold ovs_key_ethernet. load_fields. done.
Qed.

Lemma parse_ethertype_ok e f ty :
  find_attr OVS_KEY_ATTR_ETHERTYPE l = Some (le_split 2 ty) -> is_u16 ty -> ETH_TYPE_MIN <= ntohs ty ->
  parse_ethertype x e f = Ok (true, Z.lor e (bit OVS_KEY_ATTR_ETHERTYPE), set_dl_type ty f).
Proof using Hx Hl.
  intros E Hv Hm. unfold parse_ethertype. rewrite (present_find x l Hx Hl), E by done.
  destruct (get_le_found x l Hx Hl _ 2 ty E Hv) as (nla & -> & Eg). bind. unfold nl_attr_get_be16.
  change (Z.of_nat 2) with 2 in Eg. rewrite Eg. bind. by rewrite (proj2 (Z.ltb_ge _ _) Hm).
Qed.

Lemma parse_ethertype_none e f :
  find_attr OVS_KEY_ATTR_ETHERTYPE l = None ->
  parse_ethertype x e f = Ok (true, e, set_dl_type (htons FLOW_DL_TYPE_NONE) f).
Proof using Hx Hl. intros E. unfold parse_ethertype. by rewrite (present_find x l Hx Hl), E by done. Qed.

Lemma parse_ipv4_ok e f src dst proto tos ttl odp :
  find_attr OVS_KEY_ATTR_IPV4 l = Some (ovs_key_ipv4 src dst proto tos ttl odp) ->
  is_u32 src -> is_u32 dst -> is_u8 proto -> is_u8 tos -> is_u8 ttl -> 0 <= odp <= 2 -> f_l3 f = zero_l3 ->
  parse_ipv4 x e f = Ok (None, Z.lor e (bit OVS_KEY_ATTR_IPV4),
    with_l3 (FlowL3 src dst proto tos ttl (frag_of odp) zero_in6 zero_in6 0) f).
Proof using Hx Hl.
  intros E ????? Ho Hz. assert (is_u8 odp) by (unfold is_u8, is_u; lia). unfold parse_ipv4. found E. unfold ovs_key_ipv4.
  load_fields.
  cbv zeta. rewrite odp_to_ovs_frag_ok by (rewrite ?Hz; done). rewrite Hz. done.
Qed.

Lemma parse_ipv6_ok e f src dst label proto tos ttl odp :
  find_attr OVS_KEY_ATTR_IPV6 l = Some (ovs_key_ipv6 src dst label proto tos ttl odp) ->
  addr_ok 16 src -> addr_ok 16 dst -> is_u32 label -> is_u8 proto -> is_u8 tos -> is_u8 ttl -> 0 <= odp <= 2 -> f_l3 f = zero_l3 ->
  parse_ipv6 x e f = Ok (None, Z.lor e (bit OVS_KEY_ATTR_IPV6),
    with_l3 (FlowL3 0 0 proto tos ttl (frag_of odp) src dst label) f).
Proof using Hx Hl.
  intros E ?????? Ho Hz. assert (is_u8 odp) by (unfold is_u8, is_u; lia). unfold parse_ipv6. found E. unfold ovs_key_ipv6.
  load_fields.
  cbv zeta. rewrite odp_to_ovs_frag_ok by (rewrite ?Hz; done). rewrite Hz. done.
Qed.

Lemma htons_byte v : is_u8 v -> is_u16 (htons v) /\ ntohs (htons v) = v /\ flag (htons v) (htons 0xff00) = false.
Proof using Type.
  intros Hv. unfold is_u8, is_u in Hv. split; [apply (bswap_bound 2)|]. split; [apply bswap_bswap; simpl; lia|].
  assert (htons v = v * 256) as ->. { unfold htons, bswap. cbn. zdiv. }
  unfold flag. change (htons 0xff00) with 255. change 255 with (Z.ones 8). rewrite Z.land_ones by done.
  by rewrite Z.mod_mul by done.
Qed.

Lemma parse_arp_ok e f sip tip proto sha tha :
  find_attr OVS_KEY_ATTR_ARP l = Some (ovs_key_arp sip tip (htons proto) sha tha) ->
  is_u32 sip -> is_u32 tip -> is_u8 proto -> addr_ok 6 sha -> addr_ok 6 tha -> f_l3 f = zero_l3 -> f_nd f = zero_nd ->
  parse_arp x e f = Ok (None, Z.lor e (bit OVS_KEY_ATTR_ARP),
    with_nd (FlowNd sha tha zero_in6) (with_l3 (FlowL3 sip tip proto 0 0 0 zero_in6 zero_in6 0) f)).
Proof using Hx Hl.
  intros E ????? Hz Hn. destruct (htons_byte proto) as (? & Hp & Hf); [done|]. unfold parse_arp. found E. unfold ovs_key_arp.
  load_fields. rewrite Hf. load_fields.
  rewrite Hp, Hz, Hn. unfold u8. by rewrite wrap_small.
Qed.

Lemma parse_ports_ok t e f src dst :
  0 <= t -> find_attr t l = Some (ovs_key_ports src dst) -> is_u16 src -> is_u16 dst ->
  parse_ports t x e f = Ok (Z.lor e (bit t), with_l4 (FlowL4 src dst) f).
Proof using Hx Hl.
  intros Ht E ??. unfold parse_ports. found E. unfold ovs_key_ports. load_fields. done.
Qed.

Lemma parse_nd_ok e f target sll tll :
  find_attr OVS_KEY_ATTR_ND l = Some (ovs_key_nd target sll tll) -> addr_ok 16 target -> addr_ok 6 sll -> addr_ok 6 tll ->
  parse_nd x e f = Ok (Z.lor e (bit OVS_KEY_ATTR_ND), with_nd (FlowNd sll tll target) f).
Proof using Hx Hl.
  intros E ???. unfold parse_nd. found E. unfold ovs_key_nd. load_fields. done.
Qed.

Lemma parse_icmp_ok t nd e f src dst :
  0 <= t -> find_attr t l = Some (ovs_key_icmp (ntohs src) (ntohs dst)) -> is_u16 src -> is_u16 dst ->
  ntohs src < 256 -> ntohs dst < 256 ->
  parse_icmp t nd x e f =
    if nd && is_nd_type (FlowL4 src dst) then parse_nd x (Z.lor e (bit t)) (with_l4 (FlowL4 src dst) f)
    else Ok (Z.lor e (bit t), with_l4 (FlowL4 src dst) f).
Proof using Hx Hl.
  intros Ht E ????. assert (is_u8 (ntohs src) /\ is_u8 (ntohs dst)) as [? ?].
  { unfold is_u8, is_u. split; (split; [apply (bswap_bound 2)|done]). }
  unfold parse_icmp. found E. unfold ovs_key_icmp. load_fields.
  assert (htons (ntohs src) = src) as -> by (by apply bswap_bswap). assert (htons (ntohs dst) = dst) as -> by (by apply bswap_bswap). done.
Qed.
End ReadingFields.

(** *** Layers *)

Lemma check_perfect x e : p_out_of_range x = 0 -> p_present x = e -> check_expectations x e = ODP_FIT_PERFECT.
Proof. intros Hr <-. unfold check_expectations. by rewrite Z.land_lnot_diag, Hr. Qed.

Lemma check_too_much x e t :
  p_out_of_range x = 0 -> 0 <= t -> p_present x = Z.lor e (bit t) -> Z.testbit e t = false ->
  check_expectations x e = ODP_FIT_TOO_MUCH.
Proof.
  intros Hr Ht Hp He. unfold check_expectations. rewrite Hp. assert (Z.land e (Z.lnot (Z.lor e (bit t))) = 0) as ->.
  { rewrite Z.lnot_lor, Z.land_assoc, Z.land_lnot_diag. apply Z.land_0_l. }
  destruct (Z.eqb_spec (Z.land (Z.lor e (bit t)) (Z.lnot e)) 0) as [E|]; [|done].
  apply (f_equal (fun n => Z.testbit n t)) in E. rewrite Z.land_spec, Z.lor_spec, Z.lnot_spec, testbit_bit, He, Z.eqb_refl, Z.bits_0 in E by done.
  done.
Qed.

Definition l4_type (t : Z) : bool :=
  existsb (Z.eqb t) [OVS_KEY_ATTR_TCP; OVS_KEY_ATTR_UDP; OVS_KEY_ATTR_SCTP; OVS_KEY_ATTR_ICMP; OVS_KEY_ATTR_ICMPV6; OVS_KEY_ATTR_ND].

Lemma find_if (b : bool) t l k : find_attr t (if b then l else k) = if b then find_attr t l else find_attr t k.
Proof. by destruct b. Qed.

Section ReadingLayers.
Context (x : parsed) (l : list (Z * list Z)) (Hx : holds x l) (Hl : Forall key_attr_ok l).

(** A pair of ports that was found. *)
Ltac ports Hx Hl f Hfound := rewrite andb_false_r; cbn [andb mask foldr fst];
  rewrite (parse_ports_ok _ _ Hx Hl _ _ _ (tp_src (f_l4 f)) (tp_dst (f_l4 f))); [|done|apply Hfound; done|done|done];
  rewrite Z.lor_0_r.

Lemma parse_l4_ip e f g :
  flow_ok f -> (forall t, l4_type t = true -> find_attr t l = find_attr t (l4_attrs f)) -> is_ip_any f = true ->
  dl_type (f_l2 g) = dl_type (f_l2 f) -> nw_proto (f_l3 g) = nw_proto (f_l3 f) ->
  nw_frag (f_l3 g) = norm_frag (nw_frag (f_l3 f)) -> f_l4 g = zero_l4 -> f_nd g = zero_nd ->
  parse_l4 x e g = Ok (Z.lor e (mask (l4_attrs f)), with_nd (norm_nd f) (with_l4 (norm_l4 f) g)).
Proof using Hx Hl.
  intros Hf Hfind Hip Hdl Hpr Hfr H4 Hn. pose proof Hf as [].
  assert (is_arp f = false) as Harp.
  { unfold is_ip_any, is_arp in *. apply orb_true_iff in Hip as [->%Z.eqb_eq| ->%Z.eqb_eq]; reflexivity. }
  unfold parse_l4. rewrite Hdl, Hpr, Hfr, norm_frag_later by done. unfold norm_l4, norm_nd, has_ports. rewrite Hip, Harp.
  assert (with_nd zero_nd (with_l4 zero_l4 g) = g) as Hg by (rewrite <- H4, <- Hn; by destruct g).
  assert (forall t p, l4_type t = true -> l4_attrs f = [(t, p)] -> find_attr t l = Some p) as Hfound.
  { intros t p Ht E. rewrite Hfind, E by done. simpl. by rewrite Z.eqb_refl. }
  unfold l4_attrs in *. rewrite Hip in *. cbn [andb] in *.
  destruct (negb (flag (nw_frag (f_l3 f)) FLOW_NW_FRAG_LATER)); cbn [andb].
  2:{ rewrite !andb_false_r. cbn [mask foldr andb]. by rewrite Z.lor_0_r, Hg. }
  unfold is_ip_any in Hip. rewrite Hip, !andb_true_r. cbn [andb]. clear Hpr Hfr Hdl fo_proto0 fo_frag0.
  set (ip := dl_type (f_l2 f) =? htons ETH_TYPE_IP) in *. set (ip6 := dl_type (f_l2 f) =? htons ETH_TYPE_IPV6) in *.
  revert fo_icmp0 Hfind Hfound. generalize (nw_proto (f_l3 f)). intros proto Hicmp Hfind Hfound.
  clear Hf.
  assert (forall t, (proto =? t) = false \/ proto = t) as Hd by (intros t; destruct (Z.eqb_spec proto t); auto).
  assert (FlowL4 (tp_src (f_l4 f)) (tp_dst (f_l4 f)) = f_l4 f) as Heta by (by destruct (f_l4 f)).
  assert (forall m, with_nd zero_nd (with_l4 m g) = with_l4 m g) as Hnd by (intros m; rewrite <- Hn; by destruct g).
  destruct (Hd IPPROTO_TCP) as [E1| ->]; [rewrite E1 in *|simpl in *; ports Hx Hl f Hfound; by rewrite Heta, Hnd].
  destruct (Hd IPPROTO_UDP) as [E2| ->]; [rewrite E2 in *|simpl in *; ports Hx Hl f Hfound; by rewrite Heta, Hnd].
  destruct (Hd IPPROTO_SCTP) as [E3| ->]; [rewrite E3 in *|simpl in *; ports Hx Hl f Hfound; by rewrite Heta, Hnd].
  cbn [andb orb] in *. destruct ip eqn:Eip; cbn [andb orb] in *.
  - assert (ip6 = false) as ->. { apply Z.eqb_eq in Eip. unfold ip6. by rewrite Eip. }
    cbn [andb orb] in *. rewrite andb_false_r. destruct (Hd IPPROTO_ICMP) as [E4| ->].
    + rewrite E4 in *. cbn [orb mask foldr andb]. by rewrite Z.lor_0_r, Hg.
    + simpl in *. destruct Hicmp as [? ?]; [by left|].
      rewrite (parse_icmp_ok x l Hx Hl _ false _ _ (tp_src (f_l4 f)) (tp_dst (f_l4 f))); [|done|apply Hfound; done|done..].
      by rewrite Z.lor_0_r, Heta, Hnd.
  - rewrite Hip in *. rewrite !andb_true_r, !andb_false_r. cbn [andb orb] in *. destruct (Hd IPPROTO_ICMPV6) as [E4| ->].
    + rewrite E4 in *. cbn [orb mask foldr andb]. by rewrite Z.lor_0_r, Hg.
    + simpl in *. destruct Hicmp as [? ?]; [by right|].
      rewrite (parse_icmp_ok x l Hx Hl _ true _ _ (tp_src (f_l4 f)) (tp_dst (f_l4 f))); [|done|rewrite Hfind by done; done|done..].
      rewrite Heta. destruct (is_nd_type (f_l4 f)) eqn:End; cbn [andb].
      * rewrite (parse_nd_ok x l Hx Hl _ _ (nd_target (f_nd f)) (arp_sha (f_nd f)) (arp_tha (f_nd f))); [|rewrite Hfind by done; done|done..].
        simpl. rewrite Z.lor_0_r, Z.lor_assoc. by destruct (f_nd f).
      * simpl. by rewrite Z.lor_0_r, Hnd.
Qed.

Lemma parse_l4_other e g : is_ip_any g = false -> parse_l4 x e g = Ok (e, g).
Proof using Type.
  unfold is_ip_any. intros [H1 H2]%orb_false_iff. unfold parse_l4. rewrite H1, H2. by rewrite !andb_false_r.
Qed.

(** The types of the attributes that [put_l2_5_onward] may write. *)
Definition l2_5_type (t : Z) : bool :=
  l4_type t || existsb (Z.eqb t) [OVS_KEY_ATTR_ETHERTYPE; OVS_KEY_ATTR_IPV4; OVS_KEY_ATTR_IPV6; OVS_KEY_ATTR_ARP; OVS_KEY_ATTR_MPLS].

Lemma small_type f ty :
  is_u16 ty -> (ntohs (dl_type (f_l2 f)) <? ETH_TYPE_MIN) = true -> ETH_TYPE_MIN <= ty -> (dl_type (f_l2 f) =? htons ty) = false.
Proof using Type.
  intros Hty Hs Hm. apply Z.eqb_neq. intros E. rewrite E in Hs. unfold ntohs, htons in Hs. rewrite bswap_bswap in Hs by done. lia.
Qed.

Lemma find_l3 t f :
  l4_type t = true -> find_attr t (l3_attrs f) = None /\ find_attr t (mpls_attrs f) = None.
Proof using Type.
  unfold l4_type. intros Ht. simpl in Ht. unfold l3_attrs, mpls_attrs.
  repeat (apply orb_true_iff in Ht as [->%Z.eqb_eq|Ht]; [split; repeat (case_match; simpl; try reflexivity)|]). done.
Qed.

Lemma find_l4 t f : l4_type t = false -> find_attr t (l4_attrs f) = None.
Proof using Type.
  unfold l4_type. intros Ht. simpl in Ht. repeat (apply orb_false_iff in Ht as [?%Z.eqb_neq Ht]).
  apply find_None. unfold l4_attrs. repeat (case_match; simpl; rewrite ?not_elem_of_cons; try (split_and!; [congruence..|]); try apply not_elem_of_nil).
Qed.

(** The result of reading the layers from the Ethernet type on into [g]. *)
Definition with_layers (f g : flow) : flow :=
  MkFlow (f_tunnel g) (f_meta g)
    (FlowL2 (dl_src (f_l2 g)) (dl_dst (f_l2 g)) (vlan_tci (f_l2 g)) (dl_type (norm_l2 f)) (mpls_lse (norm_l2 f)) (mpls_depth (norm_l2 f)))
    (norm_l3 f) (norm_l4 f) (norm_nd f).

(** Nothing of these layers has been read yet. *)
Definition blank (g : flow) : Prop :=
  mpls_lse (f_l2 g) = 0 /\ mpls_depth (f_l2 g) = 0 /\ f_l3 g = zero_l3 /\ f_l4 g = zero_l4 /\ f_nd g = zero_nd.

Lemma check_mpls f e :
  eth_type_mpls (dl_type (f_l2 f)) = false -> (ntohs (dl_type (f_l2 f)) <? ETH_TYPE_MIN) = false ->
  p_present x = Z.lor e (mask (mpls_attrs f)) -> Z.testbit e OVS_KEY_ATTR_MPLS = false ->
  check_expectations x e = mpls_fitness f.
Proof using Hx.
  intros Hm Hs Hp He. unfold mpls_fitness. rewrite Hm, Hs. unfold mpls_attrs in Hp. pose proof (h_range _ _ Hx) as Hr.
  destruct (mpls_depth (f_l2 f) =? 0); simpl in Hp; rewrite Z.lor_0_r in Hp.
  - by apply check_perfect.
  - by apply (check_too_much x e OVS_KEY_ATTR_MPLS).
Qed.

Lemma mask_l4_mpls f : Z.testbit (mask (l4_attrs f)) OVS_KEY_ATTR_MPLS = false.
Proof using Type.
  assert (Forall (fun a => 0 <= a.1) (l4_attrs f)) as Hp by (unfold l4_attrs; repeat case_match; repeat (apply list.Forall_cons_2; [done|]); apply list.Forall_nil_2).
  pose proof (present_mask (l4_attrs f) OVS_KEY_ATTR_MPLS ltac:(done) Hp) as E. unfold present in E.
  rewrite flag_bit, find_l4 in E by done. done.
Qed.

Section L25.
Context (E : Z) (f g : flow) (Hf : flow_ok f).
Context (Hfind : forall t, l2_5_type t = true -> find_attr t l = find_attr t (l2_5_attrs f)).
Context (Hpres : p_present x = Z.lor E (mask (l2_5_attrs f))) (HE : 0 <= E < 2 ^ 18) (Hg : blank g).

Let e1 := Z.lor E (bit OVS_KEY_ATTR_ETHERTYPE).
Let g1 := set_dl_type (dl_type (f_l2 f)) g.
Let big := (ntohs (dl_type (f_l2 f)) <? ETH_TYPE_MIN) = false.

Lemma e1_mpls : Z.testbit e1 OVS_KEY_ATTR_MPLS = false.
Proof using HE.
  unfold e1. rewrite Z.lor_spec, testbit_bit by done. rewrite <- (Z.mod_small E (2 ^ 18)) by done.
  by rewrite Z.mod_pow2_bits_high by (unfold OVS_KEY_ATTR_MPLS; lia).
Qed.

Lemma present_l2_5 : big -> p_present x = Z.lor (Z.lor e1 (Z.lor (mask (l3_attrs f)) (mask (l4_attrs f)))) (mask (mpls_attrs f)).
Proof using Hpres.
  intros Hb. rewrite Hpres. unfold l2_5_attrs. rewrite Hb. cbn [mask foldr fst]. fold (mask (l3_attrs f ++ mpls_attrs f ++ l4_attrs f)).
  rewrite !mask_app. unfold e1. apply Z.bits_inj'. intros n _. rewrite !Z.lor_spec. btauto.
Qed.

Lemma find_l2_5 t : big -> l2_5_type t = true -> t <> OVS_KEY_ATTR_ETHERTYPE ->
  find_attr t l = find_attr t (l3_attrs f ++ mpls_attrs f ++ l4_attrs f).
Proof using Hfind.
  intros Hb Ht Hne. rewrite Hfind by done. unfold l2_5_attrs. rewrite Hb. cbn [find_attr fst]. by rewrite (proj2 (Z.eqb_neq OVS_KEY_ATTR_ETHERTYPE t)) by done.
Qed.

Lemma find_l2_5_l4 t : big -> l4_type t = true -> find_attr t l = find_attr t (l4_attrs f).
Proof using Hfind.
  intros Hb Ht. rewrite find_l2_5; [|done|unfold l2_5_type; by rewrite Ht|by intros ->].
  rewrite !find_app. destruct (find_l3 t f Ht) as [-> ->]. done.
Qed.

Lemma big_not_mpls : dl_type (f_l2 f) = htons ETH_TYPE_IP \/ dl_type (f_l2 f) = htons ETH_TYPE_IPV6 \/ is_arp f = true ->
  big /\ eth_type_mpls (dl_type (f_l2 f)) = false.
Proof using Type.
  unfold big, is_arp. intros [->|[->|[->%Z.eqb_eq| ->%Z.eqb_eq]%orb_true_iff]]; done.
Qed.

Lemma check_l2_5 : big -> eth_type_mpls (dl_type (f_l2 f)) = false -> Z.testbit (mask (l3_attrs f)) OVS_KEY_ATTR_MPLS = false ->
  check_expectations x (Z.lor (Z.lor e1 (mask (l3_attrs f))) (mask (l4_attrs f))) = mpls_fitness f.
Proof using Hx Hpres HE.
  intros Hb Hm H3. apply check_mpls; [done|done| |].
  - rewrite present_l2_5 by done. by rewrite !Z.lor_assoc.
  - by rewrite !Z.lor_spec, e1_mpls, H3, mask_l4_mpls.
Qed.

Lemma l2_5_ip :
  is_ip_any f = true ->
  ('(expected, h) ← parse_l4 x (Z.lor e1 (mask (l3_attrs f))) (with_l3 (norm_l3 f) g1); Ok (check_expectations x expected, h)) =
  Ok (mpls_fitness f, with_layers f g).
Proof using Hx Hl Hf Hfind Hpres HE Hg.
  intros Hip. destruct Hg as (G1 & G2 & G3 & G4 & G5).
  assert (dl_type (f_l2 f) = htons ETH_TYPE_IP \/ dl_type (f_l2 f) = htons ETH_TYPE_IPV6) as Hdl.
  { unfold is_ip_any in Hip. by apply orb_true_iff in Hip as [?%Z.eqb_eq|?%Z.eqb_eq]; auto. }
  destruct big_not_mpls as [Hb Hm]; [tauto|]. rewrite (parse_l4_ip _ f); try done.
  - bind. rewrite check_l2_5; [|done|done|].
    + f_equal. f_equal. unfold with_layers, norm_l2. rewrite Hm, Hb. cbn [andb]. destruct g as [? ? [] ? ? ?]. cbn in *. by subst.
    + unfold l3_attrs. destruct Hdl as [->| ->]; reflexivity.
  - intros t Ht. by apply find_l2_5_l4.
  - unfold norm_l3. by destruct Hdl as [->| ->].
  - unfold norm_l3. by destruct Hdl as [->| ->].
Qed.

Lemma l3_found t p : t ∈ [OVS_KEY_ATTR_IPV4; OVS_KEY_ATTR_IPV6; OVS_KEY_ATTR_ARP] -> big -> l3_attrs f = [(t, p)] -> find_attr t l = Some p.
Proof using Hfind.
  intros Ht Hb Hp. rewrite find_l2_5, Hp; [|done|..]; simpl; [by rewrite Z.eqb_refl|..].
  all: rewrite !elem_of_cons, elem_of_nil in Ht; by destruct Ht as [->|[->|[->|[]]]].
Qed.

Lemma parse_l2_5_mpls : big -> eth_type_mpls (dl_type (f_l2 f)) = true ->
  parse_l2_5_onward x e1 g1 = Ok (mpls_fitness f, with_layers f g).
Proof using Hx Hl Hf Hfind Hpres HE Hg.
  intros Hb Em. pose proof Hf as []. pose proof Hg as (G1 & G2 & G3 & G4 & G5).
  unfold parse_l2_5_onward. change (dl_type (f_l2 g1)) with (dl_type (f_l2 f)). rewrite Em.
  assert (l3_attrs f = [] /\ l4_attrs f = [] /\ norm_l3 f = zero_l3 /\ norm_l4 f = zero_l4 /\ norm_nd f = zero_nd) as (H3 & H4 & N3 & N4 & N5).
  { unfold eth_type_mpls in Em. unfold l3_attrs, l4_attrs, norm_l3, norm_l4, norm_nd, has_ports, is_arp, is_ip_any.
    apply orb_true_iff in Em as [->%Z.eqb_eq| ->%Z.eqb_eq]; done. }
  pose proof (present_l2_5 Hb) as Hp. rewrite H3, H4 in Hp. cbn [mask foldr] in Hp. rewrite Z.lor_0_r in Hp.
  assert (find_attr OVS_KEY_ATTR_MPLS l = find_attr OVS_KEY_ATTR_MPLS (mpls_attrs f)) as Hmp.
  { rewrite find_l2_5, H3, H4, app_nil_r by done. done. }
  unfold mpls_fitness, with_layers, norm_l2. rewrite Hb, Em, N3, N4, N5. unfold mpls_attrs in Hp, Hmp.
  rewrite (present_find x l Hx Hl), Hmp by done. destruct (mpls_depth (f_l2 f) =? 0); cbn [negb andb find_attr fst snd mask foldr] in *.
  - do 2 f_equal. unfold g1. destruct g as [? ? [] ? ? ?]. cbn in *. by subst.
  - rewrite Z.eqb_refl in *. destruct (get_le_found x l Hx Hl _ 4 (mpls_lse (f_l2 f)) Hmp) as (nla & -> & Eg); [done|]. bind.
    unfold nl_attr_get_be32. change (Z.of_nat 4) with 4 in Eg. rewrite Eg. bind. rewrite Z.lor_0_r in Hp.
    rewrite check_perfect by (apply Hx || done). do 2 f_equal. unfold g1. destruct g as [? ? [] ? ? ?]. cbn in *. by subst.
Qed.

Lemma parse_l2_5_big : big -> parse_l2_5_onward x e1 g1 = Ok (mpls_fitness f, with_layers f g).
Proof using Hx Hl Hf Hfind Hpres HE Hg.
  intros Hb. pose proof (odp_frag_range (nw_frag (f_l3 f))) as Hfr. pose proof Hf as []. pose proof Hg as (G1 & G2 & G3 & G4 & G5).
  destruct (eth_type_mpls (dl_type (f_l2 f))) eqn:Em; [by apply parse_l2_5_mpls|].
  unfold parse_l2_5_onward. change (dl_type (f_l2 g1)) with (dl_type (f_l2 f)). change (is_arp g1) with (is_arp f). rewrite Em.
  pose proof l2_5_ip as Hip. pose proof (fun t p => l3_found t p) as H3. pose proof (check_l2_5 Hb Em) as Hc.
  unfold is_ip_any, l3_attrs, norm_l3 in *. destruct (dl_type (f_l2 f) =? htons ETH_TYPE_IP) eqn:E4.
  { rewrite (parse_ipv4_ok x l Hx Hl _ _ (nw_src (f_l3 f)) (nw_dst (f_l3 f)) (nw_proto (f_l3 f)) (nw_tos (f_l3 f)) (nw_ttl (f_l3 f))
      (ovs_to_odp_frag (nw_frag (f_l3 f)))); [|by apply H3; [left|..]|done..]. bind. cbn [mask foldr fst] in Hip. rewrite Z.lor_0_r in Hip.
    rewrite frag_of_norm by done. by apply Hip. }
  destruct (dl_type (f_l2 f) =? htons ETH_TYPE_IPV6) eqn:E6.
  { rewrite (parse_ipv6_ok x l Hx Hl _ _ (ipv6_src (f_l3 f)) (ipv6_dst (f_l3 f)) (ipv6_label (f_l3 f)) (nw_proto (f_l3 f)) (nw_tos (f_l3 f))
      (nw_ttl (f_l3 f)) (ovs_to_odp_frag (nw_frag (f_l3 f)))); [|by apply H3; [right; left|..]|done..]. bind. cbn [mask foldr fst] in Hip.
    rewrite Z.lor_0_r in Hip. rewrite frag_of_norm by done. by apply Hip. }
  assert (is_ip_any f = false) as Hni by (unfold is_ip_any; by rewrite E4, E6).
  assert (l4_attrs f = [] /\ norm_l4 f = zero_l4) as [H4 N4] by (unfold l4_attrs, norm_l4, has_ports; by rewrite Hni).
  rewrite H4 in Hc. cbn [mask foldr fst] in Hc. rewrite !Z.lor_0_r in Hc.
  unfold with_layers, norm_l2, norm_l3, norm_nd. rewrite E4, E6, Em, Hb, N4. cbn [andb].
  destruct (is_arp f) eqn:Ea.
  - rewrite (parse_arp_ok x l Hx Hl _ _ (nw_src (f_l3 f)) (nw_dst (f_l3 f)) (nw_proto (f_l3 f)) (arp_sha (f_nd f)) (arp_tha (f_nd f)));
      [|by apply H3; [do 2 right; left|..]|done..]. bind. rewrite parse_l4_other by done. bind. cbn [mask foldr fst] in Hc. rewrite Z.lor_0_r in Hc.
    rewrite Hc by done. do 2 f_equal. unfold g1. destruct g as [? ? [] ? ? ?]. cbn in *. by subst.
  - cbn [mask foldr] in Hc. rewrite Z.lor_0_r in Hc. rewrite Hc by done. do 2 f_equal. unfold g1. destruct g as [? ? [] ? ? ?]. cbn in *. by subst.
Qed.

(** From the Ethernet type on. *)
Lemma parse_l2_5_ok :
  exists e h, parse_ethertype x E g = Ok (true, e, h) /\ dl_type (f_l2 h) = dl_type (norm_l2 f) /\
    parse_l2_5_onward x e h = Ok (mpls_fitness f, with_layers f g).
Proof using Hx Hl Hf Hfind Hpres HE Hg.
  pose proof Hf as []. pose proof Hg as (G1 & G2 & G3 & G4 & G5). unfold norm_l2. cbn [dl_type].
  destruct (sumbool_of_bool (ntohs (dl_type (f_l2 f)) <? ETH_TYPE_MIN)) as [Eb|Eb]; rewrite Eb.
  - exists E, (set_dl_type (htons FLOW_DL_TYPE_NONE) g).
    pose proof (fun ty H => small_type f ty H Eb) as Hs. unfold l2_5_attrs in Hpres, Hfind. rewrite Eb in Hpres, Hfind. cbn [mask foldr] in Hpres. rewrite Z.lor_0_r in Hpres.
    split; [apply (parse_ethertype_none x l Hx Hl); by apply Hfind|]. split; [done|].
    unfold parse_l2_5_onward. change (dl_type (f_l2 (set_dl_type (htons FLOW_DL_TYPE_NONE) g))) with (htons FLOW_DL_TYPE_NONE).
    change (eth_type_mpls (htons FLOW_DL_TYPE_NONE)) with false. change (is_arp (set_dl_type (htons FLOW_DL_TYPE_NONE) g)) with false. cbv iota.
    change (htons FLOW_DL_TYPE_NONE =? htons ETH_TYPE_IP) with false. change (htons FLOW_DL_TYPE_NONE =? htons ETH_TYPE_IPV6) with false. cbv iota.
    rewrite check_perfect by (apply Hx || done). unfold mpls_fitness. rewrite Eb. do 2 f_equal.
    unfold with_layers, norm_l2, norm_l3, norm_l4, norm_nd, has_ports, is_arp, is_ip_any, eth_type_mpls.
    rewrite !Hs, Eb by done. cbn [andb orb]. destruct g as [? ? [] ? ? ?]. cbn in *. by subst.
  - exists e1, g1. split; [|split; [done|by apply parse_l2_5_big]].
    apply (parse_ethertype_ok x l Hx Hl); [|done|lia]. rewrite Hfind by done. unfold l2_5_attrs. by rewrite Eb.
Qed.
End L25.
End ReadingLayers.

(** *** Tunnels *)

(** What an attribute does to a tunnel. *)
Definition tun_apply (x : flow_tnl * bool * bool) (a : Z * list Z) : flow_tnl * bool * bool :=
  let '(FlowTnl i s d fl tos t, ttl, unknown) := x in
  let v := le_combine a.2 in
  if a.1 =? OVS_TUNNEL_KEY_ATTR_ID then (FlowTnl v s d (Z.lor fl FLOW_TNL_F_KEY) tos t, ttl, unknown)
  else if a.1 =? OVS_TUNNEL_KEY_ATTR_IPV4_SRC then (FlowTnl i v d fl tos t, ttl, unknown)
  else if a.1 =? OVS_TUNNEL_KEY_ATTR_IPV4_DST then (FlowTnl i s v fl tos t, ttl, unknown)
  else if a.1 =? OVS_TUNNEL_KEY_ATTR_TOS then (FlowTnl i s d fl v t, ttl, unknown)
  else if a.1 =? OVS_TUNNEL_KEY_ATTR_TTL then (FlowTnl i s d fl tos v, true, unknown)
  else if a.1 =? OVS_TUNNEL_KEY_ATTR_DONT_FRAGMENT then (FlowTnl i s d (Z.lor fl FLOW_TNL_F_DONT_FRAGMENT) tos t, ttl, unknown)
  else (FlowTnl i s d (Z.lor fl FLOW_TNL_F_CSUM) tos t, ttl, unknown).

Lemma tun_key_step_ok a rest x :
  0 <= a.1 <= OVS_TUNNEL_KEY_ATTR_CSUM -> zlen a.2 = tunnel_key_attr_len a.1 ->
  tun_key_step (attr a.1 a.2 ++ rest) x = Ok (tun_apply x a, true).
Proof.
  destruct a as [t p], x as [[[i s d fl tos ttl] h] u]. unfold OVS_TUNNEL_KEY_ATTR_CSUM. cbn [fst snd]. intros Ht Hz.
  assert (zlen p <= 8) as Hp.
  { rewrite Hz. unfold tunnel_key_attr_len. repeat case_match; lia. }
  unfold tun_key_step. rewrite nl_attr_type_attr by lia. bind. rewrite nl_attr_get_size_attr by lia. bind.
  rewrite Hz, Z.eqb_refl. cbn [negb andb].
  assert (forall n, n = zlen p -> le_combine <$> nl_attr_get_unspec (attr t p ++ rest) n = Ok (le_combine p)) as Hget.
  { intros n ->. rewrite nl_attr_get_unspec_attr by (pose proof (zlen_nonneg p); lia). unfold zlen. by rewrite Nat2Z.id, firstn_all. }
  unfold nl_attr_get_be64, nl_attr_get_be32, nl_attr_get_u8, tun_apply. cbn [fst snd].
  assert (t = 0 \/ t = 1 \/ t = 2 \/ t = 3 \/ t = 4 \/ t = 5 \/ t = 6) as Hcase by lia.
  destruct Hcase as [->|[->|[->|[->|[->|[->| ->]]]]]]; cbn [Z.eqb Pos.eqb OVS_TUNNEL_KEY_ATTR_ID OVS_TUNNEL_KEY_ATTR_IPV4_SRC
    OVS_TUNNEL_KEY_ATTR_IPV4_DST OVS_TUNNEL_KEY_ATTR_TOS OVS_TUNNEL_KEY_ATTR_TTL OVS_TUNNEL_KEY_ATTR_DONT_FRAGMENT];
    rewrite ?Hget by done; done.
Qed.

Lemma flag_land x n : 0 <= n -> (if flag x (2 ^ n) then 2 ^ n else 0) = Z.land x (2 ^ n).
Proof.
  intros Hn. unfold flag. rewrite land_pow2 by done. destruct (Z.testbit x n); [|done].
  by rewrite (proj2 (Z.eqb_neq _ _)) by (pose proof (Z.pow_pos_nonneg 2 n); lia).
Qed.

Lemma flags_low fl :
  Z.land fl 7 = Z.lor (Z.lor (if flag fl FLOW_TNL_F_KEY then FLOW_TNL_F_KEY else 0)
                             (if flag fl FLOW_TNL_F_DONT_FRAGMENT then FLOW_TNL_F_DONT_FRAGMENT else 0))
                      (if flag fl FLOW_TNL_F_CSUM then FLOW_TNL_F_CSUM else 0).
Proof.
  change FLOW_TNL_F_KEY with (2 ^ 2). change FLOW_TNL_F_DONT_FRAGMENT with (2 ^ 0). change FLOW_TNL_F_CSUM with (2 ^ 1).
  rewrite !flag_land by done. by rewrite <- !Z.land_lor_distr_r.
Qed.

Lemma tun_attrs_fold t :
  tnl_ok t -> tun_dst t <> 0 -> foldl tun_apply (zero_tnl, false, false) (tun_attrs t) = (norm_tnl t, true, false).
Proof.
  intros [] Hd. unfold tun_attrs, norm_tnl. rewrite (proj2 (Z.eqb_neq _ 0) Hd), flags_low.
  destruct t as [i s d fl tos ttl]. cbn [tun_id tun_src tun_dst tun_flags tun_tos tun_ttl] in *.
  assert (forall n v, is_u (8 * Z.of_nat n) v -> le_combine (le_split n v) = v) as Hle.
  { intros n v Hv. rewrite le_combine_split, Z.mod_small; [done|]. unfold is_u in Hv. by rewrite Z.pow_mul_r in Hv by lia. }
  rewrite !foldl_app.
  destruct (flag fl FLOW_TNL_F_KEY), (flag fl FLOW_TNL_F_DONT_FRAGMENT), (flag fl FLOW_TNL_F_CSUM),
    (Z.eqb_spec s 0) as [->|], (Z.eqb_spec tos 0) as [->|]; cbn [negb foldl]; unfold tun_apply, zero_tnl; cbn [fst snd];
    rewrite ?Hle by done; reflexivity.
Qed.

Lemma tun_attrs_ok t :
  Forall (fun a => 0 <= a.1 <= OVS_TUNNEL_KEY_ATTR_CSUM /\ zlen a.2 = tunnel_key_attr_len a.1) (tun_attrs t) /\ zlen (tun_attrs t) <= 7.
Proof. unfold tun_attrs. split; [|repeat case_match; unfold zlen; simpl; lia]. repeat (apply Forall_app; split); repeat case_match; repeat constructor; done. Qed.

Lemma tun_attrs_size t : Forall (fun a => zlen a.2 <= 8) (tun_attrs t).
Proof.
  eapply list.Forall_impl; [apply tun_attrs_ok|]. intros a [_ ->]. unfold tunnel_key_attr_len. repeat case_match; lia.
Qed.

Lemma odp_tun_key_ok t rest :
  tnl_ok t -> tun_dst t <> 0 ->
  odp_tun_key_from_attr (attr OVS_KEY_ATTR_TUNNEL (attrs (tun_attrs t)) ++ rest) zero_tnl = Ok (ODP_FIT_PERFECT, norm_tnl t).
Proof.
  intros Ht Hd. pose proof (tun_attrs_ok t) as [Hok Hlen]. pose proof (tun_attrs_size t) as Hsz.
  pose proof (attrs_size _ _ Hsz). unfold odp_tun_key_from_attr.
  rewrite nl_attr_get_attr, nl_attr_get_size_attr by lia. bind. bind.
  destruct (for_each_attrs (fun done x => x = foldl tun_apply (zero_tnl, false, false) done) tun_key_step (tun_attrs t)) with
    (fuel := nl_fuel (attrs (tun_attrs t) ++ nl_pad (NLA_HDRLEN + zlen (attrs (tun_attrs t))) ++ rest))
    (rest := nl_pad (NLA_HDRLEN + zlen (attrs (tun_attrs t))) ++ rest) (x := (zero_tnl, false, false)) as (x & -> & ->).
  - eapply list.Forall_impl; [exact Hsz|]. intros; simpl in *; lia.
  - intros done a r x [k Hk] ->. eexists. split; [|by rewrite foldl_app]. rewrite Hk in Hok. apply Forall_app in Hok as [Hok _].
    apply Forall_app in Hok as [_ Hok]. apply Forall_singleton in Hok as [? ?]. by apply tun_key_step_ok.
  - unfold nl_fuel. rewrite length_app. pose proof (attrs_length (tun_attrs t)). lia.
  - done.
  - bind. by rewrite tun_attrs_fold.
Qed.

(** *** The whole key *)

(** The attributes from the Ethernet type on. *)
Definition l2_5_attr (a : Z * list Z) : Prop := key_attr_ok a /\ zlen a.2 <= 40 /\ l2_5_type a.1 = true.

Ltac key_attr := split_and!; [done|done|cbn [fst snd]; payload|right; cbn [fst snd]; payload; try reflexivity].
Ltac l2_5_attr := split; [key_attr|split; [cbn [fst snd]; payload|done]].
Ltac types_differ := simpl; apply (bool_decide_unpack _); vm_compute; exact I.

Lemma l3_attrs_ok f : flow_ok f -> Forall l2_5_attr (l3_attrs f).
Proof.
  intros []. unfold l3_attrs. repeat (case_match; [apply Forall_singleton; l2_5_attr|]). constructor.
Qed.

Lemma mpls_attrs_ok f : Forall l2_5_attr (mpls_attrs f).
Proof. unfold mpls_attrs. case_match; [apply Forall_singleton; l2_5_attr|constructor]. Qed.

Lemma l4_attrs_ok f : flow_ok f -> Forall l2_5_attr (l4_attrs f).
Proof.
  intros []. unfold l4_attrs. destruct (is_ip_any f && _); [|constructor].
  repeat (case_match; [apply Forall_singleton; l2_5_attr|]). case_match; [|constructor].
  apply list.Forall_cons_2; [l2_5_attr|]. case_match; [apply Forall_singleton; l2_5_attr|constructor].
Qed.

Lemma l2_5_attrs_ok f : flow_ok f -> Forall l2_5_attr (l2_5_attrs f).
Proof.
  intros Hf. unfold l2_5_attrs. case_match; [constructor|]. apply list.Forall_cons_2; [l2_5_attr|].
  rewrite !Forall_app. split_and!; [by apply l3_attrs_ok|apply mpls_attrs_ok|by apply l4_attrs_ok].
Qed.

Lemma l2_5_attrs_nodup f : NoDup (l2_5_attrs f).*1 /\ zlen (l2_5_attrs f) <= 5.
Proof.
  unfold l2_5_attrs, l3_attrs, mpls_attrs, l4_attrs. destruct (_ <? _); [split; [constructor|unfold zlen; simpl; lia]|].
  destruct (dl_type (f_l2 f) =? htons ETH_TYPE_IP), (dl_type (f_l2 f) =? htons ETH_TYPE_IPV6), (is_arp f), (negb (mpls_depth (f_l2 f) =? 0)),
    (is_ip_any f && _); repeat case_match; (split; [types_differ|unfold zlen; simpl; lia]).
Qed.

(** The attributes a tag is followed by. *)
Definition encap_attrs (f : flow) : list (Z * list Z) := if vlan_tci (f_l2 f) =? htons 0 then [] else l2_5_attrs f.

Lemma attrs_small (l : list (Z * list Z)) B n :
  Forall (fun a => zlen a.2 <= B) l -> zlen l <= n -> (B + 8) * n <= 60000 -> 0 <= B -> zlen (attrs l) <= 60000.
Proof. intros H%attrs_size. nia. Qed.

Lemma encap_attrs_ok f :
  flow_ok f -> Forall key_attr_ok (encap_attrs f) /\ NoDup (encap_attrs f).*1 /\ zlen (attrs (encap_attrs f)) <= 60000.
Proof.
  intros Hf. unfold encap_attrs. case_match; [split_and!; [constructor|constructor|done]|].
  pose proof (l2_5_attrs_ok f Hf) as H1. destruct (l2_5_attrs_nodup f) as [H2 H3]. split_and!; [|done|].
  - eapply list.Forall_impl; [exact H1|]. by intros ? [].
  - eapply (attrs_small _ 40 5); [|done..]. eapply list.Forall_impl; [exact H1|]. by intros ? (_ & ? & _).
Qed.

Lemma meta_attrs_ok f port : flow_ok f -> Forall key_attr_ok (meta_attrs f port).
Proof.
  intros []. unfold meta_attrs. rewrite !Forall_app, !Forall_singleton. split_and!; [key_attr| |key_attr| |key_attr].
  - case_match; [|constructor]. apply Forall_singleton. split_and!; [done..| |left; reflexivity]. cbn [fst snd].
    destruct (tun_attrs_ok (f_tunnel f)) as [_ ?]. by eapply (attrs_small _ 8 7); [apply tun_attrs_size|..].
  - case_match; [|constructor]. apply Forall_singleton. key_attr.
Qed.

Lemma vlan_attrs_ok f : flow_ok f -> Forall key_attr_ok (vlan_attrs f).
Proof.
  intros Hf. unfold vlan_attrs. destruct (is_tagged f).
  - apply list.Forall_cons_2; [key_attr|]. apply list.Forall_cons_2; [key_attr|]. apply Forall_singleton.
    split_and!; [done..|apply (encap_attrs_ok f Hf)|left; reflexivity].
  - eapply list.Forall_impl; [by apply l2_5_attrs_ok|]. by intros ? [].
Qed.

Lemma key_attrs_ok f port : flow_ok f -> Forall key_attr_ok (key_attrs f port).
Proof. intros. apply Forall_app. split; [by apply meta_attrs_ok|by apply vlan_attrs_ok]. Qed.

Definition meta_type (t : Z) : bool :=
  existsb (Z.eqb t) [OVS_KEY_ATTR_PRIORITY; OVS_KEY_ATTR_TUNNEL; OVS_KEY_ATTR_SKB_MARK; OVS_KEY_ATTR_IN_PORT; OVS_KEY_ATTR_ETHERNET].

Lemma meta_attrs_types f port : Forall (fun a => meta_type a.1 = true) (meta_attrs f port) /\ NoDup (meta_attrs f port).*1.
Proof. unfold meta_attrs. do 2 case_match; (split; [repeat constructor|types_differ]). Qed.

Lemma l2_5_not_meta t : l2_5_type t = true -> meta_type t = false /\ t <> OVS_KEY_ATTR_VLAN /\ t <> OVS_KEY_ATTR_ENCAP.
Proof.
  unfold l2_5_type, l4_type. rewrite orb_true_iff, !existsb_exists. intros H.
  repeat match goal with
  | H : _ \/ _ |- _ => destruct H
  | H : exists _, _ |- _ => destruct H as (? & ? & ?%Z.eqb_eq)
  | H : In _ _ |- _ => simpl in H
  end; subst; done.
Qed.

Lemma vlan_attrs_types f : flow_ok f -> Forall (fun a => meta_type a.1 = false) (vlan_attrs f) /\ NoDup (vlan_attrs f).*1.
Proof.
  intros Hf. unfold vlan_attrs. destruct (is_tagged f); [split; [repeat constructor|types_differ]|].
  split; [|apply l2_5_attrs_nodup]. eapply list.Forall_impl; [by apply l2_5_attrs_ok|].
  intros a (_ & _ & Ha). by apply l2_5_not_meta.
Qed.

Lemma find_not t l (p : Z -> bool) b : p t = negb b -> Forall (fun a => p a.1 = b) l -> find_attr t l = None.
Proof.
  intros Ht Hl. apply find_None. intros (a & -> & Ha)%list_elem_of_fmap. rewrite list.Forall_forall in Hl.
  rewrite (Hl a Ha) in Ht. by destruct b.
Qed.

Lemma key_attrs_nodup f port : flow_ok f -> NoDup (key_attrs f port).*1.
Proof.
  intros Hf. unfold key_attrs. rewrite fmap_app. destruct (meta_attrs_types f port) as [H1 ?], (vlan_attrs_types f Hf) as [H2 ?].
  apply list.NoDup_app. split_and!; [done| |done].
  intros t (a & -> & Ha)%list_elem_of_fmap (b & E & Hb)%list_elem_of_fmap. rewrite list.Forall_forall in H1, H2.
  pose proof (H1 a Ha). pose proof (H2 b Hb). congruence.
Qed.

Lemma find_meta f port t : flow_ok f -> meta_type t = true -> find_attr t (key_attrs f port) = find_attr t (meta_attrs f port).
Proof.
  intros Hf Ht. unfold key_attrs. rewrite find_app. rewrite (find_not t (vlan_attrs f) meta_type false Ht) by by apply vlan_attrs_types.
  by destruct (find_attr _ _).
Qed.

Lemma find_vlan f port t : meta_type t = false -> find_attr t (key_attrs f port) = find_attr t (vlan_attrs f).
Proof.
  intros Ht. unfold key_attrs. rewrite find_app. by rewrite (find_not t (meta_attrs f port) meta_type true Ht) by apply meta_attrs_types.
Qed.

Section ReadingKey.
Context (x : parsed) (f : flow) (port : Z) (Hf : flow_ok f) (Hport : is_u32 port).
Context (Hx : holds x (key_attrs f port)).

Lemma parse_tunnel_ok e g :
  f_tunnel g = zero_tnl ->
  parse_tunnel x e g = Ok (true, if negb (tun_dst (f_tunnel f) =? 0) then Z.lor e (bit OVS_KEY_ATTR_TUNNEL) else e,
    with_tunnel (norm_tnl (f_tunnel f)) g).
Proof using Hf Hx.
  intros Hg. unfold parse_tunnel. rewrite (present_find _ _ Hx) by (done || by apply key_attrs_ok). rewrite find_meta by done.
  unfold meta_attrs. rewrite !find_app, !find_if. simpl. destruct (Z.eqb_spec (tun_dst (f_tunnel f)) 0) as [E|E]; simpl.
  - destruct (negb (port =? ODPP_NONE)); unfold norm_tnl; rewrite E, <- Hg; by destruct g.
  - destruct (attr_found x _ Hx OVS_KEY_ATTR_TUNNEL (attrs (tun_attrs (f_tunnel f)))) as [rest ->].
    + rewrite find_meta by done. unfold meta_attrs. rewrite !find_app, !find_if. simpl. by rewrite (proj2 (Z.eqb_neq _ _) E).
    + bind. rewrite Hg, odp_tun_key_ok by (apply Hf || done). by bind.
Qed.

(** Everything before the Ethernet type. *)
Lemma parse_meta_ok (k : Z -> flow -> res (odp_key_fitness * flow)) :
  ('(expected, g) ← parse_u32 OVS_KEY_ATTR_PRIORITY set_skb_priority x 0 zero_flow;
   '(expected, g) ← parse_u32 OVS_KEY_ATTR_SKB_MARK set_pkt_mark x expected g;
   '(ok, expected, g) ← parse_tunnel x expected g;
   if negb ok then Ok (ODP_FIT_ERROR, g) else
   '(expected, g) ←
     (if present (p_present x) OVS_KEY_ATTR_IN_PORT then parse_u32 OVS_KEY_ATTR_IN_PORT set_odp_port x expected g
      else Ok (expected, set_odp_port ODPP_NONE g));
   '(expected, g) ← parse_ethernet x expected g;
   k expected g) =
  k (mask (meta_attrs f port))
    (MkFlow (norm_tnl (f_tunnel f)) (FlowMeta 0 (replicate 8 0) (skb_priority (f_meta f)) port (pkt_mark (f_meta f)))
       (FlowL2 (dl_src (f_l2 f)) (dl_dst (f_l2 f)) 0 0 0 0) zero_l3 zero_l4 zero_nd).
Proof using Hf Hx Hport.
  pose proof (key_attrs_ok f port Hf) as Hl. pose proof Hf as [].
  assert (forall t, meta_type t = true -> find_attr t (key_attrs f port) = find_attr t (meta_attrs f port)) as Hfind.
  { intros. by apply find_meta. }
  unfold meta_attrs in Hfind.
  assert (find_attr OVS_KEY_ATTR_ETHERNET (key_attrs f port) = Some (ovs_key_ethernet (dl_src (f_l2 f)) (dl_dst (f_l2 f)))) as He.
  { rewrite Hfind, !find_app, !find_if by done. simpl. by do 2 destruct (negb _). }
  assert (find_attr OVS_KEY_ATTR_IN_PORT (key_attrs f port) = if port =? ODPP_NONE then None else Some (le_split 4 port)) as Hin.
  { rewrite Hfind, !find_app, !find_if by done. simpl. by destruct (_ =? 0), (_ =? ODPP_NONE). }
  rewrite (parse_u32_ok x _ Hx Hl _ _ _ _ (skb_priority (f_meta f))) by (done || by rewrite Hfind). bind.
  rewrite (parse_u32_ok x _ Hx Hl _ _ _ _ (pkt_mark (f_meta f))); [|done| |done].
  2:{ rewrite Hfind, !find_app, !find_if by done. simpl. by destruct (negb _). }
  bind. rewrite parse_tunnel_ok by done. bind. rewrite (present_find x _ Hx Hl) by done. unfold meta_attrs.
  destruct (Z.eqb_spec port ODPP_NONE) as [Hp|Hp]; rewrite Hin.
  - bind. rewrite (parse_ethernet_ok x _ Hx Hl _ _ (dl_src (f_l2 f)) (dl_dst (f_l2 f))) by done. bind. rewrite Hp. by destruct (_ =? 0).
  - rewrite (parse_u32_ok x _ Hx Hl _ _ _ _ port) by done. bind.
    rewrite (parse_ethernet_ok x _ Hx Hl _ _ (dl_src (f_l2 f)) (dl_dst (f_l2 f))) by done. bind. by destruct (_ =? 0).
Qed.

Lemma mask_meta : 0 <= mask (meta_attrs f port) < 2 ^ 18.
Proof. unfold meta_attrs. repeat case_match; done. Qed.

Let g0 :=
  MkFlow (norm_tnl (f_tunnel f)) (FlowMeta 0 (replicate 8 0) (skb_priority (f_meta f)) port (pkt_mark (f_meta f)))
    (FlowL2 (dl_src (f_l2 f)) (dl_dst (f_l2 f)) 0 0 0 0) zero_l3 zero_l4 zero_nd.

Definition parse_rest (e : Z) (g : flow) : res (odp_key_fitness * flow) :=
  '(ok, e, g) ← parse_ethertype x e g;
  if negb ok then Ok (ODP_FIT_ERROR, g)
  else if dl_type (f_l2 g) =? htons ETH_TYPE_VLAN then parse_8021q_onward x e g
  else parse_l2_5_onward x e g.

Lemma parse_untagged :
  is_tagged f = false -> parse_rest (mask (meta_attrs f port)) g0 = Ok (key_fitness f, norm_flow f port).
Proof using Hf Hx.
  intros Ht. unfold key_fitness. rewrite Ht. cbn [andb].
  assert (vlan_attrs f = l2_5_attrs f) as Hv by (unfold vlan_attrs; by rewrite Ht).
  apply orb_false_iff in Ht as [Ht1%negb_false_iff%Z.eqb_eq Ht2]. change (htons 0) with 0 in Ht1.
  destruct (parse_l2_5_ok x _ Hx (key_attrs_ok f port Hf) (mask (meta_attrs f port)) f g0 Hf) as (e & h & E1 & E2 & E3).
  - intros t Ht. rewrite find_vlan by by apply l2_5_not_meta. by rewrite Hv.
  - rewrite (h_present _ _ Hx). unfold key_attrs. by rewrite mask_app, Hv.
  - apply mask_meta.
  - done.
  - unfold parse_rest. rewrite E1. bind. simpl. rewrite E2. unfold norm_l2 at 1. cbn [dl_type].
    replace (_ =? htons ETH_TYPE_VLAN) with false by (destruct (_ <? _); [done|by rewrite Ht2]). rewrite E3.
    unfold with_layers, norm_flow. simpl. unfold norm_l2. by rewrite Ht1.
Qed.

(** The layers of a flow of a tag's type are not described. *)
Lemma vlan_type_layers :
  dl_type (f_l2 f) = htons ETH_TYPE_VLAN -> norm_l3 f = zero_l3 /\ norm_l4 f = zero_l4 /\ norm_nd f = zero_nd.
Proof using. intros E. unfold norm_l3, norm_l4, norm_nd, has_ports, is_ip_any, is_arp. by rewrite E. Qed.

Lemma parse_tagged :
  is_tagged f = true -> parse_rest (mask (meta_attrs f port)) g0 = Ok (key_fitness f, norm_flow f port).
Proof using Hf Hx.
  intros Ht. pose proof (key_attrs_ok f port Hf) as Hl.
  assert (vlan_attrs f = [(OVS_KEY_ATTR_ETHERTYPE, le_split 2 (htons ETH_TYPE_VLAN)); (OVS_KEY_ATTR_VLAN, le_split 2 (vlan_tci (f_l2 f)));
     (OVS_KEY_ATTR_ENCAP, attrs (encap_attrs f))]) as Hv by (unfold vlan_attrs; by rewrite Ht).
  set (M := mask (meta_attrs f port)).
  assert (check_expectations x (Z.lor (Z.lor M (bit OVS_KEY_ATTR_ETHERTYPE)) (Z.lor (bit OVS_KEY_ATTR_VLAN) (bit OVS_KEY_ATTR_ENCAP))) =
          ODP_FIT_PERFECT) as Hc.
  { apply check_perfect; [apply Hx|]. rewrite (h_present _ _ Hx). unfold key_attrs. rewrite mask_app, Hv. fold M. by rewrite <- Z.lor_assoc. }
  unfold parse_rest. rewrite (parse_ethertype_ok x _ Hx Hl _ _ (htons ETH_TYPE_VLAN)) by (done || by rewrite find_vlan, Hv). bind.
  cbn [negb]. change (dl_type (f_l2 (set_dl_type (htons ETH_TYPE_VLAN) g0)) =? htons ETH_TYPE_VLAN) with true. cbn match.
  unfold parse_8021q_onward. rewrite Hc, !(present_find x _ Hx Hl), !find_vlan, Hv by done. cbn [find_attr fst snd].
  destruct (get_le_found x _ Hx Hl OVS_KEY_ATTR_VLAN 2 (vlan_tci (f_l2 f))) as (nla & -> & E); [by rewrite find_vlan, Hv|apply Hf|].
  destruct (get_found x _ Hx Hl OVS_KEY_ATTR_ENCAP (attrs (encap_attrs f))) as (enc & rest & E1 & E2 & E3); [by rewrite find_vlan, Hv|].
  bind. unfold nl_attr_get_be16. change 2 with (Z.of_nat 2). rewrite E. bind.
  change (OVS_KEY_ATTR_ETHERTYPE =? OVS_KEY_ATTR_ENCAP) with false. change (OVS_KEY_ATTR_VLAN =? OVS_KEY_ATTR_ENCAP) with false.
  change (OVS_KEY_ATTR_ENCAP =? OVS_KEY_ATTR_ENCAP) with true. change (OVS_KEY_ATTR_ETHERTYPE =? OVS_KEY_ATTR_VLAN) with false.
  change (OVS_KEY_ATTR_VLAN =? OVS_KEY_ATTR_VLAN) with true. cbn match. rewrite E1.
  unfold key_fitness. rewrite Ht. cbn [andb negb]. destruct (encap_attrs_ok f Hf) as (H1 & H2 & _).
  unfold encap_attrs in *. destruct (Z.eqb_spec (vlan_tci (f_l2 f)) (htons 0)) as [E0|E0].
  - rewrite bool_decide_true by done. bind. rewrite E3. bind. unfold is_tagged in Ht. rewrite E0 in Ht. simpl in Ht.
    apply Z.eqb_eq in Ht. destruct (vlan_type_layers Ht) as (L3 & L4 & L5). change (zlen (attrs []) =? 0) with true. cbn [negb].
    unfold norm_flow. rewrite L3, L4, L5. unfold norm_l2. rewrite E0, Ht. done.
  - destruct (fo_cfi f Hf) as [?| ->]; [by change (htons 0) with 0 in E0|]. cbn [negb]. bind. rewrite E2. bind. rewrite E3. bind.
    destruct (parse_flow_nlattrs_ok _ (p_attrs x) rest H2 H1) as (y & -> & Hy). bind.
    destruct (parse_l2_5_ok y _ Hy H1 0 f (set_vlan_tci (vlan_tci (f_l2 f)) (set_dl_type (htons 0) (set_dl_type (htons ETH_TYPE_VLAN) g0))) Hf)
      as (e & h & F1 & _ & F3); [done|by rewrite (h_present _ _ Hy)|done|done|].
    rewrite F1. bind. rewrite F3. bind. f_equal. f_equal. by destruct (mpls_fitness f).
Qed.
End ReadingKey.

(** What is written is read back, whatever follows it. *)
Lemma odp_flow_key_to_flow_ok f port rest :
  flow_ok f -> is_u32 port ->
  odp_flow_key_to_flow (attrs (key_attrs f port) ++ rest) (zlen (attrs (key_attrs f port))) = Ok (key_fitness f, norm_flow f port).
Proof.
  intros Hf Hport. unfold odp_flow_key_to_flow.
  destruct (parse_flow_nlattrs_ok _ ∅ rest (key_attrs_nodup f port Hf) (key_attrs_ok f port Hf)) as (x & -> & Hx). bind.
  etrans; [exact (parse_meta_ok x f port Hf Hport Hx (parse_rest x))|].
  destruct (is_tagged f) eqn:E; [by apply parse_tagged|by apply parse_untagged].
Qed.

(** ** Properties *)

(** C7: A flow that is written as attributes is read back as the flow with the
    members cleared that its protocols do not use, with the fitness that says
    so when labels and type do not agree. *)
Theorem odp_key_roundtrip junk msg f port :
  (forall i, is_u8 (junk i)) -> roomy 20 msg -> contents msg = [] -> flow_ok f -> is_u32 port ->
  exists msg', odp_flow_key_from_flow junk msg f port = Ok msg' /\
    odp_flow_key_to_flow (contents msg') (size msg') = Ok (key_fitness f, norm_flow f port).
Proof.
  intros Hj Hr Hc Hf Hp. destruct (odp_flow_key_from_flow_ok junk Hj 20 f port msg Hf ltac:(lia) Hr) as (msg' & E & [Hwf _] & Hc').
  exists msg'. split; [done|]. rewrite <- (zlen_contents msg' Hwf), Hc', Hc. simpl.
  rewrite <- (app_nil_r (attrs (key_attrs f port))) at 1. by apply odp_flow_key_to_flow_ok.
Qed.

Section OdpWitness.

(** A tagged TCP packet that came through a tunnel, in a buffer of 2048 bytes. *)
Definition wit_flow : flow :=
  MkFlow (FlowTnl 77 (0x0100000a) (0x0200000a) 6 0 64) (FlowMeta 5 (replicate 8 1) 3 0 9)
    (FlowL2 [2; 0; 0; 0; 0; 1] [2; 0; 0; 0; 0; 2] (htons 0x1064) (htons ETH_TYPE_IP) 0 0)
    (FlowL3 0x0a000001 0x0a000002 IPPROTO_TCP 0 64 1 zero_in6 zero_in6 0)
    (FlowL4 (htons 1234) (htons 80)) zero_nd.

Definition wit_msg : ofpbuf := ofpbuf_use (replicate 2048 0) 2048.

Ltac in_range := first [done | split_and!; [done..|apply bytes_bool; reflexivity] | split; [done|apply bytes_bool; reflexivity]].

Lemma wit_flow_ok : flow_ok wit_flow.
Proof. split; try in_range; [right; reflexivity|intros [?|?]; done]. Qed.

Lemma wit_msg_ok : roomy 20 wit_msg.
Proof. split; [split_and!; [by apply bytes_bool|done..]|done]. Qed.
End OdpWitness.

Lemma odp_key_roundtrip_witness :
  exists msg', odp_flow_key_from_flow (fun _ => 0) wit_msg wit_flow 17 = Ok msg' /\
    odp_flow_key_to_flow (contents msg') (size msg') = Ok (key_fitness wit_flow, norm_flow wit_flow 17).
Proof.
  apply (odp_key_roundtrip (fun _ => 0) wit_msg wit_flow 17); [intros; split; reflexivity|exact wit_msg_ok|reflexivity|exact wit_flow_ok|by split].
Defined.

(** Of the flow all is kept but the metadata and the registers, which the
    datapath does not know. *)
Example wit_flow_kept :
  norm_flow wit_flow 17 = with_meta (FlowMeta 0 (replicate 8 0) 3 17 9) wit_flow.
Proof. reflexivity. Qed.

(** A key with a VLAN tag that has no encapsulated attributes is read through a
    null pointer. *)
Example odp_key_missing_encap :
  odp_flow_key_to_flow
    (attrs [(OVS_KEY_ATTR_ETHERNET, replicate 12 0); (OVS_KEY_ATTR_ETHERTYPE, le_split 2 (htons ETH_TYPE_VLAN));
            (OVS_KEY_ATTR_VLAN, le_split 2 (htons 0x1001))]) 32 = Err NullDeref.
Proof. reflexivity. Qed.
