(* ===== verification/OdpSafe.v ===== *)
(** Reading a flow key from arbitrary bytes ([lib/odp-util.c]): the loops end,
    nothing outside the key is read, and what comes out is a well-formed flow,
    so that it can be written and read again ([OdpProps.odp_key_roundtrip]).
    The one fault is the null pointer of a VLAN tag without encapsulated
    attributes. *)
From stdpp Require Import gmap.
From S2P Require Import Prelude Ofpbuf Packets Netlink OdpUtil OdpProps.

(** A result that satisfies [P]. *)
Definition returns {A} (r : res A) (P : A -> Prop) : Prop := exists a, r = Ok a /\ P a.

Lemma returns_bind {A B} (m : res A) (f : A -> res B) (P : A -> Prop) (Q : B -> Prop) :
  returns m P -> (forall a, P a -> returns (f a) Q) -> returns (m ≫= f) Q.
Proof. intros (a & -> & Ha) Hf. bind. by apply Hf. Qed.

Lemma returns_ret {A} (a : A) (P : A -> Prop) : P a -> returns (Ok a) P.
Proof. intros. by exists a. Qed.

Lemma returns_weaken {A} (r : res A) (P Q : A -> Prop) : returns r P -> (forall a, P a -> Q a) -> returns r Q.
Proof. intros (a & -> & Ha) H. exists a. auto. Qed.

(** ** Attributes *)

(** A pointer to an attribute that is inside the message, with a payload of [n] bytes. *)
Definition nla_in (nla : list Z) (n : Z) : Prop :=
  bytes nla /\ nla_len nla = Ok (NLA_HDRLEN + n) /\ 0 <= n /\ NLA_HDRLEN + n <= zlen nla.

Lemma nla_in_get nla n : nla_in nla n -> returns (nl_attr_get nla) (fun p => bytes p /\ n <= zlen p).
Proof.
  intros (Hb & E & Hn & Hl). unfold nl_attr_get. rewrite E. bind. unfold c_assert.
  rewrite (proj2 (Z.leb_le _ _)) by (unfold NLA_HDRLEN; lia). bind. apply returns_ret. split; [by apply bytes_drop|].
  unfold zlen, NLA_HDRLEN in *. rewrite length_drop. lia.
Qed.

Lemma nla_in_size nla n : nla_in nla n -> nl_attr_get_size nla = Ok n.
Proof.
  intros (Hb & E & Hn & Hl). unfold nl_attr_get_size. rewrite E. bind. unfold c_assert.
  rewrite (proj2 (Z.leb_le _ _)) by (unfold NLA_HDRLEN; lia). bind. f_equal. lia.
Qed.

Lemma nla_in_type nla n : nla_in nla n -> returns (nl_attr_type nla) (fun t => 0 <= t).
Proof.
  intros (Hb & E & Hn & Hl). unfold nl_attr_type. destruct (load_le_ok 2 nla 2) as [v Ev]; [lia|unfold NLA_HDRLEN in *; lia|].
  pose proof (load_le_bound _ _ _ _ Hb Ev). unfold load16. rewrite Ev. bind. apply returns_ret. apply Z.land_nonneg. right. done.
Qed.

Lemma nla_in_unspec nla n k :
  nla_in nla n -> Z.of_nat k <= n ->
  returns (le_combine <$> nl_attr_get_unspec nla (Z.of_nat k)) (fun v => 0 <= v < 256 ^ Z.of_nat k).
Proof.
  intros (Hb & E & Hn & Hl) Hk. unfold nl_attr_get_unspec. rewrite E. bind. unfold c_assert.
  rewrite (proj2 (Z.leb_le _ _)) by lia. bind. destruct (load_bytes_ok nla NLA_HDRLEN (Z.of_nat k)) as [bs Ebs]; [done|lia|lia|].
  rewrite Ebs. exists (le_combine bs). split; [done|]. rewrite <- (load_bytes_len _ _ _ _ Ebs).
  apply le_combine_bound. by eapply load_bytes_bytes.
Qed.

(** The loop over the attributes ends for any bytes, and its body sees only
    attributes that are inside the message. *)
Lemma for_each_total {A} (Inv : A -> Prop) body :
  (forall nla n x, nla_in nla n -> Inv x -> returns (body nla x) (fun r => Inv r.1)) ->
  forall fuel nla left x, (length nla < fuel)%nat -> bytes nla -> left <= zlen nla -> Inv x ->
  returns (nl_attr_for_each fuel body nla left x) (fun r => Inv r.1.1).
Proof.
  intros Hbody. induction fuel as [|fuel IH]; [lia|]. intros nla left x Hf Hb Hl Hx. simpl. unfold nl_attr_is_valid.
  destruct (Z.ltb_spec left NLA_HDRLEN) as [|H4]; [bind; by apply returns_ret|]. unfold NLA_HDRLEN in H4.
  destruct (load_le_ok 2 nla 0) as [n En]; [lia..|]. pose proof (load_le_bound _ _ _ _ Hb En). change (load16 nla 0) with (load_le 2 nla 0) in *.
  unfold nla_len, load16. rewrite En. bind. destruct (Z.leb_spec NLA_HDRLEN n) as [Hn|]; [|bind; by apply returns_ret].
  destruct (Z.leb_spec (NLA_ALIGN n) left) as [Ha|]; [|bind; by apply returns_ret]. bind. pose proof (NLA_ALIGN_bound n).
  unfold NLA_HDRLEN in Hn. eapply returns_bind; [apply (Hbody nla (n - 4)); [|done]|].
  - split_and!; [done| |lia|unfold NLA_HDRLEN; lia]. unfold nla_len, load16. rewrite En. f_equal. unfold NLA_HDRLEN. lia.
  - intros [y go] Hy. simpl in Hy. destruct go; [|by apply returns_ret]. bind. unfold nl_attr_next, nla_len, load16. rewrite En. bind. bind.
    apply IH; [| by apply bytes_drop| |done]; unfold zlen in *; rewrite length_drop; lia.
Qed.

(** ** Parsed attributes *)

(** Every attribute recorded as present is inside the message, with the length
    its type demands. *)
Definition parsed_wf (x : parsed) : Prop :=
  0 <= p_present x /\
  forall t, 0 <= t -> present (p_present x) t = true ->
    exists nla n, p_attrs x !! t = Some nla /\ nla_in nla n /\ (odp_flow_key_attr_len t < 0 \/ n = odp_flow_key_attr_len t).

Lemma parse_flow_nlattrs_total key len old :
  bytes key -> len <= zlen key ->
  returns (parse_flow_nlattrs key len old) (fun o => match o with Some x => parsed_wf x | None => True end).
Proof.
  intros Hb Hl. unfold parse_flow_nlattrs.
  eapply returns_bind; [apply (for_each_total parsed_wf)|]; [| |done|done| |].
  - intros nla n x Hn [H0 Hx]. unfold parse_flow_step. eapply returns_bind; [by eapply nla_in_type|]. intros t Ht.
    rewrite (nla_in_size nla n Hn). bind. destruct (_ && _) eqn:E1; [by apply returns_ret|].
    destruct (_ <? _); [by apply returns_ret|]. destruct (present _ _) eqn:E2; [by apply returns_ret|].
    apply returns_ret. assert (0 <= bit t) by (apply Z.shiftl_nonneg; lia). split; [by apply Z.lor_nonneg|].
    intros t' Ht'. cbn [p_present p_attrs fst]. unfold present. rewrite flag_bit, Z.lor_spec, testbit_bit by done.
    destruct (Z.eqb_spec t t') as [<-|Hne].
    + intros _. exists nla, n. rewrite lookup_insert_eq. split_and!; [done..|].
      apply andb_false_iff in E1 as [E1%negb_false_iff%Z.eqb_eq|E1%Z.leb_gt]; auto.
    + rewrite orb_false_r, lookup_insert_ne by done. intros H'. apply Hx; [done|]. unfold present. by rewrite flag_bit.
  - unfold nl_fuel. lia.
  - split; [done|]. intros t Ht. unfold present. rewrite flag_bit by done. simpl. by rewrite Z.bits_0.
  - intros [[x r] b] Hx. simpl in Hx. apply returns_ret. by destruct b; [destruct (r =? 0)|].
Qed.

Section ParsedWf.
Context (x : parsed) (Hx : parsed_wf x).

Lemma attr_at_wf t :
  0 <= t -> present (p_present x) t = true ->
  exists nla n, attr_at x t = Ok nla /\ nla_in nla n /\ (odp_flow_key_attr_len t < 0 \/ n = odp_flow_key_attr_len t).
Proof using Hx.
  intros Ht Hp. destruct (proj2 Hx t Ht Hp) as (nla & n & E & ?). exists nla, n. unfold attr_at. by rewrite E.
Qed.

(** The payload of an attribute of fixed length. *)
Lemma attr_payload t n :
  0 <= t -> present (p_present x) t = true -> odp_flow_key_attr_len t = n -> 0 <= n ->
  exists nla p, attr_at x t = Ok nla /\ nl_attr_get nla = Ok p /\ bytes p /\ n <= zlen p.
Proof using Hx.
  intros Ht Hp En Hn. destruct (attr_at_wf t Ht Hp) as (nla & m & E & Hin & Hm). destruct Hm as [?|Hm]; [lia|].
  destruct (nla_in_get nla m Hin) as (p & Eg & Hb & Hl). exists nla, p. split_and!; [done..|lia].
Qed.

Lemma attr_number t n (k : nat) :
  0 <= t -> present (p_present x) t = true -> odp_flow_key_attr_len t = n -> n = Z.of_nat k ->
  exists nla v, attr_at x t = Ok nla /\ le_combine <$> nl_attr_get_unspec nla n = Ok v /\ 0 <= v < 256 ^ n.
Proof using Hx.
  intros Ht Hp En ->. destruct (attr_at_wf t Ht Hp) as (nla & m & E & Hin & Hm). destruct Hm as [?|Hm]; [lia|].
  destruct (nla_in_unspec nla m k Hin ltac:(lia)) as (v & Ev & Hv). by exists nla, v.
Qed.
End ParsedWf.

(** ** Flows being read *)

Definition l2_ok (l : flow_l2) : Prop :=
  addr_ok 6 (dl_src l) /\ addr_ok 6 (dl_dst l) /\ is_u16 (vlan_tci l) /\
  (vlan_tci l = 0 \/ flag (vlan_tci l) (htons VLAN_CFI) = true) /\ is_u16 (dl_type l) /\ is_u32 (mpls_lse l).

Definition l3_ok (l : flow_l3) : Prop :=
  is_u32 (nw_src l) /\ is_u32 (nw_dst l) /\ is_u8 (nw_proto l) /\ is_u8 (nw_tos l) /\ is_u8 (nw_ttl l) /\ 0 <= nw_frag l <= 3 /\
  addr_ok 16 (ipv6_src l) /\ addr_ok 16 (ipv6_dst l) /\ is_u32 (ipv6_label l).

Definition nd_ok (n : flow_nd) : Prop := addr_ok 6 (arp_sha n) /\ addr_ok 6 (arp_tha n) /\ addr_ok 16 (nd_target n).

(** The flow is well-formed, and its transport layer has not been read. *)
Record reading (f : flow) : Prop := {
  r_tnl : tnl_ok (f_tunnel f);
  r_priority : is_u32 (skb_priority (f_meta f));
  r_mark : is_u32 (pkt_mark (f_meta f));
  r_l2 : l2_ok (f_l2 f);
  r_l3 : l3_ok (f_l3 f);
  r_l4 : f_l4 f = zero_l4;
  r_nd : nd_ok (f_nd f)
}.

Lemma reading_l4 f l :
  reading f -> is_u16 (tp_src l) -> is_u16 (tp_dst l) ->
  (nw_proto (f_l3 f) = IPPROTO_ICMP \/ nw_proto (f_l3 f) = IPPROTO_ICMPV6 -> ntohs (tp_src l) < 256 /\ ntohs (tp_dst l) < 256) ->
  flow_ok (with_l4 l f).
Proof.
  intros [Ht ? ? (? & ? & ? & ? & ? & ?) (? & ? & ? & ? & ? & ? & ? & ? & ?) _ (? & ? & ?)] ? ? ?. by split.
Qed.

Lemma reading_ok f : reading f -> flow_ok f.
Proof.
  intros Hf. replace f with (with_l4 zero_l4 f) by (rewrite <- (r_l4 f Hf); by destruct f). by apply reading_l4.
Qed.

Lemma flow_ok_nd f n : flow_ok f -> nd_ok n -> flow_ok (with_nd n f).
Proof. intros [] (? & ? & ?). by split. Qed.

Lemma reading_zero : reading zero_flow.
Proof.
  assert (addr_ok 6 zero_addr) by (split; [done|by apply bytes_bool]). assert (addr_ok 16 zero_in6) by (split; [done|by apply bytes_bool]).
  split; try done. split_and!; try done. by left.
Qed.

(** Reads of the next field of a payload. *)
Ltac field :=
  match goal with
  | Hb : bytes ?m |- context [load_bytes ?m ?off ?n ≫= _] =>
      let v := fresh "v" in let E := fresh "E" in
      destruct (load_bytes_ok m off n) as [v E]; [lia|lia|lia|];
      pose proof (load_bytes_len _ _ _ _ E); pose proof (load_bytes_bytes _ _ _ _ Hb E); rewrite E; bind
  | Hb : bytes ?m |- context [?f ?m ?off ≫= _] =>
      let k := lazymatch f with load8 => constr:(1%nat) | load16 => constr:(2%nat) | load32 => constr:(4%nat) end in
      let v := fresh "v" in let E := fresh "E" in
      destruct (load_le_ok k m off) as [v E]; [lia|simpl; lia|];
      pose proof (load_le_bound _ _ _ _ Hb E); change (f m off) with (load_le k m off); rewrite E; bind
  end.

Lemma addr_of_len n v : zlen v = Z.of_nat n -> bytes v -> addr_ok n v.
Proof. unfold zlen. split; [lia|done]. Qed.

Lemma lor_u16 x y : is_u16 x -> is_u16 y -> is_u16 (Z.lor x y).
Proof.
  intros [? Hx] [? Hy]. split; [by apply Z.lor_nonneg|]. destruct (Z.eq_dec (Z.lor x y) 0) as [->|]; [done|].
  apply Z.log2_lt_pow2; [pose proof (proj2 (Z.lor_nonneg x y)); lia|]. rewrite Z.log2_lor by done.
  assert (forall z, 0 <= z < 2 ^ 16 -> Z.log2 z < 16) as Hlog.
  { intros z Hz. destruct (Z.eq_dec z 0) as [->|]; [done|]. apply Z.log2_lt_pow2; lia. }
  pose proof (Hlog x). pose proof (Hlog y). lia.
Qed.

Section ParseSafe.
Context (x : parsed) (Hx : parsed_wf x).

(** The payload of an attribute that is present. *)
Ltac payload_of t n :=
  let Hp := fresh "Hp" in let nla := fresh "nla" in let p := fresh "p" in let E1 := fresh "E" in let E2 := fresh "E" in
  destruct (present (p_present x) t) eqn:Hp; [|by apply returns_ret];
  destruct (attr_payload x Hx t n ltac:(done) Hp ltac:(done) ltac:(done)) as (nla & p & E1 & E2 & ?Hb & ?Hl);
  rewrite E1; bind; rewrite E2; bind.

Lemma parse_u32_safe t set e f :
  0 <= t -> odp_flow_key_attr_len t = 4 -> reading f -> (forall v, is_u32 v -> reading (set v f)) ->
  returns (parse_u32 t set x e f) (fun r => reading r.2).
Proof using Hx.
  intros Ht Hn Hf Hset. unfold parse_u32. destruct (present _ _) eqn:Hp; [|by apply returns_ret].
  destruct (attr_number x Hx t 4 4 Ht Hp Hn eq_refl) as (nla & v & -> & E & Hv). bind. unfold nl_attr_get_u32. rewrite E. bind.
  apply returns_ret. by apply Hset.
Qed.

Lemma parse_ethernet_safe e f : reading f -> returns (parse_ethernet x e f) (fun r => reading r.2).
Proof using Hx.
  intros Hf. unfold parse_ethernet. eapply (returns_bind _ _ reading); [|intros; by apply returns_ret].
  payload_of OVS_KEY_ATTR_ETHERNET 12. repeat field. apply returns_ret. destruct Hf as [? ? ? (_ & _ & ?)].
  split; try done. split_and!; try apply addr_of_len; tauto.
Qed.

Lemma parse_ethertype_safe e f : reading f -> returns (parse_ethertype x e f) (fun r => reading r.2).
Proof using Hx.
  intros Hf. unfold parse_ethertype. assert (forall ty, is_u16 ty -> reading (set_dl_type ty f)) as Hty.
  { intros ty ?. destruct Hf as [? ? ? (? & ? & ? & ? & ? & ?)]. by split. }
  destruct (present _ _) eqn:Hp; [|apply returns_ret; by apply Hty].
  destruct (attr_number x Hx OVS_KEY_ATTR_ETHERTYPE 2 2 ltac:(done) Hp eq_refl eq_refl) as (nla & v & -> & E & Hv).
  bind. unfold nl_attr_get_be16. rewrite E. bind. destruct (_ <? _); apply returns_ret; by apply Hty.
Qed.

Lemma frag_safe frag f : 0 <= frag -> reading f -> reading (odp_to_ovs_frag frag f).2.
Proof using.
  intros H0 Hf. unfold odp_to_ovs_frag. do 2 (case_match; [done|]). destruct Hf as [? ? ? ? (? & ? & ? & ? & ? & Hfr & ? & ? & ?)].
  assert (forall y, 0 <= y <= 3 -> reading (set_nw_frag y f)) as H' by (intros y Hy; by split). apply H'.
  destruct f as [? ? ? [? ? ? ? ? fr ? ? ?] ? ?]. simpl in *.
  assert (fr = 0 \/ fr = 1 \/ fr = 2 \/ fr = 3) as [->|[->|[->| ->]]] by lia; (destruct (frag =? OVS_FRAG_TYPE_LATER); split; apply Z.leb_le; reflexivity).
Qed.

(** What the parsers of the network layer return. *)
Definition l3_result (r : option odp_key_fitness * Z * flow) : Prop := reading r.2.

Lemma parse_ipv4_safe e f : reading f -> returns (parse_ipv4 x e f) l3_result.
Proof using Hx.
  intros Hf. unfold parse_ipv4. payload_of OVS_KEY_ATTR_IPV4 12. repeat field.
  match goal with |- context [odp_to_ovs_frag ?fr ?g] => pose proof (frag_safe fr g) as Hfr; destruct (odp_to_ovs_frag fr g) as [ok g'] end.
  apply returns_ret. apply Hfr; [lia|]. destruct Hf as [? ? ? ? (? & ? & ? & ? & ? & ? & ? & ? & ?)]. by split.
Qed.

Lemma parse_ipv6_safe e f : reading f -> returns (parse_ipv6 x e f) l3_result.
Proof using Hx.
  intros Hf. unfold parse_ipv6. payload_of OVS_KEY_ATTR_IPV6 40. repeat field.
  match goal with |- context [odp_to_ovs_frag ?fr ?g] => pose proof (frag_safe fr g) as Hfr; destruct (odp_to_ovs_frag fr g) as [ok g'] end.
  apply returns_ret. apply Hfr; [lia|]. destruct Hf as [? ? ? ? (? & ? & ? & ? & ? & ? & ? & ? & ?)]. split; try done.
  split_and!; first [done|by apply addr_of_len|simpl; lia].
Qed.

Lemma parse_arp_safe e f : reading f -> returns (parse_arp x e f) l3_result.
Proof using Hx.
  intros Hf. unfold parse_arp. payload_of OVS_KEY_ATTR_ARP 24. repeat field.
  destruct Hf as [? ? ? ? (? & ? & ? & ? & ? & ? & ? & ? & ?) ? (? & ? & ?)].
  destruct (flag _ _); [apply returns_ret; by split|]. repeat field. apply returns_ret.
  assert (forall w, is_u8 (u8 w)) by (intros; by apply wrap_range). split; try done.
  all: unfold l3_ok, nd_ok; simpl; split_and!; first [done|by apply addr_of_len|lia].
Qed.

Definition l4_result (r : Z * flow) : Prop := flow_ok r.2.

Lemma parse_ports_safe t e f :
  0 <= t -> odp_flow_key_attr_len t = 4 -> reading f -> nw_proto (f_l3 f) <> IPPROTO_ICMP -> nw_proto (f_l3 f) <> IPPROTO_ICMPV6 ->
  returns (parse_ports t x e f) l4_result.
Proof using Hx.
  intros Ht Hn Hf Hi1 Hi2. unfold parse_ports. destruct (present _ _) eqn:Hp; [|apply returns_ret; by apply reading_ok].
  destruct (attr_payload x Hx t 4 Ht Hp Hn ltac:(done)) as (nla & p & E1 & E2 & Hb & Hl).
  rewrite E1. bind. rewrite E2. bind. repeat field. apply returns_ret. apply reading_l4; [done..|tauto].
Qed.

Lemma parse_nd_safe e f : flow_ok f -> returns (parse_nd x e f) l4_result.
Proof using Hx.
  intros Hf. unfold parse_nd. payload_of OVS_KEY_ATTR_ND 28. repeat field. apply returns_ret.
  apply flow_ok_nd; [done|]. split_and!; by apply addr_of_len.
Qed.

Lemma parse_icmp_safe t nd e f :
  0 <= t -> odp_flow_key_attr_len t = 2 -> reading f -> returns (parse_icmp t nd x e f) l4_result.
Proof using Hx.
  intros Ht Hn Hf. unfold parse_icmp. destruct (present _ _) eqn:Hp; [|apply returns_ret; by apply reading_ok].
  destruct (attr_payload x Hx t 2 Ht Hp Hn ltac:(done)) as (nla & p & E1 & E2 & Hb & Hl).
  rewrite E1. bind. rewrite E2. bind. repeat field. destruct (htons_byte v H) as (? & Hv & _), (htons_byte v0 H0) as (? & Hv0 & _).
  assert (flow_ok (with_l4 (FlowL4 (htons v) (htons v0)) f)) as Hok.
  { apply reading_l4; [done..|]. simpl. rewrite Hv, Hv0. intros _. split; [apply H|apply H0]. }
  destruct (_ && _); [by apply parse_nd_safe|by apply returns_ret].
Qed.

Lemma parse_l4_safe e f : reading f -> returns (parse_l4 x e f) l4_result.
Proof using Hx.
  intros Hf. unfold parse_l4.
  do 3 (match goal with |- returns (if ?b then _ else _) _ => destruct b eqn:E end;
    [apply andb_prop in E as [[E%Z.eqb_eq _]%andb_prop _]; apply parse_ports_safe; by rewrite ?E|clear E]).
  do 2 (match goal with |- returns (if ?b then _ else _) _ => destruct b end; [by apply parse_icmp_safe|]).
  apply returns_ret. by apply reading_ok.
Qed.

Lemma parse_l2_5_safe e f : reading f -> returns (parse_l2_5_onward x e f) (fun r => flow_ok r.2).
Proof using Hx.
  intros Hf. unfold parse_l2_5_onward. destruct (eth_type_mpls _).
  - destruct (present _ _) eqn:Hp; [|apply returns_ret; by apply reading_ok].
    destruct (attr_number x Hx OVS_KEY_ATTR_MPLS 4 4 ltac:(done) Hp eq_refl eq_refl) as (nla & v & -> & E & Hv).
    bind. unfold nl_attr_get_be32. rewrite E. bind. apply returns_ret. apply reading_ok.
    destruct Hf as [? ? ? (? & ? & ? & ? & ? & ?)]. by split.
  - set (o := if dl_type (f_l2 f) =? htons ETH_TYPE_IP then _ else _).
    assert (match o with Some parse => returns (parse x e f) l3_result | None => True end) as Ho.
    { unfold o. repeat case_match; simplify_eq; auto using parse_ipv4_safe, parse_ipv6_safe, parse_arp_safe. }
    destruct o as [parse|]; [|apply returns_ret; by apply reading_ok].
    eapply returns_bind; [exact Ho|]. intros [[early e'] g] Hg. destruct early; [apply returns_ret; by apply reading_ok|].
    eapply returns_bind; [by apply parse_l4_safe|]. intros [e2 h] Hh. by apply returns_ret.
Qed.

(** The tunnel's attributes. *)
Lemma tun_key_step_safe nla n y :
  nla_in nla n -> tnl_ok y.1.1 -> returns (tun_key_step nla y) (fun r => tnl_ok r.1.1.1).
Proof using.
  intros Hn. destruct y as [[tun ttl] unk]. cbn [fst]. intros Ht. unfold tun_key_step.
  eapply returns_bind; [by eapply nla_in_type|]. intros t _. rewrite (nla_in_size nla n Hn). bind.
  destruct (_ && _) eqn:El; [by apply returns_ret|].
  assert (tunnel_key_attr_len t < 0 \/ n = tunnel_key_attr_len t) as Hlen.
  { apply andb_false_iff in El as [El%negb_false_iff%Z.eqb_eq|El%Z.leb_gt]; auto. }
  assert (forall k : nat, tunnel_key_attr_len t = Z.of_nat k ->
    returns (le_combine <$> nl_attr_get_unspec nla (Z.of_nat k)) (fun v => 0 <= v < 256 ^ Z.of_nat k)) as Hv.
  { intros k Hk. apply (nla_in_unspec nla n); [done|lia]. }
  pose proof (lor_u16 (tun_flags tun)) as Hor. destruct Ht.
  destruct (Z.eqb_spec t OVS_TUNNEL_KEY_ATTR_ID) as [->|_].
  { eapply returns_bind; [exact (Hv 8%nat eq_refl)|]. intros v ?. apply returns_ret. split; try done. by apply Hor. }
  do 2 (match goal with |- returns (if t =? ?c then _ else _) _ => destruct (Z.eqb_spec t c) as [->|_] end;
    [eapply returns_bind; [exact (Hv 4%nat eq_refl)|]; intros v ?; apply returns_ret; by split|]).
  do 2 (match goal with |- returns (if t =? ?c then _ else _) _ => destruct (Z.eqb_spec t c) as [->|_] end;
    [eapply returns_bind; [exact (Hv 1%nat eq_refl)|]; intros v ?; apply returns_ret; by split|]).
  do 2 (destruct (t =? _); [apply returns_ret; split; try done; by apply Hor|]). apply returns_ret. by split.
Qed.

Lemma odp_tun_key_safe nla n tun :
  nla_in nla n -> tnl_ok tun -> returns (odp_tun_key_from_attr nla tun) (fun r => tnl_ok r.2).
Proof using.
  intros Hn Ht. unfold odp_tun_key_from_attr. eapply returns_bind; [by apply (nla_in_get nla n)|]. intros p [Hb Hp].
  rewrite (nla_in_size nla n Hn). bind.
  eapply returns_bind; [apply (for_each_total (fun y : flow_tnl * bool * bool => tnl_ok y.1.1))|].
  - intros a m y Ha Hy. by eapply tun_key_step_safe.
  - unfold nl_fuel. lia.
  - done.
  - done.
  - done.
  - intros [[[[tun' ttl] unk] r] b] Hy. by apply returns_ret.
Qed.

Lemma parse_tunnel_safe e f : reading f -> returns (parse_tunnel x e f) (fun r => reading r.2).
Proof using Hx.
  intros Hf. unfold parse_tunnel. destruct (present _ _) eqn:Hp; [|by apply returns_ret].
  destruct (attr_at_wf x Hx OVS_KEY_ATTR_TUNNEL ltac:(done) Hp) as (nla & n & -> & Hn & _). bind.
  eapply returns_bind; [apply (odp_tun_key_safe nla n); [done|apply Hf]|]. intros [r tun] Ht. simpl in Ht.
  assert (reading (with_tunnel tun f)) by (destruct Hf; by split). apply returns_ret. by destruct r.
Qed.

End ParseSafe.

(** A tag is followed by attributes of its own; without them there is no pointer to follow. *)
Lemma parse_8021q_safe x e f :
  parsed_wf x -> reading f -> returns (parse_8021q_onward x e f) (fun r => flow_ok r.2) \/
    (parse_8021q_onward x e f = Err NullDeref /\ present (p_present x) OVS_KEY_ATTR_ENCAP = false).
Proof.
  intros Hx Hf. unfold parse_8021q_onward. pose proof (reading_ok f Hf) as Hok.
  destruct (present _ OVS_KEY_ATTR_VLAN) eqn:Hp; cbn [negb]; [|left; by apply returns_ret].
  destruct (attr_number x Hx OVS_KEY_ATTR_VLAN 2 2 ltac:(done) Hp eq_refl eq_refl) as (nla & v & -> & E & Hv).
  bind. unfold nl_attr_get_be16. rewrite E. bind. destruct (present (p_present x) OVS_KEY_ATTR_ENCAP) eqn:He.
  2:{ destruct (v =? _); [destruct (bool_decide _); [by right|left; by apply returns_ret]|].
      destruct (negb _); [left; by apply returns_ret|by right]. }
  left. destruct (attr_at_wf x Hx OVS_KEY_ATTR_ENCAP ltac:(done) He) as (enc & n & -> & Hn & _).
  destruct (v =? _).
  { destruct (bool_decide _); [|by apply returns_ret]. bind. rewrite (nla_in_size enc n Hn). bind. by apply returns_ret. }
  destruct (flag v _) eqn:Ec; cbn [negb]; [|by apply returns_ret]. bind.
  assert (reading (set_vlan_tci v (set_dl_type (htons 0) f))) as Hg.
  { destruct Hf as [? ? ? (? & ? & ? & ? & ? & ?)]. split; try done. split_and!; try done. by right. }
  eapply returns_bind; [by apply (nla_in_get enc n)|]. intros p [Hb Hl]. rewrite (nla_in_size enc n Hn). bind.
  eapply returns_bind; [by apply parse_flow_nlattrs_total|]. intros [inner|] Hi; [|apply returns_ret; by apply reading_ok].
  eapply returns_bind; [by apply parse_ethertype_safe|]. intros [[ok e'] h] Hh. simpl in Hh.
  destruct ok; [|apply returns_ret; by apply reading_ok].
  eapply returns_bind; [by apply parse_l2_5_safe|]. intros [fit g] Hg'. by apply returns_ret.
Qed.

(** The key as a whole: a flow, or the null pointer. *)
Lemma odp_flow_key_to_flow_total key key_len :
  bytes key -> key_len <= zlen key ->
  returns (odp_flow_key_to_flow key key_len) (fun r => flow_ok r.2) \/ odp_flow_key_to_flow key key_len = Err NullDeref.
Proof.
  intros Hb Hl. unfold odp_flow_key_to_flow. destruct (parse_flow_nlattrs_total key key_len ∅ Hb Hl) as (o & -> & Ho). bind.
  pose proof reading_zero as H0. destruct o as [x|]; [|left; apply returns_ret; by apply reading_ok].
  destruct (parse_u32_safe x Ho OVS_KEY_ATTR_PRIORITY set_skb_priority 0 zero_flow) as ([e1 f1] & -> & H1);
    [done..|intros; by destruct H0; split|]. bind. cbn [snd] in H1.
  destruct (parse_u32_safe x Ho OVS_KEY_ATTR_SKB_MARK set_pkt_mark e1 f1) as ([e2 f2] & -> & H2);
    [done..|intros; by destruct H1; split|]. bind. cbn [snd] in H2.
  destruct (parse_tunnel_safe x Ho e2 f2 H2) as ([[ok e3] f3] & -> & H3). bind. cbn [snd] in H3.
  destruct ok; cbn [negb]; [|left; apply returns_ret; by apply reading_ok].
  assert (forall v, reading (set_odp_port v f3)) as Hport by (intros; destruct H3; by split).
  assert (returns (if present (p_present x) OVS_KEY_ATTR_IN_PORT then parse_u32 OVS_KEY_ATTR_IN_PORT set_odp_port x e3 f3
    else Ok (e3, set_odp_port ODPP_NONE f3)) (fun r => reading r.2)) as ([e4 f4] & -> & H4).
  { destruct (present _ _); [apply parse_u32_safe; try done; intros; apply Hport|apply returns_ret; apply Hport]. }
  bind. cbn [snd] in H4. destruct (parse_ethernet_safe x Ho e4 f4 H4) as ([e5 f5] & -> & H5). bind. cbn [snd] in H5.
  destruct (parse_ethertype_safe x Ho e5 f5 H5) as ([[ok e6] f6] & -> & H6). bind. cbn [snd] in H6.
  destruct ok; cbn [negb]; [|left; apply returns_ret; by apply reading_ok].
  destruct (_ =? _); [|left; by apply parse_l2_5_safe]. destruct (parse_8021q_safe x e6 f6 Ho H6) as [?|[? _]]; auto.
Qed.

(** ** Properties *)

(** C23: Reading a key ends for any bytes and any length within them, without
    reading beyond them: it gives a result, or dereferences the null pointer
    of a VLAN tag without encapsulated attributes. *)
Theorem odp_key_parse_terminates key key_len :
  bytes key -> key_len <= zlen key ->
  (exists fitness f, odp_flow_key_to_flow key key_len = Ok (fitness, f)) \/ odp_flow_key_to_flow key key_len = Err NullDeref.
Proof.
  intros Hb Hl. destruct (odp_flow_key_to_flow_total key key_len Hb Hl) as [([fit f] & E & _)|E]; [left; eauto|by right].
Qed.

(** A key cut off in its second attribute, and one that is complete. *)
Lemma odp_key_parse_terminates_witness :
  (exists fitness f, odp_flow_key_to_flow [8; 0; 2; 0; 1; 0; 0; 0; 16; 0; 4; 0] 12 = Ok (fitness, f)) \/
  odp_flow_key_to_flow [8; 0; 2; 0; 1; 0; 0; 0; 16; 0; 4; 0] 12 = Err NullDeref.
Proof. apply (odp_key_parse_terminates [8; 0; 2; 0; 1; 0; 0; 0; 16; 0; 4; 0] 12); [by apply bytes_bool|done]. Defined.
