(* ===== verification/DpdkLink.v ===== *)
(** The daemon's end of the rings shared with the datapath: [lib/dpdk-link.c].

    The functions work on the state of [Datapath], whose rings and buffers they
    share.  Loops that poll a ring let the other process run in between: [others]
    is what it does from one poll to the next, with fuel for the number of polls.

    As in [Datapath], a message is kept beside its buffer, under the buffer's
    address; the bytes of a packet that follows it are in the buffer. *)
From stdpp Require Import gmap.
From S2P Require Import Prelude Ofpbuf Stats Dpdk Flow Vport Action Datapath.

Definition EAGAIN : Z := 11.
Definition ENOMEM : Z := 12.

(** [PKT_BURST_SIZE] of this file. *)
Definition LINK_BURST_SIZE : Z := 256.

Definition set_vm_id (tid : Z) (r : dpdk_vport_message) : dpdk_vport_message :=
  VportMsg tid (vm_cmd r) (vm_flags r) (vm_port_no r) (vm_port_name r) (vm_type r) (vm_stats r).
Definition set_fm_id (tid : Z) (r : dpdk_flow_message) : dpdk_flow_message :=
  FlowMsg tid (fm_cmd r) (fm_flags r) (fm_key r) (fm_stats r) (fm_actions r) (fm_clear r).

(** [vport_msg.id] and [flow_msg.id] of a reply, which are the same bytes. *)
Definition reply_id (r : reply_body) : Z :=
  match r with NoMsg => 0 | VportReply r => vm_id r | FlowReply r => fm_id r end.

Section LinkOps.
Context {ring dev drv hash : Type} `{Ring : RteRing ring} `{Mb : RteMbuf} `{Drv : Drivers drv} `{Vh : VhostDev dev}
  `{Hash : RteHash flow_key hash}.
Context (others : dp ring dev drv hash -> res (dp ring dev drv hash)).

Notation dpt := (dp ring dev drv hash).
Implicit Type d : dpt.

Definition set_requests (x : gmap Z dpdk_message) d : dpt :=
  Dp (d_sw d) (d_flows d) (vswitchd_packet_ring d) (vswitchd_message_ring d) (vswitchd_reply_ring d) (vswitchd_free_ring d)
    (vswitchd_alloc_ring d) x (d_replies d) (d_upcalls d) (d_signals d).

(** [while (try() != 0);]: [try] gives the return code, a result and the state. *)
Fixpoint spin {A} (fuel : nat) (try : dpt -> Z * A * dpt) d : res (A * dpt) :=
  match fuel with
  | O => Err OutOfFuel
  | S fuel =>
      let '(rc, a, d) := try d in
      if rc =? 0 then Ok (a, d) else d ← others d; spin fuel try d
  end.

(** The three macros. *)
Definition alloc_mbufs (fuel : nat) (num_mbufs : Z) d : res (list Z * dpt) :=
  spin fuel (fun d =>
    let '(rc, ps, r) := rte_ring_dequeue_bulk num_mbufs (vswitchd_alloc_ring d) in (rc, ps, set_alloc_ring r d)) d.

Definition enqueue_mbufs_to_be_freed (fuel : nat) (mbufs : list Z) d : res dpt :=
  snd <$> spin fuel (fun d =>
    let '(rc, r) := rte_ring_enqueue_bulk mbufs (vswitchd_free_ring d) in (rc, tt, set_free_ring r d)) d.

Definition enqueue_mbuf_to_be_freed (fuel : nat) (mbuf : Z) d : res dpt :=
  snd <$> spin fuel (fun d =>
    let '(rc, r) := rte_ring_enqueue mbuf (vswitchd_free_ring d) in (rc, tt, set_free_ring r d)) d.

(** The body of the loop of [dpdk_link_send_bulk] for one buffer; [type] is that
    of the first request, which all are taken for.  [false] when the packet is
    too large. *)
Definition fill_mbuf (tid type : Z) (request : dpdk_message) (packet : option (list Z)) (p : Z) d : res (bool * dpt) :=
  let m := vmem (d_sw d) in
  b ← mbuf_at m p;
  c ← buf_at m (buf_addr b);
  let request :=
    if type =? FLOW_CMD_FAMILY
    then Msg (m_type request) (vport_msg request) (set_fm_id tid (flow_msg request)) (packet_msg request)
    else if type =? VPORT_CMD_FAMILY
    then Msg (m_type request) (set_vm_id tid (vport_msg request)) (flow_msg request) (packet_msg request)
    else request in
  if zlen c <? pkt_data b + sizeof_dpdk_message then Err OutOfBounds else
  let d := set_requests (<[p := request]> (d_requests d)) d in
  if type =? PACKET_CMD_FAMILY then
    match packet with
    | None => Err NullDeref
    | Some bytes =>
        if zlen bytes <=? u64 (u16 (zlen c) - sizeof_dpdk_message) then
          c ← store_bytes c (pkt_data b + sizeof_dpdk_message) bytes;
          let len := u16 (sizeof_dpdk_message + zlen bytes) in
          let m := set_mbuf p (Mbuf (buf_addr b) (pkt_data b) len len) (set_buf (buf_addr b) c m) in
          Ok (true, set_sw (set_vmem m (d_sw d)) d)
        else Ok (false, d)
    end
  else
    let m := set_mbuf p (Mbuf (buf_addr b) (pkt_data b) sizeof_dpdk_message sizeof_dpdk_message) m in
    Ok (true, set_sw (set_vmem m (d_sw d)) d).

(** The loop: the requests and packets with their buffers. *)
Fixpoint fill_mbufs (tid type : Z) (l : list (Z * (dpdk_message * option (list Z)))) d : res (bool * dpt) :=
  match l with
  | [] => Ok (true, d)
  | (p, (request, packet)) :: l =>
      '(ok, d) ← fill_mbuf tid type request packet p d;
      if ok : bool then fill_mbufs tid type l d else Ok (false, d)
  end.

(** [dpdk_link_send_bulk]: [l] are the requests with their packets.  The type is
    read only when there is a first request. *)
Definition dpdk_link_send_bulk (fuel : nat) (tid : Z) (l : list (dpdk_message * option (list Z))) d : res (Z * dpt) :=
  let num_pkts := zlen l in
  if LINK_BURST_SIZE <? num_pkts then Ok (EINVAL, d) else
  '(mbufs, d) ← alloc_mbufs fuel num_pkts d;
  let type := match l with (request, _) :: _ => m_type request | [] => 0 end in
  '(ok, d) ← fill_mbufs tid type (zip mbufs l) d;
  if negb ok then d ← enqueue_mbufs_to_be_freed fuel mbufs d; Ok (ENOMEM, d) else
  let '(ret, r) := rte_ring_enqueue_bulk mbufs (vswitchd_message_ring d) in
  let d := set_message_ring r d in
  if ret =? - ENOBUFS then d ← enqueue_mbufs_to_be_freed fuel mbufs d; Ok (ENOBUFS, d)
  else Ok (if ret =? - EDQUOT then 0 else ret, d).

Definition dpdk_link_send (fuel : nat) (tid : Z) (request : dpdk_message) (packet : option (list Z)) d : res (Z * dpt) :=
  dpdk_link_send_bulk fuel tid [(request, packet)] d.

(** [dpdk_link_recv_reply]: a reply for another thread is put back.  What is
    received is copied over [sizeof_dpdk_message] bytes. *)
Fixpoint dpdk_link_recv_reply (fuel : nat) (tid : Z) d : res (dpdk_reply * dpt) :=
  match fuel with
  | O => Err OutOfFuel
  | S fuel =>
      '(ps, d) ← spin fuel (fun d =>
        let '(rc, ps, r) := rte_ring_dequeue_bulk 1 (vswitchd_reply_ring d) in (rc, ps, set_reply_ring r (d_replies d) d)) d;
      p ← index ps 0;
      b ← mbuf_at (vmem (d_sw d)) p;
      reply ← match d_replies d !! p with Some r => Ok r | None => Err NullDeref end;
      if ((r_type reply =? VPORT_CMD_FAMILY) || (r_type reply =? FLOW_CMD_FAMILY)) && negb (reply_id (r_body reply) =? tid) then
        '(_, d) ← spin fuel (fun d =>
          let '(rc, r) := rte_ring_enqueue p (vswitchd_reply_ring d) in (rc, tt, set_reply_ring r (d_replies d) d)) d;
        dpdk_link_recv_reply fuel tid d
      else
        if sizeof_dpdk_message <? data_len b then Err OutOfBounds else
        d ← enqueue_mbuf_to_be_freed fuel p d;
        Ok (reply, d)
  end.

(** [dpdk_link_recv_packet]: the packet is copied out of the buffer. *)
Definition dpdk_link_recv_packet (junk : nat -> Z) (fuel : nat) d : res (Z * option (ofpbuf * dpdk_upcall) * dpt) :=
  let '(rc, ps, r) := rte_ring_dequeue_bulk 1 (vswitchd_packet_ring d) in
  if negb (rc =? 0) then Ok (EAGAIN, None, d) else
  let d := set_packet_ring r (d_upcalls d) (d_signals d) d in
  p ← index ps 0;
  b ← mbuf_at (vmem (d_sw d)) p;
  c ← buf_at (vmem (d_sw d)) (buf_addr b);
  info ← match d_upcalls d !! p with Some u => Ok u | None => Err NullDeref end;
  bytes ← load_bytes c (pkt_data b + sizeof_dpdk_upcall) (u64 (data_len b - sizeof_dpdk_upcall));
  pkt ← ofpbuf_clone_data junk bytes;
  d ← enqueue_mbuf_to_be_freed fuel p d;
  Ok (0, Some (pkt, info), d).
End LinkOps.
