(* ===== verification/Dpif.v ===== *)
(** The daemon's datapath interface: [lib/dpif-dpdk.c].

    Requests are built from Netlink attributes ([OdpUtil]), sent over the rings
    ([DpdkLink]) and answered by the datapath ([Datapath]); upcalls are turned
    into attributes.  Message structures are those of [Datapath], which both
    sides declare alike.  A pointer argument that may be null is an option. *)
From stdpp Require Import gmap.
From Stdlib Require Import String.
From S2P Require Import Prelude Stats Dpdk Flow Vport Action Datapath Ofpbuf Packets Netlink OdpUtil DpdkLink.

Definition DPDK_PORT_MAX_STRING_LEN : Z := 32.
Definition IFNAMSIZ : Z := 16.
Definition DPIF_FP_CREATE : Z := 1.
Definition DPIF_FP_MODIFY : Z := 2.
Definition DPIF_FP_ZERO_STATS : Z := 4.
Definition NLM_F_REPLACE : Z := 0x100.
Definition NLM_F_CREATE : Z := 0x400.
Definition NLM_F_DUMP : Z := 0x300.
Definition OVS_ACTION_ATTR_OUTPUT : Z := 1.
Definition OVS_ACTION_ATTR_SET : Z := 3.
Definition OVS_ACTION_ATTR_PUSH_VLAN : Z := 4.
Definition OVS_ACTION_ATTR_POP_VLAN : Z := 5.

(** ** Conversion of keys *)

(** [dpif_dpdk_flow_key_from_flow]. *)
Definition dpif_dpdk_flow_key_from_flow (f : flow) : flow_key :=
  let tci := ntohs (vlan_tci (f_l2 f)) in
  let l := f_l3 f in
  FlowKey (odp_port (f_meta f)) (dl_dst (f_l2 f)) (dl_src (f_l2 f)) (ntohs (dl_type (f_l2 f)))
    (Z.land tci VLAN_ID_MASK) (u8 (Z.shiftr tci VLAN_PRIO_SHIFT))
    (ntohl (nw_src l)) (ntohl (nw_dst l)) (nw_proto l) (nw_tos l) (nw_ttl l)
    (if nw_frag l =? 0 then OVS_FRAG_TYPE_NONE
     else if nw_frag l =? FLOW_NW_FRAG_ANY then OVS_FRAG_TYPE_FIRST
     else OVS_FRAG_TYPE_LATER)
    (ntohs (tp_src (f_l4 f))) (ntohs (tp_dst (f_l4 f))).

(** [dpif_dpdk_flow_key_to_flow]: a tag is there when it has an identifier. *)
Definition dpif_dpdk_flow_key_to_flow (key : flow_key) : flow :=
  MkFlow zero_tnl (FlowMeta 0 (replicate 8 0) 0 (in_port key) 0)
    (FlowL2 (ether_src key) (ether_dst key)
       (if negb (vlan_id key =? 0)
        then htons (u16 (Z.lor (Z.lor (Z.shiftl (vlan_prio key) VLAN_PRIO_SHIFT) (vlan_id key)) VLAN_CFI)) else 0)
       (htons (ether_type key)) 0 0)
    (FlowL3 (htonl (ip_src key)) (htonl (ip_dst key)) (ip_proto key) (ip_tos key) (ip_ttl key)
       (if negb (ip_frag key =? OVS_FRAG_TYPE_NONE) then
          if ip_frag key =? OVS_FRAG_TYPE_LATER then Z.lor FLOW_NW_FRAG_ANY FLOW_NW_FRAG_LATER else FLOW_NW_FRAG_ANY
        else 0)
       zero_in6 zero_in6 0)
    (FlowL4 (htons (tran_src_port key)) (htons (tran_dst_port key))) zero_nd.

(** ** Conversion of actions *)

(** A write to [dpif_actions[i]]. *)
Definition set_action (i : Z) (a : action) (acts : list action) : res (list action) :=
  if (0 <=? i) && (i <? MAX_ACTIONS) then Ok (update acts i a) else Err OutOfBounds.

(** [create_action_set_datapath]; the two types that are not implemented leave
    the slot as it is. *)
Definition create_action_set_datapath (acts : list action) (actions : list Z) (i : Z) : res (list action) :=
  type ← nl_attr_type actions;
  if (type =? OVS_KEY_ATTR_PRIORITY) || (type =? OVS_KEY_ATTR_IPV6) then Ok acts
  else if type =? OVS_KEY_ATTR_ETHERNET then
    p ← nl_attr_get_unspec actions 12;
    src ← load_bytes p 0 6; dst ← load_bytes p 6 6;
    set_action i (ACTION_SET_ETHERNET src dst) acts
  else if type =? OVS_KEY_ATTR_IPV4 then
    p ← nl_attr_get_unspec actions 12;
    src ← load32 p 0; dst ← load32 p 4; proto ← load8 p 8; tos ← load8 p 9; ttl ← load8 p 10; frag ← load8 p 11;
    set_action i (ACTION_SET_IPV4 src dst proto tos ttl frag) acts
  else if type =? OVS_KEY_ATTR_TCP then
    p ← nl_attr_get_unspec actions 4;
    src ← load16 p 0; dst ← load16 p 2;
    set_action i (ACTION_SET_TCP src dst) acts
  else if type =? OVS_KEY_ATTR_UDP then
    p ← nl_attr_get_unspec actions 4;
    src ← load16 p 0; dst ← load16 p 2;
    set_action i (ACTION_SET_UDP src dst) acts
  else Err NotReached.

(** The body of the loop of [dpif_dpdk_create_actions]: the array and [i]. *)
Definition create_action (a : list Z) (x : list action * Z) : res (list action * Z) :=
  let '(acts, i) := x in
  type ← nl_attr_type a;
  if type =? OVS_ACTION_ATTR_OUTPUT then
    port ← nl_attr_get_u32 a;
    acts ← set_action i (ACTION_OUTPUT port) acts;
    Ok (acts, i + 1)
  else if type =? OVS_ACTION_ATTR_POP_VLAN then
    acts ← set_action i ACTION_POP_VLAN acts;
    Ok (acts, i + 1)
  else if type =? OVS_ACTION_ATTR_PUSH_VLAN then
    p ← nl_attr_get_unspec a 4;
    tpid ← load16 p 0; tci ← load16 p 2;
    acts ← set_action i (ACTION_PUSH_VLAN tpid tci) acts;
    Ok (acts, i + 1)
  else if type =? OVS_ACTION_ATTR_SET then
    nested ← nl_attr_get a;
    acts ← create_action_set_datapath acts nested i;
    Ok (acts, i + 1)
  else Ok (acts, i).

(** [dpif_dpdk_create_actions]: [acts] is the array as it was. *)
Definition dpif_dpdk_create_actions (acts : list action) (actions : option (list Z)) (actions_len : Z) : res (list action) :=
  if actions_len <=? 0 then set_action 0 ACTION_NULL acts else
  '(acts, i) ← match actions with
               | Some nla => nl_attr_for_each_unsafe (nl_fuel nla) create_action nla actions_len (acts, 0)
               | None => Ok (acts, 0)
               end;
  set_action i ACTION_NULL acts.

(** An attribute nested in [OVS_ACTION_ATTR_SET]. *)
Definition put_set (junk : nat -> Z) (buf : ofpbuf) (type : Z) (p : list Z) : res ofpbuf :=
  '(buf, offset) ← nl_msg_start_nested junk buf OVS_ACTION_ATTR_SET;
  buf ← nl_msg_put_unspec junk buf type p;
  nl_msg_end_nested buf offset.

(** The [switch] of [dpif_dpdk_flow_actions_to_actions]. *)
Definition put_action (junk : nat -> Z) (buf : ofpbuf) (a : action) : res ofpbuf :=
  match a with
  | ACTION_OUTPUT port => nl_msg_put_u32 junk buf OVS_ACTION_ATTR_OUTPUT port
  | ACTION_POP_VLAN => nl_msg_put_flag junk buf OVS_ACTION_ATTR_POP_VLAN
  | ACTION_PUSH_VLAN tpid tci => nl_msg_put_unspec junk buf OVS_ACTION_ATTR_PUSH_VLAN (le_split 2 tpid ++ le_split 2 tci)
  | ACTION_SET_ETHERNET src dst => put_set junk buf OVS_KEY_ATTR_ETHERNET (ovs_key_ethernet src dst)
  | ACTION_SET_IPV4 src dst proto tos ttl frag =>
      put_set junk buf OVS_KEY_ATTR_IPV4 (ovs_key_ipv4 src dst proto tos ttl frag)
  | ACTION_SET_TCP src dst => put_set junk buf OVS_KEY_ATTR_TCP (ovs_key_ports src dst)
  | ACTION_SET_UDP src dst => put_set junk buf OVS_KEY_ATTR_UDP (ovs_key_ports src dst)
  | ACTION_NULL | ACTION_OTHER _ => Ok buf
  end.

Fixpoint put_actions (junk : nat -> Z) (buf : ofpbuf) (l : list action) : res ofpbuf :=
  match l with
  | [] => Ok buf
  | a :: l => buf ← put_action junk buf a; put_actions junk buf l
  end.

(** [dpif_dpdk_flow_actions_to_actions]. *)
Definition dpif_dpdk_flow_actions_to_actions (junk : nat -> Z) (acts : list action) (actionsp : ofpbuf) : res ofpbuf :=
  put_actions junk actionsp (visited acts).

(** ** Port types *)

(** [dpif_dpdk_odport_type]. *)
Definition dpif_dpdk_odport_type (type : list Z) : vport_type :=
  let named (name : string) := strneq DPDK_PORT_MAX_STRING_LEN type (str name) in
  if named "internal"%string then VPORT_TYPE_BRIDGE
  else if named "dpdkclient"%string then VPORT_TYPE_CLIENT
  else if named "dpdkkni"%string then VPORT_TYPE_KNI
  else if named "dpdkphy"%string then VPORT_TYPE_PHY
  else if named "dpdkveth"%string then VPORT_TYPE_VETH
  else if named "dpdkvhost"%string then VPORT_TYPE_VHOST
  else VPORT_TYPE_DISABLED.

(** [dpif_dpdk_ofport_type]: [None] for [EINVAL]. *)
Definition dpif_dpdk_ofport_type (type : vport_type) : option (list Z) :=
  match type with
  | VPORT_TYPE_VSWITCHD | VPORT_TYPE_BRIDGE => Some (str "internal")
  | VPORT_TYPE_CLIENT => Some (str "dpdkclient")
  | VPORT_TYPE_KNI => Some (str "dpdkkni")
  | VPORT_TYPE_PHY => Some (str "dpdkphy")
  | VPORT_TYPE_VETH => Some (str "dpdkveth")
  | VPORT_TYPE_VHOST => Some (str "dpdkvhost")
  | VPORT_TYPE_DISABLED => None
  end.

(** ** Requests *)

(** How the other members of the union in a message read when one is written;
    the datapath looks only at the member that the type names. *)
Record union_views := UnionViews {
  vport_as_flow : dpdk_vport_message -> dpdk_flow_message;
  vport_as_packet : dpdk_vport_message -> list action;
  flow_as_vport : dpdk_flow_message -> dpdk_vport_message;
  flow_as_packet : dpdk_flow_message -> list action;
  packet_as_vport : list action -> dpdk_vport_message;
  packet_as_flow : list action -> dpdk_flow_message
}.

Definition zero_port_stats : port_stats := PortStats 0 0 0 0 0 0 0 0.

(** [dpif_dpdk_vport_init] and [dpif_dpdk_flow_init]. *)
Definition dpif_dpdk_vport_init : dpdk_vport_message := VportMsg 0 0 0 UINT32_MAX [] VPORT_TYPE_DISABLED zero_port_stats.
Definition dpif_dpdk_flow_init : dpdk_flow_message := FlowMsg 0 0 0 empty_key zero_stats null_actions false.

Definition set_fm_key (k : flow_key) (r : dpdk_flow_message) : dpdk_flow_message :=
  FlowMsg (fm_id r) (fm_cmd r) (fm_flags r) k (fm_stats r) (fm_actions r) (fm_clear r).
Definition set_fm_cmd (c : Z) (r : dpdk_flow_message) : dpdk_flow_message :=
  FlowMsg (fm_id r) c (fm_flags r) (fm_key r) (fm_stats r) (fm_actions r) (fm_clear r).

(** The two calls that turn attributes into a key; the fitness is not looked at. *)
Definition key_of_attrs (key : list Z) (key_len : Z) : res flow_key :=
  '(_, f) ← odp_flow_key_to_flow key key_len;
  Ok (dpif_dpdk_flow_key_from_flow f).

Definition flow_message_get_create (key : list Z) (key_len : Z) : res dpdk_flow_message :=
  k ← key_of_attrs key key_len;
  Ok (set_fm_key k (set_fm_cmd CMD_GET dpif_dpdk_flow_init)).

Definition flow_message_put_create (flags : Z) (key : list Z) (key_len : Z) (actions : option (list Z)) (actions_len : Z)
  : res dpdk_flow_message :=
  let request := set_fm_cmd CMD_NEW dpif_dpdk_flow_init in
  k ← key_of_attrs key key_len;
  acts ← dpif_dpdk_create_actions (fm_actions request) actions actions_len;
  let nl := Z.lor (if has_flag flags DPIF_FP_MODIFY then NLM_F_REPLACE else 0)
                  (if has_flag flags DPIF_FP_CREATE then NLM_F_CREATE else 0) in
  Ok (FlowMsg (fm_id request) (fm_cmd request) nl k (fm_stats request) acts (has_flag flags DPIF_FP_ZERO_STATS)).

Definition flow_message_del_create (key : list Z) (key_len : Z) : res dpdk_flow_message :=
  k ← key_of_attrs key key_len;
  Ok (set_fm_key k (set_fm_cmd CMD_DEL dpif_dpdk_flow_init)).

Definition flow_message_flush_create : dpdk_flow_message := set_fm_cmd CMD_DEL dpif_dpdk_flow_init.

(** [struct dpif_flow_stats], and [dpif_dpdk_flow_get_stats]. *)
Record dpif_flow_stats := DpifFlowStats { n_packets : Z; n_bytes : Z; fs_used : Z; fs_tcp_flags : Z }.
Definition dpif_dpdk_flow_get_stats (r : dpdk_flow_message) : dpif_flow_stats :=
  let x := fm_stats r in DpifFlowStats (packet_count x) (byte_count x) (used x) (tcp_flags x).

(** Arguments of the operations. *)
Record netdev := Netdev { netdev_type : list Z; netdev_name : list Z; phy_port_id : Z }.
Record dpif_port := DpifPort { dp_name : list Z; dp_type : list Z; dp_port_no : Z }.
Record dpif_flow_put := FlowPut {
  put_flags : Z; put_key : option (list Z); put_key_len : Z; put_actions_attrs : option (list Z); put_actions_len : Z
}.
Record dpif_flow_del := FlowDel { del_key : option (list Z); del_key_len : Z }.
Record dpif_execute := Execute { ex_packet : option (list Z); ex_actions : option (list Z); ex_actions_len : Z }.
Inductive dpif_op := OpFlowPut (put : dpif_flow_put) | OpFlowDel (del : dpif_flow_del) | OpExecute (ex : dpif_execute).

Inductive dpif_upcall_type := DPIF_UC_MISS | DPIF_UC_ACTION.

(** [struct dpif_upcall]: the key is what follows the packet in its buffer. *)
Record dpif_upcall := DpifUpcall { up_type : dpif_upcall_type; up_packet : ofpbuf; up_key : Z; up_key_len : Z }.

(** [xstrdup] of an array of [DPDK_PORT_MAX_STRING_LEN] characters. *)
Definition xstrdup_array (name : list Z) : res (list Z) :=
  if zlen name <? DPDK_PORT_MAX_STRING_LEN then Ok name else Err OutOfBounds.

Definition strncpy_array (name : list Z) : list Z := take (Z.to_nat DPDK_PORT_MAX_STRING_LEN) name.

Section DpifOps.
Context {ring dev drv hash : Type} `{Ring : RteRing ring} `{Mb : RteMbuf} `{Drv : Drivers drv} `{Vh : VhostDev dev}
  `{Hash : RteHash flow_key hash}.
Context (others : dp ring dev drv hash -> res (dp ring dev drv hash)) (fuel : nat) (tid : Z) (views : union_views)
  (junk : nat -> Z).

Notation dpt := (dp ring dev drv hash).
Implicit Type d : dpt.

Definition vport_request (r : dpdk_vport_message) : dpdk_message :=
  Msg VPORT_CMD_FAMILY r (vport_as_flow views r) (vport_as_packet views r).
Definition flow_request (r : dpdk_flow_message) : dpdk_message :=
  Msg FLOW_CMD_FAMILY (flow_as_vport views r) r (flow_as_packet views r).
Definition packet_request (acts : list action) : dpdk_message :=
  Msg PACKET_CMD_FAMILY (packet_as_vport views acts) (packet_as_flow views acts) acts.

(** The members of a reply; a zeroed one reads as zero. *)
Definition vport_member (r : reply_body) : dpdk_vport_message :=
  match r with
  | VportReply r => r
  | FlowReply r => flow_as_vport views r
  | NoMsg => VportMsg 0 0 0 0 [] VPORT_TYPE_DISABLED zero_port_stats
  end.
Definition flow_member (r : reply_body) : dpdk_flow_message :=
  match r with FlowReply r => r | VportReply r => vport_as_flow views r | NoMsg => dpif_dpdk_flow_init end.

(** [dpif_dpdk_vport_transact] and [dpif_dpdk_flow_transact]: the return value
    and the reply, if one came. *)
Definition dpif_dpdk_vport_transact (request : dpdk_vport_message) d : res (Z * option dpdk_vport_message * dpt) :=
  '(error, d) ← dpdk_link_send others fuel tid (vport_request request) None d;
  if negb (error =? 0) then Ok (error, None, d) else
  '(reply, d) ← dpdk_link_recv_reply others fuel tid d;
  Ok (r_type reply, Some (vport_member (r_body reply)), d).

Definition dpif_dpdk_flow_transact (request : dpdk_flow_message) d : res (Z * option dpdk_flow_message * dpt) :=
  '(error, d) ← dpdk_link_send others fuel tid (flow_request request) None d;
  if negb (error =? 0) then Ok (error, None, d) else
  '(reply, d) ← dpdk_link_recv_reply others fuel tid d;
  Ok (r_type reply, Some (flow_member (r_body reply)), d).

(** The reply of a transaction that succeeded. *)
Definition replied {A} (r : option A) : res A := match r with Some a => Ok a | None => Err NullDeref end.

(** *** Ports *)

(** [dpif_dpdk_port_add]: the return value and the number of the port. *)
Definition dpif_dpdk_port_add (nd : netdev) d : res (Z * option Z * dpt) :=
  let type := dpif_dpdk_odport_type (netdev_type nd) in
  if bool_decide (type = VPORT_TYPE_VHOST) && (IFNAMSIZ <? zlen (netdev_name nd)) then Ok (EINVAL, None, d) else
  if bool_decide (type = VPORT_TYPE_DISABLED) then Ok (ENODEV, None, d) else
  let port_no := if bool_decide (type = VPORT_TYPE_BRIDGE) then 0
                 else if bool_decide (type = VPORT_TYPE_PHY) then phy_port_id nd else UINT32_MAX in
  let request := VportMsg 0 CMD_NEW 0 port_no (strncpy_array (netdev_name nd)) type zero_port_stats in
  '(error, reply, d) ← dpif_dpdk_vport_transact request d;
  if error =? 0 then r ← replied reply; Ok (error, Some (vm_port_no r), d) else Ok (error, None, d).

Definition dpif_dpdk_port_del (port_no : Z) d : res (Z * dpt) :=
  let request := VportMsg 0 CMD_DEL 0 port_no [] VPORT_TYPE_DISABLED zero_port_stats in
  '(error, _, d) ← dpif_dpdk_vport_transact request d;
  Ok (error, d).

(** The end of the two queries and of a step of the dump: the port of a reply. *)
Definition port_of_reply (r : dpdk_vport_message) : res (Z * option dpif_port) :=
  match dpif_dpdk_ofport_type (vm_type r) with
  | None => Ok (EINVAL, None)
  | Some type => name ← xstrdup_array (vm_port_name r); Ok (0, Some (DpifPort name type (vm_port_no r)))
  end.

Definition dpif_dpdk_port_query_by_number (port_no : Z) d : res (Z * option dpif_port * dpt) :=
  let request := VportMsg 0 CMD_GET 0 port_no [] VPORT_TYPE_DISABLED zero_port_stats in
  '(error, reply, d) ← dpif_dpdk_vport_transact request d;
  if negb (error =? 0) then Ok (error, None, d) else
  r ← replied reply; '(error, port) ← port_of_reply r; Ok (error, port, d).

Definition dpif_dpdk_port_query_by_name (devname : list Z) d : res (Z * option dpif_port * dpt) :=
  let request := VportMsg 0 CMD_GET 0 UINT32_MAX (strncpy_array devname) VPORT_TYPE_DISABLED zero_port_stats in
  '(error, reply, d) ← dpif_dpdk_vport_transact request d;
  if negb (error =? 0) then Ok (error, None, d) else
  r ← replied reply; '(error, port) ← port_of_reply r; Ok (error, port, d).

(** The state of a dump is the message sent next. *)
Definition dpif_dpdk_port_dump_start : dpdk_vport_message :=
  VportMsg 0 CMD_GET NLM_F_DUMP UINT32_MAX [] VPORT_TYPE_DISABLED zero_port_stats.

Definition dpif_dpdk_port_dump_next (state : dpdk_vport_message) d
  : res (Z * option dpif_port * dpdk_vport_message * dpt) :=
  '(error, reply, d) ← dpif_dpdk_vport_transact state d;
  if negb (error =? 0) then Ok (error, None, state, d) else
  r ← replied reply; '(error, port) ← port_of_reply r; Ok (error, port, r, d).

(** [dpif_dpdk_port_get_stats]: the request is on the stack, [uninit], and only
    its name and command are set. *)
Definition dpif_dpdk_port_get_stats (uninit : dpdk_vport_message) (name : list Z) d : res (Z * option port_stats * dpt) :=
  let request := VportMsg (vm_id uninit) CMD_GET (vm_flags uninit) (vm_port_no uninit) (strncpy_array name)
                   (vm_type uninit) (vm_stats uninit) in
  '(error, reply, d) ← dpif_dpdk_vport_transact request d;
  if error =? 0 then r ← replied reply; Ok (error, Some (vm_stats r), d) else Ok (error, None, d).

(** *** Flows *)

(** [dpif_dpdk_flow_get]: [actionsp] is the argument, if any, and the buffer it
    points to, if it does. *)
Definition dpif_dpdk_flow_get (key : option (list Z)) (key_len : Z) (actionsp : option (option ofpbuf)) d
  : res (Z * option (dpif_flow_stats * option ofpbuf) * dpt) :=
  match key with
  | None => Ok (EINVAL, None, d)
  | Some key =>
      request ← flow_message_get_create key key_len;
      '(error, reply, d) ← dpif_dpdk_flow_transact request d;
      if negb (error =? 0) then Ok (error, None, d) else
      r ← replied reply;
      buf ← match actionsp with
            | None => Ok None
            | Some None => Err NullDeref
            | Some (Some buf) => b ← dpif_dpdk_flow_actions_to_actions junk (fm_actions r) buf; Ok (Some b)
            end;
      Ok (0, Some (dpif_dpdk_flow_get_stats r, buf), d)
  end.

Definition dpif_dpdk_flow_put (put : dpif_flow_put) d : res (Z * option dpif_flow_stats * dpt) :=
  match put_key put with
  | None => Ok (EINVAL, None, d)
  | Some key =>
      request ← flow_message_put_create (put_flags put) key (put_key_len put) (put_actions_attrs put) (put_actions_len put);
      '(error, reply, d) ← dpif_dpdk_flow_transact request d;
      if error =? 0 then r ← replied reply; Ok (error, Some (dpif_dpdk_flow_get_stats r), d) else Ok (error, None, d)
  end.

Definition dpif_dpdk_flow_del (del : dpif_flow_del) d : res (Z * option dpif_flow_stats * dpt) :=
  match del_key del with
  | None => Ok (EINVAL, None, d)
  | Some key =>
      request ← flow_message_del_create key (del_key_len del);
      '(error, reply, d) ← dpif_dpdk_flow_transact request d;
      if error =? 0 then r ← replied reply; Ok (error, Some (dpif_dpdk_flow_get_stats r), d) else Ok (error, None, d)
  end.

Definition dpif_dpdk_flow_flush d : res (Z * dpt) :=
  '(error, _, d) ← dpif_dpdk_flow_transact flow_message_flush_create d; Ok (error, d).

(** The message of the dump's state. *)
Definition dpif_dpdk_flow_dump_start : dpdk_flow_message :=
  FlowMsg 0 CMD_GET NLM_F_DUMP empty_key zero_stats null_actions false.

(** [dpif_dpdk_flow_dump_next] with all pointers set: the key and the actions as
    attributes, and the statistics. *)
Definition dpif_dpdk_flow_dump_next (state : dpdk_flow_message) d
  : res (Z * option (ofpbuf * ofpbuf * dpif_flow_stats) * dpdk_flow_message * dpt) :=
  '(error, reply, d) ← dpif_dpdk_flow_transact state d;
  if negb (error =? 0) then Ok (error, None, state, d) else
  r ← replied reply;
  acts ← dpif_dpdk_flow_actions_to_actions junk (fm_actions r) (ofpbuf_init junk 0);
  let f := dpif_dpdk_flow_key_to_flow (fm_key r) in
  key ← odp_flow_key_from_flow junk (ofpbuf_init junk 0) f (odp_port (f_meta f));
  Ok (0, Some (key, acts, dpif_dpdk_flow_get_stats r), r, d).

(** *** Packets *)

(** [dpif_dpdk_execute]: [uninit] is the array of actions on the stack. *)
Definition dpif_dpdk_execute (uninit : list action) (ex : dpif_execute) d : res (Z * dpt) :=
  match ex_packet ex with
  | None => Ok (EINVAL, d)
  | Some packet =>
      acts ← dpif_dpdk_create_actions uninit (ex_actions ex) (ex_actions_len ex);
      dpdk_link_send others fuel tid (packet_request acts) (Some packet) d
  end.

(** The first loop of [dpif_dpdk_operate]: the errors of the operations done,
    and the requests and packets collected. *)
Fixpoint operate_loop (uninit : list action) (ops : list dpif_op) d
  : res (list (option Z) * list (dpdk_message * option (list Z)) * dpt) :=
  match ops with
  | [] => Ok ([], [], d)
  | OpFlowPut put :: ops =>
      '(error, _, d) ← dpif_dpdk_flow_put put d;
      '(errors, execs, d) ← operate_loop uninit ops d;
      Ok (Some error :: errors, execs, d)
  | OpFlowDel del :: ops =>
      '(error, _, d) ← dpif_dpdk_flow_del del d;
      '(errors, execs, d) ← operate_loop uninit ops d;
      Ok (Some error :: errors, execs, d)
  | OpExecute ex :: ops =>
      acts ← dpif_dpdk_create_actions uninit (ex_actions ex) (ex_actions_len ex);
      '(errors, execs, d) ← operate_loop uninit ops d;
      Ok (None :: errors, (packet_request acts, ex_packet ex) :: execs, d)
  end.

(** [dpif_dpdk_operate]: the errors of all operations. *)
Definition dpif_dpdk_operate (uninit : list action) (ops : list dpif_op) d : res (list Z * dpt) :=
  '(errors, execs, d) ← operate_loop uninit ops d;
  '(err, d) ← (if 0 <? zlen execs then dpdk_link_send_bulk others fuel tid execs d else Ok (0, d));
  Ok (map (default err) errors, d).

(** [dpif_dpdk_recv]: the key is stored behind the packet, in the same buffer. *)
Definition dpif_dpdk_recv d : res (Z * option dpif_upcall * dpt) :=
  '(error, r, d) ← dpdk_link_recv_packet others junk fuel d;
  if negb (error =? 0) then Ok (error, None, d) else
  '(buf, info) ← replied r;
  match (match u_cmd info with PACKET_CMD_MISS => Some DPIF_UC_MISS | PACKET_CMD_ACTION => Some DPIF_UC_ACTION | _ => None end) with
  | None => Ok (EINVAL, None, d)
  | Some type =>
      let f := dpif_dpdk_flow_key_to_flow (u_key info) in
      key ← odp_flow_key_from_flow junk (ofpbuf_init junk 0) f (odp_port (f_meta f));
      bytes ← load_bytes (base key) (data key) (size key);
      '(buf, _) ← ofpbuf_put junk buf bytes;
      let buf := set_window (data buf) (size buf - size key) buf in
      Ok (0, Some (DpifUpcall type buf (ofpbuf_tail buf) (size key)), d)
  end.
End DpifOps.
