(* ===== verification/DpifKey.v ===== *)
(** Keys and actions between the daemon and the datapath ([lib/dpif-dpdk.c]).

    The key of an upcall is turned into attributes for the daemon, and the
    attributes of a new flow into a key for the flow table.  The flow matches
    the packets it was set up for if this gives back the key. *)
From stdpp Require Import gmap.
From S2P Require Import Prelude Stats Dpdk Flow Vport Action Datapath Ofpbuf Packets Netlink OdpUtil OdpProps DpdkLink Dpif.

(** The transport ports are part of the attributes. *)
Definition key_ports (k : flow_key) : bool :=
  (ether_type k =? ETH_TYPE_IP) && negb (ip_frag k =? OVS_FRAG_TYPE_LATER) &&
  ((ip_proto k =? IPPROTO_TCP) || (ip_proto k =? IPPROTO_UDP) || (ip_proto k =? IPPROTO_SCTP) || (ip_proto k =? IPPROTO_ICMP)).

(** Members in the ranges of their types. *)
Record key_typed (k : flow_key) : Prop := {
  kt_port : is_u32 (in_port k);
  kt_dst : addr_ok 6 (ether_dst k);
  kt_src : addr_ok 6 (ether_src k);
  kt_type : is_u16 (ether_type k);
  kt_id : 0 <= vlan_id k < 4096;
  kt_prio : 0 <= vlan_prio k < 8;
  kt_ip_src : is_u32 (ip_src k);
  kt_ip_dst : is_u32 (ip_dst k);
  kt_proto : is_u8 (ip_proto k);
  kt_tos : is_u8 (ip_tos k);
  kt_ttl : is_u8 (ip_ttl k);
  kt_frag : 0 <= ip_frag k <= 2;
  kt_tsrc : is_u16 (tran_src_port k);
  kt_tdst : is_u16 (tran_dst_port k)
}.

(** Members that the packet's protocols do not use are zero. *)
Record key_normal (k : flow_key) : Prop := {
  kn_ip : ether_type k <> ETH_TYPE_IP ->
    ip_src k = 0 /\ ip_dst k = 0 /\ ip_proto k = 0 /\ ip_tos k = 0 /\ ip_ttl k = 0 /\ ip_frag k = 0;
  kn_ports : key_ports k = false -> tran_src_port k = 0 /\ tran_dst_port k = 0;
  kn_icmp : ip_proto k = IPPROTO_ICMP -> tran_src_port k < 256 /\ tran_dst_port k < 256
}.

(** Keys that the attributes can describe: not of a frame with a length instead
    of a type, nor of one with a priority but no VLAN. *)
Definition describable (k : flow_key) : Prop := ETH_TYPE_MIN <= ether_type k /\ (vlan_id k = 0 -> vlan_prio k = 0).

Lemma flow_key_eta k :
  FlowKey (in_port k) (ether_dst k) (ether_src k) (ether_type k) (vlan_id k) (vlan_prio k) (ip_src k) (ip_dst k)
    (ip_proto k) (ip_tos k) (ip_ttl k) (ip_frag k) (tran_src_port k) (tran_dst_port k) = k.
Proof. by destruct k. Qed.

Lemma ntohs_htons v : is_u16 v -> ntohs (htons v) = v.
Proof. intros. by apply bswap_bswap. Qed.

Lemma ntohl_htonl v : is_u32 v -> ntohl (htonl v) = v.
Proof. intros. by apply bswap_bswap. Qed.

Lemma htons_u16 v : is_u16 (htons v).
Proof. apply bswap_bound. Qed.

Lemma htonl_u32 v : is_u32 (htonl v).
Proof. apply bswap_bound. Qed.

Lemma htons_eqb a b : is_u16 a -> is_u16 b -> (htons a =? htons b) = (a =? b).
Proof.
  intros Ha Hb. destruct (Z.eqb_spec a b) as [->|Hne]; [apply Z.eqb_refl|]. apply Z.eqb_neq. intros E.
  apply Hne. by rewrite <- (ntohs_htons a Ha), <- (ntohs_htons b Hb), E.
Qed.

(** The tag made for a VLAN. *)
Definition tag (prio id : Z) : Z := Z.lor (Z.lor (Z.shiftl prio VLAN_PRIO_SHIFT) id) VLAN_CFI.

Lemma lor_low x n y : 0 <= n -> 0 <= y < 2 ^ n -> Z.lor (x * 2 ^ n) y = x * 2 ^ n + y.
Proof.
  intros Hn Hy. assert (Z.land (x * 2 ^ n) y = 0) as Hl.
  { apply Z.bits_inj'. intros i Hi. rewrite Z.land_spec, Z.bits_0. destruct (Z.lt_ge_cases i n) as [Hlt|Hge].
    - by rewrite Z.mul_pow2_bits_low by lia.
    - rewrite <- (Z.mod_small y (2 ^ n)) by done.
      rewrite Z.mod_pow2_bits_high by lia. apply andb_false_r. }
  by rewrite Z.add_nocarry_lxor, Z.lxor_lor.
Qed.

Lemma tag_value prio id : 0 <= prio < 8 -> 0 <= id < 4096 -> tag prio id = id + 4096 + prio * 8192.
Proof.
  intros Hp Hi. unfold tag. rewrite Z.shiftl_mul_pow2 by done. change (2 ^ VLAN_PRIO_SHIFT) with (2 ^ 13).
  replace (Z.lor (Z.lor (prio * 2 ^ 13) id) VLAN_CFI) with (Z.lor (Z.lor (prio * 2 ^ 13) VLAN_CFI) id)
    by (rewrite <- !Z.lor_assoc; f_equal; apply Z.lor_comm).
  rewrite (lor_low prio 13 VLAN_CFI) by done.
  replace (prio * 2 ^ 13 + VLAN_CFI) with ((prio * 2 + 1) * 2 ^ 12) by (unfold VLAN_CFI; lia).
  rewrite (lor_low _ 12 id) by (done || lia). lia.
Qed.

(** The tag carries the identifier and the priority, and is marked present. *)
Lemma tag_fields prio id :
  0 <= prio < 8 -> 0 <= id < 4096 ->
  is_u16 (tag prio id) /\ Z.land (tag prio id) VLAN_ID_MASK = id /\ u8 (Z.shiftr (tag prio id) VLAN_PRIO_SHIFT) = prio /\
  flag (htons (tag prio id)) (htons VLAN_CFI) = true.
Proof.
  intros Hp Hi. pose proof (tag_value prio id Hp Hi) as Hv. destruct (vlan_tci_fields true id prio Hi Hp) as (H1 & H2 & H3).
  rewrite Hv. split_and!; [done..|]. unfold flag. change (htons VLAN_CFI) with (2 ^ 4). rewrite land_pow2 by done.
  assert (Z.testbit (htons (id + 4096 + prio * 8192)) 4 = true) as ->; [|done].
  rewrite Z.testbit_odd, Z.shiftr_div_pow2 by done. unfold htons, bswap. simpl.
  apply Z.odd_spec. exists (prio + 8 * ((id + 4096 + prio * 8192) mod 256)). change (2 ^ 4) with 16. clear -Hp Hi. zdiv.
Qed.

(** ** The flow of a key *)

Section KeyFlow.
Context (k : flow_key) (Hk : key_typed k) (Hn : key_normal k).

Let f := dpif_dpdk_flow_key_to_flow k.

Lemma key_flow_ok : flow_ok f.
Proof using Hk Hn.
  destruct Hk. assert (addr_ok 6 zero_addr) by (split; [done|by apply bytes_bool]).
  assert (addr_ok 16 zero_in6) by (split; [done|by apply bytes_bool]).
  destruct (tag_fields (vlan_prio k) (vlan_id k) kt_prio0 kt_id0) as (Ht & _ & _ & Hc).
  assert (forall v, is_u16 (htons v)) by apply htons_u16. assert (forall v, is_u32 (htonl v)) by apply htonl_u32.
  fold (tag (vlan_prio k) (vlan_id k)). split; simpl; try done.
  - destruct (negb _); [apply htons_u16|done].
  - fold (tag (vlan_prio k) (vlan_id k)). unfold u16. rewrite wrap_small by done. destruct (negb _); [by right|by left].
  - destruct (negb (ip_frag k =? _)); [destruct (ip_frag k =? _)|]; split; apply Z.leb_le; reflexivity.
  - rewrite !ntohs_htons by done. intros [Hp|Hp]; [by apply kn_icmp|].
    destruct (kn_ports k Hn) as [-> ->]; [|done]. unfold key_ports. rewrite Hp. apply andb_false_r.
Qed.

Lemma key_type_eqb ty : is_u16 ty -> (dl_type (f_l2 f) =? htons ty) = (ether_type k =? ty).
Proof using Hk. intros. apply htons_eqb; [apply Hk|done]. Qed.

Lemma key_frag_later : flag (nw_frag (f_l3 f)) FLOW_NW_FRAG_LATER = (ip_frag k =? OVS_FRAG_TYPE_LATER).
Proof using Hk.
  simpl. pose proof (kt_frag k Hk). assert (ip_frag k = 0 \/ ip_frag k = 1 \/ ip_frag k = 2) as [->|[->| ->]] by lia; reflexivity.
Qed.

(** The network layer that is read back. *)
Lemma key_l3 :
  let l := norm_l3 f in
  ntohl (nw_src l) = ip_src k /\ ntohl (nw_dst l) = ip_dst k /\ nw_proto l = ip_proto k /\ nw_tos l = ip_tos k /\ nw_ttl l = ip_ttl k /\
  (if nw_frag l =? 0 then OVS_FRAG_TYPE_NONE else if nw_frag l =? FLOW_NW_FRAG_ANY then OVS_FRAG_TYPE_FIRST
   else OVS_FRAG_TYPE_LATER) = ip_frag k.
Proof using Hk Hn.
  pose proof (kt_frag k Hk). unfold norm_l3, is_arp. rewrite !key_type_eqb by done.
  destruct (Z.eqb_spec (ether_type k) ETH_TYPE_IP) as [E|E]; simpl.
  - rewrite !ntohl_htonl by apply Hk. split_and!; try done.
    assert (ip_frag k = 0 \/ ip_frag k = 1 \/ ip_frag k = 2) as [->|[->| ->]] by lia; reflexivity.
  - destruct (kn_ip k Hn E) as (-> & -> & -> & -> & -> & ->). repeat case_match; done.
Qed.

Lemma key_l4 : ntohs (tp_src (norm_l4 f)) = tran_src_port k /\ ntohs (tp_dst (norm_l4 f)) = tran_dst_port k.
Proof using Hk Hn.
  unfold norm_l4. assert (has_ports f = false -> key_ports k = false) as Hh.
  { unfold has_ports, key_ports, is_ip_any. rewrite key_frag_later, !key_type_eqb by done. simpl.
    destruct (ether_type k =? ETH_TYPE_IP), (ether_type k =? ETH_TYPE_IPV6), (ip_frag k =? OVS_FRAG_TYPE_LATER); simpl; try done.
    all: by destruct (ip_proto k =? IPPROTO_TCP), (ip_proto k =? IPPROTO_UDP), (ip_proto k =? IPPROTO_SCTP), (ip_proto k =? IPPROTO_ICMP). }
  destruct (has_ports f).
  - simpl. by rewrite !ntohs_htons by apply Hk.
  - destruct (kn_ports k Hn) as [-> ->]; [by apply Hh|]. done.
Qed.

(** The key that is made of the flow read back. *)
Lemma key_flow_back : describable k -> dpif_dpdk_flow_key_from_flow (norm_flow f (in_port k)) = k.
Proof using Hk Hn.
  intros [Hty Hvl]. destruct key_l3 as (L1 & L2 & L3 & L4 & L5 & L6), key_l4 as [P1 P2]. pose proof Hk as [].
  unfold dpif_dpdk_flow_key_from_flow, norm_flow. cbn [f_meta odp_port f_l2 f_l3 f_l4].
  rewrite L1, L2, L3, L4, L5, L6, P1, P2. unfold norm_l2. cbn [dl_dst dl_src dl_type vlan_tci f_l2 f dpif_dpdk_flow_key_to_flow].
  rewrite !ntohs_htons by done. rewrite (proj2 (Z.ltb_ge _ _)) by done. rewrite ntohs_htons by done.
  fold (tag (vlan_prio k) (vlan_id k)). destruct (tag_fields (vlan_prio k) (vlan_id k) kt_prio0 kt_id0) as (Ht & Hi & Hpr & _).
  destruct (Z.eqb_spec (vlan_id k) 0) as [E|E]; simpl.
  - etrans; [|exact (flow_key_eta k)]. by rewrite E, (Hvl E).
  - unfold u16. rewrite wrap_small, ntohs_htons by done. rewrite Hi, Hpr. apply flow_key_eta.
Qed.
End KeyFlow.

(** ** The keys of packets *)

Lemma addr_loaded b off n v : bytes b -> load_bytes b off (Z.of_nat n) = Ok v -> addr_ok n v.
Proof.
  intros Hb E. split; [|by eapply load_bytes_bytes]. apply load_bytes_len in E. unfold zlen in E. lia.
Qed.

(** After the Ethernet part only its members are set. *)
Lemma extract_ether_key b off port k off' :
  bytes b -> is_u32 port -> extract_ether b off port empty_key = Ok (k, off') ->
  key_typed k /\ k = ether_key port k.
Proof.
  intros Hb Hp E. unfold extract_ether in E. apply res_bind_Ok in E as (d & Ed & E). apply res_bind_Ok in E as (s & Es & E).
  apply res_bind_Ok in E as (t & Et & E). apply (addr_loaded b _ 6) in Ed; [|done]. apply (addr_loaded b _ 6) in Es; [|done].
  cbn [ether_type] in E. destruct (_ =? _).
  - apply res_bind_Ok in E as (tci & Etci & E). apply res_bind_Ok in E as (pr & Epr & E). injection E as <- <-.
    split; [|done]. split; simpl; try done.
    + apply htons_u16.
    + change VLAN_ID_MASK with (Z.ones 12). rewrite Z.land_ones by done. by apply Z.mod_pos_bound.
    + pose proof (htons_u16 tci) as [? ?]. change (htons tci) with (ntohs tci) in *. unfold u8.
      rewrite Z.shiftr_div_pow2 by done. unfold VLAN_PRIO_SHIFT. rewrite wrap_small; unfold is_u; zdiv.
  - injection E as <- <-. split; [|done]. split; simpl; try done. apply htons_u16.
Qed.

(** After the IPv4 part the ports are still zero. *)
Lemma extract_ipv4_key b off k1 k2 off' later :
  bytes b -> key_typed k1 -> k1 = ether_key (in_port k1) k1 -> extract_ipv4 b off k1 = Ok (k2, off', later) ->
  key_typed k2 /\ tran_src_port k2 = 0 /\ tran_dst_port k2 = 0 /\ later = (ip_frag k2 =? OVS_FRAG_TYPE_LATER) /\
  (ether_type k2 <> ETH_TYPE_IP -> ip_src k2 = 0 /\ ip_dst k2 = 0 /\ ip_proto k2 = 0 /\ ip_tos k2 = 0 /\ ip_ttl k2 = 0 /\ ip_frag k2 = 0).
Proof.
  intros Hb [] Hk E. unfold extract_ipv4 in E. assert (tran_src_port k1 = 0 /\ tran_dst_port k1 = 0) as [Hs Hd] by (by rewrite Hk).
  destruct (Z.eqb_spec (ether_type k1) Flow.ETHER_TYPE_IPv4) as [Hip|Hip].
  - repeat (apply res_bind_Ok in E as (? & ?El & E)). injection E as <- <- <-.
    apply (load_le_bound 1 _ _ _ Hb) in El1. apply (load_le_bound 1 _ _ _ Hb) in El2. apply (load_le_bound 1 _ _ _ Hb) in El3.
    assert (forall v, is_u32 (ntohl v)) by apply htonl_u32. split; [split; simpl; try done; repeat case_match; done|].
    simpl. split_and!; [done|done| |done]. by repeat case_match.
  - injection E as <- <- <-. split; [done|]. split_and!; try done; rewrite Hk; done.
Qed.

Lemma extract_tran_key b off k2 k :
  bytes b -> key_typed k2 -> extract_tran b off k2 = Ok k -> exists s d, k = set_tran s d k2 /\ is_u16 s /\ is_u16 d /\
    (ip_proto k2 <> IPPROTO_TCP -> ip_proto k2 <> IPPROTO_UDP -> s < 256 /\ d < 256 /\ (ip_proto k2 <> IPPROTO_ICMP -> s = 0 /\ d = 0)).
Proof.
  intros Hb Ht E. unfold extract_tran in E. destruct (_ || _) eqn:Etu.
  - repeat (apply res_bind_Ok in E as (? & ?El & E)). injection E as <-. eexists _, _. split; [done|].
    do 2 (split; [apply htons_u16|]). intros H1 H2. apply orb_true_iff in Etu as [?%Z.eqb_eq|?%Z.eqb_eq]; done.
  - destruct (Z.eqb_spec (ip_proto k2) Flow.IPPROTO_ICMP) as [Hi|Hi].
    + repeat (apply res_bind_Ok in E as (? & ?El & E)). injection E as <-. eexists _, _. split; [done|].
      apply (load_le_bound 1 _ _ _ Hb) in El, El0. change (256 ^ Z.of_nat 1) with 256 in *. unfold is_u16, is_u. split_and!; [lia..|].
      intros _ _. split_and!; [lia|lia|done].
    + injection E as <-. by exists 0, 0.
Qed.

(** What is extracted is in range, and zero where the protocols do not apply. *)
Lemma extract_key b off port k :
  bytes b -> flow_key_extract b off port empty_key = Ok k -> key_typed k /\ key_normal k.
Proof.
  intros Hb E. assert (is_u32 (u8 port)) as Hp by (pose proof (wrap_range 8 port); unfold u8, is_u32, is_u in *; lia).
  unfold flow_key_extract in E. apply res_bind_Ok in E as ([k1 o1] & E1 & E).
  apply extract_ether_key in E1 as [Ht1 Hk1]; [|done..]. apply res_bind_Ok in E as ([[k2 o2] later] & E2 & E).
  apply extract_ipv4_key in E2 as (Ht2 & Hs & Hd & -> & Hip); [|done..|by rewrite Hk1 at 1; rewrite Hk1].
  destruct (Z.eqb_spec (ip_frag k2) OVS_FRAG_TYPE_LATER) as [El|El].
  - injection E as <-. split; [done|]. split; [done|by intros _|rewrite Hs, Hd; done].
  - apply extract_tran_key in E as (s & d & -> & Hs' & Hd' & Hpr); [|done..]. destruct Ht2. split; [by split|].
    split; simpl; [done| |].
    + unfold key_ports. simpl. rewrite (proj2 (Z.eqb_neq _ _) El). simpl.
      destruct (Z.eqb_spec (ether_type k2) ETH_TYPE_IP) as [Et|Et]; simpl.
      * intros H. apply orb_false_iff in H as [[[H1%Z.eqb_neq H2%Z.eqb_neq]%orb_false_iff H3%Z.eqb_neq]%orb_false_iff H4%Z.eqb_neq]. tauto.
      * destruct (Hip Et) as (_ & _ & Hz & _). rewrite Hz in Hpr. intros _. by apply Hpr.
    + intros Hi. rewrite Hi in Hpr. destruct (Hpr ltac:(done) ltac:(done)) as (? & ? & _). done.
Qed.

(** The attributes of an upcall give its key back. *)
Lemma key_of_upcall_attrs k rest :
  key_typed k -> key_normal k -> describable k ->
  let l := key_attrs (dpif_dpdk_flow_key_to_flow k) (in_port k) in key_of_attrs (attrs l ++ rest) (zlen (attrs l)) = Ok k.
Proof.
  intros Ht Hn Hd l. unfold key_of_attrs, l. rewrite odp_flow_key_to_flow_ok; [|by apply key_flow_ok|apply Ht].
  bind. by rewrite key_flow_back.
Qed.

(** ** Actions *)

(** An action that has attributes, with members in range. *)
Definition action_typed (a : action) : Prop :=
  match a with
  | ACTION_OUTPUT port => is_u32 port
  | ACTION_POP_VLAN => True
  | ACTION_PUSH_VLAN tpid tci => is_u16 tpid /\ is_u16 tci
  | ACTION_SET_ETHERNET src dst => addr_ok 6 src /\ addr_ok 6 dst
  | ACTION_SET_IPV4 src dst proto tos ttl frag =>
      is_u32 src /\ is_u32 dst /\ is_u8 proto /\ is_u8 tos /\ is_u8 ttl /\ is_u8 frag
  | ACTION_SET_TCP src dst | ACTION_SET_UDP src dst => is_u16 src /\ is_u16 dst
  | ACTION_NULL | ACTION_OTHER _ => False
  end.

Definition action_attr (a : action) : Z * list Z :=
  match a with
  | ACTION_OUTPUT port => (OVS_ACTION_ATTR_OUTPUT, le_split 4 port)
  | ACTION_PUSH_VLAN tpid tci => (OVS_ACTION_ATTR_PUSH_VLAN, le_split 2 tpid ++ le_split 2 tci)
  | ACTION_SET_ETHERNET src dst => (OVS_ACTION_ATTR_SET, attrs [(OVS_KEY_ATTR_ETHERNET, ovs_key_ethernet src dst)])
  | ACTION_SET_IPV4 src dst proto tos ttl frag =>
      (OVS_ACTION_ATTR_SET, attrs [(OVS_KEY_ATTR_IPV4, ovs_key_ipv4 src dst proto tos ttl frag)])
  | ACTION_SET_TCP src dst => (OVS_ACTION_ATTR_SET, attrs [(OVS_KEY_ATTR_TCP, ovs_key_ports src dst)])
  | ACTION_SET_UDP src dst => (OVS_ACTION_ATTR_SET, attrs [(OVS_KEY_ATTR_UDP, ovs_key_ports src dst)])
  | _ => (OVS_ACTION_ATTR_POP_VLAN, [])
  end.

Section PutActions.
Context (junk : nat -> Z) (junk_byte : forall i, is_u8 (junk i)).

Lemma put_set_ok k type p msg :
  bytes p -> zlen p <= 512 -> 2 <= k -> roomy k msg ->
  appended k (contents msg) (put_set junk msg type p) 2 [(OVS_ACTION_ATTR_SET, attrs [(type, p)])].
Proof using junk_byte.
  intros Hb Hl Hk Hr. unfold put_set. change 2 with (1 + 1).
  apply (appended_nested junk junk_byte _ _ _ (fun m => nl_msg_put_unspec junk m type p)); [done|done|done|].
  intros msg' Hr'. apply (appended_put junk junk_byte); [done|done|lia|done].
Qed.

Lemma put_action_ok k a msg :
  action_typed a -> 2 <= k -> roomy k msg -> appended k (contents msg) (put_action junk msg a) 2 [action_attr a].
Proof using junk_byte.
  intros Ha Hk Hr. destruct a; simpl in Ha; try done; cbn [put_action action_attr].
  1-3: eapply appended_weaken; [|apply (appended_put junk junk_byte)]; [lia|payload|payload|lia|done].
  1: destruct Ha as [? ?].
  all: apply put_set_ok; [payload|payload|lia|done].
Qed.

Lemma put_actions_ok l : forall k msg,
  Forall action_typed l -> 2 * zlen l <= k -> roomy k msg ->
  appended k (contents msg) (put_actions junk msg l) (2 * zlen l) (map action_attr l).
Proof using junk_byte.
  induction l as [|a l IH]; intros k msg Hl Hk Hr; [apply appended_ret; done|]. apply list.Forall_cons in Hl as [Ha Hl].
  rewrite zlen_cons in *. pose proof (zlen_nonneg l). replace (2 * (1 + zlen l)) with (2 + 2 * zlen l) by lia.
  change (map action_attr (a :: l)) with ([action_attr a] ++ map action_attr l). cbn [put_actions].
  eapply appended_bind; [apply put_action_ok; [done|lia|done]|]. intros msg' Hr' _. apply IH; [done|lia|done].
Qed.
End PutActions.

Lemma action_attr_small a : action_typed a -> zlen (action_attr a).2 <= 60000.
Proof.
  intros Ha. destruct a; simpl in Ha; try done; cbn [action_attr snd]; try payload.
  1: destruct Ha as [? ?].
  all: apply (attrs_small _ 12 1); [apply Forall_singleton; cbn [snd]; payload|done..].
Qed.

Lemma set_action_ok i a acts : 0 <= i < MAX_ACTIONS -> set_action i a acts = Ok (update acts i a).
Proof. intros [??]. unfold set_action. by rewrite (proj2 (Z.leb_le 0 i)), (proj2 (Z.ltb_lt i _)). Qed.

(** A nested attribute of a header to set. *)
Lemma create_set_ok t p rest acts i :
  0 <= t < 2 ^ 14 -> zlen p <= 512 ->
  create_action (attr OVS_ACTION_ATTR_SET (attrs [(t, p)]) ++ rest) (acts, i) =
  (acts ← create_action_set_datapath acts (attr t p ++ nl_pad (NLA_HDRLEN + zlen (attrs [(t, p)])) ++ rest) i; Ok (acts, i + 1)).
Proof.
  intros Ht Hp. assert (zlen (attrs [(t, p)]) <= 60000).
  { apply (attrs_small _ 512 1); [by apply Forall_singleton|done..]. }
  unfold create_action. rewrite nl_attr_type_attr by done. bind. rewrite nl_attr_get_attr by done. bind.
  by rewrite attrs_cons, app_nil_r.
Qed.

Lemma unspec_whole t p n rest : zlen p = n -> n <= 60000 -> nl_attr_get_unspec (attr t p ++ rest) n = Ok p.
Proof.
  intros <- Hn. pose proof (zlen_nonneg p). rewrite nl_attr_get_unspec_attr by (done || lia).
  f_equal. apply take_ge. unfold zlen. lia.
Qed.

(** Takes the branch of the attribute's type and reads its payload. *)
Ltac branch :=
  rewrite nl_attr_type_attr by done; bind;
  cbv [OVS_KEY_ATTR_PRIORITY OVS_KEY_ATTR_IPV6 OVS_KEY_ATTR_ETHERNET OVS_KEY_ATTR_IPV4 OVS_KEY_ATTR_TCP OVS_KEY_ATTR_UDP
    OVS_ACTION_ATTR_OUTPUT OVS_ACTION_ATTR_POP_VLAN OVS_ACTION_ATTR_PUSH_VLAN OVS_ACTION_ATTR_SET Z.eqb Pos.eqb orb].
Ltac whole := rewrite unspec_whole by payload; bind.

Lemma create_action_ok a acts i rest :
  action_typed a -> 0 <= i < MAX_ACTIONS ->
  create_action (attr (action_attr a).1 (action_attr a).2 ++ rest) (acts, i) = Ok (update acts i a, i + 1).
Proof.
  intros Ha Hi. assert (forall b, set_action i b acts = Ok (update acts i b)) as Hset by (intros; by apply set_action_ok).
  destruct a; simpl in Ha; try done; cbn [action_attr fst snd].
  - unfold create_action, nl_attr_get_u32. branch. rewrite unspec_whole by payload.
    change (le_combine <$> Ok (le_split 4 port)) with (Ok (le_combine (le_split 4 port))). rewrite le_combine_split, Z.mod_small by done. bind. by rewrite !Hset.
  - unfold create_action. branch. by rewrite !Hset.
  - destruct Ha. unfold create_action. branch. whole.
    rewrite <- (app_nil_r (le_split 2 tci)). load_fields. by rewrite !Hset.
  - destruct Ha. rewrite create_set_ok by (done || payload). unfold create_action_set_datapath. branch. whole.
    unfold ovs_key_ethernet. rewrite <- (app_nil_r eth_dst). load_fields. by rewrite !Hset, app_nil_r.
  - destruct Ha as (? & ? & ? & ? & ? & ?). rewrite create_set_ok by (done || payload). unfold create_action_set_datapath.
    branch. whole. unfold ovs_key_ipv4. rewrite <- (app_nil_r (le_split 1 ipv4_frag)). load_fields. by rewrite !Hset.
  - destruct Ha. rewrite create_set_ok by (done || payload). unfold create_action_set_datapath. branch. whole.
    unfold ovs_key_ports. rewrite <- (app_nil_r (le_split 2 tcp_dst)). load_fields. by rewrite !Hset.
  - destruct Ha. rewrite create_set_ok by (done || payload). unfold create_action_set_datapath. branch. whole.
    unfold ovs_key_ports. rewrite <- (app_nil_r (le_split 2 udp_dst)). load_fields. by rewrite !Hset.
Qed.

Lemma update_next (l : list action) (acts : list action) n x :
  l !! n = Some x -> (n < length acts)%nat ->
  update (take n l ++ drop n acts) (Z.of_nat n) x = take (S n) l ++ drop (S n) acts.
Proof.
  intros Hx Hn. pose proof (lookup_lt_Some _ _ _ Hx). destruct (lookup_lt_is_Some_2 acts n Hn) as [y Hy].
  unfold update. rewrite Nat2Z.id. rewrite (drop_S _ _ _ Hy), (take_S_r _ _ _ Hx), <- app_assoc.
  assert (n = length (take n l) + 0)%nat as E by (rewrite length_take; lia). rewrite E at 1. by rewrite insert_app_r.
Qed.

Definition creating (l acts : list action) (done : list (Z * list Z)) (x : list action * Z) : Prop :=
  x = (take (length done) l ++ drop (length done) acts, zlen done).

Lemma create_actions_ok l acts rest :
  Forall action_typed l -> zlen l < MAX_ACTIONS -> zlen acts = MAX_ACTIONS ->
  dpif_dpdk_create_actions acts (Some (attrs (map action_attr l) ++ rest)) (zlen (attrs (map action_attr l))) =
  Ok (l ++ ACTION_NULL :: drop (S (length l)) acts).
Proof.
  intros Hl Hn Ha. set (as_ := map action_attr l). assert (length as_ = length l) as Hlen by apply length_map.
  assert (Forall (fun a => zlen a.2 <= 60000) as_) as Hs.
  { unfold as_. clear -Hl. induction Hl; constructor; [by apply action_attr_small|done]. }
  unfold dpif_dpdk_create_actions. destruct l as [|a0 l'].
  { simpl. rewrite set_action_ok by done. f_equal. destruct acts; [done|]. unfold update. simpl. by rewrite drop_0. }
  set (l := a0 :: l') in *. assert (0 < zlen (attrs as_)) as Hpos.
  { unfold as_, l. cbn [map]. rewrite attrs_cons, zlen_app, zlen_attr. pose proof (zlen_nonneg (attrs (map action_attr l'))).
    pose proof (zlen_nonneg (action_attr a0).2). pose proof (NLA_ALIGN_bound (NLA_HDRLEN + zlen (action_attr a0).2)). unfold NLA_HDRLEN in *. lia. }
  rewrite (proj2 (Z.leb_gt _ _)) by done.
  destruct (for_each_unsafe_attrs (creating l acts) create_action as_) with (fuel := nl_fuel (attrs as_ ++ rest)) (rest := rest) (x := (acts, 0))
    as (x & -> & Hx).
  - done.
  - pose proof (attrs_size _ _ Hs). unfold zlen in *. rewrite Hlen in *. unfold MAX_ACTIONS in *. lia.
  - intros done a r x [k Hk] ->.
    assert (as_ !! length done = Some a) as Has by (rewrite Hk, <- app_assoc; by apply list_lookup_middle).
    apply (list_lookup_fmap_Some action_attr l) in Has as (b & -> & Hb).
    pose proof (lookup_lt_Some _ _ _ Hb). unfold zlen, MAX_ACTIONS in *.
    rewrite create_action_ok; [|by eapply list.Forall_lookup_1|unfold MAX_ACTIONS; lia]. eexists. split; [done|].
    unfold creating. rewrite length_app, Nat.add_1_r, update_next by (done || lia). f_equal. unfold zlen. rewrite length_app. simpl. lia.
  - unfold nl_fuel. rewrite length_app. pose proof (attrs_length as_). lia.
  - unfold creating. simpl. by rewrite drop_0.
  - bind. unfold creating in Hx. subst x. cbv beta iota. rewrite Hlen, take_ge by done. unfold zlen. rewrite Hlen.
    rewrite set_action_ok by (unfold zlen in Hn; lia). f_equal. destruct (lookup_lt_is_Some_2 acts (length l)) as [y Hy].
    { unfold zlen, MAX_ACTIONS in *. lia. }
    unfold update. rewrite Nat2Z.id, (drop_S _ _ _ Hy). rewrite <- (Nat.add_0_r (length l)) at 1. by rewrite insert_app_r.
Qed.

Lemma visited_ended l rest :
  Forall action_typed l -> zlen l < MAX_ACTIONS -> visited (l ++ ACTION_NULL :: rest) = l.
Proof.
  intros Hl Hn. unfold visited. assert (length l < Z.to_nat MAX_ACTIONS)%nat as Hlt by (unfold zlen in Hn; lia).
  revert Hlt. generalize (Z.to_nat MAX_ACTIONS). clear Hn. induction Hl as [|a l Ha Hl IH]; intros [|n] Hlt; simpl in *; try lia; [done|].
  assert (is_null a = false) as -> by (by destruct a). f_equal. apply IH. lia.
Qed.

Lemma init_roomy junk k : k <= 2 ^ 40 -> roomy k (ofpbuf_init junk 0).
Proof. intros Hk. split; [split_and!; [constructor|done..]|]. split; [done|]. simpl. lia. Qed.

Lemma init_contents junk : contents (ofpbuf_init junk 0) = [].
Proof. done. Qed.

(** A daemon's name of a type is read back as the type; the datapath's own port
    has the name of a bridge. *)
Lemma port_type_back ty name :
  dpif_dpdk_ofport_type ty = Some name ->
  dpif_dpdk_odport_type name = if decide (ty = VPORT_TYPE_VSWITCHD) then VPORT_TYPE_BRIDGE else ty.
Proof. by destruct ty; intros [= <-]. Qed.

(** ** Properties *)

(** C21: The key extracted from a packet is the key of the flow that the daemon sets
    up with the attributes it got in the upcall: the flow matches the packet.
    Excepted are packets with a length for a type and packets with a priority
    but no VLAN. *)
Theorem upcall_key_roundtrip junk b off port k :
  (forall i, is_u8 (junk i)) -> bytes b -> flow_key_extract b off port empty_key = Ok k -> describable k ->
  exists msg, odp_flow_key_from_flow junk (ofpbuf_init junk 0) (dpif_dpdk_flow_key_to_flow k) (in_port k) = Ok msg /\
    key_of_attrs (contents msg) (size msg) = Ok k.
Proof.
  intros Hj Hb E Hd. destruct (extract_key b off port k Hb E) as [Ht Hn].
  destruct (odp_flow_key_from_flow_ok junk Hj 20 _ (in_port k) (ofpbuf_init junk 0) (key_flow_ok k Ht Hn)) as (msg & E' & [Hwf _] & Hc);
    [lia|by apply init_roomy|].
  exists msg. split; [done|]. rewrite <- (zlen_contents msg Hwf), Hc, init_contents. simpl.
  rewrite <- (app_nil_r (attrs _)) at 1. by apply key_of_upcall_attrs.
Qed.

(** C22: The actions of a flow, given to the daemon as attributes and back, are the
    same actions, whatever the array held that they are stored in. *)
Theorem flow_actions_roundtrip junk acts uninit :
  (forall i, is_u8 (junk i)) -> Forall action_typed (visited acts) -> zlen (visited acts) < MAX_ACTIONS ->
  zlen uninit = MAX_ACTIONS ->
  exists buf acts', dpif_dpdk_flow_actions_to_actions junk acts (ofpbuf_init junk 0) = Ok buf /\
    dpif_dpdk_create_actions uninit (Some (contents buf)) (size buf) = Ok acts' /\ visited acts' = visited acts.
Proof.
  intros Hj Hl Hn Hu. destruct (put_actions_ok junk Hj (visited acts) (2 * zlen (visited acts)) (ofpbuf_init junk 0)) as (buf & E & [Hwf _] & Hc);
    [done|done|apply init_roomy; unfold MAX_ACTIONS in Hn; lia|].
  exists buf. eexists. split; [exact E|]. rewrite <- (zlen_contents buf Hwf), Hc, init_contents. simpl.
  rewrite <- (app_nil_r (attrs _)) at 1. rewrite create_actions_ok by done. split; [done|]. by apply visited_ended.
Qed.

(** A tagged TCP packet. *)
Definition wit_packet : list Z :=
  [2; 0; 0; 0; 0; 2; 2; 0; 0; 0; 0; 1; 0x81; 0; 0x60; 100; 8; 0;
   0x45; 0; 0; 40; 0; 0; 0; 0; 64; 6; 0; 0; 10; 0; 0; 1; 10; 0; 0; 2; 4; 210; 0; 80; 0; 0; 0; 0; 0; 0; 0; 0; 0x50; 2; 0; 0; 0; 0; 0; 0].

Definition wit_key : flow_key :=
  FlowKey 17 [2; 0; 0; 0; 0; 2] [2; 0; 0; 0; 0; 1] ETH_TYPE_IP 100 3 0x0a000001 0x0a000002 6 0 64 0 1234 80.

Lemma upcall_key_roundtrip_witness :
  exists msg, odp_flow_key_from_flow (fun _ => 0) (ofpbuf_init (fun _ => 0) 0) (dpif_dpdk_flow_key_to_flow wit_key) 17 = Ok msg /\
    key_of_attrs (contents msg) (size msg) = Ok wit_key.
Proof.
  apply (upcall_key_roundtrip (fun _ => 0) wit_packet 0 17 wit_key); [by split|by apply bytes_bool|reflexivity|].
  split; [done|discriminate].
Defined.

Definition wit_actions : list action :=
  [ACTION_POP_VLAN; ACTION_SET_IPV4 1 2 6 0 63 0; ACTION_OUTPUT 3; ACTION_PUSH_VLAN 0x0081 0x6400; ACTION_OUTPUT 4].

Lemma flow_actions_roundtrip_witness :
  exists buf acts', dpif_dpdk_flow_actions_to_actions (fun _ => 0) (wit_actions ++ replicate 43 ACTION_NULL) (ofpbuf_init (fun _ => 0) 0) = Ok buf /\
    dpif_dpdk_create_actions null_actions (Some (contents buf)) (size buf) = Ok acts' /\
    visited acts' = visited (wit_actions ++ replicate 43 ACTION_NULL).
Proof.
  apply (flow_actions_roundtrip (fun _ => 0) (wit_actions ++ replicate 43 ACTION_NULL) null_actions);
    [by split| |done|done].
  change (visited (wit_actions ++ replicate 43 ACTION_NULL)) with wit_actions.
  repeat (apply list.Forall_cons_2; [repeat split; done|]). constructor.
Defined.

(** ** Where the conversions lose something *)

(** A packet with a priority but no VLAN: the flow set up for it has another
    key, so the next packet misses again. *)
Example priority_tag_never_matches :
  let k := FlowKey 17 [2; 0; 0; 0; 0; 2] [2; 0; 0; 0; 0; 1] ETH_TYPE_IP 0 5 0x0a000001 0x0a000002 6 0 64 0 1234 80 in
  let l := key_attrs (dpif_dpdk_flow_key_to_flow k) (in_port k) in
  vlan_prio <$> key_of_attrs (attrs l) (zlen (attrs l)) = Ok 0.
Proof. reflexivity. Qed.

(** A packet with a length for a type: the type becomes 0x5ff. *)
Example length_frame_never_matches :
  let k := FlowKey 17 [2; 0; 0; 0; 0; 2] [2; 0; 0; 0; 0; 1] 0x0026 0 0 0 0 0 0 0 0 0 0 in
  let l := key_attrs (dpif_dpdk_flow_key_to_flow k) (in_port k) in
  ether_type <$> key_of_attrs (attrs l) (zlen (attrs l)) = Ok 0x5ff.
Proof. reflexivity. Qed.

(** The array of actions is written beyond its end when there are as many
    actions as it has elements. *)
Example create_actions_overflows :
  let l := map action_attr (replicate 48 (ACTION_OUTPUT 1)) in
  dpif_dpdk_create_actions null_actions (Some (attrs l)) (zlen (attrs l)) = Err OutOfBounds.
Proof. reflexivity. Qed.

(** Setting the priority takes a slot of the array without filling it, which
    ends the list there: the output behind it is lost. *)
Example set_priority_drops_output :
  let l := [(OVS_ACTION_ATTR_SET, attrs [(OVS_KEY_ATTR_PRIORITY, le_split 4 1)]); (OVS_ACTION_ATTR_OUTPUT, le_split 4 1)] in
  visited <$> dpif_dpdk_create_actions null_actions (Some (attrs l)) (zlen (attrs l)) = Ok [].
Proof. reflexivity. Qed.

(** Setting any other header that is not handled ends the process. *)
Example set_arp_aborts :
  let l := [(OVS_ACTION_ATTR_SET, attrs [(OVS_KEY_ATTR_ARP, replicate 24 0)])] in
  dpif_dpdk_create_actions null_actions (Some (attrs l)) (zlen (attrs l)) = Err NotReached.
Proof. reflexivity. Qed.
