(* ===== verification/DpifProps.v ===== *)
(** Transactions between the daemon and the datapath ([lib/dpif-dpdk.c],
    [lib/dpdk-link.c] with [datapath.c]): a request is sent, the datapath serves
    it while the daemon waits, and the reply is received.  All buffers used for
    it are accounted for. *)
From stdpp Require Import gmap gmultiset.
From S2P Require Import Prelude Stats Dpdk Flow Vport VportInit VportProps Action Datapath DatapathProps Ofpbuf.
From S2P Require Import Packets Netlink OdpUtil OdpProps DpdkLink Dpif DpifKey.

Section Transactions.
Context {ring dev drv hash : Type} `{Ring : RteRing ring} `{!RteRingLaws ring} `{Mb : RteMbuf} `{!RteMbufLaws}
  `{Drv : Drivers drv} `{!DriversLaws drv} `{Vh : VhostDev dev} `{!VhostLaws dev}
  `{Hash : RteHash flow_key hash} `{!RteHashLaws flow_key hash MAX_FLOWS}.

Notation sw := (vst ring dev drv).
Notation dpt := (dp ring dev drv hash).
Implicit Type d : dpt.
Implicit Type t : flow_table hash.

(** ** The datapath's answer *)

(** The reply to a flow command, and the table it leaves. *)
Definition flow_serve (c : clock) (r : dpdk_flow_message) t : res (dpdk_reply * flow_table hash) :=
  if fm_cmd r =? CMD_NEW then flow_new c r t
  else if fm_cmd r =? CMD_DEL then flow_del c r t
  else if fm_cmd r =? CMD_GET then
    reply ← (if has_flag (fm_flags r) FLAG_DUMP then flow_dump_reply c r t else flow_get c r t); Ok (reply, t)
  else Ok (Reply EINVAL NoMsg, t).

Lemma set_flows_same d : set_flows (d_flows d) d = d.
Proof. by destruct d. Qed.

Lemma handle_flow_cmd_serve c lcore r d :
  handle_flow_cmd c lcore r d = ('(reply, t) ← flow_serve c r (d_flows d); send_reply_to_vswitchd lcore reply (set_flows t d)).
Proof.
  unfold handle_flow_cmd, flow_serve. destruct (fm_cmd r =? CMD_NEW); [done|]. destruct (fm_cmd r =? CMD_DEL); [done|].
  destruct (fm_cmd r =? CMD_GET); [|bind; by rewrite set_flows_same].
  destruct (has_flag _ _); rewrite bind_assoc; unfold flow_cmd_dump, flow_cmd_get.
  - destruct (flow_dump_reply _ _ _); [|done]. repeat bind. by rewrite set_flows_same.
  - destruct (flow_get _ _ _); [|done]. repeat bind. by rewrite set_flows_same.
Qed.

(** No reply has the type of a family of messages. *)
Definition reply_type_ok (reply : dpdk_reply) : Prop := r_type reply <> VPORT_CMD_FAMILY /\ r_type reply <> FLOW_CMD_FAMILY.

Ltac replies := repeat match goal with
  | H : (_ ≫= _) = Ok _ |- _ => apply res_bind_Ok in H as (? & _ & H)
  | H : context [let '(_, _) := ?x in _] |- _ => destruct x
  | H : (if ?b then _ else _) = Ok _ |- _ => destruct b
  | H : Ok _ = Ok _ |- _ => injection H as <-; try subst
  end; try done.

Lemma flow_serve_type c r t reply t' : flow_serve c r t = Ok (reply, t') -> reply_type_ok reply.
Proof.
  intros E. unfold flow_serve in E. destruct (_ =? CMD_NEW); [unfold flow_new in E; replies|].
  destruct (_ =? CMD_DEL); [unfold flow_del in E; replies|]. destruct (_ =? CMD_GET); [|by injection E as <- _].
  apply res_bind_Ok in E as (x & E & [= <- _]). destruct (has_flag _ _).
  - unfold flow_dump_reply in E. replies.
  - unfold flow_get in E. replies. by destruct (_ <? 0).
Qed.

(** ** Sending a request *)

(** The request with the sender's thread. *)
Definition stamped (tid : Z) (request : dpdk_message) : dpdk_message :=
  if m_type request =? FLOW_CMD_FAMILY
  then Msg (m_type request) (vport_msg request) (set_fm_id tid (flow_msg request)) (packet_msg request)
  else if m_type request =? VPORT_CMD_FAMILY
  then Msg (m_type request) (set_vm_id tid (vport_msg request)) (flow_msg request) (packet_msg request)
  else request.

(** A buffer for the daemon has room for a message. *)
Definition message_room (m : mem) (p : Z) : Prop :=
  forall b c, mbufs m !! p = Some b -> bufs m !! buf_addr b = Some c -> pkt_data b + sizeof_dpdk_message <= zlen c.

(** The state after a request was sent: its buffer [p] with header [b] has moved
    from the ring of buffers to the ring of messages. *)
Definition after_send (r1 r2 : ring) (b : rte_mbuf) (p : Z) (request : dpdk_message) d : dpt :=
  set_message_ring r2 (set_sw (set_vmem (set_mbuf p b (vmem (d_sw d))) (d_sw d))
    (set_requests (<[p := request]> (d_requests d)) (set_alloc_ring r1 d))).

Lemma fill_message_ok tid request packet p d b c :
  m_type request <> PACKET_CMD_FAMILY -> mbufs (vmem (d_sw d)) !! p = Some b -> bufs (vmem (d_sw d)) !! buf_addr b = Some c ->
  pkt_data b + sizeof_dpdk_message <= zlen c ->
  fill_mbuf tid (m_type request) request packet p d =
    Ok (true, set_sw (set_vmem (set_mbuf p (Mbuf (buf_addr b) (pkt_data b) sizeof_dpdk_message sizeof_dpdk_message) (vmem (d_sw d))) (d_sw d))
                (set_requests (<[p := stamped tid request]> (d_requests d)) d)).
Proof.
  intros Hty Hb Hc Hroom. unfold fill_mbuf, mbuf_at, buf_at. rewrite Hb. bind. rewrite Hc. bind.
  rewrite (proj2 (Z.ltb_ge _ _)) by done. by rewrite (proj2 (Z.eqb_neq _ PACKET_CMD_FAMILY)) by done.
Qed.

(** Taking one buffer from a ring that has some. *)
Lemma dequeue_one r p ps :
  ring_objs r = p :: ps -> exists r', rte_ring_dequeue_bulk 1 r = (0, [p], r') /\ ring_objs r' = ps /\ ring_cap r' = ring_cap r.
Proof.
  intros Ho. destruct (rte_ring_dequeue_bulk 1 r) as [[rc qs] r'] eqn:E.
  destruct (ring_dequeue_bulk_spec 1 _ _ _ _ ltac:(done) E) as [Hc Hr]. rewrite Ho in Hr.
  rewrite (proj2 (Z.leb_le 1 _)) in Hr by (unfold zlen; simpl; lia). destruct Hr as (-> & -> & Ho'). simpl in Ho'. rewrite drop_0 in Ho'.
  exists r'. split; [|done]. by destruct ps.
Qed.

Lemma link_send_ok (others : dpt -> res dpt) n lcore fuel tid request d X p ps :
  dpinv n lcore d X -> m_type request <> PACKET_CMD_FAMILY ->
  ring_objs (vswitchd_alloc_ring d) = p :: ps -> message_room (vmem (d_sw d)) p ->
  ring_objs (vswitchd_message_ring d) = [] -> 1 <= ring_cap (vswitchd_message_ring d) ->
  exists r1 r2 b, dpdk_link_send others (S fuel) tid request None d = Ok (0, after_send r1 r2 b p (stamped tid request) d) /\
    ring_objs r1 = ps /\ ring_objs r2 = [p] /\ ring_cap r2 = ring_cap (vswitchd_message_ring d) /\
    data_len b = sizeof_dpdk_message /\
    dpinv n lcore (after_send r1 r2 b p (stamped tid request) d) X.
Proof.
  intros Hp Hty Ha Hroom Hm Hcap. unfold dpdk_link_send, dpdk_link_send_bulk.
  change (zlen [(request, @None (list Z))]) with 1. change (LINK_BURST_SIZE <? 1) with false. cbv iota.
  unfold alloc_mbufs. cbn [spin]. destruct (dequeue_one _ _ _ Ha) as (r1 & -> & Ho1 & _). cbv beta iota. change (0 =? 0) with true. cbv iota. bind.
  destruct (owns_live (vmem (d_sw d)) _ p (proj2 (proj1 Hp))) as [b0 Hb].
  { unfold rings_objs. rewrite Ha, M_cons. clear. multiset_solver. }
  destruct (proj1 (proj2 (proj1 Hp)) p b0 Hb) as (c & Hc & Hpos & _ & _). specialize (Hroom b0 c Hb Hc).
  cbn [zip zip_with fill_mbufs]. rewrite (fill_message_ok _ _ _ _ _ b0 c) by done. bind. bind. cbn [negb].
  set (b := Mbuf _ _ _ _).
  match goal with |- context [rte_ring_enqueue_bulk [p] ?r] => change r with (vswitchd_message_ring d) end.
  destruct (rte_ring_enqueue_bulk [p] (vswitchd_message_ring d)) as [ret r2] eqn:Er2.
  destruct (ring_enqueue_bulk_spec _ _ _ _ Er2) as [Hc2 Hr2]. rewrite Hm in Hr2. rewrite (proj2 (Z.leb_le _ _)) in Hr2 by done.
  destruct Hr2 as [Hret Ho2]. exists r1, r2, b. split; [|split_and!; try done].
  - by destruct Hret as [->| ->].
  - eapply (pinv_set_vmem n lcore _ (d_sw d) (rings_objs d ⊎ X)); [exact Hp|]. intros Ho.
    eapply owns_eq; [|]. 1: eapply (set_mbuf_owns _ p b0 c); [exact Ho|done..].
    unfold rings_objs. cbn. rewrite Ha, Hm, Ho1, Ho2, !M_cons, M_nil. clear. multiset_solver.
Qed.

(** ** Serving it *)

Lemma free_buf_mem p d d' :
  free_buf p d = Ok d' -> d' = set_sw (set_vmem (rte_pktmbuf_free p (vmem (d_sw d))) (d_sw d)) d.
Proof.
  intros E. unfold free_buf, st_free_all in E. simpl in E. unfold pktmbuf_free, mbuf_at in E.
  destruct (mbufs (vmem (d_sw d)) !! p); [|done]. cbn in E. by injection E as <-.
Qed.

(** The daemon's buffers that come back are freed; a buffer in the ring of
    replies is not among them. *)
Lemma free_returned n lcore q d X :
  dpinv n lcore d X -> q ∈ M (ring_objs (vswitchd_reply_ring d)) ->
  let '(fs, r) := rte_ring_dequeue_burst PKT_BURST_SIZE (vswitchd_free_ring d) in
  exists m, st_free_all fs (d_sw (set_free_ring r d)) = Ok (set_vmem m (d_sw d)) /\
    dpinv n lcore (set_sw (set_vmem m (d_sw d)) (set_free_ring r d)) X /\ mbufs m !! q = mbufs (vmem (d_sw d)) !! q /\
    ring_objs r = drop (Z.to_nat PKT_BURST_SIZE) (ring_objs (vswitchd_free_ring d)) /\ ring_cap r = ring_cap (vswitchd_free_ring d).
Proof.
  intros Hp Hq. destruct (rte_ring_dequeue_burst PKT_BURST_SIZE (vswitchd_free_ring d)) as [fs r] eqn:Er.
  destruct (ring_dequeue_burst_spec PKT_BURST_SIZE _ _ _ ltac:(done) Er) as (Hc & Hfs & Hro).
  assert (M (ring_objs (vswitchd_free_ring d)) = M fs ⊎ M (ring_objs r)) as Hsplit by (by rewrite Hfs, Hro, <- M_app, take_drop).
  destruct Hp as [[Hwf Ho] Hs].
  destruct (st_free_all_ok n lcore fs (d_sw d) (owned (d_sw d) ⊎ (rings_objs (set_free_ring r d) ⊎ X)) Hwf) as (m & E & Hwf' & Ho' & Hk).
  { eapply owns_eq; [exact Ho|]. unfold rings_objs. simpl. rewrite Hsplit. clear. multiset_solver. }
  exists m. split; [exact E|]. split; [split; [done|]; intros k; specialize (Hs k); by destruct k|]. split_and!; [|done|done].
  apply Hk. unfold rings_objs. simpl. clear -Hq. multiset_solver.
Qed.

(** What a served request changes besides the flow table. *)
Record served (q : Z) (reply : dpdk_reply) d d' : Prop := {
  sv_message : ring_objs (vswitchd_message_ring d') = [];
  sv_message_cap : ring_cap (vswitchd_message_ring d') = ring_cap (vswitchd_message_ring d);
  sv_reply : ring_objs (vswitchd_reply_ring d') = [q];
  sv_reply_cap : ring_cap (vswitchd_reply_ring d') = ring_cap (vswitchd_reply_ring d);
  sv_replies : d_replies d' !! q = Some reply;
  sv_mbuf : exists b, mbufs (vmem (d_sw d')) !! q = Some b /\ data_len b = sizeof_dpdk_message;
  sv_free : ring_objs (vswitchd_free_ring d') = drop (Z.to_nat PKT_BURST_SIZE) (ring_objs (vswitchd_free_ring d));
  sv_free_cap : ring_cap (vswitchd_free_ring d') = ring_cap (vswitchd_free_ring d);
  sv_alloc : vswitchd_alloc_ring d' = vswitchd_alloc_ring d;
  sv_packet : vswitchd_packet_ring d' = vswitchd_packet_ring d;
  sv_upcalls : d_upcalls d' = d_upcalls d
}.

(** The switch without its statistics and memory. *)
Definition same_sw (s s' : sw) : Prop := exists m x, s' = set_vstats x (set_vmem m s).

Lemma same_sw_refl s : same_sw s s.
Proof. exists (vmem s), (vstats s). by destruct s. Qed.

Lemma same_sw_trans s1 s2 s3 : same_sw s1 s2 -> same_sw s2 s3 -> same_sw s1 s3.
Proof. intros (m & x & ->) (m' & x' & ->). by exists m', x'. Qed.

Lemma same_sw_mem m s : same_sw s (set_vmem m s).
Proof. exists m, (vstats s). by destruct s. Qed.

Lemma same_sw_stats x s : same_sw s (set_vstats x s).
Proof. exists (vmem s), x. by destruct s. Qed.

(** The handler of a request for a vport or a flow. *)
Definition handle_cmd (c : clock) (lcore : Z) (request : dpdk_message) d : res dpt :=
  if m_type request =? VPORT_CMD_FAMILY then handle_vport_cmd lcore (vport_msg request) d
  else handle_flow_cmd c lcore (flow_msg request) d.

(** A request is answered, in any state with the vports and flows of [d]: [P]
    holds of the reply, the switch and the flow table. *)
Definition handles n lcore c (request : dpdk_message) d (P : dpdk_reply -> sw -> flow_table hash -> Prop) : Prop :=
  (m_type request = VPORT_CMD_FAMILY \/ m_type request = FLOW_CMD_FAMILY) /\
  forall d2 Y, dpinv n lcore d2 Y -> same_sw (d_sw d) (d_sw d2) -> d_flows d2 = d_flows d ->
  exists reply s t, handle_cmd c lcore request d2 = send_reply_to_vswitchd lcore reply (set_flows t (set_sw s d2)) /\
    vmem s = vmem (d_sw d2) /\ dpinv n lcore (set_flows t (set_sw s d2)) Y /\ reply_type_ok reply /\ P reply s t.

Lemma handle_vswitchd_cmd_eq c lcore p request d b :
  mbufs (vmem (d_sw d)) !! p = Some b -> d_requests d !! p = Some request ->
  m_type request = VPORT_CMD_FAMILY \/ m_type request = FLOW_CMD_FAMILY ->
  handle_vswitchd_cmd c lcore p d = (d ← handle_cmd c lcore request d; free_buf p d).
Proof.
  intros Hb Hr Hty. unfold handle_vswitchd_cmd, handle_cmd, mbuf_at. rewrite Hb. bind. rewrite Hr. bind.
  by destruct Hty as [-> | ->].
Qed.

(** The datapath takes a request from an otherwise empty ring. *)
Lemma serve_ok n lcore c d X p request P :
  pool_room -> dpinv n lcore d X -> ring_objs (vswitchd_message_ring d) = [p] -> d_requests d !! p = Some request ->
  handles n lcore c request d P -> ring_objs (vswitchd_reply_ring d) = [] -> 1 <= ring_cap (vswitchd_reply_ring d) ->
  fst (rte_pktmbuf_alloc (vmem (d_sw d))) <> None ->
  exists d' q reply s, serve_requests c lcore d = Ok d' /\ dpinv n lcore d' X /\ served q reply d d' /\
    reply_type_ok reply /\ same_sw s (d_sw d') /\ P reply s (d_flows d').
Proof.
  intros Hroom Hp Hm Hreq [Hty Hh] Hrep Hcap Halloc. unfold serve_requests.
  destruct (rte_ring_dequeue_burst PKT_BURST_SIZE (vswitchd_message_ring d)) as [ps r] eqn:Er.
  destruct (ring_dequeue_burst_spec PKT_BURST_SIZE _ _ _ ltac:(done) Er) as (Hmc & Hps & Hro). rewrite Hm in Hps, Hro. simpl in Hps, Hro. subst ps.
  set (d1 := set_message_ring r d).
  assert (dpinv n lcore d1 ({[+ p +]} ⊎ X)) as Hp1.
  { eapply pinv_eq; [exact Hp|]. unfold rings_objs, d1. simpl. rewrite Hm, Hro, M_cons, M_nil. clear. multiset_solver. }
  destruct (inc_vswitchd_ok n lcore C_rx (zlen [p]) d1 _ Hp1) as (x & -> & Hp2). bind.
  set (d2 := set_sw (set_vstats x (d_sw d1)) d1) in *. cbn [handle_cmds].
  destruct (owns_live (vmem (d_sw d2)) _ p (proj2 (proj1 Hp2))) as [bp Hbp]; [clear; multiset_solver|].
  rewrite (handle_vswitchd_cmd_eq c lcore p request d2 bp Hbp Hreq Hty).
  destruct (Hh d2 _ Hp2 (same_sw_stats x (d_sw d)) eq_refl) as (reply & s & t & -> & Hvm & Hp2' & Hrt & HP). set (d2' := set_flows t (set_sw s d2)) in *.
  destruct (send_reply_ok n lcore reply d2' ({[+ p +]} ⊎ X) Hroom Hp2') as (d3 & -> & Hp3 & _ & Hfl & _ & _ & Hq). bind.
  change (vswitchd_reply_ring d2') with (vswitchd_reply_ring d) in Hq. change (d_sw d2') with s in Hq. rewrite Hrep, Hvm in Hq.
  destruct Hq as (q & Hq1 & Hq2 & m & r3 & y & b & Ea & Hb & Hd3 & Hrc); [exact Halloc|unfold zlen; simpl; lia|].
  destruct (free_buf_ok n lcore p d3 X Hp3) as (s4 & E & Hp4 & _). pose proof (free_buf_mem _ _ _ E) as Es. rewrite E. bind. bind.
  rewrite Es in *. set (d4 := set_sw _ d3) in *.
  pose proof (free_returned n lcore q d4 X Hp4) as Hfr.
  destruct (rte_ring_dequeue_burst PKT_BURST_SIZE (vswitchd_free_ring d4)) as [fs r5].
  destruct Hfr as (m5 & -> & Hp5 & Hq5 & Hr5 & Hc5). { change (vswitchd_reply_ring d4) with (vswitchd_reply_ring d3). rewrite Hq1. simpl. rewrite M_cons. clear. multiset_solver. }
  bind. eexists _, q, reply, s. split; [done|]. split; [exact Hp5|].
  assert (p <> q) as Hpq. { intros ->. destruct (alloc_some _ _ _ Ea) as [Hnone _]. cbn in Hnone, Hbp. congruence. }
  assert (mbufs (vmem (d_sw d3)) !! q = Some b) as Hqb by (rewrite Hd3; apply lookup_insert_eq).
  assert (vswitchd_free_ring d4 = vswitchd_free_ring d /\ vswitchd_message_ring d4 = r /\ vswitchd_alloc_ring d4 = vswitchd_alloc_ring d /\
    vswitchd_packet_ring d4 = vswitchd_packet_ring d /\ d_upcalls d4 = d_upcalls d /\
    ring_cap (vswitchd_reply_ring d4) = ring_cap (vswitchd_reply_ring d)) as (Ef & Em & Eal & Epk & Eup & Erc).
  { unfold d4. rewrite Hd3. done. }
  rewrite Ef in Hr5, Hc5. split.
  { split; try done; [by change (ring_objs (vswitchd_message_ring d4) = []); rewrite Em|by change (ring_cap (vswitchd_message_ring d4) = ring_cap (vswitchd_message_ring d)); rewrite Em|].
    cbn. rewrite Hq5. unfold d4. cbn. rewrite free_mbufs, lookup_delete_ne by done. by exists b. }
  split; [done|]. split; [|by change (d_flows _) with (d_flows d3); rewrite Hfl].
  eapply same_sw_trans; [|apply same_sw_mem]. unfold d4. eapply same_sw_trans; [|apply same_sw_mem]. rewrite Hd3. cbn [d_sw set_sw].
  eapply same_sw_trans; [|apply same_sw_stats]. apply same_sw_mem.
Qed.

(** ** Receiving the reply *)

(** The rings have no high water mark: a successful call returns 0. *)
Definition no_water_mark : Prop := forall p (r : ring), fst (rte_ring_enqueue p r) <> - EDQUOT.

(** The pool has a buffer left. *)
Definition pool_free (m : mem) : Prop :=
  forall m', dom (mbufs m') = dom (mbufs m) -> fst (rte_pktmbuf_alloc m') <> None.

(** No request is under way. *)
Record idle d : Prop := {
  id_message : ring_objs (vswitchd_message_ring d) = [];
  id_reply : ring_objs (vswitchd_reply_ring d) = [];
  id_message_cap : 1 <= ring_cap (vswitchd_message_ring d);
  id_reply_cap : 1 <= ring_cap (vswitchd_reply_ring d);
  id_free_cap : 1 <= ring_cap (vswitchd_free_ring d)
}.

Lemma dequeue_none r : ring_objs r = [] -> exists ps, rte_ring_dequeue_bulk 1 r = (- ENOENT, ps, r).
Proof.
  intros Ho. destruct (rte_ring_dequeue_bulk 1 r) as [[rc qs] r'] eqn:E.
  destruct (ring_dequeue_bulk_spec 1 _ _ _ _ ltac:(done) E) as [Hc Hr]. rewrite Ho in Hr. destruct Hr as [-> ->]. by exists qs.
Qed.

Lemma to_be_freed_ok (others : dpt -> res dpt) fuel q d :
  no_water_mark -> zlen (ring_objs (vswitchd_free_ring d)) < ring_cap (vswitchd_free_ring d) ->
  exists r, enqueue_mbuf_to_be_freed others (S fuel) q d = Ok (set_free_ring r d) /\
    ring_objs r = ring_objs (vswitchd_free_ring d) ++ [q] /\ ring_cap r = ring_cap (vswitchd_free_ring d).
Proof.
  intros Hw Hroom. unfold enqueue_mbuf_to_be_freed. cbn [spin].
  pose proof (Hw q (vswitchd_free_ring d)) as Hwq. destruct (rte_ring_enqueue q (vswitchd_free_ring d)) as [rc r] eqn:E.
  destruct (ring_enqueue_spec _ _ _ _ E) as [Hc Hr]. rewrite (proj2 (Z.ltb_lt _ _)) in Hr by done. destruct Hr as [[->| ->] Ho]; [|done].
  exists r. by split.
Qed.

Lemma set_reply_ring_same d : set_reply_ring (vswitchd_reply_ring d) (d_replies d) d = d.
Proof. by destruct d. Qed.

(** The reply comes while the daemon waits: it is received and its buffer given back. *)
Lemma recv_reply_ok (others : dpt -> res dpt) n lcore fuel tid d1 d X q b reply :
  no_water_mark -> ring_objs (vswitchd_reply_ring d1) = [] -> others d1 = Ok d ->
  dpinv n lcore d X -> ring_objs (vswitchd_reply_ring d) = [q] -> d_replies d !! q = Some reply -> reply_type_ok reply ->
  mbufs (vmem (d_sw d)) !! q = Some b -> data_len b = sizeof_dpdk_message ->
  zlen (ring_objs (vswitchd_free_ring d)) < ring_cap (vswitchd_free_ring d) ->
  exists r1 r2, let d' := set_free_ring r2 (set_reply_ring r1 (d_replies d) d) in
    dpdk_link_recv_reply others (S (S (S fuel))) tid d1 = Ok (reply, d') /\
    ring_objs r1 = [] /\ ring_cap r1 = ring_cap (vswitchd_reply_ring d) /\ ring_cap r2 = ring_cap (vswitchd_free_ring d) /\
    dpinv n lcore d' X.
Proof.
  intros Hw H1 Hoth Hp Hq Hre [Ht1 Ht2] Hb Hlen Hroom. cbn [dpdk_link_recv_reply spin].
  destruct (dequeue_none _ H1) as [qs ->]. cbv beta iota. change (- ENOENT =? 0) with false. cbv iota.
  rewrite set_reply_ring_same, Hoth. bind. destruct (dequeue_one _ _ _ Hq) as (r1 & -> & Ho1 & Hc1). cbv beta iota.
  change (0 =? 0) with true. cbv iota. bind. change (index [q] 0) with (Ok q). bind.
  unfold mbuf_at. cbn [d_sw set_reply_ring]. rewrite Hb. bind. cbn [d_replies set_reply_ring]. rewrite Hre. bind.
  rewrite (proj2 (Z.eqb_neq _ _) Ht1), (proj2 (Z.eqb_neq _ _) Ht2), Hlen. cbn [orb andb]. rewrite Z.ltb_irrefl.
  destruct (to_be_freed_ok others (S fuel) q (set_reply_ring r1 (d_replies d) d) Hw Hroom) as (r2 & E & Ho2 & Hc2).
  exists r1, r2. cbv zeta. split; [by rewrite E|]. split_and!; try done. eapply pinv_eq; [exact Hp|].
  unfold rings_objs. cbn in Ho2 |- *. rewrite Hq, Ho1, Ho2, M_app, M_cons, M_nil. clear. multiset_solver.
Qed.

Lemma drop_room (r : ring) n : 1 <= ring_cap r -> (0 < n)%nat -> zlen (drop n (ring_objs r)) < ring_cap r.
Proof. intros Hc Hn. pose proof (ring_count_cap r). unfold zlen in *. rewrite length_drop. lia. Qed.

(** ** The whole transaction *)

(** What a transaction leaves alone. *)
Definition transacted (ps : list Z) d d' : Prop :=
  idle d' /\ ring_objs (vswitchd_alloc_ring d') = ps /\ vswitchd_packet_ring d' = vswitchd_packet_ring d /\ d_upcalls d' = d_upcalls d.

(** A transaction can start: buffers and rings are as the datapath leaves them
    between requests, and [p] is the next buffer for the daemon. *)
Definition ready n lcore d X (p : Z) (ps : list Z) : Prop :=
  pool_room /\ no_water_mark /\ dpinv n lcore d X /\ idle d /\ ring_objs (vswitchd_alloc_ring d) = p :: ps /\
  message_room (vmem (d_sw d)) p /\ pool_free (vmem (d_sw d)).

(** The daemon waits while the datapath serves the request. *)
Lemma transact_ok n lcore c fuel tid request d X p ps P :
  ready n lcore d X p ps -> handles n lcore c (stamped tid request) d P ->
  exists d1 reply s d', dpdk_link_send (serve_requests c lcore) (S (S (S fuel))) tid request None d = Ok (0, d1) /\
    dpdk_link_recv_reply (serve_requests c lcore) (S (S (S fuel))) tid d1 = Ok (reply, d') /\
    dpinv n lcore d' X /\ transacted ps d d' /\ same_sw s (d_sw d') /\ P reply s (d_flows d').
Proof.
  intros (Hroom & Hw & Hp & [Hm Hr Hmc Hrc Hfc] & Ha & Hmr & Hpf) Hh.
  assert (m_type request <> PACKET_CMD_FAMILY) as Hty.
  { destruct Hh as [Hty _]. unfold stamped in Hty. intros E. rewrite E in Hty. cbn in Hty. rewrite E in Hty. by destruct Hty. }
  destruct (link_send_ok (serve_requests c lcore) n lcore (S (S fuel)) tid request d X p ps Hp)
    as (r1 & r2 & b1 & E1 & Ho1 & Ho2 & Hc2 & Hb1 & Hp1); [done..|].
  set (req := stamped tid request) in *. set (d1 := after_send r1 r2 b1 p req d) in *.
  destruct (serve_ok n lcore c d1 X p req P Hroom Hp1) as (d2 & q & reply & s & E2 & Hp2 & [] & Hrt & Hs & HP); try done.
  { apply lookup_insert_eq. }
  { apply Hpf. cbn. rewrite dom_insert_L. destruct (owns_live (vmem (d_sw d)) _ p (proj2 (proj1 Hp))) as [b Hb].
    - unfold rings_objs. rewrite Ha, M_cons. clear. multiset_solver.
    - apply elem_of_dom_2 in Hb. clear -Hb. set_solver. }
  destruct sv_mbuf0 as (b & Hb & Hlen).
  destruct (recv_reply_ok (serve_requests c lcore) n lcore fuel tid d1 d2 X q b reply Hw Hr E2 Hp2) as (r3 & r4 & E3 & Ho3 & Hc3 & Hc4 & Hp3); try done.
  { rewrite sv_free0, sv_free_cap0. apply drop_room; [exact Hfc|]. by vm_compute; lia. }
  eexists d1, reply, s, _. split; [exact E1|]. split; [exact E3|]. split; [exact Hp3|]. split; [|done]. split_and!.
  - split; cbn; rewrite ?Hc3, ?Hc4, ?sv_message_cap0, ?sv_reply_cap0, ?sv_free_cap0; try done. change (1 <= ring_cap r2). by rewrite Hc2.
  - cbn. by rewrite sv_alloc0.
  - exact sv_packet0.
  - exact sv_upcalls0.
Qed.

Lemma handles_flow n lcore c request d reply t :
  m_type request = FLOW_CMD_FAMILY -> flow_serve c (flow_msg request) (d_flows d) = Ok (reply, t) ->
  handles n lcore c request d (fun reply' s t' => reply' = reply /\ t' = t /\ same_sw (d_sw d) s).
Proof.
  intros Hty Hs. split; [by right|]. intros d2 Y Hp Hsame Hfl. exists reply, (d_sw d2), t.
  unfold handle_cmd. rewrite Hty. change (FLOW_CMD_FAMILY =? VPORT_CMD_FAMILY) with false. cbv iota.
  rewrite handle_flow_cmd_serve, Hfl, Hs. bind. assert (set_sw (d_sw d2) d2 = d2) as -> by (by destruct d2).
  split; [done|]. split; [done|]. split; [done|]. split; [by eapply flow_serve_type|done].
Qed.

Lemma ready_transact n lcore c fuel tid views r d X p ps reply t :
  ready n lcore d X p ps -> flow_serve c (set_fm_id tid r) (d_flows d) = Ok (reply, t) ->
  exists d', dpif_dpdk_flow_transact (serve_requests c lcore) (S (S (S fuel))) tid views r d =
      Ok (r_type reply, Some (flow_member views (r_body reply)), d') /\
    dpinv n lcore d' X /\ d_flows d' = t /\ transacted ps d d'.
Proof.
  intros Hr Hs. destruct (transact_ok n lcore c fuel tid (flow_request views r) d X p ps _ Hr
    (handles_flow n lcore c (stamped tid (flow_request views r)) d reply t eq_refl Hs))
    as (d1 & reply' & s & d' & E1 & E2 & Hp & Ht & _ & -> & Hf & _).
  unfold dpif_dpdk_flow_transact. rewrite E1. bind. cbv iota. rewrite E2. by exists d'.
Qed.

(** ** Commands for flows *)

Definition flow_stats_of (x : flow_stats) : dpif_flow_stats :=
  DpifFlowStats (packet_count x) (byte_count x) (used x) (tcp_flags x).

(** What a put does to the flows, as [dpif-provider.h] has it: error, statistics
    and the flows after it. *)
Inductive put_spec (c : clock) (flags : Z) (k : flow_key) (a : list action) t : Z -> option dpif_flow_stats -> fmap -> Prop :=
| put_added m : flow_map t k = None -> has_flag flags DPIF_FP_CREATE = true ->
    fmap_eq m (fmap_set k (Some (a, zero_stats)) (flow_map t)) ->
    put_spec c flags k a t 0 (Some (flow_stats_of zero_stats)) m
| put_absent m : flow_map t k = None -> has_flag flags DPIF_FP_CREATE = false -> fmap_eq m (flow_map t) ->
    put_spec c flags k a t ENOENT None m
| put_replaced a0 x m : flow_map t k = Some (a0, x) -> has_flag flags DPIF_FP_MODIFY = true ->
    fmap_eq m (fmap_set k (Some (a, if has_flag flags DPIF_FP_ZERO_STATS then zero_stats else x)) (flow_map t)) ->
    put_spec c flags k a t 0 (Some (flow_stats_of (stats_out c x))) m
| put_exists a0 x m : flow_map t k = Some (a0, x) -> has_flag flags DPIF_FP_MODIFY = false -> fmap_eq m (flow_map t) ->
    put_spec c flags k a t EEXIST None m.

(** A flow that would have to be added, when the hash table has no room. *)
Definition no_room (flags : Z) (k : flow_key) t : Prop :=
  flow_map t k = None /\ has_flag flags DPIF_FP_CREATE = true /\ fst (rte_hash_add_key (handle t) k) = - ENOSPC.

(** What happens: in that case the datapath reports success and does nothing. *)
Definition put_outcome (c : clock) (flags : Z) (k : flow_key) (a : list action) t (error : Z) (st : option dpif_flow_stats) (m : fmap) : Prop :=
  put_spec c flags k a t error st m \/
  (no_room flags k t /\ error = 0 /\ st = Some (flow_stats_of zero_stats) /\ fmap_eq m (flow_map t)).

(** The flags of the request. *)
Definition put_nl_flags (flags : Z) : Z :=
  Z.lor (if has_flag flags DPIF_FP_MODIFY then NLM_F_REPLACE else 0) (if has_flag flags DPIF_FP_CREATE then NLM_F_CREATE else 0).

Lemma put_nl_flags_ok flags :
  has_flag (put_nl_flags flags) FLAG_CREATE = has_flag flags DPIF_FP_CREATE /\
  has_flag (put_nl_flags flags) FLAG_REPLACE = has_flag flags DPIF_FP_MODIFY.
Proof. unfold put_nl_flags. by destruct (has_flag flags DPIF_FP_MODIFY), (has_flag flags DPIF_FP_CREATE). Qed.

(** A flow that the hash table takes is in the table. *)
Lemma flow_new_takes c r t reply t' :
  ft_wf t -> flow_map t (fm_key r) = None -> has_flag (fm_flags r) FLAG_CREATE = true ->
  fst (rte_hash_add_key (handle t) (fm_key r)) <> - ENOSPC -> flow_new c r t = Ok (reply, t') ->
  flow_map t' (fm_key r) <> None.
Proof.
  intros Hwf Hm Hfl Hroom. unfold flow_new. rewrite (lookup_sign _ _ Hwf), Hm, Hfl. cbv iota. intros E.
  apply res_bind_Ok in E as ([rc t1] & E & [= _ <-]).
  destruct (add_refines (fm_key r) (fm_actions r) t Hwf) as (rc' & t2 & E2 & _ & Hs2). rewrite E in E2. injection E2 as <- <-.
  unfold flow_table_add_flow in E.
  pose proof (flow_map_hit t (fm_key r) Hwf) as Hh. destruct (hash_pos (handle t) (fm_key r)) as [q|] eqn:Eq.
  { destruct Hh as (e & _ & _ & _ & _ & _ & Hm'). congruence. }
  destruct Hh as [_ Hl]. rewrite (proj2 (Z.leb_gt 0 _)) in E by done.
  destruct (rte_hash_add_key (handle t) (fm_key r)) as [pos h] eqn:Ea. pose proof (hash_add_spec _ _ _ _ Ea) as Hs. rewrite Eq in Hs.
  destruct Hs as [[-> _]|[Hp Hne]]; [done|]. pose proof (hash_pos_range _ _ _ Hp) as Hr.
  rewrite bad_pos_false in E by done. cbn [table handle] in E. apply res_bind_Ok in E as (e & _ & E). apply res_bind_Ok in E as (t3 & _ & [= <- <-]).
  inversion Hs2 as [|? ? ? ? Hneg|? ? ? ? ? ? Heq| | | | |]; try congruence; [subst; lia|].
  rewrite Heq. unfold fmap_set. by rewrite decide_True.
Qed.

Lemma flow_put_serve c flags k a tid t :
  ft_wf t -> let r := FlowMsg tid CMD_NEW (put_nl_flags flags) k zero_stats a (has_flag flags DPIF_FP_ZERO_STATS) in
  exists reply r' t', flow_serve c r t = Ok (reply, t') /\ r_body reply = FlowReply r' /\ ft_wf t' /\
    put_outcome c flags k a t (r_type reply) (if r_type reply =? 0 then Some (dpif_dpdk_flow_get_stats r') else None) (flow_map t').
Proof.
  intros Hwf r. change (flow_serve c r t) with (flow_new c r t). destruct (put_nl_flags_ok flags) as [Hc Hm].
  destruct (flow_new_refines c r t Hwf) as (reply & t' & E & Hwf' & Hs).
  assert (exists r', r_body reply = FlowReply r') as [r' Hr'] by (inversion Hs; eauto).
  exists reply, r', t'. split; [done|]. split; [done|]. split; [done|].
  pose proof (flow_new_takes c r t reply t' Hwf) as Htk. revert Htk.
  destruct Hs as [m ? Hf|m ? Hf Heq|m ? Hf|a0 x m ? Hf|a0 x m ? Hf]; injection Hr' as Hr'; rewrite <- Hr'; cbn [fm_key fm_flags fm_actions fm_clear r] in *;
    rewrite ?Hc, ?Hm in Hf; intros Htk.
  - left. by apply put_added.
  - destruct (decide (fst (rte_hash_add_key (handle t) k) = - ENOSPC)); [by right|].
    exfalso. apply Htk; [done|by cbn; rewrite Hc|done|exact E|]. by rewrite Heq.
  - left. by apply put_absent.
  - left. by eapply put_replaced.
  - left. by eapply put_exists.
Qed.

Lemma flow_put_ok n lcore c fuel tid views put key k a d X p ps :
  ready n lcore d X p ps -> ft_wf (d_flows d) -> put_key put = Some key -> key_of_attrs key (put_key_len put) = Ok k ->
  dpif_dpdk_create_actions null_actions (put_actions_attrs put) (put_actions_len put) = Ok a ->
  exists error st d', dpif_dpdk_flow_put (serve_requests c lcore) (S (S (S fuel))) tid views put d = Ok (error, st, d') /\
    put_outcome c (put_flags put) k a (d_flows d) error st (flow_map (d_flows d')) /\
    ft_wf (d_flows d') /\ dpinv n lcore d' X /\ transacted ps d d'.
Proof.
  intros Hr Hwf Hk Hkey Hact. unfold dpif_dpdk_flow_put, flow_message_put_create. rewrite Hk, Hkey. bind.
  change (fm_actions (set_fm_cmd CMD_NEW dpif_dpdk_flow_init)) with null_actions. rewrite Hact. bind. cbv zeta. set (r := FlowMsg _ _ _ _ _ _ _). bind.
  destruct (flow_put_serve c (put_flags put) k a tid (d_flows d) Hwf) as (reply & r' & t' & E & Hb & Hwf' & Hs).
  destruct (ready_transact n lcore c fuel tid views r d X p ps reply t' Hr E) as (d' & -> & Hp & Hf & Ht).
  eexists _, _, d'. rewrite Hf. split; [|split; [exact Hs|done]].
  bind. rewrite Hb. destruct (r_type reply =? 0); done.
Qed.

Lemma zlen_visited a : zlen (visited a) <= MAX_ACTIONS.
Proof.
  unfold visited, zlen. enough (forall k l, (length (until_null k l) <= k)%nat) as Hk by (specialize (Hk (Z.to_nat MAX_ACTIONS) a); unfold MAX_ACTIONS in *; lia).
  induction k as [|k IH]; intros [|x l]; simpl; try lia. destruct (is_null x); simpl; [lia|]. specialize (IH l). lia.
Qed.

(** C8: A put by the daemon, through the rings, the datapath and back, with a
    key and actions that can be read from their attributes, for every
    combination of flags and of a flow that is there or not, when the hash
    table has room for a flow that is to be added: the error, the statistics
    and the map of flows are what the interface of the daemon says, the rings
    are idle again and every buffer is accounted for. *)
Theorem flow_put_correct n lcore c fuel tid views put key k a d X p ps :
  ready n lcore d X p ps -> ft_wf (d_flows d) -> put_key put = Some key -> key_of_attrs key (put_key_len put) = Ok k ->
  dpif_dpdk_create_actions null_actions (put_actions_attrs put) (put_actions_len put) = Ok a ->
  ~ no_room (put_flags put) k (d_flows d) ->
  exists error st d', dpif_dpdk_flow_put (serve_requests c lcore) (S (S (S fuel))) tid views put d = Ok (error, st, d') /\
    put_spec c (put_flags put) k a (d_flows d) error st (flow_map (d_flows d')) /\
    ft_wf (d_flows d') /\ dpinv n lcore d' X /\ transacted ps d d'.
Proof.
  intros Hr Hwf Hk Hkey Hact Hroom. destruct (flow_put_ok n lcore c fuel tid views put key k a d X p ps Hr Hwf Hk Hkey Hact) as (e & st & d' & E & [Hs|[? _]] & Hrest); [|done].
  by exists e, st, d'.
Qed.

(** C25: A get by the daemon, with a key that can be read from its attributes,
    for flows whose actions have members within their types, returns the
    statistics of the flow and, if the caller asks for them and passes an
    empty buffer with room, exactly its actions as attributes in that buffer;
    without a flow with the key it returns ENOENT; the flows stay as they are,
    the rings are idle again and every buffer is accounted for. *)
Theorem flow_get_correct n lcore c fuel tid views junk key key_len actionsp k d X p ps :
  (forall i, is_u8 (junk i)) -> ready n lcore d X p ps -> ft_wf (d_flows d) -> key_of_attrs key key_len = Ok k ->
  (forall buf, actionsp = Some buf -> roomy (2 * MAX_ACTIONS) buf /\ contents buf = []) ->
  (forall a x, flow_map (d_flows d) k = Some (a, x) -> Forall action_typed (visited a)) ->
  exists d', d_flows d' = d_flows d /\ dpinv n lcore d' X /\ transacted ps d d' /\
    match flow_map (d_flows d) k with
    | None => dpif_dpdk_flow_get (serve_requests c lcore) (S (S (S fuel))) tid views junk (Some key) key_len (Some <$> actionsp) d =
                Ok (ENOENT, None, d')
    | Some (a, x) => exists actionsp',
        dpif_dpdk_flow_get (serve_requests c lcore) (S (S (S fuel))) tid views junk (Some key) key_len (Some <$> actionsp) d =
          Ok (0, Some (flow_stats_of (stats_out c x), actionsp'), d') /\
        contents <$> actionsp' = (fun _ => attrs (map action_attr (visited a))) <$> actionsp
    end.
Proof.
  intros Hj Hr Hwf Hkey Hroom Hty. set (r := set_fm_key k (set_fm_cmd CMD_GET dpif_dpdk_flow_init)).
  pose proof (get_flow_spec c k (d_flows d) Hwf) as Hg.
  assert (flow_serve c (set_fm_id tid r) (d_flows d) = (reply ← flow_get c (set_fm_id tid r) (d_flows d); Ok (reply, d_flows d))) as Es by done.
  unfold flow_get in Es. change (fm_key (set_fm_id tid r)) with k in Es. unfold dpif_dpdk_flow_get, flow_message_get_create. rewrite Hkey. bind. fold r. bind.
  destruct (flow_map (d_flows d) k) as [[a x]|] eqn:Em.
  - destruct Hg as (pos & Hpos & Hg). rewrite Hg in Es. revert Es. repeat bind. intros Es.
    destruct (ready_transact n lcore c fuel tid views r d X p ps _ _ Hr Es) as (d' & -> & Hp & Hf & Ht).
    exists d'. do 3 (split; [done|]). rewrite (proj2 (Z.ltb_ge pos 0)) by apply Hpos.
    repeat bind. cbn [negb Z.eqb r_type flow_member r_body replied]. cbv iota. repeat bind. destruct actionsp as [buf|]; [|by exists None].
    destruct (Hroom buf eq_refl) as [Hrm Hnil].
    destruct (put_actions_ok junk Hj (visited a) (2 * MAX_ACTIONS) buf) as (buf' & Eb & _ & Hc); [by eapply Hty|pose proof (zlen_visited a); lia|done|].
    exists (Some buf'). cbn. cbn [fm_actions with_flow_out]. unfold dpif_dpdk_flow_actions_to_actions. rewrite Eb. repeat bind. by rewrite Hc, Hnil.
  - rewrite Hg in Es. revert Es. repeat bind. intros Es.
    destruct (ready_transact n lcore c fuel tid views r d X p ps _ _ Hr Es) as (d' & -> & Hp & Hf & Ht).
    exists d'. do 3 (split; [done|]). by bind.
Qed.

(** What [dpif_dpdk_flow_del] does: the key of zeros deletes every flow. *)
Inductive del_spec (c : clock) (k : flow_key) (m : fmap) : Z -> option dpif_flow_stats -> fmap -> Prop :=
| del_all m' : k = empty_key -> fmap_eq m' (fun _ => None) -> del_spec c k m 0 (Some (flow_stats_of zero_stats)) m'
| del_none m' : k <> empty_key -> m k = None -> fmap_eq m' m -> del_spec c k m ENOENT None m'
| del_one a x m' : k <> empty_key -> m k = Some (a, x) -> fmap_eq m' (fmap_set k None m) ->
    del_spec c k m 0 (Some (flow_stats_of (stats_out c x))) m'.

Lemma flow_del_serve c k tid t :
  ft_wf t -> let r := set_fm_key k (set_fm_cmd CMD_DEL dpif_dpdk_flow_init) in
  exists reply r' t', flow_serve c (set_fm_id tid r) t = Ok (reply, t') /\ r_body reply = FlowReply r' /\ ft_wf t' /\
    del_spec c k (flow_map t) (r_type reply) (if r_type reply =? 0 then Some (dpif_dpdk_flow_get_stats r') else None) (flow_map t').
Proof.
  intros Hwf r. change (flow_serve c (set_fm_id tid r) t) with (flow_del c (set_fm_id tid r) t).
  destruct (flow_del_refines c (set_fm_id tid r) t Hwf) as (reply & t' & E & Hwf' & Hs).
  assert (exists r', r_body reply = FlowReply r') as [r' Hr'] by (inversion Hs; eauto).
  exists reply, r', t'. split; [done|]. split; [done|]. split; [done|].
  destruct Hs; injection Hr' as Hr'; rewrite <- Hr'; [by apply del_all|by apply del_none|by eapply del_one].
Qed.

Lemma flow_del_ok n lcore c fuel tid views key key_len k d X p ps :
  ready n lcore d X p ps -> ft_wf (d_flows d) -> key_of_attrs key key_len = Ok k ->
  exists error st d', dpif_dpdk_flow_del (serve_requests c lcore) (S (S (S fuel))) tid views (FlowDel (Some key) key_len) d = Ok (error, st, d') /\
    del_spec c k (flow_map (d_flows d)) error st (flow_map (d_flows d')) /\
    ft_wf (d_flows d') /\ dpinv n lcore d' X /\ transacted ps d d'.
Proof.
  intros Hr Hwf Hkey. unfold dpif_dpdk_flow_del, flow_message_del_create. cbn [del_key del_key_len]. rewrite Hkey. repeat bind.
  destruct (flow_del_serve c k tid (d_flows d) Hwf) as (reply & r' & t' & E & Hb & Hwf' & Hs).
  destruct (ready_transact n lcore c fuel tid views _ d X p ps reply t' Hr E) as (d' & -> & Hp & Hf & Ht).
  eexists _, _, d'. rewrite Hf. split; [|split; [exact Hs|done]].
  bind. rewrite Hb. destruct (r_type reply =? 0); done.
Qed.

(** C24: A delete by the daemon, through the rings, the datapath and back, for
    a key that can be read from its attributes and is not all zeros: a flow
    with the key is removed and its last statistics are returned, without one
    the result is ENOENT; all other flows stay as they are, the rings are idle
    again and every buffer is accounted for. *)
Theorem flow_del_correct n lcore c fuel tid views key key_len k d X p ps :
  ready n lcore d X p ps -> ft_wf (d_flows d) -> key_of_attrs key key_len = Ok k -> k <> empty_key ->
  exists error st d', dpif_dpdk_flow_del (serve_requests c lcore) (S (S (S fuel))) tid views (FlowDel (Some key) key_len) d = Ok (error, st, d') /\
    fmap_eq (flow_map (d_flows d')) (fmap_set k None (flow_map (d_flows d))) /\
    (error, st) = match flow_map (d_flows d) k with
                  | Some (a, x) => (0, Some (flow_stats_of (stats_out c x)))
                  | None => (ENOENT, None)
                  end /\
    ft_wf (d_flows d') /\ dpinv n lcore d' X /\ transacted ps d d'.
Proof.
  intros Hr Hwf Hkey Hk. destruct (flow_del_ok n lcore c fuel tid views key key_len k d X p ps Hr Hwf Hkey) as (error & st & d' & E & Hs & Hrest).
  exists error, st, d'. split; [done|].
  destruct Hs as [m' Hz _|m' _ Hn Hm|a x m' _ Hn Hm]; [done|rewrite Hn; split; [|done]..]; [|done].
  intros k2. rewrite Hm. unfold fmap_set. case_decide; [by subst|done].
Qed.

(** A key of zeros, which a flow can have, deletes every flow. *)
Theorem flow_del_zero_key_flushes n lcore c fuel tid views key key_len d X p ps :
  ready n lcore d X p ps -> ft_wf (d_flows d) -> key_of_attrs key key_len = Ok empty_key ->
  exists d', dpif_dpdk_flow_del (serve_requests c lcore) (S (S (S fuel))) tid views (FlowDel (Some key) key_len) d =
      Ok (0, Some (flow_stats_of zero_stats), d') /\ fmap_eq (flow_map (d_flows d')) (fun _ => None).
Proof.
  intros Hr Hwf Hkey. destruct (flow_del_ok n lcore c fuel tid views key key_len empty_key d X p ps Hr Hwf Hkey) as (error & st & d' & E & Hs & _).
  exists d'. by destruct Hs as [m' _ Hm|m' Hz|a x m' Hz].
Qed.

(** [dpif_dpdk_flow_flush] leaves no flow. *)
Theorem flow_flush_correct n lcore c fuel tid views d X p ps :
  ready n lcore d X p ps -> ft_wf (d_flows d) ->
  exists d', dpif_dpdk_flow_flush (serve_requests c lcore) (S (S (S fuel))) tid views d = Ok (0, d') /\
    fmap_eq (flow_map (d_flows d')) (fun _ => None) /\ ft_wf (d_flows d') /\ dpinv n lcore d' X /\ transacted ps d d'.
Proof.
  intros Hr Hwf. unfold dpif_dpdk_flow_flush.
  destruct (flow_del_serve c empty_key tid (d_flows d) Hwf) as (reply & r' & t' & E & Hb & Hwf' & Hs).
  destruct (ready_transact n lcore c fuel tid views flow_message_flush_create d X p ps reply t' Hr E) as (d' & -> & Hp & Hf & Ht).
  bind. exists d'. rewrite Hf. inversion Hs; try done.
Qed.

End Transactions.

(** ** Examples *)

(** The example switch with the packet of the example in buffer 1, and buffer 2
    for the daemon. *)
Definition wit_buf : list Z := replicate 64 0 ++ wit_packet ++ replicate 100 0.
Definition wit_mem : mem :=
  Mem (<[1 := Mbuf 1 64 58 58]> {[2 := Mbuf 2 64 0 0]}) (<[1 := wit_buf]> {[2 := replicate 1024 0]}).
Definition wit_st : vst fifo unit queues := set_vmem wit_mem sample_st.
Definition wit_dp (t : flow_table (list (option flow_key))) : dp fifo unit queues (list (option flow_key)) :=
  Dp wit_st t (sample_ring []) (sample_ring []) (sample_ring []) (sample_ring []) (sample_ring [2]) ∅ ∅ ∅ 0.

Lemma sample_owned : owned sample_st = ∅.
Proof. vm_compute. reflexivity. Qed.

Lemma wit_owns : owns wit_mem ({[+ 2 +]} ⊎ {[+ 1 +]}).
Proof.
  split.
  - intros p b. unfold wit_mem. cbn [mbufs bufs]. intros [[<- <-]|[? [<- <-]%lookup_singleton_Some]]%lookup_insert_Some.
    + exists wit_buf. by split; vm_compute.
    + exists (replicate 1024 0). by split; vm_compute.
  - intros p. rewrite multiplicity_disj_union, !multiplicity_singleton. unfold wit_mem. cbn [mbufs].
    destruct (decide (p = 1)) as [->|H1]; [by vm_compute|]. rewrite lookup_insert_ne by done.
    destruct (decide (p = 2)) as [->|H2]; [by vm_compute|]. rewrite lookup_singleton_ne by done. done.
Qed.

Lemma wit_dpinv t : dpinv 4 0 (wit_dp t) ({[+ 1 +]} ⊎ ∅).
Proof.
  eapply (pinv_set_vmem 4 0 _ sample_st); [apply sample_st_pinv|]. intros _. eapply owns_eq; [apply wit_owns|].
  rewrite sample_owned. assert (rings_objs (wit_dp t) = {[+ 2 +]}) as -> by done. multiset_solver.
Qed.

Lemma wit_ready t : ready 4 0 (wit_dp t) ({[+ 1 +]} ⊎ ∅) 2 [].
Proof.
  split_and!; [apply sample_pool_room| |apply wit_dpinv|by split|done| |].
  - intros p r. cbn. by destruct (_ <? _).
  - intros b c Hb Hc. vm_compute in Hb. injection Hb as <-. vm_compute in Hc. injection Hc as <-. by vm_compute.
  - intros m' Hm'. cbn. unfold pool_alloc. rewrite <- size_dom, Hm'. vm_compute. done.
Qed.

Definition wit_views : union_views :=
  UnionViews (fun _ => sample_flow_msg) (fun _ => sample_actions 2) (fun _ => sample_vport_msg 1) (fun _ => sample_actions 2)
    (fun _ => sample_vport_msg 1) (fun _ => sample_flow_msg).
Definition wit_key_bytes : list Z := Eval vm_compute in attrs (key_attrs (dpif_dpdk_flow_key_to_flow wit_key) 17).
Definition wit_action_bytes : list Z := Eval vm_compute in attrs (map action_attr wit_actions).
Definition wit_put : dpif_flow_put :=
  FlowPut DPIF_FP_CREATE (Some wit_key_bytes) (zlen wit_key_bytes) (Some wit_action_bytes) (zlen wit_action_bytes).
Definition wit_array : list action := wit_actions ++ replicate 43 ACTION_NULL.

Lemma flow_put_correct_witness :
  exists error st d', dpif_dpdk_flow_put (serve_requests sample_clock 0) 3 5 wit_views wit_put (wit_dp sample_table) = Ok (error, st, d') /\
    put_spec sample_clock DPIF_FP_CREATE wit_key wit_array sample_table error st (flow_map (d_flows d')) /\
    dpinv 4 0 d' ({[+ 1 +]} ⊎ ∅).
Proof.
  destruct (flow_put_correct 4 0 sample_clock 0 5 wit_views wit_put wit_key_bytes wit_key wit_array (wit_dp sample_table) ({[+ 1 +]} ⊎ ∅) 2 [])
    as (error & st & d' & E & Hs & _ & Hp & _);
    [apply wit_ready|apply sample_table_wf|reflexivity|vm_compute; reflexivity|vm_compute; reflexivity|intros (_ & _ & Hf); vm_compute in Hf; discriminate|].
  exists error, st, d'. split; [exact E|]. split; [exact Hs|exact Hp].
Defined.

Lemma wit_get :
  flow_map (d_flows (wit_dp (with_flow wit_key))) wit_key = Some (sample_actions 2, zero_stats) /\
  roomy (2 * MAX_ACTIONS) (ofpbuf_init zeros 0) /\ contents (ofpbuf_init zeros 0) = [].
Proof. split; [vm_compute; reflexivity|]. split; [by apply init_roomy|reflexivity]. Qed.

Lemma flow_get_correct_witness :
  exists d' buf', dpif_dpdk_flow_get (serve_requests sample_clock 0) 3 5 wit_views zeros (Some wit_key_bytes) (zlen wit_key_bytes)
      (Some (Some (ofpbuf_init zeros 0))) (wit_dp (with_flow wit_key)) =
      Ok (0, Some (flow_stats_of (stats_out sample_clock zero_stats), Some buf'), d') /\
    contents buf' = attrs [action_attr (ACTION_OUTPUT 2)] /\ dpinv 4 0 d' ({[+ 1 +]} ⊎ ∅).
Proof.
  destruct (flow_get_correct 4 0 sample_clock 0 5 wit_views zeros wit_key_bytes (zlen wit_key_bytes) (Some (ofpbuf_init zeros 0)) wit_key
    (wit_dp (with_flow wit_key)) ({[+ 1 +]} ⊎ ∅) 2 []) as (d' & _ & Hp & _ & Hm);
    [apply zeros_byte|apply wit_ready|apply with_flow_wf|vm_compute; reflexivity| | |].
  - intros buf [= <-]. apply wit_get.
  - intros a x. rewrite (proj1 wit_get). intros [= <- _]. apply list.Forall_cons. split; [by split|apply list.Forall_nil; exact I].
  - rewrite (proj1 wit_get) in Hm. destruct Hm as ([buf'|] & E & Hc); [|discriminate]. injection Hc as Hc. exists d', buf'.
    split; [exact E|]. split; [exact Hc|exact Hp].
Defined.

(** A caller that leaves the buffer to [dpif_dpdk_flow_get], as [dpif-provider.h]
    says, has it write through a null pointer. *)
Example flow_get_without_buffer :
  dpif_dpdk_flow_get (serve_requests sample_clock 0) 3 5 wit_views zeros (Some wit_key_bytes) (zlen wit_key_bytes) (Some None)
    (wit_dp (with_flow wit_key)) = Err NullDeref.
Proof. vm_compute. reflexivity. Qed.

Lemma flow_del_correct_witness :
  exists st d', dpif_dpdk_flow_del (serve_requests sample_clock 0) 3 5 wit_views (FlowDel (Some wit_key_bytes) (zlen wit_key_bytes))
      (wit_dp (with_flow wit_key)) = Ok (0, st, d') /\
    fmap_eq (flow_map (d_flows d')) (fmap_set wit_key None (flow_map (with_flow wit_key))) /\ is_Some st.
Proof.
  destruct (flow_del_correct 4 0 sample_clock 0 5 wit_views wit_key_bytes (zlen wit_key_bytes) wit_key (wit_dp (with_flow wit_key))
    ({[+ 1 +]} ⊎ ∅) 2 []) as (error & st & d' & E & Hm & Hs & _); [apply wit_ready|apply with_flow_wf|vm_compute; reflexivity|discriminate|].
  vm_compute in Hs. injection Hs as -> ->. eexists _, d'. split; [exact E|]. split; [exact Hm|eexists; reflexivity].
Defined.

Lemma flow_flush_correct_witness :
  exists d', dpif_dpdk_flow_flush (serve_requests sample_clock 0) 3 5 wit_views (wit_dp (with_flow wit_key)) = Ok (0, d') /\
    fmap_eq (flow_map (d_flows d')) (fun _ => None).
Proof.
  destruct (flow_flush_correct 4 0 sample_clock 0 5 wit_views (wit_dp (with_flow wit_key)) ({[+ 1 +]} ⊎ ∅) 2 [])
    as (d' & E & Hs & _); [apply wit_ready|apply with_flow_wf|].
  exists d'. split; [exact E|exact Hs].
Defined.
