(* ===== verification/DpifUpcall.v ===== *)
(** Upcalls ([dpif_dpdk_recv] of [lib/dpif-dpdk.c], [dpdk_link_recv_packet] of
    [lib/dpdk-link.c]): what the daemon sees of a packet without a flow, and what
    the flow that it puts for it does in the datapath. *)
From stdpp Require Import gmap gmultiset.
From S2P Require Import Prelude Stats Dpdk Flow Vport VportInit VportProps Action Datapath DatapathProps Ofpbuf.
From S2P Require Import Packets Netlink OdpUtil OdpProps DpdkLink Dpif DpifKey DpifProps.

(** ** Buffers of the daemon *)

Section CloneLemmas.
Context (junk : nat -> Z) (junk_byte : forall i, is_u8 (junk i)).

Lemma clone_data_ok p :
  bytes p -> zlen p < 2 ^ 62 ->
  exists b, ofpbuf_clone_data junk p = Ok b /\ ofpbuf_wf b /\ contents b = p /\ allocated b = zlen p /\ source b = OFPBUF_MALLOC.
Proof.
  intros Hp Hl. pose proof (zlen_nonneg p) as Hz. unfold ofpbuf_clone_data, ofpbuf_clone_data_with_headroom, ofpbuf_new_with_headroom.
  rewrite Z.add_0_r, u64_small by lia. set (b0 := ofpbuf_new junk (zlen p)).
  assert (ofpbuf_wf b0 /\ ofpbuf_tailroom b0 = zlen p) as [Hwf Ht].
  { split; [split_and!; simpl; try lia; [by apply xmalloc_bytes|by rewrite xmalloc_zlen]|].
    unfold ofpbuf_tailroom, ofpbuf_end, ofpbuf_tail. simpl. lia. }
  unfold ofpbuf_reserve, ofpbuf_put, ofpbuf_put_uninit, ofpbuf_prealloc_tailroom.
  change (size b0 =? 0) with true. rewrite Ht, (proj2 (Z.ltb_ge _ 0)) by done. cbn [c_assert]. repeat bind.
  change (set_window (data b0 + 0) (size b0) b0) with b0. rewrite Ht, Z.ltb_irrefl. repeat bind.
  destruct (put_window b0 p Hwf Hp) as (m & Em & Hwf' & Hc); [lia|]. cbn zeta in Hwf', Hc.
  cbn [base set_window]. rewrite Em. cbn [fmap res_fmap]. eexists. split; [done|]. change (size b0) with 0 in *.
  rewrite u64_small by lia. split; [done|]. split; [|done]. exact Hc.
Qed.

(** A buffer grows by bytes that are put at its end and then taken out of its
    window: they stay behind the contents. *)
Lemma put_behind b p :
  ofpbuf_wf b -> bytes p -> source b <> OFPBUF_STACK -> allocated b + zlen p + 64 < 2 ^ 64 ->
  exists b1 dst, ofpbuf_put junk b p = Ok (b1, dst) /\
    let b' := set_window (data b1) (size b1 - zlen p) b1 in
    contents b' = contents b /\ exists rest, drop (Z.to_nat (ofpbuf_tail b')) (base b') = p ++ rest.
Proof.
  intros Hwf Hp Hs Hl. pose proof (zlen_nonneg p). pose proof Hwf as (_ & Ha & ? & ? & ?).
  destruct (ofpbuf_put_spec junk junk_byte b p Hwf Hp) as (b1 & dst & E & Hwf1 & Hc & _ & _ & _); [lia| |].
  { right. split; [done|]. unfold ofpbuf_headroom, ofpbuf_tailroom, ofpbuf_end, ofpbuf_tail. lia. }
  exists b1, dst. split; [done|]. cbv zeta. pose proof (zlen_contents _ Hwf1) as Hz1. pose proof (zlen_contents _ Hwf) as Hz.
  rewrite Hc, zlen_app in Hz1. assert (size b1 = size b + zlen p) as Hs1 by lia.
  unfold contents, ofpbuf_tail in *. cbn [data size base set_window]. rewrite Hs1 in *.
  set (D := drop (Z.to_nat (data b1)) (base b1)) in *. set (C := take (Z.to_nat (size b)) (drop (Z.to_nat (data b)) (base b))) in *.
  assert (exists rest, D = C ++ p ++ rest) as [rest HD].
  { exists (drop (Z.to_nat (size b + zlen p)) D). rewrite app_assoc, <- Hc. by rewrite take_drop. }
  rewrite Z.add_simpl_r, Z2Nat.inj_add, <- drop_drop by (try lia; apply Hwf1). fold D. rewrite HD.
  assert (Z.to_nat (size b) = length C) as -> by (unfold zlen in Hz; lia).
  split; [by rewrite take_app_length|]. exists rest. by rewrite drop_app_length.
Qed.
End CloneLemmas.

Section Upcalls.
Context {ring dev drv hash : Type} `{Ring : RteRing ring} `{!RteRingLaws ring} `{Mb : RteMbuf} `{!RteMbufLaws}
  `{Drv : Drivers drv} `{!DriversLaws drv} `{Vh : VhostDev dev} `{!VhostLaws dev}
  `{Hash : RteHash flow_key hash} `{!RteHashLaws flow_key hash MAX_FLOWS}.

Notation dpt := (dp ring dev drv hash).
Implicit Type d : dpt.

(** A packet's bytes. *)
Definition packet_bytes (b : rte_mbuf) (c : list Z) : list Z := take (Z.to_nat (data_len b)) (drop (Z.to_nat (pkt_data b)) c).

(** The key of an upcall, as it is passed on. *)
Definition upcall_key (up : dpif_upcall) : list Z := drop (Z.to_nat (up_key up)) (base (up_packet up)).

Lemma recv_packet_ok (others : dpt -> res dpt) n lcore junk fuel d X p ps b c info :
  no_water_mark (ring := ring) -> (forall i, is_u8 (junk i)) -> dpinv n lcore d X -> ring_objs (vswitchd_packet_ring d) = p :: ps ->
  d_upcalls d !! p = Some info -> mbufs (vmem (d_sw d)) !! p = Some (upcall_header b) ->
  bufs (vmem (d_sw d)) !! buf_addr b = Some c -> frame_ok 0 0 b c -> sizeof_dpdk_upcall <= pkt_data b ->
  zlen (ring_objs (vswitchd_free_ring d)) < ring_cap (vswitchd_free_ring d) ->
  exists r1 r2 pkt, let d' := set_free_ring r2 (set_packet_ring r1 (d_upcalls d) (d_signals d) d) in
    dpdk_link_recv_packet others junk (S fuel) d = Ok (0, Some (pkt, info), d') /\ dpinv n lcore d' X /\
    ofpbuf_wf pkt /\ contents pkt = packet_bytes b c /\ allocated pkt < 65536 /\ source pkt = OFPBUF_MALLOC /\
    ring_objs r1 = ps /\ ring_cap r1 = ring_cap (vswitchd_packet_ring d) /\
    ring_objs r2 = ring_objs (vswitchd_free_ring d) ++ [p] /\ ring_cap r2 = ring_cap (vswitchd_free_ring d).
Proof.
  intros Hw Hj Hp Ho Hu Hb Hc (Hbytes & Hzc & Hlen & _ & _ & Hmin & Hend & _) Hhead Hroom.
  unfold dpdk_link_recv_packet. destruct (dequeue_one _ _ _ Ho) as (r1 & -> & Ho1 & Hc1). cbv beta iota.
  change (negb (0 =? 0)) with false. cbv iota. change (index [p] 0) with (Ok p). bind.
  unfold mbuf_at. cbn [d_sw set_packet_ring]. rewrite Hb. bind. unfold buf_at. cbn [buf_addr upcall_header]. rewrite Hc. bind.
  cbn [d_upcalls set_packet_ring]. rewrite Hu. bind. cbn [pkt_data data_len upcall_header].
  assert (0 <= sizeof_dpdk_upcall) by done. rewrite Z.sub_add, Z.add_simpl_r, u64_small by lia.
  assert (load_bytes c (pkt_data b) (data_len b) = Ok (packet_bytes b c)) as Hld by (apply load_bytes_Ok; split_and!; done || lia).
  rewrite Hld. bind. pose proof (load_bytes_len _ _ _ _ Hld) as Hpl.
  destruct (clone_data_ok junk Hj (packet_bytes b c)) as (pkt & -> & Hwf & Hcc & Ha & Hsrc); [by eapply load_bytes_bytes|lia|]. bind.
  destruct (to_be_freed_ok others fuel p (set_packet_ring r1 (d_upcalls d) (d_signals d) d) Hw Hroom) as (r2 & -> & Ho2 & Hc2). bind.
  exists r1, r2, pkt. cbv zeta. split; [done|]. split; [|split_and!; done || lia].
  eapply pinv_eq; [exact Hp|]. unfold rings_objs. cbn in Ho2 |- *. rewrite Ho, Ho1, Ho2, M_app, !M_cons, M_nil. clear. multiset_solver.
Qed.

Lemma recv_upcall_ok (others : dpt -> res dpt) n lcore junk fuel d X p ps b c k :
  no_water_mark (ring := ring) -> (forall i, is_u8 (junk i)) -> dpinv n lcore d X -> ring_objs (vswitchd_packet_ring d) = p :: ps ->
  d_upcalls d !! p = Some (Upcall PACKET_CMD_MISS k) -> mbufs (vmem (d_sw d)) !! p = Some (upcall_header b) ->
  bufs (vmem (d_sw d)) !! buf_addr b = Some c -> frame_ok 0 0 b c -> sizeof_dpdk_upcall <= pkt_data b ->
  zlen (ring_objs (vswitchd_free_ring d)) < ring_cap (vswitchd_free_ring d) -> key_typed k -> key_normal k -> describable k ->
  exists r1 r2 up, let d' := set_free_ring r2 (set_packet_ring r1 (d_upcalls d) (d_signals d) d) in
    dpif_dpdk_recv others (S fuel) junk d = Ok (0, Some up, d') /\ dpinv n lcore d' X /\
    up_type up = DPIF_UC_MISS /\ contents (up_packet up) = packet_bytes b c /\ key_of_attrs (upcall_key up) (up_key_len up) = Ok k /\
    ring_objs r1 = ps /\ ring_cap r1 = ring_cap (vswitchd_packet_ring d) /\
    ring_objs r2 = ring_objs (vswitchd_free_ring d) ++ [p] /\ ring_cap r2 = ring_cap (vswitchd_free_ring d).
Proof.
  intros Hw Hj Hp Ho Hu Hb Hc Hf Hhead Hroom Hkt Hkn Hkd.
  destruct (recv_packet_ok others n lcore junk fuel d X p ps b c _ Hw Hj Hp Ho Hu Hb Hc Hf Hhead Hroom)
    as (r1 & r2 & pkt & E & Hp' & Hwf & Hcon & Ha & Hs & Hrest).
  unfold dpif_dpdk_recv. rewrite E. bind. change (negb (0 =? 0)) with false. cbv iota. cbn [replied]. bind. cbn [u_cmd u_key].
  change (odp_port (f_meta (dpif_dpdk_flow_key_to_flow k))) with (in_port k).
  destruct (odp_flow_key_from_flow_ok junk Hj (2 ^ 40) _ (in_port k) (ofpbuf_init junk 0) (key_flow_ok k Hkt Hkn))
    as (msg & -> & [Hmwf [_ Hma]] & Hmc); [lia|by apply init_roomy|]. bind.
  rewrite (contents_load _ Hmwf). bind. rewrite init_contents in Hmc. cbn [app] in Hmc.
  pose proof (zlen_contents _ Hmwf) as Hz. pose proof Hmwf as (_ & _ & ? & ? & ?).
  destruct (put_behind junk Hj pkt (contents msg)) as (b1 & dst & -> & Hb1); [done|by apply contents_bytes|by rewrite Hs|lia|].
  bind. cbv zeta in Hb1. rewrite Hz in Hb1. destruct Hb1 as (Hc1 & rest & Hrest1).
  eexists r1, r2, _. cbv zeta. split; [done|]. split; [done|]. split; [done|]. split; [by cbn [up_packet]; rewrite Hc1|]. split; [|done].
  unfold upcall_key. cbn [up_key up_packet up_key_len]. rewrite Hrest1, <- Hz, Hmc. by apply key_of_upcall_attrs.
Qed.

(** Sending the packet to the daemon leaves it ready for a transaction. *)
Lemma ready_after_upcall n lcore p b d d1 d2 X q qs r1 r2 :
  ready n lcore d ({[+ p +]} ⊎ X) q qs -> mbufs (vmem (d_sw d)) !! p = Some b -> rings_kept d d1 ->
  dom (mbufs (vmem (d_sw d1))) = dom (mbufs (vmem (d_sw d))) ->
  (forall q, q <> p -> mbufs (vmem (d_sw d1)) !! q = mbufs (vmem (d_sw d)) !! q) -> bufs (vmem (d_sw d1)) = bufs (vmem (d_sw d)) ->
  d2 = set_free_ring r2 (set_packet_ring r1 (d_upcalls d1) (d_signals d1) d1) -> ring_cap r2 = ring_cap (vswitchd_free_ring d1) ->
  dpinv n lcore d2 X -> ready n lcore d2 X q qs.
Proof.
  intros (Hpr & Hw & Hp & [] & Ha & Hmr & Hpf) Hb (Kr & Km & Kf & Ka) Hdom Hk Hbufs -> Hc2 Hp2.
  assert (q <> p) as Hqp.
  { intros ->. destruct Hp as [[_ Ho] _]. eapply (owns_not_elem (vmem (d_sw d)) p (rings_objs d ⊎ X) (owned (d_sw d))).
    - eapply owns_eq; [exact Ho|]. clear. multiset_solver.
    - unfold rings_objs. rewrite Ha, M_cons. clear. multiset_solver. }
  split_and!; try done; cbn.
  - split; cbn; by rewrite ?Kr, ?Km, ?Hc2, ?Kf.
  - by rewrite Ka.
  - intros b' c' Hb' Hc'. cbn in Hb', Hc'. rewrite Hk in Hb' by done. rewrite Hbufs in Hc'. by eapply Hmr.
  - intros m' Hm'. apply Hpf. by rewrite Hm', Hdom.
Qed.

(** A packet whose key has a flow is given to the flow's actions. *)
Lemma switch_hits c seen lcore p k d a x :
  ft_wf (d_flows d) -> flow_map (d_flows d) k = Some (a, x) ->
  exists pos, 0 <= pos /\ switch_packet c seen lcore p k d =
    ('(_, s) ← action_execute lcore (Some a) (Some p) (d_sw d);
     let '(buf, off, len) := seen s p in
     t ← flow_table_update_stats c pos buf off len (d_flows d);
     Ok (set_flows t (set_sw s d))).
Proof.
  intros Hwf Hm. pose proof (flow_map_hit (d_flows d) k Hwf) as Hhit. unfold switch_packet.
  destruct (hash_pos (handle (d_flows d)) k) as [q|]; [|by destruct Hhit; congruence].
  destruct Hhit as (e & He & Hen & _ & Hl & Hq & Hm'). rewrite Hm in Hm'. injection Hm' as -> _. exists q. split; [apply Hq|].
  rewrite Hl, (proj2 (Z.leb_le _ _)) by apply Hq. rewrite He. bind. by rewrite Hen.
Qed.

(** ** Properties *)

(** C2: From a miss to a flow, across both processes: a packet without a flow
    reaches the daemon with its bytes and its key as attributes; when the
    daemon puts a flow with these attributes and the attributes of some
    actions, the table has exactly that flow more, and later packets with the
    key are given to these actions. It is given that the packet has headroom
    for the upcall and a key that attributes can describe (an Ethernet type,
    and no priority tag), that the daemon's packet ring is empty and its rings
    have room, that the hash table has room for the key, and that there are
    fewer than 48 actions, with members within their types. *)
Theorem miss_to_flow n lcore c seen fuel tid views junk p b buf port k l d X q qs :
  (forall i, is_u8 (junk i)) -> ready n lcore d ({[+ p +]} ⊎ X) q qs -> ft_wf (d_flows d) -> flow_map (d_flows d) k = None ->
  mbufs (vmem (d_sw d)) !! p = Some b -> bufs (vmem (d_sw d)) !! buf_addr b = Some buf -> frame_ok 0 0 b buf ->
  sizeof_dpdk_upcall <= pkt_data b -> flow_key_extract buf (pkt_data b) port empty_key = Ok k -> describable k ->
  ring_objs (vswitchd_packet_ring d) = [] -> 1 <= ring_cap (vswitchd_packet_ring d) ->
  zlen (ring_objs (vswitchd_free_ring d)) < ring_cap (vswitchd_free_ring d) ->
  fst (rte_hash_add_key (handle (d_flows d)) k) <> - ENOSPC -> Forall action_typed l -> zlen l < MAX_ACTIONS ->
  let acts := attrs (map action_attr l) in
  exists d1 up d2 d3 a, switch_packet c seen lcore p k d = Ok d1 /\
    dpif_dpdk_recv (serve_requests c lcore) (S fuel) junk d1 = Ok (0, Some up, d2) /\
    up_type up = DPIF_UC_MISS /\ contents (up_packet up) = packet_bytes b buf /\
    dpif_dpdk_flow_put (serve_requests c lcore) (S (S (S fuel))) tid views
      (FlowPut DPIF_FP_CREATE (Some (upcall_key up)) (up_key_len up) (Some acts) (zlen acts)) d2 =
      Ok (0, Some (flow_stats_of zero_stats), d3) /\
    fmap_eq (flow_map (d_flows d3)) (fmap_set k (Some (a, zero_stats)) (flow_map (d_flows d))) /\ visited a = l /\
    dpinv n lcore d3 X /\
    forall p', exists pos, 0 <= pos /\ switch_packet c seen lcore p' k d3 =
      ('(_, s) ← action_execute lcore (Some a) (Some p') (d_sw d3);
       let '(buf, off, len) := seen s p' in
       t ← flow_table_update_stats c pos buf off len (d_flows d3);
       Ok (set_flows t (set_sw s d3))).
Proof.
  intros Hj Hr Hwf Hm Hb Hc Hf Hhead Hx Hd Hpk Hpc Hfr Hhash Hl Hll acts.
  destruct (extract_key _ _ _ _ (proj1 Hf) Hx) as [Hkt Hkn]. pose proof Hr as (_ & Hw & Hp & _).
  destruct (send_packet_ok n lcore p (Upcall PACKET_CMD_MISS k) d X b buf Hp Hb Hc Hf) as (d1 & E1 & Hp1 & _ & Hfl1 & _ & Hs).
  rewrite Hpk, (proj2 (Z.leb_le _ _) Hhead), (proj2 (Z.ltb_lt _ _)) in Hs by (unfold zlen; simpl; lia). cbn [andb app] in Hs.
  destruct Hs as (Ho1 & Hu1 & Hb1 & Hbufs1 & _ & Hk1 & Hdom1 & Hm1). pose proof Hk1 as (_ & _ & Hfk & _).
  destruct (recv_upcall_ok (serve_requests c lcore) n lcore junk fuel d1 X p [] b buf k) as (r1 & r2 & up & E2 & Hp2 & Hty & Hcon & Hkey & _ & _ & _ & Hc2);
    try done; [by rewrite Hbufs1|by rewrite Hfk|]. cbv zeta in E2, Hp2. set (d2 := set_free_ring _ _) in *.
  pose proof (ready_after_upcall n lcore p b d d1 d2 X q qs r1 r2 Hr Hb Hk1 Hdom1 Hm1 Hbufs1 eq_refl Hc2 Hp2) as Hr2.
  assert (d_flows d2 = d_flows d) as Hfl2 by exact Hfl1.
  pose proof (create_actions_ok l null_actions [] Hl Hll eq_refl) as Ha. rewrite app_nil_r in Ha.
  destruct (flow_put_ok n lcore c fuel tid views (FlowPut DPIF_FP_CREATE (Some (upcall_key up)) (up_key_len up) (Some acts) (zlen acts))
    (upcall_key up) k (l ++ ACTION_NULL :: drop (S (length l)) null_actions) d2 X q qs Hr2) as (err & st & d3 & E3 & Hs3 & Hwf3 & Hp3 & _); [by rewrite Hfl2|done|done|exact Ha|].
  rewrite Hfl2 in Hs3. set (a := l ++ _) in *. exists d1, up, d2, d3, a. split; [by rewrite switch_miss|]. do 3 (split; [done|]).
  destruct Hs3 as [Hs3|((_ & _ & Hno) & _)]; [|done]. inversion Hs3 as [? _ _ Heq|? _ Hno|? ? ? Hno|? ? ? Hno]; [|done|congruence|congruence]. subst. split; [done|]. split; [done|]. split; [by apply visited_ended|]. split; [done|].
  intros p'. apply (switch_hits _ _ _ _ _ _ a zero_stats Hwf3). rewrite Heq. unfold fmap_set. by rewrite decide_True.
Qed.
End Upcalls.

(** ** Example *)

Lemma wit_frame : frame_ok 0 0 (Mbuf 1 64 58 58) wit_buf.
Proof. split; [by apply bytes_bool|]. by vm_compute. Qed.

Lemma miss_to_flow_witness :
  exists d1 up d2 d3 a, switch_packet sample_clock sample_seen 0 1 wit_key (wit_dp sample_table) = Ok d1 /\
    dpif_dpdk_recv (serve_requests sample_clock 0) 1 zeros d1 = Ok (0, Some up, d2) /\
    contents (up_packet up) = wit_packet /\
    dpif_dpdk_flow_put (serve_requests sample_clock 0) 3 5 wit_views
      (FlowPut DPIF_FP_CREATE (Some (upcall_key up)) (up_key_len up) (Some wit_action_bytes) (zlen wit_action_bytes)) d2 =
      Ok (0, Some (flow_stats_of zero_stats), d3) /\
    flow_map (d_flows d3) wit_key = Some (a, zero_stats) /\ visited a = wit_actions.
Proof.
  destruct (miss_to_flow 4 0 sample_clock sample_seen 0 5 wit_views zeros 1 (Mbuf 1 64 58 58) wit_buf 17 wit_key wit_actions
    (wit_dp sample_table) ∅ 2 []) as (d1 & up & d2 & d3 & a & E1 & E2 & _ & Hc & E3 & Hm & Hv & _).
  - apply zeros_byte.
  - apply wit_ready.
  - apply sample_table_wf.
  - apply sample_table_wf.
  - vm_compute; reflexivity.
  - vm_compute; reflexivity.
  - apply wit_frame.
  - vm_compute; discriminate.
  - vm_compute; reflexivity.
  - split; vm_compute; discriminate.
  - reflexivity.
  - vm_compute; discriminate.
  - reflexivity.
  - vm_compute; discriminate.
  - repeat (apply list.Forall_cons; split; [by vm_compute|]). by apply list.Forall_nil.
  - reflexivity.
  - exists d1, up, d2, d3, a. split; [exact E1|]. split; [exact E2|]. split; [rewrite Hc; vm_compute; reflexivity|].
    split; [exact E3|]. split; [|exact Hv]. rewrite Hm. unfold fmap_set. rewrite decide_True by reflexivity. reflexivity.
Defined.
