(* ===== verification/DpifPorts.v ===== *)
(** Ports of the daemon ([lib/dpif-dpdk.c]): commands for vports as transactions
    with the datapath. *)
From stdpp Require Import gmap gmultiset strings.
From S2P Require Import Prelude Stats Dpdk Flow Vport VportInit VportProps Action Datapath DatapathProps Ofpbuf.
From S2P Require Import Packets Netlink OdpUtil OdpProps DpdkLink Dpif DpifKey DpifProps.

Section Ports.
Context {ring dev drv hash : Type} `{Ring : RteRing ring} `{!RteRingLaws ring} `{Mb : RteMbuf} `{!RteMbufLaws}
  `{Drv : Drivers drv} `{!DriversLaws drv} `{Vh : VhostDev dev} `{!VhostLaws dev}
  `{Hash : RteHash flow_key hash} `{!RteHashLaws flow_key hash MAX_FLOWS}.

Notation sw := (vst ring dev drv).
Notation dpt := (dp ring dev drv hash).
Implicit Type d : dpt.

(** ** The datapath's answers *)

Lemma next_index_same n i m x (s : sw) : next_index_loop n i (set_vstats x (set_vmem m s)) = next_index_loop n i s.
Proof.
  revert i. induction n as [|n IH]; intros i; [done|]. cbn [next_index_loop]. rewrite IH. done.
Qed.

Lemma next_available_same type m x (s : sw) :
  vport_next_available_index type (set_vstats x (set_vmem m s)) = vport_next_available_index type s.
Proof. unfold vport_next_available_index. by rewrite !next_index_same. Qed.

Lemma update_vport_same j f m x (s : sw) :
  update_vport j f (set_vstats x (set_vmem m s)) = set_vstats x (set_vmem m (update_vport j f s)).
Proof. unfold update_vport. cbn [vports set_vstats set_vmem]. by destruct (index (vports s) j). Qed.

Lemma set_enabled_same b j m x (s : sw) :
  set_enabled b j (set_vstats x (set_vmem m s)) = set_vstats x (set_vmem m (set_enabled b j s)).
Proof.
  unfold set_enabled. change (vport_exists j (set_vstats x (set_vmem m s))) with (vport_exists j s).
  destruct (vport_exists j s); [apply update_vport_same|done].
Qed.

Lemma vport_set_name_same j text m x (s : sw) :
  vport_set_name j text (set_vstats x (set_vmem m s)) = set_vstats x (set_vmem m (vport_set_name j text s)).
Proof.
  unfold vport_set_name. change (vport_exists j (set_vstats x (set_vmem m s))) with (vport_exists j s).
  destruct (vport_exists j s); [apply update_vport_same|done].
Qed.

(** What the daemon asks for is in the vports. *)
Lemma vports_views j (s s' : sw) :
  vports s = vports s' ->
  vport_is_enabled j s = vport_is_enabled j s' /\ vport_get_name j s = vport_get_name j s' /\ vport_get_type j s = vport_get_type j s'.
Proof. intros Hv. unfold vport_is_enabled, vport_get_name, vport_get_type, vport_exists. by rewrite Hv. Qed.

Lemma disable_spec j (s : sw) :
  vport_is_enabled j s = true ->
  (forall i, i <> j -> index (vports (vport_disable j s)) i = index (vports s) i) /\ vport_is_enabled j (vport_disable j s) = false.
Proof.
  intros Hen. pose proof (vport_enabled_exists _ _ Hen) as Hex. destruct (vport_exists_range _ _ Hex) as (v & Hv & _).
  unfold vport_disable, set_enabled. rewrite Hex.
  destruct (update_vport_spec j (fun v => VportInfo (v_type v) (v_name v) false (v_u v)) s v Hv) as [E Ho]. split; [exact Ho|].
  unfold vport_is_enabled. rewrite vport_exists_update, Hex by done. by rewrite E.
Qed.

(** The vport that a request for the type [ty] and the number [no] is given. *)
Definition port_target (ty : vport_type) (no : Z) (s : sw) : Z :=
  if vport_exists no s && bool_decide (vport_get_type no s = ty) then no else vport_next_available_index ty s.

(** The result of creating it. *)
Definition new_port (r : dpdk_vport_message) (text : list Z) (s : sw) : dpdk_reply * sw :=
  let no := if bool_decide (vm_type r = VPORT_TYPE_PHY) then u32 (vm_port_no r + PHYPORT0) else vm_port_no r in
  let j := port_target (vm_type r) no s in
  if vport_exists j s then
    if vport_is_enabled j s then (Reply EBUSY (VportReply r), s)
    else (Reply 0 (VportReply (with_port_no j r)), vport_set_name j text (vport_enable j s))
  else (Reply ENODEV (VportReply r), s).

Lemma vport_new_eq r text (s : sw) :
  format0 (vm_port_name r) = Ok text -> vm_type r <> VPORT_TYPE_BRIDGE -> vport_new r s = Ok (new_port r text s).
Proof.
  intros Ht Hb. unfold vport_new, new_port. set (no := if bool_decide _ then _ else _).
  assert ((if vport_exists no s then vport_id_is_valid no (vm_type r) s else Ok false) =
    Ok (vport_exists no s && bool_decide (vport_get_type no s = vm_type r))) as ->.
  { destruct (vport_exists no s) eqn:E; [|done]. destruct (vport_exists_range _ _ E) as (v & Hv & Hr).
    unfold vport_id_is_valid, vport_get_type. rewrite E, Hv. bind. rewrite (bool_decide_false (vm_type r = VPORT_TYPE_BRIDGE)) by done.
    by rewrite andb_false_r, (proj2 (Z.ltb_lt _ _)) by lia. }
  bind. unfold port_target. set (j := if _ && _ then no else _). rewrite (bool_decide_true (vm_type r <> _)) by done. rewrite andb_true_r.
  destruct (vport_exists j s); [|done]. destruct (vport_is_enabled j s); [done|]. cbn [negb]. rewrite Ht. by bind.
Qed.

Lemma new_port_same r text m x (s : sw) :
  new_port r text (set_vstats x (set_vmem m s)) = let '(reply, s') := new_port r text s in (reply, set_vstats x (set_vmem m s')).
Proof.
  unfold new_port, port_target. rewrite next_available_same. set (no := if bool_decide _ then _ else _).
  change (vport_exists no (set_vstats x (set_vmem m s))) with (vport_exists no s).
  change (vport_get_type no (set_vstats x (set_vmem m s))) with (vport_get_type no s).
  set (j := if _ && _ then no else _).
  change (vport_exists j (set_vstats x (set_vmem m s))) with (vport_exists j s).
  change (vport_is_enabled j (set_vstats x (set_vmem m s))) with (vport_is_enabled j s).
  destruct (vport_exists j s); [|done]. destruct (vport_is_enabled j s); [done|]. unfold vport_enable.
  by rewrite set_enabled_same, vport_set_name_same.
Qed.

(** ** Transactions *)

Lemma handles_vport_new n lcore c request text d :
  m_type request = VPORT_CMD_FAMILY -> let r := vport_msg request in
  vm_cmd r = CMD_NEW -> format0 (vm_port_name r) = Ok text -> vm_type r <> VPORT_TYPE_BRIDGE ->
  handles n lcore c request d (fun reply s t =>
    t = d_flows d /\ reply = fst (new_port r text (d_sw d)) /\ same_sw (snd (new_port r text (d_sw d))) s).
Proof.
  intros Hty r Hcmd Ht Hb. split; [by left|]. intros d2 Y Hp (m & x & Hsame) Hfl.
  pose proof (vport_new_eq r text (d_sw d2) Ht Hb) as En. destruct (vport_new_ok n lcore r (d_sw d2) _ Hp) as (reply & s & E & Hp' & _ & Hm); [by exists text|].
  rewrite En in E. injection E as E. exists reply, s, (d_flows d2). unfold handle_cmd. rewrite Hty. change (VPORT_CMD_FAMILY =? VPORT_CMD_FAMILY) with true.
  cbv iota. fold r. unfold handle_vport_cmd. rewrite Hcmd. change (CMD_NEW =? CMD_NEW) with true. cbv iota. unfold vport_cmd_new. rewrite En, E. bind.
  rewrite Hsame, new_port_same in E. destruct (new_port r text (d_sw d)) as [reply0 s0] eqn:E0. injection E as <- <-.
  split; [by destruct d2|]. split; [done|]. split; [done|]. split; [|by split; [|split; [|eexists _, _]]].
  unfold new_port in E0. repeat case_match; by injection E0 as <- _.
Qed.

(** The reply to a query for a vport by its number. *)
Definition get_reply (r : dpdk_vport_message) (s : sw) (reply : dpdk_reply) : Prop :=
  if vport_is_enabled (vm_port_no r) s then
    exists name x, vport_get_name (vm_port_no r) s = Some name /\
      reply = Reply 0 (VportReply (with_info (take (Z.to_nat MAX_VPORT_NAME_SIZE) name) (vport_get_type (vm_port_no r) s) x r))
  else reply = Reply ENODEV (VportReply r).

Lemma vport_get_number n lcore r (s : sw) X :
  pinv n lcore s X -> vm_port_no r <> UINT32_MAX -> exists reply, vport_get r s = Ok reply /\ get_reply r s reply.
Proof.
  intros Hp Hno. destruct (vport_get_total n lcore r s X Hp) as [reply E]. exists reply. split; [done|]. revert E.
  unfold vport_get, get_reply. rewrite (proj2 (Z.eqb_neq _ _) Hno). unfold vport_is_enabled.
  destruct (vport_exists (vm_port_no r) s) eqn:Ee; cbn [andb]; [|by intros [= <-]]. destruct (vport_exists_range _ _ Ee) as (v & Hv & _).
  rewrite Hv. destruct (v_enabled v); [|by intros [= <-]]. intros E. apply res_bind_Ok in E as (x & _ & E).
  destruct (vport_get_name (vm_port_no r) s) as [name|]; [|done]. injection E as <-. by exists name, x.
Qed.

Lemma handles_vport_get n lcore c request d :
  m_type request = VPORT_CMD_FAMILY -> let r := vport_msg request in
  vm_cmd r = CMD_GET -> vm_flags r = 0 -> vm_port_no r <> UINT32_MAX ->
  handles n lcore c request d (fun reply s t => t = d_flows d /\ get_reply r (d_sw d) reply /\ same_sw (d_sw d) s).
Proof.
  intros Hty r Hcmd Hfl Hno. split; [by left|]. intros d2 Y Hp Hsame Hf.
  destruct (vport_get_number n lcore r (d_sw d2) _ Hp Hno) as (reply & E & Hg). exists reply, (d_sw d2), (d_flows d2).
  unfold handle_cmd. rewrite Hty. change (VPORT_CMD_FAMILY =? VPORT_CMD_FAMILY) with true. cbv iota. fold r.
  unfold handle_vport_cmd. rewrite Hcmd, Hfl. change (CMD_GET =? CMD_NEW) with false. change (CMD_GET =? CMD_DEL) with false.
  change (CMD_GET =? CMD_GET) with true. change (has_flag 0 FLAG_DUMP) with false. cbv iota. unfold vport_cmd_get. rewrite E. bind.
  split; [by destruct d2|]. split; [done|]. split; [by destruct d2|]. destruct Hsame as (m & x & Hs). rewrite Hs in Hg |- *. split.
  - unfold get_reply in Hg. destruct (vport_is_enabled _ _); [|by subst]. by destruct Hg as (? & ? & _ & ->).
  - split; [done|]. split; [exact Hg|by exists m, x].
Qed.

Lemma handles_vport_del n lcore c request d :
  m_type request = VPORT_CMD_FAMILY -> let r := vport_msg request in vm_cmd r = CMD_DEL ->
  handles n lcore c request d (fun reply s t =>
    t = d_flows d /\ reply = fst (vport_del r (d_sw d)) /\ same_sw (snd (vport_del r (d_sw d))) s).
Proof.
  intros Hty r Hcmd. split; [by left|]. intros d2 Y Hp (m & x & Hs) Hf. pose proof (vport_del_ok n lcore r (d_sw d2) _ Hp) as Hd.
  assert (vport_del r (d_sw d2) = let '(reply, s) := vport_del r (d_sw d) in (reply, set_vstats x (set_vmem m s))) as Ed.
  { rewrite Hs. unfold vport_del. set (no := u16 _). change (vport_exists no (set_vstats x (set_vmem m (d_sw d)))) with (vport_exists no (d_sw d)).
    change (vport_is_enabled no (set_vstats x (set_vmem m (d_sw d)))) with (vport_is_enabled no (d_sw d)).
    destruct (_ && _); [|done]. unfold vport_disable. by rewrite set_enabled_same. }
  destruct (vport_del r (d_sw d)) as [reply s] eqn:E0. rewrite Ed in Hd. destruct Hd as (Hp' & _ & Hm).
  exists reply, (set_vstats x (set_vmem m s)), (d_flows d2).
  unfold handle_cmd. rewrite Hty. change (VPORT_CMD_FAMILY =? VPORT_CMD_FAMILY) with true. cbv iota. fold r.
  unfold handle_vport_cmd. rewrite Hcmd. change (CMD_DEL =? CMD_NEW) with false. change (CMD_DEL =? CMD_DEL) with true. cbv iota.
  unfold vport_cmd_del. rewrite Ed. split; [by destruct d2|]. split; [done|]. split; [done|].
  split; [|by split; [|split; [|eexists _, _]]]. unfold vport_del in E0. by destruct (_ && _); injection E0 as <- _.
Qed.

Lemma vport_transact_ok n lcore c fuel tid views r d X p ps P :
  ready n lcore d X p ps -> handles n lcore c (stamped tid (vport_request views r)) d P ->
  exists reply s d', dpif_dpdk_vport_transact (serve_requests c lcore) (S (S (S fuel))) tid views r d =
      Ok (r_type reply, Some (vport_member views (r_body reply)), d') /\
    dpinv n lcore d' X /\ transacted ps d d' /\ same_sw s (d_sw d') /\ P reply s (d_flows d').
Proof.
  intros Hr Hh. destruct (transact_ok n lcore c fuel tid (vport_request views r) d X p ps P Hr Hh)
    as (d1 & reply & s & d' & E1 & E2 & Hrest).
  unfold dpif_dpdk_vport_transact. rewrite E1. bind. cbv iota. rewrite E2. by exists reply, s, d'.
Qed.

(** A query by number, in any state with these vports. *)
Lemma port_query_ok n lcore c fuel tid views no name type d X p ps :
  ready n lcore d X p ps -> no <> UINT32_MAX -> vport_is_enabled no (d_sw d) = true -> vport_get_name no (d_sw d) = Some name ->
  zlen name < DPDK_PORT_MAX_STRING_LEN -> dpif_dpdk_ofport_type (vport_get_type no (d_sw d)) = Some type ->
  exists d', dpif_dpdk_port_query_by_number (serve_requests c lcore) (S (S (S fuel))) tid views no d =
      Ok (0, Some (DpifPort name type no), d') /\
    dpinv n lcore d' X /\ transacted ps d d'.
Proof.
  intros Hr Hno Hen Hname Hlen Hty. unfold dpif_dpdk_port_query_by_number. set (r := VportMsg _ _ _ _ _ _ _).
  destruct (vport_transact_ok n lcore c fuel tid views r d X p ps _ Hr (handles_vport_get n lcore c (stamped tid (vport_request views r)) d eq_refl eq_refl eq_refl Hno))
    as (reply & s & d' & -> & Hp & Ht & _ & _ & Hg & _).
  exists d'. split; [|done]. unfold get_reply in Hg. change (vm_port_no (vport_msg (stamped tid (vport_request views r)))) with no in Hg.
  rewrite Hen, Hname in Hg. destruct Hg as (name' & x & [= <-] & ->). repeat bind. cbn [r_type r_body vport_member negb Z.eqb replied]. cbv iota. repeat bind.
  unfold port_of_reply. cbn [vm_type with_info vm_port_name vm_port_no]. rewrite Hty. unfold xstrdup_array.
  rewrite take_ge, (proj2 (Z.ltb_lt _ _)); [by repeat bind|done|]. unfold zlen, DPDK_PORT_MAX_STRING_LEN, MAX_VPORT_NAME_SIZE in *. lia.
Qed.

(** The request of [dpif_dpdk_port_add]. *)
Definition add_request (nd : netdev) : dpdk_vport_message :=
  let type := dpif_dpdk_odport_type (netdev_type nd) in
  VportMsg 0 CMD_NEW 0 (if bool_decide (type = VPORT_TYPE_PHY) then phy_port_id nd else UINT32_MAX)
    (strncpy_array (netdev_name nd)) type zero_port_stats.

(** The vport that it is given. *)
Definition add_target (nd : netdev) (s : sw) : Z :=
  let type := dpif_dpdk_odport_type (netdev_type nd) in
  port_target type (if bool_decide (type = VPORT_TYPE_PHY) then u32 (phy_port_id nd + PHYPORT0) else UINT32_MAX) s.

(** The names of vhost ports are at most [IFNAMSIZ] long; ports of the bridge are not added. *)
Definition addable (nd : netdev) (text : list Z) : Prop :=
  let type := dpif_dpdk_odport_type (netdev_type nd) in
  (type = VPORT_TYPE_VHOST -> zlen (netdev_name nd) <= IFNAMSIZ) /\ type <> VPORT_TYPE_DISABLED /\ type <> VPORT_TYPE_BRIDGE /\
  format0 (strncpy_array (netdev_name nd)) = Ok text.

Lemma port_add_ok n lcore c fuel tid views nd text d X p ps :
  ready n lcore d X p ps -> addable nd text ->
  let j := add_target nd (d_sw d) in
  exists error no s d', dpif_dpdk_port_add (serve_requests c lcore) (S (S (S fuel))) tid views nd d = Ok (error, no, d') /\
    dpinv n lcore d' X /\ transacted ps d d' /\ d_flows d' = d_flows d /\ same_sw s (d_sw d') /\
    if vport_exists j (d_sw d) then
      if vport_is_enabled j (d_sw d) then error = EBUSY /\ no = None /\ s = d_sw d
      else error = 0 /\ no = Some j /\ s = vport_set_name j text (vport_enable j (d_sw d))
    else error = ENODEV /\ no = None /\ s = d_sw d.
Proof.
  intros Hr (Hvh & Hdis & Hbr & Ht) j. unfold dpif_dpdk_port_add. set (type := dpif_dpdk_odport_type (netdev_type nd)) in *.
  assert (bool_decide (type = VPORT_TYPE_VHOST) && (IFNAMSIZ <? zlen (netdev_name nd)) = false) as ->.
  { case_bool_decide as Hv; [|done]. apply Z.ltb_ge. by apply Hvh. }
  rewrite (bool_decide_false (type = VPORT_TYPE_DISABLED)), (bool_decide_false (type = VPORT_TYPE_BRIDGE)) by done. cbv zeta iota.
  set (r := VportMsg _ _ _ _ _ _ _).
  destruct (vport_transact_ok n lcore c fuel tid views r d X p ps _ Hr (handles_vport_new n lcore c (stamped tid (vport_request views r)) text d eq_refl eq_refl Ht Hbr))
    as (reply & s & d' & -> & Hp & Htr & Hs & Hf & Hre & Hss). bind.
  set (r' := vport_msg (stamped tid (vport_request views r))) in *.
  assert (port_target (vm_type r') (if bool_decide (vm_type r' = VPORT_TYPE_PHY) then u32 (vm_port_no r' + PHYPORT0) else vm_port_no r') (d_sw d) = j) as Ej.
  { unfold j, add_target. fold type. change (vm_type r') with type. unfold r', r. cbn [vm_port_no vport_msg stamped]. by case_bool_decide. }
  unfold new_port in Hre, Hss. rewrite Ej in Hre, Hss. pose proof (same_sw_trans _ _ _ Hss Hs) as Hfin.
  destruct (vport_exists j (d_sw d)); [destruct (vport_is_enabled j (d_sw d))|]; subst reply; cbn [r_type r_body fst snd] in *.
  all: eexists _, _, _, d'; split; [by repeat bind|]; do 3 (split; [done|]); by split.
Qed.

(** ** Properties *)

(** The numbers of the vports that a type has, in a switch with this
    configuration, and the first of them that is not in use. *)
Definition vport_slots (type : vport_type) (c : vcfg) : Z * Z :=
  match type with
  | VPORT_TYPE_CLIENT => (CLIENT1, CLIENT1 + num_clients c - 1)
  | VPORT_TYPE_KNI => (KNI0, KNI0 + num_kni c)
  | VPORT_TYPE_VETH => (VETH0, VETH0 + num_veth c)
  | VPORT_TYPE_VHOST => (VHOST0, VHOST0 + num_vhost c)
  | _ => (0, 0)
  end.
Definition first_free (type : vport_type) (s : sw) (j : Z) : Prop :=
  let '(lo, hi) := vport_slots type (cfg s) in
  lo <= j < hi /\ vport_is_enabled j s = false /\ forall i, lo <= i < j -> vport_is_enabled i s = true.

(** The types of ports that are added, and where: a physical port is the vport
    with its number. *)
Definition port_types : list (string * vport_type) :=
  [("dpdkclient", VPORT_TYPE_CLIENT); ("dpdkkni", VPORT_TYPE_KNI); ("dpdkphy", VPORT_TYPE_PHY); ("dpdkveth", VPORT_TYPE_VETH);
   ("dpdkvhost", VPORT_TYPE_VHOST)]%string.
Definition port_place (nd : netdev) (type : vport_type) (s : sw) (j : Z) : Prop :=
  if bool_decide (type = VPORT_TYPE_PHY)
  then 0 <= phy_port_id nd < MAX_PHYPORTS /\ j = PHYPORT0 + phy_port_id nd /\ vport_is_enabled j s = false
  else first_free type s j.

Lemma next_index_first n i j (s : sw) :
  i <= j < i + Z.of_nat n -> vport_exists j s = true -> vport_is_enabled j s = false ->
  (forall k, i <= k < j -> vport_is_enabled k s = true) -> next_index_loop n i s = j.
Proof.
  revert i. induction n as [|n IH]; intros i Hj He Hen Hall; [lia|]. cbn [next_index_loop]. destruct (decide (i = j)) as [->|Hne].
  - by rewrite He, Hen.
  - rewrite (Hall i) by lia. rewrite andb_false_r. apply IH; [lia|done|done|]. intros k Hk. apply Hall. lia.
Qed.

Lemma exists_of_type j type (s : sw) : vport_get_type j s = type -> type <> VPORT_TYPE_DISABLED -> vport_exists j s = true.
Proof. unfold vport_get_type. destruct (vport_exists j s); [done|]. by intros <-. Qed.

Lemma port_types_ok name type :
  (name, type) ∈ port_types ->
  dpif_dpdk_odport_type (str name) = type /\ dpif_dpdk_ofport_type type = Some (str name) /\ type <> VPORT_TYPE_DISABLED /\ type <> VPORT_TYPE_BRIDGE.
Proof.
  unfold port_types. rewrite !elem_of_cons. intros [[= -> ->]|[[= -> ->]|[[= -> ->]|[[= -> ->]|[[= -> ->]|[]%elem_of_nil]]]]]; by vm_compute.
Qed.

Lemma add_target_place nd name type (s : sw) j :
  netdev_type nd = str name -> (name, type) ∈ port_types -> vport_get_type j s = type -> port_place nd type s j -> add_target nd s = j.
Proof.
  intros Hnd Hin Hty Hpl. destruct (port_types_ok _ _ Hin) as (Hod & _ & Hdis & _). pose proof (exists_of_type _ _ _ Hty Hdis) as Hex.
  unfold add_target, port_target. rewrite Hnd, Hod. unfold port_place in Hpl. case_bool_decide as Hphy.
  - destruct Hpl as (Hid & -> & _). assert (u32 (phy_port_id nd + PHYPORT0) = PHYPORT0 + phy_port_id nd) as ->.
    { unfold u32, MAX_PHYPORTS, PHYPORT0 in *. rewrite wrap_small; [lia|unfold is_u; lia]. }
    by rewrite Hex, bool_decide_true.
  - assert (vport_exists UINT32_MAX s = false) as ->.
    { unfold vport_exists. destruct (index _ _); [|done]. by vm_compute. }
    cbn [andb]. unfold first_free, vport_slots in Hpl. unfold vport_next_available_index. clear Hin Hod.
    destruct type; try done; destruct Hpl as (? & ? & ?); try lia; apply next_index_first; try done; lia.
Qed.

(** C20: Adding a port of one of the five types enables the first vport of
    that type that is not in use (for a physical port the vport with its
    number) under the name of the device, changes no other vport and no flow,
    and returns its number; a query with that number, in any later state with
    these vports, gives back the name and the type of the device. It is given
    that there is such a vport and that the name, which the datapath uses as a
    format string, can be printed without arguments and fits; the name that
    comes back is the printed one. *)
Theorem port_add_query n lcore c fuel tid views nd name type text j d X p ps :
  ready n lcore d X p ps -> netdev_type nd = str name -> (name, type) ∈ port_types ->
  (type = VPORT_TYPE_VHOST -> zlen (netdev_name nd) <= IFNAMSIZ) ->
  format0 (strncpy_array (netdev_name nd)) = Ok text -> zlen text < VPORT_INFO_NAMESZ ->
  vport_get_type j (d_sw d) = type -> port_place nd type (d_sw d) j ->
  exists d', dpif_dpdk_port_add (serve_requests c lcore) (S (S (S fuel))) tid views nd d = Ok (0, Some j, d') /\
    dpinv n lcore d' X /\ transacted ps d d' /\ d_flows d' = d_flows d /\
    (forall i, i <> j -> index (vports (d_sw d')) i = index (vports (d_sw d)) i) /\
    forall c2 d2 X2 p2 ps2, ready n lcore d2 X2 p2 ps2 -> vports (d_sw d2) = vports (d_sw d') ->
      exists d3, dpif_dpdk_port_query_by_number (serve_requests c2 lcore) (S (S (S fuel))) tid views j d2 =
          Ok (0, Some (DpifPort text (netdev_type nd) j), d3) /\
        dpinv n lcore d3 X2 /\ transacted ps2 d2 d3.
Proof.
  intros Hr Hnd Hin Hvh Htext Hlen Hty Hpl. pose proof (add_target_place nd name type (d_sw d) j Hnd Hin Hty Hpl) as Hj.
  destruct (port_types_ok _ _ Hin) as (Hod & Hof & Hdis & Hbr). pose proof (exists_of_type _ _ _ Hty Hdis) as Hex.
  assert (vport_is_enabled j (d_sw d) = false) as Hen.
  { unfold port_place, first_free in Hpl. case_bool_decide; [apply Hpl|]. by destruct (vport_slots _ _), Hpl as (_ & ? & _). }
  assert (addable nd text) as Ha by (unfold addable; by rewrite Hnd, Hod).
  destruct (port_add_ok n lcore c fuel tid views nd text d X p ps Hr Ha) as (error & no & s & d' & E & Hp & Ht & Hf & (m & x & Hs) & Hres).
  rewrite Hj, Hex, Hen in Hres. destruct Hres as (-> & -> & ->).
  destruct (enable_name_spec j text (d_sw d) Hex) as (Hoth & Hen' & Hname' & Hty').
  exists d'. rewrite Hs. do 5 (split; [done|]). intros c2 d2 X2 p2 ps2 Hr2 Hv.
  change (vports (d_sw d2) = vports (vport_set_name j text (vport_enable j (d_sw d)))) in Hv.
  destruct (vports_views j _ _ Hv) as (V1 & V2 & V3). rewrite <- V1 in Hen'. rewrite <- V2 in Hname'. rewrite <- V3 in Hty'.
  unfold snprintf in Hname'. rewrite take_ge in Hname' by (unfold zlen, VPORT_INFO_NAMESZ in *; lia).
  rewrite Hnd. eapply port_query_ok; [exact Hr2| |done|exact Hname'|exact Hlen|by rewrite Hty', Hty].
  destruct (vport_exists_range _ _ Hex) as (_ & _ & Hrange). unfold MAX_VPORTS, UINT32_MAX in *. lia.
Qed.

(** Deleting a port disables its vport and nothing else; a number that is no
    enabled vport is refused. *)
Theorem port_del_correct n lcore c fuel tid views no d X p ps :
  ready n lcore d X p ps -> 0 <= no < 65536 ->
  exists error d', dpif_dpdk_port_del (serve_requests c lcore) (S (S (S fuel))) tid views no d = Ok (error, d') /\
    dpinv n lcore d' X /\ transacted ps d d' /\ d_flows d' = d_flows d /\
    (forall i, i <> no -> index (vports (d_sw d')) i = index (vports (d_sw d)) i) /\
    vport_is_enabled no (d_sw d') = false /\ error = if vport_is_enabled no (d_sw d) then 0 else ENODEV.
Proof.
  intros Hr Hno. unfold dpif_dpdk_port_del. set (r := VportMsg _ _ _ _ _ _ _).
  destruct (vport_transact_ok n lcore c fuel tid views r d X p ps _ Hr (handles_vport_del n lcore c (stamped tid (vport_request views r)) d eq_refl eq_refl))
    as (reply & s & d' & -> & Hp & Htr & Hs & Hf & Hre & Hss). bind.
  destruct (same_sw_trans _ _ _ Hss Hs) as (m & x & Hfin). exists (r_type reply), d'. do 4 (split; [done|]). rewrite Hfin.
  unfold vport_del in *. change (vm_port_no (vport_msg (stamped tid (vport_request views r)))) with no in *.
  assert (u16 no = no) as Hu by (apply Z.mod_small; lia). rewrite Hu in *.
  destruct (vport_is_enabled no (d_sw d)) eqn:Hen; [rewrite (vport_enabled_exists _ _ Hen) in *|rewrite andb_false_r in *]; subst reply; [|done].
  destruct (disable_spec no (d_sw d) Hen) as [Ho Hd]. done.
Qed.
End Ports.

(** ** Examples *)

Definition wit_netdev : netdev := Netdev (str "dpdkclient"%string) [112; 49] 0.

Lemma port_add_query_witness :
  exists d', dpif_dpdk_port_add (serve_requests sample_clock 0) 3 5 wit_views wit_netdev (wit_dp sample_table) = Ok (0, Some 1, d') /\
    dpinv 4 0 d' ({[+ 1 +]} ⊎ ∅) /\ vport_is_enabled 1 (d_sw d') = true.
Proof.
  destruct (port_add_query 4 0 sample_clock 0 5 wit_views wit_netdev "dpdkclient"%string VPORT_TYPE_CLIENT [112; 49] 1 (wit_dp sample_table)
    ({[+ 1 +]} ⊎ ∅) 2 []) as (d' & E & Hp & _).
  - apply wit_ready.
  - reflexivity.
  - left.
  - discriminate.
  - vm_compute; reflexivity.
  - vm_compute; reflexivity.
  - vm_compute; reflexivity.
  - split; [split; [discriminate|vm_compute; reflexivity]|]. split; [vm_compute; reflexivity|]. unfold CLIENT1. lia.
  - exists d'. split; [exact E|]. split; [exact Hp|].
    assert (Hs : match dpif_dpdk_port_add (serve_requests sample_clock 0) 3 5 wit_views wit_netdev (wit_dp sample_table) with
      | Ok (_, _, d) => vport_is_enabled 1 (d_sw d) | Err _ => false end = true) by (vm_compute; reflexivity).
    rewrite E in Hs. exact Hs.
Defined.

Lemma port_del_correct_witness :
  exists error d', dpif_dpdk_port_del (serve_requests sample_clock 0) 3 5 wit_views 1 (wit_dp sample_table) = Ok (error, d') /\
    dpinv 4 0 d' ({[+ 1 +]} ⊎ ∅) /\ error = ENODEV.
Proof.
  destruct (port_del_correct 4 0 sample_clock 0 5 wit_views 1 (wit_dp sample_table) ({[+ 1 +]} ⊎ ∅) 2 [])
    as (error & d' & E & Hp & _ & _ & _ & _ & He); [apply wit_ready|split; [discriminate|reflexivity]|].
  exists error, d'. split; [exact E|]. split; [exact Hp|]. rewrite He. vm_compute. reflexivity.
Defined.

(** A buffer more for the daemon. *)
Definition wit_refill (d : dp fifo unit queues (list (option flow_key))) : dp fifo unit queues (list (option flow_key)) :=
  match rte_pktmbuf_alloc (vmem (d_sw d)) with
  | (Some q, m) => set_alloc_ring (sample_ring [q]) (set_sw (set_vmem m (d_sw d)) d)
  | (None, _) => d
  end.

(** The replies of a dump carry the name of the request, which is empty: the
    daemon sees ports without a name. *)
Example port_dump_without_names :
  match dpif_dpdk_port_add (serve_requests sample_clock 0) 3 5 wit_views wit_netdev (wit_dp sample_table) with
  | Ok (_, _, d) =>
      match dpif_dpdk_port_dump_next (serve_requests sample_clock 0) 3 5 wit_views dpif_dpdk_port_dump_start
              (wit_refill d) with
      | Ok (error, port, _, _) => (error, port)
      | Err _ => (0, None)
      end
  | Err _ => (0, None)
  end = (0, Some (DpifPort [] (str "dpdkclient"%string) 1)).
Proof. vm_compute. reflexivity. Qed.
