(* ===== verification/DpifExec.v ===== *)
(** Packets that the daemon sends ([dpif_dpdk_execute] of [lib/dpif-dpdk.c]): the
    packet and its actions reach the datapath, which executes them. *)
From stdpp Require Import gmap gmultiset.
From S2P Require Import Prelude Stats Dpdk Flow Vport VportInit VportProps Action Datapath DatapathProps Ofpbuf.
From S2P Require Import Packets Netlink OdpUtil OdpProps DpdkLink Dpif DpifKey DpifProps DpifUpcall.

Section Execute.
Context {ring dev drv hash : Type} `{Ring : RteRing ring} `{!RteRingLaws ring} `{Mb : RteMbuf} `{!RteMbufLaws}
  `{Drv : Drivers drv} `{!DriversLaws drv} `{Vh : VhostDev dev} `{!VhostLaws dev}
  `{Hash : RteHash flow_key hash} `{!RteHashLaws flow_key hash MAX_FLOWS}.

Notation sw := (vst ring dev drv).
Notation dpt := (dp ring dev drv hash).
Implicit Type d : dpt.

Lemma set_buf_owns m a c c' Y : owns m Y -> bufs m !! a = Some c -> zlen c' = zlen c -> owns (set_buf a c' m) Y.
Proof.
  intros [Hwf Ho] Hc Hz. split; [|exact Ho]. intros q b Hb. destruct (Hwf q b Hb) as (cb & Hcb & Hr). cbn.
  destruct (decide (buf_addr b = a)) as [Heq|Hne]; [rewrite Heq in *|].
  - rewrite lookup_insert_eq. exists c'. rewrite Hc in Hcb. injection Hcb as <-. by rewrite Hz.
  - rewrite lookup_insert_ne by done. by exists cb.
Qed.

(** The header of buffer [b] with a message and a packet of [n] bytes. *)
Definition filled (n : Z) (b : rte_mbuf) : rte_mbuf :=
  Mbuf (buf_addr b) (pkt_data b) (sizeof_dpdk_message + n) (sizeof_dpdk_message + n).

(** The buffer has room for a message and the packet, and around the packet for
    [U] tags more and [D] tags less. *)
Definition packet_room (U D : Z) (m : mem) (p : Z) (packet : list Z) : Prop :=
  forall b c, mbufs m !! p = Some b -> bufs m !! buf_addr b = Some c -> frame_ok U D (adjusted (filled (zlen packet) b)) c.

Lemma fill_packet_ok tid request packet p d b c U D :
  m_type request = PACKET_CMD_FAMILY -> mbufs (vmem (d_sw d)) !! p = Some b -> bufs (vmem (d_sw d)) !! buf_addr b = Some c ->
  0 <= pkt_data b -> frame_ok U D (adjusted (filled (zlen packet) b)) c ->
  exists c', store_bytes c (pkt_data b + sizeof_dpdk_message) packet = Ok c' /\
    fill_mbuf tid (m_type request) request (Some packet) p d =
      Ok (true, set_sw (set_vmem (set_mbuf p (filled (zlen packet) b) (set_buf (buf_addr b) c' (vmem (d_sw d)))) (d_sw d))
                  (set_requests (<[p := request]> (d_requests d)) d)).
Proof.
  intros Hty Hb Hc Hpos (Hbytes & Hzc & _ & Hup & _ & Hlen & Hend & _). unfold adjusted, filled in *. cbn [data_len pkt_len pkt_data buf_addr] in *.
  pose proof (zlen_nonneg packet). assert (sizeof_dpdk_message = 872) as Hsz by done. rewrite Hsz in *.
  destruct (store_bytes_ok c (pkt_data b + 872) packet) as [c' Ec]; [lia|lia|]. exists c'. split; [done|].
  unfold fill_mbuf, mbuf_at, buf_at. rewrite Hb. bind. rewrite Hc. bind. rewrite Hsz, Hty.
  rewrite (proj2 (Z.ltb_ge _ _)) by lia. change (PACKET_CMD_FAMILY =? PACKET_CMD_FAMILY) with true.
  change (PACKET_CMD_FAMILY =? FLOW_CMD_FAMILY) with false. change (PACKET_CMD_FAMILY =? VPORT_CMD_FAMILY) with false. cbv iota.
  assert (u16 (zlen c) = zlen c) as -> by (apply wrap_small; unfold is_u; lia).
  rewrite u64_small by lia. rewrite (proj2 (Z.leb_le _ _)) by lia. rewrite Ec. bind.
  assert (u16 (872 + zlen packet) = 872 + zlen packet) as -> by (apply wrap_small; unfold is_u; lia). done.
Qed.

(** The state after the packet was sent. *)
Definition after_packet (r1 r2 : ring) (m : mem) (p : Z) (request : dpdk_message) d : dpt :=
  set_message_ring r2 (set_sw (set_vmem m (d_sw d)) (set_requests (<[p := request]> (d_requests d)) (set_alloc_ring r1 d))).

Lemma send_packet_request_ok (others : dpt -> res dpt) n lcore fuel tid request packet d X p ps U D :
  dpinv n lcore d X -> m_type request = PACKET_CMD_FAMILY -> bytes packet ->
  ring_objs (vswitchd_alloc_ring d) = p :: ps -> packet_room U D (vmem (d_sw d)) p packet ->
  ring_objs (vswitchd_message_ring d) = [] -> 1 <= ring_cap (vswitchd_message_ring d) ->
  exists r1 r2 m b c, dpdk_link_send others (S fuel) tid request (Some packet) d = Ok (0, after_packet r1 r2 m p request d) /\
    ring_objs r2 = [p] /\ mbufs m !! p = Some b /\ bufs m !! buf_addr b = Some c /\ 0 <= pkt_data b /\
    frame_ok U D (adjusted b) c /\ packet_bytes (adjusted b) c = packet /\
    dpinv n lcore (after_packet r1 r2 m p request d) X.
Proof.
  intros Hp Hty Hbp Ha Hroom Hm Hcap. unfold dpdk_link_send, dpdk_link_send_bulk.
  change (zlen [(request, Some packet)]) with 1. change (LINK_BURST_SIZE <? 1) with false. cbv iota.
  unfold alloc_mbufs. cbn [spin]. destruct (dequeue_one _ _ _ Ha) as (r1 & -> & Ho1 & _). cbv beta iota. change (0 =? 0) with true. cbv iota. bind.
  destruct (owns_live (vmem (d_sw d)) _ p (proj2 (proj1 Hp))) as [b Hb].
  { unfold rings_objs. rewrite Ha, M_cons. clear. multiset_solver. }
  destruct (proj1 (proj2 (proj1 Hp)) p b Hb) as (c & Hc & Hpos & _ & _). specialize (Hroom b c Hb Hc).
  cbn [zip zip_with fill_mbufs].
  destruct (fill_packet_ok tid request packet p (set_alloc_ring r1 d) b c U D Hty Hb Hc Hpos Hroom) as (c' & Ec & ->). bind. bind. cbn [negb].
  set (b1 := filled (zlen packet) b) in *. set (m := set_mbuf p b1 _).
  match goal with |- context [rte_ring_enqueue_bulk [p] ?r] => change r with (vswitchd_message_ring d) end.
  destruct (rte_ring_enqueue_bulk [p] (vswitchd_message_ring d)) as [ret r2] eqn:Er2.
  destruct (ring_enqueue_bulk_spec _ _ _ _ Er2) as [_ Hr2]. rewrite Hm in Hr2. rewrite (proj2 (Z.leb_le _ _)) in Hr2 by done.
  destruct Hr2 as [Hret Ho2]. exists r1, r2, m, b1, c'. split; [by destruct Hret as [->| ->]|]. split; [done|].
  split; [apply lookup_insert_eq|]. split; [apply lookup_insert_eq|]. split; [done|].
  pose proof (store_bytes_zlen _ _ _ _ Ec) as Hzc'.
  split; [|split].
  - destruct Hroom as (Hcb & Hrest). split; [eapply store_bytes_bytes; [exact Hcb|exact Hbp|exact Ec]|]. by rewrite Hzc'.
  - pose proof (load_store_same _ _ _ _ Ec) as Hld. apply load_bytes_Ok in Hld as (_ & _ & _ & Hld). unfold packet_bytes, adjusted, b1, filled.
    cbn [data_len pkt_data]. by rewrite Z.add_simpl_l.
  - destruct Hroom as (_ & _ & _ & _ & _ & Hlen & Hend & _). unfold adjusted, b1, filled in Hlen, Hend. cbn [pkt_data pkt_len] in Hlen, Hend.
    eapply (pinv_set_vmem n lcore _ (d_sw d) (rings_objs d ⊎ X)); [exact Hp|]. intros Ho.
    eapply owns_eq; [|]. 1: eapply (set_mbuf_owns _ p b c'); [eapply (set_buf_owns _ (buf_addr b) c c'); [exact Ho|done|done]|done|apply lookup_insert_eq|done|done|..].
    3: unfold rings_objs; cbn; rewrite Ha, Hm, Ho1, Ho2, !M_cons, M_nil; clear; multiset_solver.
    all: cbn; assert (sizeof_dpdk_message = 872) as Hsz by done; rewrite Hsz in *; lia.
Qed.

(** ** Serving the packet *)

Lemma free_ring_ok n lcore d X :
  dpinv n lcore d X ->
  let '(fs, r) := rte_ring_dequeue_burst PKT_BURST_SIZE (vswitchd_free_ring d) in
  exists m, st_free_all fs (d_sw (set_free_ring r d)) = Ok (set_vmem m (d_sw d)) /\
    dpinv n lcore (set_sw (set_vmem m (d_sw d)) (set_free_ring r d)) X.
Proof.
  intros [[Hwf Ho] Hs]. destruct (rte_ring_dequeue_burst PKT_BURST_SIZE (vswitchd_free_ring d)) as [fs r] eqn:Er.
  destruct (ring_dequeue_burst_spec PKT_BURST_SIZE _ _ _ ltac:(done) Er) as (_ & Hfs & Hro).
  assert (M (ring_objs (vswitchd_free_ring d)) = M fs ⊎ M (ring_objs r)) as Hsplit by (by rewrite Hfs, Hro, <- M_app, take_drop).
  destruct (st_free_all_ok n lcore fs (d_sw d) (owned (d_sw d) ⊎ (rings_objs (set_free_ring r d) ⊎ X)) Hwf) as (m & E & Hwf' & Ho' & _).
  { eapply owns_eq; [exact Ho|]. unfold rings_objs. simpl. rewrite Hsplit. clear. multiset_solver. }
  exists m. split; [exact E|]. split; [done|]. intros k. specialize (Hs k). by destruct k.
Qed.

Lemma serve_packet_ok n lcore c d X p b buf request U D :
  dpinv n lcore d X -> ring_objs (vswitchd_message_ring d) = [p] -> d_requests d !! p = Some request ->
  m_type request = PACKET_CMD_FAMILY -> actions_ok U D (packet_msg request) ->
  mbufs (vmem (d_sw d)) !! p = Some b -> bufs (vmem (d_sw d)) !! buf_addr b = Some buf -> 0 <= pkt_data b ->
  frame_ok U D (adjusted b) buf ->
  exists d' s1 s2, serve_requests c lcore d = Ok d' /\ dpinv n lcore d' X /\ d_flows d' = d_flows d /\
    same_sw (d_sw d) s1 /\ mbufs (vmem s1) !! p = Some (adjusted b) /\ bufs (vmem s1) = bufs (vmem (d_sw d)) /\
    action_execute lcore (Some (packet_msg request)) (Some p) s1 = Ok (0, s2) /\ same_sw s2 (d_sw d').
Proof.
  intros Hp Hm Hreq Hty (Hz & Hw & Hh & Hu & Hdn) Hb Hc H0 Hf. unfold serve_requests.
  destruct (rte_ring_dequeue_burst PKT_BURST_SIZE (vswitchd_message_ring d)) as [ps r] eqn:Er.
  destruct (ring_dequeue_burst_spec PKT_BURST_SIZE _ _ _ ltac:(done) Er) as (_ & Hps & Hro). rewrite Hm in Hps, Hro. simpl in Hps, Hro. subst ps.
  set (d1 := set_message_ring r d).
  assert (dpinv n lcore d1 ({[+ p +]} ⊎ X)) as Hp1.
  { eapply pinv_eq; [exact Hp|]. unfold rings_objs, d1. simpl. rewrite Hm, Hro, M_cons, M_nil. clear. multiset_solver. }
  destruct (inc_vswitchd_ok n lcore C_rx (zlen [p]) d1 _ Hp1) as (x & -> & Hp2). bind.
  set (d2 := set_sw (set_vstats x (d_sw d1)) d1) in *. cbn [handle_cmds]. unfold handle_vswitchd_cmd, mbuf_at.
  change (vmem (d_sw d2)) with (vmem (d_sw d)). rewrite Hb. bind. change (d_requests d2) with (d_requests d). rewrite Hreq. bind. rewrite Hty.
  change (PACKET_CMD_FAMILY =? VPORT_CMD_FAMILY) with false. change (PACKET_CMD_FAMILY =? FLOW_CMD_FAMILY) with false.
  change (PACKET_CMD_FAMILY =? PACKET_CMD_FAMILY) with true. cbv iota.
  pose proof Hf as (_ & Hzc & Hdl & Hup & HD & Hlen & He & _). unfold adjusted in Hdl, Hup, Hlen, He. cbn [data_len pkt_len pkt_data] in *.
  assert (sizeof_dpdk_message = 872) as Hsz by done.
  rewrite (adj_spec _ p b) by (done || lia). rewrite (proj2 (Z.leb_le _ _)) by lia.
  assert (Mbuf (buf_addr b) (pkt_data b + sizeof_dpdk_message) (u16 (data_len b - sizeof_dpdk_message))
            (u32 (pkt_len b - sizeof_dpdk_message)) = adjusted b) as ->.
  { unfold adjusted, u16, u32. rewrite !wrap_small by (unfold is_u; lia). done. }
  destruct (dpinv_set_mbuf n lcore p b buf (adjusted b) d2 X Hp2 Hb Hc) as [Hp3 _]; try done; [cbn; lia..|].
  set (d3 := set_sw _ d2) in *. unfold handle_packet_cmd.
  destruct (action_execute_ok n lcore (packet_msg request) p (d_sw d3) (rings_objs d3 ⊎ X)) as (s2 & E2 & Hp4 & _ & _); try done.
  { eapply pinv_eq; [exact Hp3|]. clear. multiset_solver. }
  { exists (adjusted b), buf. split; [by simpl; rewrite lookup_insert_eq|]. split; [done|].
    pose proof (total_nonneg pushes (visited (packet_msg request)) pushes_nonneg). pose proof (total_nonneg pops (visited (packet_msg request)) pops_nonneg).
    eapply frame_ok_weaken; [exact Hf|lia|lia]. }
  rewrite E2. bind. bind. set (d4 := set_sw s2 d3). bind.
  pose proof (free_ring_ok n lcore d4 X Hp4) as Hfr. destruct (rte_ring_dequeue_burst PKT_BURST_SIZE (vswitchd_free_ring d4)) as [fs r5].
  destruct Hfr as (m5 & -> & Hp5). bind. eexists _, (d_sw d3), s2. split; [done|]. split; [exact Hp5|]. split; [done|].
  split; [by eexists _, _|]. split; [apply lookup_insert_eq|]. split; [done|]. split; [done|]. apply same_sw_mem.
Qed.

(** ** Properties *)

(** C17: Executing a packet for the daemon, across both processes: the packet
    reaches the datapath byte for byte, the datapath executes exactly the
    given actions on it, the flows stay as they are and every buffer is
    accounted for. It is given that the ring of requests is empty, that an
    empty buffer is at hand with room for the packet and for the headers the
    actions add or remove, and that there are fewer than 48 well-formed
    actions which give the packet away at the end. *)
Theorem execute_correct n lcore c fuel tid views uninit packet l d X p ps U D :
  dpinv n lcore d X -> ring_objs (vswitchd_message_ring d) = [] -> 1 <= ring_cap (vswitchd_message_ring d) ->
  ring_objs (vswitchd_alloc_ring d) = p :: ps -> bytes packet -> packet_room U D (vmem (d_sw d)) p packet ->
  Forall action_typed l -> zlen l < MAX_ACTIONS -> zlen uninit = MAX_ACTIONS ->
  let acts := l ++ ACTION_NULL :: drop (S (length l)) uninit in
  let abytes := attrs (map action_attr l) in
  actions_ok U D acts ->
  exists d1 d2 s1 s2 b buf,
    dpif_dpdk_execute (serve_requests c lcore) (S fuel) tid views uninit (Execute (Some packet) (Some abytes) (zlen abytes)) d = Ok (0, d1) /\
    serve_requests c lcore d1 = Ok d2 /\
    same_sw (d_sw d) s1 /\ mbufs (vmem s1) !! p = Some b /\ bufs (vmem s1) !! buf_addr b = Some buf /\ packet_bytes b buf = packet /\
    action_execute lcore (Some acts) (Some p) s1 = Ok (0, s2) /\ visited acts = l /\
    same_sw s2 (d_sw d2) /\ d_flows d2 = d_flows d /\ dpinv n lcore d2 X.
Proof.
  intros Hp Hm Hcap Ha Hbp Hroom Hl Hll Hun acts abytes Hacts. unfold dpif_dpdk_execute. cbn [ex_packet ex_actions ex_actions_len].
  pose proof (create_actions_ok l uninit [] Hl Hll Hun) as Ea. rewrite app_nil_r in Ea. fold abytes acts in Ea. rewrite Ea. bind.
  destruct (send_packet_request_ok (serve_requests c lcore) n lcore fuel tid (packet_request views acts) packet d X p ps U D)
    as (r1 & r2 & m & b & buf & -> & Ho2 & Hb & Hc & H0 & Hf & Hpk & Hp1); [done..|].
  set (d1 := after_packet r1 r2 m p (packet_request views acts) d) in *.
  destruct (serve_packet_ok n lcore c d1 X p b buf (packet_request views acts) U D Hp1 Ho2) as (d2 & s1 & s2 & E2 & Hp2 & Hfl & Hs1 & Hb1 & Hbufs & Ex & Hs2); try done.
  { apply lookup_insert_eq. }
  exists d1, d2, s1, s2, (adjusted b), buf. split; [done|]. split; [done|]. split; [exact (same_sw_trans _ _ _ (same_sw_mem m (d_sw d)) Hs1)|].
  split; [done|]. split; [by rewrite Hbufs|]. split; [done|]. split; [done|]. split; [by apply visited_ended|]. done.
Qed.
End Execute.

(** ** Examples *)

Lemma wit_packet_room : packet_room 1 1 wit_mem 2 wit_packet.
Proof.
  intros b c Hb Hc. vm_compute in Hb. injection Hb as <-. vm_compute in Hc. injection Hc as <-. split; [by apply bytes_bool|]. by vm_compute.
Qed.

Definition wit_out : list action := [ACTION_POP_VLAN; ACTION_OUTPUT 1].

Lemma execute_correct_witness :
  exists d1 d2 s1 s2 b buf,
    dpif_dpdk_execute (serve_requests sample_clock 0) 1 5 wit_views null_actions
      (Execute (Some wit_packet) (Some (attrs (map action_attr wit_out))) (zlen (attrs (map action_attr wit_out)))) (wit_dp sample_table) = Ok (0, d1) /\
    serve_requests sample_clock 0 d1 = Ok d2 /\ mbufs (vmem s1) !! 2 = Some b /\ packet_bytes b buf = wit_packet /\
    action_execute 0 (Some (wit_out ++ replicate 46 ACTION_NULL)) (Some 2) s1 = Ok (0, s2) /\ same_sw s2 (d_sw d2).
Proof.
  destruct (execute_correct 4 0 sample_clock 0 5 wit_views null_actions wit_packet wit_out (wit_dp sample_table) ({[+ 1 +]} ⊎ ∅) 2 [] 1 1)
    as (d1 & d2 & s1 & s2 & b & buf & E1 & E2 & _ & Hb & _ & Hpk & Ex & _ & Hs & _).
  - apply wit_dpinv.
  - reflexivity.
  - vm_compute; discriminate.
  - reflexivity.
  - by apply bytes_bool.
  - apply wit_packet_room.
  - repeat (apply list.Forall_cons; split; [by vm_compute|]). by apply list.Forall_nil.
  - reflexivity.
  - reflexivity.
  - split; [reflexivity|]. split; [repeat constructor; done|]. split; [|by vm_compute].
    right. right. exists [ACTION_POP_VLAN], 1. split; reflexivity.
  - exists d1, d2, s1, s2, b, buf. split; [exact E1|]. split; [exact E2|]. split; [exact Hb|]. split; [exact Hpk|]. split; [exact Ex|exact Hs].
Defined.

(** The room is computed without the 64 bytes of headroom: a packet of 100 bytes
    is accepted for a buffer of 1024 and stored beyond its end. *)
Example packet_beyond_buffer :
  dpif_dpdk_execute (serve_requests sample_clock 0) 1 5 wit_views null_actions
    (Execute (Some (replicate 100 0)) (Some (attrs (map action_attr wit_out))) (zlen (attrs (map action_attr wit_out)))) (wit_dp sample_table) =
  Err OutOfBounds.
Proof. vm_compute. reflexivity. Qed.
