(* ===== verification/DpifDump.v ===== *)
(** A dump of the flows by the daemon ([dpif_dpdk_flow_dump_start],
    [dpif_dpdk_flow_dump_next] of [lib/dpif-dpdk.c]): one transaction for each flow. *)
From stdpp Require Import gmap gmultiset.
From S2P Require Import Prelude Stats Dpdk Flow Vport VportInit VportProps Action Datapath DatapathProps Ofpbuf.
From S2P Require Import Packets Netlink OdpUtil OdpProps DpdkLink Dpif DpifKey DpifProps.

Section Dump.
Context {ring dev drv hash : Type} `{Ring : RteRing ring} `{!RteRingLaws ring} `{Mb : RteMbuf} `{!RteMbufLaws}
  `{Drv : Drivers drv} `{!DriversLaws drv} `{Vh : VhostDev dev} `{!VhostLaws dev}
  `{Hash : RteHash flow_key hash} `{!RteHashLaws flow_key hash MAX_FLOWS}.
Context (n lcore : Z) (c : clock) (fuel : nat) (tid : Z) (views : union_views) (junk : nat -> Z) (junk_byte : forall i, is_u8 (junk i)).

Notation dpt := (dp ring dev drv hash).
Implicit Type d : dpt.

(** What the caller of [dpif_dpdk_flow_dump_next] gets: the key, the actions and
    the statistics. *)
Definition dump_out : Type := ofpbuf * ofpbuf * dpif_flow_stats.

(** The calls of a dump, until one fails; before each call the two processes may
    have done other things, [ds] are the states in which it is made. *)
Fixpoint dump_calls (state : dpdk_flow_message) (ds : list dpt) : res (list dump_out) :=
  match ds with
  | [] => Err OutOfFuel
  | d :: ds =>
      '(error, out, state, _) ← dpif_dpdk_flow_dump_next (serve_requests c lcore) (S (S (S fuel))) tid views junk state d;
      match out with
      | Some o => l ← dump_calls state ds; Ok (o :: l)
      | None => Ok []
      end
  end.

(** The flow as it is given to the caller. *)
Definition described (o : flow_out) (x : dump_out) : Prop :=
  let '(k, a, s) := o in let '(key, acts, stats) := x in
  contents key = attrs (key_attrs (dpif_dpdk_flow_key_to_flow k) (in_port k)) /\
  contents acts = attrs (map action_attr (visited a)) /\ stats = flow_stats_of s.

(** Flows whose keys and actions are in the ranges of their types. *)
Definition flows_typed (t : flow_table hash) : Prop :=
  forall k a x, flow_map t k = Some (a, x) -> key_typed k /\ key_normal k /\ Forall action_typed (visited a).

(** The next request of a dump. *)
Definition dumping (state : dpdk_flow_message) (pos : Z) (t : flow_table hash) : Prop :=
  fm_cmd state = CMD_GET /\ fm_flags state = NLM_F_DUMP /\ 0 <= pos <= MAX_FLOWS /\
  flow_dump_step c (fm_key state) t = scan_flows scan_fuel c pos t.

Lemma dump_reply state pos t :
  ft_wf t -> dumping state pos t -> let r := set_fm_id tid state in
  match flows_from c pos t with
  | [] => flow_serve c r t = Ok (Reply EOF (FlowReply r), t)
  | (k, a, s) :: rest => exists q e, flow_serve c r t = Ok (Reply 0 (FlowReply (with_flow_out k a s r)), t) /\
      pos <= q < MAX_FLOWS /\ index (table t) q = Ok e /\ entry_out c e = Some (k, a, s) /\ flows_from c (q + 1) t = rest
  end.
Proof.
  intros Hwf (Hcmd & Hfl & Hpos & Hstep) r.
  assert (flow_serve c r t = (reply ← flow_dump_reply c r t; Ok (reply, t))) as ->.
  { unfold flow_serve. change (fm_cmd r) with (fm_cmd state). change (fm_flags r) with (fm_flags state). by rewrite Hcmd, Hfl. }
  unfold flow_dump_reply. change (fm_key r) with (fm_key state). rewrite Hstep.
  pose proof (scan_flows_spec scan_fuel c pos t (wf_len _ Hwf) Hpos ltac:(unfold scan_fuel; lia)) as Hs.
  destruct (flows_from c pos t) as [|[[k a] s] rest]; [by rewrite Hs|].
  destruct Hs as (q & e & -> & Hq & He & Ho & Hrest). exists q, e. split; [|done]. bind. rewrite (proj2 (Z.leb_le 0 q)) by lia. by bind.
Qed.

(** The key of the flow at [q] continues the dump behind it. *)
Lemma dump_continues t q e :
  ft_wf t -> flow_map t empty_key = None -> index (table t) q = Ok e -> e_enabled e = true ->
  flow_dump_step c (e_key e) t = scan_flows scan_fuel c (q + 1) t.
Proof.
  intros Hwf Hemp He Hen. pose proof (wf_enabled _ Hwf _ _ He Hen) as Hp. pose proof (pos_range _ _ _ Hp) as Hr.
  unfold flow_dump_step. rewrite decide_False.
  - unfold flow_table_get_next_flow. by rewrite (lookup_some _ _ _ Hp), (bad_pos_false _ Hr).
  - intros Hk. rewrite Hk in Hp. unfold flow_map in Hemp. by rewrite Hp, He in Hemp.
Qed.

Lemma dump_next_ok state d X p ps k a s t' r :
  ready n lcore d X p ps -> flow_serve c (set_fm_id tid state) (d_flows d) = Ok (Reply 0 (FlowReply (with_flow_out k a s r)), t') ->
  key_typed k -> key_normal k -> Forall action_typed (visited a) ->
  exists out d', dpif_dpdk_flow_dump_next (serve_requests c lcore) (S (S (S fuel))) tid views junk state d =
      Ok (0, Some out, with_flow_out k a s r, d') /\ described (k, a, s) out.
Proof.
  intros Hr Hs Hkt Hkn Ha. unfold dpif_dpdk_flow_dump_next.
  destruct (ready_transact n lcore c fuel tid views state d X p ps _ _ Hr Hs) as (d' & -> & _). bind.
  cbn [negb Z.eqb r_type flow_member r_body replied]. cbv iota. bind. cbn [fm_actions fm_key with_flow_out].
  destruct (put_actions_ok junk junk_byte (visited a) (2 * MAX_ACTIONS) (ofpbuf_init junk 0)) as (acts & Eb & _ & Hc);
    [done|pose proof (zlen_visited a); lia|by apply init_roomy|].
  unfold dpif_dpdk_flow_actions_to_actions. rewrite Eb. bind.
  change (odp_port (f_meta (dpif_dpdk_flow_key_to_flow k))) with (in_port k).
  destruct (odp_flow_key_from_flow_ok junk junk_byte 20 _ (in_port k) (ofpbuf_init junk 0) (key_flow_ok k Hkt Hkn))
    as (msg & -> & _ & Hm); [lia|by apply init_roomy|]. bind.
  eexists _, d'. split; [done|]. rewrite init_contents in Hc, Hm. done.
Qed.

Lemma dump_calls_ok t ds : forall state pos,
  ft_wf t -> flow_map t empty_key = None -> flows_typed t -> dumping state pos t ->
  Forall (fun d => d_flows d = t /\ exists X p ps, ready n lcore d X p ps) ds ->
  (length (flows_from c pos t) < length ds)%nat ->
  exists outs, dump_calls state ds = Ok outs /\ Forall2 described (flows_from c pos t) outs.
Proof.
  induction ds as [|d ds IH]; intros state pos Hwf Hemp Hty Hd Hds Hlen; [cbn in Hlen; lia|].
  apply list.Forall_cons in Hds as [[Hfl (X & p & ps & Hr)] Hds]. cbn [dump_calls].
  pose proof (dump_reply state pos t Hwf Hd) as Hrep. cbv zeta in Hrep. destruct (flows_from c pos t) as [|[[k a] s] rest] eqn:Ef.
  - rewrite <- Hfl in Hrep. destruct (ready_transact n lcore c fuel tid views state d X p ps _ _ Hr Hrep) as (d' & E & _).
    unfold dpif_dpdk_flow_dump_next. rewrite E. repeat bind. exists []. by split.
  - pose proof Hd as (Hcmd & Hflags & Hpos & _). destruct Hrep as (q & e & Hs & Hq & He & Ho & Hrest). apply entry_out_Some in Ho as [Hen [= Hk Ha Hs']].
    assert ((k, a, s) ∈ flows_from c 0 t) as Hin.
    { apply (flows_from_sublist c 0 pos); [lia|]. rewrite Ef. apply list_elem_of_here. }
    apply (flows_from_map c t k a s Hwf) in Hin as (x & Hm & _). destruct (Hty k a x Hm) as (Hkt & Hkn & Hat).
    rewrite <- Hfl in Hs. destruct (dump_next_ok state d X p ps k a s _ _ Hr Hs Hkt Hkn Hat) as (out & d' & -> & Hdes). bind.
    destruct (IH (with_flow_out k a s (set_fm_id tid state)) (q + 1) Hwf Hemp Hty) as (outs & -> & Houts); [|done|rewrite Hrest; apply (Nat.succ_lt_mono _ _), Hlen|].
    { split; [done|]. split; [done|]. split; [lia|]. cbn [fm_key with_flow_out]. rewrite Hk. by apply dump_continues. }
    bind. exists (out :: outs). split; [done|]. rewrite Hrest in Houts. by constructor.
Qed.

(** ** Properties *)

(** C26: A dump by the daemon, one transaction for each reply and other work
    between them that leaves the flows alone, returns every flow exactly once,
    its key and actions as attributes, with its statistics, and then ends. It
    is given that the keys of the flows are of the form that extraction from a
    packet gives, that the members of their actions are within their types,
    and that no flow has the key of all zeros, which the datapath takes for
    the start of a dump. *)
Theorem dpif_dump_complete t ds :
  ft_wf t -> flow_map t empty_key = None -> flows_typed t ->
  Forall (fun d => d_flows d = t /\ exists X p ps, ready n lcore d X p ps) ds ->
  (length (flows_from c 0 t) < length ds)%nat ->
  exists l outs, dump_calls dpif_dpdk_flow_dump_start ds = Ok outs /\ Forall2 described l outs /\ NoDup (out_key <$> l) /\
    forall k a s, (k, a, s) ∈ l <-> exists st, flow_map t k = Some (a, st) /\ s = stats_out c st.
Proof.
  intros Hwf Hemp Hty Hds Hlen.
  destruct (dump_calls_ok t ds dpif_dpdk_flow_dump_start 0 Hwf Hemp Hty) as (outs & E & Ho); [by split_and!|done|done|].
  exists (flows_from c 0 t), outs. split; [done|]. split; [done|]. split; [by apply flows_from_NoDup|]. intros. by apply flows_from_map.
Qed.
End Dump.

(** ** Witness *)

Lemma with_flow_typed : flows_typed (with_flow wit_key).
Proof.
  intros k a x Hm.
  assert ((k, a, stats_out sample_clock x) ∈ flows_from sample_clock 0 (with_flow wit_key)) as Hin
    by (apply flows_from_map; [apply with_flow_wf|by exists x]).
  assert (flows_from sample_clock 0 (with_flow wit_key) = [(wit_key, sample_actions 2, stats_out sample_clock zero_stats)]) as Ef
    by (vm_compute; reflexivity).
  clear Hm. rewrite Ef in Hin. clear Ef. apply list_elem_of_singleton in Hin. injection Hin as -> -> _.
  destruct (extract_key wit_packet 0 17 wit_key) as [Hkt Hkn]; [by apply bytes_bool|reflexivity|]. split_and!; [done|done|].
  apply list.Forall_cons. split; [by split|by apply list.Forall_nil].
Qed.

Lemma dpif_dump_complete_witness :
  exists l outs, dump_calls 0 sample_clock 0 5 wit_views zeros dpif_dpdk_flow_dump_start
      [wit_dp (with_flow wit_key); wit_dp (with_flow wit_key)] = Ok outs /\ Forall2 described l outs /\
    (wit_key, sample_actions 2, stats_out sample_clock zero_stats) ∈ l.
Proof.
  destruct (dpif_dump_complete 4 0 sample_clock 0 5 wit_views zeros zeros_byte (with_flow wit_key)
    [wit_dp (with_flow wit_key); wit_dp (with_flow wit_key)]) as (l & outs & E & Hl & _ & Hin);
    [apply with_flow_wf|vm_compute; reflexivity|apply with_flow_typed| |vm_compute; lia|].
  - repeat (apply list.Forall_cons; split; [split; [reflexivity|eexists _, 2, []; apply wit_ready]|]). apply list.Forall_nil; exact I.
  - exists l, outs. split; [exact E|]. split; [exact Hl|]. apply Hin. exists zero_stats. split; [vm_compute|]; reflexivity.
Defined.
