(* ===== verification/Netdev.v ===== *)
(** The devices of the daemon ([lib/netdev-dpdk.c]): configuration of physical
    ports and statistics, above the datapath interface. *)
From stdpp Require Import gmap gmultiset.
From Stdlib Require Import String.
From S2P Require Import Prelude Stats Dpdk Flow Vport VportInit VportProps Action Datapath DatapathProps Args.
From S2P Require Import Packets Ofpbuf DpdkLink Dpif DpifProps DpifPorts.

Definition UINT64_MAX : Z := 2 ^ 64 - 1.
Definition NETDEV_UP : Z := 1.

(** ** Statistics *)

Record netdev_stats := NetdevStats {
  rx_packets : Z; tx_packets : Z; rx_bytes : Z; tx_bytes : Z; rx_errors : Z; tx_errors : Z; rx_dropped : Z; tx_dropped : Z;
  multicast : Z; collisions : Z;
  rx_length_errors : Z; rx_over_errors : Z; rx_crc_errors : Z; rx_frame_errors : Z; rx_fifo_errors : Z; rx_missed_errors : Z;
  tx_aborted_errors : Z; tx_carrier_errors : Z; tx_fifo_errors : Z; tx_heartbeat_errors : Z; tx_window_errors : Z
}.

Definition netdev_stats_from_dpdk_vport_stats (src : port_stats) : netdev_stats :=
  NetdevStats (ps_rx src) (ps_tx src) (ps_rx_bytes src) (ps_tx_bytes src) (ps_rx_error src) (ps_tx_error src)
    (ps_rx_drop src) (ps_tx_drop src) UINT64_MAX UINT64_MAX
    UINT64_MAX UINT64_MAX UINT64_MAX UINT64_MAX UINT64_MAX UINT64_MAX
    UINT64_MAX UINT64_MAX UINT64_MAX UINT64_MAX UINT64_MAX.

Section Stats.
Context {ring dev drv hash : Type} `{Ring : RteRing ring} `{Mb : RteMbuf} `{Drv : Drivers drv} `{Vh : VhostDev dev}
  `{Hash : RteHash flow_key hash}.
Context (others : dp ring dev drv hash -> res (dp ring dev drv hash)) (fuel : nat) (tid : Z) (views : union_views).

(** [netdev_dpdk_get_stats]: the return value, and the statistics if they are set. *)
Definition netdev_dpdk_get_stats (uninit : dpdk_vport_message) (nd : netdev) (d : dp ring dev drv hash)
  : res (Z * option netdev_stats * dp ring dev drv hash) :=
  '(error, reply, d) ← dpif_dpdk_port_get_stats others fuel tid views uninit (netdev_name nd) d;
  if error =? 0 then r ← replied reply; Ok (error, Some (netdev_stats_from_dpdk_vport_stats r), d) else Ok (error, None, d).
End Stats.

(** ** Configuration *)

(** [netdev_dpdk_construct] and [netdev_dpdk_phy_construct]. *)
Definition netdev_dpdk_construct (nd : netdev) : Z * netdev := (0, nd).
Definition netdev_dpdk_phy_construct (nd : netdev) : Z * netdev := (0, Netdev (netdev_type nd) (netdev_name nd) 0).

(** [netdev_dpdk_phy_set_config]; [args] is the map of strings of the caller. *)
Definition netdev_dpdk_phy_set_config (args : gmap (list Z) (list Z)) (nd : netdev) : Z * netdev :=
  match args !! str "port" with
  | None => (EINVAL, nd)
  | Some port_id =>
      let port_no := u32 (atoi port_id) in
      if MAX_PHYPORTS <=? port_no then (EINVAL, nd) else (0, Netdev (netdev_type nd) (netdev_name nd) port_no)
  end.

(** [netdev_dpdk_update_flags]: the old flags. *)
Definition netdev_dpdk_update_flags (off on : Z) : Z * Z := (0, NETDEV_UP).

(** The members of [struct netdev_class] in which the six classes differ. *)
Record netdev_class := NetdevClass {
  nc_type : list Z;
  nc_construct : netdev -> Z * netdev;
  nc_set_config : option (gmap (list Z) (list Z) -> netdev -> Z * netdev)
}.

(** The classes of clients, KNI ports, physical ports, vEth ports, guests and
    bridges. *)
Definition netdev_dpdk_phy_class : netdev_class :=
  NetdevClass (str "dpdkphy") netdev_dpdk_phy_construct (Some netdev_dpdk_phy_set_config).
Definition netdev_dpdk_classes : list netdev_class :=
  let plain (type : string) := NetdevClass (str type) netdev_dpdk_construct None in
  [plain "dpdkclient"; plain "dpdkkni"; netdev_dpdk_phy_class; plain "dpdkveth"; plain "dpdkvhost"; plain "internal"]%string.

Lemma u32_atoi s : u32 (atoi s) < MAX_PHYPORTS <-> 0 <= atoi s < MAX_PHYPORTS.
Proof.
  assert (- 2 ^ 31 <= atoi s < 2 ^ 31) as Hr.
  { unfold atoi. destruct (scan_number s 10) as [[[neg v] rest] any]. unfold i32. pose proof (wrap_range 32) as Hw. unfold is_u in Hw.
    destruct (Z.ltb_spec (u32 (if neg then Z.max (- v) (- 2 ^ 63) else Z.min v (2 ^ 63 - 1))) (2 ^ 31)) as [H|H]; unfold u32 in *;
      specialize (Hw (if neg then Z.max (- v) (- 2 ^ 63) else Z.min v (2 ^ 63 - 1)) ltac:(lia)); lia. }
  unfold u32, wrap, MAX_PHYPORTS. zdiv.
Qed.

(** ** Properties *)

(** The types of the classes are the types of vports, and no two classes have
    the same: a type that the datapath reports for a port names the class that
    the port was made with. *)
Theorem netdev_types_roundtrip :
  NoDup (dpif_dpdk_odport_type ∘ nc_type <$> netdev_dpdk_classes) /\
  Forall (fun c => dpif_dpdk_ofport_type (dpif_dpdk_odport_type (nc_type c)) = Some (nc_type c)) netdev_dpdk_classes.
Proof.
  split; [apply (bool_decide_unpack _); by vm_compute|]. repeat (apply list.Forall_cons; split; [by vm_compute|]). by apply list.Forall_nil.
Qed.

Section Ports.
Context {ring dev drv hash : Type} `{Ring : RteRing ring} `{!RteRingLaws ring} `{Mb : RteMbuf} `{!RteMbufLaws}
  `{Drv : Drivers drv} `{!DriversLaws drv} `{Vh : VhostDev dev} `{!VhostLaws dev}
  `{Hash : RteHash flow_key hash} `{!RteHashLaws flow_key hash MAX_FLOWS}.

(** A physical port that is configured with port=N, where N is the number of a
    port that the datapath has and that is not in use, is added as the vport of
    that port; any other argument is refused and changes nothing. *)
Theorem phy_config_add n lcore c fuel tid views args arg name text (d : dp ring dev drv hash) X p ps :
  ready n lcore d X p ps -> args !! str "port" = Some arg -> format0 (strncpy_array name) = Ok text ->
  let nd := Netdev (nc_type netdev_dpdk_phy_class) name 0 in
  let '(error, nd') := netdev_dpdk_phy_set_config args nd in
  let j := PHYPORT0 + atoi arg in
  if bool_decide (0 <= atoi arg < MAX_PHYPORTS) then
    error = 0 /\
    (vport_get_type j (d_sw d) = VPORT_TYPE_PHY -> vport_exists j (d_sw d) = true -> vport_is_enabled j (d_sw d) = false ->
     exists d', dpif_dpdk_port_add (serve_requests c lcore) (S (S (S fuel))) tid views nd' d = Ok (0, Some j, d') /\
       dpinv n lcore d' X /\ vport_is_enabled j (d_sw d') = true)
  else error = EINVAL /\ nd' = nd.
Proof.
  intros Hr Harg Ht nd. unfold netdev_dpdk_phy_set_config. rewrite Harg. pose proof (u32_atoi arg) as Hu. case_bool_decide as Ha.
  - rewrite (proj2 (Z.leb_gt _ _)) by tauto. assert (u32 (atoi arg) = atoi arg) as -> by (apply wrap_small; unfold is_u, MAX_PHYPORTS in *; lia).
    split; [done|]. intros Hty Hex Hen. set (nd' := Netdev _ _ (atoi arg)). set (j := PHYPORT0 + atoi arg) in *.
    assert (add_target nd' (d_sw d) = j) as Hj.
    { unfold add_target. change (dpif_dpdk_odport_type (netdev_type nd')) with VPORT_TYPE_PHY. rewrite bool_decide_eq_true_2 by done.
      assert (u32 (phy_port_id nd' + PHYPORT0) = j) as -> by (unfold u32; cbn; rewrite wrap_small; unfold is_u, j, PHYPORT0, MAX_PHYPORTS in *; lia).
      unfold port_target. by rewrite Hex, bool_decide_eq_true_2. }
    destruct (port_add_ok n lcore c fuel tid views nd' text d X p ps Hr) as (error & no & s & d' & E & Hp & _ & _ & (m & x & Hs) & Hres);
      [by split_and!|]. rewrite Hj, Hex, Hen in Hres. destruct Hres as (-> & -> & ->). exists d'. split; [done|]. split; [done|]. rewrite Hs.
    by destruct (enable_name_spec j text (d_sw d) Hex) as (_ & He & _).
  - rewrite (proj2 (Z.leb_le _ _)); [done|]. destruct (Z.le_gt_cases MAX_PHYPORTS (u32 (atoi arg))); [done|tauto].
Qed.
End Ports.

Lemma phy_config_add_witness :
  exists d', dpif_dpdk_port_add (serve_requests sample_clock 0) 3 5 wit_views (Netdev (str "dpdkphy") [112; 49] 0) (wit_dp sample_table) =
    Ok (0, Some PHYPORT0, d').
Proof.
  destruct (phy_config_add 4 0 sample_clock 0 5 wit_views {[str "port" := [48]]} [48] [112; 49] [112; 49] (wit_dp sample_table)
    ({[+ 1 +]} ⊎ ∅) 2 []) as [_ H]; [apply wit_ready|vm_compute; reflexivity|reflexivity|].
  destruct H as (d' & E & _); [vm_compute; reflexivity|vm_compute; reflexivity|vm_compute; reflexivity|]. exists d'. exact E.
Defined.
