(* ===== verification/Heap.v ===== *)
(** The priority queue of the library ([lib/heap.c], [lib/heap.h]): a binary
    max-heap in an array of pointers to nodes, which know their places. *)
From stdpp Require Import gmap.
From S2P Require Import Prelude.

(** ** Data *)

Record heap_node := HeapNode { idx : Z; priority : Z }.

(** [struct heap], with the array as a list of pointers; an element that was
    never written is [None].  Sizes do not wrap: the array is in memory. *)
Record heap := Heap { array : list (option Z); heap_n : Z; allocated : Z }.

(** A heap and the nodes in memory. *)
Record hst := HSt { hp : heap; nodes : gmap Z heap_node }.

(** ** Operations *)

Definition heap_parent__ (i : Z) : Z := i / 2.
Definition heap_left__ (i : Z) : Z := i * 2.
Definition heap_right__ (i : Z) : Z := i * 2 + 1.
Definition heap_is_leaf__ (h : heap) (i : Z) : bool := heap_n h <? heap_left__ i.

Definition heap_init : heap := Heap [] 0 0.
Definition heap_clear (h : heap) : heap := Heap (array h) 0 (allocated h).

(** [heap->array[i]] and [node->idx], [node->priority]. *)
Definition array_get (i : Z) (s : hst) : res Z := o ← index (array (hp s)) i; deref o.
Definition node_get (p : Z) (s : hst) : res heap_node :=
  match nodes s !! p with Some nd => Ok nd | None => Err UseAfterFree end.
Definition priority_at (i : Z) (s : hst) : res Z := p ← array_get i s; nd ← node_get p s; Ok (priority nd).

Definition put_node (p i : Z) (s : hst) : res hst :=
  _ ← index (array (hp s)) i;
  nd ← node_get p s;
  Ok (HSt (Heap (update (array (hp s)) i (Some p)) (heap_n (hp s)) (allocated (hp s)))
        (<[p := HeapNode i (priority nd)]> (nodes s))).

Definition swap_nodes (i j : Z) (s : hst) : res hst :=
  old_i ← array_get i s;
  old_j ← array_get j s;
  s ← put_node old_j i s;
  put_node old_i j s.

(** The loop of [float_up]; the index is at least halved. *)
Fixpoint float_up_loop (fuel : nat) (moved : bool) (i : Z) (s : hst) : res (bool * hst) :=
  if i <=? 1 then Ok (moved, s) else
  match fuel with
  | O => Err OutOfFuel
  | S fuel =>
      let parent := heap_parent__ i in
      a ← priority_at parent s; b ← priority_at i s;
      if b <=? a then Ok (moved, s) else
      s ← swap_nodes parent i s;
      float_up_loop fuel true parent s
  end.
Definition float_up (i : Z) (s : hst) : res (bool * hst) := float_up_loop (Z.to_nat i) false i s.

(** The loop of [float_down]; the index is at least doubled. *)
Fixpoint float_down_loop (fuel : nat) (i : Z) (s : hst) : res hst :=
  if heap_is_leaf__ (hp s) i then Ok s else
  match fuel with
  | O => Err OutOfFuel
  | S fuel =>
      let left := heap_left__ i in
      let right := heap_right__ i in
      let max := i in
      a ← priority_at left s; b ← priority_at max s;
      let max := if b <? a then left else max in
      max ← (if right <=? heap_n (hp s)
             then a ← priority_at right s; b ← priority_at max s; Ok (if b <? a then right else max)
             else Ok max);
      if max =? i then Ok s else
      s ← swap_nodes max i s;
      float_down_loop fuel max s
  end.
Definition float_down (i : Z) (s : hst) : res hst := float_down_loop (Z.to_nat (heap_n (hp s))) i s.

Definition float_up_or_down (i : Z) (s : hst) : res hst :=
  '(moved, s) ← float_up i s;
  if (moved : bool) then Ok s else float_down i s.

(** [xrealloc] keeps what fits, and what is new is not written. *)
Definition array_resize (size : Z) (l : list (option Z)) : list (option Z) := resize (Z.to_nat size) None l.

Definition set_priority (p pri : Z) (s : hst) : res hst :=
  nd ← node_get p s; Ok (HSt (hp s) (<[p := HeapNode (idx nd) pri]> (nodes s))).

Definition heap_raw_insert (p pri : Z) (s : hst) : res hst :=
  let h := hp s in
  let h := if allocated h <=? heap_n h then
             let a := if heap_n h =? 0 then 1 else 2 * heap_n h in
             Heap (array_resize (a + 1) (array h)) (heap_n h) a
           else h in
  let h := Heap (array h) (heap_n h + 1) (allocated h) in
  s ← put_node p (heap_n h) (HSt h (nodes s));
  set_priority p pri s.

Definition set_heap_n (k : Z) (s : hst) : hst := HSt (Heap (array (hp s)) k (allocated (hp s))) (nodes s).

Definition heap_raw_remove (p : Z) (s : hst) : res hst :=
  nd ← node_get p s;
  let i := idx nd in
  s ← (if i <? heap_n (hp s) then q ← array_get (heap_n (hp s)) s; put_node q i s else Ok s);
  Ok (set_heap_n (heap_n (hp s) - 1) s).

Definition heap_raw_change (p pri : Z) (s : hst) : res hst := set_priority p pri s.

Definition heap_insert (p pri : Z) (s : hst) : res hst :=
  s ← heap_raw_insert p pri s;
  nd ← node_get p s;
  '(_, s) ← float_up (idx nd) s;
  Ok s.

Definition heap_remove (p : Z) (s : hst) : res hst :=
  nd ← node_get p s;
  let i := idx nd in
  s ← heap_raw_remove p s;
  if i <=? heap_n (hp s) then float_up_or_down i s else Ok s.

Definition heap_change (p pri : Z) (s : hst) : res hst :=
  s ← heap_raw_change p pri s;
  nd ← node_get p s;
  float_up_or_down (idx nd) s.

(** The loop of [heap_rebuild] from [i] down to 1. *)
Fixpoint rebuild_loop (i : nat) (s : hst) : res hst :=
  match i with
  | O => Ok s
  | S k => s ← float_down (Z.of_nat i) s; rebuild_loop k s
  end.
Definition heap_rebuild (s : hst) : res hst := rebuild_loop (Z.to_nat (heap_n (hp s) / 2)) s.

Definition heap_max (s : hst) : res Z := array_get 1 s.

Definition heap_pop (s : hst) : res (Z * hst) :=
  p ← array_get (heap_n (hp s)) s; Ok (p, set_heap_n (heap_n (hp s) - 1) s).

(** ** Well-formed heaps *)

(** Pointer and priority at a place, for proofs. *)
Definition ptr (s : hst) (i : Z) : Z := match array_get i s with Ok p => p | Err _ => 0 end.
Definition nprio (s : hst) (p : Z) : Z := match nodes s !! p with Some nd => priority nd | None => 0 end.
Definition prio (s : hst) (i : Z) : Z := nprio s (ptr s i).

(** The array is large enough, and the places 1 to n have nodes that know where
    they are. *)
Record hwf (s : hst) : Prop := {
  h_n : 0 <= heap_n (hp s) <= allocated (hp s);
  h_len : allocated (hp s) = 0 \/ zlen (array (hp s)) = allocated (hp s) + 1;
  h_at i : 1 <= i <= heap_n (hp s) ->
    array_get i s = Ok (ptr s i) /\ nodes s !! ptr s i = Some (HeapNode i (prio s i))
}.

(** The edges of the tree from the places [lo] and above to their children are
    in order. *)
Definition ordered (lo : Z) (s : hst) : Prop :=
  forall k, 2 <= k <= heap_n (hp s) -> lo <= k / 2 -> prio s k <= prio s (k / 2).

(** The same, except for the edges at [i]; and the children of [i] are in order
    with the parent of [i]. *)
Definition ordered_but (lo i : Z) (s : hst) : Prop :=
  forall k, 2 <= k <= heap_n (hp s) -> lo <= k / 2 ->
    (k <> i -> k / 2 <> i -> prio s k <= prio s (k / 2)) /\ (k / 2 = i -> lo <= i / 2 -> 1 < i -> prio s k <= prio s (i / 2)).

Definition up_ok (lo i : Z) (s : hst) : Prop := 1 < i -> lo <= i / 2 -> prio s i <= prio s (i / 2).
Definition down_ok (i : Z) (s : hst) : Prop := forall k, 2 <= k <= heap_n (hp s) -> k / 2 = i -> prio s k <= prio s i.

(** What the loops keep: the size, the priorities and the nodes in the heap. *)
Definition in_heap (s : hst) (p : Z) : Prop := exists i, 1 <= i <= heap_n (hp s) /\ ptr s i = p.
Record same_nodes (s s' : hst) : Prop := {
  sn_n : heap_n (hp s') = heap_n (hp s);
  sn_alloc : allocated (hp s') = allocated (hp s);
  sn_prio p : priority <$> nodes s' !! p = priority <$> nodes s !! p;
  sn_other p : ~ in_heap s p -> nodes s' !! p = nodes s !! p;
  sn_in p : in_heap s' p <-> in_heap s p
}.

Lemma same_nodes_refl s : same_nodes s s.
Proof. by split. Qed.

Lemma same_nodes_trans s1 s2 s3 : same_nodes s1 s2 -> same_nodes s2 s3 -> same_nodes s1 s3.
Proof.
  intros [A1 A2 A3 A4 A5] [B1 B2 B3 B4 B5]. split; try congruence.
  - intros p Hp. rewrite B4 by (by rewrite A5). by apply A4.
  - intros p. by rewrite B5, A5.
Qed.

Lemma same_nprio s s' p : same_nodes s s' -> nprio s' p = nprio s p.
Proof. intros Hs. pose proof (sn_prio _ _ Hs p) as Hp. unfold nprio. destruct (nodes s' !! p), (nodes s !! p); cbn in Hp; by simplify_eq. Qed.

Lemma priority_at_ok s i : hwf s -> 1 <= i <= heap_n (hp s) -> priority_at i s = Ok (prio s i).
Proof. intros Hwf Hi. destruct (h_at _ Hwf i Hi) as [Ha Hn]. unfold priority_at. rewrite Ha. bind. unfold node_get. by rewrite Hn. Qed.

(** Different places have different nodes. *)
Lemma node_ptr_inj s i j : hwf s -> 1 <= i <= heap_n (hp s) -> 1 <= j <= heap_n (hp s) -> ptr s i = ptr s j -> i = j.
Proof.
  intros Hwf Hi Hj E. destruct (h_at _ Hwf i Hi) as [_ H1]. destruct (h_at _ Hwf j Hj) as [_ H2]. rewrite E, H2 in H1. by injection H1.
Qed.

Lemma array_len s : hwf s -> 1 <= heap_n (hp s) -> zlen (array (hp s)) = allocated (hp s) + 1.
Proof. intros Hwf Hn. pose proof (h_n _ Hwf). destruct (h_len _ Hwf); [lia|done]. Qed.

(** Reading the array after a node was put into a place. *)
Lemma put_node_ok s p i nd :
  nodes s !! p = Some nd -> 0 <= i < zlen (array (hp s)) ->
  exists s', put_node p i s = Ok s' /\ heap_n (hp s') = heap_n (hp s) /\ allocated (hp s') = allocated (hp s) /\
    zlen (array (hp s')) = zlen (array (hp s)) /\ nodes s' = <[p := HeapNode i (priority nd)]> (nodes s) /\
    forall k, 0 <= k -> array_get k s' = if decide (k = i) then Ok p else array_get k s.
Proof.
  intros Hp Hi. unfold put_node. destruct (index_ok _ _ Hi) as [o Ho]. rewrite Ho. bind. unfold node_get. rewrite Hp. bind.
  eexists. split; [done|]. do 2 (split; [done|]). split; [apply zlen_update|]. split; [done|].
  intros k Hk. unfold array_get. cbn [hp array]. destruct (decide (k = i)) as [->|Hne].
  - by rewrite index_update_eq.
  - rewrite index_update_ne by lia. done.
Qed.

Lemma array_get_ptr s i p : array_get i s = Ok p -> ptr s i = p.
Proof. unfold ptr. by intros ->. Qed.

(** Exchanging two nodes. *)
Lemma swap_nodes_ok s i j :
  hwf s -> 1 <= i <= heap_n (hp s) -> 1 <= j <= heap_n (hp s) -> i <> j ->
  exists s', swap_nodes i j s = Ok s' /\ hwf s' /\ same_nodes s s' /\
    forall k, 1 <= k <= heap_n (hp s) -> prio s' k = if decide (k = i) then prio s j else if decide (k = j) then prio s i else prio s k.
Proof.
  intros Hwf Hi Hj Hij. pose proof (array_len s Hwf ltac:(lia)) as Hlen. pose proof (h_n _ Hwf) as Hn.
  destruct (h_at _ Hwf i Hi) as [Ai Ni]. destruct (h_at _ Hwf j Hj) as [Aj Nj].
  assert (ptr s i <> ptr s j) as Hne by (intros E; apply Hij; by apply (node_ptr_inj s)).
  unfold swap_nodes. rewrite Ai. bind. rewrite Aj. bind.
  destruct (put_node_ok s (ptr s j) i _ Nj ltac:(lia)) as (s1 & -> & N1 & L1 & Z1 & M1 & A1). bind.
  destruct (put_node_ok s1 (ptr s i) j (HeapNode i (prio s i))) as (s2 & -> & N2 & L2 & Z2 & M2 & A2);
    [rewrite M1, lookup_insert_ne by done; exact Ni|lia|].
  cbn [priority] in *. rewrite M1 in M2. assert (heap_n (hp s2) = heap_n (hp s) /\ allocated (hp s2) = allocated (hp s)) as [HN HL] by lia.
  assert (forall k, 0 <= k -> array_get k s2 = if decide (k = i) then Ok (ptr s j) else if decide (k = j) then Ok (ptr s i) else array_get k s) as HA.
  { intros k Hk. rewrite A2, A1 by done. destruct (decide (k = j)), (decide (k = i)); done || lia. }
  assert (forall k, 1 <= k <= heap_n (hp s) -> ptr s2 k = if decide (k = i) then ptr s j else if decide (k = j) then ptr s i else ptr s k) as HP.
  { intros k Hk. apply array_get_ptr. rewrite HA by lia. destruct (decide (k = i)); [done|]. destruct (decide (k = j)); [done|]. by apply (h_at _ Hwf). }
  assert (forall p, nprio s2 p = nprio s p) as HQ.
  { intros p. unfold nprio. rewrite M2. destruct (decide (p = ptr s i)) as [->|H1]; [rewrite lookup_insert_eq, Ni; done|].
    rewrite lookup_insert_ne by done. destruct (decide (p = ptr s j)) as [->|H2]; [rewrite lookup_insert_eq, Nj; done|]. by rewrite lookup_insert_ne. }
  assert (forall k, 1 <= k <= heap_n (hp s) -> prio s2 k = if decide (k = i) then prio s j else if decide (k = j) then prio s i else prio s k) as HR.
  { intros k Hk. unfold prio at 1. rewrite HQ, HP by done. by destruct (decide (k = i)), (decide (k = j)). }
  exists s2. split; [done|]. split; [|split; [|exact HR]].
  - split; [lia|rewrite HL; right; lia|]. rewrite HN. intros k Hk. split.
    + unfold ptr. rewrite HA by lia. destruct (decide (k = i)); [done|]. destruct (decide (k = j)); [done|]. by rewrite (proj1 (h_at _ Hwf k Hk)).
    + rewrite HR, HP, M2 by done. destruct (decide (k = i)) as [->|H1]; [by rewrite lookup_insert_ne, lookup_insert_eq|].
      destruct (decide (k = j)) as [->|H2]; [by rewrite lookup_insert_eq|].
      rewrite !lookup_insert_ne; [by apply (h_at _ Hwf)| |]; intros E; apply (node_ptr_inj s) in E; lia || done.
  - split; [done|done| | |].
    + intros p. rewrite M2. destruct (decide (p = ptr s i)) as [->|H1]; [rewrite lookup_insert_eq, Ni; done|]. rewrite lookup_insert_ne by done.
      destruct (decide (p = ptr s j)) as [->|H2]; [rewrite lookup_insert_eq, Nj; done|]. by rewrite lookup_insert_ne.
    + intros p Hp. rewrite M2, !lookup_insert_ne; [done| |]; intros <-; apply Hp; (by exists i) || (by exists j).
    + intros p. unfold in_heap. rewrite HN. split; intros (k & Hk & <-).
      * rewrite HP by done. destruct (decide (k = i)); [by exists j|]. destruct (decide (k = j)); [by exists i|]. by exists k.
      * destruct (decide (k = i)) as [->|]; [exists j; split; [done|]; rewrite HP by done; rewrite decide_False, decide_True by done; done|].
        destruct (decide (k = j)) as [->|]; [exists i; split; [done|]; rewrite HP by done; rewrite decide_True by done; done|].
        exists k. split; [done|]. rewrite HP by done. rewrite !decide_False by done. done.
Qed.

(** ** Floating *)

Lemma ordered_all lo i s : ordered_but lo i s -> up_ok lo i s -> down_ok i s -> ordered lo s.
Proof.
  intros Hb Hu Hd k Hk Hlo. destruct (decide (k = i)) as [->|H1]; [by apply Hu; [lia|]|].
  destruct (decide (k / 2 = i)) as [<-|H2]; [by apply Hd|]. by apply (Hb k Hk Hlo).
Qed.

(** The priorities after the nodes at [i] and [j] were exchanged. *)
Definition swapped (i j : Z) (s s' : hst) : Prop :=
  heap_n (hp s') = heap_n (hp s) /\
  forall k, 1 <= k <= heap_n (hp s) -> prio s' k = if decide (k = i) then prio s j else if decide (k = j) then prio s i else prio s k.

Lemma swapped_i i j s s' : swapped i j s s' -> 1 <= i <= heap_n (hp s) -> prio s' i = prio s j.
Proof. intros [_ H] Hi. rewrite H by done. by rewrite decide_True. Qed.
Lemma swapped_j i j s s' : swapped i j s s' -> 1 <= j <= heap_n (hp s) -> i <> j -> prio s' j = prio s i.
Proof. intros [_ H] Hj Hne. rewrite H by done. by rewrite decide_False, decide_True. Qed.
Lemma swapped_k i j s s' k : swapped i j s s' -> 1 <= k <= heap_n (hp s) -> k <> i -> k <> j -> prio s' k = prio s k.
Proof. intros [_ H] Hk H1 H2. rewrite H by done. by rewrite !decide_False. Qed.

Lemma half k : 2 <= k -> 1 <= k / 2 < k.
Proof. intros. zdiv. Qed.

(** One step up. *)
Lemma up_step i s s' :
  ordered_but 1 i s -> 1 < i <= heap_n (hp s) -> prio s (i / 2) < prio s i -> swapped (i / 2) i s s' ->
  ordered_but 1 (i / 2) s' /\ down_ok (i / 2) s'.
Proof.
  intros Hb Hi Hlt Hs. pose proof (half i ltac:(lia)) as Hj. set (j := i / 2) in *.
  assert (heap_n (hp s') = heap_n (hp s)) as HN by apply Hs.
  assert (prio s' j = prio s i) as Pj by (by apply (swapped_i j i); [|lia]).
  assert (prio s' i = prio s j) as Pi by (apply (swapped_j j i); lia || done).
  assert (forall k, 1 <= k <= heap_n (hp s) -> k <> j -> k <> i -> prio s' k = prio s k) as Pk by (intros; by apply (swapped_k j i)).
  split.
  - intros k Hk Hlo. rewrite HN in Hk. destruct (Hb k Hk Hlo) as [H1 H2]. pose proof (half k ltac:(lia)) as Hh. split.
    + intros Hkj Hk2. assert (k <> i) as Hki by (by intros ->). rewrite (Pk k) by (lia || done).
      destruct (decide (k / 2 = i)) as [E|Hne]; [rewrite E, Pi; apply H2; [done|fold j; lia|lia]|].
      rewrite (Pk (k / 2)) by (lia || done). by apply H1.
    + intros E _ Hj1. rewrite (Pk (j / 2)) by (pose proof (half j ltac:(lia)); lia). destruct (Hb j) as [H3 _]; [lia|pose proof (half j ltac:(lia)); lia|].
      assert (prio s j <= prio s (j / 2)) as Hjj by (apply H3; pose proof (half j ltac:(lia)); lia).
      destruct (decide (k = i)) as [->|Hki]; [by rewrite Pi|]. rewrite (Pk k) by (lia || done).
      assert (prio s k <= prio s (k / 2)) by (apply H1; lia). rewrite E in *. lia.
  - intros k Hk E. rewrite HN in Hk. rewrite Pj. destruct (decide (k = i)) as [->|Hki]; [rewrite Pi; lia|]. pose proof (half k ltac:(lia)).
    rewrite (Pk k) by (lia || done). destruct (Hb k Hk) as [H1 _]; [lia|]. assert (prio s k <= prio s (k / 2)) by (apply H1; lia). rewrite E in *. lia.
Qed.

Lemma up_stop moved i s :
  ordered_but 1 i s -> (moved = true -> down_ok i s) -> up_ok 1 i s ->
  if moved then ordered 1 s else moved = false /\ s = s /\ up_ok 1 i s.
Proof. intros Hb Hd Hu. destruct moved; [|done]. apply (ordered_all 1 i); [done|done|by apply Hd]. Qed.

Lemma float_up_loop_ok fuel : forall moved i s,
  hwf s -> 1 <= i <= heap_n (hp s) -> i <= Z.of_nat fuel + 1 -> ordered_but 1 i s -> (moved = true -> down_ok i s) ->
  exists moved' s', float_up_loop fuel moved i s = Ok (moved', s') /\ hwf s' /\ same_nodes s s' /\
    if (moved' : bool) then ordered 1 s' else moved = false /\ s' = s /\ up_ok 1 i s.
Proof.
  induction fuel as [|fuel IH]; intros moved i s Hwf Hi Hfuel Hb Hd; cbn [float_up_loop].
  - rewrite (proj2 (Z.leb_le i 1)) by lia. exists moved, s. split; [done|]. split; [done|]. split; [apply same_nodes_refl|].
    apply up_stop; [done|done|intros ?; lia].
  - destruct (Z.leb_spec i 1).
    { exists moved, s. split; [done|]. split; [done|]. split; [apply same_nodes_refl|]. apply up_stop; [done|done|intros ?; lia]. }
    unfold heap_parent__. pose proof (half i ltac:(lia)) as Hh. rewrite !priority_at_ok by (done || lia). repeat bind.
    destruct (Z.leb_spec (prio s i) (prio s (i / 2))).
    { exists moved, s. split; [done|]. split; [done|]. split; [apply same_nodes_refl|]. apply up_stop; [done|done|by intros _ _]. }
    destruct (swap_nodes_ok s (i / 2) i Hwf) as (s1 & -> & Hwf1 & Hsn & Hsw); [lia|lia|lia|]. bind. pose proof (sn_n _ _ Hsn) as HN.
    destruct (up_step i s s1 Hb ltac:(lia) ltac:(lia) (conj HN Hsw)) as [Hb1 Hd1].
    destruct (IH true (i / 2) s1 Hwf1 ltac:(lia) ltac:(lia) Hb1 (fun _ => Hd1)) as (m' & s' & E & Hwf' & Hsn' & Hres).
    exists m', s'. split; [done|]. split; [done|]. split; [by eapply same_nodes_trans|]. destruct m'; [done|]. by destruct Hres.
Qed.

Lemma float_up_ok i s :
  hwf s -> 1 <= i <= heap_n (hp s) -> ordered_but 1 i s ->
  exists moved s', float_up i s = Ok (moved, s') /\ hwf s' /\ same_nodes s s' /\
    if (moved : bool) then ordered 1 s' else s' = s /\ up_ok 1 i s.
Proof.
  intros Hwf Hi Hb. destruct (float_up_loop_ok (Z.to_nat i) false i s Hwf Hi ltac:(lia) Hb ltac:(done)) as (m & s' & E & Hwf' & Hsn & Hres).
  exists m, s'. do 3 (split; [done|]). by destruct m; [|destruct Hres as (_ & ? & ?)].
Qed.

(** One step down, to the larger child [m]. *)
Lemma down_step lo i m s s' :
  1 <= lo <= i -> ordered_but lo i s -> up_ok lo i s -> 1 <= i <= heap_n (hp s) -> 2 <= m <= heap_n (hp s) -> m / 2 = i ->
  prio s i < prio s m -> (forall k, 2 <= k <= heap_n (hp s) -> k / 2 = i -> prio s k <= prio s m) -> swapped m i s s' ->
  ordered_but lo m s' /\ up_ok lo m s'.
Proof.
  intros Hlo Hb Hu Hi Hm Em Hlt Hmax Hs. pose proof (half m ltac:(lia)) as Hh. rewrite Em in Hh.
  assert (heap_n (hp s') = heap_n (hp s)) as HN by apply Hs.
  assert (prio s' m = prio s i) as Pm by (by apply (swapped_i m i); [|lia]).
  assert (prio s' i = prio s m) as Pi by (apply (swapped_j m i); lia || done).
  assert (forall k, 1 <= k <= heap_n (hp s) -> k <> m -> k <> i -> prio s' k = prio s k) as Pk by (intros; by apply (swapped_k m i)).
  split; [|intros _ _; rewrite Em, Pi, Pm; lia].
  intros k Hk Hk2. rewrite HN in Hk. destruct (Hb k Hk Hk2) as [H1 H2]. pose proof (half k ltac:(lia)) as Hkh. split.
  - intros Hkm Hne. destruct (decide (k = i)) as [->|Hki].
    + rewrite Pi, (Pk (i / 2)) by lia. destruct (Hb m Hm ltac:(lia)) as [_ H3]. apply H3; [done|done|lia].
    + rewrite (Pk k) by (lia || done). destruct (decide (k / 2 = i)) as [E|Hne2]; [rewrite E, Pi; by apply Hmax|].
      rewrite (Pk (k / 2)) by (lia || done). by apply H1.
  - intros E _ _. rewrite Em, Pi. rewrite (Pk k) by lia. rewrite <- E. apply H1; lia.
Qed.

(** The choice of the child. *)
Lemma larger_child i s :
  hwf s -> 1 <= i -> heap_left__ i <= heap_n (hp s) ->
  exists m, (a ← priority_at (heap_left__ i) s; b ← priority_at i s;
             let max := if b <? a then heap_left__ i else i in
             if heap_right__ i <=? heap_n (hp s)
             then a ← priority_at (heap_right__ i) s; b ← priority_at max s; Ok (if b <? a then heap_right__ i else max)
             else Ok max) = Ok m /\
    ((m = i /\ down_ok i s) \/
     (2 <= m <= heap_n (hp s) /\ m / 2 = i /\ prio s i < prio s m /\
      forall k, 2 <= k <= heap_n (hp s) -> k / 2 = i -> prio s k <= prio s m)).
Proof.
  unfold heap_left__, heap_right__. intros Hwf Hi Hl. rewrite (priority_at_ok s (i * 2)), (priority_at_ok s i) by (done || lia). repeat bind. cbv zeta.
  assert (forall k, k / 2 = i -> k = i * 2 \/ k = i * 2 + 1) as Hk by (intros; zdiv).
  assert (i * 2 / 2 = i /\ (i * 2 + 1) / 2 = i) as [E1 E2] by (split; zdiv).
  destruct (Z.leb_spec (i * 2 + 1) (heap_n (hp s))).
  - rewrite (priority_at_ok s (i * 2 + 1)) by (done || lia). bind.
    rewrite priority_at_ok by (done || (destruct (_ <? _); lia)). bind. eexists. split; [done|].
    destruct (Z.ltb_spec (prio s i) (prio s (i * 2))).
    + right. destruct (Z.ltb_spec (prio s (i * 2)) (prio s (i * 2 + 1))); (split; [lia|]; split; [done|]; split; [lia|]);
        intros k _ [->| ->]%Hk; lia.
    + destruct (Z.ltb_spec (prio s i) (prio s (i * 2 + 1))); [right|left; split; [done|]].
      * split; [lia|]. split; [done|]. split; [lia|]. intros k _ [->| ->]%Hk; lia.
      * intros k _ [->| ->]%Hk; lia.
  - eexists. split; [done|]. destruct (Z.ltb_spec (prio s i) (prio s (i * 2))).
    + right. split; [lia|]. split; [done|]. split; [lia|]. intros k Hk1 [->| ->]%Hk; lia.
    + left. split; [done|]. intros k Hk1 [->| ->]%Hk; lia.
Qed.

Lemma float_down_loop_ok lo fuel : forall i s,
  1 <= lo <= i -> hwf s -> i <= heap_n (hp s) -> heap_n (hp s) < i + Z.of_nat fuel + 1 -> ordered_but lo i s -> up_ok lo i s ->
  exists s', float_down_loop fuel i s = Ok s' /\ hwf s' /\ same_nodes s s' /\ ordered lo s'.
Proof.
  induction fuel as [|fuel IH]; intros i s Hlo Hwf Hi Hfuel Hb Hu; cbn [float_down_loop]; unfold heap_is_leaf__.
  - rewrite (proj2 (Z.ltb_lt _ _)) by (unfold heap_left__; lia). exists s. split; [done|]. split; [done|]. split; [apply same_nodes_refl|].
    apply (ordered_all lo i); [done|done|]. intros k Hk E. exfalso. assert (k = i * 2 \/ k = i * 2 + 1) by zdiv. lia.
  - destruct (Z.ltb_spec (heap_n (hp s)) (heap_left__ i)) as [Hl|Hl].
    { exists s. split; [done|]. split; [done|]. split; [apply same_nodes_refl|]. apply (ordered_all lo i); [done|done|].
      intros k Hk E. exfalso. unfold heap_left__ in Hl. assert (k = i * 2 \/ k = i * 2 + 1) by zdiv. lia. }
    destruct (larger_child i s Hwf ltac:(lia) Hl) as (m & E & Hm). cbv zeta in *. revert E.
    assert (1 <= heap_left__ i <= heap_n (hp s)) as Hl' by (unfold heap_left__ in *; lia). rewrite (priority_at_ok s (heap_left__ i)), (priority_at_ok s i) by (done || lia). repeat bind.
    intros ->. bind. destruct Hm as [[-> Hd]|(Hm & Em & Hlt & Hmax)].
    { rewrite Z.eqb_refl. exists s. split; [done|]. split; [done|]. split; [apply same_nodes_refl|]. by apply (ordered_all lo i). }
    pose proof (half m ltac:(lia)) as Hh. rewrite Em in Hh. rewrite (proj2 (Z.eqb_neq m i)) by lia.
    destruct (swap_nodes_ok s m i Hwf) as (s1 & -> & Hwf1 & Hsn & Hsw); [lia|lia|lia|]. bind. pose proof (sn_n _ _ Hsn) as HN.
    destruct (down_step lo i m s s1 Hlo Hb Hu ltac:(lia) Hm Em Hlt Hmax (conj HN Hsw)) as [Hb1 Hu1].
    destruct (IH m s1 ltac:(lia) Hwf1 ltac:(lia) ltac:(lia) Hb1 Hu1) as (s' & E' & Hwf' & Hsn' & Ho).
    exists s'. split; [done|]. split; [done|]. split; [by eapply same_nodes_trans|done].
Qed.

Lemma float_down_ok lo i s :
  1 <= lo <= i -> hwf s -> i <= heap_n (hp s) -> ordered_but lo i s -> up_ok lo i s ->
  exists s', float_down i s = Ok s' /\ hwf s' /\ same_nodes s s' /\ ordered lo s'.
Proof. intros. apply float_down_loop_ok; done || lia. Qed.

Lemma float_up_or_down_ok i s :
  hwf s -> 1 <= i <= heap_n (hp s) -> ordered_but 1 i s ->
  exists s', float_up_or_down i s = Ok s' /\ hwf s' /\ same_nodes s s' /\ ordered 1 s'.
Proof.
  intros Hwf Hi Hb. destruct (float_up_ok i s Hwf Hi Hb) as (m & s1 & E & Hwf1 & Hsn & Hres). unfold float_up_or_down. rewrite E. bind.
  destruct m; [by exists s1|]. destruct Hres as [-> Hu]. apply (float_down_ok 1); done || lia.
Qed.

(** ** The operations *)

(** The heap implements a map from nodes to priorities. *)
Definition holds (s : hst) (c : gmap Z Z) : Prop := forall p x, c !! p = Some x <-> in_heap s p /\ nprio s p = x.
Definition heap_rep (s : hst) (c : gmap Z Z) : Prop := hwf s /\ ordered 1 s /\ holds s c.

Lemma holds_same s s' c : same_nodes s s' -> holds s c -> holds s' c.
Proof. intros Hs Hc p x. by rewrite (sn_in _ _ Hs), (same_nprio s s' p Hs). Qed.

Lemma holds_in s c p : holds s c -> in_heap s p <-> is_Some (c !! p).
Proof. intros Hc. split; [intros Hp; exists (nprio s p); by apply Hc|intros [x Hx]; by apply (Hc p x)]. Qed.

Lemma in_heap_node s p : hwf s -> in_heap s p -> exists i, 1 <= i <= heap_n (hp s) /\ ptr s i = p /\ nodes s !! p = Some (HeapNode i (nprio s p)).
Proof. intros Hwf (i & Hi & <-). exists i. split; [done|]. split; [done|]. by apply (h_at _ Hwf). Qed.

Lemma zlen_resize m l : 0 <= m -> zlen (array_resize m l) = m.
Proof. intros. unfold zlen, array_resize. rewrite length_resize. lia. Qed.

Lemma index_resize m l k : 0 <= k < zlen l -> k < m -> index (array_resize m l) k = index l k.
Proof.
  intros Hk Hm. destruct (index_ok l k Hk) as [x Hx]. rewrite Hx. apply index_Ok in Hx as [_ Hx]. apply index_Ok. split; [lia|].
  unfold array_resize. rewrite lookup_resize; [done|lia|unfold zlen in *; lia].
Qed.

(** Room for one more node. *)
Lemma grow_ok s :
  hwf s ->
  let h := if allocated (hp s) <=? heap_n (hp s)
           then let a := if heap_n (hp s) =? 0 then 1 else 2 * heap_n (hp s) in Heap (array_resize (a + 1) (array (hp s))) (heap_n (hp s)) a
           else hp s in
  heap_n h = heap_n (hp s) /\ heap_n h < allocated h /\ zlen (array h) = allocated h + 1 /\
  forall k, 1 <= k <= heap_n h -> index (array h) k = index (array (hp s)) k.
Proof.
  intros Hwf. pose proof (h_n _ Hwf) as Hn. destruct (Z.leb_spec (allocated (hp s)) (heap_n (hp s))); cbn.
  - split; [done|]. split; [destruct (Z.eqb_spec (heap_n (hp s)) 0); lia|].
    split; [apply zlen_resize; destruct (_ =? _); lia|]. intros k Hk.
    pose proof (array_len s Hwf ltac:(lia)). apply index_resize; [lia|destruct (Z.eqb_spec (heap_n (hp s)) 0); lia].
  - split; [done|]. split; [done|]. split; [|done]. destruct (h_len _ Hwf); [lia|done].
Qed.

Lemma heap_raw_insert_ok s p pri nd :
  hwf s -> nodes s !! p = Some nd -> ~ in_heap s p ->
  exists s', heap_raw_insert p pri s = Ok s' /\ hwf s' /\ heap_n (hp s') = heap_n (hp s) + 1 /\
    nodes s' !! p = Some (HeapNode (heap_n (hp s) + 1) pri) /\ ptr s' (heap_n (hp s) + 1) = p /\
    (forall q, q <> p -> nodes s' !! q = nodes s !! q) /\ forall k, 1 <= k <= heap_n (hp s) -> ptr s' k = ptr s k.
Proof.
  intros Hwf Hp Hno. pose proof (h_n _ Hwf) as Hn. unfold heap_raw_insert. pose proof (grow_ok s Hwf) as Hg. cbv zeta in Hg |- *.
  set (h := if allocated (hp s) <=? heap_n (hp s) then _ else _) in *. destruct Hg as (G1 & G2 & G3 & G4). cbn [heap_n].
  destruct (put_node_ok (HSt (Heap (array h) (heap_n h + 1) (allocated h)) (nodes s)) p (heap_n h + 1) nd Hp) as (s1 & -> & N1 & L1 & Z1 & M1 & A1);
    [cbn; lia|]. bind. cbn [hp heap_n allocated array nodes] in *. unfold set_priority, node_get. rewrite M1, lookup_insert_eq. bind. cbn [idx priority].
  rewrite insert_insert_eq. rewrite G1 in *. set (s' := HSt (hp s1) _).
  assert (forall k, 1 <= k <= heap_n (hp s) -> array_get k s' = array_get k s) as HA.
  { intros k Hk. change (array_get k s') with (array_get k s1). rewrite A1 by lia. rewrite decide_False by lia. unfold array_get. cbn [hp array]. by rewrite G4. }
  assert (array_get (heap_n (hp s) + 1) s' = Ok p) as HAn.
  { change (array_get (heap_n (hp s) + 1) s') with (array_get (heap_n (hp s) + 1) s1). rewrite A1 by lia. by rewrite decide_True. }
  assert (forall k, 1 <= k <= heap_n (hp s) -> ptr s' k = ptr s k) as HP by (intros k Hk; unfold ptr; by rewrite HA).
  assert (forall q, q <> p -> nodes s' !! q = nodes s !! q) as HN by (intros q Hq; unfold s'; cbn [nodes]; by rewrite lookup_insert_ne).
  exists s'. split; [done|]. split; [|split; [done|split; [apply lookup_insert_eq|split; [by apply array_get_ptr|done]]]].
  split; [cbn; lia|right; cbn; lia|]. change (heap_n (hp s')) with (heap_n (hp s1)). rewrite N1. intros k Hk.
  destruct (decide (k = heap_n (hp s) + 1)) as [->|Hne].
  - assert (ptr s' (heap_n (hp s) + 1) = p) as E by (by apply array_get_ptr). unfold prio, nprio. rewrite E. split; [done|]. unfold s'. cbn [nodes]. by rewrite lookup_insert_eq.
  - assert (ptr s k <> p) as Hpk by (intros <-; apply Hno; exists k; split; [lia|done]). destruct (h_at _ Hwf k) as [H1 H2]; [lia|].
    unfold prio, nprio. rewrite HA, HP by lia. split; [done|]. rewrite HN by done. rewrite H2. done.
Qed.

Lemma heap_insert_ok s c p pri nd :
  heap_rep s c -> nodes s !! p = Some nd -> c !! p = None ->
  exists s', heap_insert p pri s = Ok s' /\ heap_rep s' (<[p := pri]> c) /\ forall q, q <> p -> priority <$> nodes s' !! q = priority <$> nodes s !! q.
Proof.
  intros (Hwf & Ho & Hc) Hp Hno. assert (~ in_heap s p) as Hni by (rewrite (holds_in s c p Hc), Hno; by intros []).
  destruct (heap_raw_insert_ok s p pri nd Hwf Hp Hni) as (s1 & E1 & Hwf1 & N1 & Mp & Pp & Mq & Pk). pose proof (h_n _ Hwf) as Hn.
  assert (forall k, 1 <= k <= heap_n (hp s) -> prio s1 k = prio s k) as Prk.
  { intros k Hk. unfold prio, nprio. rewrite Pk, Mq by (done || (intros <-; apply Hni; by exists k)). done. }
  unfold heap_insert. rewrite E1. bind. unfold node_get. rewrite Mp. bind. cbn [idx].
  destruct (float_up_ok (heap_n (hp s) + 1) s1 Hwf1) as (m & s2 & E2 & Hwf2 & Hsn & Hres); [lia| |].
  { intros k Hk Hlo. rewrite N1 in Hk. pose proof (half k ltac:(lia)). split; [|intros; lia]. intros Hk1 _. rewrite !Prk by lia. apply Ho; lia. }
  rewrite E2. bind. exists s2. split; [done|]. split; [split; [done|split]|].
  - destruct m; [done|]. destruct Hres as [-> Hu]. apply (ordered_all 1 (heap_n (hp s) + 1)); [|done|].
    + intros k Hk Hlo. rewrite N1 in Hk. pose proof (half k ltac:(lia)). split; [|intros; lia]. intros Hk1 _. rewrite !Prk by lia. apply Ho; lia.
    + intros k Hk E. rewrite N1 in Hk. pose proof (half k ltac:(lia)). lia.
  - apply (holds_same _ _ _ Hsn). intros q x. destruct (decide (q = p)) as [->|Hne].
    + rewrite lookup_insert_eq. unfold nprio. rewrite Mp. cbn. split; [intros [= <-]; split; [exists (heap_n (hp s) + 1); split; [lia|done]|done]|by intros [_ ->]].
    + rewrite lookup_insert_ne by done. rewrite (Hc q x). unfold nprio. rewrite Mq by done. split; intros [(k & Hk & E) Hx]; (split; [|done]).
      * exists k. split; [lia|]. by rewrite Pk.
      * destruct (decide (k = heap_n (hp s) + 1)) as [->|]; [congruence|]. exists k. split; [lia|]. rewrite <- Pk by lia. done.
  - intros q Hq. rewrite (sn_prio _ _ Hsn). by rewrite Mq.
Qed.

(** A heap in which only the place [i] has another priority, or fewer places. *)
Lemma ordered_replace s s' i :
  ordered 1 s -> 0 <= heap_n (hp s') <= heap_n (hp s) -> (forall k, 1 <= k <= heap_n (hp s') -> k <> i -> prio s' k = prio s k) ->
  1 <= i <= heap_n (hp s) -> ordered_but 1 i s'.
Proof.
  intros Ho Hn Hk Hi k Hk2 Hlo. pose proof (half k ltac:(lia)). split.
  - intros H1 H2. rewrite !Hk by lia. apply Ho; lia.
  - intros E Hl Hi1. pose proof (half i ltac:(lia)). rewrite !Hk by lia.
    pose proof (Ho k ltac:(lia) Hlo). pose proof (Ho i ltac:(lia) Hl). rewrite E in *. lia.
Qed.

Lemma heap_raw_remove_ok s p i :
  hwf s -> 1 <= i <= heap_n (hp s) -> ptr s i = p ->
  exists s', heap_raw_remove p s = Ok s' /\ hwf s' /\ heap_n (hp s') = heap_n (hp s) - 1 /\
    (forall q, nprio s' q = nprio s q) /\ (forall q, priority <$> nodes s' !! q = priority <$> nodes s !! q) /\
    forall k, 1 <= k <= heap_n (hp s) - 1 -> ptr s' k = if decide (k = i) then ptr s (heap_n (hp s)) else ptr s k.
Proof.
  intros Hwf Hi <-. pose proof (array_len s Hwf ltac:(lia)) as Hlen. pose proof (h_n _ Hwf) as Hn.
  destruct (h_at _ Hwf i Hi) as [_ Ni]. unfold heap_raw_remove, node_get. rewrite Ni. bind. cbn [idx].
  destruct (Z.ltb_spec i (heap_n (hp s))) as [Hlt|Hge].
  - destruct (h_at _ Hwf (heap_n (hp s)) ltac:(lia)) as [An Nn]. rewrite An. bind.
    destruct (put_node_ok s _ i _ Nn ltac:(lia)) as (s1 & -> & N1 & L1 & Z1 & M1 & A1). bind. cbn [priority] in M1.
    assert (forall q, priority <$> nodes s1 !! q = priority <$> nodes s !! q) as HM.
    { intros q. rewrite M1. destruct (decide (q = ptr s (heap_n (hp s)))) as [->|]; [rewrite lookup_insert_eq, Nn; done|by rewrite lookup_insert_ne]. }
    assert (forall q, nprio s1 q = nprio s q) as HQ.
    { intros q. specialize (HM q). unfold nprio. destruct (nodes s1 !! q), (nodes s !! q); cbn in HM; by simplify_eq. }
    assert (forall k, 1 <= k <= heap_n (hp s) - 1 -> ptr s1 k = if decide (k = i) then ptr s (heap_n (hp s)) else ptr s k) as HP.
    { intros k Hk. unfold ptr at 1. rewrite A1 by lia. by destruct (decide (k = i)). }
    eexists. split; [done|]. split; [|by split_and!; [cbn; lia| | |]]. split; [cbn; lia|right; cbn; lia|].
    intros k Hk. cbn [hp heap_n set_heap_n] in Hk. rewrite N1 in Hk. split.
    + change (array_get k s1 = Ok (ptr s1 k)). rewrite HP, A1 by lia. destruct (decide (k = i)); [done|]. by apply (h_at _ Hwf); lia.
    + change (nodes s1 !! ptr s1 k = Some (HeapNode k (nprio s1 (ptr s1 k)))). rewrite HQ, HP, M1 by lia. destruct (decide (k = i)) as [->|Hne].
      * by rewrite lookup_insert_eq.
      * rewrite lookup_insert_ne by (intros E; apply (node_ptr_inj s) in E; lia || done). apply (h_at _ Hwf); lia.
  - bind. eexists. split; [done|]. split; [|split_and!; [done|done|done|intros k Hk; rewrite decide_False by lia; done]].
    split; [cbn; lia|right; cbn; lia|]. intros k Hk. cbn [hp heap_n set_heap_n] in Hk. apply (h_at _ Hwf); lia.
Qed.

(** The nodes after the last one took the place of a removed one. *)
Lemma removed_holds s s' c i :
  hwf s -> holds s c -> 1 <= i <= heap_n (hp s) -> heap_n (hp s') = heap_n (hp s) - 1 -> (forall q, nprio s' q = nprio s q) ->
  (forall k, 1 <= k <= heap_n (hp s) - 1 -> ptr s' k = if decide (k = i) then ptr s (heap_n (hp s)) else ptr s k) ->
  holds s' (delete (ptr s i) c).
Proof.
  intros Hwf Hc Hi HN HQ HP q x. rewrite HQ. destruct (decide (q = ptr s i)) as [->|Hne].
  - rewrite lookup_delete_eq. split; [done|]. intros [(k & Hk & E) _]. exfalso. rewrite HN in Hk. rewrite HP in E by lia.
    destruct (decide (k = i)); apply (node_ptr_inj s) in E; lia || done.
  - rewrite lookup_delete_ne by done. rewrite (Hc q x). split; intros [(k & Hk & E) Hx]; (split; [|done]).
    + destruct (decide (k = heap_n (hp s))) as [->|Hk1].
      * assert (i <> heap_n (hp s)) by (intros Hin; apply Hne; by rewrite Hin). exists i. rewrite HN. split; [lia|]. rewrite HP by lia. by rewrite decide_True.
      * assert (k <> i) by (intros ->; done). exists k. rewrite HN. split; [lia|]. rewrite HP by lia. by rewrite decide_False.
    + rewrite HN in Hk. rewrite HP in E by lia. destruct (decide (k = i)); [exists (heap_n (hp s)); split; [lia|done]|exists k; split; [lia|done]].
Qed.

Lemma heap_remove_ok s c p x :
  heap_rep s c -> c !! p = Some x ->
  exists s', heap_remove p s = Ok s' /\ heap_rep s' (delete p c) /\ forall q, priority <$> nodes s' !! q = priority <$> nodes s !! q.
Proof.
  intros (Hwf & Ho & Hc) Hp. destruct (in_heap_node s p Hwf) as (i & Hi & Ep & Np); [by apply (Hc p x)|].
  destruct (heap_raw_remove_ok s p i Hwf Hi Ep) as (s1 & E1 & Hwf1 & N1 & HQ & HM & HP). unfold heap_remove, node_get. rewrite Np. bind. cbn [idx]. rewrite E1. bind.
  assert (holds s1 (delete p c)) as Hc1 by (rewrite <- Ep; by apply (removed_holds s s1)).
  assert (forall k, 1 <= k <= heap_n (hp s1) -> k <> i -> prio s1 k = prio s k) as Prk
    by (intros k Hk Hne; unfold prio; rewrite HQ, HP by lia; by rewrite decide_False).
  destruct (Z.leb_spec i (heap_n (hp s1))).
  - destruct (float_up_or_down_ok i s1 Hwf1 ltac:(lia)) as (s2 & E2 & Hwf2 & Hsn & Ho2); [apply (ordered_replace s); done || lia|].
    exists s2. split; [done|]. split; [split; [done|split; [done|by apply (holds_same s1)]]|]. intros q. by rewrite (sn_prio _ _ Hsn).
  - exists s1. split; [done|]. split; [split; [done|split; [|done]]|done]. intros k Hk Hlo. pose proof (half k ltac:(lia)).
    rewrite !Prk by lia. apply Ho; lia.
Qed.

Lemma heap_change_ok s c p x pri :
  heap_rep s c -> c !! p = Some x ->
  exists s', heap_change p pri s = Ok s' /\ heap_rep s' (<[p := pri]> c) /\ forall q, q <> p -> priority <$> nodes s' !! q = priority <$> nodes s !! q.
Proof.
  intros (Hwf & Ho & Hc) Hp. destruct (in_heap_node s p Hwf) as (i & Hi & Ep & Np); [by apply (Hc p x)|].
  unfold heap_change, heap_raw_change, set_priority, node_get. rewrite Np. bind. cbn [idx]. set (s1 := HSt (hp s) _).
  assert (forall k, ptr s1 k = ptr s k) as HP by done.
  assert (nodes s1 !! p = Some (HeapNode i pri)) as Mp by apply lookup_insert_eq.
  assert (forall q, q <> p -> nodes s1 !! q = nodes s !! q) as Mq by (intros q Hq; unfold s1; cbn [nodes]; by rewrite lookup_insert_ne).
  assert (forall k, 1 <= k <= heap_n (hp s) -> k <> i -> ptr s k <> p) as Hne by (intros k Hk Hki E; apply Hki, (node_ptr_inj s); congruence || done).
  assert (hwf s1) as Hwf1.
  { split; [apply Hwf|apply Hwf|]. intros k Hk. change (heap_n (hp s1)) with (heap_n (hp s)) in Hk. destruct (h_at _ Hwf k Hk) as [H1 H2].
    split; [done|]. unfold prio, nprio. rewrite HP. destruct (decide (k = i)) as [->|Hki]; [by rewrite Ep, Mp|].
    rewrite Mq by auto. rewrite H2. done. }
  bind. rewrite Mp. bind. cbn [idx].
  destruct (float_up_or_down_ok i s1 Hwf1 Hi) as (s2 & -> & Hwf2 & Hsn & Ho2).
  { apply (ordered_replace s); [done|split; [apply Hwf|done]| |done]. intros k Hk Hki. unfold prio, nprio. rewrite HP, Mq by auto. done. }
  exists s2. split; [done|]. split; [split; [done|split; [done|]]|intros q Hq; rewrite (sn_prio _ _ Hsn); by rewrite Mq].
  apply (holds_same s1); [done|]. intros q y. unfold nprio. destruct (decide (q = p)) as [->|Hq].
  - rewrite lookup_insert_eq, Mp. cbn. split; [intros [= <-]; split; [by exists i|done]|by intros [_ ->]].
  - rewrite lookup_insert_ne, Mq by done. apply (Hc q y).
Qed.

Lemma rebuild_loop_ok i : forall s,
  hwf s -> Z.of_nat i <= heap_n (hp s) -> ordered (Z.of_nat i + 1) s ->
  exists s', rebuild_loop i s = Ok s' /\ hwf s' /\ same_nodes s s' /\ ordered 1 s'.
Proof.
  induction i as [|i IH]; intros s Hwf Hi Ho; cbn [rebuild_loop]; [by exists s; split_and!; [| |apply same_nodes_refl|]|].
  pose proof (half (Z.of_nat (S i))) as Hh. assert (Z.of_nat (S i) / 2 < Z.of_nat (S i)) as Hlt by zdiv.
  destruct (float_down_ok (Z.of_nat (S i)) (Z.of_nat (S i)) s ltac:(lia) Hwf Hi) as (s1 & -> & Hwf1 & Hsn & Ho1).
  - intros k Hk Hlo. split; [intros _ Hne; apply Ho; lia|intros; lia].
  - intros ? ?. lia.
  - bind. pose proof (sn_n _ _ Hsn) as HN. destruct (IH s1 Hwf1 ltac:(lia)) as (s' & -> & Hwf' & Hsn' & Ho').
    { by replace (Z.of_nat i + 1) with (Z.of_nat (S i)) by lia. }
    exists s'. split_and!; [done|done|by eapply same_nodes_trans|done].
Qed.

Lemma heap_rebuild_ok s c : hwf s -> holds s c -> exists s', heap_rebuild s = Ok s' /\ heap_rep s' c.
Proof.
  intros Hwf Hc. pose proof (h_n _ Hwf) as Hn. destruct (rebuild_loop_ok (Z.to_nat (heap_n (hp s) / 2)) s Hwf) as (s' & E & Hwf' & Hsn & Ho).
  - zdiv.
  - intros k Hk Hlo. exfalso. revert Hlo. rewrite Z2Nat.id by zdiv. zdiv.
  - exists s'. split; [done|]. split; [done|]. split; [done|]. by apply (holds_same s).
Qed.

(** No priority is above that of the root. *)
Lemma root_max s k : ordered 1 s -> 1 <= k <= heap_n (hp s) -> prio s k <= prio s 1.
Proof.
  intros Ho. induction k as [k IH] using (well_founded_induction (Z.lt_wf 1)). intros Hk. destruct (decide (k = 1)) as [->|Hne]; [lia|].
  pose proof (half k ltac:(lia)). specialize (IH (k / 2) ltac:(lia) ltac:(lia)). pose proof (Ho k ltac:(lia) ltac:(lia)). lia.
Qed.

Lemma heap_max_ok s c :
  heap_rep s c -> c <> ∅ -> exists p x, heap_max s = Ok p /\ c !! p = Some x /\ forall q y, c !! q = Some y -> y <= x.
Proof.
  intros (Hwf & Ho & Hc) Hne. assert (1 <= heap_n (hp s)) as Hn.
  { destruct (map_choose c Hne) as (p & x & Hp). destruct (proj1 (Hc p x) Hp) as [(i & Hi & _) _]. lia. }
  exists (ptr s 1), (prio s 1). split; [apply (h_at _ Hwf); lia|]. split; [apply Hc; split; [by exists 1; split; [lia|]|done]|].
  intros q y Hq. destruct (proj1 (Hc q y) Hq) as [(i & Hi & <-) <-]. by apply root_max.
Qed.

Lemma heap_pop_ok s c :
  heap_rep s c -> c <> ∅ -> exists p x s', heap_pop s = Ok (p, s') /\ c !! p = Some x /\ heap_rep s' (delete p c) /\ nodes s' = nodes s.
Proof.
  intros (Hwf & Ho & Hc) Hne. assert (1 <= heap_n (hp s)) as Hn.
  { destruct (map_choose c Hne) as (p & x & Hp). destruct (proj1 (Hc p x) Hp) as [(i & Hi & _) _]. lia. }
  destruct (h_at _ Hwf (heap_n (hp s)) ltac:(lia)) as [A N]. unfold heap_pop. rewrite A. bind. do 3 eexists. split; [done|].
  split; [by apply (Hc _ (prio s (heap_n (hp s)))); split; [exists (heap_n (hp s)); split; [lia|]|]|].
  split; [split; [|split]|done].
  - pose proof (h_n _ Hwf). pose proof (array_len s Hwf Hn). split; [cbn; lia|right; cbn; lia|]. intros k Hk. cbn in Hk. apply (h_at _ Hwf); lia.
  - intros k Hk Hlo. cbn in Hk. pose proof (half k ltac:(lia)). change (prio s k <= prio s (k / 2)). apply Ho; lia.
  - apply (removed_holds s); [done|done|lia|done|done|]. intros k Hk. rewrite decide_False by lia. done.
Qed.

(** ** The abstract priority queue *)

Inductive heap_op := Insert (p pri : Z) | Remove (p : Z) | Change (p pri : Z) | Max | Pop.

(** What an operation may return and do to the map of priorities. *)
Inductive heap_spec (c : gmap Z Z) : heap_op -> option Z -> gmap Z Z -> Prop :=
| spec_insert p pri : heap_spec c (Insert p pri) None (<[p := pri]> c)
| spec_remove p : heap_spec c (Remove p) None (delete p c)
| spec_change p pri : heap_spec c (Change p pri) None (<[p := pri]> c)
| spec_max p x : c !! p = Some x -> (forall q y, c !! q = Some y -> y <= x) -> heap_spec c Max (Some p) c
| spec_pop p x : c !! p = Some x -> heap_spec c Pop (Some p) (delete p c).

(** What the caller must see to; [D] are the nodes that exist. *)
Definition heap_allowed (D : gset Z) (c : gmap Z Z) (op : heap_op) : Prop :=
  match op with
  | Insert p _ => p ∈ D /\ c !! p = None
  | Remove p | Change p _ => is_Some (c !! p)
  | Max | Pop => c <> ∅
  end.

(** The caller sees to it for every operation, whatever the earlier ones returned. *)
Fixpoint heap_safe (D : gset Z) (c : gmap Z Z) (ops : list heap_op) : Prop :=
  match ops with
  | [] => True
  | op :: ops => heap_allowed D c op /\ forall out c', heap_spec c op out c' -> heap_safe D c' ops
  end.

Inductive heap_spec_run : gmap Z Z -> list heap_op -> list (option Z) -> gmap Z Z -> Prop :=
| spec_nil c : heap_spec_run c [] [] c
| spec_cons c op out c1 ops outs c2 : heap_spec c op out c1 -> heap_spec_run c1 ops outs c2 -> heap_spec_run c (op :: ops) (out :: outs) c2.

Definition heap_run1 (op : heap_op) (s : hst) : res (option Z * hst) :=
  match op with
  | Insert p pri => s ← heap_insert p pri s; Ok (None, s)
  | Remove p => s ← heap_remove p s; Ok (None, s)
  | Change p pri => s ← heap_change p pri s; Ok (None, s)
  | Max => p ← heap_max s; Ok (Some p, s)
  | Pop => '(p, s) ← heap_pop s; Ok (Some p, s)
  end.

Fixpoint heap_run (ops : list heap_op) (s : hst) : res (list (option Z) * hst) :=
  match ops with
  | [] => Ok ([], s)
  | op :: ops => '(out, s) ← heap_run1 op s; '(outs, s) ← heap_run ops s; Ok (out :: outs, s)
  end.

Definition exist_nodes (D : gset Z) (s : hst) : Prop := forall q, q ∈ D -> is_Some (nodes s !! q).

Lemma exist_same D s s' (p : option Z) :
  exist_nodes D s -> (forall q, Some q <> p -> priority <$> nodes s' !! q = priority <$> nodes s !! q) ->
  match p with Some p => is_Some (nodes s' !! p) | None => True end -> exist_nodes D s'.
Proof.
  intros HD Hq Hp q Hin. destruct (decide (Some q = p)) as [<-|Hne]; [done|]. specialize (Hq q Hne). destruct (HD q Hin) as [nd E]. rewrite E in Hq.
  apply fmap_Some in Hq as (nd' & E' & _). by exists nd'.
Qed.

Lemma rep_node s c p x : heap_rep s c -> c !! p = Some x -> is_Some (nodes s !! p).
Proof. intros (Hwf & _ & Hc) Hp. destruct (in_heap_node s p Hwf) as (i & _ & _ & N); [by apply (Hc p x)|]. by exists (HeapNode i (nprio s p)). Qed.

Lemma heap_step D op s c :
  heap_rep s c -> exist_nodes D s -> heap_allowed D c op ->
  exists out s' c', heap_run1 op s = Ok (out, s') /\ heap_spec c op out c' /\ heap_rep s' c' /\ exist_nodes D s'.
Proof.
  intros Hr HD Ha. destruct op as [p pri|p|p pri| |]; cbn [heap_allowed heap_run1] in *.
  - destruct Ha as [Hp Hno]. destruct (HD p Hp) as [nd Hnd]. destruct (heap_insert_ok s c p pri nd Hr Hnd Hno) as (s' & -> & Hr' & Hq). bind.
    eexists _, s', _. split; [done|]. split; [constructor|]. split; [done|]. eapply (exist_same D s s' (Some p)); [done|intros q ?; apply Hq; congruence|].
    eapply rep_node; [exact Hr'|apply lookup_insert_eq].
  - destruct Ha as [x Hx]. destruct (heap_remove_ok s c p x Hr Hx) as (s' & -> & Hr' & Hq). bind. eexists _, s', _. split; [done|]. split; [constructor|].
    split; [done|]. by eapply (exist_same D s s' None).
  - destruct Ha as [x Hx]. destruct (heap_change_ok s c p x pri Hr Hx) as (s' & -> & Hr' & Hq). bind. eexists _, s', _. split; [done|]. split; [constructor|].
    split; [done|]. eapply (exist_same D s s' (Some p)); [done|intros q ?; apply Hq; congruence|]. eapply rep_node; [exact Hr'|apply lookup_insert_eq].
  - destruct (heap_max_ok s c Hr Ha) as (p & x & -> & Hp & Hmax). bind. eexists _, s, c. split; [done|]. split; [by econstructor|done].
  - destruct (heap_pop_ok s c Hr Ha) as (p & x & s' & -> & Hp & Hr' & Hn). bind. eexists _, s', _. split; [done|]. split; [by econstructor|].
    split; [done|]. intros q Hin. rewrite Hn. by apply HD.
Qed.

Lemma heap_init_rep m : heap_rep (HSt heap_init m) ∅.
Proof.
  split; [split; cbn; [lia|by left|intros; lia]|]. split; [intros k Hk; cbn in Hk; lia|]. intros p x. rewrite lookup_empty. split; [done|].
  intros [(i & Hi & _) _]. cbn in Hi. lia.
Qed.

(** ** Properties *)

(** C27: A new heap implements a priority queue: any sequence of insertions, removals,
    changes of priorities, pops and queries that the caller may make runs without
    fault, and what is returned is allowed by the abstract queue: a query gives a
    node of the largest priority. *)
Theorem heap_refines D m ops :
  exist_nodes D (HSt heap_init m) -> heap_safe D ∅ ops ->
  exists outs s c, heap_run ops (HSt heap_init m) = Ok (outs, s) /\ heap_spec_run ∅ ops outs c /\ heap_rep s c.
Proof.
  pose proof (heap_init_rep m) as Hr. revert Hr. generalize (HSt heap_init m). generalize (∅ : gmap Z Z).
  induction ops as [|op ops IH]; intros c s Hr HD Hs; cbn [heap_run]; [exists [], s, c; split_and!; [done|constructor|done]|].
  destruct Hs as [Ha Hs]. destruct (heap_step D op s c Hr HD Ha) as (out & s1 & c1 & -> & Hspec & Hr1 & HD1). bind.
  destruct (IH c1 s1 Hr1 HD1 (Hs _ _ Hspec)) as (outs & s2 & c2 & -> & Hrun & Hr2). bind. eexists _, s2, c2. split; [done|]. split; [by econstructor|done].
Qed.

(** Rebuilding restores the order of a heap whose nodes were inserted, removed
    and changed without regard to it; it ends, and no node is lost. *)
Theorem heap_rebuild_correct s c :
  hwf s -> holds s c -> exists s', heap_rebuild s = Ok s' /\ heap_rep s' c.
Proof. apply heap_rebuild_ok. Qed.

(** ** Witnesses *)

Definition wit_nodes : gmap Z heap_node := {[10 := HeapNode 0 0; 11 := HeapNode 0 0; 12 := HeapNode 0 0]}.
Definition wit_ops : list heap_op := [Insert 10 5; Insert 11 7; Insert 12 6; Max; Change 11 1; Max; Remove 12; Max].

Lemma heap_refines_witness :
  exists outs s c, heap_run wit_ops (HSt heap_init wit_nodes) = Ok (outs, s) /\ heap_spec_run ∅ wit_ops outs c /\ heap_rep s c.
Proof.
  apply (heap_refines {[10; 11; 12]} wit_nodes wit_ops).
  - intros q Hq. assert (q = 10 \/ q = 11 \/ q = 12) as [->|[->| ->]] by set_solver; eexists; vm_compute; reflexivity.
  - repeat (split; [vm_compute; first [done|by split|by eexists]|intros out c' Hc; inversion Hc; subst; clear Hc]). done.
Defined.

Example heap_run_wit : fst <$> heap_run wit_ops (HSt heap_init wit_nodes) = Ok [None; None; None; Some 11; None; Some 12; None; Some 10].
Proof. vm_compute. reflexivity. Qed.

Definition wit_raw : hst := 
  match (s ← heap_raw_insert 10 5 (HSt heap_init wit_nodes); s ← heap_raw_insert 11 7 s; heap_raw_insert 12 6 s) with Ok s => s | Err _ => HSt heap_init ∅ end.

Lemma heap_rebuild_correct_witness : exists s', heap_rebuild wit_raw = Ok s' /\ heap_rep s' {[10 := 5; 11 := 7; 12 := 6]}.
Proof.
  apply (heap_rebuild_correct wit_raw).
  - split; [by vm_compute|right; by vm_compute|]. intros i Hi. change (1 <= i <= 3) in Hi.
    assert (i = 1 \/ i = 2 \/ i = 3) as [->|[->| ->]] by lia; split; vm_compute; reflexivity.
  - intros p x. split.
    + intros Hp. assert (p = 10 /\ x = 5 \/ p = 11 /\ x = 7 \/ p = 12 /\ x = 6) as H.
      { repeat (apply lookup_insert_Some in Hp as [[<- <-]|[_ Hp]]; [tauto|]). apply lookup_singleton_Some in Hp as [<- <-]. tauto. }
      destruct H as [[-> ->]|[[-> ->]|[-> ->]]]; split; try (vm_compute; reflexivity); [exists 1|exists 2|exists 3]; split; vm_compute; done || (split; congruence).
    + intros [(i & Hi & <-) <-]. change (1 <= i <= 3) in Hi. assert (i = 1 \/ i = 2 \/ i = 3) as [->|[->| ->]] by lia; vm_compute; reflexivity.
Defined.
