(* ===== verification/Reconnect.v ===== *)
(** The state machine that keeps a connection of the daemon alive
    ([lib/reconnect.c]): backing off, connecting, probing, and statistics. *)
From S2P Require Import Prelude.

Definition RECONNECT_DEFAULT_MIN_BACKOFF : Z := 1000.
Definition RECONNECT_DEFAULT_MAX_BACKOFF : Z := 8000.
Definition RECONNECT_DEFAULT_PROBE_INTERVAL : Z := 5000.

(** ** Data *)

Inductive rstate := S_VOID | S_BACKOFF | S_CONNECTING | S_ACTIVE | S_IDLE | S_RECONNECT | S_LISTENING.

#[global] Instance rstate_eq_dec : EqDecision rstate.
Proof. solve_decision. Defined.

Definition is_connected_state (x : rstate) : bool := match x with S_ACTIVE | S_IDLE => true | _ => false end.

(** [struct reconnect] without the name and the level of log messages. *)
Record reconnect := Reconnect {
  min_backoff : Z; max_backoff : Z; probe_interval : Z; passive : bool;
  state : rstate; state_entered : Z; backoff : Z;
  last_activity : Z; last_connected : Z; last_disconnected : Z; max_tries : Z;
  creation_time : Z; n_attempted_connections : Z; n_successful_connections : Z; total_connected_duration : Z; seqno : Z
}.

Inductive reconnect_action := RECONNECT_NONE | RECONNECT_CONNECT | RECONNECT_DISCONNECT | RECONNECT_PROBE.

#[global] Instance reconnect_action_eq_dec : EqDecision reconnect_action.
Proof. solve_decision. Defined.

Implicit Types (fsm : reconnect) (now : Z).

(** Assignments to members. *)
Definition set_config (lo hi probe : Z) (p : bool) fsm : reconnect :=
  Reconnect lo hi probe p (state fsm) (state_entered fsm) (backoff fsm) (last_activity fsm) (last_connected fsm)
    (last_disconnected fsm) (max_tries fsm) (creation_time fsm) (n_attempted_connections fsm) (n_successful_connections fsm)
    (total_connected_duration fsm) (seqno fsm).
Definition set_backoff (b : Z) fsm : reconnect :=
  Reconnect (min_backoff fsm) (max_backoff fsm) (probe_interval fsm) (passive fsm) (state fsm) (state_entered fsm) b
    (last_activity fsm) (last_connected fsm) (last_disconnected fsm) (max_tries fsm) (creation_time fsm)
    (n_attempted_connections fsm) (n_successful_connections fsm) (total_connected_duration fsm) (seqno fsm).
Definition set_times (activity connected disconnected : Z) fsm : reconnect :=
  Reconnect (min_backoff fsm) (max_backoff fsm) (probe_interval fsm) (passive fsm) (state fsm) (state_entered fsm) (backoff fsm)
    activity connected disconnected (max_tries fsm) (creation_time fsm)
    (n_attempted_connections fsm) (n_successful_connections fsm) (total_connected_duration fsm) (seqno fsm).
Definition reconnect_set_max_tries (tries : Z) fsm : reconnect :=
  Reconnect (min_backoff fsm) (max_backoff fsm) (probe_interval fsm) (passive fsm) (state fsm) (state_entered fsm) (backoff fsm)
    (last_activity fsm) (last_connected fsm) (last_disconnected fsm) tries (creation_time fsm)
    (n_attempted_connections fsm) (n_successful_connections fsm) (total_connected_duration fsm) (seqno fsm).

(** ** Operations *)

Definition reconnect_create now : reconnect :=
  Reconnect RECONNECT_DEFAULT_MIN_BACKOFF RECONNECT_DEFAULT_MAX_BACKOFF RECONNECT_DEFAULT_PROBE_INTERVAL false
    S_VOID now 0 now LLONG_MAX LLONG_MAX UINT_MAX now 0 0 0 0.

(** [reconnect_transition__]: counters are [unsigned int]. *)
Definition reconnect_transition__ now (st : rstate) fsm : reconnect :=
  let connecting := bool_decide (state fsm = S_CONNECTING) in
  let was := is_connected_state (state fsm) in
  let changes := negb (Bool.eqb was (is_connected_state st)) in
  Reconnect (min_backoff fsm) (max_backoff fsm) (probe_interval fsm) (passive fsm) st now (backoff fsm)
    (last_activity fsm) (last_connected fsm) (last_disconnected fsm) (max_tries fsm) (creation_time fsm)
    (if connecting then u32 (n_attempted_connections fsm + 1) else n_attempted_connections fsm)
    (if connecting && bool_decide (st = S_ACTIVE) then u32 (n_successful_connections fsm + 1) else n_successful_connections fsm)
    (if changes && was then u32 (total_connected_duration fsm + (now - last_connected fsm)) else total_connected_duration fsm)
    (if changes then u32 (seqno fsm + 1) else seqno fsm).

Definition reconnect_may_retry fsm : bool * reconnect :=
  let may_retry := 0 <? max_tries fsm in
  (may_retry, if may_retry && negb (max_tries fsm =? UINT_MAX) then reconnect_set_max_tries (max_tries fsm - 1) fsm else fsm).

Definition reconnect_set_backoff (min_b max_b : Z) fsm : reconnect :=
  let lo := Z.max min_b 1000 in
  let hi := if max_b =? 0 then RECONNECT_DEFAULT_MAX_BACKOFF else Z.max max_b 1000 in
  let hi := if hi <? lo then lo else hi in
  let fsm := set_config lo hi (probe_interval fsm) (passive fsm) fsm in
  if bool_decide (state fsm = S_BACKOFF) && (max_b <? backoff fsm) then set_backoff max_b fsm else fsm.

Definition reconnect_set_probe_interval (interval : Z) fsm : reconnect :=
  set_config (min_backoff fsm) (max_backoff fsm) (if interval =? 0 then 0 else Z.max 1000 interval) (passive fsm) fsm.

Definition reconnect_set_passive (p : bool) now fsm : reconnect :=
  if Bool.eqb (passive fsm) p then fsm else
  let fsm := set_config (min_backoff fsm) (max_backoff fsm) (probe_interval fsm) p fsm in
  let '(retry, fsm) :=
    if p then (match state fsm with S_CONNECTING | S_RECONNECT => true | _ => false end, fsm)
    else if bool_decide (state fsm = S_LISTENING) then reconnect_may_retry fsm else (false, fsm) in
  if (retry : bool) then set_backoff 0 (reconnect_transition__ now S_BACKOFF fsm) else fsm.

Definition reconnect_is_enabled fsm : bool := negb (bool_decide (state fsm = S_VOID)).

Definition reconnect_enable now fsm : reconnect :=
  if bool_decide (state fsm = S_VOID) then
    let '(retry, fsm) := reconnect_may_retry fsm in
    if (retry : bool) then set_backoff 0 (reconnect_transition__ now S_BACKOFF fsm) else fsm
  else fsm.

Definition reconnect_disable now fsm : reconnect :=
  if bool_decide (state fsm = S_VOID) then fsm else reconnect_transition__ now S_VOID fsm.

Definition reconnect_force_reconnect now fsm : reconnect :=
  match state fsm with S_CONNECTING | S_ACTIVE | S_IDLE => reconnect_transition__ now S_RECONNECT fsm | _ => fsm end.

(** The new backoff of [reconnect_disconnected], after the time of the
    disconnection was noted. *)
Definition next_backoff fsm : Z :=
  if is_connected_state (state fsm) && ((backoff fsm <=? last_activity fsm - last_connected fsm) || passive fsm)
  then (if passive fsm then 0 else min_backoff fsm)
  else if backoff fsm <? min_backoff fsm then min_backoff fsm
  else if max_backoff fsm / 2 <=? backoff fsm then max_backoff fsm
  else backoff fsm * 2.

Definition reconnect_disconnected now fsm : reconnect :=
  match state fsm with
  | S_BACKOFF | S_VOID => fsm
  | _ =>
      let fsm := if is_connected_state (state fsm) then set_times (last_activity fsm) (last_connected fsm) now fsm else fsm in
      let fsm := set_backoff (next_backoff fsm) fsm in
      let '(retry, fsm) := reconnect_may_retry fsm in
      reconnect_transition__ now (if (retry : bool) then S_BACKOFF else S_VOID) fsm
  end.

Definition reconnect_connecting now fsm : reconnect :=
  if bool_decide (state fsm = S_CONNECTING) then fsm else reconnect_transition__ now S_CONNECTING fsm.

Definition reconnect_listening now fsm : reconnect :=
  if bool_decide (state fsm = S_LISTENING) then fsm else reconnect_transition__ now S_LISTENING fsm.

Definition reconnect_listen_error now fsm : reconnect :=
  if bool_decide (state fsm = S_LISTENING) then reconnect_disconnected now fsm else fsm.

Definition reconnect_connected now fsm : reconnect :=
  if is_connected_state (state fsm) then fsm else
  let fsm := reconnect_transition__ now S_ACTIVE (reconnect_connecting now fsm) in
  set_times (last_activity fsm) now (last_disconnected fsm) fsm.

Definition reconnect_connect_failed now fsm : reconnect := reconnect_disconnected now (reconnect_connecting now fsm).

Definition reconnect_activity now fsm : reconnect :=
  let fsm := if bool_decide (state fsm = S_ACTIVE) then fsm else reconnect_transition__ now S_ACTIVE fsm in
  set_times now (last_connected fsm) (last_disconnected fsm) fsm.

(** [reconnect_deadline__]; sums of a time and an interval do not overflow, times
    are milliseconds since the epoch. *)
Definition reconnect_deadline__ fsm : res Z :=
  _ ← c_assert (negb (state_entered fsm =? LLONG_MIN));
  Ok (match state fsm with
  | S_VOID | S_LISTENING => LLONG_MAX
  | S_BACKOFF => state_entered fsm + backoff fsm
  | S_CONNECTING => state_entered fsm + Z.max 1000 (backoff fsm)
  | S_ACTIVE => if probe_interval fsm =? 0 then LLONG_MAX else Z.max (last_activity fsm) (state_entered fsm) + probe_interval fsm
  | S_IDLE => if probe_interval fsm =? 0 then LLONG_MAX else state_entered fsm + probe_interval fsm
  | S_RECONNECT => state_entered fsm
  end).

Definition reconnect_run now fsm : res (reconnect_action * reconnect) :=
  deadline ← reconnect_deadline__ fsm;
  Ok (if deadline <=? now then
    match state fsm with
    | S_VOID | S_LISTENING => (RECONNECT_NONE, fsm)
    | S_BACKOFF => (RECONNECT_CONNECT, fsm)
    | S_CONNECTING | S_IDLE | S_RECONNECT => (RECONNECT_DISCONNECT, fsm)
    | S_ACTIVE => (RECONNECT_PROBE, reconnect_transition__ now S_IDLE fsm)
    end
  else (RECONNECT_NONE, fsm)).

Definition reconnect_timeout now fsm : res Z :=
  deadline ← reconnect_deadline__ fsm;
  Ok (if deadline =? LLONG_MAX then -1 else Z.max 0 (Z.min INT_MAX (deadline - now))).

Definition reconnect_is_connected fsm : bool := is_connected_state (state fsm).

Definition reconnect_get_last_connect_elapsed now fsm : Z :=
  if last_connected fsm =? LLONG_MAX then UINT_MAX else u32 (now - last_connected fsm).
Definition reconnect_get_last_disconnect_elapsed now fsm : Z :=
  if last_disconnected fsm =? LLONG_MAX then UINT_MAX else u32 (now - last_disconnected fsm).

(** [reconnect_get_stats]; the name of the state is the state. *)
Record reconnect_stats := RStats {
  rs_creation_time : Z; rs_last_activity : Z; rs_last_connected : Z; rs_last_disconnected : Z; rs_backoff : Z; rs_seqno : Z;
  rs_is_connected : bool; rs_msec_since_connect : Z; rs_msec_since_disconnect : Z; rs_total_connected_duration : Z;
  rs_n_attempted : Z; rs_n_successful : Z; rs_state : rstate; rs_state_elapsed : Z
}.
Definition reconnect_get_stats now fsm : reconnect_stats :=
  RStats (creation_time fsm) (last_activity fsm) (last_connected fsm) (last_disconnected fsm) (backoff fsm) (seqno fsm)
    (reconnect_is_connected fsm) (reconnect_get_last_connect_elapsed now fsm) (reconnect_get_last_disconnect_elapsed now fsm)
    (u32 (total_connected_duration fsm + if is_connected_state (state fsm) then reconnect_get_last_connect_elapsed now fsm else 0))
    (n_attempted_connections fsm) (n_successful_connections fsm) (state fsm) (u32 (now - state_entered fsm)).

(** ** Runs of the machine *)

Inductive call :=
| CSetBackoff (lo hi : Z) | CSetProbe (interval : Z) | CSetPassive (p : bool) | CSetMaxTries (tries : Z)
| CEnable | CDisable | CForce | CDisconnected | CConnecting | CListening | CListenError | CConnected | CConnectFailed | CActivity
| CRun.

Definition do_call now (c : call) fsm : res (reconnect_action * reconnect) :=
  let quiet f := Ok (RECONNECT_NONE, f) in
  match c with
  | CSetBackoff lo hi => quiet (reconnect_set_backoff lo hi fsm)
  | CSetProbe interval => quiet (reconnect_set_probe_interval interval fsm)
  | CSetPassive p => quiet (reconnect_set_passive p now fsm)
  | CSetMaxTries tries => quiet (reconnect_set_max_tries tries fsm)
  | CEnable => quiet (reconnect_enable now fsm)
  | CDisable => quiet (reconnect_disable now fsm)
  | CForce => quiet (reconnect_force_reconnect now fsm)
  | CDisconnected => quiet (reconnect_disconnected now fsm)
  | CConnecting => quiet (reconnect_connecting now fsm)
  | CListening => quiet (reconnect_listening now fsm)
  | CListenError => quiet (reconnect_listen_error now fsm)
  | CConnected => quiet (reconnect_connected now fsm)
  | CConnectFailed => quiet (reconnect_connect_failed now fsm)
  | CActivity => quiet (reconnect_activity now fsm)
  | CRun => reconnect_run now fsm
  end.

(** Intervals are not negative; times are far from the end of their type. *)
Definition call_ok (c : call) : Prop :=
  match c with
  | CSetBackoff lo hi => 0 <= lo <= INT_MAX /\ 0 <= hi <= INT_MAX
  | CSetProbe interval => 0 <= interval <= INT_MAX
  | CSetMaxTries tries => is_u32 tries
  | _ => True
  end.
Definition MAX_TIME : Z := 2 ^ 62.

(** The machine after some calls, the last one at [now]. *)
Inductive reconnect_reach : reconnect -> Z -> Prop :=
| reach_create now : 0 <= now < MAX_TIME -> reconnect_reach (reconnect_create now) now
| reach_call fsm t now c a fsm' :
    reconnect_reach fsm t -> t <= now < MAX_TIME -> call_ok c -> do_call now c fsm = Ok (a, fsm') -> reconnect_reach fsm' now.

(** ** The invariant *)

(** A time in the past, or none. *)
Definition past now (x : Z) : Prop := 0 <= x <= now \/ x = LLONG_MAX.

Record reconnect_inv fsm now : Prop := {
  ri_backoffs : 1000 <= min_backoff fsm <= max_backoff fsm /\ max_backoff fsm <= INT_MAX;
  ri_probe : probe_interval fsm = 0 \/ 1000 <= probe_interval fsm <= INT_MAX;
  ri_backoff : 0 <= backoff fsm <= INT_MAX;
  ri_now : 0 <= now < MAX_TIME;
  ri_entered : 0 <= state_entered fsm <= now;
  ri_activity : 0 <= last_activity fsm <= now;
  ri_connected : past now (last_connected fsm);
  ri_disconnected : past now (last_disconnected fsm);
  ri_tries : is_u32 (max_tries fsm);
  ri_counts : is_u32 (n_attempted_connections fsm) /\ is_u32 (n_successful_connections fsm) /\
    is_u32 (total_connected_duration fsm) /\ is_u32 (seqno fsm);
  ri_seqno : Z.odd (seqno fsm) = is_connected_state (state fsm)
}.

Lemma odd_u32 x : Z.odd (u32 x) = Z.odd x.
Proof. rewrite <- !Z.bit0_odd. unfold u32, wrap. by rewrite Z.mod_pow2_bits_low. Qed.

Lemma is_u32_u32 x : is_u32 (u32 x).
Proof. by apply wrap_range. Qed.

Lemma inv_create now : 0 <= now < MAX_TIME -> reconnect_inv (reconnect_create now) now.
Proof. intros H. split; cbn; try lia; try (by right); by unfold is_u32, is_u, UINT_MAX. Qed.

Lemma inv_later fsm t now : reconnect_inv fsm t -> t <= now < MAX_TIME -> reconnect_inv fsm now.
Proof. intros [] H. split; try done; try lia; unfold past in *; lia. Qed.

Lemma inv_transition fsm now st : reconnect_inv fsm now -> reconnect_inv (reconnect_transition__ now st fsm) now.
Proof.
  intros [H1 H2 H3 H4 H5 H6 H7 H8 H9 (C1 & C2 & C3 & C4) H11]. split; try done; cbn; [lia| |].
  - split; [destruct (bool_decide _); [apply is_u32_u32|done]|]. split; [destruct (_ && _); [apply is_u32_u32|done]|].
    split; [destruct (_ && _); [apply is_u32_u32|done]|]. destruct (negb _); [apply is_u32_u32|done].
  - destruct (is_connected_state (state fsm)) eqn:E1, (is_connected_state st) eqn:E2; cbn; rewrite ?odd_u32; rewrite ?Z.odd_add, H11; done.
Qed.

Lemma inv_set_backoff fsm now b : reconnect_inv fsm now -> 0 <= b <= INT_MAX -> reconnect_inv (set_backoff b fsm) now.
Proof. intros [] Hb. by split. Qed.

Lemma inv_set_times fsm now a b c :
  reconnect_inv fsm now -> 0 <= a <= now -> past now b -> past now c -> reconnect_inv (set_times a b c fsm) now.
Proof. intros [] Ha Hb Hc. by split. Qed.

Lemma inv_set_config fsm now lo hi p ps :
  reconnect_inv fsm now -> 1000 <= lo <= hi -> hi <= INT_MAX -> (p = 0 \/ 1000 <= p <= INT_MAX) -> reconnect_inv (set_config lo hi p ps fsm) now.
Proof. intros [] H1 H2 H3. by split. Qed.

Lemma inv_set_tries fsm now k : reconnect_inv fsm now -> is_u32 k -> reconnect_inv (reconnect_set_max_tries k fsm) now.
Proof. intros [] Hk. by split. Qed.

Lemma inv_may_retry fsm now : reconnect_inv fsm now -> reconnect_inv (reconnect_may_retry fsm).2 now.
Proof.
  intros Hi. pose proof (ri_tries _ _ Hi) as Ht. unfold is_u32, is_u in Ht. cbn. destruct (Z.ltb_spec 0 (max_tries fsm)); [|done]. destruct (_ =? _); [done|].
  apply inv_set_tries; [done|]. unfold is_u32, is_u. lia.
Qed.

Lemma next_backoff_range fsm now : reconnect_inv fsm now -> 0 <= next_backoff fsm <= INT_MAX.
Proof.
  intros Hi. pose proof (ri_backoffs _ _ Hi). pose proof (ri_backoff _ _ Hi). unfold next_backoff.
  destruct (_ && _); [destruct (passive fsm); lia|]. destruct (_ <? _); [lia|]. destruct (Z.leb_spec (max_backoff fsm / 2) (backoff fsm)); [lia|]. zdiv.
Qed.

Create HintDb fsm.
#[export] Hint Resolve inv_transition inv_set_backoff inv_set_times inv_set_tries : fsm.

Lemma inv_retry fsm now :
  reconnect_inv fsm now ->
  reconnect_inv (let '(retry, fsm) := reconnect_may_retry fsm in
    if (retry : bool) then set_backoff 0 (reconnect_transition__ now S_BACKOFF fsm) else fsm) now.
Proof.
  intros Hi. pose proof (inv_may_retry fsm now Hi) as Hr. destruct (reconnect_may_retry fsm) as [[] f]; cbn in *; [|done].
  apply inv_set_backoff; [auto with fsm|unfold INT_MAX; lia].
Qed.

Lemma inv_disconnected fsm now : reconnect_inv fsm now -> reconnect_inv (reconnect_disconnected now fsm) now.
Proof.
  intros Hi. unfold reconnect_disconnected.
  set (f1 := if is_connected_state (state fsm) then _ else fsm).
  assert (reconnect_inv f1 now) as H1.
  { unfold f1. destruct (is_connected_state _); [|done]. apply inv_set_times; [done|apply Hi|apply Hi|left; pose proof (ri_now _ _ Hi); lia]. }
  pose proof (inv_may_retry _ now (inv_set_backoff f1 now _ H1 (next_backoff_range _ _ H1))) as Hr.
  destruct (reconnect_may_retry (set_backoff (next_backoff f1) f1)) as [retry f2]. cbn [snd] in Hr. destruct (state fsm); auto with fsm.
Qed.

Lemma inv_connecting fsm now : reconnect_inv fsm now -> reconnect_inv (reconnect_connecting now fsm) now.
Proof. intros Hi. unfold reconnect_connecting. case_bool_decide; auto with fsm. Qed.

Lemma inv_call fsm now c a fsm' :
  reconnect_inv fsm now -> call_ok c -> do_call now c fsm = Ok (a, fsm') -> reconnect_inv fsm' now.
Proof.
  intros Hi Hc. pose proof (ri_now _ _ Hi) as Hn. pose proof (ri_backoffs _ _ Hi) as Hb. pose proof (inv_may_retry fsm now Hi) as Hr.
  assert (past now now) as Hp by (left; lia).
  destruct c; cbn [do_call call_ok] in *; try (intros [= _ <-]).
  - unfold reconnect_set_backoff. set (lo' := Z.max lo 1000). set (hi' := if (if hi =? 0 then _ else _) <? lo' then _ else _).
    assert (reconnect_inv (set_config lo' hi' (probe_interval fsm) (passive fsm) fsm) now) as H1.
    { apply inv_set_config; [done| | |apply Hi]; unfold hi', lo', RECONNECT_DEFAULT_MAX_BACKOFF, INT_MAX in *;
        destruct (Z.eqb_spec hi 0); match goal with |- context [?x <? ?y] => destruct (Z.ltb_spec x y) end; lia. }
    destruct (_ && _); [apply inv_set_backoff; [done|lia]|done].
  - apply inv_set_config; [done|lia|lia|]. unfold INT_MAX in *. destruct (Z.eqb_spec interval 0); lia.
  - unfold reconnect_set_passive. destruct (Bool.eqb _ _); [done|].
    set (f1 := set_config _ _ _ _ _). assert (reconnect_inv f1 now) as H1 by (apply inv_set_config; [done|lia|lia|apply Hi]).
    destruct p; [destruct (state f1); auto with fsm; apply inv_set_backoff; auto with fsm; unfold INT_MAX; lia|].
    case_bool_decide; [|done]. by apply inv_retry.
  - by apply inv_set_tries.
  - unfold reconnect_enable. case_bool_decide; [|done]. by apply inv_retry.
  - unfold reconnect_disable. case_bool_decide; auto with fsm.
  - unfold reconnect_force_reconnect. destruct (state fsm); auto with fsm.
  - by apply inv_disconnected.
  - by apply inv_connecting.
  - unfold reconnect_listening. case_bool_decide; auto with fsm.
  - unfold reconnect_listen_error. case_bool_decide; [by apply inv_disconnected|done].
  - unfold reconnect_connected. destruct (is_connected_state _); [done|].
    pose proof (inv_transition _ now S_ACTIVE (inv_connecting fsm now Hi)) as H1. apply inv_set_times; [done|apply H1|done|apply H1].
  - by apply inv_disconnected, inv_connecting.
  - unfold reconnect_activity. case_bool_decide; [apply inv_set_times; [done|lia|apply Hi|apply Hi]|].
    pose proof (inv_transition _ now S_ACTIVE Hi) as H1. apply inv_set_times; [done|lia|apply H1|apply H1].
  - unfold reconnect_run. intros (dl & _ & [= E])%res_bind_Ok. destruct (dl <=? now); [|by simplify_eq]. destruct (state fsm); simplify_eq; auto with fsm.
Qed.

Lemma reach_inv fsm now : reconnect_reach fsm now -> reconnect_inv fsm now.
Proof.
  induction 1 as [now Hn|fsm t now c a fsm' _ IH Hn Hc E]; [by apply inv_create|].
  eapply inv_call; [by eapply inv_later|exact Hc|exact E].
Qed.

(** ** Properties *)

Lemma entered_ok fsm : 0 <= state_entered fsm -> negb (state_entered fsm =? LLONG_MIN) = true.
Proof. intros. by rewrite (proj2 (Z.eqb_neq _ _)) by (unfold LLONG_MIN; lia). Qed.

Lemma deadline_ok fsm now :
  reconnect_inv fsm now -> exists deadline, reconnect_deadline__ fsm = Ok deadline /\ 0 <= deadline <= LLONG_MAX /\
    (deadline = LLONG_MAX \/ (deadline <= now + INT_MAX /\ state fsm <> S_VOID /\ state fsm <> S_LISTENING)) /\
    ((state fsm = S_VOID \/ state fsm = S_LISTENING) -> deadline = LLONG_MAX).
Proof.
  intros [H1 H2 H3 H4 H5 H6 H7 H8 H9 H10 H11]. unfold reconnect_deadline__. rewrite entered_ok by lia. cbn [c_assert]. bind.
  eexists. split; [done|]. unfold MAX_TIME, LLONG_MAX, INT_MAX in *.
  destruct (state fsm); [| | |destruct (Z.eqb_spec (probe_interval fsm) 0)|destruct (Z.eqb_spec (probe_interval fsm) 0)| |];
    (split; [lia|split; [first [by left|right; split_and!; [lia|done|done]]|intros [?|?]; done]]).
Qed.

(** C28: After any calls, at times that do not run backwards, the intervals are within
    their bounds, no sum of times overflows, the sequence number is odd exactly
    while connected, and no further call fails an assertion. *)
Theorem reconnect_invariant fsm t :
  reconnect_reach fsm t ->
  reconnect_inv fsm t /\ (exists deadline, reconnect_deadline__ fsm = Ok deadline /\ 0 <= deadline <= LLONG_MAX) /\
  forall now c, t <= now < MAX_TIME -> call_ok c -> exists a fsm', do_call now c fsm = Ok (a, fsm').
Proof.
  intros Hr. pose proof (reach_inv _ _ Hr) as Hi. destruct (deadline_ok fsm t Hi) as (dl & E & Hdl & _). split; [done|]. split; [by exists dl|].
  intros now c _ _. destruct c; cbn [do_call]; try (by eexists _, _). unfold reconnect_run. rewrite E. bind.
  destruct (dl <=? now); [destruct (state fsm)|]; by eexists _, _.
Qed.

(** C29: The time that [reconnect_timeout] gives is exact: the machine has nothing for
    the client to do before it has passed, and has when it has passed; if it gives
    none, there is nothing to do until another call. *)
Theorem reconnect_timeout_exact fsm t now :
  reconnect_reach fsm t -> t <= now < MAX_TIME ->
  exists k, reconnect_timeout now fsm = Ok k /\ -1 <= k <= INT_MAX /\
    (0 <= k -> exists a fsm', reconnect_run (now + k) fsm = Ok (a, fsm') /\ a <> RECONNECT_NONE) /\
    forall now', now <= now' < MAX_TIME -> (k = -1 \/ now' < now + k) -> reconnect_run now' fsm = Ok (RECONNECT_NONE, fsm).
Proof.
  intros Hr Hn. pose proof (inv_later _ _ _ (reach_inv _ _ Hr) Hn) as Hi. destruct (deadline_ok fsm now Hi) as (dl & E & Hdl & Hcase & Hvoid).
  pose proof (ri_now _ _ Hi). unfold reconnect_timeout, reconnect_run. rewrite E. repeat bind. unfold MAX_TIME, LLONG_MAX, INT_MAX in *.
  eexists. split; [done|]. destruct (Z.eqb_spec dl (2 ^ 63 - 1)) as [Hdl'|Hne].
  - split; [lia|]. split; [lia|]. intros now' Hn' _. bind. by rewrite (proj2 (Z.leb_gt _ _)) by lia.
  - destruct Hcase as [?|(Hdl2 & Hv & Hl)]; [done|]. split; [lia|]. split.
    + intros _. bind. rewrite (proj2 (Z.leb_le _ _)) by lia. destruct (state fsm); try done; by eexists _, _.
    + intros now' Hn' Hk. bind. by rewrite (proj2 (Z.leb_gt _ _)) by lia.
Qed.

(** Failures to connect, one after the other. *)
Fixpoint fail_at (times : list Z) fsm : reconnect :=
  match times with [] => fsm | now :: times => fail_at times (reconnect_connect_failed now fsm) end.

Definition backoff_step (lo hi b : Z) : Z := if b <? lo then lo else if hi / 2 <=? b then hi else b * 2.

(** A failure of an active machine with any number of tries. *)
Lemma connect_failed_backoff now fsm :
  is_connected_state (state fsm) = false -> max_tries fsm = UINT_MAX ->
  let fsm' := reconnect_connect_failed now fsm in
  state fsm' = S_BACKOFF /\ state_entered fsm' = now /\ backoff fsm' = backoff_step (min_backoff fsm) (max_backoff fsm) (backoff fsm) /\
  max_tries fsm' = UINT_MAX /\ min_backoff fsm' = min_backoff fsm /\ max_backoff fsm' = max_backoff fsm.
Proof.
  intros Hs Ht. unfold reconnect_connect_failed. set (f1 := reconnect_connecting now fsm).
  assert (state f1 = S_CONNECTING /\ backoff f1 = backoff fsm /\ min_backoff f1 = min_backoff fsm /\ max_backoff f1 = max_backoff fsm /\
    max_tries f1 = UINT_MAX) as (H1 & H2 & H3 & H4 & H5) by (unfold f1, reconnect_connecting; by case_bool_decide).
  unfold reconnect_disconnected. rewrite H1. cbn [is_connected_state]. unfold reconnect_may_retry. cbn [max_tries set_backoff]. rewrite H5.
  change (0 <? UINT_MAX) with true. change (UINT_MAX =? UINT_MAX) with true. cbn [andb negb]. cbv iota. cbn. unfold next_backoff. rewrite H1.
  cbn [is_connected_state andb]. by rewrite H2, H3, H4.
Qed.

(** The wait after [S j] failures. *)
Definition wait_after (lo hi : Z) (j : nat) : Z :=
  match j with
  | O => lo
  | S i => if lo * 2 ^ Z.of_nat i <? hi / 2 then lo * 2 ^ Z.of_nat j else hi
  end.

Lemma wait_after_step lo hi j : 0 < lo <= hi -> backoff_step lo hi (wait_after lo hi j) = wait_after lo hi (S j).
Proof.
  intros H. unfold backoff_step. destruct j as [|i]; cbn [wait_after].
  - rewrite Z.ltb_irrefl. change (2 ^ Z.of_nat 0) with 1. change (2 ^ Z.of_nat 1) with 2. rewrite Z.mul_1_r.
    destruct (Z.leb_spec (hi / 2) lo), (Z.ltb_spec lo (hi / 2)); lia.
  - rewrite (Nat2Z.inj_succ i), (Nat2Z.inj_succ (S i)), (Nat2Z.inj_succ i), !Z.pow_succ_r by lia.
    assert (0 < 2 ^ Z.of_nat i) by (apply Z.pow_pos_nonneg; lia). destruct (Z.ltb_spec (lo * 2 ^ Z.of_nat i) (hi / 2)).
    + destruct (Z.ltb_spec (lo * (2 * 2 ^ Z.of_nat i)) lo); [nia|].
      destruct (Z.leb_spec (hi / 2) (lo * (2 * 2 ^ Z.of_nat i))), (Z.ltb_spec (lo * (2 * 2 ^ Z.of_nat i)) (hi / 2)); lia.
    + destruct (Z.ltb_spec hi lo); [lia|]. rewrite (proj2 (Z.leb_le (hi / 2) hi)) by zdiv. by rewrite (proj2 (Z.ltb_ge _ _)) by nia.
Qed.

Lemma fail_at_backoff times : forall fsm j,
  is_connected_state (state fsm) = false -> max_tries fsm = UINT_MAX -> 0 < min_backoff fsm <= max_backoff fsm ->
  backoff fsm = wait_after (min_backoff fsm) (max_backoff fsm) j -> state fsm = S_BACKOFF ->
  state (fail_at times fsm) = S_BACKOFF /\ backoff (fail_at times fsm) = wait_after (min_backoff fsm) (max_backoff fsm) (length times + j).
Proof.
  induction times as [|now times IH]; intros fsm j Hs Ht Hlo Hb Hst; cbn [fail_at length]; [done|].
  destruct (connect_failed_backoff now fsm Hs Ht) as (S1 & _ & B1 & T1 & L1 & M1).
  rewrite Hb, wait_after_step in B1 by done. rewrite <- L1, <- M1 in B1 |- *. replace (S (length times) + j)%nat with (length times + S j)%nat by lia.
  apply IH; [by rewrite S1|done|by rewrite L1, M1|done|done].
Qed.

(** C33: The time between attempts doubles with every failure until it is the longest
    that is allowed: after the first failure it is the shortest, after [n] more it
    is 2^n times that, or the longest when half of it is reached before. *)
Theorem backoff_exponential fsm now times :
  is_connected_state (state fsm) = false -> max_tries fsm = UINT_MAX -> backoff fsm = 0 -> 0 < min_backoff fsm <= max_backoff fsm ->
  let fsm' := fail_at (now :: times) fsm in
  state fsm' = S_BACKOFF /\
  backoff fsm' = match length times with
                 | O => min_backoff fsm
                 | S n => if min_backoff fsm * 2 ^ Z.of_nat n <? max_backoff fsm / 2 then min_backoff fsm * 2 ^ Z.of_nat (S n) else max_backoff fsm
                 end.
Proof.
  intros Hs Ht Hb Hlo. destruct (connect_failed_backoff now fsm Hs Ht) as (S1 & _ & B1 & T1 & L1 & M1). cbn [fail_at].
  unfold backoff_step in B1. rewrite Hb, (proj2 (Z.ltb_lt 0 _)) in B1 by lia.
  destruct (fail_at_backoff times (reconnect_connect_failed now fsm) 0) as [E1 E2]; [by rewrite S1|done|by rewrite L1, M1|by rewrite B1, L1|done|].
  split; [done|]. rewrite E2, L1, M1, Nat.add_0_r. by destruct (length times).
Qed.

(** Keep-alive: a connection on which nothing happens is probed when the interval
    has passed, and given up when it has passed again; activity in between starts
    over. *)
Theorem reconnect_keepalive fsm t t1 :
  reconnect_reach fsm t -> state fsm = S_ACTIVE -> probe_interval fsm <> 0 -> t <= t1 < MAX_TIME ->
  let base := Z.max (last_activity fsm) (state_entered fsm) in
  (t1 < base + probe_interval fsm -> reconnect_run t1 fsm = Ok (RECONNECT_NONE, fsm)) /\
  (base + probe_interval fsm <= t1 ->
   exists fsm1, reconnect_run t1 fsm = Ok (RECONNECT_PROBE, fsm1) /\
     (forall t2, t1 <= t2 -> reconnect_run t2 fsm1 = Ok (if t1 + probe_interval fsm <=? t2 then RECONNECT_DISCONNECT else RECONNECT_NONE, fsm1)) /\
     forall t2 t3, t1 <= t2 -> t3 < t2 + probe_interval fsm ->
       reconnect_run t3 (reconnect_activity t2 fsm1) = Ok (RECONNECT_NONE, reconnect_activity t2 fsm1)).
Proof.
  intros Hr Hs Hp Hn base. pose proof (reach_inv _ _ Hr) as Hi. pose proof (ri_entered _ _ Hi) as He. pose proof (ri_activity _ _ Hi) as Ha.
  assert (reconnect_deadline__ fsm = Ok (base + probe_interval fsm)) as Hdl.
  { unfold reconnect_deadline__. rewrite entered_ok by lia. cbn [c_assert]. bind. rewrite Hs, (proj2 (Z.eqb_neq _ _)) by done. done. }
  unfold reconnect_run at 1 2. rewrite Hdl, Hs. split; [intros Hlt; bind; by rewrite (proj2 (Z.leb_gt _ _)) by lia|].
  intros Hle. eexists. split; [bind; by rewrite (proj2 (Z.leb_le _ _)) by lia|]. split.
  - intros t2 Ht. unfold reconnect_run, reconnect_deadline__. rewrite entered_ok by (cbn; lia). cbn [c_assert state state_entered probe_interval reconnect_transition__].
    repeat bind. rewrite (proj2 (Z.eqb_neq _ _)) by done. by destruct (_ <=? _).
  - intros t2 t3 Ht Ht3. set (f2 := reconnect_activity t2 _).
    assert (state f2 = S_ACTIVE /\ state_entered f2 = t2 /\ last_activity f2 = t2 /\ probe_interval f2 = probe_interval fsm) as (E1 & E2 & E3 & E4) by done.
    unfold reconnect_run, reconnect_deadline__. rewrite entered_ok by lia. cbn [c_assert]. bind. rewrite E1, E2, E3, E4.
    rewrite (proj2 (Z.eqb_neq _ _)) by done. bind. by rewrite (proj2 (Z.leb_gt _ _)) by lia.
Qed.

(** What the comments of [reconnect_enable], [reconnect_disable] and
    [reconnect_force_reconnect] promise about the next [reconnect_run]. *)
Theorem reconnect_promises fsm t now now' :
  reconnect_reach fsm t -> t <= now <= now' -> now' < MAX_TIME ->
  (state fsm = S_VOID -> max_tries fsm <> 0 -> fst <$> reconnect_run now' (reconnect_enable now fsm) = Ok RECONNECT_CONNECT) /\
  reconnect_run now' (reconnect_disable now fsm) = Ok (RECONNECT_NONE, reconnect_disable now fsm) /\
  (is_connected_state (state fsm) = true \/ state fsm = S_CONNECTING ->
   fst <$> reconnect_run now' (reconnect_force_reconnect now fsm) = Ok RECONNECT_DISCONNECT).
Proof.
  intros Hr Hn Hm. pose proof (reach_inv _ _ Hr) as Hi. pose proof (ri_entered _ _ Hi) as He. pose proof (ri_tries _ _ Hi) as Ht. unfold is_u32, is_u in Ht.
  unfold reconnect_run, reconnect_deadline__. split; [|split].
  - intros Hs H0. unfold reconnect_enable. rewrite Hs. cbn [bool_decide]. rewrite bool_decide_eq_true_2 by done. unfold reconnect_may_retry.
    rewrite (proj2 (Z.ltb_lt 0 _)) by lia. set (f := set_backoff 0 _). assert (state_entered f = now /\ state f = S_BACKOFF /\ backoff f = 0) as (E1 & E2 & E3) by done.
    rewrite (entered_ok f) by lia. cbn [c_assert]. bind. rewrite E1, E2, E3. bind. by rewrite (proj2 (Z.leb_le _ _)) by lia.
  - set (f := reconnect_disable now fsm). assert (state f = S_VOID /\ 0 <= state_entered f) as [E1 E2].
    { unfold f, reconnect_disable. case_bool_decide; (split; [done|cbn; lia]). }
    rewrite (entered_ok f E2). cbn [c_assert]. bind. rewrite E1. bind. unfold MAX_TIME, LLONG_MAX in *. by rewrite (proj2 (Z.leb_gt _ _)) by lia.
  - intros Hs. set (f := reconnect_force_reconnect now fsm). assert (state f = S_RECONNECT /\ state_entered f = now) as [E1 E2].
    { unfold f, reconnect_force_reconnect. destruct (state fsm), Hs; done. }
    rewrite (entered_ok f) by lia. cbn [c_assert]. bind. rewrite E1, E2. bind. by rewrite (proj2 (Z.leb_le _ _)) by lia.
Qed.

(** ** Witnesses *)

Definition wit_enabled : reconnect := reconnect_enable 100 (reconnect_create 100).
Definition wit_connected : reconnect := reconnect_connected 150 wit_enabled.

Lemma wit_enabled_reach : reconnect_reach wit_enabled 100.
Proof. apply (reach_call (reconnect_create 100) 100 100 CEnable RECONNECT_NONE); [by apply reach_create|done|done|done]. Qed.

Lemma wit_connected_reach : reconnect_reach wit_connected 150.
Proof. apply (reach_call wit_enabled 100 150 CConnected RECONNECT_NONE); [apply wit_enabled_reach|done|done|done]. Qed.

Lemma reconnect_invariant_witness : reconnect_inv wit_connected 150 /\ seqno wit_connected = 1.
Proof. split; [apply (reconnect_invariant wit_connected 150 wit_connected_reach)|reflexivity]. Defined.

Lemma reconnect_timeout_exact_witness :
  exists k, reconnect_timeout 1000 wit_connected = Ok k /\ reconnect_run 2000 wit_connected = Ok (RECONNECT_NONE, wit_connected) /\ k = 4150.
Proof.
  destruct (reconnect_timeout_exact wit_connected 150 1000 wit_connected_reach) as (k & E & _ & _ & H); [by unfold MAX_TIME|].
  assert (k = 4150) as Hk by (vm_compute in E; by injection E). exists k. split; [exact E|]. split; [|exact Hk]. apply H; [by unfold MAX_TIME|right; lia].
Defined.

Lemma backoff_exponential_witness :
  backoff (fail_at [1000; 2000; 4000] wit_enabled) = 4000 /\ backoff (fail_at [1000; 2000; 4000; 8000; 16000] wit_enabled) = 8000.
Proof.
  destruct (backoff_exponential wit_enabled 1000 [2000; 4000]) as [_ H1]; [reflexivity|reflexivity|reflexivity|by vm_compute|].
  destruct (backoff_exponential wit_enabled 1000 [2000; 4000; 8000; 16000]) as [_ H2]; [reflexivity|reflexivity|reflexivity|by vm_compute|].
  split; [exact H1|exact H2].
Defined.

Lemma reconnect_keepalive_witness :
  exists fsm1, reconnect_run 5150 wit_connected = Ok (RECONNECT_PROBE, fsm1) /\ reconnect_run 10150 fsm1 = Ok (RECONNECT_DISCONNECT, fsm1).
Proof.
  destruct (reconnect_keepalive wit_connected 150 5150 wit_connected_reach eq_refl) as [_ H]; [done|by unfold MAX_TIME|].
  destruct H as (fsm1 & E & H & _); [by vm_compute|]. exists fsm1. split; [exact E|]. apply (H 10150). lia.
Defined.

Lemma reconnect_promises_witness : fst <$> reconnect_run 200 (reconnect_enable 100 (reconnect_create 50)) = Ok RECONNECT_CONNECT.
Proof.
  apply (reconnect_promises (reconnect_create 50) 50 100 200); [by apply reach_create|lia|by unfold MAX_TIME|reflexivity|discriminate].
Defined.

(** ** Where it does something else *)

(** Asking for the default limits while backing off ends the wait at once: the
    wait is compared with the argument, 0, not with the limit that it stands for. *)
Example default_backoff_is_zero :
  let fsm := reconnect_connect_failed 100 wit_enabled in
  state fsm = S_BACKOFF /\ backoff fsm = 1000 /\ max_backoff (reconnect_set_backoff 0 0 fsm) = 8000 /\ backoff (reconnect_set_backoff 0 0 fsm) = 0.
Proof. vm_compute. by split_and!. Qed.

(** Activity that is reported while disabled enables and connects the machine,
    with a time of connection that is not set; the time connected that is counted
    when it is disabled again has nothing to do with it. *)
Example activity_while_disabled :
  let fsm := reconnect_activity 200 (reconnect_create 100) in
  reconnect_is_connected fsm = true /\ last_connected fsm = LLONG_MAX /\ total_connected_duration (reconnect_disable 300 fsm) = 301.
Proof. vm_compute. by split_and!. Qed.

(** A limit on the tries does not count the attempts that are made when the mode
    is switched: with one try, two attempts are asked for. *)
Example passive_escapes_tries :
  let fsm := reconnect_connecting 20 (reconnect_enable 10 (reconnect_set_max_tries 1 (reconnect_create 0))) in
  max_tries fsm = 0 /\ fst <$> reconnect_run 40 (reconnect_set_passive true 30 fsm) = Ok RECONNECT_CONNECT.
Proof. vm_compute. by split_and!. Qed.
