(* ===== verification/TokenBucket.v ===== *)
(** The token bucket that limits rates in the daemon ([lib/token-bucket.c],
    [lib/sat-math.h]). *)
From S2P Require Import Prelude.

(** ** Data and operations *)

Definition sat_add (x y : Z) : Z := if x <=? u32 (x + y) then u32 (x + y) else UINT_MAX.
Definition sat_mul (x y : Z) : Z := if y =? 0 then 0 else if x <=? UINT_MAX / y then u32 (x * y) else UINT_MAX.

Record token_bucket := TokenBucket { rate : Z; burst : Z; tokens : Z; last_fill : Z }.

Definition token_bucket_init (r b : Z) : token_bucket := TokenBucket r b 0 LLONG_MIN.

Definition token_bucket_set (r b : Z) (tb : token_bucket) : token_bucket :=
  TokenBucket r b (if tokens tb <? b then b else tokens tb) (last_fill tb).

(** The refill of [token_bucket_withdraw], at the time [now]. *)
Definition refill (now : Z) (tb : token_bucket) : token_bucket :=
  if last_fill tb <? now then
    let elapsed_ull := u64 (now - last_fill tb) in
    let elapsed := Z.min UINT_MAX elapsed_ull in
    let add := sat_mul (rate tb) elapsed in
    TokenBucket (rate tb) (burst tb) (Z.min (sat_add (tokens tb) add) (burst tb)) now
  else tb.

Definition token_bucket_withdraw (now n : Z) (tb : token_bucket) : bool * token_bucket :=
  let tb := if tokens tb <? n then refill now tb else tb in
  if tokens tb <? n then (false, tb)
  else (true, TokenBucket (rate tb) (burst tb) (tokens tb - n) (last_fill tb)).

(** [token_bucket_wait]: when to wake up, [None] for at once. *)
Definition token_bucket_wait (n : Z) (tb : token_bucket) : res (option Z) :=
  if n <=? tokens tb then Ok None
  else if rate tb =? 0 then Err DivByZero
  else Ok (Some (last_fill tb + (n - tokens tb) / rate tb + 1)).

(** ** Facts *)

Record tb_ok (tb : token_bucket) : Prop := {
  tb_rate : is_u32 (rate tb); tb_burst : is_u32 (burst tb); tb_tokens : is_u32 (tokens tb); tb_fill : LLONG_MIN <= last_fill tb <= LLONG_MAX
}.

Lemma sat_add_spec x y : is_u32 x -> is_u32 y -> sat_add x y = Z.min UINT_MAX (x + y).
Proof. unfold is_u32, is_u, sat_add, UINT_MAX, u32, wrap. intros Hx Hy. destruct (Z.leb_spec x ((x + y) mod 2 ^ 32)); zdiv. Qed.

Lemma sat_mul_spec x y : is_u32 x -> is_u32 y -> sat_mul x y = Z.min UINT_MAX (x * y).
Proof.
  unfold is_u32, is_u, sat_mul, UINT_MAX. intros Hx Hy. destruct (Z.eqb_spec y 0) as [->|Hne]; [lia|].
  pose proof (Z.div_mod (2 ^ 32 - 1) y ltac:(lia)). pose proof (Z.mod_pos_bound (2 ^ 32 - 1) y ltac:(lia)).
  destruct (Z.leb_spec x ((2 ^ 32 - 1) / y)); [|nia]. unfold u32. rewrite wrap_small by (unfold is_u; nia). nia.
Qed.

(** The refill adds what has come in, up to the limit. *)
Lemma refill_spec now tb :
  tb_ok tb -> now <= LLONG_MAX -> last_fill tb < now ->
  refill now tb = TokenBucket (rate tb) (burst tb) (Z.min (burst tb) (tokens tb + rate tb * Z.min UINT_MAX (now - last_fill tb))) now.
Proof.
  intros [H1 H2 H3 H4] Hn Hl. unfold refill. rewrite (proj2 (Z.ltb_lt _ _) Hl). unfold LLONG_MIN, LLONG_MAX in *.
  assert (u64 (now - last_fill tb) = now - last_fill tb) as -> by (apply wrap_small; unfold is_u; lia).
  set (e := Z.min UINT_MAX (now - last_fill tb)). assert (is_u32 e) as He by (unfold is_u32, is_u, e, UINT_MAX; lia). f_equal.
  rewrite sat_mul_spec by done. unfold is_u32, is_u, UINT_MAX in *. rewrite sat_add_spec by (unfold is_u32, is_u, UINT_MAX; nia). unfold UINT_MAX. lia.
Qed.

Lemma refill_ok now tb : tb_ok tb -> now <= LLONG_MAX -> tb_ok (refill now tb).
Proof.
  intros Htb Hn. destruct (Z.lt_ge_cases (last_fill tb) now) as [Hl|Hl]; [|unfold refill; by rewrite (proj2 (Z.ltb_ge _ _) Hl)].
  rewrite refill_spec by done. destruct Htb as [H1 H2 H3 H4]. split; cbn; try done; [|lia]. unfold is_u32, is_u, UINT_MAX in *. nia.
Qed.

Lemma withdraw_ok now n tb : tb_ok tb -> now <= LLONG_MAX -> 0 <= n -> tb_ok (token_bucket_withdraw now n tb).2.
Proof.
  intros Htb Hn Hn0. unfold token_bucket_withdraw. set (tb1 := if tokens tb <? n then _ else tb).
  assert (tb_ok tb1) as H1 by (unfold tb1; destruct (_ <? _); [by apply refill_ok|done]). destruct (Z.ltb_spec (tokens tb1) n); [done|].
  destruct H1 as [A B C D]. split; try done. cbn. unfold is_u32, is_u in *. lia.
Qed.

(** Withdrawals at given times: how many tokens are granted. *)
Fixpoint withdraw_all (l : list (Z * Z)) (tb : token_bucket) : Z * token_bucket :=
  match l with
  | [] => (0, tb)
  | (now, n) :: l =>
      let '(ok, tb) := token_bucket_withdraw now n tb in
      let '(total, tb) := withdraw_all l tb in
      ((if (ok : bool) then n else 0) + total, tb)
  end.

(** What can still be granted until [t1], when requests start at [t0]. *)
Definition credit (t0 t1 : Z) (tb : token_bucket) : Z :=
  tokens tb + (if last_fill tb <? t0 then burst tb else 0) + rate tb * Z.max 0 (t1 - Z.max t0 (last_fill tb)).

Lemma refill_credit t0 t1 now tb : tb_ok tb -> t0 <= now <= t1 -> t1 <= LLONG_MAX -> credit t0 t1 (refill now tb) <= credit t0 t1 tb.
Proof.
  intros Htb Hn Ht. destruct (Z.lt_ge_cases (last_fill tb) now) as [Hl|Hl]; [|unfold refill; by rewrite (proj2 (Z.ltb_ge _ _) Hl)].
  rewrite refill_spec by (done || lia). destruct Htb as [H1 H2 H3 H4]. unfold credit, is_u32, is_u in *. cbn.
  rewrite (proj2 (Z.ltb_ge now t0)) by lia. replace (Z.max 0 (t1 - Z.max t0 now)) with (t1 - now) by lia. unfold UINT_MAX.
  destruct (Z.ltb_spec (last_fill tb) t0); [replace (Z.max 0 (t1 - Z.max t0 (last_fill tb))) with (t1 - t0) by lia|replace (Z.max 0 (t1 - Z.max t0 (last_fill tb))) with (t1 - last_fill tb) by lia]; nia.
Qed.

Lemma withdraw_credit t0 t1 now n tb :
  tb_ok tb -> t0 <= now <= t1 -> t1 <= LLONG_MAX ->
  (if fst (token_bucket_withdraw now n tb) then n else 0) + credit t0 t1 (token_bucket_withdraw now n tb).2 <= credit t0 t1 tb.
Proof.
  intros Htb Hn Ht. unfold token_bucket_withdraw. set (tb1 := if tokens tb <? n then _ else tb).
  assert (credit t0 t1 tb1 <= credit t0 t1 tb) as H1 by (unfold tb1; destruct (_ <? _); [by apply refill_credit|lia]).
  destruct (tokens tb1 <? n); cbn [fst snd]; [lia|]. unfold credit in *. cbn in *. lia.
Qed.

Lemma withdraw_all_credit t0 t1 l : forall tb,
  tb_ok tb -> t1 <= LLONG_MAX -> Forall (fun x => t0 <= x.1 <= t1 /\ 0 <= x.2) l ->
  fst (withdraw_all l tb) + credit t0 t1 (withdraw_all l tb).2 <= credit t0 t1 tb /\ tb_ok (withdraw_all l tb).2.
Proof.
  induction l as [|[now n] l IH]; intros tb Htb Ht Hl; cbn [withdraw_all]; [cbn; split; [lia|done]|].
  apply list.Forall_cons in Hl as [[Hn Hn0] Hl]. cbn in Hn, Hn0. pose proof (withdraw_credit t0 t1 now n tb Htb Hn Ht) as Hc.
  pose proof (withdraw_ok now n tb Htb ltac:(lia) Hn0) as Hok. destruct (token_bucket_withdraw now n tb) as [ok tb1]. cbn [fst snd] in *.
  destruct (IH tb1 Hok Ht Hl) as [IH1 IH2]. destruct (withdraw_all l tb1) as [total tb2]. cbn [fst snd] in *. split; [lia|done].
Qed.

(** ** Properties *)

(** C30: The rate is limited: requests between two times get no more than what is in
    the bucket, what comes in during that time, and once more the size of the
    bucket for what had come in before. *)
Theorem token_bucket_limits tb t0 t1 l :
  tb_ok tb -> t0 <= t1 <= LLONG_MAX -> Forall (fun x => t0 <= x.1 <= t1 /\ 0 <= x.2) l ->
  fst (withdraw_all l tb) <= tokens tb + burst tb + rate tb * (t1 - t0).
Proof.
  intros Htb Ht Hl. destruct (withdraw_all_credit t0 t1 l tb Htb ltac:(lia) Hl) as [Hc Hok].
  assert (0 <= credit t0 t1 (withdraw_all l tb).2) as Hpos.
  { destruct Hok as [H1 H2 H3 H4]. unfold credit, is_u32, is_u in *.
    match goal with |- context [?r * ?x] => pose proof (Z.mul_nonneg_nonneg r x ltac:(lia) ltac:(lia)) end. destruct (_ <? _); lia. }
  assert (credit t0 t1 tb <= tokens tb + burst tb + rate tb * (t1 - t0)); [|lia].
  destruct Htb as [H1 H2 H3 H4]. unfold credit, is_u32, is_u in *.
  pose proof (Z.mul_le_mono_nonneg_l (Z.max 0 (t1 - Z.max t0 (last_fill tb))) (t1 - t0) (rate tb) ltac:(lia) ltac:(lia)). destruct (last_fill tb <? t0); lia.
Qed.

(** The time that [token_bucket_wait] waits for is not too early: at that time, or
    later, the tokens are there, if the bucket can hold so many. *)
Theorem token_bucket_wait_enough tb n now :
  tb_ok tb -> rate tb <> 0 -> 0 <= n <= burst tb -> now <= LLONG_MAX ->
  exists o, token_bucket_wait n tb = Ok o /\
    (match o with None => True | Some t => t <= now end -> fst (token_bucket_withdraw now n tb) = true).
Proof.
  intros Htb Hr Hn Hnow. unfold token_bucket_wait, token_bucket_withdraw. destruct (Z.leb_spec n (tokens tb)) as [Hle|Hlt].
  - exists None. split; [done|]. intros _. rewrite (proj2 (Z.ltb_ge (tokens tb) n)) by lia. by rewrite (proj2 (Z.ltb_ge (tokens tb) n)) by lia.
  - rewrite (proj2 (Z.eqb_neq _ _) Hr). eexists. split; [done|]. intros Ht. rewrite (proj2 (Z.ltb_lt (tokens tb) n)) by lia.
    pose proof Htb as [H1 H2 H3 H4]. unfold is_u32, is_u in *. pose proof (Z.div_mod (n - tokens tb) (rate tb) Hr).
    pose proof (Z.mod_pos_bound (n - tokens tb) (rate tb) ltac:(lia)). pose proof (Z.div_pos (n - tokens tb) (rate tb) ltac:(lia) ltac:(lia)).
    rewrite refill_spec by (done || lia). cbn [tokens]. rewrite (proj2 (Z.ltb_ge _ n)); [done|].
    apply Z.min_glb; [lia|]. unfold UINT_MAX. set (q := (n - tokens tb) / rate tb) in *.
    destruct (Z.min_spec (2 ^ 32 - 1) (now - last_fill tb)) as [[_ ->]|[_ ->]]; nia.
Qed.

(** ** Witnesses *)

Definition wit_bucket : token_bucket := TokenBucket 1 10 10 0.

Lemma wit_bucket_ok : tb_ok wit_bucket.
Proof. by split. Qed.

Lemma token_bucket_limits_witness : fst (withdraw_all [(1000, 5); (1000, 5); (1000, 10); (1003, 4)] wit_bucket) <= 10 + 10 + 1 * (1003 - 1000).
Proof.
  apply (token_bucket_limits wit_bucket 1000 1003); [apply wit_bucket_ok|split; [lia|by unfold LLONG_MAX]|].
  repeat (apply list.Forall_cons; split; [cbn; lia|]). by apply list.Forall_nil.
Defined.

Lemma token_bucket_wait_enough_witness :
  token_bucket_wait 7 (TokenBucket 2 10 0 100) = Ok (Some 104) /\ fst (token_bucket_withdraw 104 7 (TokenBucket 2 10 0 100)) = true.
Proof.
  split; [reflexivity|]. destruct (token_bucket_wait_enough (TokenBucket 2 10 0 100) 7 104) as (o & E & H);
    [by split|discriminate|cbn; lia|by unfold LLONG_MAX|]. apply H. vm_compute in E. injection E as <-. lia.
Defined.

(** ** Where it does something else *)

(** A bucket of 10 tokens grants 20 at one time: tokens that came in while it was
    full are added when it runs empty. *)
Example twice_the_burst : fst (withdraw_all [(1000, 5); (1000, 5); (1000, 10)] wit_bucket) = 20.
Proof. vm_compute. reflexivity. Qed.

(** A smaller limit does not take tokens away. *)
Example set_keeps_tokens : tokens (token_bucket_set 1 3 wit_bucket) = 10 /\ burst (token_bucket_set 1 3 wit_bucket) = 3.
Proof. vm_compute. by split. Qed.

(** A new bucket with rate 0 is empty and stays empty, and waiting for it divides by zero. *)
Example rate_zero_is_empty :
  fst (token_bucket_withdraw 1000 1 (token_bucket_init 0 10)) = false /\ token_bucket_wait 1 (token_bucket_init 0 10) = Err DivByZero.
Proof. vm_compute. by split. Qed.
